(* ===== verification/_CoqProject ===== *)
-Q . S2P
Prelude.v
JsInt.v
Field25519.v
Curve25519.v
JsString.v
JsValue.v
JsObject.v
StreamSchemas.v
XraySettings.v
BalancerLoopback.v
TableRows.v
StreamWire.v
Utf8.v
Base64.v
RandomUtil.v
ObjectUtil.v
Formatters.v
TrafficDisplay.v
Json.v
JsonPretty.v
XrayEditor.v
QueryBridge.v
OutboundTests.v
WebSocketClient.v
Uri.v
Cookies.v
HttpClient.v
Url.v
LinkParser.v
SettingsDraft.v
TrafficMultiplier.v
ClientForm.v
OutboundForm.v
RoutingBasics.v
StreamForm.v
GeoTokens.v
RuleForm.v
DnsEditor.v
OutboundAdapters.v
OutboundResave.v
OutboundDefaults.v
Headers.v
ProtocolCapabilities.v
OutboundTab.v
InboundForm.v
InboundResave.v
InboundList.v
InboundClone.v
InboundFallbacks.v
ClientList.v
ShareParams.v
InboundLink.v
ShareHost.v
HostLinks.v
WireguardConfig.v
AwgConfigLines.v
ClientConfig.v
LinkFanout.v
InboundTag.v
LinkText.v
StreamImport.v
LinkRoundTrip.v
HysteriaRoundTrip.v
VmessRoundTrip.v
AwgObfuscation.v
InboundDefaults.v
InboundModal.v
InboundStream.v
PanelVersion.v
JsNumber.v
HostForm.v
LogParse.v
SubPage.v
OverviewHistory.v
LinkLabel.v
PanelHelpers.v
