(* ===== verification/Prelude.v ===== *)
(** * The 3x-ui panel frontend: a verification library

    3x-ui is a web panel for the Xray proxy server.  Its frontend (src/frontend/src, TypeScript)
    edits the Xray configuration, generates and imports share links, keeps a WebSocket to the
    server and talks HTTP to it.  The React pages are thin; the logic lives in modules of pure or
    explicitly stateful functions, and those are what this library models and proves correct.

    ** Conventions of the model

    - Strings are the UTF-8 bytes of the source's strings ([String.string]).  Lengths that the
      source counts in UTF-16 units are only taken of texts that are ASCII there, or are counted
      as such where it matters; case mapping, white space and digits are the ASCII ones.  Where a
      theorem needs well-formed text it says so ([utf8_valid]).
    - Numbers read from JSON are exact decimals ([num] in JsValue.v).  Where the source computes
      with doubles beyond exact integers, rounding is written out ([round53] in JsInt.v,
      [double_of] in LinkParser.v); 32-bit operators are [js_and], [js_shr], ... in JsInt.v.
    - A dynamic value is [jsval]; an object is an association list in insertion order ([obj]),
      read and written with [obj_get], [obj_set], [obj_del] ([get], [set], [del] on values).
    - An exception is [None] of the function that raises it; state is passed explicitly; the
      WebSocket client is a state machine with a step function and a reachability relation.
    - Random bytes, the network, the clock and SHA-256 are arguments.  Platform functions the
      source calls are written out from their specifications: btoa and atob (Base64.v),
      TextEncoder and TextDecoder (Utf8.v), JSON (Json.v), percent-encoding and URLSearchParams
      (Uri.v), the URL class for non-special schemes (Url.v), the cookie jar (Cookies.v).
    - Fuel: the walk along balancer fallbacks gets two steps more than there are balancers, which
      [detectBalancerCycles_correct] shows is enough; the JSON reader gets twice the length of the
      text, which [JSON_parse_stringify] shows is enough for everything JSON prints; the inner
      loop of the base32 encoder runs at most three times and gets three; the renders that follow
      an event of the inbound modal are at most four ([modal_settles]); the replacement of template
      variables gets the length of the text ([preview_pieces]).

    ** Files

    Foundations: Prelude.v (this file: tactics and hint databases), JsInt.v (doubles, 32-bit
    operators), JsString.v, JsValue.v, JsObject.v (strings, values and objects of the language),
    Utf8.v, Json.v, JsonPretty.v (the indented form is read back), Uri.v, Url.v, JsNumber.v (order and
    sum of numbers).  StreamSchemas.v: the schemas of src/frontend/src/schemas for transports, TLS, REALITY,
    socket options and sniffing as parsers; the data a schema gives is accepted as it is.

    Keys and encodings, src/frontend/src/utils/index.ts:
    - Field25519.v, Curve25519.v: class Wireguard.  The 16-limb field arithmetic on doubles never
      rounds and computes in GF(2^255 - 19); generatePublicKey refines X25519 of RFC 7748.
    - Base64.v: class Base64 and the key encoding; encode and decode are inverse, the branch-free
      key encoder is standard base64, a generated key pair is consistent.
    - RandomUtil.v, ObjectUtil.v, Formatters.v, Cookies.v: the other utility classes.

    Xray configuration, src/frontend/src/pages/xray:
    - XraySettings.v: balancers/balancer-helpers.ts and reference-cleanup.ts.  Deleting an
      outbound or a balancer leaves no dangling reference, the preview of a deletion announces
      exactly what the deletion does, observers are present exactly when a strategy needs them.
    - BalancerLoopback.v: balancers/balancer-loopback.ts.  Loopback pairs between balancers:
      installing, removing orphans, renaming; cycle detection terminates and is exact.
    - RoutingBasics.v: basics/helpers.ts and the handlers of OutboundsTab.tsx and XrayPage.tsx that use
      it.  Renaming an outbound follows every reference; a list set by the basic controls is the
      list they show; the strategy of the direct outbound.
    - TableRows.v: the tables of rules and outbounds, which hide generated rows: their handlers
      refine those of a table that hides nothing.
    - OutboundTab.v: outbounds/outbounds-tab-helpers.ts and outbound-form-helpers.ts; a change of the
      transport keeps the security settings the new transport supports.
    - RuleForm.v: routing/RuleFormModal.tsx, routing/helpers.ts, the rows, options, export and import
      of routing/RoutingTab.tsx and the schema of a rule; what is confirmed of a rule that was opened.
    - DnsEditor.v: the pages/xray/dns folder as a transition system; the host rows and the template
      agree after every handler and after every template that arrives from outside.
    - StreamWire.v: lib/xray/stream-wire-normalize.ts and the REALITY validators; what reaches the
      server is within its rules, and normalising is idempotent.
    - GeoTokens.v: lib/xray/geoTokens.ts; Headers.v: lib/xray/headers.ts;
      ProtocolCapabilities.v: lib/xray/protocol-capabilities.ts;
      InboundTag.v: lib/xray/inbound-tag.ts; PanelVersion.v: lib/panel-version.ts.

    Editors, src/frontend/src/lib/xray and src/frontend/src/hooks:
    - OutboundForm.v, StreamForm.v, OutboundAdapters.v, OutboundResave.v: outbound-form-adapter.ts,
      protocol by protocol.  An outbound that was saved, reopened and saved again without an edit is
      the same wire object; building the payload twice gives the same payload; opening raises
      exactly on the values named in the error theorem.
    - InboundForm.v, InboundResave.v: inbound-form-adapter.ts, both directions.  The editor raises
      exactly on a certificate that is a primitive, and opens with typed values otherwise; the payload
      posts what the form holds, and a row that holds what was posted posts the same again.
    - OutboundDefaults.v, InboundDefaults.v: outbound-defaults.ts, inbound-defaults.ts,
      inbound-tls-defaults.ts, stream-defaults.ts, inbound-from-db.ts; the values new inbounds and
      outbounds start from, and stored streams with the defaults of their schemas filled in, which the
      schemas then accept and which keep everything else.
    - InboundModal.v, InboundStream.v: the effects and handlers of pages/inbounds/form/InboundFormModal.tsx
      (and onSecurityChange of useSecurityActions.ts).  A render/effect step system with dependency
      lists; it settles, and the tag, share address and multiplier are then in step with the rest.  The
      pickers of protocol, network and security, with the key pair that arrives later, keep the parts of
      the stream in step with what is shown.
    - ClientForm.v: pages/clients/ClientFormModal.tsx; seeding, effects, checks and payload.
    - HostForm.v: pages/hosts; an override is reopened with exactly the values that were set, the list
      is reordered by exchanging neighbours.
    - SettingsDraft.v: models/setting.ts and hooks/useServerDraft.ts as a transition system; a fetched
      value never overwrites an edited draft.
    - InboundClone.v: lib/xray/inbound-clone.ts; the port of a clone is free whenever one is.
    - InboundFallbacks.v: pages/inbounds/form/useInboundFallbacks.ts as a step system; keys of rows
      are distinct, saved rows are loaded in their order.
    - TrafficMultiplier.v: lib/xray/traffic-multiplier.ts; basis points and decimals are inverse up to the
      largest safe integer.
    - XrayEditor.v: the editing state of useXraySetting.ts (text and template of one configuration,
      saves in flight, adoption of fetched configurations) as a step system: the two views agree in
      every reachable state; fetches, saves and their replies leave unsaved edits as they are, only
      edits and the reset to the defaults write them.
    - OutboundTests.v: the scheduler of the connection tests of useXraySetting.ts.  A run is a step
      system whose steps are the replies of the server in any order; bounds on what is in flight,
      termination after as many replies as there are outbounds, each probed exactly once.
    - AwgObfuscation.v: amneziawg-obfuscation.ts; generated parameters pass the validation of the
      backend (internal/amneziawg, whose rules are written out as the specification).

    Lists, src/frontend/src/pages/inbounds/useInbounds.ts and src/frontend/src/hooks/useClients.ts:
    - TrafficDisplay.v: lib/clients/traffic-display.ts; the directions add up to what is charged.
    - InboundList.v: the rows, speeds and online sets of the inbounds page and the events merged
      into them; the rollup of clients is a partition, the two polls commute, a repeated event
      changes nothing.
    - ClientList.v: the query, rows and speeds of the clients page; a new request is made exactly
      when the request differs; the payload of the enable switch.

    Displays:
    - SubPage.v: pages/sub/subPageModel.ts and the state of SubPage.tsx as a timed step system; once
      the next deadline or reset of the snapshot has passed, a new one is requested.  The links to
      applications, and when building them raises.
    - OverviewHistory.v: models/status.ts, schemas/status.ts and pages/index/useOverviewHistory.ts; the
      history refines an unbounded log of which it is the end.
    - LogParse.v: pages/index/logParse.ts; LinkLabel.v: lib/xray/link-label.tsx, composed with the
      generators of links; PanelHelpers.v: remark variables, logs of addresses, filters and labels.

    Connection to the server, src/frontend/src/api:
    - WebSocketClient.v: websocket.ts.  Invariant of the client over every sequence of events, no
      activity after disconnect, a lost connection schedules a reconnect within bounds.
    - HttpClient.v: http-init.ts and HttpUtil.  Which requests carry a CSRF token, one retry
      after a 403 with exactly the token handed out, one session-expiry notice; query strings survive.
    - QueryBridge.v: websocketBridge.ts and invalidationTracker.ts, as a timed step system: a burst of
      invalidations ends in that of its last message.

    Share links, src/frontend/src/lib/xray:
    - LinkParser.v: outbound-link-parser.ts, all parsers and the dispatcher.  Every imported
      stream is within the ranges the server accepts; Shadowsocks links are read back.
    - ShareParams.v, InboundLink.v, LinkFanout.v: inbound-link.ts (with spider-x.ts and
      parseGeckoPacketSize of FinalMaskForm.tsx): query parameters, per-protocol generators,
      dispatcher and fan-out over clients, external proxies and peers.
    - ShareHost.v: the host selection of inbound-link.ts; what is advertised under each strategy, and
      that listen addresses no client can reach never are.
    - HostLinks.v: lib/hosts/host-link.ts; an advertised host and port are read back.
    - LinkText.v, StreamImport.v, LinkRoundTrip.v, HysteriaRoundTrip.v, VmessRoundTrip.v: the
      composition of generators and importer.  LinkText.v: the text of a generated link.  StreamImport.v: the
      predicate [carries] (what the parameters of a link say about a stream) is the interface
      between the two sides; the generators establish it, the importer turns it into
      [imported_stream].  The theorems: a VLESS, Trojan or Hysteria link generated for a client
      and imported again gives the same endpoint and credentials and of the stream what such a link
      carries; what it does not carry (headers of WebSocket and HTTPUpgrade, xmux and others) is listed at
      each theorem, for VMess also mKCP numbers, XHTTP headers, masks and REALITY.
    - WireguardConfig.v, AwgConfigLines.v: the WireGuard and AmneziaWG links and configuration
      files of inbound-link.ts; a vpn:// link decodes to its configuration; no text the
      generator examines can inject a line (others can: [allowed_ips_inject]).
    - ClientConfig.v: lib/inbounds/label.ts and pages/clients/{wireguard,amneziawg,tuic}Config.ts;
      the clients page and the share link emit the same AmneziaWG configuration.

    ** Not modelled

    React rendering: the mark-up of pages, components and layouts, and the part of the hooks that
    only forwards arguments to the HTTP client or to the query library; the query cache itself (its
    entries are state of the models that write them); zod validation, except for the schemas of
    streams (StreamSchemas.v), rules, DNS servers, clients and the status, which are written out
    (elsewhere, as for the settings of a protocol and the clients of an inbound, records keep the
    fields the modelled code reads, and a parser the code calls is an argument); generated schemas
    and translations; clipboard, file download and Intl formatting of the browser; the Go backend
    (cited where the frontend relies on it) and the documentation site.  Of streams, those without a
    network (transportless inbounds, which have no share link) are not represented.

    Left for later: the certificate and scan requests of useSecurityActions.ts, the table and bulk
    actions of ClientsPage.tsx, the WARP, Nord and PIA modals, and the inbound info modal, whose texts are
    those of the link generators modelled here. *)
From stdpp Require Export base list strings option.
From Stdlib Require Export ZArith Lia.

(** ** Automation *)

(** Splits every conjunction and existential of the context and substitutes. *)
Ltac destr_hyps :=
  repeat match goal with
         | H : _ /\ _ |- _ => destruct H
         | H : exists _, _ |- _ => destruct H
         end; subst.

(** Case analysis on the innermost [match]/[if] of the goal, keeping the equation. *)
Ltac case_goal :=
  match goal with
  | |- context [match ?x with _ => _ end] =>
      lazymatch x with
      | context [match _ with _ => _ end] => fail
      | _ => destruct x eqn:?
      end
  end.

(** The same on a hypothesis. *)
Ltac case_hyp H :=
  match type of H with
  | context [match ?x with _ => _ end] =>
      lazymatch x with
      | context [match _ with _ => _ end] => fail
      | _ => destruct x eqn:?
      end
  end.

Create HintDb js.
Create Rewrite HintDb js.

(** Concatenation computes on constructors. *)
#[global] Arguments String.append : simpl nomatch.
