(* ===== verification/JsInt.v ===== *)
(** * JavaScript numbers that hold integers

    The code of [Wireguard] (src/frontend/src/utils/index.ts) computes with
    [Float64Array] cells that always hold integers, and mixes double arithmetic
    ([+], [-], [*], [Math.floor(x / 65536)]) with the 32-bit bit operators.
    - [round53] is IEEE-754 round-to-nearest-even of an integer to 53 bits of
      significand: what a double addition or multiplication of two integers
      returns (no overflow to infinity: the magnitudes stay far below [2^1024]).
    - [to_int32] is ECMAScript's ToInt32, applied by [& | ^ ~ << >>] to their
      operands; [to_uint8] is the store conversion of a [Uint8Array]. *)
From Stdlib Require Import ZArith List Lia.
Import ListNotations.
Local Open Scope Z_scope.

(** ** Doubles holding integers *)

Definition round53 (z : Z) : Z :=
  let k := Z.log2 (Z.abs z) - 52 in
  if k <=? 0 then z
  else
    let q := 2 ^ k in
    let lo := z / q in
    let r := z mod q in
    let half := q / 2 in
    if r <? half then lo * q
    else if half <? r then (lo + 1) * q
    else if Z.even lo then lo * q else (lo + 1) * q.

Definition fadd (a b : Z) : Z := round53 (a + b).
Definition fsub (a b : Z) : Z := round53 (a - b).
Definition fmul (a b : Z) : Z := round53 (a * b).
(** [Math.floor(x / 65536)]: dividing a double by a power of two is exact. *)
Definition floor_div_65536 (x : Z) : Z := x / 65536.

(** ** 32-bit operators *)

Definition to_int32 (z : Z) : Z := (z + 2 ^ 31) mod 2 ^ 32 - 2 ^ 31.
Definition to_uint32 (z : Z) : Z := z mod 2 ^ 32.
Definition to_uint8 (z : Z) : Z := z mod 256.

Definition js_and (a b : Z) : Z := Z.land (to_int32 a) (to_int32 b).
Definition js_or (a b : Z) : Z := Z.lor (to_int32 a) (to_int32 b).
Definition js_xor (a b : Z) : Z := Z.lxor (to_int32 a) (to_int32 b).
Definition js_not (a : Z) : Z := Z.lnot (to_int32 a).
Definition js_shl (a n : Z) : Z := to_int32 (Z.shiftl (to_int32 a) (n mod 32)).
Definition js_shr (a n : Z) : Z := Z.shiftr (to_int32 a) (n mod 32).
Definition js_ushr (a n : Z) : Z := Z.shiftr (to_uint32 a) (n mod 32).

(** ** Exactness *)

Definition exact53 (z : Z) : Prop := Z.abs z <= 2 ^ 53.
Definition is_int32 (z : Z) : Prop := - 2 ^ 31 <= z < 2 ^ 31.

Lemma round53_exact z : exact53 z -> round53 z = z.
Proof.
  unfold exact53, round53. intros H.
  destruct (Z.leb_spec (Z.log2 (Z.abs z) - 52) 0) as [Hk|Hk]; [reflexivity|].
  assert (Hlog : Z.log2 (Z.abs z) <= 53).
  { change 53 with (Z.log2 (2 ^ 53)). apply Z.log2_le_mono; lia. }
  assert (He : Z.log2 (Z.abs z) = 53) by lia.
  assert (Habs : Z.abs z = 2 ^ 53).
  { assert (0 < Z.abs z) by (destruct (Z.eq_dec (Z.abs z) 0) as [E|]; [rewrite E in He; discriminate|lia]).
    pose proof (Z.log2_spec (Z.abs z) ltac:(lia)). rewrite He in *. lia. }
  rewrite He. change (53 - 52) with 1. change (2 ^ 1) with 2. change (2 / 2) with 1.
  assert (Hm : z mod 2 = 0).
  { rewrite Zmod_even. destruct (Z.abs_eq_or_opp z) as [E|E]; rewrite E in Habs.
    - rewrite Habs. reflexivity.
    - replace z with (- 2 ^ 53) by lia. reflexivity. }
  rewrite Hm. cbn [Z.ltb Z.compare]. pose proof (Z.div_mod z 2 ltac:(lia)). lia.
Qed.

Lemma fadd_exact a b : exact53 (a + b) -> fadd a b = a + b.
Proof. apply round53_exact. Qed.

Lemma fsub_exact a b : exact53 (a - b) -> fsub a b = a - b.
Proof. apply round53_exact. Qed.

Lemma fmul_exact a b : exact53 (a * b) -> fmul a b = a * b.
Proof. apply round53_exact. Qed.

Lemma to_int32_id z : is_int32 z -> to_int32 z = z.
Proof. unfold is_int32, to_int32. intros H. rewrite Z.mod_small; lia. Qed.

Lemma to_int32_range z : is_int32 (to_int32 z).
Proof. unfold is_int32, to_int32. pose proof (Z.mod_pos_bound (z + 2 ^ 31) (2 ^ 32)). lia. Qed.

(** ToInt32 only adds a multiple of [2^32]. *)
Lemma to_int32_mod z n : 0 <= n <= 32 -> to_int32 z mod 2 ^ n = z mod 2 ^ n.
Proof.
  intros Hn. unfold to_int32.
  replace ((z + 2 ^ 31) mod 2 ^ 32 - 2 ^ 31)
    with (z + (- ((z + 2 ^ 31) / 2 ^ 32) * 2 ^ (32 - n)) * 2 ^ n).
  - apply Z_mod_plus_full.
  - rewrite <- Z.mul_assoc, <- Z.pow_add_r by lia.
    replace (32 - n + n) with 32 by lia.
    pose proof (Z.div_mod (z + 2 ^ 31) (2 ^ 32) ltac:(lia)). lia.
Qed.

Lemma js_and_ones z n :
  0 <= n <= 30 -> js_and z (Z.ones n) = z mod 2 ^ n.
Proof.
  intros Hn. unfold js_and.
  assert (Z.ones n = 2 ^ n - 1) as E by (rewrite Z.ones_equiv; lia).
  assert (0 < 2 ^ n <= 2 ^ 30) by (split; [apply Z.pow_pos_nonneg|apply Z.pow_le_mono_r]; lia).
  rewrite (to_int32_id (Z.ones n)) by (unfold is_int32; lia).
  rewrite Z.land_ones by lia. apply to_int32_mod. lia.
Qed.

Lemma js_and_ffff z : js_and z 0xffff = z mod 65536.
Proof. exact (js_and_ones z 16 ltac:(lia)). Qed.

Lemma js_and_ff z : js_and z 0xff = z mod 256.
Proof. exact (js_and_ones z 8 ltac:(lia)). Qed.

Lemma js_and_1 z : js_and z 1 = z mod 2.
Proof. exact (js_and_ones z 1 ltac:(lia)). Qed.

Lemma js_and_7 z : js_and z 7 = z mod 8.
Proof. exact (js_and_ones z 3 ltac:(lia)). Qed.

Lemma js_or_0 z : is_int32 z -> js_or z 0 = z.
Proof. intros H. unfold js_or. rewrite to_int32_id by assumption. apply Z.lor_0_r. Qed.

Lemma js_shr_int32 z n : is_int32 z -> 0 <= n < 32 -> js_shr z n = z / 2 ^ n.
Proof.
  intros Hz Hn. unfold js_shr. rewrite to_int32_id, Z.mod_small by assumption.
  apply Z.shiftr_div_pow2. lia.
Qed.

(** The borrow test of [Wireguard.pack]: for [-65536 <= z < 65536],
    [(z >> 16) & 1] is 1 exactly when [z] is negative. *)
Lemma borrow_bit z :
  -65536 <= z < 65536 -> js_and (js_shr z 16) 1 = (if z <? 0 then 1 else 0).
Proof.
  intros H. rewrite js_shr_int32 by (unfold is_int32; lia). rewrite js_and_1.
  change (2 ^ 16) with 65536. destruct (Z.ltb_spec z 0).
  - replace (z / 65536) with (-1); [reflexivity|].
    apply Z.div_unique with (r := z + 65536); lia.
  - rewrite Z.div_small by lia. reflexivity.
Qed.

Lemma lxor_int32 a b : is_int32 a -> is_int32 b -> is_int32 (Z.lxor a b).
Proof.
  unfold is_int32. intros Ha Hb.
  assert (T : forall z, -2 ^ 31 <= z < 2 ^ 31 <-> Z.shiftr z 31 = 0 \/ Z.shiftr z 31 = -1).
  { intros z. rewrite Z.shiftr_div_pow2 by lia.
    pose proof (Z.div_mod z (2 ^ 31) ltac:(lia)).
    pose proof (Z.mod_pos_bound z (2 ^ 31) ltac:(lia)). split; intros; lia. }
  rewrite T in *. rewrite Z.shiftr_lxor.
  destruct Ha as [-> | ->], Hb as [-> | ->]; cbn; lia.
Qed.

(** Exhaustive check of a property of bytes. *)
Lemma byte_cases (P : Z -> bool) :
  forallb P (map Z.of_nat (seq 0 256)) = true -> forall b, 0 <= b < 256 -> P b = true.
Proof.
  intros H b Hb. rewrite forallb_forall in H. apply H.
  apply in_map_iff. exists (Z.to_nat b). split; [lia|]. apply in_seq. lia.
Qed.
