(* ===== verification/Field25519.v ===== *)
(** * Field arithmetic of [Wireguard] (src/frontend/src/utils/index.ts)

    A field element modulo [p = 2^255 - 19] is a [Float64Array(16)] of limbs in
    base [2^16], here a [list Z].  A typed-array store out of range is ignored
    ([upd]); a double operation rounds to 53 bits ([fadd], [fmul] of JsInt), so
    that the correctness theorems include that no operation ever rounds.

    Definitions: [gf], [carry], [cswap], [add], [subtract], [multmod], [invert],
    [pack], [clamp].  Theorems: [carry] renormalises without changing the value
    modulo [p]; [multmod] is multiplication modulo [p]; [invert] is the
    [p - 2]-th power; [pack] writes the canonical little-endian encoding. *)
From Stdlib Require Import ZArith List Lia.
From S2P Require Import JsInt.
Import ListNotations.
Local Open Scope bool_scope.
Local Open Scope Z_scope.

(** ** Typed arrays *)

Definition get (o : list Z) (i : nat) : Z := nth i o 0.

Fixpoint upd (i : nat) (v : Z) (o : list Z) : list Z :=
  match o, i with
  | [], _ => []
  | _ :: t, O => v :: t
  | x :: t, S i => x :: upd i v t
  end.

(** ** The operations of the class *)

Definition gf (init : list Z) : list Z :=
  fold_left (fun r i => upd i (get init i) r) (seq 0 (length init)) (repeat 0 16).

Definition carry_step (o : list Z) (i : nat) : list Z :=
  let j := Nat.modulo (i + 1) 16 in
  let o := upd j (fadd (get o j) (fmul (if Nat.ltb i 15 then 1 else 38) (floor_div_65536 (get o i)))) o in
  upd i (js_and (get o i) 0xffff) o.

Definition carry (o : list Z) : list Z := fold_left carry_step (seq 0 16) o.

Definition cswap_step (c : Z) (pq : list Z * list Z) (i : nat) : list Z * list Z :=
  let (p, q) := pq in
  let t := js_and c (js_xor (get p i) (get q i)) in
  (upd i (js_xor (get p i) t) p, upd i (js_xor (get q i) t) q).

Definition cswap (p q : list Z) (b : Z) : list Z * list Z :=
  fold_left (cswap_step (js_not (b - 1))) (seq 0 16) (p, q).

(** [add(o, a, b)] and [subtract(o, a, b)] are called with [o] aliasing [a]; cell
    [i] of the operands is read before cell [i] of [o] is written, so the
    operands may be passed by value. *)
Definition add (o a b : list Z) : list Z :=
  fold_left (fun o i => upd i (js_or (fadd (get a i) (get b i)) 0) o) (seq 0 16) o.

Definition subtract (o a b : list Z) : list Z :=
  fold_left (fun o i => upd i (js_or (fsub (get a i) (get b i)) 0) o) (seq 0 16) o.

Definition multmod (o a b : list Z) : list Z :=
  let t := repeat 0 31 in
  let t := fold_left (fun t i =>
             fold_left (fun t j => upd (i + j) (fadd (get t (i + j)) (fmul (get a i) (get b j))) t)
               (seq 0 16) t) (seq 0 16) t in
  let t := fold_left (fun t i => upd i (fadd (get t i) (fmul 38 (get t (i + 16)))) t) (seq 0 15) t in
  let o := fold_left (fun o i => upd i (get t i) o) (seq 0 16) o in
  carry (carry o).

(** [for (let a = 253; a >= 0; --a)] *)
Definition downto (n : nat) : list nat := rev (seq 0 (S n)).

Definition invert (o i : list Z) : list Z :=
  let c := fold_left (fun c a => upd a (get i a) c) (seq 0 16) (gf []) in
  let c := fold_left (fun c a =>
             let c := multmod c c c in
             if negb (Nat.eqb a 2) && negb (Nat.eqb a 4) then multmod c c i else c)
             (downto 253) c in
  fold_left (fun o a => upd a (get c a) o) (seq 0 16) o.

Definition pack_step (t m : list Z) (i : nat) : list Z :=
  let m := upd i (fsub (fsub (get t i) 0xffff) (js_and (js_shr (get m (i - 1)) 16) 1)) m in
  upd (i - 1) (js_and (get m (i - 1)) 0xffff) m.

Definition pack_inner (t : list Z) : list Z * Z :=
  let m := gf [] in
  let m := upd 0 (fsub (get t 0) 0xffed) m in
  let m := fold_left (pack_step t) (seq 1 14) m in
  let m := upd 15 (fsub (fsub (get t 15) 0x7fff) (js_and (js_shr (get m 14) 16) 1)) m in
  let b := js_and (js_shr (get m 15) 16) 1 in
  (upd 14 (js_and (get m 14) 0xffff) m, b).

(** One round of the [j] loop: the conditional subtraction of [p].  The cells of the shared scratch array [m] are all
    rewritten by a round before they are read, so a round may start from zeros. *)
Definition pack_round (t : list Z) : list Z :=
  let (m, b) := pack_inner t in fst (cswap t m (1 - b)).

Definition pack_bytes (t o : list Z) (i : nat) : list Z :=
  let o := upd (2 * i) (to_uint8 (js_and (get t i) 0xff)) o in
  upd (2 * i + 1) (to_uint8 (js_shr (get t i) 8)) o.

Definition pack (o n : list Z) : list Z :=
  let t := fold_left (fun t i => upd i (get n i) t) (seq 0 16) (gf []) in
  let t := carry (carry (carry t)) in
  let t := pack_round (pack_round t) in
  fold_left (pack_bytes t) (seq 0 16) o.

Definition clamp (z : list Z) : list Z :=
  let z := upd 31 (to_uint8 (js_or (js_and (get z 31) 127) 64)) z in
  upd 0 (to_uint8 (js_and (get z 0) 248)) z.

(** ** The mathematical reading *)

Definition p25519 : Z := 2 ^ 255 - 19.

(** Value of a limb list, least significant first. *)
Fixpoint val (l : list Z) : Z :=
  match l with
  | [] => 0
  | x :: l => x + 65536 * val l
  end.

Fixpoint limbs (n : nat) (v : Z) : list Z :=
  match n with
  | O => []
  | S n => v mod 65536 :: limbs n (v / 65536)
  end.

(** Little-endian bytes. *)
Fixpoint le_bytes (n : nat) (v : Z) : list Z :=
  match n with
  | O => []
  | S n => v mod 256 :: le_bytes n (v / 256)
  end.

Definition eqm (a b : Z) : Prop := a mod p25519 = b mod p25519.

(** Limbs bounded by [b] in magnitude, sixteen of them. *)
Definition elem (b : Z) (l : list Z) : Prop :=
  length l = 16%nat /\ Forall (fun x => - b <= x <= b) l.

(** The bound every [multmod] result satisfies, and the one sums of two of them do. *)
Definition bound_r : Z := 65535 + 38.
Definition bound_s : Z := 2 ^ 18.

(** ** Arrays *)

Lemma length_upd i v l : length (upd i v l) = length l.
Proof. revert i. induction l; intros [|i]; simpl; auto. Qed.

Lemma upd_app_len pre v x post : upd (length pre) v (pre ++ x :: post) = pre ++ v :: post.
Proof. induction pre; simpl; congruence. Qed.

Lemma upd_app_len' i pre v x post : i = length pre -> upd i v (pre ++ x :: post) = pre ++ v :: post.
Proof. intros ->. apply upd_app_len. Qed.

Lemma get_app_len' i pre x post : i = length pre -> get (pre ++ x :: post) i = x.
Proof. intros ->. unfold get. now rewrite nth_middle. Qed.

Lemma get_upd_eq i v l : (i < length l)%nat -> get (upd i v l) i = v.
Proof. revert i. induction l; intros [|i]; simpl; try lia; auto. intros. apply IHl. lia. Qed.

Lemma get_upd_ne i j v l : i <> j -> get (upd i v l) j = get l j.
Proof.
  revert i j. induction l; intros [|i] [|j] H; simpl; try reflexivity; try congruence.
  apply IHl. congruence.
Qed.

Lemma Forall_upd (P : Z -> Prop) i v l : P v -> Forall P l -> Forall P (upd i v l).
Proof.
  intros Hv H. revert i. induction H; intros [|i]; simpl; auto.
Qed.

Lemma Forall_get (P : Z -> Prop) l i : P 0 -> Forall P l -> P (get l i).
Proof.
  intros H0 H. revert i. unfold get. induction H; intros [|i]; simpl; auto.
Qed.

(** A loop that stores [f i] in every cell of [mid]. *)
Lemma fill_loop (f : nat -> Z) mid : forall pre post,
  fold_left (fun o i => upd i (f i) o) (seq (length pre) (length mid)) (pre ++ mid ++ post)
  = pre ++ map f (seq (length pre) (length mid)) ++ post.
Proof.
  induction mid as [|x mid IH]; intros pre post; [reflexivity|]. cbn [length seq fold_left app map].
  rewrite upd_app_len.
  replace (pre ++ f (length pre) :: mid ++ post) with ((pre ++ [f (length pre)]) ++ mid ++ post)
    by (now rewrite <- app_assoc).
  replace (S (length pre)) with (length (pre ++ [f (length pre)])) by (rewrite length_app; simpl; lia).
  rewrite IH, <- app_assoc. reflexivity.
Qed.

Lemma fill16 (f : nat -> Z) o :
  length o = 16%nat ->
  fold_left (fun o i => upd i (f i) o) (seq 0 16) o = map f (seq 0 16).
Proof.
  intros H. pose proof (fill_loop f o [] []) as E. rewrite H, !app_nil_r in E. exact E.
Qed.

Lemma map_get l n : length l = n -> map (get l) (seq 0 n) = l.
Proof.
  intros <-. induction l; [reflexivity|].
  simpl. f_equal. rewrite <- seq_shift, map_map. apply IHl.
Qed.

Lemma fill16_get l o : length l = 16%nat -> length o = 16%nat ->
  fold_left (fun o i => upd i (get l i) o) (seq 0 16) o = l.
Proof. intros. rewrite fill16 by assumption. now apply map_get. Qed.

(** ** Values and limbs *)

Lemma val_app l1 l2 : val (l1 ++ l2) = val l1 + 65536 ^ Z.of_nat (length l1) * val l2.
Proof.
  induction l1 as [|x l1 IH]; [cbn [app val length Z.of_nat]; lia|].
  cbn [app val length]. rewrite IH, Nat2Z.inj_succ, Z.pow_succ_r by lia. ring.
Qed.

Lemma val_upd i v l :
  (i < length l)%nat -> val (upd i v l) = val l + 65536 ^ Z.of_nat i * (v - get l i).
Proof.
  revert i. induction l as [|x l IH]; intros [|i] H; cbn [length] in H; try lia.
  - unfold get. cbn [upd val nth Z.of_nat]. lia.
  - cbn [upd val]. rewrite IH by lia. rewrite Nat2Z.inj_succ, Z.pow_succ_r by lia.
    unfold get. cbn [nth]. ring.
Qed.

Lemma length_limbs n v : length (limbs n v) = n.
Proof. revert v. induction n; intros; simpl; auto. Qed.

Lemma val_limbs n v : val (limbs n v) = v mod 65536 ^ Z.of_nat n.
Proof.
  revert v. induction n as [|n IH]; intros v.
  - cbn. now rewrite Z.mod_1_r.
  - cbn [limbs val]. rewrite IH, Nat2Z.inj_succ, Z.pow_succ_r by lia.
    rewrite Z.rem_mul_r by (try apply Z.pow_pos_nonneg; lia). ring.
Qed.

Lemma limbs_range n v : Forall (fun x => 0 <= x <= 65535) (limbs n v).
Proof.
  revert v. induction n; intros; simpl; constructor; auto.
  pose proof (Z.mod_pos_bound v 65536). lia.
Qed.

Lemma limbs_val l : Forall (fun x => 0 <= x <= 65535) l -> limbs (length l) (val l) = l.
Proof.
  induction 1 as [|x l Hx _ IH]; [reflexivity|]. cbn [length limbs val].
  replace (x + 65536 * val l) with (val l * 65536 + x) by ring.
  rewrite Z.div_add_l, (Z.div_small x), Z.add_0_r by lia.
  rewrite Z.add_comm, Z_mod_plus_full, Z.mod_small by lia. now rewrite IH.
Qed.

Lemma val_bound b l :
  0 <= b -> Forall (fun x => - b <= x <= b) l ->
  - (b * (65536 ^ Z.of_nat (length l) - 1)) <= 65535 * val l <= b * (65536 ^ Z.of_nat (length l) - 1).
Proof.
  intros Hb. induction 1 as [|x l Hx _ IH]; [cbn; lia|].
  cbn [length val]. rewrite Nat2Z.inj_succ, Z.pow_succ_r by lia. nia.
Qed.

Lemma val_nonneg l :
  Forall (fun x => 0 <= x <= 65535) l -> 0 <= val l < 65536 ^ Z.of_nat (length l).
Proof.
  induction 1 as [|x l Hx _ IH]; [cbn; lia|].
  cbn [length val]. rewrite Nat2Z.inj_succ, Z.pow_succ_r by lia. lia.
Qed.

(** ** [carry] *)

Lemma carry_step_mid pre x y post :
  (length pre < 15)%nat -> exact53 x -> exact53 (y + x / 65536) ->
  carry_step (pre ++ x :: y :: post) (length pre)
  = pre ++ x mod 65536 :: (y + x / 65536) :: post.
Proof.
  intros Hi Hx Hy. unfold carry_step, floor_div_65536.
  rewrite Nat.mod_small by lia. destruct (Nat.ltb_spec (length pre) 15); [|lia].
  rewrite (get_app_len' (length pre)) by reflexivity.
  replace (pre ++ x :: y :: post) with ((pre ++ [x]) ++ y :: post) by (now rewrite <- app_assoc).
  assert (L : (length pre + 1)%nat = length (pre ++ [x])) by (rewrite length_app; reflexivity).
  rewrite (get_app_len' _ _ _ _ L), (upd_app_len' _ _ _ _ _ L), <- app_assoc. cbn [app].
  rewrite get_app_len', upd_app_len by reflexivity. rewrite js_and_ffff.
  assert (exact53 (1 * (x / 65536))).
  { unfold exact53 in *. pose proof (Z.div_mod x 65536). pose proof (Z.mod_pos_bound x 65536). lia. }
  rewrite fmul_exact, Z.mul_1_l, fadd_exact by (rewrite ?Z.mul_1_l in *; assumption). reflexivity.
Qed.

Lemma val_cons_div x y l :
  val (x :: y :: l) mod 65536 = x mod 65536 /\
  val (x :: y :: l) / 65536 = val ((y + x / 65536) :: l).
Proof.
  cbn [val]. replace (x + 65536 * (y + 65536 * val l)) with ((y + 65536 * val l) * 65536 + x) by ring.
  rewrite Z.div_add_l by lia. split; [|lia].
  rewrite Z.add_comm. apply Z_mod_plus_full.
Qed.

(** The first fifteen steps compute the limbs of the value. *)
Lemma carry_loop post : forall pre x,
  Z.abs x <= 2 ^ 52 -> Forall (fun x => - 2 ^ 51 <= x <= 2 ^ 51) post ->
  (length pre + length post = 15)%nat ->
  fold_left carry_step (seq (length pre) (length post)) (pre ++ x :: post)
  = pre ++ limbs (length post) (val (x :: post)) ++ [val (x :: post) / 65536 ^ Z.of_nat (length post)].
Proof.
  induction post as [|y post IH]; intros pre x Hx Hpost Hlen.
  - cbn [length seq fold_left limbs val app Z.of_nat]. now rewrite Z.mul_0_r, Z.add_0_r, Z.div_1_r.
  - apply Forall_cons_iff in Hpost as [Hy Hpost]. cbn [length] in *.
    pose proof (Z.div_mod x 65536). pose proof (Z.mod_pos_bound x 65536).
    cbn [seq fold_left]. rewrite carry_step_mid by (unfold exact53; lia).
    replace (pre ++ x mod 65536 :: (y + x / 65536) :: post)
      with ((pre ++ [x mod 65536]) ++ (y + x / 65536) :: post) by (now rewrite <- app_assoc).
    replace (S (length pre)) with (length (pre ++ [x mod 65536])) by (rewrite length_app; simpl; lia).
    rewrite IH; [|lia|assumption|rewrite length_app; simpl; lia].
    destruct (val_cons_div x y post) as [E1 E2].
    rewrite <- app_assoc. cbn [app limbs]. rewrite E1, E2.
    rewrite Nat2Z.inj_succ, Z.pow_succ_r by lia.
    rewrite <- (Z.div_div _ 65536) by (try apply Z.pow_pos_nonneg; lia). now rewrite E2.
Qed.

Lemma carry_step_last x l w :
  length l = 14%nat -> exact53 w -> exact53 (38 * (w / 65536)) -> exact53 (x + 38 * (w / 65536)) ->
  carry_step (x :: l ++ [w]) 15 = (x + 38 * (w / 65536)) :: l ++ [w mod 65536].
Proof.
  intros Hl Hw H38 Hx. unfold carry_step, floor_div_65536.
  change (Nat.modulo (15 + 1) 16) with 0%nat. change (Nat.ltb 15 15) with false.
  assert (G : forall y, get (y :: l ++ [w]) 15 = w).
  { intros y. exact (get_app_len' 15 (y :: l) w [] ltac:(simpl; lia)). }
  rewrite G. rewrite fmul_exact by assumption. change (get (x :: l ++ [w]) 0) with x.
  rewrite fadd_exact by assumption.
  change (upd 0 (x + 38 * (w / 65536)) (x :: l ++ [w])) with ((x + 38 * (w / 65536)) :: l ++ [w]).
  cbv zeta. rewrite G, js_and_ffff.
  exact (upd_app_len' 15 (_ :: l) _ w [] ltac:(simpl; lia)).
Qed.

(** What [carry] computes: the canonical limbs of the value modulo [2^256], with 38
    times the overflow folded into limb 0. *)
Definition carried (v : Z) : list Z :=
  match limbs 16 v with
  | x :: l => (x + 38 * (v / 2 ^ 256)) :: l
  | [] => []
  end.

Lemma limbs_snoc n v :
  limbs (S n) v = limbs n v ++ [(v / 65536 ^ Z.of_nat n) mod 65536].
Proof.
  revert v. induction n as [|n IH]; intros v.
  - cbn [limbs app Z.of_nat]. now rewrite Z.div_1_r.
  - change (limbs (S (S n)) v) with (v mod 65536 :: limbs (S n) (v / 65536)). rewrite IH.
    rewrite Nat2Z.inj_succ, Z.pow_succ_r by lia.
    rewrite <- Z.div_div by (try apply Z.pow_pos_nonneg; lia). reflexivity.
Qed.

Lemma carry_spec o : elem (2 ^ 51) o -> carry o = carried (val o).
Proof.
  intros [Hlen Hb]. destruct o as [|x post]; [discriminate|]. cbn [length] in Hlen.
  apply Forall_cons_iff in Hb as [Hx Hpost]. assert (Hl : length post = 15%nat) by lia.
  pose proof (carry_loop post [] x ltac:(lia) Hpost ltac:(simpl; lia)) as E.
  rewrite Hl in E. cbn [length app] in E.
  unfold carry. change (seq 0 16) with (seq 0 15 ++ seq 15 1). rewrite fold_left_app, E. clear E.
  assert (HV : Z.abs (val (x :: post) / 65536 ^ Z.of_nat 15) <= 2 ^ 52).
  { pose proof (val_bound (2 ^ 51) (x :: post) ltac:(lia) ltac:(constructor; assumption)) as B.
    cbn [length] in B. rewrite Hl in B.
    change (65536 ^ Z.of_nat 16) with (65536 * 65536 ^ 15) in B.
    change (65536 ^ Z.of_nat 15) with (65536 ^ 15) in *.
    pose proof (Z.div_mod (val (x :: post)) (65536 ^ 15) ltac:(lia)).
    pose proof (Z.mod_pos_bound (val (x :: post)) (65536 ^ 15) ltac:(lia)). lia. }
  unfold carried. rewrite (limbs_snoc 15).
  replace (val (x :: post) / 2 ^ 256) with (val (x :: post) / 65536 ^ Z.of_nat 15 / 65536)
    by (rewrite Z.div_div by lia; reflexivity).
  set (V := val (x :: post)) in *. set (W := V / 65536 ^ Z.of_nat 15) in *.
  change (limbs 15 V) with (V mod 65536 :: limbs 14 (V / 65536)).
  pose proof (length_limbs 14 (V / 65536)) as HL. set (L := limbs 14 (V / 65536)) in *.
  pose proof (Z.mod_pos_bound V 65536). pose proof (Z.div_mod W 65536). pose proof (Z.mod_pos_bound W 65536).
  cbn [seq fold_left]. cbn [app].
  rewrite carry_step_last by (try assumption; unfold exact53; lia). reflexivity.
Qed.

Lemma val_carried v : val (carried v) = v mod 2 ^ 256 + 38 * (v / 2 ^ 256).
Proof.
  unfold carried. pose proof (val_limbs 16 v) as E. destruct (limbs 16 v) as [|x l] eqn:F;
    [apply (f_equal (@length Z)) in F; rewrite length_limbs in F; discriminate|].
  cbn [val] in *. change (65536 ^ Z.of_nat 16) with (2 ^ 256) in E. lia.
Qed.

Lemma eqm_carried v : eqm (val (carried v)) v.
Proof.
  unfold eqm. rewrite val_carried.
  rewrite (Z.div_mod v (2 ^ 256)) at 3 by lia.
  replace (v mod 2 ^ 256 + 38 * (v / 2 ^ 256))
    with (2 ^ 256 * (v / 2 ^ 256) + v mod 2 ^ 256 + (- 2 * (v / 2 ^ 256)) * p25519)
    by (unfold p25519; ring).
  apply Z_mod_plus_full.
Qed.

Lemma carried_bound v k :
  0 <= k -> - k <= v / 2 ^ 256 <= k -> elem (65535 + 38 * k) (carried v).
Proof.
  intros Hk Hq. unfold carried, elem.
  pose proof (limbs_range 16 v) as R. pose proof (length_limbs 16 v) as L.
  destruct (limbs 16 v) as [|x l]; [discriminate|]. split; [assumption|].
  apply Forall_cons_iff in R as [Rx Rl]. constructor; [lia|].
  eapply Forall_impl; [|exact Rl]. cbv beta. lia.
Qed.

(** Two carries bring a bounded element below [bound_r], one more into [0, 65535]. *)
Lemma carry_twice o :
  elem (2 ^ 50) o ->
  elem bound_r (carry (carry o)) /\ eqm (val (carry (carry o))) (val o).
Proof.
  intros H. pose proof H as [Hl Hb].
  assert (H51 : elem (2 ^ 51) o) by (split; [|eapply Forall_impl; [|exact Hb]; cbv beta; lia]; assumption).
  rewrite (carry_spec o) by assumption.
  pose proof (val_bound (2 ^ 50) o ltac:(lia) Hb) as B. rewrite Hl in B.
  change (65536 ^ Z.of_nat 16) with (2 ^ 256) in B.
  assert (Q : - 2 ^ 35 <= val o / 2 ^ 256 <= 2 ^ 35).
  { pose proof (Z.div_mod (val o) (2 ^ 256) ltac:(lia)).
    pose proof (Z.mod_pos_bound (val o) (2 ^ 256) ltac:(lia)). lia. }
  pose proof (carried_bound _ (2 ^ 35) ltac:(lia) Q) as [Cl Cb].
  rewrite carry_spec by (split; [assumption|eapply Forall_impl; [|exact Cb]; cbv beta; lia]).
  pose proof (val_carried (val o)) as V.
  pose proof (Z.mod_pos_bound (val o) (2 ^ 256) ltac:(lia)).
  split.
  - apply (carried_bound _ 1); [lia|].
    pose proof (Z.div_mod (val (carried (val o))) (2 ^ 256) ltac:(lia)).
    pose proof (Z.mod_pos_bound (val (carried (val o))) (2 ^ 256) ltac:(lia)). lia.
  - unfold eqm in *. now rewrite !eqm_carried.
Qed.

(** ** [add], [subtract], [cswap] *)

Lemma elem_get b l i : 0 <= b -> elem b l -> - b <= get l i <= b.
Proof. intros Hb [_ H]. apply Forall_get; [lia|assumption]. Qed.

Lemma elem_weaken b b' l : b <= b' -> elem b l -> elem b' l.
Proof. intros H [L F]. split; [assumption|]. eapply Forall_impl; [|exact F]. cbv beta. lia. Qed.

Lemma val_map2 (f : nat -> Z) (a b : list Z) (s : Z) n k :
  (forall i, f i = get a i + s * get b i) ->
  val (map f (seq k n)) = val (map (get a) (seq k n)) + s * val (map (get b) (seq k n)).
Proof.
  intros Hf. revert k. induction n; intros k; cbn [seq map val]; [lia|]. rewrite IHn, Hf. ring.
Qed.

Lemma combine_spec (op : Z -> Z -> Z) (s : Z) (o a b : list Z) c :
  Z.abs s = 1 -> (forall x y, - c <= x <= c -> - c <= y <= c -> op x y = x + s * y) ->
  0 <= c -> length o = 16%nat -> elem c a -> elem c b ->
  let r := fold_left (fun o i => upd i (op (get a i) (get b i)) o) (seq 0 16) o in
  elem (2 * c) r /\ val r = val a + s * val b.
Proof.
  intros Hs Hop Hc Ho Ha Hb r. subst r. rewrite fill16 by assumption. split.
  - split; [reflexivity|]. apply Forall_map, Forall_forall. intros i _.
    pose proof (elem_get c a i Hc Ha). pose proof (elem_get c b i Hc Hb). rewrite Hop by lia. nia.
  - rewrite (val_map2 _ a b s).
    + now rewrite !map_get by (apply Ha || apply Hb).
    + intros i. apply Hop; apply elem_get; assumption.
Qed.

Lemma add_spec o a b :
  length o = 16%nat -> elem bound_r a -> elem bound_r b ->
  elem bound_s (add o a b) /\ val (add o a b) = val a + val b.
Proof.
  intros Ho Ha Hb.
  destruct (combine_spec (fun x y => js_or (fadd x y) 0) 1 o a b bound_r) as [E V]; try assumption; try easy.
  - intros x y Hx Hy. unfold bound_r in *. rewrite fadd_exact by (unfold exact53; lia).
    rewrite js_or_0 by (unfold is_int32; lia). ring.
  - split; [|unfold add; rewrite V; ring]. apply (elem_weaken (2 * bound_r)); [unfold bound_r, bound_s; lia|exact E].
Qed.

Lemma subtract_spec o a b :
  length o = 16%nat -> elem bound_r a -> elem bound_r b ->
  elem bound_s (subtract o a b) /\ val (subtract o a b) = val a - val b.
Proof.
  intros Ho Ha Hb.
  destruct (combine_spec (fun x y => js_or (fsub x y) 0) (-1) o a b bound_r) as [E V]; try assumption; try easy.
  - intros x y Hx Hy. unfold bound_r in *. rewrite fsub_exact by (unfold exact53; lia).
    rewrite js_or_0 by (unfold is_int32; lia). ring.
  - split; [|unfold subtract; rewrite V; ring]. apply (elem_weaken (2 * bound_r)); [unfold bound_r, bound_s; lia|exact E].
Qed.

Lemma cswap_cell b x y :
  b = 0 \/ b = 1 -> is_int32 x -> is_int32 y ->
  let t := js_and (js_not (b - 1)) (js_xor x y) in
  js_xor x t = (if b =? 1 then y else x) /\ js_xor y t = (if b =? 1 then x else y).
Proof.
  intros Hb Hx Hy t. subst t. unfold js_and, js_not, js_xor.
  rewrite (to_int32_id x), (to_int32_id y) by assumption.
  rewrite (to_int32_id (Z.lxor x y)) by (now apply lxor_int32).
  destruct Hb as [-> | ->].
  - change (to_int32 (Z.lnot (to_int32 (0 - 1)))) with 0. rewrite Z.land_0_l.
    change (to_int32 0) with 0. now rewrite !Z.lxor_0_r.
  - change (to_int32 (Z.lnot (to_int32 (1 - 1)))) with (-1). rewrite Z.land_m1_l.
    rewrite to_int32_id by (now apply lxor_int32). change (1 =? 1) with true.
    rewrite (Z.lxor_comm y), <- Z.lxor_assoc, Z.lxor_nilpotent, Z.lxor_0_l.
    now rewrite Z.lxor_assoc, Z.lxor_nilpotent, Z.lxor_0_r.
Qed.

Lemma cswap_loop b p2 : forall p1 q1 q2,
  b = 0 \/ b = 1 -> length p1 = length q1 -> length p2 = length q2 ->
  Forall is_int32 p2 -> Forall is_int32 q2 ->
  fold_left (cswap_step (js_not (b - 1))) (seq (length p1) (length p2)) (p1 ++ p2, q1 ++ q2)
  = (p1 ++ (if b =? 1 then q2 else p2), q1 ++ (if b =? 1 then p2 else q2)).
Proof.
  induction p2 as [|x p2 IH]; intros p1 q1 [|y q2] Hb L1 L2 Fp Fq; try discriminate.
  - cbn. now destruct (b =? 1).
  - apply Forall_cons_iff in Fp as [Hx Fp]. apply Forall_cons_iff in Fq as [Hy Fq].
    cbn [length seq fold_left]. unfold cswap_step at 2.
    rewrite (get_app_len' _ p1), (get_app_len' _ q1) by auto.
    destruct (cswap_cell b x y Hb Hx Hy) as [E1 E2]. cbv zeta. rewrite E1, E2.
    rewrite (upd_app_len' _ p1), (upd_app_len' _ q1) by auto.
    specialize (IH (p1 ++ [if b =? 1 then y else x]) (q1 ++ [if b =? 1 then x else y]) q2 Hb).
    rewrite !length_app, <- !app_assoc, Nat.add_1_r in IH. cbn [app length] in IH.
    rewrite IH by (simpl in *; auto; lia). now destruct (b =? 1).
Qed.

(** [cswap(p, q, b)] exchanges the two arrays when [b] is 1 and leaves them when it is 0. *)
Lemma cswap_spec p q b :
  b = 0 \/ b = 1 -> elem bound_s p -> elem bound_s q ->
  cswap p q b = if b =? 1 then (q, p) else (p, q).
Proof.
  intros Hb [Lp Fp] [Lq Fq]. pose proof (cswap_loop b p [] [] q Hb eq_refl) as E.
  cbn [length app] in E. rewrite Lp in E. unfold cswap. rewrite E; [now destruct (b =? 1)|congruence| |];
    (eapply Forall_impl; [|eassumption]); unfold is_int32, bound_s; cbv beta; lia.
Qed.

(** ** [multmod] *)

Definition mac (a b : list Z) (i : nat) (t : list Z) (j : nat) : list Z :=
  upd (i + j) (fadd (get t (i + j)) (fmul (get a i) (get b j))) t.

(** Loop invariant of the product loops: after [n] products the cells are bounded by
    [n * 2^36] and the array has value [v]. *)
Definition acc (n v : Z) (t : list Z) : Prop :=
  length t = 31%nat /\ Forall (fun x => - (n * 2 ^ 36) <= x <= n * 2 ^ 36) t /\ val t = v.

Lemma acc_eq n v v' t : v = v' -> acc n v t -> acc n v' t.
Proof. now intros ->. Qed.

Lemma mac_step a b i j t n v :
  elem bound_s a -> elem bound_s b -> (i + j < 31)%nat -> 0 <= n < 2 ^ 16 -> acc n v t ->
  acc (n + 1) (v + 65536 ^ Z.of_nat i * get a i * (65536 ^ Z.of_nat j * get b j)) (mac a b i t j).
Proof.
  intros Ha Hb Hij Hn (Hl & Hf & Hv).
  assert (Ai : - bound_s <= get a i <= bound_s) by (apply elem_get; [unfold bound_s; lia|assumption]).
  assert (Bj : - bound_s <= get b j <= bound_s) by (apply elem_get; [unfold bound_s; lia|assumption]).
  assert (Tk : - (n * 2 ^ 36) <= get t (i + j) <= n * 2 ^ 36)
    by (refine (Forall_get _ t (i + j) _ Hf); lia).
  assert (P : - 2 ^ 36 <= get a i * get b j <= 2 ^ 36) by (unfold bound_s in *; nia).
  unfold mac. rewrite fmul_exact, fadd_exact by (unfold exact53; lia).
  split; [now rewrite length_upd|]. split.
  - apply Forall_upd; [lia|]. eapply Forall_impl; [|exact Hf]. cbv beta. lia.
  - rewrite val_upd by lia. rewrite Nat2Z.inj_add, Z.pow_add_r, Hv by lia. ring.
Qed.

Definition sum_powers (b : list Z) (js : list nat) : Z :=
  fold_right (fun j s => 65536 ^ Z.of_nat j * get b j + s) 0 js.

Lemma mac_row a b i js : forall t n v,
  elem bound_s a -> elem bound_s b -> (i < 16)%nat -> Forall (fun j => (j < 15 + 1)%nat) js ->
  0 <= n -> n + Z.of_nat (length js) <= 2 ^ 16 -> acc n v t ->
  acc (n + Z.of_nat (length js)) (v + 65536 ^ Z.of_nat i * get a i * sum_powers b js)
    (fold_left (mac a b i) js t).
Proof.
  induction js as [|j js IH]; intros t n v Ha Hb Hi Hj Hn Hm H; cbn [length sum_powers fold_right fold_left].
  - replace (n + Z.of_nat 0) with n by lia. now rewrite Z.mul_0_r, Z.add_0_r.
  - apply Forall_cons_iff in Hj as [Hj Hjs]. cbn [length] in Hm.
    pose proof (mac_step a b i j t n v Ha Hb ltac:(lia) ltac:(lia) H) as S.
    apply IH in S; try assumption; try lia.
    replace (n + Z.of_nat (Datatypes.S (length js))) with (n + 1 + Z.of_nat (length js)) by lia.
    refine (acc_eq _ _ _ _ _ S). fold (sum_powers b js). ring.
Qed.

Lemma sum_powers_val b n k :
  sum_powers b (seq k n) = 65536 ^ Z.of_nat k * val (map (get b) (seq k n)).
Proof.
  revert k. induction n; intros k; cbn [seq sum_powers fold_right map val]; [lia|].
  fold (sum_powers b (seq (S k) n)). rewrite IHn, Nat2Z.inj_succ, Z.pow_succ_r by lia. ring.
Qed.

Lemma sum_powers_16 b : length b = 16%nat -> sum_powers b (seq 0 16) = val b.
Proof. intros H. rewrite sum_powers_val, map_get by assumption. lia. Qed.

Lemma mac_all a b rows : forall t n v,
  elem bound_s a -> elem bound_s b -> Forall (fun i => (i < 16)%nat) rows ->
  0 <= n -> n + 16 * Z.of_nat (length rows) <= 2 ^ 16 -> acc n v t ->
  acc (n + 16 * Z.of_nat (length rows)) (v + sum_powers a rows * val b)
    (fold_left (fun t i => fold_left (mac a b i) (seq 0 16) t) rows t).
Proof.
  induction rows as [|i rows IH]; intros t n v Ha Hb Hi Hn Hm H; cbn [length sum_powers fold_right fold_left].
  - replace (n + 16 * Z.of_nat 0) with n by lia. now rewrite Z.mul_0_l, Z.add_0_r.
  - apply Forall_cons_iff in Hi as [Hi His]. cbn [length] in Hm.
    assert (Hseq : Forall (fun j => (j < 15 + 1)%nat) (seq 0 16)).
    { apply Forall_forall. intros j Hj. apply in_seq in Hj. lia. }
    pose proof (mac_row a b i (seq 0 16) t n v Ha Hb Hi Hseq Hn ltac:(rewrite length_seq; lia) H) as R.
    rewrite length_seq, sum_powers_16 in R by apply Hb.
    apply IH in R; try assumption; try lia.
    replace (n + 16 * Z.of_nat (S (length rows))) with (n + Z.of_nat 16 + 16 * Z.of_nat (length rows)) by lia.
    refine (acc_eq _ _ _ _ _ R). fold (sum_powers a rows). ring.
Qed.

(** Folding the upper half: the loop reads cells it has not written yet. *)
Lemma upper_loop (g : Z -> Z -> Z) t0 n : forall k t,
  (k + n <= 15)%nat -> (forall m, (k <= m)%nat -> get t m = get t0 m) ->
  fold_left (fun t i => upd i (g (get t i) (get t (i + 16))) t) (seq k n) t
  = fold_left (fun t i => upd i (g (get t0 i) (get t0 (i + 16))) t) (seq k n) t.
Proof.
  induction n as [|n IH]; intros k t Hk Ht; [reflexivity|]. cbn [seq fold_left].
  rewrite (Ht k), (Ht (k + 16)%nat) by lia. apply IH; [lia|].
  intros m Hm. rewrite get_upd_ne by lia. apply Ht. lia.
Qed.

Lemma val_map_get_pad l n : (length l <= n)%nat -> val (map (get l) (seq 0 n)) = val l.
Proof.
  revert l. induction n as [|n IH]; intros [|x l] H; cbn [length] in H; try lia; try reflexivity.
  - cbn [seq map val]. rewrite <- seq_shift, map_map.
    change (map (fun x => get [] (S x)) (seq 0 n)) with (map (fun _ : nat => 0) (seq 0 n)).
    change (get [] 0) with 0. specialize (IH [] ltac:(simpl; lia)). cbn [val] in IH.
    replace (map (fun _ : nat => 0) (seq 0 n)) with (map (get []) (seq 0 n)); [rewrite IH; lia|].
    apply map_ext. now intros [|].
  - cbn [seq map val]. rewrite <- seq_shift, map_map. rewrite <- (IH l) by lia. reflexivity.
Qed.

Lemma get_skipn k l i : get (skipn k l) i = get l (i + k).
Proof.
  revert l. induction k as [|k IH]; intros l; [now rewrite Nat.add_0_r|].
  destruct l as [|x l].
  - unfold get. cbn [skipn]. now rewrite !nth_overflow by (simpl; lia).
  - cbn [skipn]. rewrite IH. unfold get. now rewrite Nat.add_succ_r.
Qed.

Lemma map_get_firstn l n : (n <= length l)%nat -> map (get l) (seq 0 n) = firstn n l.
Proof.
  revert l. induction n as [|n IH]; intros [|x l] H; cbn [length] in H; try lia; try reflexivity.
  cbn [seq map firstn]. f_equal. rewrite <- seq_shift, map_map. now rewrite <- (IH l) by lia.
Qed.

(** The array copied into [o] before the carries. *)
Definition folded (t : list Z) : list Z := map (fun i => get t i + 38 * get t (i + 16)) (seq 0 16).

Lemma fold_upper t o :
  length t = 31%nat -> length o = 16%nat -> Forall (fun x => - 2 ^ 45 <= x <= 2 ^ 45) t ->
  let t' := fold_left (fun t i => upd i (fadd (get t i) (fmul 38 (get t (i + 16)))) t) (seq 0 15) t in
  fold_left (fun o i => upd i (get t' i) o) (seq 0 16) o = folded t.
Proof.
  intros Lt Lo Ft t'. rewrite fill16 by assumption. subst t'.
  rewrite (upper_loop (fun x y => fadd x (fmul 38 y)) t) by (auto; lia).
  pose proof (fill_loop (fun i => fadd (get t i) (fmul 38 (get t (i + 16)))) (firstn 15 t) [] (skipn 15 t)) as E.
  rewrite length_firstn, Nat.min_l in E by lia. cbn [length app] in E. rewrite firstn_skipn in E.
  rewrite E. clear E. unfold folded. apply map_ext_in. intros i Hi. apply in_seq in Hi.
  assert (B : forall k, - 2 ^ 45 <= get t k <= 2 ^ 45) by (intros k; refine (Forall_get _ t k _ Ft); lia).
  destruct (Nat.eq_dec i 15) as [-> | Hn].
  - assert (G31 : get t (15 + 16) = 0) by (unfold get; apply nth_overflow; lia).
    rewrite G31, Z.mul_0_r, Z.add_0_r. unfold get at 1.
    rewrite app_nth2 by (rewrite length_map, length_seq; lia). rewrite length_map, length_seq.
    change (nth (15 - 15) (skipn 15 t) 0) with (get (skipn 15 t) 0). now rewrite get_skipn.
  - unfold get at 1. rewrite app_nth1 by (rewrite length_map, length_seq; lia).
    rewrite (nth_indep _ 0 (fadd (get t 0) (fmul 38 (get t (0 + 16))))) by (rewrite length_map, length_seq; lia).
    rewrite (map_nth (fun i => fadd (get t i) (fmul 38 (get t (i + 16))))), seq_nth by lia.
    cbn [Nat.add]. pose proof (B i). pose proof (B (i + 16)%nat).
    rewrite fmul_exact, fadd_exact by (unfold exact53; lia). reflexivity.
Qed.

Lemma val_folded t : length t = 31%nat -> eqm (val (folded t)) (val t).
Proof.
  intros L. unfold folded. rewrite (val_map2 _ t (skipn 16 t) 38) by (intros i; now rewrite get_skipn).
  rewrite map_get_firstn by lia. rewrite val_map_get_pad by (rewrite length_skipn; lia).
  rewrite <- (firstn_skipn 16 t) at 3. rewrite val_app, length_firstn, Nat.min_l by lia.
  unfold eqm. change (65536 ^ Z.of_nat 16) with (2 ^ 256).
  replace (val (firstn 16 t) + 2 ^ 256 * val (skipn 16 t))
    with (val (firstn 16 t) + 38 * val (skipn 16 t) + (2 * val (skipn 16 t)) * p25519)
    by (unfold p25519; ring).
  symmetry. apply Z_mod_plus_full.
Qed.

(** [multmod] multiplies modulo [p]: no product, sum or carry is rounded, the result
    has limbs within [bound_r] and the value of the product modulo [p]. *)
Lemma multmod_spec o a b :
  length o = 16%nat -> elem bound_s a -> elem bound_s b ->
  elem bound_r (multmod o a b) /\ eqm (val (multmod o a b)) (val a * val b).
Proof.
  intros Ho Ha Hb. unfold multmod.
  assert (A0 : acc 0 0 (repeat 0 31)).
  { split; [reflexivity|]. split; [|reflexivity]. apply Forall_forall. intros x Hx.
    apply repeat_spec in Hx. lia. }
  assert (H16 : Forall (fun i => (i < 16)%nat) (seq 0 16)).
  { apply Forall_forall. intros i Hi. apply in_seq in Hi. lia. }
  pose proof (mac_all a b (seq 0 16) _ 0 0 Ha Hb H16 ltac:(lia) ltac:(rewrite length_seq; lia) A0) as M.
  rewrite length_seq, sum_powers_16 in M by apply Ha. fold mac.
  change (fun t i => fold_left (fun t j => upd (i + j) (fadd (get t (i + j)) (fmul (get a i) (get b j))) t)
             (seq 0 16) t) with (fun t i => fold_left (mac a b i) (seq 0 16) t).
  set (t := fold_left (fun t i => fold_left (mac a b i) (seq 0 16) t) (seq 0 16) (repeat 0 31)) in *.
  destruct M as (Lt & Ft & Vt). change (0 + 16 * Z.of_nat 16) with 256 in Ft.
  rewrite fold_upper; [|assumption|assumption|eapply Forall_impl; [|exact Ft]; cbv beta; lia].
  assert (E : elem (2 ^ 50) (folded t)).
  { split; [reflexivity|]. apply Forall_map, Forall_forall. intros i _.
    assert (B : forall k, - 2 ^ 44 <= get t k <= 2 ^ 44).
    { intros k. refine (Forall_get (fun x => - 2 ^ 44 <= x <= 2 ^ 44) t k _ _); [lia|].
      eapply Forall_impl; [|exact Ft]. cbv beta. lia. }
    pose proof (B i). pose proof (B (i + 16)%nat). lia. }
  destruct (carry_twice _ E) as [R V]. split; [exact R|].
  unfold eqm in *. rewrite V, (val_folded t Lt), Vt. now rewrite Z.add_0_l.
Qed.

(** ** Congruence modulo [p] *)

From Stdlib Require Import Setoid Morphisms.

#[export] Instance eqm_equiv : Equivalence eqm.
Proof. split; unfold eqm; congruence. Qed.

#[export] Instance eqm_add : Proper (eqm ==> eqm ==> eqm) Z.add.
Proof. intros a a' Ha b b' Hb. unfold eqm in *. rewrite Zplus_mod, Ha, Hb. now rewrite <- Zplus_mod. Qed.

#[export] Instance eqm_sub : Proper (eqm ==> eqm ==> eqm) Z.sub.
Proof. intros a a' Ha b b' Hb. unfold eqm in *. rewrite Zminus_mod, Ha, Hb. now rewrite <- Zminus_mod. Qed.

#[export] Instance eqm_mul : Proper (eqm ==> eqm ==> eqm) Z.mul.
Proof. intros a a' Ha b b' Hb. unfold eqm in *. rewrite Zmult_mod, Ha, Hb. now rewrite <- Zmult_mod. Qed.

(** ** [invert] *)

Definition inv_exp (e : Z) (a : nat) : Z :=
  if negb (Nat.eqb a 2) && negb (Nat.eqb a 4) then 2 * e + 1 else 2 * e.

Lemma invert_loop i steps : forall c e,
  elem bound_r i -> elem bound_r c -> 0 <= e -> eqm (val c) (val i ^ e) ->
  let c' := fold_left (fun c a =>
              let c := multmod c c c in
              if negb (Nat.eqb a 2) && negb (Nat.eqb a 4) then multmod c c i else c) steps c in
  elem bound_r c' /\ eqm (val c') (val i ^ fold_left inv_exp steps e).
Proof.
  induction steps as [|a steps IH]; intros c e Hi Hc He V; [split; assumption|].
  assert (W : forall l, elem bound_r l -> elem bound_s l)
    by (intros l; apply elem_weaken; unfold bound_r, bound_s; lia).
  destruct (multmod_spec c c c ltac:(apply Hc) (W _ Hc) (W _ Hc)) as [Hd Vd].
  set (d := multmod c c c) in *.
  assert (V2 : eqm (val d) (val i ^ (2 * e))).
  { rewrite Vd, V. replace (2 * e) with (e + e) by lia. rewrite Z.pow_add_r by lia. reflexivity. }
  cbn [fold_left]. unfold inv_exp at 2. fold d. cbv zeta. destruct (negb (Nat.eqb a 2) && negb (Nat.eqb a 4)).
  - destruct (multmod_spec d d i ltac:(apply Hd) (W _ Hd) (W _ Hi)) as [Hf Vf].
    apply IH; try assumption; try lia. rewrite Vf, V2, Z.pow_add_r, Z.pow_1_r by lia. reflexivity.
  - apply IH; try assumption; lia.
Qed.

Lemma invert_exponent : fold_left inv_exp (downto 253) 1 = p25519 - 2.
Proof. vm_compute. reflexivity. Qed.

(** [invert] raises to the power [p - 2], Fermat's inverse. *)
Lemma invert_spec o i :
  length o = 16%nat -> elem bound_r i ->
  elem bound_r (invert o i) /\ eqm (val (invert o i)) (val i ^ (p25519 - 2)).
Proof.
  intros Ho Hi. unfold invert. rewrite (fill16_get i) by (apply Hi || reflexivity).
  destruct (invert_loop i (downto 253) i 1 Hi Hi ltac:(lia)) as [E V].
  { now rewrite Z.pow_1_r. }
  rewrite invert_exponent in V. cbv zeta in E, V.
  rewrite fill16_get by (apply E || assumption). split; assumption.
Qed.

(** ** [pack] *)

Fixpoint borrow_chain (t : list Z) (d : Z) : list Z * Z :=
  match t with
  | [] => ([], d)
  | x :: t =>
      let r := borrow_chain t (x - 0xffff - (if d <? 0 then 1 else 0)) in
      (d mod 65536 :: fst r, snd r)
  end.

Lemma pack_step_spec tpre x tpost pre d post :
  length tpre = S (length pre) -> 0 <= x <= 65535 -> -65536 <= d < 65536 ->
  pack_step (tpre ++ x :: tpost) (pre ++ d :: 0 :: post) (S (length pre))
  = pre ++ d mod 65536 :: (x - 0xffff - (if d <? 0 then 1 else 0)) :: post.
Proof.
  intros L Hx Hd. unfold pack_step. rewrite (get_app_len' _ tpre) by auto.
  replace (S (length pre) - 1)%nat with (length pre) by lia.
  rewrite (get_app_len' _ pre) by reflexivity. rewrite borrow_bit by assumption.
  rewrite (fsub_exact x) by (unfold exact53; lia).
  rewrite fsub_exact by (unfold exact53; destruct (d <? 0); lia).
  replace (pre ++ d :: 0 :: post) with ((pre ++ [d]) ++ 0 :: post) by (now rewrite <- app_assoc).
  rewrite (upd_app_len' (S (length pre))) by (rewrite length_app; simpl; lia).
  rewrite <- app_assoc. cbn [app]. cbv zeta.
  rewrite (get_app_len' _ pre) by reflexivity. rewrite upd_app_len, js_and_ffff. reflexivity.
Qed.

Lemma pack_loop ts : forall tpre tpost pre d post,
  length tpre = S (length pre) -> Forall (fun x => 0 <= x <= 65535) ts -> -65536 <= d < 65536 ->
  fold_left (pack_step (tpre ++ ts ++ tpost)) (seq (S (length pre)) (length ts))
    (pre ++ d :: repeat 0 (length ts) ++ post)
  = pre ++ fst (borrow_chain ts d) ++ snd (borrow_chain ts d) :: post.
Proof.
  induction ts as [|x ts IH]; intros tpre tpost pre d post L F Hd; [reflexivity|].
  apply Forall_cons_iff in F as [Hx F]. cbn [length seq fold_left repeat app borrow_chain fst snd].
  rewrite pack_step_spec by assumption.
  specialize (IH (tpre ++ [x]) tpost (pre ++ [d mod 65536]) (x - 0xffff - (if d <? 0 then 1 else 0)) post).
  rewrite !length_app, <- !app_assoc, !Nat.add_1_r in IH. cbn [app] in IH.
  rewrite IH by (auto; destruct (d <? 0); lia). reflexivity.
Qed.

Lemma borrow_chain_spec ts : forall d,
  Forall (fun x => 0 <= x <= 65535) ts -> -65536 <= d < 65536 ->
  length (fst (borrow_chain ts d)) = length ts /\
  Forall (fun x => 0 <= x <= 65535) (fst (borrow_chain ts d)) /\
  -65536 <= snd (borrow_chain ts d) < 65536 /\
  val (fst (borrow_chain ts d)) + 65536 ^ Z.of_nat (length ts) * snd (borrow_chain ts d)
  = d + 65536 * (val ts - val (repeat 0xffff (length ts))).
Proof.
  induction ts as [|x ts IH]; intros d F Hd.
  - cbn [borrow_chain fst snd length val repeat Z.of_nat]. repeat split; auto; lia.
  - apply Forall_cons_iff in F as [Hx F]. cbn [borrow_chain fst snd length val repeat].
    specialize (IH (x - 0xffff - (if d <? 0 then 1 else 0)) F ltac:(destruct (d <? 0); lia)).
    destruct IH as (L & R & B & V). pose proof (Z.mod_pos_bound d 65536 ltac:(lia)).
    assert (M : d mod 65536 = d + 65536 * (if d <? 0 then 1 else 0)).
    { destruct (Z.ltb_spec d 0); symmetry; apply Z.mod_unique with (q := if d <? 0 then -1 else 0);
        destruct (Z.ltb_spec d 0); lia. }
    split; [lia|]. split; [constructor; [lia|assumption]|]. split; [assumption|].
    rewrite Nat2Z.inj_succ, Z.pow_succ_r by lia. lia.
Qed.

Definition canon (l : list Z) : Prop := length l = 16%nat /\ Forall (fun x => 0 <= x <= 65535) l.

Lemma canon_elem l : canon l -> elem bound_s l.
Proof.
  intros [L F]. split; [assumption|]. eapply Forall_impl; [|exact F]. unfold bound_s. cbv beta. lia.
Qed.

Lemma canon_split t :
  canon t -> exists x ts y, t = x :: ts ++ [y] /\ length ts = 14%nat /\
    0 <= x <= 65535 /\ 0 <= y <= 65535 /\ Forall (fun x => 0 <= x <= 65535) ts.
Proof.
  intros [L F]. destruct t as [|x t]; [discriminate|]. apply Forall_cons_iff in F as [Hx F].
  destruct (exists_last (l := t)) as (ts & y & ->); [intros ->; discriminate|].
  apply Forall_app in F as [F Fy]. apply Forall_cons_iff in Fy as [Hy _].
  exists x, ts, y. cbn [length] in L. rewrite length_app in L. simpl in L. repeat split; auto; lia.
Qed.

Definition p_limbs : list Z := 0xffed :: repeat 0xffff 14 ++ [0x7fff].

Lemma val_p_limbs : val p_limbs = p25519.
Proof. vm_compute. reflexivity. Qed.

(** The result of the subtraction loop, in terms of the borrow chain. *)
Definition sub_p_top (ts : list Z) (x y : Z) : Z :=
  y - 0x7fff - (if snd (borrow_chain ts (x - 0xffed)) <? 0 then 1 else 0).

Definition sub_p (ts : list Z) (x y : Z) : list Z :=
  fst (borrow_chain ts (x - 0xffed)) ++
  [snd (borrow_chain ts (x - 0xffed)) mod 65536; sub_p_top ts x y].

Lemma pack_inner_run x ts y :
  length ts = 14%nat -> 0 <= x <= 65535 -> 0 <= y <= 65535 -> Forall (fun x => 0 <= x <= 65535) ts ->
  pack_inner (x :: ts ++ [y]) = (sub_p ts x y, if sub_p_top ts x y <? 0 then 1 else 0).
Proof.
  intros L Hx Hy F. unfold sub_p, sub_p_top.
  destruct (borrow_chain_spec ts (x - 0xffed) F ltac:(lia)) as (Ll & _ & B & _).
  pose proof (pack_loop ts [x] [y] [] (x - 0xffed) [0] eq_refl F ltac:(lia)) as E.
  rewrite L in E. cbn [length app Nat.add] in E.
  unfold pack_inner. change (get (x :: ts ++ [y]) 0) with x.
  rewrite (fsub_exact x 0xffed) by (unfold exact53; lia).
  change (upd 0 (x - 0xffed) (gf [])) with (x - 0xffed :: repeat 0 14 ++ [0]). rewrite E. clear E.
  destruct (borrow_chain ts (x - 0xffed)) as [l d]. cbn [fst snd] in *.
  rewrite (get_app_len' 14 l) by lia.
  assert (Gy : get (x :: ts ++ [y]) 15 = y) by (exact (get_app_len' 15 (x :: ts) y [] ltac:(simpl; lia))).
  rewrite Gy, (borrow_bit d) by assumption. rewrite (fsub_exact y) by (unfold exact53; lia).
  set (w := y - 0x7fff - (if d <? 0 then 1 else 0)).
  assert (Hw : -65536 <= w < 65536) by (subst w; destruct (d <? 0); lia).
  rewrite (fsub_exact (y - 0x7fff)) by (unfold exact53; fold w; lia). fold w.
  replace (l ++ [d; 0]) with ((l ++ [d]) ++ [0]) by (now rewrite <- app_assoc).
  rewrite (upd_app_len' 15) by (rewrite length_app; simpl; lia). cbv zeta.
  rewrite (get_app_len' 15) by (rewrite length_app; simpl; lia). rewrite (borrow_bit w) by assumption.
  rewrite <- app_assoc. cbn [app]. rewrite (get_app_len' 14), (upd_app_len' 14), js_and_ffff by lia.
  reflexivity.
Qed.

(** Its value is [t - p]; all limbs but the top one are in range. *)
Lemma sub_p_spec x ts y :
  length ts = 14%nat -> 0 <= x <= 65535 -> Forall (fun x => 0 <= x <= 65535) ts ->
  exists low, sub_p ts x y = low ++ [sub_p_top ts x y] /\ length low = 15%nat /\
    Forall (fun x => 0 <= x <= 65535) low /\
    val low + 2 ^ 240 * sub_p_top ts x y = val (x :: ts ++ [y]) - p25519.
Proof.
  intros L Hx F. unfold sub_p, sub_p_top.
  destruct (borrow_chain_spec ts (x - 0xffed) F ltac:(lia)) as (Ll & Rl & B & V).
  destruct (borrow_chain ts (x - 0xffed)) as [l d]. cbn [fst snd] in *.
  pose proof (Z.mod_pos_bound d 65536 ltac:(lia)) as MB.
  exists (l ++ [d mod 65536]). split; [now rewrite <- app_assoc|].
  split; [rewrite length_app; simpl; lia|].
  split; [apply Forall_app; split; [assumption|repeat constructor; lia]|].
  assert (M : d mod 65536 = d + 65536 * (if d <? 0 then 1 else 0)).
  { destruct (Z.ltb_spec d 0); [symmetry; apply Z.mod_unique with (q := -1)|rewrite Z.mod_small]; lia. }
  rewrite L in *. rewrite <- val_p_limbs. unfold p_limbs. cbn [val].
  rewrite !val_app, Ll, L. cbn [val length repeat] in *.
  change (65536 ^ Z.of_nat 14) with (2 ^ 224) in *. lia.
Qed.

(** The subtraction: [m] is the limb representation of [t - p], its top limb keeps the
    sign, and [b] tells whether it is negative. *)
Lemma pack_inner_spec t :
  canon t ->
  let m := fst (pack_inner t) in
  val m = val t - p25519 /\
  snd (pack_inner t) = (if val t <? p25519 then 1 else 0) /\
  elem bound_s m /\ (p25519 <= val t -> canon m).
Proof.
  intros C. destruct (canon_split t C) as (x & ts & y & -> & L & Hx & Hy & F).
  rewrite pack_inner_run by assumption. cbn [fst snd].
  destruct (sub_p_spec x ts y L Hx F) as (low & E & Ll & Rl & V). rewrite E.
  assert (Hw : -65536 <= sub_p_top ts x y < 65536) by (unfold sub_p_top; case (_ <? _); lia).
  pose proof (val_nonneg low Rl) as VL. rewrite Ll in VL. change (65536 ^ Z.of_nat 15) with (2 ^ 240) in VL.
  set (w := sub_p_top ts x y) in *.
  split; [rewrite val_app, Ll, <- V; cbn [val]; change (65536 ^ Z.of_nat 15) with (2 ^ 240); lia|].
  split; [|split].
  - destruct (Z.ltb_spec w 0), (Z.ltb_spec (val (x :: ts ++ [y])) p25519); try reflexivity; lia.
  - split; [rewrite length_app; simpl; lia|]. apply Forall_app. split.
    + eapply Forall_impl; [|exact Rl]. unfold bound_s. cbv beta. lia.
    + unfold bound_s. repeat constructor; lia.
  - intros Hp. split; [rewrite length_app; simpl; lia|].
    apply Forall_app. split; [assumption|]. repeat constructor; lia.
Qed.

(** One round subtracts [p] when the value is at least [p]. *)
Lemma pack_round_spec t :
  canon t -> canon (pack_round t) /\
  val (pack_round t) = if val t <? p25519 then val t else val t - p25519.
Proof.
  intros C. pose proof (pack_inner_spec t C) as (Vm & Bm & Em & Cm).
  unfold pack_round. destruct (pack_inner t) as [m b]. cbn [fst snd] in *. subst b.
  destruct (Z.ltb_spec (val t) p25519) as [H|H];
    (rewrite cswap_spec; [|lia|now apply canon_elem|assumption]); cbn; auto.
Qed.

(** A carry of a [bound_r] element whose limbs 1..15 are in range lands in [0, 65535]. *)
Lemma carry_canon v : - 38 <= v < 2 ^ 256 + 38 -> canon (carried v).
Proof.
  intros Hv. unfold carried. pose proof (limbs_range 16 v) as R. pose proof (length_limbs 16 v) as L.
  pose proof (val_limbs 16 v) as V. change (65536 ^ Z.of_nat 16) with (2 ^ 256) in V.
  destruct (limbs 16 v) as [|x l]; [discriminate|]. split; [assumption|].
  apply Forall_cons_iff in R as [Rx Rl]. constructor; [|assumption]. cbn [val] in V. cbn [length] in L.
  pose proof (val_nonneg l Rl) as Vl. replace (length l) with 15%nat in Vl by lia.
  change (65536 ^ Z.of_nat 15) with (2 ^ 240) in Vl.
  pose proof (Z.div_mod v (2 ^ 256) ltac:(lia)). pose proof (Z.mod_pos_bound v (2 ^ 256) ltac:(lia)). lia.
Qed.

Lemma carry_thrice t :
  elem bound_r t -> canon (carry (carry (carry t))) /\ eqm (val (carry (carry (carry t)))) (val t).
Proof.
  intros E.
  assert (W : forall b l, b <= 2 ^ 51 -> elem b l -> elem (2 ^ 51) l) by (intros b l; apply elem_weaken).
  pose proof (W bound_r t ltac:(unfold bound_r; lia) E) as E1.
  pose proof (val_bound bound_r t ltac:(unfold bound_r; lia) (proj2 E)) as B. rewrite (proj1 E) in B.
  change (65536 ^ Z.of_nat 16) with (2 ^ 256) in B. unfold bound_r in B.
  pose proof (Z.div_mod (val t) (2 ^ 256) ltac:(lia)) as D.
  pose proof (Z.mod_pos_bound (val t) (2 ^ 256) ltac:(lia)) as MB.
  pose proof (carried_bound (val t) 2 ltac:(lia) ltac:(lia)) as C1.
  rewrite (carry_spec t) by assumption. set (u := carried (val t)) in *.
  pose proof (val_carried (val t)) as Vu. fold u in Vu.
  assert (Cc : canon (carried (val u))) by (apply carry_canon; lia).
  rewrite (carry_spec u) by (apply (W (65535 + 38 * 2)); [lia|assumption]).
  pose proof (val_nonneg _ (proj2 Cc)) as Vc. rewrite (proj1 Cc) in Vc.
  change (65536 ^ Z.of_nat 16) with (2 ^ 256) in Vc.
  rewrite carry_spec by (apply (W bound_s); [unfold bound_s; lia|now apply canon_elem]). split.
  - apply carry_canon. lia.
  - unfold eqm in *. now rewrite !eqm_carried, <- Vu || (rewrite !eqm_carried; subst u; apply eqm_carried).
Qed.

(** ** Bytes *)

Definition limb_bytes (l : list Z) : list Z := flat_map (fun x => [x mod 256; x / 256]) l.

Lemma le_bytes_limbs l :
  Forall (fun x => 0 <= x <= 65535) l -> le_bytes (2 * length l) (val l) = limb_bytes l.
Proof.
  induction 1 as [|x l Hx _ IH]; [reflexivity|].
  replace (2 * length (x :: l))%nat with (S (S (2 * length l))) by (simpl; lia).
  cbn [le_bytes val limb_bytes flat_map app].
  rewrite Z.div_div by lia. change (256 * 256) with 65536.
  replace (x + 65536 * val l) with (val l * 65536 + x) by ring.
  rewrite (Z.div_add_l _ 65536), (Z.div_small x 65536), Z.add_0_r, IH by lia.
  replace (val l * 65536 + x) with (x + (256 * val l) * 256) by ring.
  rewrite Z_mod_plus_full, Z.div_add by lia. f_equal. f_equal.
  replace (x / 256 + 256 * val l) with (x / 256 + val l * 256) by ring. rewrite Z_mod_plus_full.
  apply Z.mod_small. pose proof (Z.div_mod x 256 ltac:(lia)). pose proof (Z.mod_pos_bound x 256 ltac:(lia)). lia.
Qed.

Lemma byte_loop ts : forall tpre pre post,
  length pre = (2 * length tpre)%nat -> length post = (2 * length ts)%nat ->
  Forall (fun x => 0 <= x <= 65535) ts ->
  fold_left (pack_bytes (tpre ++ ts)) (seq (length tpre) (length ts)) (pre ++ post) = pre ++ limb_bytes ts.
Proof.
  induction ts as [|x ts IH]; intros tpre pre post L1 L2 F.
  - destruct post; [reflexivity|discriminate].
  - destruct post as [|u [|v post]]; try (cbn [length] in L2; lia). apply Forall_cons_iff in F as [Hx F].
    cbn [length seq fold_left limb_bytes flat_map app]. unfold pack_bytes at 2.
    rewrite (get_app_len' _ tpre) by reflexivity. cbv zeta. rewrite (upd_app_len' _ pre) by lia.
    replace (pre ++ to_uint8 (js_and x 255) :: v :: post)
      with ((pre ++ [to_uint8 (js_and x 255)]) ++ v :: post) by (now rewrite <- app_assoc).
    rewrite upd_app_len' by (rewrite length_app; simpl; lia).
    rewrite js_and_ff, js_shr_int32 by (unfold is_int32; lia). unfold to_uint8.
    rewrite Z.mod_mod by lia. change (2 ^ 8) with 256.
    pose proof (Z.div_mod x 256 ltac:(lia)). pose proof (Z.mod_pos_bound x 256 ltac:(lia)).
    rewrite (Z.mod_small (x / 256)) by lia.
    specialize (IH (tpre ++ [x]) (pre ++ [x mod 256; x / 256]) post).
    rewrite !length_app, <- !app_assoc, Nat.add_1_r in IH. cbn [app length] in IH.
    rewrite <- !app_assoc. cbn [app]. rewrite IH by (cbn [length] in *; auto; lia). reflexivity.
Qed.

(** Two rounds reduce a value below [2^256] modulo [p]. *)
Lemma reduce_twice t :
  canon t -> canon (pack_round (pack_round t)) /\ val (pack_round (pack_round t)) = val t mod p25519.
Proof.
  intros C. destruct (pack_round_spec t C) as [C1 V1]. destruct (pack_round_spec _ C1) as [C2 V2].
  split; [assumption|].
  pose proof (val_nonneg t (proj2 C)) as B. rewrite (proj1 C) in B.
  change (65536 ^ Z.of_nat 16) with (2 ^ 256) in B. rewrite V2, V1. clear V1 V2 C1 C2 C.
  generalize dependent (val t). intros v B. unfold p25519.
  destruct (Z.ltb_spec v (2 ^ 255 - 19)).
  - rewrite (proj2 (Z.ltb_lt _ _)) by assumption. symmetry. apply Z.mod_small. lia.
  - destruct (Z.ltb_spec (v - (2 ^ 255 - 19)) (2 ^ 255 - 19)).
    + apply Z.mod_unique with (q := 1); lia.
    + apply Z.mod_unique with (q := 2); lia.
Qed.

Lemma write_bytes r o :
  canon r -> length o = 32%nat -> fold_left (pack_bytes r) (seq 0 16) o = le_bytes 32 (val r).
Proof.
  intros [L F] Ho. pose proof (byte_loop r [] [] o eq_refl) as E. rewrite L in E.
  specialize (E Ho F). cbn [length app] in E. etransitivity; [exact E|].
  rewrite <- le_bytes_limbs by assumption. now rewrite L.
Qed.

(** [pack] writes the canonical representative below [p], little-endian. *)
Lemma pack_spec o n :
  length o = 32%nat -> elem bound_r n -> pack o n = le_bytes 32 (val n mod p25519).
Proof.
  intros Ho En. unfold pack. rewrite (fill16_get n) by (apply En || reflexivity).
  destruct (carry_thrice n En) as [C V]. destruct (reduce_twice _ C) as [C2 V2].
  cbv zeta. rewrite write_bytes by assumption. rewrite V2. unfold eqm in V. now rewrite V.
Qed.
