(* ===== verification/Curve25519.v ===== *)
(** * Key generation of [Wireguard] (src/frontend/src/utils/index.ts)

    [generatePublicKey] is modelled statement for statement over the field
    arithmetic of Field25519; its specification is the X25519 function of
    RFC 7748 (section 5) applied to the base point 9.  [spec_ladder] is the
    RFC's loop, with its delayed conditional swap. *)
From Stdlib Require Import ZArith List Lia Setoid Morphisms.
From S2P Require Import JsInt Field25519.
Import ListNotations.
Local Open Scope Z_scope.

(** ** The code *)

Record ladder := { fe_a : list Z; fe_b : list Z; fe_c : list Z; fe_d : list Z; fe_e : list Z; fe_f : list Z }.

Definition _121665 : list Z := gf [0xdb41; 1].
Definition _9 : list Z := gf [9].

(** The statements between the two conditional swaps of the loop body. *)
Definition ladder_core (a b c d e f : list Z) : ladder :=
  let e := add e a c in
  let a := subtract a a c in
  let c := add c b d in
  let b := subtract b b d in
  let d := multmod d e e in
  let f := multmod f a a in
  let a := multmod a c a in
  let c := multmod c b e in
  let e := add e a c in
  let a := subtract a a c in
  let b := multmod b a a in
  let c := subtract c d f in
  let a := multmod a c _121665 in
  let a := add a a d in
  let c := multmod c c a in
  let a := multmod a d f in
  let d := multmod d b _9 in
  let b := multmod b e e in
  {| fe_a := a; fe_b := b; fe_c := c; fe_d := d; fe_e := e; fe_f := f |}.

(** [r = (z[i >>> 3] >>> (i & 7)) & 1] *)
Definition key_bit (z : list Z) (i : nat) : Z :=
  js_and (js_ushr (get z (Z.to_nat (js_ushr (Z.of_nat i) 3))) (js_and (Z.of_nat i) 7)) 1.

(** Body of the [for (let i = 254; i >= 0; --i)] loop. *)
Definition ladder_step (z : list Z) (s : ladder) (i : nat) : ladder :=
  let r := key_bit z i in
  let '(a, b) := cswap (fe_a s) (fe_b s) r in
  let '(c, d) := cswap (fe_c s) (fe_d s) r in
  let s := ladder_core a b c d (fe_e s) (fe_f s) in
  let '(a, b) := cswap (fe_a s) (fe_b s) r in
  let '(c, d) := cswap (fe_c s) (fe_d s) r in
  {| fe_a := a; fe_b := b; fe_c := c; fe_d := d; fe_e := fe_e s; fe_f := fe_f s |}.

Definition generatePublicKey (privateKey : list Z) : list Z :=
  let z := repeat 0 32 in
  let a := gf [1] in
  let b := gf [9] in
  let c := gf [] in
  let d := gf [1] in
  let e := gf [] in
  let f := gf [] in
  let z := fold_left (fun z i => upd i (get privateKey i) z) (seq 0 32) z in
  let z := clamp z in
  let s := fold_left (ladder_step z) (downto 254)
             {| fe_a := a; fe_b := b; fe_c := c; fe_d := d; fe_e := e; fe_f := f |} in
  let c := invert (fe_c s) (fe_c s) in
  let a := multmod (fe_a s) (fe_a s) c in
  pack z a.

(** ** RFC 7748 *)

Definition fadd_p (x y : Z) : Z := (x + y) mod p25519.
Definition fsub_p (x y : Z) : Z := (x - y) mod p25519.
Definition fmul_p (x y : Z) : Z := (x * y) mod p25519.

(** Square-and-multiply, so that the specification can be evaluated. *)
Fixpoint pow_pos_p (x : Z) (e : positive) : Z :=
  match e with
  | xH => x mod p25519
  | xO e => let y := pow_pos_p x e in fmul_p y y
  | xI e => let y := pow_pos_p x e in fmul_p (fmul_p y y) x
  end.

Definition finv_p (x : Z) : Z := pow_pos_p x (Z.to_pos (p25519 - 2)).

Record rfc_state := { x2 : Z; z2 : Z; x3 : Z; z3 : Z; swap : Z }.

Definition rfc_cswap (swap x y : Z) : Z * Z := if swap =? 1 then (y, x) else (x, y).

Definition rfc_step (k x1 : Z) (s : rfc_state) (t : nat) : rfc_state :=
  let k_t := Z.land (Z.shiftr k (Z.of_nat t)) 1 in
  let sw := Z.lxor (swap s) k_t in
  let '(x_2, x_3) := rfc_cswap sw (x2 s) (x3 s) in
  let '(z_2, z_3) := rfc_cswap sw (z2 s) (z3 s) in
  let A := fadd_p x_2 z_2 in
  let AA := fmul_p A A in
  let B := fsub_p x_2 z_2 in
  let BB := fmul_p B B in
  let E := fsub_p AA BB in
  let C := fadd_p x_3 z_3 in
  let D := fsub_p x_3 z_3 in
  let DA := fmul_p D A in
  let CB := fmul_p C B in
  {| x3 := fmul_p (fadd_p DA CB) (fadd_p DA CB);
     z3 := fmul_p x1 (fmul_p (fsub_p DA CB) (fsub_p DA CB));
     x2 := fmul_p AA BB;
     z2 := fmul_p E (fadd_p AA (fmul_p 121665 E));
     swap := k_t |}.

Definition x25519 (k u : Z) : Z :=
  let s := fold_left (rfc_step k u) (downto 254)
             {| x2 := 1; z2 := 0; x3 := u; z3 := 1; swap := 0 |} in
  let '(x_2, _) := rfc_cswap (swap s) (x2 s) (x3 s) in
  let '(z_2, _) := rfc_cswap (swap s) (z2 s) (z3 s) in
  fmul_p x_2 (finv_p z_2).

(** decodeScalar25519: clear bits 0, 1, 2 and 255, set bit 254. *)
Fixpoint le_combine (l : list Z) : Z :=
  match l with
  | [] => 0
  | x :: l => x + 256 * le_combine l
  end.

Definition decode_scalar (k : list Z) : Z :=
  let v := le_combine k in
  (v mod 2 ^ 254 / 8) * 8 + 2 ^ 254.

(** ** Specification arithmetic *)

Lemma eqm_mod x : eqm (x mod p25519) x.
Proof. unfold eqm. apply Z.mod_mod. discriminate. Qed.

Lemma eqm_of_eq x y : x = y -> eqm x y.
Proof. now intros ->. Qed.

#[local] Opaque eqm.

Lemma fadd_p_eqm x y : eqm (fadd_p x y) (x + y).
Proof. apply eqm_mod. Qed.

Lemma fsub_p_eqm x y : eqm (fsub_p x y) (x - y).
Proof. apply eqm_mod. Qed.

Lemma fmul_p_eqm x y : eqm (fmul_p x y) (x * y).
Proof. apply eqm_mod. Qed.

#[local] Instance fadd_p_proper : Proper (eqm ==> eqm ==> eqm) fadd_p.
Proof. intros a a' Ha b b' Hb. rewrite !fadd_p_eqm. now rewrite Ha, Hb. Qed.

#[local] Instance fsub_p_proper : Proper (eqm ==> eqm ==> eqm) fsub_p.
Proof. intros a a' Ha b b' Hb. rewrite !fsub_p_eqm. now rewrite Ha, Hb. Qed.

#[local] Instance fmul_p_proper : Proper (eqm ==> eqm ==> eqm) fmul_p.
Proof. intros a a' Ha b b' Hb. rewrite !fmul_p_eqm. now rewrite Ha, Hb. Qed.

Lemma pow_pos_p_eqm x e : eqm (pow_pos_p x e) (x ^ Zpos e).
Proof.
  induction e as [e IH|e IH|]; cbn [pow_pos_p].
  - rewrite !fmul_p_eqm, IH. rewrite Pos2Z.inj_xI, Z.pow_add_r, Z.pow_1_r by lia.
    replace (2 * Z.pos e) with (Z.pos e + Z.pos e) by lia. rewrite Z.pow_add_r by lia. reflexivity.
  - rewrite fmul_p_eqm, IH, Pos2Z.inj_xO.
    replace (2 * Z.pos e) with (Z.pos e + Z.pos e) by lia. rewrite Z.pow_add_r by lia. reflexivity.
  - rewrite Z.pow_1_r. apply eqm_mod.
Qed.

Lemma eqm_pow x y e : 0 <= e -> eqm x y -> eqm (x ^ e) (y ^ e).
Proof.
  intros He H. pattern e. apply natlike_ind; [reflexivity| |assumption].
  intros n Hn IH. rewrite !Z.pow_succ_r by assumption. apply eqm_mul; assumption.
Qed.

(** ** One ladder step *)

Lemma r_s l : elem bound_r l -> elem bound_s l.
Proof. apply elem_weaken. unfold bound_r, bound_s. lia. Qed.

Lemma elem_len b l : elem b l -> length l = 16%nat.
Proof. intros H. apply H. Qed.

Lemma const_121665 : elem bound_s _121665 /\ val _121665 = 121665.
Proof. split; [|reflexivity]. split; [reflexivity|]. repeat constructor; discriminate. Qed.

Lemma const_9 : elem bound_s _9 /\ val _9 = 9.
Proof. split; [|reflexivity]. split; [reflexivity|]. repeat constructor; discriminate. Qed.

Create HintDb fe.
#[local] Hint Resolve r_s : fe.
#[local] Hint Extern 1 (elem bound_s _121665) => apply const_121665 : fe.
#[local] Hint Extern 1 (elem bound_s _9) => apply const_9 : fe.
#[local] Hint Extern 2 (length _ = 16%nat) => (eapply elem_len; eassumption) : fe.

(** Names the result of the next field operation and keeps its bound and value. *)
Ltac fe_op lem r :=
  let E := fresh "E" in let V := fresh "V" in
  destruct lem as [E V];
  [ solve [auto with fe] | solve [auto with fe] | solve [auto with fe] | ];
  match type of E with elem _ ?t => set (r := t) in *; clearbody r end.

Lemma ladder_core_spec a b c d e f :
  elem bound_r a -> elem bound_r b -> elem bound_r c -> elem bound_r d ->
  length e = 16%nat -> length f = 16%nat ->
  let s := ladder_core a b c d e f in
  let A := val a + val c in let B := val a - val c in
  let C := val b + val d in let D := val b - val d in
  (elem bound_r (fe_a s) /\ elem bound_r (fe_b s) /\ elem bound_r (fe_c s) /\ elem bound_r (fe_d s) /\
   length (fe_e s) = 16%nat /\ length (fe_f s) = 16%nat) /\
  eqm (val (fe_a s)) (A * A * (B * B)) /\
  eqm (val (fe_c s)) ((A * A - B * B) * (A * A + 121665 * (A * A - B * B))) /\
  eqm (val (fe_b s)) ((D * A + C * B) * (D * A + C * B)) /\
  eqm (val (fe_d s)) (9 * ((D * A - C * B) * (D * A - C * B))).
Proof.
  intros Ha Hb Hc Hd He Hf. unfold ladder_core.
  fe_op (add_spec e a c) e1. fe_op (subtract_spec a a c) a1.
  fe_op (add_spec c b d) c1. fe_op (subtract_spec b b d) b1.
  fe_op (multmod_spec d e1 e1) d1. fe_op (multmod_spec f a1 a1) f1.
  fe_op (multmod_spec a1 c1 a1) a2. fe_op (multmod_spec c1 b1 e1) c2.
  fe_op (add_spec e1 a2 c2) e2. fe_op (subtract_spec a2 a2 c2) a3.
  fe_op (multmod_spec b1 a3 a3) b2. fe_op (subtract_spec c2 d1 f1) c3.
  fe_op (multmod_spec a3 c3 _121665) a4. fe_op (add_spec a4 a4 d1) a5.
  fe_op (multmod_spec c3 c3 a5) c4. fe_op (multmod_spec a5 d1 f1) a6.
  fe_op (multmod_spec d1 b2 _9) d2. fe_op (multmod_spec b2 e2 e2) b3.
  cbn [fe_a fe_b fe_c fe_d fe_e fe_f]. cbv zeta.
  refine (conj (conj _ (conj _ (conj _ (conj _ (conj _ _))))) _); try assumption; try (eapply elem_len; eassumption).
  destruct const_121665 as [_ K1], const_9 as [_ K9].
  refine (conj _ (conj _ (conj _ _)));
    repeat match goal with
           | H : eqm (val ?x) _ |- context [val ?x] => rewrite H
           | H : val ?x = _ |- context [val ?x] => rewrite H
           end; apply eqm_of_eq; ring.
Qed.

(** ** The key bits *)

Definition bytes (n : nat) (l : list Z) : Prop := length l = n /\ Forall (fun x => 0 <= x < 256) l.

Lemma le_combine_byte l i :
  Forall (fun x => 0 <= x < 256) l -> (le_combine l / 2 ^ (8 * Z.of_nat i)) mod 256 = get l i.
Proof.
  intros F. revert i. induction F as [|x l Hx F IH]; intros i.
  - unfold get. cbn [le_combine]. rewrite Z.div_0_l by (apply Z.pow_nonzero; lia). now destruct i.
  - cbn [le_combine]. replace (x + 256 * le_combine l) with (le_combine l * 256 + x) by ring.
    destruct i as [|i].
    + change (2 ^ (8 * Z.of_nat 0)) with 1. rewrite Z.div_1_r, Z.add_comm, Z_mod_plus_full.
      now apply Z.mod_small.
    + replace (8 * Z.of_nat (S i)) with (8 + 8 * Z.of_nat i) by lia.
      rewrite Z.pow_add_r, <- Z.div_div by (try apply Z.pow_pos_nonneg; lia).
      change (2 ^ 8) with 256. rewrite Z.div_add_l, (Z.div_small x), Z.add_0_r by lia. apply IH.
Qed.

(** The bit the code extracts from the clamped key is bit [i] of the scalar. *)
Lemma key_bit_spec z i :
  (i < 255)%nat -> bytes 32 z ->
  key_bit z i = Z.land (Z.shiftr (le_combine z) (Z.of_nat i)) 1 /\ (key_bit z i = 0 \/ key_bit z i = 1).
Proof.
  intros Hi [L F]. set (k := le_combine z). set (q := Nat.div i 8). set (m := Z.of_nat i mod 8).
  assert (Hm : 0 <= m < 8) by (apply Z.mod_pos_bound; lia).
  assert (Hq : Z.of_nat i = 8 * Z.of_nat q + m).
  { subst q m. rewrite Nat2Z.inj_div. apply Z.div_mod. lia. }
  assert (Q : Z.to_nat (js_ushr (Z.of_nat i) 3) = q).
  { unfold js_ushr, to_uint32. rewrite Z.mod_small by lia. change (3 mod 32) with 3.
    rewrite Z.shiftr_div_pow2 by lia. change (2 ^ 3) with 8. subst q.
    rewrite <- (Nat2Z.id (Nat.div i 8)), Nat2Z.inj_div. reflexivity. }
  assert (Hb : 0 <= get z q < 256) by (refine (Forall_get _ z q _ F); lia).
  assert (E : key_bit z i = (get z q / 2 ^ m) mod 2).
  { unfold key_bit. rewrite Q, js_and_1, js_and_7. fold m. unfold js_ushr, to_uint32.
    rewrite (Z.mod_small (get z q)), (Z.mod_small m) by lia. now rewrite Z.shiftr_div_pow2 by lia. }
  assert (P : Z.land (Z.shiftr k (Z.of_nat i)) 1 = (get z q / 2 ^ m) mod 2).
  { change 1 with (Z.ones 1) at 1. rewrite Z.land_ones, Z.shiftr_div_pow2 by lia. change (2 ^ 1) with 2.
    rewrite <- !Z.testbit_spec' by lia. f_equal.
    rewrite <- (le_combine_byte z q F). change 256 with (2 ^ 8).
    rewrite Z.mod_pow2_bits_low, Z.div_pow2_bits by lia. fold k. f_equal. lia. }
  split; [congruence|]. rewrite E. pose proof (Z.mod_pos_bound (get z q / 2 ^ m) 2). lia.
Qed.

(** ** The ladder *)

Definition simulates (s : ladder) (r : rfc_state) : Prop :=
  (elem bound_r (fe_a s) /\ elem bound_r (fe_b s) /\ elem bound_r (fe_c s) /\ elem bound_r (fe_d s) /\
   length (fe_e s) = 16%nat /\ length (fe_f s) = 16%nat) /\
  (swap r = 0 \/ swap r = 1) /\
  eqm (val (fe_a s)) (fst (rfc_cswap (swap r) (x2 r) (x3 r))) /\
  eqm (val (fe_b s)) (snd (rfc_cswap (swap r) (x2 r) (x3 r))) /\
  eqm (val (fe_c s)) (fst (rfc_cswap (swap r) (z2 r) (z3 r))) /\
  eqm (val (fe_d s)) (snd (rfc_cswap (swap r) (z2 r) (z3 r))).

Lemma rfc_cswap_xor s k x y :
  (s = 0 \/ s = 1) -> (k = 0 \/ k = 1) ->
  rfc_cswap (Z.lxor s k) x y = rfc_cswap k (fst (rfc_cswap s x y)) (snd (rfc_cswap s x y)).
Proof. intros [-> | ->] [-> | ->]; reflexivity. Qed.

(** The values after the core, against the RFC's formulas. *)
Definition core_values (s : ladder) (r : rfc_state) : Prop :=
  eqm (val (fe_a s)) (x2 r) /\ eqm (val (fe_b s)) (x3 r) /\
  eqm (val (fe_c s)) (z2 r) /\ eqm (val (fe_d s)) (z3 r).

Lemma simulates_swap_back s r k :
  (k = 0 \/ k = 1) -> swap r = k ->
  elem bound_r (fe_a s) -> elem bound_r (fe_b s) -> elem bound_r (fe_c s) -> elem bound_r (fe_d s) ->
  length (fe_e s) = 16%nat -> length (fe_f s) = 16%nat -> core_values s r ->
  simulates (let '(a, b) := cswap (fe_a s) (fe_b s) k in
             let '(c, d) := cswap (fe_c s) (fe_d s) k in
             {| fe_a := a; fe_b := b; fe_c := c; fe_d := d; fe_e := fe_e s; fe_f := fe_f s |}) r.
Proof.
  intros Hk Hr Ea Eb Ec Ed Le Lf (Va & Vb & Vc & Vd).
  rewrite !cswap_spec by auto with fe. unfold simulates, rfc_cswap. rewrite Hr.
  destruct Hk as [-> | ->]; cbn; tauto.
Qed.

Lemma ladder_step_spec z s r i :
  (i < 255)%nat -> bytes 32 z -> simulates s r ->
  simulates (ladder_step z s i) (rfc_step (le_combine z) 9 r i).
Proof.
  intros Hi Hz ((Ea & Eb & Ec & Ed & Le & Lf) & Hs & Va & Vb & Vc & Vd).
  destruct (key_bit_spec z i Hi Hz) as [Hk Hk01].
  unfold ladder_step, rfc_step. rewrite <- Hk. set (k := key_bit z i) in *. clearbody k.
  rewrite !rfc_cswap_xor by assumption.
  set (X2 := fst (rfc_cswap (swap r) (x2 r) (x3 r))) in *. set (X3 := snd (rfc_cswap (swap r) (x2 r) (x3 r))) in *.
  set (Z2 := fst (rfc_cswap (swap r) (z2 r) (z3 r))) in *. set (Z3 := snd (rfc_cswap (swap r) (z2 r) (z3 r))) in *.
  clearbody X2 X3 Z2 Z3. rewrite (cswap_spec (fe_a s)), (cswap_spec (fe_c s)) by auto with fe.
  unfold rfc_cswap.
  destruct (k =? 1);
    match goal with
    | |- context [ladder_core ?a ?b ?c ?d ?e ?f] =>
        destruct (ladder_core_spec a b c d e f) as ((Fa & Fb & Fc & Fd & Fe & Ff) & Wa & Wc & Wb & Wd);
          try assumption; set (t := ladder_core a b c d e f) in *; clearbody t
    end;
    apply simulates_swap_back; try assumption; try reflexivity;
    refine (conj _ (conj _ (conj _ _))); cbn [x2 x3 z2 z3];
    rewrite ?Wa, ?Wb, ?Wc, ?Wd, ?Va, ?Vb, ?Vc, ?Vd;
    repeat (rewrite ?fmul_p_eqm, ?fadd_p_eqm, ?fsub_p_eqm); apply eqm_of_eq; ring.
Qed.

(** ** Clamping *)

Lemma clamp_high b : 0 <= b < 256 -> to_uint8 (js_or (js_and b 127) 64) = b mod 64 + 64.
Proof.
  intros H. apply Z.eqb_eq. revert b H.
  apply (byte_cases (fun b => to_uint8 (js_or (js_and b 127) 64) =? b mod 64 + 64)). reflexivity.
Qed.

Lemma clamp_low b : 0 <= b < 256 -> to_uint8 (js_and b 248) = b / 8 * 8.
Proof.
  intros H. apply Z.eqb_eq. revert b H.
  apply (byte_cases (fun b => to_uint8 (js_and b 248) =? b / 8 * 8)). reflexivity.
Qed.

Lemma le_combine_app l1 l2 :
  le_combine (l1 ++ l2) = le_combine l1 + 2 ^ (8 * Z.of_nat (length l1)) * le_combine l2.
Proof.
  induction l1 as [|x l1 IH]; cbn [app le_combine length]; [cbn [Z.of_nat]; lia|].
  rewrite IH. replace (8 * Z.of_nat (S (length l1))) with (8 + 8 * Z.of_nat (length l1)) by lia.
  rewrite Z.pow_add_r by lia. ring.
Qed.

Lemma le_combine_bound l :
  Forall (fun x => 0 <= x < 256) l -> 0 <= le_combine l < 2 ^ (8 * Z.of_nat (length l)).
Proof.
  induction 1 as [|x l Hx _ IH]; cbn [le_combine length]; [lia|].
  replace (8 * Z.of_nat (S (length l))) with (8 + 8 * Z.of_nat (length l)) by lia.
  rewrite Z.pow_add_r by lia. lia.
Qed.

Lemma clamp_run x mid y :
  length mid = 30%nat -> 0 <= x < 256 -> 0 <= y < 256 ->
  clamp (x :: mid ++ [y]) = (x / 8 * 8) :: mid ++ [y mod 64 + 64].
Proof.
  intros L Hx Hy. unfold clamp.
  assert (G : get (x :: mid ++ [y]) 31 = y) by (exact (get_app_len' 31 (x :: mid) y [] ltac:(simpl; lia))).
  rewrite G, clamp_high by assumption.
  rewrite (upd_app_len' 31 (x :: mid) _ y [] ltac:(simpl; lia) : upd 31 _ (x :: mid ++ [y]) = _).
  cbn [app]. cbv zeta. change (get (x :: mid ++ [y mod 64 + 64]) 0) with x.
  rewrite clamp_low by assumption. reflexivity.
Qed.

(** [clamp] is RFC 7748's decodeScalar25519 (on the byte string). *)
Lemma clamp_spec z :
  bytes 32 z -> bytes 32 (clamp z) /\ le_combine (clamp z) = decode_scalar z.
Proof.
  intros [L F]. destruct z as [|x t]; [discriminate|]. apply Forall_cons_iff in F as [Hx F].
  destruct (exists_last (l := t)) as (mid & y & ->); [intros ->; discriminate|].
  apply Forall_app in F as [F Fy]. apply Forall_cons_iff in Fy as [Hy _].
  cbn [length] in L. rewrite length_app in L. simpl in L. assert (Lm : length mid = 30%nat) by lia.
  rewrite clamp_run by assumption.
  pose proof (Z.mod_pos_bound y 64 ltac:(lia)). pose proof (Z.div_mod y 64 ltac:(lia)).
  pose proof (Z.mod_pos_bound x 8 ltac:(lia)). pose proof (Z.div_mod x 8 ltac:(lia)).
  split.
  - split; [cbn [length]; rewrite length_app; simpl; lia|]. constructor; [lia|].
    apply Forall_app. split; [assumption|]. repeat constructor; lia.
  - unfold decode_scalar. cbn [le_combine]. rewrite !le_combine_app, Lm. cbn [le_combine].
    pose proof (le_combine_bound mid F) as B. rewrite Lm in B.
    change (2 ^ (8 * Z.of_nat 30)) with (2 ^ 240) in *. set (m := le_combine mid) in *.
    replace (x + 256 * (m + 2 ^ 240 * (y + 256 * 0)))
      with (x + 256 * m + 2 ^ 248 * (y mod 64) + (y / 64) * 2 ^ 254) by lia.
    rewrite Z_mod_plus_full, (Z.mod_small (x + 256 * m + 2 ^ 248 * (y mod 64))) by lia.
    replace (x + 256 * m + 2 ^ 248 * (y mod 64)) with (x + (32 * m + 2 ^ 245 * (y mod 64)) * 8) by lia.
    rewrite Z.div_add by lia. lia.
Qed.

(** ** The public key *)

(** Two loops whose bodies preserve a relation preserve it. *)
Lemma fold_sim {A B I} (R : A -> B -> Prop) (P : I -> Prop) (f : A -> I -> A) (g : B -> I -> B) l : forall a b,
  (forall i a b, P i -> R a b -> R (f a i) (g b i)) -> Forall P l -> R a b ->
  R (fold_left f l a) (fold_left g l b).
Proof. induction l; intros x y H F Hxy; inversion F; subst; cbn; auto. Qed.

Lemma ladder_loop z l s r :
  Forall (fun i => (i < 255)%nat) l -> bytes 32 z -> simulates s r ->
  simulates (fold_left (ladder_step z) l s) (fold_left (rfc_step (le_combine z) 9) l r).
Proof.
  intros F Hz. apply (fold_sim simulates (fun i => (i < 255)%nat)); [|assumption].
  intros i a b Hi. exact (ladder_step_spec z a b i Hi Hz).
Qed.

Lemma pow_p_eqm x e : 0 < e -> eqm (pow_pos_p x (Z.to_pos e)) (x ^ e).
Proof. intros He. destruct e; try lia. apply pow_pos_p_eqm. Qed.

Lemma finv_p_eqm x : eqm (finv_p x) (x ^ (p25519 - 2)).
Proof. unfold finv_p. apply pow_p_eqm. reflexivity. Qed.

Lemma copy_key k : length k = 32%nat ->
  fold_left (fun z i => upd i (get k i) z) (seq 0 32) (repeat 0 32) = k.
Proof.
  intros L. pose proof (fill_loop (get k) (repeat 0 32) [] []) as E.
  rewrite repeat_length, !app_nil_r in E. cbn [length app] in E. rewrite E. now apply map_get.
Qed.

(** The whole computation against the specification. *)
Lemma generatePublicKey_correct key :
  bytes 32 key ->
  generatePublicKey key = le_bytes 32 (x25519 (decode_scalar key) 9).
Proof.
  intros Hk. destruct (clamp_spec key Hk) as [Hz Ez]. unfold generatePublicKey.
  rewrite copy_key by apply Hk. rewrite <- Ez. set (z := clamp key) in *. clearbody z. unfold x25519.
  set (s0 := {| fe_a := gf [1]; fe_b := gf [9]; fe_c := gf []; fe_d := gf [1]; fe_e := gf []; fe_f := gf [] |}).
  set (r0 := {| x2 := 1; z2 := 0; x3 := 9; z3 := 1; swap := 0 |}).
  assert (S0 : simulates s0 r0).
  { unfold simulates, elem, bound_r. cbn. repeat split; try (left; reflexivity); try (repeat constructor; discriminate). }
  assert (F : Forall (fun i => (i < 255)%nat) (downto 254)).
  { apply Forall_forall. intros i Hi. apply in_rev, in_seq in Hi. lia. }
  pose proof (ladder_loop z (downto 254) s0 r0 F Hz S0) as S.
  set (s := fold_left (ladder_step z) (downto 254) s0) in *. clearbody s.
  set (r := fold_left (rfc_step (le_combine z) 9) (downto 254) r0) in *. clearbody r.
  destruct S as ((Ea & Eb & Ec & Ed & _) & _ & Va & _ & Vc & _).
  destruct (rfc_cswap (swap r) (x2 r) (x3 r)) as [X2 X3], (rfc_cswap (swap r) (z2 r) (z3 r)) as [Z2 Z3].
  cbn [fst snd] in *. cbv zeta.
  destruct (invert_spec (fe_c s) (fe_c s) (elem_len _ _ Ec) Ec) as [Ei Vi].
  destruct (multmod_spec (fe_a s) (fe_a s) (invert (fe_c s) (fe_c s))) as [Em Vm]; auto with fe.
  rewrite pack_spec by (apply Hz || assumption). f_equal.
  assert (eqm (val (multmod (fe_a s) (fe_a s) (invert (fe_c s) (fe_c s)))) (X2 * finv_p Z2)) as E.
  { rewrite Vm, Vi, Va, finv_p_eqm. apply eqm_mul; [reflexivity|].
    apply eqm_pow; [discriminate|assumption]. }
  exact E.
Qed.

(** C1. [Wireguard.generatePublicKey] computes X25519 (RFC 7748, section 5) of the
    private key and the base point 9: for every 32-byte key the returned bytes are
    the little-endian encoding, reduced modulo [2^255 - 19], of the specified
    u-coordinate.  In particular no double operation of the 255 ladder steps and of
    the inversion ever rounds and no 32-bit operation ever wraps. *)
Theorem generatePublicKey_x25519 key :
  bytes 32 key ->
  generatePublicKey key = le_bytes 32 (x25519 (decode_scalar key) 9).
Proof. exact (generatePublicKey_correct key). Qed.

(** The key of the first test vector of RFC 7748, section 5.2 (iterated X25519). *)
Definition rfc_vector_key : list Z := 9 :: repeat 0 31.

(** The hypothesis of [generatePublicKey_x25519] holds of that key. *)
Lemma generatePublicKey_x25519_witness :
  bytes 32 rfc_vector_key /\
  generatePublicKey rfc_vector_key = le_bytes 32 (x25519 (decode_scalar rfc_vector_key) 9).
Proof.
  assert (H : bytes 32 rfc_vector_key) by (split; [reflexivity|repeat constructor; discriminate]).
  exact (conj H (generatePublicKey_x25519 rfc_vector_key H)).
Defined.
