(* ===== verification/JsString.v ===== *)
(** * JavaScript strings

    A JavaScript string is modelled by the [string] of the bytes of its UTF-8
    encoding.  [startsWith], [includes], [indexOf] against an ASCII needle,
    [split], [join] and concatenation commute with the encoding.  [trim],
    [toLowerCase] and [toUpperCase] are modelled on ASCII (the white space and
    letters the panel's tags, tokens and URLs use); [substring] and [slice] are
    used by the code at offsets found by searching an ASCII separator. *)
From S2P Require Import Prelude.
From Stdlib Require Import Ascii.

(** ** Characters *)

Definition is_ws (c : ascii) : bool :=
  let n := Ascii.nat_of_ascii c in
  (Nat.leb 9 n && Nat.leb n 13) || Nat.eqb n 32.

Definition is_digit (c : ascii) : bool :=
  let n := Ascii.nat_of_ascii c in Nat.leb 48 n && Nat.leb n 57.

Definition lower_char (c : ascii) : ascii :=
  let n := Ascii.nat_of_ascii c in
  if Nat.leb 65 n && Nat.leb n 90 then Ascii.ascii_of_nat (n + 32) else c.

Definition upper_char (c : ascii) : ascii :=
  let n := Ascii.nat_of_ascii c in
  if Nat.leb 97 n && Nat.leb n 122 then Ascii.ascii_of_nat (n - 32) else c.

(** ** Searching and slicing *)

Definition starts_with (s p : string) : bool := String.prefix p s.

Fixpoint str_drop (n : nat) (s : string) : string :=
  match n, s with
  | S n, String _ s => str_drop n s
  | _, _ => s
  end.

Fixpoint str_take (n : nat) (s : string) : string :=
  match n, s with
  | S n, String c s => String c (str_take n s)
  | _, _ => ""
  end.

(** [s.indexOf(p)], [None] for -1. *)
Fixpoint index_of (p s : string) : option nat :=
  if String.prefix p s then Some 0%nat
  else match s with
       | "" => None
       | String _ s => option_map S (index_of p s)
       end.

Definition str_includes (s p : string) : bool :=
  match index_of p s with Some _ => true | None => false end.

(** [s.lastIndexOf(c)] of a one-character string. *)
Fixpoint last_index_of (c : ascii) (s : string) : option nat :=
  match s with
  | "" => None
  | String d s =>
      match last_index_of c s with
      | Some i => Some (S i)
      | None => if Ascii.eqb c d then Some 0%nat else None
      end
  end.

Fixpoint str_rev_app (s acc : string) : string :=
  match s with
  | "" => acc
  | String c s => str_rev_app s (String c acc)
  end.

Definition str_rev (s : string) : string := str_rev_app s "".

Definition ends_with (s p : string) : bool := String.prefix (str_rev p) (str_rev s).

(** ** Splitting, joining, trimming *)

(** [s.split(c)] for a one-character separator. *)
Fixpoint split_on (c : ascii) (s : string) : list string :=
  match s with
  | "" => [""]
  | String d s =>
      if Ascii.eqb c d then "" :: split_on c s
      else match split_on c s with
           | [] => [String d ""]
           | w :: ws => String d w :: ws
           end
  end.

Definition join (sep : string) (l : list string) : string := String.concat sep l.

Fixpoint trim_start (s : string) : string :=
  match s with
  | String c s' => if is_ws c then trim_start s' else s
  | "" => ""
  end.

(** Drops the trailing white space: a suffix made of white space only is dropped whole. *)
Fixpoint trim_end (s : string) : string :=
  match s with
  | "" => ""
  | String c s' =>
      match trim_end s' with
      | "" => if is_ws c then "" else String c ""
      | t => String c t
      end
  end.

Definition trim (s : string) : string := trim_end (trim_start s).

Fixpoint map_string (f : ascii -> ascii) (s : string) : string :=
  match s with
  | "" => ""
  | String c s => String (f c) (map_string f s)
  end.

Definition to_lower (s : string) : string := map_string lower_char s.
Definition to_upper (s : string) : string := map_string upper_char s.

Fixpoint forall_chars (f : ascii -> bool) (s : string) : bool :=
  match s with
  | "" => true
  | String c s => f c && forall_chars f s
  end.

(** [/^\d+$/.test(s)] *)
Definition all_digits (s : string) : bool :=
  match s with "" => false | _ => forall_chars is_digit s end.

(** Value of a digit string, most significant first. *)
Fixpoint digits_value (acc : Z) (s : string) : Z :=
  match s with
  | "" => acc
  | String c s => digits_value (10 * acc + Z.of_nat (Ascii.nat_of_ascii c - 48)) s
  end.

(** ** Lemmas *)

Lemma app_nil_r_str s : s +:+ "" = s.
Proof. induction s; cbn; [done|]. by rewrite IHs. Qed.

Lemma app_assoc_str a b c : (a +:+ b) +:+ c = a +:+ (b +:+ c).
Proof. induction a; cbn; [done|]. by rewrite IHa. Qed.

Lemma length_app_str a b : String.length (a +:+ b) = (String.length a + String.length b)%nat.
Proof. induction a; cbn; [done|]. by rewrite IHa. Qed.

Lemma prefix_app p s : String.prefix p (p +:+ s) = true.
Proof.
  induction p as [|c p IH]; cbn; [by destruct s|].
  destruct (ascii_dec c c); [done|congruence].
Qed.

Lemma prefix_iff p s : String.prefix p s = true <-> exists t, s = p +:+ t.
Proof.
  split.
  - revert s. induction p as [|c p IH]; intros s H; [by exists s|].
    destruct s as [|d s]; cbn in H; [done|].
    destruct (ascii_dec c d) as [->|]; [|done]. destruct (IH s H) as [t ->]. by exists t.
  - intros [t ->]. apply prefix_app.
Qed.

Lemma starts_with_app p s : starts_with (p +:+ s) p = true.
Proof. apply prefix_app. Qed.

Lemma str_drop_app p s : str_drop (String.length p) (p +:+ s) = s.
Proof. induction p; cbn; [done|]. exact IHp. Qed.

Lemma str_take_app p s : str_take (String.length p) (p +:+ s) = p.
Proof. induction p; cbn; [by destruct s|]. by rewrite IHp. Qed.

Lemma str_drop_0 s : str_drop 0 s = s.
Proof. by destruct s. Qed.

Lemma str_take_drop n s : str_take n s +:+ str_drop n s = s.
Proof. revert s. induction n; intros [|c s]; cbn; try done. by rewrite IHn. Qed.

Lemma app_inj_l p a b : p +:+ a = p +:+ b -> a = b.
Proof. induction p; cbn; [done|]. intros [=]. auto. Qed.

Lemma split_on_nonempty c s : split_on c s <> [].
Proof. destruct s as [|d s]; cbn; [done|]. destruct (Ascii.eqb c d); [done|]. by destruct (split_on c s). Qed.

(** The pieces of a split do not contain the separator. *)
Definition no_char (c : ascii) (s : string) : Prop := forall_chars (fun d => negb (Ascii.eqb c d)) s = true.

Lemma split_on_no_char c s : Forall (no_char c) (split_on c s).
Proof.
  induction s as [|d s IH]; cbn; [by repeat constructor|].
  destruct (Ascii.eqb c d) eqn:E; [by constructor|].
  destruct (split_on c s) as [|w ws]; [constructor; [|done]; unfold no_char; cbn; by rewrite E|].
  inversion IH; subst. constructor; [|done]. unfold no_char in *. cbn. by rewrite E.
Qed.

Lemma split_on_single c s : no_char c s -> split_on c s = [s].
Proof.
  unfold no_char. induction s as [|d s IH]; cbn; [done|]. intros H.
  apply andb_true_iff in H as [H1 H2]. apply negb_true_iff in H1. rewrite H1, IH; done.
Qed.

Lemma split_on_app c a s : no_char c a -> split_on c (a +:+ String c s) = a :: split_on c s.
Proof.
  unfold no_char. induction a as [|d a IH]; cbn; intros H.
  - by rewrite Ascii.eqb_refl.
  - apply andb_true_iff in H as [H1 H2]. apply negb_true_iff in H1. by rewrite H1, IH.
Qed.

(** Splitting what was joined with the separator gives the pieces back. *)
Lemma split_join c l :
  l <> [] -> Forall (no_char c) l -> split_on c (join (String c "") l) = l.
Proof.
  intros Hne F. induction F as [|w l Hw F IH]; [done|].
  destruct l as [|w' l]; [by apply split_on_single|].
  transitivity (w :: split_on c (join (String c "") (w' :: l))).
  - exact (split_on_app c w _ Hw).
  - by rewrite IH.
Qed.

Lemma trim_start_ws s : trim_start s = "" \/ exists c t, trim_start s = String c t /\ is_ws c = false.
Proof.
  induction s as [|c s IH]; cbn; [by left|]. destruct (is_ws c) eqn:E; [done|]. right. eauto.
Qed.

Lemma trim_end_idem s : trim_end (trim_end s) = trim_end s.
Proof.
  induction s as [|c s IH]; cbn; [done|]. destruct (trim_end s) as [|d t] eqn:E.
  - destruct (is_ws c) eqn:W; cbn; [done|]. by rewrite W.
  - cbn in *. rewrite IH. done.
Qed.

Lemma trim_start_end c s : is_ws c = false -> trim_start (trim_end (String c s)) = trim_end (String c s).
Proof. intros H. cbn. destruct (trim_end s); rewrite ?H; cbn; by rewrite H. Qed.

(** [trim] is idempotent. *)
Lemma trim_idem s : trim (trim s) = trim s.
Proof.
  unfold trim. destruct (trim_start_ws s) as [-> | (c & t & -> & H)]; [done|].
  rewrite trim_start_end by done. apply trim_end_idem.
Qed.

Lemma map_string_app f a b : map_string f (a +:+ b) = map_string f a +:+ map_string f b.
Proof. induction a; cbn; [done|]. by rewrite IHa. Qed.

Lemma lower_char_idem c : lower_char (lower_char c) = lower_char c.
Proof. destruct c as [[] [] [] [] [] [] [] []]; reflexivity. Qed.

Lemma to_lower_idem s : to_lower (to_lower s) = to_lower s.
Proof. unfold to_lower. induction s; cbn; [done|]. by rewrite lower_char_idem, IHs. Qed.

Lemma is_ws_lower c : is_ws (lower_char c) = is_ws c.
Proof. destruct c as [[] [] [] [] [] [] [] []]; reflexivity. Qed.

Lemma trim_start_lower s : trim_start (to_lower s) = to_lower (trim_start s).
Proof.
  induction s as [|c s IH]; cbn; [done|]. rewrite is_ws_lower. by destruct (is_ws c).
Qed.

Lemma trim_end_lower s : trim_end (to_lower s) = to_lower (trim_end s).
Proof.
  induction s as [|c s IH]; cbn; [done|]. unfold to_lower in *. rewrite IH.
  destruct (trim_end s); cbn; [|done]. rewrite is_ws_lower. by destruct (is_ws c).
Qed.

(** Trimming and lower-casing commute. *)
Lemma trim_lower s : trim (to_lower s) = to_lower (trim s).
Proof. unfold trim. by rewrite trim_start_lower, trim_end_lower. Qed.

#[export] Hint Rewrite app_nil_r_str app_assoc_str str_drop_app str_take_app starts_with_app
  trim_idem to_lower_idem : js.

(** ** More on searching and trimming *)

Lemma forall_chars_app f a b : forall_chars f (a +:+ b) = forall_chars f a && forall_chars f b.
Proof. induction a as [|c a IH]; cbn; [done|]. by rewrite IH, andb_assoc. Qed.

Lemma forall_chars_impl f g s :
  (forall c, f c = true -> g c = true) -> forall_chars f s = true -> forall_chars g s = true.
Proof. intros H. induction s as [|c s IH]; cbn; [done|]. intros [Hc Hs]%andb_true_iff. by rewrite H, IH. Qed.

(** A string without white space is its own trimming. *)
Lemma trim_end_no_ws s : forall_chars (fun c => negb (is_ws c)) s = true -> trim_end s = s.
Proof.
  induction s as [|c s IH]; cbn; [done|]. intros [Hc%negb_true_iff Hs]%andb_true_iff.
  rewrite IH by done. by destruct s; rewrite ?Hc.
Qed.

Lemma trim_no_ws s : forall_chars (fun c => negb (is_ws c)) s = true -> trim s = s.
Proof.
  intros H. unfold trim. replace (trim_start s) with s; [by apply trim_end_no_ws|].
  destruct s as [|c s]; [done|]. cbn in *. apply andb_true_iff in H as [Hc%negb_true_iff _]. by rewrite Hc.
Qed.

Lemma last_index_of_None c s : last_index_of c s = None <-> no_char c s.
Proof.
  unfold no_char. induction s as [|d s IH]; cbn; [done|]. rewrite andb_true_iff, negb_true_iff, <- IH.
  destruct (last_index_of c s); [naive_solver|]. destruct (Ascii.eqb c d); naive_solver.
Qed.

(** [lastIndexOf] splits the string at the last occurrence. *)
Lemma last_index_of_app c a b : no_char c b -> last_index_of c (a +:+ String c b) = Some (String.length a).
Proof.
  intros H. apply last_index_of_None in H. induction a as [|d a IH]; cbn; [by rewrite H, Ascii.eqb_refl|]. by rewrite IH.
Qed.

Lemma last_index_of_Some c s i :
  last_index_of c s = Some i -> exists a b, s = a +:+ String c b /\ i = String.length a /\ no_char c b.
Proof.
  revert i. induction s as [|d s IH]; intros i; cbn [last_index_of]; [done|].
  destruct (last_index_of c s) as [j|] eqn:E.
  - intros [= <-]. destruct (IH j eq_refl) as (a & b & -> & -> & H). by exists (String d a), b.
  - destruct (Ascii.eqb_spec c d) as [->|]; [|done]. intros [= <-]. apply last_index_of_None in E. by exists "", s.
Qed.

Lemma str_drop_S_app a c b : str_drop (S (String.length a)) (a +:+ String c b) = b.
Proof. induction a as [|d a IH]; [by destruct b|]. exact IH. Qed.

(** ** Ends and single characters *)

Lemma str_rev_app_spec s acc : str_rev_app s acc = str_rev s +:+ acc.
Proof.
  unfold str_rev. revert acc. induction s as [|c s IH]; intros acc; [done|]. cbn [str_rev_app].
  rewrite IH, (IH (String c "")), app_assoc_str. done.
Qed.

Lemma str_rev_cat a b : str_rev (a +:+ b) = str_rev b +:+ str_rev a.
Proof.
  induction a as [|c a IH]; [by rewrite app_nil_r_str|]. unfold str_rev at 1 3. cbn [String.append str_rev_app].
  rewrite !str_rev_app_spec, IH, app_assoc_str. done.
Qed.

Lemma str_rev_involutive s : str_rev (str_rev s) = s.
Proof.
  induction s as [|c s IH]; [done|]. unfold str_rev at 2. cbn [str_rev_app]. by rewrite str_rev_app_spec, str_rev_cat, IH.
Qed.

Lemma ends_with_iff s p : ends_with s p = true <-> exists a, s = a +:+ p.
Proof.
  unfold ends_with. rewrite prefix_iff. split; intros [t Ht].
  - exists (str_rev t). apply (f_equal str_rev) in Ht. by rewrite str_rev_cat, !str_rev_involutive in Ht.
  - exists (str_rev t). by rewrite Ht, str_rev_cat.
Qed.

(** A one-character suffix is found in a non-empty tail. *)
Lemma ends_with_tail a c b d : ends_with (a +:+ String c b) (String d "") = ends_with (String c b) (String d "").
Proof.
  unfold ends_with. rewrite str_rev_cat.
  assert (E : exists e t, str_rev (String c b) = String e t).
  { unfold str_rev. cbn [str_rev_app]. rewrite str_rev_app_spec. destruct (str_rev b); cbn; eauto. }
  destruct E as (e & t & ->). change (str_rev (String d "")) with (String d ""). cbn. destruct (ascii_dec d e); [|done].
  by destruct t, (str_rev a).
Qed.

Lemma index_of_none c s : no_char c s -> index_of (String c "") s = None.
Proof.
  unfold no_char. induction s as [|d s IH]; [done|]. cbn. intros [Hd Hs]%andb_true_iff.
  apply negb_true_iff, Ascii.eqb_neq in Hd. destruct (ascii_dec c d); [done|]. by rewrite IH.
Qed.

Lemma no_char_app c a b : no_char c (a +:+ b) <-> no_char c a /\ no_char c b.
Proof. unfold no_char. rewrite forall_chars_app. apply andb_true_iff. Qed.

Lemma prefix_nil s : String.prefix "" s = true.
Proof. by destruct s. Qed.

Lemma concat_cons (x : string) l : String.concat "" (x :: l) = x +:+ String.concat "" l.
Proof. destruct l; cbn; [by rewrite app_nil_r_str|done]. Qed.
