(* ===== verification/JsValue.v ===== *)
(** * JavaScript values

    The panel edits JSON documents (the Xray configuration, stream settings,
    share-link payloads) held in plain objects whose shape is only partly known:
    [Record<string, unknown>].  [jsval] is that type.  An object is the list of
    its own enumerable properties in creation order; assignment replaces the value
    of an existing key in place and appends a new one ([obj_set]), [delete] removes
    it ([obj_del]).  Keys spelled like array indices, which engines enumerate first,
    do not occur among the keys the code handles.

    A number is a decimal [m * 10^-e], NaN or an infinity: every number that is
    written in a JSON document or a share link is of that form.  The rounding of
    decimals with more than 53 bits of precision to a double is not modelled. *)
From S2P Require Import Prelude JsString.
From Stdlib Require Import Ascii.
Local Open Scope Z_scope.

Inductive num : Type :=
| NFin (m : Z) (e : nat)
| NNaN
| NInf (neg : bool).

Unset Elimination Schemes.
Inductive jsval : Type :=
| VUndef
| VNull
| VBool (b : bool)
| VNum (n : num)
| VStr (s : string)
| VArr (l : list jsval)
| VObj (o : list (string * jsval)).
Set Elimination Schemes.

(** Induction with the hypothesis for every element and every property value. *)
Lemma jsval_ind (P : jsval -> Prop) :
  P VUndef -> P VNull -> (forall b, P (VBool b)) -> (forall n, P (VNum n)) -> (forall s, P (VStr s)) ->
  (forall l, Forall P l -> P (VArr l)) -> (forall o, Forall (fun kv => P kv.2) o -> P (VObj o)) ->
  forall v, P v.
Proof.
  intros H1 H2 H3 H4 H5 H6 H7. fix IH 1. intros [| |b|n|s|l|o];
    [exact H1|exact H2|apply H3|apply H4|apply H5|apply H6|apply H7].
  - induction l as [|v l IHl]; constructor; [apply IH|exact IHl].
  - induction o as [|[k v] o IHo]; constructor; [apply IH|exact IHo].
Qed.

Definition VInt (z : Z) : jsval := VNum (NFin z 0).

(** ** Objects *)

Abbreviation obj := (list (string * jsval)).

Fixpoint obj_get (o : obj) (k : string) : jsval :=
  match o with
  | [] => VUndef
  | (k', v) :: o => if String.eqb k k' then v else obj_get o k
  end.

(** [k in o] / [Object.hasOwn(o, k)] *)
Definition obj_has (o : obj) (k : string) : bool := existsb (fun kv => String.eqb k kv.1) o.

Fixpoint obj_set (o : obj) (k : string) (v : jsval) : obj :=
  match o with
  | [] => [(k, v)]
  | (k', v') :: o => if String.eqb k k' then (k, v) :: o else (k', v') :: obj_set o k v
  end.

Definition obj_del (o : obj) (k : string) : obj := List.filter (fun kv => negb (String.eqb k kv.1)) o.

Definition obj_keys (o : obj) : list string := map fst o.

Definition obj_wf (o : obj) : Prop := NoDup (obj_keys o).

(** Property read of any value ([v?.k]): only objects have the properties used. *)
Definition get (v : jsval) (k : string) : jsval :=
  match v with VObj o => obj_get o k | _ => VUndef end.

(** Property store: ignored on primitives. *)
Definition set (v : jsval) (k : string) (x : jsval) : jsval :=
  match v with VObj o => VObj (obj_set o k x) | _ => v end.

Definition del (v : jsval) (k : string) : jsval :=
  match v with VObj o => VObj (obj_del o k) | _ => v end.

(** ** Numbers *)

(** Normal form: no trailing zero after the decimal point. *)
Fixpoint num_norm (e : nat) (m : Z) : num :=
  match e with
  | O => NFin m 0
  | S e' => if m mod 10 =? 0 then num_norm e' (m / 10) else NFin m e
  end.

Definition num_ltb (a b : num) : bool :=
  match a, b with
  | NNaN, _ | _, NNaN => false
  | NInf na, NInf nb => na && negb nb
  | NInf na, NFin _ _ => na
  | NFin _ _, NInf nb => negb nb
  | NFin m e, NFin m' e' => m * 10 ^ Z.of_nat e' <? m' * 10 ^ Z.of_nat e
  end.

Definition num_eqb (a b : num) : bool :=
  match a, b with
  | NFin m e, NFin m' e' => m * 10 ^ Z.of_nat e' =? m' * 10 ^ Z.of_nat e
  | NInf na, NInf nb => Bool.eqb na nb
  | _, _ => false
  end.

Definition num_finite (n : num) : bool := match n with NFin _ _ => true | _ => false end.

(** [Math.trunc] of a finite number. *)
Definition num_trunc (m : Z) (e : nat) : Z := Z.quot m (10 ^ Z.of_nat e).

(** [Number.isSafeInteger] *)
Definition is_safe_integer (n : num) : bool :=
  match n with
  | NFin m O => Z.abs m <=? 2 ^ 53 - 1
  | _ => false
  end.

(** [n || 0] and the like: zero and NaN are falsy. *)
Definition num_truthy (n : num) : bool :=
  match n with
  | NFin m _ => negb (m =? 0)
  | NNaN => false
  | NInf _ => true
  end.

(** *** Decimal strings *)

Definition digit_char (d : Z) : ascii := Ascii.ascii_of_nat (Z.to_nat d + 48).

Fixpoint digits_go (fuel : nat) (n : Z) (acc : string) : string :=
  let acc := String (digit_char (n mod 10)) acc in
  match fuel with
  | O => acc
  | S fuel => if n <? 10 then acc else digits_go fuel (n / 10) acc
  end.

(** Decimal digits of [n >= 0]; the fuel [log2 n] bounds the number of digits. *)
Definition digits (n : Z) : string := digits_go (Z.to_nat (Z.log2 n)) n "".

(** [String(z)] of an integer below [10^21] in magnitude. *)
Definition string_of_Z (z : Z) : string :=
  if z <? 0 then String "-" (digits (- z)) else digits z.

Fixpoint pad_zeros (n : nat) (s : string) : string :=
  match n with
  | O => s
  | S n => if Nat.leb (S n) (String.length s) then s else pad_zeros n (String "0" s)
  end.

(** [String(n)] *)
Definition string_of_num (n : num) : string :=
  match n with
  | NNaN => "NaN"
  | NInf b => if b then "-Infinity" else "Infinity"
  | NFin m O => string_of_Z m
  | NFin m e =>
      let a := Z.abs m in let q := 10 ^ Z.of_nat e in
      (if m <? 0 then "-" else "") +:+ digits (a / q) +:+ "." +:+ pad_zeros (2 * e) (digits (a mod q))
  end.

Fixpoint take_digits (s : string) (acc : Z) (n : nat) : Z * nat * string :=
  match s with
  | String c s' =>
      if is_digit c then take_digits s' (10 * acc + Z.of_nat (Ascii.nat_of_ascii c - 48)) (S n)
      else (acc, n, s)
  | "" => (acc, n, "")
  end.

(** The value of [m * 10^(ex - nf)]. *)
Definition scale10 (m : Z) (nf : nat) (ex : Z) : num :=
  if Z.of_nat nf <=? ex then NFin (m * 10 ^ (ex - Z.of_nat nf)) 0
  else num_norm (Z.to_nat (Z.of_nat nf - ex)) m.

(** StrUnsignedDecimalLiteral with the sign already read. *)
Definition parse_decimal (sign : Z) (s : string) : num :=
  let '(i, ni, r) := take_digits s 0 0 in
  let '(m, nf, r) :=
    match r with
    | String "." r' => take_digits r' i 0
    | _ => (i, 0%nat, r)
    end in
  if Nat.eqb (ni + nf) 0 then NNaN
  else match r with
       | "" => scale10 (sign * m) nf 0
       | String c r =>
           if Ascii.eqb c "e" || Ascii.eqb c "E" then
             let '(es, r) := match r with
                             | String "-" r => (-1, r)
                             | String "+" r => (1, r)
                             | _ => (1, r)
                             end in
             let '(x, nx, r) := take_digits r 0 0 in
             if Nat.eqb nx 0 || negb (String.eqb r "") then NNaN else scale10 (sign * m) nf (es * x)
           else NNaN
       end.

Definition hex_digit (c : ascii) : option Z :=
  let n := Z.of_nat (Ascii.nat_of_ascii c) in
  if (48 <=? n) && (n <=? 57) then Some (n - 48)
  else if (97 <=? n) && (n <=? 102) then Some (n - 87)
  else if (65 <=? n) && (n <=? 70) then Some (n - 55)
  else None.

Fixpoint parse_radix (radix : Z) (s : string) (acc : Z) : num :=
  match s with
  | "" => NFin acc 0
  | String c s =>
      match hex_digit c with
      | Some d => if d <? radix then parse_radix radix s (acc * radix + d) else NNaN
      | None => NNaN
      end
  end.

(** [Number(s)] of a string (ECMAScript StringToNumber). *)
Definition number_of_string (s : string) : num :=
  match trim s with
  | "" => NFin 0 0
  | "Infinity" | "+Infinity" => NInf false
  | "-Infinity" => NInf true
  | String "-" r => parse_decimal (-1) r
  | String "+" r => parse_decimal 1 r
  | String "0" (String c (String d r)) =>
      if Ascii.eqb c "x" || Ascii.eqb c "X" then parse_radix 16 (String d r) 0
      else if Ascii.eqb c "o" || Ascii.eqb c "O" then parse_radix 8 (String d r) 0
      else if Ascii.eqb c "b" || Ascii.eqb c "B" then parse_radix 2 (String d r) 0
      else parse_decimal 1 (String "0" (String c (String d r)))
  | r => parse_decimal 1 r
  end.

(** ** Tests on values *)

Definition truthy (v : jsval) : bool :=
  match v with
  | VUndef | VNull => false
  | VBool b => b
  | VNum n => num_truthy n
  | VStr s => negb (String.eqb s "")
  | VArr _ | VObj _ => true
  end.

(** [v == null] *)
Definition is_nullish (v : jsval) : bool := match v with VUndef | VNull => true | _ => false end.
Definition is_undef (v : jsval) : bool := match v with VUndef => true | _ => false end.
(** [typeof v === 'object'] (true of null) *)
Definition is_object_type (v : jsval) : bool := match v with VNull | VArr _ | VObj _ => true | _ => false end.
Definition is_array (v : jsval) : bool := match v with VArr _ => true | _ => false end.
Definition is_string (v : jsval) : bool := match v with VStr _ => true | _ => false end.

(** [v === s] for a string [s]. *)
Definition is_str (v : jsval) (s : string) : bool := match v with VStr t => String.eqb t s | _ => false end.
(** [v === true], [v === false], [v === z] *)
Definition is_bool (v : jsval) (b : bool) : bool := match v with VBool c => Bool.eqb b c | _ => false end.
Definition is_int (v : jsval) (z : Z) : bool := match v with VNum n => num_eqb n (NFin z 0) | _ => false end.

(** [Array.isArray(v) ? v : []] *)
Definition as_list (v : jsval) : list jsval := match v with VArr l => l | _ => [] end.
(** [typeof v === 'string' ? v : ''] *)
Definition str_or_empty (v : jsval) : string := match v with VStr s => s | _ => "" end.
(** [v ?? d] *)
Definition or_nullish (v d : jsval) : jsval := if is_nullish v then d else v.
(** [v || d] *)
Definition or_falsy (v d : jsval) : jsval := if truthy v then v else d.

(** ** Object laws *)

Lemma obj_get_set_eq o k v : obj_get (obj_set o k v) k = v.
Proof.
  induction o as [|[k' v'] o IH]; cbn; [by rewrite String.eqb_refl|].
  destruct (String.eqb k k') eqn:E; cbn; [by rewrite String.eqb_refl|]. by rewrite E.
Qed.

Lemma obj_get_set_ne o k k' v : k <> k' -> obj_get (obj_set o k v) k' = obj_get o k'.
Proof.
  intros H. induction o as [|[j w] o IH]; cbn.
  - destruct (String.eqb_spec k' k); congruence.
  - destruct (String.eqb_spec k j); cbn; [subst|by rewrite IH].
    destruct (String.eqb_spec k' j); congruence.
Qed.

Lemma obj_get_del_eq o k : obj_get (obj_del o k) k = VUndef.
Proof.
  unfold obj_del. induction o as [|[j w] o IH]; [done|]. cbn.
  destruct (String.eqb k j) eqn:E; cbn; [done|]. by rewrite E.
Qed.

Lemma obj_get_del_ne o k k' : k <> k' -> obj_get (obj_del o k) k' = obj_get o k'.
Proof.
  unfold obj_del. intros H. induction o as [|[j w] o IH]; [done|]. cbn.
  destruct (String.eqb_spec k j); cbn; rewrite IH; [|done]. subst.
  destruct (String.eqb_spec k' j); congruence.
Qed.

Lemma get_set_eq v k x : (exists o, v = VObj o) -> get (set v k x) k = x.
Proof. intros [o ->]. apply obj_get_set_eq. Qed.

Lemma get_set_ne v k k' x : k <> k' -> get (set v k x) k' = get v k'.
Proof. intros H. destruct v; cbn; try done. by apply obj_get_set_ne. Qed.

Lemma get_del_eq v k : get (del v k) k = VUndef.
Proof. destruct v; cbn; try done. apply obj_get_del_eq. Qed.

Lemma get_del_ne v k k' : k <> k' -> get (del v k) k' = get v k'.
Proof. intros H. destruct v; cbn; try done. by apply obj_get_del_ne. Qed.

Lemma obj_keys_set o k v : obj_has o k = true -> obj_keys (obj_set o k v) = obj_keys o.
Proof.
  unfold obj_keys, obj_has. induction o as [|[j w] o IH]; cbn; [done|].
  destruct (String.eqb_spec k j); cbn; [by subst|]. intros H. by rewrite IH.
Qed.

Lemma obj_keys_set_new o k v : obj_has o k = false -> obj_keys (obj_set o k v) = obj_keys o ++ [k].
Proof.
  unfold obj_keys, obj_has. induction o as [|[j w] o IH]; cbn; [done|].
  destruct (String.eqb_spec k j); cbn; [done|]. intros H. by rewrite IH.
Qed.

Lemma obj_has_keys o k : obj_has o k = true <-> In k (obj_keys o).
Proof.
  unfold obj_has, obj_keys. rewrite existsb_exists, in_map_iff. split.
  - intros ([j w] & Hin & E). apply String.eqb_eq in E. cbn in E. subst. by exists (j, w).
  - intros ([j w] & E & Hin). cbn in E. subst. exists (k, w). split; [done|]. apply String.eqb_refl.
Qed.

(** Assignment and deletion keep the keys distinct. *)
Lemma obj_wf_set o k v : obj_wf o -> obj_wf (obj_set o k v).
Proof.
  unfold obj_wf. intros H. destruct (obj_has o k) eqn:E; [by rewrite obj_keys_set|].
  rewrite obj_keys_set_new by done. apply list.NoDup_app. split_and!; [done| |apply NoDup_singleton].
  intros x Hx ->%list_elem_of_singleton. apply list_elem_of_In, obj_has_keys in Hx. congruence.
Qed.

Lemma obj_wf_del o k : obj_wf o -> obj_wf (obj_del o k).
Proof.
  unfold obj_wf, obj_del, obj_keys. induction o as [|[j w] o IH]; [done|]. intros H.
  inversion H as [|? ? Hn Hd]; subst. cbn. destruct (String.eqb k j); cbn; [by apply IH|].
  constructor; [|by apply IH]. intros Hin. apply Hn. apply list_elem_of_In, in_map_iff in Hin as ([k' v'] & <- & Hin).
  apply filter_In in Hin as [Hin _]. apply list_elem_of_In. by apply (in_map fst) in Hin.
Qed.

(** Enough to rewrite a chain of reads over writes of literal keys. *)
Ltac js_get :=
  repeat first
    [ rewrite obj_get_set_eq | rewrite obj_get_set_ne by discriminate
    | rewrite obj_get_del_eq | rewrite obj_get_del_ne by discriminate
    | rewrite get_set_ne by discriminate | rewrite get_del_eq
    | rewrite get_del_ne by discriminate | rewrite get_set_eq by (eexists; reflexivity) ].

(** ** Digits *)

Lemma digit_char_value d : 0 <= d < 10 -> Z.of_nat (Ascii.nat_of_ascii (digit_char d) - 48) = d.
Proof. intros H. unfold digit_char. rewrite Ascii.nat_ascii_embedding by lia. lia. Qed.

Lemma digit_char_digit d : 0 <= d < 10 -> is_digit (digit_char d) = true.
Proof.
  intros H. unfold digit_char, is_digit. rewrite Ascii.nat_ascii_embedding by lia.
  apply andb_true_iff. split; apply Nat.leb_le; lia.
Qed.

Lemma digits_go_value fuel : forall n acc,
  0 <= n < 2 ^ (Z.of_nat fuel + 1) -> digits_value 0 (digits_go fuel n acc) = digits_value n acc.
Proof.
  induction fuel as [|fuel IH]; intros n acc H; cbn [digits_go];
    pose proof (Z.mod_pos_bound n 10 ltac:(lia)); pose proof (Z.div_mod n 10 ltac:(lia)).
  - cbn [digits_value]. rewrite digit_char_value by lia. f_equal. change (2 ^ (Z.of_nat 0 + 1)) with 2 in H. lia.
  - destruct (Z.ltb_spec n 10).
    + cbn [digits_value]. rewrite digit_char_value by lia. f_equal. rewrite Z.mod_small by lia. lia.
    + replace (Z.of_nat (S fuel) + 1) with (Z.succ (Z.of_nat fuel + 1)) in H by lia.
      rewrite Z.pow_succ_r in H by lia. rewrite IH by lia.
      cbn [digits_value]. rewrite digit_char_value by lia. f_equal. lia.
Qed.

Lemma digits_value_digits n : 0 <= n -> digits_value 0 (digits n) = n.
Proof.
  intros H. unfold digits. rewrite digits_go_value; [done|].
  destruct (Z.eq_dec n 0) as [->|]; [done|].
  rewrite Z2Nat.id by apply Z.log2_nonneg. pose proof (Z.log2_spec n ltac:(lia)).
  rewrite Z.add_1_r. lia.
Qed.

Lemma digits_go_all fuel : forall n acc,
  forall_chars is_digit acc = true -> forall_chars is_digit (digits_go fuel n acc) = true.
Proof.
  induction fuel as [|fuel IH]; intros n acc H; cbn [digits_go];
    pose proof (Z.mod_pos_bound n 10 ltac:(lia)).
  - cbn. by rewrite digit_char_digit.
  - destruct (n <? 10); [|apply IH]; cbn; by rewrite digit_char_digit.
Qed.

Lemma digits_all n : all_digits (digits n) = true.
Proof.
  pose proof (digits_go_all (Z.to_nat (Z.log2 n)) n "" eq_refl) as H.
  unfold all_digits, digits. destruct (digits_go _ n "") eqn:E; [|done]. exfalso.
  assert (L : forall f m a, digits_go f m a <> "").
  { intros f. induction f; intros m a; cbn; [done|]. by destruct (m <? 10). }
  by eapply L.
Qed.

Lemma take_digits_all s : forall acc n,
  forall_chars is_digit s = true -> take_digits s acc n = (digits_value acc s, (n + String.length s)%nat, "").
Proof.
  induction s as [|c s IH]; intros acc n H; cbn in *; [by rewrite Nat.add_0_r|].
  apply andb_true_iff in H as [-> H]. rewrite IH by done. do 2 f_equal. lia.
Qed.

Lemma is_digit_not_ws c : is_digit c = true -> is_ws c = false.
Proof. destruct c as [[] [] [] [] [] [] [] []]; by cbn. Qed.

Lemma trim_end_digits s : forall_chars is_digit s = true -> trim_end s = s.
Proof.
  induction s as [|c s IH]; cbn; [done|]. intros [Hc Hs]%andb_true_iff. rewrite IH by done.
  destruct s; [|done]. by rewrite (is_digit_not_ws c).
Qed.

Lemma trim_digits s : forall_chars is_digit s = true -> trim s = s.
Proof.
  intros H. unfold trim. rewrite <- (trim_end_digits s) at 2 by done. f_equal.
  destruct s as [|c s]; cbn in *; [done|]. apply andb_true_iff in H as [H _].
  by rewrite (is_digit_not_ws c).
Qed.

(** [Number(s)] of a digit string is its decimal value. *)
Lemma number_of_digits s : all_digits s = true -> number_of_string s = NFin (digits_value 0 s) 0.
Proof.
  intros H. assert (F : forall_chars is_digit s = true) by (by destruct s).
  assert (P : s <> "" -> parse_decimal 1 s = NFin (digits_value 0 s) 0).
  { intros Hne. unfold parse_decimal. rewrite take_digits_all by done. cbn.
    rewrite Nat.add_0_r. destruct s; [done|]. cbn [Nat.eqb String.length]. unfold scale10.
    change (Z.of_nat 0 <=? 0) with true. cbn iota. by rewrite Z.mul_1_r, Z.mul_1_l. }
  unfold number_of_string. rewrite trim_digits by done. destruct s as [|c s]; [done|].
  specialize (P ltac:(done)). cbn [forall_chars] in F. apply andb_true_iff in F as [Fc Fs].
  destruct c as [[] [] [] [] [] [] [] []]; cbn in Fc; try discriminate; try (exact P).
  destruct s as [|d s]; [exact P|]. destruct s as [|e s]; [exact P|].
  cbn [forall_chars] in Fs. apply andb_true_iff in Fs as [Fd _].
  destruct d as [[] [] [] [] [] [] [] []]; cbn in Fd; try discriminate; exact P.
Qed.

(** Reading back a printed non-negative integer. *)
Lemma number_of_string_of_Z z : 0 <= z -> number_of_string (string_of_Z z) = NFin z 0.
Proof.
  intros H. unfold string_of_Z. destruct (Z.ltb_spec z 0); [lia|].
  rewrite number_of_digits by apply digits_all. by rewrite digits_value_digits.
Qed.

Lemma obj_get_set_cases o k v k' : obj_get (obj_set o k v) k' = if String.eqb k k' then v else obj_get o k'.
Proof.
  destruct (String.eqb_spec k k') as [->|E]; [apply obj_get_set_eq|by apply obj_get_set_ne].
Qed.

(** Storing the value that is already there, and deleting what is not there, are no-ops. *)
Lemma obj_set_same o k : obj_has o k = true -> obj_set o k (obj_get o k) = o.
Proof.
  unfold obj_has. induction o as [|[j w] o IH]; cbn; [done|].
  destruct (String.eqb_spec k j); cbn; [by subst|]. intros H. by rewrite IH.
Qed.

Lemma obj_del_absent o k : obj_has o k = false -> obj_del o k = o.
Proof.
  unfold obj_has, obj_del. induction o as [|[j w] o IH]; cbn; [done|].
  destruct (String.eqb k j); cbn; [done|]. intros H. by rewrite IH.
Qed.

Lemma obj_has_set o k k' v : obj_has (obj_set o k v) k' = String.eqb k' k || obj_has o k'.
Proof.
  unfold obj_has. induction o as [|[j w] o IH]; cbn; [done|].
  destruct (String.eqb_spec k j); cbn; [subst; by destruct (String.eqb k' j)|]. rewrite IH.
  by destruct (String.eqb k' j), (String.eqb k' k).
Qed.

Lemma obj_has_del o k k' : obj_has (obj_del o k) k' = negb (String.eqb k k') && obj_has o k'.
Proof.
  unfold obj_has, obj_del. induction o as [|[j w] o IH]; cbn; [by rewrite andb_false_r|].
  destruct (String.eqb_spec k j); cbn; rewrite IH; [subst|].
  - rewrite (String.eqb_sym k' j). by destruct (String.eqb j k').
  - destruct (String.eqb_spec k' j), (String.eqb_spec k k'); cbn; congruence.
Qed.

Lemma obj_has_get o k : obj_has o k = false -> obj_get o k = VUndef.
Proof.
  unfold obj_has. induction o as [|[j w] o IH]; cbn; [done|]. by destruct (String.eqb k j).
Qed.

Lemma obj_get_has o k : obj_get o k <> VUndef -> obj_has o k = true.
Proof. intros H. destruct (obj_has o k) eqn:E; [done|]. by rewrite obj_has_get in H. Qed.

Lemma obj_set_set o k v v' : obj_set (obj_set o k v) k v' = obj_set o k v'.
Proof.
  induction o as [|[j w] o IH]; cbn; [by rewrite String.eqb_refl|].
  destruct (String.eqb k j) eqn:E; cbn; [by rewrite String.eqb_refl|]. by rewrite E, IH.
Qed.

(** ** Equality is decidable *)

#[global] Instance num_eq_dec : EqDecision num.
Proof. solve_decision. Defined.

(** Structural equality of values. *)
Fixpoint jsval_eqb (a b : jsval) : bool :=
  match a, b with
  | VUndef, VUndef | VNull, VNull => true
  | VBool x, VBool y => Bool.eqb x y
  | VNum x, VNum y => bool_decide (x = y)
  | VStr x, VStr y => String.eqb x y
  | VArr l, VArr m =>
      (fix go (l m : list jsval) : bool :=
         match l, m with [], [] => true | x :: l, y :: m => jsval_eqb x y && go l m | _, _ => false end) l m
  | VObj l, VObj m =>
      (fix go (l m : obj) : bool :=
         match l, m with [], [] => true | (k, x) :: l, (k', y) :: m => String.eqb k k' && jsval_eqb x y && go l m | _, _ => false end) l m
  | _, _ => false
  end.

Lemma jsval_eqb_eq a : forall b, jsval_eqb a b = true <-> a = b.
Proof.
  induction a as [| |x|x|x|l IH|l IH] using jsval_ind; intros [| |y|y|y|m|m]; cbn; try (split; intros; discriminate || done).
  - rewrite Bool.eqb_true_iff. split; congruence.
  - rewrite bool_decide_eq_true. split; congruence.
  - rewrite String.eqb_eq. split; congruence.
  - revert m. induction IH as [|x l Hx _ IHl]; intros [|y m]; try (split; intros; discriminate || done).
    rewrite andb_true_iff, Hx, IHl. split; [intros [-> [= ->]]; done|intros [= -> ->]; done].
  - revert m. induction IH as [|[k x] l Hx _ IHl]; intros [|[k' y] m]; try (split; intros; discriminate || done).
    cbn in Hx. rewrite !andb_true_iff, String.eqb_eq, Hx, IHl. split; [intros [[-> ->] [= ->]]; done|intros [= -> -> ->]; done].
Qed.

#[global] Instance jsval_eq_dec : EqDecision jsval.
Proof. refine (fun a b => cast_if (decide (jsval_eqb a b = true))); by rewrite <-jsval_eqb_eq. Defined.
