(* ===== verification/JsObject.v ===== *)
(** * Entry-wise transformations of objects

    The normalisers of the frontend are long sequences of conditional deletions and
    in-place rewrites of single keys.  Each of them acts on every entry of the object
    separately, so a sequence of them is one pass over the entries ([entrywise]).  That
    normal form gives reads ([get_entrywise]) and idempotence ([entrywise_idem]) without
    looking at the individual steps. *)
From S2P Require Import Prelude JsString JsValue.

(** ** The steps as the code writes them *)

(** [if (p(o[k])) delete o[k]] *)
Definition drop_if (o : obj) (k : string) (p : jsval -> bool) : obj :=
  if p (obj_get o k) then obj_del o k else o.

(** [for (const k of keys) if (p(o[k])) delete o[k]] *)
Definition drop_keys (o : obj) (keys : list string) (p : jsval -> bool) : obj :=
  fold_left (fun o k => drop_if o k p) keys o.

(** ** One pass over the entries *)

(** [f k v]: the new value of the entry, or its removal. *)
Definition entrywise (f : string -> jsval -> option jsval) (o : obj) : obj :=
  omap (fun kv => option_map (pair kv.1) (f kv.1 kv.2)) o.

(** Sequencing of two passes. *)
Definition andThen (f g : string -> jsval -> option jsval) (k : string) (v : jsval) : option jsval :=
  match f k v with Some w => g k w | None => None end.

(** A sequence of conditional deletions, and what it does to one entry. *)
Definition dropping := list (string * (jsval -> bool)).

Definition drops (l : dropping) (o : obj) : obj := fold_left (fun o kp => drop_if o kp.1 kp.2) l o.

Definition dropped (l : dropping) (k : string) (v : jsval) : bool :=
  existsb (fun kp => String.eqb kp.1 k && kp.2 v) l.

Definition fdrops (l : dropping) (k : string) (v : jsval) : option jsval :=
  if dropped l k v then None else Some v.

Lemma entrywise_keys f o k : In k (obj_keys (entrywise f o)) -> In k (obj_keys o).
Proof.
  unfold obj_keys, entrywise. induction o as [|[j w] o IH]; cbn; [done|].
  destruct (f j w); cbn; naive_solver.
Qed.

Lemma entrywise_wf f o : obj_wf o -> obj_wf (entrywise f o).
Proof.
  unfold obj_wf. induction o as [|[j w] o IH]; [done|]. intros H. inversion H as [|? ? Hn Hd]; subst.
  cbn. destruct (f j w); cbn; [|by apply IH]. constructor; [|by apply IH].
  rewrite list_elem_of_In. intros Hin%entrywise_keys. apply Hn. by apply list_elem_of_In.
Qed.

Lemma entrywise_andThen f g o : entrywise g (entrywise f o) = entrywise (andThen f g) o.
Proof.
  unfold entrywise, andThen. induction o as [|[j w] o IH]; cbn; [done|].
  destruct (f j w) as [v|]; cbn; [|done]. destruct (g j v); cbn; by rewrite IH.
Qed.

Lemma entrywise_ext f g o : (forall k v, f k v = g k v) -> entrywise f o = entrywise g o.
Proof. intros H. unfold entrywise. induction o as [|[j w] o IH]; cbn; [done|]. by rewrite H, IH. Qed.

Lemma entrywise_id f o : (forall k v, In (k, v) o -> f k v = Some v) -> entrywise f o = o.
Proof.
  unfold entrywise. induction o as [|[j w] o IH]; cbn; [done|]. intros H.
  rewrite H by auto. cbn. f_equal. apply IH. auto.
Qed.

Lemma In_entrywise f o k v : In (k, v) (entrywise f o) <-> exists w, In (k, w) o /\ f k w = Some v.
Proof.
  unfold entrywise. induction o as [|[j u] o IH]; cbn; [naive_solver|].
  destruct (f j u) eqn:E; cbn; rewrite IH; naive_solver.
Qed.

(** A pass whose results are its fixed points is idempotent. *)
Lemma entrywise_idem f o :
  (forall k v w, f k v = Some w -> f k w = Some w) -> entrywise f (entrywise f o) = entrywise f o.
Proof. intros H. apply entrywise_id. intros k v (w & _ & E)%In_entrywise. eauto. Qed.

Lemma entrywise_idem_on f o :
  (forall k v w, In (k, v) o -> f k v = Some w -> f k w = Some w) -> entrywise f (entrywise f o) = entrywise f o.
Proof. intros H. apply entrywise_id. intros k v (w & Hin & E)%In_entrywise. eauto. Qed.

Lemma get_entrywise f o k :
  obj_wf o -> obj_get (entrywise f o) k = if obj_has o k then default VUndef (f k (obj_get o k)) else VUndef.
Proof.
  unfold obj_wf, entrywise, obj_has. induction o as [|[j w] o IH]; [done|]. intros H.
  inversion H as [|? ? Hn Hd]; subst. specialize (IH Hd). cbn.
  destruct (String.eqb_spec k j) as [->|Hne]; cbn.
  - destruct (f j w) as [v|]; cbn; [by rewrite String.eqb_refl|]. rewrite IH.
    destruct (existsb _ o) eqn:E; [|done]. apply obj_has_keys in E. destruct Hn. by apply list_elem_of_In.
  - destruct (f j w) as [v|]; cbn; [|done]. rewrite (proj2 (String.eqb_neq k j) Hne). done.
Qed.

Lemma has_entrywise f o k :
  obj_wf o -> obj_has (entrywise f o) k = obj_has o k && (match f k (obj_get o k) with Some _ => true | None => false end).
Proof.
  unfold obj_wf, entrywise, obj_has. induction o as [|[j w] o IH]; [done|]. intros H.
  inversion H as [|? ? Hn Hd]; subst. specialize (IH Hd). cbn.
  destruct (String.eqb_spec k j) as [->|Hne]; cbn.
  - destruct (f j w) as [v|]; cbn; [by rewrite String.eqb_refl|]. rewrite IH.
    destruct (existsb _ o) eqn:E; [|done]. apply obj_has_keys in E. destruct Hn. by apply list_elem_of_In.
  - destruct (f j w) as [v|]; cbn; [|done]. rewrite (proj2 (String.eqb_neq k j) Hne). done.
Qed.

(** ** The steps are passes *)

(** In an object with distinct keys an entry is what a read returns. *)
Lemma In_get o k v : obj_wf o -> In (k, v) o -> obj_get o k = v.
Proof.
  unfold obj_wf. induction o as [|[j w] o IH]; cbn; [done|]. intros H. inversion H as [|? ? Hn Hd]; subst.
  intros [[= -> ->]|Hin]; [by rewrite String.eqb_refl|]. destruct (String.eqb_spec k j) as [->|]; [|auto].
  destruct Hn. apply list_elem_of_In. by apply (in_map fst) in Hin.
Qed.

(** Rewriting the entry of one key, the object having distinct keys. *)
Lemma entrywise_at o k0 f :
  obj_wf o -> (forall k v, k <> k0 -> f k v = Some v) ->
  entrywise f o = match f k0 (obj_get o k0) with
                  | None => obj_del o k0
                  | Some w => if obj_has o k0 then obj_set o k0 w else o
                  end.
Proof.
  unfold obj_wf, entrywise, obj_del, obj_has. intros H Hf. induction o as [|[j w] o IH]; [by destruct (f k0 _)|].
  inversion H as [|? ? Hn Hd]; subst. specialize (IH Hd). cbn.
  destruct (String.eqb_spec k0 j) as [->|Hne]; cbn.
  - assert (Hid : omap (fun kv => option_map (pair kv.1) (f kv.1 kv.2)) o = o).
    { apply (entrywise_id f). intros k v Hin. apply Hf. intros ->. apply Hn, list_elem_of_In.
      by apply (in_map fst) in Hin. }
    rewrite Hid. destruct (f j w); cbn; [done|]. symmetry. change (obj_del o j = o). apply obj_del_absent.
    destruct (obj_has o j) eqn:E; [|done]. apply obj_has_keys in E. destruct Hn. by apply list_elem_of_In.
  - rewrite Hf by congruence. cbn. rewrite IH. destruct (f k0 (obj_get o k0)); [|done].
    by destruct (existsb _ o).
Qed.

Lemma drop_if_entrywise o k0 p : obj_wf o -> drop_if o k0 p = entrywise (fdrops [(k0, p)]) o.
Proof.
  intros H. rewrite (entrywise_at o k0); [|done|].
  - unfold drop_if, fdrops, dropped. cbn. rewrite String.eqb_refl, orb_false_r. cbn.
    destruct (p (obj_get o k0)); [done|]. destruct (obj_has o k0) eqn:E; [|done]. by rewrite obj_set_same.
  - intros k v Hk. unfold fdrops, dropped. cbn. by rewrite (proj2 (String.eqb_neq k0 k)) by congruence.
Qed.

Lemma drops_entrywise l : forall o, obj_wf o -> drops l o = entrywise (fdrops l) o.
Proof.
  unfold drops. induction l as [|[k0 p] l IH]; intros o H; cbn [fold_left fst snd].
  - symmetry. by apply entrywise_id.
  - rewrite drop_if_entrywise by done. rewrite IH by by apply entrywise_wf. rewrite entrywise_andThen.
    apply entrywise_ext. intros k v. unfold andThen, fdrops, dropped. cbn. rewrite orb_false_r.
    by destruct (String.eqb k0 k && p v).
Qed.

Lemma drops_app l1 l2 o : drops (l1 ++ l2) o = drops l2 (drops l1 o).
Proof. apply fold_left_app. Qed.

Lemma drops_snoc l k p o : drop_if (drops l o) k p = drops (l ++ [(k, p)]) o.
Proof. by rewrite drops_app. Qed.

Lemma drop_keys_drops keys p : forall o, drop_keys o keys p = drops (map (fun k => (k, p)) keys) o.
Proof. unfold drop_keys, drops. induction keys; intros o; cbn; auto. Qed.

Lemma drops_wf l o : obj_wf o -> obj_wf (drops l o).
Proof. intros H. rewrite drops_entrywise by done. by apply entrywise_wf. Qed.

Lemma get_drops l o k :
  obj_wf o -> obj_get (drops l o) k = if dropped l k (obj_get o k) then VUndef else obj_get o k.
Proof.
  intros H. rewrite drops_entrywise, get_entrywise by done. unfold fdrops.
  destruct (obj_has o k) eqn:E; [by destruct (dropped l k _)|]. rewrite (obj_has_get o k E). by case_match.
Qed.

Lemma has_drops l o k :
  obj_wf o -> obj_has (drops l o) k = obj_has o k && negb (dropped l k (obj_get o k)).
Proof. intros H. rewrite drops_entrywise, has_entrywise by done. unfold fdrops. by destruct (dropped l k _). Qed.

(** What is left of an object after a sequence of deletions survives it again. *)
Lemma drops_survive l o k v : obj_wf o -> In (k, v) (drops l o) -> dropped l k v = false.
Proof.
  intros H. rewrite drops_entrywise by done. intros (w & _ & E)%In_entrywise. unfold fdrops in E.
  destruct (dropped l k w) eqn:D; [done|]. by injection E as ->.
Qed.

(** A new key is appended. *)
Lemma obj_set_new (d : obj) k v : obj_has d k = false -> obj_set d k v = d ++ [(k, v)].
Proof.
  unfold obj_has. induction d as [|[j w] d IH]; cbn; [done|]. destruct (String.eqb k j); [done|]. intros H. by rewrite IH.
Qed.

(** ** Distinct keys throughout a value *)

Fixpoint vwf (v : jsval) : Prop :=
  match v with
  | VArr l => (fix all l := match l with [] => True | x :: l => vwf x /\ all l end) l
  | VObj o => obj_wf o /\ (fix all o := match o with [] => True | kv :: o => vwf kv.2 /\ all o end) o
  | _ => True
  end.

Lemma vwf_In o k v : vwf (VObj o) -> In (k, v) o -> vwf v.
Proof.
  intros [_ H]. revert H. induction o as [|[j w] o IH]; cbn; [done|]. intros [Hw H] [[= -> ->]|Hin]; auto.
Qed.

Lemma vwf_obj o : vwf (VObj o) -> obj_wf o.
Proof. by intros [H _]. Qed.

Lemma vwf_intro o : obj_wf o -> (forall k v, In (k, v) o -> vwf v) -> vwf (VObj o).
Proof.
  intros H K. split; [done|]. clear H. induction o as [|[j w] o IH]; [done|]. split; [apply (K j); by left|].
  apply IH. intros k v Hin. apply (K k). by right.
Qed.

Lemma vwf_get o k : vwf (VObj o) -> vwf (obj_get o k).
Proof.
  intros H. destruct (obj_has o k) eqn:E; [|by rewrite obj_has_get].
  apply obj_has_keys, in_map_iff in E as ([k0 v] & <- & Hin). cbn.
  rewrite (In_get o k0 v); [by eapply vwf_In|by apply vwf_obj|done].
Qed.

(** ** Rewriting one key *)

(** [if the value of k is handled by g: replace it, or delete it] *)
Definition update_key (o : obj) (k : string) (g : jsval -> option jsval) : obj :=
  match g (obj_get o k) with
  | None => obj_del o k
  | Some w => if obj_has o k then obj_set o k w else o
  end.

Definition fupdate (k0 : string) (g : jsval -> option jsval) (k : string) (v : jsval) : option jsval :=
  if String.eqb k0 k then g v else Some v.

Lemma update_key_entrywise o k0 g : obj_wf o -> update_key o k0 g = entrywise (fupdate k0 g) o.
Proof.
  intros H. rewrite (entrywise_at o k0); [|done|].
  - unfold fupdate. by rewrite String.eqb_refl.
  - intros k v Hk. unfold fupdate. by rewrite (proj2 (String.eqb_neq k0 k)) by congruence.
Qed.

(** A pass is stable when its results are its fixed points. *)
Definition stable (f : string -> jsval -> option jsval) : Prop := forall k v w, f k v = Some w -> f k w = Some w.

Lemma stable_drops l : stable (fdrops l).
Proof. intros k v w. unfold fdrops. destruct (dropped l k v) eqn:E; [done|]. intros [= <-]. by rewrite E. Qed.

Lemma stable_then_drops f l : stable f -> stable (andThen f (fdrops l)).
Proof.
  intros Hf k v w. unfold andThen. destruct (f k v) as [u|] eqn:E; [|done]. intros H.
  assert (u = w) as ->. { unfold fdrops in H. destruct (dropped l k u); congruence. }
  by rewrite (Hf _ _ _ E).
Qed.

Lemma stable_drops_update l k0 g :
  (forall v w, g v = Some w -> g w = Some w) -> (forall v, dropped l k0 v = false) ->
  stable (andThen (fdrops l) (fupdate k0 g)).
Proof.
  intros Hg Hl k v w. unfold andThen, fdrops, fupdate. destruct (dropped l k v) eqn:E; [done|].
  destruct (String.eqb_spec k0 k) as [<-|Hne]; [rewrite Hl; apply Hg|]. intros [= <-]. by rewrite E.
Qed.

(** Keys that a sequence of deletions does not name are kept. *)
Lemma dropped_other l k v : existsb (fun kp => String.eqb kp.1 k) l = false -> dropped l k v = false.
Proof.
  unfold dropped. induction l as [|[k0 p] l IH]; cbn; [done|].
  intros [-> H]%orb_false_iff. cbn. auto.
Qed.

#[export] Hint Resolve entrywise_wf obj_wf_set obj_wf_del drops_wf stable_drops stable_then_drops : js.

Lemma obj_ext a b : obj_wf a -> obj_keys a = obj_keys b -> (forall k, obj_get a k = obj_get b k) -> a = b.
Proof.
  unfold obj_wf, obj_keys. revert b. induction a as [|[k v] a IH]; intros [|[k' v'] b] W K G; try done. cbn in W, K. injection K as <- K.
  inversion W as [|? ? Hn W']; subst. pose proof (G k) as Gk. cbn in Gk. rewrite String.eqb_refl in Gk. subst v'. f_equal. apply IH; [done..|].
  intros j. pose proof (G j) as Gj. cbn in Gj. destruct (String.eqb_spec j k) as [Ej|]; [|done]. rewrite Ej.
  assert (A : forall o : obj, map fst o = map fst a -> obj_get o k = VUndef).
  { intros o Eo. apply obj_has_get. apply not_true_iff_false. intros Hk%obj_has_keys. apply Hn, list_elem_of_In. unfold obj_keys in Hk. by rewrite <-Eo. }
  by rewrite !A.
Qed.
