(* ===== verification/StreamSchemas.v ===== *)
(** * The schemas of stream settings

    Models src/frontend/src/schemas/protocols/stream (tcp.ts, kcp.ts, ws.ts, grpc.ts, httpupgrade.ts, xhttp.ts, hysteria.ts,
    sockopt.ts), src/frontend/src/schemas/protocols/security (tls.ts, reality.ts) and src/frontend/src/schemas/primitives/sniffing.ts.
    A schema is its [safeParse]: the data of an accepted value, [None] for a refusal.  The combinators are those of zod 4 the
    files use: an object schema keeps its own keys, in its order, and drops the others; a default stands for
    [undefined] only; a key whose data is undefined is there exactly when it was in the input.

    What the editors rely on is that parsing is stable: the data of a schema is accepted as it is.  The class [Stable] is
    that promise, proved per combinator and derived for every schema of the files. *)
From Stdlib Require Import Ascii.
From S2P Require Import Prelude JsString JsValue JsObject.
Local Open Scope Z_scope.

Definition schema := jsval -> option jsval.

(** ** Combinators *)

Definition z_str : schema := fun v => match v with VStr _ => Some v | _ => None end.
(** [z.string().min(1)] *)
Definition z_str1 : schema := fun v => match v with VStr s => if String.eqb s "" then None else Some v | _ => None end.
Definition z_bool : schema := fun v => match v with VBool _ => Some v | _ => None end.
Definition z_num : schema := fun v => match v with VNum n => if num_finite n then Some v else None | _ => None end.
(** [z.number().int()] with an optional minimum and maximum *)
Definition z_int (low high : option Z) : schema := fun v =>
  match v with
  | VNum n => if is_safe_integer n && match low with Some l => negb (num_ltb n (NFin l 0)) | None => true end &&
                 match high with Some h => negb (num_ltb (NFin h 0) n) | None => true end then Some v else None
  | _ => None
  end.
Definition z_from (low : Z) : schema := z_int (Some low) None.
Definition z_enum (l : list string) : schema := fun v => match v with VStr s => if existsb (String.eqb s) l then Some v else None | _ => None end.
Definition z_literal (s : string) : schema := z_enum [s].
Definition z_two : schema := fun v => match v with VNum n => if num_eqb n (NFin 2 0) then Some v else None | _ => None end.

(** The data of a list of values. *)
Fixpoint parse_all (s : schema) (l : list jsval) : option (list jsval) :=
  match l with [] => Some [] | x :: l => match s x, parse_all s l with Some d, Some ds => Some (d :: ds) | _, _ => None end end.

Definition z_array (s : schema) : schema := fun v => match v with VArr l => option_map VArr (parse_all s l) | _ => None end.
(** [z.array(s).min(1)] *)
Definition z_array1 (s : schema) : schema := fun v => match v with VArr (_ :: _) => z_array s v | _ => None end.

Fixpoint parse_values (s : schema) (o : obj) : option obj :=
  match o with [] => Some [] | (k, x) :: o => match s x, parse_values s o with Some d, Some ds => Some ((k, d) :: ds) | _, _ => None end end.
Definition z_record (s : schema) : schema := fun v => match v with VObj o => option_map VObj (parse_values s o) | _ => None end.

Definition z_optional (s : schema) : schema := fun v => match v with VUndef => Some VUndef | _ => s v end.
Definition z_default (s : schema) (d : jsval) : schema := fun v => match v with VUndef => Some d | _ => s v end.
Fixpoint z_union (l : list schema) : schema := fun v => match l with [] => None | s :: l => match s v with Some d => Some d | None => z_union l v end end.
Definition z_preprocess (f : jsval -> jsval) (s : schema) : schema := fun v => s (f v).

(** The keys of an object schema. *)
Fixpoint parse_fields (fields : list (string * schema)) (o : obj) : option obj :=
  match fields with
  | [] => Some []
  | (k, s) :: fields =>
      match s (obj_get o k), parse_fields fields o with
      | Some VUndef, Some ds => Some (if obj_has o k then (k, VUndef) :: ds else ds)
      | Some d, Some ds => Some ((k, d) :: ds)
      | _, _ => None
      end
  end.
Definition z_object (fields : list (string * schema)) : schema := fun v => match v with VObj o => option_map VObj (parse_fields fields o) | _ => None end.

(** [z.discriminatedUnion(key, ...)]: the branch of the value at [key]. *)
Definition z_discriminated (key : string) (branches : list (string * schema)) : schema := fun v =>
  match get v key with
  | VStr t => match List.find (fun b => String.eqb b.1 t) branches with Some b => b.2 v | None => None end
  | _ => None
  end.

(** ** Streams *)

Definition WsHeaderMapSchema : schema := z_record z_str.
Definition V2HeaderMapSchema : schema := z_record (z_array z_str).

Definition TcpRequestSchema : schema := z_object
  [("version", z_default z_str (VStr "1.1")); ("method", z_default z_str (VStr "GET")); ("path", z_default (z_array1 z_str) (VArr [VStr "/"]));
   ("headers", z_default V2HeaderMapSchema (VObj []))].
Definition TcpResponseSchema : schema := z_object
  [("version", z_default z_str (VStr "1.1")); ("status", z_default z_str (VStr "200")); ("reason", z_default z_str (VStr "OK"));
   ("headers", z_default V2HeaderMapSchema (VObj []))].
Definition TcpHeaderHttpSchema : schema := z_object
  [("type", z_literal "http"); ("request", z_optional TcpRequestSchema); ("response", z_optional TcpResponseSchema)].
Definition TcpHeaderNoneSchema : schema := z_object [("type", z_literal "none")].
Definition TcpHeaderSchema : schema := z_discriminated "type" [("none", TcpHeaderNoneSchema); ("http", TcpHeaderHttpSchema)].
Definition TcpStreamSettingsSchema : schema := z_object [("acceptProxyProtocol", z_default z_bool (VBool false)); ("header", z_optional TcpHeaderSchema)].

Definition KcpStreamSettingsSchema : schema := z_object
  [("mtu", z_default (z_int (Some 576) (Some 1460)) (VInt 1350)); ("tti", z_default (z_int (Some 10) (Some 100)) (VInt 20));
   ("uplinkCapacity", z_default (z_from 0) (VInt 5)); ("downlinkCapacity", z_default (z_from 0) (VInt 20)); ("cwndMultiplier", z_default (z_from 1) (VInt 1));
   ("maxSendingWindow", z_default (z_from 0) (VInt 2097152))].

Definition WsStreamSettingsSchema : schema := z_object
  [("acceptProxyProtocol", z_default z_bool (VBool false)); ("path", z_default z_str (VStr "/")); ("host", z_default z_str (VStr ""));
   ("headers", z_default WsHeaderMapSchema (VObj [])); ("heartbeatPeriod", z_default (z_from 0) (VInt 0))].

Definition GrpcStreamSettingsSchema : schema := z_object
  [("serviceName", z_default z_str (VStr "")); ("authority", z_default z_str (VStr "")); ("multiMode", z_default z_bool (VBool false))].

Definition HttpUpgradeStreamSettingsSchema : schema := z_object
  [("acceptProxyProtocol", z_default z_bool (VBool false)); ("path", z_default z_str (VStr "/")); ("host", z_default z_str (VStr ""));
   ("headers", z_default WsHeaderMapSchema (VObj []))].

Definition XHttpModeSchema : schema := z_enum ["auto"; "packet-up"; "stream-up"; "stream-one"].

Definition XHttpXmuxSchema : schema := z_object
  [("maxConcurrency", z_default z_str (VStr "16-32")); ("maxConnections", z_default (z_union [z_str; z_num]) (VInt 0));
   ("cMaxReuseTimes", z_default (z_union [z_str; z_num]) (VInt 0)); ("hMaxRequestTimes", z_default z_str (VStr "600-900"));
   ("hMaxReusableSecs", z_default z_str (VStr "1800-3000")); ("hKeepAlivePeriod", z_default (z_from 0) (VInt 0))].

Definition migrateLegacyXhttp (v : jsval) : jsval :=
  match v with
  | VObj o =>
      let lift new old o := if is_undef (obj_get o new) && negb (is_undef (obj_get o old)) then obj_set o new (obj_get o old) else o in
      VObj (obj_del (obj_del (lift "sessionIDKey" "sessionKey" (lift "sessionIDPlacement" "sessionPlacement" o)) "sessionPlacement") "sessionKey")
  | _ => v
  end.

Definition empty_text : schema := z_default z_str (VStr "").

Definition xhttp_fields : list (string * schema) :=
  [("path", z_default z_str (VStr "/")); ("host", empty_text); ("mode", z_default XHttpModeSchema (VStr "auto"));
   ("xPaddingBytes", z_default z_str (VStr "100-1000")); ("xPaddingObfsMode", z_default z_bool (VBool false)); ("xPaddingKey", empty_text);
   ("xPaddingHeader", empty_text); ("xPaddingPlacement", empty_text); ("xPaddingMethod", empty_text); ("sessionIDPlacement", empty_text);
   ("sessionIDKey", empty_text); ("sessionIDTable", empty_text); ("sessionIDLength", empty_text); ("seqPlacement", empty_text); ("seqKey", empty_text);
   ("uplinkDataPlacement", empty_text); ("uplinkDataKey", empty_text); ("scMaxEachPostBytes", empty_text); ("noSSEHeader", z_default z_bool (VBool false));
   ("scMaxBufferedPosts", z_default (z_from 0) (VInt 30)); ("scStreamUpServerSecs", z_default z_str (VStr "20-80"));
   ("serverMaxHeaderBytes", z_default (z_from 0) (VInt 0)); ("uplinkHTTPMethod", empty_text); ("headers", z_default WsHeaderMapSchema (VObj []));
   ("scMinPostsIntervalMs", empty_text); ("uplinkChunkSize", z_default (z_from 0) (VInt 0)); ("noGRPCHeader", z_default z_bool (VBool false));
   ("xmux", z_optional XHttpXmuxSchema); ("enableXmux", z_default z_bool (VBool false))].
Definition XHttpStreamSettingsSchema : schema := z_preprocess migrateLegacyXhttp (z_object xhttp_fields).

Definition HysteriaMasqueradeSchema : schema := z_object
  [("type", z_default (z_enum [""; "proxy"; "file"; "string"]) (VStr "")); ("dir", empty_text); ("url", empty_text); ("rewriteHost", z_default z_bool (VBool false));
   ("xForwarded", z_optional z_bool); ("insecure", z_default z_bool (VBool false)); ("content", empty_text); ("headers", z_default (z_record z_str) (VObj []));
   ("statusCode", z_default (z_from 0) (VInt 0))].
Definition HysteriaStreamSettingsSchema : schema := z_object
  [("version", z_default z_two (VInt 2)); ("auth", empty_text); ("udpIdleTimeout", z_default (z_int (Some 2) (Some 600)) (VInt 60));
   ("masquerade", z_optional HysteriaMasqueradeSchema)].

(** ** Socket options *)

Definition SockoptDomainStrategySchema : schema :=
  z_enum ["AsIs"; "UseIP"; "UseIPv6v4"; "UseIPv6"; "UseIPv4v6"; "UseIPv4"; "ForceIP"; "ForceIPv6v4"; "ForceIPv6"; "ForceIPv4v6"; "ForceIPv4"].
Definition TcpCongestionSchema : schema := z_enum ["bbr"; "cubic"; "reno"].
Definition TproxyModeSchema : schema := z_enum ["off"; "redirect"; "tproxy"].
Definition AddressPortStrategySchema : schema :=
  z_enum ["none"; "SrvPortOnly"; "SrvAddressOnly"; "SrvPortAndAddress"; "TxtPortOnly"; "TxtAddressOnly"; "TxtPortAndAddress"].
Definition HappyEyeballsSchema : schema := z_object
  [("tryDelayMs", z_default (z_from 0) (VInt 250)); ("prioritizeIPv6", z_default z_bool (VBool false)); ("interleave", z_default (z_from 1) (VInt 1));
   ("maxConcurrentTry", z_default (z_from 0) (VInt 4))].
Definition CustomSockoptSchema : schema := z_object
  [("system", z_optional (z_enum ["linux"; "windows"; "darwin"])); ("type", z_enum ["int"; "str"]); ("level", z_default z_str (VStr "6")); ("opt", z_str);
   ("value", z_union [z_str; z_num])].
Definition SockoptStreamSettingsSchema : schema := z_object
  [("acceptProxyProtocol", z_default z_bool (VBool false)); ("tcpFastOpen", z_default (z_union [z_bool; z_int None None]) (VBool false));
   ("mark", z_default (z_int None None) (VInt 0)); ("tproxy", z_default TproxyModeSchema (VStr "off")); ("tcpMptcp", z_default z_bool (VBool false));
   ("penetrate", z_default z_bool (VBool false)); ("domainStrategy", z_default SockoptDomainStrategySchema (VStr "AsIs"));
   ("tcpMaxSeg", z_default (z_from 0) (VInt 0)); ("dialerProxy", empty_text); ("tcpKeepAliveInterval", z_default (z_from 0) (VInt 0));
   ("tcpKeepAliveIdle", z_default (z_from 0) (VInt 0)); ("tcpUserTimeout", z_default (z_from 0) (VInt 0)); ("tcpcongestion", z_default TcpCongestionSchema (VStr "bbr"));
   ("V6Only", z_default z_bool (VBool false)); ("tcpWindowClamp", z_default (z_from 0) (VInt 0)); ("interface", empty_text);
   ("trustedXForwardedFor", z_default (z_array z_str) (VArr [])); ("addressPortStrategy", z_default AddressPortStrategySchema (VStr "none"));
   ("happyEyeballs", z_optional HappyEyeballsSchema); ("customSockopt", z_default (z_array CustomSockoptSchema) (VArr []))].

(** ** Security *)

Definition TlsVersionSchema : schema := z_enum ["1.0"; "1.1"; "1.2"; "1.3"].
Definition fingerprints : list string :=
  ["chrome"; "firefox"; "safari"; "ios"; "android"; "edge"; "360"; "qq"; "random"; "randomized"; "randomizednoalpn"; "unsafe"].
Definition UtlsFingerprintSchema : schema := z_enum fingerprints.
Definition TlsFingerprintSchema : schema := z_union [UtlsFingerprintSchema; z_literal ""].
Definition AlpnSchema : schema := z_enum ["h3"; "h2"; "http/1.1"].
Definition TlsCertUsageSchema : schema := z_enum ["encipherment"; "verify"; "issue"].

(** The fields every certificate has, with the schema of its usage. *)
Definition cert_fields (usage : schema) : list (string * schema) :=
  [("ocspStapling", z_default z_num (VInt 0)); ("oneTimeLoading", z_default z_bool (VBool false)); ("usage", usage); ("buildChain", z_default z_bool (VBool false))].
Definition default_usage : schema := z_default TlsCertUsageSchema (VStr "encipherment").
Definition file_fields (key usage : schema) : list (string * schema) := ("certificateFile", z_str1) :: ("keyFile", key) :: cert_fields usage.
Definition inline_fields (key usage : schema) : list (string * schema) := ("certificate", z_array z_str) :: ("key", key) :: cert_fields usage.

Definition TlsCertFileSchema : schema := z_object (file_fields z_str1 default_usage).
Definition TlsCertInlineSchema : schema := z_object (inline_fields (z_array z_str) default_usage).
Definition TlsCertSchema : schema := z_union
  [TlsCertFileSchema; TlsCertInlineSchema; z_object (file_fields (z_optional z_str) (z_literal "verify")); z_object (inline_fields (z_optional (z_array z_str)) (z_literal "verify"))].

Definition TlsClientSettingsSchema : schema := z_object
  [("fingerprint", z_default TlsFingerprintSchema (VStr "")); ("echConfigList", empty_text); ("pinnedPeerCertSha256", z_default (z_array z_str) (VArr []));
   ("verifyPeerCertByName", empty_text)].
Definition TlsStreamSettingsSchema : schema := z_object
  [("serverName", empty_text); ("minVersion", z_default TlsVersionSchema (VStr "1.2")); ("maxVersion", z_default TlsVersionSchema (VStr "1.3")); ("cipherSuites", empty_text);
   ("rejectUnknownSni", z_default z_bool (VBool false)); ("disableSystemRoot", z_default z_bool (VBool false)); ("enableSessionResumption", z_default z_bool (VBool false));
   ("certificates", z_default (z_array TlsCertSchema) (VArr [])); ("alpn", z_default (z_array AlpnSchema) (VArr [VStr "h2"; VStr "http/1.1"])); ("echServerKeys", empty_text);
   ("curvePreferences", z_optional (z_array z_str)); ("masterKeyLog", z_optional z_str); ("echSockopt", z_optional SockoptStreamSettingsSchema);
   ("settings", z_default TlsClientSettingsSchema
      (VObj [("fingerprint", VStr ""); ("echConfigList", VStr ""); ("pinnedPeerCertSha256", VArr []); ("verifyPeerCertByName", VStr "")]))].

Definition RealityClientSettingsSchema : schema := z_object
  [("publicKey", empty_text); ("fingerprint", z_default UtlsFingerprintSchema (VStr "chrome")); ("serverName", empty_text); ("spiderX", z_default z_str (VStr "/"));
   ("mldsa65Verify", empty_text)].
Definition RealityLimitFallbackSchema : schema := z_object
  [("afterBytes", z_default (z_from 0) (VInt 0)); ("bytesPerSec", z_default (z_from 0) (VInt 0)); ("burstBytesPerSec", z_default (z_from 0) (VInt 0))].

(** [typeof v === 'string' && v !== ''] *)
Definition is_text (v : jsval) : bool := match v with VStr s => negb (String.eqb s "") | _ => false end.

Definition aliasRealityDest (v : jsval) : jsval :=
  match v with
  | VObj o => if negb (is_text (obj_get o "target")) && is_text (obj_get o "dest") then VObj (obj_set o "target" (obj_get o "dest")) else v
  | _ => v
  end.

Definition reality_fields : list (string * schema) :=
  [("show", z_default z_bool (VBool false)); ("xver", z_default (z_from 0) (VInt 0)); ("target", empty_text); ("serverNames", z_default (z_array z_str) (VArr []));
   ("privateKey", empty_text); ("minClientVer", empty_text); ("maxClientVer", empty_text); ("maxTimediff", z_default (z_from 0) (VInt 0));
   ("shortIds", z_default (z_array z_str) (VArr [])); ("mldsa65Seed", empty_text); ("masterKeyLog", z_optional z_str);
   ("limitFallbackUpload", z_optional RealityLimitFallbackSchema); ("limitFallbackDownload", z_optional RealityLimitFallbackSchema);
   ("settings", z_default RealityClientSettingsSchema
      (VObj [("publicKey", VStr ""); ("fingerprint", VStr "chrome"); ("serverName", VStr ""); ("spiderX", VStr "/"); ("mldsa65Verify", VStr "")]))].
Definition RealityStreamSettingsSchema : schema := z_preprocess aliasRealityDest (z_object reality_fields).

Definition SniffingSchema : schema := z_object
  [("enabled", z_default z_bool (VBool false)); ("destOverride", z_default (z_array (z_enum ["http"; "tls"; "quic"; "fakedns"])) (VArr [VStr "http"; VStr "tls"; VStr "quic"; VStr "fakedns"]));
   ("metadataOnly", z_default z_bool (VBool false)); ("routeOnly", z_default z_bool (VBool false)); ("ipsExcluded", z_default (z_array z_str) (VArr []));
   ("domainsExcluded", z_default (z_array z_str) (VArr []))].

(** ** Parsing is stable *)

(** The data of a schema is accepted as it is. *)
Class Stable (s : schema) : Prop := stable v d : s v = Some d -> s d = Some d.
(** The data of a schema is never undefined. *)
Class Solid (s : schema) : Prop := solid v d : s v = Some d -> d <> VUndef.
(** The data of a schema is the value. *)
Class Checks (s : schema) : Prop := checks v d : s v = Some d -> d = v.

#[export] Instance checks_stable s `{!Checks s} : Stable s | 10.
Proof. intros v d E. pose proof (checks v d E) as ->. exact E. Qed.

Ltac scalar := intros ? ?; unfold z_str, z_str1, z_bool, z_num, z_int, z_from, z_enum, z_two; repeat case_match; congruence.

#[export] Instance str_checks : Checks z_str.
Proof. scalar. Qed.
#[export] Instance str1_checks : Checks z_str1.
Proof. scalar. Qed.
#[export] Instance bool_checks : Checks z_bool.
Proof. scalar. Qed.
#[export] Instance num_checks : Checks z_num.
Proof. scalar. Qed.
#[export] Instance int_checks l h : Checks (z_int l h).
Proof. scalar. Qed.
#[export] Instance from_checks l : Checks (z_from l).
Proof. apply int_checks. Qed.
#[export] Instance enum_checks l : Checks (z_enum l).
Proof. scalar. Qed.
#[export] Instance literal_checks s : Checks (z_literal s).
Proof. apply enum_checks. Qed.
#[export] Instance two_checks : Checks z_two.
Proof. scalar. Qed.

#[export] Instance str_solid : Solid z_str.
Proof. scalar. Qed.
#[export] Instance str1_solid : Solid z_str1.
Proof. scalar. Qed.
#[export] Instance bool_solid : Solid z_bool.
Proof. scalar. Qed.
#[export] Instance num_solid : Solid z_num.
Proof. scalar. Qed.
#[export] Instance int_solid l h : Solid (z_int l h).
Proof. scalar. Qed.
#[export] Instance from_solid l : Solid (z_from l).
Proof. apply int_solid. Qed.
#[export] Instance enum_solid l : Solid (z_enum l).
Proof. scalar. Qed.
#[export] Instance two_solid : Solid z_two.
Proof. scalar. Qed.

(** A union of tests is a test. *)
Class AllCheck (l : list schema) : Prop := all_check : Forall Checks l.
#[export] Instance all_check_nil : AllCheck [].
Proof. constructor. Qed.
#[export] Instance all_check_cons s l `{!Checks s} `{!AllCheck l} : AllCheck (s :: l).
Proof. by constructor. Qed.

#[export] Instance union_checks l `{H : !AllCheck l} : Checks (z_union l).
Proof.
  intros v d. unfold AllCheck in H. induction H as [|s l Hs _ IH]; [done|]. cbn. destruct (s v) as [d'|] eqn:E; [intros [= <-]; by apply Hs|exact IH].
Qed.

Class AllSolid (l : list schema) : Prop := all_solid : Forall Solid l.
#[export] Instance all_solid_nil : AllSolid [].
Proof. constructor. Qed.
#[export] Instance all_solid_cons s l `{!Solid s} `{!AllSolid l} : AllSolid (s :: l).
Proof. by constructor. Qed.

#[export] Instance union_solid l `{H : !AllSolid l} : Solid (z_union l).
Proof.
  intros v d. unfold AllSolid in H. induction H as [|s l Hs _ IH]; [done|]. cbn. destruct (s v) as [d'|] eqn:E; [intros [= <-]; by eapply Hs|exact IH].
Qed.

#[export] Instance array_stable s `{!Stable s} : Stable (z_array s).
Proof.
  intros v d. destruct v as [| | | | |l|]; try done. cbn. destruct (parse_all s l) as [ds|] eqn:E; [|done]. intros [= <-]. cbn.
  assert (P : parse_all s ds = Some ds); [|by rewrite P]. revert ds E. induction l as [|x l IH]; intros ds; cbn; [by intros [= <-]|].
  destruct (s x) as [y|] eqn:X; [|done]. destruct (parse_all s l) as [ys|]; [|done]. intros [= <-]. cbn. by rewrite (stable x y X), (IH ys eq_refl).
Qed.

#[export] Instance array_solid s : Solid (z_array s).
Proof. intros v d. destruct v; try done. cbn. destruct (parse_all s l); [|done]. by intros [= <-]. Qed.

#[export] Instance array1_stable s `{!Stable s} : Stable (z_array1 s).
Proof.
  intros v d E. assert (A : z_array s v = Some d) by (unfold z_array1 in E; by destruct v as [| | | | |[|x l]|]). pose proof (stable v d A) as B.
  destruct v as [| | | | |[|x l]|]; try done. cbn in A. destruct (s x) as [y|]; [|done]. destruct (parse_all s l) as [ys|]; [|done]. injection A as <-. exact B.
Qed.

#[export] Instance array1_solid s : Solid (z_array1 s).
Proof. intros v d E. destruct v as [| | | | |[|x l]|]; try done. exact (array_solid s _ _ E). Qed.

#[export] Instance record_stable s `{!Stable s} : Stable (z_record s).
Proof.
  intros v d. destruct v as [| | | | | |o]; try done. cbn. destruct (parse_values s o) as [ds|] eqn:E; [|done]. intros [= <-]. cbn.
  assert (P : parse_values s ds = Some ds); [|by rewrite P]. revert ds E. induction o as [|[k x] o IH]; intros ds; cbn; [by intros [= <-]|].
  destruct (s x) as [y|] eqn:X; [|done]. destruct (parse_values s o) as [ys|]; [|done]. intros [= <-]. cbn. by rewrite (stable x y X), (IH ys eq_refl).
Qed.

#[export] Instance record_solid s : Solid (z_record s).
Proof. intros v d. destruct v; try done. cbn. destruct (parse_values s o); [|done]. by intros [= <-]. Qed.

#[export] Instance optional_stable s `{!Stable s} : Stable (z_optional s).
Proof. intros v d E. destruct d; try done; (destruct v; [done|exact (stable (s := s) _ _ E)..]). Qed.

(** A default the schema accepts. *)
Class Default (s : schema) (d : jsval) : Prop := default_ok : s d = Some d /\ d <> VUndef.
#[export] Hint Extern 1 (Default _ _) => red; split; [vm_compute; reflexivity|discriminate] : typeclass_instances.

#[export] Instance default_stable s x `{!Stable s} `{!Solid s} `{!Default s x} : Stable (z_default s x).
Proof.
  intros v d E. destruct (default_ok : s x = Some x /\ x <> VUndef) as [Ex Nx]. assert (K : d <> VUndef /\ s d = Some d).
  { destruct v; try (split; [exact (solid (s := s) _ _ E)|exact (stable (s := s) _ _ E)]). injection E as <-. done. }
  destruct K as [K1 K2]. by destruct d.
Qed.

#[export] Instance default_solid s x `{!Solid s} `{!Default s x} : Solid (z_default s x).
Proof. intros v d E. destruct (default_ok : s x = Some x /\ x <> VUndef) as [_ Nx]. destruct v; try exact (solid (s := s) _ _ E). by injection E as <-. Qed.

(** *** Objects *)

Lemma parse_field fields o ds k s : parse_fields fields o = Some ds -> In (k, s) fields -> exists d, s (obj_get o k) = Some d.
Proof.
  revert ds. induction fields as [|[k' s'] fields IH]; intros ds E I; [done|]. cbn in E. destruct (s' (obj_get o k')) as [d|] eqn:D; [|done].
  destruct (parse_fields fields o) as [r|]; [|by destruct d]. destruct I as [[= -> ->]|I]; [by exists d|by eapply IH].
Qed.

Lemma parse_refused fields o : parse_fields fields o = None <-> exists k s, In (k, s) fields /\ s (obj_get o k) = None.
Proof.
  split.
  - induction fields as [|[k s] fields IH]; [done|]. cbn. destruct (s (obj_get o k)) as [d|] eqn:D; [|intros _; exists k, s; split; [by left|done]].
    destruct (parse_fields fields o) as [r|]; [by destruct d|]. intros _. destruct (IH eq_refl) as (k' & s' & I & N). exists k', s'. split; [by right|done].
  - intros (k & s & I & N). destruct (parse_fields fields o) as [ds|] eqn:E; [|done]. destruct (parse_field _ _ _ _ _ E I) as [d D]. congruence.
Qed.

Lemma parse_keys fields o ds k : parse_fields fields o = Some ds -> obj_has ds k = true -> In k (map fst fields).
Proof.
  revert ds. induction fields as [|[k' s'] fields IH]; intros ds E H; cbn in E; [by injection E as <-|]. destruct (s' (obj_get o k')) as [d|]; [|done].
  destruct (parse_fields fields o) as [r|]; [|by destruct d]. assert (K : ds = r \/ exists x, ds = (k', x) :: r) by (destruct d; [destruct (obj_has o k')|..]; injection E as <-; eauto).
  destruct K as [->|[x ->]]; [right; by eapply IH|]. unfold obj_has in H. cbn in H. apply orb_true_iff in H as [->%String.eqb_eq|H]; [by left|right; by eapply IH].
Qed.

(** The data at a key of the schema is the data of its value, and the key is there if the value had it or there is data. *)
Lemma parse_get fields o ds k s : NoDup (map fst fields) -> parse_fields fields o = Some ds -> In (k, s) fields ->
  s (obj_get o k) = Some (obj_get ds k) /\ (obj_get ds k = VUndef -> obj_has ds k = obj_has o k).
Proof.
  revert ds. induction fields as [|[k' s'] fields IH]; intros ds N E I; [done|]. cbn in N, E. apply list.NoDup_cons in N as [Nk N].
  destruct (s' (obj_get o k')) as [d|] eqn:D; [|done]. destruct (parse_fields fields o) as [r|] eqn:R; [|by destruct d]. destruct I as [[= <- <-]|I].
  - assert (A : obj_has r k' = false). { apply not_true_iff_false. intros H. apply Nk, list_elem_of_In. by eapply parse_keys. }
    destruct d; [destruct (obj_has o k') eqn:H|..]; injection E as <-; try (unfold obj_has; cbn; rewrite String.eqb_refl; done).
    rewrite D, (obj_has_get _ _ A), A. done.
  - assert (K : k' <> k) by (intros ->; apply Nk, list_elem_of_In; by apply (in_map fst) in I). destruct (IH r N eq_refl I) as [I1 I2].
    assert (C : obj_get ds k = obj_get r k /\ obj_has ds k = obj_has r k).
    { assert (C : forall x, obj_get ((k', x) :: r) k = obj_get r k /\ obj_has ((k', x) :: r) k = obj_has r k) by (intros x; unfold obj_has; cbn; by rewrite (proj2 (String.eqb_neq k k')) by congruence).
      destruct d; [destruct (obj_has o k')|..]; injection E as <-; auto. }
    destruct C as [-> ->]. done.
Qed.

(** Equal data and equal presence at every key give equal results. *)
Lemma parse_same fields o ds : (forall k s, In (k, s) fields -> s (obj_get ds k) = s (obj_get o k) /\ (s (obj_get o k) = Some VUndef -> obj_has ds k = obj_has o k)) ->
  parse_fields fields ds = parse_fields fields o.
Proof.
  induction fields as [|[k s] fields IH]; intros H; [done|]. cbn. destruct (H k s) as [E1 E2]; [by left|]. rewrite E1, IH by (intros k' s' I; apply H; by right).
  destruct (s (obj_get o k)) as [[]|]; try done. destruct (parse_fields fields o); [|done]. by rewrite E2.
Qed.

Class StableFields (fields : list (string * schema)) : Prop := stable_fields : Forall (fun f => Stable f.2) fields.
#[export] Instance stable_fields_nil : StableFields [].
Proof. constructor. Qed.
#[export] Instance stable_fields_cons k s fields `{!Stable s} `{!StableFields fields} : StableFields ((k, s) :: fields).
Proof. by constructor. Qed.

Class Distinct (l : list string) : Prop := distinct : NoDup l.
Lemma distinct_keys (l : list string) : bool_decide (NoDup l) = true -> Distinct l.
Proof. apply bool_decide_eq_true. Qed.
#[export] Hint Extern 1 (Distinct _) => apply distinct_keys; vm_compute; reflexivity : typeclass_instances.

Lemma fields_stable fields o ds : StableFields fields -> NoDup (map fst fields) -> parse_fields fields o = Some ds -> parse_fields fields ds = Some ds.
Proof.
  intros S N E. rewrite <-E. apply parse_same. intros k s I. destruct (parse_get fields o ds k s N E I) as [D H]. pose proof (proj1 (List.Forall_forall _ _) S _ I) as Hs.
  cbn in Hs. rewrite D. split; [exact (Hs _ _ D)|]. intros [= U]. by apply H.
Qed.

#[export] Instance object_stable fields `{!StableFields fields} `{!Distinct (map fst fields)} : Stable (z_object fields).
Proof.
  intros v d. destruct v as [| | | | | |o]; try done. cbn. destruct (parse_fields fields o) as [ds|] eqn:E; [|done]. intros [= <-]. cbn. by rewrite (fields_stable fields o ds _ Distinct0 E).
Qed.

#[export] Instance object_solid fields : Solid (z_object fields).
Proof. intros v d. destruct v; try done. cbn. destruct (parse_fields fields o); [|done]. by intros [= <-]. Qed.

(** The data of an object schema, key by key. *)
Lemma object_data fields v d : NoDup (map fst fields) -> z_object fields v = Some d -> exists o ds, v = VObj o /\ d = VObj ds /\
  (forall k s, In (k, s) fields -> s (obj_get o k) = Some (obj_get ds k)) /\ forall k, ~ In k (map fst fields) -> obj_has ds k = false.
Proof.
  intros N E. destruct v as [| | | | | |o]; try done. cbn in E. destruct (parse_fields fields o) as [ds|] eqn:P; [|done]. injection E as <-. exists o, ds. split; [done|]. split; [done|]. split.
  - intros k s I. by apply (parse_get fields o ds k s N P I).
  - intros k H. apply not_true_iff_false. intros K. by apply H, (parse_keys fields o ds).
Qed.

(** *** Discriminated unions *)

Class StableBranches (key : string) (branches : list (string * schema)) : Prop :=
  stable_branches : Forall (fun b => Stable b.2 /\ forall v d, b.2 v = Some d -> get d key = get v key) branches.
#[export] Instance stable_branches_nil key : StableBranches key [].
Proof. constructor. Qed.

(** An object schema whose test at [key] is the first keeps the value there. *)
#[export] Instance stable_branches_cons key t s fields branches `{!Checks s} `{!StableFields ((key, s) :: fields)} `{D : !Distinct (map fst ((key, s) :: fields))}
  `{!StableBranches key branches} : StableBranches key ((t, z_object ((key, s) :: fields)) :: branches).
Proof.
  constructor; [|done]. cbn [snd]. split; [exact _|]. intros v d E. destruct (object_data _ v d D E) as (o & ds & -> & -> & H & _). cbn [get].
  apply (checks (s := s)). apply H. by left.
Qed.

#[export] Instance discriminated_stable key branches `{H : !StableBranches key branches} : Stable (z_discriminated key branches).
Proof.
  intros v d. unfold z_discriminated. destruct (get v key) as [| | | |t| |] eqn:G; try done. destruct (List.find _ branches) as [b|] eqn:F; [|done]. intros E.
  pose proof (proj1 (List.find_some _ _ F)) as I. destruct (proj1 (List.Forall_forall _ _) H b I) as [S K]. rewrite (K v d E), G, F. exact (S v d E).
Qed.

(** *** Certificates *)

#[export] Instance array_checks s `{!Checks s} : Checks (z_array s).
Proof.
  intros v d. destruct v as [| | | | |l|]; try done. cbn. destruct (parse_all s l) as [ds|] eqn:E; [|done]. intros [= <-]. f_equal. revert ds E.
  induction l as [|x l IH]; intros ds; cbn; [by intros [= <-]|]. destruct (s x) as [y|] eqn:X; [|done]. destruct (parse_all s l) as [ys|]; [|done]. intros [= <-].
  by rewrite (checks x y X), (IH ys eq_refl).
Qed.
#[export] Instance optional_checks s `{!Checks s} : Checks (z_optional s).
Proof. intros v d E. destruct v; try exact (checks (s := s) _ _ E). by injection E as <-. Qed.

(** A certificate of one kind is not one of the other. *)
Lemma object_lacks fields fields' k s v d : NoDup (map fst fields) -> z_object fields v = Some d -> ~ In k (map fst fields) -> In (k, s) fields' -> s VUndef = None ->
  z_object fields' d = None.
Proof.
  intros N E K I R. destruct (object_data fields v d N E) as (o & ds & _ & -> & _ & H). cbn. rewrite (proj2 (parse_refused fields' ds)); [done|].
  exists k, s. split; [done|]. by rewrite (obj_has_get ds k (H k K)).
Qed.

Definition pair_fields (c k : string) (cs key usage : schema) : list (string * schema) := (c, cs) :: (k, key) :: cert_fields usage.

(** A verification certificate whose own key is refused is still refused once its defaults are filled in. *)
Lemma verify_refused c k cs key opt v d : Checks opt -> NoDup (map fst (pair_fields c k cs key default_usage)) ->
  z_object (pair_fields c k cs key default_usage) v = None -> z_object (pair_fields c k cs opt (z_literal "verify")) v = Some d ->
  z_object (pair_fields c k cs key default_usage) d = None.
Proof.
  intros C N R E. destruct (object_data (pair_fields c k cs opt (z_literal "verify")) v d N E) as (o & ds & -> & -> & H & _). cbn [z_object] in *.
  destruct (parse_fields (pair_fields c k cs key default_usage) o) as [|] eqn:P; [done|]. apply parse_refused in P as (k' & s' & I & Q).
  assert (K : k' = k /\ s' = key).
  { destruct I as [[= <- <-]|[[= <- <-]|I]]; [|done|].
    - rewrite (H c cs) in Q by (by left). done.
    - exfalso. assert (U : z_literal "verify" (obj_get o "usage") = Some (obj_get ds "usage")) by (apply H; cbn; auto 6).
      destruct I as [[= <- <-]|[[= <- <-]|[[= <- <-]|[[= <- <-]|[]]]]]; try (erewrite H in Q; [discriminate|cbn; auto 8]).
      unfold z_literal, z_enum in U. destruct (obj_get o "usage") as [| | | |u| |]; try done. destruct (existsb _ _) eqn:X; [|done]. cbn in X. rewrite orb_false_r in X.
      apply String.eqb_eq in X as ->. discriminate Q. }
  destruct K as [-> ->]. rewrite (proj2 (parse_refused _ ds)); [done|]. exists k, key. split; [cbn; auto|].
  rewrite (checks (s := opt) _ _ (H k opt ltac:(cbn; auto))). exact Q.
Qed.

#[export] Instance cert_stable : Stable TlsCertSchema.
Proof.
  intros v d. unfold TlsCertSchema. cbn [z_union].
  assert (D1 : forall key usage, NoDup (map fst (file_fields key usage))) by (intros; by apply distinct_keys).
  assert (D2 : forall key usage, NoDup (map fst (inline_fields key usage))) by (intros; by apply distinct_keys).
  assert (L1 : forall k1 u1 k2 u2 v d, z_object (inline_fields k1 u1) v = Some d -> z_object (file_fields k2 u2) d = None).
  { intros k1 u1 k2 u2 v' d' E. apply (object_lacks (inline_fields k1 u1) _ "certificateFile" z_str1 v'); auto; [cbn; intuition discriminate|by left]. }
  assert (L2 : forall k1 u1 k2 u2 v d, z_object (file_fields k1 u1) v = Some d -> z_object (inline_fields k2 u2) d = None).
  { intros k1 u1 k2 u2 v' d' E. apply (object_lacks (file_fields k1 u1) _ "certificate" (z_array z_str) v'); auto; [cbn; intuition discriminate|by left]. }
  unfold TlsCertFileSchema, TlsCertInlineSchema. destruct (z_object (file_fields z_str1 default_usage) v) as [x|] eqn:E1.
  { intros [= <-]. assert (S : Stable (z_object (file_fields z_str1 default_usage))) by (unfold file_fields, cert_fields, default_usage; exact _). by rewrite (S v x E1). }
  destruct (z_object (inline_fields (z_array z_str) default_usage) v) as [x|] eqn:E2.
  { intros [= <-]. assert (S : Stable (z_object (inline_fields (z_array z_str) default_usage))) by (unfold inline_fields, cert_fields, default_usage; exact _).
    by rewrite (L1 _ _ _ _ v x E2), (S v x E2). }
  destruct (z_object (file_fields (z_optional z_str) (z_literal "verify")) v) as [x|] eqn:E3.
  { intros [= <-]. assert (S : Stable (z_object (file_fields (z_optional z_str) (z_literal "verify")))) by (unfold file_fields, cert_fields; exact _).
    pose proof (verify_refused "certificateFile" "keyFile" z_str1 z_str1 (z_optional z_str) v x _ (D1 _ _) E1 E3 : z_object (file_fields z_str1 default_usage) x = None) as R.
    by rewrite R, (L2 _ _ _ _ v x E3), (S v x E3). }
  destruct (z_object (inline_fields (z_optional (z_array z_str)) (z_literal "verify")) v) as [x|] eqn:E4; [|done]. intros [= <-].
  assert (S : Stable (z_object (inline_fields (z_optional (z_array z_str)) (z_literal "verify")))) by (unfold inline_fields, cert_fields; exact _).
  pose proof (verify_refused "certificate" "key" (z_array z_str) (z_array z_str) (z_optional (z_array z_str)) v x _ (D2 _ _) E2 E4
                : z_object (inline_fields (z_array z_str) default_usage) x = None) as R.
  by rewrite R, !(L1 _ _ _ _ v x E4), (S v x E4).
Qed.

(** *** The schemas of the files *)

#[export] Instance empty_text_stable : Stable empty_text.
Proof. unfold empty_text. exact _. Qed.
#[export] Instance empty_text_solid : Solid empty_text.
Proof. unfold empty_text. exact _. Qed.

Ltac stable_schema s := unfold s; exact _.

#[export] Instance header_map_stable : Stable WsHeaderMapSchema.
Proof. stable_schema WsHeaderMapSchema. Qed.
#[export] Instance v2_header_map_stable : Stable V2HeaderMapSchema.
Proof. stable_schema V2HeaderMapSchema. Qed.
#[export] Instance header_map_solid : Solid WsHeaderMapSchema.
Proof. stable_schema WsHeaderMapSchema. Qed.
#[export] Instance v2_header_map_solid : Solid V2HeaderMapSchema.
Proof. stable_schema V2HeaderMapSchema. Qed.
#[export] Instance tcp_request_stable : Stable TcpRequestSchema.
Proof. stable_schema TcpRequestSchema. Qed.
#[export] Instance tcp_response_stable : Stable TcpResponseSchema.
Proof. stable_schema TcpResponseSchema. Qed.
#[export] Instance tcp_header_stable : Stable TcpHeaderSchema.
Proof. unfold TcpHeaderSchema, TcpHeaderNoneSchema, TcpHeaderHttpSchema. exact _. Qed.
#[export] Instance tcp_stable : Stable TcpStreamSettingsSchema.
Proof. stable_schema TcpStreamSettingsSchema. Qed.
#[export] Instance kcp_stable : Stable KcpStreamSettingsSchema.
Proof. stable_schema KcpStreamSettingsSchema. Qed.
#[export] Instance ws_stable : Stable WsStreamSettingsSchema.
Proof. stable_schema WsStreamSettingsSchema. Qed.
#[export] Instance grpc_stable : Stable GrpcStreamSettingsSchema.
Proof. stable_schema GrpcStreamSettingsSchema. Qed.
#[export] Instance httpupgrade_stable : Stable HttpUpgradeStreamSettingsSchema.
Proof. stable_schema HttpUpgradeStreamSettingsSchema. Qed.
#[export] Instance mode_checks : Checks XHttpModeSchema.
Proof. stable_schema XHttpModeSchema. Qed.
#[export] Instance mode_solid : Solid XHttpModeSchema.
Proof. stable_schema XHttpModeSchema. Qed.
#[export] Instance xmux_stable : Stable XHttpXmuxSchema.
Proof. stable_schema XHttpXmuxSchema. Qed.
#[export] Instance masquerade_stable : Stable HysteriaMasqueradeSchema.
Proof. stable_schema HysteriaMasqueradeSchema. Qed.
#[export] Instance hysteria_stable : Stable HysteriaStreamSettingsSchema.
Proof. stable_schema HysteriaStreamSettingsSchema. Qed.
#[export] Instance happy_eyeballs_stable : Stable HappyEyeballsSchema.
Proof. stable_schema HappyEyeballsSchema. Qed.
#[export] Instance custom_sockopt_stable : Stable CustomSockoptSchema.
Proof. stable_schema CustomSockoptSchema. Qed.
#[export] Instance sockopt_stable : Stable SockoptStreamSettingsSchema.
Proof. unfold SockoptStreamSettingsSchema, TproxyModeSchema, SockoptDomainStrategySchema, TcpCongestionSchema, AddressPortStrategySchema. exact _. Qed.
#[export] Instance tls_client_stable : Stable TlsClientSettingsSchema.
Proof. unfold TlsClientSettingsSchema, TlsFingerprintSchema, UtlsFingerprintSchema, z_literal. exact _. Qed.
#[export] Instance tls_client_solid : Solid TlsClientSettingsSchema.
Proof. stable_schema TlsClientSettingsSchema. Qed.
#[export] Instance tls_stable : Stable TlsStreamSettingsSchema.
Proof. unfold TlsStreamSettingsSchema, TlsVersionSchema, AlpnSchema. exact _. Qed.
#[export] Instance reality_client_stable : Stable RealityClientSettingsSchema.
Proof. unfold RealityClientSettingsSchema, UtlsFingerprintSchema. exact _. Qed.
#[export] Instance reality_client_solid : Solid RealityClientSettingsSchema.
Proof. stable_schema RealityClientSettingsSchema. Qed.
#[export] Instance limit_fallback_stable : Stable RealityLimitFallbackSchema.
Proof. stable_schema RealityLimitFallbackSchema. Qed.
#[export] Instance sniffing_stable : Stable SniffingSchema.
Proof. stable_schema SniffingSchema. Qed.

(** A migration that leaves the data of the schema alone. *)
Lemma preprocess_stable f s : Stable s -> (forall v d, s v = Some d -> f d = d) -> Stable (z_preprocess f s).
Proof. intros S F v d E. unfold z_preprocess. rewrite (F _ d E). exact (S _ d E). Qed.

#[export] Instance xhttp_stable : Stable XHttpStreamSettingsSchema.
Proof.
  apply preprocess_stable; [stable_schema xhttp_fields|]. intros v d E. destruct (object_data xhttp_fields v d (distinct_keys (map fst xhttp_fields) eq_refl) E) as (o & ds & _ & -> & _ & K).
  assert (K1 : obj_has ds "sessionPlacement" = false) by (apply K; cbn; intuition discriminate).
  assert (K2 : obj_has ds "sessionKey" = false) by (apply K; cbn; intuition discriminate).
  unfold migrateLegacyXhttp. rewrite (obj_has_get ds "sessionPlacement" K1). cbn [is_undef negb]. rewrite andb_false_r, (obj_has_get ds "sessionKey" K2). cbn [is_undef negb].
  rewrite andb_false_r. by rewrite (obj_del_absent ds "sessionPlacement"), (obj_del_absent ds "sessionKey").
Qed.

#[export] Instance reality_stable : Stable RealityStreamSettingsSchema.
Proof.
  apply preprocess_stable; [stable_schema reality_fields|]. intros v d E. destruct (object_data reality_fields v d (distinct_keys (map fst reality_fields) eq_refl) E) as (o & ds & _ & -> & _ & K).
  assert (K1 : obj_has ds "dest" = false) by (apply K; cbn; intuition discriminate). unfold aliasRealityDest. rewrite (obj_has_get ds "dest" K1). by rewrite andb_false_r.
Qed.

(** *** New settings *)

(** Every field has a default. *)
Class FromEmpty (s : schema) : Prop := from_empty : exists d, s (VObj []) = Some (VObj d).
#[export] Hint Extern 1 (FromEmpty _) => red; eexists; vm_compute; reflexivity : typeclass_instances.

(** The data is an object. *)
Class GivesObject (s : schema) : Prop := gives_object v d : s v = Some d -> exists o, d = VObj o.
#[export] Instance object_gives fields : GivesObject (z_object fields).
Proof. intros v d. destruct v as [| | | | | |o]; try done. cbn. destruct (parse_fields fields o); [|done]. intros [= <-]. eauto. Qed.
#[export] Instance preprocess_gives f s `{!GivesObject s} : GivesObject (z_preprocess f s).
Proof. intros v d E. exact (gives_object (s := s) _ _ E). Qed.

(** What the editors rely on in the schema of a part of a stream. *)
Record part_schema (s : schema) : Prop := { ps_stable : Stable s; ps_empty : FromEmpty s; ps_object : GivesObject s }.
