(* ===== verification/XraySettings.v ===== *)
(** * Balancers, observatories and reference cleanup of the Xray configuration

    Models src/frontend/src/pages/xray/balancers/balancer-helpers.ts and
    src/frontend/src/pages/xray/reference-cleanup.ts.  The configuration blob
    [XraySettingsValue] is a [jsval]; the functions mutate it in place in the
    source and return the updated blob here.  A [Set<string>] that is only built
    from an array and queried is the list of its elements. *)
From S2P Require Import Prelude JsString JsValue.
Local Open Scope Z_scope.

(** [set.has(v)] *)
Definition set_has (s : list string) (v : jsval) : bool :=
  match v with VStr x => existsb (String.eqb x) s | _ => false end.

(** ** balancer-helpers.ts *)

Definition DEFAULT_OBSERVATORY : jsval :=
  VObj [("subjectSelector", VArr []); ("probeURL", VStr "https://www.google.com/generate_204");
        ("probeInterval", VStr "1m"); ("enableConcurrency", VBool true)].

Definition DEFAULT_BURST_OBSERVATORY : jsval :=
  VObj [("subjectSelector", VArr []);
        ("pingConfig", VObj [("destination", VStr "https://www.google.com/generate_204");
                             ("interval", VStr "1m"); ("connectivity", VStr ""); ("timeout", VStr "5s");
                             ("sampling", VInt 2); ("httpMethod", VStr "HEAD")])].

(** [s && out.add(s)] on an insertion-ordered [Set]; selectors are strings. *)
Definition set_add (out : list string) (s : jsval) : list string :=
  match s with
  | VStr x => if String.eqb x "" || existsb (String.eqb x) out then out else out ++ [x]
  | _ => out
  end.

Definition collectSelectors (l : list jsval) : list string :=
  fold_left (fun out b => fold_left set_add (as_list (get b "selector")) out) l [].

Definition balancerRequiresBurstObservatory (b : jsval) : bool :=
  let type := or_falsy (get (get b "strategy") "type") (VStr "random") in
  is_str type "leastLoad"
  || ((is_str type "random" || is_str type "roundRobin")
      && negb (String.eqb (str_or_empty (get b "fallbackTag")) "")).

Definition balancers_of (t : jsval) : list jsval := as_list (get (get t "routing") "balancers").

Definition settingsRequireBurstObservatory (t : jsval) : bool :=
  existsb balancerRequiresBurstObservatory (balancers_of t).

Definition is_leastPing (b : jsval) : bool := is_str (get (get b "strategy") "type") "leastPing".

Definition strings (l : list string) : jsval := VArr (map VStr l).

(** [if (!t[k]) t[k] = dflt; t[k].subjectSelector = sel] *)
Definition put_observer (t : jsval) (k : string) (dflt : jsval) (sel : list string) : jsval :=
  let t := if truthy (get t k) then t else set t k dflt in
  set t k (set (get t k) "subjectSelector" (strings sel)).

Definition syncObservatories (t : jsval) : jsval :=
  let balancers := balancers_of t in
  let leastPings := List.filter is_leastPing balancers in
  let required := List.filter balancerRequiresBurstObservatory balancers in
  match required with
  | _ :: _ =>
      put_observer (del t "observatory") "burstObservatory" DEFAULT_BURST_OBSERVATORY
        (collectSelectors (required ++ leastPings))
  | [] =>
      let t := del t "burstObservatory" in
      match leastPings with
      | _ :: _ => put_observer t "observatory" DEFAULT_OBSERVATORY (collectSelectors leastPings)
      | [] => del t "observatory"
      end
  end.

(** ** reference-cleanup.ts *)

Inductive RuleFate := removed | modified.

Record RuleImpact := { ri_index : nat; ri_label : string; ri_fate : RuleFate; ri_keeps : option string }.

Record DeletionImpact :=
  { di_rules : list RuleImpact; di_balancers : list string; di_observatory : bool; di_burst : bool }.

Definition emptyImpact : DeletionImpact :=
  {| di_rules := []; di_balancers := []; di_observatory := false; di_burst := false |}.

Definition ruleList (tt : jsval) : list jsval := as_list (get (get tt "routing") "rules").
Definition balancerList (tt : jsval) : list jsval := as_list (get (get tt "routing") "balancers").
Definition outbounds_of (tt : jsval) : list jsval := as_list (get tt "outbounds").

Definition outboundTagAt (tt : jsval) (index : nat) : string :=
  str_or_empty (get (nth index (outbounds_of tt) VUndef) "tag").

Definition balancerTagAt (tt : jsval) (index : nat) : string :=
  str_or_empty (get (nth index (balancerList tt) VUndef) "tag").

Definition ruleLabel (rule : jsval) (index : nat) : string :=
  let tag := trim (str_or_empty (get rule "ruleTag")) in
  if String.eqb tag "" then "#" +:+ string_of_Z (Z.of_nat index + 1) else tag.

Definition selector_emptied (removedOutbounds : list string) (b : jsval) : bool :=
  match as_list (get b "selector") with
  | [] => false
  | selector => forallb (set_has removedOutbounds) selector
  end.

Definition balancersEmptiedBy (tt : jsval) (removedOutbounds : list string) : list string :=
  match removedOutbounds with
  | [] => []
  | _ =>
      omap (fun b =>
        let tag := str_or_empty (get b "tag") in
        if String.eqb tag "" then None
        else if selector_emptied removedOutbounds b then Some tag else None) (balancerList tt)
  end.

Record verdict := { losesOut : bool; losesBal : bool; keeps : string }.

Definition classifyRule (rule : jsval) (removedOutbounds removedBalancers : list string) : option verdict :=
  let out := str_or_empty (get rule "outboundTag") in
  let bal := str_or_empty (get rule "balancerTag") in
  let losesOut := negb (String.eqb out "") && existsb (String.eqb out) removedOutbounds in
  let losesBal := negb (String.eqb bal "") && existsb (String.eqb bal) removedBalancers in
  if negb losesOut && negb losesBal then None
  else
    let keptOut := if negb (String.eqb out "") && negb losesOut then out else "" in
    let keptBal := if negb (String.eqb bal "") && negb losesBal then bal else "" in
    Some {| losesOut := losesOut; losesBal := losesBal;
            keeps := if String.eqb keptOut "" then keptBal else keptOut |}.

Fixpoint ruleImpacts_from (index : nat) (rules : list jsval) (ro rb : list string) : list RuleImpact :=
  match rules with
  | [] => []
  | rule :: rules =>
      match classifyRule rule ro rb with
      | None => ruleImpacts_from (S index) rules ro rb
      | Some v =>
          (if negb (String.eqb (keeps v) "")
           then {| ri_index := index; ri_label := ruleLabel rule index; ri_fate := modified; ri_keeps := Some (keeps v) |}
           else {| ri_index := index; ri_label := ruleLabel rule index; ri_fate := removed; ri_keeps := None |})
          :: ruleImpacts_from (S index) rules ro rb
      end
  end.

Definition ruleImpacts (tt : jsval) (ro rb : list string) : list RuleImpact :=
  ruleImpacts_from 0 (ruleList tt) ro rb.

(** The rule after the dead references are deleted from it. *)
Definition stripRule (v : verdict) (rule : jsval) : jsval :=
  let rule := if losesOut v then del rule "outboundTag" else rule in
  if losesBal v then del rule "balancerTag" else rule.

Definition cleanRule (ro rb : list string) (rule : jsval) : option jsval :=
  match classifyRule rule ro rb with
  | None => Some rule
  | Some v => if negb (String.eqb (keeps v) "") then Some (stripRule v rule) else None
  end.

Definition cleanBalancer (ro rb : list string) (balancer : jsval) : option jsval :=
  if negb (truthy balancer) then None
  else if set_has rb (get balancer "tag") then None
  else
    let balancer :=
      match ro, get balancer "selector" with
      | _ :: _, VArr sel => set balancer "selector" (VArr (List.filter (fun s => negb (set_has ro s)) sel))
      | _, _ => balancer
      end in
    Some (if set_has ro (get balancer "fallbackTag") then set balancer "fallbackTag" (VStr "") else balancer).

(** [delete outbound.streamSettings.sockopt.dialerProxy] when it names a removed outbound. *)
Definition cleanDialer (ro : list string) (outbound : jsval) : jsval :=
  let stream := get outbound "streamSettings" in
  let sockopt := get stream "sockopt" in
  if truthy sockopt && set_has ro (get sockopt "dialerProxy")
  then set outbound "streamSettings" (set stream "sockopt" (del sockopt "dialerProxy"))
  else outbound.

(** [if (tt.routing && Array.isArray(tt.routing[k])) tt.routing[k] = f(tt.routing[k])] *)
Definition update_routing (k : string) (f : list jsval -> list jsval) (tt : jsval) : jsval :=
  match get (get tt "routing") k with
  | VArr l => set tt "routing" (set (get tt "routing") k (VArr (f l)))
  | _ => tt
  end.

Definition applyCleanup (tt : jsval) (ro rb : list string) : jsval :=
  let tt := update_routing "rules" (omap (cleanRule ro rb)) tt in
  let tt := update_routing "balancers" (omap (cleanBalancer ro rb)) tt in
  let tt :=
    match ro, get tt "outbounds" with
    | _ :: _, VArr l =>
        set tt "outbounds"
          (VArr (map (cleanDialer ro) (List.filter (fun o => negb (set_has ro (get o "tag"))) l)))
    | _, _ => tt
    end in
  syncObservatories tt.

(** The clone made by [JSON.parse(JSON.stringify(tt))] is the same value. *)
Definition observersRemovedBy (tt : jsval) (ro rb : list string) : bool * bool :=
  let hadObservatory := truthy (get tt "observatory") in
  let hadBurst := truthy (get tt "burstObservatory") in
  if negb hadObservatory && negb hadBurst then (false, false)
  else
    let clone := applyCleanup tt ro rb in
    (hadObservatory && negb (truthy (get clone "observatory")),
     hadBurst && negb (truthy (get clone "burstObservatory"))).

Definition planBalancerDeletion (tt : jsval) (index : nat) : DeletionImpact :=
  let tag := balancerTagAt tt index in
  if String.eqb tag "" then emptyImpact
  else
    let obs := observersRemovedBy tt [] [tag] in
    {| di_rules := ruleImpacts tt [] [tag]; di_balancers := [];
       di_observatory := obs.1; di_burst := obs.2 |}.

(** [l.splice(index, 1)] *)
Definition splice1 (index : nat) (l : list jsval) : list jsval := take index l ++ drop (S index) l.

Definition applyBalancerDeletion (tt : jsval) (index : nat) : jsval :=
  let tag := balancerTagAt tt index in
  if String.eqb tag "" then syncObservatories (update_routing "balancers" (splice1 index) tt)
  else applyCleanup tt [] [tag].

Definition planOutboundDeletion (tt : jsval) (index : nat) : DeletionImpact :=
  let tag := outboundTagAt tt index in
  if String.eqb tag "" then emptyImpact
  else
    let cascaded := balancersEmptiedBy tt [tag] in
    let obs := observersRemovedBy tt [tag] cascaded in
    {| di_rules := ruleImpacts tt [tag] cascaded; di_balancers := cascaded;
       di_observatory := obs.1; di_burst := obs.2 |}.

Definition applyOutboundDeletion (tt : jsval) (index : nat) : jsval :=
  let tag := outboundTagAt tt index in
  if String.eqb tag "" then
    syncObservatories
      (match get tt "outbounds" with
       | VArr l => set tt "outbounds" (VArr (splice1 index l))
       | _ => tt
       end)
  else applyCleanup tt [tag] (balancersEmptiedBy tt [tag]).

(** ** What each block touches *)

Lemma get_VArr_obj v k l : get v k = VArr l -> exists o, v = VObj o.
Proof. destruct v; cbn; try done. eauto. Qed.

Lemma get_put_observer_ne t k d sel k' : k <> k' -> get (put_observer t k d sel) k' = get t k'.
Proof.
  intros H. unfold put_observer. rewrite get_set_ne by done.
  destruct (truthy (get t k)); [done|]. by rewrite get_set_ne.
Qed.

Lemma get_sync_ne t k :
  k <> "observatory" -> k <> "burstObservatory" -> get (syncObservatories t) k = get t k.
Proof.
  intros H1 H2. unfold syncObservatories.
  repeat case_match; rewrite ?get_put_observer_ne, ?get_del_ne by done; done.
Qed.

Lemma get_update_routing_ne k f tt k' : k' <> "routing" -> get (update_routing k f tt) k' = get tt k'.
Proof. intros H. unfold update_routing. case_match; try done. by rewrite get_set_ne. Qed.

Lemma routing_update_eq k f tt :
  f [] = [] ->
  as_list (get (get (update_routing k f tt) "routing") k) = f (as_list (get (get tt "routing") k)).
Proof.
  intros Hf. unfold update_routing. destruct (get (get tt "routing") k) eqn:E; rewrite ?E; try done.
  destruct (get_VArr_obj _ _ _ E) as [r Er].
  assert (exists o, tt = VObj o) as [o ->] by (destruct tt; cbn in Er; try done; eauto).
  rewrite get_set_eq by eauto. by rewrite Er, get_set_eq by eauto.
Qed.

Lemma routing_update_ne k k' f tt :
  k <> k' -> get (get (update_routing k f tt) "routing") k' = get (get tt "routing") k'.
Proof.
  intros H. unfold update_routing. destruct (get (get tt "routing") k) eqn:E; try done.
  destruct (get_VArr_obj _ _ _ E) as [r Er].
  assert (exists o, tt = VObj o) as [o ->] by (destruct tt; cbn in Er; try done; eauto).
  rewrite get_set_eq by eauto. by rewrite get_set_ne.
Qed.

Definition cleanOutbounds (ro : list string) (l : list jsval) : list jsval :=
  map (cleanDialer ro) (List.filter (fun o => negb (set_has ro (get o "tag"))) l).

Lemma ruleList_cleanup tt ro rb :
  ruleList (applyCleanup tt ro rb) = omap (cleanRule ro rb) (ruleList tt).
Proof.
  unfold ruleList, applyCleanup. rewrite get_sync_ne by done.
  assert (G : forall t, get (match ro, get t "outbounds" with
              | _ :: _, VArr l => set t "outbounds" (VArr (cleanOutbounds ro l)) | _, _ => t end) "routing"
            = get t "routing").
  { intros t. destruct ro; [done|]. case_match; try done. by rewrite get_set_ne. }
  unfold cleanOutbounds in G. rewrite G, routing_update_ne by done. by apply routing_update_eq.
Qed.

Lemma balancerList_cleanup tt ro rb :
  balancerList (applyCleanup tt ro rb) = omap (cleanBalancer ro rb) (balancerList tt).
Proof.
  unfold balancerList, applyCleanup. rewrite get_sync_ne by done.
  assert (G : forall t, get (match ro, get t "outbounds" with
              | _ :: _, VArr l => set t "outbounds" (VArr (cleanOutbounds ro l)) | _, _ => t end) "routing"
            = get t "routing").
  { intros t. destruct ro; [done|]. case_match; try done. by rewrite get_set_ne. }
  unfold cleanOutbounds in G. rewrite G, routing_update_eq by done. by rewrite routing_update_ne.
Qed.

Lemma outbounds_cleanup tt ro rb :
  ro <> [] -> outbounds_of (applyCleanup tt ro rb) = cleanOutbounds ro (outbounds_of tt).
Proof.
  intros Hro. unfold outbounds_of, applyCleanup. rewrite get_sync_ne by done.
  set (t := update_routing "balancers" _ _).
  assert (E : get t "outbounds" = get tt "outbounds").
  { subst t. by rewrite !get_update_routing_ne. }
  destruct ro as [|x ro]; [done|]. rewrite E. destruct (get tt "outbounds") eqn:F; rewrite ?E; try done.
  destruct (get_VArr_obj _ _ _ E) as [o ->]. by rewrite get_set_eq by eauto.
Qed.

(** ** Rules *)

Lemma existsb_In x l : existsb (String.eqb x) l = true <-> In x l.
Proof. rewrite existsb_exists. setoid_rewrite String.eqb_eq. naive_solver. Qed.

Lemma set_has_nil v : set_has [] v = false.
Proof. by destruct v. Qed.

Lemma set_has_str l v : set_has l v = true <-> exists x, v = VStr x /\ In x l.
Proof. destruct v; cbn; rewrite ?existsb_In; naive_solver. Qed.

(** A reference is dead when it names a removed entity. *)
Definition dead (removed_tags : list string) (v : jsval) : Prop :=
  str_or_empty v <> "" /\ In (str_or_empty v) removed_tags.

Lemma loses_iff l v :
  negb (String.eqb (str_or_empty v) "") && existsb (String.eqb (str_or_empty v)) l = true <-> dead l v.
Proof.
  unfold dead. rewrite andb_true_iff, negb_true_iff, String.eqb_neq, existsb_In. done.
Qed.

(** The verdict says which references of the rule are dead, and [keeps] is a live one. *)
Lemma classifyRule_Some rule ro rb v :
  classifyRule rule ro rb = Some v ->
  (losesOut v = true <-> dead ro (get rule "outboundTag")) /\
  (losesBal v = true <-> dead rb (get rule "balancerTag")) /\
  (keeps v <> "" ->
   (keeps v = str_or_empty (get rule "outboundTag") /\ losesOut v = false) \/
   (keeps v = str_or_empty (get rule "balancerTag") /\ losesBal v = false)).
Proof.
  unfold classifyRule. cbv zeta.
  set (lo := negb (String.eqb (str_or_empty (get rule "outboundTag")) "") && existsb _ ro).
  set (lb := negb (String.eqb (str_or_empty (get rule "balancerTag")) "") && existsb _ rb).
  destruct (negb lo && negb lb); [done|]. intros [= <-]. cbn [losesOut losesBal keeps].
  split; [apply loses_iff|]. split; [apply loses_iff|].
  destruct (negb (String.eqb (str_or_empty (get rule "outboundTag")) "") && negb lo) eqn:E1.
  - apply andb_true_iff in E1 as [N1 E1]. apply negb_true_iff in E1, N1. rewrite N1. intros _. left. by split.
  - cbn [String.eqb]. destruct (negb (String.eqb (str_or_empty (get rule "balancerTag")) "") && negb lb) eqn:E2; [|done].
    apply andb_true_iff in E2 as [_ E2]. apply negb_true_iff in E2. intros _. right. by split.
Qed.

Lemma classifyRule_None rule ro rb :
  classifyRule rule ro rb = None <->
  ~ dead ro (get rule "outboundTag") /\ ~ dead rb (get rule "balancerTag").
Proof.
  unfold classifyRule. cbv zeta.
  set (lo := negb (String.eqb (str_or_empty (get rule "outboundTag")) "") && existsb _ ro).
  set (lb := negb (String.eqb (str_or_empty (get rule "balancerTag")) "") && existsb _ rb).
  rewrite <- !loses_iff. fold lo lb. destruct lo, lb; cbn; naive_solver.
Qed.

(** A surviving rule has no dead reference, and a repaired one still has a destination. *)
Lemma cleanRule_Some ro rb rule r :
  cleanRule ro rb rule = Some r ->
  ~ dead ro (get r "outboundTag") /\ ~ dead rb (get r "balancerTag") /\
  (r = rule \/ str_or_empty (get r "outboundTag") <> "" \/ str_or_empty (get r "balancerTag") <> "").
Proof.
  unfold cleanRule. destruct (classifyRule rule ro rb) as [v|] eqn:E.
  - destruct (String.eqb_spec (keeps v) "") as [|Hk]; cbn [negb]; [done|]. intros [= <-].
    destruct (classifyRule_Some _ _ _ _ E) as (Ho & Hb & Hkeep). specialize (Hkeep Hk).
    assert (U : forall l, ~ dead l VUndef) by (intros l []; done).
    unfold stripRule. destruct (losesOut v) eqn:Lo, (losesBal v) eqn:Lb; js_get;
      repeat split; try apply U; try (intros D; apply Ho in D; congruence);
      try (intros D; apply Hb in D; congruence); right; naive_solver congruence.
  - intros [= <-]. apply classifyRule_None in E as [H1 H2]. auto.
Qed.

(** ** Balancers and outbounds *)

(** A surviving balancer names no removed outbound and is not itself removed. *)
Lemma cleanBalancer_Some ro rb b b' :
  ro <> [] -> ~ In "" ro -> cleanBalancer ro rb b = Some b' ->
  as_list (get b' "selector") = List.filter (fun s => negb (set_has ro s)) (as_list (get b "selector")) /\
  set_has ro (get b' "fallbackTag") = false /\
  set_has rb (get b' "tag") = false /\ get b' "tag" = get b "tag".
Proof.
  intros Hro Hne. unfold cleanBalancer. destruct ro as [|x ro]; [done|].
  destruct (truthy b); cbn [negb]; [|done]. destruct (set_has rb (get b "tag")) eqn:Hb; [done|].
  set (ro' := x :: ro) in *. set (c := match get b "selector" with VArr sel => _ | _ => b end).
  assert (C : get c "tag" = get b "tag" /\
              as_list (get c "selector") = List.filter (fun s => negb (set_has ro' s)) (as_list (get b "selector"))).
  { subst c. destruct (get b "selector") eqn:E; rewrite ?E; try done.
    destruct (get_VArr_obj _ _ _ E) as [o ->]. by js_get. }
  clearbody c. destruct C as (C1 & C3). intros [= <-].
  destruct (set_has ro' (get c "fallbackTag")) eqn:E; [|by rewrite E, C1, Hb].
  apply set_has_str in E as (y & E & _).
  assert (exists o, c = VObj o) as [o ->] by (destruct c; cbn in E; try done; eauto).
  js_get. cbn [get] in C1, C3 |- *. js_get. rewrite C1, C3, Hb. split_and!; try done.
  apply not_true_iff_false. by rewrite set_has_str; intros (? & [= <-] & ?).
Qed.

Lemma cleanDialer_spec ro o :
  get (cleanDialer ro o) "tag" = get o "tag" /\
  set_has ro (get (get (get (cleanDialer ro o) "streamSettings") "sockopt") "dialerProxy") = false.
Proof.
  unfold cleanDialer. destruct (truthy (get (get o "streamSettings") "sockopt") &&
    set_has ro (get (get (get o "streamSettings") "sockopt") "dialerProxy")) eqn:E.
  - apply andb_true_iff in E as [Et E]. apply set_has_str in E as (y & E & _).
    destruct o as [| | | | | |o]; try done. destruct (get (VObj o) "streamSettings") as [| | | | | |st] eqn:Es; try done.
    by js_get.
  - split; [done|]. apply andb_false_iff in E as [E|E]; [|done].
    destruct (get (get o "streamSettings") "sockopt"); try done.
Qed.

(** ** No dangling references *)

(** Everything that may name an outbound or a balancer of the blob. *)
Definition no_reference (tt : jsval) (outs bals : list string) : Prop :=
  Forall (fun r => ~ dead outs (get r "outboundTag") /\ ~ dead bals (get r "balancerTag")) (ruleList tt) /\
  Forall (fun b => (forall s, In s (as_list (get b "selector")) -> set_has outs s = false) /\
                   set_has outs (get b "fallbackTag") = false /\
                   set_has bals (get b "tag") = false) (balancerList tt) /\
  Forall (fun o => set_has outs (get o "tag") = false /\
                   set_has outs (get (get (get o "streamSettings") "sockopt") "dialerProxy") = false) (outbounds_of tt).

Lemma Forall_omap {A B} (f : A -> option B) (P : B -> Prop) l :
  (forall x y, In x l -> f x = Some y -> P y) -> Forall P (omap f l).
Proof.
  intros H. apply list.Forall_forall. intros y (x & Hx & Hf)%list_elem_of_omap.
  apply (H x); [by apply list_elem_of_In|done].
Qed.

Lemma cleanup_no_reference tt ro rb :
  ro <> [] -> ~ In "" ro -> no_reference (applyCleanup tt ro rb) ro rb.
Proof.
  intros Hro Hne. unfold no_reference. rewrite ruleList_cleanup, balancerList_cleanup, outbounds_cleanup by done.
  split_and!.
  - apply Forall_omap. intros x y _ E. destruct (cleanRule_Some _ _ _ _ E) as (H1 & H2 & _). done.
  - apply Forall_omap. intros x y _ E. destruct (cleanBalancer_Some _ _ _ _ Hro Hne E) as (H1 & H2 & H3 & _).
    split_and!; [|done|done]. intros s. rewrite H1. intros [_ H]%filter_In. by apply negb_true_iff in H.
  - unfold cleanOutbounds. apply Forall_map, List.Forall_forall. intros o [_ H]%filter_In.
    apply negb_true_iff in H. destruct (cleanDialer_spec ro o) as [E1 E2]. cbn. by rewrite E1.
Qed.

(** C2. Deleting an outbound leaves no reference to it: afterwards no routing rule names
    it or a balancer removed with it, no balancer lists it in its selector or falls back
    to it, no remaining outbound has its tag or dials through it; and every remaining
    rule is an untouched one or still has a destination (an outbound or a balancer). *)
Theorem applyOutboundDeletion_no_dangling tt index :
  outboundTagAt tt index <> "" ->
  let tag := outboundTagAt tt index in
  let tt' := applyOutboundDeletion tt index in
  no_reference tt' [tag] (balancersEmptiedBy tt [tag]) /\
  Forall (fun r => In r (ruleList tt) \/ str_or_empty (get r "outboundTag") <> "" \/
                   str_or_empty (get r "balancerTag") <> "") (ruleList tt').
Proof.
  intros Htag tag tt'. subst tt'. unfold applyOutboundDeletion. fold tag.
  rewrite (proj2 (String.eqb_neq tag "") Htag). split.
  - apply cleanup_no_reference; [done|]. intros [E|[]]. by apply Htag.
  - rewrite ruleList_cleanup. apply Forall_omap. intros x y Hx E.
    destruct (cleanRule_Some _ _ _ _ E) as (_ & _ & [-> | H]); auto.
Qed.

(** A blob with one outbound used by a rule, a balancer and a second outbound's dialer. *)
Definition sample_blob : jsval :=
  VObj [("outbounds", VArr [VObj [("tag", VStr "proxy")];
                            VObj [("tag", VStr "direct");
                                  ("streamSettings", VObj [("sockopt", VObj [("dialerProxy", VStr "proxy")])])]]);
        ("routing", VObj [("rules", VArr [VObj [("outboundTag", VStr "proxy")];
                                          VObj [("outboundTag", VStr "proxy"); ("balancerTag", VStr "b2")];
                                          VObj [("balancerTag", VStr "b1")]]);
                          ("balancers", VArr [VObj [("tag", VStr "b1"); ("selector", VArr [VStr "proxy"])];
                                              VObj [("tag", VStr "b2"); ("selector", VArr [VStr "proxy"; VStr "direct"]);
                                                    ("fallbackTag", VStr "proxy")]])])].

Lemma applyOutboundDeletion_no_dangling_witness :
  outboundTagAt sample_blob 0 <> "" /\
  no_reference (applyOutboundDeletion sample_blob 0) ["proxy"] ["b1"] /\
  ruleList (applyOutboundDeletion sample_blob 0) = [VObj [("balancerTag", VStr "b2")]].
Proof.
  assert (H : outboundTagAt sample_blob 0 <> "") by (vm_compute; discriminate).
  split; [exact H|]. split; [|reflexivity].
  exact (proj1 (applyOutboundDeletion_no_dangling sample_blob 0 H)).
Defined.

Lemma cleanup_balancer_removed tt tag :
  tag <> "" ->
  Forall (fun r => ~ dead [tag] (get r "balancerTag")) (ruleList (applyCleanup tt [] [tag])) /\
  Forall (fun b => set_has [tag] (get b "tag") = false) (balancerList (applyCleanup tt [] [tag])).
Proof.
  intros Htag. rewrite ruleList_cleanup, balancerList_cleanup. split.
  - apply Forall_omap. intros x y _ E. by destruct (cleanRule_Some _ _ _ _ E) as (_ & H & _).
  - apply Forall_omap. intros b b' _. unfold cleanBalancer.
    destruct (truthy b); cbn [negb]; [|done]. destruct (set_has [tag] (get b "tag")) eqn:E; [done|].
    rewrite (set_has_nil (get b "fallbackTag")). by intros [= <-].
Qed.

(** C29. Deleting a balancer leaves no rule that routes to it and no balancer with its
    tag, and removes no outbound. *)
Theorem applyBalancerDeletion_no_dangling tt index :
  balancerTagAt tt index <> "" ->
  let tag := balancerTagAt tt index in
  let tt' := applyBalancerDeletion tt index in
  Forall (fun r => ~ dead [tag] (get r "balancerTag")) (ruleList tt') /\
  Forall (fun b => set_has [tag] (get b "tag") = false) (balancerList tt') /\
  get tt' "outbounds" = get tt "outbounds".
Proof.
  intros Htag tag tt'. subst tt'. unfold applyBalancerDeletion. fold tag.
  rewrite (proj2 (String.eqb_neq tag "") Htag).
  destruct (cleanup_balancer_removed tt tag Htag) as [H1 H2]. split_and!; [done..|].
  unfold applyCleanup. by rewrite get_sync_ne, !get_update_routing_ne by done.
Qed.

Lemma applyBalancerDeletion_no_dangling_witness :
  balancerTagAt sample_blob 1 <> "" /\
  Forall (fun b => set_has ["b2"] (get b "tag") = false) (balancerList (applyBalancerDeletion sample_blob 1)).
Proof.
  assert (H : balancerTagAt sample_blob 1 <> "") by (vm_compute; discriminate).
  split; [exact H|]. exact (proj1 (proj2 (applyBalancerDeletion_no_dangling sample_blob 1 H))).
Defined.

(** The cascade is exact: after an outbound deletion, a surviving balancer that has a
    tag and had a selector still selects something (a balancer whose selector the
    deletion empties is removed, never kept empty). *)
Theorem applyOutboundDeletion_selectors tt index :
  outboundTagAt tt index <> "" ->
  Forall (fun b' => exists b, In b (balancerList tt) /\ get b' "tag" = get b "tag" /\
            (str_or_empty (get b "tag") <> "" -> as_list (get b "selector") <> [] ->
             as_list (get b' "selector") <> []))
    (balancerList (applyOutboundDeletion tt index)).
Proof.
  intros Htag. unfold applyOutboundDeletion. rewrite (proj2 (String.eqb_neq _ _) Htag).
  set (tag := outboundTagAt tt index) in *. rewrite balancerList_cleanup. apply Forall_omap.
  intros b b' Hb E. exists b. split; [done|].
  assert (Hne : ~ In "" [tag]) by (by intros [?|[]]).
  destruct (cleanBalancer_Some [tag] _ _ _ ltac:(done) Hne E) as (Hs & _ & Hn & Ht).
  split; [done|]. intros Htb Hsel Hempty. rewrite Hs in Hempty.
  destruct (get b "tag") as [| | | |t| |] eqn:Et; try done. rewrite Ht in Hn. cbn in Hn.
  apply not_true_iff_false in Hn. apply Hn. apply existsb_In, list_elem_of_In.
  unfold balancersEmptiedBy. apply list_elem_of_omap. exists b. split; [by apply list_elem_of_In|].
  rewrite Et. cbn [str_or_empty] in *. rewrite (proj2 (String.eqb_neq _ _) Htb).
  unfold selector_emptied. destruct (as_list (get b "selector")) as [|s l] eqn:El; [done|].
  rewrite (proj2 (forallb_forall _ _)); [done|]. intros x Hx.
  destruct (set_has [tag] x) eqn:Ex; [done|]. exfalso.
  assert (In x []) as []. rewrite <- Hempty. apply filter_In. by rewrite Ex.
Qed.

Lemma applyOutboundDeletion_selectors_witness :
  outboundTagAt sample_blob 0 <> "" /\
  balancerList (applyOutboundDeletion sample_blob 0) =
    [VObj [("tag", VStr "b2"); ("selector", VArr [VStr "direct"]); ("fallbackTag", VStr "")]] /\
  Forall (fun b' => exists b, In b (balancerList sample_blob) /\ get b' "tag" = get b "tag" /\
            (str_or_empty (get b "tag") <> "" -> as_list (get b "selector") <> [] ->
             as_list (get b' "selector") <> []))
    (balancerList (applyOutboundDeletion sample_blob 0)).
Proof.
  assert (H : outboundTagAt sample_blob 0 <> "") by (vm_compute; discriminate).
  split; [exact H|]. split; [reflexivity|]. exact (applyOutboundDeletion_selectors sample_blob 0 H).
Defined.

(** ** The preview *)

(** What a list of impacts announces for the rule at position [i]. *)
Definition announced (impacts : list RuleImpact) (i : nat) : option RuleImpact :=
  List.find (fun im => Nat.eqb (ri_index im) i) impacts.

(** The rules left when the announced fates are carried out. *)
Fixpoint enact (ro rb : list string) (impacts : list RuleImpact) (i : nat) (rules : list jsval) : list jsval :=
  match rules with
  | [] => []
  | rule :: rules =>
      match announced impacts i with
      | None => rule :: enact ro rb impacts (S i) rules
      | Some im =>
          match ri_fate im with
          | removed => enact ro rb impacts (S i) rules
          | modified =>
              match classifyRule rule ro rb with
              | Some v => stripRule v rule :: enact ro rb impacts (S i) rules
              | None => enact ro rb impacts (S i) rules
              end
          end
      end
  end.

Lemma ruleImpacts_from_index ro rb rules : forall k im,
  In im (ruleImpacts_from k rules ro rb) -> (k <= ri_index im)%nat.
Proof.
  induction rules as [|r rules IH]; intros k im H; [done|]. cbn in H.
  destruct (classifyRule r ro rb) as [v|]; [destruct H as [<- | H]; [by destruct (negb _)|]|];
    apply IH in H; lia.
Qed.

Lemma announced_later ro rb rules k i :
  (i < k)%nat -> announced (ruleImpacts_from k rules ro rb) i = None.
Proof.
  intros H. unfold announced. destruct (List.find _ _) as [im|] eqn:E; [|done].
  apply find_some in E as [Hin E]. apply ruleImpacts_from_index in Hin. apply Nat.eqb_eq in E. lia.
Qed.

Lemma announced_skip im l i : ri_index im <> i -> announced (im :: l) i = announced l i.
Proof. intros H. unfold announced. cbn. by destruct (Nat.eqb_spec (ri_index im) i). Qed.

Lemma enact_skip ro rb im l rules : forall i,
  (ri_index im < i)%nat -> enact ro rb (im :: l) i rules = enact ro rb l i rules.
Proof.
  induction rules as [|r rules IH]; intros i H; [done|]. cbn [enact].
  rewrite announced_skip by lia. by rewrite IH by lia.
Qed.

Lemma enact_cleanup ro rb rules : forall k,
  enact ro rb (ruleImpacts_from k rules ro rb) k rules = omap (cleanRule ro rb) rules.
Proof.
  induction rules as [|r rules IH]; intros k; [done|]. cbn [ruleImpacts_from enact omap list_omap].
  unfold cleanRule at 1. destruct (classifyRule r ro rb) as [v|] eqn:E.
  - set (im := if negb (String.eqb (keeps v) "") then _ else _).
    assert (I : ri_index im = k) by (subst im; by destruct (negb _)).
    unfold announced. cbn [List.find]. rewrite I, Nat.eqb_refl. rewrite enact_skip, IH by lia.
    subst im. by destruct (negb _).
  - rewrite announced_later by lia. by rewrite IH.
Qed.

(** C30. The preview of an outbound deletion agrees with the deletion: carrying out exactly
    the announced rule fates gives the rules of the mutated blob, and an observer is
    announced as removed exactly when the blob has it and the mutated one has not. *)
Theorem planOutboundDeletion_agrees tt index :
  outboundTagAt tt index <> "" ->
  let plan := planOutboundDeletion tt index in
  let tt' := applyOutboundDeletion tt index in
  let tag := outboundTagAt tt index in
  enact [tag] (di_balancers plan) (di_rules plan) 0 (ruleList tt) = ruleList tt' /\
  di_observatory plan = truthy (get tt "observatory") && negb (truthy (get tt' "observatory")) /\
  di_burst plan = truthy (get tt "burstObservatory") && negb (truthy (get tt' "burstObservatory")).
Proof.
  intros Htag plan tt' tag. subst plan tt'. unfold planOutboundDeletion, applyOutboundDeletion.
  fold tag. rewrite (proj2 (String.eqb_neq tag "") Htag). cbn [di_rules di_balancers di_observatory di_burst].
  split; [rewrite ruleList_cleanup; apply enact_cleanup|]. unfold observersRemovedBy.
  destruct (truthy (get tt "observatory")), (truthy (get tt "burstObservatory")); done.
Qed.

Lemma planOutboundDeletion_agrees_witness :
  outboundTagAt sample_blob 0 <> "" /\
  map ri_fate (di_rules (planOutboundDeletion sample_blob 0)) = [removed; modified; removed] /\
  enact ["proxy"] ["b1"] (di_rules (planOutboundDeletion sample_blob 0)) 0 (ruleList sample_blob)
    = ruleList (applyOutboundDeletion sample_blob 0).
Proof.
  assert (H : outboundTagAt sample_blob 0 <> "") by (vm_compute; discriminate).
  split; [exact H|]. split; [reflexivity|]. exact (proj1 (planOutboundDeletion_agrees sample_blob 0 H)).
Defined.

(** ** Observatories *)

Lemma In_set_add out s x : In x (set_add out s) <-> In x out \/ (s = VStr x /\ x <> "").
Proof.
  destruct s as [| | | |y| |]; cbn; try naive_solver.
  destruct (String.eqb_spec y ""); cbn; [naive_solver|].
  destruct (existsb (String.eqb y) out) eqn:E; [apply existsb_In in E; naive_solver|].
  rewrite in_app_iff. cbn. naive_solver.
Qed.

Lemma NoDup_set_add out s : List.NoDup out -> List.NoDup (set_add out s).
Proof.
  intros H. destruct s as [| | | |y| |]; cbn; try done. destruct (String.eqb y ""); cbn; [done|].
  destruct (existsb (String.eqb y) out) eqn:E; [done|].
  apply List.NoDup_app; [done|constructor; [by intros []|constructor]|]. intros a Ha [<-|[]].
  apply existsb_In in Ha. congruence.
Qed.

Lemma In_fold_set_add l : forall out x,
  In x (fold_left set_add l out) <-> In x out \/ (In (VStr x) l /\ x <> "").
Proof.
  induction l as [|s l IH]; intros out x; cbn [fold_left In]; [naive_solver|].
  rewrite IH, In_set_add. naive_solver.
Qed.

Lemma NoDup_fold_set_add l : forall out, List.NoDup out -> List.NoDup (fold_left set_add l out).
Proof. induction l; intros out H; cbn; auto using NoDup_set_add. Qed.

(** The collected selectors: the distinct non-empty ones of the listed balancers. *)
Lemma collectSelectors_spec l :
  List.NoDup (collectSelectors l) /\
  forall x, In x (collectSelectors l) <-> x <> "" /\ exists b, In b l /\ In (VStr x) (as_list (get b "selector")).
Proof.
  unfold collectSelectors.
  assert (G : forall out, List.NoDup out ->
    List.NoDup (fold_left (fun out b => fold_left set_add (as_list (get b "selector")) out) l out) /\
    forall x, In x (fold_left (fun out b => fold_left set_add (as_list (get b "selector")) out) l out)
      <-> In x out \/ (x <> "" /\ exists b, In b l /\ In (VStr x) (as_list (get b "selector")))).
  { induction l as [|b l IH]; intros out H; cbn [fold_left In]; [naive_solver|].
    destruct (IH (fold_left set_add (as_list (get b "selector")) out)) as [N I];
      [by apply NoDup_fold_set_add|]. split; [done|]. intros x. rewrite I, In_fold_set_add. naive_solver. }
  destruct (G [] ltac:(constructor)) as [N I]. split; [done|]. intros x. rewrite I. naive_solver.
Qed.

Lemma balancers_of_put_observer t k d sel :
  k <> "routing" -> balancers_of (put_observer t k d sel) = balancers_of t.
Proof. intros H. unfold balancers_of. by rewrite get_put_observer_ne. Qed.

Lemma balancers_of_del t k : k <> "routing" -> balancers_of (del t k) = balancers_of t.
Proof. intros H. unfold balancers_of. by rewrite get_del_ne. Qed.

Lemma truthy_put_observer o k d sel :
  truthy d = true -> truthy (get (put_observer (VObj o) k d sel) k) = true.
Proof.
  intros Hd. unfold put_observer.
  set (t := if truthy (get (VObj o) k) then _ else _).
  assert (exists o', t = VObj o') as [o' E] by (subst t; destruct (truthy (get (VObj o) k)); by eexists).
  assert (T : truthy (get t k) = true).
  { subst t. destruct (truthy (get (VObj o) k)) eqn:T; [done|]. cbn [set get]. by rewrite obj_get_set_eq. }
  rewrite E in *. rewrite get_set_eq by eauto. revert T. by destruct (get (VObj o') k).
Qed.

Lemma existsb_filter_nil {A} (f : A -> bool) l :
  existsb f l = match List.filter f l with [] => false | _ => true end.
Proof. induction l as [|x l IH]; cbn; [done|]. by destruct (f x). Qed.

(** [syncObservatories] keeps an observer exactly as long as some balancer needs it:
    the burst observer is present iff a balancer requires it, the plain observatory iff
    none does and some balancer uses leastPing (so never both); nothing else of the blob
    changes. *)
Theorem syncObservatories_presence o :
  let t := VObj o in
  let t' := syncObservatories t in
  truthy (get t' "burstObservatory") = settingsRequireBurstObservatory t /\
  truthy (get t' "observatory") =
    negb (settingsRequireBurstObservatory t) && existsb is_leastPing (balancers_of t) /\
  (forall k, k <> "observatory" -> k <> "burstObservatory" -> get t' k = get t k).
Proof.
  intros t t'. split_and!; [| |by intros; apply get_sync_ne]; subst t t';
    unfold syncObservatories, settingsRequireBurstObservatory;
    set (bs := balancers_of (VObj o));
    rewrite ?(existsb_filter_nil balancerRequiresBurstObservatory), ?(existsb_filter_nil is_leastPing);
    destruct (List.filter balancerRequiresBurstObservatory bs);
    try destruct (List.filter is_leastPing bs);
    rewrite ?get_put_observer_ne, ?get_del_eq, ?get_del_ne by done; try done;
    try (by apply truthy_put_observer); by rewrite get_del_eq.
Qed.

(** An observer section is absent (or falsy) or an object. *)
Definition observer_ok (v : jsval) : Prop := truthy v = false \/ exists o, v = VObj o.

Lemma put_observer_selector o k d sel :
  observer_ok (get (VObj o) k) -> (exists od, d = VObj od) ->
  get (get (put_observer (VObj o) k d sel) k) "subjectSelector" = strings sel.
Proof.
  intros Hk [od ->]. unfold put_observer.
  destruct (truthy (get (VObj o) k)) eqn:T.
  - rewrite get_set_eq by eauto. destruct Hk as [Hk|[ok Hk]]; [congruence|]. rewrite Hk. apply get_set_eq. eauto.
  - cbn [set get]. rewrite obj_get_set_eq, obj_get_set_eq. apply obj_get_set_eq.
Qed.

(** When a burst observer is required, its subject selector lists, without
    duplicates, exactly the non-empty selectors of the balancers that consume observer
    data: those that require the burst observer and the leastPing ones. *)
Theorem syncObservatories_subjects o :
  let t := VObj o in
  observer_ok (get t "burstObservatory") -> settingsRequireBurstObservatory t = true ->
  exists sel,
    get (get (syncObservatories t) "burstObservatory") "subjectSelector" = strings sel /\
    List.NoDup sel /\
    forall x, In x sel <-> x <> "" /\ exists b, In b (balancers_of t) /\
      (balancerRequiresBurstObservatory b = true \/ is_leastPing b = true) /\
      In (VStr x) (as_list (get b "selector")).
Proof.
  intros t Hok Hreq. unfold settingsRequireBurstObservatory in Hreq.
  rewrite (existsb_filter_nil balancerRequiresBurstObservatory) in Hreq.
  unfold syncObservatories. set (bs := balancers_of t) in *.
  set (L := List.filter balancerRequiresBurstObservatory bs ++ List.filter is_leastPing bs).
  exists (collectSelectors L). destruct (collectSelectors_spec L) as [N I]. split_and!; [|done|].
  - subst L. destruct (List.filter balancerRequiresBurstObservatory bs); [done|].
    apply put_observer_selector; [|by eexists]. 
    pose proof (get_del_ne t "observatory" "burstObservatory" ltac:(done)) as G. unfold t in G at 1.
    cbn [del] in G. rewrite G. exact Hok.
  - intros x. rewrite I. subst L. setoid_rewrite in_app_iff. setoid_rewrite filter_In. naive_solver.
Qed.

Definition sample_balanced : jsval :=
  VObj [("routing", VObj [("balancers", VArr [
    VObj [("tag", VStr "a"); ("selector", VArr [VStr "x"; VStr "y"]); ("fallbackTag", VStr "direct")];
    VObj [("tag", VStr "b"); ("selector", VArr [VStr "y"; VStr "z"]); ("strategy", VObj [("type", VStr "leastPing")])]])])].

Lemma syncObservatories_subjects_witness :
  observer_ok (get sample_balanced "burstObservatory") /\
  settingsRequireBurstObservatory sample_balanced = true /\
  exists sel, get (get (syncObservatories sample_balanced) "burstObservatory") "subjectSelector" = strings sel /\
              List.NoDup sel.
Proof.
  assert (H1 : observer_ok (get sample_balanced "burstObservatory")) by (left; reflexivity).
  assert (H2 : settingsRequireBurstObservatory sample_balanced = true) by reflexivity.
  split; [exact H1|]. split; [exact H2|].
  destruct (syncObservatories_subjects _ H1 H2) as (sel & E & N & _). exists sel. exact (conj E N).
Defined.

Lemma set_same v k : get v k <> VUndef -> set v k (get v k) = v.
Proof.
  destruct v; cbn; try done. intros H. f_equal. apply obj_set_same. by apply obj_get_has.
Qed.

Lemma del_idem v k : del (del v k) k = del v k.
Proof.
  destruct v as [| | | | | |o]; cbn; try done. f_equal. apply obj_del_absent.
  by rewrite obj_has_del, String.eqb_refl.
Qed.

Lemma put_observer_obj o k d sel :
  exists w, put_observer (VObj o) k d sel =
    VObj (obj_set (if truthy (obj_get o k) then o else obj_set o k d) k (set w "subjectSelector" (strings sel))).
Proof. unfold put_observer. cbn [get]. destruct (truthy (obj_get o k)); by eexists. Qed.

Lemma put_observer_idem o k d sel :
  truthy d = true ->
  put_observer (put_observer (VObj o) k d sel) k d sel = put_observer (VObj o) k d sel.
Proof.
  intros Hd. pose proof (truthy_put_observer o k d sel Hd) as T.
  destruct (put_observer_obj o k d sel) as [w E]. rewrite E in *.
  unfold put_observer. rewrite T. cbn [get set] in *. rewrite obj_get_set_eq, obj_set_set. f_equal. f_equal.
  destruct w; cbn; try done. by rewrite obj_set_set.
Qed.

Lemma del_put_observer o k d sel k' :
  k <> k' -> del (put_observer (VObj (obj_del o k')) k d sel) k' = put_observer (VObj (obj_del o k')) k d sel.
Proof.
  intros H. destruct (put_observer_obj (obj_del o k') k d sel) as [w ->]. cbn [del]. f_equal.
  apply obj_del_absent. destruct (truthy _); rewrite !obj_has_set, !obj_has_del, String.eqb_refl;
    destruct (String.eqb_spec k' k); cbn; congruence.
Qed.

Lemma balancers_of_sync t : balancers_of (syncObservatories t) = balancers_of t.
Proof. unfold balancers_of. by rewrite get_sync_ne. Qed.

(** [syncObservatories] is idempotent: a blob it has aligned is left as it is, so
    saving an aligned configuration never forces a restart. *)
Theorem syncObservatories_idempotent o :
  syncObservatories (syncObservatories (VObj o)) = syncObservatories (VObj o).
Proof.
  set (t := VObj o). unfold syncObservatories at 1. rewrite balancers_of_sync.
  unfold syncObservatories. set (bs := balancers_of t).
  destruct (List.filter balancerRequiresBurstObservatory bs) as [|b l].
  - destruct (List.filter is_leastPing bs) as [|b' l'].
    + unfold t. cbn [del]. f_equal. rewrite (obj_del_absent _ "burstObservatory"); [|by rewrite !obj_has_del].
      apply obj_del_absent. by rewrite obj_has_del.
    + unfold t. cbn [del]. rewrite del_put_observer by done. by apply put_observer_idem.
  - unfold t. cbn [del]. rewrite del_put_observer by done. by apply put_observer_idem.
Qed.
