(* ===== verification/BalancerLoopback.v ===== *)
(** * Balancer-to-balancer fallback through loopback outbounds

    Models src/frontend/src/pages/xray/balancers/balancer-loopback.ts.  A balancer
    that falls back to another balancer [t] does so through a synthetic loopback
    outbound tagged [_bl_t] and a routing rule that sends the inbound tag [_bl_t]
    to the balancer [t].  [ensureBalancerLoopback] installs the pair,
    [removeBalancerLoopback] removes it, [detectBalancerCycles] follows the
    fallback chains. *)
From S2P Require Import Prelude JsString JsValue XraySettings.
Local Open Scope Z_scope.

(** ** Tags *)

Definition LOOPBACK_PREFIX : string := "_bl_".

Definition isBalancerLoopbackTag (tag : string) : bool := starts_with tag LOOPBACK_PREFIX.

Definition loopbackTagFor (targetBalancerTag : string) : string := LOOPBACK_PREFIX +:+ targetBalancerTag.

Definition balancerTagFromLoopback (loopbackTag : string) : option string :=
  if isBalancerLoopbackTag loopbackTag then Some (str_drop (String.length LOOPBACK_PREFIX) loopbackTag)
  else None.

Definition loopbackMatchesTarget (loopbackTag targetTag : string) : bool :=
  match balancerTagFromLoopback loopbackTag with
  | None => false
  | Some target => String.eqb target targetTag
  end.

(** ** Rules and outbounds *)

(** [Array.isArray(r.inboundTag) && r.inboundTag.includes(tag)] *)
Definition mentions (tag : string) (r : jsval) : bool :=
  existsb (fun v => is_str v tag) (as_list (get r "inboundTag")).

Definition findLoopbackTarget (settings : jsval) (loopbackTag : string) : option string :=
  match List.find (fun r => mentions loopbackTag r && truthy (get r "balancerTag")) (ruleList settings) with
  | Some r => Some (str_or_empty (get r "balancerTag"))
  | None => None
  end.

Definition resolveLoopbackFallback (settings : jsval) (fallbackTag : string) : string :=
  if String.eqb fallbackTag "" || negb (isBalancerLoopbackTag fallbackTag) then fallbackTag
  else
    match findLoopbackTarget settings fallbackTag with
    | Some target => target
    | None =>
        match balancerTagFromLoopback fallbackTag with
        | Some targetTag => if String.eqb targetTag "" then fallbackTag else targetTag
        | None => fallbackTag
        end
    end.

Definition references (targetTag : string) (b : jsval) : bool :=
  let fb := str_or_empty (get b "fallbackTag") in
  negb (String.eqb fb "") && isBalancerLoopbackTag fb && loopbackMatchesTarget fb targetTag.

Definition countLoopbackRefs (settings : jsval) (targetTag : string) : nat :=
  length (List.filter (references targetTag) (balancerList settings)).

Definition isGeneralRoutingRule (rule : jsval) : bool :=
  match get rule "inboundTag" with VArr (_ :: _) => false | _ => true end.

Fixpoint firstGeneralRoutingRuleIndex (rules : list jsval) : nat :=
  match rules with
  | [] => 0
  | r :: rules => if isGeneralRoutingRule r then 0 else S (firstGeneralRoutingRuleIndex rules)
  end.

(** [l.findIndex(f)], [None] for -1. *)
Fixpoint find_index (f : jsval -> bool) (l : list jsval) : option nat :=
  match l with
  | [] => None
  | x :: l => if f x then Some 0%nat else option_map S (find_index f l)
  end.

(** [l.splice(i, 0, x)] *)
Definition insert_at (i : nat) (x : jsval) (l : list jsval) : list jsval := take i l ++ x :: drop i l.

Definition loopback_outbound (lbTag : string) : jsval :=
  VObj [("tag", VStr lbTag); ("protocol", VStr "loopback"); ("settings", VObj [("inboundTag", VStr lbTag)])].

Definition ensure_outbounds (lbTag : string) (outs : list jsval) : list jsval :=
  match find_index (fun o => is_str (get o "tag") lbTag) outs with
  | Some i => <[i := loopback_outbound lbTag]> outs
  | None => outs ++ [loopback_outbound lbTag]
  end.

Definition ensure_rules (lbTag target : string) (rules : list jsval) : list jsval :=
  match find_index (mentions lbTag) rules with
  | Some i =>
      let existing := set (nth i rules VUndef) "balancerTag" (VStr target) in
      let rules := splice1 i rules in
      insert_at (firstGeneralRoutingRuleIndex rules) existing rules
  | None =>
      insert_at (firstGeneralRoutingRuleIndex rules)
        (VObj [("type", VStr "field"); ("inboundTag", VArr [VStr lbTag]); ("balancerTag", VStr target)]) rules
  end.

Definition ensureBalancerLoopback (settings : jsval) (targetBalancerTag : string) : jsval :=
  let lbTag := loopbackTagFor targetBalancerTag in
  let settings := if is_array (get settings "outbounds") then settings else set settings "outbounds" (VArr []) in
  let settings := set settings "outbounds" (VArr (ensure_outbounds lbTag (outbounds_of settings))) in
  let settings :=
    if truthy (get settings "routing") then settings
    else set settings "routing" (VObj [("rules", VArr []); ("balancers", VArr [])]) in
  let routing := get settings "routing" in
  let routing := if is_array (get routing "rules") then routing else set routing "rules" (VArr []) in
  set settings "routing"
    (set routing "rules" (VArr (ensure_rules lbTag targetBalancerTag (as_list (get routing "rules"))))).

Definition removeBalancerLoopback (settings : jsval) (targetBalancerTag : string) : jsval :=
  let lbTag := loopbackTagFor targetBalancerTag in
  let settings :=
    match get settings "outbounds" with
    | VArr l => set settings "outbounds" (VArr (List.filter (fun o => negb (is_str (get o "tag") lbTag)) l))
    | _ => settings
    end in
  update_routing "rules" (List.filter (fun r => negb (mentions lbTag r))) settings.

Definition removeBalancerLoopbackIfOrphaned (settings : jsval) (targetBalancerTag : string) : jsval :=
  if Nat.ltb 0 (countLoopbackRefs settings targetBalancerTag) then settings
  else removeBalancerLoopback settings targetBalancerTag.

(** ** Renaming *)

Definition rename_outbound (oldLb newLb : string) (o : jsval) : jsval :=
  let o := if is_str (get o "tag") oldLb then set o "tag" (VStr newLb) else o in
  let s := get o "settings" in
  if is_str (get s "inboundTag") oldLb then set o "settings" (set s "inboundTag" (VStr newLb)) else o.

(** [idx = l.indexOf(old); if (idx !== -1) l[idx] = new] *)
Fixpoint replace_first (oldLb newLb : string) (l : list jsval) : list jsval :=
  match l with
  | [] => []
  | v :: l => if is_str v oldLb then VStr newLb :: l else v :: replace_first oldLb newLb l
  end.

Definition rename_rule (oldLb newLb : string) (r : jsval) : jsval :=
  match get r "inboundTag" with
  | VArr l => set r "inboundTag" (VArr (replace_first oldLb newLb l))
  | _ => r
  end.

Definition rename_balancer (oldLb newLb : string) (b : jsval) : jsval :=
  if is_str (get b "fallbackTag") oldLb then set b "fallbackTag" (VStr newLb) else b.

Definition propagateBalancerTagRename (settings : jsval) (oldTag newTag : string) : jsval :=
  let oldLb := loopbackTagFor oldTag in
  let newLb := loopbackTagFor newTag in
  let settings :=
    match get settings "outbounds" with
    | VArr l => set settings "outbounds" (VArr (map (rename_outbound oldLb newLb) l))
    | _ => settings
    end in
  let settings := update_routing "rules" (map (rename_rule oldLb newLb)) settings in
  update_routing "balancers" (map (rename_balancer oldLb newLb)) settings.

(** ** Cycle detection *)

(** The balancer a balancer falls back to through a loopback tag, [""] when none. *)
Definition fallback_target (b : jsval) : string :=
  let fb := str_or_empty (get b "fallbackTag") in
  match balancerTagFromLoopback fb with Some t => t | None => "" end.

Definition find_balancer (balancers : list jsval) (tag : string) : jsval :=
  match List.find (fun x => is_str (get x "tag") tag) balancers with Some b => b | None => VUndef end.

(** The [while] loop; [None] is running out of fuel. *)
Fixpoint chase (fuel : nat) (balancers : list jsval) (start : string) (visited : list string) (cursor : string)
  : option bool :=
  match fuel with
  | O => None
  | S fuel =>
      if String.eqb cursor "" || existsb (String.eqb cursor) visited then Some false
      else if String.eqb cursor start then Some true
      else
        let fb := str_or_empty (get (find_balancer balancers cursor) "fallbackTag") in
        if String.eqb fb "" || negb (isBalancerLoopbackTag fb) then Some false
        else chase fuel balancers start (cursor :: visited)
               (match balancerTagFromLoopback fb with Some t => t | None => "" end)
  end.

(** One iteration of the [for] loop: the reported cycle, if any.  Two more than the number
    of balancers is enough fuel ([chase_terminates]). *)
Definition cycle_of (balancers : list jsval) (b : jsval) : option (list string) :=
  let tag := str_or_empty (get b "tag") in
  let fb := str_or_empty (get b "fallbackTag") in
  if String.eqb tag "" || String.eqb fb "" || negb (isBalancerLoopbackTag fb) then None
  else
    let targetTag := fallback_target b in
    if String.eqb targetTag "" then None
    else match chase (length balancers + 2) balancers tag [] targetTag with
         | Some true => Some [tag; targetTag]
         | _ => None
         end.

Definition detectBalancerCycles (settings : jsval) : list (list string) :=
  omap (cycle_of (balancerList settings)) (balancerList settings).

Definition ensureMissing_step (settings b : jsval) : jsval :=
  let fb := str_or_empty (get b "fallbackTag") in
  if String.eqb fb "" || negb (isBalancerLoopbackTag fb) then settings
  else let targetTag := fallback_target b in
       if String.eqb targetTag "" then settings else ensureBalancerLoopback settings targetTag.

Definition ensureMissingBalancerLoopbacks (settings : jsval) : jsval :=
  fold_left ensureMissing_step (balancerList settings) settings.

Definition orphan_of (settings : jsval) (o : jsval) : option string :=
  let tag := str_or_empty (get o "tag") in
  if negb (is_str (get o "protocol") "loopback") || String.eqb tag "" || negb (isBalancerLoopbackTag tag) then None
  else match balancerTagFromLoopback tag with
       | Some targetTag =>
           if negb (String.eqb targetTag "") && Nat.eqb (countLoopbackRefs settings targetTag) 0 then Some targetTag
           else None
       | None => None
       end.

Definition cleanupOrphanedBalancerLoopbacks (settings : jsval) : jsval :=
  match get settings "outbounds" with
  | VArr outs => fold_left removeBalancerLoopback (omap (orphan_of settings) outs) settings
  | _ => settings
  end.

(** ** Tags: lemmas *)

Lemma loopback_roundtrip t : balancerTagFromLoopback (loopbackTagFor t) = Some t.
Proof.
  unfold balancerTagFromLoopback, isBalancerLoopbackTag, loopbackTagFor.
  by rewrite starts_with_app, str_drop_app.
Qed.

Lemma balancerTagFromLoopback_Some l t : balancerTagFromLoopback l = Some t <-> l = loopbackTagFor t.
Proof.
  split; [|intros ->; apply loopback_roundtrip].
  unfold balancerTagFromLoopback, isBalancerLoopbackTag, loopbackTagFor.
  destruct (starts_with l LOOPBACK_PREFIX) eqn:E; [|done].
  apply prefix_iff in E as [s ->]. rewrite str_drop_app. congruence.
Qed.

Lemma isBalancerLoopbackTag_iff l : isBalancerLoopbackTag l = true <-> exists t, l = loopbackTagFor t.
Proof. apply prefix_iff. Qed.

Lemma loopbackTagFor_inj t t' : loopbackTagFor t = loopbackTagFor t' -> t = t'.
Proof. apply app_inj_l. Qed.

Lemma isBalancerLoopbackTag_for t : isBalancerLoopbackTag (loopbackTagFor t) = true.
Proof. apply starts_with_app. Qed.

Lemma is_str_iff v s : is_str v s = true <-> v = VStr s.
Proof. destruct v; cbn; rewrite ?String.eqb_eq; naive_solver. Qed.

Lemma references_iff t b : references t b = true <-> get b "fallbackTag" = VStr (loopbackTagFor t).
Proof.
  unfold references, loopbackMatchesTarget. split.
  - destruct (balancerTagFromLoopback (str_or_empty (get b "fallbackTag"))) as [t'|] eqn:E; [|by rewrite andb_false_r].
    intros H. apply andb_true_iff in H as [_ ->%String.eqb_eq]. apply balancerTagFromLoopback_Some in E.
    destruct (get b "fallbackTag"); cbn in *; try done. by rewrite E.
  - intros ->. cbn [str_or_empty]. rewrite loopback_roundtrip, isBalancerLoopbackTag_for, String.eqb_refl. done.
Qed.

(** ** Cycle detection: specification *)

(** One fallback hop: the balancer tagged [t] falls back, through a loopback tag, to [t']. *)
Definition hop (balancers : list jsval) (t t' : string) : Prop :=
  t <> "" /\ get (find_balancer balancers t) "fallbackTag" = VStr (loopbackTagFor t').

Lemma hop_det bs t t1 t2 : hop bs t t1 -> hop bs t t2 -> t1 = t2.
Proof. intros [_ H1] [_ H2]. apply loopbackTagFor_inj. congruence. Qed.

Lemma hop_known bs t t' : hop bs t t' -> In (VStr t) (map (fun b => get b "tag") bs).
Proof.
  intros [_ H]. unfold find_balancer in H.
  destruct (List.find (fun x => is_str (get x "tag") t) bs) as [b|] eqn:E; [|done].
  apply find_some in E as [Hin E]. apply is_str_iff in E. rewrite <- E.
  by apply (in_map (fun b => get b "tag")).
Qed.

(** The step of the loop, read off the [fallbackTag] of the balancer under the cursor. *)
Lemma chase_step bs cursor (fb := str_or_empty (get (find_balancer bs cursor) "fallbackTag")) :
  cursor <> "" ->
  (String.eqb fb "" || negb (isBalancerLoopbackTag fb) = true /\ forall t, ~ hop bs cursor t) \/
  (String.eqb fb "" || negb (isBalancerLoopbackTag fb) = false /\
   exists t, balancerTagFromLoopback fb = Some t /\ hop bs cursor t).
Proof.
  intros Hc. destruct (isBalancerLoopbackTag fb) eqn:E.
  - right. pose proof (proj1 (isBalancerLoopbackTag_iff fb) E) as [t Ht].
    split; [by rewrite Ht|]. exists t. rewrite Ht, loopback_roundtrip. split; [done|]. split; [done|].
    clear E. subst fb. destruct (get (find_balancer bs cursor) "fallbackTag"); cbn [str_or_empty] in Ht; try done.
    by subst.
  - left. split; [by rewrite orb_true_r|]. intros t [_ Ht]. subst fb. rewrite Ht in E. cbn [str_or_empty] in E.
    by rewrite isBalancerLoopbackTag_for in E.
Qed.

(** The loop terminates: the visited tags are distinct tags of balancers, so they are at
    most as many as the balancers. *)
Lemma chase_terminates fuel : forall bs start visited cursor,
  List.NoDup visited -> (forall t, In t visited -> In (VStr t) (map (fun b => get b "tag") bs)) ->
  (length bs < fuel + length visited)%nat ->
  exists r, chase fuel bs start visited cursor = Some r.
Proof.
  induction fuel as [|fuel IH]; intros bs start visited cursor Hnd Hin Hlen.
  - exfalso. assert (length (map VStr visited) <= length (map (fun b => get b "tag") bs))%nat as L.
    { apply NoDup_incl_length.
      - apply Finite.Injective_map_NoDup; [|done]. by intros a b [= ->].
      - intros v (t & <- & Ht)%in_map_iff. auto. }
    rewrite !length_map in L. lia.
  - cbn [chase]. destruct (String.eqb_spec cursor "") as [|Hc]; [by eexists|]. cbn [orb].
    destruct (existsb (String.eqb cursor) visited) eqn:Ev; [by eexists|].
    destruct (String.eqb cursor start); [by eexists|].
    destruct (chase_step bs cursor Hc) as [[-> _] | [-> (t & -> & Hhop)]]; [by eexists|].
    apply IH; [|intros u [<-|Hu]; [by eapply hop_known|auto]|cbn; lia].
    constructor; [|done]. intros H. apply existsb_In in H. congruence.
Qed.

(** Reachability along fallback hops. *)
Inductive reaches (bs : list jsval) : string -> string -> Prop :=
| reaches_refl t : reaches bs t t
| reaches_hop t t' u : hop bs t t' -> reaches bs t' u -> reaches bs t u.

Lemma reaches_closed bs (S : string -> Prop) t u :
  (forall v w, S v -> hop bs v w -> S w) -> reaches bs t u -> S t -> S u.
Proof. intros H R. induction R; eauto. Qed.

Lemma chase_sound fuel : forall bs start visited cursor,
  chase fuel bs start visited cursor = Some true -> reaches bs cursor start.
Proof.
  induction fuel as [|fuel IH]; intros bs start visited cursor; cbn [chase]; [done|].
  destruct (String.eqb_spec cursor "") as [|Hc]; cbn [orb]; [done|].
  destruct (existsb _ visited); [done|]. destruct (String.eqb_spec cursor start) as [->|]; [constructor|].
  destruct (chase_step bs cursor Hc) as [[-> _] | [-> (t & -> & Hhop)]]; [done|].
  intros H. econstructor; eauto.
Qed.

(** The loop answers "no" only when a set of tags closed under hops contains the first
    cursor and not the start. *)
Lemma chase_complete fuel : forall bs start visited cursor target,
  start <> "" -> (target = cursor \/ In target visited) -> ~ In start visited ->
  (forall v w, In v visited -> hop bs v w -> w = cursor \/ In w visited) ->
  chase fuel bs start visited cursor = Some false -> ~ reaches bs target start.
Proof.
  induction fuel as [|fuel IH]; intros bs start visited cursor target Hs Ht Hn Hcl; cbn [chase]; [done|].
  assert (Stop : ~ (cursor = start) -> (forall w, hop bs cursor w -> w = cursor \/ In w visited) ->
                 ~ reaches bs target start).
  { intros Hne Hc R.
    assert (start = cursor \/ In start visited) as [|]; [|congruence|done].
    apply (reaches_closed bs (fun v => v = cursor \/ In v visited) target start); [|done|done].
    intros v w [-> | Hv]; eauto. }
  destruct (String.eqb_spec cursor "") as [->|Hc]; cbn [orb].
  { intros _. apply Stop; [congruence|]. by intros w [H _]. }
  destruct (existsb (String.eqb cursor) visited) eqn:Ev.
  { apply existsb_In in Ev. intros _. apply Stop; [by intros ->|]. eauto. }
  destruct (String.eqb_spec cursor start) as [|Hne]; [done|].
  destruct (chase_step bs cursor Hc) as [[-> Hno] | [-> (t & -> & Hhop)]].
  { intros _. apply Stop; [done|]. intros w Hw. by destruct (Hno w). }
  apply IH; [done| | |].
  - destruct Ht as [-> | Ht]; right; cbn; auto.
  - by intros [|].
  - intros v w [<- | Hv] Hw; [left; by eapply hop_det|].
    destruct (Hcl v w Hv Hw) as [-> |]; right; cbn; auto.
Qed.

(** C22. [detectBalancerCycles] always finishes, and reports [[tag, target]] exactly for the
    balancers [tag] that fall back to [target] through a loopback and can be reached
    again from it along fallback hops. *)
Theorem detectBalancerCycles_correct settings tag target :
  let bs := balancerList settings in
  In [tag; target] (detectBalancerCycles settings) <->
  exists b, In b bs /\ get b "tag" = VStr tag /\ tag <> "" /\
    get b "fallbackTag" = VStr (loopbackTagFor target) /\ target <> "" /\ reaches bs target tag.
Proof.
  intros bs. unfold detectBalancerCycles. fold bs. rewrite <- list_elem_of_In, list_elem_of_omap.
  assert (K : forall b, cycle_of bs b = Some [tag; target] <->
    get b "tag" = VStr tag /\ tag <> "" /\ get b "fallbackTag" = VStr (loopbackTagFor target) /\
    target <> "" /\ reaches bs target tag).
  { intros b. unfold cycle_of, fallback_target. split.
    - destruct (String.eqb_spec (str_or_empty (get b "tag")) "") as [|Ht]; cbn [orb]; [done|].
      destruct (String.eqb_spec (str_or_empty (get b "fallbackTag")) "") as [|Hf]; cbn [orb]; [done|].
      destruct (isBalancerLoopbackTag (str_or_empty (get b "fallbackTag"))) eqn:El; cbn [negb]; [|done].
      apply isBalancerLoopbackTag_iff in El as [t El]. rewrite El, loopback_roundtrip.
      destruct (String.eqb_spec t "") as [|Hne]; [done|].
      destruct (chase _ _ _ _ _) as [[]|] eqn:Ech; try done. intros [= E1 E2]. subst t.
      apply chase_sound in Ech. destruct (get b "tag"); try done. destruct (get b "fallbackTag"); try done.
      cbn in *. subst. done.
    - intros (-> & Htag & -> & Htgt & R). cbn [str_or_empty].
      rewrite (proj2 (String.eqb_neq tag "") Htag), isBalancerLoopbackTag_for, loopback_roundtrip.
      rewrite (proj2 (String.eqb_neq target "") Htgt). cbn [orb negb].
      destruct (chase_terminates (length bs + 2) bs tag [] target) as [[] E];
        [constructor|done|cbn; lia|by rewrite E|].
      exfalso. eapply (chase_complete _ bs tag [] target target); eauto. }
  setoid_rewrite K. setoid_rewrite list_elem_of_In. naive_solver.
Qed.

(** ** Installing the pair *)

Lemma find_index_Some f l i :
  find_index f l = Some i <->
  exists l1 x l2, l = l1 ++ x :: l2 /\ i = length l1 /\ f x = true /\ forallb (fun y => negb (f y)) l1 = true.
Proof.
  revert i. induction l as [|x l IH]; intros i; cbn [find_index].
  - split; [done|]. intros ([] & ? & ? & ? & _); done.
  - destruct (f x) eqn:E.
    + split; [intros [= <-]; by exists [], x, l|].
      intros ([|y l1] & z & l2 & [= -> ->] & -> & Hz & Hl); [done|]. cbn in Hl. by rewrite E in Hl.
    + destruct (find_index f l) as [j|] eqn:Ej; cbn [option_map].
      * destruct (proj1 (IH j) eq_refl) as (l1 & z & l2 & -> & -> & Hz & Hl). split.
        -- intros [= <-]. exists (x :: l1), z, l2. cbn. by rewrite E, Hl.
        -- intros ([|y m1] & z' & m2 & [= <- Em] & -> & Hz' & Hm); [congruence|]. cbn in *.
           apply andb_true_iff in Hm as [_ Hm].
           assert (Some (length l1) = Some (length m1)) as [= ->]; [|done].
           apply IH. by exists m1, z', m2.
      * split; [done|]. intros ([|y m1] & z' & m2 & [= <- Em] & -> & Hz' & Hm); [congruence|].
        cbn in *. apply andb_true_iff in Hm as [_ Hm]. exfalso.
        assert (None = Some (length m1)) as [=]. apply IH. by exists m1, z', m2.
Qed.

Lemma find_index_None f l : find_index f l = None <-> forallb (fun y => negb (f y)) l = true.
Proof.
  induction l as [|x l IH]; cbn; [done|]. destruct (f x); cbn; [done|].
  rewrite <- IH. by destruct (find_index f l).
Qed.

Lemma firstGeneral_prefix rules :
  forallb (fun r => negb (isGeneralRoutingRule r)) (take (firstGeneralRoutingRuleIndex rules) rules) = true.
Proof.
  induction rules as [|r rules IH]; cbn; [done|]. destruct (isGeneralRoutingRule r) eqn:E; cbn; [done|].
  by rewrite E.
Qed.

(** The blob is an object and its [routing], when set, is one too. *)
Definition settings_ok (settings : jsval) : Prop :=
  (exists o, settings = VObj o) /\
  (truthy (get settings "routing") = false \/ exists r, get settings "routing" = VObj r).

Lemma set_obj v k x : (exists o, v = VObj o) -> exists o, set v k x = VObj o.
Proof. intros [o ->]. cbn. eauto. Qed.

Lemma as_list_ensured v k : 
  as_list (get (if is_array (get v k) then v else set v k (VArr [])) k) = as_list (get v k).
Proof.
  destruct (get v k) eqn:E; cbn [is_array]; rewrite ?E; try done;
    (destruct v; cbn in *; [..|by rewrite obj_get_set_eq]); done.
Qed.

Lemma get_ensured_ne v k k' x (b : bool) : k <> k' -> get (if b then v else set v k x) k' = get v k'.
Proof. intros H. destruct b; [done|]. by rewrite get_set_ne. Qed.

Lemma ensured_obj v k x (b : bool) : (exists o, v = VObj o) -> exists o, (if b then v else set v k x) = VObj o.
Proof. intros H. destruct b; [done|]. by apply set_obj. Qed.

Lemma falsy_get v k : truthy v = false -> get v k = VUndef.
Proof. by destruct v. Qed.

(** What [ensureBalancerLoopback] does to each part of the blob. *)
Lemma ensure_fields settings t (s' := ensureBalancerLoopback settings t) :
  settings_ok settings ->
  outbounds_of s' = ensure_outbounds (loopbackTagFor t) (outbounds_of settings) /\
  ruleList s' = ensure_rules (loopbackTagFor t) t (ruleList settings) /\
  balancerList s' = balancerList settings /\ settings_ok s'.
Proof.
  intros [Ho Hr]. subst s'. unfold ensureBalancerLoopback.
  set (s1 := if is_array (get settings "outbounds") then settings else _).
  set (s2 := set s1 "outbounds" _). set (s3 := if truthy (get s2 "routing") then s2 else _).
  set (r1 := if is_array (get (get s3 "routing") "rules") then _ else _).
  assert (Ho1 : exists o, s1 = VObj o) by by apply ensured_obj.
  assert (Ho2 : exists o, s2 = VObj o) by by apply set_obj.
  assert (Ho3 : exists o, s3 = VObj o) by by apply ensured_obj.
  assert (E2 : get s2 "routing" = get settings "routing").
  { subst s2 s1. rewrite get_set_ne by done. by rewrite get_ensured_ne. }
  assert (E3 : (exists r, get s3 "routing" = VObj r) /\
    as_list (get (get s3 "routing") "rules") = ruleList settings /\
    as_list (get (get s3 "routing") "balancers") = balancerList settings).
  { subst s3. unfold ruleList, balancerList. rewrite E2. destruct (truthy (get settings "routing")) eqn:Et.
    - rewrite E2. split; [|done]. by destruct Hr as [|].
    - rewrite get_set_eq by done. rewrite !(falsy_get (get settings "routing")) by done. split; [eauto|done]. }
  destruct E3 as (Hr3 & Er & Eb).
  assert (Hr1 : exists r, r1 = VObj r) by by apply ensured_obj.
  unfold outbounds_of, ruleList, balancerList. rewrite !(get_set_eq s3) by done.
  rewrite (get_set_ne s3 "routing" "outbounds") by done.
  rewrite (get_set_eq r1) by done. rewrite (get_set_ne r1 "rules" "balancers") by done.
  repeat split.
  - subst s3. rewrite get_ensured_ne by done. subst s2. rewrite get_set_eq by done. cbn [as_list].
    subst s1. unfold outbounds_of. by rewrite as_list_ensured.
  - cbn [as_list]. subst r1. rewrite as_list_ensured. by rewrite Er.
  - subst r1. by rewrite get_ensured_ne.
  - by apply set_obj.
  - right. rewrite get_set_eq by done. by apply set_obj.
Qed.

Lemma In_ensure_outbounds lb outs o :
  In o (ensure_outbounds lb outs) -> o = loopback_outbound lb \/ In o outs.
Proof.
  unfold ensure_outbounds. destruct (find_index _ outs) as [i|] eqn:E.
  - apply find_index_Some in E as (l1 & x & l2 & -> & -> & _).
    rewrite list.insert_app_r_alt, Nat.sub_diag by lia. cbn. rewrite !in_app_iff. cbn. naive_solver.
  - rewrite in_app_iff. cbn. naive_solver.
Qed.

Lemma ensure_outbounds_spec lb outs :
  In (loopback_outbound lb) (ensure_outbounds lb outs) /\
  (forall o, In o outs -> is_str (get o "tag") lb = false -> In o (ensure_outbounds lb outs)).
Proof.
  unfold ensure_outbounds. destruct (find_index _ outs) as [i|] eqn:E.
  - apply find_index_Some in E as (l1 & x & l2 & -> & -> & Hx & _).
    rewrite list.insert_app_r_alt, Nat.sub_diag by lia. cbn [insert list_insert].
    setoid_rewrite in_app_iff. cbn [In]. split; [auto|]. intros o [|[<-|]] Ho; auto. congruence.
  - setoid_rewrite in_app_iff. cbn. naive_solver.
Qed.

(** The rules other than the one [ensureBalancerLoopback] places. *)
Definition other_rules (lb : string) (rules : list jsval) : list jsval :=
  match find_index (mentions lb) rules with Some i => splice1 i rules | None => rules end.

Lemma mentions_obj lb r : mentions lb r = true -> exists o, r = VObj o.
Proof. unfold mentions. destruct r; cbn; try done. eauto. Qed.

Lemma mentions_set lb r k v : k <> "inboundTag" -> mentions lb (set r k v) = mentions lb r.
Proof. intros H. unfold mentions. by rewrite get_set_ne. Qed.

(** The rule is placed before every general rule, routes the loopback tag to the target,
    and the other rules keep their order. *)
Lemma ensure_rules_shape lb t rules :
  exists l1 r l2, ensure_rules lb t rules = l1 ++ r :: l2 /\ other_rules lb rules = l1 ++ l2 /\
    mentions lb r = true /\ get r "balancerTag" = VStr t /\
    forallb (fun x => negb (isGeneralRoutingRule x)) l1 = true.
Proof.
  unfold ensure_rules, other_rules.
  destruct (find_index (mentions lb) rules) as [i|] eqn:E; cbv zeta; unfold insert_at;
    do 3 eexists; (split; [done|]); (split; [by rewrite take_drop|]).
  - apply find_index_Some in E as (l1 & x & l2 & -> & -> & Hx & _).
    rewrite app_nth2, Nat.sub_diag by lia. cbn [nth].
    rewrite mentions_set, get_set_eq by (done || by eapply mentions_obj).
    split; [done|]. split; [done|]. apply firstGeneral_prefix.
  - unfold mentions. cbn. rewrite String.eqb_refl. split; [done|]. split; [done|]. apply firstGeneral_prefix.
Qed.

Lemma other_rules_In lb rules x : In x rules -> mentions lb x = false -> In x (other_rules lb rules).
Proof.
  unfold other_rules. intros Hin Hm. destruct (find_index _ rules) as [i|] eqn:E; [|done].
  apply find_index_Some in E as (l1 & y & l2 & -> & -> & Hy & _). unfold splice1.
  rewrite take_app_length. rewrite (drop_app_ge l1) by lia.
  replace (S (length l1) - length l1)%nat with 1%nat by lia. cbn [drop].
  rewrite in_app_iff in *. destruct Hin as [|[<-|]]; [auto|congruence|auto].
Qed.

Lemma In_other_rules lb rules x : In x (other_rules lb rules) -> In x rules.
Proof.
  unfold other_rules. destruct (find_index _ rules) as [i|] eqn:E; [|done].
  unfold splice1. rewrite in_app_iff. rewrite <- (take_drop i rules) at 3. rewrite in_app_iff.
  intros [|H]; [auto|]. right. rewrite <- (Nat.add_1_r i), <- drop_drop in H.
  destruct (drop i rules); cbn in *; auto.
Qed.

Lemma other_rules_unmentioned lb rules :
  (length (List.filter (mentions lb) rules) <= 1)%nat -> forallb (fun r => negb (mentions lb r)) (other_rules lb rules) = true.
Proof.
  unfold other_rules. destruct (find_index _ rules) as [i|] eqn:E; [|by intros _; apply find_index_None].
  apply find_index_Some in E as (l1 & y & l2 & -> & -> & Hy & Hl1). unfold splice1.
  rewrite take_app_length, (drop_app_ge l1) by lia.
  replace (S (length l1) - length l1)%nat with 1%nat by lia. cbn [drop].
  rewrite filter_app, length_app. cbn. rewrite Hy. cbn. intros H. rewrite forallb_app, Hl1. cbn.
  apply forallb_forall. intros z Hz. destruct (mentions lb z) eqn:Ez; [|done].
  assert (In z (List.filter (mentions lb) l2)) by by apply filter_In.
  destruct (List.filter (mentions lb) l2); cbn in *; [done|lia].
Qed.

Lemma find_skip {A} (f : A -> bool) l1 x l2 :
  forallb (fun y => negb (f y)) l1 = true -> f x = true -> List.find f (l1 ++ x :: l2) = Some x.
Proof. induction l1 as [|y l1 IH]; cbn; [by intros _ ->|]. destruct (f y); cbn; [done|auto]. Qed.

(** After [ensureBalancerLoopback] for a non-empty target, when at most one rule
    carries the loopback tag: the loopback outbound is installed, the loopback tag is
    routed to the target balancer (so the stored fallback resolves to it), the routing
    rule stands before every rule that applies to all inbounds, and the balancers, the
    other outbounds and the other rules are kept. *)
Theorem ensureBalancerLoopback_installs settings t :
  let lb := loopbackTagFor t in
  let s' := ensureBalancerLoopback settings t in
  settings_ok settings -> t <> "" -> (length (List.filter (mentions lb) (ruleList settings)) <= 1)%nat ->
  In (loopback_outbound lb) (outbounds_of s') /\
  resolveLoopbackFallback s' lb = t /\
  (exists l1 r l2, ruleList s' = l1 ++ r :: l2 /\ mentions lb r = true /\ get r "balancerTag" = VStr t /\
     forallb (fun x => negb (isGeneralRoutingRule x)) l1 = true) /\
  balancerList s' = balancerList settings /\
  (forall o, In o (outbounds_of settings) -> is_str (get o "tag") lb = false -> In o (outbounds_of s')) /\
  (forall r, In r (ruleList settings) -> mentions lb r = false -> In r (ruleList s')).
Proof.
  intros lb s' Hok Ht H1. destruct (ensure_fields settings t Hok) as (Eo & Er & Eb & _).
  fold s' lb in Eo, Er, Eb.
  destruct (ensure_outbounds_spec lb (outbounds_of settings)) as [O1 O2].
  destruct (ensure_rules_shape lb t (ruleList settings)) as (l1 & r & l2 & Es & Eot & Hm & Hb & Hg).
  pose proof (other_rules_unmentioned _ _ H1) as Hun. rewrite Eot in Hun.
  rewrite forallb_app in Hun. apply andb_true_iff in Hun as [Hl1 Hl2].
  rewrite Eo, Eb, Er, Es. split; [done|]. split; [|split; [eauto 10|split; [done|split; [done|]]]].
  - unfold resolveLoopbackFallback. unfold lb at 1 2. rewrite isBalancerLoopbackTag_for. cbn [negb orb].
    unfold findLoopbackTarget. rewrite Er, Es, (find_skip _ l1 r l2); [by rewrite Hb| |].
    + rewrite forallb_forall in Hl1 |- *. intros x Hx. specialize (Hl1 x Hx). by destruct (mentions lb x).
    + rewrite Hm, Hb. cbn. by rewrite (proj2 (String.eqb_neq t "") Ht).
  - intros x Hx Hmx. pose proof (other_rules_In _ _ _ Hx Hmx) as Hin. rewrite Eot in Hin.
    rewrite in_app_iff in *. cbn. naive_solver.
Qed.

Lemma ensureBalancerLoopback_installs_witness :
  settings_ok sample_blob /\ resolveLoopbackFallback (ensureBalancerLoopback sample_blob "b2") "_bl_b2" = "b2".
Proof.
  assert (H : settings_ok sample_blob) by (split; [eexists; reflexivity|right; eexists; reflexivity]).
  split; [exact H|].
  refine (proj1 (proj2 (ensureBalancerLoopback_installs sample_blob "b2" H _ _))); [discriminate|cbn; lia].
Defined.

(** ** Repairing missing pairs *)

(** A rule carries at most one loopback tag. *)
Definition one_loopback (r : jsval) : Prop :=
  forall t t', mentions (loopbackTagFor t) r = true -> mentions (loopbackTagFor t') r = true -> t = t'.

(** The pair for [t] is in place. *)
Definition installed (settings : jsval) (t : string) : Prop :=
  In (loopback_outbound (loopbackTagFor t)) (outbounds_of settings) /\
  exists r, In r (ruleList settings) /\ mentions (loopbackTagFor t) r = true /\ get r "balancerTag" = VStr t.

Lemma ensure_rules_In lb t rules x :
  In x (ensure_rules lb t rules) ->
  In x rules \/ x = VObj [("type", VStr "field"); ("inboundTag", VArr [VStr lb]); ("balancerTag", VStr t)] \/
  exists y, In y rules /\ x = set y "balancerTag" (VStr t).
Proof.
  unfold ensure_rules. destruct (find_index _ rules) as [i|] eqn:E; cbv zeta; unfold insert_at.
  - pose proof E as F. apply find_index_Some in F as (l1 & y & l2 & -> & -> & Hy & _).
    pose proof (take_drop (firstGeneralRoutingRuleIndex (splice1 (length l1) (l1 ++ y :: l2)))
                  (splice1 (length l1) (l1 ++ y :: l2))) as Etd.
    rewrite in_app_iff. cbn [In]. intros Hin.
    assert (In x (other_rules lb (l1 ++ y :: l2)) \/ x = set (nth (length l1) (l1 ++ y :: l2) VUndef) "balancerTag" (VStr t))
      as [Hx | ->].
    { unfold other_rules. rewrite E, <- Etd, in_app_iff. naive_solver. }
    + left. by eapply In_other_rules.
    + right. right. exists y. rewrite app_nth2, Nat.sub_diag by lia. split; [|done]. apply in_app_iff. cbn. auto.
  - rewrite in_app_iff. cbn [In]. intros Hin.
    assert (In x rules \/ x = VObj [("type", VStr "field"); ("inboundTag", VArr [VStr lb]); ("balancerTag", VStr t)]); [|tauto].
    rewrite <- (take_drop (firstGeneralRoutingRuleIndex rules) rules), in_app_iff. naive_solver.
Qed.

Lemma one_loopback_single r x : get r "inboundTag" = VArr [VStr x] -> one_loopback r.
Proof.
  intros E t t'. unfold mentions. rewrite E. cbn [as_list existsb is_str]. rewrite !orb_false_r, !String.eqb_eq.
  intros -> H. by apply loopbackTagFor_inj.
Qed.

Lemma one_loopback_general r : as_list (get r "inboundTag") = [] -> one_loopback r.
Proof. intros E t t'. unfold mentions. by rewrite E. Qed.

Lemma ensure_rules_one t rules :
  Forall one_loopback rules -> Forall one_loopback (ensure_rules (loopbackTagFor t) t rules).
Proof.
  rewrite !List.Forall_forall. intros H x [|[-> | (y & Hy & ->)]]%ensure_rules_In; [auto| |].
  - by eapply one_loopback_single.
  - intros a b. rewrite !mentions_set by done. by apply H.
Qed.

(** Installing one pair keeps the others. *)
Lemma ensure_keeps settings t t' :
  settings_ok settings -> Forall one_loopback (ruleList settings) ->
  installed settings t' \/ t = t' -> installed (ensureBalancerLoopback settings t) t'.
Proof.
  intros Hok H1 Hi. destruct (ensure_fields settings t Hok) as (Eo & Er & _). unfold installed. rewrite Eo, Er.
  destruct (ensure_rules_shape (loopbackTagFor t) t (ruleList settings)) as (l1 & r & l2 & Es & Eot & Hm & Hb & _).
  destruct (ensure_outbounds_spec (loopbackTagFor t) (outbounds_of settings)) as [O1 O2].
  destruct (decide (t = t')) as [<- | Hne].
  { split; [done|]. exists r. rewrite Es, in_app_iff. cbn. auto. }
  destruct Hi as [[Ho (r' & Hr' & Hm' & Hb')] | ]; [|done]. split.
  - apply O2; [done|]. cbn. apply String.eqb_neq. congruence.
  - exists r'. split; [|done]. rewrite Es. assert (In r' (l1 ++ l2)) as Hin.
    { rewrite <- Eot. apply other_rules_In; [done|]. destruct (mentions (loopbackTagFor t) r') eqn:Em; [|done].
      destruct Hne. rewrite List.Forall_forall in H1. by apply (H1 r' Hr'). }
    rewrite in_app_iff in *. cbn. tauto.
Qed.

Lemma ensureMissing_step_spec s b :
  settings_ok s -> Forall one_loopback (ruleList s) ->
  let s' := ensureMissing_step s b in
  settings_ok s' /\ Forall one_loopback (ruleList s') /\ balancerList s' = balancerList s /\
  forall t, installed s t \/ (get b "fallbackTag" = VStr (loopbackTagFor t) /\ t <> "") -> installed s' t.
Proof.
  intros Hs Hone. unfold ensureMissing_step, fallback_target. cbv zeta.
  destruct (String.eqb_spec (str_or_empty (get b "fallbackTag")) "") as [E|E]; cbn [orb].
  { do 3 (split; [done|]). intros t [|[Hb _]]; [done|]. by rewrite Hb in E. }
  destruct (isBalancerLoopbackTag (str_or_empty (get b "fallbackTag"))) eqn:El; cbn [negb].
  2:{ do 3 (split; [done|]). intros t [|[Hb _]]; [done|]. rewrite Hb in El. cbn [str_or_empty] in El.
      by rewrite isBalancerLoopbackTag_for in El. }
  apply isBalancerLoopbackTag_iff in El as [u Eu]. rewrite Eu, loopback_roundtrip.
  destruct (String.eqb_spec u "") as [->|Hu].
  { do 3 (split; [done|]). intros t [|[Hb Ht]]; [done|]. rewrite Hb in Eu. by apply loopbackTagFor_inj in Eu. }
  destruct (ensure_fields s u Hs) as (_ & Er & Eb & Hs'). split; [done|]. split; [rewrite Er; by apply ensure_rules_one|].
  split; [done|]. intros t Ht. apply ensure_keeps; [done|done|]. destruct Ht as [|[Hb Ht]]; [by left|right].
  rewrite Hb in Eu. by apply loopbackTagFor_inj in Eu.
Qed.

Lemma ensureMissing_fold l : forall s,
  settings_ok s -> Forall one_loopback (ruleList s) ->
  balancerList (fold_left ensureMissing_step l s) = balancerList s /\
  forall t, installed s t \/ (exists b, In b l /\ get b "fallbackTag" = VStr (loopbackTagFor t) /\ t <> "") ->
    installed (fold_left ensureMissing_step l s) t.
Proof.
  induction l as [|b l IH]; intros s Hs Hone; cbn [fold_left].
  - split; [done|]. intros t [|(b & [] & _)]; done.
  - destruct (ensureMissing_step_spec s b Hs Hone) as (Hs' & Hone' & Eb & K). destruct (IH _ Hs' Hone') as [Eb' K'].
    split; [congruence|]. intros t Ht. apply K'.
    destruct Ht as [Ht | (b' & [<- | Hin] & Hb')]; [left; apply K; by left|left; apply K; by right|right; eauto].
Qed.

(** After [ensureMissingBalancerLoopbacks], in a blob whose rules carry at most one
    loopback tag each, every balancer that falls back to another balancer has its loopback
    outbound and a rule routing the loopback tag to that balancer; the balancers are
    untouched. *)
Theorem ensureMissing_installs settings :
  settings_ok settings -> Forall one_loopback (ruleList settings) ->
  let s' := ensureMissingBalancerLoopbacks settings in
  balancerList s' = balancerList settings /\
  forall b t, In b (balancerList settings) -> get b "fallbackTag" = VStr (loopbackTagFor t) -> t <> "" ->
    installed s' t.
Proof.
  intros Hok H1 s'. destruct (ensureMissing_fold (balancerList settings) settings Hok H1) as [Eb K].
  split; [done|]. intros b t Hb Hf Ht. apply K. eauto.
Qed.

(** A blob with a two-balancer fallback cycle and no loopback pair. *)
Definition sample_cycle : jsval :=
  VObj [("outbounds", VArr [VObj [("tag", VStr "direct")];
                            VObj [("tag", VStr "_bl_gone"); ("protocol", VStr "loopback")]]);
        ("routing", VObj [("rules", VArr [VObj [("outboundTag", VStr "direct")];
                                          VObj [("inboundTag", VArr [VStr "_bl_gone"]); ("balancerTag", VStr "gone")]]);
                          ("balancers", VArr [VObj [("tag", VStr "a"); ("fallbackTag", VStr "_bl_b")];
                                              VObj [("tag", VStr "b"); ("fallbackTag", VStr "_bl_a")]])])].

Lemma ensureMissing_installs_witness :
  settings_ok sample_cycle /\ installed (ensureMissingBalancerLoopbacks sample_cycle) "b".
Proof.
  assert (H : settings_ok sample_cycle) by (split; [eexists; reflexivity|right; eexists; reflexivity]).
  split; [exact H|].
  refine (proj2 (ensureMissing_installs sample_cycle H _)
            (VObj [("tag", VStr "a"); ("fallbackTag", VStr "_bl_b")]) "b" _ eq_refl _); [|left; reflexivity|discriminate].
  repeat constructor; [by apply one_loopback_general|by eapply one_loopback_single].
Defined.

(** ** Removal and clean-up *)

Lemma remove_outbounds settings t :
  outbounds_of (removeBalancerLoopback settings t) =
  List.filter (fun o => negb (is_str (get o "tag") (loopbackTagFor t))) (outbounds_of settings).
Proof.
  unfold removeBalancerLoopback, outbounds_of. rewrite get_update_routing_ne by done.
  destruct (get settings "outbounds") eqn:E; rewrite ?E; try done.
  destruct (get_VArr_obj _ _ _ E) as [o ->]. by rewrite get_set_eq by eauto.
Qed.

Lemma remove_routing settings t k :
  let s1 := match get settings "outbounds" with
            | VArr l => set settings "outbounds"
                          (VArr (List.filter (fun o => negb (is_str (get o "tag") (loopbackTagFor t))) l))
            | _ => settings end in
  get (get s1 "routing") k = get (get settings "routing") k.
Proof. cbv zeta. destruct (get settings "outbounds"); try done. by rewrite get_set_ne. Qed.

Lemma remove_rules settings t :
  ruleList (removeBalancerLoopback settings t) =
  List.filter (fun r => negb (mentions (loopbackTagFor t) r)) (ruleList settings).
Proof.
  unfold removeBalancerLoopback, ruleList. rewrite routing_update_eq by done. f_equal. f_equal. apply remove_routing.
Qed.

Lemma remove_balancers settings t : balancerList (removeBalancerLoopback settings t) = balancerList settings.
Proof.
  unfold removeBalancerLoopback, balancerList. rewrite routing_update_ne by done. f_equal. apply remove_routing.
Qed.

Lemma remove_fold ts : forall settings (s' := fold_left removeBalancerLoopback ts settings),
  balancerList s' = balancerList settings /\
  (forall o, In o (outbounds_of s') <->
     In o (outbounds_of settings) /\ forall t, In t ts -> get o "tag" <> VStr (loopbackTagFor t)) /\
  (forall r, In r (ruleList s') <->
     In r (ruleList settings) /\ forall t, In t ts -> mentions (loopbackTagFor t) r = false).
Proof.
  induction ts as [|t ts IH]; intros settings; cbn [fold_left]; [cbn; naive_solver|].
  destruct (IH (removeBalancerLoopback settings t)) as (Eb & Eo & Er). cbv zeta.
  rewrite Eb, remove_balancers. setoid_rewrite Eo. setoid_rewrite Er.
  rewrite remove_outbounds, remove_rules. setoid_rewrite filter_In. setoid_rewrite negb_true_iff.
  split; [done|]. cbn [In]. split; [|naive_solver]. intros o. rewrite <- not_true_iff_false, is_str_iff. naive_solver.
Qed.

(** No balancer falls back to [t], yet a loopback outbound for it is configured. *)
Definition orphaned (settings : jsval) (t : string) : Prop :=
  t <> "" /\ (forall b, In b (balancerList settings) -> get b "fallbackTag" <> VStr (loopbackTagFor t)) /\
  exists o, In o (outbounds_of settings) /\ get o "protocol" = VStr "loopback" /\ get o "tag" = VStr (loopbackTagFor t).

Lemma countLoopbackRefs_zero settings t :
  countLoopbackRefs settings t = 0%nat <->
  forall b, In b (balancerList settings) -> get b "fallbackTag" <> VStr (loopbackTagFor t).
Proof.
  unfold countLoopbackRefs. rewrite length_zero_iff_nil. setoid_rewrite <- references_iff. split.
  - intros H b Hb Hr. assert (In b []) as []. rewrite <- H. by apply filter_In.
  - intros H. destruct (List.filter _ _) as [|b l] eqn:E; [done|].
    assert (In b (List.filter (references t) (balancerList settings))) as Hin by (rewrite E; cbn; auto).
    apply filter_In in Hin as [Hin Hr]. by destruct (H b Hin).
Qed.

Lemma orphan_of_Some settings o t :
  orphan_of settings o = Some t <->
  get o "protocol" = VStr "loopback" /\ get o "tag" = VStr (loopbackTagFor t) /\ t <> "" /\
  countLoopbackRefs settings t = 0%nat.
Proof.
  unfold orphan_of. rewrite <- (is_str_iff (get o "protocol")).
  destruct (is_str (get o "protocol") "loopback"); cbn [negb orb]; [|naive_solver]. split.
  - destruct (String.eqb (str_or_empty (get o "tag")) ""); cbn [orb]; [done|].
    destruct (isBalancerLoopbackTag _); cbn [negb]; [|done].
    destruct (balancerTagFromLoopback (str_or_empty (get o "tag"))) as [u|] eqn:E; [|done].
    apply balancerTagFromLoopback_Some in E.
    destruct (String.eqb_spec u "") as [|Hu]; cbn [negb andb]; [done|].
    destruct (Nat.eqb_spec (countLoopbackRefs settings u) 0); [|done]. intros [= ->].
    destruct (get o "tag"); cbn [str_or_empty] in E; try done. by subst.
  - intros (_ & -> & Ht & Hc). cbn [str_or_empty].
    rewrite isBalancerLoopbackTag_for, loopback_roundtrip, Hc, (proj2 (String.eqb_neq t "") Ht). done.
Qed.

(** [cleanupOrphanedBalancerLoopbacks] removes exactly the outbounds and rules of the
    orphaned loopback tags: what remains is what was there and belongs to no orphan, no
    orphan is left, and the balancers are untouched. *)
Theorem cleanupOrphaned_exact settings (s' := cleanupOrphanedBalancerLoopbacks settings) :
  balancerList s' = balancerList settings /\
  (forall o, In o (outbounds_of s') <->
     In o (outbounds_of settings) /\ forall t, orphaned settings t -> get o "tag" <> VStr (loopbackTagFor t)) /\
  (forall r, In r (ruleList s') <->
     In r (ruleList settings) /\ forall t, orphaned settings t -> mentions (loopbackTagFor t) r = false) /\
  (forall t, ~ orphaned s' t).
Proof.
  assert (K : exists ts, s' = fold_left removeBalancerLoopback ts settings /\ forall t, In t ts <-> orphaned settings t).
  { subst s'. unfold cleanupOrphanedBalancerLoopbacks.
    destruct (get settings "outbounds") as [| | | | |outs|] eqn:E;
      try (exists []; split; [done|]; unfold orphaned, outbounds_of; rewrite E; cbn; naive_solver).
    exists (omap (orphan_of settings) outs). split; [done|]. intros t.
    rewrite <- list_elem_of_In, list_elem_of_omap. setoid_rewrite list_elem_of_In. setoid_rewrite orphan_of_Some.
    setoid_rewrite countLoopbackRefs_zero. unfold orphaned, outbounds_of. rewrite E. naive_solver. }
  destruct K as (ts & Es & Hts). destruct (remove_fold ts settings) as (Eb & Eo & Er). rewrite <- Es in Eb, Eo, Er.
  setoid_rewrite Hts in Eo. setoid_rewrite Hts in Er. split; [done|]. split; [done|]. split; [done|].
  intros t (Ht & Hb & o & Ho & Hp & Hg). apply Eo in Ho as [Ho Hn]. rewrite Eb in Hb.
  apply (Hn t); [|done]. repeat split; eauto.
Qed.

(** ** Renaming *)

Lemma rename_balancers s a b :
  balancerList (propagateBalancerTagRename s a b) =
  map (rename_balancer (loopbackTagFor a) (loopbackTagFor b)) (balancerList s).
Proof.
  unfold propagateBalancerTagRename, balancerList. rewrite routing_update_eq by done. f_equal. f_equal.
  rewrite routing_update_ne by done. destruct (get s "outbounds"); try done. by rewrite get_set_ne.
Qed.

Lemma rename_rules s a b :
  ruleList (propagateBalancerTagRename s a b) =
  map (rename_rule (loopbackTagFor a) (loopbackTagFor b)) (ruleList s).
Proof.
  unfold propagateBalancerTagRename, ruleList. rewrite routing_update_ne by done.
  rewrite routing_update_eq by done. f_equal. f_equal. destruct (get s "outbounds"); try done. by rewrite get_set_ne.
Qed.

Lemma rename_outbounds s a b :
  outbounds_of (propagateBalancerTagRename s a b) =
  map (rename_outbound (loopbackTagFor a) (loopbackTagFor b)) (outbounds_of s).
Proof.
  unfold propagateBalancerTagRename, outbounds_of. rewrite !get_update_routing_ne by done.
  destruct (get s "outbounds") eqn:E; rewrite ?E; try done.
  destruct (get_VArr_obj _ _ _ E) as [o ->]. by rewrite get_set_eq by eauto.
Qed.

Lemma get_Str_obj v k x : get v k = VStr x -> exists o, v = VObj o.
Proof. destruct v; cbn; try done. eauto. Qed.

Lemma rename_balancer_fallback a b x :
  get (rename_balancer a b x) "fallbackTag" =
  if is_str (get x "fallbackTag") a then VStr b else get x "fallbackTag".
Proof.
  unfold rename_balancer. destruct (is_str (get x "fallbackTag") a) eqn:E; [|done].
  apply is_str_iff in E. by rewrite get_set_eq by by eapply get_Str_obj.
Qed.

(** How a renamed balancer counts as a reference. *)
Lemma references_rename a b t x :
  a <> b ->
  references t (rename_balancer (loopbackTagFor a) (loopbackTagFor b) x) =
  if String.eqb t a then false else if String.eqb t b then references b x || references a x else references t x.
Proof.
  intros Hab. apply eq_true_iff_eq. rewrite references_iff, rename_balancer_fallback.
  destruct (is_str (get x "fallbackTag") (loopbackTagFor a)) eqn:E.
  - apply is_str_iff in E. destruct (String.eqb_spec t a) as [->|Ha].
    { split; [|done]. intros [= H]. by destruct Hab. }
    destruct (String.eqb_spec t b) as [->|Hb].
    { rewrite orb_true_iff, !references_iff, E. split; auto. }
    rewrite references_iff, E. split; intros [= H]; congruence.
  - assert (N : get x "fallbackTag" <> VStr (loopbackTagFor a)).
    { intros H. by apply is_str_iff in H; rewrite H in E. }
    destruct (String.eqb_spec t a) as [->|Ha]; [done|]. destruct (String.eqb_spec t b) as [->|Hb].
    + rewrite orb_true_iff, !references_iff. naive_solver.
    + by rewrite references_iff.
Qed.

Lemma replace_first_count a b l :
  a <> b -> (length (List.filter (fun v => is_str v a) l) <= 1)%nat ->
  existsb (fun v => is_str v a) (replace_first a b l) = false.
Proof.
  intros Hab. induction l as [|v l IH]; cbn [replace_first List.filter existsb]; [done|].
  destruct (is_str v a) eqn:E; cbn [length existsb]; intros Hl; [|by rewrite E, IH].
  cbn [is_str]. rewrite (proj2 (String.eqb_neq b a)) by congruence. cbn [orb].
  destruct (existsb _ l) eqn:Ex; [|done]. apply existsb_exists in Ex as (w & Hw & Ew).
  assert (In w (List.filter (fun v => is_str v a) l)) by by apply filter_In.
  destruct (List.filter _ l); cbn in *; [done|lia].
Qed.

Lemma mentions_rename a b r :
  a <> b -> (length (List.filter (fun v => is_str v a) (as_list (get r "inboundTag"))) <= 1)%nat ->
  mentions a (rename_rule a b r) = false.
Proof.
  intros Hab H. unfold mentions, rename_rule.
  destruct (get r "inboundTag") as [| | | | |l|] eqn:E; rewrite ?E; try done.
  destruct (get_VArr_obj _ _ _ E) as [o ->]. rewrite get_set_eq by eauto. by apply replace_first_count.
Qed.

Lemma rename_outbound_clean a b o :
  a <> b ->
  is_str (get (rename_outbound a b o) "tag") a = false /\
  is_str (get (get (rename_outbound a b o) "settings") "inboundTag") a = false.
Proof.
  intros Hab. assert (Hba : String.eqb b a = false) by (apply String.eqb_neq; congruence).
  unfold rename_outbound. set (o1 := if is_str (get o "tag") a then _ else o).
  assert (E1 : is_str (get o1 "tag") a = false).
  { subst o1. destruct (is_str (get o "tag") a) eqn:E; [|done]. apply is_str_iff in E.
    rewrite get_set_eq by by eapply get_Str_obj. done. }
  destruct (is_str (get (get o1 "settings") "inboundTag") a) eqn:E2; [|by split].
  rewrite get_set_ne by done. split; [done|]. apply is_str_iff in E2.
  assert (exists q, get o1 "settings" = VObj q) as [q Eq] by by eapply get_Str_obj.
  assert (exists w, o1 = VObj w) as [w ->] by (destruct o1; cbn in Eq; try done; eauto).
  rewrite get_set_eq by eauto. rewrite Eq, get_set_eq by eauto. done.
Qed.

(** Renaming a balancer moves every loopback reference from the old to the new tag:
    the references to the old tag drop to none, those to the new tag are the two counts
    summed, all others are unchanged; no outbound names the old loopback tag any more, nor
    does any rule whose inbound tags are distinct. *)
Theorem propagateBalancerTagRename_moves s old new :
  old <> new ->
  let s' := propagateBalancerTagRename s old new in
  (forall t, countLoopbackRefs s' t =
     if String.eqb t old then 0%nat
     else if String.eqb t new then (countLoopbackRefs s new + countLoopbackRefs s old)%nat
     else countLoopbackRefs s t) /\
  Forall (fun o => is_str (get o "tag") (loopbackTagFor old) = false /\
                   is_str (get (get o "settings") "inboundTag") (loopbackTagFor old) = false) (outbounds_of s') /\
  (forall r, In r (ruleList s) ->
     (length (List.filter (fun v => is_str v (loopbackTagFor old)) (as_list (get r "inboundTag"))) <= 1)%nat ->
     mentions (loopbackTagFor old) (rename_rule (loopbackTagFor old) (loopbackTagFor new) r) = false) /\
  ruleList s' = map (rename_rule (loopbackTagFor old) (loopbackTagFor new)) (ruleList s).
Proof.
  intros Hne s'. subst s'.
  assert (Hlb : loopbackTagFor old <> loopbackTagFor new) by (intros H; by apply loopbackTagFor_inj in H).
  split; [|split; [|split; [|apply rename_rules]]].
  - intros t. unfold countLoopbackRefs. rewrite rename_balancers.
    induction (balancerList s) as [|x l IH]; cbn [map List.filter]; [by repeat case_match|].
    rewrite (references_rename _ _ t x Hne). revert IH.
    destruct (String.eqb_spec t old) as [->|Ho]; [done|].
    destruct (String.eqb_spec t new) as [->|Hn]; [|intros IH; destruct (references t x); cbn [length]; by rewrite ?IH].
    intros IH. destruct (references new x) eqn:R1, (references old x) eqn:R2; cbn [length orb]; rewrite ?IH; try lia.
    apply references_iff in R1, R2. rewrite R1 in R2. injection R2 as R2. by destruct Hne.
  - rewrite rename_outbounds. apply List.Forall_map, List.Forall_forall. intros o _. by apply rename_outbound_clean.
  - intros r _ H. by apply mentions_rename.
Qed.

Lemma propagateBalancerTagRename_moves_witness :
  "a" <> "c" /\ countLoopbackRefs (propagateBalancerTagRename sample_cycle "a" "c") "c" = 1%nat.
Proof.
  assert (H : "a" <> "c") by discriminate. split; [exact H|].
  rewrite (proj1 (propagateBalancerTagRename_moves sample_cycle "a" "c" H)). reflexivity.
Defined.
