(* ===== verification/TableRows.v ===== *)
(** * Tables with hidden rows

    Models the tables of routing rules and of outbounds: the rows of
    src/frontend/src/pages/xray/routing/RoutingTab.tsx and src/frontend/src/pages/xray/outbounds/OutboundsTab.tsx, which hide
    what belongs to balancer loopbacks and keep the original index of each row, the index
    translation of routing/helpers.ts and outbounds/outbounds-tab-helpers.ts, and the handlers that move,
    drag, delete, toggle and replace rows.  The abstract table is the list of shown elements; each
    handler is shown to do on the full list what it says on the shown one. *)
From S2P Require Import Prelude JsString JsValue XraySettings BalancerLoopback.

(** ** Operations on lists *)

(** [[l[i], l[j]] = [l[j], l[i]]] *)
Definition swap {A} (i j : nat) (l : list A) : list A :=
  match l !! i, l !! j with Some x, Some y => <[i := y]> (<[j := x]> l) | _, _ => l end.

(** [const [x] = l.splice(i, 1)] without the element *)
Definition remove_at {A} (i : nat) (l : list A) : list A := take i l ++ drop (S i) l.

(** [const [x] = l.splice(from, 1); l.splice(to, 0, x)] *)
Definition move_item {A} (from to : nat) (l : list A) : list A :=
  match l !! from with
  | Some x => let l := remove_at from l in take to l ++ x :: drop to l
  | None => l
  end.

(** ** Rows *)

Section Table.
Context (hidden : jsval -> bool).

(** [l.map((o, i) => ({ ...o, key: i })).filter((o) => !hidden(o))] *)
Fixpoint rows_from (key : nat) (l : list jsval) : list (nat * jsval) :=
  match l with
  | [] => []
  | x :: l => if hidden x then rows_from (S key) l else (key, x) :: rows_from (S key) l
  end.

(** [originalRuleIndex], [originalOutboundIndex] *)
Definition original_index (rows : list (nat * jsval)) (positionalIndex : nat) : nat :=
  match rows !! positionalIndex with Some row => row.1 | None => positionalIndex end.

Definition shown_rows (l : list jsval) : list jsval := List.filter (fun x => negb (hidden x)) l.
Definition concealed (l : list jsval) : list jsval := List.filter hidden l.

(** ** The handlers, on the list behind the table *)

Definition original (l : list jsval) (i : nat) : nat := original_index (rows_from 0 l) i.

Definition moveUp (idx : nat) (l : list jsval) : list jsval :=
  match idx with O => l | S prev => swap (original l prev) (original l (S prev)) l end.

Definition moveDown (idx : nat) (l : list jsval) : list jsval :=
  if Nat.ltb (S idx) (length (rows_from 0 l)) then swap (original l (S idx)) (original l idx) l else l.

Definition dragRow (from to : nat) (l : list jsval) : list jsval :=
  if Nat.eqb from to then l else move_item (original l from) (original l to) l.

Definition deleteRow (idx : nat) (l : list jsval) : list jsval := remove_at (original l idx) l.

Definition replaceRow (idx : nat) (x : jsval) (l : list jsval) : list jsval := <[original l idx := x]> l.

Definition setFirst (idx : nat) (l : list jsval) : list jsval := move_item (original l idx) 0 l.

(** ** Where a row is in the list *)

Lemma visible_app a b : shown_rows (a ++ b) = shown_rows a ++ shown_rows b.
Proof. apply filter_app. Qed.

Lemma concealed_app a b : concealed (a ++ b) = concealed a ++ concealed b.
Proof. apply filter_app. Qed.

Lemma rows_app a : forall b key, rows_from key (a ++ b) = rows_from key a ++ rows_from (key + length a) b.
Proof.
  induction a as [|x a IH]; intros b key; cbn [app rows_from length]; [by rewrite Nat.add_0_r|].
  rewrite IH. replace (S key + length a)%nat with (key + S (length a))%nat by lia. by destruct (hidden x).
Qed.

Lemma rows_visible l : forall key, map snd (rows_from key l) = shown_rows l.
Proof. induction l as [|x l IH]; intros key; [done|]. cbn. unfold shown_rows in *. cbn. destruct (hidden x); cbn; by rewrite IH. Qed.

Lemma rows_length l key : length (rows_from key l) = length (shown_rows l).
Proof. by rewrite <-(rows_visible l key), length_map. Qed.

(** The element of a row splits the list, and the list of shown rows at the row. *)
Lemma row_split l : forall key i, (i < length (shown_rows l))%nat -> exists a x b,
  l = a ++ x :: b /\ hidden x = false /\ length (shown_rows a) = i /\ rows_from key l !! i = Some ((key + length a)%nat, x).
Proof.
  induction l as [|y l IH]; intros key i Hi; [cbn in Hi; lia|]. unfold shown_rows in Hi. cbn [List.filter] in Hi. cbn [rows_from]. destruct (hidden y) eqn:H; cbn [negb] in Hi.
  - destruct (IH (S key) i Hi) as (a & x & b & -> & Hx & Ha & E). exists (y :: a), x, b. split; [done|]. split; [done|]. split; [unfold shown_rows; cbn; by rewrite H|].
    cbn [length]. by rewrite <-Nat.add_succ_comm.
  - destruct i as [|i]; [exists [], y, l; cbn; by rewrite Nat.add_0_r|]. cbn [length] in Hi. destruct (IH (S key) i) as (a & x & b & -> & Hx & Ha & E); [unfold shown_rows; lia|].
    exists (y :: a), x, b. split; [done|]. split; [done|]. split; [unfold shown_rows in *; cbn; rewrite H; cbn; by rewrite Ha|]. cbn [length lookup list_lookup]. by rewrite <-Nat.add_succ_comm.
Qed.

(** Two rows, the first one above. *)
Lemma rows_split l i j : (i < j)%nat -> (j < length (shown_rows l))%nat -> exists a x c y b,
  l = a ++ x :: c ++ y :: b /\ hidden x = false /\ hidden y = false /\ length (shown_rows a) = i /\ j = (i + 1 + length (shown_rows c))%nat /\
  original l i = length a /\ original l j = (length a + 1 + length c)%nat.
Proof.
  intros Hij Hj. destruct (row_split l 0 i ltac:(lia)) as (a & x & l2 & -> & Hx & Ha & Ei).
  assert (V : shown_rows (a ++ x :: l2) = shown_rows a ++ x :: shown_rows l2) by (rewrite visible_app; unfold shown_rows at 2; cbn; by rewrite Hx).
  rewrite V, length_app in Hj. cbn [length] in Hj. destruct (row_split l2 (S (length a)) (j - i - 1) ltac:(lia)) as (c & y & b & -> & Hy & Hc & Ej).
  exists a, x, c, y, b. split; [done|]. split; [done|]. split; [done|]. split; [done|]. split; [lia|]. unfold original, original_index. rewrite Ei. split; [done|].
  rewrite rows_app. cbn [rows_from]. rewrite Hx. rewrite lookup_app_r by (rewrite rows_length; lia). rewrite rows_length.
  replace (j - length (shown_rows a))%nat with (S (j - i - 1)) by lia. rewrite Nat.add_0_l. change (((length a, x) :: rows_from (S (length a)) (c ++ y :: b)) !! S (j - i - 1)) with (rows_from (S (length a)) (c ++ y :: b) !! (j - i - 1)). rewrite Ej. cbn. lia.
Qed.

(** ** The operations on split lists *)

Lemma remove_split {A} (a : list A) x b : remove_at (length a) (a ++ x :: b) = a ++ b.
Proof. unfold remove_at. rewrite take_app_length. f_equal. replace (S (length a)) with (length (a ++ [x])) by (rewrite length_app; cbn; lia).
  replace (a ++ x :: b) with ((a ++ [x]) ++ b) by by rewrite <-app_assoc. apply drop_app_length. Qed.

Lemma insert_split {A} (a : list A) x y b : <[length a := y]> (a ++ x :: b) = a ++ y :: b.
Proof. rewrite insert_app_r_alt by lia. by rewrite Nat.sub_diag. Qed.

Lemma lookup_split {A} (a : list A) x b : (a ++ x :: b) !! length a = Some x.
Proof. rewrite lookup_app_r by lia. by rewrite Nat.sub_diag. Qed.

(** A second element, after a first one. *)
Lemma split2 {A} (a : list A) x c y b : a ++ x :: c ++ y :: b = (a ++ x :: c) ++ y :: b.
Proof. by rewrite <-app_assoc. Qed.

Lemma length2 {A} (a : list A) x c : (length a + 1 + length c)%nat = length (a ++ x :: c).
Proof. rewrite length_app. cbn. lia. Qed.

Lemma swap_split {A} (a : list A) x c y b : swap (length a) (length a + 1 + length c) (a ++ x :: c ++ y :: b) = a ++ y :: c ++ x :: b.
Proof.
  unfold swap. rewrite lookup_split, split2, (length2 a x c), lookup_split, insert_split. rewrite <-app_assoc. cbn [app]. by rewrite insert_split.
Qed.

Lemma swap_comm {A} i j (l : list A) : swap i j l = swap j i l.
Proof.
  unfold swap. destruct (l !! i) as [x|] eqn:Ei, (l !! j) as [y|] eqn:Ej; try done. destruct (decide (i = j)) as [->|N]; [|by apply list_insert_insert_ne].
  rewrite Ei in Ej. by injection Ej as ->.
Qed.

Lemma move_down_split {A} (a : list A) x c y b : move_item (length a) (length a + 1 + length c) (a ++ x :: c ++ y :: b) = a ++ c ++ y :: x :: b.
Proof.
  unfold move_item. rewrite lookup_split, remove_split. cbv zeta. replace (length a + 1 + length c)%nat with (length (a ++ c ++ [y])) by (rewrite !length_app; cbn; lia).
  replace (a ++ c ++ y :: b) with ((a ++ c ++ [y]) ++ b) by by rewrite <-!app_assoc. rewrite take_app_length, drop_app_length. by rewrite <-!app_assoc.
Qed.

Lemma move_up_split {A} (a : list A) x c y b : move_item (length a + 1 + length c) (length a) (a ++ x :: c ++ y :: b) = a ++ y :: x :: c ++ b.
Proof.
  unfold move_item. rewrite split2, (length2 a x c), lookup_split, remove_split. cbv zeta. rewrite <-app_assoc. rewrite take_app_length, drop_app_length. done.
Qed.

(** ** The refinement *)

Lemma visible_split a x b : hidden x = false -> shown_rows (a ++ x :: b) = shown_rows a ++ x :: shown_rows b.
Proof. intros H. rewrite visible_app. unfold shown_rows at 2. cbn. by rewrite H. Qed.

Lemma concealed_split a x b : hidden x = false -> concealed (a ++ x :: b) = concealed a ++ concealed b.
Proof. intros H. rewrite concealed_app. unfold concealed at 2. cbn. by rewrite H. Qed.

Lemma original_split l i : (i < length (shown_rows l))%nat -> exists a x b, l = a ++ x :: b /\ hidden x = false /\ length (shown_rows a) = i /\ original l i = length a.
Proof.
  intros H. destruct (row_split l 0 i H) as (a & x & b & -> & Hx & Ha & E). exists a, x, b. unfold original, original_index. by rewrite E.
Qed.

(** What a table shows of the full list, and what it hides. *)
Definition refines (op : list jsval -> list jsval) (abs : list jsval -> list jsval) (l : list jsval) : Prop :=
  shown_rows (op l) = abs (shown_rows l) /\ concealed (op l) = concealed l.

Lemma swap_refines i j l : (i < length (shown_rows l))%nat -> (j < length (shown_rows l))%nat -> i <> j -> refines (swap (original l i) (original l j)) (swap i j) l.
Proof.
  assert (G : forall i j, (i < j)%nat -> (j < length (shown_rows l))%nat -> refines (swap (original l i) (original l j)) (swap i j) l).
  { clear. intros i j Hij Hj. destruct (rows_split l i j Hij Hj) as (a & x & c & y & b & E & Hx & Hy & Ha & -> & -> & ->). unfold refines. rewrite E, swap_split. clear Hj Hij E.
    repeat rewrite ?visible_split, ?concealed_split by done. split; [|done]. rewrite <-Ha. by rewrite swap_split. }
  intros Hi Hj N. destruct (decide (i < j)%nat); [by apply G|]. unfold refines. rewrite swap_comm, (swap_comm i j). apply G; lia.
Qed.

Lemma move_refines i j l : (i < length (shown_rows l))%nat -> (j < length (shown_rows l))%nat -> i <> j -> refines (move_item (original l i) (original l j)) (move_item i j) l.
Proof.
  intros Hi Hj N. unfold refines. destruct (decide (i < j)%nat) as [L|L].
  - destruct (rows_split l i j L Hj) as (a & x & c & y & b & E & Hx & Hy & Ha & -> & -> & ->). rewrite E, move_down_split. clear Hi Hj L N E.
    rewrite (app_assoc a c), (visible_split (a ++ c)), (concealed_split (a ++ c)) by done. repeat rewrite ?visible_split, ?concealed_split by done.
    rewrite visible_app, concealed_app. unfold shown_rows at 3, concealed at 3. cbn [List.filter]. rewrite Hx. cbn [negb]. fold (shown_rows b) (concealed b).
    rewrite <-Ha, move_down_split. by rewrite <-!app_assoc.
  - destruct (rows_split l j i ltac:(lia) Hi) as (a & x & c & y & b & E & Hx & Hy & Ha & -> & -> & ->). rewrite E, move_up_split. clear Hi Hj L N E.
    repeat rewrite ?visible_split, ?concealed_split by done. change (x :: c ++ b) with ([x] ++ (c ++ b)). rewrite !visible_app, !concealed_app. unfold shown_rows at 2, concealed at 2. cbn [List.filter]. rewrite Hx. cbn [negb].
    split; [|done]. rewrite <-Ha, move_up_split. done.
Qed.

Lemma remove_refines i l : (i < length (shown_rows l))%nat -> refines (remove_at (original l i)) (remove_at i) l.
Proof.
  intros Hi. destruct (original_split l i Hi) as (a & x & b & E & Hx & Ha & ->). unfold refines. rewrite E, remove_split, visible_split, concealed_split, visible_app, concealed_app by done.
  rewrite <-Ha, remove_split. done.
Qed.

Lemma insert_refines i x l : (i < length (shown_rows l))%nat -> hidden x = false -> refines (insert (original l i) x) (insert i x) l.
Proof.
  intros Hi H. destruct (original_split l i Hi) as (a & y & b & E & Hy & Ha & ->). unfold refines. rewrite E, insert_split, !visible_split, !concealed_split by done.
  rewrite <-Ha, insert_split. done.
Qed.

(** C19. The handlers of a table with hidden rows do on the rows shown exactly what they do on a table
    that hides nothing, and leave the hidden rows in their order: moving, dragging, deleting and
    replacing never reach a row other than the one shown at the index. *)
Theorem hidden_rows_refined l idx to x : (idx < length (shown_rows l))%nat -> (to < length (shown_rows l))%nat -> hidden x = false ->
  refines (moveUp idx) (fun v => match idx with O => v | S prev => swap prev idx v end) l /\
  refines (moveDown idx) (fun v => if Nat.ltb (S idx) (length v) then swap (S idx) idx v else v) l /\
  refines (dragRow idx to) (fun v => if Nat.eqb idx to then v else move_item idx to v) l /\
  refines (deleteRow idx) (remove_at idx) l /\
  refines (replaceRow idx x) (insert idx x) l.
Proof.
  intros Hi Hj Hx. split; [|split; [|split; [|split]]].
  - destruct idx as [|prev]; [done|]. apply (swap_refines prev (S prev)); lia.
  - unfold refines, moveDown. rewrite rows_length. destruct (Nat.ltb_spec (S idx) (length (shown_rows l))) as [L|L]; [|done]. apply (swap_refines (S idx) idx); lia.
  - unfold refines, dragRow. destruct (Nat.eqb_spec idx to) as [->|N]; [done|]. by apply move_refines.
  - by apply remove_refines.
  - by apply insert_refines.
Qed.

End Table.

(** ** The two tables *)

Definition hidden_rule (rule : jsval) : bool := existsb (fun t => isBalancerLoopbackTag (str_or_empty t)) (as_list (get rule "inboundTag")).

Definition hidden_outbound (o : jsval) : bool := isBalancerLoopbackTag (str_or_empty (get o "tag")).

(** [toggleRule] *)
Definition toggleRule (idx : nat) (enabled : bool) (l : list jsval) : list jsval :=
  let target := original hidden_rule l idx in
  match l !! target with Some rule => if truthy rule then <[target := set rule "enabled" (VBool enabled)]> l else l | None => l end.

(** A handler of the table of rules, on the template. *)
Definition on_rules (f : list jsval -> list jsval) (t : jsval) : jsval := update_routing "rules" f t.

(** A handler of the table of outbounds, on the template. *)
Definition on_outbounds (f : list jsval -> list jsval) (t : jsval) : jsval :=
  match get t "outbounds" with VArr l => set t "outbounds" (VArr (f l)) | _ => t end.

Definition sample_rules : list jsval :=
  [VObj [("inboundTag", strings ["a"]); ("outboundTag", VStr "x")];
   VObj [("inboundTag", strings ["_bl_lb"]); ("balancerTag", VStr "lb")];
   VObj [("inboundTag", strings ["b"]); ("outboundTag", VStr "y")]].

Lemma hidden_rows_refined_witness :
  shown_rows hidden_rule (moveUp hidden_rule 1 sample_rules) = swap 0 1 (shown_rows hidden_rule sample_rules) /\
  concealed hidden_rule (moveUp hidden_rule 1 sample_rules) = concealed hidden_rule sample_rules.
Proof.
  apply (hidden_rows_refined hidden_rule sample_rules 1 0 VNull); [vm_compute; lia|vm_compute; lia|reflexivity].
Defined.
