(* ===== verification/StreamWire.v ===== *)
(** * Stream settings on the wire

    Models src/frontend/src/lib/xray/stream-wire-normalize.ts: the normalisers that drop
    from [streamSettings] what xray-core takes as its default or what belongs to another
    xhttp mode or side, and the validators of the REALITY form fields. *)
From S2P Require Import Prelude JsString JsValue JsObject.
From Stdlib Require Import Ascii.
Local Open Scope Z_scope.

Inductive StreamWireSide := inbound | outbound.

Definition is_inbound (s : StreamWireSide) : bool := match s with inbound => true | outbound => false end.

Definition PACKET_UP_FIELDS : list string := ["scMaxEachPostBytes"; "scMinPostsIntervalMs"; "scMaxBufferedPosts"].

Definition STREAM_UP_SERVER_FIELDS : list string := ["scStreamUpServerSecs"].

Definition PLACEMENT_STRING_FIELDS : list string :=
  ["sessionIDPlacement"; "sessionIDKey"; "sessionIDTable"; "sessionIDLength"; "seqPlacement"; "seqKey";
   "uplinkDataPlacement"; "uplinkDataKey"; "uplinkHTTPMethod"; "xPaddingKey"; "xPaddingHeader";
   "xPaddingPlacement"; "xPaddingMethod"].

Definition isRecord (v : jsval) : bool := match v with VObj _ => true | _ => false end.

Definition nonEmptyString (v : jsval) : bool :=
  match v with VStr s => negb (String.eqb (trim s) "") | _ => false end.

Definition hasMeaningfulHeaders (headers : jsval) : bool :=
  match headers with VObj (_ :: _) => true | _ => false end.

(** ** xmux *)

Definition finite_or_zero (n : num) : num := if num_finite n then n else NFin 0 0.

Definition int32RangeUpper (v : jsval) : num :=
  match v with
  | VNum n => finite_or_zero n
  | VStr s =>
      let trimmed := trim s in
      if String.eqb trimmed "" then NFin 0 0
      else finite_or_zero (number_of_string (List.last (split_on "-"%char trimmed) ""))
  | _ => NFin 0 0
  end.

(** [int32RangeUpper(v) > 0] *)
Definition upper_positive (v : jsval) : bool := num_ltb (NFin 0 0) (int32RangeUpper v).

Definition resolveXmuxExclusivity (xmux : obj) : obj :=
  if upper_positive (obj_get xmux "maxConnections") && upper_positive (obj_get xmux "maxConcurrency")
  then obj_del xmux "maxConcurrency" else xmux.

(** ** REALITY validators; [None] is the accepting [undefined] *)

Definition realityTargetRequired : string := "pages.inbounds.form.realityTargetRequired".
Definition realityTargetInvalidPort : string := "pages.inbounds.form.realityTargetInvalidPort".
Definition realityTargetNeedsPort : string := "pages.inbounds.form.realityTargetNeedsPort".

Definition valid_port (n : num) : bool := negb (num_ltb n (NFin 1 0)) && negb (num_ltb (NFin 65535 0) n).

Definition validateRealityTarget (target : string) : option string :=
  let trimmed := trim target in
  if String.eqb trimmed "" then Some realityTargetRequired
  else if starts_with trimmed "/" || starts_with trimmed "@" then None
  else if all_digits trimmed then
    if valid_port (number_of_string trimmed) then None else Some realityTargetInvalidPort
  else
    match last_index_of ":"%char trimmed with
    | None | Some O => Some realityTargetNeedsPort
    | Some lastColon =>
        if Nat.eqb lastColon (String.length trimmed - 1) then Some realityTargetNeedsPort
        else
          let portPart := str_drop (S lastColon) trimmed in
          if negb (all_digits portPart) then Some realityTargetInvalidPort
          else if valid_port (number_of_string portPart) then None else Some realityTargetInvalidPort
    end.

Fixpoint parse_ver_parts (parts : list string) : option (list num) :=
  match parts with
  | [] => Some []
  | part :: parts =>
      if negb (all_digits part) then None
      else
        let n := number_of_string part in
        if num_ltb (NFin 255 0) n then None
        else match parse_ver_parts parts with Some nums => Some (n :: nums) | None => None end
  end.

Definition parseRealityClientVer (value : string) : option (num * num * num) :=
  let trimmed := trim value in
  if String.eqb trimmed "" then None
  else
    let parts := split_on "."%char trimmed in
    if Nat.ltb 3 (length parts) then None
    else match parse_ver_parts parts with
         | Some [a; b; c] => Some (a, b, c)
         | Some [a; b] => Some (a, b, NFin 0 0)
         | Some [a] => Some (a, NFin 0 0, NFin 0 0)
         | Some [] => Some (NFin 0 0, NFin 0 0, NFin 0 0)
         | _ => None
         end.

Definition clientVerInvalid : string := "pages.inbounds.form.clientVerInvalid".
Definition maxClientVerBelowMin : string := "pages.inbounds.form.maxClientVerBelowMin".

Definition validateRealityClientVer (value : string) : option string :=
  if String.eqb value "" then None
  else if negb (String.eqb value (trim value)) then Some clientVerInvalid
  else match parseRealityClientVer value with None => Some clientVerInvalid | Some _ => None end.

(** The comparison loop over the three parts. *)
Fixpoint compare_ver (max min : list num) : option string :=
  match max, min with
  | a :: max, b :: min =>
      if negb (num_eqb a b) then (if num_ltb a b then Some maxClientVerBelowMin else None) else compare_ver max min
  | _, _ => None
  end.

Definition validateRealityMaxClientVer (max min : string) : option string :=
  match validateRealityClientVer max with
  | Some formatError => Some formatError
  | None =>
      match parseRealityClientVer max, parseRealityClientVer min with
      | Some (a, b, c), Some (a', b', c') => compare_ver [a; b; c] [a'; b'; c']
      | _, _ => None
      end
  end.

(** ** Normalisers *)

(** The [lift] closure of [liftLegacyXhttpSessionKeys]. *)
Definition lift (o : obj) (legacy renamed : string) : obj :=
  let v := obj_get o legacy in
  let o :=
    if (is_undef (obj_get o renamed) || is_str (obj_get o renamed) "") && is_string v && negb (is_str v "")
    then obj_set o renamed v else o in
  obj_del o legacy.

Definition liftLegacyXhttpSessionKeys (o : obj) : obj :=
  lift (lift o "sessionPlacement" "sessionIDPlacement") "sessionKey" "sessionIDKey".

(** [v === '' || v == null] *)
Definition empty_string (v : jsval) : bool := is_str v "" || is_nullish v.

Definition dropEmptyStrings (o : obj) (keys : list string) : obj := drop_keys o keys empty_string.

Definition dropFalseFlags (o : obj) (keys : list string) : obj := drop_keys o keys (fun v => is_bool v false).

Definition dropZeroNumbers (o : obj) (keys : list string) : obj := drop_keys o keys (fun v => is_int v 0).

Definition empty_array (v : jsval) : bool := match v with VArr [] => true | _ => false end.

(** The [happyEyeballs] block of [normalizeSockoptForWire]. *)
Definition normalize_happyEyeballs (o : obj) : obj :=
  match obj_get o "happyEyeballs" with
  | VObj he =>
      let heOut := drop_if he "prioritizeIPv6" (fun v => is_bool v false) in
      let heOut := drop_if heOut "interleave" (fun v => is_int v 1) in
      let heOut := drop_if heOut "maxConcurrentTry" (fun v => is_int v 4) in
      match heOut with
      | [] => obj_del o "happyEyeballs"
      | _ => obj_set o "happyEyeballs" (VObj heOut)
      end
  | _ => o
  end.

(** [if (Object.keys(out).length === 0) return undefined; return out] *)
Definition nonempty (out : obj) : option obj := match out with [] => None | _ => Some out end.

Definition SOCKOPT_NUMBERS : list string :=
  ["tcpWindowClamp"; "tcpMaxSeg"; "tcpUserTimeout"; "tcpKeepAliveIdle"; "tcpKeepAliveInterval"; "mark"].

Definition SOCKOPT_FLAGS : list string := ["acceptProxyProtocol"; "tcpFastOpen"; "tcpMptcp"; "penetrate"; "V6Only"].

Definition normalizeSockoptForWire (raw : obj) : option obj :=
  let out := dropZeroNumbers raw SOCKOPT_NUMBERS in
  let out := dropFalseFlags out SOCKOPT_FLAGS in
  let out := drop_if out "tproxy" (fun v => is_str v "off") in
  let out := drop_if out "domainStrategy" (fun v => is_str v "AsIs") in
  let out := drop_if out "addressPortStrategy" (fun v => is_str v "none") in
  let out := drop_if out "dialerProxy" (fun v => negb (nonEmptyString v)) in
  let out := drop_if out "interface" (fun v => negb (nonEmptyString v)) in
  let out := drop_if out "trustedXForwardedFor" empty_array in
  let out := drop_if out "customSockopt" empty_array in
  let out := normalize_happyEyeballs out in
  let out := drop_if out "tcpcongestion" (fun v => negb (nonEmptyString v)) in
  nonempty out.

(** A nested record replaced by its sockopt normal form, or dropped when that is empty. *)
Definition put_sockopt (o : obj) (k : string) : obj :=
  match obj_get o k with
  | VObj s => match normalizeSockoptForWire s with
              | Some s' => obj_set o k (VObj s')
              | None => obj_del o k
              end
  | _ => o
  end.

Definition normalizeTlsForWire (raw : obj) : obj :=
  let out := drop_if raw "fingerprint" (fun v => is_str v "") in
  let out := drop_if out "curvePreferences" empty_array in
  let out := drop_if out "masterKeyLog" empty_string in
  let out := put_sockopt out "echSockopt" in
  match obj_get out "settings" with
  | VObj s => obj_set out "settings" (VObj (drop_if s "fingerprint" (fun v => is_str v "")))
  | _ => out
  end.

(** The steps of [normalizeXhttpForWire] that depend on the side. *)
Definition xhttp_side (out : obj) (side : StreamWireSide) (enableXmux : bool) : obj :=
  if is_inbound side then
    let out := if negb enableXmux then obj_del out "xmux" else out in
    let out := drop_if out "scMinPostsIntervalMs" (fun v => is_str v "" || is_str v "30") in
    obj_del out "uplinkChunkSize"
  else out.

Definition del_keys (out : obj) (keys : list string) : obj := fold_left obj_del keys out.

(** The steps that depend on the mode. *)
Definition xhttp_mode (out : obj) (side : StreamWireSide) (mode : string) : obj :=
  if String.eqb mode "stream-one" then del_keys (del_keys out PACKET_UP_FIELDS) STREAM_UP_SERVER_FIELDS
  else if String.eqb mode "stream-up" then
    let out := del_keys out PACKET_UP_FIELDS in
    if is_inbound side then out else obj_del out "scStreamUpServerSecs"
  else if String.eqb mode "packet-up" then obj_del out "scStreamUpServerSecs"
  else out.

Definition xhttp_xmux (out : obj) : obj :=
  match obj_get out "xmux" with
  | VObj x => obj_set out "xmux" (VObj (resolveXmuxExclusivity x))
  | _ => out
  end.

Definition xhttp_mode_of (out : obj) : string :=
  match obj_get out "mode" with VStr s => if String.eqb s "" then "auto" else s | _ => "auto" end.

Definition padding_keys : list string := ["xPaddingKey"; "xPaddingHeader"; "xPaddingPlacement"; "xPaddingMethod"].

Definition normalizeXhttpForWire (raw : obj) (side : StreamWireSide) : obj :=
  let out := liftLegacyXhttpSessionKeys raw in
  let mode := xhttp_mode_of out in
  let enableXmux := is_bool (obj_get out "enableXmux") true in
  let out := obj_del out "enableXmux" in
  let out := xhttp_side out side enableXmux in
  let out := xhttp_xmux out in
  let out := dropEmptyStrings out PLACEMENT_STRING_FIELDS in
  let out := dropEmptyStrings out ["scMaxEachPostBytes"; "scMinPostsIntervalMs"; "scStreamUpServerSecs"] in
  let out := drop_if out "headers" (fun v => negb (hasMeaningfulHeaders v)) in
  let out :=
    if negb (is_bool (obj_get out "xPaddingObfsMode") true) then
      dropEmptyStrings (obj_del out "xPaddingObfsMode")
        padding_keys
    else out in
  let out := drop_if out "noGRPCHeader" (fun v => negb (is_bool v true)) in
  let out := drop_if out "noSSEHeader" (fun v => negb (is_bool v true)) in
  let out := drop_if out "serverMaxHeaderBytes" (fun v => is_int v 0) in
  let out := drop_if out "uplinkChunkSize" (fun v => is_int v 0) in
  xhttp_mode out side mode.

Definition put_xhttp (out : obj) (side : StreamWireSide) : obj :=
  match obj_get out "xhttpSettings" with
  | VObj x => obj_set out "xhttpSettings" (VObj (normalizeXhttpForWire x side))
  | _ => out
  end.

Definition put_tls (out : obj) : obj :=
  match obj_get out "tlsSettings" with
  | VObj t => obj_set out "tlsSettings" (VObj (normalizeTlsForWire t))
  | _ => out
  end.

Definition normalizeStreamSettingsForWire (stream : obj) (side : StreamWireSide) : obj :=
  put_sockopt (put_tls (put_xhttp stream side)) "sockopt".

(** ** The sockopt normaliser as one pass *)

Definition happy_out (he : obj) : obj :=
  drops [("prioritizeIPv6", fun v => is_bool v false); ("interleave", fun v => is_int v 1);
         ("maxConcurrentTry", fun v => is_int v 4)] he.

Definition happy_value (v : jsval) : option jsval :=
  match v with VObj he => match happy_out he with [] => None | h => Some (VObj h) end | _ => Some v end.

Definition sockopt_drops : dropping :=
  map (fun k => (k, fun v => is_int v 0)) SOCKOPT_NUMBERS ++ map (fun k => (k, fun v => is_bool v false)) SOCKOPT_FLAGS ++
  [("tproxy", fun v => is_str v "off"); ("domainStrategy", fun v => is_str v "AsIs");
   ("addressPortStrategy", fun v => is_str v "none"); ("dialerProxy", fun v => negb (nonEmptyString v));
   ("interface", fun v => negb (nonEmptyString v)); ("trustedXForwardedFor", empty_array); ("customSockopt", empty_array)].

Definition sockopt_last : dropping := [("tcpcongestion", fun v => negb (nonEmptyString v))].

Definition sockopt_pass : string -> jsval -> option jsval :=
  andThen (andThen (fdrops sockopt_drops) (fupdate "happyEyeballs" happy_value)) (fdrops sockopt_last).

Lemma happyEyeballs_update o : normalize_happyEyeballs o = update_key o "happyEyeballs" happy_value.
Proof.
  unfold normalize_happyEyeballs, update_key, happy_value.
  destruct (obj_get o "happyEyeballs") as [| | | | | |he] eqn:E;
    try (destruct (obj_has o "happyEyeballs") eqn:F; [|done]; rewrite <- E; by rewrite obj_set_same).
  unfold happy_out, drops. cbn [fold_left fst snd]. destruct (drop_if _ "maxConcurrentTry" _); [done|].
  rewrite obj_get_has; [done|]. by rewrite E.
Qed.

Lemma normalizeSockopt_pass raw :
  obj_wf raw -> normalizeSockoptForWire raw = nonempty (entrywise sockopt_pass raw).
Proof.
  intros H.
  assert (E : normalizeSockoptForWire raw =
    nonempty (drops sockopt_last (normalize_happyEyeballs (drops sockopt_drops raw)))).
  { unfold normalizeSockoptForWire, dropZeroNumbers, dropFalseFlags, sockopt_drops, sockopt_last, drop_keys, drops.
    by cbn [map app fold_left fst snd SOCKOPT_NUMBERS SOCKOPT_FLAGS]. }
  rewrite E, happyEyeballs_update.
  rewrite (drops_entrywise sockopt_drops), update_key_entrywise, drops_entrywise by auto with js.
  by rewrite (entrywise_andThen (fdrops sockopt_drops)), entrywise_andThen.
Qed.

Lemma drop_if_id o k p : p (obj_get o k) = false -> drop_if o k p = o.
Proof. unfold drop_if. by intros ->. Qed.

Lemma get_drop_if_ne o k k' p : k <> k' -> obj_get (drop_if o k p) k' = obj_get o k'.
Proof. intros H. unfold drop_if. case_match; [|done]. by rewrite obj_get_del_ne. Qed.

Lemma get_drop_if_eq o k p : p VUndef = false -> p (obj_get (drop_if o k p) k) = false.
Proof. intros H. unfold drop_if. destruct (p (obj_get o k)) eqn:E; [by rewrite obj_get_del_eq|done]. Qed.

Lemma happy_out_idem he : happy_out (happy_out he) = happy_out he.
Proof.
  unfold happy_out, drops. cbn [fold_left fst snd].
  set (p1 := fun v => is_bool v false). set (p2 := fun v => is_int v 1). set (p3 := fun v => is_int v 4).
  rewrite (drop_if_id _ "prioritizeIPv6" p1), (drop_if_id _ "interleave" p2), (drop_if_id _ "maxConcurrentTry" p3);
    rewrite ?get_drop_if_ne by done; (done || by apply get_drop_if_eq).
Qed.

Lemma happy_value_stable v w : happy_value v = Some w -> happy_value w = Some w.
Proof.
  destruct v as [| | | | | |o]; cbn [happy_value]; try by intros [= <-].
  destruct (happy_out o) eqn:E; [done|]. intros [= <-]. cbn [happy_value]. by rewrite <- E, happy_out_idem, E.
Qed.

Lemma sockopt_stable : stable sockopt_pass.
Proof.
  apply stable_then_drops, stable_drops_update; [exact happy_value_stable|]. intros v. by apply dropped_other.
Qed.

(** The sockopt normaliser is idempotent and never emits an empty object: what it
    returns is non-empty and is returned unchanged when normalised again. *)
Theorem normalizeSockopt_idempotent raw out :
  obj_wf raw -> normalizeSockoptForWire raw = Some out ->
  out <> [] /\ normalizeSockoptForWire out = Some out.
Proof.
  intros H. rewrite normalizeSockopt_pass by done. destruct (entrywise sockopt_pass raw) eqn:E; [done|].
  intros [= <-]. rewrite <- E. split; [by rewrite E|].
  rewrite normalizeSockopt_pass by auto with js. rewrite entrywise_idem by apply sockopt_stable. by rewrite E.
Qed.

Definition sample_sockopt : obj :=
  [("mark", VInt 0); ("tproxy", VStr "off"); ("tcpFastOpen", VBool true);
   ("happyEyeballs", VObj [("interleave", VInt 1); ("tryDelayMs", VInt 250)])].

Definition sample_sockopt_wire : obj :=
  [("tcpFastOpen", VBool true); ("happyEyeballs", VObj [("tryDelayMs", VInt 250)])].

Lemma normalizeSockopt_idempotent_witness :
  normalizeSockoptForWire sample_sockopt = Some sample_sockopt_wire /\
  normalizeSockoptForWire sample_sockopt_wire = Some sample_sockopt_wire.
Proof.
  split; [reflexivity|]. refine (proj2 (normalizeSockopt_idempotent sample_sockopt _ _ _)); [|reflexivity].
  unfold obj_wf. by apply (bool_decide_unpack _).
Defined.

(** ** The xhttp normaliser as one pass *)

Definition always (v : jsval) : bool := true.

Definition side_drops (side : StreamWireSide) (enableXmux : bool) : dropping :=
  ("enableXmux", always) ::
  (if is_inbound side then
     (if negb enableXmux then [("xmux", always)] else []) ++
     [("scMinPostsIntervalMs", fun v => is_str v "" || is_str v "30"); ("uplinkChunkSize", always)]
   else []).

Definition mode_drops (side : StreamWireSide) (mode : string) : dropping :=
  if String.eqb mode "stream-one" then map (fun k => (k, always)) (PACKET_UP_FIELDS ++ STREAM_UP_SERVER_FIELDS)
  else if String.eqb mode "stream-up" then
    map (fun k => (k, always)) PACKET_UP_FIELDS ++ (if is_inbound side then [] else [("scStreamUpServerSecs", always)])
  else if String.eqb mode "packet-up" then [("scStreamUpServerSecs", always)]
  else [].

Definition field_drops : dropping :=
  map (fun k => (k, empty_string)) (PLACEMENT_STRING_FIELDS ++ ["scMaxEachPostBytes"; "scMinPostsIntervalMs"; "scStreamUpServerSecs"]) ++
  [("headers", fun v => negb (hasMeaningfulHeaders v))].

Definition flag_drops : dropping :=
  [("xPaddingObfsMode", fun v => negb (is_bool v true)); ("noGRPCHeader", fun v => negb (is_bool v true));
   ("noSSEHeader", fun v => negb (is_bool v true)); ("serverMaxHeaderBytes", fun v => is_int v 0);
   ("uplinkChunkSize", fun v => is_int v 0)].

Definition xhttp_drops (side : StreamWireSide) (mode : string) : dropping :=
  field_drops ++ flag_drops ++ mode_drops side mode.

Definition xmux_value (v : jsval) : option jsval :=
  Some (match v with VObj x => VObj (resolveXmuxExclusivity x) | _ => v end).

Definition xhttp_pass (side : StreamWireSide) (enableXmux : bool) (mode : string) : string -> jsval -> option jsval :=
  andThen (andThen (fdrops (side_drops side enableXmux)) (fupdate "xmux" xmux_value)) (fdrops (xhttp_drops side mode)).

Lemma xhttp_side_drops o side e : xhttp_side (obj_del o "enableXmux") side e = drops (side_drops side e) o.
Proof. destruct side, e; reflexivity. Qed.

Lemma xhttp_mode_drops o side mode : xhttp_mode o side mode = drops (mode_drops side mode) o.
Proof.
  unfold xhttp_mode, mode_drops. destruct (String.eqb mode "stream-one"); [done|].
  destruct (String.eqb mode "stream-up"); [by destruct side|]. by destruct (String.eqb mode "packet-up").
Qed.

Lemma xhttp_xmux_update o : xhttp_xmux o = update_key o "xmux" xmux_value.
Proof.
  unfold xhttp_xmux, update_key, xmux_value. destruct (obj_get o "xmux") eqn:E;
    try (destruct (obj_has o "xmux") eqn:F; [|done]; rewrite <- E; by rewrite obj_set_same).
  rewrite obj_get_has; [done|]. by rewrite E.
Qed.

Lemma drop_padding o keys :
  obj_wf o -> (forall k v, In (k, v) o -> dropped (map (fun k => (k, empty_string)) keys) k v = false) ->
  dropEmptyStrings o keys = o.
Proof.
  intros H K. unfold dropEmptyStrings. rewrite drop_keys_drops, drops_entrywise by exact H.
  apply entrywise_id. intros k v Hin. unfold fdrops. by rewrite (K k v Hin).
Qed.

(** The second clean-up of the padding keys finds nothing left to do. *)
Lemma xpadding_block o :
  obj_wf o -> (forall k v, In (k, v) o -> dropped (map (fun k => (k, empty_string)) padding_keys) k v = false) ->
  (if negb (is_bool (obj_get o "xPaddingObfsMode") true) then
     dropEmptyStrings (obj_del o "xPaddingObfsMode") padding_keys
   else o) = drop_if o "xPaddingObfsMode" (fun v => negb (is_bool v true)).
Proof.
  intros H K. unfold drop_if. destruct (negb _); [|reflexivity].
  apply drop_padding; [by apply obj_wf_del|]. intros k v Hin. apply K.
  unfold obj_del in Hin. by apply filter_In in Hin as [? _].
Qed.

Lemma dropped_sub l l' k v : incl l' l -> dropped l k v = false -> dropped l' k v = false.
Proof.
  intros Hi. unfold dropped. rewrite <- !not_true_iff_false, !existsb_exists. intros H (x & Hx & E). apply H. eauto.
Qed.

Lemma padding_dropped : incl (map (fun k => (k, empty_string)) padding_keys) field_drops.
Proof. intros x. cbn. tauto. Qed.

Lemma lift_wf o a b : obj_wf o -> obj_wf (lift o a b).
Proof. intros H. unfold lift. case_match; auto with js. Qed.

Lemma liftLegacy_wf o : obj_wf o -> obj_wf (liftLegacyXhttpSessionKeys o).
Proof. intros H. by apply lift_wf, lift_wf. Qed.

Lemma normalizeXhttp_pass raw side (lifted := liftLegacyXhttpSessionKeys raw) :
  obj_wf raw ->
  normalizeXhttpForWire raw side =
  entrywise (xhttp_pass side (is_bool (obj_get lifted "enableXmux") true) (xhttp_mode_of lifted)) lifted.
Proof.
  intros H. unfold normalizeXhttpForWire. cbv zeta. fold lifted.
  assert (Hl : obj_wf lifted) by by apply liftLegacy_wf.
  rewrite xhttp_side_drops, xhttp_xmux_update. set (e := is_bool (obj_get lifted "enableXmux") true).
  set (u := update_key _ "xmux" xmux_value).
  assert (Eu : u = entrywise (andThen (fdrops (side_drops side e)) (fupdate "xmux" xmux_value)) lifted).
  { subst u. rewrite drops_entrywise by done. rewrite update_key_entrywise by auto with js. by rewrite entrywise_andThen. }
  assert (Hu : obj_wf u) by (rewrite Eu; auto with js).
  assert (Ef : drop_if (dropEmptyStrings (dropEmptyStrings u PLACEMENT_STRING_FIELDS)
                 ["scMaxEachPostBytes"; "scMinPostsIntervalMs"; "scStreamUpServerSecs"]) "headers"
                 (fun v => negb (hasMeaningfulHeaders v)) = drops field_drops u).
  { unfold dropEmptyStrings, field_drops. rewrite !drop_keys_drops, <- drops_app, <- map_app, drops_snoc. reflexivity. }
  rewrite Ef. rewrite xpadding_block, xhttp_mode_drops.
  2: by apply drops_wf.
  2: intros k v Hin; apply (dropped_sub field_drops); [exact padding_dropped|by apply (drops_survive _ u)].
  rewrite !drops_snoc, <- !drops_app, <- !app_assoc. fold (xhttp_drops side (xhttp_mode_of lifted)).
  rewrite drops_entrywise by done. by rewrite Eu, entrywise_andThen.
Qed.

Lemma get_lift_ne o a b k : k <> a -> k <> b -> obj_get (lift o a b) k = obj_get o k.
Proof. intros Ha Hb. unfold lift. rewrite obj_get_del_ne by congruence. case_match; [by rewrite obj_get_set_ne by congruence|done]. Qed.

Lemma has_lift o a b k : obj_has (lift o a b) k = true -> k <> a /\ (k <> b -> obj_has o k = true).
Proof.
  unfold lift. rewrite obj_has_del. intros [H1 H2]%andb_true_iff. apply negb_true_iff, String.eqb_neq in H1.
  split; [congruence|]. intros Hb. revert H2. case_match; [|done].
  by rewrite obj_has_set, (proj2 (String.eqb_neq k b) Hb).
Qed.

Lemma lifted_no_legacy raw k :
  obj_has (liftLegacyXhttpSessionKeys raw) k = true -> k <> "sessionPlacement" /\ k <> "sessionKey".
Proof.
  unfold liftLegacyXhttpSessionKeys. intros (H1 & H2)%has_lift. split; [|done]. intros ->.
  apply (has_lift raw "sessionPlacement" "sessionIDPlacement" "sessionPlacement"); [|done]. by apply H2.
Qed.

Lemma get_lifted raw k :
  ~ In k ["sessionPlacement"; "sessionIDPlacement"; "sessionKey"; "sessionIDKey"] ->
  obj_get (liftLegacyXhttpSessionKeys raw) k = obj_get raw k.
Proof. cbn. intros H. unfold liftLegacyXhttpSessionKeys. by rewrite !get_lift_ne by naive_solver. Qed.

Lemma In_has (o : obj) k v : In (k, v) o -> obj_has o k = true.
Proof. intros H. apply obj_has_keys. by apply (in_map fst) in H. Qed.

Lemma In_dropped l k p v : In (k, p) l -> p v = true -> dropped l k v = true.
Proof. intros H E. apply existsb_exists. exists (k, p). cbn. by rewrite String.eqb_refl. Qed.

Lemma dropped_app l1 l2 k v : dropped (l1 ++ l2) k v = dropped l1 k v || dropped l2 k v.
Proof. apply existsb_app. Qed.

(** Mode-specific deletions are unconditional. *)
Lemma mode_drops_always side mode k p : In (k, p) (mode_drops side mode) -> p = always.
Proof.
  unfold mode_drops. destruct (String.eqb mode "stream-one"), (String.eqb mode "stream-up"),
    (String.eqb mode "packet-up"), side; cbn; naive_solver.
Qed.

(** An entry of the result: where it comes from, and that no deletion applies to it. *)
Lemma xhttp_entry raw side k v :
  obj_wf raw -> In (k, v) (normalizeXhttpForWire raw side) ->
  let lifted := liftLegacyXhttpSessionKeys raw in
  let e := is_bool (obj_get lifted "enableXmux") true in
  obj_has lifted k = true /\ (exists w, dropped (side_drops side e) k w = false /\ fupdate "xmux" xmux_value k w = Some v) /\
  dropped (xhttp_drops side (xhttp_mode_of lifted)) k v = false.
Proof.
  intros H. rewrite normalizeXhttp_pass by done. intros (w & Hin & E)%In_entrywise. cbv zeta.
  split; [by eapply In_has|]. unfold xhttp_pass, andThen in E. unfold fdrops in E.
  destruct (dropped (side_drops _ _) k w) eqn:D; [done|]. destruct (fupdate _ _ k w) as [u|] eqn:U; [|done].
  destruct (dropped (xhttp_drops _ _) k u) eqn:D'; [done|]. injection E as ->. eauto.
Qed.

(** Not both ends of the xmux exclusivity are positive. *)
Definition xmux_exclusive (x : obj) : Prop :=
  ~ (upper_positive (obj_get x "maxConnections") = true /\ upper_positive (obj_get x "maxConcurrency") = true).

Lemma resolve_exclusive x : xmux_exclusive (resolveXmuxExclusivity x).
Proof.
  unfold xmux_exclusive, resolveXmuxExclusivity.
  destruct (upper_positive (obj_get x "maxConnections")) eqn:A, (upper_positive (obj_get x "maxConcurrency")) eqn:B;
    cbn [andb]; rewrite ?A, ?B; try naive_solver. rewrite obj_get_del_eq. by intros [_ [=]].
Qed.

Lemma resolve_idem x : resolveXmuxExclusivity (resolveXmuxExclusivity x) = resolveXmuxExclusivity x.
Proof.
  pose proof (resolve_exclusive x) as H. unfold xmux_exclusive in H. unfold resolveXmuxExclusivity at 1.
  destruct (upper_positive _), (upper_positive _); try done. by destruct H.
Qed.

(** The fields that belong to other modes than [mode] (and [side]). *)
Definition foreign_fields (side : StreamWireSide) (mode : string) : list string := map fst (mode_drops side mode).

Definition xhttp_managed : list string :=
  ["sessionPlacement"; "sessionKey"; "enableXmux"; "xmux"; "headers"; "xPaddingObfsMode"; "noGRPCHeader"; "noSSEHeader";
   "serverMaxHeaderBytes"; "uplinkChunkSize"; "scMaxEachPostBytes"; "scMinPostsIntervalMs"; "scMaxBufferedPosts";
   "scStreamUpServerSecs"] ++ PLACEMENT_STRING_FIELDS.

Lemma not_named l k v : ~ In k (map fst l) -> dropped l k v = false.
Proof.
  intros H. apply dropped_other. apply not_true_iff_false. intros ([k0 p] & Hin & E)%existsb_exists.
  apply String.eqb_eq in E. subst k. apply H. by apply (in_map fst) in Hin.
Qed.

Lemma side_drops_managed side e k : In k (map fst (side_drops side e)) -> In k xhttp_managed.
Proof. destruct side, e; cbn; tauto. Qed.

Lemma xhttp_drops_managed side mode k : In k (map fst (xhttp_drops side mode)) -> In k xhttp_managed.
Proof.
  unfold xhttp_drops. rewrite !map_app, !in_app_iff. intros [H|[H|H]]; [cbn in *; tauto|cbn in *; tauto|].
  revert H. unfold mode_drops. destruct (String.eqb mode "stream-one"), (String.eqb mode "stream-up"),
    (String.eqb mode "packet-up"), side; cbn; tauto.
Qed.

(** What [normalizeXhttpForWire] puts on the wire, for every raw object with distinct
    keys and either side: neither the legacy session keys nor [enableXmux], no field that
    belongs to another mode, an [xmux] that never sets both limits, no empty placement
    string; and every field the normaliser does not manage is passed through unchanged. *)
Theorem normalizeXhttp_wire raw side (out := normalizeXhttpForWire raw side) (mode := xhttp_mode_of raw) :
  obj_wf raw ->
  (forall k v, In (k, v) out ->
     ~ In k ["sessionPlacement"; "sessionKey"; "enableXmux"] /\
     ~ In k (foreign_fields side mode) /\
     (k = "xmux" -> forall x, v = VObj x -> xmux_exclusive x) /\
     (In k PLACEMENT_STRING_FIELDS -> empty_string v = false)) /\
  (forall k, ~ In k xhttp_managed -> obj_get out k = obj_get raw k).
Proof.
  intros H. set (lifted := liftLegacyXhttpSessionKeys raw).
  assert (Em : xhttp_mode_of lifted = mode) by (unfold xhttp_mode_of, lifted; by rewrite get_lifted by (cbn; naive_solver)).
  split.
  - intros k v Hin. destruct (xhttp_entry raw side k v H Hin) as (Hh & (w & Dw & U) & D). fold lifted in Hh, Dw, D.
    rewrite Em in D. destruct (lifted_no_legacy raw k Hh) as [N1 N2].
    unfold xhttp_drops in D. rewrite !dropped_app in D. apply orb_false_iff in D as [Df D].
    apply orb_false_iff in D as [_ Dm]. split; [|split; [|split]].
    + intros [<-|[<-|[<-|[]]]]; try done.
    + intros Hf. unfold foreign_fields in Hf. apply in_map_iff in Hf as ([k0 p] & <- & Hf). cbn [fst] in Dm.
      rewrite (In_dropped (mode_drops side mode) k0 p v) in Dm; [done|done|]. by rewrite (mode_drops_always _ _ _ _ Hf).
    + intros -> x ->. unfold fupdate in U. cbn in U. destruct w; try done. injection U as <-. apply resolve_exclusive.
    + intros Hp. apply not_true_iff_false. intros E. apply not_true_iff_false in Df. apply Df.
      apply (In_dropped _ _ empty_string); [|done]. unfold field_drops. rewrite in_app_iff. left. apply (in_map (fun k => (k, empty_string))), in_app_iff. by left.
  - intros k Hk. subst out. rewrite normalizeXhttp_pass, get_entrywise by (done || by apply liftLegacy_wf). fold lifted.
    assert (Hg : obj_get lifted k = obj_get raw k).
    { apply get_lifted. intros Hin. apply Hk. revert Hin. unfold xhttp_managed. cbn. tauto. }
    assert (P : forall v, xhttp_pass side (is_bool (obj_get lifted "enableXmux") true) (xhttp_mode_of lifted) k v = Some v).
    { intros v. unfold xhttp_pass, andThen, fdrops. rewrite not_named by by intros ?%side_drops_managed.
      unfold fupdate. replace (String.eqb "xmux" k) with false.
      - by rewrite not_named by by intros ?%xhttp_drops_managed.
      - symmetry. apply String.eqb_neq. intros <-. apply Hk. unfold xhttp_managed. cbn. tauto. }
    rewrite P, Hg. destruct (obj_has lifted k) eqn:E; [done|]. cbn.
    rewrite <- Hg. symmetry. by apply obj_has_get.
Qed.

Definition sample_xhttp : obj :=
  [("mode", VStr "stream-one"); ("path", VStr "/x"); ("sessionKey", VStr "sid"); ("enableXmux", VBool true);
   ("xmux", VObj [("maxConcurrency", VStr "16-32"); ("maxConnections", VInt 4)]); ("scMaxEachPostBytes", VStr "1000000");
   ("seqKey", VStr "")].

Lemma sample_xhttp_wf : obj_wf sample_xhttp.
Proof. unfold obj_wf. by apply (bool_decide_unpack _). Qed.

Lemma normalizeXhttp_wire_witness :
  obj_wf sample_xhttp /\ obj_get (normalizeXhttpForWire sample_xhttp outbound) "path" = VStr "/x".
Proof.
  split; [exact sample_xhttp_wf|].
  rewrite (proj2 (normalizeXhttp_wire sample_xhttp outbound sample_xhttp_wf) "path"); [reflexivity|].
  unfold xhttp_managed. cbn. intros H. repeat destruct H as [H|H]; discriminate || done.
Defined.

Lemma lift_absent o a b : obj_has o a = false -> lift o a b = o.
Proof.
  intros H. unfold lift. rewrite (obj_has_get o a H). cbn [is_string]. rewrite andb_false_r. cbn. by apply obj_del_absent.
Qed.

Lemma xhttp_absent raw side k :
  obj_wf raw -> In k ["sessionPlacement"; "sessionKey"; "enableXmux"] -> obj_has (normalizeXhttpForWire raw side) k = false.
Proof.
  intros H Hk. apply not_true_iff_false. intros E. apply obj_has_keys, in_map_iff in E as ([k0 v] & <- & Hin).
  destruct (xhttp_entry raw side k0 v H Hin) as (Hh & (w & Dw & _) & _).
  destruct (lifted_no_legacy raw k0 Hh). cbn in Hk. destruct Hk as [<-|[<-|[<-|[]]]]; done.
Qed.

Lemma side_drops_false side e k v :
  dropped (side_drops side e) k v = false -> (side = outbound \/ k <> "xmux") -> dropped (side_drops side false) k v = false.
Proof.
  intros H [-> | Hk]; [done|]. destruct side, e; try done. apply String.eqb_neq in Hk. rewrite String.eqb_sym in Hk.
  revert H. unfold dropped, side_drops. cbn [existsb app is_inbound negb fst snd]. by rewrite Hk.
Qed.

Lemma xhttp_mode_kept raw side : obj_wf raw -> xhttp_mode_of (normalizeXhttpForWire raw side) = xhttp_mode_of (liftLegacyXhttpSessionKeys raw).
Proof.
  intros H. unfold xhttp_mode_of. rewrite normalizeXhttp_pass, get_entrywise by (done || by apply liftLegacy_wf).
  set (lifted := liftLegacyXhttpSessionKeys raw).
  assert (P : forall e m v, xhttp_pass side e m "mode" v = Some v).
  { intros e m v. unfold xhttp_pass, andThen, fdrops.
    rewrite not_named by (intros Hin%side_drops_managed; unfold xhttp_managed in Hin; cbn in Hin; naive_solver).
    change (fupdate "xmux" xmux_value "mode" v) with (Some v). cbn iota beta.
    by rewrite not_named by (intros Hin%xhttp_drops_managed; unfold xhttp_managed in Hin; cbn in Hin; naive_solver). }
  rewrite P. destruct (obj_has lifted "mode") eqn:E; [done|]. by rewrite (obj_has_get lifted "mode" E).
Qed.

Lemma normalizeXhttp_wf raw side : obj_wf raw -> obj_wf (normalizeXhttpForWire raw side).
Proof. intros H. rewrite normalizeXhttp_pass by done. by apply entrywise_wf, liftLegacy_wf. Qed.

Lemma xmux_value_stable v w : xmux_value v = Some w -> xmux_value w = Some w.
Proof. unfold xmux_value. destruct v; intros [= <-]; try done. by rewrite resolve_idem. Qed.

(** Normalising twice is normalising once, except that an inbound's [xmux] survives the
    first time only (its opt-in flag is consumed). *)
Lemma normalizeXhttp_idem raw side (out := normalizeXhttpForWire raw side) :
  obj_wf raw -> (side = outbound \/ obj_has out "xmux" = false) -> normalizeXhttpForWire out side = out.
Proof.
  intros H Hx. assert (Hw : obj_wf out) by by apply normalizeXhttp_wf.
  assert (El : liftLegacyXhttpSessionKeys out = out).
  { unfold liftLegacyXhttpSessionKeys.
    rewrite !lift_absent; [done|..]; rewrite ?lift_absent; apply xhttp_absent; cbn; auto. }
  rewrite normalizeXhttp_pass by done. rewrite El.
  rewrite (obj_has_get out "enableXmux") by (apply xhttp_absent; cbn; auto). cbn [is_bool].
  unfold out at 1. rewrite xhttp_mode_kept by done. apply entrywise_id. intros k v Hin.
  destruct (xhttp_entry raw side k v H Hin) as (_ & (w & Dw & U) & D).
  assert (Hk : side = outbound \/ k <> "xmux").
  { destruct Hx as [->|Hx]; [by left|right]. intros ->. apply In_has in Hin. congruence. }
  assert (Dv : dropped (side_drops side false) k v = false).
  { destruct (String.eqb_spec "xmux" k) as [<-|Hne].
    - destruct Hk as [->|]; done.
    - unfold fupdate in U. rewrite (proj2 (String.eqb_neq "xmux" k) Hne) in U. injection U as <-. by eapply side_drops_false. }
  unfold xhttp_pass, andThen, fdrops. rewrite Dv. unfold fupdate in *.
  destruct (String.eqb "xmux" k); [rewrite (xmux_value_stable _ _ U)|]; by rewrite D.
Qed.

(** ** TLS and the whole stream *)

Definition sockopt_value (v : jsval) : option jsval :=
  match v with VObj s => option_map VObj (normalizeSockoptForWire s) | _ => Some v end.

Lemma put_sockopt_update o k : put_sockopt o k = update_key o k sockopt_value.
Proof.
  unfold put_sockopt, update_key, sockopt_value. destruct (obj_get o k) as [| | | | | |s] eqn:E;
    try (destruct (obj_has o k) eqn:F; [|done]; rewrite <- E; by rewrite obj_set_same).
  destruct (normalizeSockoptForWire s); cbn; [|done]. rewrite obj_get_has; [done|]. by rewrite E.
Qed.

Definition replace_obj (f : obj -> obj) (v : jsval) : option jsval :=
  Some (match v with VObj x => VObj (f x) | _ => v end).

(** [if (isRecord(o.k)) o.k = f(o.k)] *)
Lemma replace_obj_update o k f :
  match obj_get o k with VObj x => obj_set o k (VObj (f x)) | _ => o end = update_key o k (replace_obj f).
Proof.
  unfold update_key, replace_obj. destruct (obj_get o k) eqn:E;
    try (destruct (obj_has o k) eqn:F; [|done]; rewrite <- E; by rewrite obj_set_same).
  rewrite obj_get_has; [done|]. by rewrite E.
Qed.

Definition tls_drops : dropping :=
  [("fingerprint", fun v => is_str v ""); ("curvePreferences", empty_array); ("masterKeyLog", empty_string)].

Definition tls_pass : string -> jsval -> option jsval :=
  andThen (fdrops tls_drops)
    (andThen (fupdate "echSockopt" sockopt_value)
       (fupdate "settings" (replace_obj (fun s => drop_if s "fingerprint" (fun v => is_str v ""))))).

Lemma normalizeTls_pass raw : obj_wf raw -> normalizeTlsForWire raw = entrywise tls_pass raw.
Proof.
  intros H. unfold normalizeTlsForWire. cbv zeta.
  rewrite (replace_obj_update _ "settings" (fun s => drop_if s "fingerprint" (fun v => is_str v ""))), put_sockopt_update.
  assert (E : drop_if (drop_if (drop_if raw "fingerprint" (fun v => is_str v "")) "curvePreferences" empty_array)
            "masterKeyLog" empty_string = drops tls_drops raw) by reflexivity.
  rewrite E, (drops_entrywise tls_drops raw H).
  rewrite (update_key_entrywise _ "echSockopt") by by apply entrywise_wf.
  rewrite (update_key_entrywise _ "settings") by by repeat apply entrywise_wf.
  by rewrite !entrywise_andThen.
Qed.

Lemma sockopt_value_stable v w : vwf v -> sockopt_value v = Some w -> sockopt_value w = Some w.
Proof.
  intros Hv. destruct v as [| | | | | |s]; [intros [= <-]; reflexivity..|]. cbn [sockopt_value].
  destruct (normalizeSockoptForWire s) as [out|] eqn:E; cbn [option_map]; [|done]. intros [= <-]. cbn [sockopt_value].
  apply vwf_obj in Hv. revert E. rewrite normalizeSockopt_pass by done.
  destruct (entrywise sockopt_pass s) eqn:F; cbn [nonempty]; [done|]. intros [= <-]. rewrite <- F.
  rewrite normalizeSockopt_pass by auto with js. rewrite entrywise_idem by apply sockopt_stable. by rewrite F.
Qed.

Lemma settings_value_stable v w (g := replace_obj (fun s => drop_if s "fingerprint" (fun v => is_str v ""))) :
  g v = Some w -> g w = Some w.
Proof.
  subst g. unfold replace_obj. destruct v as [| | | | | |s]; intros [= <-]; try done.
  rewrite (drop_if_id (drop_if s _ _)); [done|]. by apply (get_drop_if_eq s "fingerprint" (fun v => is_str v "")).
Qed.

Lemma tls_stable k v w : vwf v -> tls_pass k v = Some w -> tls_pass k w = Some w.
Proof.
  intros Hv. unfold tls_pass, andThen, fupdate, fdrops.
  destruct (dropped tls_drops k v) eqn:D; [done|].
  destruct (String.eqb_spec "echSockopt" k) as [<-|He].
  { rewrite (dropped_other tls_drops "echSockopt" w) by done. cbn [String.eqb Ascii.eqb].
    destruct (sockopt_value v) as [u|] eqn:E; [|done]. cbn. intros [= <-].
    by rewrite (sockopt_value_stable v u Hv E). }
  destruct (String.eqb_spec "settings" k) as [<-|Hs]; [|intros [= <-]; by rewrite D].
  intros E. rewrite (dropped_other tls_drops "settings" w) by done. by apply settings_value_stable in E.
Qed.

Lemma normalizeTls_idem t : vwf (VObj t) -> normalizeTlsForWire (normalizeTlsForWire t) = normalizeTlsForWire t.
Proof.
  intros H. pose proof (vwf_obj t H). rewrite (normalizeTls_pass t), normalizeTls_pass by auto with js.
  apply entrywise_idem_on. intros k v w Hin. apply tls_stable. by eapply vwf_In.
Qed.

Definition stream_pass (side : StreamWireSide) : string -> jsval -> option jsval :=
  andThen (fupdate "xhttpSettings" (replace_obj (fun x => normalizeXhttpForWire x side)))
    (andThen (fupdate "tlsSettings" (replace_obj normalizeTlsForWire)) (fupdate "sockopt" sockopt_value)).

Lemma normalizeStream_pass s side : obj_wf s -> normalizeStreamSettingsForWire s side = entrywise (stream_pass side) s.
Proof.
  intros H. unfold normalizeStreamSettingsForWire, put_tls, put_xhttp. cbv zeta.
  rewrite (replace_obj_update s "xhttpSettings" (fun x => normalizeXhttpForWire x side)).
  rewrite (replace_obj_update _ "tlsSettings" normalizeTlsForWire), put_sockopt_update.
  rewrite (update_key_entrywise s) by done.
  rewrite (update_key_entrywise _ "tlsSettings") by by apply entrywise_wf.
  rewrite (update_key_entrywise _ "sockopt") by by repeat apply entrywise_wf.
  by rewrite !entrywise_andThen.
Qed.

Lemma normalizeStream_idem stream (out := normalizeStreamSettingsForWire stream outbound) :
  vwf (VObj stream) -> normalizeStreamSettingsForWire out outbound = out.
Proof.
  intros H. pose proof (vwf_obj _ H) as Hw. subst out. rewrite (normalizeStream_pass stream) by done.
  rewrite normalizeStream_pass by auto with js. apply entrywise_idem_on. intros k v w Hin.
  assert (Hv : vwf v) by by eapply vwf_In.
  unfold stream_pass, andThen, fupdate.
  destruct (String.eqb_spec "xhttpSettings" k) as [<-|H1]; [|destruct (String.eqb_spec "tlsSettings" k) as [<-|H2];
    [|destruct (String.eqb_spec "sockopt" k) as [<-|H3]; [by apply sockopt_value_stable|by intros [= <-]]]].
  - destruct v as [| | | | | |x]; cbn; intros [= <-]; try done. do 2 f_equal.
    apply normalizeXhttp_idem; [by apply vwf_obj|by left].
  - destruct v as [| | | | | |t]; cbn; intros [= <-]; try done. do 2 f_equal. by apply normalizeTls_idem.
Qed.

(** Normalising the stream settings of an outbound for the wire is idempotent: what is
    stored is a fixed point of the xhttp, TLS and sockopt normalisers together. *)
Theorem normalizeStream_idempotent stream (out := normalizeStreamSettingsForWire stream outbound) :
  vwf (VObj stream) -> normalizeStreamSettingsForWire out outbound = out.
Proof. apply normalizeStream_idem. Qed.

Definition sample_stream : obj :=
  [("network", VStr "xhttp"); ("xhttpSettings", VObj sample_xhttp);
   ("tlsSettings", VObj [("fingerprint", VStr ""); ("serverName", VStr "example.com");
                         ("echSockopt", VObj [("mark", VInt 0)])]);
   ("sockopt", VObj sample_sockopt)].

Lemma normalizeStream_idempotent_witness :
  vwf (VObj sample_stream) /\
  normalizeStreamSettingsForWire (normalizeStreamSettingsForWire sample_stream outbound) outbound =
  normalizeStreamSettingsForWire sample_stream outbound.
Proof.
  assert (H : vwf (VObj sample_stream)).
  { repeat split; try exact I; unfold obj_wf; by apply (bool_decide_unpack _). }
  split; [exact H|]. exact (normalizeStream_idempotent sample_stream H).
Defined.

(** ** REALITY validators *)

(** A port number in decimal. *)
Definition port_string (p : string) : Prop := all_digits p = true /\ 1 <= digits_value 0 p <= 65535.

Lemma valid_port_digits p : all_digits p = true -> valid_port (number_of_string p) = true <-> port_string p.
Proof.
  intros H. rewrite number_of_digits by done. unfold valid_port, port_string, num_ltb.
  rewrite andb_true_iff, !negb_true_iff, !Z.ltb_ge. change (10 ^ Z.of_nat 0) with 1. intuition lia.
Qed.

Lemma all_digits_no_colon p : all_digits p = true -> no_char ":" p.
Proof.
  intros H. assert (F : forall_chars is_digit p = true) by by destruct p. revert F. apply forall_chars_impl.
  intros [[] [] [] [] [] [] [] []]; by cbn.
Qed.

Lemma valid_port_verdict p :
  all_digits p = true -> (if valid_port (number_of_string p) then None else Some realityTargetInvalidPort) = None <-> port_string p.
Proof. intros H. rewrite <- valid_port_digits by done. destruct (valid_port _); naive_solver. Qed.

Lemma host_port_verdict s :
  match last_index_of ":" s with
  | None | Some O => Some realityTargetNeedsPort
  | Some lastColon =>
      if Nat.eqb lastColon (String.length s - 1) then Some realityTargetNeedsPort
      else
        let portPart := str_drop (S lastColon) s in
        if negb (all_digits portPart) then Some realityTargetInvalidPort
        else if valid_port (number_of_string portPart) then None else Some realityTargetInvalidPort
  end = None <-> exists host p, host <> "" /\ port_string p /\ s = host +:+ String ":" p.
Proof.
  split.
  - destruct (last_index_of ":" s) as [[|i]|] eqn:E; [done| |done].
    apply last_index_of_Some in E as (a & b & -> & Ei & _). rewrite Ei, str_drop_S_app. cbv zeta. case_match; [done|].
    destruct (all_digits b) eqn:D; cbn [negb]; [|done]. intros Hp%valid_port_verdict; [|done].
    exists a, b. split; [by destruct a|done].
  - intros (host & p & Hh & Hp & ->). rewrite last_index_of_app by (apply all_digits_no_colon, Hp).
    rewrite str_drop_S_app, length_app_str. cbv zeta. destruct Hp as [D Hp]. rewrite D.
    destruct host as [|c host]; [done|]. destruct p as [|d p]; [done|]. cbn [String.length]. case_match eqn:E.
    { apply Nat.eqb_eq in E. lia. }
    by apply valid_port_verdict.
Qed.

(** [validateRealityTarget] accepts exactly the targets that, trimmed, are a unix socket
    ([/path] or [@name]), a bare port in 1..65535, or [host:port] with a non-empty host and
    such a port. *)
Theorem validateRealityTarget_accepts target (s := trim target) :
  validateRealityTarget target = None <->
  starts_with s "/" = true \/ starts_with s "@" = true \/ port_string s \/
  exists host p, host <> "" /\ port_string p /\ s = host +:+ String ":" p.
Proof.
  unfold validateRealityTarget. fold s. destruct (String.eqb_spec s "") as [E|Hne].
  { rewrite E. split; [done|]. intros [|[|[[]|(h & p & Hh & _ & Es)]]]; try done. by destruct h. }
  destruct (starts_with s "/") eqn:E1; cbn [orb]; [naive_solver|].
  destruct (starts_with s "@") eqn:E2; [naive_solver|].
  destruct (all_digits s) eqn:D.
  - rewrite valid_port_verdict by done. split; [auto|]. intros [|[|[|(h & p & Hh & _ & Es)]]]; try done.
    apply all_digits_no_colon, last_index_of_None in D. exfalso. revert D. rewrite Es.
    assert (F : forall a b, last_index_of ":" (a +:+ String ":" b) <> None).
    { intros a b. induction a as [|c a IH]; cbn; [by case_match|]. by destruct (last_index_of _ _). }
    apply F.
  - rewrite host_port_verdict. split; [auto|]. intros [|[|[[Ha _]|]]]; congruence || done.
Qed.

(** The printed form of a version. *)
Definition version_string (a b c : Z) : string := join "." [digits a; digits b; digits c].

Definition byte (z : Z) : Prop := 0 <= z <= 255.

Lemma digits_forall z : forall_chars is_digit (digits z) = true.
Proof. pose proof (digits_all z) as H. by destruct (digits z). Qed.

Lemma digits_no_dot z : no_char "." (digits z).
Proof. generalize (digits_forall z). apply forall_chars_impl. intros [[] [] [] [] [] [] [] []]; by cbn. Qed.

Lemma digits_no_ws z : forall_chars (fun c => negb (is_ws c)) (digits z) = true.
Proof. generalize (digits_forall z). apply forall_chars_impl. intros c H. by rewrite is_digit_not_ws. Qed.

Lemma version_trim a b c : trim (version_string a b c) = version_string a b c.
Proof.
  apply trim_no_ws. unfold version_string, join. cbn [String.concat].
  rewrite !forall_chars_app, !digits_no_ws. reflexivity.
Qed.

Lemma version_nonempty a b c : version_string a b c <> "".
Proof. pose proof (digits_all a) as H. unfold version_string. cbn. by destruct (digits a). Qed.

Lemma parse_ver_parts_digits l : Forall byte l -> parse_ver_parts (map digits l) = Some (map (fun z => NFin z 0) l).
Proof.
  induction 1 as [|z l Hz Hl IH]; [done|]. cbn [map parse_ver_parts]. rewrite digits_all. cbn [negb].
  unfold byte in Hz. rewrite number_of_digits, digits_value_digits by (apply digits_all || lia).
  unfold num_ltb. change (10 ^ Z.of_nat 0) with 1. destruct (Z.ltb_spec (255 * 1) (z * 1)); [lia|]. by rewrite IH.
Qed.

(** A printed version parses back to its parts. *)
Lemma parse_version a b c :
  byte a -> byte b -> byte c -> parseRealityClientVer (version_string a b c) = Some (NFin a 0, NFin b 0, NFin c 0).
Proof.
  intros Ha Hb Hc. unfold parseRealityClientVer. rewrite version_trim.
  rewrite (proj2 (String.eqb_neq _ "") (version_nonempty a b c)). unfold version_string at 1 2.
  rewrite split_join; [|done|repeat constructor; apply digits_no_dot]. cbn [length Nat.ltb Nat.leb].
  assert (E : parse_ver_parts [digits a; digits b; digits c] = Some [NFin a 0; NFin b 0; NFin c 0]).
  { apply (parse_ver_parts_digits [a; b; c]). do 3 (constructor; [done|]). constructor. }
  by rewrite E.
Qed.

Lemma digits_value_nonneg s : forall a, 0 <= a -> 0 <= digits_value a s.
Proof. induction s as [|c s IH]; intros a Ha; cbn; [done|]. apply IH. lia. Qed.

Definition byte_num (n : num) : Prop := exists z, n = NFin z 0 /\ byte z.

Lemma parse_ver_parts_range l : forall nums, parse_ver_parts l = Some nums -> Forall byte_num nums.
Proof.
  induction l as [|p l IH]; intros nums; cbn [parse_ver_parts]; [intros [= <-]; constructor|].
  destruct (all_digits p) eqn:D; cbn [negb]; [|done]. rewrite number_of_digits by done. case_match eqn:E; [done|].
  destruct (parse_ver_parts l) eqn:F; [|done]. intros [= <-]. constructor; [|by apply IH].
  eexists. split; [done|]. unfold num_ltb in E. change (10 ^ Z.of_nat 0) with 1 in E. apply Z.ltb_ge in E.
  pose proof (digits_value_nonneg p 0). split; lia.
Qed.

(** A version string accepted by [parseRealityClientVer] has three parts in 0..255, and
    every such triple, printed with dots, parses back to itself. *)
Theorem parseRealityClientVer_range :
  (forall s a b c, parseRealityClientVer s = Some (a, b, c) -> byte_num a /\ byte_num b /\ byte_num c) /\
  (forall a b c, byte a -> byte b -> byte c ->
     parseRealityClientVer (version_string a b c) = Some (NFin a 0, NFin b 0, NFin c 0)).
Proof.
  split; [|exact parse_version]. intros s a b c. unfold parseRealityClientVer.
  case_match; [done|]. case_match; [done|].
  assert (Z0 : byte_num (NFin 0 0)) by (exists 0; unfold byte; split; [done|lia]).
  destruct (parse_ver_parts _) as [nums|] eqn:E; [|done]. apply parse_ver_parts_range in E.
  destruct nums as [|x [|y [|z [|w nums]]]]; intros [= <- <- <-]; rewrite ?List.Forall_cons_iff in E; naive_solver.
Qed.

(** The version as one number, most significant part first. *)
Definition version_value (a b c : Z) : Z := (a * 256 + b) * 256 + c.

(** For well-formed versions, [validateRealityMaxClientVer] accepts a maximum exactly
    when it is not below the minimum in version order, and otherwise reports the
    inversion; an empty maximum is always accepted. *)
Theorem validateRealityMaxClientVer_order :
  (forall a b c a' b' c', byte a -> byte b -> byte c -> byte a' -> byte b' -> byte c' ->
     validateRealityMaxClientVer (version_string a b c) (version_string a' b' c') =
     if version_value a b c <? version_value a' b' c' then Some maxClientVerBelowMin else None) /\
  (forall min, validateRealityMaxClientVer "" min = None).
Proof.
  split; [|done]. intros a b c a' b' c' Ha Hb Hc Ha' Hb' Hc'.
  unfold validateRealityMaxClientVer, validateRealityClientVer.
  rewrite (proj2 (String.eqb_neq _ "") (version_nonempty a b c)), version_trim, String.eqb_refl. cbn [negb].
  rewrite !parse_version by done. cbn [compare_ver]. unfold num_eqb, num_ltb, version_value, byte in *.
  change (10 ^ Z.of_nat 0) with 1. rewrite !Z.mul_1_r.
  destruct (Z.ltb_spec ((a * 256 + b) * 256 + c) ((a' * 256 + b') * 256 + c'));
    repeat case_match; repeat match goal with
      | H : negb _ = true |- _ => apply negb_true_iff, Z.eqb_neq in H
      | H : negb _ = false |- _ => apply negb_false_iff, Z.eqb_eq in H
      | H : (_ <? _) = true |- _ => apply Z.ltb_lt in H
      | H : (_ <? _) = false |- _ => apply Z.ltb_ge in H
      end; done || lia.
Qed.

Lemma parseRealityClientVer_range_witness :
  byte 25 /\ parseRealityClientVer "25.12.8" = Some (NFin 25 0, NFin 12 0, NFin 8 0).
Proof.
  assert (H : byte 25) by (unfold byte; lia). split; [exact H|].
  refine (proj2 parseRealityClientVer_range 25 12 8 H _ _); unfold byte; lia.
Defined.

Lemma validateRealityMaxClientVer_order_witness :
  byte 25 /\ validateRealityMaxClientVer "25.9.11" "25.12.8" = Some maxClientVerBelowMin.
Proof.
  assert (H : byte 25) by (unfold byte; lia). split; [exact H|].
  refine (proj1 validateRealityMaxClientVer_order 25 9 11 25 12 8 H _ _ H _ _); unfold byte; lia.
Defined.
