(* ===== verification/Utf8.v ===== *)
(** * UTF-8

    JavaScript strings are modelled by the bytes of their UTF-8 encoding, so
    [TextEncoder.encode] is the identity here; [TextDecoder.decode] and
    [decodeURIComponent] meet bytes that are not UTF-8.  [utf8_go] is the decoder of the
    Encoding standard (maximal invalid prefixes are replaced by U+FFFD), [utf8_valid] its
    acceptance condition. *)
From S2P Require Import Prelude.
From Stdlib Require Import Ascii String.
Local Open Scope Z_scope.

Definition code (c : ascii) : Z := Z.of_N (N_of_ascii c).
Definition char_of (z : Z) : ascii := ascii_of_N (Z.to_N z).

Definition bytes_of (s : string) : list Z := map code (list_ascii_of_string s).
(** [String.fromCharCode(...bytes)] of a binary string. *)
Definition string_of (l : list Z) : string := string_of_list_ascii (map char_of l).

(** What a byte starts: an ASCII character, a sequence that needs [n] more bytes the first
    of which lies in [lo..hi], or nothing. *)
Inductive lead := LAscii | LMulti (n : nat) (lo hi : Z) | LBad.

Definition lead_of (b : Z) : lead :=
  if b <? 0x80 then LAscii
  else if b <? 0xC2 then LBad
  else if b <? 0xE0 then LMulti 1 0x80 0xBF
  else if b =? 0xE0 then LMulti 2 0xA0 0xBF
  else if b =? 0xED then LMulti 2 0x80 0x9F
  else if b <? 0xF0 then LMulti 2 0x80 0xBF
  else if b =? 0xF0 then LMulti 3 0x90 0xBF
  else if b <? 0xF4 then LMulti 3 0x80 0xBF
  else if b =? 0xF4 then LMulti 3 0x80 0x8F
  else LBad.

(** U+FFFD *)
Definition replacement : list Z := [0xEF; 0xBF; 0xBD].

(** [need] continuation bytes are missing, the next one must lie in [lo..hi]; [pend] are the
    bytes of the sequence read so far. *)
Fixpoint utf8_go (bs : list Z) (need : nat) (lo hi : Z) (pend : list Z) : list Z :=
  match bs with
  | [] => match need with O => [] | S _ => replacement end
  | b :: bs =>
      let start := match lead_of b with
                   | LAscii => b :: utf8_go bs 0 0 0 []
                   | LMulti n lo hi => utf8_go bs n lo hi [b]
                   | LBad => replacement ++ utf8_go bs 0 0 0 []
                   end in
      match need with
      | O => start
      | S n =>
          if (lo <=? b) && (b <=? hi) then
            match n with
            | O => pend ++ b :: utf8_go bs 0 0 0 []
            | S _ => utf8_go bs n 0x80 0xBF (pend ++ [b])
            end
          else replacement ++ start
      end
  end.

Fixpoint utf8_ok (bs : list Z) (need : nat) (lo hi : Z) : bool :=
  match bs with
  | [] => match need with O => true | S _ => false end
  | b :: bs =>
      match need with
      | O => match lead_of b with
             | LAscii => utf8_ok bs 0 0 0
             | LMulti n lo hi => utf8_ok bs n lo hi
             | LBad => false
             end
      | S n => (lo <=? b) && (b <=? hi) && utf8_ok bs n 0x80 0xBF
      end
  end.

Definition utf8_valid (bs : list Z) : bool := utf8_ok bs 0 0 0.

(** The byte order mark, which [TextDecoder] drops. *)
Definition has_bom (bs : list Z) : bool :=
  match bs with a :: b :: c :: _ => (a =? 0xEF) && (b =? 0xBB) && (c =? 0xBF) | _ => false end.

(** [new TextDecoder().decode(bytes)] *)
Definition text_decode (bs : list Z) : string :=
  string_of (utf8_go (if has_bom bs then drop 3 bs else bs) 0 0 0 []).

(** ** Bytes and characters *)

Definition is_byte (b : Z) : Prop := 0 <= b < 256.

Lemma code_byte c : is_byte (code c).
Proof. unfold is_byte, code. pose proof (N_ascii_bounded c). lia. Qed.

Lemma char_of_code c : char_of (code c) = c.
Proof. unfold char_of, code. by rewrite N2Z.id, ascii_N_embedding. Qed.

Lemma code_char_of b : is_byte b -> code (char_of b) = b.
Proof. unfold is_byte, char_of, code. intros H. rewrite N_ascii_embedding by lia. lia. Qed.

Lemma bytes_of_byte s : Forall is_byte (bytes_of s).
Proof. unfold bytes_of. apply List.Forall_map, List.Forall_forall. intros c _. apply code_byte. Qed.

Lemma string_of_bytes_of s : string_of (bytes_of s) = s.
Proof.
  unfold string_of, bytes_of. rewrite map_map. rewrite (map_ext _ id) by apply char_of_code.
  rewrite map_id. apply string_of_list_ascii_of_string.
Qed.

Lemma bytes_of_string_of l : Forall is_byte l -> bytes_of (string_of l) = l.
Proof.
  intros H. unfold string_of, bytes_of. rewrite list_ascii_of_string_of_list_ascii, map_map.
  induction H as [|b l Hb Hl IH]; cbn; [done|]. by rewrite code_char_of, IH.
Qed.

(** ** Valid input is decoded to itself *)

Lemma utf8_ok_idle bs lo hi : utf8_ok bs 0 lo hi = utf8_ok bs 0 0 0.
Proof. by destruct bs. Qed.

Lemma utf8_go_ok bs : forall need lo hi pend,
  utf8_ok bs need lo hi = true -> utf8_go bs need lo hi pend = match need with O => bs | S _ => pend ++ bs end.
Proof.
  induction bs as [|b bs IH]; intros need lo hi pend; cbn [utf8_ok utf8_go]; [by destruct need|].
  destruct need as [|n].
  - destruct (lead_of b) as [|n lo' hi'|] eqn:E; [intros H; rewrite (IH 0%nat) by done; done| |done].
    intros H. rewrite (IH n) by done. destruct n; [|done]. exfalso. revert E. unfold lead_of.
    by repeat case_match.
  - intros [Hr H]%andb_true_iff. rewrite Hr. destruct n.
    + rewrite utf8_ok_idle in H. by rewrite (IH 0%nat) by done.
    + rewrite IH by done. by rewrite <- app_assoc.
Qed.

Lemma text_decode_valid s :
  utf8_valid (bytes_of s) = true -> has_bom (bytes_of s) = false -> text_decode (bytes_of s) = s.
Proof. intros H B. unfold text_decode. rewrite B, utf8_go_ok by done. apply string_of_bytes_of. Qed.

(** ASCII is valid. *)
Lemma ascii_valid bs : Forall (fun b => 0 <= b < 128) bs -> utf8_valid bs = true /\ has_bom bs = false.
Proof.
  intros H. split.
  - unfold utf8_valid. induction H as [|b bs Hb _ IH]; cbn [utf8_ok]; [done|]. unfold lead_of.
    by replace (b <? 0x80) with true by (symmetry; apply Z.ltb_lt; lia).
  - destruct H as [|a l Ha [|b m Hb [|c n Hc _]]]; try done. cbn.
    by replace (a =? 0xEF) with false by (symmetry; apply Z.eqb_neq; lia).
Qed.
