(* ===== verification/Base64.v ===== *)
(** * Base64 and the WireGuard key encoding

    Models the [Base64] class and the key encoders of [Wireguard]
    (src/frontend/src/utils/index.ts) over the platform's [btoa] and [atob], which are
    written out here from the HTML standard (forgiving-base64). *)
From S2P Require Import Prelude JsInt Field25519 Curve25519 JsString Utf8.
From Stdlib Require Import Ascii.
Local Open Scope Z_scope.

(** ** The platform's encoder and decoder *)

Definition b64_alphabet : string := "ABCDEFGHIJKLMNOPQRSTUVWXYZabcdefghijklmnopqrstuvwxyz0123456789+/".

Definition b64_char (v : Z) : ascii :=
  match String.get (Z.to_nat v) b64_alphabet with Some c => c | None => zero end.

Definition b64_value (c : ascii) : option Z :=
  let n := code c in
  if (65 <=? n) && (n <=? 90) then Some (n - 65)
  else if (97 <=? n) && (n <=? 122) then Some (n - 71)
  else if (48 <=? n) && (n <=? 57) then Some (n + 4)
  else if n =? 43 then Some 62
  else if n =? 47 then Some 63
  else None.

(** The 6-bit groups of a byte sequence, zero-filled at the end. *)
Fixpoint sextets (l : list Z) : list Z :=
  match l with
  | a :: b :: c :: l => a / 4 :: a mod 4 * 16 + b / 16 :: b mod 16 * 4 + c / 64 :: c mod 64 :: sextets l
  | [a; b] => [a / 4; a mod 4 * 16 + b / 16; b mod 16 * 4]
  | [a] => [a / 4; a mod 4 * 16]
  | [] => []
  end.

Definition pad_count (n k : nat) : nat := (k - n mod k) mod k.

(** [btoa] *)
Definition btoa (l : list Z) : string :=
  String.string_of_list_ascii (map b64_char (sextets l) ++ repeat "="%char (pad_count (length l) 3)).

Fixpoint quads (vs : list Z) : list Z :=
  match vs with
  | a :: b :: c :: d :: vs => a * 4 + b / 16 :: b mod 16 * 16 + c / 4 :: c mod 4 * 64 + d :: quads vs
  | [a; b; c] => [a * 4 + b / 16; b mod 16 * 16 + c / 4]
  | [a; b] => [a * 4 + b / 16]
  | _ => []
  end.

Definition b64_ws (c : ascii) : bool :=
  let n := code c in (n =? 9) || (n =? 10) || (n =? 12) || (n =? 13) || (n =? 32).

Definition is_pad (c : ascii) : bool := Ascii.eqb c "=".

(** At most two trailing [=] of an input whose length is a multiple of four. *)
Definition strip_pad (l : list ascii) : list ascii :=
  if Nat.eqb (length l mod 4) 0 then
    match rev l with
    | c :: d :: r => if is_pad c then (if is_pad d then rev r else rev (d :: r)) else l
    | _ => l
    end
  else l.

(** [atob]; [None] is the InvalidCharacterError. *)
Definition atob (s : string) : option (list Z) :=
  let l := strip_pad (List.filter (fun c => negb (b64_ws c)) (String.list_ascii_of_string s)) in
  if Nat.eqb (length l mod 4) 1 then None
  else option_map quads (mapM b64_value l).

(** ** The [Base64] class *)

Definition replace_char (a b : ascii) (s : string) : string := map_string (fun c => if Ascii.eqb c a then b else c) s.

Fixpoint remove_char (a : ascii) (s : string) : string :=
  match s with
  | "" => ""
  | String c s => if Ascii.eqb c a then remove_char a s else String c (remove_char a s)
  end.

(** [encode(content, safe)] *)
Definition encode (content : string) (safe : bool) : string :=
  let s := btoa (bytes_of content) in
  if safe then replace_char "/" "_" (remove_char "=" (replace_char "+" "-" s)) else s.

Definition alternativeEncode (content : list Z) : string := btoa content.

Fixpoint repeat_char (c : ascii) (n : nat) : string :=
  match n with O => "" | S n => String c (repeat_char c n) end.

(** [s.padEnd(Math.ceil(s.length / 4) * 4, '=')] *)
Definition pad4 (s : string) : string := s +:+ repeat_char "=" (pad_count (String.length s) 4).

Definition decode (content : string) : option string :=
  option_map text_decode (atob (pad4 (replace_char "_" "/" (replace_char "-" "+" content)))).

(** ** WireGuard keys *)

(** The branch-free map from a 6-bit value to its character code. *)
Definition b64_code (v : Z) : Z :=
  v + 65 + js_and (js_shr (25 - v) 8) 6 - js_and (js_shr (51 - v) 8) 75
    - js_and (js_shr (61 - v) 8) 15 + js_and (js_shr (62 - v) 8) 3.

(** [encodeBase64(base64.subarray(off), src)]: reads beyond the end are [undefined], which the
    bit operators take for 0; writes beyond the end are dropped. *)
Definition encodeBase64 (dest : list Z) (off : nat) (src : list Z) : list Z :=
  let input := [js_and (js_shr (get src 0) 2) 63;
                js_and (js_or (js_shl (get src 0) 4) (js_shr (get src 1) 4)) 63;
                js_and (js_or (js_shl (get src 1) 2) (js_shr (get src 2) 6)) 63;
                js_and (get src 2) 63] in
  fold_left (fun dest i => upd (off + i) (to_uint8 (b64_code (get input i))) dest) (seq 0 4) dest.

(** The loop runs while [i < 32 / 3], that is for [i = 0 .. 10]; then [i = 11]. *)
Definition keyToBase64 (key : list Z) : string :=
  let base64 := repeat 0 44 in
  let base64 := fold_left (fun base64 i => encodeBase64 base64 (i * 4) (drop (i * 3) key)) (seq 0 11) base64 in
  let base64 := encodeBase64 base64 44 [get key 33; get key 34; 0] in
  string_of (upd 43 61 base64).

Definition keyFromBase64 (encoded : string) : option (list Z) := atob encoded.

(** [generatePrivateKey], the 32 random bytes being an argument. *)
Definition generatePrivateKey (random : list Z) : list Z := clamp random.

Record keypair := { publicKey : string; privateKey : string }.

(** [None] is the exception of [atob] on a malformed secret key. *)
Definition generateKeypair (secretKey : string) (random : list Z) : option keypair :=
  let sk := if Nat.ltb 0 (String.length secretKey) then keyFromBase64 secretKey
            else Some (generatePrivateKey random) in
  match sk with
  | None => None
  | Some sk =>
      Some {| publicKey := keyToBase64 (generatePublicKey sk);
              privateKey := if Nat.ltb 0 (String.length secretKey) then secretKey else keyToBase64 sk |}
  end.

(** ** Six-bit values and their characters *)

(** Exhaustive check of a property of 6-bit values. *)
Lemma sextet_cases (P : Z -> bool) :
  forallb P (map Z.of_nat (seq 0 64)) = true -> forall v, 0 <= v < 64 -> P v = true.
Proof.
  intros H v Hv. rewrite forallb_forall in H. apply H.
  apply in_map_iff. exists (Z.to_nat v). split; [lia|]. apply in_seq. lia.
Qed.

Definition sextet (v : Z) : Prop := 0 <= v < 64.

Lemma b64_value_char v : sextet v -> b64_value (b64_char v) = Some v.
Proof.
  intros H. assert (E : (match b64_value (b64_char v) with Some w => w =? v | None => false end) = true).
  { revert v H. apply sextet_cases. reflexivity. }
  destruct (b64_value (b64_char v)); [|done]. apply Z.eqb_eq in E. by subst.
Qed.

(** The characters of the alphabet are none of those the encoders treat specially. *)
Definition b64_plain (c : ascii) : bool :=
  negb (is_pad c) && negb (b64_ws c) && negb (Ascii.eqb c "-") && negb (Ascii.eqb c "_").

Lemma b64_char_plain v : sextet v -> b64_plain (b64_char v) = true.
Proof. revert v. apply sextet_cases. reflexivity. Qed.

Lemma b64_code_char v : sextet v -> char_of (to_uint8 (b64_code v)) = b64_char v.
Proof.
  intros H. apply Ascii.eqb_eq. revert v H. apply sextet_cases. reflexivity.
Qed.

(** Induction three elements at a time. *)
Lemma list_ind3 {A} (P : list A -> Prop) :
  P [] -> (forall a, P [a]) -> (forall a b, P [a; b]) -> (forall a b c l, P l -> P (a :: b :: c :: l)) -> forall l, P l.
Proof.
  intros H0 H1 H2 H3. fix IH 1. intros [|a [|b [|c l]]]; [exact H0|apply H1|apply H2|]. apply H3. apply IH.
Qed.

Lemma sextets_range l : Forall is_byte l -> Forall sextet (sextets l).
Proof.
  unfold is_byte, sextet. induction l as [|a|a b|a b c l IH] using list_ind3; intros H;
    rewrite ?List.Forall_cons_iff in H; cbn [sextets]; repeat (constructor; [Z.to_euclidean_division_equations; lia|]); try constructor.
  apply IH. tauto.
Qed.

Lemma quads_sextets l : Forall is_byte l -> quads (sextets l) = l.
Proof.
  unfold is_byte. induction l as [|a|a b|a b c l IH] using list_ind3; intros H;
    rewrite ?List.Forall_cons_iff in H; cbn [sextets quads]; repeat (apply (f_equal2 cons); [Z.to_euclidean_division_equations; lia|]); try done.
  apply IH. tauto.
Qed.

Lemma pad_count_add n : pad_count (3 + n) 3 = pad_count n 3.
Proof. unfold pad_count. f_equal. f_equal. rewrite Nat.add_comm. by rewrite <- (Nat.Div0.mod_add n 1 3), Nat.mul_1_l. Qed.

(** The groups and the padding make up whole quartets. *)
Lemma sextets_length l :
  exists q, (length (sextets l) + pad_count (length l) 3 = 4 * q)%nat /\ (pad_count (length l) 3 <= 2)%nat.
Proof.
  induction l as [|a|a b|a b c l IH] using list_ind3; [exists 0%nat|exists 1%nat|exists 1%nat|];
    try (split; [reflexivity|apply Nat.leb_le; reflexivity]).
  destruct IH as (q & E & L). exists (S q). cbn [sextets length].
  change (S (S (S (length l)))) with (3 + length l)%nat. rewrite pad_count_add. lia.
Qed.

Lemma mapM_b64 l : Forall sextet l -> mapM b64_value (map b64_char l) = Some l.
Proof. induction 1 as [|v l Hv Hl IH]; [done|]. cbn. rewrite b64_value_char by done. cbn. by rewrite IH. Qed.

Lemma b64_plain_spec c : b64_plain c = true -> is_pad c = false /\ b64_ws c = false /\ Ascii.eqb c "-" = false /\ Ascii.eqb c "_" = false.
Proof. unfold b64_plain. rewrite !andb_true_iff, !negb_true_iff. tauto. Qed.

(** A list of plain characters followed by its padding loses exactly the padding. *)
Lemma strip_pad_exact l k q :
  (forall c, In c l -> is_pad c = false) -> (length l + k = 4 * q)%nat -> (k <= 2)%nat ->
  strip_pad (l ++ repeat "="%char k) = l.
Proof.
  intros Hl Hq Hk. unfold strip_pad. rewrite length_app, repeat_length, Hq.
  replace ((4 * q) mod 4)%nat with 0%nat by (rewrite Nat.mul_comm; symmetry; apply Nat.Div0.mod_mul).
  cbn [Nat.eqb]. rewrite rev_app_distr.
  assert (Hr : forall c r, rev l = c :: r -> is_pad c = false).
  { intros c r E. apply Hl, in_rev. rewrite E. by left. }
  assert (Hne : (k > 0)%nat -> exists c r, rev l = c :: r).
  { intros Hk0. destruct (rev l) eqn:E; [|eauto]. apply (f_equal (@length _)) in E. rewrite length_rev in E. cbn in E. lia. }
  destruct k as [|[|[|k]]]; [| | |lia]; cbn [repeat rev app].
  - rewrite app_nil_r. destruct (rev l) as [|c [|d r]] eqn:E; [done|done|]. by rewrite (Hr c _ eq_refl).
  - destruct (Hne ltac:(lia)) as (c & r & E). rewrite E. cbn [is_pad Ascii.eqb]. rewrite (Hr c r E).
    change (is_pad "=") with true. cbn iota. change (rev r ++ [c]) with (rev (c :: r)). by rewrite <- E, rev_involutive.
  - change (is_pad "=") with true. cbn iota. apply rev_involutive.
Qed.

Lemma filter_plain l : (forall c, In c l -> b64_ws c = false) -> List.filter (fun c => negb (b64_ws c)) l = l.
Proof. induction l as [|c l IH]; cbn; intros H; [done|]. rewrite H by auto. cbn. f_equal. auto. Qed.

(** Decoding an encoded sequence whose padding makes up whole quartets. *)
Lemma atob_sextets l k q :
  Forall is_byte l -> (length (sextets l) + k = 4 * q)%nat -> (k <= 2)%nat ->
  atob (String.string_of_list_ascii (map b64_char (sextets l) ++ repeat "="%char k)) = Some l.
Proof.
  intros H Hq Hk. pose proof (sextets_range l H) as Hs. unfold atob. rewrite String.list_ascii_of_string_of_list_ascii.
  assert (Hp : forall c, In c (map b64_char (sextets l)) -> b64_plain c = true).
  { intros c (v & <- & Hv)%in_map_iff. rewrite List.Forall_forall in Hs. by apply b64_char_plain, Hs. }
  rewrite filter_plain, (strip_pad_exact _ k q); rewrite ?length_map; try done.
  - replace (Nat.eqb (length (sextets l) mod 4) 1) with false.
    + rewrite mapM_b64 by done. cbn. by rewrite quads_sextets.
    + symmetry. apply Nat.eqb_neq. replace (length (sextets l)) with (4 * q - k)%nat by lia.
      intros E. assert (Hq' : (q > 0)%nat) by (destruct q; [replace (4 * 0 - k)%nat with 0%nat in E by lia; discriminate|lia]).
      replace (4 * q - k)%nat with ((4 - k) + (q - 1) * 4)%nat in E by lia. rewrite Nat.Div0.mod_add in E.
      destruct k as [|[|[|k]]]; [discriminate|discriminate|discriminate|lia].
  - intros c Hc. by apply b64_plain_spec, Hp.
  - intros c [Hc | Hc%repeat_spec]%in_app_iff; [by apply b64_plain_spec, Hp|by subst].
Qed.

(** [atob] inverts [btoa]. *)
Lemma atob_btoa l : Forall is_byte l -> atob (btoa l) = Some l.
Proof. intros H. destruct (sextets_length l) as (q & E & L). by apply (atob_sextets l _ q). Qed.

(** ** The class over character lists *)

Abbreviation lstr := String.string_of_list_ascii.

Lemma map_string_list f l : map_string f (lstr l) = lstr (map f l).
Proof. induction l; cbn; [done|]. by rewrite IHl. Qed.

Lemma remove_char_list a l : remove_char a (lstr l) = lstr (List.filter (fun c => negb (Ascii.eqb c a)) l).
Proof. induction l as [|c l IH]; cbn; [done|]. destruct (Ascii.eqb c a); cbn; by rewrite IH. Qed.

Lemma length_list l : String.length (lstr l) = length l.
Proof. induction l; cbn; auto. Qed.

Lemma app_list a b : lstr a +:+ lstr b = lstr (a ++ b).
Proof. induction a; cbn; [done|]. by rewrite IHa. Qed.

Lemma repeat_char_list c n : repeat_char c n = lstr (repeat c n).
Proof. induction n; cbn; [done|]. by rewrite IHn. Qed.

Lemma pad4_list l : pad4 (lstr l) = lstr (l ++ repeat "="%char (pad_count (length l) 4)).
Proof. unfold pad4. by rewrite length_list, repeat_char_list, app_list. Qed.

Lemma pad_count_4 n k q : (n + k = 4 * q)%nat -> (k < 4)%nat -> pad_count n 4 = k.
Proof.
  intros E L. unfold pad_count. pose proof (Nat.div_mod_eq n 4). pose proof (Nat.mod_upper_bound n 4 ltac:(lia)).
  destruct (decide (n mod 4 = 0)%nat) as [E0|E0].
  - rewrite E0. cbn. lia.
  - rewrite Nat.mod_small by lia. lia.
Qed.

Definition unsafe (c : ascii) : ascii := if Ascii.eqb c "-" then "+"%char else c.
Definition unsafe2 (c : ascii) : ascii := if Ascii.eqb c "_" then "/"%char else c.

(** What [decode] does to the characters before [atob]. *)
Lemma decode_list l :
  decode (lstr l) =
  option_map text_decode (atob (lstr (map unsafe2 (map unsafe l) ++ repeat "="%char (pad_count (length l) 4)))).
Proof. unfold decode, replace_char. rewrite !map_string_list, pad4_list, !length_map. done. Qed.

Lemma map_plain {A} (f : A -> A) l : (forall c, In c l -> f c = c) -> map f l = l.
Proof. induction l as [|c l IH]; cbn; intros H; [done|]. rewrite H by auto. f_equal. auto. Qed.

Lemma unsafe_plain c : b64_plain c = true \/ is_pad c = true -> unsafe2 (unsafe c) = c.
Proof. destruct c as [[] [] [] [] [] [] [] []]; intros [H|H]; first [reflexivity|discriminate H]. Qed.

Definition safe1 (c : ascii) : ascii := if Ascii.eqb c "+" then "-"%char else c.
Definition safe2 (c : ascii) : ascii := if Ascii.eqb c "/" then "_"%char else c.

Lemma unsafe_safe c : b64_plain c = true -> unsafe2 (unsafe (safe2 (safe1 c))) = c /\ is_pad (safe1 c) = false.
Proof. destruct c as [[] [] [] [] [] [] [] []]; intros H; first [split; reflexivity|discriminate H]. Qed.

(** The URL-safe encoding, as a list: the alphabet characters alone, translated. *)
Lemma encode_safe_list s :
  encode s true = lstr (map safe2 (map safe1 (map b64_char (sextets (bytes_of s))))).
Proof.
  unfold encode, btoa, replace_char. rewrite map_string_list, remove_char_list, map_string_list. f_equal.
  fold safe1 safe2. f_equal. rewrite map_app, filter_app.
  assert (Hp : forall c, In c (map b64_char (sextets (bytes_of s))) -> b64_plain c = true).
  { intros c (v & <- & Hv)%in_map_iff. pose proof (sextets_range _ (bytes_of_byte s)) as Hs.
    rewrite List.Forall_forall in Hs. by apply b64_char_plain, Hs. }
  replace (List.filter _ (map safe1 (repeat _ _))) with (@nil ascii).
  - rewrite app_nil_r. induction (map b64_char (sextets (bytes_of s))) as [|c l IH]; cbn; [done|].
    destruct (unsafe_safe c) as [_ E]; [apply Hp; by left|]. unfold is_pad in E. rewrite E. cbn. f_equal.
    apply IH. intros d Hd. apply Hp. by right.
  - induction (pad_count _ _) as [|n IH]; cbn; done.
Qed.

Lemma decode_encode_text s safe :
  utf8_valid (bytes_of s) = true -> has_bom (bytes_of s) = false -> decode (encode s safe) = Some s.
Proof.
  intros Hv Hb. pose proof (bytes_of_byte s) as H. set (l := bytes_of s) in *.
  destruct (sextets_length l) as (q & E & L).
  assert (Hp : forall c, In c (map b64_char (sextets l)) -> b64_plain c = true).
  { intros c (v & <- & Hin)%in_map_iff. pose proof (sextets_range l H) as Hs. rewrite List.Forall_forall in Hs.
    by apply b64_char_plain, Hs. }
  destruct safe.
  - rewrite encode_safe_list, decode_list. fold l. rewrite !length_map, !map_map.
    rewrite (pad_count_4 _ (pad_count (length l) 3) q) by lia.
    rewrite (map_ext_in _ b64_char) by (intros v Hin; apply unsafe_safe, Hp; by apply in_map).
    rewrite (atob_sextets l _ q) by done. cbn. f_equal. by apply text_decode_valid.
  - unfold encode, btoa. fold l. rewrite decode_list, length_app, length_map, repeat_length, E.
    rewrite (pad_count_4 (4 * q) 0 q) by lia. cbn [repeat]. rewrite app_nil_r, map_map.
    rewrite map_plain.
    + rewrite (atob_sextets l _ q) by done. cbn. f_equal. by apply text_decode_valid.
    + intros c [Hc | Hc%repeat_spec]%in_app_iff; apply unsafe_plain; [left; auto|right; by subst].
Qed.

(** Base64 round trip: for every string whose bytes are valid UTF-8 without a byte order
    mark, [decode(encode(s, safe))] is [s], for the standard and for the URL-safe variant. *)
Theorem decode_encode s safe :
  utf8_valid (bytes_of s) = true -> has_bom (bytes_of s) = false -> decode (encode s safe) = Some s.
Proof. apply decode_encode_text. Qed.

Lemma decode_encode_witness : decode (encode "vless://a?b=~" true) = Some "vless://a?b=~".
Proof. apply (decode_encode "vless://a?b=~" true); reflexivity. Defined.

(** ** WireGuard keys *)

(** Disjoint bits: [|] is [+]. *)
Lemma lor_shiftl_add a n y : 0 <= n -> 0 <= y < 2 ^ n -> Z.lor (Z.shiftl a n) y = a * 2 ^ n + y.
Proof.
  intros Hn Hy. assert (E : Z.land (Z.shiftl a n) y = 0).
  { apply Z.bits_inj'. intros i Hi. rewrite Z.land_spec, Z.bits_0. destruct (Z.ltb_spec i n).
    - by rewrite Z.shiftl_spec_low.
    - replace (Z.testbit y i) with false; [by rewrite andb_false_r|]. symmetry.
      destruct (Z.eq_dec y 0) as [->|]; [apply Z.bits_0|]. apply Z.bits_above_log2; [lia|].
      apply Z.log2_lt_pow2; [lia|]. apply Z.lt_le_trans with (2 ^ n); [lia|]. by apply Z.pow_le_mono_r; lia. }
  rewrite <- Z.lxor_lor by done. rewrite <- Z.add_nocarry_lxor by done. by rewrite Z.shiftl_mul_pow2.
Qed.

Lemma js_and_63 z : js_and z 63 = z mod 64.
Proof. exact (js_and_ones z 6 ltac:(lia)). Qed.

Lemma js_shl_small a n : 0 <= n < 24 -> 0 <= a < 256 -> a * 2 ^ n < 2 ^ 31 -> js_shl a n = Z.shiftl a n.
Proof.
  intros Hn Ha Hl. unfold js_shl. rewrite (to_int32_id a) by (unfold is_int32; lia). rewrite Z.mod_small by lia.
  rewrite to_int32_id; [done|]. rewrite Z.shiftl_mul_pow2 by lia. unfold is_int32.
  pose proof (Z.pow_pos_nonneg 2 n). nia.
Qed.

(** The second and third groups: the low bits of one byte above the high bits of the next. *)
Lemma sextet_join a b n :
  is_byte a -> is_byte b -> 0 <= n <= 6 ->
  js_and (js_or (js_shl a n) (js_shr b (8 - n))) 63 = (a * 2 ^ n + b / 2 ^ (8 - n)) mod 64.
Proof.
  unfold is_byte. intros Ha Hb Hn. rewrite js_and_63. f_equal.
  assert (Hp : 0 < 2 ^ n <= 64) by (split; [apply Z.pow_pos_nonneg; lia|change 64 with (2 ^ 6); apply Z.pow_le_mono_r; lia]).
  assert (Hq : 2 ^ n * 2 ^ (8 - n) = 256) by (rewrite <- Z.pow_add_r by lia; by replace (n + (8 - n)) with 8 by lia).
  assert (Hd : 0 <= b / 2 ^ (8 - n) < 2 ^ n).
  { split; [apply Z.div_pos; nia|]. apply Z.div_lt_upper_bound; nia. }
  rewrite js_shr_int32 by (unfold is_int32; lia). rewrite js_shl_small by nia. unfold js_or.
  rewrite !to_int32_id by (unfold is_int32; rewrite ?Z.shiftl_mul_pow2 by lia; nia). apply lor_shiftl_add; lia.
Qed.

(** One call of [encodeBase64]: the four characters of three bytes. *)
Definition quartet (a b c : Z) : list Z :=
  map (fun v => to_uint8 (b64_code v)) [a / 4; a mod 4 * 16 + b / 16; b mod 16 * 4 + c / 64; c mod 64].

Lemma encodeBase64_quartet dest off src :
  is_byte (get src 0) -> is_byte (get src 1) -> is_byte (get src 2) ->
  encodeBase64 dest off src =
  fold_left (fun dest i => upd (off + i) (get (quartet (get src 0) (get src 1) (get src 2)) i) dest) (seq 0 4) dest.
Proof.
  intros Ha Hb Hc. unfold encodeBase64, quartet.
  pose proof (sextet_join (get src 0) (get src 1) 4 Ha Hb ltac:(lia)) as E1.
  pose proof (sextet_join (get src 1) (get src 2) 2 Hb Hc ltac:(lia)) as E2.
  change (8 - 4) with 4 in E1. change (8 - 2) with 6 in E2. rewrite E1, E2, !js_and_63. unfold is_byte in *.
  rewrite js_shr_int32 by (unfold is_int32; lia). clear E1 E2.
  change (2 ^ 2) with 4. change (2 ^ 4) with 16. change (2 ^ 6) with 64.
  set (a := get src 0) in *. set (b := get src 1) in *. set (c := get src 2) in *.
  replace ((a / 4) mod 64) with (a / 4) by (Z.to_euclidean_division_equations; lia).
  replace ((a * 16 + b / 16) mod 64) with (a mod 4 * 16 + b / 16) by (Z.to_euclidean_division_equations; lia).
  replace ((b * 4 + c / 64) mod 64) with (b mod 16 * 4 + c / 64) by (Z.to_euclidean_division_equations; lia).
  reflexivity.
Qed.

Lemma get_byte l i : Forall is_byte l -> is_byte (get l i).
Proof.
  intros H. unfold get. destruct (nth_in_or_default i l 0) as [Hin | ->]; [|unfold is_byte; lia].
  rewrite List.Forall_forall in H. auto.
Qed.

(** The key encoder run on a key: the 44 groups of the key followed by a zero byte, the
    last one overwritten by the padding. *)
Lemma keyToBase64_run key :
  length key = 32%nat -> Forall is_byte key ->
  keyToBase64 key = lstr (map (fun v => char_of (to_uint8 (b64_code v))) (take 43 (sextets (key ++ [0]))) ++ ["="%char]).
Proof.
  intros Hl Hb. unfold keyToBase64, string_of. f_equal.
  assert (F : forall i, Forall is_byte (drop i key)) by (intros i; by apply list.Forall_drop).
  assert (E : forall b o i, encodeBase64 b o (drop i key) = fold_left (fun dest j => upd (o + j)
    (get (quartet (get (drop i key) 0) (get (drop i key) 1) (get (drop i key) 2)) j) dest) (seq 0 4) b).
  { intros b o i. apply encodeBase64_quartet; apply get_byte, F. }
  cbn [seq fold_left Nat.mul Nat.add]. rewrite !E. clear E F Hb.
  do 32 (destruct key as [|? key]; [discriminate|]). destruct key; [|discriminate]. reflexivity.
Qed.

Lemma sextets_key key : length key = 32%nat -> take 43 (sextets (key ++ [0])) = sextets key.
Proof.
  intros Hl. do 32 (destruct key as [|? key]; [discriminate|]). destruct key; [|discriminate].
  cbn [sextets app take]. change (0 / 64) with 0. by rewrite Z.add_0_r.
Qed.

Lemma keyToBase64_btoa key : length key = 32%nat -> Forall is_byte key -> keyToBase64 key = btoa key.
Proof.
  intros Hl Hb. rewrite keyToBase64_run, sextets_key by done. unfold btoa. rewrite Hl. f_equal. f_equal.
  apply map_ext_in. intros v Hv. apply b64_code_char. pose proof (sextets_range key Hb) as H.
  rewrite List.Forall_forall in H. auto.
Qed.

(** [keyToBase64] writes the standard base64 encoding of a 32-byte key (the four
    characters of each group without branches, the last group through the padded
    position), and [keyFromBase64] reads it back. *)
Theorem keyToBase64_standard key :
  bytes 32 key -> keyToBase64 key = btoa key /\ keyFromBase64 (keyToBase64 key) = Some key.
Proof.
  intros [Hl Hb]. rewrite keyToBase64_btoa by done. split; [done|]. by apply atob_btoa.
Qed.

Lemma keyToBase64_standard_witness : bytes 32 (repeat 255 32) /\ keyFromBase64 (keyToBase64 (repeat 255 32)) = Some (repeat 255 32).
Proof.
  assert (H : bytes 32 (repeat 255 32)) by (split; [reflexivity|repeat constructor; discriminate]).
  split; [exact H|]. exact (proj2 (keyToBase64_standard _ H)).
Defined.

Lemma le_bytes_bytes n : forall v, bytes n (le_bytes n v).
Proof.
  induction n as [|n IH]; intros v; cbn [le_bytes]; [by split|]. destruct (IH (v / 256)) as [L F].
  split; [cbn; by rewrite L|]. constructor; [apply Z.mod_pos_bound; lia|done].
Qed.

Lemma btoa_nonempty key : bytes 32 key -> (0 <? String.length (btoa key))%nat = true.
Proof.
  intros [Hl _]. unfold btoa. rewrite length_list, length_app, length_map. apply Nat.ltb_lt.
  destruct key as [|a [|b [|c key]]]; [discriminate|discriminate|discriminate|]. cbn. lia.
Qed.

(** [generateKeypair] without a secret: the private key is the base64 of the clamped
    random bytes, the public key is the base64 of X25519 of it and the base point, and
    calling it again with the returned private key gives the same pair. *)
Theorem generateKeypair_consistent random random' :
  bytes 32 random ->
  let sk := clamp random in
  let kp := {| publicKey := btoa (le_bytes 32 (x25519 (decode_scalar sk) 9)); privateKey := btoa sk |} in
  generateKeypair "" random = Some kp /\ generateKeypair (privateKey kp) random' = Some kp.
Proof.
  intros H sk kp. destruct (clamp_spec random H) as [Hs _]. fold sk in Hs.
  assert (Hp : keyToBase64 (generatePublicKey sk) = publicKey kp).
  { rewrite generatePublicKey_correct by done. by destruct (le_bytes_bytes 32 (x25519 (decode_scalar sk) 9)); apply keyToBase64_btoa. }
  unfold generateKeypair, generatePrivateKey, keyFromBase64. fold sk. split.
  - change (0 <? String.length "")%nat with false. cbn iota. rewrite Hp, keyToBase64_btoa by apply Hs. reflexivity.
  - change (privateKey kp) with (btoa sk). rewrite btoa_nonempty, atob_btoa by apply Hs. rewrite Hp. reflexivity.
Qed.

Lemma generateKeypair_consistent_witness :
  bytes 32 (repeat 0 32) /\ generateKeypair (btoa (clamp (repeat 0 32))) [] = generateKeypair "" (repeat 0 32).
Proof.
  assert (H : bytes 32 (repeat 0 32)) by (split; [reflexivity|repeat constructor; discriminate]).
  split; [exact H|]. destruct (generateKeypair_consistent (repeat 0 32) [] H) as [E1 E2]. 
  exact (eq_trans E2 (eq_sym E1)).
Defined.
