(* ===== verification/RandomUtil.v ===== *)
(** * Random identifiers and secrets

    Models the [RandomUtil] class of src/frontend/src/utils/index.ts.  The bytes and words
    of [crypto.getRandomValues] are arguments: [rnd8 n] the [n] bytes and [rnd32 n] the [n]
    32-bit words of one call. *)
From S2P Require Import Prelude JsInt Field25519 Curve25519 JsString JsValue Utf8 Base64.
From Stdlib Require Import Ascii.
Local Open Scope Z_scope.

(** ** Sequences over an alphabet *)

Record RandomSeqOptions := { hex : bool; hasNumbers : bool; hasLowercase : bool; hasUppercase : bool }.

Definition default_options : RandomSeqOptions :=
  {| hex := false; hasNumbers := true; hasLowercase := true; hasUppercase := true |}.

Definition getSeq (o : RandomSeqOptions) : string :=
  if hex o then "0123456789abcdef"
  else (if hasNumbers o then "0123456789" else "") +:+
       (if hasLowercase o then "abcdefghijklmnopqrstuvwxyz" else "") +:+
       (if hasUppercase o then "ABCDEFGHIJKLMNOPQRSTUVWXYZ" else "").

(** [seq[v % seqLength]]; an index that does not exist joins as the empty string. *)
Definition char_at (s : string) (v : Z) : string :=
  match String.get (Z.to_nat (v mod Z.of_nat (String.length s))) s with Some c => String c "" | None => "" end.

Definition randomSeq (words : list Z) (o : RandomSeqOptions) : string :=
  let seq := getSeq o in
  join "" (map (char_at seq) words).

(** [Math.floor((word / 2^32) * range) + min]: the products stay exact for ranges below [2^21]. *)
Definition randomInteger (word min max : Z) : Z :=
  let range := max - min + 1 in word * range / 2 ^ 32 + min.

(** [randomShortIds]: [lengths] is the shuffled list of lengths, [rnd32 i n] the words drawn
    for the [i]-th identifier. *)
Definition short_id_lengths : list nat := [2; 4; 6; 8; 10; 12; 14; 16]%nat.

Definition randomShortIds (lengths : list nat) (rnd32 : nat -> nat -> list Z) : string :=
  join "," (imap (fun i len => randomSeq (rnd32 i len)
              {| hex := true; hasNumbers := true; hasLowercase := true; hasUppercase := true |}) lengths).

Definition randomLowerAndNum (words : list Z) : string :=
  randomSeq words {| hex := false; hasNumbers := true; hasLowercase := true; hasUppercase := false |}.

(** ** UUIDs *)

Definition uuid_template : string := "xxxxxxxx-xxxx-4xxx-yxxx-xxxxxxxxxxxx".

(** [n.toString(16)] of a number below 16. *)
Definition hex_char (n : Z) : ascii :=
  match String.get (Z.to_nat n) "0123456789abcdef" with Some c => c | None => "0" end.

(** The replacer of one [x] or [y], given its random byte. *)
Definition uuid_char (c : ascii) (byte : Z) : ascii :=
  let randomValue := byte mod 16 in
  hex_char (if Ascii.eqb c "x" then randomValue else js_or (js_and randomValue 3) 8).

Fixpoint uuid_fill (template : string) (bytes : list Z) : string :=
  match template with
  | "" => ""
  | String c t =>
      if Ascii.eqb c "x" || Ascii.eqb c "y" then
        match bytes with
        | b :: bytes => String (uuid_char c b) (uuid_fill t bytes)
        | [] => String (uuid_char c 0) (uuid_fill t [])
        end
      else String c (uuid_fill t bytes)
  end.

(** [platform] is the result of [crypto.randomUUID()], used in secure contexts. *)
Definition randomUUID (protocol platform : string) (bytes : list Z) : string :=
  if String.eqb protocol "https:" then platform else uuid_fill uuid_template bytes.

(** ** Secrets *)

Definition key_length (method : string) : nat := if String.eqb method "2022-blake3-aes-128-gcm" then 16 else 32.

Definition randomShadowsocksPassword (method : string) (rnd8 : nat -> list Z) : string :=
  alternativeEncode (rnd8 (key_length method)).

Definition isShadowsocks2022Password (password method : string) : bool :=
  if String.eqb method "" || negb (String.eqb (str_take 4 method) "2022") then true
  else match atob password with
       | Some l => Nat.eqb (length l) (key_length method)
       | None => false
       end.

Definition randomBase64 (length : nat) (rnd8 : nat -> list Z) : string := alternativeEncode (rnd8 length).

(** ** Base32 *)

Definition base32Chars : string := "ABCDEFGHIJKLMNOPQRSTUVWXYZ234567".

Definition base32_char (v : Z) : ascii := match String.get (Z.to_nat v) base32Chars with Some c => c | None => "A" end.

(** The digit values; the inner loop runs at most twice, since fewer than 13 bits are pending. *)
Fixpoint base32_inner (fuel : nat) (buffer bits : Z) : list Z * Z :=
  match fuel with
  | O => ([], bits)
  | S fuel =>
      if 5 <=? bits then
        let bits := bits - 5 in
        let (r, bits') := base32_inner fuel buffer bits in
        (js_and (js_ushr buffer bits) 31 :: r, bits')
      else ([], bits)
  end.

Fixpoint base32_loop (array : list Z) (buffer bits : Z) : list Z :=
  match array with
  | [] => if 0 <? bits then [js_and (js_shl buffer (5 - bits)) 31] else []
  | a :: array =>
      let buffer := js_or (js_shl buffer 8) a in
      let (r, bits) := base32_inner 3 buffer (bits + 8) in
      r ++ base32_loop array buffer bits
  end.

Definition randomBase32String (length : nat) (rnd8 : nat -> list Z) : string :=
  String.string_of_list_ascii (map base32_char (base32_loop (rnd8 length) 0 0)).

(** ** Passwords are accepted *)

(** A generated Shadowsocks password is always accepted by the validator of the same
    method, whatever the method and the random bytes. *)
Theorem randomShadowsocksPassword_accepted method rnd8 :
  (forall n, bytes n (rnd8 n)) ->
  isShadowsocks2022Password (randomShadowsocksPassword method rnd8) method = true.
Proof.
  intros H. unfold isShadowsocks2022Password. case_match; [done|].
  unfold randomShadowsocksPassword, alternativeEncode. destruct (H (key_length method)) as [L F].
  rewrite atob_btoa by done. by rewrite L, Nat.eqb_refl.
Qed.

Lemma bytes_repeat n : bytes n (repeat 7 n).
Proof. split; [apply repeat_length|]. apply List.Forall_forall. intros x ->%repeat_spec. lia. Qed.

Lemma randomShadowsocksPassword_accepted_witness :
  (forall n, bytes n (repeat 7 n)) /\
  isShadowsocks2022Password (randomShadowsocksPassword "2022-blake3-aes-128-gcm" (repeat 7)) "2022-blake3-aes-128-gcm" = true.
Proof. split; [exact bytes_repeat|]. exact (randomShadowsocksPassword_accepted _ _ bytes_repeat). Defined.

(** ** Base32 is the standard encoding *)

(** Big-endian value in base [b]. *)
Definition be (b : Z) (l : list Z) : Z := fold_left (fun acc d => acc * b + d) l 0.

Lemma be_app b l1 l2 : be b (l1 ++ l2) = be b l1 * b ^ Z.of_nat (length l2) + be b l2.
Proof.
  unfold be. rewrite fold_left_app. generalize (fold_left (fun acc d => acc * b + d) l1 0). clear l1.
  assert (G : forall l x y, fold_left (fun acc d => acc * b + d) l (x + y) =
                            x * b ^ Z.of_nat (length l) + fold_left (fun acc d => acc * b + d) l y).
  { induction l as [|d l IH]; intros x y; cbn [fold_left length]; [cbn; lia|].
    replace ((x + y) * b + d) with (x * b + (y * b + d)) by lia. rewrite IH, Nat2Z.inj_succ, Z.pow_succ_r by lia. lia. }
  intros z. rewrite <- (Z.add_0_r z) at 1. apply G.
Qed.

Lemma js_or_byte buffer a :
  is_byte a -> exists k, js_or (js_shl buffer 8) a = buffer * 256 + a + k * 2 ^ 32.
Proof.
  unfold is_byte. intros Ha. unfold js_or, js_shl. change (8 mod 32) with 8.
  rewrite (to_int32_id (to_int32 _)) by apply to_int32_range. rewrite (to_int32_id a) by (unfold is_int32; lia).
  set (x := to_int32 (Z.shiftl (to_int32 buffer) 8)).
  assert (M : exists m, x = Z.shiftl m 8 /\ exists k, m = buffer + k * 2 ^ 24).
  { subst x. unfold to_int32. rewrite Z.shiftl_mul_pow2 by lia. change (2 ^ 8) with 256.
    exists (((buffer + 2 ^ 31) mod 2 ^ 32 - 2 ^ 31 + 2 ^ 23) mod 2 ^ 24 - 2 ^ 23).
    rewrite Z.shiftl_mul_pow2 by lia. change (2 ^ 8) with 256. split.
    - Z.to_euclidean_division_equations. lia.
    - exists (((2 ^ 23 - 2 ^ 31 + (buffer + 2 ^ 31) mod 2 ^ 32 - buffer) - ((buffer + 2 ^ 31) mod 2 ^ 32 - 2 ^ 31 + 2 ^ 23) / 2 ^ 24 * 2 ^ 24 - 2 ^ 23) / 2 ^ 24).
      Z.to_euclidean_division_equations. lia. }
  destruct M as (m & -> & k & ->). exists k. rewrite lor_shiftl_add by lia. lia.
Qed.

Lemma js_and_31 z : js_and z 31 = z mod 32.
Proof. exact (js_and_ones z 5 ltac:(lia)). Qed.

(** [buffer] holds the low 32 bits of [N]. *)
Definition low32 (buffer N : Z) : Prop := exists k, buffer = N + k * 2 ^ 32.

Lemma low32_step buffer N a : low32 buffer N -> is_byte a -> low32 (js_or (js_shl buffer 8) a) (N * 256 + a).
Proof. intros [k ->] Ha. destruct (js_or_byte (N + k * 2 ^ 32) a Ha) as [j ->]. exists (k * 256 + j). lia. Qed.

Lemma digit_ushr buffer N n : low32 buffer N -> 0 <= n <= 27 -> js_and (js_ushr buffer n) 31 = N / 2 ^ n mod 32.
Proof.
  intros [k ->] Hn. rewrite js_and_31. unfold js_ushr, to_uint32. rewrite (Z.mod_small n) by lia.
  rewrite Z.shiftr_div_pow2 by lia. rewrite Z.mod_add by lia. change 32 with (2 ^ 5) at 2 3.
  rewrite <- !Z.land_ones, <- !Z.shiftr_div_pow2 by lia. apply Z.bits_inj'. intros i Hi.
  rewrite !Z.land_spec, !Z.shiftr_spec, Z.land_spec by lia. rewrite !Z.testbit_ones_nonneg by lia.
  destruct (Z.ltb_spec i 5); [|by rewrite !andb_false_r]. rewrite (proj2 (Z.ltb_lt (i + n) 32)) by lia.
  by rewrite !andb_true_r.
Qed.

Lemma digit_shl buffer N n : low32 buffer N -> 0 <= n <= 5 -> js_and (js_shl buffer n) 31 = N * 2 ^ n mod 32.
Proof.
  intros [k ->] Hn. rewrite js_and_31. unfold js_shl. rewrite (Z.mod_small n) by lia.
  assert (G : forall z, to_int32 z mod 32 = z mod 32) by exact (fun z => to_int32_mod z 5 ltac:(lia)).
  rewrite G, Z.shiftl_mul_pow2 by lia. clear G. unfold to_int32. set (q := (N + k * 2 ^ 32 + 2 ^ 31) / 2 ^ 32).
  replace ((N + k * 2 ^ 32 + 2 ^ 31) mod 2 ^ 32 - 2 ^ 31) with (N + (k - q) * 2 ^ 27 * 32).
  - rewrite Z.mul_add_distr_r. replace ((k - q) * 2 ^ 27 * 32 * 2 ^ n) with ((k - q) * 2 ^ 27 * 2 ^ n * 32) by lia.
    by rewrite Z.mod_add by lia.
  - subst q. pose proof (Z.div_mod (N + k * 2 ^ 32 + 2 ^ 31) (2 ^ 32) ltac:(lia)). lia.
Qed.

(** The inner loop emits the pending bits five at a time. *)
Lemma base32_inner_spec fuel : forall buffer N bits,
  low32 buffer N -> 0 <= bits <= 27 -> bits < 5 * Z.of_nat fuel + 5 ->
  let (r, bits') := base32_inner fuel buffer bits in
  0 <= bits' < 5 /\ bits = bits' + 5 * Z.of_nat (length r) /\
  be 32 r = N / 2 ^ bits' mod 2 ^ (5 * Z.of_nat (length r)) /\ Forall (fun d => 0 <= d < 32) r.
Proof.
  induction fuel as [|fuel IH]; intros buffer N bits Hb Hr Hf; cbn [base32_inner].
  - cbn. rewrite Z.mod_1_r. repeat split; (lia || constructor).
  - destruct (Z.leb_spec 5 bits); [|cbn; rewrite Z.mod_1_r; repeat split; (lia || constructor)].
    specialize (IH buffer N (bits - 5) Hb ltac:(lia) ltac:(lia)).
    destruct (base32_inner fuel buffer (bits - 5)) as [r bits']. destruct IH as (H1 & H2 & H3 & H4).
    cbn [length]. rewrite Nat2Z.inj_succ. split; [done|]. split; [lia|]. rewrite (digit_ushr buffer N) by (done || lia).
    split; [|constructor; [apply Z.mod_pos_bound; lia|done]].
    change (?d :: r) with ([d] ++ r). rewrite be_app, H3. unfold be at 1. cbn [fold_left]. rewrite Z.mul_0_l, Z.add_0_l.
    replace (bits - 5) with (bits' + 5 * Z.of_nat (length r)) by lia.
    set (n := Z.of_nat (length r)). rewrite Z.pow_add_r, <- Z.div_div by lia || (apply Z.pow_nonzero; lia).
    set (M := N / 2 ^ bits'). change 32 with (2 ^ 5). rewrite <- Z.pow_mul_r by lia.
    replace (5 * Z.succ n) with (5 * n + 5) by lia. rewrite Z.pow_add_r by lia.
    rewrite Z.rem_mul_r by (apply Z.pow_nonzero || apply Z.pow_pos_nonneg; lia). lia.
Qed.

(** The whole loop: a base-32 numeral of the pending bits and the bytes, filled with zero
    bits to a whole number of digits. *)
Lemma base32_loop_spec array : forall buffer N bits,
  low32 buffer N -> 0 <= bits < 5 -> Forall is_byte array ->
  let R := base32_loop array buffer bits in
  exists e, 0 <= e < 5 /\ 5 * Z.of_nat (length R) = bits + 8 * Z.of_nat (length array) + e /\
    be 32 R = (N mod 2 ^ bits * 256 ^ Z.of_nat (length array) + be 256 array) * 2 ^ e /\
    Forall (fun d => 0 <= d < 32) R.
Proof.
  induction array as [|a array IH]; intros buffer N bits Hb Hr Ha; cbn [base32_loop].
  - destruct (Z.ltb_spec 0 bits).
    + exists (5 - bits). cbn [length]. rewrite (digit_shl buffer N) by (done || lia).
      split; [lia|]. split; [lia|]. split; [|constructor; [apply Z.mod_pos_bound; lia|constructor]].
      unfold be. cbn [fold_left]. rewrite Z.mul_0_l, Z.add_0_l, Z.mul_1_r, Z.add_0_r.
      replace 32 with (2 ^ bits * 2 ^ (5 - bits)) by (rewrite <- Z.pow_add_r by lia; by replace (bits + (5 - bits)) with 5 by lia).
      by rewrite Z.mul_mod_distr_r by (apply Z.pow_nonzero; lia).
    + replace bits with 0 by lia. exists 0. cbn. rewrite Z.mod_1_r. repeat split; (lia || constructor).
  - apply List.Forall_cons_iff in Ha as [Ha Hrest].
    pose proof (low32_step buffer N a Hb Ha) as Hb'. unfold is_byte in Ha.
    pose proof (base32_inner_spec 3 _ _ (bits + 8) Hb' ltac:(lia) ltac:(lia)) as I.
    destruct (base32_inner 3 _ (bits + 8)) as [r bits']. destruct I as (I1 & I2 & I3 & I4).
    destruct (IH _ _ bits' Hb' I1 Hrest) as (e & E1 & E2 & E3 & E4).
    exists e. rewrite length_app. cbn [length]. rewrite Nat2Z.inj_add, Nat2Z.inj_succ. split; [done|]. split; [lia|].
    split; [|by apply List.Forall_app].
    rewrite be_app, E3, I3. set (R' := base32_loop array _ bits') in *. set (k := Z.of_nat (length r)) in *.
    set (n := Z.of_nat (length array)) in *. set (m := Z.of_nat (length R')) in *.
    change (a :: array) with ([a] ++ array). rewrite be_app. fold n. unfold be at 2. cbn [fold_left].
    rewrite Z.mul_0_l, Z.add_0_l.
    set (N' := N * 256 + a) in *.
    assert (V : N mod 2 ^ bits * 256 + a = (N' / 2 ^ bits' mod 2 ^ (5 * k)) * 2 ^ bits' + N' mod 2 ^ bits').
    { transitivity (N' mod 2 ^ (bits + 8)).
      - subst N'. rewrite Z.pow_add_r by lia. change (2 ^ 8) with 256. rewrite (Z.mul_comm (2 ^ bits)).
        rewrite Z.rem_mul_r by (lia || (apply Z.pow_pos_nonneg; lia)).
        replace ((N * 256 + a) mod 256) with a by (rewrite Z.add_comm, Z.mod_add by lia; rewrite Z.mod_small; lia).
        replace ((N * 256 + a) / 256) with N by (rewrite Z.add_comm, Z.div_add by lia; rewrite Z.div_small; lia). lia.
      - rewrite I2, Z.pow_add_r by lia. rewrite Z.rem_mul_r by (apply Z.pow_nonzero || apply Z.pow_pos_nonneg; lia). lia. }
    assert (P : 32 ^ m = 2 ^ bits' * 256 ^ n * 2 ^ e).
    { change 32 with (2 ^ 5). change 256 with (2 ^ 8). rewrite <- !Z.pow_mul_r, <- !Z.pow_add_r by lia. f_equal. lia. }
    rewrite P, Z.pow_succ_r by lia. set (D := N' / 2 ^ bits' mod 2 ^ (5 * k)) in *.
    replace (N mod 2 ^ bits * (256 * 256 ^ n) + (a * 256 ^ n + be 256 array)) with
      ((N mod 2 ^ bits * 256 + a) * 256 ^ n + be 256 array) by lia.
    rewrite V. lia.
Qed.

(** [randomBase32String] writes the RFC 4648 base32 numeral (without padding) of the
    random bytes: its digits are the bytes' bits, five at a time, most significant first,
    filled with at most four zero bits -- although the bit buffer is a 32-bit integer that
    overflows after four bytes. *)
Theorem randomBase32String_standard n rnd8 :
  bytes n (rnd8 n) ->
  exists digits e, randomBase32String n rnd8 = String.string_of_list_ascii (map base32_char digits) /\
    Forall (fun d => 0 <= d < 32) digits /\ 0 <= e < 5 /\
    5 * Z.of_nat (length digits) = 8 * Z.of_nat n + e /\ be 32 digits = be 256 (rnd8 n) * 2 ^ e.
Proof.
  intros [L F]. destruct (base32_loop_spec (rnd8 n) 0 0 0) as (e & E1 & E2 & E3 & E4); [by exists 0|lia|done|].
  exists (base32_loop (rnd8 n) 0 0), e. split; [done|]. split; [done|]. split; [done|]. rewrite L in E2, E3.
  split; [lia|]. rewrite E3. change (0 mod 2 ^ 0) with 0. by rewrite Z.mul_0_l, Z.add_0_l.
Qed.

Lemma randomBase32String_standard_witness :
  bytes 16 (repeat 7 16) /\ exists digits e,
    randomBase32String 16 (repeat 7) = String.string_of_list_ascii (map base32_char digits) /\
    Forall (fun d => 0 <= d < 32) digits /\ 0 <= e < 5 /\
    5 * Z.of_nat (length digits) = 8 * Z.of_nat 16 + e /\ be 32 digits = be 256 (repeat 7 16) * 2 ^ e.
Proof. split; [exact (bytes_repeat 16)|]. exact (randomBase32String_standard 16 (repeat 7) (bytes_repeat 16)). Defined.

(** ** UUIDs have the version-4 form *)

Definition is_hex (c : ascii) : bool := str_includes "0123456789abcdef" (String c "").
Definition is_variant (c : ascii) : bool := str_includes "89ab" (String c "").

(** [s] is an instance of the template. *)
Fixpoint uuid_matches (template s : string) : bool :=
  match template, s with
  | "", "" => true
  | String t template, String c s =>
      (if Ascii.eqb t "x" then is_hex c else if Ascii.eqb t "y" then is_variant c else Ascii.eqb t c) &&
      uuid_matches template s
  | _, _ => false
  end.

Lemma uuid_char_x b : is_hex (uuid_char "x" b) = true.
Proof.
  assert (H : 0 <= b mod 16 < 64) by (pose proof (Z.mod_pos_bound b 16); lia).
  unfold uuid_char. cbn [Ascii.eqb Bool.eqb]. revert H. generalize (b mod 16). apply sextet_cases. reflexivity.
Qed.

Lemma uuid_char_y b : is_variant (uuid_char "y" b) = true.
Proof.
  assert (H : 0 <= b mod 16 < 64) by (pose proof (Z.mod_pos_bound b 16); lia).
  unfold uuid_char. change (Ascii.eqb "y" "x") with false. cbn iota. revert H. generalize (b mod 16). apply sextet_cases. reflexivity.
Qed.

Lemma uuid_fill_matches template : forall bytes, uuid_matches template (uuid_fill template bytes) = true.
Proof.
  induction template as [|t template IH]; intros bytes; cbn [uuid_fill]; [done|].
  destruct (Ascii.eqb_spec t "x") as [->|Hx]; cbn [orb].
  { destruct bytes as [|b bytes]; cbn [uuid_matches]; rewrite IH; change (Ascii.eqb "x" "x") with true; cbn iota;
      by rewrite uuid_char_x. }
  destruct (Ascii.eqb_spec t "y") as [->|Hy].
  { destruct bytes as [|b bytes]; cbn [uuid_matches]; rewrite IH; change (Ascii.eqb "y" "x") with false;
      change (Ascii.eqb "y" "y") with true; cbn iota; by rewrite uuid_char_y. }
  cbn [uuid_matches]. rewrite (proj2 (Ascii.eqb_neq t "x") Hx), (proj2 (Ascii.eqb_neq t "y") Hy), Ascii.eqb_refl. apply IH.
Qed.

(** Outside secure contexts [randomUUID] still produces a version-4 UUID: the dashes, the
    version digit 4 and a variant digit 8, 9, a or b in place, hexadecimal digits elsewhere. *)
Theorem randomUUID_v4 protocol platform bytes :
  protocol <> "https:" -> uuid_matches uuid_template (randomUUID protocol platform bytes) = true.
Proof.
  intros H. unfold randomUUID. rewrite (proj2 (String.eqb_neq protocol "https:") H). apply uuid_fill_matches.
Qed.

Lemma randomUUID_v4_witness : uuid_matches uuid_template (randomUUID "http:" "" [171; 205; 18]) = true.
Proof. apply (randomUUID_v4 "http:" "" [171; 205; 18]). discriminate. Defined.
