(* ===== verification/ObjectUtil.v ===== *)
(** * Object helpers

    Models the [ObjectUtil] class of src/frontend/src/utils/index.ts over the value model:
    the case-insensitive lookup, the deep search behind the tables' filter box, the copy
    helpers and the shallow comparison. *)
From S2P Require Import Prelude JsString JsValue JsObject.
Local Open Scope Z_scope.

(** [String(v)] of a primitive. *)
Definition js_string (v : jsval) : string :=
  match v with
  | VUndef => "undefined"
  | VNull => "null"
  | VBool b => if b then "true" else "false"
  | VNum n => string_of_num n
  | VStr s => s
  | VArr _ | VObj _ => ""
  end.

Definition isEmpty (v : jsval) : bool :=
  match v with VUndef | VNull => true | VStr s => String.eqb s "" | _ => false end.

Definition isArrEmpty (v : jsval) : bool := match v with VArr (_ :: _) => false | _ => true end.

Fixpoint getPropIgnoreCase (o : obj) (prop : string) : jsval :=
  match o with
  | [] => VUndef
  | (name, v) :: o => if String.eqb (to_lower name) (to_lower prop) then v else getPropIgnoreCase o prop
  end.

Fixpoint deepSearch (v : jsval) (key : string) : bool :=
  match v with
  | VArr l => existsb (fun x => deepSearch x key) l
  | VObj o => existsb (fun '(_, x) => deepSearch x key) o
  | _ => if isEmpty v then false else str_includes (to_lower (js_string v)) (to_lower key)
  end.

(** [dest.splice(0)] and one [push] per item. *)
Definition copyArr (dest src : list jsval) : list jsval := fold_left (fun d item => d ++ [item]) src [].

Definition clone (v : jsval) : jsval :=
  match v with
  | VArr l => VArr (copyArr [] l)
  | VObj o => VObj (fold_left (fun d '(k, x) => obj_set d k x) o [])
  | _ => v
  end.

Fixpoint deepClone (v : jsval) : jsval :=
  match v with
  | VArr l => VArr (map deepClone l)
  | VObj o => VObj ((fix go (d o : obj) : obj :=
                       match o with [] => d | (k, x) :: o => go (obj_set d k (deepClone x)) o end) [] o)
  | _ => v
  end.

(** One iteration of the loop of [cloneProps]. *)
Definition cloneProps_step (ignoreProps : list string) (src d : obj) (key : string) : obj :=
  if negb (obj_has d key) then d
  else if is_undef (obj_get src key) then d
  else if existsb (String.eqb key) ignoreProps then d
  else obj_set d key (obj_get src key).

Definition cloneProps (dest src : obj) (ignoreProps : list string) : obj :=
  fold_left (cloneProps_step ignoreProps src) (obj_keys src) dest.

Definition delProps (o : obj) (props : list string) : obj :=
  fold_left (fun o prop => if obj_has o prop then obj_del o prop else o) props o.

Definition orDefault (v d : jsval) : jsval := or_nullish v d.

Section Equals.
(** Whether two array or object values are the same reference. *)
Variable same_ref : jsval -> jsval -> bool.

(** [a === b] *)
Definition strict_eq (a b : jsval) : bool :=
  match a, b with
  | VUndef, VUndef | VNull, VNull => true
  | VBool x, VBool y => Bool.eqb x y
  | VNum x, VNum y => num_eqb x y
  | VStr x, VStr y => String.eqb x y
  | (VArr _ | VObj _), (VArr _ | VObj _) => same_ref a b
  | _, _ => false
  end.

(** The own enumerable entries; those of an array are its indices. *)
Definition entries (v : jsval) : obj :=
  match v with
  | VObj o => o
  | VArr l => imap (fun i x => (string_of_Z (Z.of_nat i), x)) l
  | _ => []
  end.

Definition equals (a b : jsval) : bool :=
  if is_nullish a || is_nullish b || negb (is_object_type a) || negb (is_object_type b) then strict_eq a b
  else
    let ra := entries a in
    let rb := entries b in
    Nat.eqb (length (obj_keys ra)) (length (obj_keys rb)) &&
    forallb (fun key => obj_has rb key && strict_eq (obj_get ra key) (obj_get rb key)) (obj_keys ra).
End Equals.

(** ** Deep search *)

(** [x] is a primitive reached from [v] through elements and property values. *)
Inductive leaf_of : jsval -> jsval -> Prop :=
| leaf_here v : is_object_type v = false \/ v = VNull -> leaf_of v v
| leaf_arr x v l : In v l -> leaf_of x v -> leaf_of x (VArr l)
| leaf_obj x k v o : In (k, v) o -> leaf_of x v -> leaf_of x (VObj o).

Definition leaf_hit (key : string) (x : jsval) : Prop :=
  isEmpty x = false /\ str_includes (to_lower (js_string x)) (to_lower key) = true.

(** [deepSearch] finds a key exactly when some non-empty primitive somewhere inside the
    value contains it, compared without regard to case. *)
Theorem deepSearch_iff v key :
  deepSearch v key = true <-> exists x, leaf_of x v /\ leaf_hit key x.
Proof.
  assert (Leaf : forall v, (is_object_type v = false \/ v = VNull) ->
    ((if isEmpty v then false else str_includes (to_lower (js_string v)) (to_lower key)) = true <->
     exists x, leaf_of x v /\ leaf_hit key x)).
  { intros w Hw. unfold leaf_hit. split.
    - destruct (isEmpty w) eqn:E; [done|]. intros H. exists w. split; [by constructor|done].
    - intros (x & Hx & E & H). destruct Hx; [by rewrite E|destruct Hw; discriminate|destruct Hw; discriminate]. }
  induction v as [| | | | |l IH|o IH] using jsval_ind; try (apply Leaf; auto).
  - cbn [deepSearch]. rewrite existsb_exists. rewrite List.Forall_forall in IH. split.
    + intros (x & Hx & H). apply IH in H as (y & Hy & Hk); [|done]. exists y. split; [by econstructor|done].
    + intros (y & Hy & Hk). inversion Hy as [? [|]| |]; subst; try done. exists v. split; [done|]. apply IH; eauto.
  - cbn [deepSearch]. rewrite existsb_exists. rewrite List.Forall_forall in IH. split.
    + intros ([k x] & Hx & H). apply (IH (k, x)) in H as (y & Hy & Hk); [|done]. exists y. split; [by econstructor|done].
    + intros (y & Hy & Hk). inversion Hy as [? [|]| |]; subst; try done. exists (k, v). split; [done|]. apply (IH (k, v)); eauto.
Qed.

(** ** Copying *)

Lemma cloneProps_step_keys ig src d key : obj_keys (cloneProps_step ig src d key) = obj_keys d.
Proof.
  unfold cloneProps_step. destruct (obj_has d key) eqn:E; cbn [negb]; [|done].
  repeat case_match; try done. by rewrite obj_keys_set.
Qed.

Lemma cloneProps_step_has ig src d key k : obj_has (cloneProps_step ig src d key) k = obj_has d k.
Proof.
  apply eq_true_iff_eq. rewrite !obj_has_keys. by rewrite cloneProps_step_keys.
Qed.

(** What a copied property holds. *)
Definition copied (ig : list string) (src d : obj) (k : string) : jsval :=
  if obj_has d k && negb (is_undef (obj_get src k)) && negb (existsb (String.eqb k) ig) then obj_get src k
  else obj_get d k.

Lemma cloneProps_step_get ig src d key k :
  obj_get (cloneProps_step ig src d key) k = if String.eqb k key then copied ig src d k else obj_get d k.
Proof.
  unfold cloneProps_step, copied. destruct (String.eqb_spec k key) as [<-|Hne].
  - destruct (obj_has d k); cbn; [|done]. destruct (is_undef (obj_get src k)); cbn; [done|].
    destruct (existsb _ ig); cbn; [done|]. apply obj_get_set_eq.
  - repeat case_match; try done. by rewrite obj_get_set_ne by congruence.
Qed.

Lemma cloneProps_fold ig src keys : forall d,
  let d' := fold_left (cloneProps_step ig src) keys d in
  obj_keys d' = obj_keys d /\
  forall k, obj_get d' k = if existsb (String.eqb k) keys then copied ig src d k else obj_get d k.
Proof.
  induction keys as [|key keys IH]; intros d; cbn [fold_left existsb]; [done|].
  destruct (IH (cloneProps_step ig src d key)) as [K G]. split; [by rewrite K, cloneProps_step_keys|].
  intros k. rewrite G, cloneProps_step_get. unfold copied. rewrite cloneProps_step_has, cloneProps_step_get.
  unfold copied. destruct (String.eqb k key), (existsb _ keys), (obj_has d k && _ && _); done.
Qed.

(** [cloneProps] copies exactly the properties that exist on both sides, are defined in
    the source and are not ignored: the destination keeps its own keys in order, and every
    other property keeps its value. *)
Theorem cloneProps_spec dest src ignoreProps :
  let d' := cloneProps dest src ignoreProps in
  obj_keys d' = obj_keys dest /\
  forall k, obj_get d' k =
    if obj_has dest k && negb (is_undef (obj_get src k)) && negb (existsb (String.eqb k) ignoreProps)
    then obj_get src k else obj_get dest k.
Proof.
  destruct (cloneProps_fold ignoreProps src (obj_keys src) dest) as [K G]. split; [done|].
  intros k. unfold cloneProps. rewrite G. fold (copied ignoreProps src dest k).
  destruct (existsb (String.eqb k) (obj_keys src)) eqn:E; [done|]. unfold copied.
  rewrite (obj_has_get src k); [by rewrite andb_false_r|].
  apply not_true_iff_false. rewrite obj_has_keys. intros Hin. apply not_true_iff_false in E. apply E.
  apply existsb_exists. exists k. by rewrite String.eqb_refl.
Qed.

(** ** Shallow comparison *)

Lemma forallb_keys (o : obj) (P : string -> bool) :
  forallb P (obj_keys o) = true <-> forall k, obj_has o k = true -> P k = true.
Proof. rewrite forallb_forall. by setoid_rewrite obj_has_keys. Qed.

(** Two records are [equals] exactly when they have the same keys with identical values. *)
Lemma equals_records same_ref a b :
  obj_wf a -> obj_wf b ->
  equals same_ref (VObj a) (VObj b) = true <->
  (forall k, obj_has a k = obj_has b k) /\
  (forall k, obj_has a k = true -> strict_eq same_ref (obj_get a k) (obj_get b k) = true).
Proof.
  intros Ha Hb. unfold equals. cbn [is_nullish is_object_type negb orb entries].
  rewrite andb_true_iff, Nat.eqb_eq, forallb_keys. setoid_rewrite andb_true_iff. split.
  - intros [L H]. split; [|naive_solver]. intros k. apply eq_true_iff_eq. split; [naive_solver|].
    rewrite !obj_has_keys. apply (NoDup_length_incl (l := obj_keys a) (l' := obj_keys b)).
    + apply NoDup_ListNoDup. exact Ha.
    + rewrite L. done.
    + intros j Hj. apply obj_has_keys. apply obj_has_keys in Hj. naive_solver.
  - intros [K H]. split.
    + assert (P : Permutation (obj_keys a) (obj_keys b)).
      { apply NoDup_Permutation; [exact Ha|exact Hb|]. intros k. rewrite !list_elem_of_In, <- !obj_has_keys. by rewrite K. }
      by rewrite P.
    + intros k Hk. split; [by rewrite <- K|auto].
Qed.

(** ** Clones are equal to their originals *)

Lemma fold_set_app (f : jsval -> jsval) o : forall d,
  (forall k v, In (k, v) o -> f v = v) -> obj_wf (d ++ o) ->
  (fix go (d o : obj) : obj := match o with [] => d | (k, x) :: o => go (obj_set d k (f x)) o end) d o = d ++ o.
Proof.
  induction o as [|[k x] o IH]; intros d Hf Hw; [by rewrite app_nil_r|]. rewrite (Hf k x) by by left.
  rewrite obj_set_new, IH; rewrite <- ?app_assoc; try done.
  - intros j v Hin. apply (Hf j). by right.
  - apply not_true_iff_false. rewrite obj_has_keys. unfold obj_wf, obj_keys in *. rewrite map_app in Hw. cbn in Hw.
    apply list.NoDup_app in Hw as (_ & H & _). intros Hin. apply (H k); [by apply list_elem_of_In|left].
Qed.

Lemma deepClone_id v : vwf v -> deepClone v = v.
Proof.
  induction v as [| | | | |l IH|o IH] using jsval_ind; try done; intros H; cbn [deepClone]; f_equal.
  - revert H. induction IH as [|x l Hx _ IHl]; cbn; [done|]. intros [H1 H2]. f_equal; auto.
  - destruct H as [Hw H]. apply (fold_set_app deepClone o []); [|done]. intros k v Hin.
    rewrite List.Forall_forall in IH. apply (IH (k, v) Hin). by apply (vwf_In o k v).
Qed.
