(* ===== verification/Formatters.v ===== *)
(** * Formatters and colour rules

    Models [SizeFormatter], [CPUFormatter], [TimeFormatter], [NumberFormatter] and
    [ColorUtils] of src/frontend/src/utils/index.ts.  Numbers are exact decimals
    ([num]); the quotients printed with [toFixed] are exact rationals (in the code they are
    divisions by powers of two, exact in double precision for integer sizes). *)
From S2P Require Import Prelude JsString JsValue.
Local Open Scope Z_scope.

(** ** [toFixed] *)

(** [x.toFixed(f)] of [x = p / q >= 0] ([q > 0]): the integer [n] with [n / 10^f] nearest to
    [x], the larger one on a tie. *)
Definition fixed_of (p q : Z) (f : nat) : Z := (2 * p * 10 ^ Z.of_nat f + q) / (2 * q).

Definition fixed_string (n : Z) (f : nat) : string :=
  match f with
  | O => digits n
  | _ => digits (n / 10 ^ Z.of_nat f) +:+ "." +:+
           (let r := digits (n mod 10 ^ Z.of_nat f) in
            let missing := (f - String.length r)%nat in
            Nat.iter missing (fun s => "0" +:+ s) r)
  end.

Definition toFixed (p q : Z) (f : nat) : string := fixed_string (fixed_of p q f) f.

(** ** Sizes *)

Definition ONE_KB : Z := 1024.
Definition ONE_MB : Z := ONE_KB * 1024.
Definition ONE_GB : Z := ONE_MB * 1024.
Definition ONE_TB : Z := ONE_GB * 1024.
Definition ONE_PB : Z := ONE_TB * 1024.

(** [size]: [None] for null and undefined. *)
Definition sizeFormat (size : option num) : string :=
  match size with
  | Some (NFin m e) =>
      let q := 10 ^ Z.of_nat e in
      if m <=? 0 then "0 B"
      else if m <? ONE_KB * q then toFixed m q 0 +:+ " B"
      else if m <? ONE_MB * q then toFixed m (q * ONE_KB) 2 +:+ " KB"
      else if m <? ONE_GB * q then toFixed m (q * ONE_MB) 2 +:+ " MB"
      else if m <? ONE_TB * q then toFixed m (q * ONE_GB) 2 +:+ " GB"
      else if m <? ONE_PB * q then toFixed m (q * ONE_TB) 2 +:+ " TB"
      else toFixed m (q * ONE_PB) 2 +:+ " PB"
  | _ => "0 B"
  end.

Definition speedFormat (bps : option num) : string := sizeFormat bps +:+ "/s".

(** ** CPU and time *)

(** Speeds in whole MHz, as the panel reports them. *)
Definition cpuSpeedFormat (speed : Z) : string :=
  if 1000 <? speed then toFixed speed 1000 2 +:+ " GHz" else toFixed speed 1 2 +:+ " MHz".

Definition cpuCoreFormat (cores : Z) : string :=
  if cores =? 1 then "1 Core" else string_of_Z cores +:+ " Cores".

(** Uptimes are whole non-negative seconds. *)
Definition formatSecond (second : Z) : string :=
  if second <? 60 then toFixed second 1 0 +:+ "s"
  else if second <? 3600 then toFixed second 60 0 +:+ "m"
  else if second <? 3600 * 24 then toFixed second 3600 0 +:+ "h"
  else
    let day := second / 3600 / 24 in
    let remain := fixed_of (second - day * 24 * 3600) 3600 0 in
    string_of_Z day +:+ "d" +:+ (if 0 <? remain then " " +:+ string_of_Z remain +:+ "h" else "").

Definition addZero (num : Z) : string := if num <? 10 then "0" +:+ string_of_Z num else string_of_Z num.

(** ** Colours *)

Inductive UsageColor := purple | green | orange | red.

Definition usageColor (data : option Z) (threshold : Z) (total : option Z) : UsageColor :=
  let t := default 0 total in
  match data with
  | None => purple
  | Some d =>
      if t <? 0 then green
      else if t =? 0 then purple
      else if d <? t - threshold then green
      else if d <? t then orange
      else red
  end.

Definition COLOR_success : string := "#389e0a".
Definition COLOR_warning : string := "#faad14".
Definition COLOR_danger : string := "#ff4d4f".
Definition COLOR_purple : string := "#722ed1".

Record ClientUsageStats := { cu_total : Z; cu_up : Z; cu_down : Z }.

Definition clientUsageColor (clientStats : option ClientUsageStats) (trafficDiff : Z) : string :=
  match clientStats with
  | None => COLOR_purple
  | Some c =>
      if cu_total c =? 0 then COLOR_purple
      else if cu_up c + cu_down c <? cu_total c - trafficDiff then COLOR_success
      else if cu_up c + cu_down c <? cu_total c then COLOR_warning
      else COLOR_danger
  end.

Record ExpiryClient := { ec_enable : bool; ec_expiryTime : option Z }.

(** [now] is the current time in milliseconds. *)
Definition userExpiryColor (now threshold : Z) (client : ExpiryClient) (isDark : bool) : string :=
  if negb (ec_enable client) then (if isDark then "#2c3950" else "#bcbcbc")
  else match ec_expiryTime client with
       | None => COLOR_purple
       | Some expiry =>
           if expiry <? 0 then COLOR_success
           else if expiry =? 0 then COLOR_purple
           else if now <? expiry - threshold then COLOR_success
           else if now <? expiry then COLOR_warning
           else COLOR_danger
       end.

(** ** Accuracy of the printed size *)

Lemma fixed_of_close p q f :
  0 < q -> 0 <= p -> let n := fixed_of p q f in
  2 * Z.abs (n * q - p * 10 ^ Z.of_nat f) <= q /\ 0 <= n.
Proof.
  intros Hq Hp n. subst n. unfold fixed_of. set (t := 10 ^ Z.of_nat f).
  assert (0 < t) by (apply Z.pow_pos_nonneg; lia).
  pose proof (Z.div_mod (2 * p * t + q) (2 * q) ltac:(lia)). pose proof (Z.mod_pos_bound (2 * p * t + q) (2 * q) ltac:(lia)).
  set (d := (2 * p * t + q) / (2 * q)) in *. split; [nia|]. assert (0 <= p * t) by nia. nia.
Qed.

(** The unit chosen for [m / q] bytes: its size and its name. *)
Definition unit_of (m q : Z) : Z * nat * string :=
  if m <? ONE_KB * q then (1, 0%nat, " B")
  else if m <? ONE_MB * q then (ONE_KB, 2%nat, " KB")
  else if m <? ONE_GB * q then (ONE_MB, 2%nat, " MB")
  else if m <? ONE_TB * q then (ONE_GB, 2%nat, " GB")
  else if m <? ONE_PB * q then (ONE_TB, 2%nat, " TB")
  else (ONE_PB, 2%nat, " PB").

Lemma sizeFormat_unit m e :
  0 < m -> let '(u, f, name) := unit_of m (10 ^ Z.of_nat e) in
  sizeFormat (Some (NFin m e)) = toFixed m (10 ^ Z.of_nat e * u) f +:+ name.
Proof.
  intros Hm. unfold sizeFormat, unit_of. rewrite (proj2 (Z.leb_gt m 0)) by lia.
  repeat case_match; simplify_eq; rewrite ?Z.mul_1_r; done.
Qed.

(** [sizeFormat] of a positive size prints the number [n / 10^f] followed by a unit [u]
    of the 1024-ladder such that the printed quantity differs from the size by at most
    half a unit in the last place, the unit is not larger than the size, and below the
    largest unit the printed number never exceeds 1024. *)
Theorem sizeFormat_accurate m e :
  0 < m ->
  let q := 10 ^ Z.of_nat e in
  exists u f name n,
    unit_of m q = (u, f, name) /\ sizeFormat (Some (NFin m e)) = fixed_string n f +:+ name /\
    2 * Z.abs (n * (q * u) - m * 10 ^ Z.of_nat f) <= q * u /\
    (u = 1 \/ u * q <= m) /\ (u = ONE_PB \/ 0 <= n <= 1024 * 10 ^ Z.of_nat f).
Proof.
  intros Hm q. assert (Hq : 0 < q) by (apply Z.pow_pos_nonneg; lia).
  pose proof (sizeFormat_unit m e Hm) as H. fold q in H.
  destruct (unit_of m q) as [[u f] name] eqn:E.
  assert (Hu : 0 < u /\ (u = 1 \/ u * q <= m) /\ (u = ONE_PB \/ m < 1024 * u * q)).
  { unfold unit_of, ONE_PB, ONE_TB, ONE_GB, ONE_MB, ONE_KB in *.
    repeat match type of E with context [if ?a <? ?b then _ else _] => destruct (Z.ltb_spec a b) end;
      simplify_eq; lia. }
  destruct Hu as (Hu & Hlo & Hhi).
  destruct (fixed_of_close m (q * u) f ltac:(nia) ltac:(lia)) as [Hc Hn].
  exists u, f, name, (fixed_of m (q * u) f). split; [done|]. split; [exact H|]. split; [done|]. split; [done|].
  destruct Hhi as [|Hhi]; [by left|right]. split; [done|].
  assert (0 < 10 ^ Z.of_nat f) by (apply Z.pow_pos_nonneg; lia). set (t := 10 ^ Z.of_nat f) in *.
  assert (m * t <= 1024 * t * (q * u)) by nia. nia.
Qed.

Lemma sizeFormat_accurate_witness :
  0 < 1536 /\ exists u f name n,
    unit_of 1536 1 = (u, f, name) /\ sizeFormat (Some (NFin 1536 0)) = fixed_string n f +:+ name /\
    2 * Z.abs (n * (1 * u) - 1536 * 10 ^ Z.of_nat f) <= 1 * u /\
    (u = 1 \/ u * 1 <= 1536) /\ (u = ONE_PB \/ 0 <= n <= 1024 * 10 ^ Z.of_nat f).
Proof. split; [lia|]. apply (sizeFormat_accurate 1536 0). lia. Defined.

(** The remainder of a multi-day uptime is rounded to the nearest hour after the days were
    taken off, so the last half hour of a day is shown as 24 hours. *)
Lemma formatSecond_24h : formatSecond 172799 = "1d 24h".
Proof. reflexivity. Qed.
