(* ===== verification/TrafficDisplay.v ===== *)
(** * Charged traffic

    Models src/frontend/src/lib/clients/traffic-display.ts: what a client is charged for, its split by
    direction, and the quota bar.  Byte counts are integers; the quotients are exact rationals (the
    code computes them in doubles), the percentage a pair of numerator and denominator. *)
From S2P Require Import Prelude JsString JsValue Formatters.
Local Open Scope Z_scope.

Record Traffic := {
  t_up : option Z; t_down : option Z; t_billedUp : option Z; t_billedDown : option Z;
  t_chargeExtraBytes : option Z; t_chargeDiscountBytes : option Z }.

Definition chargedTrafficBytes (t : Traffic) : Z :=
  match t_billedUp t, t_billedDown t with
  | Some bu, Some bd => Z.max 0 bu + Z.max 0 bd
  | _, _ => Z.max 0 (default 0 (t_up t) + default 0 (t_down t) +
                     Z.max 0 (default 0 (t_chargeExtraBytes t)) - Z.max 0 (default 0 (t_chargeDiscountBytes t)))
  end.

(** [Math.round(p / q)], halves upwards. *)
Definition js_round (p q : Z) : Z := (2 * p + q) / (2 * q).

Definition billedTrafficDirections (t : Traffic) : Z * Z :=
  match t_billedUp t, t_billedDown t with
  | Some bu, Some bd => (Z.max 0 bu, Z.max 0 bd)
  | _, _ =>
      let total := chargedTrafficBytes t in
      let physicalUp := Z.max 0 (default 0 (t_up t)) in
      let physicalDown := Z.max 0 (default 0 (t_down t)) in
      let physicalTotal := physicalUp + physicalDown in
      if physicalTotal <=? 0 then (0, total)
      else let up := js_round (total * physicalUp) physicalTotal in (up, total - up)
  end.

Record TrafficDisplayInput := { di_traffic : Traffic; di_total : option Z; di_enabled : bool; di_trafficDiff : Z }.

Record TrafficDisplay := {
  td_used : Z; td_remaining : Z; td_percent : Z * Z; td_isUnlimited : bool; td_isDepleted : bool;
  td_strokeColor : string; td_exception : bool }.

Definition computeTrafficDisplay (input : TrafficDisplayInput) (isDark : bool) : TrafficDisplay :=
  let used := chargedTrafficBytes (di_traffic input) in
  let total := default 0 (di_total input) in
  let isUnlimited := total <=? 0 in
  let percent := if isUnlimited then (100, 1) else if total <=? used then (100, 1) else (100 * Z.max 0 used, total) in
  let isDepleted := negb isUnlimited && (total <=? used) in
  {| td_used := used;
     td_remaining := if isUnlimited then 0 else Z.max 0 (total - used);
     td_percent := percent;
     td_isUnlimited := isUnlimited;
     td_isDepleted := isDepleted;
     td_strokeColor := if negb (di_enabled input) then (if isDark then "rgb(72, 84, 105)" else "#bcbcbc")
                       else if isUnlimited then "#722ed1"
                       else clientUsageColor (Some {| cu_up := used; cu_down := 0; cu_total := total |}) (di_trafficDiff input);
     td_exception := isDepleted && di_enabled input |}.

(** ** Properties *)

Lemma charged_nonneg t : 0 <= chargedTrafficBytes t.
Proof. unfold chargedTrafficBytes. destruct (t_billedUp t), (t_billedDown t); lia. Qed.

Lemma js_round_bounds p q n : 0 < q -> 0 <= p <= n * q -> 0 <= js_round p q <= n.
Proof.
  intros Hq Hp. unfold js_round. split; [apply Z.div_pos; lia|]. apply Z.lt_succ_r. apply Z.div_lt_upper_bound; nia.
Qed.

(** The direction breakdown of a client's traffic always adds up to what the client is charged,
    and neither direction is negative. *)
Theorem directions_add_up t : let '(up, down) := billedTrafficDirections t in up + down = chargedTrafficBytes t /\ 0 <= up /\ 0 <= down.
Proof.
  unfold billedTrafficDirections. pose proof (charged_nonneg t) as H.
  assert (G : let '(up, down) :=
     (let total := chargedTrafficBytes t in let physicalUp := Z.max 0 (default 0 (t_up t)) in let physicalDown := Z.max 0 (default 0 (t_down t)) in
      let physicalTotal := physicalUp + physicalDown in if physicalTotal <=? 0 then (0, total) else let up := js_round (total * physicalUp) physicalTotal in (up, total - up)) in
     up + down = chargedTrafficBytes t /\ 0 <= up /\ 0 <= down).
  { cbv zeta. destruct (Z.leb_spec (Z.max 0 (default 0 (t_up t)) + Z.max 0 (default 0 (t_down t))) 0); [lia|].
    pose proof (js_round_bounds (chargedTrafficBytes t * Z.max 0 (default 0 (t_up t))) (Z.max 0 (default 0 (t_up t)) + Z.max 0 (default 0 (t_down t))) (chargedTrafficBytes t) ltac:(lia) ltac:(nia)). lia. }
  destruct (t_billedUp t) eqn:U, (t_billedDown t) eqn:D; try exact G. unfold chargedTrafficBytes. rewrite U, D. lia.
Qed.

(** A limited quota: what is used and what remains make up the total until it is depleted. *)
Lemma remaining_and_used input isDark (d := computeTrafficDisplay input isDark) : td_isUnlimited d = false ->
  (td_isDepleted d = false -> td_used d + td_remaining d = default 0 (di_total input)) /\ (td_isDepleted d = true <-> td_remaining d = 0).
Proof. subst d. unfold computeTrafficDisplay. cbn. intros ->. cbn. lia. Qed.
