(* ===== verification/Json.v ===== *)
(** * JSON

    [JSON.parse] and [JSON.stringify] over the value model, as the code uses them (no
    reviver, replacer or indentation).  The parser is fuelled; [parse_fuel] bounds the
    nesting by the length of the text.  Strings are UTF-8 bytes: a [\u] escape is stored
    as the encoding of its code point. *)
From S2P Require Import Prelude JsString JsValue JsObject Utf8.
From Stdlib Require Import Ascii.
Local Open Scope Z_scope.

(** ** Lexical level *)

Definition json_ws (c : ascii) : bool := let n := code c in (n =? 32) || (n =? 9) || (n =? 10) || (n =? 13).

Fixpoint skip_ws (s : string) : string :=
  match s with
  | String c s' => if json_ws c then skip_ws s' else s
  | "" => ""
  end.

(** The literal [p] at the start of [s]. *)
Fixpoint expect (p s : string) : option string :=
  match p, s with
  | "", _ => Some s
  | String a p, String b s => if Ascii.eqb a b then expect p s else None
  | _, _ => None
  end.

(** Four hexadecimal digits. *)
Definition hex4 (s : string) : option (Z * string) :=
  match s with
  | String a (String b (String c (String d r))) =>
      match hex_digit a, hex_digit b, hex_digit c, hex_digit d with
      | Some x, Some y, Some z, Some w => Some (((x * 16 + y) * 16 + z) * 16 + w, r)
      | _, _, _, _ => None
      end
  | _ => None
  end.

(** UTF-8 encoding of a code point. *)
Definition utf8_encode (cp : Z) : string :=
  string_of
    (if cp <? 0x80 then [cp]
     else if cp <? 0x800 then [0xC0 + cp / 64; 0x80 + cp mod 64]
     else if cp <? 0x10000 then [0xE0 + cp / 4096; 0x80 + cp / 64 mod 64; 0x80 + cp mod 64]
     else [0xF0 + cp / 262144; 0x80 + cp / 4096 mod 64; 0x80 + cp / 64 mod 64; 0x80 + cp mod 64]).

Definition is_high (u : Z) : bool := (0xD800 <=? u) && (u <? 0xDC00).
Definition is_low (u : Z) : bool := (0xDC00 <=? u) && (u <? 0xE000).

(** The code point of a [\u] escape whose first unit is [u], and what follows it. *)
Definition code_point (u : Z) (s : string) : Z * string :=
  match expect "\u" s with
  | Some r =>
      match hex4 r with
      | Some (l, r) => if is_high u && is_low l then ((u - 0xD800) * 1024 + (l - 0xDC00) + 0x10000, r) else (u, s)
      | None => (u, s)
      end
  | None => (u, s)
  end.

Definition simple_escape (c : ascii) : option ascii :=
  let n := code c in
  if n =? 34 then Some (char_of 34)
  else if n =? 92 then Some (char_of 92)
  else if n =? 47 then Some (char_of 47)
  else if n =? 98 then Some (char_of 8)
  else if n =? 102 then Some (char_of 12)
  else if n =? 110 then Some (char_of 10)
  else if n =? 114 then Some (char_of 13)
  else if n =? 116 then Some (char_of 9)
  else None.

(** The characters of a string literal, after its opening quote. *)
Fixpoint parse_chars (fuel : nat) (s : string) : option (string * string) :=
  match fuel with
  | O => None
  | S fuel =>
      match s with
      | "" => None
      | String c s =>
          if code c =? 34 then Some ("", s)
          else if code c =? 92 then
            match s with
            | "" => None
            | String e s =>
                if code e =? 117 then
                  match hex4 s with
                  | Some (u, s) =>
                      let (cp, s) := code_point u s in
                      match parse_chars fuel s with Some (t, r) => Some (utf8_encode cp +:+ t, r) | None => None end
                  | None => None
                  end
                else
                  match simple_escape e with
                  | Some d => match parse_chars fuel s with Some (t, r) => Some (String d t, r) | None => None end
                  | None => None
                  end
            end
          else if code c <? 32 then None
          else match parse_chars fuel s with Some (t, r) => Some (String c t, r) | None => None end
      end
  end.

(** [int frac? exp?] after the sign *)
Definition parse_unsigned (sign : Z) (s : string) : option (num * string) :=
  let '(i, ni, r) := take_digits s 0 0 in
  let leading_zero := match s with String "0" _ => Nat.ltb 1 ni | _ => false end in
  if Nat.eqb ni 0 || leading_zero then None
  else
    let frac := match r with
                | String "." r' => let '(m, nf, r'') := take_digits r' i 0 in
                                   if Nat.eqb nf 0 then None else Some (m, nf, r'')
                | _ => Some (i, 0%nat, r)
                end in
    match frac with
    | None => None
    | Some (m, nf, r) =>
        match r with
        | String c r' =>
            if Ascii.eqb c "e" || Ascii.eqb c "E" then
              let '(es, r') := match r' with
                               | String "-" r'' => (-1, r'')
                               | String "+" r'' => (1, r'')
                               | _ => (1, r')
                               end in
              let '(x, nx, r'') := take_digits r' 0 0 in
              if Nat.eqb nx 0 then None else Some (scale10 (sign * m) nf (es * x), r'')
            else Some (scale10 (sign * m) nf 0, r)
        | "" => Some (scale10 (sign * m) nf 0, "")
        end
    end.

Definition parse_number (s : string) : option (num * string) :=
  match s with String "-" r => parse_unsigned (-1) r | _ => parse_unsigned 1 s end.

(** ** Values *)

Fixpoint parse_value (fuel : nat) (s : string) : option (jsval * string) :=
  match fuel with
  | O => None
  | S fuel =>
      match skip_ws s with
      | "" => None
      | String c r as s' =>
          if code c =? 34 then
            match parse_chars (S (String.length r)) r with Some (t, r) => Some (VStr t, r) | None => None end
          else if code c =? 91 then
            match skip_ws r with
            | String d r' => if code d =? 93 then Some (VArr [], r')
                             else match parse_elems fuel r with Some (l, r) => Some (VArr l, r) | None => None end
            | "" => None
            end
          else if code c =? 123 then
            match skip_ws r with
            | String d r' => if code d =? 125 then Some (VObj [], r')
                             else match parse_members fuel r [] with Some (o, r) => Some (VObj o, r) | None => None end
            | "" => None
            end
          else
            match expect "null" s', expect "true" s', expect "false" s' with
            | Some r, _, _ => Some (VNull, r)
            | _, Some r, _ => Some (VBool true, r)
            | _, _, Some r => Some (VBool false, r)
            | _, _, _ => match parse_number s' with Some (n, r) => Some (VNum n, r) | None => None end
            end
      end
  end
(** The elements of an array up to and including its bracket. *)
with parse_elems (fuel : nat) (s : string) : option (list jsval * string) :=
  match fuel with
  | O => None
  | S fuel =>
      match parse_value fuel s with
      | None => None
      | Some (v, r) =>
          match skip_ws r with
          | String c r =>
              if code c =? 93 then Some ([v], r)
              else if code c =? 44 then
                match parse_elems fuel r with Some (l, r) => Some (v :: l, r) | None => None end
              else None
          | "" => None
          end
      end
  end
(** The members of an object; a repeated key overwrites. *)
with parse_members (fuel : nat) (s : string) (acc : obj) : option (obj * string) :=
  match fuel with
  | O => None
  | S fuel =>
      match skip_ws s with
      | String q r =>
          if negb (code q =? 34) then None
          else
            match parse_chars (S (String.length r)) r with
            | None => None
            | Some (k, r) =>
                match skip_ws r with
                | String c r =>
                    if negb (code c =? 58) then None
                    else
                      match parse_value fuel r with
                      | None => None
                      | Some (v, r) =>
                          let acc := obj_set acc k v in
                          match skip_ws r with
                          | String c r =>
                              if code c =? 125 then Some (acc, r)
                              else if code c =? 44 then parse_members fuel r acc
                              else None
                          | "" => None
                          end
                      end
                | "" => None
                end
            end
      | "" => None
      end
  end.

Definition parse_fuel (s : string) : nat := 2 * String.length s + 2.

(** [JSON.parse(s)]; [None] is the SyntaxError. *)
Definition JSON_parse (s : string) : option jsval :=
  match parse_value (parse_fuel s) s with
  | Some (v, r) => match skip_ws r with "" => Some v | _ => None end
  | None => None
  end.

(** ** Printing *)

Definition hex_lower (n : Z) : ascii := char_of (if n <? 10 then 48 + n else 87 + n).

Definition quote_char (c : ascii) : string :=
  let n := code c in
  if n =? 34 then "\" +:+ String (char_of 34) ""
  else if n =? 92 then "\\"
  else if n =? 8 then "\b"
  else if n =? 12 then "\f"
  else if n =? 10 then "\n"
  else if n =? 13 then "\r"
  else if n =? 9 then "\t"
  else if n <? 32 then "\u00" +:+ String (hex_lower (n / 16)) (String (hex_lower (n mod 16)) "")
  else String c "".

Fixpoint quote_chars (s : string) : string :=
  match s with "" => "" | String c s => quote_char c +:+ quote_chars s end.

Definition dquote : string := String (char_of 34) "".

Definition quote (s : string) : string := dquote +:+ quote_chars s +:+ dquote.

(** [JSON.stringify(v)] of a value that is not [undefined]; in arrays [undefined] prints as
    null, in objects it is skipped. *)
Fixpoint stringify (v : jsval) : string :=
  match v with
  | VUndef | VNull => "null"
  | VBool b => if b then "true" else "false"
  | VNum n => if num_finite n then string_of_num n else "null"
  | VStr s => quote s
  | VArr l => "[" +:+ join "," (map stringify l) +:+ "]"
  | VObj o => "{" +:+ join "," ((fix go (o : obj) : list string :=
                match o with
                | [] => []
                | (k, x) :: o => match x with VUndef => go o | _ => (quote k +:+ ":" +:+ stringify x) :: go o end
                end) o) +:+ "}"
  end.

(** [JSON.stringify(v, null, 2)]: a line per element, indented by two spaces per level. *)
Fixpoint spaces (n : nat) : string := match n with O => "" | S n => String " " (spaces n) end.

Definition newline (depth : nat) : string := String (char_of 10) (spaces (2 * depth)).

Definition bracketed (open close : string) (depth : nat) (items : list string) : string :=
  match items with
  | [] => open +:+ close
  | _ => open +:+ newline (S depth) +:+ join ("," +:+ newline (S depth)) items +:+ newline depth +:+ close
  end.

Fixpoint pretty (depth : nat) (v : jsval) : string :=
  match v with
  | VArr l => bracketed "[" "]" depth (map (pretty (S depth)) l)
  | VObj o => bracketed "{" "}" depth ((fix go (o : obj) : list string :=
                match o with
                | [] => []
                | (k, x) :: o => match x with VUndef => go o | _ => (quote k +:+ ": " +:+ pretty (S depth) x) :: go o end
                end) o)
  | _ => stringify v
  end.

(** ** Round trip *)

(** What JSON can carry: no [undefined], distinct keys; the numbers considered are integers. *)
Fixpoint json_ok (v : jsval) : Prop :=
  match v with
  | VUndef => False
  | VNum (NFin _ O) => True
  | VNum _ => False
  | VArr l => (fix all l := match l with [] => True | x :: l => json_ok x /\ all l end) l
  | VObj o => obj_wf o /\ (fix all o := match o with [] => True | kv :: o => json_ok kv.2 /\ all o end) o
  | _ => True
  end.

(** What may follow a value. *)
Definition delim (rest : string) : Prop :=
  match rest with "" => True | String c _ => c = ","%char \/ c = "]"%char \/ c = "}"%char \/ c = char_of 10 end.

Lemma code_point_bmp u s : is_high u = false -> code_point u s = (u, s).
Proof. intros H. unfold code_point. rewrite H. cbn [andb]. by repeat case_match. Qed.

(** One printed character is read back. *)
Lemma parse_quote_char c fuel t :
  parse_chars (S fuel) (quote_char c +:+ t) =
  match parse_chars fuel t with Some (x, r) => Some (String c x, r) | None => None end.
Proof.
  destruct c as [[] [] [] [] [] [] [] []]; try reflexivity;
    (match goal with
    | |- parse_chars _ (quote_char ?c +:+ t) = _ =>
        transitivity (let (cp, s) := code_point (code c) t in
          match parse_chars fuel s with Some (x, r) => Some (utf8_encode cp +:+ x, r) | None => None end)
    end; [reflexivity|rewrite code_point_bmp by reflexivity; destruct (parse_chars fuel t) as [[x r]|]; reflexivity]).
Qed.

Lemma parse_quote_chars s : forall fuel rest, (String.length s < fuel)%nat ->
  parse_chars fuel (quote_chars s +:+ dquote +:+ rest) = Some (s, rest).
Proof.
  induction s as [|c s IH]; intros [|fuel] rest H; try (cbn in H; lia); [reflexivity|].
  cbn [quote_chars]. rewrite app_assoc_str, parse_quote_char, IH by (cbn in H; lia). reflexivity.
Qed.

Lemma quote_chars_length s : (String.length s <= String.length (quote_chars s))%nat.
Proof.
  induction s as [|c s IH]; [done|]. cbn [quote_chars]. rewrite length_app_str. cbn [String.length].
  assert (1 <= String.length (quote_char c))%nat; [|lia]. destruct c as [[] [] [] [] [] [] [] []]; apply Nat.leb_le; reflexivity.
Qed.

(** A printed string is read back, with the fuel the parser gives itself. *)
Lemma parse_quoted s rest (r := quote_chars s +:+ dquote +:+ rest) :
  parse_chars (S (String.length r)) r = Some (s, rest).
Proof.
  apply parse_quote_chars. subst r. rewrite length_app_str. pose proof (quote_chars_length s). lia.
Qed.

(** *** Numbers *)

Lemma take_digits_app a rest : forall acc n,
  forall_chars is_digit a = true -> (match rest with String c _ => is_digit c = false | "" => True end) ->
  take_digits (a +:+ rest) acc n = (digits_value acc a, (n + String.length a)%nat, rest).
Proof.
  induction a as [|c a IH]; intros acc n Ha Hr; cbn in *.
  - destruct rest as [|d rest]; cbn; [|rewrite Hr]; by rewrite Nat.add_0_r.
  - apply andb_true_iff in Ha as [-> Ha]. rewrite IH by done. do 2 f_equal. lia.
Qed.

Lemma digits_head fuel : forall n acc, 0 < n < 2 ^ (Z.of_nat fuel + 1) ->
  exists d t, digits_go fuel n acc = String (digit_char d) t /\ 0 < d < 10.
Proof.
  induction fuel as [|fuel IH]; intros n acc H; cbn [digits_go].
  - change (2 ^ (Z.of_nat 0 + 1)) with 2 in H. exists (n mod 10), acc. split; [done|]. rewrite Z.mod_small; lia.
  - destruct (Z.ltb_spec n 10).
    + exists (n mod 10), acc. split; [done|]. rewrite Z.mod_small; lia.
    + apply IH. replace (Z.of_nat (S fuel) + 1) with (Z.succ (Z.of_nat fuel + 1)) in H by lia.
      rewrite Z.pow_succ_r in H by lia. Z.to_euclidean_division_equations. lia.
Qed.

Lemma digits_nonzero n : 0 < n -> exists d t, digits n = String (digit_char d) t /\ 0 < d < 10.
Proof.
  intros H. unfold digits. apply digits_head. rewrite Z2Nat.id by apply Z.log2_nonneg.
  pose proof (Z.log2_spec n H). rewrite Z.add_1_r. lia.
Qed.

Lemma digit_char_head d : 0 < d < 10 -> digit_char d <> "0"%char /\ digit_char d <> "-"%char.
Proof.
  intros H. assert (E : d = 1 \/ d = 2 \/ d = 3 \/ d = 4 \/ d = 5 \/ d = 6 \/ d = 7 \/ d = 8 \/ d = 9) by lia.
  destruct E as [->|[->|[->|[->|[->|[->|[->|[->| ->]]]]]]]]; done.
Qed.

Lemma delim_not_digit rest : delim rest -> match rest with String c _ => is_digit c = false | "" => True end.
Proof. destruct rest as [|c r]; cbn; [done|]. by intros [->|[->|[->| ->]]]. Qed.

(** The unsigned part. *)
Lemma parse_unsigned_digits sign n rest :
  0 <= n -> delim rest -> parse_unsigned sign (digits n +:+ rest) = Some (NFin (sign * n) 0, rest).
Proof.
  intros Hn Hd. unfold parse_unsigned. pose proof (digits_all n) as Ha.
  assert (Hf : forall_chars is_digit (digits n) = true) by by destruct (digits n).
  rewrite take_digits_app by (done || by apply delim_not_digit). rewrite digits_value_digits by done. cbn [Nat.add].
  assert (HL : match digits n +:+ rest with String "0" _ => Nat.ltb 1 (String.length (digits n)) | _ => false end = false).
  { destruct (Z.eq_dec n 0) as [->|]; [reflexivity|]. destruct (digits_nonzero n ltac:(lia)) as (d & t & -> & Hd1).
    destruct (digit_char_head d Hd1) as [H0 _]. cbn [String.append].
    destruct (digit_char d) as [[] [] [] [] [] [] [] []]; try reflexivity. by destruct H0. }
  rewrite HL. assert (HE : Nat.eqb (String.length (digits n)) 0 = false) by by destruct (digits n).
  rewrite HE. cbn [orb]. unfold scale10.
  assert (S10 : (if Z.of_nat 0 <=? 0 then NFin (sign * n * 10 ^ (0 - Z.of_nat 0)) 0 else num_norm (Z.to_nat (Z.of_nat 0 - 0)) (sign * n)) = NFin (sign * n) 0).
  { cbn. by rewrite Z.mul_1_r. }
  destruct rest as [|c r]; [by rewrite S10|]. cbn in Hd. destruct Hd as [->|[->|[->| ->]]]; cbn -[scale10 Z.mul]; by rewrite Z.mul_1_r.
Qed.

Lemma parse_number_Z z rest : delim rest -> parse_number (string_of_Z z +:+ rest) = Some (NFin z 0, rest).
Proof.
  intros Hd. unfold string_of_Z. destruct (Z.ltb_spec z 0).
  - change (parse_unsigned (-1) (digits (- z) +:+ rest) = Some (NFin z 0, rest)).
    rewrite parse_unsigned_digits by (done || lia). do 3 f_equal. lia.
  - transitivity (parse_unsigned 1 (digits z +:+ rest)).
    + pose proof (digits_all z) as Ha. unfold parse_number. destruct (digits z) as [|c t]; [done|]. cbn in Ha.
      apply andb_true_iff in Ha as [Ha _]. destruct c as [[] [] [] [] [] [] [] []]; try done.
    + rewrite parse_unsigned_digits by (done || lia). do 3 f_equal. lia.
Qed.

(** *** Values *)

(** The fuel a printed value needs. *)
Fixpoint need (v : jsval) : nat :=
  match v with
  | VArr l => S (list_sum (map (fun x => S (need x)) l))
  | VObj o => S (list_sum (map (fun '(_, x) => S (need x)) o))
  | _ => 1
  end.

Definition member (k : string) (x : jsval) : string := quote k +:+ ":" +:+ stringify x.

Definition members (o : obj) : list string := map (fun kv => member kv.1 kv.2) o.

Lemma json_ok_arr l : json_ok (VArr l) <-> Forall json_ok l.
Proof. cbn. induction l as [|x l IH]; [by split|]. rewrite Forall_cons_iff, <-IH. done. Qed.

Lemma json_ok_obj o : json_ok (VObj o) <-> obj_wf o /\ Forall (fun kv => json_ok kv.2) o.
Proof.
  cbn [json_ok]. apply and_iff_compat_l. induction o as [|kv o IH]; [split; [constructor|done]|].
  split; [intros [H1 H2]; constructor; [done|by apply IH]|]. intros H. inversion H; subst. split; [done|by apply IH].
Qed.

Lemma json_ok_set o k v : json_ok (VObj o) -> json_ok v -> json_ok (VObj (obj_set o k v)).
Proof.
  rewrite !json_ok_obj. intros [W F] Hv. split; [by apply obj_wf_set|]. clear W. induction F as [|[n x] o Hx F IH]; cbn [obj_set]; [by repeat constructor|].
  destruct (String.eqb k n); by constructor.
Qed.

Lemma json_ok_del o k : json_ok (VObj o) -> json_ok (VObj (obj_del o k)).
Proof.
  rewrite !json_ok_obj. intros [W F]. split; [by apply obj_wf_del|]. rewrite List.Forall_forall in *. intros kv [Hin _]%filter_In. by apply F.
Qed.

(** A member of a JSON object is JSON, or absent. *)
Lemma json_ok_get o k : json_ok (VObj o) -> obj_get o k = VUndef \/ json_ok (obj_get o k).
Proof.
  rewrite json_ok_obj. intros [_ F]. induction F as [|[n x] o Hx F IH]; [by left|]. cbn [obj_get]. destruct (String.eqb k n); [by right|done].
Qed.

Lemma stringify_members o :
  json_ok (VObj o) -> stringify (VObj o) = "{" +:+ join "," (members o) +:+ "}".
Proof.
  intros [_ H]. cbn [stringify]. do 3 f_equal. revert H. induction o as [|[k x] o IH]; cbn; [done|].
  intros [Hx H]. specialize (IH H). destruct x; [done|f_equal; exact IH..].
Qed.

(** The first character of a printed value is neither white space nor a closing bracket. *)
Lemma stringify_head v :
  json_ok v -> exists c t, stringify v = String c t /\ json_ws c = false /\ (code c =? 93) = false /\ (code c =? 125) = false.
Proof.
  destruct v as [| |b|n|s|l|o]; try done; try (intros _; by do 2 eexists).
  - destruct b; intros _; by do 2 eexists.
  - destruct n as [z [|e]| |]; try done. intros _. cbn [stringify num_finite string_of_num]. unfold string_of_Z.
    destruct (z <? 0); [by do 2 eexists|]. pose proof (digits_all z) as Ha. destruct (digits z) as [|c t]; [done|].
    exists c, t. cbn in Ha. apply andb_true_iff in Ha as [Ha _]. split; [done|].
    destruct c as [[] [] [] [] [] [] [] []]; done.
Qed.

Lemma skip_ws_stringify v rest : json_ok v -> skip_ws (stringify v +:+ rest) = stringify v +:+ rest.
Proof. intros H. destruct (stringify_head v H) as (c & t & -> & Hw & _). cbn. by rewrite Hw. Qed.

(** What the induction proves of each value. *)
Definition reads_back (v : jsval) : Prop :=
  json_ok v -> forall fuel rest, (need v <= fuel)%nat -> delim rest -> parse_value fuel (stringify v +:+ rest) = Some (v, rest).

Lemma join_cons2 sep (a b : string) l : join sep (a :: b :: l) = a +:+ sep +:+ join sep (b :: l).
Proof. done. Qed.

Lemma parse_elems_back l : Forall reads_back l -> forall fuel rest,
  l <> [] -> json_ok (VArr l) -> (list_sum (map (fun x => S (need x)) l) <= fuel)%nat ->
  parse_elems fuel (join "," (map stringify l) +:+ String "]" rest) = Some (l, rest).
Proof.
  induction 1 as [|x l Hx Hl IH]; intros fuel rest Hne Hj Hf; [done|]. destruct Hj as [Hok Hoks].
  cbn [map list_sum] in Hf. destruct fuel as [|fuel]; [cbn in Hf; lia|]. cbn [parse_elems].
  destruct l as [|y l].
  - unfold join. cbn [map String.concat]. rewrite (Hx Hok fuel (String "]" rest)); [|cbn in Hf; lia|cbn; auto]. done.
  - cbn [map]. rewrite join_cons2, !app_assoc_str.
    rewrite (Hx Hok fuel); [|cbn in Hf; lia|cbn; auto]. cbn [String.append skip_ws]. change (json_ws ",") with false.
    cbn iota. change (code "," =? 93) with false. change (code "," =? 44) with true. cbn iota.
    assert (E : parse_elems fuel (join "," (stringify y :: map stringify l) +:+ String "]" rest) = Some (y :: l, rest)).
    { apply IH; [done|done|cbn in *; lia]. }
    by rewrite E.
Qed.

Lemma parse_members_back o : Forall (fun kv => reads_back kv.2) o -> forall fuel acc rest,
  o <> [] -> json_ok (VObj o) -> obj_wf (acc ++ o) -> (list_sum (map (fun '(_, x) => S (need x)) o) <= fuel)%nat ->
  parse_members fuel (join "," (members o) +:+ String "}" rest) acc = Some (acc ++ o, rest).
Proof.
  induction 1 as [|[k x] o Hx Ho IH]; intros fuel acc rest Hne Hj Hacc Hf; [done|]. destruct Hj as [Hw [Hok Hoks]].
  cbn [map list_sum fst snd] in *. destruct fuel as [|fuel]; [cbn in Hf; lia|].
  assert (Hset : obj_set acc k x = acc ++ [(k, x)]).
  { apply obj_set_new. apply not_true_iff_false. rewrite obj_has_keys. unfold obj_wf, obj_keys in Hacc.
    rewrite map_app in Hacc. apply list.NoDup_app in Hacc as (_ & H & _). intros Hin.
    apply (H k); [by apply list_elem_of_In|left]. }
  assert (Step : forall tail, delim tail -> parse_members (S fuel) (member k x +:+ tail) acc =
    match skip_ws tail with
    | String c r => if code c =? 125 then Some (obj_set acc k x, r)
                    else if code c =? 44 then parse_members fuel r (obj_set acc k x) else None
    | "" => None
    end).
  { intros tail Ht. unfold member, quote. rewrite !app_assoc_str. cbn [parse_members].
    change (dquote +:+ ?s) with (String (char_of 34) s). cbn [skip_ws]. change (json_ws (char_of 34)) with false. cbn iota.
    change (code (char_of 34) =? 34) with true. cbn [negb].
    change (String (char_of 34) ?s) with (dquote +:+ s). rewrite parse_quoted.
    cbn [String.append skip_ws]. change (json_ws ":") with false. cbn iota. change (code ":" =? 58) with true. cbn [negb].
    rewrite (Hx Hok fuel tail); [done|cbn in Hf; lia|done]. }
  destruct o as [|[k2 y] o].
  - unfold members, join. cbn [map String.concat fst snd]. rewrite Step by (cbn; auto). cbn [skip_ws]. rewrite Hset. done.
  - unfold members. cbn [map fst snd]. rewrite join_cons2, !app_assoc_str. rewrite Step by (cbn; auto).
    cbn [String.append skip_ws]. change (json_ws ",") with false. cbn iota.
    change (code "," =? 125) with false. change (code "," =? 44) with true. cbn iota. rewrite Hset.
    change (member k2 y :: map (fun kv => member kv.1 kv.2) o) with (members ((k2, y) :: o)).
    rewrite (IH fuel (acc ++ [(k, x)]) rest); rewrite <- ?app_assoc; [done|done| |done|cbn in *; lia].
    split; [|done]. unfold obj_wf, obj_keys in *. cbn in Hw. by inversion Hw.
Qed.

(** *** The theorem *)

Lemma parse_scalar_number z fuel rest :
  delim rest -> parse_value (S fuel) (string_of_Z z +:+ rest) = Some (VNum (NFin z 0), rest).
Proof.
  intros Hd. pose proof (parse_number_Z z rest Hd) as E.
  assert (H : exists c t, string_of_Z z = String c t /\ (c = "-"%char \/ is_digit c = true)).
  { unfold string_of_Z. destruct (z <? 0); [eauto|]. pose proof (digits_all z) as Ha.
    destruct (digits z) as [|c t]; [done|]. exists c, t. split; [done|]. cbn in Ha. apply andb_true_iff in Ha as [Ha _]. auto. }
  destruct H as (c & t & Ez & Hc). rewrite Ez in *. cbn [String.append] in *. cbn [parse_value skip_ws].
  assert (F : json_ws c = false /\ (code c =? 34) = false /\ (code c =? 91) = false /\ (code c =? 123) = false /\
    Ascii.eqb "n" c = false /\ Ascii.eqb "t" c = false /\ Ascii.eqb "f" c = false).
  { destruct Hc as [->|Hc]; [repeat split|]. destruct c as [[] [] [] [] [] [] [] []]; first [discriminate Hc|repeat split]. }
  destruct F as (-> & -> & -> & -> & Fn & Ft & Ff). cbn [expect]. rewrite Fn, Ft, Ff, E. reflexivity.
Qed.

Lemma parse_value_back v : reads_back v.
Proof.
  induction v as [| |b|n|s|l IH|o IH] using jsval_ind; intros Hok [|fuel] rest Hf Hd; try (cbn in Hf; lia); try done.
  - by destruct b.
  - destruct n as [z [|e]| |]; try done. by apply parse_scalar_number.
  - cbn [stringify]. unfold quote. rewrite !app_assoc_str.
    change (dquote +:+ quote_chars s +:+ dquote +:+ rest) with (String (char_of 34) (quote_chars s +:+ dquote +:+ rest)).
    cbn [parse_value skip_ws]. change (json_ws (char_of 34)) with false. cbn iota.
    change (code (char_of 34) =? 34) with true. cbn iota. by rewrite parse_quoted.
  - cbn [stringify]. rewrite !app_assoc_str. cbn [String.append parse_value skip_ws].
    change (json_ws "[") with false. cbn iota. change (code "[" =? 34) with false. change (code "[" =? 91) with true. cbn iota.
    destruct l as [|x l]; [done|]. change (String "]" rest) with ("]" +:+ rest).
    assert (E : parse_elems fuel (join "," (map stringify (x :: l)) +:+ "]" +:+ rest) = Some (x :: l, rest)).
    { apply parse_elems_back; [done|done|done|cbn in *; lia]. }
    rewrite E. assert (Hs : exists c t, join "," (map stringify (x :: l)) = String c t /\ json_ws c = false /\ (code c =? 93) = false).
    { destruct (stringify_head x (proj1 Hok)) as (c & t & Ex & H1 & H2 & _). cbn [map].
      destruct (map stringify l); [exists c, t; by unfold join; cbn [String.concat]|].
      rewrite join_cons2, Ex. cbn [String.append]. by do 2 eexists. }
    destruct Hs as (c & t & -> & H1 & H2). cbn [String.append skip_ws]. by rewrite H1, H2.
  - rewrite stringify_members by done. rewrite !app_assoc_str. cbn [String.append parse_value skip_ws].
    change (json_ws "{") with false. cbn iota. change (code "{" =? 34) with false. change (code "{" =? 91) with false.
    change (code "{" =? 123) with true. cbn iota. destruct o as [|[k x] o]; [done|].
    assert (E : parse_members fuel (join "," (members ((k, x) :: o)) +:+ String "}" rest) [] = Some ((k, x) :: o, rest)).
    { apply (parse_members_back _ IH fuel []); [done|done|by destruct Hok|cbn in *; lia]. }
    rewrite E.
    assert (Hs : exists t, join "," (members ((k, x) :: o)) = String (char_of 34) t).
    { unfold members. cbn [map fst snd]. unfold member at 1, quote.
      destruct (map _ o); unfold join; cbn [String.concat]; rewrite ?app_assoc_str; by eexists. }
    destruct Hs as (t & ->). reflexivity.
Qed.

Lemma list_sum_le {A} (f g : A -> nat) l : Forall (fun x => f x <= g x)%nat l -> (list_sum (map f l) <= list_sum (map g l))%nat.
Proof. induction 1 as [|x l Hx Hl IH]; [done|]. cbn [map]. change (f x + list_sum (map f l) <= g x + list_sum (map g l))%nat. lia. Qed.

Lemma length_join (l : list string) : 
  (list_sum (map (fun s => S (String.length s)) l) <= S (String.length (join "," l)))%nat.
Proof.
  induction l as [|a [|b l] IH]; [cbn; lia|cbn; lia|]. rewrite join_cons2, !length_app_str. cbn in *. lia.
Qed.

(** The text is long enough for the fuel. *)
Lemma need_length v : json_ok v -> (need v <= 2 * String.length (stringify v))%nat.
Proof.
  induction v as [| |b|n|s|l IH|o IH] using jsval_ind; intros Hok;
    try (destruct (stringify_head _ Hok) as (c & t & -> & _); cbn; lia); [|].
  - cbn [stringify need]. rewrite !length_app_str. pose proof (length_join (map stringify l)) as L. rewrite map_map in L.
    assert (S1 : (list_sum (map (fun x => S (need x)) l) <= list_sum (map (fun x => 2 * S (String.length (stringify x))) l))%nat).
    { apply list_sum_le. clear L. revert Hok. induction IH as [|x l Hx _ IHl]; [constructor|]. intros [H1 H2].
      constructor; [specialize (Hx H1); lia|by apply IHl]. }
    assert (S2 : forall l, list_sum (map (fun x => 2 * S (String.length (stringify x)))%nat l) =
                 (2 * list_sum (map (fun x => S (String.length (stringify x))) l))%nat).
    { clear. intros l. induction l as [|x l IHl]; [done|]. cbn [map].
      change (list_sum (?a :: ?m)) with (a + list_sum m)%nat. lia. }
    rewrite S2 in S1. cbn [String.length]. lia.
  - rewrite stringify_members by done. cbn [need]. rewrite !length_app_str.
    pose proof (length_join (members o)) as L. unfold members in L at 1. rewrite map_map in L.
    assert (S1 : (list_sum (map (fun '(_, x) => S (need x)) o) <=
                  2 * list_sum (map (fun kv => S (String.length (member kv.1 kv.2))) o))%nat).
    { destruct Hok as [_ Hok]. revert Hok. clear L. induction IH as [|[k x] o Hx _ IHo]; [done|]. intros [H1 H2].
      specialize (Hx H1). specialize (IHo H2). cbn [map fst snd] in *. change (list_sum (?a :: ?m)) with (a + list_sum m)%nat.
      unfold member at 1. rewrite !length_app_str. lia. }
    cbn [String.length]. lia.
Qed.

(** [JSON.parse] inverts [JSON.stringify] on every value JSON can carry (nested arrays and
    objects with distinct keys, arbitrary strings with their escapes, integers). *)
Lemma JSON_parse_stringify v : json_ok v -> JSON_parse (stringify v) = Some v.
Proof.
  intros H. unfold JSON_parse. pose proof (parse_value_back v H (parse_fuel (stringify v)) "") as E.
  rewrite app_nil_r_str in E. rewrite E; [done| |done]. pose proof (need_length v H). unfold parse_fuel. lia.
Qed.

(** A nested value with escapes. *)
Definition sample_json : jsval :=
  VObj [("ps", VStr ("a\" +:+ dquote)); ("port", VInt 443); ("l", VArr [VNull; VBool true; VInt (-5); VObj []])].

Example JSON_parse_stringify_sample : json_ok sample_json /\ JSON_parse (stringify sample_json) = Some sample_json.
Proof.
  assert (H : json_ok sample_json).
  { repeat split; unfold obj_wf; by apply (bool_decide_unpack _). }
  split; [exact H|]. exact (JSON_parse_stringify sample_json H).
Defined.
