(* ===== verification/JsonPretty.v ===== *)
(** * Indented JSON is read back

    [JSON.parse] inverts [JSON.stringify(v, null, 2)] (src/frontend/src/lib/xray/inbound-link.ts
    prints VMess links that way): white space between the tokens changes nothing. *)
From S2P Require Import Prelude JsString JsValue JsObject Utf8 Json.
From Stdlib Require Import Ascii.
Local Open Scope Z_scope.

Definition ws (w : string) : Prop := forall_chars json_ws w = true.

Lemma skip_ws_app w s : ws w -> skip_ws (w +:+ s) = skip_ws s.
Proof. unfold ws. induction w as [|c w IH]; [done|]. cbn. intros [-> H]%andb_true_iff. by apply IH. Qed.

Lemma ws_newline n : ws (newline n).
Proof. unfold ws, newline. cbn [forall_chars]. change (json_ws (char_of 10)) with true. cbn [andb]. by induction (2 * n)%nat. Qed.

Lemma parse_value_ws fuel w s : ws w -> parse_value fuel (w +:+ s) = parse_value fuel s.
Proof. intros H. destruct fuel; [done|]. cbn [parse_value]. by rewrite skip_ws_app. Qed.

Lemma parse_elems_ws fuel w s : ws w -> parse_elems fuel (w +:+ s) = parse_elems fuel s.
Proof. intros H. destruct fuel; [done|]. cbn [parse_elems]. by rewrite parse_value_ws. Qed.

Lemma parse_members_ws fuel w s acc : ws w -> parse_members fuel (w +:+ s) acc = parse_members fuel s acc.
Proof. intros H. destruct fuel; [done|]. cbn [parse_members]. by rewrite skip_ws_app. Qed.

Lemma delim_newline n s : delim (newline n +:+ s).
Proof. cbn. auto. Qed.

Definition pretty_member (d : nat) (k : string) (x : jsval) : string := quote k +:+ ": " +:+ pretty d x.

Definition pretty_members (d : nat) (o : obj) : list string := map (fun kv => pretty_member d kv.1 kv.2) o.

Lemma pretty_obj d o : json_ok (VObj o) -> pretty d (VObj o) = bracketed "{" "}" d (pretty_members (S d) o).
Proof.
  intros [_ H]. cbn [pretty]. f_equal. revert H. induction o as [|[k x] o IH]; cbn; [done|].
  intros [Hx H]. specialize (IH H). destruct x; [done|f_equal; exact IH..].
Qed.

Definition pretty_back (v : jsval) : Prop :=
  json_ok v -> forall d fuel rest, (need v <= fuel)%nat -> delim rest -> parse_value fuel (pretty d v +:+ rest) = Some (v, rest).

Lemma pretty_elems l : Forall pretty_back l -> forall d e fuel rest,
  l <> [] -> json_ok (VArr l) -> (list_sum (map (fun x => S (need x)) l) <= fuel)%nat ->
  parse_elems fuel (join ("," +:+ newline d) (map (pretty d) l) +:+ newline e +:+ String "]" rest) = Some (l, rest).
Proof.
  induction 1 as [|x l Hx Hl IH]; intros d e fuel rest Hne Hj Hf; [done|]. destruct Hj as [Hok Hoks].
  cbn [map list_sum] in Hf. destruct fuel as [|fuel]; [cbn in Hf; lia|]. cbn [parse_elems].
  destruct l as [|y l].
  - unfold join. cbn [map String.concat]. rewrite (Hx Hok d fuel); [|cbn in Hf; lia|apply delim_newline].
    rewrite skip_ws_app by apply ws_newline. done.
  - cbn [map]. rewrite join_cons2, !app_assoc_str. rewrite (Hx Hok d fuel); [|cbn in Hf; lia|cbn; auto].
    change ("," +:+ ?s) with (String "," s). cbn [skip_ws]. change (json_ws ",") with false.
    cbn iota. change (code "," =? 93) with false. change (code "," =? 44) with true. cbn iota.
    rewrite parse_elems_ws by apply ws_newline.
    assert (E : parse_elems fuel (join ("," +:+ newline d) (pretty d y :: map (pretty d) l) +:+ newline e +:+ String "]" rest) = Some (y :: l, rest)).
    { apply IH; [done|done|cbn in *; lia]. }
    by rewrite E.
Qed.

(** One member, after the ones already read. *)
Lemma pretty_member_step d k x fuel acc tail : pretty_back x -> json_ok x -> (need x <= fuel)%nat -> delim tail ->
  parse_members (S fuel) (pretty_member d k x +:+ tail) acc =
  match skip_ws tail with
  | String c r => if code c =? 125 then Some (obj_set acc k x, r)
                  else if code c =? 44 then parse_members fuel r (obj_set acc k x) else None
  | "" => None
  end.
Proof.
  intros Hx Hok Hf Ht. unfold pretty_member, quote. rewrite !app_assoc_str. cbn [parse_members].
  change (dquote +:+ ?s) with (String (char_of 34) s). cbn [skip_ws]. change (json_ws (char_of 34)) with false. cbn iota.
  change (code (char_of 34) =? 34) with true. cbn [negb].
  change (String (char_of 34) ?s) with (dquote +:+ s). rewrite parse_quoted.
  change (": " +:+ ?s) with (String ":" (" " +:+ s)). cbn [skip_ws]. change (json_ws ":") with false. cbn iota.
  change (code ":" =? 58) with true. cbn [negb].
  by rewrite parse_value_ws, (Hx Hok d fuel tail).
Qed.

Lemma obj_set_fresh acc k x o : obj_wf (acc ++ (k, x) :: o) -> obj_set acc k x = acc ++ [(k, x)].
Proof.
  intros Hacc. apply obj_set_new. apply not_true_iff_false. rewrite obj_has_keys. unfold obj_wf, obj_keys in Hacc.
  rewrite map_app in Hacc. apply list.NoDup_app in Hacc as (_ & H & _). intros Hin. apply (H k); [by apply list_elem_of_In|left].
Qed.

Lemma pretty_members_back o : Forall (fun kv => pretty_back kv.2) o -> forall d e fuel acc rest,
  o <> [] -> json_ok (VObj o) -> obj_wf (acc ++ o) -> (list_sum (map (fun '(_, x) => S (need x)) o) <= fuel)%nat ->
  parse_members fuel (join ("," +:+ newline d) (pretty_members d o) +:+ newline e +:+ String "}" rest) acc = Some (acc ++ o, rest).
Proof.
  induction 1 as [|[k x] o Hx Ho IH]; intros d e fuel acc rest Hne Hj Hacc Hf; [done|]. destruct Hj as [Hw [Hok Hoks]].
  cbn [map list_sum fst snd] in *. destruct fuel as [|fuel]; [cbn in Hf; lia|]. pose proof (obj_set_fresh acc k x o Hacc) as Hset.
  destruct o as [|[k2 y] o].
  - unfold pretty_members, join. cbn [map String.concat fst snd].
    rewrite (pretty_member_step d k x) by (done || apply delim_newline || (cbn in Hf; lia)).
    rewrite skip_ws_app by apply ws_newline. cbn [skip_ws]. rewrite Hset. done.
  - unfold pretty_members. cbn [map fst snd]. rewrite join_cons2, !app_assoc_str.
    rewrite (pretty_member_step d k x) by (done || (cbn; auto) || (cbn in Hf; lia)).
    change ("," +:+ ?s) with (String "," s). cbn [skip_ws]. change (json_ws ",") with false. cbn iota.
    change (code "," =? 125) with false. change (code "," =? 44) with true. cbn iota. rewrite Hset.
    rewrite parse_members_ws by apply ws_newline.
    change (pretty_member d k2 y :: map (fun kv => pretty_member d kv.1 kv.2) o) with (pretty_members d ((k2, y) :: o)).
    rewrite (IH d e fuel (acc ++ [(k, x)]) rest); rewrite <- ?app_assoc; [done|done| |done|cbn in *; lia].
    split; [|done]. unfold obj_wf, obj_keys in *. cbn in Hw. by inversion Hw.
Qed.

(** The first character of indented text. *)
Lemma pretty_head d v : json_ok v -> exists c t, pretty d v = String c t /\ json_ws c = false /\ (code c =? 93) = false.
Proof.
  intros H. destruct v as [| |b|n|s|l|o]; try (destruct (stringify_head _ H) as (c & t & E & H1 & H2 & _); by exists c, t).
  - cbn [pretty]. unfold bracketed. destruct (map _ l); by do 2 eexists.
  - rewrite pretty_obj by done. unfold bracketed. destruct (pretty_members _ o); by do 2 eexists.
Qed.

Lemma parse_pretty_value v : pretty_back v.
Proof.
  induction v as [| |b|n|s|l IH|o IH] using jsval_ind; intros Hok d fuel rest Hf Hd; try (by apply parse_value_back).
  - destruct fuel as [|fuel]; [cbn in Hf; lia|]. cbn [pretty]. destruct l as [|x l]; [done|]. unfold bracketed. cbn [map].
    rewrite !app_assoc_str. change ("[" +:+ ?s) with (String "[" s). cbn [parse_value skip_ws].
    change (json_ws "[") with false. cbn iota. change (code "[" =? 34) with false. change (code "[" =? 91) with true. cbn iota.
    rewrite skip_ws_app, parse_elems_ws by apply ws_newline.
    pose proof (pretty_elems (x :: l) IH (S d) d fuel rest ltac:(done) Hok ltac:(cbn in *; lia)) as E. cbn [map] in E.
    change ("]" +:+ rest) with (String "]" rest). rewrite E.
    destruct (pretty_head (S d) x (proj1 Hok)) as (c & t & Ex & H1 & H2).
    assert (Hs : exists t, join ("," +:+ newline (S d)) (pretty (S d) x :: map (pretty (S d)) l) = String c t).
    { destruct (map (pretty (S d)) l); [by exists t|]. rewrite join_cons2, Ex. by eexists. }
    destruct Hs as (t' & ->). cbn [String.append skip_ws]. by rewrite H1, H2.
  - destruct fuel as [|fuel]; [cbn in Hf; lia|]. rewrite pretty_obj by done. destruct o as [|[k x] o]; [done|].
    unfold bracketed, pretty_members. cbn [map fst snd]. rewrite !app_assoc_str. change ("{" +:+ ?s) with (String "{" s). cbn [parse_value skip_ws].
    change (json_ws "{") with false. cbn iota. change (code "{" =? 34) with false. change (code "{" =? 91) with false.
    change (code "{" =? 123) with true. cbn iota. rewrite skip_ws_app, parse_members_ws by apply ws_newline.
    pose proof (pretty_members_back ((k, x) :: o) IH (S d) d fuel [] rest ltac:(done) Hok (proj1 Hok) ltac:(cbn in *; lia)) as E.
    unfold pretty_members in E. cbn [map fst snd app] in E. change ("}" +:+ rest) with (String "}" rest). rewrite E.
    assert (Hs : exists t, join ("," +:+ newline (S d)) (pretty_member (S d) k x :: map (fun kv => pretty_member (S d) kv.1 kv.2) o) = String (char_of 34) t).
    { unfold pretty_member at 1, quote. destruct (map _ o); unfold join; cbn [String.concat]; rewrite ?app_assoc_str; by eexists. }
    destruct Hs as (t' & ->). reflexivity.
Qed.

(** ** Enough fuel *)

Lemma length_join_sep sep (l : list string) : (1 <= String.length sep)%nat ->
  (list_sum (map (fun s => S (String.length s)) l) <= S (String.length (join sep l)))%nat.
Proof.
  intros Hs. induction l as [|a [|b l] IH]; [cbn; lia|cbn; lia|]. rewrite join_cons2, !length_app_str. cbn in *. lia.
Qed.

Lemma length_bracketed a b d items : (list_sum (map (fun s => S (String.length s)) items) + String.length a + String.length b <= S (String.length (bracketed a b d items)))%nat.
Proof.
  unfold bracketed. pose proof (length_join_sep ("," +:+ newline (S d)) items ltac:(cbn; lia)) as L.
  destruct items; rewrite !length_app_str; [cbn; lia|]. lia.
Qed.

Lemma need_pretty v : json_ok v -> forall d, (need v <= 2 * String.length (pretty d v))%nat.
Proof.
  induction v as [| |b|n|s|l IH|o IH] using jsval_ind; intros Hok d; try (by apply need_length).
  - cbn [pretty need]. pose proof (length_bracketed "[" "]" d (map (pretty (S d)) l)) as L. cbn [String.length] in L. rewrite map_map in L.
    assert (S1 : (list_sum (map (fun x => S (need x)) l) <= 2 * list_sum (map (fun x => S (String.length (pretty (S d) x))) l))%nat).
    { clear L. revert Hok. induction IH as [|x l Hx _ IHl]; [done|]. intros [H1 H2]. specialize (Hx H1 (S d)). specialize (IHl H2).
      cbn [map]. change (list_sum (?a :: ?m)) with (a + list_sum m)%nat. lia. }
    lia.
  - rewrite pretty_obj by done. cbn [need]. pose proof (length_bracketed "{" "}" d (pretty_members (S d) o)) as L. cbn [String.length] in L.
    unfold pretty_members in L at 1. rewrite map_map in L.
    assert (S1 : (list_sum (map (fun '(_, x) => S (need x)) o) <= 2 * list_sum (map (fun kv => S (String.length (pretty_member (S d) kv.1 kv.2))) o))%nat).
    { clear L. destruct Hok as [_ Hok]. revert Hok. induction IH as [|[k x] o Hx _ IHo]; [done|]. intros [H1 H2].
      specialize (Hx H1 (S d)). specialize (IHo H2). cbn [map fst snd] in *. change (list_sum (?a :: ?m)) with (a + list_sum m)%nat.
      unfold pretty_member at 1. rewrite !length_app_str. lia. }
    lia.
Qed.

(** [JSON.parse] inverts [JSON.stringify(v, null, 2)]. *)
Lemma JSON_parse_pretty v : json_ok v -> JSON_parse (pretty 0 v) = Some v.
Proof.
  intros H. unfold JSON_parse. pose proof (parse_pretty_value v H 0%nat (parse_fuel (pretty 0 v)) "") as E.
  rewrite app_nil_r_str in E. rewrite E; [done| |done]. pose proof (need_pretty v H 0). unfold parse_fuel. lia.
Qed.
