(* ===== verification/XrayEditor.v ===== *)
(** * The editor of the Xray configuration

    Models the editing state of src/frontend/src/hooks/useXraySetting.ts: the configuration shown both
    as text and as a template object, the URL of the outbound tests, what was last saved, the
    adoption of a fetched configuration during render, saving and resetting.  One step is one event
    with the render that follows it: an edit, a fetched configuration becoming the query's data, the
    request of a save leaving, or the reply to one.  A fetched configuration has an identity
    ([id]), compared as the code compares the objects; [VNull] is the template before the first
    configuration.  [fetchXrayConfig] takes the zod schema as an argument. *)
From S2P Require Import Prelude JsString JsValue Json JsonPretty.

Definition DEFAULT_TEST_URL : string := "https://www.google.com/generate_204".

Definition normalizeOutboundTestUrl (url : string) : string := if String.eqb url "" then DEFAULT_TEST_URL else url.

(** ** Fetching *)

Inductive fetch_result := Config (payload : jsval) | FetchError (message : string).

(** [msg] is the envelope of the reply: its success flag, object and message. *)
Definition fetchXrayConfig (schema : jsval -> option jsval) (success : bool) (payload : jsval) (msg : string) : fetch_result :=
  if negb success then FetchError (if String.eqb msg "" then "Failed to load xray config" else msg)
  else match payload with
       | VStr text =>
           match JSON_parse text with
           | None => FetchError "Malformed xray config response"
           | Some parsed => Config (default parsed (schema parsed))
           end
       | _ => FetchError "Malformed xray config response: expected string"
       end.

(** ** State *)

Record editor := {
  xraySetting : string; templateSettings : jsval; outboundTestUrl : string;
  savedXraySetting : string; savedOutboundTestUrl : string;
  syncedConfig : option nat; syncing : bool;
  saves : list (string * string);        (* saves in flight: what each sent *)
  confirmed : list (string * string)     (* what the server confirmed, latest first: adopted or acknowledged *)
}.

Definition init : editor :=
  {| xraySetting := ""; templateSettings := VNull; outboundTestUrl := DEFAULT_TEST_URL;
     savedXraySetting := ""; savedOutboundTestUrl := DEFAULT_TEST_URL;
     syncedConfig := None; syncing := false; saves := []; confirmed := [("", DEFAULT_TEST_URL)] |}.

(** [!saveDisabled], and the [isDirty] of the adoption. *)
Definition isDirty (s : editor) : bool :=
  negb (String.eqb (savedXraySetting s) (xraySetting s)) ||
  negb (String.eqb (savedOutboundTestUrl s) (normalizeOutboundTestUrl (outboundTestUrl s))).

Definition saveDisabled (s : editor) : bool :=
  String.eqb (savedXraySetting s) (xraySetting s) && String.eqb (savedOutboundTestUrl s) (normalizeOutboundTestUrl (outboundTestUrl s)).

Definition with_content (text : string) (template : jsval) (s : editor) : editor :=
  {| xraySetting := text; templateSettings := template; outboundTestUrl := outboundTestUrl s; savedXraySetting := savedXraySetting s;
     savedOutboundTestUrl := savedOutboundTestUrl s; syncedConfig := syncedConfig s; syncing := syncing s; saves := saves s; confirmed := confirmed s |}.

(** ** Operations *)

Definition setXraySetting (next : string) (s : editor) : editor :=
  let s := with_content next (templateSettings s) s in
  if syncing s then s
  else match JSON_parse next with
       | Some parsed => with_content next parsed s
       | None => s
       end.

Definition setTemplateSettings (f : jsval -> jsval) (s : editor) : editor :=
  let next := f (templateSettings s) in
  if is_nullish next then with_content (xraySetting s) next s
  else with_content (if syncing s then xraySetting s else pretty 0 next) next s.

Definition setOutboundTestUrl (v : string) (s : editor) : editor :=
  {| xraySetting := xraySetting s; templateSettings := templateSettings s; outboundTestUrl := v; savedXraySetting := savedXraySetting s;
     savedOutboundTestUrl := savedOutboundTestUrl s; syncedConfig := syncedConfig s; syncing := syncing s; saves := saves s; confirmed := confirmed s |}.

(** The adoption of the query's data during render. *)
Definition adopt (id : nat) (config : jsval) (s : editor) : editor :=
  if bool_decide (syncedConfig s = Some id) then s
  else if isDirty s then
    {| xraySetting := xraySetting s; templateSettings := templateSettings s; outboundTestUrl := outboundTestUrl s; savedXraySetting := savedXraySetting s;
       savedOutboundTestUrl := savedOutboundTestUrl s; syncedConfig := Some id; syncing := syncing s; saves := saves s; confirmed := confirmed s |}
  else
    let text := pretty 0 (get config "xraySetting") in
    let nextUrl := normalizeOutboundTestUrl (str_or_empty (get config "outboundTestUrl")) in
    {| xraySetting := text; templateSettings := get config "xraySetting"; outboundTestUrl := nextUrl; savedXraySetting := text;
       savedOutboundTestUrl := nextUrl; syncedConfig := Some id; syncing := syncing s; saves := saves s; confirmed := (text, nextUrl) :: confirmed s |}.

(** [saveMut]: its request, and its reply. *)
Definition save (s : editor) : editor :=
  {| xraySetting := xraySetting s; templateSettings := templateSettings s; outboundTestUrl := outboundTestUrl s; savedXraySetting := savedXraySetting s;
     savedOutboundTestUrl := savedOutboundTestUrl s; syncedConfig := syncedConfig s; syncing := syncing s;
     saves := saves s ++ [(xraySetting s, normalizeOutboundTestUrl (outboundTestUrl s))]; confirmed := confirmed s |}.

Definition save_replied (n : nat) (success : bool) (s : editor) : editor :=
  match saves s !! n with
  | None => s
  | Some (sentXraySetting, sentTestUrl) =>
      let s' := {| xraySetting := xraySetting s; templateSettings := templateSettings s; outboundTestUrl := outboundTestUrl s; savedXraySetting := savedXraySetting s;
                   savedOutboundTestUrl := savedOutboundTestUrl s; syncedConfig := syncedConfig s; syncing := syncing s; saves := delete n (saves s); confirmed := confirmed s |} in
      if success then
        {| xraySetting := xraySetting s'; templateSettings := templateSettings s'; outboundTestUrl := outboundTestUrl s'; savedXraySetting := sentXraySetting;
           savedOutboundTestUrl := sentTestUrl; syncedConfig := syncedConfig s'; syncing := syncing s'; saves := saves s'; confirmed := (sentXraySetting, sentTestUrl) :: confirmed s' |}
      else s'
  end.

(** [resetDefaultMut]: the default configuration, cloned through JSON. *)
Definition resetToDefault (success : bool) (defaults : jsval) (s : editor) : editor :=
  if success && truthy defaults then
    match JSON_parse (stringify defaults) with
    | Some cloned => setTemplateSettings (fun _ => cloned) s
    | None => s
    end
  else s.

(** ** Steps *)

Inductive event :=
  | EditText (next : string)
  | EditTemplate (f : jsval -> jsval)
  | EditUrl (v : string)
  | ConfigArrives (id : nat) (config : jsval)
  | SaveSent
  | SaveReplied (n : nat) (success : bool)
  | ResetReplied (success : bool) (defaults : jsval).

Definition step (e : event) (s : editor) : editor :=
  match e with
  | EditText next => setXraySetting next s
  | EditTemplate f => setTemplateSettings f s
  | EditUrl v => setOutboundTestUrl v s
  | ConfigArrives id config => adopt id config s
  | SaveSent => save s
  | SaveReplied n success => save_replied n success s
  | ResetReplied success defaults => resetToDefault success defaults s
  end.

(** What the callers and the server provide: an edit of the template gives JSON (with integer
    numbers) and turns no template into null, and configurations are JSON. *)
Definition event_ok (e : event) (s : editor) : Prop :=
  match e with
  | EditTemplate f => let next := f (templateSettings s) in json_ok next /\ (is_nullish next = true -> next = templateSettings s)
  | ConfigArrives _ config => json_ok (get config "xraySetting")
  | ResetReplied _ defaults => json_ok defaults
  | _ => True
  end.

Inductive reachable : editor -> Prop :=
  | reach_init : reachable init
  | reach_step e s : reachable s -> event_ok e s -> reachable (step e s).

(** ** What holds in every state *)

(** The text and the template are two views of one configuration, unless the text is not JSON. *)
Definition agree (s : editor) : Prop := JSON_parse (xraySetting s) = None \/ JSON_parse (xraySetting s) = Some (templateSettings s).

Record editor_inv (s : editor) : Prop := {
  ei_syncing : syncing s = false;
  ei_agree : agree s;
  ei_saved : List.hd_error (confirmed s) = Some (savedXraySetting s, savedOutboundTestUrl s);
  ei_button : saveDisabled s = true <-> List.hd_error (confirmed s) = Some (xraySetting s, normalizeOutboundTestUrl (outboundTestUrl s)) }.

Lemma saveDisabled_dirty s : saveDisabled s = negb (isDirty s).
Proof. unfold saveDisabled, isDirty. by rewrite negb_orb, !negb_involutive. Qed.

(** The button follows from what was saved. *)
Lemma button_of_saved s : List.hd_error (confirmed s) = Some (savedXraySetting s, savedOutboundTestUrl s) ->
  saveDisabled s = true <-> List.hd_error (confirmed s) = Some (xraySetting s, normalizeOutboundTestUrl (outboundTestUrl s)).
Proof.
  intros ->. unfold saveDisabled. rewrite andb_true_iff, !String.eqb_eq. split; [by intros [-> ->]|by intros [= -> ->]].
Qed.

Lemma agree_pretty text s : json_ok text -> agree (with_content (pretty 0 text) text s).
Proof. intros J. right. cbn [with_content xraySetting templateSettings]. by apply JSON_parse_pretty. Qed.

Lemma agree_setTemplate f s : syncing s = false -> agree s -> json_ok (f (templateSettings s)) ->
  (is_nullish (f (templateSettings s)) = true -> f (templateSettings s) = templateSettings s) -> agree (setTemplateSettings f s).
Proof.
  intros S A J N. unfold setTemplateSettings. cbv zeta. destruct (is_nullish _) eqn:E; [by rewrite N|]. rewrite S. by apply agree_pretty.
Qed.

Lemma step_agree e s : syncing s = false -> agree s -> event_ok e s -> agree (step e s).
Proof.
  intros S A Ok. destruct e as [next|f|v|id config| |n success|success defaults]; cbn [step event_ok] in *; try done.
  - unfold setXraySetting. cbn [with_content syncing templateSettings]. rewrite S. destruct (JSON_parse next) as [v|] eqn:E; [right|left]; done.
  - destruct Ok. by apply agree_setTemplate.
  - unfold adopt. destruct (bool_decide _); [done|]. destruct (isDirty s); [done|]. right. by apply JSON_parse_pretty.
  - unfold save_replied. destruct (saves s !! n) as [[]|]; [|done]. by destruct success.
  - unfold resetToDefault. destruct (success && truthy defaults) eqn:E; [|done]. rewrite JSON_parse_stringify by done. apply agree_setTemplate; try done.
    apply andb_true_iff in E as [_ E]. by destruct defaults.
Qed.

Lemma setTemplate_rest f s : syncing (setTemplateSettings f s) = syncing s /\ confirmed (setTemplateSettings f s) = confirmed s /\
  savedXraySetting (setTemplateSettings f s) = savedXraySetting s /\ savedOutboundTestUrl (setTemplateSettings f s) = savedOutboundTestUrl s.
Proof. unfold setTemplateSettings. cbv zeta. by destruct (is_nullish _). Qed.

Lemma step_saved e s : syncing s = false -> List.hd_error (confirmed s) = Some (savedXraySetting s, savedOutboundTestUrl s) ->
  syncing (step e s) = false /\ List.hd_error (confirmed (step e s)) = Some (savedXraySetting (step e s), savedOutboundTestUrl (step e s)).
Proof.
  intros S H. destruct e as [next|f|v|id config| |n success|success defaults]; cbn [step]; try done.
  - unfold setXraySetting. cbn [with_content syncing]. rewrite S. by destruct (JSON_parse next).
  - destruct (setTemplate_rest f s) as (-> & -> & -> & ->). done.
  - unfold adopt. destruct (bool_decide _); [done|]. by destruct (isDirty s).
  - unfold save_replied. destruct (saves s !! n) as [[]|]; [|done]. by destruct success.
  - unfold resetToDefault. destruct (success && truthy defaults); [|done]. destruct (JSON_parse _) as [c|]; [|done]. destruct (setTemplate_rest (fun _ => c) s) as (-> & -> & -> & ->). done.
Qed.

Lemma reachable_inv s : reachable s -> editor_inv s.
Proof.
  intros R. assert (I : syncing s = false /\ agree s /\ List.hd_error (confirmed s) = Some (savedXraySetting s, savedOutboundTestUrl s)).
  { induction R as [|e s R (S & A & H) Ok]; [split; [done|split; [by left|done]]|]. destruct (step_saved e s S H). split; [done|]. split; [by apply step_agree|done]. }
  destruct I as (S & A & H). split; try done. by apply button_of_saved.
Qed.

(** C17. In every reachable state of the editor, whatever the interleaving of edits, saves and
    fetches: the text and the template show the same configuration unless the text is not JSON, the
    synchronisation flag is never left set, and the save button is off exactly when the content
    shown is what the server confirmed last. *)
Theorem editor_invariant s : reachable s -> editor_inv s.
Proof. apply reachable_inv. Qed.

(** ** Edits are never lost *)

(** Events that write the content shown: the edits, and the defaults that arrive after the user asked for them. *)
Definition rewrites (e : event) : bool :=
  match e with
  | EditText _ | EditTemplate _ | EditUrl _ => true
  | ResetReplied success defaults => success && truthy defaults
  | ConfigArrives _ _ | SaveSent | SaveReplied _ _ => false
  end.

Definition run (l : list event) (s : editor) : editor := fold_left (fun s e => step e s) l s.

(** What is shown, and what of it a save would send. *)
Definition shown (s : editor) : string * jsval * string := (xraySetting s, templateSettings s, outboundTestUrl s).
Definition content (s : editor) : string * string := (xraySetting s, normalizeOutboundTestUrl (outboundTestUrl s)).

Lemma shown_content s t : shown s = shown t -> content s = content t.
Proof. unfold shown, content. by intros [= -> _ ->]. Qed.

Lemma dirty_iff s : isDirty s = false <-> content s = (savedXraySetting s, savedOutboundTestUrl s).
Proof.
  unfold isDirty, content. rewrite orb_false_iff, !negb_false_iff, !String.eqb_eq. split; [by intros [-> ->]|]. by intros [= -> ->].
Qed.

Lemma step_kept e s : rewrites e = false -> isDirty s = true ->
  shown (step e s) = shown s /\ (isDirty (step e s) = false -> exists n, e = SaveReplied n true /\ saves s !! n = Some (content s)).
Proof.
  intros B D. assert (Same : forall t, shown t = shown s /\ isDirty t = isDirty s -> shown t = shown s /\ (isDirty t = false -> exists n, e = SaveReplied n true /\ saves s !! n = Some (content s))).
  { intros t [E1 E2]. split; [done|]. congruence. }
  destruct e as [next|f|v|id config| |n success|success defaults]; try done; cbn [step].
  - apply Same. unfold adopt. destruct (bool_decide _); [done|]. by rewrite D.
  - by apply Same.
  - unfold save_replied. destruct (saves s !! n) as [[text url]|] eqn:E; [|by apply Same]. destruct success; [|by apply Same]. split; [done|].
    intros C%dirty_iff. exists n. split; [done|]. rewrite E. f_equal. symmetry. exact C.
  - apply Same. unfold resetToDefault. cbn [rewrites] in B. by rewrite B.
Qed.

(** C18. Unsaved changes survive everything but the user's own doing.  Through any number of fetches, saves and replies the content
    shown stays as it is and stays unsaved, until the acknowledgement of a save that sent this very content.  Only an edit,
    or the defaults that arrive after a reset was asked for, write the content; what counts as saved is then unchanged, and
    the changes are no longer unsaved exactly when the content is back to what the server confirmed last. *)
Theorem edits_kept s : isDirty s = true ->
  (forall l, forallb (fun e => negb (rewrites e)) l = true ->
     (isDirty (run l s) = true /\ shown (run l s) = shown s) \/
     exists l1 n l2, l = l1 ++ SaveReplied n true :: l2 /\ shown (run l1 s) = shown s /\ saves (run l1 s) !! n = Some (content s)) /\
  (forall e, rewrites e = true ->
     saves (step e s) = saves s /\ (isDirty (step e s) = false <-> content (step e s) = (savedXraySetting s, savedOutboundTestUrl s))).
Proof.
  intros D. split.
  - intros l. revert s D. induction l as [|e l IH]; intros s D F; [by left|]. cbn [forallb] in F. apply andb_true_iff in F as [B%negb_true_iff F].
    destruct (step_kept e s B D) as [S K]. change (run (e :: l) s) with (run l (step e s)). destruct (isDirty (step e s)) eqn:De.
    + destruct (IH _ De F) as [[I1 I2]|(l1 & n & l2 & -> & I2 & I3)]; [left; by rewrite <-S|]. right. exists (e :: l1), n, l2. split; [done|].
      change (run (e :: l1) s) with (run l1 (step e s)). rewrite (shown_content _ _ S) in I3. by rewrite <-S.
    + destruct (K eq_refl) as (n & -> & E). right. by exists [], n, l.
  - intros e B. assert (P : saves (step e s) = saves s /\ savedXraySetting (step e s) = savedXraySetting s /\ savedOutboundTestUrl (step e s) = savedOutboundTestUrl s).
    { destruct e as [next|f|v|id config| |n success|success defaults]; try done; cbn [step].
      - unfold setXraySetting. cbn [with_content syncing]. destruct (syncing s); [done|]. by destruct (JSON_parse next).
      - unfold setTemplateSettings. cbv zeta. by destruct (is_nullish _).
      - unfold resetToDefault. destruct (success && truthy defaults); [|done]. destruct (JSON_parse _); [|done]. unfold setTemplateSettings. cbv zeta. by destruct (is_nullish _). }
    destruct P as (P1 & P2 & P3). split; [done|]. by rewrite dirty_iff, P2, P3.
Qed.

Definition sample_config : jsval := VObj [("xraySetting", VObj [("log", VObj [])]); ("outboundTestUrl", VStr "")].

(** A configuration is adopted, edited while a save is in flight, and the save is acknowledged. *)
Definition sample_editing : editor :=
  step (SaveReplied 0 true) (step (EditText "{}") (step SaveSent (step (EditUrl "http://a") (step (ConfigArrives 1 sample_config) init)))).

Lemma editor_invariant_witness : editor_inv sample_editing /\ saveDisabled sample_editing = false.
Proof.
  split; [|vm_compute; reflexivity]. apply (editor_invariant sample_editing). unfold sample_editing.
  repeat (apply reach_step; [|first [exact I | vm_compute; repeat split; constructor; fail | idtac]]); [apply reach_init|].
  split; [apply (bool_decide_unpack _); vm_compute; reflexivity|]. split; [|exact I]. split; [apply (bool_decide_unpack _); vm_compute; reflexivity|exact I].
Defined.

Lemma edits_kept_witness : let s := step (EditText "{}") (step SaveSent (step (EditText "[]") init)) in
  isDirty s = true /\ xraySetting (run [SaveReplied 0 true; ConfigArrives 7 sample_config] s) = "{}".
Proof.
  cbv zeta. split; [vm_compute; reflexivity|].
  destruct (edits_kept (step (EditText "{}") (step SaveSent (step (EditText "[]") init))) ltac:(vm_compute; reflexivity)) as [H _].
  destruct (H [SaveReplied 0 true; ConfigArrives 7 sample_config] eq_refl) as [[_ E]|(l1 & n & l2 & E & _ & S)].
  - exact (f_equal (fun x => x.1.1) E).
  - exfalso. destruct l1 as [|e1 [|e2 l1]]; [injection E as <- <-; vm_compute in S; discriminate S|injection E as <- E; discriminate E|injection E as _ _ E; by destruct l1].
Defined.

(** The defaults that arrive after a reset was asked for replace edits made meanwhile. *)
Lemma reset_overwrites : let s := step (EditText "[1]") init in isDirty s = true /\ xraySetting (step (ResetReplied true (VObj [("a", VInt 1)])) s) = pretty 0 (VObj [("a", VInt 1)]).
Proof. split; vm_compute; reflexivity. Qed.
