(* ===== verification/QueryBridge.v ===== *)
(** * The bridge from the WebSocket to the query cache

    Models src/frontend/src/api/websocketBridge.ts and src/frontend/src/api/invalidationTracker.ts, with the
    query keys of src/frontend/src/api/queryKeys.ts they use: messages that carry data replace an entry
    of the cache, [invalidate] messages are collected by one timer of 200 ms and mark entries as
    stale unless the panel itself has just done so.  The state is the timer with its due time and
    the payload it closes over, the time of the last local invalidation, the cache entries set, and
    the invalidations made.  Times are those of [Date.now()], in milliseconds. *)
From S2P Require Import Prelude JsString JsValue.
Local Open Scope Z_scope.

Definition query_key : Type := list string.

Record bridge := {
  mounted : bool;
  invalidateTimer : option (Z * string);           (* due time, type of the payload *)
  lastLocalInvalidateAt : Z;
  cache : list (query_key * jsval);                (* setQueryData calls, latest first *)
  invalidated : list query_key                     (* invalidateQueries calls, latest first *)
}.

Definition init : bridge := {| mounted := false; invalidateTimer := None; lastLocalInvalidateAt := 0; cache := []; invalidated := [] |}.

Definition with_timer (t : option (Z * string)) (b : bridge) : bridge :=
  {| mounted := mounted b; invalidateTimer := t; lastLocalInvalidateAt := lastLocalInvalidateAt b; cache := cache b; invalidated := invalidated b |}.

Definition setQueryData (k : query_key) (v : jsval) (b : bridge) : bridge :=
  {| mounted := mounted b; invalidateTimer := invalidateTimer b; lastLocalInvalidateAt := lastLocalInvalidateAt b; cache := (k, v) :: cache b; invalidated := invalidated b |}.

Definition invalidateQueries (k : query_key) (b : bridge) : bridge :=
  {| mounted := mounted b; invalidateTimer := invalidateTimer b; lastLocalInvalidateAt := lastLocalInvalidateAt b; cache := cache b; invalidated := k :: invalidated b |}.

(** ** invalidationTracker.ts *)

Definition markLocalInvalidate (now : Z) (b : bridge) : bridge :=
  {| mounted := mounted b; invalidateTimer := invalidateTimer b; lastLocalInvalidateAt := now; cache := cache b; invalidated := invalidated b |}.

Definition isRecentLocalInvalidate (now windowMs : Z) (b : bridge) : bool := now - lastLocalInvalidateAt b <? windowMs.

(** ** The handlers *)

Definition DEBOUNCE_MS : Z := 200.
Definition LOCAL_WINDOW_MS : Z := 1500.

(** The type an [invalidate] payload asks for; the others are ignored. *)
Definition invalidate_type (payload : jsval) : option string :=
  match get payload "type" with
  | VStr t => if String.eqb t "inbounds" || String.eqb t "clients" then Some t else None
  | _ => None
  end.

Definition onInvalidate (now : Z) (payload : jsval) (b : bridge) : bridge :=
  match invalidate_type payload with
  | None => b
  | Some t => with_timer (Some (now + DEBOUNCE_MS, t)) b
  end.

(** The callback of the timer. *)
Definition onTimer (now : Z) (b : bridge) : bridge :=
  match invalidateTimer b with
  | None => b
  | Some (due, t) =>
      if now <? due then b
      else
        let b := with_timer None b in
        if isRecentLocalInvalidate now LOCAL_WINDOW_MS b then b else invalidateQueries [t] b
  end.

Definition onArray (k : query_key) (payload : jsval) (b : bridge) : bridge :=
  match payload with VArr _ => setQueryData k payload b | _ => b end.

Definition onOutbounds : jsval -> bridge -> bridge := onArray ["xray"; "outboundsTraffic"].
Definition onNodes : jsval -> bridge -> bridge := onArray ["nodes"; "list"].
Definition onInbounds : jsval -> bridge -> bridge := onArray ["inbounds"; "slim"].

Definition mount (b : bridge) : bridge :=
  {| mounted := true; invalidateTimer := invalidateTimer b; lastLocalInvalidateAt := lastLocalInvalidateAt b; cache := cache b; invalidated := invalidated b |}.

(** The cleanup of the effect. *)
Definition unmount (b : bridge) : bridge :=
  {| mounted := false; invalidateTimer := None; lastLocalInvalidateAt := lastLocalInvalidateAt b; cache := cache b; invalidated := invalidated b |}.

(** ** Steps *)

Inductive event :=
  | Message (name : string) (payload : jsval)
  | Timer
  | LocalInvalidate
  | Mount
  | Unmount.

Definition step (now : Z) (e : event) (b : bridge) : bridge :=
  match e with
  | Message name payload =>
      if negb (mounted b) then b
      else if String.eqb name "invalidate" then onInvalidate now payload b
      else if String.eqb name "outbounds" then onOutbounds payload b
      else if String.eqb name "nodes" then onNodes payload b
      else if String.eqb name "inbounds" then onInbounds payload b
      else b
  | Timer => onTimer now b
  | LocalInvalidate => markLocalInvalidate now b
  | Mount => mount b
  | Unmount => unmount b
  end.

Definition run (l : list (Z * event)) (b : bridge) : bridge := fold_left (fun b te => step te.1 te.2 b) l b.

(** ** What a burst of invalidations does *)

(** [invalidate] messages, each one before the timer of the one before it is due; in between the
    timer may be polled. *)
Inductive burst : Z -> string -> list (Z * event) -> Z -> string -> Prop :=
  | burst_one due t : burst due t [] due t
  | burst_poll due t now l due' t' : now < due -> burst due t l due' t' -> burst due t ((now, Timer) :: l) due' t'
  | burst_more due t now payload u l due' t' : now < due -> invalidate_type payload = Some u ->
      burst (now + DEBOUNCE_MS) u l due' t' -> burst due t ((now, Message "invalidate" payload) :: l) due' t'.

Lemma burst_run due t l due' t' : burst due t l due' t' -> forall b, mounted b = true -> invalidateTimer b = Some (due, t) ->
  run l b = with_timer (Some (due', t')) b.
Proof.
  induction 1 as [due t|due t now l due' t' Hn _ IH|due t now payload u l due' t' Hn Hu _ IH]; intros b Hm Ht.
  - cbn. destruct b. cbn in Ht. by subst.
  - change (run ((now, Timer) :: l) b) with (run l (onTimer now b)). unfold onTimer. rewrite Ht. rewrite (proj2 (Z.ltb_lt _ _) Hn). by apply IH.
  - change (run ((now, Message "invalidate" payload) :: l) b) with (run l (step now (Message "invalidate" payload) b)). cbn [step].
    rewrite Hm. cbn [negb String.eqb Ascii.eqb Bool.eqb]. unfold onInvalidate. rewrite Hu. rewrite (IH (with_timer (Some (now + DEBOUNCE_MS, u)) b)) by done. done.
Qed.

Lemma burst_ends now payload u l due t fire b :
  mounted b = true -> invalidate_type payload = Some u -> burst (now + DEBOUNCE_MS) u l due t -> due <= fire ->
  run ((now, Message "invalidate" payload) :: l ++ [(fire, Timer)]) b =
  if isRecentLocalInvalidate fire LOCAL_WINDOW_MS b then with_timer None b else invalidateQueries [t] (with_timer None b).
Proof.
  intros Hm Hu B Hf. change (run ((now, Message "invalidate" payload) :: l ++ [(fire, Timer)]) b) with (run (l ++ [(fire, Timer)]) (step now (Message "invalidate" payload) b)).
  cbn [step]. rewrite Hm. cbn [negb String.eqb Ascii.eqb Bool.eqb]. unfold onInvalidate. rewrite Hu. unfold run. rewrite fold_left_app.
  fold (run l (with_timer (Some (now + DEBOUNCE_MS, u)) b)). rewrite (burst_run _ _ _ _ _ B) by done. cbn [fold_left fst snd step]. unfold onTimer. cbn [with_timer invalidateTimer].
  rewrite (proj2 (Z.ltb_ge _ _) Hf). done.
Qed.

(** A burst of [invalidate] messages ends in one invalidation, that of its last message, once its
    timer is due, unless the panel invalidated by itself in the 1500 ms before; nothing else of the
    bridge changes, whatever types the earlier messages named. *)
Theorem burst_invalidates_last now payload u l due t fire b :
  mounted b = true -> invalidate_type payload = Some u -> burst (now + DEBOUNCE_MS) u l due t -> due <= fire ->
  run ((now, Message "invalidate" payload) :: l ++ [(fire, Timer)]) b =
  if isRecentLocalInvalidate fire LOCAL_WINDOW_MS b then with_timer None b else invalidateQueries [t] (with_timer None b).
Proof. apply burst_ends. Qed.

Definition typed (t : string) : jsval := VObj [("type", VStr t)].

Lemma burst_invalidates_last_witness :
  invalidated (run [(1000, Message "invalidate" (typed "clients")); (1100, Message "invalidate" (typed "inbounds")); (5000, Timer)] (mount init)) = [["inbounds"]].
Proof.
  pose proof (burst_invalidates_last 1000 (typed "clients") "clients" [(1100, Message "invalidate" (typed "inbounds"))] 1300 "inbounds" 5000 (mount init)) as E.
  cbn [app] in E. rewrite E; try reflexivity.
  - apply (burst_more _ _ _ _ "inbounds"); [reflexivity|reflexivity|]. apply burst_one.
  - discriminate.
Defined.

(** The two messages the backend sends together after a structural change of a node: the inbounds
    are never invalidated. *)
Lemma node_change_loses_inbounds now fire b : mounted b = true -> now + DEBOUNCE_MS <= fire -> invalidated b = [] ->
  ~ In ["inbounds"] (invalidated (run [(now, Message "invalidate" (typed "inbounds")); (now, Message "invalidate" (typed "clients")); (fire, Timer)] b)).
Proof.
  intros Hm Hf Hi. assert (L : now < now + DEBOUNCE_MS) by (unfold DEBOUNCE_MS; lia).
  pose proof (burst_ends now (typed "inbounds") "inbounds" [(now, Message "invalidate" (typed "clients"))] (now + DEBOUNCE_MS) "clients" fire b Hm eq_refl
    (burst_more _ "inbounds" now (typed "clients") "clients" [] _ _ L eq_refl (burst_one _ _)) Hf) as E. cbn [app] in E. rewrite E.
  destruct (isRecentLocalInvalidate _ _ _); cbn [with_timer invalidateQueries invalidated]; rewrite Hi; [intros []|]. intros [H|[]]. discriminate H.
Qed.

(** An [invalidate] of the outbounds, which the backend sends after refreshing a subscription, is ignored. *)
Example outbounds_invalidate_ignored now b : mounted b = true -> step now (Message "invalidate" (typed "outbounds")) b = b.
Proof. intros H. cbn. by rewrite H. Qed.
