(* ===== verification/OutboundTests.v ===== *)
(** * Testing all outbounds

    Models the connection tests of src/frontend/src/hooks/useXraySetting.ts: [isUdpOutbound],
    [postOutboundTestBatch], [testOutbound], [testSubscriptionOutbound] and [testAllOutbounds], with
    [isOutboundProtocol] of src/frontend/src/schemas/primitives/outbound-protocol.ts.

    [testAllOutbounds] runs up to eight workers over the queue of TCP probes and, alongside, one
    lane of HTTP batches.  The state of a run is the shared queue, the requests in flight with what
    their sender does next, the results shown, and the requests sent so far.  A step is the reply
    of the server to one request in flight, in any order; the code between two awaits is one step.
    The two result records of the hook are one map over the keys [Tpl index] and [Sub tag].  What
    [HttpUtil.post] and [parseMsg] return for a request is the [response] of the step. *)
From S2P Require Import Prelude JsString JsValue.
From stdpp Require Import gmap countable.

(** ** Which outbounds are tested, and how *)

Definition isOutboundProtocol (outbound : jsval) (id : string) : bool :=
  match get outbound "protocol" with VStr p => String.eqb (to_lower p) id | _ => false end.

Definition isUdpOutbound (outbound : jsval) : bool :=
  let network := match get (get outbound "streamSettings") "network" with VStr n => to_lower n | _ => "" end in
  isOutboundProtocol outbound "wireguard" || isOutboundProtocol outbound "hysteria" || isOutboundProtocol outbound "amneziawg" ||
  String.eqb network "hysteria" || String.eqb network "kcp" || String.eqb network "mkcp" || String.eqb network "quic".

(** The key under which a result is shown. *)
Inductive test_key := Tpl (index : nat) | Sub (tag : string).

#[export] Instance test_key_eq_dec : EqDecision test_key.
Proof. solve_decision. Defined.

#[export] Instance test_key_countable : Countable test_key.
Proof.
  refine (inj_countable' (fun k => match k with Tpl i => inl i | Sub t => inr t end) (fun s => match s with inl i => Tpl i | inr t => Sub t end) _).
  by intros [].
Defined.

Definition item : Type := test_key * jsval.

Record queues := { tcpQueue : list item; httpTplQueue : list item; httpSubQueue : list item }.

(** The outbounds that are never probed. *)
Definition skipped (ob : jsval) : bool :=
  isOutboundProtocol ob "blackhole" || isOutboundProtocol ob "loopback" || is_str (get ob "tag") "blocked" ||
  isOutboundProtocol ob "freedom" || isOutboundProtocol ob "dns".

Definition enqueue (mode : string) (q : queues) (it : item) : queues :=
  let '(key, ob) := it in
  if skipped ob then q
  else if match key with Sub tag => String.eqb tag "" | Tpl _ => false end then q
  else
    let toHttp := negb (String.eqb mode "tcp") || isUdpOutbound ob in
    match key with
    | Tpl _ => if toHttp then {| tcpQueue := tcpQueue q; httpTplQueue := httpTplQueue q ++ [it]; httpSubQueue := httpSubQueue q |}
               else {| tcpQueue := tcpQueue q ++ [it]; httpTplQueue := httpTplQueue q; httpSubQueue := httpSubQueue q |}
    | Sub _ => if toHttp then {| tcpQueue := tcpQueue q; httpTplQueue := httpTplQueue q; httpSubQueue := httpSubQueue q ++ [it] |}
               else {| tcpQueue := tcpQueue q ++ [it]; httpTplQueue := httpTplQueue q; httpSubQueue := httpSubQueue q |}
    end.

Definition keyed (templateList subList : list jsval) : list item :=
  imap (fun i ob => (Tpl i, ob)) templateList ++ map (fun ob => (Sub (str_or_empty (get ob "tag")), ob)) subList.

Definition build_queues (mode : string) (templateList subList : list jsval) : queues :=
  fold_left (enqueue mode) (keyed templateList subList) {| tcpQueue := []; httpTplQueue := []; httpSubQueue := [] |}.

Definition HTTP_BATCH_CHUNK : nat := 16.

(** [slice(at, at + n)] for [at = 0, n, 2n, ...] *)
Fixpoint chunks (fuel n : nat) (l : list item) : list (list item) :=
  match fuel with
  | O => []
  | S fuel => match l with [] => [] | _ => take n l :: chunks fuel n (drop n l) end
  end.

Definition batches (l : list item) : list (list item) := chunks (length l) HTTP_BATCH_CHUNK l.

(** ** Replies *)

(** What comes back of one request. *)
Inductive response :=
  | Raised (error : string)                                      (* the post or the parser threw *)
  | Replied (success : bool) (obj : option (list jsval)) (msg : string).

Definition failure (error mode : string) : jsval := VObj [("success", VBool false); ("error", VStr error); ("mode", VStr mode)].

Definition postOutboundTestBatch (outbounds : list jsval) (effMode : string) (resp : response) : list jsval :=
  let failAll error := map (fun _ => failure error effMode) outbounds in
  match resp with
  | Raised e => failAll e
  | Replied true (Some list) _ => imap (fun i _ => or_nullish (default VUndef (list !! i)) (failure "Missing result" effMode)) outbounds
  | Replied _ _ msg => failAll (if String.eqb msg "" then "Unknown error" else msg)
  end.

(** ** A run *)

Record test_state := { testing : bool; result : jsval; tmode : option string }.

(** A request in flight: a worker's probe, or a batch with the batches that come after it. *)
Inductive request :=
  | ReqTcp (it : item)
  | ReqHttp (chunk : list item) (rest : list (list item)).

Definition items_of (r : request) : list item := match r with ReqTcp it => [it] | ReqHttp chunk _ => chunk end.

Record trun := {
  queue : list item;
  flight : list request;
  states : gmap test_key test_state;
  sent : list (list item) }.

(** [setOutboundTestStates] / [setSubscriptionTestStates] *)
Definition show_testing (mode : string) (items : list item) (m : gmap test_key test_state) : gmap test_key test_state :=
  foldl (fun m it => <[it.1 := {| testing := true; result := VNull; tmode := Some mode |}]> m) m items.

Definition show_results (items : list item) (results : list jsval) (m : gmap test_key test_state) : gmap test_key test_state :=
  foldl (fun m ir => <[ir.1.1 := {| testing := false; result := ir.2; tmode := None |}]> m) m (zip items results).

Section Run.
Context (mode : string).

(** The mode of a probe or of a batch of a run of mode [mode]. *)
Definition request_mode (r : request) : string :=
  match r with
  | ReqTcp (_, ob) => if String.eqb mode "tcp" && isUdpOutbound ob then "http" else mode
  | ReqHttp _ _ => if String.eqb mode "real" then "real" else "http"
  end.

Definition send (r : request) (s : trun) : trun :=
  {| queue := queue s; flight := flight s ++ [r]; states := show_testing (request_mode r) (items_of r) (states s); sent := sent s ++ [items_of r] |}.

(** A worker's turn: it shifts items until one has an outbound to probe. *)
Fixpoint shift (q : list item) : option (item * list item) :=
  match q with
  | [] => None
  | it :: q => if truthy it.2 then Some (it, q) else shift q
  end.

Definition work (s : trun) : trun :=
  match shift (queue s) with
  | Some (it, q) => send (ReqTcp it) {| queue := q; flight := flight s; states := states s; sent := sent s |}
  | None => {| queue := []; flight := flight s; states := states s; sent := sent s |}
  end.

(** The HTTP lane's turn. *)
Definition advance (rest : list (list item)) (s : trun) : trun :=
  match rest with
  | [] => s
  | chunk :: rest => send (ReqHttp chunk rest) s
  end.

Definition MAX_WORKERS : nat := 8.

(** [testAllOutbounds] up to its first await: the workers and the lane have sent what they send. *)
Definition start (q : queues) (m : gmap test_key test_state) : trun :=
  let s := {| queue := tcpQueue q; flight := []; states := m; sent := [] |} in
  let s := Nat.iter (Nat.min MAX_WORKERS (length (tcpQueue q))) work s in
  advance (batches (httpTplQueue q) ++ batches (httpSubQueue q)) s.

Definition testAllOutbounds (testingAll : bool) (templateList subList : list jsval) (m : gmap test_key test_state) : option trun :=
  match templateList, subList with
  | [], [] => None
  | _, _ => if testingAll then None else Some (start (build_queues mode templateList subList) m)
  end.

(** The reply to the [n]-th request in flight. *)
Definition reply (n : nat) (resp : response) (s : trun) : option trun :=
  match flight s !! n with
  | None => None
  | Some r =>
      let results := postOutboundTestBatch (map snd (items_of r)) (request_mode r) resp in
      let s := {| queue := queue s; flight := delete n (flight s);
                  states := show_results (items_of r) results (states s); sent := sent s |} in
      Some (match r with ReqTcp _ => work s | ReqHttp _ rest => advance rest s end)
  end.

(** [testingAll] is cleared when nothing is in flight any more. *)
Definition finished (s : trun) : bool := match flight s with [] => true | _ => false end.

Fixpoint replies (l : list (nat * response)) (s : trun) : option trun :=
  match l with
  | [] => Some s
  | (n, resp) :: l => match reply n resp s with Some s => replies l s | None => None end
  end.

(** ** Batches *)

Definition is_tcp (r : request) : bool := match r with ReqTcp _ => true | ReqHttp _ _ => false end.
Definition is_http (r : request) : bool := negb (is_tcp r).

Definition count (p : request -> bool) (l : list request) : nat := length (List.filter p l).

Definition batch_ok (chunk : list item) : Prop := (0 < length chunk <= HTTP_BATCH_CHUNK)%nat.

Lemma chunks_spec fuel n : (0 < n)%nat -> forall l, (length l <= fuel)%nat ->
  concat (chunks fuel n l) = l /\ Forall (fun c => (0 < length c <= n)%nat) (chunks fuel n l).
Proof.
  intros Hn. induction fuel as [|fuel IH]; intros l Hl; [by destruct l; [|cbn in Hl; lia]|]. cbn [chunks]. destruct l as [|x l]; [done|].
  destruct (IH (drop n (x :: l))) as [E F]; [rewrite length_drop; cbn in *; lia|]. split; [cbn [concat]; by rewrite E, take_drop|].
  constructor; [|done]. rewrite length_take. cbn. lia.
Qed.

Lemma batches_spec l : concat (batches l) = l /\ Forall batch_ok (batches l).
Proof. apply chunks_spec; [unfold HTTP_BATCH_CHUNK|]; lia. Qed.

Lemma post_length obs md resp : length (postOutboundTestBatch obs md resp) = length obs.
Proof. unfold postOutboundTestBatch. destruct resp as [|[] []]; by rewrite ?length_imap, ?length_map. Qed.

(** ** The invariant of a run *)

(** Batches that a lane in flight has still to send. *)
Definition waiting (l : list request) : list (list item) := concat (map (fun r => match r with ReqHttp _ rest => rest | ReqTcp _ => [] end) l).

Definition has_outbound (it : item) : bool := truthy it.2.

Definition keys_in (l : list request) : list test_key := map fst (concat (map items_of l)).

(** The result shown for a key that was sent: pending only while a request for it is in flight. *)
Definition shown (s : trun) (it : item) : Prop :=
  exists st, states s !! it.1 = Some st /\ if testing st then In it.1 (keys_in (flight s)) else tmode st = None.

(** [rest]: batches of a lane that is about to send; [all]: the items of the run. *)
Record run_inv (all : list item) (rest : list (list item)) (s : trun) : Prop := {
  ri_items : Permutation (concat (sent s) ++ List.filter has_outbound (queue s) ++ concat (waiting (flight s)) ++ concat rest) all;
  ri_http : (count is_http (flight s) + (match rest with [] => 0 | _ => 1 end) <= 1)%nat;
  ri_rest : Forall batch_ok rest;
  ri_waiting : Forall batch_ok (waiting (flight s));
  ri_flight : Forall (fun r => batch_ok (items_of r)) (flight s);
  ri_sent : Forall (fun c => c <> []) (sent s);
  ri_shown : forall it, In it (concat (sent s)) -> shown s it }.

Lemma count_app p a b : count p (a ++ b) = (count p a + count p b)%nat.
Proof. unfold count. by rewrite filter_app, length_app. Qed.

Lemma waiting_app a b : waiting (a ++ b) = waiting a ++ waiting b.
Proof. unfold waiting. by rewrite map_app, concat_app. Qed.

Lemma keys_in_app a b : keys_in (a ++ b) = keys_in a ++ keys_in b.
Proof. unfold keys_in. by rewrite map_app, concat_app, map_app. Qed.

(** ** The result maps *)

Lemma show_testing_lookup md items : forall m k,
  show_testing md items m !! k = if existsb (fun it => bool_decide (it.1 = k)) items then Some {| testing := true; result := VNull; tmode := Some md |} else m !! k.
Proof.
  unfold show_testing. induction items as [|it items IH]; intros m k; [done|]. cbn [foldl existsb]. rewrite IH.
  destruct (existsb (fun it => bool_decide (it.1 = k)) items); [by rewrite orb_true_r|]. rewrite orb_false_r. destruct (decide (it.1 = k)) as [E|E].
  - rewrite bool_decide_true by done. by rewrite E, lookup_insert_eq.
  - rewrite bool_decide_false by done. by rewrite lookup_insert_ne.
Qed.

Lemma show_results_other items : forall results m k, (forall it, In it items -> it.1 <> k) -> show_results items results m !! k = m !! k.
Proof.
  unfold show_results. induction items as [|it items IH]; intros results m k H; [done|]. destruct results as [|r results]; [done|]. cbn [zip zip_with foldl].
  rewrite IH by (intros; apply H; by right). cbn. apply lookup_insert_ne. apply H. by left.
Qed.

Lemma show_results_in items : forall results m it, length results = length items -> In it items ->
  exists r, show_results items results m !! it.1 = Some {| testing := false; result := r; tmode := None |}.
Proof.
  unfold show_results. induction items as [|i items IH]; intros results m it L H; [done|]. destruct results as [|r results]; [done|]. cbn [zip zip_with foldl] in *.
  destruct (in_dec (fun a b : test_key => decide (a = b)) it.1 (map fst items)) as [Hk|Hk].
  - apply in_map_iff in Hk as (it' & E & Hi). destruct (IH results (<[i.1:={| testing := false; result := r; tmode := None |}]> m) it') as (r' & Hr); [cbn in L; lia|done|]. exists r'. by rewrite <-E.
  - destruct H as [->|H]; [|destruct Hk; by apply in_map]. exists r. change (show_results items results (<[it.1:={| testing := false; result := r; tmode := None |}]> m) !! it.1 = Some {| testing := false; result := r; tmode := None |}).
    rewrite show_results_other; [apply lookup_insert_eq|]. intros j Hj E. apply Hk. rewrite <-E. by apply in_map.
Qed.

(** ** Preservation *)

Lemma shift_spec q : match shift q with
                     | Some (it, q') => List.filter has_outbound q = it :: List.filter has_outbound q'
                     | None => List.filter has_outbound q = []
                     end.
Proof.
  induction q as [|it q IH]; [done|]. cbn [shift List.filter]. change (truthy it.2) with (has_outbound it). destruct (has_outbound it); [done|exact IH].
Qed.

Lemma shown_send r s s' it : flight s' = flight s ++ [r] -> states s' = show_testing (request_mode r) (items_of r) (states s) ->
  In it (items_of r) \/ shown s it -> shown s' it.
Proof.
  intros F S H. unfold shown. rewrite S, F, show_testing_lookup, keys_in_app. destruct (existsb (fun i => bool_decide (i.1 = it.1)) (items_of r)) eqn:E.
  - eexists. split; [done|]. cbn [testing]. apply in_or_app. right. apply existsb_exists in E as (i & Hi & Ek%bool_decide_eq_true). rewrite <-Ek.
    unfold keys_in. cbn. rewrite app_nil_r. by apply in_map.
  - destruct H as [H|(st & Hs & Ht)].
    + assert (existsb (fun i => bool_decide (i.1 = it.1)) (items_of r) = true); [|congruence]. apply existsb_exists. exists it. split; [done|]. by apply bool_decide_true.
    + exists st. split; [done|]. destruct (testing st); [|done]. apply in_or_app. by left.
Qed.

(** A request sent, its items taken from the queue or from the batches that wait. *)
Lemma inv_send all rest rest' q r s : run_inv all rest s ->
  Permutation (List.filter has_outbound (queue s) ++ concat rest)
              (items_of r ++ List.filter has_outbound q ++ concat (waiting [r]) ++ concat rest') ->
  (count is_http [r] + (match rest' with [] => 0 | _ => 1 end) <= (match rest with [] => 0 | _ => 1 end))%nat ->
  Forall batch_ok rest' -> Forall batch_ok (waiting [r]) -> batch_ok (items_of r) ->
  run_inv all rest' (send r {| queue := q; flight := flight s; states := states s; sent := sent s |}).
Proof.
  intros [I H R W F S Sh] P Hc Hr Hw Hb. split; cbn [send queue flight states sent].
  - rewrite <-I, waiting_app, !concat_app. cbn [concat]. rewrite app_nil_r.
    revert P. generalize (concat (sent s)) (concat (waiting (flight s))) (List.filter has_outbound (queue s)) (concat rest) (items_of r) (List.filter has_outbound q) (concat (waiting [r])) (concat rest').
    intros A W' Q R' I' Q' V R'' P. transitivity (A ++ W' ++ Q ++ R'); [rewrite P|]; solve_Permutation.
  - rewrite count_app. lia.
  - done.
  - rewrite waiting_app. by apply Forall_app.
  - apply Forall_app. split; [done|]. by constructor.
  - apply Forall_app. split; [done|]. constructor; [|done]. intros E. unfold batch_ok in Hb. rewrite E in Hb. cbn in Hb. lia.
  - intros it. rewrite concat_app. cbn [concat]. rewrite app_nil_r. intros [Hi|Hi]%in_app_iff; eapply shown_send; try done; [right; by apply Sh|by left].
Qed.

Lemma inv_queue all rest s q : run_inv all rest s -> List.filter has_outbound q = List.filter has_outbound (queue s) ->
  run_inv all rest {| queue := q; flight := flight s; states := states s; sent := sent s |}.
Proof. intros [I H R W F S Sh] E. split; cbn; rewrite ?E; done. Qed.

Lemma inv_work all rest s : run_inv all rest s -> run_inv all rest (work s).
Proof.
  intros I. unfold work. pose proof (shift_spec (queue s)) as E. destruct (shift (queue s)) as [[it q]|].
  - eapply inv_send; [done| | |apply (ri_rest _ _ _ I)|constructor|unfold batch_ok, HTTP_BATCH_CHUNK; cbn; lia].
    + rewrite E. cbn. done.
    + cbn. lia.
  - by apply inv_queue.
Qed.

Lemma inv_advance all rest s : run_inv all rest s -> run_inv all [] (advance rest s).
Proof.
  intros I. unfold advance. pose proof (ri_rest _ _ _ I) as R. destruct rest as [|chunk rest]; [done|]. inversion R as [|? ? Hc Hr]; subst.
  assert (W : waiting [ReqHttp chunk rest] = rest) by (unfold waiting; cbn; apply app_nil_r).
  replace s with {| queue := queue s; flight := flight s; states := states s; sent := sent s |} by (by destruct s).
  eapply inv_send; [done| | |constructor|by rewrite W|done].
  - rewrite W. cbn [items_of concat]. solve_Permutation.
  - cbn. lia.
Qed.

(** The reply to a request: its results are shown and it leaves the flight. *)
Definition rest_of (r : request) : list (list item) := match r with ReqHttp _ rest => rest | ReqTcp _ => [] end.

Lemma inv_settle all s n r results : run_inv all [] s -> flight s !! n = Some r -> length results = length (items_of r) ->
  run_inv all (rest_of r) {| queue := queue s; flight := delete n (flight s); states := show_results (items_of r) results (states s); sent := sent s |}.
Proof.
  intros [I H R W F Sn Sh] E L. pose proof (delete_take_drop (flight s) n) as D. pose proof (take_drop_middle _ _ _ E) as M.
  set (a := take n (flight s)) in *. set (b := drop (S n) (flight s)) in *.
  assert (K : waiting [r] = rest_of r) by (unfold waiting; destruct r; cbn; by rewrite ?app_nil_r).
  assert (Wt : waiting (flight s) = waiting a ++ rest_of r ++ waiting b) by (rewrite <-M; change (r :: b) with ([r] ++ b); by rewrite !waiting_app, K).
  split; cbn [queue flight states sent]; rewrite ?D.
  - rewrite <-I, Wt, waiting_app, !concat_app. cbn [concat]. solve_Permutation.
  - assert (C : (count is_http (a ++ b) + count is_http [r] <= 1)%nat).
    { revert H. rewrite <-M at 1. change (r :: b) with ([r] ++ b). rewrite !count_app. cbn. lia. }
    destruct r; cbn in C |- *; [lia|]. destruct rest; lia.
  - rewrite Wt, !Forall_app in W. tauto.
  - rewrite Wt, !Forall_app in W. rewrite waiting_app, Forall_app. tauto.
  - rewrite <-M, Forall_app, Forall_cons_iff in F. rewrite Forall_app. tauto.
  - done.
  - intros it Hit. destruct (Sh it Hit) as (st & Hs & Ht). unfold shown. cbn [states flight].
    destruct (in_dec (fun x y : test_key => decide (x = y)) it.1 (map fst (items_of r))) as [Hk|Hk].
    + apply in_map_iff in Hk as (i & Ei & Hi). destruct (show_results_in (items_of r) results (states s) i L Hi) as (x & Hx). rewrite Ei in Hx. by eexists.
    + exists st. rewrite show_results_other; [split; [done|]|intros i Hi Ei; apply Hk; rewrite <-Ei; by apply in_map].
      destruct (testing st); [|done]. rewrite <-M in Ht. change (r :: b) with ([r] ++ b) in Ht. rewrite !keys_in_app, !in_app_iff in Ht. rewrite keys_in_app, in_app_iff.
      destruct Ht as [Ht|[Ht|Ht]]; [by left| |by right]. destruct Hk. unfold keys_in in Ht. cbn in Ht. by rewrite app_nil_r in Ht.
Qed.

(** The workers: never more than eight, and one of them is there as long as items are queued. *)
Record workers_ok (s : trun) : Prop := {
  wo_count : (count is_tcp (flight s) <= MAX_WORKERS)%nat;
  wo_live : shift (queue s) <> None -> (0 < count is_tcp (flight s))%nat }.

Lemma work_workers s : (count is_tcp (flight s) < MAX_WORKERS)%nat -> workers_ok (work s).
Proof.
  intros H. unfold work. destruct (shift (queue s)) as [[it q]|]; split; cbn [send flight queue]; rewrite ?count_app; cbn; try done; lia.
Qed.

Lemma work_count s : (count is_tcp (flight (work s)) <= S (count is_tcp (flight s)))%nat.
Proof. unfold work. destruct (shift (queue s)) as [[it q]|]; cbn [send flight]; rewrite ?count_app; cbn; lia. Qed.

Lemma advance_workers rest s : workers_ok s -> workers_ok (advance rest s).
Proof. intros [C L]. destruct rest as [|c rest]; [done|]. split; cbn [advance send flight queue]; rewrite count_app; cbn; [lia|]. intros H%L. lia. Qed.

Lemma start_workers k : forall s, count is_tcp (flight s) = 0%nat -> (k <= MAX_WORKERS)%nat -> (k = 0%nat -> queue s = []) ->
  (count is_tcp (flight (Nat.iter k work s)) <= k)%nat /\ workers_ok (Nat.iter k work s).
Proof.
  induction k as [|k IH]; intros s H Hk Hq; [cbn [Nat.iter nat_rect]; split; [lia|split; [lia|by rewrite (Hq eq_refl)]]|].
  change (Nat.iter (S k) work s) with (work (Nat.iter k work s)).
  assert (C : (count is_tcp (flight (Nat.iter k work s)) <= k)%nat).
  { clear IH Hq Hk. induction k as [|k IH]; [cbn; lia|]. change (Nat.iter (S k) work s) with (work (Nat.iter k work s)). pose proof (work_count (Nat.iter k work s)). lia. }
  split; [pose proof (work_count (Nat.iter k work s)); lia|]. apply work_workers. lia.
Qed.

(** ** Whole runs *)

(** The items a run probes. *)
Definition probed (q : queues) : list item := List.filter has_outbound (tcpQueue q) ++ httpTplQueue q ++ httpSubQueue q.

(** The outbounds of the lists that are worth a test. *)
Definition testable (it : item) : bool :=
  negb (skipped it.2) && negb (match it.1 with Sub tag => String.eqb tag "" | Tpl _ => false end) &&
  (negb (String.eqb mode "tcp") || isUdpOutbound it.2 || has_outbound it).

Lemma enqueue_probed q it : Permutation (probed (enqueue mode q it)) (probed q ++ (if testable it then [it] else [])).
Proof.
  unfold enqueue, testable, probed. destruct it as [key ob]. cbn [fst snd]. destruct (skipped ob); cbn [negb andb]; [by rewrite app_nil_r|].
  destruct (match key with Sub tag => String.eqb tag "" | Tpl _ => false end); cbn [negb andb]; [by rewrite app_nil_r|].
  destruct (negb (String.eqb mode "tcp") || isUdpOutbound ob); destruct key; cbn [orb tcpQueue httpTplQueue httpSubQueue];
    rewrite ?filter_app; cbn [List.filter]; try solve_Permutation; destruct (has_outbound _); solve_Permutation.
Qed.

Lemma build_probed templateList subList :
  Permutation (probed (build_queues mode templateList subList)) (List.filter (testable) (keyed templateList subList)).
Proof.
  unfold build_queues. generalize (keyed templateList subList). intros l.
  assert (G : forall q, Permutation (probed (fold_left (enqueue mode) l q)) (probed q ++ List.filter (testable) l)); [|apply (G {| tcpQueue := []; httpTplQueue := []; httpSubQueue := [] |})].
  induction l as [|it l IH]; intros q; [by rewrite app_nil_r|]. cbn [fold_left List.filter]. rewrite IH, enqueue_probed. destruct (testable it); solve_Permutation.
Qed.

Lemma run_inv_perm all all' rest s : Permutation all all' -> run_inv all rest s -> run_inv all' rest s.
Proof. intros P [I H R W F Sn Sh]. split; try done. by rewrite I. Qed.

Lemma start_ok q m : run_inv (probed q) [] (start q m) /\ workers_ok (start q m).
Proof.
  unfold start. set (s0 := {| queue := tcpQueue q; flight := []; states := m; sent := [] |}). set (k := Nat.min MAX_WORKERS (length (tcpQueue q))).
  destruct (batches_spec (httpTplQueue q)) as [E1 F1]. destruct (batches_spec (httpSubQueue q)) as [E2 F2].
  assert (I0 : run_inv (probed q) (batches (httpTplQueue q) ++ batches (httpSubQueue q)) s0).
  { split; cbn; try done; [|destruct (batches _ ++ batches _); lia|by apply Forall_app]. rewrite concat_app, E1, E2. done. }
  assert (I : run_inv (probed q) (batches (httpTplQueue q) ++ batches (httpSubQueue q)) (Nat.iter k work s0)).
  { clearbody k. induction k as [|k IH]; [done|]. apply inv_work, IH. }
  split; [by apply inv_advance|]. apply advance_workers, start_workers; [done|lia|]. intros Hk. subst k. cbn. unfold MAX_WORKERS in Hk. by destruct (tcpQueue q).
Qed.

Lemma reply_ok all n resp s s' : run_inv all [] s -> workers_ok s -> reply n resp s = Some s' -> run_inv all [] s' /\ workers_ok s'.
Proof.
  intros I [C L]. unfold reply. destruct (flight s !! n) as [r|] eqn:E; [|done]. intros [= <-].
  set (res := postOutboundTestBatch _ _ _). assert (Lr : length res = length (items_of r)) by (subst res; by rewrite post_length, length_map).
  pose proof (inv_settle all s n r res I E Lr) as J. set (t := {| queue := queue s; flight := delete n (flight s); states := _; sent := _ |}) in *.
  assert (Ct : (count is_tcp (flight t) + count is_tcp [r] = count is_tcp (flight s))%nat).
  { subst t. cbn [flight]. rewrite delete_take_drop. rewrite <-(take_drop_middle _ _ _ E) at 3. change (r :: drop (S n) (flight s)) with ([r] ++ drop (S n) (flight s)). rewrite !count_app. lia. }
  destruct r as [it|chunk rest]; cbn [rest_of] in J.
  - split; [by apply inv_work|]. apply work_workers. change (count is_tcp [ReqTcp it]) with 1%nat in Ct. lia.
  - split; [by apply inv_advance|]. apply advance_workers. change (count is_tcp [ReqHttp chunk rest]) with 0%nat in Ct. split; [lia|]. intros H. apply L in H. lia.
Qed.

(** The requests that were answered. *)
Definition balance (s : trun) : nat := (length (sent s) - length (flight s))%nat.

Lemma work_balance s : (length (flight s) <= length (sent s))%nat -> (length (flight (work s)) <= length (sent (work s)))%nat /\ balance (work s) = balance s.
Proof. intros H. unfold work, balance. destruct (shift (queue s)) as [[it q]|]; cbn; rewrite ?length_app; cbn; lia. Qed.

Lemma advance_balance rest s : (length (flight s) <= length (sent s))%nat -> (length (flight (advance rest s)) <= length (sent (advance rest s)))%nat /\ balance (advance rest s) = balance s.
Proof. intros H. unfold advance, balance. destruct rest; cbn; rewrite ?length_app; cbn; lia. Qed.

Lemma start_balance q m : (length (flight (start q m)) <= length (sent (start q m)))%nat /\ balance (start q m) = 0%nat.
Proof.
  unfold start. set (s0 := {| queue := tcpQueue q; flight := []; states := m; sent := [] |}). set (k := Nat.min _ _). clearbody k.
  assert (H : (length (flight (Nat.iter k work s0)) <= length (sent (Nat.iter k work s0)))%nat /\ balance (Nat.iter k work s0) = 0%nat).
  { induction k as [|k [IH1 IH2]]; [by cbn|]. change (Nat.iter (S k) work s0) with (work (Nat.iter k work s0)). destruct (work_balance _ IH1) as [A B]. split; [done|congruence]. }
  destruct H as [H1 H2]. destruct (advance_balance (batches (httpTplQueue q) ++ batches (httpSubQueue q)) _ H1) as [A B]. split; [done|congruence].
Qed.

Lemma reply_balance n resp s s' : (length (flight s) <= length (sent s))%nat -> reply n resp s = Some s' ->
  (length (flight s') <= length (sent s'))%nat /\ balance s' = S (balance s).
Proof.
  intros H. unfold reply. destruct (flight s !! n) as [r|] eqn:E; [|done]. intros [= <-]. set (t := {| queue := queue s; flight := delete n (flight s); states := _; sent := _ |}).
  assert (D : length (flight s) = S (length (flight t))) by (subst t; cbn; rewrite length_delete by done; pose proof (lookup_lt_Some _ _ _ E); lia).
  assert (Ht : (length (flight t) <= length (sent t))%nat /\ balance t = S (balance s)) by (unfold balance; change (sent t) with (sent s); lia).
  destruct Ht as [H1 H2]. destruct r as [it|chunk rest]; [destruct (work_balance t H1) as [A B]|destruct (advance_balance rest t H1) as [A B]]; (split; [done|congruence]).
Qed.

Lemma replies_ok all l : forall s s', run_inv all [] s -> workers_ok s -> (length (flight s) <= length (sent s))%nat -> replies l s = Some s' ->
  run_inv all [] s' /\ workers_ok s' /\ (length (flight s') <= length (sent s'))%nat /\ balance s' = (length l + balance s)%nat.
Proof.
  induction l as [|[n resp] l IH]; intros s s' I W B; cbn [replies]; [intros [= <-]; done|].
  destruct (reply n resp s) as [t|] eqn:E; [|done]. intros H. destruct (reply_ok _ _ _ _ _ I W E) as [I' W']. destruct (reply_balance _ _ _ _ B E) as [B' E'].
  destruct (IH t s' I' W' B' H) as (? & ? & ? & Eb). do 3 (split; [done|]). rewrite Eb, E'. cbn. lia.
Qed.

Lemma finished_queue all s : run_inv all [] s -> workers_ok s -> finished s = true -> Permutation (concat (sent s)) all.
Proof.
  intros [I _ _ _ _ _ _] [_ L] F. unfold finished in F. destruct (flight s) eqn:E; [|done]. cbn in I. rewrite !app_nil_r in I.
  pose proof (shift_spec (queue s)) as Q. destruct (shift (queue s)); [|by rewrite Q, app_nil_r in I]. assert (H : (0 < count is_tcp [])%nat) by by apply L. cbn in H. lia.
Qed.

Lemma nonempty_length {A} (l : list (list A)) : Forall (fun c => c <> []) l -> (length l <= length (concat l))%nat.
Proof. induction 1 as [|c l Hc _ IH]; [done|]. cbn. rewrite length_app. destruct c; [done|]. cbn. lia. Qed.

(** What a run guarantees, with [n] replies so far. *)
Record run_guarantee (all : list item) (n : nat) (s : trun) : Prop := {
  rg_workers : (count is_tcp (flight s) <= MAX_WORKERS)%nat;
  rg_batches : (count is_http (flight s) <= 1)%nat;
  rg_size : Forall (fun r => (length (items_of r) <= HTTP_BATCH_CHUNK)%nat) (flight s);
  rg_ends : (n + length (flight s) <= length all)%nat;
  rg_complete : finished s = true -> Permutation (concat (sent s)) all /\
                Forall (fun it => exists r, states s !! it.1 = Some {| testing := false; result := r; tmode := None |}) all }.

(** C6. Testing all outbounds, whatever the order of the replies: there are never more than
    eight TCP probes and never more than one HTTP batch (of at most sixteen) in flight; the run
    ends after at most as many replies as there are outbounds to test; and when it ends, every
    outbound to test was sent exactly once and shows a result, none is left pending. *)
Theorem testAll_guarantee templateList subList m s0 l s :
  testAllOutbounds false templateList subList m = Some s0 -> replies l s0 = Some s ->
  run_guarantee (List.filter (testable) (keyed templateList subList)) (length l) s.
Proof.
  intros E H. assert (s0 = start (build_queues mode templateList subList) m) as ->.
  { unfold testAllOutbounds in E. destruct templateList; [destruct subList; [done|]|]; by injection E as <-. }
  clear E. set (q := build_queues mode templateList subList) in *. set (all := List.filter _ _).
  assert (Pq : Permutation (probed q) all) by apply build_probed. clearbody q all. destruct (start_ok q m) as [I W]. apply (run_inv_perm _ all) in I; [|done]. destruct (start_balance q m) as [B B0]. destruct (replies_ok _ _ _ _ I W B H) as (I' & W' & B' & Eb). clear I W.
  assert (P : (length (concat (sent s)) <= length all)%nat) by (rewrite <-(ri_items _ _ _ I'), length_app; lia).
  pose proof (nonempty_length _ (ri_sent _ _ _ I')) as N. unfold balance in Eb, B0. split.
  - apply W'.
  - pose proof (ri_http _ _ _ I') as C. cbn in C. lia.
  - eapply List.Forall_impl; [|exact (ri_flight _ _ _ I')]. intros r [_ Hr]. exact Hr.
  - lia.
  - intros F. pose proof (finished_queue _ _ I' W' F) as Pm. split; [done|]. apply List.Forall_forall. intros it Hit.
    destruct (ri_shown _ _ _ I' it) as (st & Hs & Ht); [by rewrite Pm|]. unfold finished in F. destruct (flight s); [|done].
    exists (result st). rewrite Hs. destruct st as [[] r md]; cbn in Ht; [by destruct Ht|by subst].
Qed.

(** An unfinished run always has a reply to wait for. *)
Lemma unfinished_waits s : finished s = false -> forall resp, exists s', reply 0 resp s = Some s'.
Proof. unfold finished, reply. destruct (flight s); [done|]. intros _ resp. by eexists. Qed.

End Run.

Definition sample_outbounds : list jsval :=
  [VObj [("protocol", VStr "Freedom"); ("tag", VStr "direct")]; VObj [("protocol", VStr "vless"); ("tag", VStr "a")];
   VObj [("protocol", VStr "WireGuard"); ("tag", VStr "w")]; VNull].

Definition sample_replies : list (nat * response) := [(1%nat, Raised "timeout"); (0%nat, Replied true (Some [VObj [("success", VBool true)]]) ""); (0%nat, Replied false None "")].

Lemma testAll_guarantee_witness : exists s0 s, testAllOutbounds "tcp" false sample_outbounds [VObj [("protocol", VStr "hysteria"); ("tag", VStr "sub")]] ∅ = Some s0 /\
  replies "tcp" sample_replies s0 = Some s /\ run_guarantee (List.filter (testable "tcp") (keyed sample_outbounds [VObj [("protocol", VStr "hysteria"); ("tag", VStr "sub")]])) 3 s.
Proof.
  eexists _, _. split; [reflexivity|]. split; [reflexivity|].
  eapply (testAll_guarantee "tcp" sample_outbounds [VObj [("protocol", VStr "hysteria"); ("tag", VStr "sub")]] ∅ _ sample_replies); reflexivity.
Defined.
