(* ===== verification/WebSocketClient.v ===== *)
(** * The WebSocket client

    Models src/frontend/src/api/websocket.ts: the client that keeps one live socket to the
    panel, reconnects with exponential backoff and dispatches messages to listeners.

    The state is the client's fields plus what the browser keeps for it: the sockets it has
    constructed (with their ready states) and the pending timers.  [step] is one turn of the
    event loop: a call of a public method, or an event of a socket or timer.  Listener
    callbacks are identified by numbers; what they are called with is logged in [log], and
    they do not call back into the client within the same turn. *)
From S2P Require Import Prelude JsString JsValue Json.
Local Open Scope Z_scope.

(** ** State *)

Inductive readyState := CONNECTING | OPEN | CLOSING | CLOSED.
#[export] Instance readyState_eq_dec : EqDecision readyState.
Proof. solve_decision. Defined.

Definition MAX_PAYLOAD_BYTES : Z := 10 * 1024 * 1024.
Definition BASE_RECONNECT_MS : Z := 1000.
Definition MAX_RECONNECT_MS : Z := 30000.
Definition SLOW_RETRY_MS : Z := 60000.
Definition maxReconnectAttempts : nat := 10.

(** A listener call: the event, the callback and the arguments. *)
Record call := Call { c_event : string; c_callback : nat; c_args : list jsval }.

Record client := {
  basePath : string;
  reconnectAttempts : nat;
  isConnected : bool;
  ws : option nat;                        (* the tracked socket *)
  shouldReconnect : bool;
  reconnectTimer : option nat;
  listeners : list (string * list nat);   (* Map of insertion-ordered sets *)
  (* the browser's side *)
  sockets : list readyState;
  timers : list (nat * Z);                (* pending timers with their base delay *)
  next_timer : nat;
  sent : list (nat * string);
  log : list call
}.

Definition init (path : string) : client :=
  {| basePath := path; reconnectAttempts := 0; isConnected := false; ws := None; shouldReconnect := true;
     reconnectTimer := None; listeners := []; sockets := []; timers := []; next_timer := 0; sent := []; log := [] |}.

(** Field updates. *)
Definition set_ws (w : option nat) (c : client) : client :=
  {| basePath := basePath c; reconnectAttempts := reconnectAttempts c; isConnected := isConnected c; ws := w;
     shouldReconnect := shouldReconnect c; reconnectTimer := reconnectTimer c; listeners := listeners c;
     sockets := sockets c; timers := timers c; next_timer := next_timer c; sent := sent c; log := log c |}.
Definition set_connected (b : bool) (c : client) : client :=
  {| basePath := basePath c; reconnectAttempts := reconnectAttempts c; isConnected := b; ws := ws c;
     shouldReconnect := shouldReconnect c; reconnectTimer := reconnectTimer c; listeners := listeners c;
     sockets := sockets c; timers := timers c; next_timer := next_timer c; sent := sent c; log := log c |}.
Definition set_attempts (n : nat) (c : client) : client :=
  {| basePath := basePath c; reconnectAttempts := n; isConnected := isConnected c; ws := ws c;
     shouldReconnect := shouldReconnect c; reconnectTimer := reconnectTimer c; listeners := listeners c;
     sockets := sockets c; timers := timers c; next_timer := next_timer c; sent := sent c; log := log c |}.
Definition set_should (b : bool) (c : client) : client :=
  {| basePath := basePath c; reconnectAttempts := reconnectAttempts c; isConnected := isConnected c; ws := ws c;
     shouldReconnect := b; reconnectTimer := reconnectTimer c; listeners := listeners c;
     sockets := sockets c; timers := timers c; next_timer := next_timer c; sent := sent c; log := log c |}.
Definition set_timer (t : option nat) (ts : list (nat * Z)) (n : nat) (c : client) : client :=
  {| basePath := basePath c; reconnectAttempts := reconnectAttempts c; isConnected := isConnected c; ws := ws c;
     shouldReconnect := shouldReconnect c; reconnectTimer := t; listeners := listeners c;
     sockets := sockets c; timers := ts; next_timer := n; sent := sent c; log := log c |}.
Definition set_listeners (l : list (string * list nat)) (c : client) : client :=
  {| basePath := basePath c; reconnectAttempts := reconnectAttempts c; isConnected := isConnected c; ws := ws c;
     shouldReconnect := shouldReconnect c; reconnectTimer := reconnectTimer c; listeners := l;
     sockets := sockets c; timers := timers c; next_timer := next_timer c; sent := sent c; log := log c |}.
Definition set_sockets (s : list readyState) (c : client) : client :=
  {| basePath := basePath c; reconnectAttempts := reconnectAttempts c; isConnected := isConnected c; ws := ws c;
     shouldReconnect := shouldReconnect c; reconnectTimer := reconnectTimer c; listeners := listeners c;
     sockets := s; timers := timers c; next_timer := next_timer c; sent := sent c; log := log c |}.
Definition add_sent (i : nat) (m : string) (c : client) : client :=
  {| basePath := basePath c; reconnectAttempts := reconnectAttempts c; isConnected := isConnected c; ws := ws c;
     shouldReconnect := shouldReconnect c; reconnectTimer := reconnectTimer c; listeners := listeners c;
     sockets := sockets c; timers := timers c; next_timer := next_timer c; sent := sent c ++ [(i, m)]; log := log c |}.
Definition add_log (l : list call) (c : client) : client :=
  {| basePath := basePath c; reconnectAttempts := reconnectAttempts c; isConnected := isConnected c; ws := ws c;
     shouldReconnect := shouldReconnect c; reconnectTimer := reconnectTimer c; listeners := listeners c;
     sockets := sockets c; timers := timers c; next_timer := next_timer c; sent := sent c; log := log c ++ l |}.

(** ** Listeners *)

Fixpoint assoc_get (l : list (string * list nat)) (k : string) : option (list nat) :=
  match l with [] => None | (k', v) :: l => if String.eqb k k' then Some v else assoc_get l k end.

Fixpoint assoc_set (l : list (string * list nat)) (k : string) (v : list nat) : list (string * list nat) :=
  match l with
  | [] => [(k, v)]
  | (k', v') :: l => if String.eqb k k' then (k, v) :: l else (k', v') :: assoc_set l k v
  end.

Definition assoc_del (l : list (string * list nat)) (k : string) : list (string * list nat) :=
  List.filter (fun kv => negb (String.eqb k kv.1)) l.

Definition on (c : client) (event : string) (callback : nat) : client :=
  let set := default [] (assoc_get (listeners c) event) in
  set_listeners (assoc_set (listeners c) event
    (if existsb (Nat.eqb callback) set then set else set ++ [callback])) c.

Definition off (c : client) (event : string) (callback : nat) : client :=
  match assoc_get (listeners c) event with
  | None => c
  | Some set =>
      match List.filter (fun x => negb (Nat.eqb callback x)) set with
      | [] => set_listeners (assoc_del (listeners c) event) c
      | set => set_listeners (assoc_set (listeners c) event set) c
      end
  end.

Definition emit (c : client) (event : string) (args : list jsval) : client :=
  match assoc_get (listeners c) event with
  | None => c
  | Some set => add_log (map (fun cb => Call event cb args) set) c
  end.

(** ** Reconnecting *)

Definition cancelReconnect (c : client) : client :=
  match reconnectTimer c with
  | None => c
  | Some t => set_timer None (List.filter (fun p => negb (Nat.eqb t p.1)) (timers c)) (next_timer c) c
  end.

(** The base delay of the [n]-th attempt ([n] counted before the increment), in milliseconds;
    the timer is set for [base * (0.75 + 0.5 * Math.random())]. *)
Definition reconnect_base (attempts : nat) : Z :=
  if Nat.ltb attempts maxReconnectAttempts
  then Z.min MAX_RECONNECT_MS (BASE_RECONNECT_MS * 2 ^ Z.of_nat attempts)
  else SLOW_RETRY_MS.

Definition scheduleReconnect (c : client) : client :=
  if negb (shouldReconnect c) then c
  else
    let c := cancelReconnect c in
    let base := reconnect_base (reconnectAttempts c) in
    let c := if Nat.ltb (reconnectAttempts c) maxReconnectAttempts
             then set_attempts (S (reconnectAttempts c)) c else c in
    set_timer (Some (next_timer c)) (timers c ++ [(next_timer c, base)]) (S (next_timer c)) c.

(** [constructed]: whether [new WebSocket(url)] returns or throws. *)
Definition openSocket (c : client) (constructed : bool) : client :=
  if constructed then
    set_ws (Some (length (sockets c))) (set_sockets (sockets c ++ [CONNECTING]) c)
  else scheduleReconnect (emit c "error" []).

Definition buildUrl (c : client) (protocol host : string) : string :=
  let scheme := if String.eqb protocol "https:" then "wss:" else "ws:" in
  let path := if String.eqb (basePath c) "" then "/" else basePath c in
  let path := if starts_with path "/" then path else "/" +:+ path in
  let path := if ends_with path "/" then path else path +:+ "/" in
  scheme +:+ "//" +:+ host +:+ path +:+ "ws".

Definition state_of (c : client) (i : nat) : readyState := nth i (sockets c) CLOSED.

Definition live (s : readyState) : bool := match s with CONNECTING | OPEN => true | _ => false end.

Definition set_state (i : nat) (s : readyState) (c : client) : client := set_sockets (<[i := s]> (sockets c)) c.

(** [socket.close(code)]: the platform throws, and does nothing, for a code other than 1000
    and 3000..4999; both callers swallow the exception. *)
Definition close_code_ok (code : Z) : bool := (code =? 1000) || ((3000 <=? code) && (code <=? 4999)).

Definition close (c : client) (i : nat) (code : Z) : client :=
  if close_code_ok code && live (state_of c i) then set_state i CLOSING c else c.

(** ** Public methods *)

Definition connect (c : client) (constructed : bool) : client :=
  match ws c with
  | Some i =>
      if live (state_of c i) then c
      else openSocket (cancelReconnect (set_should true c)) constructed
  | None => openSocket (cancelReconnect (set_should true c)) constructed
  end.

Definition disconnect (c : client) : client :=
  let c := cancelReconnect (set_should false c) in
  let c := set_attempts 0 c in
  let c := match ws c with Some i => set_ws None (close c i 1000) | None => c end in
  set_connected false c.

Definition send (c : client) (data : jsval) : client :=
  match ws c with
  | Some i => if bool_decide (state_of c i = OPEN) then add_sent i (stringify data) c else c
  | None => c
  end.

(** ** Socket events *)

Definition tracked (c : client) (i : nat) : bool := match ws c with Some j => Nat.eqb i j | None => false end.

Definition on_open (c : client) (i : nat) : client :=
  if negb (tracked c i) then c else emit (set_attempts 0 (set_connected true c)) "connected" [].

(** [#onMessage]; [data] is [None] for a binary frame. *)
Definition onMessage (c : client) (i : nat) (data : option string) : client :=
  if match data with Some s => MAX_PAYLOAD_BYTES <? Z.of_nat (String.length s) | None => false end
  then close c i 1009
  else
    match JSON_parse (default "" data) with
    | None => c
    | Some message =>
        match message with
        | VArr _ | VObj _ =>
            match get message "type" with
            | VStr type =>
                let c := emit c type [get message "payload"; get message "time"] in
                emit c "message" [message]
            | _ => c
            end
        | _ => c
        end
    end.

Definition on_message (c : client) (i : nat) (data : option string) : client :=
  if negb (tracked c i) then c else onMessage c i data.

Definition on_error (c : client) (i : nat) : client := if negb (tracked c i) then c else emit c "error" [].

Definition on_close (c : client) (i : nat) : client :=
  if negb (tracked c i) then c
  else
    let c := emit (set_ws None (set_connected false c)) "disconnected" [] in
    if shouldReconnect c then scheduleReconnect c else c.

(** The callback of the reconnect timer. *)
Definition on_timer (c : client) (constructed : bool) : client :=
  let c := set_timer None (timers c) (next_timer c) c in
  if negb (shouldReconnect c) then c else openSocket c constructed.

(** ** The event loop *)

Inductive event :=
| EConnect (constructed : bool)
| EDisconnect
| EOn (name : string) (callback : nat)
| EOff (name : string) (callback : nat)
| ESend (data : jsval)
| EOpened (i : nat)                        (* the handshake completed *)
| EMessage (i : nat) (data : option string)
| EError (i : nat)
| EClosing (i : nat)                       (* the peer started the closing handshake *)
| EClosed (i : nat)
| ETimer (t : nat) (constructed : bool).

Definition step (c : client) (e : event) : client :=
  match e with
  | EConnect k => connect c k
  | EDisconnect => disconnect c
  | EOn n cb => on c n cb
  | EOff n cb => off c n cb
  | ESend d => send c d
  | EOpened i => if bool_decide (state_of c i = CONNECTING) then on_open (set_state i OPEN c) i else c
  | EMessage i d => if bool_decide (state_of c i = OPEN) then on_message c i d else c
  | EError i => if bool_decide (state_of c i = CLOSED) then c else on_error c i
  | EClosing i => if live (state_of c i) then set_state i CLOSING c else c
  | EClosed i => if bool_decide (state_of c i = CLOSED) then c else on_close (set_state i CLOSED c) i
  | ETimer t k =>
      if existsb (fun p => Nat.eqb t p.1) (timers c)
      then on_timer (set_timer (reconnectTimer c) (List.filter (fun p => negb (Nat.eqb t p.1)) (timers c)) (next_timer c) c) k
      else c
  end.

Definition run (c : client) (es : list event) : client := fold_left step es c.

(** ** Invariant *)

Definition nothing_live (c : client) : Prop := forall i, live (state_of c i) = false.

(** The fields of a client that the invariant speaks about. *)
Record inv (c : client) : Prop := {
  inv_timers : match reconnectTimer c with
               | None => timers c = []
               | Some t => exists b, timers c = [(t, b)] /\ BASE_RECONNECT_MS <= b <= SLOW_RETRY_MS
               end;
  inv_live : forall i, live (state_of c i) = true -> ws c = Some i /\ reconnectTimer c = None;
  inv_conn : isConnected c = true -> ws c <> None;
  inv_attempts : (reconnectAttempts c <= maxReconnectAttempts)%nat
}.

(** Two clients that agree on those fields. *)
Definition same_core (c c' : client) : Prop :=
  ws c' = ws c /\ sockets c' = sockets c /\ reconnectTimer c' = reconnectTimer c /\ timers c' = timers c /\
  isConnected c' = isConnected c /\ reconnectAttempts c' = reconnectAttempts c.

Lemma inv_same c c' : same_core c c' -> inv c -> inv c'.
Proof.
  intros (E1 & E2 & E3 & E4 & E5 & E6) [H1 H2 H3 H4]. split; unfold state_of in *;
    rewrite ?E1, ?E2, ?E3, ?E4, ?E5, ?E6; done.
Qed.

Lemma emit_core c e a : same_core c (emit c e a).
Proof. unfold emit. by destruct (assoc_get _ _). Qed.

Lemma inv_init path : inv (init path).
Proof. split; cbn; try done; [|lia]. intros i. unfold state_of. cbn. by destruct i. Qed.

Lemma cancel_fields c :
  inv c -> let c' := cancelReconnect c in
  timers c' = [] /\ reconnectTimer c' = None /\ ws c' = ws c /\ sockets c' = sockets c /\ isConnected c' = isConnected c /\
  reconnectAttempts c' = reconnectAttempts c /\ next_timer c' = next_timer c /\ shouldReconnect c' = shouldReconnect c /\
  log c' = log c /\ sent c' = sent c /\ listeners c' = listeners c.
Proof.
  intros [H _ _ _]. unfold cancelReconnect. cbv zeta. destruct (reconnectTimer c) as [t|] eqn:E; cbn.
  - destruct H as (b & -> & _). cbn. by rewrite Nat.eqb_refl.
  - done.
Qed.

Lemma cancel_inv c : inv c -> inv (cancelReconnect c).
Proof.
  intros H. destruct (cancel_fields c H) as (E1 & E2 & E3 & E4 & E5 & E6 & _). destruct H as [H1 H2 H3 H4].
  split; unfold state_of in *; rewrite ?E1, ?E2, ?E3, ?E4, ?E5, ?E6; try done. intros i Hi. split; [|done]. by apply H2.
Qed.

Lemma reconnect_base_bounds n : BASE_RECONNECT_MS <= reconnect_base n <= SLOW_RETRY_MS.
Proof.
  unfold reconnect_base, BASE_RECONNECT_MS, SLOW_RETRY_MS, MAX_RECONNECT_MS. destruct (Nat.ltb _ _); [|lia].
  assert (1 <= 2 ^ Z.of_nat n) by (apply Z.lt_pred_le, Z.pow_pos_nonneg; lia). lia.
Qed.

(** What scheduling does, and that it keeps the invariant when no socket is live. *)
Lemma schedule_fields c :
  inv c -> shouldReconnect c = true -> let c' := scheduleReconnect c in
  timers c' = [(next_timer c, reconnect_base (reconnectAttempts c))] /\ reconnectTimer c' = Some (next_timer c) /\
  ws c' = ws c /\ sockets c' = sockets c /\ isConnected c' = isConnected c /\
  reconnectAttempts c' = Nat.min maxReconnectAttempts (S (reconnectAttempts c)).
Proof.
  intros H Hs. unfold scheduleReconnect. rewrite Hs. cbn [negb]. pose proof (inv_attempts _ H) as Ha.
  destruct (cancel_fields c H) as (E1 & E2 & E3 & E4 & E5 & E6 & E7 & _). cbv zeta. rewrite E6.
  destruct (Nat.ltb_spec (reconnectAttempts c) maxReconnectAttempts); 
    cbn [timers reconnectTimer ws sockets isConnected reconnectAttempts next_timer set_timer set_attempts];
    rewrite E1, E7; repeat split; try done; lia.
Qed.

Lemma schedule_inv c : inv c -> nothing_live c -> inv (scheduleReconnect c).
Proof.
  intros H Hn. destruct (shouldReconnect c) eqn:Hs.
  - destruct (schedule_fields c H Hs) as (E1 & E2 & E3 & E4 & E5 & E6). split; unfold state_of; rewrite ?E1, ?E2, ?E3, ?E4, ?E5, ?E6.
    + eexists. split; [done|]. apply reconnect_base_bounds.
    + intros i Hi. specialize (Hn i). unfold state_of in Hn. congruence.
    + apply (inv_conn _ H).
    + lia.
  - unfold scheduleReconnect. by rewrite Hs.
Qed.

Lemma nth_snoc {A} (l : list A) x d i : nth i (l ++ [x]) d = if Nat.eqb i (length l) then x else nth i l d.
Proof.
  revert i. induction l as [|y l IH]; intros [|i]; cbn; try done; first [apply IH | by destruct i].
Qed.

Lemma open_inv c k : inv c -> nothing_live c -> reconnectTimer c = None -> inv (openSocket c k).
Proof.
  intros H Hn Ht. destruct k; cbn [openSocket].
  - destruct H as [H1 H2 H3 H4]. split; cbn; try done. intros i. unfold state_of. cbn. rewrite nth_snoc.
    destruct (Nat.eqb_spec i (length (sockets c))) as [->|]; [done|]. intros Hi. specialize (Hn i). unfold state_of in Hn. congruence.
  - pose proof (emit_core c "error" []) as E. apply schedule_inv; [by apply (inv_same c)|].
    intros i. destruct E as (_ & E & _). unfold state_of. rewrite E. apply Hn.
Qed.

(** Marking a socket as closing or closed. *)
Lemma state_insert c i s j :
  state_of (set_state i s c) j = if Nat.eqb i j && Nat.ltb i (length (sockets c)) then s else state_of c j.
Proof.
  unfold state_of, set_state. cbn [sockets set_sockets]. destruct (Nat.eqb_spec i j) as [<-|Hne]; cbn [andb].
  - destruct (Nat.ltb_spec i (length (sockets c))).
    + apply nth_lookup_Some. by apply list_lookup_insert_eq.
    + by rewrite list_insert_ge.
  - rewrite !nth_lookup. by rewrite list_lookup_insert_ne.
Qed.

Lemma dead_inv c i s : live s = false -> inv c -> inv (set_state i s c).
Proof.
  intros Hs [H1 H2 H3 H4]. split; try done. intros j. rewrite state_insert.
  destruct (Nat.eqb i j && _); [congruence|]. apply H2.
Qed.

Lemma close_inv c i code : inv c -> inv (close c i code).
Proof. intros H. unfold close. case_match; [by apply dead_inv|done]. Qed.

(** If the tracked socket is not live, none is. *)
Lemma dead_tracked c : inv c -> (match ws c with Some i => live (state_of c i) = false | None => True end) -> nothing_live c.
Proof.
  intros H Hw i. destruct (live (state_of c i)) eqn:E; [|done]. destruct (inv_live _ H i E) as [Ew _].
  rewrite Ew in Hw. congruence.
Qed.

Lemma connect_inv c k : inv c -> inv (connect c k).
Proof.
  intros H. set (c1 := set_should true c).
  assert (H1 : inv c1) by by apply (inv_same c).
  assert (K : nothing_live c -> inv (openSocket (cancelReconnect c1) k)).
  { intros Hn. destruct (cancel_fields c1 H1) as (_ & E2 & _ & E4 & _). apply open_inv; [by apply cancel_inv| |done].
    intros i. unfold state_of. rewrite E4. apply Hn. }
  unfold connect. destruct (ws c) as [i|] eqn:E.
  - destruct (live (state_of c i)) eqn:L; [done|]. apply K, dead_tracked; [done|]. by rewrite E.
  - apply K, dead_tracked; [done|]. by rewrite E.
Qed.

Lemma disconnect_fields c :
  inv c -> let c' := disconnect c in
  ws c' = None /\ timers c' = [] /\ reconnectTimer c' = None /\ shouldReconnect c' = false /\ isConnected c' = false /\
  reconnectAttempts c' = 0%nat /\ log c' = log c /\ sent c' = sent c /\ length (sockets c') = length (sockets c) /\ nothing_live c'.
Proof.
  intros H. assert (H0 : inv (set_should false c)) by by apply (inv_same c).
  destruct (cancel_fields _ H0) as (E1 & E2 & E3 & E4 & E5 & E6 & E7 & E8 & E9 & E10 & E11).
  set (c1 := cancelReconnect (set_should false c)) in *.
  cbn [ws sockets set_should shouldReconnect log sent] in *.
  unfold disconnect. cbv zeta. change (cancelReconnect (set_should false c)) with c1. set (c2 := set_attempts 0 c1).
  assert (W2 : ws c2 = ws c) by done. rewrite W2. assert (S2 : sockets c2 = sockets c) by done.
  destruct (ws c) as [i|] eqn:E.
  - unfold close. change (close_code_ok 1000) with true. cbn [andb].
    assert (St : state_of c2 i = state_of c i) by (unfold state_of; by rewrite S2).
    assert (N : nothing_live (if live (state_of c2 i) then set_state i CLOSING c2 else c2)).
    { rewrite St. intros j. destruct (live (state_of c i)) eqn:L.
      - rewrite state_insert. destruct (Nat.eqb_spec i j) as [<-|Hne]; cbn [andb].
        + destruct (Nat.ltb_spec i (length (sockets c2))) as [|Hge]; [done|].
          rewrite S2 in Hge. unfold state_of. rewrite S2. by rewrite nth_overflow.
        + destruct (live (state_of c2 j)) eqn:Lj; [|done]. unfold state_of in Lj. rewrite S2 in Lj.
          destruct (inv_live _ H j Lj) as [Ej _]. congruence.
      - unfold state_of. rewrite S2. apply (dead_tracked c H). by rewrite E. }
    repeat (split; [by destruct (live (state_of c2 i))|]). split; [destruct (live (state_of c2 i)); cbn; by rewrite ?length_insert, ?S2, ?E4|].
    intros j. specialize (N j). by destruct (live (state_of c2 i)).
  - repeat (split; [done|]). split; [cbn; by rewrite E4|]. intros j. unfold state_of. cbn. rewrite E4.
    apply (dead_tracked c H). by rewrite E.
Qed.

Lemma disconnect_inv c : inv c -> inv (disconnect c).
Proof.
  intros H. destruct (disconnect_fields c H) as (E1 & E2 & E3 & E4 & E5 & E6 & _ & _ & _ & N).
  split; rewrite ?E1, ?E2, ?E3, ?E5, ?E6; try done; [|lia]. intros i. by rewrite N.
Qed.

Lemma on_open_inv c i : inv c -> state_of c i = CONNECTING -> inv (on_open (set_state i OPEN c) i).
Proof.
  intros H Hi. destruct (inv_live _ H i) as [Ew Et]; [by rewrite Hi|].
  unfold on_open, tracked. cbn [ws set_state set_sockets]. rewrite Ew, Nat.eqb_refl. cbn [negb].
  eapply inv_same; [apply emit_core|]. destruct H as [H1 H2 H3 H4]. split; cbn; rewrite ?Ew, ?Et in *; try done; [|lia].
  intros j. unfold state_of. cbn. change (nth j (<[i:=OPEN]> (sockets c)) CLOSED) with (state_of (set_state i OPEN c) j).
  rewrite state_insert. destruct (Nat.eqb_spec i j) as [<-|]; cbn [andb]; [done|]. intros Hj. by apply H2 in Hj.
Qed.

Lemma onMessage_inv c i d : inv c -> inv (on_message c i d).
Proof.
  intros H. unfold on_message, onMessage. case_match; [done|]. case_match; [by apply close_inv|].
  repeat case_match; try done; (eapply inv_same; [apply emit_core|]; eapply inv_same; [apply emit_core|done]).
Qed.

Lemma on_close_inv c i : inv c -> inv (on_close (set_state i CLOSED c) i).
Proof.
  intros H. unfold on_close, tracked. cbn [ws set_state set_sockets]. destruct (ws c) as [j|] eqn:Ew; cbn [negb]; [|by apply dead_inv].
  destruct (Nat.eqb_spec i j) as [<-|Hne]; cbn [negb]; [|by apply dead_inv].
  set (c1 := set_ws None (set_connected false (set_state i CLOSED c))).
  assert (N : nothing_live c1).
  { intros k. change (live (state_of (set_state i CLOSED c) k) = false). rewrite state_insert.
    destruct (live (state_of c k)) eqn:L.
    - destruct (inv_live _ H k L) as [Ek _]. assert (i = k) as <- by congruence. rewrite Nat.eqb_refl. cbn [andb].
      destruct (Nat.ltb_spec i (length (sockets c))); [done|]. unfold state_of. by rewrite nth_overflow.
    - by destruct (Nat.eqb i k && _). }
  assert (H1 : inv c1).
  { destruct H as [I1 I2 I3 I4]. split; try done. intros k. by rewrite N. }
  assert (E : same_core c1 (emit c1 "disconnected" [])) by apply emit_core.
  assert (H2 : inv (emit c1 "disconnected" [])) by by apply (inv_same c1).
  case_match; [|done]. apply schedule_inv; [done|]. intros k. destruct E as (_ & E & _). unfold state_of. rewrite E. apply N.
Qed.

Lemma timer_inv c t k :
  inv c -> existsb (fun p => Nat.eqb t p.1) (timers c) = true ->
  inv (on_timer (set_timer (reconnectTimer c) (List.filter (fun p => negb (Nat.eqb t p.1)) (timers c)) (next_timer c) c) k).
Proof.
  intros H Ht. unfold on_timer. set (c1 := set_timer None _ _ _).
  assert (E : reconnectTimer c = Some t /\ timers c1 = []).
  { pose proof (inv_timers _ H) as Hi. destruct (reconnectTimer c) as [u|] eqn:Eu; [|by rewrite Hi in Ht].
    destruct Hi as (b & Eb & _). subst c1. cbn [timers set_timer]. rewrite Eb in *. cbn in *. rewrite orb_false_r in Ht.
    apply Nat.eqb_eq in Ht as ->. by rewrite Nat.eqb_refl. }
  destruct E as [E1 E2].
  assert (N : nothing_live c1).
  { intros i. change (live (state_of c i) = false). destruct (live (state_of c i)) eqn:L; [|done].
    destruct (inv_live _ H i L) as [_ Hn]. congruence. }
  assert (H1 : inv c1). { destruct H as [I1 I2 I3 I4]. split; try done. intros i. by rewrite N. }
  case_match; [done|]. by apply open_inv.
Qed.

Lemma step_inv c e : inv c -> inv (step c e).
Proof.
  intros H. destruct e as [k| |n cb|n cb|d|i|i d|i|i|i|t k]; cbn [step].
  - by apply connect_inv.
  - by apply disconnect_inv.
  - by apply (inv_same c).
  - apply (inv_same c); [|done]. unfold off. by repeat case_match.
  - apply (inv_same c); [|done]. unfold send. by repeat case_match.
  - case_bool_decide; [by apply on_open_inv|done].
  - case_bool_decide; [by apply onMessage_inv|done].
  - case_bool_decide; [done|]. unfold on_error. case_match; [done|]. eapply inv_same; [apply emit_core|done].
  - case_match; [by apply dead_inv|done].
  - case_bool_decide; [done|]. by apply on_close_inv.
  - destruct (existsb _ (timers c)) eqn:E; [by apply timer_inv|done].
Qed.

Lemma run_inv es : forall c, inv c -> inv (run c es).
Proof. induction es as [|e es IH]; intros c H; [done|]. by apply IH, step_inv. Qed.

(** C24. In every reachable state of the client, whatever the interleaving of its methods with
    the events of sockets and timers: every connecting or open socket is the one the client
    tracks (none is leaked), at most one reconnect timer is pending, no timer is pending
    while a socket is live, the timer's base delay lies between one and sixty seconds, and the
    attempt counter stays within its limit. *)
Theorem websocket_invariant path es (c := run (init path) es) :
  (forall i, live (state_of c i) = true -> ws c = Some i /\ timers c = []) /\
  (length (timers c) <= 1)%nat /\
  Forall (fun p => reconnectTimer c = Some p.1 /\ BASE_RECONNECT_MS <= p.2 <= SLOW_RETRY_MS) (timers c) /\
  (isConnected c = true -> ws c <> None) /\
  (reconnectAttempts c <= maxReconnectAttempts)%nat.
Proof.
  destruct (run_inv es (init path) (inv_init path)) as [H1 H2 H3 H4]. fold c in H1, H2, H3, H4.
  destruct (reconnectTimer c) as [t|].
  - destruct H1 as (b & E & Hb). rewrite E. split; [|split; [cbn; lia|split; [constructor; [done|constructor]|done]]].
    intros i Hi. by destruct (H2 i Hi).
  - rewrite H1. split; [|split; [cbn; lia|split; [constructor|done]]]. intros i Hi. by destruct (H2 i Hi).
Qed.

(** ** Quiescence after [disconnect] *)

Definition not_connect (e : event) : bool := match e with EConnect _ => false | _ => true end.

(** Disconnected: nothing tracked, no timer, no wish to reconnect, nothing live. *)
Definition quiet (c : client) : Prop :=
  ws c = None /\ timers c = [] /\ reconnectTimer c = None /\ shouldReconnect c = false /\ isConnected c = false /\ nothing_live c.

Lemma quiet_step c e :
  quiet c -> not_connect e = true ->
  quiet (step c e) /\ length (sockets (step c e)) = length (sockets c) /\ log (step c e) = log c /\ sent (step c e) = sent c.
Proof.
  intros (Q1 & Q2 & Q3 & Q4 & Q5 & Q6) He.
  assert (Q : quiet c) by by repeat split.
  assert (D : forall i s, live s = false -> quiet (set_state i s c) /\ length (sockets (set_state i s c)) = length (sockets c)).
  { intros i s Hs. split; [|cbn; apply length_insert]. repeat (split; [done|]). intros j. rewrite state_insert.
    destruct (Nat.eqb i j && _); [done|apply Q6]. }
  assert (T : forall i, tracked c i = false) by (intros i; unfold tracked; by rewrite Q1).
  destruct e as [k| |n cb|n cb|d|i|i d|i|i|i|t k]; cbn [step]; try discriminate.
  - unfold disconnect, cancelReconnect. cbn [reconnectTimer set_should]. rewrite Q3. cbn. rewrite Q1. cbn.
    split; [|done]. by repeat split.
  - split; [by repeat split|done].
  - unfold off. destruct (assoc_get _ _); [|done]. destruct (List.filter _ _); (split; [by repeat split|done]).
  - unfold send. by rewrite Q1.
  - case_bool_decide as Hi; [|done]. specialize (Q6 i). by rewrite Hi in Q6.
  - case_bool_decide as Hi; [|done]. unfold on_message. by rewrite T.
  - case_bool_decide; [done|]. unfold on_error. by rewrite T.
  - by rewrite Q6.
  - case_bool_decide; [done|]. unfold on_close. change (tracked (set_state i CLOSED c) i) with (tracked c i). rewrite T. cbn [negb].
    destruct (D i CLOSED eq_refl) as [D1 D2]. done.
  - by rewrite Q2.
Qed.

(** After [disconnect] the client is quiet until [connect] is called again: whatever
    events of sockets and timers still arrive and whatever else is called, no socket is
    opened, no listener is called, nothing is sent and no timer is set. *)
Theorem disconnect_quiet path es es' (c := run (init path) es) (d := disconnect c) :
  forallb not_connect es' = true ->
  let c' := run d es' in
  quiet c' /\ length (sockets c') = length (sockets c) /\ log c' = log c /\ sent c' = sent c.
Proof.
  intros He. pose proof (run_inv es (init path) (inv_init path)) as H.
  destruct (disconnect_fields c H) as (E1 & E2 & E3 & E4 & E5 & _ & E7 & E8 & E9 & N).
  assert (Q : quiet d) by by repeat split. fold d in E7, E8, E9. rewrite <- E7, <- E8, <- E9. clearbody d. clear -He Q.
  revert d Q. induction es' as [|e es' IH]; intros d Q; [done|]. cbn in He. apply andb_true_iff in He as [He1 He2].
  destruct (quiet_step d e Q He1) as (Q' & L1 & L2 & L3). destruct (IH He2 (step d e) Q') as (R1 & R2 & R3 & R4).
  cbn [run fold_left] in *. change (fold_left step es' (step d e)) with (run (step d e) es') in *.
  split; [done|]. rewrite R2, R3, R4. done.
Qed.

Lemma disconnect_quiet_witness :
  log (run (disconnect (run (init "") [EOn "connected" 0; EConnect true; EOpened 0])) [EMessage 0 None; EClosed 0; ETimer 0 true]) =
  [Call "connected" 0 []].
Proof.
  rewrite (proj1 (proj2 (proj2 (disconnect_quiet "" [EOn "connected" 0; EConnect true; EOpened 0]
    [EMessage 0 None; EClosed 0; ETimer 0 true] eq_refl)))). reflexivity.
Defined.

(** ** Reconnection *)

(** C33. When the tracked socket closes and the client wants to stay connected, exactly one
    reconnect is scheduled, with the backoff delay of the current attempt: one second
    doubled per attempt and capped at thirty seconds for the first ten attempts, one minute
    afterwards. *)
Theorem close_schedules path es i (c := run (init path) es) :
  ws c = Some i -> state_of c i <> CLOSED -> shouldReconnect c = true ->
  let c' := step c (EClosed i) in
  ws c' = None /\ isConnected c' = false /\ length (timers c') = 1%nat /\
  (forall p, In p (timers c') ->
     p.2 = if Nat.ltb (reconnectAttempts c) 10 then Z.min 30000 (1000 * 2 ^ Z.of_nat (reconnectAttempts c)) else 60000) /\
  reconnectAttempts c' = Nat.min 10 (S (reconnectAttempts c)).
Proof.
  intros Hw Hs Hr. pose proof (run_inv es (init path) (inv_init path)) as H. fold c in H. cbn [step].
  rewrite bool_decide_eq_false_2 by done. unfold on_close, tracked. cbn [ws set_state set_sockets]. rewrite Hw, Nat.eqb_refl. cbn [negb].
  set (c1 := set_ws None (set_connected false (set_state i CLOSED c))).
  assert (H1 : inv c1).
  { pose proof (on_close_inv c i H) as _. destruct (dead_inv c i CLOSED eq_refl H) as [I1 I2 I3 I4]. split; try done.
    intros k Hk. destruct (I2 k Hk) as [Ek _]. cbn in Ek. rewrite Hw in Ek. injection Ek as <-.
    change (live (state_of (set_state i CLOSED c) i) = true) in Hk. rewrite state_insert, Nat.eqb_refl in Hk. cbn [andb] in Hk.
    destruct (Nat.ltb_spec i (length (sockets c))); [done|]. unfold state_of in Hk. by rewrite nth_overflow in Hk. }
  assert (E : same_core c1 (emit c1 "disconnected" []) /\ shouldReconnect (emit c1 "disconnected" []) = shouldReconnect c).
  { split; [apply emit_core|]. unfold emit. by destruct (assoc_get _ _). }
  destruct E as [E Es]. rewrite Es, Hr. destruct (inv_same _ _ E H1) as [] eqn:Hi. clear Hi.
  assert (H2 : inv (emit c1 "disconnected" [])) by by apply (inv_same c1).
  destruct (schedule_fields _ H2) as (F1 & F2 & F3 & F4 & F5 & F6); [by rewrite Es|].
  destruct E as (W1 & _ & _ & _ & W5 & W6). rewrite F3, F5, F6, F1, W1, W5, W6.
  split; [done|]. split; [done|]. split; [done|]. split; [|done]. intros p [<-|[]]. reflexivity.
Qed.

Lemma close_schedules_witness :
  timers (step (run (init "") [EConnect true; EOpened 0]) (EClosed 0)) = [(0%nat, 1000)] /\
  isConnected (step (run (init "") [EConnect true; EOpened 0]) (EClosed 0)) = false.
Proof.
  split; [reflexivity|].
  refine (proj1 (proj2 (close_schedules "" [EConnect true; EOpened 0] 0 _ _ _))); [reflexivity|discriminate|reflexivity].
Defined.

(** ** Messages *)

(** The calls of the listeners of an event. *)
Definition calls (c : client) (e : string) (args : list jsval) : list call :=
  map (fun cb => Call e cb args) (default [] (assoc_get (listeners c) e)).

Lemma emit_log c e a : log (emit c e a) = log c ++ calls c e a /\ listeners (emit c e a) = listeners c.
Proof. unfold emit, calls. destruct (assoc_get _ _); cbn; [done|]. by rewrite app_nil_r. Qed.

(** A well-formed message on the tracked open socket is dispatched to the listeners of its
    type, in registration order and with its payload and time, and then to the listeners of
    ["message"] with the whole envelope; the connection is unaffected. *)
Theorem message_dispatched c i o ty :
  tracked c i = true -> state_of c i = OPEN -> json_ok (VObj o) -> obj_get o "type" = VStr ty ->
  Z.of_nat (String.length (stringify (VObj o))) <= MAX_PAYLOAD_BYTES ->
  let c' := step c (EMessage i (Some (stringify (VObj o)))) in
  log c' = log c ++ calls c ty [obj_get o "payload"; obj_get o "time"] ++ calls c "message" [VObj o] /\
  sockets c' = sockets c /\ ws c' = ws c.
Proof.
  intros Ht Hs Hj Hty Hl. cbn [step]. rewrite bool_decide_eq_true_2 by done. unfold on_message, onMessage. rewrite Ht. cbn [negb].
  rewrite (proj2 (Z.ltb_ge _ _) Hl). change (default "" (Some ?x)) with x. rewrite JSON_parse_stringify by done. cbn [get]. rewrite Hty.
  set (c1 := emit c ty _). destruct (emit_log c ty [obj_get o "payload"; obj_get o "time"]) as [L1 L2]. fold c1 in L1, L2.
  destruct (emit_log c1 "message" [VObj o]) as [M1 M2]. rewrite M1, L1, <- app_assoc. unfold calls at 2. rewrite L2.
  split; [done|]. destruct (emit_core c ty [obj_get o "payload"; obj_get o "time"]) as (A1 & A2 & _).
  destruct (emit_core c1 "message" [VObj o]) as (B1 & B2 & _). fold c1 in A1, A2. by rewrite B1, B2, A1, A2.
Qed.

Lemma message_dispatched_witness :
  log (step (run (init "") [EOn "nodes" 7; EConnect true; EOpened 0])
         (EMessage 0 (Some (stringify (VObj [("type", VStr "nodes"); ("payload", VArr [])]))))) =
  [Call "nodes" 7 [VArr []; VUndef]].
Proof.
  refine (eq_trans (proj1 (message_dispatched (run (init "") [EOn "nodes" 7; EConnect true; EOpened 0]) 0
    [("type", VStr "nodes"); ("payload", VArr [])] "nodes" _ _ _ _ _)) _); try reflexivity; try discriminate.
  repeat split; unfold obj_wf; by apply (bool_decide_unpack _).
Defined.

(** An oversized text frame changes nothing: the close code 1009 that the handler passes
    is one that [WebSocket.close] rejects with an exception, which the handler swallows, so
    the socket stays open although the handler reports that it is closing it. *)
Theorem oversized_not_closed c i s :
  tracked c i = true -> state_of c i = OPEN -> MAX_PAYLOAD_BYTES < Z.of_nat (String.length s) ->
  step c (EMessage i (Some s)) = c.
Proof.
  intros Ht Hs Hl. cbn [step]. rewrite bool_decide_eq_true_2 by done. unfold on_message, onMessage. rewrite Ht. cbn [negb].
  by rewrite (proj2 (Z.ltb_lt _ _) Hl).
Qed.

Fixpoint filler (n : nat) : string := match n with O => "" | S n => "x" +:+ filler n end.

Lemma filler_length n : String.length (filler n) = n.
Proof. induction n; cbn; auto. Qed.

Lemma oversized_not_closed_witness :
  tracked (run (init "") [EConnect true; EOpened 0]) 0 = true /\
  step (run (init "") [EConnect true; EOpened 0]) (EMessage 0 (Some (filler (Z.to_nat (MAX_PAYLOAD_BYTES + 1))))) =
  run (init "") [EConnect true; EOpened 0].
Proof.
  split; [reflexivity|]. apply oversized_not_closed; [reflexivity|reflexivity|].
  rewrite filler_length, Z2Nat.id; unfold MAX_PAYLOAD_BYTES; lia.
Defined.
