(* ===== verification/Uri.v ===== *)
(** * Percent-encoding

    [encodeURIComponent], [decodeURIComponent] and the query strings of [URLSearchParams],
    over strings as UTF-8 bytes. *)
From S2P Require Import Prelude JsString JsValue Utf8.
From Stdlib Require Import Ascii.
Local Open Scope Z_scope.

(** ** The component codec *)

Definition is_alnum (c : ascii) : bool :=
  let n := code c in
  ((48 <=? n) && (n <=? 57)) || ((65 <=? n) && (n <=? 90)) || ((97 <=? n) && (n <=? 122)).

(** The characters [encodeURIComponent] leaves alone: letters, digits and [-_.!~*'()]. *)
Definition uri_unreserved (c : ascii) : bool := is_alnum c || str_includes "-_.!~*'()" (String c "").

Definition hex_upper (n : Z) : ascii := char_of (if n <? 10 then 48 + n else 55 + n).

Definition percent (c : ascii) : string :=
  String "%" (String (hex_upper (code c / 16)) (String (hex_upper (code c mod 16)) "")).

Fixpoint encodeURIComponent (s : string) : string :=
  match s with
  | "" => ""
  | String c s => (if uri_unreserved c then String c "" else percent c) +:+ encodeURIComponent s
  end.

(** The bytes of the escapes; [None] when a [%] is not followed by two hex digits. *)
Fixpoint percent_decode (s : string) : option string :=
  match s with
  | "" => Some ""
  | String "%" (String a (String b s)) =>
      match hex_digit a, hex_digit b with
      | Some x, Some y => option_map (String (char_of (x * 16 + y))) (percent_decode s)
      | _, _ => None
      end
  | String "%" _ => None
  | String c s => option_map (String c) (percent_decode s)
  end.

(** [None] is the URIError. *)
Definition decodeURIComponent (s : string) : option string :=
  match percent_decode s with
  | Some r => if utf8_valid (bytes_of r) then Some r else None
  | None => None
  end.

(** ** Query strings *)

(** The serialiser of [application/x-www-form-urlencoded]. *)
Definition form_char (c : ascii) : string :=
  if code c =? 32 then "+"
  else if is_alnum c || str_includes "*-._" (String c "") then String c ""
  else percent c.

Fixpoint form_encode (s : string) : string :=
  match s with "" => "" | String c s => form_char c +:+ form_encode s end.

(** [+] is a space, malformed escapes stay as they are. *)
Fixpoint form_decode (s : string) : string :=
  match s with
  | "" => ""
  | String "+" s => String " " (form_decode s)
  | String "%" (String a (String b r) as t) =>
      match hex_digit a, hex_digit b with
      | Some x, Some y => String (char_of (x * 16 + y)) (form_decode r)
      | _, _ => String "%" (form_decode t)
      end
  | String c s => String c (form_decode s)
  end.

(** Decoded names and values; bytes that are not UTF-8 are replaced. *)
Definition form_text (s : string) : string := string_of (utf8_go (bytes_of (form_decode s)) 0 0 0 []).

Definition parse_pair (s : string) : string * string :=
  match index_of "=" s with
  | Some i => (form_text (str_take i s), form_text (str_drop (S i) s))
  | None => (form_text s, "")
  end.

(** [new URLSearchParams(s)] as its list of pairs. *)
Definition parse_query (s : string) : list (string * string) :=
  let s := if starts_with s "?" then str_drop 1 s else s in
  map parse_pair (List.filter (fun p => negb (String.eqb p "")) (split_on "&" s)).

(** [params.get(k)] *)
Definition params_get (ps : list (string * string)) (k : string) : option string :=
  option_map snd (List.find (fun p => String.eqb p.1 k) ps).

(** [params.toString()] *)
Definition query_string (ps : list (string * string)) : string :=
  join "&" (map (fun p => form_encode p.1 +:+ "=" +:+ form_encode p.2) ps).

(** ** Round trips *)

Lemma percent_decode_char c s :
  percent_decode ((if uri_unreserved c then String c "" else percent c) +:+ s) = option_map (String c) (percent_decode s).
Proof. destruct c as [[] [] [] [] [] [] [] []]; reflexivity. Qed.

Lemma percent_decode_encode s : percent_decode (encodeURIComponent s) = Some s.
Proof.
  induction s as [|c s IH]; [done|]. cbn [encodeURIComponent]. by rewrite percent_decode_char, IH.
Qed.

Lemma decode_encodeURIComponent s :
  utf8_valid (bytes_of s) = true -> decodeURIComponent (encodeURIComponent s) = Some s.
Proof. intros H. unfold decodeURIComponent. by rewrite percent_decode_encode, H. Qed.

(** The output is made of unreserved characters and escapes. *)
Definition uri_safe (c : ascii) : bool := uri_unreserved c || Ascii.eqb c "%".

Lemma encode_safe s : forall_chars uri_safe (encodeURIComponent s) = true.
Proof.
  induction s as [|c s IH]; [done|]. cbn [encodeURIComponent]. rewrite forall_chars_app, IH, andb_true_r.
  destruct c as [[] [] [] [] [] [] [] []]; reflexivity.
Qed.

Lemma form_decode_char c s : form_decode (form_char c +:+ s) = String c (form_decode s).
Proof. destruct c as [[] [] [] [] [] [] [] []]; reflexivity. Qed.

Lemma form_decode_encode s : form_decode (form_encode s) = s.
Proof. induction s as [|c s IH]; [done|]. cbn [form_encode]. by rewrite form_decode_char, IH. Qed.

Lemma form_text_encode s : utf8_valid (bytes_of s) = true -> form_text (form_encode s) = s.
Proof. intros H. unfold form_text. rewrite form_decode_encode, utf8_go_ok by done. apply string_of_bytes_of. Qed.

(** Characters a serialised name or value never contains. *)
Lemma form_encode_no s c :
  c = "&"%char \/ c = "="%char \/ c = "?"%char \/ c = "#"%char -> no_char c (form_encode s).
Proof.
  intros Hc. unfold no_char. induction s as [|d s IH]; [done|]. cbn [form_encode]. rewrite forall_chars_app, IH, andb_true_r.
  destruct Hc as [->|[->|[->| ->]]]; destruct d as [[] [] [] [] [] [] [] []]; reflexivity.
Qed.

Lemma index_of_app c a b : no_char c a -> index_of (String c "") (a +:+ String c b) = Some (String.length a).
Proof.
  unfold no_char. induction a as [|d a IH]; cbn.
  - intros _. destruct (ascii_dec c c); [by destruct b|done].
  - intros [Hd Ha]%andb_true_iff. apply negb_true_iff, Ascii.eqb_neq in Hd. destruct (ascii_dec c d); [done|]. by rewrite IH.
Qed.

Definition valid_pair (p : string * string) : Prop :=
  utf8_valid (bytes_of p.1) = true /\ utf8_valid (bytes_of p.2) = true.

(** What a percent-encoder promises to the parser of form data: the parser undoes it, and its
    output has none of the characters that structure a query. *)
Class FormEncoder (enc : string -> string) := {
  enc_text s : utf8_valid (bytes_of s) = true -> form_text (enc s) = s;
  enc_no s c : c = "&"%char \/ c = "="%char \/ c = "?"%char \/ c = "#"%char -> no_char c (enc s)
}.

#[export] Instance form_encode_encoder : FormEncoder form_encode.
Proof. split; [exact form_text_encode|exact form_encode_no]. Qed.

Lemma form_decode_uri_char c s :
  form_decode ((if uri_unreserved c then String c "" else percent c) +:+ s) = String c (form_decode s).
Proof. destruct c as [[] [] [] [] [] [] [] []]; reflexivity. Qed.

Lemma form_decode_encodeURIComponent s : form_decode (encodeURIComponent s) = s.
Proof. induction s as [|c s IH]; [done|]. cbn [encodeURIComponent]. by rewrite form_decode_uri_char, IH. Qed.

#[export] Instance encodeURIComponent_encoder : FormEncoder encodeURIComponent.
Proof.
  split.
  - intros s H. unfold form_text. rewrite form_decode_encodeURIComponent, utf8_go_ok by done. apply string_of_bytes_of.
  - intros s c Hc. unfold no_char. eapply forall_chars_impl; [|apply encode_safe].
    destruct Hc as [->|[->|[->| ->]]]; intros [[] [] [] [] [] [] [] []]; by vm_compute.
Qed.

Section Serialised.
Context (enc : string -> string) `{!FormEncoder enc}.

Definition pair_string (p : string * string) : string := enc p.1 +:+ "=" +:+ enc p.2.

Definition serialise (ps : list (string * string)) : string := join "&" (map pair_string ps).

Lemma parse_pair_string p : valid_pair p -> parse_pair (pair_string p) = p.
Proof.
  intros [H1 H2]. unfold parse_pair, pair_string. cbn [String.append].
  rewrite index_of_app by (apply enc_no; auto). rewrite str_take_app, str_drop_S_app, !enc_text by done.
  by destruct p.
Qed.

Lemma pair_string_no_amp p : no_char "&" (pair_string p).
Proof.
  unfold no_char, pair_string. rewrite !forall_chars_app.
  rewrite (enc_no p.1 "&"), (enc_no p.2 "&") by auto. reflexivity.
Qed.

Lemma pair_string_head p s : starts_with (pair_string p +:+ s) "?" = false.
Proof.
  unfold pair_string. pose proof (enc_no p.1 "?" ltac:(auto)) as H. unfold starts_with. rewrite !app_assoc_str.
  destruct (enc p.1) as [|c t]; [done|]. unfold no_char in H. cbn [forall_chars] in H.
  apply andb_true_iff in H as [H _]. apply negb_true_iff, Ascii.eqb_neq in H. cbn [String.append String.prefix]. by destruct (ascii_dec "?" c).
Qed.

Lemma serialise_head ps : starts_with (serialise ps) "?" = false.
Proof.
  unfold serialise. destruct ps as [|p ps]; [done|]. cbn [map]. destruct (map pair_string ps) as [|x l]; unfold join; cbn [String.concat].
  - pose proof (pair_string_head p "") as E. by rewrite app_nil_r_str in E.
  - apply pair_string_head.
Qed.

(** The pairs of a non-empty serialised list, without the removal of a leading [?]. *)
Lemma parse_pieces ps : Forall valid_pair ps -> ps <> [] ->
  map parse_pair (List.filter (fun p => negb (String.eqb p "")) (split_on "&" (serialise ps))) = ps.
Proof.
  intros H Hne. unfold serialise. change "&" with (String "&" "").
  rewrite split_join; [|by destruct ps|apply List.Forall_map, List.Forall_forall; intros q _; apply pair_string_no_amp].
  clear Hne. induction H as [|q qs Hq _ IH]; [done|]. cbn [map List.filter].
  replace (String.eqb (pair_string q) "") with false; [cbn [negb map]; by rewrite parse_pair_string, IH|].
  symmetry. apply String.eqb_neq. unfold pair_string. by destruct (enc q.1).
Qed.

(** Parsing a serialised parameter list gives it back. *)
Lemma parse_serialise ps : Forall valid_pair ps -> parse_query (serialise ps) = ps.
Proof.
  intros H. unfold parse_query. rewrite serialise_head. destruct ps as [|p ps]; [done|]. by apply parse_pieces.
Qed.
End Serialised.

Lemma parse_query_string ps : Forall valid_pair ps -> parse_query (query_string ps) = ps.
Proof. apply (parse_serialise form_encode). Qed.

(** A query followed by a serialised list has the parameters of both. *)
Lemma split_on_app_gen c a b : split_on c (a +:+ String c b) = split_on c a ++ split_on c b.
Proof.
  induction a as [|d a IH]; cbn.
  - by rewrite Ascii.eqb_refl.
  - destruct (Ascii.eqb c d); [by rewrite IH|]. rewrite IH.
    destruct (split_on c a) eqn:E; [by eapply split_on_nonempty in E|done].
Qed.
