(* ===== verification/Cookies.v ===== *)
(** * Cookies and the interface language

    Models [CookieManager] and [LanguageManager] of src/frontend/src/utils/index.ts.  The
    browser's cookie jar for the page is an ordered list of names and raw values; reading
    [document.cookie] prints it, assigning to it parses one cookie ([assign_cookie]). *)
From S2P Require Import Prelude JsString JsValue Utf8 Uri.
From Stdlib Require Import Ascii.
Local Open Scope Z_scope.

(** ** The browser's jar *)

Definition jar := list (string * string).

Definition cookie_string (j : jar) : string := join "; " (map (fun p => p.1 +:+ "=" +:+ p.2) j).

Fixpoint jar_set (j : jar) (n v : string) : jar :=
  match j with
  | [] => [(n, v)]
  | (m, w) :: j => if String.eqb m n then (n, v) :: j else (m, w) :: jar_set j n v
  end.

(** [document.cookie = s]: the name and value before the first attribute. *)
Definition assign_cookie (j : jar) (s : string) : jar :=
  let nv := hd "" (split_on ";" s) in
  match index_of "=" nv with
  | Some i => jar_set j (trim (str_take i nv)) (trim (str_drop (S i) nv))
  | None => jar_set j "" (trim nv)
  end.

(** ** [CookieManager] *)

(** The loop over the cookies; [None] is the URIError of a malformed value. *)
Fixpoint find_cookie (name : string) (ca : list string) : option string :=
  match ca with
  | [] => Some ""
  | c :: ca =>
      let c := trim c in
      if starts_with c name then decodeURIComponent (str_drop (String.length name) c) else find_cookie name ca
  end.

Definition getCookie (j : jar) (cname : string) : option string :=
  find_cookie (cname +:+ "=") (split_on ";" (cookie_string j)).

(** [utc]: the [toUTCString()] of the expiry date when [exdays] is given. *)
Definition setCookie (j : jar) (cname cvalue : string) (utc : option string) : jar :=
  let expires := match utc with Some d => "expires=" +:+ d +:+ ";" | None => "" end in
  assign_cookie j (cname +:+ "=" +:+ encodeURIComponent cvalue +:+ ";" +:+ expires +:+ "path=/").

(** ** [LanguageManager] *)

Inductive LanguageScope := panel | subscription.

Definition languageCookieNames (s : LanguageScope) : string := match s with panel => "lang" | subscription => "subLang" end.

Definition supportedLanguages : list string :=
  ["ar-EG"; "en-US"; "fa-IR"; "zh-CN"; "zh-TW"; "ja-JP"; "ru-RU"; "vi-VN"; "es-ES"; "id-ID"; "uk-UA"; "tr-TR"; "pt-BR"].

Definition isSupportLanguage (language : string) : bool := existsb (String.eqb language) supportedLanguages.

Definition simularLangs : list (string * string) :=
  [("ar", "ar-EG"); ("fa", "fa-IR"); ("ja", "ja-JP"); ("ru", "ru-RU"); ("vi", "vi-VN"); ("es", "es-ES");
   ("id", "id-ID"); ("uk", "uk-UA"); ("tr", "tr-TR"); ("pt", "pt-BR")].

(** The [forEach] over the pairs. *)
Definition expand_language (lang : string) : string :=
  fold_left (fun lang pair => if String.eqb lang pair.1 then pair.2 else lang) simularLangs lang.

(** The result of a call: the value, the jar and whether the page reloads. *)
Record lang_result := { lr_lang : string; lr_jar : jar; lr_reload : bool }.

(** [nav]: [navigator.language || navigator.userLanguage || ''], [None] without a navigator;
    [utc]: the date one year ahead.  The result is [None] when a cookie value is malformed. *)
Definition getLanguage (j : jar) (scope : LanguageScope) (nav : option string) (utc : string) : option lang_result :=
  let cookieName := languageCookieNames scope in
  match getCookie j cookieName with
  | None => None
  | Some lang =>
      if negb (String.eqb lang "") then Some {| lr_lang := lang; lr_jar := j; lr_reload := false |}
      else
        let by_navigator :=
          match nav with
          | Some nav =>
              let lang := expand_language nav in
              if isSupportLanguage lang
              then {| lr_lang := lang; lr_jar := setCookie j cookieName lang (Some utc); lr_reload := false |}
              else {| lr_lang := lang; lr_jar := setCookie j cookieName "en-US" (Some utc); lr_reload := true |}
          | None => {| lr_lang := ""; lr_jar := setCookie j cookieName "en-US" (Some utc); lr_reload := true |}
          end in
        match scope with
        | subscription =>
            match getCookie j (languageCookieNames panel) with
            | None => None
            | Some legacyLang =>
                if isSupportLanguage legacyLang
                then Some {| lr_lang := legacyLang; lr_jar := setCookie j cookieName legacyLang (Some utc); lr_reload := false |}
                else Some by_navigator
            end
        | panel => Some by_navigator
        end
  end.

Definition setLanguage (j : jar) (language : string) (scope : LanguageScope) (utc : string) : lang_result :=
  let language := if isSupportLanguage language then language else "en-US" in
  {| lr_lang := language; lr_jar := setCookie j (languageCookieNames scope) language (Some utc); lr_reload := true |}.

(** ** A cookie that is set is read back *)

(** What a browser keeps: names without separators, values without the separator, no
    surrounding white space. *)
Definition clean_cookie (p : string * string) : Prop :=
  no_char "=" p.1 /\ no_char ";" p.1 /\ no_char ";" p.2 /\ trim (p.1 +:+ "=" +:+ p.2) = p.1 +:+ "=" +:+ p.2.

Definition plain_name (n : string) : Prop := no_char "=" n /\ no_char ";" n /\ forall_chars (fun c => negb (is_ws c)) n = true.

Lemma encoded_plain v : no_char ";" (encodeURIComponent v) /\ forall_chars (fun c => negb (is_ws c)) (encodeURIComponent v) = true.
Proof.
  pose proof (encode_safe v) as H. split; [unfold no_char|]; revert H; apply forall_chars_impl;
    intros [[] [] [] [] [] [] [] []]; by cbn.
Qed.

(** The assignment made by [setCookie] stores the encoded value under the name. *)
Lemma setCookie_jar j n v utc : plain_name n -> setCookie j n v utc = jar_set j n (encodeURIComponent v).
Proof.
  intros (He & Hs & Hw). destruct (encoded_plain v) as [Es Ew]. unfold setCookie, assign_cookie.
  set (rest := match utc with Some d => _ | None => _ end +:+ "path=/").
  replace (n +:+ "=" +:+ encodeURIComponent v +:+ ";" +:+ rest) with
    ((n +:+ String "=" (encodeURIComponent v)) +:+ String ";" rest) by (rewrite app_assoc_str; done).
  rewrite split_on_app.
  - cbn [hd]. rewrite index_of_app by done. rewrite str_take_app, str_drop_S_app. by rewrite !trim_no_ws.
  - unfold no_char in *. rewrite forall_chars_app, Hs. cbn. done.
Qed.

Lemma jar_set_In j n v : forall p, In p (jar_set j n v) -> p = (n, v) \/ In p j.
Proof.
  induction j as [|[m w] j IH]; intros p; cbn; [naive_solver|].
  destruct (String.eqb m n); cbn; [naive_solver|]. intros [<-|H]; [auto|]. destruct (IH p H); auto.
Qed.

Lemma clean_set j n v : plain_name n -> Forall clean_cookie j -> Forall clean_cookie (jar_set j n (encodeURIComponent v)).
Proof.
  intros (He & Hs & Hw) Hj. rewrite List.Forall_forall in *. intros p [->|Hp]%jar_set_In; [|auto].
  destruct (encoded_plain v) as [Es Ew]. split; [done|]. split; [done|]. split; [done|]. cbn [fst snd].
  apply trim_no_ws. rewrite !forall_chars_app, Hw, Ew. done.
Qed.

(** The cookies as the loop sees them: each after the first carries the space of ["; "]. *)
Lemma split_cookies x l :
  Forall (no_char ";") (x :: l) -> split_on ";" (join "; " (x :: l)) = x :: map (String " ") l.
Proof.
  revert x. induction l as [|y l IH]; intros x H; apply List.Forall_cons_iff in H as [Hx H].
  - by apply split_on_single.
  - transitivity (split_on ";" (x +:+ String ";" (String " " (join "; " (y :: l))))); [done|].
    rewrite split_on_app by done. f_equal. specialize (IH y H). cbn [split_on Ascii.eqb]. cbn -[join split_on]. by rewrite IH.
Qed.

Definition raw_cookie (p : string * string) : string := p.1 +:+ "=" +:+ p.2.

Lemma trim_space x : trim (String " " x) = trim x.
Proof. done. Qed.

Lemma find_cookie_spaced name l : find_cookie name (map (String " ") l) = find_cookie name l.
Proof. induction l as [|x l IH]; [done|]. cbn [map find_cookie]. by rewrite trim_space, IH. Qed.

Lemma getCookie_raw j n : Forall clean_cookie j -> j <> [] -> getCookie j n = find_cookie (n +:+ "=") (map raw_cookie j).
Proof.
  intros H Hne. destruct j as [|p j]; [done|]. unfold getCookie, cookie_string.
  change (map (fun p => p.1 +:+ "=" +:+ p.2) (p :: j)) with (raw_cookie p :: map raw_cookie j). rewrite split_cookies.
  - cbn [map find_cookie]. by rewrite find_cookie_spaced.
  - change (raw_cookie p :: map raw_cookie j) with (map raw_cookie (p :: j)). apply List.Forall_map.
    eapply List.Forall_impl; [|exact H]. intros q (_ & H1 & H2 & _). unfold no_char, raw_cookie in *.
    rewrite !forall_chars_app, H1, H2. done.
Qed.

(** [m=w] starts with [n=] only when the names agree. *)
Lemma raw_starts m w n : no_char "=" m -> no_char "=" n -> starts_with (m +:+ "=" +:+ w) (n +:+ "=") = String.eqb m n.
Proof.
  intros Hm Hn. apply eq_true_iff_eq. unfold starts_with. rewrite prefix_iff, String.eqb_eq. split.
  - intros [t E]. rewrite app_assoc_str in E. cbn [String.append] in E.
    assert (I : index_of "=" (m +:+ String "=" w) = index_of "=" (n +:+ String "=" t)) by (f_equal; exact E).
    rewrite !index_of_app in I by done. injection I as I.
    rewrite <- (str_take_app m (String "=" w)), <- (str_take_app n (String "=" t)). rewrite I. f_equal. exact E.
  - intros ->. exists w. by rewrite app_assoc_str.
Qed.

Lemma find_cookie_set j n v :
  plain_name n -> utf8_valid (bytes_of v) = true -> Forall clean_cookie j ->
  find_cookie (n +:+ "=") (map raw_cookie (jar_set j n (encodeURIComponent v))) = Some v.
Proof.
  intros Hn Hv Hj. pose proof Hn as (He & Hs & Hw). destruct (encoded_plain v) as [_ Ew].
  assert (Hit : forall l, find_cookie (n +:+ "=") (raw_cookie (n, encodeURIComponent v) :: l) = Some v).
  { intros l. cbn [find_cookie]. unfold raw_cookie. cbn [fst snd].
    rewrite trim_no_ws by (rewrite !forall_chars_app, Hw, Ew; done). rewrite raw_starts, String.eqb_refl by done.
    rewrite <- app_assoc_str, str_drop_app. by apply decode_encodeURIComponent. }
  induction Hj as [|[m w] j Hp Hj IH]; [apply Hit|]. cbn [jar_set].
  destruct (String.eqb m n) eqn:E; [apply Hit|]. cbn [map find_cookie].
  destruct Hp as (H1 & H2 & H3 & H4). unfold raw_cookie at 1 2. cbn [fst snd] in *. rewrite H4, raw_starts, E by done. exact IH.
Qed.

Lemma jar_set_nonempty j n v : jar_set j n v <> [].
Proof. destruct j as [|[m w] j]; cbn; [done|]. by destruct (String.eqb m n). Qed.

(** [getCookie] returns what [setCookie] stored. *)
Lemma getCookie_setCookie j n v utc :
  plain_name n -> utf8_valid (bytes_of v) = true -> Forall clean_cookie j -> getCookie (setCookie j n v utc) n = Some v.
Proof.
  intros Hn Hv Hj. rewrite setCookie_jar by done. rewrite getCookie_raw by (by apply clean_set || apply jar_set_nonempty).
  by apply find_cookie_set.
Qed.

(** ** Languages *)

Lemma scope_name_plain scope : plain_name (languageCookieNames scope).
Proof. by destruct scope. Qed.

Lemma supported_ascii l : isSupportLanguage l = true -> utf8_valid (bytes_of l) = true /\ l <> "".
Proof.
  unfold isSupportLanguage. intros (x & Hx & ->%String.eqb_eq)%existsb_exists.
  repeat (destruct Hx as [<-|Hx]; [split; [reflexivity|discriminate]|]). done.
Qed.

(** [setLanguage] stores a supported language under the scope's cookie -- the requested
    one, or English when it is not supported -- and a later [getLanguage] of that scope
    returns it without touching the jar, whatever the browser's own language. *)
Theorem getLanguage_setLanguage j language scope nav utc utc' :
  Forall clean_cookie j ->
  let r := setLanguage j language scope utc in
  let stored := if isSupportLanguage language then language else "en-US" in
  isSupportLanguage stored = true /\
  getLanguage (lr_jar r) scope nav utc' = Some {| lr_lang := stored; lr_jar := lr_jar r; lr_reload := false |}.
Proof.
  intros Hj r stored.
  assert (Hs : isSupportLanguage stored = true) by (subst stored; by destruct (isSupportLanguage language) eqn:E).
  split; [done|]. destruct (supported_ascii stored Hs) as [Hv Hne].
  unfold getLanguage. subst r. cbn [lr_jar setLanguage]. fold stored.
  rewrite getCookie_setCookie by (done || apply scope_name_plain).
  by rewrite (proj2 (String.eqb_neq stored "") Hne).
Qed.

Lemma getLanguage_setLanguage_witness :
  getLanguage (lr_jar (setLanguage [("session", "abc%3D")] "fa-IR" panel "")) panel (Some "ru") "" =
  Some {| lr_lang := "fa-IR"; lr_jar := [("session", "abc%3D"); ("lang", "fa-IR")]; lr_reload := false |}.
Proof.
  refine (proj2 (getLanguage_setLanguage [("session", "abc%3D")] "fa-IR" panel (Some "ru") "" "" _)).
  repeat constructor.
Defined.
