(* ===== verification/HttpClient.v ===== *)
(** * The HTTP client

    Models src/frontend/src/api/http-init.ts (request encoding, CSRF token handling, session
    expiry) and the [Msg]/[HttpUtil] layer of src/frontend/src/utils/index.ts.

    The network is an argument: [net n r] is the outcome of the [n]-th [fetch] of the page when
    it is the request [r].  The module's variables, the log of requests and the redirects are
    the state; one request runs to its end before the next one starts, so the promise shared by
    concurrent token fetches is not needed.  Timeouts and aborts are outcomes of the network.
    Header names and values are taken to be valid ones. *)
From S2P Require Import Prelude JsString JsValue Utf8 Uri Json ObjectUtil.
From Stdlib Require Import Ascii.
Local Open Scope Z_scope.

(** ** Encoding *)

Definition SAFE_METHODS : list string := ["GET"; "HEAD"; "OPTIONS"; "TRACE"].
Definition CSRF_TOKEN_PATH : string := "/csrf-token".

Definition is_safe (method : string) : bool := existsb (String.eqb (to_upper method)) SAFE_METHODS.

(** The [append] closure of [encodeForm], returning the parts it pushes. *)
Fixpoint append_part (key : string) (value : jsval) : list string :=
  match value with
  | VUndef => []
  | VNull => [encodeURIComponent key +:+ "="]
  | VArr l => flat_map (append_part key) l
  | VObj o => flat_map (fun '(k, v) => append_part (key +:+ "[" +:+ k +:+ "]") v) o
  | _ => [encodeURIComponent key +:+ "=" +:+ encodeURIComponent (js_string value)]
  end.

Definition encodeForm (data : jsval) : string :=
  match data with
  | VObj o => join "&" (flat_map (fun '(k, v) => append_part k v) o)
  | VArr l => join "&" (flat_map (fun '(k, v) => append_part k v) (entries (VArr l)))
  | _ => ""
  end.

Definition appendQuery (url query : string) : string :=
  if String.eqb query "" then url
  else
    let '(path, hash) := match index_of "#" url with
                         | Some i => (str_take i url, str_drop i url)
                         | None => (url, "")
                         end in
    let separator := if negb (str_includes path "?") then "?"
                     else if ends_with path "?" || ends_with path "&" then "" else "&" in
    path +:+ separator +:+ query +:+ hash.

(** ** Requests *)

(** A [Headers] object: lower-cased names. *)
Definition headers := list (string * string).

Fixpoint h_get (h : headers) (n : string) : option string :=
  match h with [] => None | (m, v) :: h => if String.eqb m (to_lower n) then Some v else h_get h n end.

Definition h_del (h : headers) (n : string) : headers := List.filter (fun p => negb (String.eqb p.1 (to_lower n))) h.

Definition h_set (h : headers) (n v : string) : headers := h_del h n ++ [(to_lower n, v)].

(** [headers.append]: values of equal names are combined. *)
Definition h_append (h : headers) (n v : string) : headers :=
  match h_get h n with
  | None => h ++ [(to_lower n, v)]
  | Some _ => map (fun p => if String.eqb p.1 (to_lower n) then (p.1, p.2 +:+ ", " +:+ v) else p) h
  end.

(** [new Headers(record)] *)
Definition h_new (l : list (string * string)) : headers := fold_left (fun h p => h_append h p.1 p.2) l [].

Inductive payload := FormData | Value (v : jsval).
Inductive body := NoBody | BForm | BText (s : string).

Record request := { r_method : string; r_url : string; r_headers : headers; r_body : body }.

Record response := { res_status : Z; res_statusText : string; res_contentType : string; res_text : string }.

Definition res_ok (r : response) : bool := (200 <=? res_status r) && (res_status r <=? 299).

(** [inr m]: the promise of [fetch] is rejected with an error whose message is [m]. *)
Definition network := nat -> request -> response + string.

(** ** State *)

Record page := {
  csrfToken : option string;
  sessionExpired : bool;
  basePathPrefix : string;
  xuiBasePath : option string;   (* window.X_UI_BASE_PATH *)
  metaBasePath : option string;  (* the content of the base-path meta tag *)
  metaToken : option string;     (* the content of the csrf-token meta tag *)
  redirects : list string;       (* the targets of window.location.replace *)
  fetches : list request         (* the log, oldest first *)
}.

Definition with_token (t : option string) (p : page) : page :=
  {| csrfToken := t; sessionExpired := sessionExpired p; basePathPrefix := basePathPrefix p; xuiBasePath := xuiBasePath p;
     metaBasePath := metaBasePath p; metaToken := metaToken p; redirects := redirects p; fetches := fetches p |}.
Definition log_fetch (r : request) (p : page) : page :=
  {| csrfToken := csrfToken p; sessionExpired := sessionExpired p; basePathPrefix := basePathPrefix p; xuiBasePath := xuiBasePath p;
     metaBasePath := metaBasePath p; metaToken := metaToken p; redirects := redirects p; fetches := fetches p ++ [r] |}.

(** [s || null] of a string that may be missing. *)
Definition nonempty (t : option string) : option string :=
  match t with Some "" | None => None | Some s => Some s end.

Definition readMetaToken (p : page) : option string := nonempty (metaToken p).

Definition redirect_target (p : page) : string :=
  match nonempty (xuiBasePath p) with
  | Some b => b
  | None => if String.eqb (basePathPrefix p) "" then "/" else basePathPrefix p
  end.

(** What a 401 does. *)
Definition expire (p : page) : page :=
  if sessionExpired p then p
  else {| csrfToken := csrfToken p; sessionExpired := true; basePathPrefix := basePathPrefix p; xuiBasePath := xuiBasePath p;
          metaBasePath := metaBasePath p; metaToken := metaToken p;
          redirects := redirects p ++ [redirect_target p]; fetches := fetches p |}.

(** [s.replace(/\/$/, '')] *)
Definition strip_slash (s : string) : string :=
  if ends_with s "/" then str_take (String.length s - 1) s else s.

Definition setupHttp (p : page) : page :=
  let basePath := match nonempty (xuiBasePath p) with Some b => Some b | None => metaBasePath p end in
  {| csrfToken := readMetaToken p; sessionExpired := sessionExpired p;
     basePathPrefix := match basePath with
                       | Some b => if negb (String.eqb b "") && negb (String.eqb b "/") then strip_slash b else ""
                       | None => ""
                       end;
     xuiBasePath := xuiBasePath p; metaBasePath := metaBasePath p; metaToken := metaToken p;
     redirects := redirects p; fetches := fetches p |}.

Section Client.
Context (net : network).

(** [fetch]: the outcome and the page with the request logged. *)
Definition fetch (p : page) (r : request) : (response + string) * page := (net (length (fetches p)) r, log_fetch r p).

Definition token_request (p : page) : request :=
  {| r_method := "GET"; r_url := basePathPrefix p +:+ CSRF_TOKEN_PATH;
     r_headers := h_new [("X-Requested-With", "XMLHttpRequest")]; r_body := NoBody |}.

Definition fetchCsrfToken (p : page) : option string * page :=
  let (out, p) := fetch p (token_request p) in
  match out with
  | inr _ => (None, p)
  | inl res =>
      if negb (res_ok res) then (None, p)
      else match JSON_parse (res_text res) with
           | None => (None, p)
           | Some json =>
               if truthy (get json "success") then
                 match get json "obj" with VStr t => (Some t, p) | _ => (None, p) end
               else (None, p)
           end
  end.

Definition ensureCsrfToken (p : page) : option string * page :=
  match nonempty (csrfToken p) with
  | Some t => (Some t, p)
  | None =>
      match readMetaToken p with
      | Some m => (Some m, with_token (Some m) p)
      | None =>
          let (fetched, p) := fetchCsrfToken p in
          let p := match nonempty fetched with Some t => with_token (Some t) p | None => p end in
          (csrfToken p, p)
      end
  end.

Record options := { o_headers : list (string * string); o_params : jsval }.

(** The headers and body before the token is added. *)
Definition prepare (method : string) (data : payload) (o : options) : headers * body :=
  let h := h_set (h_new (o_headers o)) "X-Requested-With" "XMLHttpRequest" in
  match data with
  | FormData => (h_del h "Content-Type", BForm)
  | Value v =>
      if is_safe method then (h, NoBody)
      else
        let declaredType := to_lower (default "" (h_get h "Content-Type")) in
        if starts_with declaredType "application/json" then
          (h, match v with VUndef => NoBody | VStr s => BText s | _ => BText (stringify v) end)
        else (h_set h "Content-Type" "application/x-www-form-urlencoded; charset=UTF-8", BText (encodeForm v))
  end.

Definition performFetch (p : page) (method url : string) (data : payload) (o : options) (csrfOverride : option string)
  : (response + string) * page :=
  let upper := to_upper method in
  let (h, b) := prepare method data o in
  let '(h, p) :=
    if is_safe method then (h, p)
    else
      let (token, p) := match csrfOverride with Some t => (Some t, p) | None => ensureCsrfToken p end in
      (match nonempty token with Some t => h_set h "X-CSRF-Token" t | None => h end, p) in
  let fullUrl := basePathPrefix p +:+ appendQuery url (encodeForm (o_params o)) in
  fetch p {| r_method := upper; r_url := fullUrl; r_headers := h; r_body := b |}.

Definition parseBody (res : response) : jsval :=
  if (res_status res =? 204) || (res_status res =? 205) then VStr ""
  else
    let text := res_text res in
    if String.eqb text "" then VStr ""
    else if str_includes (to_lower (res_contentType res)) "application/json" || starts_with text "{" || starts_with text "["
    then match JSON_parse text with Some v => v | None => VStr text end
    else VStr text.

(** How a call ends: with a response, with an [HttpError], with a rejected [fetch], or never. *)
Inductive outcome :=
| Done (status : Z) (statusText : string) (data : jsval)
| HttpError (status : Z) (statusText : string) (data : jsval)
| Rejected (message : string)
| Pending.

(** The part of [httpRequest] after the retry. *)
Definition conclude (res : response + string) (p : page) : outcome * page :=
  match res with
  | inr m => (Rejected m, p)
  | inl res =>
      if res_status res =? 401 then (Pending, expire p)
      else
        let parsed := parseBody res in
        if negb (res_ok res) then (HttpError (res_status res) (res_statusText res) parsed, p)
        else (Done (res_status res) (res_statusText res) parsed, p)
  end.

Definition httpRequest (p : page) (method url : string) (data : payload) (o : options) : outcome * page :=
  let (res, p) := performFetch p method url data o None in
  match res with
  | inr m => (Rejected m, p)
  | inl r =>
      if (res_status r =? 403) && negb (is_safe method) then
        let p := with_token None p in
        let (fresh, p) := fetchCsrfToken p in
        match nonempty fresh with
        | Some t =>
            let p := with_token (Some t) p in
            let (res, p) := performFetch p method url data o (Some t) in
            conclude res p
        | None => conclude res p
        end
      else conclude res p
  end.

(** ** [Msg] and [HttpUtil] *)

Record Msg := { m_success : bool; m_msg : jsval; m_obj : jsval }.

(** The toasts [_handleMsg] shows. *)
Inductive toast := Success (s : jsval) | Warning | Failure (s : jsval).

(** What a call resolves to: a [Msg], or an envelope-less object of the server as it is. *)
Definition reply : Type := Msg + jsval.

Definition handleMsg (m : reply) (silentSuccess : bool) : list toast :=
  match m with
  | inr _ => []
  | inl m =>
      if is_str (m_msg m) "" then []
      else if m_success m then
        (if silentSuccess then [] else [Success (m_msg m)]) ++
        (if is_bool (get (m_obj m) "nodePending") true then [Warning] else [])
      else [Failure (m_msg m)]
  end.

(** [_respToMsg] of a response whose data is [data]. *)
Definition respToMsg (data : jsval) : reply :=
  if negb (truthy data) then inl {| m_success := false; m_msg := VStr "No response data"; m_obj := VNull |}
  else
    match data with
    | VObj o =>
        if obj_has o "success" then
          inl {| m_success := truthy (obj_get o "success"); m_msg := VStr (str_or_empty (obj_get o "msg"));
                 m_obj := or_nullish (obj_get o "obj") VNull |}
        else inr data
    | VArr _ => inr data
    | _ => inl {| m_success := false; m_msg := VStr "unknown data:"; m_obj := data |}
    end.

(** The message of the [catch] branches. *)
Definition error_text (data : jsval) (message : string) : jsval :=
  or_falsy (get data "msg") (or_falsy (get data "message") (or_falsy (VStr message) (VStr "Request failed"))).

Record call_result := { cr_msg : reply; cr_toasts : list toast }.

(** The [try] and [catch] branches of [get], [post] and [delete]; [None]: the promise never
    settles. *)
Definition finish (out : outcome) (silent silentSuccess : bool) : option call_result :=
  let settled m silentSuccess := Some {| cr_msg := m; cr_toasts := if silent then [] else handleMsg m silentSuccess |} in
  let failed text := settled (inl {| m_success := false; m_msg := text; m_obj := VNull |}) false in
  match out with
  | Pending => None
  | Done _ _ data => settled (respToMsg data) silentSuccess
  | HttpError status _ data => failed (error_text data ("Request failed with status " +:+ string_of_Z status))
  | Rejected message => failed (error_text VUndef message)
  end.

Definition HttpUtil_get (p : page) (url : string) (params : jsval) (hs : list (string * string)) (silent silentSuccess : bool)
  : option call_result * page :=
  let (out, p) := httpRequest p "GET" url (Value VUndef) {| o_headers := hs; o_params := params |} in
  (finish out silent silentSuccess, p).

Definition HttpUtil_post (p : page) (url : string) (data : payload) (o : options) (silent silentSuccess : bool)
  : option call_result * page :=
  let (out, p) := httpRequest p "POST" url data o in (finish out silent silentSuccess, p).

Definition HttpUtil_delete (p : page) (url : string) (o : options) (silent silentSuccess : bool)
  : option call_result * page :=
  let (out, p) := httpRequest p "DELETE" url (Value VUndef) o in (finish out silent silentSuccess, p).

(** What [postWithModal] does to the modal it is given. *)
Inductive modal_event := Loading (b : bool) | Close.

Definition is_success (m : reply) : bool := match m with inl m => m_success m | inr _ => false end.

Definition postWithModal (p : page) (url : string) (data : payload) (modal : bool) : option call_result * list modal_event * page :=
  let start := if modal then [Loading true] else [] in
  let (r, p) := HttpUtil_post p url data {| o_headers := []; o_params := VUndef |} false false in
  match r with
  | None => (None, start, p)
  | Some c =>
      (Some c, start ++ (if modal then Loading false :: (if is_success (cr_msg c) then [Close] else []) else []), p)
  end.
End Client.

Definition applyDocumentTitle (host title : string) : string :=
  if String.eqb host "" then title
  else let current := trim title in
       if negb (String.eqb current "") then host +:+ " - " +:+ current else host.

(** ** Which requests a call makes *)

Section Protocol.
Context (net : network).

(** The token a page can use without asking the server. *)
Definition known_token (p : page) : option string :=
  match nonempty (csrfToken p) with Some t => Some t | None => readMetaToken p end.

(** The request of a call that carries the token [t], if any. *)
Definition request_with (p : page) (method url : string) (data : payload) (o : options) (t : option string) : request :=
  let (h, b) := prepare method data o in
  {| r_method := to_upper method; r_url := basePathPrefix p +:+ appendQuery url (encodeForm (o_params o));
     r_headers := match t with Some t => h_set h "X-CSRF-Token" t | None => h end; r_body := b |}.

(** Everything but the token and the log. *)
Definition same_page (p q : page) : Prop :=
  sessionExpired p = sessionExpired q /\ basePathPrefix p = basePathPrefix q /\ xuiBasePath p = xuiBasePath q /\
  metaToken p = metaToken q /\ redirects p = redirects q.

Lemma same_page_trans p q r : same_page p q -> same_page q r -> same_page p r.
Proof. intros (? & ? & ? & ? & ?) (? & ? & ? & ? & ?). repeat split; congruence. Qed.

Lemma same_page_url p q : same_page p q -> basePathPrefix q = basePathPrefix p.
Proof. by intros (? & -> & ?). Qed.

Lemma fetchCsrfToken_page p : (fetchCsrfToken net p).2 = log_fetch (token_request p) p.
Proof.
  unfold fetchCsrfToken, fetch. destruct (net _ _) as [res|]; [|done]. destruct (res_ok res); [|done]. cbn.
  destruct (JSON_parse _) as [json|]; [|done]. destruct (truthy _); [|done]. by destruct (get json "obj").
Qed.

Lemma nonempty_Some t s : nonempty t = Some s -> t = Some s /\ s <> "".
Proof. destruct t as [[|c r]|]; cbn; intros [= <-]; done. Qed.

Lemma nonempty_idem t : nonempty (nonempty t) = nonempty t.
Proof. by destruct t as [[|c r]|]. Qed.

Lemma known_token_nonempty p k : known_token p = Some k -> nonempty (Some k) = Some k.
Proof.
  unfold known_token, readMetaToken. destruct (csrfToken p) as [[|c r]|]; cbn [nonempty];
    [|by intros [= <-]|]; destruct (metaToken p) as [[|c r]|]; cbn; by intros [= <-].
Qed.

(** The server hands out the token [t]: a success with a JSON envelope whose object is a string that
    is not empty. *)
Definition hands_out (answer : response + string) (t : string) : Prop :=
  exists res json, answer = inl res /\ 200 <= res_status res <= 299 /\ JSON_parse (res_text res) = Some json /\
    truthy (get json "success") = true /\ get json "obj" = VStr t /\ t <> "".

Definition gives (answer : response + string) (t : option string) : Prop :=
  match t with Some t => hands_out answer t | None => forall t, ~ hands_out answer t end.

Lemma fetchCsrfToken_gives p : gives (net (length (fetches p)) (token_request p)) (nonempty (fetchCsrfToken net p).1).
Proof.
  unfold fetchCsrfToken, fetch, gives, hands_out. destruct (net _ _) as [res|m]; [|by intros t (? & ? & ? & ?)].
  destruct (res_ok res) eqn:Eo; cbn [negb]; cycle 1.
  { intros t (? & json & [= <-] & H & _). unfold res_ok in Eo. lia. }
  assert (200 <= res_status res <= 299) by (unfold res_ok in Eo; lia).
  destruct (JSON_parse (res_text res)) as [json|] eqn:Ej; cycle 1.
  { intros t (? & json & [= <-] & _ & H2 & _). congruence. }
  destruct (truthy (get json "success")) eqn:Es; cycle 1.
  { intros t (? & j & [= <-] & _ & H2 & H3 & _). congruence. }
  assert (No : (forall t, get json "obj" = VStr t -> t = "") -> forall t, ~ exists res' j, @inl response string res = inl res' /\ 200 <= res_status res' <= 299 /\
    JSON_parse (res_text res') = Some j /\ truthy (get j "success") = true /\ get j "obj" = VStr t /\ t <> "").
  { intros N t (? & j & [= <-] & _ & H2 & _ & H4 & H5). rewrite Ej in H2. injection H2 as <-. by apply H5, N. }
  destruct (get json "obj") as [| | |z|t|l|o] eqn:Eo'; cbn [fst nonempty]; try (apply No; congruence).
  destruct t as [|c t]; cbn [fst nonempty]; [apply No; congruence|]. by exists res, json.
Qed.

(** The token a call starts with, and the request it makes for it. *)
Definition first_token (p : page) (pre : list request) (t : option string) : Prop :=
  match known_token p with
  | Some k => pre = [] /\ t = Some k
  | None => pre = [token_request p] /\ gives (net (length (fetches p)) (token_request p)) t
  end.

(** The token fetch happens only when no token is known. *)
Lemma ensureCsrfToken_spec p :
  let '(t, q) := ensureCsrfToken net p in
  same_page p q /\ exists pre, fetches q = fetches p ++ pre /\ first_token p pre (nonempty t).
Proof.
  unfold ensureCsrfToken, first_token, known_token. destruct (nonempty (csrfToken p)) as [t|] eqn:E.
  { split; [done|]. exists []. rewrite app_nil_r. destruct t; [by destruct (csrfToken p) as [[]|]|done]. }
  destruct (readMetaToken p) as [m|] eqn:Em.
  { split; [by repeat split|]. exists []. rewrite app_nil_r. unfold readMetaToken in Em. destruct m; [by destruct (metaToken p) as [[]|]|done]. }
  pose proof (fetchCsrfToken_page p) as F. pose proof (fetchCsrfToken_gives p) as G. destruct (fetchCsrfToken net p) as [x q]. cbn [snd fst] in F, G. subst q.
  destruct (nonempty x) as [k|] eqn:Ex.
  - split; [done|]. exists [token_request p]. apply nonempty_Some in Ex as [-> Hk]. by destruct k.
  - split; [done|]. exists [token_request p]. cbn [csrfToken log_fetch]. rewrite E. done.
Qed.

Lemma performFetch_spec p method url data o ov :
  let '(r, q) := performFetch net p method url data o ov in
  same_page p q /\
  exists t pre, fetches q = fetches p ++ pre ++ [request_with p method url data o t] /\
    r = net (length (fetches p ++ pre)) (request_with p method url data o t) /\
    (is_safe method = true -> pre = [] /\ t = None) /\
    (is_safe method = false ->
       match ov with Some k => pre = [] /\ t = nonempty (Some k) /\ csrfToken q = csrfToken p | None => first_token p pre t end).
Proof.
  unfold performFetch, request_with, fetch. destruct (prepare method data o) as [h b]. destruct (is_safe method) eqn:Es.
  { split; [by repeat split|]. exists None, []. rewrite app_nil_r. cbn. by repeat split. }
  destruct ov as [k|].
  { split; [by repeat split|]. exists (nonempty (Some k)), []. rewrite app_nil_r. cbn. by destruct k. }
  pose proof (ensureCsrfToken_spec p) as H. destruct (ensureCsrfToken net p) as [t q]. destruct H as (Hs & pre & Hf & H).
  rewrite (same_page_url _ _ Hs). split; [exact Hs|]. exists (nonempty t), pre. cbn [fetches log_fetch]. rewrite Hf, <-app_assoc. done.
Qed.

Lemma conclude_fetches res p : fetches (conclude res p).2 = fetches p /\ csrfToken (conclude res p).2 = csrfToken p.
Proof.
  unfold conclude, expire. destruct res as [r|m]; [|done]. destruct (res_status r =? 401); [by destruct (sessionExpired p)|].
  by destruct (res_ok r).
Qed.

(** How the caller learns of the last answer. *)
Definition answered (answer : response + string) (out : outcome) : Prop :=
  match answer with
  | inr m => out = Rejected m
  | inl r =>
      (res_status r = 401 -> out = Pending) /\
      (200 <= res_status r <= 299 -> out = Done (res_status r) (res_statusText r) (parseBody r)) /\
      (res_status r <> 401 -> ~ 200 <= res_status r <= 299 -> out = HttpError (res_status r) (res_statusText r) (parseBody r))
  end.

Lemma conclude_answered res p : answered res (conclude res p).1.
Proof.
  destruct res as [r|m]; [|done]. unfold conclude, answered, res_ok. destruct (Z.eqb_spec (res_status r) 401) as [E|E]; cbn [fst].
  - rewrite E. repeat split; lia.
  - split; [done|]. split; intros; (destruct ((200 <=? res_status r) && (res_status r <=? 299)) eqn:H'; [done || lia|done || lia]).
Qed.

(** The payload request was refused for its token. *)
Definition refused (answer : response + string) : Prop := exists r, answer = inl r /\ res_status r = 403.

(** The requests of a call after the payload request with token [t], which is number [n] of the page and
    was answered [first]; [last] is the answer the call ends with and [after] the stored token then. *)
Definition retried (p : page) (method url : string) (data : payload) (o : options) (n : nat) (first : response + string)
  (retry : list request) (last : response + string) (after : option string) : Prop :=
  exists fresh, gives (net (S n) (token_request p)) fresh /\
    match fresh with
    | Some k => retry = [token_request p; request_with p method url data o (Some k)] /\
                last = net (S (S n)) (request_with p method url data o (Some k)) /\ after = Some k
    | None => retry = [token_request p] /\ last = first /\ after = None
    end.

(** C25. A call makes one request for its payload.  A safe method makes no other and carries no
    token.  An unsafe one carries the token the page knows; when it knows none, it asks the server first
    and carries what the server hands out, if anything.  After a 403, and only then, an unsafe call asks for a
    token once more: if the server hands one out, the request is repeated once with exactly that token, which becomes
    the page's, and the call ends with the answer to the repeated request; if not, it ends with the 403 and the page
    knows no token.  The outcome is the one of the last answer. *)
Theorem httpRequest_protocol p method url data o :
  let '(out, q) := httpRequest net p method url data o in
  exists pre t retry last,
    fetches q = fetches p ++ pre ++ [request_with p method url data o t] ++ retry /\ answered last out /\
    let n := (length (fetches p) + length pre)%nat in
    let first := net n (request_with p method url data o t) in
    (is_safe method = true -> pre = [] /\ t = None /\ retry = [] /\ last = first) /\
    (is_safe method = false -> first_token p pre t /\
       (~ refused first -> retry = [] /\ last = first) /\
       (refused first -> retried p method url data o n first retry last (csrfToken q))).
Proof.
  unfold httpRequest. pose proof (performFetch_spec p method url data o None) as H.
  destruct (performFetch net p method url data o None) as [res q]. destruct H as (Hs & t & pre & Hf & Hr & Hsafe & Hunsafe).
  rewrite length_app in Hr.
  assert (Quit : (is_safe method = false -> ~ refused res) -> let '(out, q') := conclude res q in exists pre t retry last,
    fetches q' = fetches p ++ pre ++ [request_with p method url data o t] ++ retry /\ answered last out /\
    let n := (length (fetches p) + length pre)%nat in let first := net n (request_with p method url data o t) in
    (is_safe method = true -> pre = [] /\ t = None /\ retry = [] /\ last = first) /\
    (is_safe method = false -> first_token p pre t /\ (~ refused first -> retry = [] /\ last = first) /\
       (refused first -> retried p method url data o n first retry last (csrfToken q')))).
  { intros N. destruct (conclude_fetches res q) as [Ef _]. pose proof (conclude_answered res q) as A. destruct (conclude res q) as [out q']. cbn [fst snd] in *.
    exists pre, t, [], res. rewrite Ef, app_nil_r. cbv zeta. rewrite <-Hr. naive_solver. }
  destruct res as [r|m]; [|apply Quit; by intros _ (? & ? & ?)].
  destruct ((res_status r =? 403) && negb (is_safe method)) eqn:E; cycle 1.
  { apply Quit. intros Em (r' & [= <-] & H4). rewrite H4, Em in E. done. }
  apply andb_true_iff in E as [E4%Z.eqb_eq Em%negb_true_iff]. clear Quit.
  pose proof (fetchCsrfToken_page (with_token None q)) as F. pose proof (fetchCsrfToken_gives (with_token None q)) as G.
  assert (Et : token_request (with_token None q) = token_request p) by (unfold token_request; cbn; by rewrite (same_page_url _ _ Hs)).
  destruct (fetchCsrfToken net (with_token None q)) as [fresh q1]. cbn [snd fst fetches with_token] in F, G. subst q1. rewrite Et in G |- *.
  rewrite Hf, !length_app in G. cbn [length] in G. rewrite (Nat.add_assoc (length (fetches p)) _ 1), Nat.add_1_r in G.
  destruct (nonempty fresh) as [k|] eqn:Ek.
  - apply nonempty_Some in Ek as [-> Hk].
    set (q1 := with_token (Some k) (log_fetch (token_request p) (with_token None q))).
    pose proof (performFetch_spec q1 method url data o (Some k)) as H.
    destruct (performFetch net q1 method url data o (Some k)) as [res2 q2]. destruct H as (Hs2 & t2 & pre2 & Hf2 & Hr2 & _ & H2).
    destruct (H2 Em) as (-> & -> & Hc). destruct (conclude_fetches res2 q2) as [Ef2 Ec2]. pose proof (conclude_answered res2 q2) as A.
    destruct (conclude res2 q2) as [out q3]. cbn [fst snd] in *.
    assert (Er : request_with q1 method url data o (nonempty (Some k)) = request_with p method url data o (Some k)).
    { unfold request_with, q1. cbn [basePathPrefix with_token log_fetch]. rewrite (same_page_url _ _ Hs). by destruct k. }
    rewrite Er in Hf2, Hr2. exists pre, t, [token_request p; request_with p method url data o (Some k)], res2.
    unfold q1 in Hf2, Hr2. cbn [fetches with_token log_fetch] in Hf2, Hr2.
    split; [by rewrite Ef2, Hf2, Hf, <-!app_assoc|]. split; [done|]. cbv zeta. rewrite <-Hr. split; [congruence|]. intros _. split; [by apply Hunsafe|].
    split; [intros []; by exists r|]. intros _. exists (Some k). split; [done|]. split; [done|]. split; [|by rewrite Ec2, Hc].
    rewrite Hr2. f_equal. rewrite Hf, app_nil_r, !length_app. cbn [length]. lia.
  - set (q1 := log_fetch (token_request p) (with_token None q)). destruct (conclude_fetches (inl r) q1) as [Ef2 Ec2]. pose proof (conclude_answered (inl r) q1) as A.
    destruct (conclude (inl r) q1) as [out q3]. cbn [fst snd] in *. exists pre, t, [token_request p], (inl r).
    split; [rewrite Ef2; unfold q1; cbn [fetches with_token log_fetch]; by rewrite Hf, <-!app_assoc|]. split; [done|]. cbv zeta. rewrite <-Hr. split; [congruence|].
    intros _. split; [by apply Hunsafe|]. split; [intros []; by exists r|]. intros _. by exists None.
Qed.

(** *** Session expiry *)

Record call := { c_method : string; c_url : string; c_data : payload; c_options : options }.

(** Calls made one after the other, with their outcomes. *)
Fixpoint run_calls (p : page) (cs : list call) : list outcome * page :=
  match cs with
  | [] => ([], p)
  | c :: cs =>
      let (out, p) := httpRequest net p (c_method c) (c_url c) (c_data c) (c_options c) in
      let (outs, p) := run_calls p cs in (out :: outs, p)
  end.

(** The page left for the login page at most once, exactly when the session is marked expired. *)
Definition redirected_once (p : page) : Prop :=
  redirects p = if sessionExpired p then [redirect_target p] else [].

(** [q] is [p] or [p] expired; expired exactly when the call hangs. *)
Definition expiry_step (p : page) (out : outcome) (q : page) : Prop :=
  redirect_target q = redirect_target p /\
  match out with
  | Pending => sessionExpired q = true /\ redirects q = if sessionExpired p then redirects p else redirects p ++ [redirect_target p]
  | _ => sessionExpired q = sessionExpired p /\ redirects q = redirects p
  end.

Lemma same_page_target p q : same_page p q -> redirect_target q = redirect_target p.
Proof. intros (_ & E1 & E2 & _). unfold redirect_target. by rewrite E1, E2. Qed.

Lemma conclude_expiry p res q : same_page p q -> expiry_step p (conclude res q).1 (conclude res q).2.
Proof.
  intros Hs. pose proof (same_page_target _ _ Hs) as Et. destruct Hs as (Es & _ & _ & _ & Er).
  unfold conclude, expiry_step, expire. destruct res as [r|m]; cbn [fst snd]; [|done].
  destruct (res_status r =? 401); [|by destruct (res_ok r)]. cbn [fst snd]. rewrite <- Es.
  destruct (sessionExpired p); [by rewrite <- Es|]. cbn. by rewrite Et, Er.
Qed.

Lemma httpRequest_expiry p method url data o :
  let '(out, q) := httpRequest net p method url data o in expiry_step p out q.
Proof.
  unfold httpRequest. pose proof (performFetch_spec p method url data o None) as H.
  destruct (performFetch net p method url data o None) as [res q]. destruct H as (Hs & _).
  assert (Fin : forall q res, same_page p q -> let '(out, q) := conclude res q in expiry_step p out q).
  { intros q' res' H. pose proof (conclude_expiry p res' q' H) as C. by destruct (conclude res' q'). }
  destruct res as [r|m]; [|apply (Fin q (inr m) Hs)].
  destruct (_ && _); [|by apply Fin].
  pose proof (fetchCsrfToken_page (with_token None q)) as F.
  destruct (fetchCsrfToken net (with_token None q)) as [fresh q1]. cbn [snd] in F. subst q1.
  destruct (nonempty fresh) as [k|]; [|apply Fin, (same_page_trans _ _ _ Hs); by repeat split].
  set (q1 := with_token _ _). pose proof (performFetch_spec q1 method url data o (Some k)) as H.
  destruct (performFetch net q1 method url data o (Some k)) as [res2 q2]. destruct H as (Hs2 & _).
  apply Fin, (same_page_trans _ q1); [|done]. apply (same_page_trans _ _ _ Hs). by repeat split.
Qed.

(** Whatever the server answers to any sequence of calls, the browser is sent to the login
    page at most once, and it is sent there exactly when some call was answered 401; such a call
    never settles. *)
Theorem session_expires_once cs p :
  redirected_once p ->
  let '(outs, q) := run_calls p cs in
  redirected_once q /\ sessionExpired q = sessionExpired p || existsb (fun out => match out with Pending => true | _ => false end) outs.
Proof.
  revert p. induction cs as [|c cs IH]; intros p Hp; cbn [run_calls]; [by rewrite orb_false_r|].
  pose proof (httpRequest_expiry p (c_method c) (c_url c) (c_data c) (c_options c)) as H.
  destruct (httpRequest net p _ _ _ _) as [out q]. destruct H as [Et H].
  assert (Hq : redirected_once q /\ sessionExpired q = sessionExpired p || match out with Pending => true | _ => false end).
  { unfold redirected_once in *. rewrite Et. destruct out; destruct H as [-> ->]; rewrite ?orb_false_r, ?orb_true_r, Hp; try done.
    by destruct (sessionExpired p). }
  destruct Hq as [Hq Eq]. specialize (IH q Hq). destruct (run_calls q cs) as [outs q2]. destruct IH as [IH1 IH2].
  split; [done|]. cbn [existsb]. by rewrite IH2, Eq, orb_assoc.
Qed.
End Protocol.

(** A network whose session is gone: the token is served, everything else is refused. *)
Definition expired_net : network := fun _ r =>
  if ends_with (r_url r) CSRF_TOKEN_PATH
  then inl {| res_status := 200; res_statusText := "OK"; res_contentType := "application/json"; res_text := "{}" |}
  else inl {| res_status := 401; res_statusText := "Unauthorized"; res_contentType := ""; res_text := "" |}.

Definition fresh_page : page :=
  {| csrfToken := None; sessionExpired := false; basePathPrefix := "/panel"; xuiBasePath := None; metaBasePath := Some "/panel/";
     metaToken := None; redirects := []; fetches := [] |}.

Definition list_call : call :=
  {| c_method := "post"; c_url := "/list"; c_data := Value VUndef; c_options := {| o_headers := []; o_params := VUndef |} |}.

Lemma session_expires_once_witness :
  redirected_once fresh_page /\
  redirects (run_calls expired_net fresh_page [list_call; list_call]).2 = ["/panel"] /\
  redirected_once (run_calls expired_net fresh_page [list_call; list_call]).2.
Proof.
  split; [reflexivity|]. split; [vm_compute; reflexivity|].
  pose proof (session_expires_once expired_net [list_call; list_call] fresh_page eq_refl) as H.
  destruct (run_calls expired_net fresh_page [list_call; list_call]). exact (proj1 H).
Defined.

(** ** Query parameters *)

(** A flat record of strings, as the callers pass it. *)
Definition form_obj (ps : list (string * string)) : jsval := VObj (map (fun p => (p.1, VStr p.2)) ps).

Lemma encodeForm_form_obj ps : encodeForm (form_obj ps) = serialise encodeURIComponent ps.
Proof.
  unfold encodeForm, form_obj, serialise. f_equal. induction ps as [|[k v] ps IH]; [done|]. cbn [map flat_map].
  by rewrite IH.
Qed.

Lemma serialise_nonempty ps : ps <> [] -> String.eqb (serialise encodeURIComponent ps) "" = false.
Proof.
  intros Hne. destruct ps as [|p ps]; [done|]. apply String.eqb_neq. unfold serialise, pair_string. cbn [map].
  destruct (map _ ps); unfold join; cbn [String.concat]; by destruct (encodeURIComponent p.1).
Qed.

(** The two parts [appendQuery] cuts a URL into. *)
Lemma cut_hash a hash : no_char "#" a -> hash = "" \/ starts_with hash "#" = true ->
  match index_of "#" (a +:+ hash) with
  | Some i => (str_take i (a +:+ hash), str_drop i (a +:+ hash))
  | None => (a +:+ hash, "")
  end = (a, hash).
Proof.
  intros Ha [->|Hh]; [by rewrite app_nil_r_str, index_of_none|].
  apply prefix_iff in Hh as [t ->]. change ("#" +:+ t) with (String "#" t).
  by rewrite index_of_app, str_take_app, str_drop_app.
Qed.

Lemma no_query_includes a : no_char "?" a -> str_includes a "?" = false.
Proof. intros H. unfold str_includes. by rewrite (index_of_none "?" a H). Qed.

Definition pieces (s : string) : list (string * string) :=
  map parse_pair (List.filter (fun p => negb (String.eqb p "")) (split_on "&" s)).

Lemma pieces_app a b : pieces (a +:+ String "&" b) = pieces a ++ pieces b.
Proof. unfold pieces. by rewrite split_on_app_gen, List.filter_app, map_app. Qed.

(** A query of its own and a serialised list, joined as [appendQuery] joins them. *)
Lemma joined_query q0 s : q0 <> "" -> ends_with q0 "?" = false ->
  parse_query (q0 +:+ (if ends_with q0 "&" then "" else "&") +:+ s) = parse_query q0 ++ pieces s.
Proof.
  intros Hq Hend.
  assert (J : forall q, pieces (q +:+ (if ends_with q "&" then "" else "&") +:+ s) = pieces q ++ pieces s).
  { intros q. destruct (ends_with q "&") eqn:E; [|apply pieces_app].
    apply ends_with_iff in E as [a ->]. rewrite app_assoc_str. cbn [String.append].
    rewrite !pieces_app. by rewrite app_nil_r. }
  unfold parse_query. fold (pieces q0). destruct q0 as [|c r]; [done|].
  unfold starts_with. cbn [String.append String.prefix]. destruct (ascii_dec "?" c) as [<-|]; cycle 1.
  { exact (J (String c r)). }
  cbn [String.prefix]. destruct r as [|d r]; [done|].
  change (String "?" (String d r)) with ("?" +:+ String d r). rewrite (ends_with_tail "?" d r).
  exact (J (String d r)).
Qed.

(** The parameters of a call reach the server: added to a URL with or without a query of
    its own, and with or without a fragment, they come back from the resulting query after the
    parameters that were already there, and the fragment stays at the end. *)
Theorem appendQuery_params path q0 hash ps :
  no_char "#" path -> no_char "?" path -> no_char "#" q0 -> q0 = "" \/ ends_with q0 "?" = false ->
  hash = "" \/ starts_with hash "#" = true -> Forall valid_pair ps -> ps <> [] ->
  (exists q, appendQuery (path +:+ hash) (encodeForm (form_obj ps)) = path +:+ "?" +:+ q +:+ hash /\ parse_query q = ps) /\
  (exists q, appendQuery (path +:+ "?" +:+ q0 +:+ hash) (encodeForm (form_obj ps)) = path +:+ "?" +:+ q +:+ hash /\
     parse_query q = parse_query q0 ++ ps).
Proof.
  intros Hp Hp2 Hq Hend Hh Hv Hne. rewrite encodeForm_form_obj. unfold appendQuery. rewrite serialise_nonempty by done.
  set (s := serialise encodeURIComponent ps). assert (Hs : parse_query s = ps) by (apply (parse_serialise encodeURIComponent); done).
  assert (Hps : pieces s = ps) by (apply (parse_pieces encodeURIComponent); done). split.
  - rewrite cut_hash by done. rewrite no_query_includes by done. by exists s.
  - replace (path +:+ "?" +:+ q0 +:+ hash) with ((path +:+ "?" +:+ q0) +:+ hash) by by rewrite !app_assoc_str.
    rewrite cut_hash; [|by rewrite !no_char_app|done]. unfold str_includes. cbn [String.append].
    rewrite index_of_app by done. cbn [negb].
    destruct (decide (q0 = "")) as [->|Hq0].
    { exists s. rewrite (proj2 (ends_with_iff (path +:+ "?") "?")) by eauto. by rewrite !app_assoc_str. }
    destruct Hend as [|Hend]; [done|]. exists (q0 +:+ (if ends_with q0 "&" then "" else "&") +:+ s).
    rewrite joined_query, Hps by done. split; [|done]. destruct q0 as [|c r]; [done|].
    assert (T : forall d, ends_with (path +:+ String "?" (String c r)) (String d "") = ends_with (String c r) (String d "")).
    { intros d. rewrite ends_with_tail. exact (ends_with_tail "?" c r d). }
    by rewrite !T, Hend, !app_assoc_str.
Qed.

Lemma appendQuery_params_witness :
  no_char "#" "/panel/list" /\
  exists q, appendQuery "/panel/list?page=2#top" (encodeForm (form_obj [("search", "a&b c")])) = "/panel/list" +:+ "?" +:+ q +:+ "#top" /\
    parse_query q = parse_query "page=2" ++ [("search", "a&b c")].
Proof.
  split; [reflexivity|].
  apply (appendQuery_params "/panel/list" "page=2" "#top" [("search", "a&b c")]); try reflexivity; auto; try discriminate.
  repeat constructor.
Defined.
