(* ===== verification/Url.v ===== *)
(** * URLs of share links

    The part of the platform's [URL] class that src/frontend/src/lib/xray/outbound-link-parser.ts
    and inbound-link.ts rely on, written out from the URL standard for schemes that are not
    special ([vless], [trojan], [ss], [hysteria2], [hy2], [tuic], [wireguard], [wg], [tg]).  A link
    whose scheme is special ([http] and the like) yields [None] here: the callers reject such a
    link whether or not it parses.  An empty query or fragment is not told from a missing one. *)
From S2P Require Import Prelude JsString JsValue Utf8 Uri.
From Stdlib Require Import Ascii.
Local Open Scope Z_scope.

Record url := {
  u_protocol : string;    (* without the colon *)
  u_authority : bool;     (* the host is not null *)
  u_username : string;
  u_password : string;
  u_hostname : string;
  u_port : string;
  u_path : string;
  u_query : string;
  u_hash : string
}.

(** ** Percent-encode sets *)

Definition c0_control (c : ascii) : bool := (code c <? 32) || (126 <? code c).

Definition in_chars (s : string) (c : ascii) : bool := str_includes s (String c "").

Definition quote_mark : string := String (char_of 34) "".

Definition fragment_set (c : ascii) : bool := c0_control c || in_chars (quote_mark +:+ " <>`") c.
Definition query_set (c : ascii) : bool := c0_control c || in_chars (quote_mark +:+ " #<>") c.
Definition path_set (c : ascii) : bool := query_set c || in_chars "?^`{}" c.
Definition userinfo_set (c : ascii) : bool := path_set c || in_chars "/:;=@[\]|" c.

Fixpoint percent_encode (set : ascii -> bool) (s : string) : string :=
  match s with
  | "" => ""
  | String c s => (if set c then percent c else String c "") +:+ percent_encode set s
  end.

(** ** Cutting *)

(** The longest prefix without a stop character, and the rest. *)
Fixpoint span_until (stop : ascii -> bool) (s : string) : string * string :=
  match s with
  | "" => ("", "")
  | String c r => if stop c then ("", s) else let (a, b) := span_until stop r in (String c a, b)
  end.

Fixpoint filter_string (p : ascii -> bool) (s : string) : string :=
  match s with "" => "" | String c s => if p c then String c (filter_string p s) else filter_string p s end.

Definition c0_or_space (c : ascii) : bool := code c <=? 32.

Fixpoint strip_front (p : ascii -> bool) (s : string) : string :=
  match s with "" => "" | String c r => if p c then strip_front p r else s end.

Definition strip_both (p : ascii -> bool) (s : string) : string :=
  str_rev (strip_front p (str_rev (strip_front p s))).

Definition is_alpha (c : ascii) : bool := is_alnum c && negb (is_digit c).

Definition special_schemes : list string := ["http"; "https"; "ws"; "wss"; "ftp"; "file"].

(** ** Hosts *)

(** Up to four hexadecimal digits. *)
Fixpoint hex_value (acc : Z) (s : string) : option Z :=
  match s with
  | "" => Some acc
  | String c s => match hex_digit c with Some d => hex_value (16 * acc + d) s | None => None end
  end.

Definition hex_piece (s : string) : option Z :=
  if String.eqb s "" || (4 <? String.length s)%nat then None else hex_value 0 s.

Definition ipv4_part (s : string) : option Z :=
  if all_digits s && negb ((1 <? String.length s)%nat && starts_with s "0") && (digits_value 0 s <=? 255)
  then Some (digits_value 0 s) else None.

(** The pieces of one side of an address; [tail]: a dotted IPv4 address may stand at the end. *)
Fixpoint ipv6_pieces (tail : bool) (l : list string) : option (list Z) :=
  match l with
  | [] => Some []
  | [s] =>
      match hex_piece s with
      | Some z => Some [z]
      | None =>
          if tail then
            match map ipv4_part (split_on "." s) with
            | [Some a; Some b; Some c; Some d] => Some [256 * a + b; 256 * c + d]
            | _ => None
            end
          else None
      end
  | s :: l => match hex_piece s, ipv6_pieces tail l with Some z, Some zs => Some (z :: zs) | _, _ => None end
  end.

Definition side (tail : bool) (s : string) : option (list Z) :=
  if String.eqb s "" then Some [] else ipv6_pieces tail (split_on ":" s).

Definition ipv6_parse (s : string) : option (list Z) :=
  match index_of "::" s with
  | Some i =>
      match side false (str_take i s), side true (str_drop (i + 2) s) with
      | Some a, Some b =>
          if (length a + length b <=? 7)%nat then Some (a ++ repeat 0 (8 - length a - length b) ++ b) else None
      | _, _ => None
      end
  | None =>
      match side true s with Some a => if (length a =? 8)%nat then Some a else None | None => None end
  end.

Definition hex_char (d : Z) : ascii := char_of (if d <? 10 then 48 + d else 87 + d).

(** Lower-case hexadecimal of a 16-bit piece, without leading zeros. *)
Definition hex16 (z : Z) : string :=
  let d n := String (hex_char (z / 16 ^ n mod 16)) "" in
  if z <? 16 then d 0 else if z <? 256 then d 1 +:+ d 0 else if z <? 4096 then d 2 +:+ d 1 +:+ d 0
  else d 3 +:+ d 2 +:+ d 1 +:+ d 0.

Fixpoint zero_run (l : list Z) : nat := match l with 0 :: l => S (zero_run l) | _ => O end.

(** Start and length of the first longest run of zeros. *)
Fixpoint longest_run (i : nat) (l : list Z) (best : nat * nat) : nat * nat :=
  match l with
  | [] => best
  | _ :: r => longest_run (S i) r (if (best.2 <? zero_run l)%nat then (i, zero_run l) else best)
  end.

Definition ipv6_string (l : list Z) : string :=
  let (i, n) := longest_run 0 l (O, O) in
  let show l := join ":" (map hex16 l) in
  if (n <=? 1)%nat then show l else show (List.firstn i l) +:+ "::" +:+ show (List.skipn (i + n) l).

Definition forbidden_host (c : ascii) : bool := in_chars " #/:<>?@[\]^|" c || (code c =? 0) || (code c =? 9) || (code c =? 10) || (code c =? 13).

Fixpoint exists_char (p : ascii -> bool) (s : string) : bool :=
  match s with "" => false | String c s => p c || exists_char p s end.

Definition parse_host (s : string) : option string :=
  if starts_with s "[" then
    if ends_with s "]" then
      match ipv6_parse (str_take (String.length s - 2) (str_drop 1 s)) with
      | Some l => Some ("[" +:+ ipv6_string l +:+ "]")
      | None => None
      end
    else None
  else if exists_char forbidden_host s then None
  else Some (percent_encode c0_control s).

(** The host and the port text of an authority without credentials: the first colon outside
    brackets separates them. *)
Fixpoint cut_port (inside : bool) (s : string) : string * option string :=
  match s with
  | "" => ("", None)
  | String c r =>
      if Ascii.eqb c ":" && negb inside then ("", Some r)
      else
        let inside := if Ascii.eqb c "[" then true else if Ascii.eqb c "]" then false else inside in
        let (h, p) := cut_port inside r in (String c h, p)
  end.

Definition parse_port (s : string) : option string :=
  if String.eqb s "" then Some ""
  else if all_digits s && (digits_value 0 s <=? 65535) then Some (string_of_Z (digits_value 0 s))
  else None.

(** User name, password, host and port of an authority. *)
Definition parse_authority (s : string) : option (string * string * string * string) :=
  let credentials := last_index_of "@" s in
  let '(user, pass) := match credentials with
                       | Some i =>
                           let (u, p) := span_until (Ascii.eqb ":") (str_take i s) in
                           (percent_encode userinfo_set u, percent_encode userinfo_set (str_drop 1 p))
                       | None => ("", "")
                       end in
  let rest := match credentials with Some i => str_drop (S i) s | None => s end in
  if match credentials with Some _ => String.eqb rest "" | None => false end then None
  else
    let (h, p) := cut_port false rest in
    match p with
    | Some port =>
        if String.eqb h "" then None
        else match parse_host h, parse_port port with Some h, Some p => Some (user, pass, h, p) | _, _ => None end
    | None => match parse_host h with Some h => Some (user, pass, h, "") | None => None end
    end.

(** ** [new URL(link)] *)

Definition stop_at (s : string) (c : ascii) : bool := in_chars s c.

(** Dot segments of a path, also percent-encoded. *)
Definition single_dot (s : string) : bool := let s := to_lower s in String.eqb s "." || String.eqb s "%2e".
Definition double_dot (s : string) : bool :=
  let s := to_lower s in String.eqb s ".." || String.eqb s ".%2e" || String.eqb s "%2e." || String.eqb s "%2e%2e".

Fixpoint path_segments (acc segments : list string) : list string :=
  match segments with
  | [] => acc
  | [s] =>
      if double_dot s then List.removelast acc ++ [""]
      else if single_dot s then acc ++ [""] else acc ++ [percent_encode path_set s]
  | s :: rest =>
      path_segments (if double_dot s then List.removelast acc else if single_dot s then acc
                     else acc ++ [percent_encode path_set s]) rest
  end.

(** A path as it is written back; [s] is empty or starts with a slash. *)
Definition normal_path (s : string) : string :=
  match split_on "/" s with
  | _ :: segments => String.concat "" (map (fun seg => "/" +:+ seg) (path_segments [] segments))
  | [] => ""
  end.

(** The path, the query and the fragment that follow an authority. *)
Definition parse_tail (s : string) : string * string * string :=
  let (path, s) := span_until (stop_at "?#") s in
  let (q, f) := if starts_with s "?" then span_until (stop_at "#") (str_drop 1 s) else ("", s) in
  let frag := str_drop 1 f in
  (path, percent_encode query_set q, if String.eqb frag "" then "" else "#" +:+ percent_encode fragment_set frag).

Definition new_URL (link : string) : option url :=
  let s := filter_string (fun c => negb ((code c =? 9) || (code c =? 10) || (code c =? 13))) (strip_both c0_or_space link) in
  let (scheme, rest) := span_until (Ascii.eqb ":") s in
  if String.eqb rest "" then None
  else if negb (match scheme with String c _ => is_alpha c | "" => false end &&
                forall_chars (fun c => is_alnum c || in_chars "+-." c) scheme) then None
  else
    let scheme := to_lower scheme in
    let rest := str_drop 1 rest in
    if existsb (String.eqb scheme) special_schemes then None
    else if starts_with rest "//" then
      let (authority, tail) := span_until (stop_at "/?#") (str_drop 2 rest) in
      match parse_authority authority with
      | Some (user, pass, host, port) =>
          let '(path, q, h) := parse_tail tail in
          Some {| u_protocol := scheme; u_authority := true; u_username := user; u_password := pass; u_hostname := host;
                  u_port := port; u_path := normal_path path; u_query := q; u_hash := h |}
      | None => None
      end
    else
      let '(path, q, h) := parse_tail rest in
      let path := if starts_with path "/" then normal_path path else percent_encode c0_control path in
      Some {| u_protocol := scheme; u_authority := false; u_username := ""; u_password := ""; u_hostname := ""; u_port := "";
              u_path := path; u_query := q; u_hash := h |}.

Definition searchParams (u : url) : list (string * string) := parse_query (u_query u).

Example new_URL_vless :
  new_URL " vless://a-b@example.com:0443/p?type=ws&path=%2Fx y#name one" =
  Some {| u_protocol := "vless"; u_authority := true; u_username := "a-b"; u_password := ""; u_hostname := "example.com";
          u_port := "443"; u_path := "/p"; u_query := "type=ws&path=%2Fx%20y"; u_hash := "#name%20one" |}.
Proof. vm_compute. reflexivity. Qed.

(** ** Setters and [toString()] *)

(** [url.searchParams.set], one pair after the other, and the query they leave. *)
Definition with_params (u : url) (ps : list (string * string)) : url :=
  {| u_protocol := u_protocol u; u_authority := u_authority u; u_username := u_username u; u_password := u_password u;
     u_hostname := u_hostname u; u_port := u_port u; u_path := u_path u; u_query := query_string ps; u_hash := u_hash u |}.

(** [url.hash = s] *)
Definition with_hash (u : url) (s : string) : url :=
  let s := if starts_with s "#" then str_drop 1 s else s in
  {| u_protocol := u_protocol u; u_authority := u_authority u; u_username := u_username u; u_password := u_password u;
     u_hostname := u_hostname u; u_port := u_port u; u_path := u_path u; u_query := u_query u;
     u_hash := if String.eqb s "" then "" else "#" +:+ percent_encode fragment_set s |}.

(** [url.username = s], ignored when there is no host *)
Definition with_username (u : url) (s : string) : url :=
  if String.eqb (u_hostname u) "" then u
  else {| u_protocol := u_protocol u; u_authority := u_authority u; u_username := percent_encode userinfo_set s;
          u_password := u_password u; u_hostname := u_hostname u; u_port := u_port u; u_path := u_path u;
          u_query := u_query u; u_hash := u_hash u |}.

Definition href (u : url) : string :=
  let credentials := if String.eqb (u_username u) "" && String.eqb (u_password u) "" then ""
                     else u_username u +:+ (if String.eqb (u_password u) "" then "" else ":" +:+ u_password u) +:+ "@" in
  u_protocol u +:+ ":" +:+
  (if u_authority u then "//" +:+ credentials +:+ u_hostname u +:+ (if String.eqb (u_port u) "" then "" else ":" +:+ u_port u) else "") +:+
  u_path u +:+ (if String.eqb (u_query u) "" then "" else "?" +:+ u_query u) +:+ u_hash u.

Example href_back :
  option_map href (new_URL "ss://a:b@[2001:DB8::1]:1/x/../y z?q#f") = Some "ss://a:b@[2001:db8::1]:1/y%20z?q#f".
Proof. vm_compute. reflexivity. Qed.

Example new_URL_ipv6 :
  option_map u_hostname (new_URL "hy2://p@[2001:DB8:0:0:1:0:0:1]:8443") = Some "[2001:db8::1:0:0:1]" /\
  option_map u_hostname (new_URL "hy2://p@[::ffff:1.2.3.4]") = Some "[::ffff:102:304]" /\
  new_URL "hy2://p@[1::2::3]" = None /\ new_URL "hy2://p@host:70000" = None.
Proof. vm_compute. repeat split; reflexivity. Qed.

(** ** Links the panel writes *)

Lemma forall_chars_rev p s : forall_chars p s = true -> forall_chars p (str_rev s) = true.
Proof.
  intros H. induction s as [|c s IH]; [done|]. cbn in H. apply andb_true_iff in H as [Hc Hs].
  unfold str_rev. cbn [str_rev_app]. rewrite str_rev_app_spec, forall_chars_app, (IH Hs). cbn. by rewrite Hc.
Qed.

Lemma strip_front_id p s : forall_chars (fun c => negb (p c)) s = true -> strip_front p s = s.
Proof. destruct s as [|c s]; [done|]. cbn. intros [H%negb_true_iff _]%andb_true_iff. by rewrite H. Qed.

Lemma strip_both_id p s : forall_chars (fun c => negb (p c)) s = true -> strip_both p s = s.
Proof.
  intros H. unfold strip_both. rewrite (strip_front_id p s H), strip_front_id by by apply forall_chars_rev.
  apply str_rev_involutive.
Qed.

Lemma filter_string_id p s : forall_chars p s = true -> filter_string p s = s.
Proof. induction s as [|c s IH]; [done|]. cbn. intros [-> H]%andb_true_iff. by rewrite IH. Qed.

Lemma span_until_app stop a c b :
  forall_chars (fun c => negb (stop c)) a = true -> stop c = true -> span_until stop (a +:+ String c b) = (a, String c b).
Proof.
  intros Ha Hc. induction a as [|d a IH]; cbn; [by rewrite Hc|]. cbn in Ha. apply andb_true_iff in Ha as [Hd%negb_true_iff Ha].
  by rewrite Hd, IH.
Qed.

Lemma span_until_all stop a : forall_chars (fun c => negb (stop c)) a = true -> span_until stop a = (a, "").
Proof. induction a as [|d a IH]; [done|]. cbn. intros [Hd%negb_true_iff Ha]%andb_true_iff. by rewrite Hd, IH. Qed.

Lemma percent_encode_id set s : forall_chars (fun c => negb (set c)) s = true -> percent_encode set s = s.
Proof. induction s as [|c s IH]; [done|]. cbn. intros [Hd%negb_true_iff Ha]%andb_true_iff. by rewrite Hd, IH. Qed.

(** The characters of percent-encoded text and of its separators in a query. *)
Definition link_char (c : ascii) : bool := uri_safe c || in_chars "+=&" c.

(** The characters of a host name or IPv4 address. *)
Definition host_char (c : ascii) : bool := negb (forbidden_host c) && negb (c0_control c).

Ltac all_ascii := let c := fresh "c" in intros c; destruct c as [[] [] [] [] [] [] [] []]; by vm_compute.

Lemma link_char_visible c : link_char c = true -> 33 <= code c <= 126 /\ query_set c = false /\ stop_at "?#" c = false.
Proof.
  assert (H : implb (link_char c) ((33 <=? code c) && (code c <=? 126) && negb (query_set c) && negb (stop_at "?#" c)) = true)
    by (revert c; all_ascii).
  intros E. rewrite E in H. cbn in H. apply andb_true_iff in H as [H ?%negb_true_iff]. apply andb_true_iff in H as [H ?%negb_true_iff].
  apply andb_true_iff in H as [?%Z.leb_le ?%Z.leb_le]. auto.
Qed.

Lemma uri_safe_quiet c : uri_safe c = true ->
  userinfo_set c = false /\ fragment_set c = false /\ Ascii.eqb "@" c = false /\ Ascii.eqb ":" c = false /\ stop_at "/?#" c = false /\ link_char c = true.
Proof.
  assert (H : implb (uri_safe c) (negb (userinfo_set c) && negb (fragment_set c) && negb (Ascii.eqb "@" c) && negb (Ascii.eqb ":" c) &&
    negb (stop_at "/?#" c) && link_char c) = true) by (revert c; all_ascii).
  intros E. rewrite E in H. cbn [implb] in H. repeat (apply andb_true_iff in H as [H ?]). rewrite negb_true_iff in *. auto 10.
Qed.

Lemma host_char_quiet c : host_char c = true ->
  forbidden_host c = false /\ c0_control c = false /\ Ascii.eqb "@" c = false /\ Ascii.eqb ":" c = false /\
  Ascii.eqb c "[" = false /\ Ascii.eqb c "]" = false /\ stop_at "/?#" c = false /\ 33 <= code c.
Proof.
  assert (H : implb (host_char c) (negb (forbidden_host c) && negb (c0_control c) && negb (Ascii.eqb "@" c) && negb (Ascii.eqb ":" c) &&
    negb (Ascii.eqb c "[") && negb (Ascii.eqb c "]") && negb (stop_at "/?#" c) && (33 <=? code c)) = true) by (revert c; all_ascii).
  intros E. rewrite E in H. cbn [implb] in H. repeat (apply andb_true_iff in H as [H ?]). rewrite negb_true_iff, ?Z.leb_le in *. auto 12.
Qed.

(** The text of a URL with credentials, a host, a port, query parameters and a fragment, as
    [url.toString()] writes it. *)
Definition link_tail (ps : list (string * string)) (remark : string) : string :=
  (match ps with [] => "" | _ => "?" +:+ query_string ps end) +:+
  (if String.eqb remark "" then "" else "#" +:+ encodeURIComponent remark).

Definition link_authority (user host : string) (port : Z) : string :=
  encodeURIComponent user +:+ "@" +:+ host +:+ ":" +:+ string_of_Z port.

Definition share_link (scheme user host : string) (port : Z) (ps : list (string * string)) (remark : string) : string :=
  scheme +:+ "://" +:+ link_authority user host port +:+ link_tail ps remark.

Definition plain_host (h : string) : Prop := h <> "" /\ forall_chars host_char h = true.

Lemma form_char_link c : forall_chars link_char (form_char c) = true.
Proof. revert c. all_ascii. Qed.

Lemma form_encode_link s : forall_chars link_char (form_encode s) = true.
Proof. induction s as [|c s IH]; [done|]. cbn [form_encode]. by rewrite forall_chars_app, form_char_link, IH. Qed.

Lemma query_string_link ps : forall_chars link_char (query_string ps) = true.
Proof.
  unfold query_string. induction ps as [|p ps IH]; [done|]. cbn [map]. unfold join in *. cbn [String.concat].
  destruct (map _ ps) as [|x l]; rewrite !forall_chars_app, !form_encode_link; [done|]. rewrite IH. reflexivity.
Qed.

Lemma encode_link s : forall_chars link_char (encodeURIComponent s) = true.
Proof. eapply forall_chars_impl; [|apply encode_safe]. intros c H. by apply uri_safe_quiet in H as (_ & _ & _ & _ & _ & ->). Qed.

Lemma cut_port_host h p : forall_chars host_char h = true -> cut_port false (h +:+ String ":" p) = (h, Some p).
Proof.
  induction h as [|c h IH]; [done|]. cbn [forall_chars String.append]. intros [Hc Hh]%andb_true_iff.
  apply host_char_quiet in Hc as (_ & _ & _ & Hc & Hl & Hr & _). cbn [cut_port]. rewrite Ascii.eqb_sym, Hc. cbn [andb].
  by rewrite Hl, Hr, (IH Hh).
Qed.

Lemma parse_host_plain h : plain_host h -> parse_host h = Some h.
Proof.
  intros [Hne Hh]. unfold parse_host.
  assert (E1 : starts_with h "[" = false).
  { destruct h as [|c h]; [done|]. cbn in Hh. apply andb_true_iff in Hh as [Hc _]. apply host_char_quiet in Hc as (_ & _ & _ & _ & Hl & _).
    unfold starts_with. cbn [String.prefix]. apply Ascii.eqb_neq in Hl. destruct (ascii_dec "[" c) as [E|]; [by subst c|done]. }
  assert (E2 : exists_char forbidden_host h = false).
  { clear -Hh. induction h as [|c h IH]; [done|]. cbn in *. apply andb_true_iff in Hh as [Hc Hh].
    apply host_char_quiet in Hc as (-> & _). by apply IH. }
  rewrite E1, E2. f_equal. apply percent_encode_id. eapply forall_chars_impl; [|exact Hh].
  intros c Hc. apply host_char_quiet in Hc as (_ & -> & _). done.
Qed.

Lemma parse_port_Z z : 0 <= z <= 65535 -> parse_port (string_of_Z z) = Some (string_of_Z z).
Proof.
  intros H. assert (E : string_of_Z z = digits z) by (unfold string_of_Z; by replace (z <? 0) with false by lia).
  unfold parse_port. rewrite E. pose proof (digits_all z) as D. rewrite D, digits_value_digits by lia.
  replace (z <=? 65535) with true by lia. rewrite E. by destruct (digits z).
Qed.

Lemma string_of_Z_digits z : 0 <= z -> forall_chars is_digit (string_of_Z z) = true.
Proof.
  intros H. unfold string_of_Z. replace (z <? 0) with false by lia. pose proof (digits_all z) as D. by destruct (digits z).
Qed.

Lemma string_of_Z_nonempty z : 0 <= z -> String.eqb (string_of_Z z) "" = false.
Proof.
  intros H. unfold string_of_Z. replace (z <? 0) with false by lia. pose proof (digits_all z) as D. by destruct (digits z).
Qed.

Lemma digit_quiet c : is_digit c = true -> Ascii.eqb "@" c = false /\ stop_at "/?#" c = false /\ link_char c = true.
Proof.
  assert (H : implb (is_digit c) (negb (Ascii.eqb "@" c) && negb (stop_at "/?#" c) && link_char c) = true) by (revert c; all_ascii).
  intros E. rewrite E in H. cbn [implb] in H. repeat (apply andb_true_iff in H as [H ?]). rewrite negb_true_iff in *. auto.
Qed.

Lemma parse_link_authority user host port : plain_host host -> 0 <= port <= 65535 ->
  parse_authority (link_authority user host port) = Some (encodeURIComponent user, "", host, string_of_Z port).
Proof.
  intros Hh Hp. unfold parse_authority, link_authority. destruct Hh as [Hne Hc].
  set (e := encodeURIComponent user). set (rest := host +:+ ":" +:+ string_of_Z port).
  change (e +:+ "@" +:+ rest) with (e +:+ String "@" rest). pose proof (encode_safe user) as Hs. fold e in Hs.
  rewrite last_index_of_app, str_take_app, str_drop_S_app.
  - rewrite span_until_all, percent_encode_id; cbn [str_drop percent_encode].
    + unfold rest. change (host +:+ ":" +:+ string_of_Z port) with (host +:+ String ":" (string_of_Z port)).
      rewrite (cut_port_host host _ Hc), (parse_host_plain host), parse_port_Z by done.
      replace (String.eqb (host +:+ _) "") with false by (by destruct host). by destruct host.
    + eapply forall_chars_impl; [|exact Hs]. intros c H. by apply uri_safe_quiet in H as (-> & _).
    + eapply forall_chars_impl; [|exact Hs]. intros c H. by apply uri_safe_quiet in H as (_ & _ & _ & -> & _).
  - unfold rest. rewrite !no_char_app. split; [|split; [done|]]; unfold no_char.
    + eapply forall_chars_impl; [|exact Hc]. intros c H. by apply host_char_quiet in H as (_ & _ & -> & _).
    + eapply forall_chars_impl; [|apply string_of_Z_digits; lia]. intros c H. by apply digit_quiet in H as (-> & _).
Qed.

Lemma link_text_quiet s : forall_chars link_char s = true ->
  percent_encode query_set s = s /\ forall_chars (fun c => negb (stop_at "?#" c)) s = true /\
  forall_chars (fun c => negb (stop_at "#" c)) s = true.
Proof.
  intros H. repeat split; [apply percent_encode_id| |]; (eapply forall_chars_impl; [|exact H]); intros c Hc;
    apply link_char_visible in Hc as (_ & Hq & Hs); rewrite ?Hq, ?Hs; try done.
  revert Hs. destruct c as [[] [] [] [] [] [] [] []]; by vm_compute.
Qed.

Lemma fragment_text remark : percent_encode fragment_set (encodeURIComponent remark) = encodeURIComponent remark.
Proof.
  apply percent_encode_id. eapply forall_chars_impl; [|apply encode_safe]. intros c H. by apply uri_safe_quiet in H as (_ & -> & _).
Qed.

Lemma encode_empty remark : String.eqb (encodeURIComponent remark) "" = String.eqb remark "".
Proof. destruct remark as [|c r]; [done|]. cbn. by destruct (uri_unreserved c). Qed.

Lemma parse_link_tail ps remark :
  parse_tail (link_tail ps remark) = ("", query_string ps, if String.eqb remark "" then "" else "#" +:+ encodeURIComponent remark).
Proof.
  unfold link_tail, parse_tail. pose proof (query_string_link ps) as Hq. apply link_text_quiet in Hq as (Hq & _ & Hs).
  destruct ps as [|p ps].
  - cbn [String.append]. destruct (String.eqb remark "") eqn:E; [done|]. cbn. by rewrite encode_empty, E, fragment_text.
  - set (ps' := p :: ps) in *. clearbody ps'. rewrite app_assoc_str. cbn [String.append span_until]. cbn.
    destruct (String.eqb remark "") eqn:E.
    + rewrite app_nil_r_str, span_until_all by done. cbn. by rewrite prefix_nil, Hq.
    + rewrite prefix_nil, span_until_app by done. cbn. by rewrite encode_empty, E, fragment_text, Hq.
Qed.

Definition valid_scheme (scheme : string) : Prop :=
  match scheme with String c _ => is_alpha c | "" => false end = true /\
  forall_chars (fun c => is_alnum c || in_chars "+-." c) scheme = true /\ to_lower scheme = scheme /\
  existsb (String.eqb scheme) special_schemes = false.

(** No character of a link is a control character or a space. *)
Definition visible (c : ascii) : bool := 33 <=? code c.

Lemma visible_link s : forall_chars link_char s = true -> forall_chars visible s = true.
Proof.
  apply forall_chars_impl. intros c H. apply link_char_visible in H as ([? _] & _). by apply Z.leb_le.
Qed.

Lemma share_link_visible scheme user host port ps remark :
  valid_scheme scheme -> plain_host host -> 0 <= port -> forall_chars visible (share_link scheme user host port ps remark) = true.
Proof.
  intros (_ & Hs & _) [_ Hh] Hp. unfold share_link, link_authority, link_tail. rewrite !forall_chars_app.
  assert (E1 : forall_chars visible scheme = true).
  { eapply forall_chars_impl; [|exact Hs]. intros c. destruct c as [[] [] [] [] [] [] [] []]; by vm_compute. }
  assert (E2 : forall_chars visible host = true).
  { eapply forall_chars_impl; [|exact Hh]. intros c H. apply host_char_quiet in H as (_ & _ & _ & _ & _ & _ & _ & ?). by apply Z.leb_le. }
  assert (E3 : forall_chars visible (string_of_Z port) = true).
  { apply visible_link. eapply forall_chars_impl; [|by apply string_of_Z_digits]. intros c H. by apply digit_quiet in H as (_ & _ & ->). }
  rewrite E1, E2, E3, (visible_link _ (encode_link user)). cbn [andb forall_chars].
  assert (E4 : forall_chars visible (if String.eqb remark "" then "" else "#" +:+ encodeURIComponent remark) = true).
  { destruct (String.eqb remark ""); [done|]. rewrite forall_chars_app. by rewrite (visible_link _ (encode_link remark)). }
  rewrite E4, andb_true_r. destruct ps; [done|]. rewrite forall_chars_app. by rewrite (visible_link _ (query_string_link _)).
Qed.

Lemma link_authority_no_stop user host port : plain_host host -> 0 <= port ->
  forall_chars (fun c => negb (stop_at "/?#" c)) (link_authority user host port) = true.
Proof.
  intros [_ Hh] Hp. unfold link_authority. rewrite !forall_chars_app.
  rewrite (forall_chars_impl uri_safe _ (encodeURIComponent user)); [|intros c H; by apply uri_safe_quiet in H as (_ & _ & _ & _ & -> & _)|apply encode_safe].
  rewrite (forall_chars_impl host_char _ host); [|intros c H; by apply host_char_quiet in H as (_ & _ & _ & _ & _ & _ & -> & _)|done].
  rewrite (forall_chars_impl is_digit _ (string_of_Z port)); [|intros c H; by apply digit_quiet in H as (_ & -> & _)|by apply string_of_Z_digits].
  reflexivity.
Qed.

Lemma link_tail_head ps remark : link_tail ps remark = "" \/ exists c t, link_tail ps remark = String c t /\ stop_at "/?#" c = true.
Proof.
  unfold link_tail. destruct ps as [|p ps]; [destruct (String.eqb remark ""); [by left|]|]; right; by repeat eexists.
Qed.

(** The parser reads back the parts of a link. *)
Lemma new_URL_share_link scheme user host port ps remark :
  valid_scheme scheme -> plain_host host -> 0 <= port <= 65535 ->
  new_URL (share_link scheme user host port ps remark) =
  Some {| u_protocol := scheme; u_authority := true; u_username := encodeURIComponent user; u_password := "";
          u_hostname := host; u_port := string_of_Z port; u_path := ""; u_query := query_string ps; u_hash := if String.eqb remark "" then "" else "#" +:+ encodeURIComponent remark |}.
Proof.
  intros Hs Hh Hp. pose proof (share_link_visible scheme user host port ps remark Hs Hh ltac:(lia)) as V. unfold new_URL.
  rewrite strip_both_id, filter_string_id;
    [|eapply forall_chars_impl; [|exact V]; intros c; destruct c as [[] [] [] [] [] [] [] []]; by vm_compute..].
  destruct Hs as (Ha & Hc & Hl & Hn). unfold share_link.
  change (scheme +:+ "://" +:+ ?r) with (scheme +:+ String ":" ("//" +:+ r)).
  rewrite span_until_app; [|eapply forall_chars_impl; [|exact Hc]; intros c; destruct c as [[] [] [] [] [] [] [] []]; by vm_compute|done].
  rewrite Ha, Hc, Hl, Hn. cbn [andb negb String.eqb]. cbn [str_drop]. rewrite starts_with_app. cbn [String.append str_drop].
  pose proof (link_authority_no_stop user host port Hh ltac:(lia)) as Hno.
  assert (Cut : span_until (stop_at "/?#") (link_authority user host port +:+ link_tail ps remark) =
                (link_authority user host port, link_tail ps remark)).
  { destruct (link_tail_head ps remark) as [->|(c & t & -> & Ht)]; [rewrite app_nil_r_str; by apply span_until_all|by apply span_until_app]. }
  rewrite Cut, parse_link_authority, parse_link_tail by done. done.
Qed.
