(* ===== verification/LinkParser.v ===== *)
(** * Share-link import

    Models src/frontend/src/lib/xray/outbound-link-parser.ts: the parsers that turn a share link
    into an outbound record.  An exception that a parser catches is a [None] of the part that
    raises it.  A property written on an array value is not represented (it would not reach the
    JSON the panel stores). *)
From S2P Require Import Prelude JsString JsValue JsObject Utf8 Base64 Json Uri Url.
From Stdlib Require Import Ascii.
Local Open Scope Z_scope.

Definition params := list (string * string).

Definition XHTTP_STRING_KEYS : list string :=
  ["xPaddingBytes"; "xPaddingKey"; "xPaddingHeader"; "xPaddingPlacement"; "xPaddingMethod"; "sessionIDPlacement";
   "sessionIDKey"; "sessionIDTable"; "sessionIDLength"; "seqPlacement"; "seqKey"; "uplinkDataPlacement"; "uplinkDataKey";
   "scMaxEachPostBytes"; "scMinPostsIntervalMs"; "scStreamUpServerSecs"; "uplinkHTTPMethod"].

Definition XHTTP_LEGACY_ALIASES : list (string * string) :=
  [("sessionPlacement", "sessionIDPlacement"); ("sessionKey", "sessionIDKey")].

Definition XHTTP_NUMBER_KEYS : list string := ["scMaxBufferedPosts"; "serverMaxHeaderBytes"; "uplinkChunkSize"].
Definition XHTTP_BOOL_KEYS : list string := ["xPaddingObfsMode"; "noSSEHeader"; "noGRPCHeader"].
Definition XHTTP_OBJECT_KEYS : list string := ["xmux"; "downloadSettings"].

(** Of a string that is not null. *)
Definition asBool (s : string) : bool := String.eqb s "true" || String.eqb s "1".

(** A parameter that is present and not empty. *)
Definition param (ps : params) (k : string) : option string :=
  match params_get ps k with Some "" | None => None | Some v => Some v end.

Fixpoint firstParam (ps : params) (keys : list string) : option string :=
  match keys with
  | [] => None
  | k :: keys => match param ps k with Some v => Some v | None => firstParam ps keys end
  end.

(** [params.get(k) ?? d] *)
Definition param_or (ps : params) (k d : string) : string := default d (params_get ps k).

(** [params.set(k, v)] *)
Fixpoint set_first (ps : params) (k v : string) : option params :=
  match ps with
  | [] => None
  | (n, w) :: ps =>
      if String.eqb n k then Some ((n, v) :: List.filter (fun p => negb (String.eqb p.1 k)) ps)
      else option_map (cons (n, w)) (set_first ps k v)
  end.

Definition params_set (ps : params) (k v : string) : params :=
  match set_first ps k v with Some qs => qs | None => ps ++ [(k, v)] end.

(** [Number(v) || 0] and the like. *)
Definition number_or (n : num) (d : Z) : jsval := if num_truthy n then VNum n else VInt d.

(** ** Transport *)

Definition string_from_json (json : jsval) (xhttp : obj) (k : string) : obj :=
  match get json k with VStr s => obj_set xhttp k (VStr s) | _ => xhttp end.
Definition alias_from_json (json : jsval) (xhttp : obj) (a : string * string) : obj :=
  if is_undef (obj_get xhttp a.2) then
    match get json a.1 with VStr s => obj_set xhttp a.2 (VStr s) | _ => xhttp end
  else xhttp.
Definition number_from_json (json : jsval) (xhttp : obj) (k : string) : obj :=
  match get json k with VNum n => obj_set xhttp k (VNum n) | _ => xhttp end.
Definition bool_from_json (json : jsval) (xhttp : obj) (k : string) : obj :=
  match get json k with VBool b => obj_set xhttp k (VBool b) | _ => xhttp end.
Definition object_from_json (json : jsval) (xhttp : obj) (k : string) : obj :=
  match get json k with VObj o => obj_set xhttp k (VObj o) | _ => xhttp end.

Definition applyXhttpStringFromJson (xhttp : obj) (json : jsval) : obj :=
  let x := fold_left (string_from_json json) XHTTP_STRING_KEYS xhttp in
  let x := fold_left (alias_from_json json) XHTTP_LEGACY_ALIASES x in
  let x := fold_left (number_from_json json) XHTTP_NUMBER_KEYS x in
  let x := fold_left (bool_from_json json) XHTTP_BOOL_KEYS x in
  fold_left (object_from_json json) XHTTP_OBJECT_KEYS x.

(** The [extra] payload; malformed JSON, and [null], change nothing. *)
Definition apply_extra (xhttp : obj) (ps : params) : obj :=
  match param ps "extra" with
  | None => xhttp
  | Some extra =>
      match JSON_parse extra with
      | None => xhttp
      | Some parsed =>
          let x := applyXhttpStringFromJson xhttp parsed in
          match get parsed "headers" with
          | VObj h => obj_set x "headers" (VObj h)
          | VArr h => obj_set x "headers" (VArr h)
          | _ => x
          end
      end
  end.

(** One loop over keys: a present, non-empty parameter is stored. *)
Definition from_params (conv : string -> jsval) (ps : params) (xhttp : obj) (k : string) : obj :=
  match param ps k with Some v => obj_set xhttp k (conv v) | None => xhttp end.

Definition alias_from_params (ps : params) (xhttp : obj) (a : string * string) : obj :=
  if is_undef (obj_get xhttp a.2) then
    match param ps a.1 with Some v => obj_set xhttp a.2 (VStr v) | None => xhttp end
  else xhttp.

Definition applyXhttpStringFromParams (xhttp : obj) (ps : params) : obj :=
  let x := match param ps "x_padding_bytes" with Some v => obj_set xhttp "xPaddingBytes" (VStr v) | None => xhttp end in
  let x := apply_extra x ps in
  let x := fold_left (from_params VStr ps) XHTTP_STRING_KEYS x in
  let x := fold_left (from_params (fun v => number_or (number_of_string v) 0) ps) XHTTP_NUMBER_KEYS x in
  let x := fold_left (from_params (fun v => VBool (asBool v)) ps) XHTTP_BOOL_KEYS x in
  fold_left (alias_from_params ps) XHTTP_LEGACY_ALIASES x.

Definition tcp_none : jsval := VObj [("header", VObj [("type", VStr "none")])].

Definition kcp_defaults : obj :=
  [("mtu", VInt 1350); ("tti", VInt 20); ("uplinkCapacity", VInt 5); ("downlinkCapacity", VInt 20);
   ("cwndMultiplier", VInt 1); ("maxSendingWindow", VInt 2097152)].

Definition transport_settings (network : jsval) : string * jsval :=
  match network with
  | VStr "kcp" => ("kcpSettings", VObj kcp_defaults)
  | VStr "ws" =>
      ("wsSettings", VObj [("path", VStr "/"); ("host", VStr ""); ("headers", VObj []); ("heartbeatPeriod", VInt 0)])
  | VStr "grpc" => ("grpcSettings", VObj [("serviceName", VStr ""); ("authority", VStr ""); ("multiMode", VBool false)])
  | VStr "httpupgrade" => ("httpupgradeSettings", VObj [("path", VStr "/"); ("host", VStr ""); ("headers", VObj [])])
  | VStr "xhttp" =>
      ("xhttpSettings", VObj [("path", VStr "/"); ("host", VStr ""); ("mode", VStr "auto"); ("headers", VObj []);
                              ("xPaddingBytes", VStr "100-1000")])
  | _ => ("tcpSettings", tcp_none)
  end.

Definition security_settings (security : string) : obj :=
  if String.eqb security "tls" then
    [("tlsSettings", VObj [("serverName", VStr ""); ("alpn", VArr []); ("fingerprint", VStr ""); ("echConfigList", VStr "");
                           ("verifyPeerCertByName", VStr ""); ("pinnedPeerCertSha256", VStr "")])]
  else if String.eqb security "reality" then
    [("realitySettings", VObj [("publicKey", VStr ""); ("fingerprint", VStr "chrome"); ("serverName", VStr "");
                               ("shortId", VStr ""); ("spiderX", VStr ""); ("mldsa65Verify", VStr "")])]
  else [].

Definition buildStream (network : jsval) (security : string) : obj :=
  [("network", network); ("security", VStr security); transport_settings network] ++ security_settings security.

(** [stream[k]] changed in place. *)
Definition modify (stream : obj) (k : string) (f : obj -> obj) : obj :=
  match obj_get stream k with VObj o => obj_set stream k (VObj (f o)) | _ => stream end.

(** [(o as Raw).k = v; ...] *)
Definition assign (l : obj) (o : obj) : obj := fold_left (fun o kv => obj_set o kv.1 kv.2) l o.

(** [s.split(',').filter(Boolean)] *)
Definition comma_list (s : string) : jsval :=
  VArr (map VStr (List.filter (fun p => negb (String.eqb p "")) (split_on "," s))).

Definition http_header (path : string) (host : option string) : jsval :=
  VObj [("type", VStr "http");
        ("request", VObj [("version", VStr "1.1"); ("method", VStr "GET"); ("path", comma_list path);
                          ("headers", VObj (match host with Some h => [("Host", comma_list h)] | None => [] end))])].

Definition KCP_MIN_MTU : Z := 21.
Definition KCP_MAX_MTU : Z := 0x7fffffff.
Definition KCP_MIN_TTI : Z := 10.
Definition KCP_MAX_TTI : Z := 1000.

Definition MAX_SAFE : Z := 2 ^ 53 - 1.

Definition kcpParamInRange (raw : option string) (min max : Z) : option Z :=
  match raw with
  | None => None
  | Some raw =>
      if negb (all_digits raw) then None
      else let n := digits_value 0 raw in
           if (n <=? MAX_SAFE) && (min <=? n) && (n <=? max) then Some n else None
  end.

Definition set_opt (k : string) (v : option Z) (o : obj) : obj := match v with Some z => obj_set o k (VInt z) | None => o end.

Definition applyTransportParams (stream : obj) (ps : params) : obj :=
  let host := param_or ps "host" "" in
  let path := param_or ps "path" "/" in
  match obj_get stream "network" with
  | VStr "ws" => modify stream "wsSettings" (assign [("host", VStr host); ("path", VStr path)])
  | VStr "grpc" =>
      let serviceName := default (param_or ps "path" "") (params_get ps "serviceName") in
      modify stream "grpcSettings"
        (assign [("serviceName", VStr serviceName); ("authority", VStr (param_or ps "authority" ""));
                 ("multiMode", VBool (String.eqb (param_or ps "mode" "") "multi"))])
  | VStr "httpupgrade" => modify stream "httpupgradeSettings" (assign [("host", VStr host); ("path", VStr path)])
  | VStr "xhttp" =>
      modify stream "xhttpSettings" (fun x =>
        let x := assign [("host", VStr host); ("path", VStr path)] x in
        let x := match param ps "mode" with Some m => obj_set x "mode" (VStr m) | None => x end in
        applyXhttpStringFromParams x ps)
  | VStr "kcp" =>
      modify stream "kcpSettings" (fun kcp =>
        set_opt "tti" (kcpParamInRange (params_get ps "tti") KCP_MIN_TTI KCP_MAX_TTI)
          (set_opt "mtu" (kcpParamInRange (params_get ps "mtu") KCP_MIN_MTU KCP_MAX_MTU) kcp))
  | VStr "tcp" =>
      if String.eqb (param_or ps "headerType" "") "http" || String.eqb (param_or ps "type" "") "http" then
        modify stream "tcpSettings" (fun tcp =>
          obj_set tcp "header" (http_header path (if String.eqb host "" then None else Some host)))
      else stream
  | _ => stream
  end.

(** ** Numbers of [quicParams] *)

Definition QUIC_PARAMS_NUMERIC_KEYS : list string :=
  ["initStreamReceiveWindow"; "maxStreamReceiveWindow"; "initConnectionReceiveWindow"; "maxConnectionReceiveWindow";
   "maxIdleTimeout"; "keepAlivePeriod"; "maxIncomingStreams"].

Definition QUIC_NUMERIC_MAX : Z := 10 ^ 15.

(** The double nearest to [p / q] (both positive) as [m * 2^e]; ties to even.  The products
    formed here are far from the subnormal range. *)
Definition half_even (n d : Z) : Z :=
  let f := n / d in let r := n mod d in
  if 2 * r <? d then f else if d <? 2 * r then f + 1 else if Z.even f then f else f + 1.

Definition scaled (p q e : Z) : Z * Z := if 0 <=? e then (p, q * 2 ^ e) else (p * 2 ^ (- e), q).

Definition double_of (p q : Z) : Z * Z :=
  let e := Z.log2 p - Z.log2 q - 52 in
  let '(n, d) := scaled p q e in
  let e := if n <? 2 ^ 52 * d then e - 1 else e in
  let '(n, d) := scaled p q e in (half_even n d, e).

(** [Math.trunc(a * b)] for positive doubles [a] and [b]. *)
Definition trunc_mul (a b : Z * Z) : Z :=
  let '(n, d) := scaled (a.1 * b.1) 1 (- (a.2 + b.2)) in
  let '(m, e) := double_of n d in
  let '(n, d) := scaled m 1 (- e) in n / d.

(** [DURATION_SECONDS], as fractions. *)
Definition DURATION_SECONDS (unit : string) : option (Z * Z) :=
  if String.eqb unit "ms" then Some (1, 1000)
  else if String.eqb unit "s" then Some (1, 1)
  else if String.eqb unit "m" then Some (60, 1)
  else if String.eqb unit "h" then Some (3600, 1)
  else None.

(** [/^(-?\d+(?:\.\d+)?)(ms|s|m|h)$/] *)
Definition parse_duration (s : string) : option Z :=
  let '(sign, r) := if starts_with s "-" then (-1, str_drop 1 s) else (1, s) in
  let '(m, ni, r) := take_digits r 0 0 in
  if Nat.eqb ni 0 then None
  else
    let frac := if starts_with r "." then
                  let '(m, nf, r) := take_digits (str_drop 1 r) m 0 in
                  if Nat.eqb nf 0 then None else Some (m, nf, r)
                else Some (m, O, r) in
    match frac with
    | None => None
    | Some (m, nf, unit) =>
        match DURATION_SECONDS unit with
        | None => None
        | Some (un, ud) =>
            Some (if m =? 0 then 0
                  else sign * trunc_mul (double_of m (10 ^ Z.of_nat nf)) (double_of un ud))
        end
    end.

Definition num_to_int (n : num) : option Z := match n with NFin m e => Some (num_trunc m e) | _ => None end.

Definition coerceQuicNumeric (value : jsval) : option Z :=
  match value with
  | VNum n => num_to_int n
  | VStr s =>
      match (if String.eqb (trim s) "" then None else num_to_int (number_of_string s)) with
      | Some z => Some z
      | None => parse_duration (trim s)
      end
  | _ => None
  end.

Definition clampQuicNumeric (key : string) (n : Z) : option Z :=
  if (n <? 0) || (QUIC_NUMERIC_MAX <? n) then None
  else if n =? 0 then Some 0
  else if String.eqb key "keepAlivePeriod" then Some (Z.min (Z.max n 2) 60)
  else if String.eqb key "maxIdleTimeout" then Some (Z.min (Z.max n 4) 120)
  else if String.eqb key "maxIncomingStreams" then Some (Z.max n 8)
  else Some n.

Definition sanitize_key (quic : obj) (key : string) : obj :=
  if obj_has quic key then
    match coerceQuicNumeric (obj_get quic key) with
    | None => obj_del quic key
    | Some n => match clampQuicNumeric key n with None => obj_del quic key | Some c => obj_set quic key (VInt c) end
    end
  else quic.

Definition sanitizeFinalMaskQuicParams (parsed : jsval) : jsval :=
  match get parsed "quicParams" with
  | VObj quic => set parsed "quicParams" (VObj (fold_left sanitize_key QUIC_PARAMS_NUMERIC_KEYS quic))
  | _ => parsed
  end.

(** ** Final masks *)

Definition kcpHeaderTypeToMask (headerType : string) : option string :=
  if String.eqb headerType "dns" then Some "dns"
  else if String.eqb headerType "dtls" then Some "dtls"
  else if String.eqb headerType "srtp" then Some "srtp"
  else if String.eqb headerType "utp" then Some "utp"
  else if String.eqb headerType "wechat-video" then Some "wechat"
  else if String.eqb headerType "wireguard" then Some "wireguard"
  else None.

Definition mkcpLegacyMask (header value : string) : jsval :=
  VObj [("type", VStr "mkcp-legacy"); ("settings", VObj [("header", VStr header); ("value", VStr value)])].

Definition has_mask (type : string) (udp : list jsval) : bool := existsb (fun m => is_str (get m "type") type) udp.

Definition applyMkcpLegacyFromShare (stream : obj) (ps : params) : obj :=
  let headerType := trim (param_or ps "headerType" "") in
  let seed := param_or ps "seed" "" in
  let headerType := if String.eqb headerType "none" then "" else headerType in
  if String.eqb headerType "" && String.eqb seed "" then stream
  else if match obj_get stream "network" with VStr n => negb (String.eqb n "") && negb (String.eqb n "kcp") | _ => false end
  then stream
  else
    match (if String.eqb headerType "" then Some "" else kcpHeaderTypeToMask headerType) with
    | None => stream
    | Some maskHeader =>
        let finalmask := or_nullish (obj_get stream "finalmask") (VObj []) in
        let udp := as_list (get finalmask "udp") in
        if has_mask "mkcp-legacy" udp then stream
        else
          let udp := udp ++ (if String.eqb seed "" then [] else [mkcpLegacyMask "" seed])
                         ++ (if String.eqb maskHeader "" then [] else [mkcpLegacyMask maskHeader ""]) in
          obj_set stream "finalmask" (set finalmask "udp" (VArr udp))
    end.

Definition applyFinalMaskParam (stream : obj) (ps : params) : obj :=
  let stream :=
    match param ps "fm" with
    | None => stream
    | Some fm =>
        match JSON_parse fm with
        | Some (VObj o) => obj_set stream "finalmask" (sanitizeFinalMaskQuicParams (VObj o))
        | Some (VArr l) => obj_set stream "finalmask" (VArr l)
        | _ => stream
        end
    end in
  applyMkcpLegacyFromShare stream ps.

(** [ensureFinalMask], returning the mask; the caller stores it back. *)
Definition ensureFinalMask (stream : obj) : jsval :=
  match obj_get stream "finalmask" with VObj o => VObj o | VArr l => VArr l | _ => VObj [] end.

(** The [packetSize] of [obfs=gecko], or the empty string. *)
Definition gecko_size (ps : params) : string :=
  let minSize := trim (param_or ps "minPacketSize" "") in
  let maxSize := trim (param_or ps "maxPacketSize" "") in
  if all_digits minSize && all_digits maxSize then
    let min := digits_value 0 minSize in
    let max := digits_value 0 maxSize in
    if (min <=? MAX_SAFE) && (max <=? MAX_SAFE) && (1 <=? min) && (min <=? max) && (max <=? 2048)
    then string_of_Z min +:+ "-" +:+ string_of_Z max else ""
  else "".

Definition is_salamander (m : jsval) : bool := is_str (get m "type") "salamander".

Definition nonempty_str (v : jsval) : bool := match v with VStr s => negb (String.eqb s "") | _ => false end.

(** The settings of an existing mask, completed. *)
Definition fill_salamander (password packetSize : string) (mask : jsval) : jsval :=
  let settings := match get mask "settings" with VObj o => VObj o | VArr l => VArr l | _ => VObj [] end in
  let settings := if nonempty_str (get settings "password") then settings else set settings "password" (VStr password) in
  let settings :=
    if negb (String.eqb packetSize "") && negb (nonempty_str (get settings "packetSize"))
    then set settings "packetSize" (VStr packetSize) else settings in
  set mask "settings" settings.

(** The first mask that satisfies [p], changed in place. *)
Fixpoint modify_first (p : jsval -> bool) (f : jsval -> jsval) (l : list jsval) : option (list jsval) :=
  match l with
  | [] => None
  | m :: l => if p m then Some (f m :: l) else option_map (cons m) (modify_first p f l)
  end.

Definition applyHysteria2Obfs (stream : obj) (ps : params) : obj :=
  let obfs := to_lower (param_or ps "obfs" "") in
  let isGecko := String.eqb obfs "gecko" in
  if negb isGecko && negb (String.eqb obfs "salamander") then stream
  else
    match firstParam ps ["obfs-password"; "obfs_password"; "obfsPassword"] with
    | None => stream
    | Some password =>
        let packetSize := if isGecko then gecko_size ps else "" in
        let finalmask := ensureFinalMask stream in
        let udp := as_list (get finalmask "udp") in
        let udp' :=
          match modify_first is_salamander (fill_salamander password packetSize) udp with
          | Some udp => udp
          | None =>
              udp ++ [VObj [("type", VStr "salamander");
                            ("settings", VObj ([("password", VStr password)] ++
                               (if String.eqb packetSize "" then [] else [("packetSize", VStr packetSize)])))]]
          end in
        obj_set stream "finalmask" (set finalmask "udp" (VArr udp'))
    end.

Definition applyHysteria2Hop (stream : obj) (ps : params) : obj :=
  match firstParam ps ["mport"] with
  | None => stream
  | Some ports =>
      let finalmask := ensureFinalMask stream in
      let udp := as_list (get finalmask "udp") in
      if has_mask "udphop" udp then obj_set stream "finalmask" finalmask
      else
        obj_set stream "finalmask" (set finalmask "udp" (VArr (udp ++
          [VObj [("type", VStr "udphop");
                 ("settings", VObj [("mode", VStr "intervalremote"); ("interval", VStr "5-10"); ("remotePorts", VStr ports)])]])))
  end.

(** ** Security and plug-in parameters *)

(** The options of the [plugin] parameter: the last [obfs] and [obfs-host]. *)
Definition plugin_option (acc : string * string) (part : string) : string * string :=
  match index_of "=" part with
  | None => acc
  | Some eq =>
      let key := str_take eq part in
      if String.eqb key "obfs" then (str_drop (S eq) part, acc.2)
      else if String.eqb key "obfs-host" then (acc.1, str_drop (S eq) part)
      else acc
  end.

Definition applyObfsLocalPluginParams (ps : params) : params :=
  if match param ps "headerType" with Some _ => true | None => false end || String.eqb (param_or ps "type" "") "http" then ps
  else
    match split_on ";" (param_or ps "plugin" "") with
    | "obfs-local" :: parts =>
        let '(obfs, host) := fold_left plugin_option parts ("", "") in
        if negb (String.eqb obfs "http") then ps
        else
          let ps := params_set (params_set ps "type" "tcp") "headerType" "http" in
          if String.eqb host "" then ps else params_set ps "host" host
    | _ => ps
    end.

Definition split_list (s : string) : jsval := VArr (map VStr (split_on "," s)).

Definition applySecurityParams (stream : obj) (ps : params) : obj :=
  let p k d := VStr (param_or ps k d) in
  match obj_get stream "security" with
  | VStr "tls" =>
      modify stream "tlsSettings" (fun tls =>
        let tls := assign [("serverName", p "sni" ""); ("fingerprint", p "fp" "")] tls in
        let tls := match param ps "alpn" with Some a => obj_set tls "alpn" (split_list a) | None => tls end in
        assign [("echConfigList", p "ech" ""); ("verifyPeerCertByName", p "vcn" ""); ("pinnedPeerCertSha256", p "pcs" "")] tls)
  | VStr "reality" =>
      modify stream "realitySettings"
        (assign [("serverName", p "sni" ""); ("fingerprint", p "fp" "chrome"); ("publicKey", p "pbk" "");
                 ("shortId", p "sid" ""); ("spiderX", p "spx" ""); ("mldsa65Verify", p "pqv" "")])
  | _ => stream
  end.

(** The three passes every URL-shaped link applies. *)
Definition applyParams (stream : obj) (ps : params) : obj :=
  applyFinalMaskParam (applySecurityParams (applyTransportParams stream ps) ps) ps.

Definition decodeRemark (u : url) : string :=
  let h := str_drop 1 (u_hash u) in default h (decodeURIComponent h).

(** ** vmess *)

(** [String(v)] inside [Number(v)]. *)
Fixpoint prim_string (v : jsval) : string :=
  match v with
  | VUndef => "undefined"
  | VNull => "null"
  | VBool b => if b then "true" else "false"
  | VNum n => string_of_num n
  | VStr s => s
  | VArr l => join "," (map (fun x => if is_nullish x then "" else prim_string x) l)
  | VObj _ => "[object Object]"
  end.

(** [Number(v)] *)
Definition to_number (v : jsval) : num :=
  match v with
  | VUndef => NNaN
  | VNull => NFin 0 0
  | VBool b => NFin (if b then 1 else 0) 0
  | VNum n => n
  | _ => number_of_string (prim_string v)
  end.

(** A method call on a value that is not a string raises. *)
Definition as_str (v : jsval) : option string := match v with VStr s => Some s | _ => None end.

(** The transport branch of a vmess object; [None]: a [split] raised. *)
Definition vmess_transport (stream : obj) (network : jsval) (json : jsval) : option obj :=
  let j := get json in
  match network with
  | VStr "tcp" =>
      if is_str (j "type") "http" then
        match as_str (or_nullish (j "path") (VStr "/")),
              (if truthy (j "host") then option_map Some (as_str (j "host")) else Some None) with
        | Some path, Some host => Some (modify stream "tcpSettings" (fun t => obj_set t "header" (http_header path host)))
        | _, _ => None
        end
      else Some stream
  | VStr "ws" =>
      Some (modify stream "wsSettings" (assign [("host", or_nullish (j "host") (VStr "")); ("path", or_nullish (j "path") (VStr "/"))]))
  | VStr "grpc" =>
      Some (modify stream "grpcSettings"
        (assign [("serviceName", or_nullish (j "path") (VStr "")); ("authority", or_nullish (j "authority") (VStr ""));
                 ("multiMode", VBool (is_str (j "type") "multi"))]))
  | VStr "httpupgrade" =>
      Some (modify stream "httpupgradeSettings" (assign [("host", or_nullish (j "host") (VStr "")); ("path", or_nullish (j "path") (VStr "/"))]))
  | VStr "xhttp" =>
      Some (modify stream "xhttpSettings" (fun x =>
        let x := assign [("host", or_nullish (j "host") (VStr "")); ("path", or_nullish (j "path") (VStr "/"))] x in
        let x := if truthy (j "mode") then obj_set x "mode" (j "mode") else x in
        applyXhttpStringFromJson x json))
  | _ => Some stream
  end.

Definition set_if_string (k : string) (v : jsval) (o : obj) : obj := match v with VStr s => obj_set o k (VStr s) | _ => o end.

Definition vmess_security (stream : obj) (security : string) (json : jsval) : option obj :=
  let j := get json in
  if String.eqb security "tls" then
    match (if truthy (j "alpn") then option_map Some (as_str (j "alpn")) else Some None) with
    | None => None
    | Some alpn =>
        Some (modify stream "tlsSettings" (fun tls =>
          let tls := assign [("serverName", or_nullish (j "sni") (VStr "")); ("fingerprint", or_nullish (j "fp") (VStr ""))] tls in
          let tls := match alpn with Some a => obj_set tls "alpn" (split_list a) | None => tls end in
          set_if_string "pinnedPeerCertSha256" (j "pcs")
            (set_if_string "verifyPeerCertByName" (j "vcn") (set_if_string "echConfigList" (j "ech") tls))))
    end
  else Some stream.

(** The part of [parseVmessLink] after [JSON.parse]; [null] raises at its first property. *)
Definition vmess_outbound (json : jsval) : option jsval :=
  let j := get json in
  if is_nullish json then None
  else
    let network := or_falsy (j "net") (VStr "tcp") in
    let security := if is_str (j "tls") "tls" then "tls" else "none" in
    match vmess_transport (buildStream network security) network json with
    | None => None
    | Some stream =>
        match vmess_security stream security json with
        | None => None
        | Some stream =>
            let port := number_or (to_number (j "port")) 443 in
            let rawScy := or_falsy (j "scy") (VStr "auto") in
            let userSecurity := if is_str rawScy "none" || is_str rawScy "zero" then VStr "auto" else rawScy in
            Some (VObj
              [("protocol", VStr "vmess"); ("tag", VStr (str_or_empty (j "ps")));
               ("settings", VObj [("vnext", VArr [VObj
                  [("address", or_nullish (j "add") (VStr "")); ("port", port);
                   ("users", VArr [VObj [("id", or_nullish (j "id") (VStr "")); ("security", userSecurity)]])]])]);
               ("streamSettings", VObj stream)])
        end
    end.

Definition parseVmessLink (link : string) : option jsval :=
  if negb (starts_with link "vmess://") then None
  else
    match decode (str_drop 8 link) with
    | None => None
    | Some decoded => match JSON_parse decoded with None => None | Some json => vmess_outbound json end
    end.

(** ** URL-shaped links *)

Definition parseUrlLink (link expectedProto : string) : option url :=
  match new_URL link with
  | Some u => if String.eqb (u_protocol u) expectedProto then Some u else None
  | None => None
  end.

(** [Number(url.port) || 443] *)
Definition port_of (u : url) : jsval := number_or (number_of_string (u_port u)) 443.

Definition parseVlessLink (link : string) : option jsval :=
  match parseUrlLink link "vless" with
  | None => None
  | Some u =>
      let ps := searchParams u in
      let stream := applyParams (buildStream (VStr (param_or ps "type" "tcp")) (param_or ps "security" "none")) ps in
      Some (VObj
        [("protocol", VStr "vless"); ("tag", VStr (decodeRemark u));
         ("settings", VObj [("address", VStr (u_hostname u)); ("port", port_of u); ("id", VStr (u_username u));
                            ("flow", VStr (param_or ps "flow" "")); ("encryption", VStr (param_or ps "encryption" "none"))]);
         ("streamSettings", VObj stream)])
  end.

Definition parseTrojanLink (link : string) : option jsval :=
  match parseUrlLink link "trojan" with
  | None => None
  | Some u =>
      let ps := searchParams u in
      let stream := applyParams (buildStream (VStr (param_or ps "type" "tcp")) (param_or ps "security" "tls")) ps in
      Some (VObj
        [("protocol", VStr "trojan"); ("tag", VStr (decodeRemark u));
         ("settings", VObj [("servers", VArr [VObj
            [("address", VStr (u_hostname u)); ("port", port_of u); ("password", VStr (u_username u))]])]);
         ("streamSettings", VObj stream)])
  end.

(** [s.replace(/\/+$/, '')] *)
Definition strip_slashes (s : string) : string := str_rev (strip_front (Ascii.eqb "/") (str_rev s)).

(** Host and port of [host:port]. *)
Definition host_port (s : string) : option (string * jsval) :=
  match last_index_of ":" s with
  | None => None
  | Some colon => Some (str_take colon s, number_or (number_of_string (str_drop (S colon) s)) 443)
  end.

(** The text before and after the first [c]. *)
Definition cut_at (c : string) (s : string) : string * option string :=
  match index_of c s with Some i => (str_take i s, Some (str_drop (S i) s)) | None => (s, None) end.

(** User info, host and port of the part before the query: the modern and the legacy shape. *)
Definition ss_core (core : string) : option (string * string * jsval) :=
  match index_of "@" core with
  | Some atIndex =>
      let rawUserInfo := str_drop 5 (str_take atIndex core) in
      let userInfo :=
        if str_includes rawUserInfo ":" then default rawUserInfo (decodeURIComponent rawUserInfo)
        else default rawUserInfo (decode rawUserInfo) in
      match host_port (strip_slashes (str_drop (S atIndex) core)) with
      | Some (host, port) => Some (userInfo, host, port)
      | None => None
      end
  | None =>
      match decode (str_drop 5 core) with
      | None => None
      | Some decoded =>
          match cut_at "@" decoded with
          | (userInfo, Some rest) =>
              match host_port rest with Some (host, port) => Some (userInfo, host, port) | None => None end
          | (_, None) => None
          end
      end
  end.

Definition parseShadowsocksLink (link : string) : option jsval :=
  if negb (starts_with link "ss://") then None
  else
    let '(linkNoHash, hash) := cut_at "#" link in
    let remark := match hash with Some h => default "" (decodeURIComponent h) | None => "" end in
    let '(core, query) := cut_at "?" linkNoHash in
    let rawQuery := default "" query in
    match ss_core core with
    | None => None
    | Some (userInfo, host, port) =>
        let '(method, password) := match cut_at ":" userInfo with
                                   | (_, None) => ("2022-blake3-aes-128-gcm", userInfo)
                                   | (m, Some p) => (m, p)
                                   end in
        let ps := applyObfsLocalPluginParams (parse_query rawQuery) in
        let stream := applyParams (buildStream (VStr (param_or ps "type" "tcp")) (param_or ps "security" "none")) ps in
        Some (VObj
          [("protocol", VStr "shadowsocks"); ("tag", VStr remark);
           ("settings", VObj [("servers", VArr [VObj
              [("address", VStr host); ("port", port); ("password", VStr password); ("method", VStr method)]])]);
           ("streamSettings", VObj stream)])
    end.

Definition parseHysteria2Link (link : string) : option jsval :=
  match (match parseUrlLink link "hysteria2" with Some u => Some u | None => parseUrlLink link "hy2" end) with
  | None => None
  | Some u =>
      let ps := searchParams u in
      let p k := VStr (param_or ps k "") in
      let stream : obj :=
        [("network", VStr "hysteria"); ("security", VStr "tls");
         ("hysteriaSettings", VObj [("version", VInt 2); ("auth", VStr (u_username u)); ("udpIdleTimeout", VInt 60)]);
         ("tlsSettings", VObj
            [("serverName", p "sni");
             ("alpn", match param ps "alpn" with Some a => split_list a | None => VArr [VStr "h3"] end);
             ("fingerprint", p "fp"); ("echConfigList", p "ech"); ("verifyPeerCertByName", p "vcn");
             ("pinnedPeerCertSha256", p "pinSHA256")])] in
      let stream := applyHysteria2Hop (applyHysteria2Obfs (applyFinalMaskParam stream ps) ps) ps in
      Some (VObj
        [("protocol", VStr "hysteria"); ("tag", VStr (decodeRemark u));
         ("settings", VObj [("address", VStr (u_hostname u)); ("port", port_of u); ("version", VInt 2)]);
         ("streamSettings", VObj stream)])
  end.

(** [s.split(',').map(trim).filter(Boolean)] *)
Definition trimmed_list (s : string) : jsval :=
  VArr (map VStr (List.filter (fun p => negb (String.eqb p "")) (map trim (split_on "," s)))).

(** A number parameter is kept when it is finite. *)
Definition finite_entry (k : string) (raw : option string) : obj :=
  match raw with
  | Some s => let n := number_of_string s in if num_finite n then [(k, VNum n)] else []
  | None => []
  end.

Definition parseWireguardLink (link : string) : option jsval :=
  match (match parseUrlLink link "wireguard" with Some u => Some u | None => parseUrlLink link "wg" end) with
  | None => None
  | Some u =>
      let secretKey := default (u_username u) (decodeURIComponent (u_username u)) in
      let ps := searchParams u in
      let host := u_hostname u in
      let port := u_port u in
      let endpoint := if String.eqb host "" then "" else if String.eqb port "" then host else host +:+ ":" +:+ port in
      let address := trimmed_list (default "" (firstParam ps ["address"; "ip"])) in
      let allowedIPs := match firstParam ps ["allowedips"; "allowed_ips"] with
                        | Some a => trimmed_list a
                        | None => VArr [VStr "0.0.0.0/0"; VStr "::/0"]
                        end in
      let peer : obj :=
        [("publicKey", VStr (default "" (firstParam ps ["publickey"; "publicKey"; "public_key"; "peerPublicKey"])));
         ("endpoint", VStr endpoint); ("allowedIPs", allowedIPs)] ++
        match firstParam ps ["presharedkey"; "preshared_key"; "pre-shared-key"; "psk"] with
        | Some psk => [("preSharedKey", VStr psk)]
        | None => []
        end ++
        finite_entry "keepAlive" (firstParam ps ["keepalive"; "persistentkeepalive"; "persistent_keepalive"]) in
      let reserved :=
        match firstParam ps ["reserved"] with
        | Some r => List.filter num_finite (map (fun s => number_of_string (trim s)) (split_on "," r))
        | None => []
        end in
      let settings : obj :=
        [("secretKey", VStr secretKey); ("address", address); ("peers", VArr [VObj peer])] ++
        finite_entry "mtu" (firstParam ps ["mtu"]) ++
        match reserved with [] => [] | _ => [("reserved", VArr (map VNum reserved))] end in
      Some (VObj [("protocol", VStr "wireguard"); ("tag", VStr (decodeRemark u)); ("settings", VObj settings)])
  end.

(** ** Dispatch *)

Definition or_else (a b : option jsval) : option jsval := match a with Some v => Some v | None => b end.

Definition parseOutboundLink (link : string) : option jsval :=
  let trimmed := trim link in
  if String.eqb trimmed "" then None
  else
    or_else (parseVmessLink trimmed) (or_else (parseVlessLink trimmed) (or_else (parseTrojanLink trimmed)
      (or_else (parseShadowsocksLink trimmed) (or_else (parseHysteria2Link trimmed) (parseWireguardLink trimmed))))).

Example quic_durations :
  map (fun s => coerceQuicNumeric (VStr s)) ["30s"; "1.15m"; "1500ms"; "2.05m"; "-2.5m"; " 7.9 "; "5 s"; ""; "1e3"] =
  [Some 30; Some 69; Some 1; Some 122; Some (-150); Some 7; None; None; Some 1000].
Proof. vm_compute. reflexivity. Qed.


(** ** Properties copied over *)

Lemma get_assign l o k : obj_wf l -> obj_get (assign l o) k = if obj_has l k then obj_get l k else obj_get o k.
Proof.
  revert o. induction l as [|[n v] l IH]; intros o W; [done|]. unfold obj_wf in W. cbn [obj_keys map fst] in W. inversion W as [|? ? Hn W']; subst.
  change (assign ((n, v) :: l) o) with (assign l (obj_set o n v)). rewrite IH by done.
  change (obj_has ((n, v) :: l) k) with (String.eqb k n || obj_has l k). cbn [obj_get]. rewrite obj_get_set_cases, (String.eqb_sym n k).
  destruct (String.eqb_spec k n) as [->|E]; cbn [orb]; [|done]. destruct (obj_has l n) eqn:Eh; [|done].
  exfalso. apply Hn, list_elem_of_In, obj_has_keys, Eh.
Qed.

(** ** Reading back the links the panel writes *)

Lemma encode_unreserved s : forall_chars uri_unreserved s = true <-> encodeURIComponent s = s.
Proof.
  split.
  - induction s as [|c s IH]; [done|]. cbn. intros [-> H]%andb_true_iff. by rewrite IH.
  - intros H. assert (L : forall t, (String.length t <= String.length (encodeURIComponent t))%nat).
    { induction t as [|d t IH]; [done|]. cbn [encodeURIComponent]. rewrite length_app_str.
      destruct (uri_unreserved d); cbn; lia. }
    induction s as [|c s IH]; [done|]. cbn [encodeURIComponent forall_chars] in *. destruct (uri_unreserved c).
    + injection H as H. by rewrite IH.
    + apply (f_equal String.length) in H. rewrite length_app_str in H. cbn in H. specialize (L s). lia.
Qed.

Lemma port_of_Z u z : u_port u = string_of_Z z -> 1 <= z -> port_of u = VInt z.
Proof.
  intros E Hz. unfold port_of. rewrite E, number_of_string_of_Z by lia. unfold number_or, num_truthy.
  destruct z; [lia|done|lia].
Qed.

Lemma remark_back u remark : u_hash u = (if String.eqb remark "" then "" else "#" +:+ encodeURIComponent remark) ->
  utf8_valid (bytes_of remark) = true -> decodeRemark u = remark.
Proof.
  intros E Hv. unfold decodeRemark. rewrite E. destruct (String.eqb remark "") eqn:Er; [apply String.eqb_eq in Er; by subst|].
  cbn [String.append str_drop]. by rewrite decode_encodeURIComponent.
Qed.

(** What the parameters of a link say about its transport. *)
Definition link_stream (ps : params) (security : string) : obj :=
  applyParams (buildStream (VStr (param_or ps "type" "tcp")) (param_or ps "security" security)) ps.

(** A VLESS link as the panel writes it, with a client id of unreserved characters (such as a
    UUID), a host name, a port and any parameters. *)
Lemma parseVlessLink_share id host port ps remark :
  forall_chars uri_unreserved id = true -> plain_host host -> 1 <= port <= 65535 -> Forall valid_pair ps ->
  utf8_valid (bytes_of remark) = true ->
  parseVlessLink (share_link "vless" id host port ps remark) =
  Some (VObj
    [("protocol", VStr "vless"); ("tag", VStr remark);
     ("settings", VObj [("address", VStr host); ("port", VInt port); ("id", VStr id);
                        ("flow", VStr (param_or ps "flow" "")); ("encryption", VStr (param_or ps "encryption" "none"))]);
     ("streamSettings", VObj (link_stream ps "none"))]).
Proof.
  intros Hi Hh Hp Hv Hr. unfold parseVlessLink, parseUrlLink. rewrite new_URL_share_link; [|done|done|lia].
  cbn [u_protocol String.eqb Ascii.eqb Bool.eqb]. unfold searchParams. cbn [u_query]. rewrite parse_query_string by done.
  rewrite (port_of_Z _ port), (remark_back _ remark) by (done || lia). cbn [u_hostname u_username].
  apply encode_unreserved in Hi. by rewrite Hi.
Qed.

Lemma parseTrojanLink_share pw host port ps remark :
  plain_host host -> 1 <= port <= 65535 -> Forall valid_pair ps -> utf8_valid (bytes_of remark) = true ->
  parseTrojanLink (share_link "trojan" pw host port ps remark) =
  Some (VObj
    [("protocol", VStr "trojan"); ("tag", VStr remark);
     ("settings", VObj [("servers", VArr [VObj
        [("address", VStr host); ("port", VInt port); ("password", VStr (encodeURIComponent pw))]])]);
     ("streamSettings", VObj (link_stream ps "tls"))]).
Proof.
  intros Hh Hp Hv Hr.
  unfold parseTrojanLink, parseUrlLink. rewrite new_URL_share_link; [|done|done|lia].
  cbn [u_protocol String.eqb Ascii.eqb Bool.eqb]. unfold searchParams. cbn [u_query]. rewrite parse_query_string by done.
  rewrite (port_of_Z _ port), (remark_back _ remark) by (done || lia). done.
Qed.

(** A Trojan link as the panel writes it percent-encodes the password; the import keeps
    the encoded text, so the imported password is the client's exactly when every character of
    it is unreserved. *)
Theorem parseTrojanLink_password pw host port ps remark :
  plain_host host -> 1 <= port <= 65535 -> Forall valid_pair ps -> utf8_valid (bytes_of remark) = true ->
  parseTrojanLink (share_link "trojan" pw host port ps remark) =
  Some (VObj
    [("protocol", VStr "trojan"); ("tag", VStr remark);
     ("settings", VObj [("servers", VArr [VObj
        [("address", VStr host); ("port", VInt port); ("password", VStr (encodeURIComponent pw))]])]);
     ("streamSettings", VObj (link_stream ps "tls"))]) /\
  (encodeURIComponent pw = pw <-> forall_chars uri_unreserved pw = true).
Proof.
  intros Hh Hp Hv Hr. split; [by apply parseTrojanLink_share|symmetry; apply encode_unreserved].
Qed.

Lemma parseTrojanLink_password_witness :
  encodeURIComponent "p@ss/word" = "p%40ss%2Fword" /\
  parseTrojanLink (share_link "trojan" "p@ss/word" "h.example" 443 [("security", "tls")] "r") =
  Some (VObj
    [("protocol", VStr "trojan"); ("tag", VStr "r");
     ("settings", VObj [("servers", VArr [VObj
        [("address", VStr "h.example"); ("port", VInt 443); ("password", VStr "p%40ss%2Fword")]])]);
     ("streamSettings", VObj (link_stream [("security", "tls")] "tls"))]).
Proof.
  split; [reflexivity|].
  refine (proj1 (parseTrojanLink_password "p@ss/word" "h.example" 443 [("security", "tls")] "r" _ _ _ _));
    [split; [discriminate|reflexivity]|lia|repeat constructor|reflexivity].
Defined.

(** ** Imported values are in range *)

(** The ranges xray-core accepts for the numbers of [quicParams]. *)
Definition quic_range (key : string) (z : Z) : Prop :=
  z = 0 \/
  if String.eqb key "keepAlivePeriod" then 2 <= z <= 60
  else if String.eqb key "maxIdleTimeout" then 4 <= z <= 120
  else if String.eqb key "maxIncomingStreams" then 8 <= z <= QUIC_NUMERIC_MAX
  else 0 <= z <= QUIC_NUMERIC_MAX.

(** Absent, or an integer that satisfies [P]. *)
Definition absent_or (P : Z -> Prop) (v : jsval) : Prop := v = VUndef \/ exists z, v = VInt z /\ P z.

Definition quic_ok (finalmask : jsval) : Prop :=
  forall k, In k QUIC_PARAMS_NUMERIC_KEYS -> absent_or (quic_range k) (get (get finalmask "quicParams") k).

Definition kcp_ok (kcp : jsval) : Prop :=
  absent_or (fun z => KCP_MIN_MTU <= z <= KCP_MAX_MTU) (get kcp "mtu") /\
  absent_or (fun z => KCP_MIN_TTI <= z <= KCP_MAX_TTI) (get kcp "tti").

Definition stream_ok (stream : obj) : Prop :=
  quic_ok (obj_get stream "finalmask") /\ kcp_ok (obj_get stream "kcpSettings").

Lemma clamp_range key n z : clampQuicNumeric key n = Some z -> quic_range key z.
Proof.
  unfold clampQuicNumeric, quic_range. destruct (_ || _) eqn:E; [done|]. apply orb_false_iff in E as [E1%Z.ltb_ge E2%Z.ltb_ge].
  destruct (Z.eqb_spec n 0); [intros [= <-]; by left|].
  assert (Q : 8 <= QUIC_NUMERIC_MAX) by (vm_compute; discriminate).
  repeat case_match; intros [= <-]; right; lia.
Qed.

Lemma sanitize_key_same quic key : absent_or (quic_range key) (obj_get (sanitize_key quic key) key).
Proof.
  unfold sanitize_key. destruct (obj_has quic key) eqn:E; [|left; by apply obj_has_get].
  destruct (coerceQuicNumeric _) as [n|]; [|left; apply obj_get_del_eq].
  destruct (clampQuicNumeric key n) as [c|] eqn:Ec; [|left; apply obj_get_del_eq].
  right. exists c. rewrite obj_get_set_eq. eauto using clamp_range.
Qed.

Lemma sanitize_key_other quic key k : key <> k -> obj_get (sanitize_key quic key) k = obj_get quic k.
Proof.
  intros H. unfold sanitize_key. destruct (obj_has quic key); [|done].
  destruct (coerceQuicNumeric _) as [n|]; [destruct (clampQuicNumeric key n)|]; auto using obj_get_del_ne, obj_get_set_ne.
Qed.

Lemma sanitize_keys keys quic k : In k keys -> absent_or (quic_range k) (obj_get (fold_left sanitize_key keys quic) k).
Proof.
  revert quic. induction keys as [|key keys IH] using rev_ind; intros quic H; [done|]. rewrite fold_left_app. cbn [fold_left].
  destruct (decide (key = k)) as [->|Hne]; [apply sanitize_key_same|]. rewrite sanitize_key_other by done. apply IH.
  apply in_app_iff in H as [H|[H|[]]]; congruence || done.
Qed.

Lemma sanitized_quic_ok parsed : quic_ok (sanitizeFinalMaskQuicParams parsed).
Proof.
  intros k Hk. unfold sanitizeFinalMaskQuicParams.
  destruct parsed as [| | | | |l|o]; try by left. cbn [get].
  destruct (obj_get o "quicParams") as [| | | | |l|quic] eqn:E; cbn [get set]; rewrite ?E, ?obj_get_set_eq; try by left.
  cbn [get]. by apply sanitize_keys.
Qed.

Lemma quic_ok_undef : quic_ok VUndef.
Proof. intros k _. by left. Qed.

(** Storing the UDP masks leaves [quicParams] alone. *)
Lemma quic_ok_udp finalmask udp : quic_ok finalmask -> quic_ok (set finalmask "udp" udp).
Proof. intros H k Hk. specialize (H k Hk). destruct finalmask; try done. cbn [get set] in *. by rewrite obj_get_set_ne. Qed.

Lemma quic_ok_ensure stream : quic_ok (obj_get stream "finalmask") -> quic_ok (ensureFinalMask stream).
Proof. intros H. unfold ensureFinalMask. destruct (obj_get stream "finalmask"); try done; intros k _; by left. Qed.

Lemma stream_ok_finalmask stream fm : stream_ok stream -> quic_ok fm -> stream_ok (obj_set stream "finalmask" fm).
Proof. intros [_ H] Hf. split; [by rewrite obj_get_set_eq|by rewrite obj_get_set_ne]. Qed.

Lemma modify_other stream k f k' : k <> k' -> obj_get (modify stream k f) k' = obj_get stream k'.
Proof. intros H. unfold modify. destruct (obj_get stream k); try done. by apply obj_get_set_ne. Qed.

Lemma stream_ok_modify stream k f : k <> "finalmask" -> k <> "kcpSettings" -> stream_ok stream -> stream_ok (modify stream k f).
Proof. intros H1 H2 [? ?]. split; by rewrite modify_other. Qed.

Lemma kcpParamInRange_range raw min max z : kcpParamInRange raw min max = Some z -> min <= z <= max.
Proof.
  unfold kcpParamInRange. destruct raw as [r|]; [|done]. destruct (all_digits r); [|done]. cbn [negb].
  destruct (_ && _) eqn:E; [|done]. intros [= <-]. rewrite !andb_true_iff, !Z.leb_le in E. tauto.
Qed.

Lemma set_opt_ok P k v o : (forall z, v = Some z -> P z) -> absent_or P (obj_get o k) -> absent_or P (obj_get (set_opt k v o) k).
Proof. intros Hv Ho. destruct v as [z|]; [|done]. right. exists z. cbn. rewrite obj_get_set_eq. auto. Qed.

Lemma set_opt_other k v o k' : k <> k' -> obj_get (set_opt k v o) k' = obj_get o k'.
Proof. intros H. destruct v; [|done]. by apply obj_get_set_ne. Qed.

Lemma stream_ok_kcp stream ps : stream_ok stream ->
  stream_ok (modify stream "kcpSettings" (fun kcp =>
    set_opt "tti" (kcpParamInRange (params_get ps "tti") KCP_MIN_TTI KCP_MAX_TTI)
      (set_opt "mtu" (kcpParamInRange (params_get ps "mtu") KCP_MIN_MTU KCP_MAX_MTU) kcp))).
Proof.
  intros [Hf Hk]. split; [by rewrite modify_other|]. unfold modify.
  destruct (obj_get stream "kcpSettings") as [| | | | | |kcp] eqn:E; try by rewrite E.
  rewrite obj_get_set_eq. destruct Hk as [Hm Ht]. cbn [get] in *.
  split; cbn [get]; [rewrite set_opt_other by done|]; (apply set_opt_ok; [intros z; apply kcpParamInRange_range|]); [done|].
  by rewrite set_opt_other.
Qed.

Lemma stream_ok_transport stream ps : stream_ok stream -> stream_ok (applyTransportParams stream ps).
Proof.
  intros H. unfold applyTransportParams.
  assert (M : forall k f, k <> "finalmask" -> k <> "kcpSettings" -> stream_ok (modify stream k f)) by auto using stream_ok_modify.
  pose proof (stream_ok_kcp stream ps H) as K.
  destruct (obj_get stream "network") as [| | | |s| |]; try done.
  repeat (case_match; try done; try (by apply M)).
Qed.

Lemma stream_ok_security stream ps : stream_ok stream -> stream_ok (applySecurityParams stream ps).
Proof.
  intros H. unfold applySecurityParams. destruct (obj_get stream "security") as [| | | |s| |]; try done.
  repeat (case_match; try done; try (by apply stream_ok_modify)).
Qed.

Lemma stream_ok_mkcp stream ps : stream_ok stream -> stream_ok (applyMkcpLegacyFromShare stream ps).
Proof.
  intros H. unfold applyMkcpLegacyFromShare. destruct (_ && _); [done|]. destruct (match obj_get stream "network" with VStr _ => _ | _ => _ end); [done|].
  destruct (if String.eqb _ "" then _ else _); [|done]. destruct (has_mask _ _); [done|].
  apply stream_ok_finalmask, quic_ok_udp; [done|]. destruct H as [H _]. unfold or_nullish. destruct (is_nullish _); [|done].
  intros k _. by left.
Qed.

Lemma stream_ok_fm stream ps : stream_ok stream -> stream_ok (applyFinalMaskParam stream ps).
Proof.
  intros H. unfold applyFinalMaskParam. apply stream_ok_mkcp. destruct (param ps "fm") as [fm|]; [|done].
  destruct (JSON_parse fm) as [v|]; [|done]. destruct v; try done; apply stream_ok_finalmask; auto using sanitized_quic_ok.
  intros k _. by left.
Qed.

Lemma stream_ok_obfs stream ps : stream_ok stream -> stream_ok (applyHysteria2Obfs stream ps).
Proof.
  intros H. unfold applyHysteria2Obfs. destruct (_ && _); [done|]. destruct (firstParam _ _); [|done].
  apply stream_ok_finalmask, quic_ok_udp, quic_ok_ensure; [done|]. apply H.
Qed.

Lemma stream_ok_hop stream ps : stream_ok stream -> stream_ok (applyHysteria2Hop stream ps).
Proof.
  intros H. unfold applyHysteria2Hop. destruct (firstParam _ _); [|done].
  assert (E : quic_ok (ensureFinalMask stream)) by (apply quic_ok_ensure, H).
  destruct (has_mask _ _); apply stream_ok_finalmask; auto using quic_ok_udp.
Qed.

Lemma stream_ok_plain stream : obj_get stream "finalmask" = VUndef -> kcp_ok (obj_get stream "kcpSettings") -> stream_ok stream.
Proof. intros E H. split; [rewrite E; apply quic_ok_undef|done]. Qed.

Lemma kcp_ok_undef : kcp_ok VUndef.
Proof. by split; left. Qed.

Lemma kcp_ok_defaults : kcp_ok (VObj kcp_defaults).
Proof. split; right; eexists; (split; [reflexivity|]); by vm_compute. Qed.

Lemma stream_ok_build network security : stream_ok (buildStream network security).
Proof.
  unfold buildStream, transport_settings, security_settings.
  destruct network as [| | | |s| |]; repeat case_match; apply stream_ok_plain; cbn; try done; auto using kcp_ok_undef, kcp_ok_defaults.
Qed.

Lemma stream_ok_params stream ps : stream_ok stream -> stream_ok (applyParams stream ps).
Proof. intros H. by apply stream_ok_fm, stream_ok_security, stream_ok_transport. Qed.

Lemma stream_ok_vmess stream network security json s t :
  stream_ok stream -> vmess_transport stream network json = Some s -> vmess_security s security json = Some t -> stream_ok t.
Proof.
  intros H E1 E2. assert (Hs : stream_ok s).
  { revert E1. unfold vmess_transport. destruct network as [| | | |n| |]; try (intros [= <-]; done).
    repeat (case_match; try done; try (intros [= <-]; try done; by apply stream_ok_modify)). }
  revert E2. unfold vmess_security. repeat (case_match; try done); intros [= <-]; try done; by apply stream_ok_modify.
Qed.

(** The parts of an outbound record the ranges concern. *)
Definition outbound_ok (out : jsval) : Prop :=
  match get out "streamSettings" with VObj stream => stream_ok stream | _ => True end.

(** C31. Whatever the link says, the outbound it is imported as has its KCP sizes and the
    numbers of its [quicParams] absent or inside the ranges xray-core accepts: an out-of-range,
    negative, absurdly large or unparsable number never reaches the configuration. *)
Theorem parseOutboundLink_in_range link out : parseOutboundLink link = Some out -> outbound_ok out.
Proof.
  unfold parseOutboundLink. destruct (String.eqb _ ""); [done|]. set (l := trim link).
  destruct (parseVmessLink l) as [v|] eqn:E1; cbn [or_else].
  { intros [= <-]. revert E1. unfold parseVmessLink. destruct (starts_with l _); [|done]. cbn [negb].
    destruct (decode _); [|done]. destruct (JSON_parse _) as [json|]; [|done]. unfold vmess_outbound.
    destruct (is_nullish json); [done|]. destruct (vmess_transport _ _ _) eqn:T; [|done]. destruct (vmess_security _ _ _) eqn:S; [|done].
    intros [= <-]. cbn. eapply stream_ok_vmess; [apply stream_ok_build|exact T|exact S]. }
  destruct (parseVlessLink l) as [v|] eqn:E2; cbn [or_else].
  { intros [= <-]. revert E2. unfold parseVlessLink. destruct (parseUrlLink _ _); [|done]. intros [= <-]. cbn.
    apply stream_ok_params, stream_ok_build. }
  destruct (parseTrojanLink l) as [v|] eqn:E3; cbn [or_else].
  { intros [= <-]. revert E3. unfold parseTrojanLink. destruct (parseUrlLink _ _); [|done]. intros [= <-]. cbn.
    apply stream_ok_params, stream_ok_build. }
  destruct (parseShadowsocksLink l) as [v|] eqn:E4; cbn [or_else].
  { intros [= <-]. revert E4. unfold parseShadowsocksLink. destruct (starts_with _ _); [|done]. cbn [negb].
    destruct (cut_at "#" l) as [nohash hash]. destruct (cut_at "?" nohash) as [core q]. destruct (ss_core core) as [[[ui h] p]|]; [|done].
    destruct (match cut_at ":" ui with (_, None) => _ | (m, Some p0) => _ end) as [m p0]. intros [= <-]. cbn.
    apply stream_ok_params, stream_ok_build. }
  destruct (parseHysteria2Link l) as [v|] eqn:E5; cbn [or_else].
  { intros [= <-]. revert E5. unfold parseHysteria2Link. destruct (match parseUrlLink l "hysteria2" with Some _ => _ | None => _ end); [|done].
    intros [= <-]. cbn. apply stream_ok_hop, stream_ok_obfs, stream_ok_fm, stream_ok_plain; [done|apply kcp_ok_undef]. }
  unfold parseWireguardLink. destruct (match parseUrlLink l "wireguard" with Some _ => _ | None => _ end); [|done]. by intros [= <-].
Qed.

Lemma parseOutboundLink_in_range_witness :
  exists out, parseOutboundLink "vless://u@h.io:8443?type=kcp&mtu=20&tti=50&headerType=srtp" = Some out /\ outbound_ok out /\
    get (get (get out "streamSettings") "kcpSettings") "mtu" = VInt 1350 /\
    get (get (get out "streamSettings") "kcpSettings") "tti" = VInt 50.
Proof.
  eexists. split; [vm_compute; reflexivity|].
  split; [apply (parseOutboundLink_in_range "vless://u@h.io:8443?type=kcp&mtu=20&tti=50&headerType=srtp"); vm_compute; reflexivity|].
  split; reflexivity.
Defined.

(** ** Shadowsocks links *)

Lemma cut_at_app c a b : no_char c a -> cut_at (String c "") (a +:+ String c b) = (a, Some b).
Proof. intros H. unfold cut_at. by rewrite index_of_app, str_take_app, str_drop_S_app. Qed.

Lemma cut_at_none c a : no_char c a -> cut_at (String c "") a = (a, None).
Proof. intros H. unfold cut_at. by rewrite index_of_none. Qed.

(** Text before the host of a Shadowsocks link: percent-encoded or base64url pieces and colons. *)
Definition userinfo_char (c : ascii) : bool := uri_safe c || Ascii.eqb c ":".

Lemma userinfo_no c s : forall_chars userinfo_char s = true -> userinfo_char c = false -> no_char c s.
Proof.
  intros H Hc. unfold no_char. eapply forall_chars_impl; [|exact H]. intros e He. apply negb_true_iff, Ascii.eqb_neq. congruence.
Qed.

Lemma host_no c h : forall_chars host_char h = true -> host_char c = false -> no_char c h.
Proof.
  intros H Hc. unfold no_char. eapply forall_chars_impl; [|exact H]. intros e He. apply negb_true_iff, Ascii.eqb_neq. congruence.
Qed.

Lemma port_no c z : 0 <= z -> is_digit c = false -> no_char c (string_of_Z z).
Proof.
  intros Hz Hc. unfold no_char. eapply forall_chars_impl; [|by apply string_of_Z_digits]. intros e He.
  apply negb_true_iff, Ascii.eqb_neq. congruence.
Qed.

Definition ss_text (ui host : string) (port : Z) : string := "ss://" +:+ ui +:+ "@" +:+ host +:+ ":" +:+ string_of_Z port.

Definition ss_link (ui host : string) (port : Z) (ps : params) (remark : string) : string :=
  ss_text ui host port +:+ link_tail ps remark.

Lemma ss_text_no ui host port c : forall_chars userinfo_char ui = true -> plain_host host -> 0 <= port ->
  c = "#"%char \/ c = "?"%char -> no_char c (ss_text ui host port).
Proof.
  intros Hu [_ Hh] Hp Hc. unfold ss_text. rewrite !no_char_app.
  assert (userinfo_char c = false /\ host_char c = false /\ is_digit c = false) as (C1 & C2 & C3) by (by destruct Hc as [->| ->]).
  pose proof (userinfo_no c ui Hu C1). pose proof (host_no c host Hh C2). pose proof (port_no c port Hp C3).
  destruct Hc as [->| ->]; by repeat split.
Qed.

Lemma host_port_plain host port : plain_host host -> 1 <= port ->
  host_port (strip_slashes (host +:+ ":" +:+ string_of_Z port)) = Some (host, VInt port).
Proof.
  intros [_ Hh] Hp.
  assert (Hs : no_char "/" (host +:+ ":" +:+ string_of_Z port)).
  { rewrite !no_char_app. split; [by apply host_no|]. split; [done|]. apply port_no; [lia|done]. }
  assert (E : strip_slashes (host +:+ ":" +:+ string_of_Z port) = host +:+ ":" +:+ string_of_Z port).
  { unfold strip_slashes. rewrite strip_front_id by by apply forall_chars_rev. apply str_rev_involutive. }
  rewrite E. unfold host_port. change (host +:+ ":" +:+ string_of_Z port) with (host +:+ String ":" (string_of_Z port)).
  rewrite last_index_of_app by (apply port_no; [lia|done]). rewrite str_take_app, str_drop_S_app, number_of_string_of_Z by lia.
  unfold number_or. destruct port; [lia|done|lia].
Qed.

Lemma ss_core_text ui host port : forall_chars userinfo_char ui = true -> plain_host host -> 1 <= port ->
  ss_core (ss_text ui host port) =
  Some (if str_includes ui ":" then default ui (decodeURIComponent ui) else default ui (decode ui), host, VInt port).
Proof.
  intros Hu Hh Hp. unfold ss_core, ss_text.
  assert (Hat : no_char "@" ("ss://" +:+ ui)) by (apply no_char_app; split; [done|by apply userinfo_no]).
  replace ("ss://" +:+ ui +:+ "@" +:+ host +:+ ":" +:+ string_of_Z port)
    with (("ss://" +:+ ui) +:+ String "@" (host +:+ ":" +:+ string_of_Z port)) by by rewrite app_assoc_str.
  rewrite index_of_app, str_take_app, str_drop_S_app, host_port_plain by done. done.
Qed.

(** How a Shadowsocks link whose user info stands for [method:password] is imported. *)
Lemma ss_link_import ui host port ps remark method password :
  forall_chars userinfo_char ui = true -> plain_host host -> 1 <= port <= 65535 -> Forall valid_pair ps ->
  utf8_valid (bytes_of remark) = true -> no_char ":" method ->
  (if str_includes ui ":" then default ui (decodeURIComponent ui) else default ui (decode ui)) = method +:+ ":" +:+ password ->
  parseShadowsocksLink (ss_link ui host port ps remark) =
  Some (VObj
    [("protocol", VStr "shadowsocks"); ("tag", VStr remark);
     ("settings", VObj [("servers", VArr [VObj
        [("address", VStr host); ("port", VInt port); ("password", VStr password); ("method", VStr method)]])]);
     ("streamSettings", VObj (link_stream (applyObfsLocalPluginParams ps) "none"))]).
Proof.
  intros Hu Hh Hp Hv Hr Hm Hui. unfold parseShadowsocksLink, ss_link.
  assert (S0 : starts_with (ss_text ui host port +:+ link_tail ps remark) "ss://" = true).
  { unfold ss_text. rewrite app_assoc_str. apply starts_with_app. }
  rewrite S0. cbn [negb]. pose proof (ss_text_no ui host port) as No.
  assert (C1 : cut_at "#" (ss_text ui host port +:+ link_tail ps remark) =
    (ss_text ui host port +:+ (match ps with [] => "" | _ => "?" +:+ query_string ps end),
     if String.eqb remark "" then None else Some (encodeURIComponent remark))).
  { unfold link_tail. rewrite <- app_assoc_str. set (pre := ss_text ui host port +:+ match ps with [] => "" | _ => _ end).
    assert (Hpre : no_char "#" pre).
    { unfold pre. apply no_char_app. split; [apply No; auto; lia|]. destruct ps as [|p ps']; [done|]. apply no_char_app.
      split; [done|]. apply forall_chars_impl with (f := link_char); [|apply query_string_link].
      intros c. destruct c as [[] [] [] [] [] [] [] []]; by vm_compute. }
    destruct (String.eqb remark ""); [rewrite app_nil_r_str; by apply cut_at_none|]. by apply cut_at_app. }
  assert (C2 : cut_at "?" (ss_text ui host port +:+ (match ps with [] => "" | _ => "?" +:+ query_string ps end)) =
    (ss_text ui host port, match ps with [] => None | _ => Some (query_string ps) end)).
  { destruct ps as [|p ps']; [rewrite app_nil_r_str; apply cut_at_none|apply cut_at_app]; apply No; auto; lia. }
  rewrite C1, C2. rewrite ss_core_text by (done || lia). rewrite Hui.
  change (method +:+ ":" +:+ password) with (method +:+ String ":" password). rewrite cut_at_app by done.
  assert (R : match (if String.eqb remark "" then None else Some (encodeURIComponent remark)) with
              | Some h => default "" (decodeURIComponent h) | None => "" end = remark).
  { destruct (String.eqb remark "") eqn:E; [apply String.eqb_eq in E; by subst|]. by rewrite decode_encodeURIComponent. }
  assert (Q : parse_query (default "" (match ps with [] => None | _ => Some (query_string ps) end)) = ps).
  { destruct ps; [done|]. by apply parse_query_string. }
  rewrite R, Q. done.
Qed.

(** The user info of the panel's links: percent-encoded pieces for the 2022 methods, base64url
    of [method:password] for the others. *)
Definition userinfo_2022 (method : string) (keys : list string) : string :=
  join ":" (map encodeURIComponent (method :: keys)).

Lemma percent_decode_app s t : percent_decode (encodeURIComponent s +:+ t) = option_map (fun r => s +:+ r) (percent_decode t).
Proof.
  induction s as [|c s IH]; [cbn; by destruct (percent_decode t)|]. cbn [encodeURIComponent]. rewrite app_assoc_str, percent_decode_char, IH.
  by destruct (percent_decode t).
Qed.

Lemma percent_decode_join l : l <> [] -> percent_decode (join ":" (map encodeURIComponent l)) = Some (join ":" l).
Proof.
  induction l as [|x l IH]; [done|]. intros _. destruct l as [|y l]; [apply percent_decode_encode|].
  change (join ":" (map encodeURIComponent (x :: y :: l)))
    with (encodeURIComponent x +:+ ":" +:+ join ":" (map encodeURIComponent (y :: l))).
  rewrite percent_decode_app. cbn [String.append]. cbn [percent_decode]. by rewrite IH.
Qed.

Lemma join_userinfo l : forall_chars userinfo_char (join ":" (map encodeURIComponent l)) = true.
Proof.
  assert (E : forall s, forall_chars userinfo_char (encodeURIComponent s) = true).
  { intros s. eapply forall_chars_impl; [|apply encode_safe]. intros c H. unfold userinfo_char. by rewrite H. }
  induction l as [|x l IH]; [done|]. destruct l as [|y l]; [apply E|].
  change (join ":" (map encodeURIComponent (x :: y :: l)))
    with (encodeURIComponent x +:+ ":" +:+ join ":" (map encodeURIComponent (y :: l))).
  by rewrite !forall_chars_app, E, IH.
Qed.

Lemma join_has_colon x y l : str_includes (join ":" (map encodeURIComponent (x :: y :: l))) ":" = true.
Proof.
  unfold str_includes. change (join ":" (map encodeURIComponent (x :: y :: l)))
    with (encodeURIComponent x +:+ String ":" (join ":" (map encodeURIComponent (y :: l)))).
  rewrite index_of_app; [done|]. unfold no_char. eapply forall_chars_impl; [|apply encode_safe].
  intros c H. by apply uri_safe_quiet in H as (_ & _ & _ & -> & _).
Qed.

Lemma base64url_unreserved s : forall_chars uri_unreserved (encode s true) = true.
Proof.
  rewrite encode_safe_list, !map_map. pose proof (sextets_range _ (bytes_of_byte s)) as H.
  induction H as [|v l Hv _ IH]; [done|]. cbn [map String.string_of_list_ascii forall_chars]. rewrite IH, andb_true_r.
  revert v Hv. apply sextet_cases. reflexivity.
Qed.

(** Both shapes of Shadowsocks link the panel writes are imported with the method, keys,
    host, port, remark and parameters they were written from: the percent-encoded shape of the
    2022 methods with one or more keys, and base64url of [method:password] for the others. *)
Theorem parseShadowsocksLink_share method key keys host port ps remark :
  plain_host host -> 1 <= port <= 65535 -> Forall valid_pair ps -> utf8_valid (bytes_of remark) = true ->
  no_char ":" method ->
  utf8_valid (bytes_of (join ":" (method :: key :: keys))) = true -> has_bom (bytes_of (join ":" (method :: key :: keys))) = false ->
  let imported := Some (VObj
    [("protocol", VStr "shadowsocks"); ("tag", VStr remark);
     ("settings", VObj [("servers", VArr [VObj
        [("address", VStr host); ("port", VInt port); ("password", VStr (join ":" (key :: keys))); ("method", VStr method)]])]);
     ("streamSettings", VObj (link_stream (applyObfsLocalPluginParams ps) "none"))]) in
  parseShadowsocksLink (ss_link (userinfo_2022 method (key :: keys)) host port ps remark) = imported /\
  parseShadowsocksLink (ss_link (encode (join ":" (method :: key :: keys)) true) host port ps remark) = imported.
Proof.
  intros Hh Hp Hv Hr Hm Hutf Hbom imported.
  assert (J : join ":" (method :: key :: keys) = method +:+ ":" +:+ join ":" (key :: keys)) by done.
  split; apply ss_link_import; try done.
  - apply join_userinfo.
  - unfold userinfo_2022. rewrite join_has_colon. unfold decodeURIComponent. rewrite percent_decode_join, Hutf by done. exact J.
  - eapply forall_chars_impl; [|apply base64url_unreserved]. intros c H. unfold userinfo_char, uri_safe. by rewrite H.
  - assert (N : str_includes (encode (join ":" (method :: key :: keys)) true) ":" = false).
    { unfold str_includes. rewrite index_of_none; [done|]. unfold no_char. eapply forall_chars_impl; [|apply base64url_unreserved].
      intros c. destruct c as [[] [] [] [] [] [] [] []]; by vm_compute. }
    rewrite N, decode_encode_text by done. exact J.
Qed.

Lemma parseShadowsocksLink_share_witness :
  plain_host "1.2.3.4" /\
  parseShadowsocksLink (ss_link (userinfo_2022 "2022-blake3-aes-128-gcm" ["a/b="; "c+d="]) "1.2.3.4" 8388 [] "n") =
  Some (VObj
    [("protocol", VStr "shadowsocks"); ("tag", VStr "n");
     ("settings", VObj [("servers", VArr [VObj
        [("address", VStr "1.2.3.4"); ("port", VInt 8388); ("password", VStr "a/b=:c+d="); ("method", VStr "2022-blake3-aes-128-gcm")]])]);
     ("streamSettings", VObj (link_stream (applyObfsLocalPluginParams []) "none"))]).
Proof.
  split; [split; [discriminate|reflexivity]|].
  refine (proj1 (parseShadowsocksLink_share "2022-blake3-aes-128-gcm" "a/b=" ["c+d="] "1.2.3.4" 8388 [] "n" _ _ _ _ _ _ _));
    [split; [discriminate|reflexivity]|lia|constructor|reflexivity|reflexivity|reflexivity|reflexivity].
Defined.
