(* ===== verification/SettingsDraft.v ===== *)
(** * The panel's settings and their draft

    Models src/frontend/src/models/setting.ts (the [AllSetting] class: its fields, what its constructor
    copies and normalises), src/frontend/src/hooks/useServerDraft.ts (a draft edited beside a server
    value that is fetched again now and then) and their use in
    src/frontend/src/api/queries/useAllSettings.ts.

    A settings object is the object of its fields.  The constructor raises ([None]) where [trim] meets
    something that is not a string.  The draft hook is a transition system: renders with a server
    value, which is compared by reference (a number stands for it), edits of the draft, and the mark
    that a value was saved.  What the hook needs of its two functions is stated as hypotheses of a
    section, and shown of the settings. *)
From S2P Require Import Prelude JsString JsValue JsObject ObjectUtil LinkParser.
Local Open Scope Z_scope.

(** ** Settings *)

Definition default_setting : obj :=
  [("webListen", VStr ""); ("webDomain", VStr ""); ("webPort", VInt 2053); ("webCertFile", VStr ""); ("webKeyFile", VStr "");
   ("webBasePath", VStr "/"); ("sessionMaxAge", VInt 360); ("trustedProxyCIDRs", VStr "127.0.0.1/32,::1/128");
   ("realityScanCandidates", VStr "www.cloudflare.com:443,www.microsoft.com:443,www.amazon.com:443,aws.amazon.com:443,www.samsung.com:443,www.nvidia.com:443,www.amd.com:443,www.intel.com:443,www.sony.com:443,dl.google.com:443");
   ("ipLimitAllowlist", VStr ""); ("panelOutbound", VStr ""); ("pageSize", VInt 25); ("expireDiff", VInt 0); ("trafficDiff", VInt 0);
   ("remarkTemplate", VStr "{{INBOUND}}-{{EMAIL}}|📊{{TRAFFIC_LEFT}}|⏳{{DAYS_LEFT}}D"); ("subShowIdentityOnAllLinks", VBool false);
   ("subInfoNodeEnable", VBool false); ("subCalendarExpireInclusive", VBool false);
   ("subExpiredTemplate", VStr "⛔ {{EMAIL}} | Expired: {{EXPIRE_DATE}}");
   ("subTrafficDepletedTemplate", VStr "🚫 {{EMAIL}} | Traffic Depleted | {{TRAFFIC_USED}}/{{TRAFFIC_TOTAL}}"); ("datepicker", VStr "gregorian");
   ("tgBotEnable", VBool false); ("tgBotToken", VStr ""); ("tgBotAPIServer", VStr ""); ("tgBotChatId", VStr ""); ("tgRunTime", VStr "@daily");
   ("tgBotBackup", VBool false); ("tgCpu", VInt 80); ("tgMemory", VInt 80); ("tgLang", VStr "en-US"); ("twoFactorEnable", VBool false);
   ("twoFactorToken", VStr ""); ("xrayTemplateConfig", VStr ""); ("happLinkEnable", VBool false); ("subEnable", VBool true);
   ("subJsonEnable", VBool false); ("subJsonAutoDetect", VBool false); ("subJsonAlwaysArray", VBool false); ("subJsonUserAgentRegex", VStr "");
   ("subClashAutoDetect", VBool false); ("subClashUserAgentRegex", VStr ""); ("subTitle", VStr ""); ("subSupportUrl", VStr "");
   ("subProfileMode", VStr "none"); ("subProfileUrl", VStr ""); ("subAnnounce", VStr ""); ("subEnableRouting", VBool false);
   ("subRoutingRules", VStr ""); ("subIncyEnableRouting", VBool false); ("subIncyRoutingRules", VStr ""); ("subListen", VStr "");
   ("subPort", VInt 2096); ("subPath", VStr "/sub/"); ("subJsonPath", VStr "/json/"); ("subClashEnable", VBool false);
   ("subClashPath", VStr "/clash/"); ("subDomain", VStr ""); ("externalTrafficInformEnable", VBool false); ("externalTrafficInformURI", VStr "");
   ("restartXrayOnClientDisable", VBool true); ("subCertFile", VStr ""); ("subKeyFile", VStr ""); ("subUpdates", VInt 12);
   ("subEncrypt", VBool true); ("subURI", VStr ""); ("subJsonURI", VStr ""); ("subClashURI", VStr ""); ("subClashEnableRouting", VBool false);
   ("subClashRules", VStr ""); ("subJsonMux", VStr ""); ("subJsonRules", VStr ""); ("subJsonRoutingRules", VStr ""); ("subJsonDns", VStr "");
   ("subJsonFinalMask", VStr ""); ("subJsonObservatory", VStr ""); ("subThemeDir", VStr ""); ("subHideSettings", VBool false);
   ("subHappAutoDetect", VBool false); ("subHappProviderId", VStr ""); ("subHappNewUrl", VStr ""); ("subHappFallbackUrl", VStr "");
   ("subHappSubInfoColor", VStr "blue"); ("subHappSubInfoText", VStr ""); ("subHappSubInfoButtonText", VStr "");
   ("subHappSubInfoButtonLink", VStr ""); ("subHappSubExpire", VBool false); ("subHappSubExpireButtonLink", VStr "");
   ("subHappNotificationExpire", VBool false); ("subHappNoLimit", VBool false); ("subHappAlwaysHwid", VBool false); ("subHappTunMode", VStr "");
   ("subHappTunType", VStr ""); ("subHappExcludeRoutes", VStr ""); ("subHappExcludeApns", VBool false); ("subHappColorProfile", VStr "");
   ("subHappPingType", VStr ""); ("subHappAutoConnect", VBool false); ("subHappAutoConnectType", VStr "lowestdelay");
   ("subHappPerAppMode", VStr "off"); ("subHappPerAppList", VStr ""); ("timeLocation", VStr "Local"); ("ldapEnable", VBool false);
   ("ldapHost", VStr ""); ("ldapPort", VInt 389); ("ldapUseTLS", VBool false); ("ldapInsecureSkipVerify", VBool false); ("ldapBindDN", VStr "");
   ("ldapPassword", VStr ""); ("ldapBaseDN", VStr ""); ("ldapUserFilter", VStr "(objectClass=person)"); ("ldapUserAttr", VStr "mail");
   ("ldapVlessField", VStr "vless_enabled"); ("ldapSyncCron", VStr "@every 1m"); ("ldapFlagField", VStr "");
   ("ldapTruthyValues", VStr "true,1,yes,on"); ("ldapInvertFlag", VBool false); ("ldapInboundTags", VStr ""); ("ldapAutoCreate", VBool false);
   ("ldapAutoDelete", VBool false); ("ldapDefaultTotalGB", VInt 0); ("ldapDefaultExpiryDays", VInt 0); ("ldapDefaultLimitIP", VInt 0);
   ("tgEnabledEvents", VStr "login.attempt,cpu.high"); ("smtpEnable", VBool false); ("smtpHost", VStr ""); ("smtpPort", VInt 587);
   ("smtpUsername", VStr ""); ("smtpPassword", VStr ""); ("smtpFrom", VStr ""); ("smtpFromName", VStr ""); ("smtpTo", VStr "");
   ("smtpEncryptionType", VStr "starttls"); ("smtpEnabledEvents", VStr "login.attempt,cpu.high"); ("smtpCpu", VInt 80); ("smtpMemory", VInt 80);
   ("outboundDownThreshold", VInt 3); ("hasTgBotToken", VBool false); ("hasTwoFactorToken", VBool false); ("hasLdapPassword", VBool false);
   ("hasApiToken", VBool false); ("hasWarpSecret", VBool false); ("hasNordSecret", VBool false); ("hasSmtpPassword", VBool false);
   ("clearTgBotToken", VBool false); ("clearLdapPassword", VBool false); ("clearSmtpPassword", VBool false); ("discordBotEnable", VBool false);
   ("discordBotToken", VStr ""); ("discordChannelId", VStr ""); ("discordAdminIds", VStr ""); ("discordRunTime", VStr "@daily");
   ("discordBotBackup", VBool false); ("discordCpu", VInt 80); ("discordMemory", VInt 80); ("discordLang", VStr "en-US");
   ("discordEnabledEvents", VStr "login.attempt,cpu.high"); ("hasDiscordBotToken", VBool false); ("clearDiscordBotToken", VBool false)].

(** [Math.round(Number(v))] *)
Definition rounded (v : jsval) : num :=
  match to_number v with NFin m e => NFin ((2 * m + 10 ^ Z.of_nat e) / (2 * 10 ^ Z.of_nat e)) 0 | n => n end.

(** [Number.isFinite(n) ? Math.min(hi, Math.max(lo, n)) : d] *)
Definition clamped (lo hi d : Z) (v : jsval) : jsval :=
  match rounded v with NFin z _ => VInt (Z.min hi (Z.max lo z)) | _ => VInt d end.

(** The legacy rule: a custom URL without a stored mode. *)
Definition lacks_mode (data : jsval) : bool :=
  match data with VObj o => is_undef (obj_get o "subProfileMode") | VArr _ => true | _ => false end.

Definition legacy (data : jsval) (this : obj) : option obj :=
  if lacks_mode data then
    match obj_get this "subProfileUrl" with
    | VStr url => Some (if String.eqb (trim url) "" then this else obj_set this "subProfileMode" (VStr "custom"))
    | _ => None
    end
  else Some this.

Definition normalised (this : obj) : obj :=
  let this := obj_set this "tgCpu" (clamped 0 100 80 (obj_get this "tgCpu")) in
  obj_set this "outboundDownThreshold" (clamped 1 100 3 (obj_get this "outboundDownThreshold")).

(** [new AllSetting(data)] *)
Definition AllSetting (data : jsval) : option obj :=
  let this := match data with VObj o => cloneProps default_setting o [] | _ => default_setting end in
  option_map normalised (legacy data this).

(** ** A draft of a server value *)

Section Draft.
Context {T : Type} (clone : T -> T) (equals : T -> T -> bool).

Record draft_state := { draft : option T; baseline : option T; syncedServer : option (nat * T) }.

Definition isDirty (s : draft_state) : bool :=
  match draft s with
  | None => false
  | Some d => match baseline s with None => true | Some b => negb (equals d b) end
  end.

Definition same_server (a b : option (nat * T)) : bool :=
  match a, b with Some x, Some y => Nat.eqb x.1 y.1 | None, None => true | _, _ => false end.

(** A render with a server value: a new one is adopted before anything is shown. *)
Definition render (server : option (nat * T)) (s : draft_state) : draft_state :=
  if same_server server (syncedServer s) then s
  else match server with
       | None => {| draft := draft s; baseline := baseline s; syncedServer := server |}
       | Some v =>
           let keepLocalEdits := isDirty s && match draft s with Some d => negb (equals d v.2) | None => false end in
           {| draft := if keepLocalEdits then draft s else Some (clone v.2); baseline := Some v.2; syncedServer := server |}
       end.

Definition setDraft (f : option T -> T) (s : draft_state) : draft_state := {| draft := Some (f (draft s)); baseline := baseline s; syncedServer := syncedServer s |}.

Definition markSaved (v : T) (s : draft_state) : draft_state := {| draft := draft s; baseline := Some (clone v); syncedServer := syncedServer s |}.

Definition initial : draft_state := {| draft := None; baseline := None; syncedServer := None |}.

Inductive draft_event := DRender (server : option (nat * T)) | DEdit (f : option T -> T) | DSaved (v : T).

Definition draft_step (e : draft_event) (s : draft_state) : draft_state :=
  match e with DRender server => render server s | DEdit f => setDraft f s | DSaved v => markSaved v s end.

Definition draft_run (es : list draft_event) (s : draft_state) : draft_state := fold_left (fun s e => draft_step e s) es s.

(** ** What the hook guarantees *)

(** Values whose content [equals] compares, and values a clone of which is equal to them. *)
Context (ok settled : T -> Prop).
Hypothesis settled_ok : forall a, settled a -> ok a /\ ok (clone a).
Hypothesis equals_sym : forall a b, ok a -> ok b -> equals a b = true -> equals b a = true.
Hypothesis equals_trans : forall a b c, ok a -> ok b -> ok c -> equals a b = true -> equals b c = true -> equals a c = true.
Hypothesis clone_equal : forall a, settled a -> equals (clone a) a = true.

Definition event_settled (e : draft_event) : Prop := match e with DRender (Some v) => settled v.2 | _ => True end.
Definition no_edit (e : draft_event) : Prop := match e with DEdit _ => False | _ => True end.

(** Nothing but an edit changes the content of a draft with unsaved changes. *)
Lemma dirty_kept e s d : event_settled e -> no_edit e -> ok d -> draft s = Some d -> isDirty s = true ->
  exists d', draft (draft_step e s) = Some d' /\ (d' = d \/ equals d' d = true).
Proof.
  intros V N O D H. destruct e as [server| |v]; [|done|exists d; split; [exact D|by left]]. cbn [draft_step]. unfold render. destruct (same_server _ _); [exists d; auto|].
  destruct server as [v|]; [|exists d; auto]. rewrite H, D. cbn [andb draft]. destruct (equals d v.2) eqn:E; cbn [negb]; [|exists d; auto].
  destruct (settled_ok _ V) as [O1 O2]. eexists. split; [done|]. right. eapply (equals_trans _ v.2); auto.
Qed.

(** A new server value leaves a clean draft with that value, and a draft with unsaved changes dirty unless it has that content. *)
Lemma adopted v s : same_server (Some v) (syncedServer s) = false -> settled v.2 ->
  let s' := render (Some v) s in
  baseline s' = Some v.2 /\ isDirty s' = (isDirty s && match draft s with Some d => negb (equals d v.2) | None => false end) /\
  (isDirty s' = false -> draft s' = Some (clone v.2)).
Proof.
  intros N V s'. subst s'. unfold render. rewrite N. set (K := isDirty s && match draft s with Some d => negb (equals d v.2) | None => false end). cbn [baseline draft]. split; [done|].
  assert (E : isDirty {| draft := if K then draft s else Some (clone v.2); baseline := Some v.2; syncedServer := Some v |} = K).
  { unfold isDirty at 1. cbn [draft baseline]. destruct K eqn:EK; [|by rewrite clone_equal]. apply andb_true_iff in EK as [_ EK]. by destruct (draft s). }
  rewrite E. split; [done|]. by intros ->.
Qed.

(** A value is saved, whatever the draft has become by then, and the saved content is fetched: the draft still has its content. *)
Lemma saved_and_fetched s d saved v : draft s = Some d -> ok d -> settled saved -> settled v.2 -> equals v.2 saved = true ->
  exists d', draft (render (Some v) (markSaved saved s)) = Some d' /\ (d' = d \/ equals d' d = true).
Proof.
  intros D O Vs V E. destruct (isDirty (markSaved saved s)) eqn:H; [by apply (dirty_kept (DRender (Some v)))|]. destruct (settled_ok _ V) as [O1 O2], (settled_ok _ Vs) as [O3 O4].
  unfold render. cbn [syncedServer markSaved]. destruct (same_server _ _); [exists d; auto|]. rewrite H. cbn [andb draft]. eexists. split; [done|]. right.
  unfold isDirty in H. cbn [draft baseline markSaved] in H. rewrite D in H. apply negb_false_iff in H.
  eapply (equals_trans _ v.2); auto. eapply (equals_trans _ saved); auto. eapply (equals_trans _ (clone saved)); auto.
Qed.

(** After every render the state is consistent: there is a baseline as soon as there is a server value, and no draft means nothing to save. *)
Lemma draft_consistent es : Forall event_settled es -> let s := draft_run es initial in
  (syncedServer s <> None -> draft s <> None /\ baseline s <> None) /\ (isDirty s = true -> draft s <> None).
Proof.
  intros _ s. subst s. split; [|unfold isDirty; by destruct (draft _)]. revert es. apply (rev_ind (fun es => syncedServer (draft_run es initial) <> None -> draft (draft_run es initial) <> None /\ baseline (draft_run es initial) <> None)); [done|].
  intros e es IH. unfold draft_run. rewrite fold_left_app. fold (draft_run es initial). cbn [fold_left]. destruct e as [server|f|v]; cbn [draft_step].
  - unfold render. destruct (same_server _ _); [done|]. destruct server as [v|]; [|done]. cbn [draft baseline]. intros _. split; [|done]. destruct (isDirty (draft_run es initial) && _) eqn:K; [|done]. apply andb_true_iff in K as [K _]. unfold isDirty in K. by destruct (draft (draft_run es initial)).
  - cbn [syncedServer draft baseline setDraft]. intros H. destruct (IH H). by split.
  - cbn [syncedServer draft baseline markSaved]. intros H. destruct (IH H). by split.
Qed.
End Draft.

(** ** Settings are what the draft needs *)

Lemma default_wf : obj_wf default_setting.
Proof. apply (bool_decide_unpack _). vm_compute. exact I. Qed.

Lemma default_defined k : obj_has default_setting k = true -> obj_get default_setting k <> VUndef.
Proof.
  intros H%obj_has_keys. assert (F : forallb (fun k => negb (is_undef (obj_get default_setting k))) (obj_keys default_setting) = true) by (vm_compute; reflexivity).
  rewrite forallb_forall in F. specialize (F k H). apply negb_true_iff in F. by destruct (obj_get default_setting k).
Qed.

(** The value of a threshold: an integer in its range. *)
Lemma clamped_range lo hi d v : lo <= hi -> lo <= d <= hi -> exists z, clamped lo hi d v = VInt z /\ lo <= z <= hi.
Proof. intros H D. unfold clamped. destruct (rounded v) as [z e| |b]; eexists; (split; [done|]); lia. Qed.

Lemma clamped_again lo hi d z : lo <= z <= hi -> clamped lo hi d (VInt z) = VInt z.
Proof.
  intros H. unfold clamped, rounded. cbn [to_number VInt]. change (10 ^ Z.of_nat 0) with 1. replace ((2 * z + 1) / (2 * 1)) with z; [f_equal; unfold VInt; do 2 f_equal; lia|].
  symmetry. rewrite Z.mul_1_r. rewrite Z.mul_comm, Z.div_add_l by lia. change (1 / 2) with 0. lia.
Qed.

Lemma obj_set_keys o k v : In k (obj_keys o) -> obj_keys (obj_set o k v) = obj_keys o.
Proof. intros H. apply obj_keys_set. by apply obj_has_keys. Qed.

Lemma default_has k : existsb (String.eqb k) (obj_keys default_setting) = true -> In k (obj_keys default_setting).
Proof. rewrite existsb_exists. by intros (x & H & ->%String.eqb_eq). Qed.

Lemma normalised_spec o : obj_keys o = obj_keys default_setting ->
  obj_keys (normalised o) = obj_keys default_setting /\
  forall k, obj_get (normalised o) k = if String.eqb "outboundDownThreshold" k then clamped 1 100 3 (obj_get o k) else if String.eqb "tgCpu" k then clamped 0 100 80 (obj_get o k) else obj_get o k.
Proof.
  intros K. unfold normalised. split.
  - rewrite !obj_set_keys; rewrite ?obj_set_keys; rewrite ?K; try done; apply default_has; vm_compute; reflexivity.
  - intros k. rewrite !obj_get_set_cases. destruct (String.eqb_spec "outboundDownThreshold" k) as [<-|N]; [done|]. destruct (String.eqb_spec "tgCpu" k) as [<-|N']; done.
Qed.

Lemma legacy_spec data this t : obj_keys this = obj_keys default_setting -> legacy data this = Some t -> obj_keys t = obj_keys default_setting /\
  forall k, obj_get t k = obj_get this k \/ (k = "subProfileMode" /\ obj_get t k = VStr "custom").
Proof.
  intros K. unfold legacy. destruct (lacks_mode data); [|intros [= <-]; auto]. destruct (obj_get this "subProfileUrl") as [| | | |url| |]; try done. intros [= <-].
  destruct (String.eqb (trim url) ""); [by auto|]. split; [rewrite obj_set_keys; [done|]; rewrite K; apply default_has; vm_compute; reflexivity|]. intros k. rewrite obj_get_set_cases. destruct (String.eqb_spec "subProfileMode" k) as [<-|N]; auto.
Qed.

(** A constructed object: the fields of the class, each defined, the thresholds in their ranges. *)
Record setting_ok (t : obj) : Prop := {
  s_keys : obj_keys t = obj_keys default_setting;
  s_defined : forall k, In k (obj_keys default_setting) -> obj_get t k <> VUndef;
  s_cpu : exists z, obj_get t "tgCpu" = VInt z /\ 0 <= z <= 100;
  s_threshold : exists z, obj_get t "outboundDownThreshold" = VInt z /\ 1 <= z <= 100 }.

Lemma get_absent (t : obj) k : obj_keys t = obj_keys default_setting -> ~ In k (obj_keys default_setting) -> obj_get t k = VUndef.
Proof. intros K N. apply obj_has_get, not_true_iff_false. rewrite obj_has_keys. by rewrite K. Qed.

Lemma copied_setting o : obj_keys (cloneProps default_setting o []) = obj_keys default_setting /\
  forall k, In k (obj_keys default_setting) -> obj_get (cloneProps default_setting o []) k <> VUndef.
Proof.
  destruct (cloneProps_fold [] o (obj_keys o) default_setting) as [K G]. split; [done|]. intros k H. unfold cloneProps. rewrite G. apply obj_has_keys in H. pose proof (default_defined k H) as D.
  unfold copied. destruct (existsb _ (obj_keys o)); [|done]. destruct (is_undef (obj_get o k)) eqn:U; destruct (_ && _) eqn:E; try done; [|intros X; by rewrite X in U]. by rewrite andb_false_r in E.
Qed.

Lemma constructed_ok data t : AllSetting data = Some t -> setting_ok t.
Proof.
  unfold AllSetting. set (this := match data with VObj o => _ | _ => _ end). assert (T : obj_keys this = obj_keys default_setting /\ forall k, In k (obj_keys default_setting) -> obj_get this k <> VUndef).
  { subst this. destruct data; try (split; [done|]; intros k H; by apply default_defined, obj_has_keys). apply copied_setting. }
  destruct T as [K D]. destruct (legacy data this) as [l|] eqn:L; [|done]. intros [= <-]. destruct (legacy_spec data this l K L) as [Kl Gl]. destruct (normalised_spec l Kl) as [Kn Gn].
  split; [done| | |]; rewrite ?Gn; cbn [String.eqb Ascii.eqb Bool.eqb].
  - intros k H. rewrite Gn. destruct (String.eqb "outboundDownThreshold" k); [unfold clamped; by case_match|]. destruct (String.eqb "tgCpu" k); [unfold clamped; by case_match|].
    destruct (Gl k) as [->|[_ ->]]; [by apply D|done].
  - apply clamped_range; lia.
  - apply clamped_range; lia.
Qed.

(** Constructing from a constructed object copies it. *)
Lemma constructed_again t : setting_ok t -> AllSetting (VObj t) = Some t.
Proof.
  intros [K D (c & Hc & Rc) (h & Hh & Rh)]. assert (W : obj_wf t) by (unfold obj_wf; rewrite K; exact default_wf).
  assert (C : cloneProps default_setting t [] = t).
  { destruct (cloneProps_fold [] t (obj_keys t) default_setting) as [Kc G]. unfold cloneProps. symmetry. apply obj_ext; [done|by rewrite Kc|]. intros k. rewrite G. unfold copied.
    destruct (in_dec String.string_dec k (obj_keys default_setting)) as [I|N].
    - rewrite (proj2 (obj_has_keys default_setting k) I). specialize (D k I). replace (existsb (String.eqb k) (obj_keys t)) with true by (symmetry; rewrite K; apply existsb_exists; exists k; by rewrite String.eqb_refl).
      by destruct (obj_get t k).
    - rewrite (get_absent t k K N), (get_absent default_setting k eq_refl N). cbn [is_undef negb]. rewrite andb_false_r. by destruct (existsb _ _). }
  unfold AllSetting. rewrite C. unfold legacy, lacks_mode. assert (M : is_undef (obj_get t "subProfileMode") = false).
  { specialize (D "subProfileMode" ltac:(apply default_has; vm_compute; reflexivity)). by destruct (obj_get t "subProfileMode"). }
  rewrite M. cbn [option_map]. f_equal. destruct (normalised_spec t K) as [Kn Gn]. symmetry. apply obj_ext; [done|by rewrite Kn|]. intros k. rewrite Gn.
  destruct (String.eqb_spec "outboundDownThreshold" k) as [<-|N]; [by rewrite Hh, clamped_again|]. destruct (String.eqb_spec "tgCpu" k) as [<-|N']; [by rewrite Hc, clamped_again|done].
Qed.

(** ** The draft of the settings *)

Lemma num_eqb_sym a b : num_eqb a b = true -> num_eqb b a = true.
Proof. destruct a as [m e| |x], b as [m' e'| |y]; cbn; try done; [rewrite !Z.eqb_eq; lia|by destruct x, y]. Qed.

Lemma num_eqb_trans a b c : num_eqb a b = true -> num_eqb b c = true -> num_eqb a c = true.
Proof.
  destruct a as [m e| |x], b as [m' e'| |y], c as [m2 e2| |z]; cbn; try done; [|by destruct x, y, z]. rewrite !Z.eqb_eq. intros H1 H2.
  assert (P : 0 < 10 ^ Z.of_nat e') by (apply Z.pow_pos_nonneg; lia). apply (Z.mul_reg_r _ _ (10 ^ Z.of_nat e')); [lia|]. nia.
Qed.

Section Settings.
(** Whether two arrays or objects are one and the same. *)
Context (same_ref : jsval -> jsval -> bool).
Hypothesis same_ref_sym : forall a b, same_ref a b = true -> same_ref b a = true.
Hypothesis same_ref_trans : forall a b c, same_ref a b = true -> same_ref b c = true -> same_ref a c = true.

Lemma strict_eq_sym a b : strict_eq same_ref a b = true -> strict_eq same_ref b a = true.
Proof.
  destruct a, b; cbn; try done; try apply same_ref_sym; [by rewrite !Bool.eqb_true_iff|apply num_eqb_sym|by rewrite !String.eqb_eq].
Qed.

Lemma strict_eq_trans a b c : strict_eq same_ref a b = true -> strict_eq same_ref b c = true -> strict_eq same_ref a c = true.
Proof.
  destruct a, b, c; cbn; try done; try apply same_ref_trans; [rewrite !Bool.eqb_true_iff; congruence|apply num_eqb_trans|rewrite !String.eqb_eq; congruence].
Qed.

(** [(setting) => new AllSetting(setting)], which does not raise on an object of the class. *)
Definition clone_setting (t : obj) : obj := match AllSetting (VObj t) with Some t' => t' | None => t end.

(** [left.equals(right)] *)
Definition equals_setting (a b : obj) : bool := ObjectUtil.equals same_ref (VObj a) (VObj b).

(** A setting of the server: constructed from JSON, so without NaN. *)
Definition settled_setting (t : obj) : Prop := setting_ok t /\ forall k, strict_eq same_ref (obj_get t k) (obj_get t k) = true.

Lemma setting_wf t : setting_ok t -> obj_wf t.
Proof. intros [K _ _ _]. unfold obj_wf. rewrite K. exact default_wf. Qed.

Lemma clone_settled t : settled_setting t -> clone_setting t = t.
Proof. intros [S _]. unfold clone_setting. by rewrite constructed_again. Qed.

Lemma settled_setting_ok t : settled_setting t -> obj_wf t /\ obj_wf (clone_setting t).
Proof. intros S. rewrite clone_settled by done. pose proof (setting_wf t (proj1 S)). done. Qed.

Lemma equals_setting_sym a b : obj_wf a -> obj_wf b -> equals_setting a b = true -> equals_setting b a = true.
Proof.
  intros Wa Wb. unfold equals_setting. rewrite !equals_records by done. intros [K V]. split; [done|]. intros k H. apply strict_eq_sym, V. by rewrite K.
Qed.

Lemma equals_setting_trans a b c : obj_wf a -> obj_wf b -> obj_wf c -> equals_setting a b = true -> equals_setting b c = true -> equals_setting a c = true.
Proof.
  intros Wa Wb Wc. unfold equals_setting. rewrite !equals_records by done. intros [K V] [K' V']. split; [intros k; by rewrite K|]. intros k H. eapply strict_eq_trans; [by apply V|]. apply V'. by rewrite <-K.
Qed.

Lemma clone_setting_equal t : settled_setting t -> equals_setting (clone_setting t) t = true.
Proof.
  intros S. rewrite clone_settled by done. pose proof (setting_wf t (proj1 S)) as W. unfold equals_setting. apply equals_records; [done|done|]. split; [done|]. intros k _. apply (proj2 S).
Qed.

(** [updateSetting]: the patch goes on a copy of the draft, or of the server value. *)
Definition updateSetting (server patch : obj) : @draft_state obj -> @draft_state obj :=
  setDraft (fun prev => fold_left (fun next kv => obj_set next kv.1 kv.2) patch (clone_setting (default server prev))).

(** What [saveAll] posts and marks as saved, and what [savePayload] marks for a partial payload. *)
Definition saveAll (allSetting : obj) : obj := clone_setting allSetting.
Definition savePayload_saved (allSetting payload : obj) : obj := fold_left (fun saved kv => obj_set saved kv.1 kv.2) payload (clone_setting allSetting).

(** After a save of everything, a draft within the ranges has nothing to save. *)
Lemma saved_clean s d : draft s = Some d -> settled_setting d -> isDirty equals_setting (markSaved clone_setting (saveAll d) s) = false.
Proof. intros D S. unfold isDirty, markSaved, saveAll. cbn [draft baseline]. rewrite D, !clone_settled by (rewrite ?clone_settled; done). apply negb_false_iff. pose proof (clone_setting_equal d S) as E. by rewrite clone_settled in E. Qed.

(** The constructor of the settings puts every value it is given into range and is idempotent:
    whatever the server sent, an object it builds has the fields of the class and no others, a CPU
    threshold between 0 and 100 and an outbound threshold between 1 and 100, and building an object
    from it gives it back. *)
Theorem settings_constructed data t : AllSetting data = Some t ->
  obj_keys t = obj_keys default_setting /\ (exists z, obj_get t "tgCpu" = VInt z /\ 0 <= z <= 100) /\
  (exists z, obj_get t "outboundDownThreshold" = VInt z /\ 1 <= z <= 100) /\ AllSetting (VObj t) = Some t.
Proof. intros H. pose proof (constructed_ok data t H) as S. pose proof (constructed_again t S) as A. destruct S as [K _ C O]. auto. Qed.

(** C11. The draft of the settings page never loses what was edited: when a new server value arrives, a
    draft with unsaved changes keeps its content and a clean one becomes that value; and when a saved
    value comes back from the server, the draft has its content still, whatever was edited while the
    save was on its way. *)
Theorem settings_draft s d n v : obj_wf d -> draft s = Some d -> settled_setting v -> same_server (Some (n, v)) (syncedServer s) = false ->
  let arrive := render clone_setting equals_setting (Some (n, v)) in
  (isDirty equals_setting s = true -> exists d', draft (arrive s) = Some d' /\ (d' = d \/ equals_setting d' d = true)) /\
  (isDirty equals_setting s = false -> draft (arrive s) = Some v /\ isDirty equals_setting (arrive s) = false) /\
  forall saved, settled_setting saved -> equals_setting v saved = true ->
    exists d', draft (arrive (markSaved clone_setting saved s)) = Some d' /\ (d' = d \/ equals_setting d' d = true).
Proof.
  intros O D V N arrive. subst arrive. cbv beta. split; [|split].
  - intros H. apply (dirty_kept clone_setting equals_setting obj_wf settled_setting settled_setting_ok equals_setting_sym equals_setting_trans clone_setting_equal (DRender (Some (n, v)))); done.
  - intros H. destruct (adopted clone_setting equals_setting settled_setting clone_setting_equal (n, v) s N V) as (_ & E & A). rewrite H in E. cbn [andb] in E. split; [|done]. rewrite (A E). cbn [snd]. by rewrite clone_settled.
  - intros saved Vs E. by apply (saved_and_fetched clone_setting equals_setting obj_wf settled_setting settled_setting_ok equals_setting_sym equals_setting_trans clone_setting_equal).
Qed.
End Settings.

(** No array or object is a setting. *)
Definition no_ref (_ _ : jsval) : bool := false.

Lemma settings_constructed_witness : exists t, AllSetting (VObj [("tgCpu", VStr "250"); ("outboundDownThreshold", VInt 0); ("webPort", VInt 8443); ("subProfileUrl", VStr "https://a.example")]) = Some t /\
  obj_get t "tgCpu" = VInt 100 /\ obj_get t "outboundDownThreshold" = VInt 1 /\ obj_get t "subProfileMode" = VStr "custom" /\ AllSetting (VObj t) = Some t.
Proof.
  destruct (AllSetting (VObj [("tgCpu", VStr "250"); ("outboundDownThreshold", VInt 0); ("webPort", VInt 8443); ("subProfileUrl", VStr "https://a.example")])) as [t|] eqn:E; [|vm_compute in E; discriminate E].
  exists t. split; [reflexivity|]. pose proof (settings_constructed _ t E) as (_ & _ & _ & A). vm_compute in E. injection E as <-. split; [reflexivity|]. split; [reflexivity|]. split; [reflexivity|exact A].
Defined.

Lemma default_settled : settled_setting no_ref default_setting.
Proof.
  split; [apply (constructed_ok VUndef); vm_compute; reflexivity|]. intros k. destruct (in_dec String.string_dec k (obj_keys default_setting)) as [I|N].
  - assert (F : forallb (fun k => strict_eq no_ref (obj_get default_setting k) (obj_get default_setting k)) (obj_keys default_setting) = true) by (vm_compute; reflexivity).
    rewrite forallb_forall in F. by apply F.
  - by rewrite (get_absent default_setting k eq_refl N).
Qed.

Definition edited_port : obj := obj_set default_setting "webPort" (VInt 8443).

Definition editing : draft_state := {| draft := Some edited_port; baseline := Some default_setting; syncedServer := None |}.

Lemma settings_draft_witness : isDirty (equals_setting no_ref) editing = true /\
  exists d', draft (render clone_setting (equals_setting no_ref) (Some (1%nat, default_setting)) editing) = Some d' /\ (d' = edited_port \/ equals_setting no_ref d' edited_port = true).
Proof.
  assert (H : isDirty (equals_setting no_ref) editing = true) by (vm_compute; reflexivity). split; [exact H|].
  destruct (settings_draft no_ref (fun _ _ e => e) (fun _ _ _ e _ => e) editing edited_port 1 default_setting (obj_wf_set _ _ _ default_wf) eq_refl default_settled eq_refl) as (K & _ & _). exact (K H).
Defined.

(** ** Behaviours worth knowing *)

(** A CPU threshold that was cleared, or typed with a fraction, is saved as the constructor makes it;
    the draft keeps the text, so the page still shows unsaved changes after the save and the fetch. *)
Lemma normalised_stays_dirty v z : v = VNull /\ z = 0 \/ v = VNum (NFin 805 1) /\ z = 81 ->
  let d := obj_set default_setting "tgCpu" v in let saved := clone_setting d in
  let s := {| draft := Some d; baseline := Some default_setting; syncedServer := Some (0%nat, default_setting) |} in
  let s' := render clone_setting (equals_setting no_ref) (Some (1%nat, saved)) (markSaved clone_setting saved s) in
  obj_get saved "tgCpu" = VInt z /\ isDirty (equals_setting no_ref) s' = true /\ draft s' = Some d.
Proof. intros [[-> ->]|[-> ->]]; vm_compute; repeat split; reflexivity. Qed.
