(* ===== verification/TrafficMultiplier.v ===== *)
(** * Traffic multipliers

    Models src/frontend/src/lib/xray/traffic-multiplier.ts: a multiplier is stored in basis points and
    edited as a decimal text.  The whole part is computed by a division of doubles, which is
    written out ([double_of] of LinkParser.v: the double nearest to a quotient); the reading is done
    in arbitrary precision, as in the source.  [None] is NaN. *)
From Stdlib Require Import Ascii.
From S2P Require Import Prelude JsString JsValue StreamWire Uri Url LinkParser.
Local Open Scope Z_scope.

Definition MAX_TRAFFIC_MULTIPLIER_BPS : Z := MAX_SAFE.

Definition BASIS_POINTS_PER_MULTIPLIER : Z := 10000.

(** [Math.floor(a / b)] of positive integers, the quotient rounded to a double. *)
Definition floor_quotient (a b : Z) : Z := let '(m, e) := double_of a b in let '(n, d) := scaled m 1 (- e) in n / d.

(** [s.padStart(4, '0')] *)
Definition pad_start4 (s : string) : string :=
  match String.length s with 0%nat => "0000" +:+ s | 1%nat => "000" +:+ s | 2%nat => "00" +:+ s | 3%nat => "0" +:+ s | _ => s end.

(** [s.padEnd(4, '0')] *)
Definition pad_end4 (s : string) : string :=
  match String.length s with 0%nat => s +:+ "0000" | 1%nat => s +:+ "000" | 2%nat => s +:+ "00" | 3%nat => s +:+ "0" | _ => s end.

(** [s.replace(/0+$/, '')] *)
Fixpoint strip_zeros (s : string) : string :=
  match s with
  | "" => ""
  | String c s => let r := strip_zeros s in if String.eqb r "" && Ascii.eqb c "0"%char then "" else String c r
  end.

Definition trafficMultiplierBpsToInput (value : jsval) : string :=
  let bps := match value with
             | VNum (NFin z 0) => if (z <=? MAX_SAFE) && (100 <=? z) then z else BASIS_POINTS_PER_MULTIPLIER
             | _ => BASIS_POINTS_PER_MULTIPLIER
             end in
  let whole := floor_quotient bps BASIS_POINTS_PER_MULTIPLIER in
  let fraction := strip_zeros (pad_start4 (string_of_Z (bps mod BASIS_POINTS_PER_MULTIPLIER))) in
  if String.eqb fraction "" then string_of_Z whole else string_of_Z whole +:+ "." +:+ fraction.

(** [/^([0-9]+)(?:\.([0-9]{1,4}))?$/] *)
Definition match_multiplier (s : string) : option (string * string) :=
  match index_of "." s with
  | None => if all_digits s then Some (s, "") else None
  | Some i =>
      let '(a, b) := (str_take i s, str_drop (S i) s) in
      if all_digits a && all_digits b && Nat.leb (String.length b) 4 then Some (a, b) else None
  end.

Definition input_text (value : jsval) : string := match value with VStr s => s | VNum n => string_of_num n | _ => "" end.

Definition trafficMultiplierInputToBps (value : jsval) : option Z :=
  if is_nullish value || is_str value "" then Some BASIS_POINTS_PER_MULTIPLIER
  else match match_multiplier (input_text value) with
       | None => None
       | Some (whole, fraction) =>
           let bps := digits_value 0 whole * 10000 + digits_value 0 (pad_end4 fraction) in
           Some (if MAX_TRAFFIC_MULTIPLIER_BPS <? bps then MAX_SAFE + 1 else bps)
       end.

(** ** The division is exact enough *)

Lemma half_even_bounds n d : 0 <= n -> 0 < d -> n / d <= half_even n d /\ 2 * (half_even n d * d) <= 2 * n + d.
Proof.
  intros Hn Hd. unfold half_even. pose proof (Z.div_mod n d ltac:(lia)) as E. pose proof (Z.mod_pos_bound n d Hd). cbv zeta.
  destruct (Z.ltb_spec (2 * (n mod d)) d); [split; nia|]. destruct (Z.ltb_spec d (2 * (n mod d))); [split; nia|]. destruct (Z.even (n / d)); split; nia.
Qed.

Lemma round_quotient p q k : 0 < p -> 0 < q < 2 * 2 ^ k -> 0 <= k -> half_even (p * 2 ^ k) q / 2 ^ k = p / q.
Proof.
  intros Hp Hq Hk. pose proof (Z.pow_pos_nonneg 2 k ltac:(lia) Hk) as K. set (K2 := 2 ^ k) in *. clearbody K2.
  destruct (half_even_bounds (p * K2) q ltac:(nia) ltac:(lia)) as [L U]. set (m := half_even _ _) in *. clearbody m.
  symmetry. apply (Z.div_unique_pos m K2 (p / q) (m - K2 * (p / q))); [|lia].
  pose proof (Z.div_mod p q ltac:(lia)) as E. pose proof (Z.mod_pos_bound p q ltac:(lia)) as B. set (w := p / q) in *. clearbody w.
  assert (W : w * K2 <= p * K2 / q) by (apply Z.div_le_lower_bound; nia).
  assert (m < (w + 1) * K2); [|lia]. apply Z.nle_gt. intros C. assert (2 * ((w + 1) * K2 * q) <= 2 * (p * K2) + q) by nia. nia.
Qed.

(** The whole part of every storable multiplier is right, although the quotient is rounded. *)
Lemma floor_quotient_exact p : 100 <= p <= MAX_SAFE -> floor_quotient p 10000 = p / 10000.
Proof.
  intros H. assert (Hl : Z.log2 p <= 52) by (change 52 with (Z.log2 MAX_SAFE); apply Z.log2_le_mono; lia). pose proof (Z.log2_nonneg p) as H0.
  unfold floor_quotient, double_of. change (Z.log2 10000) with 13. set (e0 := Z.log2 p - 13 - 52).
  assert (G : forall e, e <= -13 -> (let '(m, e) := (let '(n, d) := scaled p 10000 e in (half_even n d, e)) in let '(n, d) := scaled m 1 (- e) in n / d) = p / 10000).
  { intros e He. unfold scaled at 1. rewrite (proj2 (Z.leb_gt 0 e)) by lia. cbv beta iota zeta. unfold scaled. rewrite (proj2 (Z.leb_le 0 (- e))) by lia.
    rewrite Z.mul_1_l. apply round_quotient; try lia. split; [lia|]. assert (2 ^ 13 <= 2 ^ (- e)) by (apply Z.pow_le_mono_r; lia). change (2 ^ 13) with 8192 in *. lia. }
  destruct (scaled p 10000 e0) as [n d]. apply G. destruct (n <? 2 ^ 52 * d); subst e0; lia.
Qed.

(** ** Texts *)

(** The four digits after the point, checked for each of the ten thousand values. *)
Definition fraction_ok (f : Z) : bool :=
  let s := strip_zeros (pad_start4 (string_of_Z f)) in
  if String.eqb s "" then f =? 0
  else all_digits s && Nat.leb (String.length s) 4 && (digits_value 0 (pad_end4 s) =? f).

Lemma fractions_ok : forallb (fun n => fraction_ok (Z.of_nat n)) (seq 0 (Z.to_nat 10000)) = true.
Proof. vm_compute. reflexivity. Qed.

Lemma fraction_text f : 0 <= f < 10000 -> fraction_ok f = true.
Proof.
  intros H. pose proof fractions_ok as F. rewrite forallb_forall in F. specialize (F (Z.to_nat f)). rewrite Z2Nat.id in F by lia. apply F. apply in_seq. lia.
Qed.

Lemma digits_have_no_dot s : forall_chars is_digit s = true -> index_of "." s = None.
Proof.
  intros H. destruct (index_of "." s) as [i|] eqn:E; [|done]. exfalso. revert i E. induction s as [|c s IH]; intros i E; [done|]. cbn in H. apply andb_true_iff in H as [Hc H].
  cbn [index_of] in E. destruct (String.prefix "." (String c s)) eqn:P.
  - clear -Hc P. destruct c as [[] [] [] [] [] [] [] []]; discriminate.
  - destruct (index_of "." s); [by eapply IH|discriminate].
Qed.

Lemma string_of_Z_all z : 0 <= z -> all_digits (string_of_Z z) = true /\ digits_value 0 (string_of_Z z) = z.
Proof.
  intros H. pose proof (string_of_Z_digits z H) as D. pose proof (string_of_Z_nonempty z H) as N. split; [unfold all_digits; by destruct (string_of_Z z)|].
  unfold string_of_Z. rewrite (proj2 (Z.ltb_ge z 0)) by lia. by apply digits_value_digits.
Qed.

Lemma match_whole z : 0 <= z -> match_multiplier (string_of_Z z) = Some (string_of_Z z, "").
Proof. intros H. unfold match_multiplier. rewrite digits_have_no_dot by by apply string_of_Z_digits. by rewrite (proj1 (string_of_Z_all z H)). Qed.

Lemma match_fraction z s : 0 <= z -> all_digits s = true -> (String.length s <= 4)%nat -> match_multiplier (string_of_Z z +:+ "." +:+ s) = Some (string_of_Z z, s).
Proof.
  intros H D L. unfold match_multiplier. assert (N : no_char "."%char (string_of_Z z)) by (apply port_no; done).
  change ("." +:+ s) with (String "."%char s). rewrite index_of_app by done. rewrite str_take_app, str_drop_S_app. by rewrite (proj1 (string_of_Z_all z H)), D, (proj2 (Nat.leb_le _ _) L).
Qed.

Lemma bps_text z : 100 <= z <= MAX_SAFE -> exists s, strip_zeros (pad_start4 (string_of_Z (z mod 10000))) = s /\
  trafficMultiplierBpsToInput (VInt z) = (if String.eqb s "" then string_of_Z (z / 10000) else string_of_Z (z / 10000) +:+ "." +:+ s).
Proof.
  intros H. eexists. split; [reflexivity|]. unfold trafficMultiplierBpsToInput, VInt. rewrite (proj2 (Z.leb_le z MAX_SAFE)), (proj2 (Z.leb_le 100 z)) by lia. cbn [andb].
  unfold BASIS_POINTS_PER_MULTIPLIER. by rewrite floor_quotient_exact.
Qed.

(** C35. Every storable multiplier survives the editor: the text shown for it is read back as the very
    same number of basis points, up to the largest safe integer, where a quotient of doubles has
    barely the digits it needs. *)
Theorem multiplier_roundtrip z : 100 <= z <= MAX_TRAFFIC_MULTIPLIER_BPS -> trafficMultiplierInputToBps (VStr (trafficMultiplierBpsToInput (VInt z))) = Some z.
Proof.
  unfold MAX_TRAFFIC_MULTIPLIER_BPS. intros H. destruct (bps_text z H) as (s & Es & ->).
  assert (W : 0 <= z / 10000) by (apply Z.div_pos; lia). pose proof (Z.div_mod z 10000 ltac:(lia)) as Ez. pose proof (Z.mod_pos_bound z 10000 ltac:(lia)) as B.
  pose proof (fraction_text (z mod 10000) B) as F. unfold fraction_ok in F. rewrite Es in F. destruct (string_of_Z_all _ W) as [_ V].
  assert (N : forall r, String.eqb (string_of_Z (z / 10000) +:+ r) "" = false) by (intros r; pose proof (string_of_Z_nonempty _ W); by destruct (string_of_Z (z / 10000))).
  unfold trafficMultiplierInputToBps. destruct (String.eqb s ""); cbn [is_nullish is_str orb input_text].
  - rewrite string_of_Z_nonempty by done. rewrite match_whole by done. rewrite V. cbn [pad_end4 String.length String.append]. change (digits_value 0 "0000") with 0.
    apply Z.eqb_eq in F. unfold MAX_TRAFFIC_MULTIPLIER_BPS. rewrite (proj2 (Z.ltb_ge _ _)) by lia. f_equal. lia.
  - rewrite N. apply andb_true_iff in F as [[F1 F2]%andb_true_iff F3%Z.eqb_eq]. rewrite match_fraction by (try apply Nat.leb_le; done). rewrite V, F3.
    unfold MAX_TRAFFIC_MULTIPLIER_BPS. rewrite (proj2 (Z.ltb_ge _ _)) by lia. f_equal. lia.
Qed.

Lemma multiplier_roundtrip_witness :
  trafficMultiplierBpsToInput (VInt MAX_TRAFFIC_MULTIPLIER_BPS) = "900719925474.0991" /\
  trafficMultiplierInputToBps (VStr (trafficMultiplierBpsToInput (VInt MAX_TRAFFIC_MULTIPLIER_BPS))) = Some MAX_TRAFFIC_MULTIPLIER_BPS.
Proof. split; [vm_compute; reflexivity|]. apply (multiplier_roundtrip MAX_TRAFFIC_MULTIPLIER_BPS). unfold MAX_TRAFFIC_MULTIPLIER_BPS, MAX_SAFE. lia. Defined.

(** A text beyond the range is never rounded into it. *)
Lemma multiplier_never_rounded s z : trafficMultiplierInputToBps (VStr s) = Some z -> 
  z = MAX_SAFE + 1 \/ 0 <= z <= MAX_SAFE.
Proof.
  unfold trafficMultiplierInputToBps. cbn [is_nullish is_str orb]. destruct (String.eqb s ""); [intros [= <-]; right; unfold BASIS_POINTS_PER_MULTIPLIER, MAX_SAFE; lia|].
  destruct (match_multiplier _) as [[w f]|]; [|done]. intros [= <-]. unfold MAX_TRAFFIC_MULTIPLIER_BPS. destruct (Z.ltb_spec MAX_SAFE (digits_value 0 w * 10000 + digits_value 0 (pad_end4 f))); [by left|right].
  pose proof (StreamWire.digits_value_nonneg w 0 ltac:(lia)). pose proof (StreamWire.digits_value_nonneg (pad_end4 f) 0 ltac:(lia)). lia.
Qed.
