(* ===== verification/ClientForm.v ===== *)
(** * The editor of clients

    Models src/frontend/src/pages/clients/ClientFormModal.tsx: the values the form is seeded with from a
    client record, the effects that keep flow, reverse tag, password and secret in line with the inbounds picked,
    the checks of [onSubmit], the payload it sends with the inbounds to attach and detach, and the
    rates and quotas per inbound that are loaded beside the client and posted after it; with
    [ClientFormSchema] of src/frontend/src/schemas/client.ts.

    The scalar values of the form are an object.  Totals are bytes in the record and gigabytes with
    two decimals in the form; both are decimals, computed exactly.  The doubles of the code give the
    same results while totals stay below [2^47] bytes: [bytes * 100 / 2^30] is then further from a tie
    than the error of its product, unless it is the tie.  Random values are arguments. *)
From S2P Require Import Prelude JsString JsValue JsObject XraySettings LinkParser RandomUtil TrafficMultiplier.
From stdpp Require Import gmap.
From Stdlib Require Import Ascii.
Local Open Scope Z_scope.

(** ** Totals *)

(** [Math.round(a / b)] for [b > 0] *)
Definition round_div (a b : Z) : Z := (2 * a + b) / (2 * b).

Definition GB : Z := 1024 * 1024 * 1024.

Definition positive (n : num) : bool := num_ltb (NFin 0 0) n.

Definition bytesToGB (bytes : num) : num :=
  if negb (positive bytes) then NFin 0 0
  else match bytes with NFin m e => NFin (round_div (m * 100) (10 ^ Z.of_nat e * GB)) 2 | n => n end.

Definition gbToBytes (gb : num) : num :=
  if negb (positive gb) then NFin 0 0
  else match gb with NFin m e => NFin (round_div (m * GB) (10 ^ Z.of_nat e)) 0 | n => n end.

(** [originalBytes]: absent, or the bytes of the record. *)
Definition resolveTotalBytes (originalBytes : jsval) (displayedGB : num) : num :=
  match originalBytes with
  | VNum b => if num_eqb displayedGB (bytesToGB b) then b else gbToBytes displayedGB
  | _ => gbToBytes displayedGB
  end.

(** ** Addresses of tunnels *)

Definition parseAllowedIPsList (raw : string) : list string :=
  List.filter (fun s => negb (String.eqb s "")) (map trim (split_on "," raw)).

Definition has (ids : list Z) (id : Z) : bool := existsb (Z.eqb id) ids.

Definition resolveTunnelAllowedIPsByInbound (attached wireguardInboundIds amneziawgInboundIds : list Z) (wgAllowedIPs awgAllowedIPs : list string)
  : gmap Z (list string) :=
  let result := match List.find (has wireguardInboundIds) attached with Some id => {[id := wgAllowedIPs]} | None => ∅ end in
  match List.find (has amneziawgInboundIds) attached with Some id => <[id := awgAllowedIPs]> result | None => result end.

(** ** The inbounds on offer *)

Record InboundOption := { ib_id : Z; ib_protocol : string; ib_tlsFlowCapable : bool; ib_ssMethod : string; ib_mtprotoDomain : string }.

Definition ids_of (p : InboundOption -> bool) (inbounds : list InboundOption) : list Z := map ib_id (List.filter p inbounds).
Definition protocol_ids (protocol : string) : list InboundOption -> list Z := ids_of (fun ib => String.eqb (ib_protocol ib) protocol).

Section Modal.
Context (inbounds : list InboundOption).

Definition wireguardIds : list Z := protocol_ids "wireguard" inbounds.
Definition amneziawgIds : list Z := protocol_ids "amneziawg" inbounds.
Definition flowCapableIds : list Z := ids_of ib_tlsFlowCapable inbounds.
Definition vlessLikeIds : list Z := protocol_ids "vless" inbounds.
Definition vmessIds : list Z := protocol_ids "vmess" inbounds.
Definition mtprotoIds : list Z := protocol_ids "mtproto" inbounds.
Definition tuicIds : list Z := protocol_ids "tuic" inbounds.
Definition sidecarSpeedIds : list Z := mtprotoIds ++ tuicIds.

Definition showFlow (inboundIds : list Z) : bool := existsb (has flowCapableIds) inboundIds.
Definition showReverseTag (inboundIds : list Z) : bool := existsb (has vlessLikeIds) inboundIds.
Definition showSecurity (inboundIds : list Z) : bool := existsb (has vmessIds) inboundIds.
Definition showWireguard (inboundIds : list Z) : bool := existsb (has wireguardIds) inboundIds.
Definition showAmneziawg (inboundIds : list Z) : bool := existsb (has amneziawgIds) inboundIds.
Definition showMtproto (inboundIds : list Z) : bool := existsb (has mtprotoIds) inboundIds.

Definition option_at (id : Z) : option InboundOption := List.find (fun ib => ib_id ib =? id) inbounds.

(** The first inbound picked whose option passes. *)
Fixpoint first_of (f : InboundOption -> option string) (inboundIds : list Z) : option string :=
  match inboundIds with
  | [] => None
  | id :: rest => match option_at id ≫= f with Some s => Some s | None => first_of f rest end
  end.

Definition mtprotoDomain (inboundIds : list Z) : string :=
  default "www.cloudflare.com" (first_of (fun ib => if String.eqb (ib_protocol ib) "mtproto" && negb (String.eqb (ib_mtprotoDomain ib) "") then Some (ib_mtprotoDomain ib) else None) inboundIds).

Definition ss2022Method (inboundIds : list Z) : string :=
  default "" (first_of (fun ib => if String.eqb (str_take 4 (ib_ssMethod ib)) "2022" then Some (ib_ssMethod ib) else None) inboundIds).

(** ** External links *)

Record ExternalLinkRow := { el_kind : string; el_value : string; el_remark : string; el_enable : bool; el_expiryTime : num; el_namePrefix : string }.

Definition text_or (v : jsval) : jsval := or_falsy v (VStr "").
Definition number_field (v : jsval) (d : Z) : jsval := number_or (to_number v) d.

(** The fields of a row the payload uses; a record's texts are strings. *)
Definition toExternalLinkRow (l : jsval) : ExternalLinkRow :=
  {| el_kind := if is_str (get l "kind") "subscription" then "subscription" else "link";
     el_value := str_or_empty (get l "value"); el_remark := str_or_empty (get l "remark"); el_enable := negb (is_bool (get l "enable") false);
     el_expiryTime := (let n := to_number (get l "expiryTime") in if num_truthy n then n else NFin 0 0);
     el_namePrefix := str_or_empty (get l "namePrefix") |}.

Definition link_input (r : ExternalLinkRow) : ExternalLinkRow :=
  {| el_kind := el_kind r; el_value := trim (el_value r); el_remark := trim (el_remark r); el_enable := el_enable r; el_expiryTime := el_expiryTime r;
     el_namePrefix := trim (el_namePrefix r) |}.

Definition externalLinks_of (rows : list ExternalLinkRow) : list ExternalLinkRow :=
  List.filter (fun r => negb (String.eqb (el_value r) "")) (map link_input rows).

(** ** Values of the form *)

Record Values := { fields : obj; inboundIds : list Z; externalLinks : list ExternalLinkRow }.

Definition value (v : Values) (k : string) : jsval := obj_get (fields v) k.

Definition throttle_or_stop (v : jsval) : jsval := if is_str v "throttle" then VStr "throttle" else VStr "stop".
Definition rolling_or_fixed (v : jsval) : jsval := if is_str v "rolling" then VStr "rolling" else VStr "fixed".
Definition gb_of (v : jsval) : jsval := VNum (bytesToGB (to_number v)).

(** [Math.round(et / -86400000)] of [et < 0] *)
Definition DAY : Z := 86400000.
Definition delayed_days (et : num) : num := match et with NFin m e => NFin (round_div (- m) (10 ^ Z.of_nat e * DAY)) 0 | n => n end.

(** The seed of an edited client. *)
Definition seed (client : obj) (attachedIds : list Z) (tunnelAllowedIPs : Z -> option string) (links : list jsval) : Values :=
  let c := obj_get client in
  let et := (let n := to_number (c "expiryTime") in if num_truthy n then n else NFin 0 0) in
  let tunnel ids := match List.find (has ids) attachedIds with Some id => match tunnelAllowedIPs id with Some s => VStr s | None => VUndef end | None => VUndef end in
  let delayed := num_ltb et (NFin 0 0) in
  {| fields :=
       [("email", text_or (c "email")); ("subId", text_or (c "subId")); ("uuid", text_or (c "uuid")); ("password", text_or (c "password"));
        ("auth", text_or (c "auth")); ("flow", text_or (c "flow"));
        ("security", if negb (truthy (c "security")) || is_str (c "security") "none" || is_str (c "security") "zero" then VStr "auto" else c "security");
        ("reverseTag", text_or (get (c "reverse") "tag")); ("totalGB", gb_of (or_falsy (c "totalGB") (VInt 0)));
        ("speedLimitUpKbps", number_field (or_nullish (c "speedLimitUpKbps") (c "speedLimitKbps")) 0);
        ("speedLimitDownKbps", number_field (or_nullish (c "speedLimitDownKbps") (c "speedLimitKbps")) 0);
        ("windowQuotaGB", gb_of (or_falsy (c "windowQuotaBytes") (VInt 0))); ("windowHours", number_field (c "windowHours") 2);
        ("windowMode", rolling_or_fixed (c "windowMode")); ("totalExhaustAction", throttle_or_stop (c "totalExhaustAction"));
        ("totalExhaustUpKbps", number_field (c "totalExhaustUpKbps") 0); ("totalExhaustDownKbps", number_field (c "totalExhaustDownKbps") 0);
        ("totalOverageMultiplierBps", number_field (c "totalOverageMultiplierBps") 10000); ("windowExhaustAction", throttle_or_stop (c "windowExhaustAction"));
        ("windowExhaustUpKbps", number_field (c "windowExhaustUpKbps") 0); ("windowExhaustDownKbps", number_field (c "windowExhaustDownKbps") 0);
        ("windowOverageMultiplierBps", number_field (c "windowOverageMultiplierBps") 10000); ("graceHours", number_field (c "graceHours") 0);
        ("graceUpKbps", number_field (c "graceUpKbps") 0); ("graceDownKbps", number_field (c "graceDownKbps") 0);
        ("graceQuotaGB", gb_of (number_field (c "graceQuotaBytes") 0)); ("reset", number_field (c "reset") 0); ("resetDay", number_field (c "resetDay") 0);
        ("resetMax", number_field (c "resetMax") 0); ("trafficReset", or_falsy (c "trafficReset") (VStr "never"));
        ("trafficResetDay", number_field (c "trafficResetDay") 1); ("limitIp", or_falsy (c "limitIp") (VInt 0)); ("limitHwid", or_falsy (c "limitHwid") (VInt 0));
        ("tgId", number_field (c "tgId") 0); ("group", text_or (c "group")); ("comment", text_or (c "comment")); ("enable", VBool (truthy (c "enable")));
        ("wgPrivateKey", text_or (c "privateKey")); ("wgPublicKey", text_or (c "publicKey")); ("wgPreSharedKey", text_or (c "preSharedKey"));
        ("wgAllowedIPs", or_nullish (tunnel wireguardIds) (or_nullish (c "allowedIPs") (VStr "")));
        ("awgAllowedIPs", or_nullish (tunnel amneziawgIds) (or_nullish (c "allowedIPs") (VStr "")));
        ("awgForwardedPorts", text_or (c "forwardedPorts")); ("wgKeepAlive", or_nullish (c "keepAlive") (VInt 0)); ("secret", text_or (c "secret"));
        ("adTag", text_or (c "adTag")); ("delayedStart", VBool delayed); ("delayedDays", VNum (if delayed then delayed_days et else NFin 0 0));
        ("expiryDate", VNum (if num_ltb (NFin 0 0) et then et else NFin 0 0))];
     inboundIds := attachedIds; externalLinks := map toExternalLinkRow links |}.

(** The effects on the values: flow, reverse tag, password and secret follow the inbounds. *)
Definition put (k : string) (x : jsval) (v : Values) : Values := {| fields := obj_set (fields v) k x; inboundIds := inboundIds v; externalLinks := externalLinks v |}.

Definition effect_flow (v : Values) : Values :=
  if Nat.ltb 0 (length inbounds) && negb (showFlow (inboundIds v)) && truthy (value v "flow") then put "flow" (VStr "") v else v.

Definition effect_reverse (v : Values) : Values :=
  if negb (showReverseTag (inboundIds v)) && truthy (value v "reverseTag") then put "reverseTag" (VStr "") v else v.

(** [generated]: the secret generated for a domain. *)
Definition effect_secret (generated : string -> string) (v : Values) : Values :=
  if showMtproto (inboundIds v) && negb (truthy (value v "secret")) then put "secret" (VStr (generated (mtprotoDomain (inboundIds v)))) v else v.

(** Runs when the Shadowsocks-2022 method of the inbounds is not the one of the previous render, [before]: a password the
    method does not take is replaced by a random one. *)
Definition effect_password (before : string) (rnd8 : nat -> list Z) (v : Values) : Values :=
  let method := ss2022Method (inboundIds v) in
  if String.eqb method before || String.eqb method "" || isShadowsocks2022Password (str_or_empty (value v "password")) method then v
  else put "password" (VStr (randomShadowsocksPassword method rnd8)) v.

Definition settle (generated : string -> string) (before : string) (rnd8 : nat -> list Z) (v : Values) : Values :=
  effect_secret generated (effect_password before rnd8 (effect_reverse (effect_flow v))).

(** ** Checks *)

Definition forbidden_char (c : ascii) : bool :=
  let n := Ascii.nat_of_ascii c in Ascii.eqb c "/" || Ascii.eqb c "\" || Ascii.eqb c " " || Nat.ltb n 32 || Nat.eqb n 127.

Definition hasForbiddenClientChars (s : string) : bool := negb (forall_chars (fun c => negb (forbidden_char c)) s).

Definition z_text (v : jsval) : bool := is_string v.
Definition z_email (v : jsval) : bool := match v with VStr s => negb (String.eqb (trim s) "") && negb (hasForbiddenClientChars (trim s)) | _ => false end.
Definition z_subId (v : jsval) : bool := match v with VStr s => negb (hasForbiddenClientChars s) | _ => false end.
Definition z_int (lo hi : Z) (v : jsval) : bool := match v with VNum (NFin z O) => (lo <=? z) && (z <=? hi) | _ => false end.
Definition z_amount (v : jsval) : bool := match v with VNum (NFin m _) => 0 <=? m | _ => false end.
Definition z_bool (v : jsval) : bool := match v with VBool _ => true | _ => false end.
Definition z_enum (l : list string) (v : jsval) : bool := existsb (is_str v) l.

Definition KBPS : jsval -> bool := z_int 0 1000000000.

(** The shape of [ClientFormSchema] but for the inbounds. *)
Definition client_shape : list (string * (jsval -> bool)) :=
  [("email", z_email); ("subId", z_subId); ("uuid", z_text); ("password", z_text); ("auth", z_text); ("flow", z_text); ("security", z_text);
   ("reverseTag", z_text); ("totalGB", z_amount); ("speedLimitUpKbps", KBPS); ("speedLimitDownKbps", KBPS); ("windowQuotaGB", z_amount);
   ("windowHours", z_int 0 8760); ("windowMode", z_enum ["fixed"; "rolling"]); ("totalExhaustAction", z_enum ["stop"; "throttle"]);
   ("totalExhaustUpKbps", KBPS); ("totalExhaustDownKbps", KBPS); ("totalOverageMultiplierBps", z_int 10000 MAX_SAFE);
   ("windowExhaustAction", z_enum ["stop"; "throttle"]); ("windowExhaustUpKbps", KBPS); ("windowExhaustDownKbps", KBPS);
   ("windowOverageMultiplierBps", z_int 10000 MAX_SAFE); ("graceHours", z_int 0 8760); ("graceUpKbps", KBPS); ("graceDownKbps", KBPS);
   ("graceQuotaGB", z_amount); ("delayedStart", z_bool); ("delayedDays", z_int 0 MAX_SAFE); ("reset", z_int 0 MAX_SAFE); ("resetDay", z_int 0 31);
   ("resetMax", z_int 0 MAX_SAFE); ("trafficReset", z_enum ["never"; "hourly"; "daily"; "weekly"; "monthly"]); ("trafficResetDay", z_int 1 31);
   ("limitIp", z_int 0 MAX_SAFE); ("limitHwid", z_int 0 MAX_SAFE); ("tgId", z_int 0 MAX_SAFE); ("group", z_text); ("comment", z_text); ("enable", z_bool)].

(** [ClientFormSchema], and [ClientCreateFormSchema] for a new client. *)
Definition ClientFormSchema (isEdit : bool) (v : Values) : bool :=
  forallb (fun kp => kp.2 (value v kp.1)) client_shape && (isEdit || Nat.ltb 0 (length (inboundIds v))).

(** ** Rates and quotas per inbound *)

Record DirectionalRate := { upKbps : num; downKbps : num }.
Record InboundWindowQuotaRow := {
  quotaBytes : num; quotaGB : num; hours : num; qmode : string; exhaustAction : string; exhaustUpKbps : num; exhaustDownKbps : num; overageBps : num }.

Definition number0 (v : jsval) (d : Z) : num := let n := to_number v in if num_truthy n then n else NFin d 0.

Definition read_rate (rate : jsval) : DirectionalRate :=
  {| upKbps := number0 (or_nullish (get rate "upKbps") rate) 0; downKbps := number0 (or_nullish (get rate "downKbps") rate) 0 |}.

Definition read_quota (v : jsval) : InboundWindowQuotaRow :=
  {| quotaBytes := number0 (get v "quotaBytes") 0; quotaGB := bytesToGB (number0 (get v "quotaBytes") 0); hours := number0 (get v "hours") 2;
     qmode := if is_str (get v "mode") "rolling" then "rolling" else "fixed";
     exhaustAction := if is_str (get v "windowExhaustAction") "throttle" then "throttle" else "stop";
     exhaustUpKbps := number0 (get v "windowExhaustUpKbps") 0; exhaustDownKbps := number0 (get v "windowExhaustDownKbps") 0;
     overageBps := number0 (get v "windowOverageMultiplierBps") 10000 |}.

Definition lt0 (n : num) (z : Z) : bool := num_ltb n (NFin z 0).
Definition gt0 (n : num) (z : Z) : bool := num_ltb (NFin z 0) n.

Definition quota_invalid (q : InboundWindowQuotaRow) : bool :=
  lt0 (quotaGB q) 0 || lt0 (hours q) 1 || gt0 (hours q) 8760 ||
  (String.eqb (exhaustAction q) "throttle" && (negb (gt0 (exhaustUpKbps q) 0) || negb (gt0 (exhaustDownKbps q) 0))) ||
  lt0 (overageBps q) 10000 || gt0 (overageBps q) MAX_TRAFFIC_MULTIPLIER_BPS || negb (is_safe_integer (overageBps q)).

Definition orz (n : num) (d : Z) : num := if num_truthy n then n else NFin d 0.

(** One entry of the quotas that are posted. *)
Definition quota_entry (q : option InboundWindowQuotaRow) : obj :=
  match q with
  | Some q => [("quotaBytes", VNum (resolveTotalBytes (VNum (quotaBytes q)) (orz (quotaGB q) 0))); ("hours", VNum (orz (hours q) 2)); ("mode", VStr (qmode q));
               ("windowExhaustAction", VStr (exhaustAction q)); ("windowExhaustUpKbps", VNum (orz (exhaustUpKbps q) 0));
               ("windowExhaustDownKbps", VNum (orz (exhaustDownKbps q) 0)); ("windowOverageMultiplierBps", VNum (orz (overageBps q) 10000))]
  | None => [("quotaBytes", VNum (NFin 0 0)); ("hours", VInt 2); ("mode", VStr "fixed"); ("windowExhaustAction", VStr "stop");
             ("windowExhaustUpKbps", VInt 0); ("windowExhaustDownKbps", VInt 0); ("windowOverageMultiplierBps", VInt 10000)]
  end.

Definition rate_entry (r : option DirectionalRate) : obj :=
  match r with Some r => [("upKbps", VNum (upKbps r)); ("downKbps", VNum (downKbps r))] | None => [("upKbps", VInt 0); ("downKbps", VInt 0)] end.

(** [Object.fromEntries(inboundIds.filter(...).map(...))] *)
Definition entries_for (skip : list Z) (f : Z -> obj) (ids : list Z) : gmap Z obj :=
  list_to_map (map (fun id => (id, f id)) (List.filter (fun id => negb (has skip id)) ids)).

(** ** The payload *)

Definition number_at (v : Values) (k : string) : num := to_number (value v k).
Definition text_at (v : Values) (k : string) : string := str_or_empty (value v k).

Definition expiryTime_of (v : Values) : jsval :=
  if truthy (value v "delayedStart") then VNum (match number0 (value v "delayedDays") 0 with NFin m e => NFin (- DAY * m) e | n => n end)
  else or_falsy (value v "expiryDate") (VInt 0).

(** [client]: the record that is edited, or none. *)
Definition basePayload (client : option obj) (v : Values) : obj :=
  let original k := match client with Some c => obj_get c k | None => VUndef end in
  let same k := (k, value v k) in let number k d := (k, number_field (value v k) d) in
  [("email", VStr (trim (text_at v "email"))); same "subId"; ("id", value v "uuid"); same "uuid"; same "password"; same "auth";
   ("flow", if showFlow (inboundIds v) then text_or (value v "flow") else VStr "");
   ("security", if showSecurity (inboundIds v) then or_falsy (value v "security") (VStr "auto") else VStr "auto");
   ("totalGB", VNum (resolveTotalBytes (match client with Some c => or_nullish (obj_get c "totalGB") (VInt 0) | None => VNull end) (number_at v "totalGB")));
   ("speedLimitKbps", VInt 0); number "speedLimitUpKbps" 0; number "speedLimitDownKbps" 0;
   ("windowQuotaBytes", VNum (resolveTotalBytes (original "windowQuotaBytes") (number_at v "windowQuotaGB"))); same "windowHours"; same "windowMode";
   same "totalExhaustAction"; same "totalExhaustUpKbps"; same "totalExhaustDownKbps"; same "totalOverageMultiplierBps"; same "windowExhaustAction";
   same "windowExhaustUpKbps"; same "windowExhaustDownKbps"; same "windowOverageMultiplierBps"; same "graceHours"; same "graceUpKbps"; same "graceDownKbps";
   ("graceQuotaBytes", VNum (resolveTotalBytes (original "graceQuotaBytes") (number_at v "graceQuotaGB"))); ("expiryTime", expiryTime_of v); number "reset" 0;
   number "resetDay" 0; number "resetMax" 0; ("trafficReset", or_falsy (value v "trafficReset") (VStr "never")); number "trafficResetDay" 1; number "limitIp" 0;
   number "limitHwid" 0; number "tgId" 0; same "group"; same "comment"; ("enable", VBool (truthy (value v "enable")))].

(** [allowedIPsByInbound] as an object keyed by the ids. *)
Definition by_inbound (m : gmap Z (list string)) : obj := map (fun e => (string_of_Z e.1, strings e.2)) (map_to_list m).

Definition reverse_part (v : Values) : obj :=
  let tag := if showReverseTag (inboundIds v) then trim (text_at v "reverseTag") else "" in
  if String.eqb tag "" then [] else [("reverse", VObj [("tag", VStr tag)])].

Definition tunnel_part (v : Values) : obj :=
  let ids := inboundIds v in
  if showWireguard ids || showAmneziawg ids then
    let wg := parseAllowedIPsList (text_at v "wgAllowedIPs") in
    let broadcast := match wg with [] => [] | _ => [("allowedIPs", strings wg)] end in
    [("privateKey", value v "wgPrivateKey"); ("keepAlive", value v "wgKeepAlive"); ("publicKey", value v "wgPublicKey")] ++
    (if truthy (value v "wgPreSharedKey") then [("preSharedKey", value v "wgPreSharedKey")] else []) ++
    (if showWireguard ids && showAmneziawg ids
     then ("allowedIPsByInbound", VObj (by_inbound (resolveTunnelAllowedIPsByInbound ids wireguardIds amneziawgIds wg (parseAllowedIPsList (text_at v "awgAllowedIPs"))))) :: broadcast
     else broadcast) ++
    (if showAmneziawg ids then [("forwardedPorts", VStr (trim (text_at v "awgForwardedPorts")))] else [])
  else [].

Definition is_hex (c : ascii) : bool := match hex_digit c with Some _ => true | None => false end.
Definition ad_tag_ok (s : string) : bool := String.eqb s "" || (Nat.eqb (String.length s) 32 && forall_chars is_hex s).

Definition mtproto_part (v : Values) : obj :=
  if showMtproto (inboundIds v) then [("secret", value v "secret"); ("adTag", VStr (trim (text_at v "adTag")))] else [].

Definition clientPayload (client : option obj) (v : Values) : obj := basePayload client v ++ reverse_part v ++ tunnel_part v ++ mtproto_part v.

(** ** Submitting *)

Inductive refusal := NotLoaded | InvalidValues | WindowHours | ThrottleSpeed | GraceLimits | GraceExpiry | InboundQuota | AdTag.

Record submission := { payload : obj; attach : list Z; detach : list Z; links : list ExternalLinkRow }.

Definition throttled (action : string) (up down : string) (v : Values) : bool :=
  is_str (value v action) "throttle" && (negb (gt0 (number_at v up) 0) || negb (gt0 (number_at v down) 0)).

(** The checks of [onSubmit] in their order. *)
Definition refused (isEdit linkedSettingsReady : bool) (quotas : gmap Z InboundWindowQuotaRow) (v : Values) : option refusal :=
  if negb linkedSettingsReady then Some NotLoaded
  else if negb (ClientFormSchema isEdit v) then Some InvalidValues
  else if gt0 (number_at v "windowQuotaGB") 0 && lt0 (number_at v "windowHours") 1 then Some WindowHours
  else if throttled "totalExhaustAction" "totalExhaustUpKbps" "totalExhaustDownKbps" v || throttled "windowExhaustAction" "windowExhaustUpKbps" "windowExhaustDownKbps" v then Some ThrottleSpeed
  else if gt0 (number_at v "graceHours") 0 && (negb (gt0 (number_at v "graceUpKbps") 0) || negb (gt0 (number_at v "graceDownKbps") 0)) then Some GraceLimits
  else if gt0 (number_at v "graceHours") 0 && negb (if truthy (value v "delayedStart") then gt0 (number_at v "delayedDays") 0 else gt0 (number_at v "expiryDate") 0) then Some GraceExpiry
  else if existsb (fun id => match quotas !! id with Some q => quota_invalid q | None => false end) (List.filter (fun id => negb (has tuicIds id)) (inboundIds v)) then Some InboundQuota
  else if showMtproto (inboundIds v) && negb (ad_tag_ok (trim (text_at v "adTag"))) then Some AdTag
  else None.

(** [[...new Set(ids)]] *)
Definition distinct (ids : list Z) : list Z := fold_left (fun out id => if has out id then out else out ++ [id]) ids [].

Definition onSubmit (client : option obj) (attachedIds : list Z) (linkedSettingsReady : bool) (quotas : gmap Z InboundWindowQuotaRow) (v : Values) : submission + refusal :=
  match refused (match client with Some _ => true | None => false end) linkedSettingsReady quotas v with
  | Some r => inr r
  | None =>
      inl {| payload := clientPayload client v;
             attach := match client with Some _ => List.filter (fun id => negb (has attachedIds id)) (distinct (inboundIds v)) | None => inboundIds v end;
             detach := match client with Some _ => List.filter (fun id => negb (has (inboundIds v) id)) (distinct attachedIds) | None => [] end;
             links := externalLinks_of (externalLinks v) |}
  end.

(** The two requests after a client was saved. *)
Definition posted_rates (rates : gmap Z DirectionalRate) (v : Values) : gmap Z obj := entries_for sidecarSpeedIds (fun id => rate_entry (rates !! id)) (inboundIds v).
Definition posted_quotas (quotas : gmap Z InboundWindowQuotaRow) (v : Values) : gmap Z obj := entries_for tuicIds (fun id => quota_entry (quotas !! id)) (inboundIds v).

(** The rest of [onSubmit], over the replies: the requests made after the save, whether the form
    closes, and whether it warns that the policies are pending. *)
Record finish := { requests : list (string * gmap Z obj); closed : bool; warned : bool }.

Definition after_save (saved rates_saved quotas_saved : bool) (rates : gmap Z DirectionalRate) (quotas : gmap Z InboundWindowQuotaRow) (v : Values) : finish :=
  if negb saved then {| requests := []; closed := false; warned := false |}
  else if negb rates_saved then {| requests := [("directionalRates", posted_rates rates v)]; closed := true; warned := true |}
  else {| requests := [("directionalRates", posted_rates rates v); ("windowQuotas", posted_quotas quotas v)]; closed := true; warned := negb quotas_saved |}.
End Modal.

(** ** Totals *)

Lemma num_eqb_refl n : n <> NNaN -> num_eqb n n = true.
Proof. destruct n as [m e| |b]; cbn; [intros _; apply Z.eqb_refl|done|intros _; by destruct b]. Qed.

Lemma bytesToGB_number b : bytesToGB b <> NNaN.
Proof. unfold bytesToGB. destruct (positive b) eqn:P; [|done]. cbn [negb]. by destruct b. Qed.

(** An untouched total is the total of the record, to the byte. *)
Lemma untouched_total b : resolveTotalBytes (VNum b) (bytesToGB b) = b.
Proof. cbn. by rewrite (num_eqb_refl _ (bytesToGB_number b)). Qed.

Lemma round_div_near a b k : 0 < b -> - b <= 2 * (a - k * b) < b -> round_div a b = k.
Proof. intros B H. unfold round_div. symmetry. apply Z.div_unique with (r := 2 * (a - k * b) + b); lia. Qed.

Lemma round_div_error a b : 0 < b -> - b < 2 * (round_div a b * b - a) <= b.
Proof. intros B. unfold round_div. pose proof (Z.div_mod (2 * a + b) (2 * b) ltac:(lia)) as E. pose proof (Z.mod_pos_bound (2 * a + b) (2 * b) ltac:(lia)) as M. nia. Qed.

Lemma positive_Z m e : positive (NFin m e) = (0 <? m).
Proof. unfold positive, num_ltb. rewrite Z.mul_0_l, Z.mul_1_r. done. Qed.

(** A total typed with at most two decimals is shown as typed when the client is opened again. *)
Lemma typed_total_shown m : 0 <= m -> num_eqb (bytesToGB (gbToBytes (NFin m 2))) (NFin m 2) = true.
Proof.
  intros H. unfold gbToBytes. rewrite positive_Z. destruct (Z.ltb_spec 0 m) as [P|P]; cbn [negb]; [|replace m with 0 by lia; reflexivity].
  change (10 ^ Z.of_nat 2) with 100. pose proof (round_div_error (m * GB) 100 ltac:(lia)) as E. set (b := round_div (m * GB) 100) in *. assert (G : GB = 1073741824) by reflexivity.
  unfold bytesToGB. rewrite positive_Z. rewrite (proj2 (Z.ltb_lt 0 b)) by lia. cbn [negb]. change (10 ^ Z.of_nat 0 * GB) with GB. rewrite (round_div_near _ _ m) by lia. cbn. by rewrite Z.eqb_refl.
Qed.

Lemma has_id ids id : has ids id = true <-> In id ids.
Proof. unfold has. rewrite existsb_exists. split; [intros (x & H & ->%Z.eqb_eq); done|]. intros H. exists id. by rewrite Z.eqb_refl. Qed.

Lemma has_not_In ids id : negb (has ids id) = true <-> ~ In id ids.
Proof. rewrite negb_true_iff, <-has_id. by destruct (has ids id). Qed.

Lemma distinct_In ids : forall id, In id (distinct ids) <-> In id ids.
Proof.
  unfold distinct. assert (G : forall out id, In id (fold_left (fun out id => if has out id then out else out ++ [id]) ids out) <-> In id out \/ In id ids).
  { induction ids as [|x ids IH]; intros out id; cbn [fold_left In]; [tauto|]. rewrite IH. destruct (has out x) eqn:H; [apply has_id in H|rewrite in_app_iff; cbn [In]]; intuition (subst; auto). }
  intros id. rewrite G. cbn. tauto.
Qed.

Lemma filter_none (p : Z -> bool) l : (forall x, In x l -> p x = false) -> List.filter p l = [].
Proof. induction l as [|x l IH]; [done|]. intros H. cbn. rewrite (H x) by by left. apply IH. intros y Hy. apply H. by right. Qed.

Lemma nothing_moved ids : List.filter (fun id => negb (has ids id)) (distinct ids) = [].
Proof. apply filter_none. intros x H. apply (distinct_In ids) in H. apply negb_false_iff. by apply (proj2 (has_id ids x)). Qed.

(** ** Values after the effects *)

Section Saved.
Context (inbounds : list InboundOption) (generated : string -> string) (before : string) (rnd8 : nat -> list Z).

Lemma value_put_ne k k' x v : k <> k' -> value (put k x v) k' = value v k'.
Proof. intros H. unfold value, put. cbn [fields]. by rewrite obj_get_set_ne. Qed.

Lemma settle_ids v : inboundIds (settle inbounds generated before rnd8 v) = inboundIds v /\ externalLinks (settle inbounds generated before rnd8 v) = externalLinks v.
Proof. unfold settle, effect_secret, effect_password, effect_reverse, effect_flow. by repeat case_match. Qed.

(** Each effect leaves every field but its own. *)
Lemma effect_others w k :
  (k <> "secret" -> value (effect_secret inbounds generated w) k = value w k) /\ (k <> "password" -> value (effect_password inbounds before rnd8 w) k = value w k) /\
  (k <> "reverseTag" -> value (effect_reverse inbounds w) k = value w k) /\ (k <> "flow" -> value (effect_flow inbounds w) k = value w k).
Proof. unfold effect_secret, effect_password, effect_reverse, effect_flow. repeat split; intros N; cbv zeta; case_match; by rewrite ?value_put_ne. Qed.

Lemma settle_value v k : k <> "flow" -> k <> "reverseTag" -> k <> "password" -> k <> "secret" -> value (settle inbounds generated before rnd8 v) k = value v k.
Proof. intros H1 H2 H3 H4. unfold settle. by rewrite (proj1 (effect_others _ k)), (proj1 (proj2 (effect_others _ k))), (proj1 (proj2 (proj2 (effect_others _ k)))), (proj2 (proj2 (proj2 (effect_others _ k)))). Qed.

Lemma settle_flow v : showFlow inbounds (inboundIds v) = true -> value (settle inbounds generated before rnd8 v) "flow" = value v "flow".
Proof.
  intros H. unfold settle. rewrite (proj1 (effect_others _ "flow")), (proj1 (proj2 (effect_others _ "flow"))), (proj1 (proj2 (proj2 (effect_others _ "flow")))) by done.
  unfold effect_flow. rewrite H. cbn [negb]. by rewrite andb_false_r.
Qed.

(** The password after the effects: that of the record, unless the method of its inbounds just came into view and does not take it. *)
Definition settled_password (ids : list Z) (password : jsval) : jsval :=
  let method := ss2022Method inbounds ids in
  if negb (String.eqb method before) && negb (String.eqb method "") && negb (isShadowsocks2022Password (str_or_empty password) method)
  then VStr (randomShadowsocksPassword method rnd8) else password.

Lemma settle_password v : value (settle inbounds generated before rnd8 v) "password" = settled_password (inboundIds v) (value v "password").
Proof.
  unfold settle. rewrite (proj1 (effect_others _ "password")) by done. set (w := effect_reverse inbounds (effect_flow inbounds v)).
  assert (Ew : value w "password" = value v "password" /\ inboundIds w = inboundIds v).
  { unfold w. rewrite (proj1 (proj2 (proj2 (effect_others _ "password")))), (proj2 (proj2 (proj2 (effect_others _ "password")))) by done. unfold effect_reverse, effect_flow. by repeat case_match. }
  clearbody w. destruct Ew as [E1 E2]. unfold effect_password, settled_password. cbv zeta. rewrite E1, E2. set (m := ss2022Method inbounds (inboundIds v)).
  destruct (String.eqb m before), (String.eqb m ""), (isShadowsocks2022Password (str_or_empty (value v "password")) m); cbn [orb andb negb]; rewrite ?E1; try done.
  unfold value, put. cbn [fields]. by rewrite obj_get_set_eq.
Qed.

(** ** What an untouched client is sent as *)

Definition resent (client : obj) (ids : list Z) : obj :=
  let c := obj_get client in let text k := (k, text_or (c k)) in let number k d := (k, number_field (c k) d) in
  [("email", VStr (trim (str_or_empty (c "email")))); text "subId"; ("id", text_or (c "uuid")); text "uuid"; ("password", settled_password ids (text_or (c "password"))); text "auth";
   ("flow", if showFlow inbounds ids then text_or (c "flow") else VStr "");
   ("security", if showSecurity inbounds ids && truthy (c "security") && negb (is_str (c "security") "none") && negb (is_str (c "security") "zero") then c "security" else VStr "auto");
   ("totalGB", or_nullish (c "totalGB") (VInt 0)); ("speedLimitKbps", VInt 0);
   ("speedLimitUpKbps", number_field (or_nullish (c "speedLimitUpKbps") (c "speedLimitKbps")) 0);
   ("speedLimitDownKbps", number_field (or_nullish (c "speedLimitDownKbps") (c "speedLimitKbps")) 0);
   ("windowQuotaBytes", or_nullish (c "windowQuotaBytes") (VInt 0)); number "windowHours" 2; ("windowMode", rolling_or_fixed (c "windowMode"));
   ("totalExhaustAction", throttle_or_stop (c "totalExhaustAction")); number "totalExhaustUpKbps" 0; number "totalExhaustDownKbps" 0; number "totalOverageMultiplierBps" 10000;
   ("windowExhaustAction", throttle_or_stop (c "windowExhaustAction")); number "windowExhaustUpKbps" 0; number "windowExhaustDownKbps" 0;
   number "windowOverageMultiplierBps" 10000; number "graceHours" 0; number "graceUpKbps" 0; number "graceDownKbps" 0;
   ("graceQuotaBytes", or_nullish (c "graceQuotaBytes") (VInt 0)); number "expiryTime" 0; number "reset" 0; number "resetDay" 0; number "resetMax" 0;
   ("trafficReset", or_falsy (c "trafficReset") (VStr "never")); number "trafficResetDay" 1; number "limitIp" 0; number "limitHwid" 0; number "tgId" 0;
   text "group"; text "comment"; ("enable", VBool (truthy (c "enable")))].

Definition opt_number (v : jsval) : Prop := v = VUndef \/ exists n, v = VNum n.

(** A record as the panel stores it: texts and numbers where the schema has them, and a delayed start in whole days. *)
Record client_ok (client : obj) : Prop := {
  ok_email : exists s, obj_get client "email" = VStr s;
  ok_security : obj_get client "security" = VUndef \/ exists s, obj_get client "security" = VStr s;
  ok_reset : obj_get client "trafficReset" = VUndef \/ exists s, obj_get client "trafficReset" = VStr s;
  ok_numbers : forall k, In k ["totalGB"; "windowQuotaBytes"; "graceQuotaBytes"; "limitIp"; "limitHwid"] -> opt_number (obj_get client k);
  ok_expiry : obj_get client "expiryTime" = VUndef \/ (exists z, obj_get client "expiryTime" = VInt z /\ 0 <= z) \/ exists d, obj_get client "expiryTime" = VInt (- DAY * d) /\ 0 < d }.

Lemma number_field_twice v d d' : (d = 0 -> d' = 0) -> number_field (number_field v d) d' = number_field v d.
Proof.
  intros H. unfold number_field, number_or. destruct (num_truthy (to_number v)) eqn:T; cbn [to_number]; [by rewrite T|]. cbn [num_truthy VInt]. unfold VInt. cbn [to_number num_truthy].
  destruct (Z.eqb_spec d 0) as [->|N]; cbn [negb]; [by rewrite (H eq_refl)|done].
Qed.

Lemma total_resent v : opt_number v -> VNum (resolveTotalBytes (or_nullish v (VInt 0)) (bytesToGB (to_number (or_falsy v (VInt 0))))) = or_nullish v (VInt 0).
Proof.
  intros [->|[n ->]]; [reflexivity|]. cbn [or_nullish is_nullish]. f_equal. unfold or_falsy. cbn [truthy]. destruct (num_truthy n) eqn:T; cbn [to_number]; [apply untouched_total|].
  change (to_number (VInt 0)) with (NFin 0 0). replace (bytesToGB (NFin 0 0)) with (bytesToGB n); [apply untouched_total|]. unfold bytesToGB. destruct n as [m e| |b]; [|done|done]. rewrite !positive_Z. cbn in T. apply negb_false_iff, Z.eqb_eq in T. by subst.
Qed.

Lemma quota_resent v : opt_number v -> VNum (resolveTotalBytes v (bytesToGB (to_number (or_falsy v (VInt 0))))) = or_nullish v (VInt 0).
Proof. intros H. pose proof (total_resent v H) as E. destruct H as [->|[n ->]]; [reflexivity|exact E]. Qed.

Lemma or_falsy_number v : opt_number v -> or_falsy v (VInt 0) = number_field v 0.
Proof. intros [->|[n ->]]; reflexivity. Qed.

Lemma limit_resent v : opt_number v -> number_field (or_falsy v (VInt 0)) 0 = number_field v 0.
Proof. intros H. rewrite or_falsy_number by done. by apply number_field_twice. Qed.

Lemma expiry_zero client ids tunnel l : obj_get client "expiryTime" = VUndef \/ (exists z, obj_get client "expiryTime" = VInt z /\ 0 <= z) ->
  let v := seed inbounds client ids tunnel l in
  value v "delayedStart" = VBool false /\ or_falsy (value v "expiryDate") (VInt 0) = number_field (obj_get client "expiryTime") 0.
Proof.
  intros H v. subst v. unfold value, seed. cbn [fields obj_get String.eqb Ascii.eqb Bool.eqb]. destruct H as [->|(z & -> & P)]; [split; reflexivity|].
  cbn [to_number VInt num_truthy]. destruct (Z.eqb_spec z 0) as [->|N]; cbn [negb]; [split; reflexivity|]. unfold num_ltb. cbn [Z.of_nat]. rewrite !Z.mul_1_r.
  rewrite (proj2 (Z.ltb_ge z 0)), (proj2 (Z.ltb_lt 0 z)) by lia. split; [reflexivity|]. unfold or_falsy, number_field, number_or. cbn [truthy to_number num_truthy VInt]. by rewrite (proj2 (Z.eqb_neq z 0)).
Qed.

Lemma expiry_delayed client ids tunnel l d : obj_get client "expiryTime" = VInt (- DAY * d) -> 0 < d ->
  let v := seed inbounds client ids tunnel l in value v "delayedStart" = VBool true /\ value v "delayedDays" = VInt d.
Proof.
  intros E D v. subst v. unfold value, seed. cbn [fields obj_get String.eqb Ascii.eqb Bool.eqb]. rewrite E. cbn [to_number VInt num_truthy]. assert (P : - DAY * d < 0) by (unfold DAY; lia).
  rewrite (proj2 (Z.eqb_neq (- DAY * d) 0)) by lia. cbn [negb]. unfold num_ltb. cbn [Z.of_nat]. rewrite !Z.mul_1_r, (proj2 (Z.ltb_lt (- DAY * d) 0)) by lia. split; [reflexivity|].
  unfold VInt, delayed_days. do 2 f_equal. change (10 ^ Z.of_nat 0 * DAY) with DAY. apply round_div_near; unfold DAY; lia.
Qed.

Lemma expiry_resent client ids tunnel l : client_ok client -> expiryTime_of (settle inbounds generated before rnd8 (seed inbounds client ids tunnel l)) = number_field (obj_get client "expiryTime") 0.
Proof.
  intros [_ _ _ _ H]. unfold expiryTime_of. rewrite !settle_value by done. destruct H as [H|[H|(d & E & D)]].
  - destruct (expiry_zero client ids tunnel l (or_introl H)) as [-> ->]. reflexivity.
  - destruct (expiry_zero client ids tunnel l (or_intror H)) as [-> ->]. reflexivity.
  - destruct (expiry_delayed client ids tunnel l d E D) as [-> ->]. rewrite E. unfold number_field, number_or, number0. cbn [truthy to_number VInt num_truthy].
    rewrite (proj2 (Z.eqb_neq d 0)), (proj2 (Z.eqb_neq (- DAY * d) 0)) by (unfold DAY; lia). reflexivity.
Qed.

Lemma text_or_twice v : text_or (text_or v) = text_or v.
Proof. unfold text_or, or_falsy. destruct (truthy v) eqn:T; [by rewrite T|done]. Qed.

Lemma or_falsy_never v : or_falsy (or_falsy v (VStr "never")) (VStr "never") = or_falsy v (VStr "never").
Proof. unfold or_falsy. destruct (truthy v) eqn:T; [by rewrite T|done]. Qed.

(** The common part of the payload of a client that was opened and not changed. *)
Lemma base_resent client ids tunnel l : client_ok client -> basePayload inbounds (Some client) (settle inbounds generated before rnd8 (seed inbounds client ids tunnel l)) = resent client ids.
Proof.
  intros H. pose proof (expiry_resent client ids tunnel l H) as X. destruct H as [(em & Em) Se Re Nu _].
  assert (N : forall k, In k ["totalGB"; "windowQuotaBytes"; "graceQuotaBytes"; "limitIp"; "limitHwid"] -> opt_number (obj_get client k)) by exact Nu.
  unfold basePayload, resent. rewrite X. destruct (settle_ids (seed inbounds client ids tunnel l)) as [-> _].
  replace (if showFlow inbounds (inboundIds (seed inbounds client ids tunnel l)) then text_or (value (settle inbounds generated before rnd8 (seed inbounds client ids tunnel l)) "flow") else VStr "")
    with (if showFlow inbounds ids then text_or (obj_get client "flow") else VStr "") by (change (inboundIds (seed inbounds client ids tunnel l)) with ids; destruct (showFlow inbounds ids) eqn:F; [|done]; rewrite settle_flow by done; cbn; by rewrite text_or_twice).
  unfold text_at, number_at. rewrite settle_password, !settle_value by done.
  unfold value, seed. cbn [fields inboundIds obj_get String.eqb Ascii.eqb Bool.eqb]. unfold gb_of. cbn [to_number].
  rewrite (total_resent _ (N "totalGB" ltac:(cbn; tauto))), (quota_resent _ (N "windowQuotaBytes" ltac:(cbn; tauto))), <-(or_falsy_number _ (N "graceQuotaBytes" ltac:(cbn; tauto))), (quota_resent _ (N "graceQuotaBytes" ltac:(cbn; tauto))),
    (limit_resent _ (N "limitIp" ltac:(cbn; tauto))), (limit_resent _ (N "limitHwid" ltac:(cbn; tauto))), !number_field_twice, Em by done.
  rewrite or_falsy_never. replace (text_or (VStr em)) with (VStr em) by by destruct em.
  match goal with |- context [("security", ?a)] => match goal with |- _ = ?r => match r with context [("security", ?b)] => replace a with b; [reflexivity|] end end end. unfold or_falsy.
  destruct (showSecurity inbounds ids), (truthy (obj_get client "security")) eqn:T, (is_str (obj_get client "security") "none"), (is_str (obj_get client "security") "zero"); cbn; rewrite ?T; reflexivity.
Qed.

(** C8. Opening a client and saving it without a change sends back what the record holds: totals to
    the byte although the form shows them in gigabytes with two decimals, a date of expiry or a delayed start in whole
    days, limits, credentials and reset settings, each absent field as its default; and no inbound
    is attached or detached.  The one exception is the password: one that the Shadowsocks-2022 method of the inbounds does not
    take is replaced by a random one, unless the form showed that method before. *)
Theorem client_resaved client ids tunnel l quotas s : client_ok client ->
  onSubmit inbounds (Some client) ids true quotas (settle inbounds generated before rnd8 (seed inbounds client ids tunnel l)) = inl s ->
  (exists rest, payload s = resent client ids ++ rest) /\ attach s = [] /\ detach s = [].
Proof.
  intros H. unfold onSubmit. destruct (refused _ _ _ _ _); [done|]. intros [= <-]. cbn [payload attach detach]. destruct (settle_ids (seed inbounds client ids tunnel l)) as [-> _]. cbn [inboundIds seed].
  rewrite !nothing_moved. split; [|done]. unfold clientPayload. rewrite base_resent by done. by eexists.
Qed.

(** ** Rates and quotas *)

Lemma number0_twice v d : orz (number0 v d) d = number0 v d.
Proof. unfold orz, number0. destruct (num_truthy (to_number v)) eqn:T; [by rewrite T|]. by destruct (num_truthy (NFin d 0)). Qed.

(** A quota that was loaded and not changed is posted as it was loaded. *)
Lemma quota_posted raw : quota_entry (Some (read_quota raw)) =
  [("quotaBytes", VNum (number0 (get raw "quotaBytes") 0)); ("hours", VNum (number0 (get raw "hours") 2));
   ("mode", rolling_or_fixed (get raw "mode")); ("windowExhaustAction", throttle_or_stop (get raw "windowExhaustAction"));
   ("windowExhaustUpKbps", VNum (number0 (get raw "windowExhaustUpKbps") 0)); ("windowExhaustDownKbps", VNum (number0 (get raw "windowExhaustDownKbps") 0));
   ("windowOverageMultiplierBps", VNum (number0 (get raw "windowOverageMultiplierBps") 10000))].
Proof.
  unfold quota_entry, read_quota. cbn [quotaBytes quotaGB hours qmode exhaustAction exhaustUpKbps exhaustDownKbps overageBps]. rewrite !number0_twice.
  set (b := number0 (get raw "quotaBytes") 0). replace (resolveTotalBytes (VNum b) (orz (bytesToGB b) 0)) with b.
  - unfold rolling_or_fixed, throttle_or_stop. by destruct (is_str (get raw "mode") "rolling"), (is_str (get raw "windowExhaustAction") "throttle").
  - symmetry. unfold orz. destruct (num_truthy (bytesToGB b)) eqn:T; [apply untouched_total|]. cbn [resolveTotalBytes]. replace (num_eqb (NFin 0 0) (bytesToGB b)) with true; [done|]. symmetry.
    pose proof (bytesToGB_number b). destruct (bytesToGB b) as [m e| |]; [|done|done]. cbn in T. apply negb_false_iff, Z.eqb_eq in T. subst m. done.
Qed.

Lemma entries_for_lookup skip f ids id : entries_for skip f ids !! id = if has ids id && negb (has skip id) then Some (f id) else None.
Proof.
  unfold entries_for. destruct (has ids id && negb (has skip id)) eqn:H.
  - apply andb_true_iff in H as [H1 H2]. apply has_id in H1. apply elem_of_list_to_map_1'.
    + intros y E%list_elem_of_In. apply in_map_iff in E as (x & [= -> <-] & _). done.
    + apply list_elem_of_In, in_map_iff. exists id. split; [done|]. by apply filter_In.
  - apply not_elem_of_list_to_map_1. intros E%list_elem_of_In. apply in_map_iff in E as (x & <- & E). apply in_map_iff in E as (y & <- & E). cbn [fst] in H. apply filter_In in E as [E1 E2].
    apply has_id in E1. rewrite E1, E2 in H. done.
Qed.

(** The rates posted: one for every inbound picked that has no speed of its own. *)
Lemma posted_rates_lookup rates v id : posted_rates inbounds rates v !! id =
  if has (inboundIds v) id && negb (has (sidecarSpeedIds inbounds) id) then Some (rate_entry (rates !! id)) else None.
Proof. apply entries_for_lookup. Qed.

(** The form stays open exactly when the client was not saved, so that saving again cannot create the
    client twice; a client that was saved with a policy missing is announced. *)
Lemma after_save_closed saved rates_saved quotas_saved rates quotas v :
  let f := after_save inbounds saved rates_saved quotas_saved rates quotas v in
  closed f = saved /\ warned f = saved && negb (rates_saved && quotas_saved) /\ (saved = false -> requests f = []).
Proof. by destruct saved, rates_saved, quotas_saved. Qed.
End Saved.

(** The requests of a save leave the client on exactly the inbounds picked: those detached were
    attached, those attached were not, and the rest keeps its place. *)
Theorem inbounds_moved inbounds client ids ready quotas v s : onSubmit inbounds (Some client) ids ready quotas v = inl s ->
  (forall id, In id (inboundIds v) <-> (In id ids /\ ~ In id (detach s)) \/ In id (attach s)) /\
  (forall id, In id (attach s) -> ~ In id ids) /\ forall id, In id (detach s) -> In id ids.
Proof.
  unfold onSubmit. destruct (refused _ _ _ _ _); [done|]. intros [= <-]. cbn [attach detach].
  assert (A : forall id, In id (List.filter (fun id => negb (has ids id)) (distinct (inboundIds v))) <-> In id (inboundIds v) /\ ~ In id ids) by (intros id; by rewrite filter_In, distinct_In, has_not_In).
  assert (D : forall id, In id (List.filter (fun id => negb (has (inboundIds v) id)) (distinct ids)) <-> In id ids /\ ~ In id (inboundIds v)) by (intros id; by rewrite filter_In, distinct_In, has_not_In).
  split; [|split; intros id; [rewrite A|rewrite D]; tauto]. intros id. rewrite A, D. destruct (in_dec Z.eq_dec id ids), (in_dec Z.eq_dec id (inboundIds v)); tauto.
Qed.

(** ** An example *)

Definition sample_inbounds : list InboundOption :=
  [{| ib_id := 1; ib_protocol := "vless"; ib_tlsFlowCapable := true; ib_ssMethod := ""; ib_mtprotoDomain := "" |};
   {| ib_id := 2; ib_protocol := "wireguard"; ib_tlsFlowCapable := false; ib_ssMethod := ""; ib_mtprotoDomain := "" |};
   {| ib_id := 3; ib_protocol := "amneziawg"; ib_tlsFlowCapable := false; ib_ssMethod := ""; ib_mtprotoDomain := "" |}].

Definition sample_client : obj :=
  [("email", VStr "user1"); ("subId", VStr "abc"); ("uuid", VStr "d342d11e"); ("flow", VStr "xtls-rprx-vision"); ("totalGB", VInt 11505016832);
   ("expiryTime", VInt (-2592000000)); ("limitIp", VInt 2); ("tgId", VStr "77"); ("enable", VBool true)].

Definition no_tunnel (_ : Z) : option string := None.
Definition as_domain (s : string) : string := s.

Lemma sample_client_ok : client_ok sample_client.
Proof.
  split; [by eexists|by left|by left| |].
  - intros k H. cbn [In] in H. repeat (destruct H as [<-|H]; [first [left; reflexivity|right; eexists; reflexivity]|]). destruct H.
  - right. right. exists 30. split; [reflexivity|lia].
Qed.

Lemma client_resaved_witness : exists s, onSubmit sample_inbounds (Some sample_client) [1] true ∅ (settle sample_inbounds as_domain "" (fun _ => []) (seed sample_inbounds sample_client [1] no_tunnel [])) = inl s /\
  obj_get (payload s) "totalGB" = VInt 11505016832 /\ obj_get (payload s) "expiryTime" = VInt (-2592000000) /\ attach s = [].
Proof.
  destruct (onSubmit sample_inbounds (Some sample_client) [1] true ∅ (settle sample_inbounds as_domain "" (fun _ => []) (seed sample_inbounds sample_client [1] no_tunnel []))) as [s|r] eqn:S; [|vm_compute in S; discriminate S].
  exists s. split; [reflexivity|]. destruct (client_resaved sample_inbounds as_domain "" (fun _ => []) sample_client [1] no_tunnel [] ∅ s sample_client_ok S) as ([rest E] & A & _).
  rewrite E. split; [reflexivity|]. split; [reflexivity|exact A].
Defined.

Lemma inbounds_moved_witness : exists s, onSubmit sample_inbounds (Some sample_client) [2] true ∅
    {| fields := fields (seed sample_inbounds sample_client [2] no_tunnel []); inboundIds := [1; 3]; externalLinks := [] |} = inl s /\ attach s = [1; 3] /\ detach s = [2] /\
    (forall id, In id [1; 3] <-> (In id [2] /\ ~ In id (detach s)) \/ In id (attach s)).
Proof.
  destruct (onSubmit sample_inbounds (Some sample_client) [2] true ∅ {| fields := fields (seed sample_inbounds sample_client [2] no_tunnel []); inboundIds := [1; 3]; externalLinks := [] |}) as [s|r] eqn:S; [|vm_compute in S; discriminate S].
  exists s. split; [reflexivity|]. destruct (inbounds_moved _ _ _ _ _ _ s S) as [H _]. vm_compute in S. injection S as <-. split; [reflexivity|]. split; [reflexivity|exact H].
Defined.

(** ** Behaviours worth knowing *)

(** A delayed start of less than half a day is shown as no day at all, and saved as no expiry. *)
Lemma short_delay_lost : let client := obj_set sample_client "expiryTime" (VInt (-36000000)) in
  expiryTime_of (seed sample_inbounds client [1] no_tunnel []) = VInt 0.
Proof. reflexivity. Qed.

(** A client on an AmneziaWG inbound only: the addresses stored for the inbound are not shown, and
    saving sends the addresses of the client record for it. *)
Lemma awg_addresses_ignored : let client := sample_client ++ [("allowedIPs", VStr "10.0.0.2/32")] in
  let v := seed sample_inbounds client [3] (fun _ => Some "10.8.0.7/32") [] in
  value v "wgAllowedIPs" = VStr "10.0.0.2/32" /\ obj_get (clientPayload sample_inbounds (Some client) v) "allowedIPs" = strings ["10.0.0.2/32"].
Proof. split; reflexivity. Qed.

(** A client on both tunnels that is taken off WireGuard is saved with WireGuard's addresses. *)
Lemma detach_swaps_addresses : let client := sample_client in
  let tunnel id := if id =? 2 then Some "10.0.0.2/32" else if id =? 3 then Some "10.8.0.7/32" else None in
  let v := seed sample_inbounds client [2; 3] tunnel [] in
  let kept := {| fields := fields v; inboundIds := [3]; externalLinks := [] |} in
  value v "awgAllowedIPs" = VStr "10.8.0.7/32" /\ obj_get (clientPayload sample_inbounds (Some client) kept) "allowedIPs" = strings ["10.0.0.2/32"].
Proof. split; reflexivity. Qed.
