(* ===== verification/OutboundForm.v ===== *)
(** * The outbound editor

    Models src/frontend/src/lib/xray/outbound-form-adapter.ts: the conversion of an outbound of the
    Xray configuration into the values of the editor's form and back, with the form types of
    src/frontend/src/schemas/forms/outbound-form.ts and src/frontend/src/schemas/protocols/outbound.
    An [undefined] property of a payload is [VUndef].  A field of the form whose type is a list of
    literals is a string, as the adapter fills it by a cast.  The zod parser of the AmneziaWG
    settings is an argument ([parse]). *)
From S2P Require Import Prelude JsString JsValue JsObject Base64 Json StreamWire LinkParser.
From Stdlib Require Import Ascii.
Local Open Scope Z_scope.

(** ** Form values *)

Record Sniffing := {
  sn_enabled : bool; sn_destOverride : list string; sn_metadataOnly : bool; sn_routeOnly : bool;
  sn_ipsExcluded : list string; sn_domainsExcluded : list string }.

Record VmessOutboundFormSettings := { vm_address : string; vm_port : Z; vm_id : string; vm_security : string }.

Record VlessOutboundFormSettings := {
  vl_address : string; vl_port : Z; vl_id : string; vl_flow : string; vl_encryption : string;
  vl_reverseTag : string; vl_reverseSniffing : Sniffing; vl_testpre : num; vl_testseed : list num }.

Record TrojanOutboundFormSettings := { tr_address : string; tr_port : Z; tr_password : string }.

Record ShadowsocksOutboundFormSettings := {
  so_address : string; so_port : Z; so_password : string; so_method : string; so_uot : bool; so_UoTVersion : num }.

Record SimpleAuthFormSettings := { sa_address : string; sa_port : Z; sa_user : string; sa_pass : string }.

Record HttpOutboundFormSettings := { ht_auth : SimpleAuthFormSettings; ht_headers : list (string * string) }.

Record WireguardOutboundFormPeer := {
  wp_publicKey : string; wp_psk : string; wp_allowedIPs : list string; wp_endpoint : string; wp_keepAlive : num }.

Record WireguardOutboundFormSettings := {
  wg_mtu : num; wg_secretKey : string; wg_pubKey : string; wg_address : string; wg_domainStrategy : string;
  wg_reserved : string; wg_remoteDNS : string; wg_peers : list WireguardOutboundFormPeer; wg_noKernelTun : bool }.

Record AmneziaWGOutboundPeer := {
  ap_publicKey : string; ap_presharedKey : string; ap_allowedIPs : list string; ap_endpoint : string; ap_keepAlive : num }.

Record AmneziaWGOutboundSettings := {
  aw_mtu : num; aw_secretKey : string; aw_address : list string; aw_listenPort : num; aw_dns : string;
  aw_jc : num; aw_jmin : num; aw_jmax : num; aw_s1 : num; aw_s2 : num; aw_s3 : num; aw_s4 : num;
  aw_h1 : string; aw_h2 : string; aw_h3 : string; aw_h4 : string;
  aw_i1 : string; aw_i2 : string; aw_i3 : string; aw_i4 : string; aw_i5 : string;
  aw_headerProtectionKey : string; aw_contentPaddingAddition : string; aw_rekeyAfterTime : string; aw_rekeyTimeout : string;
  aw_rejectAfterTime : string; aw_keepaliveTimeout : string; aw_maxHandshakeAttempts : string;
  aw_randomTrailers : bool; aw_disableCookies : bool; aw_peers : list AmneziaWGOutboundPeer }.

Record HysteriaOutboundFormSettings := { hy_address : string; hy_port : Z; hy_version : Z }.

Record FreedomFragment := { fg_packets : string; fg_length : string; fg_interval : string; fg_maxSplit : string }.

Record FreedomNoise := { nz_type : string; nz_packet : string; nz_delay : string; nz_applyTo : string }.

Record FreedomFinalRuleForm := {
  fr_action : string; fr_network : string; fr_port : string; fr_ip : list string; fr_blockDelay : string }.

(** [fragment] is absent when its switch is off. *)
Record FreedomOutboundFormSettings := {
  fd_domainStrategy : string; fd_redirect : string; fd_userLevel : num; fd_proxyProtocol : Z;
  fd_fragment : option FreedomFragment; fd_noises : list FreedomNoise; fd_finalRules : list FreedomFinalRuleForm }.

Record BlackholeOutboundFormSettings := { bh_type : string; bh_customResponseData : string }.

Record DnsRuleForm := { dr_action : string; dr_qType : string; dr_domain : string; dr_rCode : num }.

Record DnsOutboundFormSettings := {
  dn_rewriteNetwork : string; dn_rewriteAddress : string; dn_rewritePort : Z; dn_userLevel : num; dn_rules : list DnsRuleForm }.

Record LoopbackOutboundFormSettings := { lb_inboundTag : string; lb_sniffing : Sniffing }.

Inductive OutboundFormSettings :=
| FVmess (s : VmessOutboundFormSettings)
| FVless (s : VlessOutboundFormSettings)
| FTrojan (s : TrojanOutboundFormSettings)
| FShadowsocks (s : ShadowsocksOutboundFormSettings)
| FSocks (s : SimpleAuthFormSettings)
| FHttp (s : HttpOutboundFormSettings)
| FWireguard (s : WireguardOutboundFormSettings)
| FAmneziaWG (s : AmneziaWGOutboundSettings)
| FHysteria (s : HysteriaOutboundFormSettings)
| FFreedom (s : FreedomOutboundFormSettings)
| FBlackhole (s : BlackholeOutboundFormSettings)
| FDns (s : DnsOutboundFormSettings)
| FLoopback (s : LoopbackOutboundFormSettings).

(** The [protocol] literal of a branch. *)
Definition protocol_of (s : OutboundFormSettings) : string :=
  match s with
  | FVmess _ => "vmess" | FVless _ => "vless" | FTrojan _ => "trojan" | FShadowsocks _ => "shadowsocks" | FSocks _ => "socks"
  | FHttp _ => "http" | FWireguard _ => "wireguard" | FAmneziaWG _ => "amneziawg" | FHysteria _ => "hysteria"
  | FFreedom _ => "freedom" | FBlackhole _ => "blackhole" | FDns _ => "dns" | FLoopback _ => "loopback"
  end.

Record MuxForm := { mx_enabled : bool; mx_concurrency : num; mx_xudpConcurrency : num; mx_xudpProxyUDP443 : string }.

(** [mux] is absent when the form did not render its switch. *)
Record OutboundFormValues := {
  fv_settings : OutboundFormSettings; fv_tag : string; fv_sendThrough : string; fv_targetStrategy : string;
  fv_mux : option MuxForm; fv_streamSettings : option obj }.

(** ** Reading values *)

Definition asObject (value : jsval) : obj := match value with VObj o => o | _ => [] end.

Definition asArray (value : jsval) : list jsval := match value with VArr l => l | _ => [] end.

Definition asString (value : jsval) (fallback : string) : string := match value with VStr s => s | _ => fallback end.

Definition asNumber (value : jsval) (fallback : Z) : num :=
  match value with
  | VNum n => if num_finite n then n else NFin fallback 0
  | VStr s =>
      if String.eqb (trim s) "" then NFin fallback 0
      else let n := number_of_string s in if num_finite n then n else NFin fallback 0
  | _ => NFin fallback 0
  end.

Definition asBool (value : jsval) : bool := is_bool value true.

(** An integer is returned as such. *)
Definition asPort (value : jsval) (fallback : Z) : Z :=
  match asNumber value fallback with
  | NFin m e =>
      let q := 10 ^ Z.of_nat e in
      if negb (m mod q =? 0) || (m / q <? 1) || (65535 <? m / q) then fallback else m / q
  | _ => fallback
  end.

(** [asArray(v).map((x) => asString(x))] *)
Definition strings_of (v : jsval) : list string := map (fun x => asString x "") (asArray v).

Definition includes (l : list string) (s : string) : bool := existsb (String.eqb s) l.

(** [typeof x === 'number' ? String(x) : asString(x)] *)
Definition text_of (x : jsval) : string := match x with VNum n => string_of_num n | _ => asString x "" end.

Definition OutboundDomainStrategies : list string :=
  ["AsIs"; "UseIP"; "UseIPv4"; "UseIPv6"; "UseIPv6v4"; "UseIPv4v6"; "ForceIP"; "ForceIPv6v4"; "ForceIPv6"; "ForceIPv4v6"; "ForceIPv4"].

Definition targetStrategyFromWire (value : jsval) : string :=
  let s := asString value "" in
  if String.eqb s "" then ""
  else match List.find (fun v => String.eqb (to_lower v) (to_lower s)) OutboundDomainStrategies with Some v => v | None => "" end.

Definition freedomDomainStrategyFromWire (outbound : obj) : string :=
  let settings := asObject (obj_get outbound "settings") in
  let sockopt := asObject (obj_get (asObject (obj_get outbound "streamSettings")) "sockopt") in
  let root := targetStrategyFromWire (obj_get outbound "targetStrategy") in
  let settingsKey := if String.eqb (asString (obj_get settings "targetStrategy") "") ""
                     then obj_get settings "domainStrategy" else obj_get settings "targetStrategy" in
  let legacy := if negb (String.eqb root "") && negb (String.eqb root "AsIs") then root else targetStrategyFromWire settingsKey in
  if negb (String.eqb legacy "") && negb (String.eqb legacy "AsIs") then legacy
  else targetStrategyFromWire (obj_get sockopt "domainStrategy").

Definition SNIFFING_DEST_VALUES : list string := ["http"; "tls"; "quic"; "fakedns"].

Definition SNIFFING_DEFAULT : Sniffing :=
  {| sn_enabled := false; sn_destOverride := SNIFFING_DEST_VALUES; sn_metadataOnly := false; sn_routeOnly := false;
     sn_ipsExcluded := []; sn_domainsExcluded := [] |}.

Definition sniffingFromWire (raw : jsval) : Sniffing :=
  let r := asObject raw in
  let dest := List.filter (includes SNIFFING_DEST_VALUES) (strings_of (obj_get r "destOverride")) in
  {| sn_enabled := asBool (obj_get r "enabled");
     sn_destOverride := match dest with [] => SNIFFING_DEST_VALUES | _ => dest end;
     sn_metadataOnly := asBool (obj_get r "metadataOnly"); sn_routeOnly := asBool (obj_get r "routeOnly");
     sn_ipsExcluded := strings_of (obj_get r "ipsExcluded"); sn_domainsExcluded := strings_of (obj_get r "domainsExcluded") |}.

(** ** Wire to form *)

(** [asObject(list[0])] *)
Definition first_of (v : jsval) : obj := asObject (hd VUndef (asArray v)).

Definition vmessFromWire (raw : obj) : VmessOutboundFormSettings :=
  let v := first_of (obj_get raw "vnext") in
  let u := first_of (obj_get v "users") in
  let s := asString (obj_get u "security") "" in
  {| vm_address := asString (obj_get v "address") ""; vm_port := asPort (obj_get v "port") 443; vm_id := asString (obj_get u "id") "";
     vm_security := if includes ["aes-128-gcm"; "chacha20-poly1305"; "auto"] s then s else "auto" |}.

(** [Number.isInteger(n) && n > 0] *)
Definition positive_integer (v : jsval) : bool :=
  match v with VNum (NFin m e) => (m mod 10 ^ Z.of_nat e =? 0) && (0 <? m) | _ => false end.

Definition num_of (v : jsval) : num := match v with VNum n => n | _ => NNaN end.

Definition vlessFromWire (raw : obj) : VlessOutboundFormSettings :=
  let vnext := asArray (obj_get raw "vnext") in
  let v := match vnext with [] => raw | _ => first_of (obj_get raw "vnext") end in
  let u := match vnext with [] => raw | _ => first_of (obj_get v "users") end in
  let encryption := asString (obj_get u "encryption") "none" in
  let reverse := asObject (obj_get raw "reverse") in
  let reverseTag := asString (obj_get reverse "tag") "" in
  let savedSeed := asArray (obj_get raw "testseed") in
  {| vl_address := asString (obj_get v "address") ""; vl_port := asPort (obj_get v "port") 443;
     vl_id := asString (obj_get u "id") ""; vl_flow := asString (obj_get u "flow") "";
     vl_encryption := if String.eqb encryption "" then "none" else encryption;
     vl_reverseTag := reverseTag;
     vl_reverseSniffing := if String.eqb reverseTag "" then SNIFFING_DEFAULT else sniffingFromWire (obj_get reverse "sniffing");
     vl_testpre := asNumber (obj_get raw "testpre") 0;
     vl_testseed := if Nat.eqb (length savedSeed) 4 && forallb positive_integer savedSeed then map num_of savedSeed
                    else [NFin 900 0; NFin 500 0; NFin 900 0; NFin 256 0] |}.

Definition trojanFromWire (raw : obj) : TrojanOutboundFormSettings :=
  let s := first_of (obj_get raw "servers") in
  {| tr_address := asString (obj_get s "address") ""; tr_port := asPort (obj_get s "port") 443;
     tr_password := asString (obj_get s "password") "" |}.

Definition shadowsocksFromWire (raw : obj) : ShadowsocksOutboundFormSettings :=
  let s := first_of (obj_get raw "servers") in
  {| so_address := asString (obj_get s "address") ""; so_port := asPort (obj_get s "port") 443;
     so_password := asString (obj_get s "password") ""; so_method := asString (obj_get s "method") "2022-blake3-aes-128-gcm";
     so_uot := asBool (obj_get s "uot"); so_UoTVersion := asNumber (obj_get s "UoTVersion") 1 |}.

Definition simpleAuthFromWire (raw : obj) (defaultPort : Z) : SimpleAuthFormSettings :=
  let s := first_of (obj_get raw "servers") in
  let u := first_of (obj_get s "users") in
  {| sa_address := asString (obj_get s "address") ""; sa_port := asPort (obj_get s "port") defaultPort;
     sa_user := asString (obj_get u "user") ""; sa_pass := asString (obj_get u "pass") "" |}.

Definition stringRecordFromWire (raw : jsval) : list (string * string) :=
  omap (fun kv => match kv.2 with VStr s => Some (kv.1, s) | _ => None end) (asObject raw).

Definition httpFromWire (raw : obj) : HttpOutboundFormSettings :=
  {| ht_auth := simpleAuthFromWire raw 8080; ht_headers := stringRecordFromWire (obj_get raw "headers") |}.

Definition DEFAULT_ROUTES : list string := ["0.0.0.0/0"; "::/0"].

Definition routes_or_default (allowed : list string) : list string := match allowed with [] => DEFAULT_ROUTES | _ => allowed end.

Definition wireguardPeerFromWire (p : jsval) : WireguardOutboundFormPeer :=
  let pp := asObject p in
  {| wp_publicKey := asString (obj_get pp "publicKey") ""; wp_psk := asString (obj_get pp "preSharedKey") "";
     wp_allowedIPs := routes_or_default (strings_of (obj_get pp "allowedIPs")); wp_endpoint := asString (obj_get pp "endpoint") "";
     wp_keepAlive := asNumber (obj_get pp "keepAlive") 0 |}.

Definition WIREGUARD_STRATEGIES : list string := ["ForceIP"; "ForceIPv4"; "ForceIPv4v6"; "ForceIPv6"; "ForceIPv6v4"].

(** [None]: a secret key that is not base64 makes the key derivation raise. *)
Definition wireguardFromWire (raw : obj) : option WireguardOutboundFormSettings :=
  let secretKey := asString (obj_get raw "secretKey") "" in
  let pubKey := if String.eqb secretKey "" then Some "" else option_map publicKey (generateKeypair secretKey []) in
  let s := asString (obj_get raw "domainStrategy") "" in
  option_map (fun pubKey =>
    {| wg_mtu := asNumber (obj_get raw "mtu") 1420; wg_secretKey := secretKey; wg_pubKey := pubKey;
       wg_address := join "," (map text_of (asArray (obj_get raw "address")));
       wg_domainStrategy := if includes WIREGUARD_STRATEGIES s then s else "";
       wg_reserved := join "," (map text_of (asArray (obj_get raw "reserved")));
       wg_remoteDNS := join "," (strings_of (obj_get raw "remoteDNS"));
       wg_peers := map wireguardPeerFromWire (asArray (obj_get raw "peers")); wg_noKernelTun := asBool (obj_get raw "noKernelTun") |}) pubKey.

Definition hysteriaFromWire (raw : obj) : HysteriaOutboundFormSettings :=
  {| hy_address := asString (obj_get raw "address") ""; hy_port := asPort (obj_get raw "port") 443; hy_version := 2 |}.

Definition noiseFromWire (n : jsval) : FreedomNoise :=
  let nn := asObject n in
  {| nz_type := asString (obj_get nn "type") "rand"; nz_packet := asString (obj_get nn "packet") "10-20";
     nz_delay := asString (obj_get nn "delay") "10-16"; nz_applyTo := asString (obj_get nn "applyTo") "ip" |}.

Definition finalRuleFromWire (r : jsval) : FreedomFinalRuleForm :=
  let rr := asObject r in
  {| fr_action := if String.eqb (asString (obj_get rr "action") "block") "allow" then "allow" else "block";
     fr_network := match obj_get rr "network" with VArr l => join "," (map (fun x => asString x "") l) | v => asString v "" end;
     fr_port := asString (obj_get rr "port") ""; fr_ip := strings_of (obj_get rr "ip");
     fr_blockDelay := asString (obj_get rr "blockDelay") "" |}.

Definition freedomFromWire (raw : obj) (domainStrategy : string) : FreedomOutboundFormSettings :=
  let fragment := asObject (obj_get raw "fragment") in
  let finalRules := map finalRuleFromWire (asArray (obj_get raw "finalRules")) in
  let ipsBlocked := strings_of (obj_get raw "ipsBlocked") in
  let n := asNumber (obj_get raw "proxyProtocol") 0 in
  {| fd_domainStrategy := domainStrategy; fd_redirect := asString (obj_get raw "redirect") "";
     fd_userLevel := asNumber (obj_get raw "userLevel") 0;
     fd_proxyProtocol := if num_eqb n (NFin 1 0) then 1 else if num_eqb n (NFin 2 0) then 2 else 0;
     fd_fragment := Some (match fragment with
       | [] => {| fg_packets := ""; fg_length := ""; fg_interval := ""; fg_maxSplit := "" |}
       | _ => {| fg_packets := asString (obj_get fragment "packets") "1-3"; fg_length := asString (obj_get fragment "length") "";
                 fg_interval := asString (obj_get fragment "interval") ""; fg_maxSplit := asString (obj_get fragment "maxSplit") "" |}
       end);
     fd_noises := map noiseFromWire (asArray (obj_get raw "noises"));
     fd_finalRules := match finalRules, ipsBlocked with
       | [], _ :: _ => [{| fr_action := "block"; fr_network := ""; fr_port := ""; fr_ip := ipsBlocked; fr_blockDelay := "" |}]
       | _, _ => finalRules
       end |}.

Definition blackholeFromWire (raw : obj) : BlackholeOutboundFormSettings :=
  let response := asObject (obj_get raw "response") in
  let t := asString (obj_get response "type") "" in
  {| bh_type := if includes ["none"; "http"; "custom"] t then t else "";
     bh_customResponseData := asString (obj_get response "customResponseData") "" |}.

Definition DNS_ACTIONS : list string := ["direct"; "drop"; "return"; "hijack"].

Definition dnsRuleFromWire (raw : jsval) : DnsRuleForm :=
  let r := asObject raw in
  let action := asString (obj_get r "action") "direct" in
  {| dr_action := if includes DNS_ACTIONS action then action else "direct";
     dr_qType := match or_nullish (obj_get r "qType") (obj_get r "qtype") with
       | VArr l => join "," (map prim_string l)
       | VNum n => string_of_num n
       | v => asString v ""
       end;
     dr_domain := match obj_get r "domain" with VArr l => join "," (map (fun x => asString x "") l) | v => asString v "" end;
     dr_rCode := asNumber (obj_get r "rCode") 0 |}.

Definition dnsFromWire (raw : obj) : DnsOutboundFormSettings :=
  let s := asString (or_nullish (obj_get raw "rewriteNetwork") (obj_get raw "network")) "" in
  {| dn_rewriteNetwork := if includes ["udp"; "tcp"] s then s else "";
     dn_rewriteAddress := asString (or_nullish (obj_get raw "rewriteAddress") (obj_get raw "address")) "";
     dn_rewritePort := asPort (or_nullish (obj_get raw "rewritePort") (obj_get raw "port")) 53;
     dn_userLevel := asNumber (obj_get raw "userLevel") 0; dn_rules := map dnsRuleFromWire (asArray (obj_get raw "rules")) |}.

Definition loopbackFromWire (raw : obj) : LoopbackOutboundFormSettings :=
  {| lb_inboundTag := asString (obj_get raw "inboundTag") ""; lb_sniffing := sniffingFromWire (obj_get raw "sniffing") |}.

Definition amneziawgPeerFromWire (p : jsval) : AmneziaWGOutboundPeer :=
  let pp := asObject p in
  {| ap_publicKey := asString (obj_get pp "publicKey") ""; ap_presharedKey := asString (obj_get pp "presharedKey") "";
     ap_allowedIPs := routes_or_default (strings_of (obj_get pp "allowedIPs")); ap_endpoint := asString (obj_get pp "endpoint") "";
     ap_keepAlive := asNumber (obj_get pp "keepAlive") 0 |}.

(** The argument of the schema's [parse]. *)
Definition amneziawg_input (raw : obj) : AmneziaWGOutboundSettings :=
  let n k d := asNumber (obj_get raw k) d in let s k := asString (obj_get raw k) "" in
  {| aw_mtu := n "mtu" 0; aw_secretKey := s "secretKey"; aw_address := strings_of (obj_get raw "address"); aw_listenPort := n "listenPort" 0;
     aw_dns := s "dns"; aw_jc := n "jc" 0; aw_jmin := n "jmin" 40; aw_jmax := n "jmax" 100; aw_s1 := n "s1" 15; aw_s2 := n "s2" 80;
     aw_s3 := n "s3" 12; aw_s4 := n "s4" 12; aw_h1 := s "h1"; aw_h2 := s "h2"; aw_h3 := s "h3"; aw_h4 := s "h4";
     aw_i1 := s "i1"; aw_i2 := s "i2"; aw_i3 := s "i3"; aw_i4 := s "i4"; aw_i5 := s "i5";
     aw_headerProtectionKey := s "headerProtectionKey"; aw_contentPaddingAddition := s "contentPaddingAddition";
     aw_rekeyAfterTime := s "rekeyAfterTime"; aw_rekeyTimeout := s "rekeyTimeout"; aw_rejectAfterTime := s "rejectAfterTime";
     aw_keepaliveTimeout := s "keepaliveTimeout"; aw_maxHandshakeAttempts := s "maxHandshakeAttempts";
     aw_randomTrailers := if is_undef (obj_get raw "randomTrailers") then false else asBool (obj_get raw "randomTrailers");
     aw_disableCookies := if is_undef (obj_get raw "disableCookies") then true else asBool (obj_get raw "disableCookies");
     aw_peers := map amneziawgPeerFromWire (asArray (obj_get raw "peers")) |}.

Definition muxFromWire (raw : jsval) : MuxForm :=
  let m := asObject raw in
  let s := asString (obj_get m "xudpProxyUDP443") "reject" in
  {| mx_enabled := asBool (obj_get m "enabled"); mx_concurrency := asNumber (obj_get m "concurrency") 8;
     mx_xudpConcurrency := asNumber (obj_get m "xudpConcurrency") 16;
     mx_xudpProxyUDP443 := if includes ["reject"; "allow"; "skip"] s then s else "reject" |}.

(** [XHttpXmuxSchema.parse({})] *)
Definition XMUX_DEFAULTS : obj :=
  [("maxConcurrency", VStr "16-32"); ("maxConnections", VInt 0); ("cMaxReuseTimes", VInt 0); ("hMaxRequestTimes", VStr "600-900");
   ("hMaxReusableSecs", VStr "1800-3000"); ("hKeepAlivePeriod", VInt 0)].

(** The properties [{ ...v }] copies: an array's have its indices as names. *)
Definition spread (v : jsval) : obj :=
  match v with VObj o => o | VArr l => imap (fun i x => (string_of_Z (Z.of_nat i), x)) l | _ => [] end.

Definition hydrateStreamForm (stream : obj) : obj :=
  let next := match obj_get stream "method" with
              | VStr m => if String.eqb m "" then stream else obj_set stream "network" (VStr m)
              | _ => stream
              end in
  let next := obj_del next "method" in
  match obj_get next "xhttpSettings" with
  | VObj xhttp =>
      let xhttp := match obj_get xhttp "xmux" with
                   | VObj xmux => obj_set (obj_set xhttp "enableXmux" (VBool true)) "xmux" (VObj (assign xmux XMUX_DEFAULTS))
                   | _ => xhttp
                   end in
      obj_set next "xhttpSettings" (VObj xhttp)
  | _ => next
  end.

Section Zod.
(** [AmneziaWGOutboundSettingsSchema.parse]; [None] is its exception. *)
Context (parse : AmneziaWGOutboundSettings -> option AmneziaWGOutboundSettings).

Definition amneziawgFromWire (raw : obj) : option AmneziaWGOutboundSettings := parse (amneziawg_input raw).

(** The switch of [rawOutboundToFormValues]. *)
Definition settingsFromWire (protocol : string) (settings : obj) (freedomStrategy : string) : option OutboundFormSettings :=
  if String.eqb protocol "vmess" then Some (FVmess (vmessFromWire settings))
  else if String.eqb protocol "vless" then Some (FVless (vlessFromWire settings))
  else if String.eqb protocol "trojan" then Some (FTrojan (trojanFromWire settings))
  else if String.eqb protocol "shadowsocks" then Some (FShadowsocks (shadowsocksFromWire settings))
  else if String.eqb protocol "socks" then Some (FSocks (simpleAuthFromWire settings 1080))
  else if String.eqb protocol "http" then Some (FHttp (httpFromWire settings))
  else if String.eqb protocol "wireguard" then option_map FWireguard (wireguardFromWire settings)
  else if String.eqb protocol "amneziawg" then option_map FAmneziaWG (amneziawgFromWire settings)
  else if String.eqb protocol "hysteria" then Some (FHysteria (hysteriaFromWire settings))
  else if String.eqb protocol "freedom" then Some (FFreedom (freedomFromWire settings freedomStrategy))
  else if String.eqb protocol "blackhole" then Some (FBlackhole (blackholeFromWire settings))
  else if String.eqb protocol "dns" then Some (FDns (dnsFromWire settings))
  else if String.eqb protocol "loopback" then Some (FLoopback (loopbackFromWire settings))
  else Some (FVless (vlessFromWire settings)).

(** [hasStream ? hydrateStreamForm(raw.streamSettings) : undefined] *)
Definition streamFromWire (v : jsval) : option obj :=
  match spread v with [] => None | stream => Some (hydrateStreamForm stream) end.

Definition rawOutboundToFormValues (raw : obj) : option OutboundFormValues :=
  let protocol := to_lower (asString (obj_get raw "protocol") "vless") in
  let settings := asObject (obj_get raw "settings") in
  option_map (fun typed =>
    {| fv_settings := typed; fv_tag := asString (obj_get raw "tag") ""; fv_sendThrough := asString (obj_get raw "sendThrough") "";
       fv_targetStrategy := if String.eqb protocol "freedom" then "" else targetStrategyFromWire (obj_get raw "targetStrategy");
       fv_mux := Some (muxFromWire (obj_get raw "mux")); fv_streamSettings := streamFromWire (obj_get raw "streamSettings") |})
    (settingsFromWire protocol settings (freedomDomainStrategyFromWire raw)).
End Zod.

(** ** Form to wire *)

(** [s || undefined] of a string and of a number *)
Definition str_or_undef (s : string) : jsval := if String.eqb s "" then VUndef else VStr s.

Definition num_or_undef (n : num) : jsval := if num_truthy n then VNum n else VUndef.

Definition strs (l : list string) : jsval := VArr (map VStr l).

(** [l.length > 0 ? l : undefined] *)
Definition strs_or_undef (l : list string) : jsval := match l with [] => VUndef | _ => strs l end.

(** [s.split(',').map((x) => x.trim()).filter(Boolean)] *)
Definition split_trim (s : string) : list string :=
  List.filter (fun x => negb (String.eqb x "")) (map trim (split_on "," s)).

Definition vmessToWire (s : VmessOutboundFormSettings) : obj :=
  [("vnext", VArr [VObj [("address", VStr (vm_address s)); ("port", VInt (vm_port s));
                         ("users", VArr [VObj [("id", VStr (vm_id s)); ("security", VStr (vm_security s))]])]])].

Definition sniffingToWire (s : Sniffing) : jsval :=
  VObj [("enabled", VBool (sn_enabled s)); ("destOverride", strs (sn_destOverride s)); ("metadataOnly", VBool (sn_metadataOnly s));
        ("routeOnly", VBool (sn_routeOnly s)); ("ipsExcluded", strs_or_undef (sn_ipsExcluded s));
        ("domainsExcluded", strs_or_undef (sn_domainsExcluded s))].

Definition vlessToWire (s : VlessOutboundFormSettings) : obj :=
  let result : obj := [("address", VStr (vl_address s)); ("port", VInt (vl_port s)); ("id", VStr (vl_id s)); ("flow", VStr (vl_flow s));
                       ("encryption", VStr (if String.eqb (vl_encryption s) "" then "none" else vl_encryption s))] in
  let result :=
    if String.eqb (vl_reverseTag s) "" then result
    else
      let sn := sniffingToWire (vl_reverseSniffing s) in
      let defaultSn := sniffingToWire SNIFFING_DEFAULT in
      obj_set result "reverse" (VObj [("tag", VStr (vl_reverseTag s));
        ("sniffing", if String.eqb (stringify sn) (stringify defaultSn) then VObj [] else sn)]) in
  if String.eqb (vl_flow s) "xtls-rprx-vision" then
    let result := if num_ltb (NFin 0 0) (vl_testpre s) then obj_set result "testpre" (VNum (vl_testpre s)) else result in
    if Nat.eqb (length (vl_testseed s)) 4 && forallb (fun v => positive_integer (VNum v)) (vl_testseed s)
    then obj_set result "testseed" (VArr (map VNum (vl_testseed s))) else result
  else result.

Definition trojanToWire (s : TrojanOutboundFormSettings) : obj :=
  [("servers", VArr [VObj [("address", VStr (tr_address s)); ("port", VInt (tr_port s)); ("password", VStr (tr_password s))]])].

Definition shadowsocksToWire (s : ShadowsocksOutboundFormSettings) : obj :=
  [("servers", VArr [VObj [("address", VStr (so_address s)); ("port", VInt (so_port s)); ("password", VStr (so_password s));
                           ("method", VStr (so_method s)); ("uot", VBool (so_uot s)); ("UoTVersion", VNum (so_UoTVersion s))]])].

Definition simpleAuthToWire (s : SimpleAuthFormSettings) : obj :=
  [("servers", VArr [VObj [("address", VStr (sa_address s)); ("port", VInt (sa_port s));
      ("users", VArr (if String.eqb (sa_user s) "" then [] else [VObj [("user", VStr (sa_user s)); ("pass", VStr (sa_pass s))]]))]])].

Definition httpToWire (s : HttpOutboundFormSettings) : obj :=
  let wire := simpleAuthToWire (ht_auth s) in
  match ht_headers s with [] => wire | h => obj_set wire "headers" (VObj (map (fun kv => (kv.1, VStr kv.2)) h)) end.

Definition wireguardPeerToWire (p : WireguardOutboundFormPeer) : jsval :=
  VObj [("publicKey", VStr (wp_publicKey p)); ("preSharedKey", str_or_undef (wp_psk p)); ("allowedIPs", strs_or_undef (wp_allowedIPs p));
        ("endpoint", VStr (wp_endpoint p)); ("keepAlive", num_or_undef (wp_keepAlive p))].

Definition wireguardToWire (s : WireguardOutboundFormSettings) : obj :=
  [("mtu", num_or_undef (wg_mtu s)); ("secretKey", VStr (wg_secretKey s));
   ("address", if String.eqb (wg_address s) "" then VArr [] else strs (split_trim (wg_address s)));
   ("domainStrategy", str_or_undef (wg_domainStrategy s));
   ("reserved", if String.eqb (wg_reserved s) "" then VUndef
                else VArr (map VNum (List.filter num_finite (map (fun x => number_of_string (trim x)) (split_on "," (wg_reserved s))))));
   ("remoteDNS", if String.eqb (wg_remoteDNS s) "" then VUndef else strs (split_trim (wg_remoteDNS s)));
   ("peers", VArr (map wireguardPeerToWire (wg_peers s))); ("noKernelTun", VBool (wg_noKernelTun s))].

Definition amneziawgPeerToWire (p : AmneziaWGOutboundPeer) : jsval :=
  VObj [("publicKey", VStr (ap_publicKey p)); ("presharedKey", str_or_undef (ap_presharedKey p)); ("allowedIPs", strs_or_undef (ap_allowedIPs p));
        ("endpoint", VStr (ap_endpoint p)); ("keepAlive", num_or_undef (ap_keepAlive p))].

Definition amneziawg_optionalStrings (s : AmneziaWGOutboundSettings) : list (string * string) :=
  [("i1", aw_i1 s); ("i2", aw_i2 s); ("i3", aw_i3 s); ("i4", aw_i4 s); ("i5", aw_i5 s);
   ("headerProtectionKey", aw_headerProtectionKey s); ("contentPaddingAddition", aw_contentPaddingAddition s);
   ("rekeyAfterTime", aw_rekeyAfterTime s); ("rekeyTimeout", aw_rekeyTimeout s); ("rejectAfterTime", aw_rejectAfterTime s);
   ("keepaliveTimeout", aw_keepaliveTimeout s); ("maxHandshakeAttempts", aw_maxHandshakeAttempts s)].

Definition put_nonempty (out : obj) (kv : string * string) : obj :=
  if String.eqb kv.2 "" then out else obj_set out kv.1 (VStr kv.2).

Definition amneziawgToWire (s : AmneziaWGOutboundSettings) : obj :=
  let out : obj :=
    [("mtu", num_or_undef (aw_mtu s)); ("secretKey", VStr (aw_secretKey s)); ("address", strs (aw_address s));
     ("jc", VNum (aw_jc s)); ("jmin", VNum (aw_jmin s)); ("jmax", VNum (aw_jmax s)); ("s1", VNum (aw_s1 s)); ("s2", VNum (aw_s2 s));
     ("s3", VNum (aw_s3 s)); ("s4", VNum (aw_s4 s)); ("h1", VStr (aw_h1 s)); ("h2", VStr (aw_h2 s)); ("h3", VStr (aw_h3 s));
     ("h4", VStr (aw_h4 s)); ("randomTrailers", VBool (aw_randomTrailers s)); ("disableCookies", VBool (aw_disableCookies s));
     ("peers", VArr (map amneziawgPeerToWire (aw_peers s)))] in
  let out := if num_ltb (NFin 0 0) (aw_listenPort s) then obj_set out "listenPort" (VNum (aw_listenPort s)) else out in
  fold_left put_nonempty (amneziawg_optionalStrings s) (put_nonempty out ("dns", aw_dns s)).

Definition hysteriaToWire (s : HysteriaOutboundFormSettings) : obj :=
  [("address", VStr (hy_address s)); ("port", VInt (hy_port s)); ("version", VInt (hy_version s))].

Definition fragment_entries (f : FreedomFragment) : list (string * string) :=
  [("packets", fg_packets f); ("length", fg_length f); ("interval", fg_interval f); ("maxSplit", fg_maxSplit f)].

Definition fragmentToWire (fragment : option FreedomFragment) : jsval :=
  match fragment with
  | Some f =>
      if String.eqb (fg_length f) "" && String.eqb (fg_interval f) "" && String.eqb (fg_maxSplit f) "" then VUndef
      else VObj (map (fun kv => (kv.1, VStr kv.2)) (List.filter (fun kv => negb (String.eqb kv.2 "")) (fragment_entries f)))
  | None => VUndef
  end.

Definition noiseToWire (n : FreedomNoise) : jsval :=
  VObj [("type", VStr (nz_type n)); ("packet", VStr (nz_packet n)); ("delay", VStr (nz_delay n)); ("applyTo", VStr (nz_applyTo n))].

Definition finalRuleToWire (r : FreedomFinalRuleForm) : jsval :=
  VObj [("action", VStr (fr_action r)); ("network", str_or_undef (fr_network r)); ("port", str_or_undef (fr_port r));
        ("ip", strs_or_undef (fr_ip r));
        ("blockDelay", if String.eqb (fr_action r) "block" && negb (String.eqb (fr_blockDelay r) "") then VStr (fr_blockDelay r) else VUndef)].

(** [l.length > 0 ? l.map(f) : undefined] *)
Definition list_or_undef {A} (f : A -> jsval) (l : list A) : jsval := match l with [] => VUndef | _ => VArr (map f l) end.

Definition freedomToWire (s : FreedomOutboundFormSettings) : obj :=
  [("redirect", str_or_undef (fd_redirect s)); ("userLevel", num_or_undef (fd_userLevel s));
   ("proxyProtocol", if fd_proxyProtocol s =? 0 then VUndef else VInt (fd_proxyProtocol s)); ("fragment", fragmentToWire (fd_fragment s));
   ("noises", list_or_undef noiseToWire (fd_noises s)); ("finalRules", list_or_undef finalRuleToWire (fd_finalRules s))].

Definition blackholeToWire (s : BlackholeOutboundFormSettings) : obj :=
  if String.eqb (bh_type s) "" then [("response", VUndef)]
  else if String.eqb (bh_type s) "custom" then
    [("response", VObj [("type", VStr (bh_type s)); ("customResponseData", VStr (bh_customResponseData s))])]
  else [("response", VObj [("type", VStr (bh_type s))])].

Definition dnsRuleToWire (r : DnsRuleForm) : jsval :=
  let action := if includes DNS_ACTIONS (dr_action r) then dr_action r else "direct" in
  let result : obj := [("action", VStr action)] in
  let qType := trim (dr_qType r) in
  let result :=
    if String.eqb qType "" then result
    else obj_set result "qType"
           (if all_digits qType && num_ltb (NFin 0 0) (number_of_string qType) then VNum (number_of_string qType) else VStr qType) in
  let result := match split_trim (dr_domain r) with [] => result | domains => obj_set result "domain" (strs domains) end in
  VObj (if num_ltb (NFin 0 0) (dr_rCode r) then obj_set result "rCode" (VNum (dr_rCode r)) else result).

Definition dnsToWire (s : DnsOutboundFormSettings) : obj :=
  let result := put_nonempty (put_nonempty [] ("rewriteNetwork", dn_rewriteNetwork s)) ("rewriteAddress", dn_rewriteAddress s) in
  let result := if dn_rewritePort s =? 0 then result else obj_set result "rewritePort" (VInt (dn_rewritePort s)) in
  let result := if num_truthy (dn_userLevel s) then obj_set result "userLevel" (VNum (dn_userLevel s)) else result in
  match dn_rules s with [] => result | rules => obj_set result "rules" (VArr (map dnsRuleToWire rules)) end.

Definition loopbackToWire (s : LoopbackOutboundFormSettings) : obj :=
  let result : obj := [("inboundTag", str_or_undef (lb_inboundTag s))] in
  if sn_enabled (lb_sniffing s) then obj_set result "sniffing" (sniffingToWire (lb_sniffing s)) else result.

(** The switch of [formValuesToWirePayload]. *)
Definition settingsToWire (s : OutboundFormSettings) : obj :=
  match s with
  | FVmess s => vmessToWire s | FVless s => vlessToWire s | FTrojan s => trojanToWire s | FShadowsocks s => shadowsocksToWire s
  | FSocks s => simpleAuthToWire s | FHttp s => httpToWire s | FWireguard s => wireguardToWire s | FAmneziaWG s => amneziawgToWire s
  | FHysteria s => hysteriaToWire s | FFreedom s => freedomToWire s | FBlackhole s => blackholeToWire s | FDns s => dnsToWire s
  | FLoopback s => loopbackToWire s
  end.

Definition MUX_PROTOCOLS : list string := ["vmess"; "vless"; "trojan"; "shadowsocks"; "http"; "socks"].

Definition STREAM_PROTOCOLS : list string := ["vmess"; "vless"; "trojan"; "shadowsocks"; "hysteria"].

Definition dropEmptyStrings (o : obj) : obj := List.filter (fun kv => negb (is_str kv.2 "")) o.

Definition stripUiOnlyStreamFields (stream : obj) : obj :=
  let next := match obj_get stream "xhttpSettings" with
              | (VObj _ | VArr _) as xh =>
                  let cleaned := spread xh in
                  let xmuxEnabled := is_bool (obj_get cleaned "enableXmux") true in
                  let cleaned := obj_del cleaned "enableXmux" in
                  let cleaned := if xmuxEnabled then cleaned else obj_del cleaned "xmux" in
                  obj_set stream "xhttpSettings" (VObj (dropEmptyStrings cleaned))
              | _ => stream
              end in
  normalizeStreamSettingsForWire next outbound.

Definition muxAllowed (values : OutboundFormValues) : bool :=
  let flow := match fv_settings values with FVless s => vl_flow s | _ => "" end in
  let network := match fv_streamSettings values with Some stream => obj_get stream "network" | None => VUndef end in
  includes MUX_PROTOCOLS (protocol_of (fv_settings values)) && String.eqb flow "" && negb (is_str network "xhttp").

Definition muxToWire (m : MuxForm) : jsval :=
  VObj [("enabled", VBool (mx_enabled m)); ("concurrency", VNum (mx_concurrency m)); ("xudpConcurrency", VNum (mx_xudpConcurrency m));
        ("xudpProxyUDP443", VStr (mx_xudpProxyUDP443 m))].

(** The [sockopt] of a freedom outbound after the strategy was hoisted into it. *)
Definition hoist_strategy (strategy : string) (sockopt : obj) : obj :=
  if negb (String.eqb strategy "") && negb (String.eqb strategy "AsIs") then obj_set sockopt "domainStrategy" (VStr strategy)
  else obj_del sockopt "domainStrategy".

(** [if (Object.keys(o).length > 0) result[k] = o; else delete result[k]] *)
Definition put_or_delete (result : obj) (k : string) (o : obj) : obj :=
  match o with [] => obj_del result k | _ => obj_set result k (VObj o) end.

(** The freedom block: the payload, and the [sockopt] object it changed in place. *)
Definition freedom_block (strategy : string) (result : obj) : obj * obj :=
  let stream := asObject (obj_get result "streamSettings") in
  let sockopt := hoist_strategy strategy (asObject (obj_get stream "sockopt")) in
  (put_or_delete result "streamSettings" (put_or_delete stream "sockopt" sockopt), sockopt).

Definition streamToWire (values : OutboundFormValues) (result : obj) : obj :=
  match fv_streamSettings values with
  | Some stream =>
      if includes STREAM_PROTOCOLS (protocol_of (fv_settings values)) then
        obj_set result "streamSettings" (VObj (stripUiOnlyStreamFields stream))
      else if truthy (obj_get stream "sockopt") then obj_set result "streamSettings" (VObj [("sockopt", obj_get stream "sockopt")])
      else result
  | None => result
  end.

(** The form's own [sockopt] object is the one the freedom block writes to. *)
Definition write_back (values : OutboundFormValues) (sockopt : obj) : OutboundFormValues :=
  match fv_streamSettings values with
  | Some stream =>
      match obj_get stream "sockopt" with
      | VObj _ => {| fv_settings := fv_settings values; fv_tag := fv_tag values; fv_sendThrough := fv_sendThrough values;
                     fv_targetStrategy := fv_targetStrategy values; fv_mux := fv_mux values;
                     fv_streamSettings := Some (obj_set stream "sockopt" (VObj sockopt)) |}
      | _ => values
      end
  | None => values
  end.

(** The payload, and the form values after the call. *)
Definition formValuesToWirePayload (values : OutboundFormValues) : obj * OutboundFormValues :=
  let protocol := protocol_of (fv_settings values) in
  let result : obj := [("protocol", VStr protocol); ("settings", VObj (settingsToWire (fv_settings values)))] in
  let result := put_nonempty result ("tag", fv_tag values) in
  let result := if String.eqb protocol "freedom" then result else put_nonempty result ("targetStrategy", fv_targetStrategy values) in
  let result := streamToWire values result in
  let '(result, after) :=
    match fv_settings values with
    | FFreedom s =>
        let strategy := if String.eqb (fd_domainStrategy s) "" then fv_targetStrategy values else fd_domainStrategy s in
        let '(result, sockopt) := freedom_block strategy result in (result, write_back values sockopt)
    | _ => (result, values)
    end in
  let result := put_nonempty result ("sendThrough", fv_sendThrough values) in
  let result := match fv_mux values with
                | Some mux => if mx_enabled mux && muxAllowed values then obj_set result "mux" (muxToWire mux) else result
                | None => result
                end in
  (result, after).

(** ** Errors *)

(** C34. Reading an outbound raises in two cases only: a WireGuard secret key that is not base64, and
    AmneziaWG settings the schema rejects. *)
Theorem rawOutbound_raises_iff parse raw (protocol := to_lower (asString (obj_get raw "protocol") "vless")) (settings := asObject (obj_get raw "settings"))
  (secretKey := asString (obj_get settings "secretKey") "") :
  rawOutboundToFormValues parse raw = None <->
  (protocol = "wireguard" /\ secretKey <> "" /\ atob secretKey = None) \/ (protocol = "amneziawg" /\ parse (amneziawg_input settings) = None).
Proof.
  unfold rawOutboundToFormValues. fold protocol settings.
  assert (W : wireguardFromWire settings = None <-> secretKey <> "" /\ atob secretKey = None).
  { unfold wireguardFromWire. fold secretKey. destruct (String.eqb_spec secretKey "") as [->|E]; cbn [option_map]; [naive_solver|]. unfold generateKeypair, keyFromBase64.
    destruct secretKey as [|c t]; [done|]. cbn [String.length Nat.ltb Nat.leb]. destruct (atob (String c t)); cbn [option_map]; naive_solver. }
  assert (S : forall d, settingsFromWire parse protocol settings d = None <->
    (protocol = "wireguard" /\ wireguardFromWire settings = None) \/ (protocol = "amneziawg" /\ parse (amneziawg_input settings) = None)).
  { intros d. unfold settingsFromWire. clearbody protocol.
    destruct (String.eqb_spec protocol "wireguard") as [->|N1].
    { cbn [String.eqb Ascii.eqb Bool.eqb]. destruct (wireguardFromWire settings); cbn; naive_solver. }
    destruct (String.eqb_spec protocol "amneziawg") as [->|N2].
    { cbn [String.eqb Ascii.eqb Bool.eqb]. unfold amneziawgFromWire. destruct (parse _); cbn; naive_solver. }
    repeat (destruct (String.eqb protocol _); [naive_solver|]). naive_solver. }
  specialize (S (freedomDomainStrategyFromWire raw)). rewrite W in S. rewrite <-S. by destruct (settingsFromWire _ _ _ _).
Qed.
