(* ===== verification/RoutingBasics.v ===== *)
(** * The basic routing controls and outbound renaming

    Models src/frontend/src/pages/xray/basics/helpers.ts, with the constants of basics/constants.ts it uses,
    and the handlers of src/frontend/src/pages/xray/outbounds/OutboundsTab.tsx and
    src/frontend/src/pages/xray/XrayPage.tsx that call it: confirming an edited outbound and removing one by
    tag.  As in XraySettings.v the template is a [jsval] and the mutations return the updated value;
    the handlers run on a clone of the template, so that an object put into it is not shared.  The
    nested objects are those of the template's type: objects where the code writes into them. *)
From S2P Require Import Prelude JsString JsValue XraySettings OutboundForm.
Local Open Scope Z_scope.

(** ** constants.ts *)

Definition directSettings : jsval := VObj [("tag", VStr "direct"); ("protocol", VStr "freedom")].
Definition blockedSettings : jsval := VObj [("tag", VStr "blocked"); ("protocol", VStr "blackhole"); ("settings", VObj [])].
Definition ipv4Settings : jsval :=
  VObj [("tag", VStr "IPv4"); ("protocol", VStr "freedom"); ("streamSettings", VObj [("sockopt", VObj [("domainStrategy", VStr "UseIPv4")])])].

(** ** The direct outbound *)

Definition isDirectFreedomOutbound (o : jsval) : bool :=
  match get o "protocol" with VStr p => String.eqb (to_lower p) "freedom" && is_str (get o "tag") "direct" | _ => false end.

(** [l.findIndex(p)] with the element found *)
Fixpoint find_index (p : jsval -> bool) (l : list jsval) : option (nat * jsval) :=
  match l with
  | [] => None
  | o :: l => if p o then Some (0%nat, o) else match find_index p l with Some (i, x) => Some (S i, x) | None => None end
  end.

Definition directFreedom (t : jsval) : option (nat * jsval) := find_index isDirectFreedomOutbound (outbounds_of t).

Definition directFreedomStrategy (t : jsval) : string :=
  match directFreedom t with
  | None => "AsIs"
  | Some (_, outbound) => let s := freedomDomainStrategyFromWire (asObject outbound) in if String.eqb s "" then "AsIs" else s
  end.

Definition isDirectTagTaken (t : jsval) : bool :=
  match directFreedom t with Some _ => false | None => existsb (fun o => is_str (get o "tag") "direct") (outbounds_of t) end.

(** [if (!Array.isArray(t.outbounds)) t.outbounds = []] *)
Definition with_outbounds (t : jsval) : jsval := match get t "outbounds" with VArr _ => t | _ => set t "outbounds" (VArr []) end.

Definition created_direct : jsval := VObj [("protocol", VStr "freedom"); ("tag", VStr "direct"); ("settings", VObj [])].

(** The template, and the place of the outbound in it. *)
Definition ensureDirectFreedomOutbound (t : jsval) : jsval * option (nat * jsval) :=
  let t := with_outbounds t in
  match directFreedom t with
  | Some found => (t, Some found)
  | None =>
      if isDirectTagTaken t then (t, None)
      else (set t "outbounds" (VArr (outbounds_of t ++ [created_direct])), Some (length (outbounds_of t), created_direct))
  end.

Definition LEGACY_FREEDOM_STRATEGY_KEYS : list string := ["domainStrategy"; "targetStrategy"].

(** [Object.keys(v).length === 0] *)
Definition no_keys (v : jsval) : bool := match v with VObj [] => true | _ => false end.

(** [if (Object.keys(x).length === 0) delete o[k]; else o[k] = x] *)
Definition set_or_delete (o : jsval) (k : string) (x : jsval) : jsval := if no_keys x then del o k else set o k x.

(** What [setDirectFreedomStrategy] does to the outbound. *)
Definition strategy_outbound (next : string) (ob : jsval) : jsval :=
  let settings := fold_left del LEGACY_FREEDOM_STRATEGY_KEYS (or_nullish (get ob "settings") (VObj [])) in
  let ob := set ob "settings" settings in
  let stream := or_nullish (get ob "streamSettings") (VObj []) in
  let sockopt := or_nullish (get stream "sockopt") (VObj []) in
  let sockopt := if String.eqb next "AsIs" then del sockopt "domainStrategy" else set sockopt "domainStrategy" (VStr next) in
  set_or_delete ob "streamSettings" (set_or_delete stream "sockopt" sockopt).

Definition setDirectFreedomStrategy (t : jsval) (next : string) : jsval :=
  let '(t, ob) := ensureDirectFreedomOutbound t in
  match ob with
  | None => t
  | Some (i, ob) => set t "outbounds" (VArr (<[i := strategy_outbound next ob]> (outbounds_of t)))
  end.

(** ** Rules by outbound *)

Definition rule_matches (outboundTag property : string) (rule : jsval) : bool :=
  match rule with
  | VObj r => obj_has r property && obj_has r "outboundTag" && is_str (obj_get r "outboundTag") outboundTag
  | _ => false
  end.

Definition ruleGetter (t : jsval) (outboundTag property : string) : list jsval :=
  flat_map (fun rule => if rule_matches outboundTag property rule then as_list (get rule property) else []) (ruleList t).

(** The loop of [ruleSetter]; [inserted] as in the code. *)
Fixpoint set_rules (outboundTag property : string) (data : list jsval) (inserted : bool) (rules : list jsval) : list jsval :=
  match rules with
  | [] => []
  | rule :: rules =>
      if rule_matches outboundTag property rule then
        if negb inserted && match data with [] => false | _ => true end
        then set rule property (VArr data) :: set_rules outboundTag property data true rules
        else set_rules outboundTag property data inserted rules
      else rule :: set_rules outboundTag property data inserted rules
  end.

Definition new_rule (outboundTag property : string) (data : list jsval) : jsval :=
  VObj (obj_set [("type", VStr "field"); ("outboundTag", VStr outboundTag)] property (VArr data)).

Definition ruleSetter (t : jsval) (outboundTag property : string) (data : list jsval) : jsval :=
  if negb (truthy (get t "routing")) then t
  else
    let rules := match ruleGetter t outboundTag property with
                 | [] => ruleList t ++ [new_rule outboundTag property data]
                 | _ => set_rules outboundTag property data false (ruleList t)
                 end in
    set t "routing" (set (get t "routing") "rules" (VArr rules)).

Definition syncOutbound (t : jsval) (tag : string) (settings : jsval) : jsval :=
  if negb (truthy (get t "outbounds")) || negb (truthy (get t "routing")) then t
  else
    let haveRules := existsb (fun r => is_str (get r "outboundTag") tag) (ruleList t) in
    match find_index (fun o => is_str (get o "tag") tag) (outbounds_of t) with
    | Some (S i, _) => if haveRules then t else set t "outbounds" (VArr (splice1 (S i) (outbounds_of t)))
    | Some (O, _) => t
    | None => if haveRules then set t "outbounds" (VArr (outbounds_of t ++ [settings])) else t
    end.

(** ** The default outbound *)

Definition getDefaultOutboundTag (t : jsval) : string :=
  match get (nth 0 (outbounds_of t) VUndef) "tag" with VStr tag => if String.eqb tag "" then "direct" else tag | _ => "direct" end.

Definition setDefaultOutboundTag (t : jsval) (tag : string) : jsval :=
  if String.eqb tag "" then t
  else
    let t := with_outbounds t in
    match find_index (fun o => is_str (get o "tag") tag) (outbounds_of t) with
    | None =>
        if String.eqb tag "direct" then set t "outbounds" (VArr (directSettings :: outbounds_of t))
        else if String.eqb tag "blocked" then set t "outbounds" (VArr (blockedSettings :: outbounds_of t))
        else t
    | Some (O, _) => t
    | Some (i, moved) => set t "outbounds" (VArr (moved :: splice1 i (outbounds_of t)))
    end.

(** ** Renaming *)

(** [if (v === oldTag) v = newTag] *)
Definition retag (oldTag newTag : string) (v : jsval) : jsval := if is_str v oldTag then VStr newTag else v.

Definition retag_rule (oldTag newTag : string) (rule : jsval) : jsval :=
  if is_str (get rule "outboundTag") oldTag then set rule "outboundTag" (VStr newTag) else rule.

Definition retag_balancer (oldTag newTag : string) (balancer : jsval) : jsval :=
  let balancer := if is_str (get balancer "fallbackTag") oldTag then set balancer "fallbackTag" (VStr newTag) else balancer in
  match get balancer "selector" with
  | VArr sel => set balancer "selector" (VArr (map (retag oldTag newTag) sel))
  | _ => balancer
  end.

Definition retag_dialer (oldTag newTag : string) (outbound : jsval) : jsval :=
  let stream := get outbound "streamSettings" in
  let sockopt := get stream "sockopt" in
  if is_str (get sockopt "dialerProxy") oldTag
  then set outbound "streamSettings" (set stream "sockopt" (set sockopt "dialerProxy" (VStr newTag)))
  else outbound.

(** [if (Array.isArray(t.outbounds)) for (const outbound of t.outbounds) f(outbound)] *)
Definition map_outbounds (f : jsval -> jsval) (t : jsval) : jsval :=
  match get t "outbounds" with VArr l => set t "outbounds" (VArr (map f l)) | _ => t end.

Definition propagateOutboundTagRename (t : jsval) (oldTag newTag : string) : jsval :=
  if String.eqb oldTag "" || String.eqb newTag "" || String.eqb oldTag newTag then t
  else
    let t := update_routing "rules" (map (retag_rule oldTag newTag)) t in
    let t := update_routing "balancers" (map (retag_balancer oldTag newTag)) t in
    map_outbounds (retag_dialer oldTag newTag) t.

(** ** The handlers *)

(** [onConfirm] of the outbounds tab; [None]: a new outbound. *)
Definition confirmOutbound (editingIndex : option nat) (outbound t : jsval) : jsval :=
  let t := with_outbounds t in
  let newTag := str_or_empty (get outbound "tag") in
  match editingIndex with
  | None => if String.eqb newTag "" then t else set t "outbounds" (VArr (outbounds_of t ++ [outbound]))
  | Some i =>
      let oldTag := str_or_empty (get (nth i (outbounds_of t) VUndef) "tag") in
      let t := set t "outbounds" (VArr (<[i := outbound]> (outbounds_of t))) in
      if negb (String.eqb oldTag "") && negb (String.eqb newTag "") && negb (String.eqb oldTag newTag)
      then propagateOutboundTagRename t oldTag newTag else t
  end.

(** [onRemoveOutboundByTag] of the page *)
Definition removeOutboundByTag (tag : string) (t : jsval) : jsval :=
  if negb (truthy (get t "outbounds")) then t
  else match find_index (fun o => is_str (get o "tag") tag) (outbounds_of t) with
       | Some (i, _) => set t "outbounds" (VArr (splice1 i (outbounds_of t)))
       | None => t
       end.

(** ** Renaming follows every reference *)

(** Every place of a template that names an outbound. *)
Definition outbound_refs (t : jsval) : list jsval :=
  map (fun r => get r "outboundTag") (ruleList t) ++
  map (fun b => get b "fallbackTag") (balancerList t) ++
  flat_map (fun b => as_list (get b "selector")) (balancerList t) ++
  map (fun o => get (get (get o "streamSettings") "sockopt") "dialerProxy") (outbounds_of t).

Definition outbound_tags (t : jsval) : list jsval := map (fun o => get o "tag") (outbounds_of t).

Lemma is_str_eq v s : is_str v s = true <-> v = VStr s.
Proof. destruct v; cbn; try done. rewrite String.eqb_eq. naive_solver. Qed.

Lemma get_str_obj v k s : get v k = VStr s -> exists o, v = VObj o.
Proof. destruct v; cbn; try done. eauto. Qed.

Lemma retag_rule_ref old new r : get (retag_rule old new r) "outboundTag" = retag old new (get r "outboundTag").
Proof.
  unfold retag_rule, retag. destruct (is_str (get r "outboundTag") old) eqn:E; [|done]. apply is_str_eq in E.
  apply get_set_eq. by eapply get_str_obj.
Qed.

Lemma retag_balancer_refs old new b :
  get (retag_balancer old new b) "fallbackTag" = retag old new (get b "fallbackTag") /\
  as_list (get (retag_balancer old new b) "selector") = map (retag old new) (as_list (get b "selector")).
Proof.
  unfold retag_balancer. set (c := if is_str (get b "fallbackTag") old then _ else b).
  assert (F : get c "fallbackTag" = retag old new (get b "fallbackTag")).
  { subst c. unfold retag. destruct (is_str (get b "fallbackTag") old) eqn:E; [|done]. apply is_str_eq in E. apply get_set_eq. by eapply get_str_obj. }
  assert (S : get c "selector" = get b "selector") by (subst c; case_match; [by rewrite get_set_ne|done]).
  clearbody c. rewrite S. destruct (get b "selector") eqn:E; rewrite ?S, ?E; try done.
  split; [by rewrite get_set_ne|]. rewrite get_set_eq; [done|]. by eapply get_VArr_obj.
Qed.

Lemma retag_dialer_spec old new o :
  get (get (get (retag_dialer old new o) "streamSettings") "sockopt") "dialerProxy" = retag old new (get (get (get o "streamSettings") "sockopt") "dialerProxy") /\
  get (retag_dialer old new o) "tag" = get o "tag".
Proof.
  unfold retag_dialer, retag. destruct (is_str (get (get (get o "streamSettings") "sockopt") "dialerProxy") old) eqn:E; [|done]. apply is_str_eq in E.
  destruct (get_str_obj _ _ _ E) as [so Eso]. assert (exists st, get o "streamSettings" = VObj st) as [st Est] by (destruct (get o "streamSettings"); cbn in Eso; try done; eauto).
  assert (exists x, o = VObj x) as [x ->] by (destruct o; cbn in Est; try done; eauto). split; [|by rewrite get_set_ne].
  rewrite get_set_eq by eauto. rewrite Est, get_set_eq by eauto. apply get_set_eq. rewrite <-Est. by rewrite Eso; eauto.
Qed.

Lemma outbounds_map f t : outbounds_of (map_outbounds f t) = map f (outbounds_of t).
Proof.
  unfold map_outbounds, outbounds_of. destruct (get t "outbounds") eqn:E; rewrite ?E; try done. destruct (get_VArr_obj _ _ _ E) as [o ->]. by rewrite get_set_eq by eauto.
Qed.

Lemma routing_map f t : get (map_outbounds f t) "routing" = get t "routing".
Proof. unfold map_outbounds. destruct (get t "outbounds"); try done. by rewrite get_set_ne. Qed.

Lemma flat_map_map {A B C} (f : A -> B) (g : B -> list C) l : flat_map g (map f l) = flat_map (fun x => g (f x)) l.
Proof. induction l as [|x l IH]; [done|]. cbn. by rewrite IH. Qed.

Lemma map_flat_map {A B C} (f : B -> C) (g : A -> list B) l : map f (flat_map g l) = flat_map (fun x => map f (g x)) l.
Proof. induction l as [|x l IH]; [done|]. cbn. by rewrite map_app, IH. Qed.

Lemma propagate_refs t old new : old <> "" -> new <> "" -> old <> new ->
  outbound_refs (propagateOutboundTagRename t old new) = map (retag old new) (outbound_refs t) /\
  outbound_tags (propagateOutboundTagRename t old new) = outbound_tags t.
Proof.
  intros H1 H2 H3. unfold propagateOutboundTagRename. rewrite !(proj2 (String.eqb_neq _ _)) by done. cbn [orb].
  set (t' := map_outbounds _ _).
  assert (R : ruleList t' = map (retag_rule old new) (ruleList t)).
  { subst t'. unfold ruleList. rewrite routing_map, routing_update_ne by done. by rewrite routing_update_eq. }
  assert (B : balancerList t' = map (retag_balancer old new) (balancerList t)).
  { subst t'. unfold balancerList. rewrite routing_map, routing_update_eq by done. by rewrite routing_update_ne. }
  assert (O : outbounds_of t' = map (retag_dialer old new) (outbounds_of t)).
  { subst t'. rewrite outbounds_map. unfold outbounds_of. by rewrite !get_update_routing_ne. }
  clearbody t'. unfold outbound_refs, outbound_tags. rewrite R, B, O. split.
  - rewrite !map_app, !map_map, flat_map_map, map_flat_map. f_equal; [apply map_ext; intros; apply retag_rule_ref|].
    f_equal; [apply map_ext; intros; apply retag_balancer_refs|]. f_equal; [|apply map_ext; intros; apply retag_dialer_spec].
    apply flat_map_ext. intros b. apply retag_balancer_refs.
  - rewrite map_map. apply map_ext. intros. apply retag_dialer_spec.
Qed.

Lemma retag_ne old new v : old <> new -> retag old new v <> VStr old.
Proof. intros H. unfold retag. destruct (is_str v old) eqn:E; [naive_solver|]. intros ->. by rewrite (proj2 (is_str_eq _ _) eq_refl) in E. Qed.

(** The template with one outbound replaced, nothing else touched. *)
Definition replace_outbound (i : nat) (outbound t : jsval) : jsval := set t "outbounds" (VArr (<[i := outbound]> (outbounds_of t))).

(** C7. Confirming an edit that changes the tag of an outbound: every reference of the template
    follows the rename, none names the old tag any more, and a reference that named an existing
    outbound still names one. *)
Theorem rename_keeps_references i ob t old new l :
  get t "outbounds" = VArr l -> (i < length l)%nat -> get (nth i l VUndef) "tag" = VStr old -> get ob "tag" = VStr new ->
  old <> "" -> new <> "" -> old <> new ->
  let t' := confirmOutbound (Some i) ob t in
  outbound_refs t' = map (retag old new) (outbound_refs (replace_outbound i ob t)) /\
  ~ In (VStr old) (outbound_refs t') /\
  (forall v, In v (outbound_tags t) -> In (retag old new v) (outbound_tags t')).
Proof.
  intros L Hi Ho Hn N1 N2 N3. cbv zeta.
  assert (E : confirmOutbound (Some i) ob t = propagateOutboundTagRename (replace_outbound i ob t) old new).
  { unfold confirmOutbound. assert (with_outbounds t = t) as -> by (unfold with_outbounds; by rewrite L).
    assert (O : outbounds_of t = l) by (unfold outbounds_of; by rewrite L). cbv zeta. rewrite O, Ho, Hn. cbn [str_or_empty].
    rewrite !(proj2 (String.eqb_neq _ _)) by done. cbn [negb andb]. unfold replace_outbound. by rewrite O. }
  rewrite E. destruct (propagate_refs (replace_outbound i ob t) old new N1 N2 N3) as [R T]. rewrite R, T. split; [done|]. split.
  - intros (v & Hv & _)%in_map_iff. by apply retag_ne in Hv.
  - assert (O : outbounds_of (replace_outbound i ob t) = <[i := ob]> l).
    { unfold replace_outbound, outbounds_of. destruct (get_VArr_obj _ _ _ L) as [o ->]. rewrite L. by rewrite get_set_eq by eauto. }
    intros v. unfold outbound_tags. rewrite O. unfold outbounds_of. rewrite L. cbn [as_list]. intros (x & <- & Hx)%in_map_iff.
    unfold retag. destruct (is_str (get x "tag") old) eqn:S.
    + apply in_map_iff. exists ob. split; [done|]. apply list_elem_of_In, list_elem_of_insert. done.
    + apply in_map_iff. exists x. split; [done|]. apply list_elem_of_In in Hx as Hx'. apply list_elem_of_lookup in Hx' as [j Hj].
      apply list_elem_of_In, list_elem_of_lookup. exists j. rewrite list_lookup_insert_ne; [done|]. intros <-.
      apply nth_lookup_Some with (d := VUndef) in Hj. rewrite Hj in Ho. by rewrite Ho, (proj2 (is_str_eq _ _) eq_refl) in S.
Qed.

Definition tagged (tag : string) : jsval := VObj [("tag", VStr tag); ("protocol", VStr "vless")].

Definition sample_routing : jsval :=
  syncObservatories (VObj [("outbounds", VArr [tagged "proxy"; tagged "direct"]);
        ("routing", VObj [("rules", VArr [VObj [("outboundTag", VStr "proxy")]]);
                          ("balancers", VArr [VObj [("tag", VStr "lb"); ("selector", strings ["proxy"; "direct"]); ("strategy", VObj [("type", VStr "leastPing")])]])])]).

Lemma rename_keeps_references_witness :
  ~ In (VStr "proxy") (outbound_refs (confirmOutbound (Some 0%nat) (tagged "vps") sample_routing)).
Proof.
  refine (proj1 (proj2 (rename_keeps_references 0 (tagged "vps") sample_routing "proxy" "vps" [tagged "proxy"; tagged "direct"] _ _ _ _ _ _ _)));
    try reflexivity; try discriminate. cbn. lia.
Defined.

(** The rename does not reach the observers: they keep watching the old tag, although the balancers
    whose selectors they mirror were renamed. *)
Example rename_leaves_observers :
  syncObservatories sample_routing = sample_routing /\
  get (get (confirmOutbound (Some 0%nat) (tagged "vps") sample_routing) "observatory") "subjectSelector" = strings ["proxy"; "direct"] /\
  get (get (syncObservatories (confirmOutbound (Some 0%nat) (tagged "vps") sample_routing)) "observatory") "subjectSelector" = strings ["vps"; "direct"].
Proof. repeat split; reflexivity. Qed.

(** Removing an outbound by tag leaves the rules that route to it. *)
Example remove_by_tag_dangles :
  In (VStr "proxy") (outbound_refs (removeOutboundByTag "proxy" sample_routing)) /\ ~ In (VStr "proxy") (outbound_tags (removeOutboundByTag "proxy" sample_routing)).
Proof. split; [left; reflexivity|]. vm_compute. intros [H|[]]. discriminate. Qed.

(** ** The rule lists of the basic controls *)

Section RuleLists.
Context (tag property : string).
Hypothesis Hp : property <> "outboundTag".

Abbreviation matches := (rule_matches tag property).

(** What the getter reads of a list of rules. *)
Definition read (rules : list jsval) : list jsval := flat_map (fun r => if matches r then as_list (get r property) else []) rules.

(** The rules the controls do not show. *)
Definition others (rules : list jsval) : list jsval := List.filter (fun r => negb (matches r)) rules.

Lemma read_app a b : read (a ++ b) = read a ++ read b.
Proof. apply flat_map_app. Qed.

Lemma set_rule_matches r data : matches r = true -> matches (set r property (VArr data)) = true /\ get (set r property (VArr data)) property = VArr data.
Proof.
  destruct r as [| | | | | |r]; try done. cbn [rule_matches set get]. rewrite !andb_true_iff. intros [[H1 H2] H3].
  rewrite !obj_has_set, obj_get_set_ne, obj_get_set_eq by done. by rewrite String.eqb_refl, H2, H3, orb_true_r.
Qed.

Lemma set_rules_done data rules : read (set_rules tag property data true rules) = [] /\ others (set_rules tag property data true rules) = others rules.
Proof.
  unfold read, others. induction rules as [|r rules [IH1 IH2]]; [done|]. cbn [set_rules flat_map List.filter]. destruct (matches r) eqn:M; cbn [negb andb]; [done|].
  cbn [flat_map List.filter]. rewrite M. cbn [negb]. by rewrite IH1, IH2.
Qed.

Lemma set_rules_spec data rules : existsb matches rules = true ->
  read (set_rules tag property data false rules) = data /\ others (set_rules tag property data false rules) = others rules.
Proof.
  unfold read, others. induction rules as [|r rules IH]; [done|]. intros H. cbn [set_rules existsb flat_map List.filter] in *. destruct (matches r) eqn:M.
  - cbn [orb negb andb]. clear IH H. destruct data as [|d data].
    + assert (E : forall rules, read (set_rules tag property [] false rules) = [] /\ others (set_rules tag property [] false rules) = others rules); [|apply E].
      clear. intros rules. unfold read, others. induction rules as [|r rules [IH1 IH2]]; [done|]. cbn [set_rules flat_map List.filter]. destruct (matches r) eqn:M; cbn [negb andb]; [done|].
      cbn [flat_map List.filter]. rewrite M. cbn [negb]. by rewrite IH1, IH2.
    + destruct (set_rule_matches r (d :: data) M) as [M' G]. destruct (set_rules_done (d :: data) rules) as [E1 E2]. unfold read, others in E1, E2.
      cbn [flat_map List.filter]. rewrite M', G. cbn [negb as_list]. by rewrite E1, E2, app_nil_r.
  - cbn [orb negb] in *. destruct (IH H) as [E1 E2]. cbn [flat_map List.filter]. rewrite M. cbn [negb]. by rewrite E1, E2.
Qed.

Lemma new_rule_read data : property <> "type" -> read [new_rule tag property data] = data /\ others [new_rule tag property data] = [].
Proof.
  intros Ht. unfold read, others, new_rule. cbn [flat_map List.filter rule_matches get]. rewrite !obj_has_set, obj_get_set_ne, obj_get_set_eq by done.
  cbn. rewrite !String.eqb_refl. cbn. rewrite orb_true_r. cbn. by rewrite app_nil_r.
Qed.

End RuleLists.

Lemma read_some tag property rules : read tag property rules <> [] -> existsb (rule_matches tag property) rules = true.
Proof.
  intros H. apply not_false_iff_true. intros E. apply H. clear H. induction rules as [|r rules IH]; [done|]. cbn in *. apply orb_false_iff in E as [-> E]. by apply IH.
Qed.

Lemma ruleList_setter t tag property data o r : t = VObj o -> get t "routing" = VObj r ->
  ruleList (ruleSetter t tag property data) =
  match ruleGetter t tag property with [] => ruleList t ++ [new_rule tag property data] | _ => set_rules tag property data false (ruleList t) end.
Proof.
  intros -> R. unfold ruleSetter. rewrite R. cbn [truthy negb]. unfold ruleList at 1. rewrite get_set_eq by eauto. by rewrite get_set_eq by eauto.
Qed.

(** The list a basic control shows after it was set is the list it was set to, and the rules it
    does not show are the same rules in the same order. *)
Theorem ruleSetter_shown t tag property data o r :
  t = VObj o -> get t "routing" = VObj r -> property <> "outboundTag" -> property <> "type" ->
  let t' := ruleSetter t tag property data in
  ruleGetter t' tag property = data /\
  List.filter (fun rule => negb (rule_matches tag property rule)) (ruleList t') = List.filter (fun rule => negb (rule_matches tag property rule)) (ruleList t).
Proof.
  intros T R P1 P2. cbv zeta. unfold ruleGetter at 1. fold (read tag property (ruleList (ruleSetter t tag property data))).
  fold (others tag property (ruleList (ruleSetter t tag property data))). fold (others tag property (ruleList t)).
  rewrite (ruleList_setter t tag property data o r T R). unfold ruleGetter. fold (read tag property (ruleList t)). destruct (read tag property (ruleList t)) as [|x l] eqn:E.
  - destruct (new_rule_read tag property P1 data P2) as [N1 N2]. rewrite read_app, E, N1. split; [done|]. unfold others in *. by rewrite filter_app, N2, app_nil_r.
  - apply set_rules_spec; [done|]. apply read_some. by rewrite E.
Qed.

Lemma ruleSetter_shown_witness :
  ruleGetter (ruleSetter sample_routing "proxy" "domain" [VStr "geosite:cn"]) "proxy" "domain" = [VStr "geosite:cn"].
Proof.
  refine (proj1 (ruleSetter_shown sample_routing "proxy" "domain" [VStr "geosite:cn"] _ _ eq_refl eq_refl _ _)); discriminate.
Defined.

(** Clearing one list of a rule that has two removes the other one with it. *)
Example ruleSetter_drops_rule :
  let rule := VObj [("outboundTag", VStr "direct"); ("domain", strings ["a.example"]); ("ip", strings ["geoip:private"])] in
  let t := VObj [("routing", VObj [("rules", VArr [rule])])] in
  ruleGetter t "direct" "ip" = [VStr "geoip:private"] /\ ruleGetter (ruleSetter t "direct" "domain" []) "direct" "ip" = [].
Proof. split; reflexivity. Qed.

(** The controls then remove the outbound although a dialer still goes through it. *)
Example syncOutbound_dangles :
  let ob := VObj [("tag", VStr "chained"); ("streamSettings", VObj [("sockopt", VObj [("dialerProxy", VStr "direct")])])] in
  let t := VObj [("outbounds", VArr [ob; directSettings]); ("routing", VObj [("rules", VArr [])])] in
  In (VStr "direct") (outbound_refs (syncOutbound t "direct" directSettings)) /\ ~ In (VStr "direct") (outbound_tags (syncOutbound t "direct" directSettings)).
Proof. split; [left; reflexivity|]. vm_compute. intros [H|[]]. discriminate. Qed.

(** ** The default outbound *)

Lemma find_index_spec p l : match find_index p l with
  | Some (i, x) => l !! i = Some x /\ p x = true
  | None => forall x, In x l -> p x = false
  end.
Proof.
  induction l as [|o l IH]; [by intros x []|]. cbn [find_index]. destruct (p o) eqn:E; [by split|]. destruct (find_index p l) as [[i x]|]; [exact IH|].
  intros x [<-|H]; [done|by apply IH].
Qed.

Lemma with_outbounds_list t o : t = VObj o -> get (with_outbounds t) "outbounds" = VArr (outbounds_of t) /\ exists o', with_outbounds t = VObj o'.
Proof.
  intros ->. unfold with_outbounds, outbounds_of. destruct (get (VObj o) "outbounds") eqn:E; (split; [|eauto; cbn; eauto]); rewrite ?get_set_eq by eauto; done.
Qed.

Lemma outbounds_set t o l : t = VObj o -> outbounds_of (set t "outbounds" (VArr l)) = l.
Proof. intros ->. unfold outbounds_of. by rewrite get_set_eq by eauto. Qed.

Lemma splice1_perm i (l : list jsval) x : l !! i = Some x -> Permutation (x :: splice1 i l) l.
Proof. intros H. unfold splice1. rewrite <-(take_drop_middle l i x H) at 3. by rewrite Permutation_middle. Qed.

(** Choosing a default outbound makes it the default and loses none: the outbounds are the same
    ones with the chosen one first, which is created if it is direct or blocked and there is none. *)
Theorem setDefault_chosen t tag o :
  t = VObj o -> tag <> "" -> In (VStr tag) (outbound_tags t) \/ tag = "direct" \/ tag = "blocked" ->
  let t' := setDefaultOutboundTag t tag in
  getDefaultOutboundTag t' = tag /\
  exists created, Permutation (outbounds_of t') (created ++ outbounds_of t) /\ (In (VStr tag) (outbound_tags t) -> created = []).
Proof.
  intros T N K. cbv zeta. unfold setDefaultOutboundTag. rewrite (proj2 (String.eqb_neq _ _) N). destruct (with_outbounds_list t o T) as [W [o' Wo]].
  assert (O : outbounds_of (with_outbounds t) = outbounds_of t) by (unfold outbounds_of at 1; by rewrite W). rewrite O.
  pose proof (find_index_spec (fun o => is_str (get o "tag") tag) (outbounds_of t)) as F.
  assert (G : forall t' x l, outbounds_of t' = x :: l -> get x "tag" = VStr tag -> getDefaultOutboundTag t' = tag).
  { intros t' x l E1 E2. unfold getDefaultOutboundTag. rewrite E1. cbn [nth]. by rewrite E2, (proj2 (String.eqb_neq _ _) N). }
  destruct (find_index _ (outbounds_of t)) as [[[|i] x]|].
  - destruct F as [F1 F2%is_str_eq]. destruct (outbounds_of t) as [|y l] eqn:E; [done|]. injection F1 as ->.
    split; [apply (G (with_outbounds t) x l); [exact O|exact F2]|]. exists []. split; [by rewrite O|done].
  - destruct F as [F1 F2%is_str_eq]. rewrite (outbounds_set _ o' _ Wo). split; [apply (G _ x (splice1 (S i) (outbounds_of t))); [by apply (outbounds_set _ o')|done]|].
    exists []. split; [by apply splice1_perm|done].
  - assert (A : ~ In (VStr tag) (outbound_tags t)). { intros (x & E & Hx)%in_map_iff. specialize (F x Hx). by rewrite E, (proj2 (is_str_eq _ _) eq_refl) in F. }
    destruct K as [K|[->| ->]]; [done| |]; cbn [String.eqb Ascii.eqb Bool.eqb]; rewrite (outbounds_set _ o' _ Wo).
    + split; [by eapply G; [apply (outbounds_set _ o')|]|]. by exists [directSettings].
    + split; [by eapply G; [apply (outbounds_set _ o')|]|]. by exists [blockedSettings].
Qed.

Lemma setDefault_chosen_witness : getDefaultOutboundTag (setDefaultOutboundTag sample_routing "blocked") = "blocked".
Proof. refine (proj1 (setDefault_chosen sample_routing "blocked" _ eq_refl _ _)); [discriminate|]. right; right; reflexivity. Defined.

(** ** The strategy of the direct outbound *)

Lemma find_index_insert p l : forall i x y, find_index p l = Some (i, x) -> p y = true -> find_index p (<[i := y]> l) = Some (i, y).
Proof.
  induction l as [|o l IH]; [done|]. intros i x y. cbn [find_index]. destruct (p o) eqn:E.
  - intros [= <- <-] H. cbn. by rewrite H.
  - destruct (find_index p l) as [[j z]|] eqn:F; [|done]. intros [= <- <-] H. change (<[S j := y]> (o :: l)) with (o :: <[j := y]> l). cbn [find_index]. rewrite E. by rewrite (IH j z y).
Qed.

Lemma find_index_app p l x : find_index p l = None -> p x = true -> find_index p (l ++ [x]) = Some (length l, x).
Proof.
  induction l as [|o l IH]; cbn [find_index app length]; intros H Hx; [by rewrite Hx|]. destruct (p o); [done|]. destruct (find_index p l) as [[]|]; [done|]. by rewrite IH.
Qed.

Lemma ensure_found t o t0 i ob : t = VObj o -> ensureDirectFreedomOutbound t = (t0, Some (i, ob)) ->
  directFreedom t0 = Some (i, ob) /\ exists o', t0 = VObj o'.
Proof.
  intros T. unfold ensureDirectFreedomOutbound. destruct (with_outbounds_list t o T) as [W [o' Wo]]. destruct (directFreedom (with_outbounds t)) as [f|] eqn:F.
  - intros [= <- ->]. eauto.
  - destruct (isDirectTagTaken _); [done|]. intros [= <- <- <-]. split; [|rewrite Wo; cbn; eauto].
    unfold directFreedom in *. rewrite (outbounds_set _ o' _ Wo). by apply find_index_app.
Qed.

(** An object, or nothing. *)
Definition object_or_nullish (v : jsval) : bool := match v with VObj _ => true | v => is_nullish v end.

Lemma or_nullish_obj v : object_or_nullish v = true -> or_nullish v (VObj []) = VObj (asObject v).
Proof. by destruct v. Qed.

(** The nested objects [setDirectFreedomStrategy] writes into. *)
Definition freedom_shape (ob : obj) : Prop :=
  object_or_nullish (obj_get ob "settings") = true /\ object_or_nullish (obj_get ob "streamSettings") = true /\
  object_or_nullish (obj_get (asObject (obj_get ob "streamSettings")) "sockopt") = true.

Lemma strategy_name next : In next OutboundDomainStrategies -> targetStrategyFromWire (VStr next) = next.
Proof. intros H. repeat (destruct H as [<-|H]; [reflexivity|]). destruct H. Qed.

(** Where the strategy ends up. *)
Lemma put_or_delete_obj o k x : set_or_delete (VObj o) k (VObj x) = VObj (match x with [] => obj_del o k | _ => obj_set o k (VObj x) end).
Proof. by destruct x. Qed.

Lemma put_or_delete_get o k x : asObject (obj_get (match x with [] => obj_del o k | _ => obj_set o k (VObj x) end) k) = x.
Proof. destruct x; [by rewrite obj_get_del_eq|by rewrite obj_get_set_eq]. Qed.

Lemma put_or_delete_ne o k x k' : k <> k' -> obj_get (match x with [] => obj_del o k | _ => obj_set o k (VObj x) end) k' = obj_get o k'.
Proof. intros H. destruct x; [by rewrite obj_get_del_ne|by rewrite obj_get_set_ne]. Qed.

(** The settings without the legacy keys. *)
Definition without_legacy (s : obj) : obj := obj_del (obj_del s "domainStrategy") "targetStrategy".

Lemma without_legacy_get s : obj_get (without_legacy s) "domainStrategy" = VUndef /\ obj_get (without_legacy s) "targetStrategy" = VUndef.
Proof. unfold without_legacy. split; [by rewrite obj_get_del_ne, obj_get_del_eq|apply obj_get_del_eq]. Qed.

Lemma strategy_outbound_fields next ob : freedom_shape ob -> exists ob', strategy_outbound next (VObj ob) = VObj ob' /\
  (forall k, k <> "settings" -> k <> "streamSettings" -> obj_get ob' k = obj_get ob k) /\
  asObject (obj_get ob' "settings") = without_legacy (asObject (obj_get ob "settings")) /\
  obj_get (asObject (obj_get (asObject (obj_get ob' "streamSettings")) "sockopt")) "domainStrategy" = (if String.eqb next "AsIs" then VUndef else VStr next).
Proof.
  intros (S1 & S2 & S3). unfold strategy_outbound. cbn [get]. rewrite or_nullish_obj by done. cbn [fold_left LEGACY_FREEDOM_STRATEGY_KEYS del set get].
  rewrite obj_get_set_ne by done. rewrite (or_nullish_obj _ S2). cbn [get]. rewrite (or_nullish_obj _ S3).
  set (so := asObject (obj_get (asObject (obj_get ob "streamSettings")) "sockopt")). set (st := asObject (obj_get ob "streamSettings")).
  set (so' := if String.eqb next "AsIs" then obj_del so "domainStrategy" else obj_set so "domainStrategy" (VStr next)).
  replace (if String.eqb next "AsIs" then del (VObj so) "domainStrategy" else set (VObj so) "domainStrategy" (VStr next)) with (VObj so') by (subst so'; by destruct (String.eqb next "AsIs")).
  rewrite !put_or_delete_obj. eexists. split; [reflexivity|]. split; [|split].
  - intros k K1 K2. rewrite put_or_delete_ne by done. by rewrite obj_get_set_ne.
  - rewrite put_or_delete_ne by done. by rewrite obj_get_set_eq.
  - rewrite put_or_delete_get. rewrite put_or_delete_get. subst so'. destruct (String.eqb next "AsIs"); [apply obj_get_del_eq|apply obj_get_set_eq].
Qed.

(** Setting the strategy of the direct outbound: the strategy shown afterwards is the one chosen,
    unless the outbound itself carries a legacy strategy at its root, which is then shown as
    before. *)
Theorem strategy_shown t next o t0 i ob :
  t = VObj o -> In next OutboundDomainStrategies -> ensureDirectFreedomOutbound t = (t0, Some (i, VObj ob)) -> freedom_shape ob ->
  directFreedomStrategy (setDirectFreedomStrategy t next) =
  let root := targetStrategyFromWire (obj_get ob "targetStrategy") in
  if String.eqb root "" || String.eqb root "AsIs" then next else root.
Proof.
  intros T N E S. unfold setDirectFreedomStrategy. rewrite E. destruct (ensure_found _ _ _ _ _ T E) as [F [o' ->]].
  destruct (strategy_outbound_fields next ob S) as (ob' & Eo & K & Es & Ed). rewrite Eo. unfold directFreedomStrategy, directFreedom in *.
  rewrite (outbounds_set _ o' _ eq_refl). rewrite (find_index_insert _ _ _ _ _ F).
  2:{ pose proof (find_index_spec isDirectFreedomOutbound (outbounds_of (VObj o'))) as G. rewrite F in G. destruct G as [_ G]. unfold isDirectFreedomOutbound in *. cbn [get] in *. by rewrite !K. }
  cbn [asObject]. unfold freedomDomainStrategyFromWire. destruct (without_legacy_get (asObject (obj_get ob "settings"))) as [L1 L2]. rewrite Es, L1, L2, Ed, K by done.
  cbv zeta. change (asString VUndef "") with "". cbn [String.eqb]. change (targetStrategyFromWire VUndef) with "". set (root := targetStrategyFromWire _).
  assert (R : targetStrategyFromWire (if String.eqb next "AsIs" then VUndef else VStr next) = if String.eqb next "AsIs" then "" else next) by (destruct (String.eqb next "AsIs"); [done|by apply strategy_name]).
  rewrite R. clearbody root.
  assert (Nn : String.eqb (if String.eqb next "AsIs" then "" else next) "" = String.eqb next "AsIs").
  { destruct (String.eqb next "AsIs"); [done|]. apply String.eqb_neq. intros ->. repeat (destruct N as [N|N]; [discriminate|]). destruct N. }
  destruct (String.eqb root "") eqn:E1, (String.eqb root "AsIs") eqn:E2; cbn [negb andb orb]; change (String.eqb "" "") with true; cbn [negb andb orb];
    rewrite ?Nn, ?E1, ?E2; cbn [negb andb]; try done; destruct (String.eqb_spec next "AsIs") as [Hx|]; rewrite ?E1; done.
Qed.

Definition legacy_direct : obj :=
  [("protocol", VStr "Freedom"); ("tag", VStr "direct"); ("targetStrategy", VStr "useipv6"); ("settings", VObj [("domainStrategy", VStr "UseIP")])].

(** A strategy at the root of the outbound survives the choice of another one. *)
Lemma strategy_shown_witness : let t := VObj [("outbounds", VArr [VObj legacy_direct])] in
  directFreedomStrategy (setDirectFreedomStrategy t "UseIPv4") = "UseIPv6".
Proof.
  cbv zeta. rewrite (strategy_shown (VObj [("outbounds", VArr [VObj legacy_direct])]) "UseIPv4" [("outbounds", VArr [VObj legacy_direct])] (VObj [("outbounds", VArr [VObj legacy_direct])]) 0%nat legacy_direct eq_refl); try reflexivity.
  - right; right; left; reflexivity.
  - repeat split; reflexivity.
Defined.
