(* ===== verification/StreamForm.v ===== *)
(** * Saving and reopening the stream of an outbound

    [stripUiOnlyStreamFields] after [hydrateStreamForm] (OutboundForm.v), over the normaliser of
    StreamWire.v: a stream that was saved, reopened and saved again is unchanged, the defaults the
    editor fills into [xmux] included. *)
From S2P Require Import Prelude JsString JsValue JsObject StreamWire LinkParser OutboundForm.
From Stdlib Require Import Ascii.

(** ** Objects by their keys and reads *)

Lemma keys_set o k v : obj_keys (obj_set o k v) = if obj_has o k then obj_keys o else obj_keys o ++ [k].
Proof.
  unfold obj_keys, obj_has. induction o as [|[j w] o IH]; [done|]. cbn. destruct (String.eqb_spec k j) as [->|]; cbn; [done|]. rewrite IH.
  by destruct (existsb _ o).
Qed.

Lemma keys_del o k : obj_keys (obj_del o k) = List.filter (fun j => negb (String.eqb k j)) (obj_keys o).
Proof. unfold obj_keys, obj_del. induction o as [|[j w] o IH]; [done|]. cbn. destruct (String.eqb k j); cbn; by rewrite IH. Qed.

Lemma keys_assign l o : obj_wf l -> obj_keys (assign l o) = obj_keys o ++ List.filter (fun k => negb (obj_has o k)) (obj_keys l).
Proof.
  revert o. induction l as [|[n v] l IH]; intros o W; [by rewrite app_nil_r|]. unfold obj_wf in W. cbn [obj_keys map fst] in W.
  inversion W as [|? ? Hn W']; subst. change (assign ((n, v) :: l) o) with (assign l (obj_set o n v)). rewrite IH, keys_set by done.
  cbn [obj_keys map fst List.filter]. change (map fst l) with (obj_keys l).
  assert (E : List.filter (fun k => negb (obj_has (obj_set o n v) k)) (obj_keys l) = List.filter (fun k => negb (obj_has o k)) (obj_keys l)).
  { apply List.filter_ext_in. intros k Hk. rewrite obj_has_set. destruct (String.eqb_spec k n) as [->|]; [|done]. destruct Hn. by apply list_elem_of_In. }
  rewrite E. destruct (obj_has o n); cbn [negb]; [done|]. by rewrite <-app_assoc.
Qed.

Lemma assign_wf l o : obj_wf o -> obj_wf (assign l o).
Proof. revert o. induction l as [|[n v] l IH]; intros o W; [done|]. apply IH. by apply obj_wf_set. Qed.

(** ** The defaults of [xmux] *)

Lemma filter_nothing {A} (f : A -> bool) l : (forall x, In x l -> f x = false) -> List.filter f l = [].
Proof. intros H. induction l as [|x l IH]; [done|]. cbn. rewrite H by (by left). apply IH. intros y Hy. apply H. by right. Qed.

Lemma filter_everything {A} (f : A -> bool) l : (forall x, In x l -> f x = true) -> List.filter f l = l.
Proof. intros H. induction l as [|x l IH]; [done|]. cbn. rewrite H by (by left). f_equal. apply IH. intros y Hy. apply H. by right. Qed.

(** Filling in the defaults again changes nothing, but for a default that was removed. *)
Lemma assign_again x d k : obj_wf x -> obj_wf d -> obj_has d k = true ->
  assign (obj_del (assign x d) k) d = obj_set (assign x d) k (obj_get d k).
Proof.
  intros Wx Wd Hk. set (a := assign x d). assert (Wa : obj_wf a) by by apply assign_wf.
  assert (Wdel : obj_wf (obj_del a k)) by by apply obj_wf_del.
  assert (Ka : forall j, obj_has d j = true -> obj_has a j = true).
  { intros j Hj. apply obj_has_keys. subst a. rewrite keys_assign by done. apply in_or_app. left. by apply obj_has_keys. }
  apply obj_ext; [by apply assign_wf| |].
  - rewrite keys_assign, keys_set, (Ka k Hk), keys_del by done. subst a. rewrite keys_assign by done. f_equal.
    set (extra := List.filter (fun j => negb (obj_has d j)) (obj_keys x)). rewrite !filter_app.
    rewrite (filter_nothing (fun j => negb (obj_has d j)) (List.filter _ (obj_keys d))).
    2: { intros j [Hj _]%filter_In. apply obj_has_keys in Hj. by rewrite Hj. }
    cbn [app]. rewrite (filter_everything _ extra), (filter_everything _ extra); [done| |].
    all: intros j [Hx Hj]%filter_In. all: try done. all: destruct (String.eqb_spec k j) as [<-|]; try done. all: by rewrite Hk in Hj.
  - intros j. rewrite get_assign, obj_has_del, obj_get_set_cases by done. destruct (String.eqb_spec k j) as [<-|E]; cbn [negb andb]; [done|].
    destruct (obj_has a j) eqn:Ej; [by apply obj_get_del_ne|]. rewrite (obj_has_get a j Ej). apply obj_has_get.
    apply not_true_iff_false. intros Hd%Ka. congruence.
Qed.

Lemma obj_del_set o k v : obj_del (obj_set o k v) k = obj_del o k.
Proof.
  unfold obj_del. induction o as [|[j w] o IH]; cbn; [by rewrite String.eqb_refl|]. destruct (String.eqb_spec k j) as [->|E]; cbn.
  - by rewrite String.eqb_refl.
  - rewrite (proj2 (String.eqb_neq k j)) by done. cbn. by rewrite IH.
Qed.

Lemma xmux_defaults_wf : obj_wf XMUX_DEFAULTS.
Proof. apply (bool_decide_unpack _). by vm_compute. Qed.

Lemma assign_idem x d : obj_wf x -> obj_wf d -> assign (assign x d) d = assign x d.
Proof.
  intros Wx Wd. apply obj_ext; [by apply assign_wf| |].
  - rewrite keys_assign by (by apply assign_wf). rewrite keys_assign by done. rewrite filter_app.
    rewrite (filter_nothing _ (obj_keys d)) by (intros j Hj; apply obj_has_keys in Hj; by rewrite Hj). cbn [app]. f_equal.
    apply filter_everything. by intros j [_ Hj]%filter_In.
  - intros j. rewrite get_assign by (by apply assign_wf). destruct (obj_has (assign x d) j) eqn:E; [done|].
    rewrite (obj_has_get _ _ E). apply obj_has_get. apply not_true_iff_false. intros Hd.
    assert (obj_has (assign x d) j = true); [|congruence]. apply obj_has_keys. rewrite keys_assign by done. apply in_or_app. left. by apply obj_has_keys.
Qed.

(** The limits resolved, the defaults filled in again, and the limits resolved again. *)
Lemma xmux_again x (m := resolveXmuxExclusivity (assign x XMUX_DEFAULTS)) : obj_wf x ->
  resolveXmuxExclusivity (assign m XMUX_DEFAULTS) = m.
Proof.
  intros W. subst m. set (a := assign x XMUX_DEFAULTS). unfold resolveXmuxExclusivity at 2 3.
  destruct (upper_positive (obj_get a "maxConnections") && upper_positive (obj_get a "maxConcurrency")) eqn:E.
  - subst a. rewrite assign_again by (done || apply xmux_defaults_wf). set (a := assign x XMUX_DEFAULTS) in *. unfold resolveXmuxExclusivity.
    rewrite !obj_get_set_cases. cbn [String.eqb Ascii.eqb Bool.eqb]. apply andb_true_iff in E as [-> _].
    replace (upper_positive (obj_get XMUX_DEFAULTS "maxConcurrency")) with true by (by vm_compute). cbn [andb]. apply obj_del_set.
  - subst a. rewrite assign_idem by (done || apply xmux_defaults_wf). unfold resolveXmuxExclusivity. by rewrite E.
Qed.

(** ** Passes with fixed points *)

Lemma entrywise_fixed f o k v : obj_wf o -> entrywise f o = o -> In (k, v) o -> f k v = Some v.
Proof.
  intros W E Hin. assert (H : In (k, v) (entrywise f o)) by by rewrite E. apply In_entrywise in H as (w & Hw & Ew).
  by rewrite <-(In_get o k w W Hw), (In_get o k v W Hin) in Ew.
Qed.

(** An entry that a pass maps to what is there. *)
Lemma entrywise_restores f o k v : obj_wf o -> entrywise f o = o -> obj_has o k = true -> f k v = Some (obj_get o k) -> entrywise f (obj_set o k v) = o.
Proof.
  intros W E Hk Hf. assert (F : forall j w, In (j, w) o -> f j w = Some w) by (intros j w; by apply entrywise_fixed). clear E. unfold obj_wf in W.
  induction o as [|[j w] o IH]; [done|]. cbn in W. inversion W as [|? ? Hn W']; subst. cbn [obj_set].
  change (obj_has ((j, w) :: o) k) with (String.eqb k j || obj_has o k) in Hk. cbn [obj_get] in Hf. destruct (String.eqb_spec k j) as [<-|Ej].
  - unfold entrywise. cbn. rewrite Hf. cbn. f_equal. apply (entrywise_id f). intros j' w' Hin. apply F. by right.
  - unfold entrywise. cbn. rewrite (F j w) by (by left). cbn. f_equal. apply IH; try done. intros j' w' Hin. apply F. by right.
Qed.

(** ** Empty strings *)

Definition no_empty (o : obj) : Prop := forall k v, In (k, v) o -> is_str v "" = false.

Lemma dropEmpty_none o : no_empty o -> OutboundForm.dropEmptyStrings o = o.
Proof. intros H. apply filter_everything. intros [k v] Hin. cbn. by rewrite (H k v Hin). Qed.

Lemma no_empty_drop o : no_empty (OutboundForm.dropEmptyStrings o).
Proof. intros k v [_ H]%filter_In. cbn in H. by apply negb_true_iff in H. Qed.

Lemma In_set o k v j w : In (j, w) (obj_set o k v) -> (j = k /\ w = v) \/ In (j, w) o.
Proof.
  induction o as [|[k' v'] o IH]; cbn; [intros [[= <- <-]|[]]; by left|]. destruct (String.eqb k k').
  - intros [[= <- <-]|H]; [by left|right; by right].
  - intros [H|H]; [right; by left|]. destruct (IH H); [by left|right; by right].
Qed.

Lemma no_empty_set o k v : no_empty o -> is_str v "" = false -> no_empty (obj_set o k v).
Proof. intros H Hv j w [[_ ->]|Hin]%In_set; [done|by eapply H]. Qed.

Lemma no_empty_del o k : no_empty o -> no_empty (obj_del o k).
Proof. intros H j w Hin. unfold obj_del in Hin. apply filter_In in Hin as [Hin _]. by eapply H. Qed.

Lemma no_empty_lift o a b : no_empty o -> no_empty (lift o a b).
Proof.
  intros H. unfold lift. apply no_empty_del. destruct (_ && negb (is_str (obj_get o a) "")) eqn:E; [|done]. apply no_empty_set; [done|].
  apply andb_true_iff in E as [_ E]. by apply negb_true_iff in E.
Qed.

Lemma no_empty_xhttp o : obj_wf o -> no_empty o -> no_empty (normalizeXhttpForWire o outbound).
Proof.
  intros W H k v. rewrite normalizeXhttp_pass by done. intros (w & Hin & E)%In_entrywise.
  assert (Hw : is_str w "" = false) by (by apply (no_empty_lift _ "sessionKey" "sessionIDKey" (no_empty_lift o "sessionPlacement" "sessionIDPlacement" H) k)).
  revert E. unfold xhttp_pass, andThen, fdrops, fupdate. destruct (dropped _ k w); [done|].
  destruct (String.eqb "xmux" k); [unfold xmux_value|]; (destruct (dropped _ k _); [done|]); intros [= <-]; [by destruct w|done].
Qed.

(** ** The XHTTP settings *)

Section Xhttp.
Context (d : obj) (d_wf : obj_wf d) (d_full : no_empty d).

Definition saved_xhttp : obj := normalizeXhttpForWire d outbound.

Lemma saved_wf : obj_wf saved_xhttp.
Proof. by apply normalizeXhttp_wf. Qed.

Lemma saved_lacks k : In k ["sessionPlacement"; "sessionKey"; "enableXmux"] -> obj_has saved_xhttp k = false.
Proof. intros H. by apply xhttp_absent. Qed.

Lemma xmux_not_dropped mode v : dropped (xhttp_drops outbound mode) "xmux" v = false.
Proof.
  apply not_named. unfold xhttp_drops. rewrite !map_app, !in_app_iff. intros [H|[H|H]]; [cbn in H; intuition discriminate..|].
  revert H. unfold mode_drops. destruct (String.eqb mode "stream-one"), (String.eqb mode "stream-up"), (String.eqb mode "packet-up"); cbn; intuition discriminate.
Qed.

Lemma saved_lifted v : liftLegacyXhttpSessionKeys (obj_set saved_xhttp "xmux" v) = obj_set saved_xhttp "xmux" v.
Proof.
  unfold liftLegacyXhttpSessionKeys.
  rewrite !lift_absent; [done|..]; rewrite ?lift_absent; rewrite obj_has_set, saved_lacks by (cbn; tauto); done.
Qed.

(** Another [xmux] block that resolves to the saved one. *)
Lemma renormalized m x : obj_get saved_xhttp "xmux" = VObj m -> resolveXmuxExclusivity x = m ->
  normalizeXhttpForWire (obj_set saved_xhttp "xmux" (VObj x)) outbound = saved_xhttp.
Proof.
  intros Hm Hx. assert (Hh : obj_has saved_xhttp "xmux" = true) by (apply obj_get_has; by rewrite Hm).
  assert (E : normalizeXhttpForWire saved_xhttp outbound = saved_xhttp) by (apply normalizeXhttp_idem; [done|by left]).
  rewrite normalizeXhttp_pass in E by apply saved_wf. rewrite normalizeXhttp_pass by (apply obj_wf_set, saved_wf).
  assert (L : liftLegacyXhttpSessionKeys saved_xhttp = saved_xhttp).
  { rewrite <-(obj_set_same saved_xhttp "xmux") by done. apply saved_lifted. }
  rewrite L in E. rewrite saved_lifted. unfold xhttp_mode_of in *. rewrite !obj_get_set_ne by done.
  apply entrywise_restores; [apply saved_wf|done|done|]. rewrite Hm. unfold xhttp_pass, andThen, fupdate, fdrops.
  change (dropped (side_drops outbound _) "xmux" _) with false. cbn [String.eqb Ascii.eqb Bool.eqb xmux_value]. by rewrite xmux_not_dropped, Hx.
Qed.
End Xhttp.

(** ** The whole stream *)

(** Form streams: distinct keys, a network, no [method] (the editor reads it as the network), an
    [xhttpSettings] that is not an array, and an enabled [xmux] with every default filled in. *)
Definition xmux_filled (xh : obj) : Prop :=
  is_bool (obj_get xh "enableXmux") true = true ->
  obj_has xh "xmux" = false \/ exists x, obj_wf x /\ obj_get xh "xmux" = VObj (assign x XMUX_DEFAULTS).

Definition stream_form_ok (o : obj) : Prop :=
  vwf (VObj o) /\ obj_has o "method" = false /\ (exists n, obj_get o "network" = VStr n) /\
  match obj_get o "xhttpSettings" with VObj xh => xmux_filled xh | VArr _ => False | _ => True end.

(** The XHTTP settings without the fields of the form. *)
Definition clean_xhttp (xh : obj) : obj :=
  let cleaned := obj_del xh "enableXmux" in
  OutboundForm.dropEmptyStrings (if is_bool (obj_get xh "enableXmux") true then cleaned else obj_del cleaned "xmux").

Lemma strip_object o xh : obj_get o "xhttpSettings" = VObj xh ->
  stripUiOnlyStreamFields o = normalizeStreamSettingsForWire (obj_set o "xhttpSettings" (VObj (clean_xhttp xh))) outbound.
Proof. intros E. unfold stripUiOnlyStreamFields. by rewrite E. Qed.

Lemma filter_entries_wf (f : string * jsval -> bool) o : obj_wf o -> obj_wf (List.filter f o).
Proof.
  unfold obj_wf. induction o as [|[k v] o IH]; [done|]. cbn. intros W. inversion W as [|? ? Hn W']; subst. destruct (f (k, v)); [|by apply IH].
  cbn. constructor; [|by apply IH]. rewrite list_elem_of_In in *. intros Hin. apply Hn. apply in_map_iff in Hin as (y & E & Hy). rewrite <-E.
  apply filter_In in Hy as [Hy _]. by apply in_map.
Qed.

Lemma clean_wf xh : obj_wf xh -> obj_wf (clean_xhttp xh).
Proof. intros W. unfold clean_xhttp. apply filter_entries_wf. case_match; auto with js. Qed.

Lemma In_clean xh k v : In (k, v) (clean_xhttp xh) -> In (k, v) xh.
Proof.
  unfold clean_xhttp. intros [H _]%filter_In. destruct (is_bool _ true); unfold obj_del in H; repeat apply filter_In in H as [H _]; done.
Qed.

Lemma vwf_clean xh : vwf (VObj xh) -> vwf (VObj (clean_xhttp xh)).
Proof. intros W. apply vwf_intro; [by apply clean_wf, vwf_obj|]. intros k v H%In_clean. by eapply vwf_In. Qed.

Lemma vwf_set o k v : vwf (VObj o) -> vwf v -> vwf (VObj (obj_set o k v)).
Proof. intros W Hv. apply vwf_intro; [by apply obj_wf_set, vwf_obj|]. intros j w [[_ ->]|H]%In_set; [done|by eapply vwf_In]. Qed.

(** Reads of a normalised stream. *)
Lemma stream_get o k : obj_wf o ->
  obj_get (normalizeStreamSettingsForWire o outbound) k = if obj_has o k then default VUndef (stream_pass outbound k (obj_get o k)) else VUndef.
Proof. intros W. by rewrite normalizeStream_pass, get_entrywise. Qed.

Lemma stream_get_other o k : obj_wf o -> ~ In k ["xhttpSettings"; "tlsSettings"; "sockopt"] ->
  obj_get (normalizeStreamSettingsForWire o outbound) k = obj_get o k.
Proof.
  intros W H. rewrite stream_get by done. assert (P : stream_pass outbound k (obj_get o k) = Some (obj_get o k)).
  { unfold stream_pass, andThen, fupdate. destruct (String.eqb_spec "xhttpSettings" k) as [<-|]; [cbn in H; tauto|].
    destruct (String.eqb_spec "tlsSettings" k) as [<-|]; [cbn in H; tauto|]. destruct (String.eqb_spec "sockopt" k) as [<-|]; [cbn in H; tauto|done]. }
  rewrite P. cbn. destruct (obj_has o k) eqn:E; [done|]. by rewrite (obj_has_get o k E).
Qed.

Lemma stream_has_other o k : obj_wf o -> obj_has o k = false -> obj_has (normalizeStreamSettingsForWire o outbound) k = false.
Proof. intros W H. by rewrite normalizeStream_pass, has_entrywise, H by done. Qed.

(** Reading back the XHTTP settings of a saved stream. *)
Definition reopened_xhttp (n : obj) : obj :=
  match obj_get n "xmux" with
  | VObj m => obj_set (obj_set n "enableXmux" (VBool true)) "xmux" (VObj (assign m XMUX_DEFAULTS))
  | _ => n
  end.

Lemma hydrate_no_method n : obj_has n "method" = false ->
  hydrateStreamForm n = match obj_get n "xhttpSettings" with VObj x => obj_set n "xhttpSettings" (VObj (reopened_xhttp x)) | _ => n end.
Proof.
  intros H. unfold hydrateStreamForm. rewrite (obj_has_get n "method" H). cbv zeta. rewrite obj_del_absent by done.
  destruct (obj_get n "xhttpSettings") as [| | | | | |x]; try done.
Qed.

(** Cleaning what was reopened. *)
Lemma clean_reopened n : obj_has n "enableXmux" = false -> no_empty n -> (forall v, obj_get n "xmux" = v -> match v with VObj _ | VUndef => True | _ => False end) ->
  (obj_has n "xmux" = true -> obj_get n "xmux" <> VUndef) ->
  clean_xhttp (reopened_xhttp n) = match obj_get n "xmux" with VObj m => obj_set n "xmux" (VObj (assign m XMUX_DEFAULTS)) | _ => n end.
Proof.
  intros He Hn Hx Hu. specialize (Hx _ eq_refl). unfold reopened_xhttp, clean_xhttp. destruct (obj_get n "xmux") as [| | | | | |m] eqn:Ex; try done.
  - rewrite (obj_has_get n "enableXmux" He). cbn [is_bool]. rewrite (obj_del_absent n "enableXmux" He), obj_del_absent; [by apply dropEmpty_none|].
    apply not_true_iff_false. intros H. by apply Hu in H.
  - rewrite obj_get_set_ne, obj_get_set_eq by done. cbn [is_bool Bool.eqb].
    assert (Hh : obj_has n "xmux" = true) by (apply obj_get_has; by rewrite Ex).
    assert (E : obj_del (obj_set (obj_set n "enableXmux" (VBool true)) "xmux" (VObj (assign m XMUX_DEFAULTS))) "enableXmux" =
                obj_set n "xmux" (VObj (assign m XMUX_DEFAULTS))).
    { rewrite (obj_set_new n "enableXmux" _ He). generalize (VObj (assign m XMUX_DEFAULTS)). clear -He Hh. intros v.
      induction n as [|[k w] n IH]; [done|]. change (obj_has ((k, w) :: n) "enableXmux") with (String.eqb "enableXmux" k || obj_has n "enableXmux") in He.
      change (obj_has ((k, w) :: n) "xmux") with (String.eqb "xmux" k || obj_has n "xmux") in Hh. apply orb_false_iff in He as [He1 He2].
      cbn [app obj_set]. destruct (String.eqb_spec "xmux" k) as [<-|Ek].
      - unfold obj_del. cbn [List.filter fst]. change (negb (String.eqb "enableXmux" "xmux")) with true. cbn iota. f_equal. rewrite filter_app. cbn.
        rewrite app_nil_r. by apply (obj_del_absent n "enableXmux").
      - unfold obj_del in *. cbn [List.filter fst]. rewrite He1. cbn [negb]. f_equal. by apply IH. }
    rewrite E. apply dropEmpty_none. by apply no_empty_set.
Qed.

Lemma has_In (o : obj) k : obj_has o k = true -> exists v, In (k, v) o.
Proof. intros H. apply obj_has_keys, in_map_iff in H as ([k' v] & E & Hin). cbn in E. subst. by exists v. Qed.

Lemma clean_xmux xh : obj_wf xh -> xmux_filled xh ->
  obj_has (clean_xhttp xh) "xmux" = false \/ exists x, obj_wf x /\ obj_get (clean_xhttp xh) "xmux" = VObj (assign x XMUX_DEFAULTS).
Proof.
  intros W F. destruct (obj_has (clean_xhttp xh) "xmux") eqn:E; [right|by left]. apply has_In in E as [v Hin]. pose proof (In_clean _ _ _ Hin) as Hx.
  rewrite (In_get _ _ _ (clean_wf xh W) Hin). rewrite <-(In_get _ _ _ W Hx).
  destruct (is_bool (obj_get xh "enableXmux") true) eqn:Ee.
  - destruct (F Ee) as [N|[x [Wx Ex]]]; [|by exists x]. apply In_has in Hx. congruence.
  - unfold clean_xhttp in Hin. rewrite Ee in Hin. apply filter_In in Hin as [Hin%In_has _]. by rewrite obj_has_del in Hin.
Qed.

Lemma has_lift_other o a b k : k <> a -> k <> b -> obj_has (lift o a b) k = obj_has o k.
Proof.
  intros Ha Hb. unfold lift. rewrite obj_has_del, (proj2 (String.eqb_neq a k)) by congruence. cbn [negb andb]. case_match; [|done].
  rewrite obj_has_set. by destruct (String.eqb_spec k b).
Qed.

Lemma saved_xmux d : obj_wf d ->
  obj_has (saved_xhttp d) "xmux" = obj_has d "xmux" /\
  obj_get (saved_xhttp d) "xmux" = match obj_get d "xmux" with VObj x => VObj (resolveXmuxExclusivity x) | v => v end.
Proof.
  intros W. unfold saved_xhttp. rewrite normalizeXhttp_pass by done. rewrite has_entrywise, get_entrywise by (by apply liftLegacy_wf).
  assert (G : obj_get (liftLegacyXhttpSessionKeys d) "xmux" = obj_get d "xmux") by (apply get_lifted; cbn; intuition discriminate).
  assert (H : obj_has (liftLegacyXhttpSessionKeys d) "xmux" = obj_has d "xmux").
  { unfold liftLegacyXhttpSessionKeys. by rewrite !has_lift_other by done. }
  rewrite G, H. set (f := xhttp_pass _ _ _).
  assert (P : forall v, f "xmux" v = Some (match v with VObj x => VObj (resolveXmuxExclusivity x) | v => v end)).
  { intros v. subst f. unfold xhttp_pass, andThen, fupdate, fdrops. change (dropped (side_drops outbound _) "xmux" _) with false.
    cbn [String.eqb Ascii.eqb Bool.eqb xmux_value]. by rewrite xmux_not_dropped. }
  rewrite P, andb_true_r. split; [done|]. destruct (obj_has d "xmux") eqn:E; [by destruct (obj_get d "xmux")|]. by rewrite (obj_has_get d "xmux" E).
Qed.

(** The XHTTP settings saved, reopened, cleaned and normalised again. *)
Lemma xhttp_resaved xh : vwf (VObj xh) -> xmux_filled xh ->
  normalizeXhttpForWire (clean_xhttp (reopened_xhttp (saved_xhttp (clean_xhttp xh)))) outbound = saved_xhttp (clean_xhttp xh).
Proof.
  intros W F. pose proof (vwf_obj _ W) as Wx. pose proof (clean_wf xh Wx) as Wd. pose proof (clean_xmux xh Wx F) as C.
  assert (N : no_empty (saved_xhttp (clean_xhttp xh))) by (apply no_empty_xhttp; [done|apply no_empty_drop]).
  destruct (saved_xmux _ Wd) as [Sh Sg]. rewrite clean_reopened; [|by apply saved_lacks; cbn; auto|done|..].
  - rewrite Sg. destruct C as [C|(x & Wx' & C)].
    + rewrite (obj_has_get _ _ C). by apply normalizeXhttp_idem; [|left].
    + rewrite C in *. eapply renormalized; [done|exact Sg|]. by apply xmux_again.
  - intros v <-. rewrite Sg. destruct C as [C|(x & _ & C)]; [by rewrite (obj_has_get _ _ C)|by rewrite C].
  - rewrite Sh, Sg. destruct C as [C|(x & _ & C)]; [by rewrite C|by rewrite C].
Qed.

(** Saving a stream, reopening it and saving it again writes the same stream. *)
Lemma stream_resaved o : stream_form_ok o -> stripUiOnlyStreamFields (hydrateStreamForm (stripUiOnlyStreamFields o)) = stripUiOnlyStreamFields o.
Proof.
  intros (W & Hm & _ & Hx). pose proof (vwf_obj _ W) as Wo.
  destruct (obj_get o "xhttpSettings") as [| | | | | |xh] eqn:Ex; try done.
  1-5: assert (S : stripUiOnlyStreamFields o = normalizeStreamSettingsForWire o outbound) by (unfold stripUiOnlyStreamFields; by rewrite Ex);
    rewrite S; set (st := normalizeStreamSettingsForWire o outbound);
    assert (G : obj_get st "xhttpSettings" = obj_get o "xhttpSettings") by
      (subst st; rewrite stream_get by done; rewrite Ex; destruct (obj_has o "xhttpSettings") eqn:E; [done|by rewrite (obj_has_get _ _ E) in Ex]);
    rewrite hydrate_no_method, G, Ex by (by apply stream_has_other);
    unfold stripUiOnlyStreamFields; rewrite G, Ex; by apply normalizeStream_idem.
  rewrite (strip_object o xh Ex). set (o1 := obj_set o "xhttpSettings" _).
  assert (W1 : vwf (VObj o1)) by (apply vwf_set; [done|apply vwf_clean; rewrite <-Ex; by apply vwf_get]). pose proof (vwf_obj _ W1) as Wo1.
  assert (Wn : obj_wf (normalizeStreamSettingsForWire o1 outbound)) by (rewrite normalizeStream_pass by done; auto with js).
  assert (Gn : obj_get (normalizeStreamSettingsForWire o1 outbound) "xhttpSettings" = VObj (saved_xhttp (clean_xhttp xh))).
  { rewrite stream_get by done. subst o1. rewrite obj_has_set, obj_get_set_eq, String.eqb_refl. done. }
  pose proof (normalizeStream_idem o1 W1) as I.
  assert (Hn : obj_has (normalizeStreamSettingsForWire o1 outbound) "method" = false).
  { apply stream_has_other; [done|]. subst o1. by rewrite obj_has_set, Hm. }
  clearbody o1. set (n := normalizeStreamSettingsForWire o1 outbound) in *. clearbody n.
  rewrite hydrate_no_method, Gn by done. erewrite strip_object by apply obj_get_set_eq. rewrite obj_set_set.
  rewrite normalizeStream_pass by (by apply obj_wf_set). rewrite normalizeStream_pass in I by done.
  apply entrywise_restores; [done|done|apply obj_get_has; by rewrite Gn|]. rewrite Gn.
  unfold stream_pass, andThen, fupdate. cbn [String.eqb Ascii.eqb Bool.eqb replace_obj]. rewrite xhttp_resaved; [done| |done].
  rewrite <-Ex. by apply vwf_get.
Qed.

Lemma strip_get o k : obj_wf o -> ~ In k ["xhttpSettings"; "tlsSettings"; "sockopt"] -> obj_get (stripUiOnlyStreamFields o) k = obj_get o k.
Proof.
  intros W H. assert (G : forall v, obj_get (normalizeStreamSettingsForWire (obj_set o "xhttpSettings" v) outbound) k = obj_get o k).
  { intros v. rewrite stream_get_other by auto with js. apply obj_get_set_ne. intros <-. cbn in H. tauto. }
  unfold stripUiOnlyStreamFields. destruct (obj_get o "xhttpSettings"); try apply G; by apply stream_get_other.
Qed.

Lemma strip_nonempty o : stream_form_ok o -> stripUiOnlyStreamFields o <> [].
Proof.
  intros (W & _ & (n & Hn) & _) E. pose proof (strip_get o "network" (vwf_obj _ W)) as G. rewrite E, Hn in G. discriminate G. cbn. intuition discriminate.
Qed.

(** The editor shows the network that was saved. *)
Lemma reopened_network o : stream_form_ok o -> obj_get (hydrateStreamForm (stripUiOnlyStreamFields o)) "network" = obj_get o "network".
Proof.
  intros (W & Hm & _ & Hx). pose proof (vwf_obj _ W) as Wo.
  assert (M : obj_has (stripUiOnlyStreamFields o) "method" = false).
  { unfold stripUiOnlyStreamFields. destruct (obj_get o "xhttpSettings"); try done; apply stream_has_other; auto with js; by rewrite obj_has_set. }
  rewrite hydrate_no_method by done. rewrite <-(strip_get o "network" Wo) by (cbn; intuition discriminate).
  destruct (obj_get (stripUiOnlyStreamFields o) "xhttpSettings"); try done. by rewrite obj_get_set_ne.
Qed.
