(* ===== verification/GeoTokens.v ===== *)
(** * Geo tokens of routing rules

    Models src/frontend/src/lib/xray/geoTokens.ts: the comma-separated token lists of routing
    rules, their comparison up to case and long form, and the picker's merge.  A [Set] that is
    only asked for membership is a list. *)
From S2P Require Import Prelude JsString.
From Stdlib Require Import Ascii.

Inductive GeoKind := ip | site.

Definition DEFAULT_SITE_FILE : string := "geosite.dat".
Definition DEFAULT_IP_FILE : string := "geoip.dat".

(** [LONG_FORMS]: the texts the two patterns match, with their shorthand. *)
Definition LONG_FORMS : list (string * string) :=
  [("ext:geosite.dat:", "geosite:"); ("ext-domain:geosite.dat:", "geosite:"); ("ext-site:geosite.dat:", "geosite:");
   ("ext:geoip.dat:", "geoip:"); ("ext-ip:geoip.dat:", "geoip:")].

Definition parseTokens (value : string) : list string :=
  List.filter (fun token => negb (String.eqb token "")) (map trim (split_on "," value)).

Definition formatTokens (tokens : list string) : string := join ", " tokens.

Definition is_ip (k : GeoKind) : bool := match k with ip => true | site => false end.

Definition tokenFor (file code : string) (kind : GeoKind) : string :=
  if is_ip kind && String.eqb file DEFAULT_IP_FILE then "geoip:" +:+ code
  else if negb (is_ip kind) && String.eqb file DEFAULT_SITE_FILE then "geosite:" +:+ code
  else "ext:" +:+ file +:+ ":" +:+ code.

Fixpoint shorten (forms : list (string * string)) (lowered : string) : string :=
  match forms with
  | [] => lowered
  | (long, shorthand) :: forms =>
      if starts_with lowered long then shorthand +:+ str_drop (String.length long) lowered else shorten forms lowered
  end.

Definition canonicalToken (token : string) : string := shorten LONG_FORMS (to_lower (trim token)).

Definition mem (s : string) (l : list string) : bool := existsb (String.eqb s) l.

(** One turn of the loop of [selectionFromValue]; the state is [(selection, seen)]. *)
Definition select_token (canonicalKnown : list string) (st : list string * list string) (token : string)
  : list string * list string :=
  let canonical := canonicalToken token in
  if negb (mem canonical canonicalKnown) || mem canonical st.2 then st else (st.1 ++ [token], st.2 ++ [canonical]).

Definition selectionFromValue (value : string) (known : list string) : list string :=
  fst (fold_left (select_token (map canonicalToken known)) (parseTokens value) ([], [])).

(** The closure [append]; the state is [(merged, seen)]. *)
Definition append (st : list string * list string) (token : string) : list string * list string :=
  let canonical := canonicalToken token in
  if String.eqb canonical "" || mem canonical st.2 then st else (st.1 ++ [token], st.2 ++ [canonical]).

Definition mergeSelection (value : string) (selected known : list string) : string :=
  let canonicalKnown := map canonicalToken known in
  let kept := List.filter (fun token => negb (String.eqb token "")) (map canonicalToken selected) in
  let st := fold_left (fun st token =>
              let canonical := canonicalToken token in
              if mem canonical canonicalKnown && negb (mem canonical kept) then st else append st token)
              (parseTokens value) ([], []) in
  let st := fold_left (fun st token => append st (trim token)) selected st in
  formatTokens st.1.

(** ** Lists of tokens *)

Definition clean_token (t : string) : Prop := t <> "" /\ trim t = t /\ no_char "," t.

Lemma mem_iff s l : mem s l = true <-> In s l.
Proof.
  unfold mem. rewrite existsb_exists. split; [intros (x & Hx & ->%String.eqb_eq); done|].
  intros H. exists s. by rewrite String.eqb_refl.
Qed.

Lemma trim_leading_space t : trim (String " " t) = trim t.
Proof. done. Qed.

Lemma trim_no_char c s : no_char c s -> no_char c (trim s).
Proof.
  intros H. unfold trim. assert (S1 : forall s, no_char c s -> no_char c (trim_start s)).
  { induction s0 as [|d s0 IH]; [done|]. intros Hs. pose proof Hs as [Hd Ht]%andb_true_iff. cbn. destruct (is_ws d); auto. }
  assert (S2 : forall s, no_char c s -> no_char c (trim_end s)).
  { induction s0 as [|d s0 IH]; [done|]. intros Hs. pose proof Hs as [Hd Ht]%andb_true_iff. specialize (IH Ht). cbn.
    destruct (trim_end s0); [destruct (is_ws d)|]; try done; unfold no_char; cbn [forall_chars]; by rewrite Hd. }
  auto.
Qed.

Lemma parseTokens_clean value : Forall clean_token (parseTokens value).
Proof.
  unfold parseTokens. apply List.Forall_forall. intros t [Ht Hne]%filter_In. apply in_map_iff in Ht as (u & <- & Hu).
  apply negb_true_iff, String.eqb_neq in Hne. split; [done|]. split; [apply trim_idem|]. apply trim_no_char.
  pose proof (split_on_no_char "," value) as H. rewrite List.Forall_forall in H. auto.
Qed.

Lemma join_spaced l : join ", " l = join "," (match l with [] => [] | x :: l => x :: map (String " ") l end).
Proof.
  destruct l as [|x l]; [done|]. unfold join. revert x. induction l as [|y l IH]; intros x; [done|].
  change (String.concat ", " (x :: y :: l)) with (x +:+ ", " +:+ String.concat ", " (y :: l)). rewrite IH.
  destruct l as [|z l]; done.
Qed.

(** Printing clean tokens and parsing them gives them back. *)
Lemma parse_format l : Forall clean_token l -> parseTokens (formatTokens l) = l.
Proof.
  intros H. unfold parseTokens, formatTokens. rewrite join_spaced.
  destruct l as [|x l]; [done|]. pose proof (List.Forall_inv H) as (Hx & Tx & Cx). apply List.Forall_inv_tail in H.
  change "," with (String "," ""). rewrite split_join; [|done|].
  - cbn [map List.filter]. rewrite Tx, (proj2 (String.eqb_neq x "")) by done. cbn [negb]. f_equal.
    rewrite map_map. induction H as [|y l (Hy & Ty & _) _ IH]; [done|]. cbn [map List.filter].
    by rewrite trim_leading_space, Ty, (proj2 (String.eqb_neq y "")), IH by done.
  - constructor; [done|]. apply List.Forall_map. eapply List.Forall_impl; [|exact H]. intros y (_ & _ & Cy). exact Cy.
Qed.

Lemma canonical_trim t : canonicalToken (trim t) = canonicalToken t.
Proof. unfold canonicalToken. by rewrite trim_idem. Qed.

(** [seen] is the canonical form of what has been kept. *)
Definition tracked (st : list string * list string) : Prop := st.2 = map canonicalToken st.1 /\ List.NoDup st.2.

Lemma append_spec st t : tracked st ->
  tracked (append st t) /\
  (forall c, In c (append st t).2 <-> In c st.2 \/ (c <> "" /\ c = canonicalToken t)) /\
  (forall x, In x (append st t).1 -> In x st.1 \/ x = t).
Proof.
  intros [E N]. unfold append. destruct (String.eqb (canonicalToken t) "" || mem (canonicalToken t) st.2) eqn:C.
  - split; [done|]. split; [|auto]. intros c. split; [auto|]. intros [H|[Hc ->]]; [done|].
    apply orb_true_iff in C as [C%String.eqb_eq|C%mem_iff]; done.
  - apply orb_false_iff in C as [C1%String.eqb_neq C2]. unfold tracked. cbn [fst snd].
    assert (Hn : ~ In (canonicalToken t) st.2) by (rewrite <- mem_iff; congruence).
    split; [split; [rewrite map_app; cbn; by rewrite E|]|split].
    + apply NoDup_app; repeat constructor; auto. intros x Hx [<-|[]]. done.
    + intros c. rewrite in_app_iff. cbn. split; [intros [?|[<-|[]]]; auto|intros [?|[_ ->]]; auto].
    + intros x [H|[<-|[]]]%in_app_iff; auto.
Qed.

Lemma fold_append ts : forall st, tracked st ->
  tracked (fold_left append ts st) /\
  (forall c, In c (fold_left append ts st).2 <-> In c st.2 \/ (c <> "" /\ In c (map canonicalToken ts))) /\
  (forall x, In x (fold_left append ts st).1 -> In x st.1 \/ In x ts).
Proof.
  induction ts as [|t ts IH]; intros st H; cbn [fold_left map].
  - split; [done|]. split; [|auto]. intros c. cbn. tauto.
  - destruct (append_spec st t H) as (H1 & H2 & H3). destruct (IH _ H1) as (I1 & I2 & I3). split; [done|]. split.
    + intros c. rewrite I2, H2. cbn. split; [intros [[?|[? ->]]|[? ?]]; auto|intros [?|[? [<-|?]]]; auto].
    + intros x [Hx|Hx]%I3; [apply H3 in Hx as [Hx| ->]|]; cbn; auto.
Qed.

Lemma fold_skip {A B} (f : A -> B -> A) (p : B -> bool) l a :
  fold_left (fun a x => if p x then a else f a x) l a = fold_left f (List.filter (fun x => negb (p x)) l) a.
Proof. revert a. induction l as [|x l IH]; intros a; [done|]. cbn. destruct (p x); cbn; apply IH. Qed.

Lemma fold_map {A B C} (f : A -> B -> A) (g : C -> B) l a : fold_left (fun a x => f a (g x)) l a = fold_left f (map g l) a.
Proof. revert a. induction l as [|x l IH]; intros a; [done|]. cbn. apply IH. Qed.

(** The tokens the user's text keeps. *)
Definition kept_tokens (value : string) (selected known : list string) : list string :=
  List.filter (fun t => negb (mem (canonicalToken t) (map canonicalToken known) &&
    negb (mem (canonicalToken t) (List.filter (fun token => negb (String.eqb token "")) (map canonicalToken selected)))))
    (parseTokens value).

Lemma mergeSelection_folds value selected known :
  mergeSelection value selected known =
  formatTokens (fst (fold_left append (map trim selected) (fold_left append (kept_tokens value selected known) ([], [])))).
Proof.
  unfold mergeSelection, kept_tokens. rewrite <- (fold_map append trim), fold_skip. done.
Qed.

Lemma canonical_nonempty t : clean_token t -> canonicalToken t <> "".
Proof.
  intros (Hne & Ht & _). unfold canonicalToken. rewrite Ht. destruct t as [|c t]; [done|]. unfold LONG_FORMS. cbn [shorten].
  repeat (destruct (starts_with _ _); [done|]). done.
Qed.

(** The text the picker writes back: parsed again, its tokens have pairwise distinct
    canonical forms, and these are exactly the forms of the selected tokens and of the tokens
    already in the text that the picker does not manage.  So a known token that was deselected
    is gone, nothing the user typed by hand is lost, and nothing appears twice. *)
Theorem mergeSelection_tokens value selected known :
  Forall (fun t => no_char "," t) selected ->
  let forms := map canonicalToken (parseTokens (mergeSelection value selected known)) in
  List.NoDup forms /\
  forall c, c <> "" ->
    (In c forms <-> In c (map canonicalToken selected) \/
                    (In c (map canonicalToken (parseTokens value)) /\ ~ In c (map canonicalToken known))).
Proof.
  intros Hsel. cbv zeta. rewrite mergeSelection_folds.
  set (ks := kept_tokens value selected known).
  destruct (fold_append ks ([], []) ltac:(split; [done|constructor])) as (T1 & F1 & X1).
  destruct (fold_append (map trim selected) _ T1) as (T2 & F2 & X2).
  set (st := fold_left append (map trim selected) _) in *.
  assert (Clean : Forall clean_token st.1).
  { apply List.Forall_forall. intros x Hx. pose proof (parseTokens_clean value) as Pc. rewrite List.Forall_forall in Pc, Hsel.
    destruct T2 as [E2 N2].
    assert (Hc : canonicalToken x <> "").
    { intros E0. assert (In "" st.2) as [H|[H _]]%F2; [rewrite E2, <- E0; by apply in_map| |done].
      apply F1 in H as [[]|[H _]]. done. }
    apply X2 in Hx as [Hx|(t & <- & Ht)%in_map_iff].
    - apply X1 in Hx as [[]|Hx]. by apply filter_In in Hx as [Hx _]; auto.
    - split; [|split; [apply trim_idem|by apply trim_no_char, Hsel]]. intros E0. apply Hc. by rewrite E0. }
  rewrite parse_format by done. destruct T2 as [E2 N2]. rewrite <- E2. split; [done|]. intros c Hc.
  rewrite F2, F1. rewrite map_map. rewrite (map_ext _ canonicalToken canonical_trim). cbn [In snd].
  assert (K : In c (map canonicalToken ks) <->
    In c (map canonicalToken (parseTokens value)) /\ (~ In c (map canonicalToken known) \/ In c (map canonicalToken selected))).
  { unfold ks, kept_tokens. rewrite !in_map_iff. split.
    - intros (t & <- & [Ht Hk]%filter_In). split; [eauto|]. apply negb_true_iff, andb_false_iff in Hk as [Hk|Hk].
      + left. rewrite <- in_map_iff, <- mem_iff. congruence.
      + right. apply negb_false_iff, mem_iff, filter_In in Hk as [Hk _]. by apply in_map_iff.
    - intros [(t & <- & Ht) Hk]. exists t. split; [done|]. apply filter_In. split; [done|]. apply negb_true_iff, andb_false_iff.
      destruct Hk as [Hk|Hk]; [left|right].
      + apply not_true_iff_false. by rewrite mem_iff, in_map_iff.
      + apply negb_false_iff, mem_iff, filter_In. rewrite in_map_iff. split; [done|]. by apply negb_true_iff, String.eqb_neq. }
  rewrite K. destruct (mem c (map canonicalToken known)) eqn:E; [apply mem_iff in E|apply not_true_iff_false in E; rewrite mem_iff in E]; tauto.
Qed.

Lemma mergeSelection_tokens_witness :
  mergeSelection "geosite:cn, example.com, ext:geosite.dat:US" ["GEOSITE:ads"] ["geosite:cn"; "geosite:us"; "geosite:ads"] =
    "example.com, GEOSITE:ads" /\
  List.NoDup (map canonicalToken (parseTokens (mergeSelection "geosite:cn, example.com, ext:geosite.dat:US" ["GEOSITE:ads"]
    ["geosite:cn"; "geosite:us"; "geosite:ads"]))).
Proof.
  split; [vm_compute; reflexivity|].
  exact (proj1 (mergeSelection_tokens "geosite:cn, example.com, ext:geosite.dat:US" ["GEOSITE:ads"]
    ["geosite:cn"; "geosite:us"; "geosite:ads"] ltac:(repeat constructor))).
Defined.
