(* ===== verification/RuleForm.v ===== *)
(** * The editor of routing rules

    Models src/frontend/src/pages/xray/routing/RuleFormModal.tsx (what the form is seeded with when a
    rule is opened, and the rule that is confirmed), the schema of its values in
    src/frontend/src/schemas/xray.ts, the row and chip helpers of routing/helpers.ts, and the parts of
    routing/RoutingTab.tsx that build the rows and the tag options, confirm a rule, and export and
    import rules.

    The values of the form are an object, as [methods.getValues()] returns it: what a field holds
    after opening a rule is whatever the rule had there, and only the schema checks it.  [None] stands
    for a confirmation that does nothing ([submit]) or for a TypeError while rendering ([shownRows]). *)
From S2P Require Import Prelude JsString JsValue JsObject XraySettings BalancerLoopback TableRows Json JsonPretty GeoTokens.
From Stdlib Require Import Ascii.

(** ** Values as text *)

(** [String(v)]; [Array.prototype.join] prints nothing for [null] and [undefined] elements. *)
Fixpoint js_to_string (v : jsval) : string :=
  match v with
  | VUndef => "undefined"
  | VNull => "null"
  | VBool b => if b then "true" else "false"
  | VNum n => string_of_num n
  | VStr s => s
  | VArr l => join "," (map (fun x => if is_nullish x then "" else js_to_string x) l)
  | VObj _ => "[object Object]"
  end.

Definition arrJoin (v : jsval) : jsval := if is_nullish v then VUndef else VStr (js_to_string v).

Definition csv (value : string) : list string :=
  if String.eqb value "" then [] else List.filter (fun s => negb (String.eqb s "")) (map trim (split_on "," value)).

(** ** The form *)

Definition initialForm : obj :=
  [("enabled", VBool true); ("comment", VStr ""); ("domain", VStr ""); ("ip", VStr ""); ("port", VStr ""); ("sourcePort", VStr "");
   ("vlessRoute", VStr ""); ("network", VStr ""); ("sourceIP", VStr ""); ("user", VStr ""); ("inboundTag", VArr []); ("protocol", VArr []);
   ("attrs", VArr []); ("outboundTag", VStr ""); ("balancerTag", VStr "")].

(** [Array.isArray(v) ? v.join(',') : v || ''] *)
Definition listed_field (v : jsval) : jsval := if is_array v then VStr (js_to_string v) else or_falsy v (VStr "").

Fixpoint char_list (s : string) : list string := match s with String c s => String c "" :: char_list s | "" => [] end.

(** [Object.entries(v)], each entry an array of two. *)
Definition js_entries (v : jsval) : list jsval :=
  match v with
  | VObj o => map (fun kv => VArr [VStr kv.1; kv.2]) o
  | VArr l => imap (fun i x => VArr [VStr (string_of_Z (Z.of_nat i)); x]) l
  | VStr s => imap (fun i c => VArr [VStr (string_of_Z (Z.of_nat i)); VStr c]) (char_list s)
  | _ => []
  end.

(** The values the effect on [open] and [rule] resets the form to. *)
Definition openForm (rule : option obj) : obj :=
  match rule with
  | None => initialForm
  | Some r =>
      [("enabled", VBool (negb (is_bool (obj_get r "enabled") false)));
       ("comment", or_falsy (obj_get r "comment") (VStr ""));
       ("domain", listed_field (obj_get r "domain"));
       ("ip", listed_field (obj_get r "ip"));
       ("port", or_falsy (obj_get r "port") (VStr ""));
       ("sourcePort", or_falsy (obj_get r "sourcePort") (VStr ""));
       ("vlessRoute", or_falsy (obj_get r "vlessRoute") (VStr ""));
       ("network", or_falsy (obj_get r "network") (VStr ""));
       ("sourceIP", listed_field (obj_get r "sourceIP"));
       ("user", listed_field (obj_get r "user"));
       ("inboundTag", or_falsy (obj_get r "inboundTag") (VArr []));
       ("protocol", or_falsy (obj_get r "protocol") (VArr []));
       ("attrs", VArr (if truthy (obj_get r "attrs") then js_entries (obj_get r "attrs") else []));
       ("outboundTag", or_falsy (obj_get r "outboundTag") (VStr ""));
       ("balancerTag", or_falsy (obj_get r "balancerTag") (VStr ""))]
  end.

(** ** The schema of the form *)

Record RuleFormValues := {
  v_enabled : bool; v_comment : string; v_domain : string; v_ip : string; v_port : string; v_sourcePort : string; v_vlessRoute : string;
  v_network : string; v_sourceIP : string; v_user : string; v_inboundTag : list string; v_protocol : list string;
  v_attrs : list (string * string); v_outboundTag : string; v_balancerTag : string }.

Definition z_boolean (v : jsval) : option bool := match v with VBool b => Some b | _ => None end.
Definition z_string (v : jsval) : option string := match v with VStr s => Some s | _ => None end.
Definition z_array {A} (f : jsval -> option A) (v : jsval) : option (list A) := match v with VArr l => mapM f l | _ => None end.
Definition z_pair (v : jsval) : option (string * string) := match v with VArr [VStr a; VStr b] => Some (a, b) | _ => None end.

(** [RuleFormSchema.safeParse] *)
Definition RuleFormSchema (o : obj) : option RuleFormValues :=
  enabled ← z_boolean (obj_get o "enabled"); comment ← z_string (obj_get o "comment"); domain ← z_string (obj_get o "domain");
  ip ← z_string (obj_get o "ip"); port ← z_string (obj_get o "port"); sourcePort ← z_string (obj_get o "sourcePort");
  vlessRoute ← z_string (obj_get o "vlessRoute"); network ← z_string (obj_get o "network"); sourceIP ← z_string (obj_get o "sourceIP");
  user ← z_string (obj_get o "user"); inboundTag ← z_array z_string (obj_get o "inboundTag"); protocol ← z_array z_string (obj_get o "protocol");
  attrs ← z_array z_pair (obj_get o "attrs"); outboundTag ← z_string (obj_get o "outboundTag"); balancerTag ← z_string (obj_get o "balancerTag");
  Some {| v_enabled := enabled; v_comment := comment; v_domain := domain; v_ip := ip; v_port := port; v_sourcePort := sourcePort;
          v_vlessRoute := vlessRoute; v_network := network; v_sourceIP := sourceIP; v_user := user; v_inboundTag := inboundTag;
          v_protocol := protocol; v_attrs := attrs; v_outboundTag := outboundTag; v_balancerTag := balancerTag |}.

(** ** The rule that is confirmed *)

(** [Object.fromEntries(attrs.filter(([k]) => k))] *)
Definition attrs_object (l : list (string * string)) : obj :=
  fold_left (fun o kv => if String.eqb kv.1 "" then o else obj_set o kv.1 (VStr kv.2)) l [].

Definition tag_or_undefined (s : string) : jsval := if String.eqb s "" then VUndef else VStr s.

Definition built (v : RuleFormValues) : obj :=
  [("type", VStr "field"); ("enabled", VBool (v_enabled v)); ("comment", VStr (v_comment v)); ("domain", strings (csv (v_domain v)));
   ("ip", strings (csv (v_ip v))); ("port", VStr (v_port v)); ("sourcePort", VStr (v_sourcePort v)); ("vlessRoute", VStr (v_vlessRoute v));
   ("network", VStr (v_network v)); ("sourceIP", strings (csv (v_sourceIP v))); ("user", strings (csv (v_user v)));
   ("inboundTag", strings (v_inboundTag v)); ("protocol", strings (v_protocol v)); ("attrs", VObj (attrs_object (v_attrs v)));
   ("outboundTag", tag_or_undefined (v_outboundTag v)); ("balancerTag", tag_or_undefined (v_balancerTag v))].

(** The guards of the last loop: what is left out of the rule. *)
Definition left_out (v : jsval) : bool :=
  is_nullish v || match v with VArr [] | VObj [] | VStr "" => true | _ => false end.

Definition managedKeys : list string :=
  ["type"; "enabled"; "comment"; "domain"; "ip"; "port"; "sourcePort"; "vlessRoute"; "network"; "sourceIP"; "user"; "inboundTag"; "protocol";
   "attrs"; "outboundTag"; "balancerTag"].

Definition managed (k : string) : bool := existsb (String.eqb k) managedKeys.

(** The first loop: the keys of the rule the form does not show. *)
Definition unmanaged (rule : option obj) : obj :=
  match rule with
  | None => []
  | Some r => fold_left (fun out kv => if managed kv.1 || is_undef kv.2 then out else obj_set out kv.1 kv.2) r []
  end.

Definition assemble (rule : option obj) (v : RuleFormValues) : obj :=
  fold_left (fun out kv => if left_out kv.2 then out else obj_set out kv.1 kv.2) (built v) (unmanaged rule).

(** [submit]: the rule handed to [onConfirm], if the values pass the schema. *)
Definition submit (rule : option obj) (values : obj) : option obj :=
  match RuleFormSchema values with Some v => Some (assemble rule v) | None => None end.

(** ** Rows and chips *)

(** [(inboundTag || []).some(isBalancerLoopbackTag)] *)
Fixpoint some_loopback (l : list jsval) : option bool :=
  match l with
  | [] => Some false
  | VStr t :: l => if isBalancerLoopbackTag t then Some true else some_loopback l
  | _ :: _ => None
  end.

Definition rule_hidden (rule : jsval) : option bool :=
  match or_falsy (get rule "inboundTag") (VArr []) with VArr l => some_loopback l | _ => None end.

(** One row of the table, without its key. *)
Definition ruleRow (rule : jsval) : obj :=
  [("enabled", VBool (negb (is_bool (get rule "enabled") false)));
   ("domain", arrJoin (get rule "domain")); ("ip", arrJoin (get rule "ip")); ("port", get rule "port"); ("sourcePort", get rule "sourcePort");
   ("vlessRoute", get rule "vlessRoute"); ("network", get rule "network"); ("sourceIP", arrJoin (get rule "sourceIP"));
   ("user", arrJoin (get rule "user")); ("inboundTag", arrJoin (get rule "inboundTag")); ("protocol", arrJoin (get rule "protocol"))] ++
  match get rule "attrs" with VObj o => [("attrs", VStr (pretty 0 (VObj o)))] | _ => [] end ++
  [("comment", or_falsy (get rule "comment") VUndef); ("outboundTag", get rule "outboundTag"); ("balancerTag", get rule "balancerTag")].

(** [rules.map(...).filter(...)]: rows with their keys. *)
Fixpoint shownRows (key : nat) (rules : list jsval) : option (list (nat * obj)) :=
  match rules with
  | [] => Some []
  | rule :: rules => h ← rule_hidden rule; rest ← shownRows (S key) rules; Some (if h : bool then rest else (key, ruleRow rule) :: rest)
  end.

Definition chipPreviewParts (parts : list string) : string :=
  match parts with
  | [] => ""
  | [p] => p
  | p :: rest => p +:+ " +" +:+ string_of_Z (Z.of_nat (length rest))
  end.

Definition chipPreview (value : string) : string := chipPreviewParts (csv value).

(** [buildRemarkByTag]: options as pairs of tag and remark. *)
Definition buildRemarkByTag (options : list (string * string)) : list (string * string) :=
  fold_left (fun m ib => if String.eqb ib.1 "" then m
                         else (ib.1, let r := trim ib.2 in if String.eqb r "" then ib.1 else r) :: m) options [].

Fixpoint remark_of (m : list (string * string)) (tag : string) : string :=
  match m with [] => "" | (t, r) :: m => if String.eqb t tag then r else remark_of m tag end.

Definition formatInboundTag (tag : string) (remarkByTag : list (string * string)) : string :=
  let label := trim (remark_of remarkByTag tag) in
  if String.eqb label "" || String.eqb label tag then tag else tag +:+ " (" +:+ label +:+ ")".

Definition formatInboundTagList (tags : string) (remarkByTag : list (string * string)) : list string :=
  map (fun tag => formatInboundTag tag remarkByTag) (csv tags).

Definition inboundTagsDisplayTitle (tags : string) (remarkByTag : list (string * string)) : option string :=
  match formatInboundTagList tags remarkByTag with [] => None | l => Some (join ", " l) end.

Definition inboundTagChipPreview (tags : string) (remarkByTag : list (string * string)) : string :=
  chipPreviewParts (formatInboundTagList tags remarkByTag).

(** [isApiRule] *)
Definition isApiRule (rule : obj) : bool :=
  is_str (obj_get rule "outboundTag") "api" &&
  match obj_get rule "inboundTag" with
  | VArr l => existsb (fun t => is_str t "api") l
  | v => if truthy v then existsb (String.eqb "api") (csv (js_to_string v)) else false
  end.

(** [ruleCriteriaChips]: labels and values; [toUpperCase] raises on what is not a string. *)
Definition chip (label : string) (v : jsval) : list (string * jsval) := if truthy v then [(label, v)] else [].

Definition ruleCriteriaChips (row : obj) : option (list (string * jsval)) :=
  l4 ← (if truthy (obj_get row "network") then match obj_get row "network" with VStr s => Some [("L4", VStr (to_upper s))] | _ => None end else Some []);
  Some (chip "Domain" (obj_get row "domain") ++ chip "IP" (obj_get row "ip") ++ chip "Port" (obj_get row "port") ++
        chip "Src IP" (obj_get row "sourceIP") ++ chip "Src Port" (obj_get row "sourcePort") ++ l4 ++
        chip "Protocol" (obj_get row "protocol") ++ chip "User" (obj_get row "user") ++ chip "VLESS" (obj_get row "vlessRoute")).

(** ** The options of the tag selects *)

(** The closure [push] of [inboundTagOptions]; [out] lists what [seen] holds. *)
Definition push_tag (out : list string) (tag : jsval) : list string :=
  match tag with
  | VStr t => if String.eqb t "" || existsb (String.eqb t) out || isBalancerLoopbackTag t then out else out ++ [t]
  | _ => out
  end.

Definition reverse_tag (ob : jsval) : jsval :=
  or_falsy (get (get ob "reverse") "tag") (or_falsy (get (get (get ob "settings") "reverse") "tag") (get (get ob "settings") "inboundTag")).

Definition inbound_tag_sources (t : jsval) (inboundTags : list string) : list jsval :=
  map (fun ib => get ib "tag") (as_list (get t "inbounds")) ++ map VStr inboundTags ++ map reverse_tag (as_list (get t "outbounds")) ++
  [get (get t "dns") "tag"] ++ map (fun s => get s "tag") (as_list (get (get t "dns") "servers")).

Definition inboundTagOptions (t : jsval) (inboundTags : list string) : list string :=
  fold_left push_tag (inbound_tag_sources t inboundTags) [].

Definition set_insert (out : list string) (tag : string) : list string :=
  if String.eqb tag "" || existsb (String.eqb tag) out then out else out ++ [tag].

Definition outboundTagOptions (t : jsval) (clientReverseTags subscriptionOutboundTags : list string) : list string :=
  fold_left set_insert (map (fun ob => str_or_empty (get ob "tag")) (as_list (get t "outbounds")) ++ clientReverseTags ++ subscriptionOutboundTags) [""].

Definition balancerTagOptions (t : jsval) : list string :=
  "" :: List.filter (fun s => negb (String.eqb s "")) (map (fun b => str_or_empty (get b "tag")) (as_list (get (get t "routing") "balancers"))).

(** ** The handlers of the tab *)

(** [mutate]: the mutator runs on a JSON clone of the template; nothing happens without one. *)
Definition mutate (mutator : jsval -> jsval) (prev : jsval) : option jsval :=
  if truthy prev then option_map mutator (JSON_parse (stringify prev)) else Some prev.

Definition with_rules (f : list jsval -> list jsval) (tt : jsval) : jsval :=
  let tt := if truthy (get tt "routing") then tt else set tt "routing" (VObj [("rules", VArr [])]) in
  let routing := if is_array (get (get tt "routing") "rules") then get tt "routing" else set (get tt "routing") "rules" (VArr []) in
  set tt "routing" (set routing "rules" (VArr (f (as_list (get routing "rules"))))).

(** [l[i] = x]: past the end the array grows, with holes. *)
Definition store_at (i : nat) (x : jsval) (l : list jsval) : list jsval :=
  if Nat.ltb i (length l) then <[i := x]> l else l ++ replicate (i - length l) VUndef ++ [x].

(** [onRuleConfirm] *)
Definition onRuleConfirm (editingIndex : option nat) (rule : obj) (template : jsval) : option jsval :=
  if Nat.leb (String.length (stringify (VObj rule))) 3 then Some template
  else mutate (with_rules (fun l => match editingIndex with None => l ++ [VObj rule] | Some i => store_at i (VObj rule) l end)) template.

Definition exportRules (template : jsval) : string := pretty 0 (VArr (ruleList template)).

(** The list an imported text holds: an array, or [rules] or [routing.rules] of an object. *)
Definition imported_list (parsed : jsval) : option (list jsval) :=
  match parsed with
  | VArr l => Some l
  | _ => match get parsed "rules" with
         | VArr l => Some l
         | _ => match get (get parsed "routing") "rules" with VArr l => Some l | _ => None end
         end
  end.

(** [importRules]: [None] is the error message, with the template untouched. *)
Definition importRules (value : string) (template : jsval) : option (option jsval) :=
  match JSON_parse value with
  | Some parsed => match imported_list parsed with Some l => Some (mutate (with_rules (fun rules => rules ++ l)) template) | None => None end
  | None => None
  end.

(** ** Lists of tokens *)

Lemma csv_parseTokens value : csv value = parseTokens value.
Proof. unfold csv, parseTokens. by destruct (String.eqb_spec value "") as [->|]. Qed.

Lemma csv_clean value : Forall clean_token (csv value).
Proof. rewrite csv_parseTokens. apply parseTokens_clean. Qed.

Lemma clean_kept l : Forall clean_token l -> List.filter (fun s => negb (String.eqb s "")) (map trim l) = l.
Proof. induction 1 as [|t l (Ht & Tt & _) _ IH]; [done|]. cbn. rewrite Tt, (proj2 (String.eqb_neq t "")) by done. cbn. by rewrite IH. Qed.

(** Joining clean tokens and splitting the text gives them back. *)
Lemma csv_join l : Forall clean_token l -> csv (join "," l) = l.
Proof.
  intros H. destruct l as [|t l]; [done|]. rewrite csv_parseTokens. unfold parseTokens. change "," with (String "," ""). rewrite split_join.
  - by apply clean_kept.
  - done.
  - eapply List.Forall_impl; [|exact H]. by intros y (_ & _ & Hy).
Qed.

Lemma js_to_string_strings l : js_to_string (strings l) = join "," l.
Proof. cbn. f_equal. rewrite map_map. apply map_id. Qed.

(** ** The two loops of [submit] *)

Lemma fold_set_append (p : string * jsval -> bool) l : forall acc, obj_wf (acc ++ l) ->
  fold_left (fun out kv => if p kv then out else obj_set out kv.1 kv.2) l acc = acc ++ List.filter (fun kv => negb (p kv)) l.
Proof.
  induction l as [|[k v] l IH]; intros acc H; [by rewrite app_nil_r|]. cbn [fold_left List.filter]. pose proof H as H'.
  unfold obj_wf, obj_keys in H'. rewrite map_app in H'. cbn in H'. apply list.NoDup_app in H' as (Ha & Hd & Hl).
  destruct (p (k, v)) eqn:P; cbn [negb].
  - apply IH. unfold obj_wf, obj_keys. rewrite map_app. apply list.NoDup_app. split; [done|]. split; [|by apply list.NoDup_cons in Hl as [_ Hl]]. intros x Hx Hx'. apply (Hd x Hx). by apply list_elem_of_further.
  - cbn [fst snd]. rewrite (obj_set_fresh acc k v l H), IH by (by rewrite <-app_assoc). by rewrite <-app_assoc.
Qed.

Definition shown_keys (r : obj) : obj := List.filter (fun kv => negb (managed kv.1 || is_undef kv.2)) r.
Definition written (v : RuleFormValues) : obj := List.filter (fun kv => negb (left_out kv.2)) (built v).
Definition other_keys (rule : option obj) : obj := match rule with Some r => shown_keys r | None => [] end.

Definition rule_wf (rule : option obj) : Prop := match rule with Some r => obj_wf r | None => True end.

Lemma unmanaged_filter rule : rule_wf rule -> unmanaged rule = other_keys rule.
Proof. destruct rule as [r|]; [|done]. intros H. cbn [unmanaged other_keys]. by rewrite (fold_set_append (fun kv => managed kv.1 || is_undef kv.2)). Qed.

Lemma shown_keys_wf r : obj_wf r -> obj_wf (shown_keys r).
Proof.
  unfold obj_wf, obj_keys, shown_keys. induction r as [|[k v] r IH]; [done|]. intros [Hk Hr]%list.NoDup_cons. cbn [List.filter fst snd].
  destruct (negb _); [|by apply IH]. cbn [map fst]. apply list.NoDup_cons. split; [|by apply IH]. intros E. apply Hk. apply list_elem_of_In in E. apply list_elem_of_In.
  apply in_map_iff in E as ([k' v'] & <- & E). apply filter_In in E as [E _]. apply in_map_iff. by exists (k', v').
Qed.

Lemma shown_keys_unmanaged r k : In k (obj_keys (shown_keys r)) -> managed k = false.
Proof. unfold obj_keys. intros ([k' v'] & <- & E)%in_map_iff. apply filter_In in E as [_ E]. apply negb_true_iff, orb_false_iff in E. apply E. Qed.

Lemma built_keys v : obj_keys (built v) = managedKeys.
Proof. reflexivity. Qed.

Lemma managed_In k : managed k = true <-> In k managedKeys.
Proof. apply existsb_In. Qed.

Lemma managedKeys_NoDup : NoDup managedKeys.
Proof. apply (bool_decide_unpack _). vm_compute. exact I. Qed.

Lemma assemble_wf rule v : rule_wf rule -> obj_wf (other_keys rule ++ built v).
Proof.
  intros H. unfold obj_wf, obj_keys. rewrite map_app. fold (obj_keys (built v)). rewrite built_keys. apply list.NoDup_app. split; [|split; [|exact managedKeys_NoDup]].
  - destruct rule as [r|]; [by apply shown_keys_wf|apply NoDup_nil_2].
  - destruct rule as [r|]; [|intros x Hx; by apply elem_of_nil in Hx]. intros x Hx%list_elem_of_In Hm%list_elem_of_In. apply shown_keys_unmanaged in Hx. apply managed_In in Hm. congruence.
Qed.

(** A confirmed rule: the keys the form does not show, then what the form wrote. *)
Lemma assemble_append rule v : rule_wf rule -> assemble rule v = other_keys rule ++ written v.
Proof. intros H. unfold assemble. rewrite unmanaged_filter by done. rewrite (fold_set_append (fun kv => left_out kv.2)); [done|]. by apply assemble_wf. Qed.

(** ** Reading a confirmed rule *)

Lemma get_app a b k : obj_get (a ++ b) k = if obj_has a k then obj_get a k else obj_get b k.
Proof. induction a as [|[k' v] a IH]; [done|]. unfold obj_has in *. cbn. by destruct (String.eqb k k'). Qed.

Lemma get_filtered (p : jsval -> bool) o k : obj_wf o ->
  obj_get (List.filter (fun kv => negb (p kv.2)) o) k = if p (obj_get o k) then VUndef else obj_get o k.
Proof.
  unfold obj_wf, obj_keys. induction o as [|[k' v] o IH]; [by cbn; destruct (p VUndef)|]. intros [Hk Ho]%list.NoDup_cons. cbn [List.filter obj_get snd fst] in *.
  destruct (p v) eqn:P; cbn [negb]; cbn [obj_get]; destruct (String.eqb_spec k k') as [->|N]; rewrite ?P; auto.
  assert (A : obj_has o k' = false). { destruct (obj_has o k') eqn:E; [|done]. apply obj_has_keys in E. exfalso. by apply Hk, list_elem_of_In. }
  rewrite IH by done. rewrite (obj_has_get _ _ A). by destruct (p VUndef).
Qed.

Definition kept (v : jsval) : jsval := if left_out v then VUndef else v.

Lemma built_wf v : obj_wf (built v).
Proof. unfold obj_wf. rewrite built_keys. exact managedKeys_NoDup. Qed.

Lemma get_managed rule v k : rule_wf rule -> managed k = true -> obj_get (assemble rule v) k = kept (obj_get (built v) k).
Proof.
  intros H M. rewrite assemble_append, get_app by done. replace (obj_has (other_keys rule) k) with false.
  - apply get_filtered, built_wf.
  - symmetry. destruct rule as [r|]; [|done]. destruct (obj_has (other_keys (Some r)) k) eqn:E; [|done]. apply obj_has_keys, shown_keys_unmanaged in E. congruence.
Qed.

Lemma get_unmanaged r v k : obj_wf r -> managed k = false -> obj_get (assemble (Some r) v) k = obj_get r k.
Proof.
  intros H M. rewrite assemble_append, get_app by done. assert (W : obj_get (written v) k = VUndef).
  { apply obj_has_get. destruct (obj_has (written v) k) eqn:E; [|done]. apply obj_has_keys in E. unfold obj_keys in E. apply in_map_iff in E as ([k' x] & <- & E).
    apply filter_In in E as [E _]. apply (in_map fst) in E. fold (obj_keys (built v)) in E. rewrite built_keys in E. apply managed_In in E. cbn [fst] in *. congruence. }
  rewrite W. cbn [other_keys]. clear W. unfold shown_keys, obj_has. revert H. unfold obj_wf, obj_keys. induction r as [|[k' x] r IH]; [done|]. intros [Hk Hr]%list.NoDup_cons.
  cbn [List.filter fst snd obj_get]. destruct (String.eqb_spec k k') as [<-|N].
  - rewrite M. cbn [orb]. destruct (is_undef x) eqn:U; cbn [negb existsb fst obj_get]; [|by rewrite String.eqb_refl]. destruct x; try done. rewrite IH by done. apply obj_has_get. destruct (obj_has r k) eqn:E; [|done].
    apply obj_has_keys in E. exfalso. by apply Hk, list_elem_of_In.
  - destruct (negb _); [|by apply IH]. cbn [existsb fst obj_get]. rewrite (proj2 (String.eqb_neq k k')) by done. cbn [orb]. by apply IH.
Qed.

(** What each kind of field is read as again. *)
Lemma text_back s : or_falsy (kept (VStr s)) (VStr "") = VStr s.
Proof. by destruct s. Qed.

Lemma tag_back s : or_falsy (kept (tag_or_undefined s)) (VStr "") = VStr s.
Proof. by destruct s. Qed.

Lemma tokens_back l : listed_field (kept (strings l)) = VStr (join "," l).
Proof. destruct l as [|t l]; [done|]. unfold listed_field, kept. cbn [left_out strings map is_nullish orb is_array]. f_equal. apply (js_to_string_strings (t :: l)). Qed.

Lemma array_back l : or_falsy (kept (strings l)) (VArr []) = strings l.
Proof. by destruct l. Qed.

Lemma attrs_back o : (if truthy (kept (VObj o)) then js_entries (kept (VObj o)) else []) = map (fun kv => VArr [VStr kv.1; kv.2]) o.
Proof. by destruct o. Qed.

Lemma flag_back b : negb (is_bool (kept (VBool b)) false) = b.
Proof. by destruct b. Qed.

(** ** The values of a reopened rule *)

Definition attrs_pairs (o : obj) : list (string * string) := map (fun kv => (kv.1, str_or_empty kv.2)) o.

Definition attrs_wf (o : obj) : Prop := obj_wf o /\ Forall (fun kv => kv.1 <> "" /\ exists s, kv.2 = VStr s) o.

Lemma obj_set_attrs o k s : attrs_wf o -> k <> "" -> attrs_wf (obj_set o k (VStr s)).
Proof.
  intros [W F] K. split; [by apply obj_wf_set|]. clear W. induction F as [|[k' v] o H F IH]; cbn; [constructor; [|constructor]; eauto|].
  destruct (String.eqb_spec k k'); constructor; eauto.
Qed.

Lemma attrs_object_wf l : attrs_wf (attrs_object l).
Proof.
  unfold attrs_object. assert (G : forall o, attrs_wf o -> attrs_wf (fold_left (fun o kv => if String.eqb kv.1 "" then o else obj_set o kv.1 (VStr kv.2)) l o)).
  { induction l as [|[k s] l IH]; [done|]. intros o H. cbn [fold_left fst snd]. apply IH. destruct (String.eqb_spec k ""); [done|]. by apply obj_set_attrs. }
  apply G. split; [apply NoDup_nil_2|constructor].
Qed.

Lemma attrs_object_pairs o : attrs_wf o -> attrs_object (attrs_pairs o) = o.
Proof.
  unfold attrs_object. intros [W F]. assert (G : forall acc, obj_wf (acc ++ o) ->
    fold_left (fun o kv => if String.eqb kv.1 "" then o else obj_set o kv.1 (VStr kv.2)) (attrs_pairs o) acc = acc ++ o).
  { clear W. induction F as [|[k v] o (K & s & E) F IH]; intros acc W; [by rewrite app_nil_r|]. cbn in K, E. subst v. cbn [attrs_pairs map fold_left fst snd str_or_empty].
    rewrite (proj2 (String.eqb_neq k "")) by done. rewrite (obj_set_fresh _ _ _ _ W). fold (attrs_pairs o). rewrite IH by (by rewrite <-app_assoc). by rewrite <-app_assoc. }
  by apply (G []).
Qed.

Lemma strings_parse l : z_array z_string (strings l) = Some l.
Proof. cbn. induction l as [|t l IH]; [done|]. cbn. by rewrite IH. Qed.

Lemma attrs_parse o : attrs_wf o -> z_array z_pair (VArr (map (fun kv => VArr [VStr kv.1; kv.2]) o)) = Some (attrs_pairs o).
Proof. intros [_ F]. cbn. induction F as [|[k v] o (_ & s & E) F IH]; [done|]. cbn in E. subst v. cbn. by rewrite IH. Qed.

Definition reread (v : RuleFormValues) : RuleFormValues :=
  {| v_enabled := v_enabled v; v_comment := v_comment v; v_domain := join "," (csv (v_domain v)); v_ip := join "," (csv (v_ip v)); v_port := v_port v;
     v_sourcePort := v_sourcePort v; v_vlessRoute := v_vlessRoute v; v_network := v_network v; v_sourceIP := join "," (csv (v_sourceIP v));
     v_user := join "," (csv (v_user v)); v_inboundTag := v_inboundTag v; v_protocol := v_protocol v; v_attrs := attrs_pairs (attrs_object (v_attrs v));
     v_outboundTag := v_outboundTag v; v_balancerTag := v_balancerTag v |}.

(** A confirmed rule opens to the values it was confirmed with, its token lists respelled. *)
Lemma open_confirmed rule v : rule_wf rule -> RuleFormSchema (openForm (Some (assemble rule v))) = Some (reread v).
Proof.
  intros H. unfold openForm. rewrite !get_managed by done. unfold built. cbn [obj_get String.eqb Ascii.eqb Bool.eqb].
  rewrite flag_back, !text_back, !tokens_back, !array_back, attrs_back, !tag_back. unfold RuleFormSchema. cbn [obj_get String.eqb Ascii.eqb Bool.eqb].
  rewrite !strings_parse, attrs_parse by apply attrs_object_wf. reflexivity.
Qed.

Lemma built_reread v : built (reread v) = built v.
Proof. unfold built, reread. cbn [v_enabled v_comment v_domain v_ip v_port v_sourcePort v_vlessRoute v_network v_sourceIP v_user v_inboundTag v_protocol v_attrs v_outboundTag v_balancerTag]. by rewrite !csv_join, attrs_object_pairs by first [apply csv_clean|apply attrs_object_wf]. Qed.

Lemma filter_idem {A} (p : A -> bool) l : List.filter p (List.filter p l) = List.filter p l.
Proof. induction l as [|x l IH]; [done|]. cbn. destruct (p x) eqn:P; cbn; rewrite ?P, ?IH; done. Qed.

Lemma written_managed v : shown_keys (written v) = [].
Proof.
  unfold shown_keys. assert (F : forall kv, In kv (written v) -> managed kv.1 = true). { intros kv [E _]%filter_In. apply managed_In. rewrite <-(built_keys v). by apply in_map. }
  induction (written v) as [|kv l IH]; [done|]. cbn [List.filter]. rewrite (F kv) by by left. cbn [orb negb]. apply IH. intros kv' E. apply F. by right.
Qed.

Lemma assemble_obj_wf rule v : rule_wf rule -> obj_wf (assemble rule v).
Proof.
  intros H. rewrite assemble_append by done. pose proof (assemble_wf rule v H) as W. unfold obj_wf, obj_keys in *. rewrite map_app in *. apply list.NoDup_app in W as (A & D & B). apply list.NoDup_app.
  assert (I : forall x, In x (map fst (written v)) -> In x (map fst (built v))). { intros x (kv & <- & [E _]%filter_In)%in_map_iff. by apply in_map. }
  split; [done|]. split; [intros x Hx Hw; apply (D x Hx); apply list_elem_of_In, I; by apply list_elem_of_In|].
  unfold written. clear A D I. revert B. generalize (built v). intros l. induction l as [|[k x] l IH]; [done|]. intros [Hk Hl]%list.NoDup_cons. cbn [List.filter]. destruct (negb _); [|by apply IH].
  cbn [map fst]. apply list.NoDup_cons. split; [|by apply IH]. intros E%list_elem_of_In. apply Hk, list_elem_of_In. apply in_map_iff in E as (kv & <- & [E _]%filter_In). exact (in_map fst _ _ E).
Qed.

(** Confirming a reopened rule unchanged gives the rule. *)
Lemma confirm_again rule v : rule_wf rule -> assemble (Some (assemble rule v)) (reread v) = assemble rule v.
Proof.
  intros H. rewrite assemble_append by (by apply assemble_obj_wf). unfold written. rewrite built_reread. fold (written v). rewrite assemble_append by done. f_equal.
  cbn [other_keys]. unfold shown_keys at 1. rewrite List.filter_app. fold (shown_keys (written v)). rewrite written_managed, app_nil_r. destruct rule as [r|]; [apply filter_idem|done].
Qed.

(** ** Rules of the configuration *)

Definition text_ok (v : jsval) : Prop := truthy v = false \/ exists s, v = VStr s.
Definition listed_ok (v : jsval) : Prop := text_ok v \/ exists l, v = strings l.
Definition array_ok (v : jsval) : Prop := truthy v = false \/ exists l, v = strings l.
Definition attrs_ok (v : jsval) : Prop := truthy v = false \/ exists o, v = VObj o /\ attrs_wf o.

(** A rule whose fields have the types the form shows them with. *)
Record rule_ok (r : obj) : Prop := {
  ok_wf : obj_wf r;
  ok_text : forall k, In k ["comment"; "port"; "sourcePort"; "vlessRoute"; "network"; "outboundTag"; "balancerTag"] -> text_ok (obj_get r k);
  ok_listed : forall k, In k ["domain"; "ip"; "sourceIP"; "user"] -> listed_ok (obj_get r k);
  ok_arrays : forall k, In k ["inboundTag"; "protocol"] -> array_ok (obj_get r k);
  ok_attrs : attrs_ok (obj_get r "attrs") }.

Definition tokens_of (v : jsval) : list string := csv (str_or_empty (listed_field v)).

Definition text_of (v : jsval) : string := str_or_empty (or_falsy v (VStr "")).

Definition elements_of (v : jsval) : list string := map str_or_empty (as_list (or_falsy v (VArr []))).

Definition attrs_of (v : jsval) : obj := match v with VObj o => o | _ => [] end.

(** The value a key of the rule has after it was opened and confirmed. *)
Definition saved (r : obj) (k : string) : jsval :=
  let v := obj_get r k in
  if negb (managed k) then v
  else if String.eqb k "type" then VStr "field"
  else if String.eqb k "enabled" then VBool (negb (is_bool v false))
  else if existsb (String.eqb k) ["domain"; "ip"; "sourceIP"; "user"] then kept (strings (tokens_of v))
  else if existsb (String.eqb k) ["inboundTag"; "protocol"] then kept (strings (elements_of v))
  else if String.eqb k "attrs" then kept (VObj (attrs_of v))
  else kept (VStr (text_of v)).

Definition read_rule (r : obj) : RuleFormValues :=
  {| v_enabled := negb (is_bool (obj_get r "enabled") false); v_comment := text_of (obj_get r "comment");
     v_domain := str_or_empty (listed_field (obj_get r "domain")); v_ip := str_or_empty (listed_field (obj_get r "ip")); v_port := text_of (obj_get r "port");
     v_sourcePort := text_of (obj_get r "sourcePort"); v_vlessRoute := text_of (obj_get r "vlessRoute"); v_network := text_of (obj_get r "network");
     v_sourceIP := str_or_empty (listed_field (obj_get r "sourceIP")); v_user := str_or_empty (listed_field (obj_get r "user"));
     v_inboundTag := elements_of (obj_get r "inboundTag"); v_protocol := elements_of (obj_get r "protocol"); v_attrs := attrs_pairs (attrs_of (obj_get r "attrs"));
     v_outboundTag := text_of (obj_get r "outboundTag"); v_balancerTag := text_of (obj_get r "balancerTag") |}.

Lemma text_read v : text_ok v -> or_falsy v (VStr "") = VStr (text_of v).
Proof. unfold text_of, or_falsy. intros [E|[s ->]]; [by rewrite E|]. by destruct s. Qed.

Lemma listed_read v : listed_ok v -> listed_field v = VStr (str_or_empty (listed_field v)).
Proof. unfold listed_field. intros [T|[l ->]]; [|done]. destruct (is_array v) eqn:A; [done|]. by apply text_read. Qed.

Lemma array_read v : array_ok v -> or_falsy v (VArr []) = strings (elements_of v).
Proof.
  unfold elements_of, or_falsy. intros [E|[l ->]]; [by rewrite E|]. cbn [truthy strings as_list]. unfold strings. by rewrite !map_map.
Qed.

Lemma attrs_read v : attrs_ok v ->
  VArr (if truthy v then js_entries v else []) = VArr (map (fun kv => VArr [VStr kv.1; kv.2]) (attrs_of v)) /\ attrs_wf (attrs_of v).
Proof. intros [E|(o & -> & W)]; [|done]. rewrite E. destruct v as [| | | | | |o]; try done; split; try done; split; try apply NoDup_nil_2; constructor. Qed.

Lemma open_rule r : rule_ok r -> RuleFormSchema (openForm (Some r)) = Some (read_rule r).
Proof.
  intros [W T L A At]. unfold openForm. destruct (attrs_read _ At) as [Ea Wa]. rewrite Ea.
  rewrite (text_read (obj_get r "comment")), (text_read (obj_get r "port")), (text_read (obj_get r "sourcePort")), (text_read (obj_get r "vlessRoute")),
    (text_read (obj_get r "network")), (text_read (obj_get r "outboundTag")), (text_read (obj_get r "balancerTag")) by (apply T; cbn; tauto).
  rewrite (listed_read (obj_get r "domain")), (listed_read (obj_get r "ip")), (listed_read (obj_get r "sourceIP")), (listed_read (obj_get r "user")) by (apply L; cbn; tauto).
  rewrite (array_read (obj_get r "inboundTag")), (array_read (obj_get r "protocol")) by (apply A; cbn; tauto).
  unfold RuleFormSchema. cbn [obj_get String.eqb Ascii.eqb Bool.eqb]. rewrite !strings_parse, attrs_parse by done. reflexivity.
Qed.

Lemma kept_tag s : kept (tag_or_undefined s) = kept (VStr s).
Proof. by destruct s. Qed.

Lemma get_built r k : attrs_ok (obj_get r "attrs") -> managed k = true -> kept (obj_get (built (read_rule r)) k) = saved r k.
Proof.
  intros At M. unfold saved. rewrite M. cbn [negb]. destruct (attrs_read _ At) as [_ Wa]. apply managed_In in M. cbn [In managedKeys] in M.
  repeat (destruct M as [<-|M]; [cbn [built obj_get String.eqb Ascii.eqb Bool.eqb existsb orb read_rule v_enabled v_comment v_domain v_ip v_port v_sourcePort v_vlessRoute v_network v_sourceIP v_user v_inboundTag v_protocol v_attrs v_outboundTag v_balancerTag]; rewrite ?kept_tag, ?attrs_object_pairs by done; try reflexivity|]). destruct M.
Qed.

(** Opening a rule and confirming it unchanged. *)
Lemma confirm_opened r : rule_ok r -> exists out, submit (Some r) (openForm (Some r)) = Some out /\ obj_wf out /\ forall k, obj_get out k = saved r k.
Proof.
  intros H. pose proof H as [W _ _ _ At]. unfold submit. rewrite open_rule by done. eexists. split; [done|]. split; [by apply assemble_obj_wf|]. intros k. destruct (managed k) eqn:M.
  - rewrite get_managed by done. by apply get_built.
  - rewrite get_unmanaged by done. unfold saved. by rewrite M.
Qed.

(** Lists of clean tokens survive as they are. *)
Lemma tokens_kept l : Forall clean_token l -> tokens_of (strings l) = l.
Proof. intros H. unfold tokens_of, listed_field. cbn [is_array strings str_or_empty]. fold (strings l). rewrite js_to_string_strings. by apply csv_join. Qed.

(** ** The template behind the tab *)

Definition template_ok (t : jsval) : Prop :=
  json_ok t /\ (exists o, t = VObj o) /\ (truthy (get t "routing") = false \/ exists r, get t "routing" = VObj r).

Lemma mutate_json f t : template_ok t -> mutate f t = Some (f t).
Proof. intros (J & [o ->] & _). unfold mutate. cbn [truthy]. by rewrite JSON_parse_stringify. Qed.

(** The rest of the mutator, once the template has a routing object. *)
Lemma with_rules_routed f t r : (exists o, t = VObj o) -> get t "routing" = VObj r ->
  ruleList (with_rules f t) = f (ruleList t) /\ forall k, k <> "routing" -> get (with_rules f t) k = get t k.
Proof.
  intros [o ->] R. unfold with_rules, ruleList. rewrite R. cbn [truthy]. rewrite R. split; [|intros k K; by rewrite get_set_ne by done].
  rewrite get_set_eq by eauto. destruct (get (VObj r) "rules") eqn:E; cbn [is_array]; rewrite ?get_set_eq by (cbn; eauto); rewrite ?E; done.
Qed.

Lemma with_rules_unrouted f o : truthy (obj_get o "routing") = false ->
  with_rules f (VObj o) = with_rules f (VObj (obj_set o "routing" (VObj [("rules", VArr [])]))).
Proof. intros R. unfold with_rules. cbv zeta. cbn [get set]. rewrite R. rewrite !obj_get_set_eq. cbn [truthy get set]. by rewrite !obj_get_set_eq. Qed.

Lemma with_rules_spec f t : template_ok t -> ruleList (with_rules f t) = f (ruleList t) /\ forall k, k <> "routing" -> get (with_rules f t) k = get t k.
Proof.
  intros (_ & [o ->] & [R|[r R]]); [|by eapply with_rules_routed; eauto]. rewrite with_rules_unrouted by exact R.
  destruct (with_rules_routed f (VObj (obj_set o "routing" (VObj [("rules", VArr [])]))) [("rules", VArr [])]) as [E N]; [eauto|cbn; by rewrite obj_get_set_eq|].
  rewrite E. split.
  - f_equal. unfold ruleList. cbn [get]. rewrite obj_get_set_eq. cbn [get] in R. by destruct (obj_get o "routing").
  - intros k K. rewrite N by done. cbn. by rewrite obj_get_set_ne.
Qed.

Lemma store_in_range i x l : (i < length l)%nat -> store_at i x l = <[i := x]> l.
Proof. intros H. unfold store_at. by rewrite (proj2 (Nat.ltb_lt _ _)) by done. Qed.

(** A confirmed rule prints long enough for the guard of [onRuleConfirm]. *)
Lemma type_long o : obj_get o "type" = VStr "field" -> (3 < String.length (stringify (VObj o)))%nat.
Proof.
  intros H. cbn [stringify]. set (go := fix go (o : obj) : list string := match o with [] => [] | (k, x) :: o => match x with VUndef => go o | _ => (quote k +:+ ":" +:+ stringify x) :: go o end end).
  assert (L : (9 <= list_sum (map (fun s => S (String.length s)) (go o)))%nat).
  { induction o as [|[k x] o IH]; [done|]. cbn [obj_get] in H. destruct (String.eqb_spec "type" k) as [<-|N].
    - subst x. cbn [go map]. change (list_sum (?a :: ?m)) with (a + list_sum m)%nat. cbn [String.length quote quote_chars]. vm_compute String.length. lia.
    - specialize (IH H). cbn [go]. destruct x; try exact IH; cbn [map]; change (list_sum (?a :: ?m)) with (a + list_sum m)%nat; lia. }
  pose proof (length_join (go o)). rewrite !length_app_str. cbn [String.length]. lia.
Qed.

Lemma assemble_type rule v : rule_wf rule -> obj_get (assemble rule v) "type" = VStr "field".
Proof. intros H. by rewrite get_managed. Qed.

Lemma confirm_stores i rule v t : rule_wf rule -> template_ok t -> exists t', onRuleConfirm i (assemble rule v) t = Some t' /\
  ruleList t' = (match i with None => ruleList t ++ [VObj (assemble rule v)] | Some i => store_at i (VObj (assemble rule v)) (ruleList t) end) /\
  forall k, k <> "routing" -> get t' k = get t k.
Proof.
  intros W T. unfold onRuleConfirm. pose proof (type_long _ (assemble_type rule v W)) as L. rewrite (proj2 (Nat.leb_gt _ _)) by done. rewrite mutate_json by done.
  eexists. split; [done|]. match goal with |- ruleList (with_rules ?f t) = _ /\ _ => exact (with_rules_spec f t T) end.
Qed.

(** ** The rules of the tab *)

(** C10. Whatever the form holds when it is confirmed, the rule it hands over is a fixed point of the
    editor: opening it again and confirming it unchanged gives exactly the same object, key by key
    and in the same order; and every key the form does not show keeps the value the rule had. *)
Theorem rule_confirmed rule values out : rule_wf rule -> submit rule values = Some out ->
  submit (Some out) (openForm (Some out)) = Some out /\ obj_wf out /\
  forall r k, rule = Some r -> managed k = false -> obj_get out k = obj_get r k.
Proof.
  intros W. unfold submit at 1. destruct (RuleFormSchema values) as [v|]; [|done]. intros [= <-]. split; [|split; [by apply assemble_obj_wf|]].
  - unfold submit. rewrite open_confirmed by done. by rewrite confirm_again.
  - intros r k -> M. by apply get_unmanaged.
Qed.

Definition sample_rule : obj :=
  [("type", VStr "field"); ("ruleTag", VStr "ads"); ("domain", strings ["geosite:ads"; "ads.example"]); ("inboundTag", strings ["in-443"]);
   ("port", VStr "443"); ("outboundTag", VStr "blocked"); ("localPort", VInt 53)].

Definition sample_saved : obj :=
  [("ruleTag", VStr "ads"); ("localPort", VInt 53); ("type", VStr "field"); ("enabled", VBool true); ("domain", strings ["geosite:ads"; "ads.example"]);
   ("port", VStr "443"); ("inboundTag", strings ["in-443"]); ("outboundTag", VStr "blocked")].

Lemma rule_confirmed_witness :
  submit (Some sample_rule) (openForm (Some sample_rule)) = Some sample_saved /\ submit (Some sample_saved) (openForm (Some sample_saved)) = Some sample_saved.
Proof.
  split; [reflexivity|]. apply (rule_confirmed (Some sample_rule) (openForm (Some sample_rule)) sample_saved); [|reflexivity].
  apply (bool_decide_unpack _). vm_compute. exact I.
Defined.

(** *** What an edit means *)

(** The typed values the form holds. *)
Definition holds (values : obj) (v : RuleFormValues) : Prop :=
  obj_get values "enabled" = VBool (v_enabled v) /\
  Forall (fun kf => obj_get values kf.1 = VStr (kf.2 v))
    [("comment", v_comment); ("domain", v_domain); ("ip", v_ip); ("port", v_port); ("sourcePort", v_sourcePort); ("vlessRoute", v_vlessRoute);
     ("network", v_network); ("sourceIP", v_sourceIP); ("user", v_user); ("outboundTag", v_outboundTag); ("balancerTag", v_balancerTag)] /\
  obj_get values "inboundTag" = strings (v_inboundTag v) /\ obj_get values "protocol" = strings (v_protocol v) /\
  obj_get values "attrs" = VArr (map (fun kv => VArr [VStr kv.1; VStr kv.2]) (v_attrs v)).

Lemma pairs_parse l : z_array z_pair (VArr (map (fun kv : string * string => VArr [VStr kv.1; VStr kv.2]) l)) = Some l.
Proof. cbn. induction l as [|[k v] l IH]; [done|]. cbn. by rewrite IH. Qed.

Lemma holds_schema values v : holds values v -> RuleFormSchema values = Some v.
Proof.
  intros (E & T & I & P & A). unfold RuleFormSchema. rewrite E, I, P, A, !strings_parse, pairs_parse.
  repeat (apply Forall_cons_1 in T as [E0 T]; cbn [fst snd] in E0; rewrite E0; clear E0). by destruct v.
Qed.

Lemma z_string_inv v s : z_string v = Some s -> v = VStr s.
Proof. destruct v; try done. by intros [= ->]. Qed.

Lemma z_strings_inv v l : z_array z_string v = Some l -> v = strings l.
Proof.
  destruct v as [| | | | |x|]; try done. cbn. revert l. induction x as [|y x IH]; intros l; cbn; [by intros [= <-]|]. destruct (z_string y) as [s|] eqn:Y; [|done]. apply z_string_inv in Y as ->.
  cbn. destruct (mapM z_string x) as [m|]; [|done]. cbn. intros [= <-]. specialize (IH m eq_refl). injection IH as ->. done.
Qed.

Lemma z_pairs_inv v l : z_array z_pair v = Some l -> v = VArr (map (fun kv => VArr [VStr kv.1; VStr kv.2]) l).
Proof.
  destruct v as [| | | | |x|]; try done. cbn. revert l. induction x as [|y x IH]; intros l; cbn; [by intros [= <-]|]. destruct (z_pair y) as [[k s]|] eqn:Y; [|done].
  assert (E : y = VArr [VStr k; VStr s]) by (revert Y; unfold z_pair; repeat case_match; congruence). subst y.
  cbn. destruct (mapM z_pair x) as [m|]; [|done]. cbn. intros [= <-]. specialize (IH m eq_refl). injection IH as ->. done.
Qed.

Lemma schema_holds values v : RuleFormSchema values = Some v -> holds values v.
Proof.
  unfold RuleFormSchema. intros H. repeat lazymatch type of H with (mbind _ ?x) = _ => let E := fresh "E" in destruct x eqn:E; [cbn [mbind option_bind] in H|discriminate H] end.
  injection H as <-. repeat match goal with E : z_string _ = Some _ |- _ => apply z_string_inv in E | E : z_array z_string _ = Some _ |- _ => apply z_strings_inv in E | E : z_array z_pair _ = Some _ |- _ => apply z_pairs_inv in E end.
  split; [cbn; unfold z_boolean in *; by destruct (obj_get values "enabled"); simplify_eq|]. split; [|by repeat split]. repeat (constructor; [done|]). constructor.
Qed.

(** The text of a list field spells the entries [l]: they are what stands between the commas, without the blanks
    around it and without what is blank. *)
Definition spells (text : string) (l : list string) : Prop :=
  exists ws, ws <> [] /\ text = join "," ws /\ Forall (no_char ",") ws /\ l = List.filter (fun s => negb (String.eqb s "")) (map trim ws).

Lemma spells_csv text l : spells text l -> csv text = l.
Proof. intros (ws & N & -> & F & ->). rewrite csv_parseTokens. unfold parseTokens. change "," with (String "," ""). by rewrite split_join. Qed.

(** A value of a rule that is left out when there is nothing in it. *)
Definition text_value (s : string) : jsval := if String.eqb s "" then VUndef else VStr s.
Definition list_value (l : list string) : jsval := if bool_decide (l = []) then VUndef else strings l.

(** The value the last of the pairs with a name gives it. *)
Definition last_named (n : string) (l : list (string * string)) : jsval :=
  match List.find (fun kv => String.eqb kv.1 n) (rev l) with Some kv => VStr kv.2 | None => VUndef end.

(** The rule [out] made of the rule [r] and the values [v]. *)
Record edited (r : obj) (v : RuleFormValues) (out : obj) : Prop := {
  ed_other : forall k, managed k = false -> obj_get out k = obj_get r k;
  ed_type : obj_get out "type" = VStr "field";
  ed_enabled : obj_get out "enabled" = VBool (v_enabled v);
  ed_texts : Forall (fun kf => obj_get out kf.1 = text_value (kf.2 v))
    [("comment", v_comment); ("port", v_port); ("sourcePort", v_sourcePort); ("vlessRoute", v_vlessRoute); ("network", v_network);
     ("outboundTag", v_outboundTag); ("balancerTag", v_balancerTag)];
  ed_lists : Forall (fun kf => forall l, spells (kf.2 v) l -> obj_get out kf.1 = list_value l) [("domain", v_domain); ("ip", v_ip); ("sourceIP", v_sourceIP); ("user", v_user)];
  ed_inbounds : obj_get out "inboundTag" = list_value (v_inboundTag v);
  ed_protocols : obj_get out "protocol" = list_value (v_protocol v);
  ed_attrs : forall n, n <> "" -> get (obj_get out "attrs") n = last_named n (v_attrs v) }.

Lemma kept_text s : kept (VStr s) = text_value s.
Proof. by destruct s. Qed.

Lemma kept_list l : kept (strings l) = list_value l.
Proof. by destruct l. Qed.

Lemma attrs_object_get l n : n <> "" -> obj_get (attrs_object l) n = last_named n l.
Proof.
  intros N. unfold attrs_object, last_named. induction l as [|[k x] l IH] using rev_ind; [done|]. rewrite fold_left_app, rev_app_distr. cbn [fold_left rev app List.find fst snd].
  destruct (String.eqb_spec k n) as [->|K].
  - rewrite (proj2 (String.eqb_neq n "")) by done. apply obj_get_set_eq.
  - destruct (String.eqb_spec k ""); [done|]. by rewrite obj_get_set_ne.
Qed.

Lemma assemble_edited r v : obj_wf r -> edited r v (assemble (Some r) v).
Proof.
  intros W. assert (G : forall k, managed k = true -> obj_get (assemble (Some r) v) k = kept (obj_get (built v) k)) by (intros k; by apply get_managed).
  split.
  - intros k. by apply get_unmanaged.
  - by rewrite G.
  - by rewrite G.
  - repeat (constructor; [cbn [fst snd]; rewrite G by done; cbn [built obj_get String.eqb Ascii.eqb Bool.eqb]; rewrite ?kept_tag; apply kept_text|]). constructor.
  - repeat (constructor; [cbn [fst snd]; intros l S; rewrite G by done; cbn [built obj_get String.eqb Ascii.eqb Bool.eqb]; rewrite (spells_csv _ _ S); apply kept_list|]). constructor.
  - rewrite G by done. apply kept_list.
  - rewrite G by done. apply kept_list.
  - intros n N. rewrite G by done. cbn [built obj_get String.eqb Ascii.eqb Bool.eqb]. rewrite <-(attrs_object_get _ n N). by destruct (attrs_object (v_attrs v)).
Qed.

Lemma shown_edited r v out : edited r v out -> forallb (fun t => negb (isBalancerLoopbackTag t)) (v_inboundTag v) = true -> hidden_rule (VObj out) = false.
Proof.
  intros E F. unfold hidden_rule. cbn [get]. rewrite (ed_inbounds _ _ _ E). unfold list_value. case_bool_decide as N; [done|]. cbn [strings as_list].
  clear N. induction (v_inboundTag v) as [|t l IH]; [done|]. cbn [forallb] in F. cbn [map existsb str_or_empty]. apply andb_true_iff in F as [F1%negb_true_iff F]. by rewrite F1, IH.
Qed.

(** C38. Editing a shown rule.  Take a rule opened from a row of the table, which hides the rules of balancer loopbacks, and whatever
    typed values the form then holds, none of the picked inbound tags being one of a loopback (the form offers none).  Confirming
    replaces the rule of that row and no other by the rule made of the two: keys the form does not show are those of the old rule, every
    other key has what was entered, the list fields split at their commas, attributes by their names, and what is empty left out; the hidden rows
    and every other part of the template stay.  While a field holds a value of another type, confirming does nothing. *)
Theorem rule_edited t idx r values : template_ok t -> shown_rows hidden_rule (ruleList t) !! idx = Some (VObj r) -> obj_wf r ->
  (forall v, holds values v -> forallb (fun tag => negb (isBalancerLoopbackTag tag)) (v_inboundTag v) = true ->
   exists out t', submit (Some r) values = Some out /\ edited r v out /\
    onRuleConfirm (Some (original hidden_rule (ruleList t) idx)) out t = Some t' /\
    shown_rows hidden_rule (ruleList t') = <[idx := VObj out]> (shown_rows hidden_rule (ruleList t)) /\
    concealed hidden_rule (ruleList t') = concealed hidden_rule (ruleList t) /\ forall k, k <> "routing" -> get t' k = get t k) /\
  ((forall v, ~ holds values v) -> submit (Some r) values = None).
Proof.
  intros T Hr W. split.
  - intros v H F. pose proof (assemble_edited r v W) as E. exists (assemble (Some r) v). assert (Hi : (idx < length (shown_rows hidden_rule (ruleList t)))%nat) by by eapply lookup_lt_Some.
    destruct (original_split hidden_rule _ _ Hi) as (a & x & b & El & _ & _ & Eo).
    destruct (confirm_stores (Some (original hidden_rule (ruleList t) idx)) (Some r) v t W T) as (t' & C & L & N). exists t'.
    split; [unfold submit; by rewrite (holds_schema _ _ H)|]. split; [done|]. split; [done|]. rewrite L, store_in_range by (rewrite El at 2; rewrite length_app, Eo; cbn; lia).
    destruct (insert_refines hidden_rule idx _ (ruleList t) Hi (shown_edited r v _ E F)) as [V1 V2]. done.
  - intros N. unfold submit. destruct (RuleFormSchema values) as [v|] eqn:S; [|done]. destruct (N v). by apply schema_holds.
Qed.

Definition sample_template : jsval :=
  VObj [("log", VObj []);
        ("routing", VObj [("rules", VArr [VObj [("inboundTag", strings ["_bl_lb"]); ("balancerTag", VStr "lb")]; VObj sample_rule])])].

Lemma sample_rule_ok : rule_ok sample_rule.
Proof.
  split.
  - apply (bool_decide_unpack _). vm_compute. exact I.
  - intros k H. cbn [In] in H. repeat (destruct H as [<-|H]; [first [left; reflexivity|right; eexists; reflexivity]|]). destruct H.
  - intros k H. cbn [In] in H. repeat (destruct H as [<-|H]; [first [left; left; reflexivity|right; eexists; reflexivity]|]). destruct H.
  - intros k H. cbn [In] in H. repeat (destruct H as [<-|H]; [first [left; reflexivity|right; eexists; reflexivity]|]). destruct H.
  - left. reflexivity.
Qed.

Lemma sample_template_ok : template_ok sample_template.
Proof. split; [|split; [eexists; reflexivity|right; eexists; reflexivity]]. cbn. repeat split; apply (bool_decide_unpack _); vm_compute; exact I. Qed.

(** The sample rule with another domain list and another port entered. *)
Definition sample_values : obj := obj_set (obj_set (openForm (Some sample_rule)) "domain" (VStr "geosite:ads, tracker.example,")) "port" (VStr "").

Lemma rule_edited_witness :
  exists out t', submit (Some sample_rule) sample_values = Some out /\ obj_get out "domain" = strings ["geosite:ads"; "tracker.example"] /\ obj_get out "localPort" = VInt 53 /\
    onRuleConfirm (Some 1%nat) out sample_template = Some t' /\ shown_rows hidden_rule (ruleList t') = [VObj out].
Proof.
  assert (W : obj_wf sample_rule) by (apply (bool_decide_unpack _); vm_compute; exact I).
  destruct (rule_edited sample_template 0 sample_rule sample_values sample_template_ok eq_refl W) as [H _].
  destruct (RuleFormSchema sample_values) as [v|] eqn:E; [|discriminate E].
  destruct (H v (schema_holds _ _ E)) as (out & t' & E1 & E2 & C & S & _); [by vm_compute in E; injection E as <-|].
  exists out, t'. split; [exact E1|]. split; [|split; [rewrite (ed_other _ _ _ E2) by reflexivity; reflexivity|split; [exact C|exact S]]].
  pose proof (ed_lists _ _ _ E2) as L. apply Forall_cons_1 in L as [L _]. cbn [fst snd] in L. apply (L ["geosite:ads"; "tracker.example"]). exists ["geosite:ads"; " tracker.example"; ""].
  vm_compute in E. injection E as <-. split; [done|]. split; [reflexivity|]. split; [by repeat constructor|reflexivity].
Defined.

(** ** Export and import *)

Lemma json_ok_rules t : template_ok t -> json_ok (VArr (ruleList t)).
Proof.
  intros (J & [o ->] & _). unfold ruleList. cbn [get]. destruct (json_ok_get o "routing" J) as [->|Jr]; [done|].
  destruct (obj_get o "routing") as [| | | | | |r]; try done. cbn [get]. destruct (json_ok_get r "rules" Jr) as [->|Jl]; [done|]. by destruct (obj_get r "rules").
Qed.

(** Importing the text that was exported appends the exported rules, and changes nothing else. *)
Theorem exported_rules_imported t0 t : template_ok t0 -> template_ok t -> exists t',
  importRules (exportRules t0) t = Some (Some t') /\ ruleList t' = ruleList t ++ ruleList t0 /\ forall k, k <> "routing" -> get t' k = get t k.
Proof.
  intros T0 T. unfold importRules, exportRules. rewrite JSON_parse_pretty by (by apply json_ok_rules). cbn [imported_list]. rewrite mutate_json by done.
  eexists. split; [done|]. exact (with_rules_spec (fun rules => rules ++ ruleList t0) t T).
Qed.

Lemma exported_rules_imported_witness : exists t',
  importRules (exportRules sample_template) sample_template = Some (Some t') /\ ruleList t' = ruleList sample_template ++ ruleList sample_template.
Proof. destruct (exported_rules_imported sample_template sample_template sample_template_ok sample_template_ok) as (t' & E & L & _). exists t'. split; [exact E|exact L]. Defined.

(** ** Options of the selects *)

Lemma push_tag_In out v x : In x (push_tag out v) <-> In x out \/ (v = VStr x /\ x <> "" /\ isBalancerLoopbackTag x = false).
Proof.
  unfold push_tag. destruct v as [| | | |t| |]; try (split; [by left|by intros [H|[H _]]]).
  destruct (String.eqb_spec t "") as [->|N]; cbn [orb]; [split; [by left|]; intros [H|([= <-] & H & _)]; done|].
  destruct (existsb (String.eqb t) out) eqn:E; cbn [orb]; [apply existsb_In in E; split; [by left|]; intros [H|([= <-] & _)]; done|].
  destruct (isBalancerLoopbackTag t) eqn:B; [split; [by left|]; intros [H|([= <-] & _ & H)]; [done|congruence]|].
  rewrite in_app_iff. cbn [In]. split; [intros [H|[<-|[]]]; auto|intros [H|([= <-] & _)]; auto].
Qed.

Lemma push_tag_NoDup out v : List.NoDup out -> List.NoDup (push_tag out v).
Proof.
  intros H. unfold push_tag. destruct v as [| | | |t| |]; try done. destruct (_ || _) eqn:E; [done|]. apply orb_false_iff in E as [E _]. apply orb_false_iff in E as [_ E].
  apply NoDup_app; [done|repeat constructor; auto|]. intros x Hx [<-|[]]. apply not_true_iff_false in E. apply E. by apply existsb_In.
Qed.

(** The inbound tags offered: those of the sources, without the loopback ones, each once. *)
Lemma inboundTagOptions_spec t inboundTags :
  List.NoDup (inboundTagOptions t inboundTags) /\
  forall x, In x (inboundTagOptions t inboundTags) <-> In (VStr x) (inbound_tag_sources t inboundTags) /\ x <> "" /\ isBalancerLoopbackTag x = false.
Proof.
  unfold inboundTagOptions. generalize (inbound_tag_sources t inboundTags). intros l.
  assert (G : forall out, List.NoDup out -> List.NoDup (fold_left push_tag l out) /\
    forall x, In x (fold_left push_tag l out) <-> In x out \/ (In (VStr x) l /\ x <> "" /\ isBalancerLoopbackTag x = false)).
  { induction l as [|v l IH]; intros out H; cbn [fold_left In]; [split; [done|]; intros x; split; [by left|by intros [?|[[] _]]]|].
    destruct (IH _ (push_tag_NoDup out v H)) as [D I]. split; [done|]. intros x. rewrite I, push_tag_In. tauto. }
  destruct (G [] ltac:(constructor)) as [D I]. split; [done|]. intros x. rewrite I. cbn. tauto.
Qed.

(** ** The rows are those of the table *)

Lemma rule_hidden_array rule : array_ok (get rule "inboundTag") -> rule_hidden rule = Some (hidden_rule rule).
Proof.
  unfold rule_hidden, hidden_rule. intros [E|[l ->]]; [unfold or_falsy; rewrite E; by destruct (get rule "inboundTag")|]. cbn [or_falsy truthy strings as_list].
  unfold or_falsy. cbn [truthy]. induction l as [|t l IH]; [done|]. cbn [map some_loopback existsb str_or_empty]. by destruct (isBalancerLoopbackTag t).
Qed.

(** The rows the tab builds are the shown rows with the index of their rule, so that
    [originalRuleIndex] reads the index of the rule behind a row. *)
Lemma shownRows_rows l : Forall (fun rule => array_ok (get rule "inboundTag")) l -> forall key,
  shownRows key l = Some (map (fun row => (row.1, ruleRow row.2)) (rows_from hidden_rule key l)).
Proof.
  induction 1 as [|rule l H F IH]; intros key; [done|]. cbn [shownRows rows_from]. rewrite rule_hidden_array, IH by done. cbn. by destruct (hidden_rule rule).
Qed.

(** ** Behaviours worth knowing *)

(** A rule with a numeric port, which the schema of rules allows, cannot be confirmed: the values
    fail the schema of the form and nothing happens. *)
Lemma numeric_port_blocks v : submit (Some [("type", VStr "field"); ("port", VNum v); ("outboundTag", VStr "direct")])
  (openForm (Some [("type", VStr "field"); ("port", VNum v); ("outboundTag", VStr "direct")])) = if num_truthy v then None else
  Some [("type", VStr "field"); ("enabled", VBool true); ("outboundTag", VStr "direct")].
Proof. unfold submit, openForm. cbn [obj_get String.eqb Ascii.eqb Bool.eqb]. unfold or_falsy at 2. cbn [truthy]. destruct (num_truthy v); reflexivity. Qed.

(** A pattern with a comma is cut in two by opening and confirming its rule. *)
Lemma comma_pattern_split :
  submit (Some [("domain", strings ["regexp:^a{1,3}$"])]) (openForm (Some [("domain", strings ["regexp:^a{1,3}$"])])) =
  Some [("type", VStr "field"); ("enabled", VBool true); ("domain", strings ["regexp:^a{1"; "3}$"])].
Proof. reflexivity. Qed.

(** A rule whose inbound tag is one string, which [arrJoin] and [isApiRule] are written for, makes the rows raise. *)
Lemma string_tag_raises rest : shownRows 0 (VObj [("inboundTag", VStr "in-443")] :: rest) = None.
Proof. reflexivity. Qed.
