(* ===== verification/DnsEditor.v ===== *)
(** * The DNS tab

    Models src/frontend/src/pages/xray/dns: the modal of one DNS server (DnsServerModal.tsx: the values
    a server is opened with and the entry they are stored as, with the schema of
    src/frontend/src/schemas/dns.ts), the cells of the table (helpers.ts), and the tab itself
    (DnsTab.tsx), which keeps a list of host rows beside the template.  The rows may be incomplete, so
    they are not the hosts of the template: an effect compares the text of the hosts with the text the
    tab wrote last to tell a change of its own from one made elsewhere.

    The tab is a transition system: its state is the template, the rows and the text last written; an
    event is a handler of the tab or a template that arrives from outside, followed by the effect. *)
From S2P Require Import Prelude JsString JsValue JsObject XraySettings TableRows Json JsonPretty RuleForm.

(** ** Addresses *)

(** The pattern of [isEncryptedDnsAddress], which ignores case. *)
Definition encrypted_schemes : list string := ["https://"; "https+local://"; "h2c://"; "h2c+local://"; "quic+local://"].

Definition isEncryptedDnsAddress (address : jsval) : bool :=
  existsb (starts_with (to_lower (js_to_string address))) encrypted_schemes.

(** ** The schema of a server object *)

Definition z_port (v : jsval) : bool := match v with VNum (NFin z O) => (1 <=? z)%Z && (z <=? 65535)%Z | _ => false end.
Definition z_natural (v : jsval) : bool := match v with VNum (NFin z O) => (0 <=? z)%Z && (z <=? 2 ^ 53 - 1)%Z | _ => false end.
Definition z_strings (v : jsval) : bool := match v with VArr l => forallb is_string l | _ => false end.
Definition z_flag (v : jsval) : bool := match v with VBool _ => true | _ => false end.
Definition z_strategy (v : jsval) : bool := existsb (is_str v) ["UseIP"; "UseIPv4"; "UseIPv6"; "UseSystem"].

(** The optional keys of [DnsServerObjectInnerSchema] with their types. *)
Definition server_shape : list (string * (jsval -> bool)) :=
  [("port", z_port); ("domains", z_strings); ("expectedIPs", z_strings); ("unexpectedIPs", z_strings); ("skipFallback", z_flag); ("finalQuery", z_flag);
   ("tag", is_string); ("clientIP", is_string); ("queryStrategy", z_strategy); ("disableCache", z_flag); ("timeoutMs", z_natural); ("serveStale", z_flag);
   ("serveExpiredTTL", z_natural)].

Definition fits (o : obj) (kp : string * (jsval -> bool)) : bool := is_undef (obj_get o kp.1) || kp.2 (obj_get o kp.1).

(** The preprocessing step: the older name of [expectedIPs]. *)
Definition rename_expect (o : obj) : obj :=
  if truthy (obj_get o "expectIPs") && negb (truthy (obj_get o "expectedIPs")) then obj_set o "expectedIPs" (obj_get o "expectIPs") else o.

(** [DnsServerObjectSchema.safeParse(server).data], as a function from keys to values. *)
Definition DnsServerObjectSchema (server : obj) : option (string -> jsval) :=
  let v := rename_expect server in
  if is_string (obj_get v "address") && forallb (fits v) server_shape then
    Some (fun k =>
      if String.eqb k "address" then obj_get v k
      else if String.eqb k "timeoutMs" then if is_undef (obj_get v k) then VInt 4000 else obj_get v k
      else if String.eqb k "port" then if is_undef (obj_get v k) && negb (isEncryptedDnsAddress (obj_get v "address")) then VInt 53 else obj_get v k
      else if existsb (fun kp => String.eqb k kp.1) server_shape then obj_get v k else VUndef)
  else None.

(** ** The form *)

Record DnsServerForm := {
  address : jsval; port : jsval; domains : jsval; expectedIPs : jsval; unexpectedIPs : jsval; queryStrategy : jsval; skipFallback : jsval;
  disableCache : jsval; finalQuery : jsval; tag : jsval; clientIP : jsval; serveStale : jsval; serveExpiredTTL : jsval; timeoutMs : jsval }.

Definition form_at (a : jsval) : DnsServerForm :=
  {| address := a; port := VInt 53; domains := VArr []; expectedIPs := VArr []; unexpectedIPs := VArr []; queryStrategy := VStr "UseIP";
     skipFallback := VBool false; disableCache := VBool false; finalQuery := VBool false; tag := VStr ""; clientIP := VStr ""; serveStale := VBool false;
     serveExpiredTTL := VInt 0; timeoutMs := VInt 4000 |}.

Definition defaultFormValues : DnsServerForm := form_at (VStr "localhost").

(** [data?.k ?? server.k ?? d] *)
Definition field (data : string -> jsval) (server : obj) (k : string) (d : jsval) : jsval := or_nullish (data k) (or_nullish (obj_get server k) d).

(** A server of the configuration: absent, a string, or an object. *)
Definition valuesFromServer (server : jsval) : DnsServerForm :=
  match server with
  | VStr s => form_at (VStr s)
  | VObj o =>
      let data := match DnsServerObjectSchema o with Some d => d | None => fun _ => VUndef end in
      {| address := or_falsy (or_nullish (data "address") (obj_get o "address")) (VStr "localhost");
         port := if is_undef (data "port") then VInt 53 else data "port";
         domains := field data o "domains" (VArr []);
         expectedIPs := or_nullish (data "expectedIPs") (or_nullish (obj_get o "expectedIPs") (or_nullish (obj_get o "expectIPs") (VArr [])));
         unexpectedIPs := field data o "unexpectedIPs" (VArr []);
         queryStrategy := field data o "queryStrategy" (VStr "UseIP");
         skipFallback := field data o "skipFallback" (VBool false);
         disableCache := field data o "disableCache" (VBool false);
         finalQuery := field data o "finalQuery" (VBool false);
         tag := field data o "tag" (VStr "");
         clientIP := field data o "clientIP" (VStr "");
         serveStale := field data o "serveStale" (VBool false);
         serveExpiredTTL := field data o "serveExpiredTTL" (VInt 0);
         timeoutMs := field data o "timeoutMs" (VInt 4000) |}
  | _ => defaultFormValues
  end.

(** [v.length === 0] of a value that is not nullish. *)
Definition no_length (v : jsval) : bool := match v with VArr [] => true | VStr "" => true | _ => false end.

(** [v.filter(Boolean)]: a TypeError on what is not an array. *)
Definition filter_truthy (v : jsval) : option jsval := match v with VArr l => Some (VArr (List.filter truthy l)) | _ => None end.

Definition isPlain (v : DnsServerForm) : bool :=
  no_length (domains v) && no_length (expectedIPs v) && no_length (unexpectedIPs v) && is_int (port v) 53 && is_str (queryStrategy v) "UseIP" &&
  is_bool (skipFallback v) false && is_bool (disableCache v) false && is_bool (finalQuery v) false && negb (truthy (tag v)) && negb (truthy (clientIP v)) &&
  is_bool (serveStale v) false && is_int (serveExpiredTTL v) 0 && is_int (timeoutMs v) 4000.

Definition valuesToWire (v : DnsServerForm) : option jsval :=
  if isPlain v then Some (address v)
  else
    ds ← filter_truthy (domains v); es ← filter_truthy (expectedIPs v); us ← filter_truthy (unexpectedIPs v);
    Some (VObj ([("address", address v); ("domains", ds); ("expectedIPs", es); ("unexpectedIPs", us); ("queryStrategy", queryStrategy v);
                 ("skipFallback", skipFallback v); ("disableCache", disableCache v); ("finalQuery", finalQuery v); ("serveStale", serveStale v);
                 ("serveExpiredTTL", serveExpiredTTL v); ("timeoutMs", timeoutMs v)] ++
                (if isEncryptedDnsAddress (address v) then [] else [("port", port v)]) ++
                (if truthy (tag v) then [("tag", tag v)] else []) ++ (if truthy (clientIP v) then [("clientIP", clientIP v)] else []))).

(** ** Cells of the table *)

Definition addrFor (server : jsval) : jsval := match server with VStr s => VStr s | _ => or_falsy (get server "address") (VStr "") end.

Definition domainsFor (server : jsval) : option string :=
  match server with
  | VObj o => match or_falsy (obj_get o "domains") (VArr []) with VArr l => Some (js_to_string (VArr l)) | _ => None end
  | _ => Some ""
  end.

Definition expectedIPsFor (server : jsval) : string :=
  match server with
  | VObj o => match or_falsy (obj_get o "expectedIPs") (or_falsy (obj_get o "expectIPs") (VArr [])) with VArr l => js_to_string (VArr l) | _ => "" end
  | _ => ""
  end.

(** ** A server opened and stored *)

(** What the fields of the form hold. *)
Definition flag (v : jsval) : Prop := exists b, v = VBool b.
Definition texts (v : jsval) : Prop := exists l, v = strings l /\ Forall (fun s => s <> "") l.
Definition natural (v : jsval) : Prop := exists z, v = VInt z /\ (0 <= z <= 2 ^ 53 - 1)%Z.

Record form_ok (v : DnsServerForm) : Prop := {
  ok_address : exists a, address v = VStr a /\ a <> "";
  ok_port : exists z, port v = VInt z /\ (1 <= z <= 65535)%Z;
  ok_domains : texts (domains v); ok_expected : texts (expectedIPs v); ok_unexpected : texts (unexpectedIPs v);
  ok_strategy : exists s, queryStrategy v = VStr s /\ In s ["UseIP"; "UseIPv4"; "UseIPv6"; "UseSystem"];
  ok_skip : flag (skipFallback v); ok_cache : flag (disableCache v); ok_final : flag (finalQuery v); ok_stale : flag (serveStale v);
  ok_tag : exists s, tag v = VStr s; ok_client : exists s, clientIP v = VStr s;
  ok_ttl : natural (serveExpiredTTL v); ok_timeout : natural (timeoutMs v) }.

Definition with_port (v : DnsServerForm) (p : jsval) : DnsServerForm :=
  {| address := address v; port := p; domains := domains v; expectedIPs := expectedIPs v; unexpectedIPs := unexpectedIPs v; queryStrategy := queryStrategy v;
     skipFallback := skipFallback v; disableCache := disableCache v; finalQuery := finalQuery v; tag := tag v; clientIP := clientIP v;
     serveStale := serveStale v; serveExpiredTTL := serveExpiredTTL v; timeoutMs := timeoutMs v |}.

(** The form after its entry is opened again: Xray reads the port of an encrypted server from its address. *)
Definition reopened (v : DnsServerForm) : DnsServerForm := if isEncryptedDnsAddress (address v) then with_port v (VInt 53) else v.

Lemma filter_texts v : texts v -> filter_truthy v = Some v.
Proof.
  intros (l & -> & F). unfold filter_truthy, strings. do 2 f_equal. induction F as [|s l Hs F IH]; [done|]. cbn [map List.filter]. rewrite IH. by destruct s.
Qed.

Lemma z_strings_texts v : texts v -> z_strings v = true.
Proof. intros (l & -> & _). cbn. by induction l. Qed.

Lemma z_natural_ok v : natural v -> z_natural v = true.
Proof. intros (z & -> & H). cbn. apply andb_true_iff. split; apply Z.leb_le; lia. Qed.

Lemma z_strategy_ok s : In s ["UseIP"; "UseIPv4"; "UseIPv6"; "UseSystem"] -> z_strategy (VStr s) = true.
Proof. cbn [In]. intros [<-|[<-|[<-|[<-|[]]]]]; reflexivity. Qed.

Lemma z_port_ok z : (1 <= z <= 65535)%Z -> z_port (VInt z) = true.
Proof. intros H. cbn. apply andb_true_iff. split; apply Z.leb_le; lia. Qed.

Lemma or_nullish_twice x d : or_nullish x (or_nullish x d) = or_nullish x d.
Proof. unfold or_nullish. by destruct (is_nullish x). Qed.

(** A server the schema accepts opens with the values of its keys. *)
Lemma values_of_valid o a : obj_get o "expectIPs" = VUndef -> obj_get o "address" = VStr a -> a <> "" -> forallb (fits o) server_shape = true ->
  valuesFromServer (VObj o) =
  {| address := VStr a;
     port := if is_undef (obj_get o "port") then VInt 53 else obj_get o "port";
     domains := or_nullish (obj_get o "domains") (VArr []); expectedIPs := or_nullish (obj_get o "expectedIPs") (VArr []);
     unexpectedIPs := or_nullish (obj_get o "unexpectedIPs") (VArr []); queryStrategy := or_nullish (obj_get o "queryStrategy") (VStr "UseIP");
     skipFallback := or_nullish (obj_get o "skipFallback") (VBool false); disableCache := or_nullish (obj_get o "disableCache") (VBool false);
     finalQuery := or_nullish (obj_get o "finalQuery") (VBool false); tag := or_nullish (obj_get o "tag") (VStr "");
     clientIP := or_nullish (obj_get o "clientIP") (VStr ""); serveStale := or_nullish (obj_get o "serveStale") (VBool false);
     serveExpiredTTL := or_nullish (obj_get o "serveExpiredTTL") (VInt 0);
     timeoutMs := or_nullish (if is_undef (obj_get o "timeoutMs") then VInt 4000 else obj_get o "timeoutMs") (or_nullish (obj_get o "timeoutMs") (VInt 4000)) |}.
Proof.
  intros X A N F. unfold valuesFromServer, DnsServerObjectSchema, rename_expect. rewrite X. cbn [truthy andb]. rewrite A. cbn [is_string andb]. rewrite F.
  unfold field. cbn [String.eqb Ascii.eqb Bool.eqb existsb server_shape fst orb]. rewrite ?A, !or_nullish_twice.
  f_equal; [by destruct a|]. destruct (is_undef (obj_get o "port")) eqn:U; cbn [andb]; [|by rewrite U]. by destruct (negb _); rewrite ?U.
Qed.

Definition stored (v : DnsServerForm) : obj :=
  [("address", address v); ("domains", domains v); ("expectedIPs", expectedIPs v); ("unexpectedIPs", unexpectedIPs v); ("queryStrategy", queryStrategy v);
   ("skipFallback", skipFallback v); ("disableCache", disableCache v); ("finalQuery", finalQuery v); ("serveStale", serveStale v);
   ("serveExpiredTTL", serveExpiredTTL v); ("timeoutMs", timeoutMs v)] ++
  (if isEncryptedDnsAddress (address v) then [] else [("port", port v)]) ++
  (if truthy (tag v) then [("tag", tag v)] else []) ++ (if truthy (clientIP v) then [("clientIP", clientIP v)] else []).

Lemma stored_reads v : obj_get (stored v) "port" = (if isEncryptedDnsAddress (address v) then VUndef else port v) /\
  obj_get (stored v) "tag" = (if truthy (tag v) then tag v else VUndef) /\ obj_get (stored v) "clientIP" = (if truthy (clientIP v) then clientIP v else VUndef) /\
  obj_get (stored v) "expectIPs" = VUndef.
Proof. unfold stored. destruct (isEncryptedDnsAddress _), (truthy (tag v)), (truthy (clientIP v)); repeat split. Qed.

Lemma stored_fits v : form_ok v -> forallb (fits (stored v)) server_shape = true.
Proof.
  intros [_ (p & Hp & Rp) D E U (q & Hq & Rq) (b1 & S1) (b2 & S2) (b3 & S3) (b4 & S4) (t & Ht) (c & Hc) T1 T2]. destruct (stored_reads v) as (P & T & C & _).
  unfold server_shape. cbn [forallb]. unfold fits. cbn [fst snd]. rewrite P, T, C. unfold stored. cbn [obj_get app String.eqb Ascii.eqb Bool.eqb].
  rewrite (z_strings_texts _ D), (z_strings_texts _ E), (z_strings_texts _ U), (z_natural_ok _ T1), (z_natural_ok _ T2), S1, S2, S3, S4, Hq, Ht, Hc, Hp, !orb_true_r, (z_strategy_ok _ Rq).
  destruct (isEncryptedDnsAddress _), (truthy (VStr t)), (truthy (VStr c)); cbn [is_undef orb andb is_string z_flag]; rewrite ?(z_port_ok _ Rp); reflexivity.
Qed.

Lemma or_falsy_text s : or_nullish (if truthy (VStr s) then VStr s else VUndef) (VStr "") = VStr s.
Proof. by destruct s. Qed.

Lemma stored_opened v : form_ok v -> valuesFromServer (VObj (stored v)) = reopened v.
Proof.
  intros H. pose proof (stored_fits v H) as F. destruct H as [(a & Ha & Na) (p & Hp & Rp) (ld & Hd & _) (le & He & _) (lu & Hu & _) (q & Hq & Rq) (b1 & S1) (b2 & S2) (b3 & S3) (b4 & S4) (t & Ht) (c & Hc) (z1 & Hz1 & _) (z2 & Hz2 & _)].
  destruct (stored_reads v) as (P & T & C & X). rewrite (values_of_valid _ a X Ha Na F), P, T, C. unfold stored. cbn [obj_get app String.eqb Ascii.eqb Bool.eqb].
  unfold reopened, with_port. rewrite Hd, He, Hu, Hq, S1, S2, S3, S4, Ht, Hc, Hz1, Hz2, !or_falsy_text, Ha, Hp.
  clear F P T C X. destruct v. cbn [address port domains expectedIPs unexpectedIPs queryStrategy skipFallback disableCache finalQuery tag clientIP serveStale serveExpiredTTL timeoutMs] in *. subst. destruct (isEncryptedDnsAddress (VStr a)); reflexivity.
Qed.

Lemma plain_form v a : isPlain v = true -> form_ok v -> address v = VStr a -> v = form_at (VStr a).
Proof.
  intros P [_ (p & Hp & Rp) (ld & Hd & _) (le & He & _) (lu & Hu & _) (q & Hq & Rq) (b1 & S1) (b2 & S2) (b3 & S3) (b4 & S4) (t & Ht) (c & Hc) (z1 & Hz1 & _) (z2 & Hz2 & _)] Ha.
  unfold isPlain in P. rewrite !andb_true_iff in P. rewrite Hd, He, Hu, Hp, Hq, S1, S2, S3, S4, Ht, Hc, Hz1, Hz2 in P. destruct P as ((((((((((((P1 & P2) & P3) & P4) & P5) & P6) & P7) & P8) & P9) & P10) & P11) & P12) & P13).
  destruct ld, le, lu, b1, b2, b3, b4; try done. cbn in P4, P5, P12, P13. apply Z.eqb_eq in P4, P12, P13. apply String.eqb_eq in P5.
  destruct t, c; try done. destruct v. cbn [address port domains expectedIPs unexpectedIPs queryStrategy skipFallback disableCache finalQuery tag clientIP serveStale serveExpiredTTL timeoutMs] in *. subst. unfold form_at. f_equal; unfold VInt; do 2 f_equal; lia.
Qed.

(** What the modal of a DNS server stores, as a string when every field but the address has its
    default and as an object otherwise, opens again as the same values, except that an encrypted
    server, whose port is part of its address, shows the default port; storing the values of a server
    that is not encrypted again gives the same entry. *)
Theorem server_reopened v : form_ok v -> exists w,
  valuesToWire v = Some w /\ valuesFromServer w = reopened v /\ (isEncryptedDnsAddress (address v) = false -> valuesToWire (valuesFromServer w) = Some w).
Proof.
  intros H. unfold valuesToWire at 1. destruct (isPlain v) eqn:P.
  - destruct (ok_address v H) as (a & Ha & _). pose proof (plain_form v a P H Ha) as E. exists (address v). rewrite Ha. cbn [valuesFromServer]. rewrite <-E. unfold reopened, with_port. split; [done|]. split.
    + destruct (isEncryptedDnsAddress (address v)); [|done]. by rewrite E.
    + intros _. unfold valuesToWire. by rewrite P, Ha.
  - rewrite (filter_texts _ (ok_domains v H)), (filter_texts _ (ok_expected v H)), (filter_texts _ (ok_unexpected v H)). exists (VObj (stored v)). split; [reflexivity|]. rewrite stored_opened by done. split; [done|].
    intros N. unfold reopened. rewrite N. unfold valuesToWire. by rewrite P, (filter_texts _ (ok_domains v H)), (filter_texts _ (ok_expected v H)), (filter_texts _ (ok_unexpected v H)).
Qed.

Definition sample_server : DnsServerForm :=
  {| address := VStr "1.1.1.1"; port := VInt 5353; domains := strings ["geosite:cn"]; expectedIPs := strings []; unexpectedIPs := strings [];
     queryStrategy := VStr "UseIPv4"; skipFallback := VBool true; disableCache := VBool false; finalQuery := VBool false; tag := VStr "lan"; clientIP := VStr "";
     serveStale := VBool false; serveExpiredTTL := VInt 0; timeoutMs := VInt 4000 |}.

Lemma sample_server_ok : form_ok sample_server.
Proof.
  split; try (eexists; reflexivity); try (eexists; split; [reflexivity|]); try lia; try done; try (repeat constructor; done); cbn; tauto.
Qed.

Lemma server_reopened_witness : exists w, valuesToWire sample_server = Some w /\ valuesToWire (valuesFromServer w) = Some w.
Proof. destruct (server_reopened sample_server sample_server_ok) as (w & E & _ & T). exists w. split; [exact E|exact (T eq_refl)]. Defined.

(** A server object the schema refuses, here for a strategy spelled as Xray also accepts it, is shown
    with its other fields but with port 53, which is what is stored. *)
Lemma refused_port_lost : let server := VObj [("address", VStr "1.1.1.1"); ("port", VInt 5353); ("queryStrategy", VStr "useipv4")] in
  queryStrategy (valuesFromServer server) = VStr "useipv4" /\ port (valuesFromServer server) = VInt 53 /\
  option_map (fun w => get w "port") (valuesToWire (valuesFromServer server)) = Some (VInt 53).
Proof. repeat split. Qed.

(** An encrypted server with a port is stored as an object without one, and as a string the second time. *)
Lemma encrypted_port_twice : let v := with_port (form_at (VStr "https://dns.google/dns-query")) (VInt 8443) in
  exists o, valuesToWire v = Some (VObj o) /\ valuesToWire (valuesFromServer (VObj o)) = Some (VStr "https://dns.google/dns-query").
Proof. eexists. split; reflexivity. Qed.

(** ** The tab *)

Record HostRow := { domain : string; values : list jsval }.

Record tab := { template : jsval; hostsList : list HostRow; lastWritten : option string }.

Definition dns_of (t : jsval) : jsval := or_nullish (get t "dns") VNull.
Definition dnsEnabled (t : jsval) : bool := truthy (dns_of t).
Definition sourceHosts (t : jsval) : jsval := get (dns_of t) "hosts".

(** [sourceHosts ?? {}] *)
Definition hosts_of (t : jsval) : jsval := or_nullish (sourceHosts t) (VObj []).
Definition incomingHosts (t : jsval) : string := stringify (hosts_of t).

(** [Object.entries(hosts).map(...)] *)
Definition rows_of (hosts : jsval) : list HostRow :=
  match hosts with
  | VObj o => map (fun kv => {| domain := kv.1; values := match kv.2 with VArr l => l | v => [VStr (js_to_string v)] end |}) o
  | _ => []
  end.

(** The effect on [dnsEnabled], [incomingHosts] and [sourceHosts].  Running it when none of them
    changed does nothing, so it stands after every event. *)
Definition effect_hosts (s : tab) : tab :=
  let t := template s in
  if negb (dnsEnabled t) then {| template := t; hostsList := []; lastWritten := Some "{}" |}
  else if decide (Some (incomingHosts t) = lastWritten s) then s
  else {| template := t; hostsList := rows_of (hosts_of t); lastWritten := Some (incomingHosts t) |}.

(** The object [syncHosts] collects: rows without a domain or without a value are left out. *)
Definition collect (o : obj) (row : HostRow) : obj :=
  if String.eqb (domain row) "" then o
  else match List.filter truthy (values row) with
       | [] => o
       | [v] => obj_set o (domain row) v
       | vals => obj_set o (domain row) (VArr vals)
       end.

Definition rows_object (rows : list HostRow) : obj := fold_left collect rows [].

Definition write_hosts (o : obj) (tt : jsval) : jsval :=
  if negb (truthy (get tt "dns")) then tt
  else if Nat.ltb 0 (length o) then set tt "dns" (set (get tt "dns") "hosts" (VObj o)) else set tt "dns" (del (get tt "dns") "hosts").

(** The mutator runs on a JSON clone; [None] only where the template is no JSON. *)
Definition on_template (f : jsval -> jsval) (s : tab) : option tab :=
  option_map (fun t => {| template := t; hostsList := hostsList s; lastWritten := lastWritten s |}) (mutate f (template s)).

Definition syncHosts (next : list HostRow) (s : tab) : option tab :=
  let o := rows_object next in
  on_template (write_hosts o) {| template := template s; hostsList := next; lastWritten := Some (stringify (VObj o)) |}.

Definition new_dns : obj :=
  [("tag", VStr "dns_inbound"); ("queryStrategy", VStr "UseIP"); ("disableCache", VBool false); ("disableFallback", VBool false);
   ("disableFallbackIfMatch", VBool false); ("useSystemHosts", VBool false); ("enableParallelQuery", VBool false); ("serveStale", VBool false);
   ("serveExpiredTTL", VInt 0); ("hosts", VObj []); ("servers", VArr [])].

Definition toggleDNS (enabled : bool) (next : jsval) : jsval :=
  if enabled then
    set (set next "dns" (VObj new_dns)) "fakedns" VNull
  else del (del next "dns") "fakedns".

Definition setDnsField (key : string) (value : jsval) (omit : bool) (tt : jsval) : jsval :=
  if negb (truthy (get tt "dns")) then tt
  else if omit && (is_nullish value || match value with VStr s => String.eqb (trim s) "" | _ => false end) then set tt "dns" (del (get tt "dns") key)
  else set tt "dns" (set (get tt "dns") key value).

Definition on_servers (f : list jsval -> list jsval) (tt : jsval) : jsval := set tt "dns" (set (get tt "dns") "servers" (VArr (f (as_list (get (get tt "dns") "servers"))))).

Definition deleteServer (idx : nat) (tt : jsval) : jsval :=
  if is_array (get (get tt "dns") "servers") then on_servers (remove_at idx) tt else tt.

Definition onServerConfirm (editingIndex : option nat) (value : jsval) (tt : jsval) : jsval :=
  if truthy (get tt "dns") then on_servers (fun l => match editingIndex with None => l ++ [value] | Some i => store_at i value l end) tt else tt.

Definition replaceServers (servers : list jsval) (tt : jsval) : jsval := if truthy (get tt "dns") then on_servers (fun _ => servers) tt else tt.

Definition DEFAULT_FAKEDNS : jsval := VObj [("ipPool", VStr "198.18.0.0/15"); ("poolSize", VInt 65535)].

Definition deleteFakedns (idx : nat) (tt : jsval) : jsval :=
  match get tt "fakedns" with
  | VArr l => match remove_at idx l with [] => set tt "fakedns" VNull | l => set tt "fakedns" (VArr l) end
  | _ => tt
  end.

Definition updateFakednsField (idx : nat) (k : string) (value : jsval) (tt : jsval) : jsval :=
  match get tt "fakedns" with
  | VArr l => match l !! idx with Some row => if truthy row then set tt "fakedns" (VArr (<[idx := set row k value]> l)) else tt | None => tt end
  | _ => tt
  end.

Definition addFakedns (tt : jsval) : jsval := set tt "fakedns" (VArr (as_list (get tt "fakedns") ++ [DEFAULT_FAKEDNS])).

(** ** Events *)

Inductive event :=
| EAddRow | EDomain (idx : nat) (d : string) | EValues (idx : nat) (vs : list string) | ERemoveRow (idx : nat)
| EToggle (enabled : bool) | EField (key : string) (value : jsval) (omit : bool)
| EDeleteServer (idx : nat) | EConfirm (editingIndex : option nat) (value : jsval) | EServers (servers : list jsval)
| EDeleteFake (idx : nat) | EUpdateFake (idx : nat) (k : string) (value : jsval) | EAddFake
| ELoad (t : jsval).

(** The rows a handler of the host table passes to [syncHosts]. *)
Definition next_rows (e : event) (rows : list HostRow) : option (list HostRow) :=
  match e with
  | EAddRow => Some (rows ++ [{| domain := ""; values := [] |}])
  | EDomain idx d => Some (imap (fun i r => if Nat.eqb i idx then {| domain := d; values := values r |} else r) rows)
  | EValues idx vs => Some (imap (fun i r => if Nat.eqb i idx then {| domain := domain r; values := map VStr vs |} else r) rows)
  | ERemoveRow idx => Some (remove_at idx rows)
  | _ => None
  end.

Definition mutator_of (e : event) : option (jsval -> jsval) :=
  match e with
  | EToggle b => Some (toggleDNS b)
  | EField k v omit => Some (setDnsField k v omit)
  | EDeleteServer idx => Some (deleteServer idx)
  | EConfirm i v => Some (onServerConfirm i v)
  | EServers l => Some (replaceServers l)
  | EDeleteFake idx => Some (deleteFakedns idx)
  | EUpdateFake idx k v => Some (updateFakednsField idx k v)
  | EAddFake => Some addFakedns
  | _ => None
  end.

(** One event and the effect of the render it causes; the host table is there while DNS is on. *)
Definition step (e : event) (s : tab) : option tab :=
  option_map effect_hosts
    match e with
    | ELoad t => Some {| template := t; hostsList := hostsList s; lastWritten := lastWritten s |}
    | _ => match next_rows e (hostsList s), mutator_of e with
           | Some next, _ => if dnsEnabled (template s) then syncHosts next s else Some s
           | None, Some f => on_template f s
           | None, None => Some s
           end
    end.

(** The tab when it is mounted on a template. *)
Definition mounted (t : jsval) : tab := effect_hosts {| template := t; hostsList := []; lastWritten := None |}.

(** ** What holds in every state *)

(** A JSON template whose DNS part, if there is one, is an object. *)
Definition good (t : jsval) : Prop := json_ok t /\ exists o, t = VObj o /\ (truthy (obj_get o "dns") = false \/ exists d, obj_get o "dns" = VObj d).

(** Events the tab can produce: JSON values, and the index of a server that is there; the hosts are
    edited by their table only. *)
Definition event_ok (t : jsval) (e : event) : Prop :=
  match e with
  | EField k v omit => k <> "hosts" /\ (json_ok v \/ (omit = true /\ v = VUndef))
  | EConfirm i v => json_ok v /\ match i with Some i => (i < length (as_list (get (get t "dns") "servers")))%nat | None => True end
  | EServers l => Forall json_ok l
  | EUpdateFake _ _ v => json_ok v
  | ELoad t => good t
  | _ => True
  end.

Lemma json_set v k x : json_ok v -> json_ok x -> json_ok (set v k x).
Proof. destruct v; try done. apply json_ok_set. Qed.

Lemma json_del v k : json_ok v -> json_ok (del v k).
Proof. destruct v; try done. apply json_ok_del. Qed.

Lemma json_get v k : json_ok v -> get v k = VUndef \/ json_ok (get v k).
Proof. destruct v; try by left. apply json_ok_get. Qed.

Lemma json_arr l : json_ok (VArr l) <-> Forall json_ok l.
Proof. cbn. induction l as [|x l IH]; [split; [constructor|done]|]. rewrite list.Forall_cons, <-IH. done. Qed.

Lemma json_list v : v = VUndef \/ json_ok v -> Forall json_ok (as_list v).
Proof. intros [->|H]; [constructor|]. destruct v; try constructor. by apply json_arr. Qed.

(** Distinct JSON values have distinct texts. *)
Lemma stringify_inj a b : json_ok a -> json_ok b -> stringify a = stringify b -> a = b.
Proof. intros Ha Hb E. apply (f_equal JSON_parse) in E. rewrite !JSON_parse_stringify in E by done. by injection E. Qed.

Lemma Forall_remove {A} (P : A -> Prop) i l : Forall P l -> Forall P (remove_at i l).
Proof. intros H. unfold remove_at. apply Forall_app. split; [by apply Forall_take|by apply Forall_drop]. Qed.

Inductive reachable : tab -> Prop :=
| reachable_mounted t : good t -> reachable (mounted t)
| reachable_step s e s' : reachable s -> event_ok (template s) e -> step e s = Some s' -> reachable s'.

(** The rows go with the text last written: a template with that text has hosts the rows show or were collected from. *)
Definition agrees (rows : list HostRow) (w : option string) : Prop :=
  forall h, json_ok h -> Some (stringify h) = w -> rows = rows_of h \/ VObj (rows_object rows) = h.

Definition rows_json (rows : list HostRow) : Prop := Forall (fun r => Forall json_ok (values r)) rows.

Definition in_step (s : tab) : Prop :=
  good (template s) /\ rows_json (hostsList s) /\ agrees (hostsList s) (lastWritten s) /\
  if dnsEnabled (template s) then lastWritten s = Some (incomingHosts (template s)) else hostsList s = [].

(** *** The template *)

Lemma good_dns t : good t -> truthy (get t "dns") = false \/ exists d, get t "dns" = VObj d /\ json_ok (VObj d).
Proof.
  intros (J & o & -> & [F|[d E]]); [by left|]. right. exists d. cbn [get]. split; [done|]. destruct (json_ok_get o "dns" J) as [H|H]; rewrite E in H; done.
Qed.

Lemma dnsEnabled_get t : dnsEnabled t = truthy (get t "dns").
Proof. unfold dnsEnabled, dns_of, or_nullish. by destruct (get t "dns"). Qed.

Lemma dns_of_enabled t : dnsEnabled t = true -> dns_of t = get t "dns".
Proof. rewrite dnsEnabled_get. unfold dns_of, or_nullish. by destruct (get t "dns"). Qed.

Lemma json_hosts t : good t -> json_ok (hosts_of t).
Proof.
  intros G. unfold hosts_of, sourceHosts. assert (J : dns_of t = VNull \/ json_ok (dns_of t)).
  { unfold dns_of, or_nullish. destruct G as (J & o & -> & _). destruct (json_get (VObj o) "dns" J) as [->|H]; [by left|]. destruct (is_nullish _); [by left|by right]. }
  unfold or_nullish. assert (H : get (dns_of t) "hosts" = VUndef \/ json_ok (get (dns_of t) "hosts")) by (destruct J as [->|J]; [by left|by apply json_get]).
  destruct H as [->|H]; [split; [apply NoDup_nil_2|done]|]. destruct (is_nullish _); [split; [apply NoDup_nil_2|done]|done].
Qed.

(** Storing a DNS object in a template. *)
Lemma good_set_dns t d : good t -> json_ok (VObj d) -> good (set t "dns" (VObj d)) /\ get (set t "dns" (VObj d)) "dns" = VObj d.
Proof.
  intros (J & o & -> & _) Jd. split; [|apply get_set_eq; eauto]. split; [by apply json_set|]. exists (obj_set o "dns" (VObj d)). split; [done|]. right. exists d. apply obj_get_set_eq.
Qed.

Lemma good_set_other t k v : k <> "dns" -> good t -> json_ok v -> good (set t k v) /\ get (set t k v) "dns" = get t "dns".
Proof.
  intros K (J & o & -> & D) Jv. split; [|by apply get_set_ne]. split; [by apply json_set|]. exists (obj_set o k v). split; [done|]. by rewrite obj_get_set_ne.
Qed.

(** A mutator that leaves the hosts alone. *)
Definition quiet (f : jsval -> jsval) (t : jsval) : Prop := good (f t) /\ dnsEnabled (f t) = dnsEnabled t /\ hosts_of (f t) = hosts_of t.

Lemma quiet_same t f : good t -> f t = t -> quiet f t.
Proof. intros G E. unfold quiet. by rewrite E. Qed.

Lemma quiet_dns f t d d' : good t -> get t "dns" = VObj d -> f t = set t "dns" (VObj d') -> json_ok (VObj d') -> obj_get d' "hosts" = obj_get d "hosts" -> quiet f t.
Proof.
  intros G D E J H. unfold quiet. rewrite E. destruct (good_set_dns t d' G J) as [G' D']. split; [done|]. unfold hosts_of, sourceHosts, dnsEnabled, dns_of. rewrite D, D'. cbn. by rewrite H.
Qed.

Lemma quiet_other f t k v : k <> "dns" -> good t -> f t = set t k v -> json_ok v -> quiet f t.
Proof.
  intros K G E J. unfold quiet. rewrite E. destruct (good_set_other t k v K G J) as [G' D']. split; [done|]. unfold hosts_of, sourceHosts, dnsEnabled, dns_of. by rewrite D'.
Qed.

Lemma truthy_dns t : good t -> truthy (get t "dns") = true -> exists d, get t "dns" = VObj d /\ json_ok (VObj d).
Proof. intros G T. destruct (good_dns t G) as [F|H]; [congruence|done]. Qed.

Lemma quiet_servers f g t : good t -> truthy (get t "dns") = true -> f t = on_servers g t ->
  (Forall json_ok (as_list (get (get t "dns") "servers")) -> Forall json_ok (g (as_list (get (get t "dns") "servers")))) -> quiet f t.
Proof.
  intros G T E H. destruct (truthy_dns t G T) as (d & D & J). unfold on_servers in E. rewrite D in *. cbn [get set] in *. eapply quiet_dns; [done|done|exact E| |].
  - apply json_ok_set; [done|]. apply json_arr, H. apply json_list. apply (json_get (VObj d) "servers" J).
  - by rewrite obj_get_set_ne.
Qed.

Lemma quiet_field k v omit t : good t -> k <> "hosts" -> json_ok v \/ (omit = true /\ v = VUndef) -> quiet (setDnsField k v omit) t.
Proof.
  intros G K V. destruct (truthy (get t "dns")) eqn:T; [|apply quiet_same; [done|]; unfold setDnsField; by rewrite T].
  destruct (truthy_dns t G T) as (d & D & J). unfold quiet, setDnsField. rewrite T. cbn [negb]. rewrite D. cbn [set del]. destruct (omit && _) eqn:O.
  - eapply (quiet_dns (fun t => set t "dns" (VObj (obj_del d k)))); [done|done|done|by apply json_ok_del|by rewrite obj_get_del_ne].
  - eapply (quiet_dns (fun t => set t "dns" (VObj (obj_set d k v)))); [done|done|done| |by rewrite obj_get_set_ne]. apply json_ok_set; [done|]. destruct V as [V|[-> ->]]; done.
Qed.

Lemma Forall_store i v l : (i < length l)%nat -> json_ok v -> Forall json_ok l -> Forall json_ok (store_at i v l).
Proof. intros H J F. rewrite store_in_range by done. by apply Forall_insert. Qed.

Lemma quiet_fake f t : good t -> (f t = t \/ exists v, f t = set t "fakedns" v /\ json_ok v) -> quiet f t.
Proof. intros G [E|(v & E & J)]; [by apply quiet_same|by apply (quiet_other f t "fakedns" v)]. Qed.

Lemma fake_list t l : good t -> get t "fakedns" = VArr l -> Forall json_ok l.
Proof. intros (J & o & -> & _) E. apply json_arr. rewrite <-E. destruct (json_get (VObj o) "fakedns" J) as [H|H]; [congruence|done]. Qed.

(** Every handler but the switch leaves the hosts alone. *)
Lemma mutator_quiet e f t : good t -> event_ok t e -> mutator_of e = Some f -> (exists b, e = EToggle b) \/ quiet f t.
Proof.
  intros G Ok E. destruct e as [|idx d|idx vs|idx|b|k v omit|idx|i v|l|idx|idx k v| |t']; try done; injection E as <-; [by left; exists b|right..].
  - destruct Ok as [K V]. by apply quiet_field.
  - destruct (is_array (get (get t "dns") "servers")) eqn:A; [|apply quiet_same; [done|unfold deleteServer; by rewrite A]].
    apply (quiet_servers _ (remove_at idx)); [done| |unfold deleteServer; by rewrite A|by apply Forall_remove]. destruct (good_dns t G) as [F|(d & -> & _)]; [|done]. destruct (get t "dns") as [| | | | | |o']; try done.
  - destruct Ok as [J I]. destruct (truthy (get t "dns")) eqn:T; [|apply quiet_same; [done|unfold onServerConfirm; by rewrite T]]. apply (quiet_servers _ (fun l => match i with None => l ++ [v] | Some i => store_at i v l end)); [done|done|unfold onServerConfirm; by rewrite T|].
    intros F. destruct i as [i|]; [by apply Forall_store|]. apply Forall_app. split; [done|]. by constructor.
  - destruct (truthy (get t "dns")) eqn:T; [|apply quiet_same; [done|unfold replaceServers; by rewrite T]]. by apply (quiet_servers _ (fun _ => l)); [| |unfold replaceServers; rewrite T|].
  - apply quiet_fake; [done|]. unfold deleteFakedns. destruct (get t "fakedns") as [| | | | |l|] eqn:F; try by left. right. pose proof (Forall_remove _ idx _ (fake_list t l G F)) as R.
    destruct (remove_at idx l); [by exists VNull|]. eexists. split; [done|]. by apply json_arr.
  - apply quiet_fake; [done|]. unfold updateFakednsField. destruct (get t "fakedns") as [| | | | |l|] eqn:F; try by left. pose proof (fake_list t l G F) as R. destruct (l !! idx) as [row|] eqn:L; [|by left].
    destruct (truthy row); [|by left]. right. eexists. split; [done|]. apply json_arr, Forall_insert; [done|]. apply json_set; [|done]. by eapply Forall_lookup_1.
  - apply quiet_fake; [done|]. right. eexists. split; [done|]. apply json_arr, Forall_app. split; [|constructor; [|constructor]].
    + destruct (get t "fakedns") as [| | | | |l|] eqn:F; try constructor. by apply (fake_list t).
    + cbn. split; [|done]. apply (bool_decide_unpack _). vm_compute. exact I.
Qed.

(** *** The rows *)

Lemma rows_of_json h : json_ok h -> rows_json (rows_of h).
Proof.
  destruct h as [| | | | | |o]; try constructor. rewrite json_ok_obj. intros [_ F]. unfold rows_of, rows_json. apply List.Forall_map. eapply List.Forall_impl; [|exact F]. intros [k v] J. cbn [values snd] in *.
  destruct v; try (repeat constructor); try done. by apply json_arr.
Qed.

Lemma collect_json o row : json_ok (VObj o) -> Forall json_ok (values row) -> json_ok (VObj (collect o row)).
Proof.
  intros J F. unfold collect. destruct (String.eqb (domain row) ""); [done|]. assert (G : Forall json_ok (List.filter truthy (values row))).
  { apply List.Forall_forall. intros x [H _]%filter_In. rewrite List.Forall_forall in F. by apply F. }
  destruct (List.filter truthy (values row)) as [|v [|v' l]]; [done| |]; apply json_ok_set; try done; [by inversion G|by apply json_arr].
Qed.

Lemma rows_object_json rows : rows_json rows -> json_ok (VObj (rows_object rows)).
Proof.
  unfold rows_object. assert (E : json_ok (VObj [])) by (split; [apply NoDup_nil_2|done]). revert E. generalize (@nil (string * jsval)). intros o J H. revert o J.
  induction H as [|r rows Hr H IH]; intros o J; [done|]. cbn [fold_left]. by apply IH, collect_json.
Qed.

Lemma next_rows_json e rows next : rows_json rows -> next_rows e rows = Some next -> rows_json next.
Proof.
  intros H. destruct e; try done; cbn [next_rows]; intros [= <-]; unfold rows_json.
  - apply Forall_app. split; [done|]. repeat constructor.
  - apply Forall_lookup_2. intros i r E. rewrite list_lookup_imap in E. destruct (rows !! i) as [x|] eqn:L; [|done]. injection E as <-. pose proof (Forall_lookup_1 _ _ _ _ H L). by destruct (Nat.eqb i idx).
  - apply Forall_lookup_2. intros i r E. rewrite list_lookup_imap in E. destruct (rows !! i) as [x|] eqn:L; [|done]. injection E as <-. pose proof (Forall_lookup_1 _ _ _ _ H L). destruct (Nat.eqb i idx); [|done].
    cbn [values]. apply List.Forall_map. by apply List.Forall_forall.
  - by apply Forall_remove.
Qed.

(** *** The effect *)

Lemma effect_settles s : good (template s) -> rows_json (hostsList s) -> agrees (hostsList s) (lastWritten s) -> in_step (effect_hosts s).
Proof.
  intros G R A. unfold effect_hosts, in_step. destruct (dnsEnabled (template s)) eqn:E; cbn [negb].
  - destruct (decide _) as [W|W]; [by rewrite E|]. cbn [template hostsList lastWritten]. rewrite E. pose proof (json_hosts _ G) as J. split; [done|]. split; [by apply rows_of_json|]. split; [|done].
    intros h Jh [= T]. left. by rewrite (stringify_inj _ _ Jh J T).
  - cbn [template hostsList lastWritten]. rewrite E. split; [done|]. split; [constructor|]. split; [|done]. intros h Jh [= T]. left. assert (Je : json_ok (VObj [])) by (split; [apply NoDup_nil_2|done]).
    by rewrite (stringify_inj h (VObj []) Jh Je T).
Qed.

Lemma mutate_good f t : good t -> mutate f t = Some (f t).
Proof. intros (J & o & -> & _). unfold mutate. cbn [truthy]. by rewrite JSON_parse_stringify. Qed.

Lemma good_toggle b t : good t -> good (toggleDNS b t).
Proof.
  intros (J & o & -> & _). destruct b; cbn [toggleDNS].
  - assert (Jd : json_ok (VObj new_dns)). { cbn. repeat split; try (apply (bool_decide_unpack _); vm_compute; exact I); try done. }
    split; [by repeat apply json_set|]. eexists. split; [done|]. right. rewrite obj_get_set_ne by done. rewrite obj_get_set_eq. by eexists.
  - split; [by repeat apply json_del|]. eexists. split; [done|]. left. rewrite obj_get_del_ne by done. by rewrite obj_get_del_eq.
Qed.

Lemma write_hosts_spec o t : good t -> dnsEnabled t = true -> json_ok (VObj o) ->
  good (write_hosts o t) /\ dnsEnabled (write_hosts o t) = true /\ hosts_of (write_hosts o t) = VObj o /\ forall k, k <> "dns" -> get (write_hosts o t) k = get t k.
Proof.
  intros G E J. rewrite dnsEnabled_get in E. destruct (truthy_dns t G E) as (d & D & Jd). unfold write_hosts. rewrite E. cbn [negb]. rewrite D. cbn [set del].
  assert (F : forall d', json_ok (VObj d') -> hosts_of (set t "dns" (VObj d')) = or_nullish (obj_get d' "hosts") (VObj []) /\ good (set t "dns" (VObj d')) /\ dnsEnabled (set t "dns" (VObj d')) = true).
  { intros d' J'. destruct (good_set_dns t d' G J') as [G' D']. split; [|split; [done|]]; unfold hosts_of, sourceHosts, dnsEnabled, dns_of; by rewrite D'. }
  destruct (Nat.ltb_spec 0 (length o)) as [L|L].
  - destruct (F (obj_set d "hosts" (VObj o)) ltac:(by apply json_ok_set)) as (H & G' & E'). split; [done|]. split; [done|]. split; [rewrite H; by rewrite obj_get_set_eq|]. intros k K. by rewrite get_set_ne.
  - destruct (F (obj_del d "hosts") ltac:(by apply json_ok_del)) as (H & G' & E'). destruct o; [|cbn in L; lia]. split; [done|]. split; [done|]. split; [rewrite H; by rewrite obj_get_del_eq|]. intros k K. by rewrite get_set_ne.
Qed.

(** An edit of the host table: the rows stay as edited, and their complete part is in the template. *)
Lemma sync_spec next s : good (template s) -> dnsEnabled (template s) = true -> rows_json next -> exists s',
  option_map effect_hosts (syncHosts next s) = Some s' /\ in_step s' /\ hostsList s' = next /\ hosts_of (template s') = VObj (rows_object next) /\
  forall k, k <> "dns" -> get (template s') k = get (template s) k.
Proof.
  intros G E R. pose proof (rows_object_json next R) as J. destruct (write_hosts_spec _ _ G E J) as (G' & E' & H & N). unfold syncHosts, on_template. cbn [template]. rewrite mutate_good by done. cbn [option_map hostsList lastWritten].
  set (s1 := {| template := write_hosts (rows_object next) (template s); hostsList := next; lastWritten := Some (stringify (VObj (rows_object next))) |}).
  assert (S : effect_hosts s1 = s1). { unfold effect_hosts. cbn [template lastWritten s1]. rewrite E'. cbn [negb]. rewrite decide_True; [done|]. unfold incomingHosts. by rewrite H. }
  eexists. split; [done|]. rewrite S. split; [|done]. rewrite <-S. apply effect_settles; cbn [template hostsList lastWritten s1]; try done. intros h Jh [= T]. right. by apply stringify_inj.
Qed.

Lemma step_rows e s next : next_rows e (hostsList s) = Some next -> step e s = option_map effect_hosts (if dnsEnabled (template s) then syncHosts next s else Some s).
Proof. intros E. unfold step. destruct e; try done; by rewrite E. Qed.

(** Every event the tab can produce leads to a state where rows and template agree. *)
Lemma step_in_step e s : in_step s -> event_ok (template s) e -> exists s', step e s = Some s' /\ in_step s'.
Proof.
  intros (G & R & A & W) Ok. destruct (next_rows e (hostsList s)) as [next|] eqn:N.
  - rewrite (step_rows e s next N). destruct (dnsEnabled (template s)) eqn:E.
    + destruct (sync_spec next s G E (next_rows_json _ _ _ R N)) as (s' & S & I & _). by exists s'.
    + eexists. split; [done|]. by apply effect_settles.
  - destruct (mutator_of e) as [f|] eqn:M.
    + assert (G' : good (f (template s))). { destruct (mutator_quiet e f _ G Ok M) as [[b ->]|[G' _]]; [|done]. injection M as <-. by apply good_toggle. }
      assert (S : step e s = Some (effect_hosts {| template := f (template s); hostsList := hostsList s; lastWritten := lastWritten s |})).
      { unfold step, on_template. destruct e; try done; rewrite N, M; by rewrite mutate_good. }
      rewrite S. eexists. split; [done|]. by apply effect_settles.
    + destruct e; try done. eexists. split; [done|]. by apply effect_settles.
Qed.

Lemma reachable_in_step s : reachable s -> in_step s.
Proof.
  induction 1 as [t G|s e s' H IH Ok E].
  - apply effect_settles; [done|constructor|]. by intros h _ [=].
  - destruct (step_in_step e s IH Ok) as (s1 & E1 & I). rewrite E in E1. injection E1 as ->. done.
Qed.

(** C9. The host table and the template never drift apart, whatever is edited in the tab and whatever
    templates arrive from outside: while DNS is on, the rows are those of the template's hosts or the
    rows whose complete part those hosts are, and while it is off there are none; every event has an
    outcome.  Editing the table keeps the rows exactly as edited, incomplete ones included, puts
    their complete part into the template and leaves everything but the DNS part alone. *)
Theorem hosts_in_step s e : reachable s -> event_ok (template s) e ->
  (if dnsEnabled (template s) then hostsList s = rows_of (hosts_of (template s)) \/ VObj (rows_object (hostsList s)) = hosts_of (template s) else hostsList s = []) /\
  exists s', step e s = Some s' /\ reachable s' /\
    forall next, next_rows e (hostsList s) = Some next -> dnsEnabled (template s) = true ->
      hostsList s' = next /\ hosts_of (template s') = VObj (rows_object next) /\ forall k, k <> "dns" -> get (template s') k = get (template s) k.
Proof.
  intros H Ok. pose proof (reachable_in_step s H) as I. destruct (step_in_step e s I Ok) as (s' & E & _). destruct I as (G & R & A & W). split.
  - destruct (dnsEnabled (template s)); [|done]. apply A; [by apply json_hosts|]. by rewrite W.
  - exists s'. split; [done|]. split; [by eapply reachable_step|]. intros next N D. rewrite (step_rows e s next N), D in E.
    destruct (sync_spec next s G D (next_rows_json _ _ _ R N)) as (s1 & E1 & _ & L & Hh & K). rewrite E in E1. by injection E1 as ->.
Qed.

Definition sample_dns : jsval := VObj [("dns", VObj [("hosts", VObj [("first.example", VStr "1.1.1.1")]); ("servers", VArr [])])].

Lemma sample_dns_good : good sample_dns.
Proof. split; [|eexists; split; [reflexivity|right; eexists; reflexivity]]. cbn. repeat split; apply (bool_decide_unpack _); vm_compute; exact I. Qed.

(** A row is added, and stays although it is not yet in the template. *)
Lemma hosts_in_step_witness : exists s', step EAddRow (mounted sample_dns) = Some s' /\
  hostsList s' = [{| domain := "first.example"; values := [VStr "1.1.1.1"] |}; {| domain := ""; values := [] |}] /\
  hosts_of (template s') = VObj [("first.example", VStr "1.1.1.1")].
Proof.
  destruct (hosts_in_step (mounted sample_dns) EAddRow (reachable_mounted _ sample_dns_good) I) as (_ & s' & E & _ & H).
  destruct (H _ eq_refl eq_refl) as (L & Hh & _). exists s'. split; [exact E|]. split; [exact L|exact Hh].
Defined.

(** ** Hosts shown and written back *)

(** Hosts as the tab writes them: a domain, and one text or at least two. *)
Definition host_ok (kv : string * jsval) : Prop :=
  kv.1 <> "" /\ ((exists s, kv.2 = VStr s /\ s <> "") \/ exists a b l, kv.2 = strings (a :: b :: l) /\ Forall (fun s => s <> "") (a :: b :: l)).

Lemma filter_strings l : Forall (fun s => s <> "") l -> List.filter truthy (map VStr l) = map VStr l.
Proof. induction 1 as [|s l Hs F IH]; [done|]. cbn [map List.filter]. rewrite IH. by destruct s. Qed.

Lemma collect_row o kv : host_ok kv -> collect o {| domain := kv.1; values := match kv.2 with VArr l => l | v => [VStr (js_to_string v)] end |} = obj_set o kv.1 kv.2.
Proof.
  destruct kv as [k v]. unfold collect. cbn [fst snd domain values]. intros [K V]. cbn [fst] in K. rewrite (proj2 (String.eqb_neq k "")) by done. cbn [snd] in V.
  destruct V as [(s & -> & N)|(a & b & l & -> & F)]; [by destruct s|]. unfold strings. rewrite filter_strings by done. done.
Qed.

(** The rows shown for such hosts collect to the hosts. *)
Lemma rows_shown_back o : obj_wf o -> Forall host_ok o -> rows_object (rows_of (VObj o)) = o.
Proof.
  intros W F. unfold rows_object, rows_of. assert (G : forall acc, obj_wf (acc ++ o) ->
    fold_left collect (map (fun kv => {| domain := kv.1; values := match kv.2 with VArr l => l | v => [VStr (js_to_string v)] end |}) o) acc = acc ++ o).
  { clear W. induction F as [|[k v] o H F IH]; intros acc W; [by rewrite app_nil_r|]. cbn [map fold_left]. rewrite (collect_row acc (k, v) H). cbn [fst snd].
    rewrite (obj_set_fresh acc k v o W), IH by (by rewrite <-app_assoc). by rewrite <-app_assoc. }
  by apply (G []).
Qed.
