(* ===== verification/OutboundAdapters.v ===== *)
(** * The protocols of the outbound editor

    For each protocol of OutboundForm.v: what the editor shows after its settings were saved and
    read again ([reopened_settings]), and that saving this writes the same settings.  The class
    [FormAdapter] states the two laws; every protocol is an instance. *)
From S2P Require Import Prelude JsString JsValue JsObject Base64 Json Url StreamWire LinkParser GeoTokens OutboundForm StreamForm.
From Stdlib Require Import Ascii.
Local Open Scope Z_scope.

(** ** Values read back *)

Definition int_num (n : num) : bool := match n with NFin _ O => true | _ => false end.

Definition port_ok (p : Z) : Prop := 1 <= p <= 65535.

Lemma asPort_int p d : port_ok p -> asPort (VInt p) d = p.
Proof.
  unfold port_ok, asPort. cbn [asNumber VInt num_finite]. intros H. change (10 ^ Z.of_nat 0) with 1. rewrite Z.mod_1_r, Z.div_1_r. cbn [Z.eqb negb orb].
  destruct (Z.ltb_spec p 1), (Z.ltb_spec 65535 p); [lia..|done].
Qed.

Lemma asNumber_int n d : int_num n = true -> asNumber (VNum n) d = n.
Proof. by destruct n as [m []| |]. Qed.

Lemma asNumber_or_undef n : int_num n = true -> asNumber (num_or_undef n) 0 = n.
Proof. destruct n as [m []| |]; try done. intros _. unfold num_or_undef. cbn. by destruct (Z.eqb_spec m 0) as [->|]. Qed.

Lemma asNumber_positive n : int_num n = true -> asNumber (if num_ltb (NFin 0 0) n then VNum n else VUndef) 0 = (if num_ltb (NFin 0 0) n then n else NFin 0 0).
Proof. intros H. destruct (num_ltb _ n); [by apply asNumber_int|done]. Qed.

Lemma asString_or_undef s : asString (str_or_undef s) "" = s.
Proof. unfold str_or_undef. by destruct (String.eqb_spec s "") as [->|]. Qed.

Lemma strings_of_strs l : strings_of (strs l) = l.
Proof. unfold strings_of, strs. cbn. rewrite map_map. cbn. apply map_id. Qed.

Lemma strings_of_or_undef l : strings_of (strs_or_undef l) = l.
Proof. destruct l; [done|]. apply strings_of_strs. Qed.

Lemma texts_of_strs l : map text_of (asArray (strs l)) = l.
Proof. cbn. rewrite map_map. apply map_id. Qed.

Lemma list_back {A} (f : A -> jsval) (g : jsval -> A) l : Forall (fun x => g (f x) = x) l -> map g (map f l) = l.
Proof. induction 1; cbn; by f_equal. Qed.

Lemma list_or_undef_back {A B} (f : A -> jsval) (g : jsval -> B) l : map g (asArray (list_or_undef f l)) = map (fun x => g (f x)) l.
Proof. destruct l; [done|]. cbn. by rewrite map_map. Qed.

Lemma routes_back l : l <> [] -> routes_or_default l = l.
Proof. by destruct l. Qed.

Lemma get_put_nonempty o k v k' :
  obj_get (put_nonempty o (k, v)) k' = if String.eqb k k' then (if String.eqb v "" then obj_get o k' else VStr v) else obj_get o k'.
Proof.
  unfold put_nonempty. cbn [fst snd]. destruct (String.eqb v ""); [by destruct (String.eqb k k')|].
  destruct (String.eqb_spec k k') as [->|E]; [apply obj_get_set_eq|by apply obj_get_set_ne].
Qed.

(** A comma-separated list that was split and joined is split the same way. *)
Lemma split_trim_join s : split_trim (join "," (split_trim s)) = split_trim s.
Proof.
  pose proof (parseTokens_clean s) as H. change (parseTokens s) with (split_trim s) in H. set (l := split_trim s) in *. clearbody l.
  destruct l as [|x l]; [done|]. unfold split_trim. change "," with (String "," ""). rewrite split_join; [|done|].
  - induction H as [|y r (Hy & Ty & _) _ IH]; [done|]. cbn [map List.filter]. by rewrite Ty, (proj2 (String.eqb_neq y "")), IH by done.
  - eapply List.Forall_impl; [|exact H]. by intros y (_ & _ & Hc).
Qed.

Lemma join_nonempty x l : x <> "" -> join "," (x :: l) <> "".
Proof. intros H. destruct x; [done|]. by destruct l. Qed.

Lemma split_trim_nonempty x l s : split_trim s = x :: l -> join "," (x :: l) <> "".
Proof.
  intros E. apply join_nonempty. pose proof (parseTokens_clean s) as H. change (parseTokens s) with (split_trim s) in H. rewrite E in H.
  by apply List.Forall_inv in H as [? _].
Qed.

(** ** Sniffing *)

Definition sniffing_ok (s : Sniffing) : Prop := sn_destOverride s <> [] /\ forallb (includes SNIFFING_DEST_VALUES) (sn_destOverride s) = true.

Lemma sniffing_back s : sniffing_ok s -> sniffingFromWire (sniffingToWire s) = s.
Proof.
  intros [Hn Hf]. destruct s as [e d m r i x]. cbn in Hn, Hf. unfold sniffingFromWire, sniffingToWire.
  cbn [asObject obj_get String.eqb Ascii.eqb Bool.eqb sn_enabled sn_destOverride sn_metadataOnly sn_routeOnly sn_ipsExcluded sn_domainsExcluded].
  rewrite strings_of_strs, !strings_of_or_undef, filter_everything by (by apply forallb_forall). destruct d; [done|]. by destruct e, m, r.
Qed.

(** [undefined] properties are not printed. *)
Definition defined (o : obj) : obj := List.filter (fun kv => negb (is_undef kv.2)) o.

Lemma stringify_defined o : stringify (VObj (defined o)) = stringify (VObj o).
Proof. cbn [stringify]. do 3 f_equal. induction o as [|[k x] o IH]; [done|]. destruct x; [exact IH|cbn; f_equal; exact IH..]. Qed.

Lemma get_defined o k : obj_wf o -> obj_get (defined o) k = obj_get o k.
Proof.
  unfold obj_wf, defined. induction o as [|[j x] o IH]; [done|]. intros H. inversion H as [|? ? Hn Hd]; subst. specialize (IH Hd). cbn.
  destruct (is_undef x) eqn:U; cbn.
  - destruct (String.eqb_spec k j) as [->|]; [|done]. rewrite IH. destruct x; try done. apply obj_has_get.
    destruct (obj_has o j) eqn:E; [|done]. exfalso. apply Hn, list_elem_of_In, obj_has_keys, E.
  - destruct (String.eqb k j); [done|]. done.
Qed.

Lemma json_ok_strs l : json_ok (strs l).
Proof. induction l as [|x l IH]; [done|]. cbn. split; [done|exact IH]. Qed.

Definition sniffing_entries (s : Sniffing) : obj := asObject (sniffingToWire s).

Lemma sniffing_wf s : obj_wf (sniffing_entries s).
Proof. apply (bool_decide_unpack _). by vm_compute. Qed.

Lemma sniffing_defined_ok s : json_ok (VObj (defined (sniffing_entries s))).
Proof.
  apply json_ok_obj. split; [apply filter_entries_wf, sniffing_wf|]. apply List.Forall_forall. intros [k x] [Hin Hd]%filter_In. cbn in Hd |- *.
  assert (H : is_undef x = true \/ json_ok x); [|by destruct H as [H|H]; [rewrite H in Hd|]].
  assert (U : forall l, is_undef (strs_or_undef l) = true \/ json_ok (strs_or_undef l)) by (intros [|y l]; [by left|right; apply json_ok_strs]).
  unfold sniffing_entries, sniffingToWire in Hin. cbn [asObject In] in Hin.
  destruct Hin as [[= <- <-]|[[= <- <-]|[[= <- <-]|[[= <- <-]|[[= <- <-]|[[= <- <-]|[]]]]]]]; try apply U; right; try done. apply json_ok_strs.
Qed.

(** Equal texts come from equal sniffing blocks. *)
Lemma sniffing_text_injective s t : sniffing_ok s -> sniffing_ok t ->
  stringify (sniffingToWire s) = stringify (sniffingToWire t) -> s = t.
Proof.
  intros Hs Ht E. change (sniffingToWire s) with (VObj (sniffing_entries s)) in E. change (sniffingToWire t) with (VObj (sniffing_entries t)) in E.
  rewrite <-(stringify_defined (sniffing_entries s)), <-(stringify_defined (sniffing_entries t)) in E.
  pose proof (JSON_parse_stringify _ (sniffing_defined_ok s)) as P. rewrite E, (JSON_parse_stringify _ (sniffing_defined_ok t)) in P.
  apply (f_equal (fun v => match v with Some (VObj o) => o | _ => [] end)) in P. cbv beta iota in P.
  rewrite <-(sniffing_back s Hs), <-(sniffing_back t Ht).
  assert (G : forall k, obj_get (sniffing_entries s) k = obj_get (sniffing_entries t) k).
  { intros k. rewrite <-(get_defined _ k (sniffing_wf s)), <-(get_defined _ k (sniffing_wf t)). by rewrite P. }
  change (sniffingToWire s) with (VObj (sniffing_entries s)). change (sniffingToWire t) with (VObj (sniffing_entries t)).
  unfold sniffingFromWire. cbn [asObject]. by rewrite !G.
Qed.

(** ** Settings *)

(** [z.number().int().min(0)] *)
Definition nat_num (n : num) : bool := is_safe_integer n && negb (num_ltb n (NFin 0 0)).

Definition at_most (n : num) (z : Z) : bool := negb (num_ltb (NFin z 0) n).

(** The AmneziaWG schema. *)
Definition amneziawg_schema (s : AmneziaWGOutboundSettings) : bool :=
  nat_num (aw_mtu s) && nat_num (aw_listenPort s) && at_most (aw_listenPort s) 65535 &&
  nat_num (aw_jc s) && nat_num (aw_jmin s) && nat_num (aw_jmax s) && nat_num (aw_s1 s) && nat_num (aw_s2 s) &&
  nat_num (aw_s3 s) && at_most (aw_s3 s) 64 && nat_num (aw_s4 s) && at_most (aw_s4 s) 32 &&
  forallb (fun p => nat_num (ap_keepAlive p)) (aw_peers s).

Definition reserved_numbers (s : string) : list num :=
  List.filter num_finite (map (fun x => number_of_string (trim x)) (split_on "," s)).

Definition reserved_ok (s : string) : Prop := s = "" \/ forallb (fun x => all_digits (trim x)) (split_on "," s) = true.

Definition fragment_off (f : FreedomFragment) : bool :=
  String.eqb (fg_length f) "" && String.eqb (fg_interval f) "" && String.eqb (fg_maxSplit f) "".

Definition vision (s : VlessOutboundFormSettings) : bool := String.eqb (vl_flow s) "xtls-rprx-vision".

Definition seed_ok (l : list num) : bool := Nat.eqb (length l) 4 && forallb (fun v => positive_integer (VNum v)) l.

(** What the schema of the form says, and what a saved outbound cannot say: an empty list of
    sniffed protocols or routes, a WireGuard MTU of 0, a DNS port 0, an enabled fragment without
    packets, a vision flow without seeds, and reserved bytes or resolvers that are not a list. *)
Definition settings_ok (s : OutboundFormSettings) : Prop :=
  match s with
  | FVmess s => port_ok (vm_port s) /\ includes ["aes-128-gcm"; "chacha20-poly1305"; "auto"] (vm_security s) = true
  | FVless s => port_ok (vl_port s) /\ (vl_reverseTag s <> "" -> sniffing_ok (vl_reverseSniffing s)) /\ int_num (vl_testpre s) = true /\
      (vision s = true -> seed_ok (vl_testseed s) = true)
  | FTrojan s => port_ok (tr_port s)
  | FShadowsocks s => port_ok (so_port s) /\ int_num (so_UoTVersion s) = true
  | FSocks s => port_ok (sa_port s)
  | FHttp s => port_ok (sa_port (ht_auth s))
  | FWireguard s =>
      int_num (wg_mtu s) = true /\ wg_mtu s <> NFin 0 0 /\ (wg_secretKey s = "" \/ atob (wg_secretKey s) <> None) /\
      (wg_domainStrategy s = "" \/ includes WIREGUARD_STRATEGIES (wg_domainStrategy s) = true) /\
      reserved_ok (wg_reserved s) /\ (wg_remoteDNS s = "" \/ split_trim (wg_remoteDNS s) <> []) /\
      Forall (fun p => wp_allowedIPs p <> [] /\ int_num (wp_keepAlive p) = true) (wg_peers s)
  | FAmneziaWG s => amneziawg_schema s = true /\ Forall (fun p => ap_allowedIPs p <> []) (aw_peers s)
  | FHysteria s => port_ok (hy_port s) /\ hy_version s = 2
  | FFreedom s =>
      int_num (fd_userLevel s) = true /\ 0 <= fd_proxyProtocol s <= 2 /\
      match fd_fragment s with Some f => fragment_off f = false -> fg_packets f <> "" | None => True end /\
      Forall (fun r => includes ["allow"; "block"] (fr_action r) = true) (fd_finalRules s)
  | FBlackhole s => bh_type s = "" \/ includes ["none"; "http"; "custom"] (bh_type s) = true
  | FDns s =>
      (dn_rewriteNetwork s = "" \/ includes ["udp"; "tcp"] (dn_rewriteNetwork s) = true) /\ port_ok (dn_rewritePort s) /\
      int_num (dn_userLevel s) = true /\ Forall (fun r => int_num (dr_rCode r) = true) (dn_rules s)
  | FLoopback s => sn_enabled (lb_sniffing s) = true -> sniffing_ok (lb_sniffing s)
  end.

(** ** What the editor shows after reopening *)

Definition reopened_vless (s : VlessOutboundFormSettings) : VlessOutboundFormSettings :=
  {| vl_address := vl_address s; vl_port := vl_port s; vl_id := vl_id s; vl_flow := vl_flow s;
     vl_encryption := if String.eqb (vl_encryption s) "" then "none" else vl_encryption s; vl_reverseTag := vl_reverseTag s;
     vl_reverseSniffing := if String.eqb (vl_reverseTag s) "" then SNIFFING_DEFAULT else vl_reverseSniffing s;
     vl_testpre := if vision s && num_ltb (NFin 0 0) (vl_testpre s) then vl_testpre s else NFin 0 0;
     vl_testseed := if vision s && seed_ok (vl_testseed s) then vl_testseed s else [NFin 900 0; NFin 500 0; NFin 900 0; NFin 256 0] |}.

Definition reopened_auth (s : SimpleAuthFormSettings) : SimpleAuthFormSettings :=
  {| sa_address := sa_address s; sa_port := sa_port s; sa_user := sa_user s; sa_pass := if String.eqb (sa_user s) "" then "" else sa_pass s |}.

Definition reopened_http (s : HttpOutboundFormSettings) : HttpOutboundFormSettings :=
  {| ht_auth := reopened_auth (ht_auth s); ht_headers := ht_headers s |}.

(** The public key shown is derived from the secret key. *)
Definition derived_key (secretKey : string) : string :=
  if String.eqb secretKey "" then "" else match generateKeypair secretKey [] with Some kp => publicKey kp | None => "" end.

Definition reopened_wireguard (s : WireguardOutboundFormSettings) : WireguardOutboundFormSettings :=
  {| wg_mtu := wg_mtu s; wg_secretKey := wg_secretKey s; wg_pubKey := derived_key (wg_secretKey s);
     wg_address := join "," (split_trim (wg_address s)); wg_domainStrategy := wg_domainStrategy s;
     wg_reserved := if String.eqb (wg_reserved s) "" then "" else join "," (map string_of_num (reserved_numbers (wg_reserved s)));
     wg_remoteDNS := join "," (split_trim (wg_remoteDNS s)); wg_peers := wg_peers s; wg_noKernelTun := wg_noKernelTun s |}.

Definition reopened_rule (r : FreedomFinalRuleForm) : FreedomFinalRuleForm :=
  {| fr_action := fr_action r; fr_network := fr_network r; fr_port := fr_port r; fr_ip := fr_ip r;
     fr_blockDelay := if String.eqb (fr_action r) "block" then fr_blockDelay r else "" |}.

Definition empty_fragment : FreedomFragment := {| fg_packets := ""; fg_length := ""; fg_interval := ""; fg_maxSplit := "" |}.

Definition reopened_freedom (strategy : string) (s : FreedomOutboundFormSettings) : FreedomOutboundFormSettings :=
  {| fd_domainStrategy := strategy; fd_redirect := fd_redirect s; fd_userLevel := fd_userLevel s; fd_proxyProtocol := fd_proxyProtocol s;
     fd_fragment := Some (match fd_fragment s with Some f => if fragment_off f then empty_fragment else f | None => empty_fragment end);
     fd_noises := fd_noises s; fd_finalRules := map reopened_rule (fd_finalRules s) |}.

Definition reopened_blackhole (s : BlackholeOutboundFormSettings) : BlackholeOutboundFormSettings :=
  {| bh_type := bh_type s; bh_customResponseData := if String.eqb (bh_type s) "custom" then bh_customResponseData s else "" |}.

Definition query_is_number (q : string) : bool := all_digits q && num_ltb (NFin 0 0) (number_of_string q).

Definition reopened_dns_rule (r : DnsRuleForm) : DnsRuleForm :=
  {| dr_action := if includes DNS_ACTIONS (dr_action r) then dr_action r else "direct";
     dr_qType := if query_is_number (trim (dr_qType r)) then string_of_num (number_of_string (trim (dr_qType r))) else trim (dr_qType r);
     dr_domain := join "," (split_trim (dr_domain r)); dr_rCode := if num_ltb (NFin 0 0) (dr_rCode r) then dr_rCode r else NFin 0 0 |}.

Definition reopened_dns (s : DnsOutboundFormSettings) : DnsOutboundFormSettings :=
  {| dn_rewriteNetwork := dn_rewriteNetwork s; dn_rewriteAddress := dn_rewriteAddress s; dn_rewritePort := dn_rewritePort s;
     dn_userLevel := dn_userLevel s; dn_rules := map reopened_dns_rule (dn_rules s) |}.

Definition reopened_loopback (s : LoopbackOutboundFormSettings) : LoopbackOutboundFormSettings :=
  {| lb_inboundTag := lb_inboundTag s; lb_sniffing := if sn_enabled (lb_sniffing s) then lb_sniffing s else SNIFFING_DEFAULT |}.

Definition reopened_settings (strategy : string) (s : OutboundFormSettings) : OutboundFormSettings :=
  match s with
  | FVless s => FVless (reopened_vless s) | FSocks s => FSocks (reopened_auth s)
  | FHttp s => FHttp (reopened_http s)
  | FWireguard s => FWireguard (reopened_wireguard s) | FFreedom s => FFreedom (reopened_freedom strategy s)
  | FBlackhole s => FBlackhole (reopened_blackhole s) | FDns s => FDns (reopened_dns s) | FLoopback s => FLoopback (reopened_loopback s)
  | s => s
  end.

(** ** Each protocol *)

(** Reads of records written out. *)
Ltac reads := cbn [asObject asArray asString asBool is_bool hd first_of obj_get obj_set String.eqb Ascii.eqb Bool.eqb fst snd].

Lemma vmess_back s : settings_ok (FVmess s) -> vmessFromWire (vmessToWire s) = s.
Proof.
  intros [Hp Hs]. destruct s as [a p i c]. unfold vmessFromWire, vmessToWire, first_of. reads. cbn [vm_address vm_port vm_id vm_security] in *.
  by rewrite asPort_int, Hs by done.
Qed.

Lemma seed_back l : seed_ok l = true ->
  (if Nat.eqb (length (map VNum l)) 4 && forallb positive_integer (map VNum l) then map num_of (map VNum l) else [NFin 900 0; NFin 500 0; NFin 900 0; NFin 256 0]) = l.
Proof.
  unfold seed_ok. intros H. rewrite length_map. replace (forallb positive_integer (map VNum l)) with (forallb (fun v => positive_integer (VNum v)) l)
    by (clear; induction l; cbn; by f_equal). rewrite H, map_map. apply map_id.
Qed.

(** The reverse block of a VLESS outbound. *)
Definition reverse_block (s : VlessOutboundFormSettings) : jsval :=
  if String.eqb (vl_reverseTag s) "" then VUndef
  else VObj [("tag", VStr (vl_reverseTag s));
             ("sniffing", if String.eqb (stringify (sniffingToWire (vl_reverseSniffing s))) (stringify (sniffingToWire SNIFFING_DEFAULT)) then VObj []
                          else sniffingToWire (vl_reverseSniffing s))].

Lemma sniffing_default_ok : sniffing_ok SNIFFING_DEFAULT.
Proof. by split. Qed.

Lemma reverse_back s (reverse := asObject (reverse_block s)) : (vl_reverseTag s <> "" -> sniffing_ok (vl_reverseSniffing s)) ->
  asString (obj_get reverse "tag") "" = vl_reverseTag s /\
  (if String.eqb (vl_reverseTag s) "" then SNIFFING_DEFAULT else sniffingFromWire (obj_get reverse "sniffing")) =
  (if String.eqb (vl_reverseTag s) "" then SNIFFING_DEFAULT else vl_reverseSniffing s).
Proof.
  intros H. subst reverse. unfold reverse_block. destruct (String.eqb_spec (vl_reverseTag s) "") as [->|E]; [done|]. split; [done|]. specialize (H E).
  reads. destruct (String.eqb_spec (stringify (sniffingToWire (vl_reverseSniffing s))) (stringify (sniffingToWire SNIFFING_DEFAULT))) as [Es|_].
  - by rewrite (sniffing_text_injective _ _ H sniffing_default_ok Es).
  - by apply sniffing_back.
Qed.

Lemma vless_gets s (w := obj_get (vlessToWire s)) :
  w "vnext" = VUndef /\ w "address" = VStr (vl_address s) /\ w "port" = VInt (vl_port s) /\ w "id" = VStr (vl_id s) /\ w "flow" = VStr (vl_flow s) /\
  w "encryption" = VStr (if String.eqb (vl_encryption s) "" then "none" else vl_encryption s) /\ w "reverse" = reverse_block s /\
  w "testpre" = (if vision s && num_ltb (NFin 0 0) (vl_testpre s) then VNum (vl_testpre s) else VUndef) /\
  w "testseed" = (if vision s && seed_ok (vl_testseed s) then VArr (map VNum (vl_testseed s)) else VUndef).
Proof.
  subst w. unfold vlessToWire, vision, reverse_block. fold (seed_ok (vl_testseed s)). destruct (String.eqb (vl_reverseTag s) "");
    destruct (String.eqb (vl_flow s) "xtls-rprx-vision"); try (by repeat split);
    destruct (num_ltb (NFin 0 0) (vl_testpre s)), (seed_ok (vl_testseed s)); by repeat split.
Qed.

Lemma vless_back s : settings_ok (FVless s) -> vlessFromWire (vlessToWire s) = reopened_vless s.
Proof.
  intros (Hp & Hs & Hn & _). destruct (vless_gets s) as (E1 & E2 & E3 & E4 & E5 & E6 & E7 & E8 & E9). destruct (reverse_back s Hs) as [R1 R2].
  unfold vlessFromWire. rewrite E1. cbn [asArray]. rewrite E2, E3, E4, E5, E6, E7, E8, E9, R1, R2. unfold reopened_vless. cbn [asString].
  rewrite asPort_int by done. f_equal; [by destruct (vl_encryption s)|..].
  - by destruct (vision s), (num_ltb _ _); cbn [andb]; rewrite ?asNumber_int by done.
  - destruct (vision s); [|done]. cbn [andb]. destruct (seed_ok (vl_testseed s)) eqn:E; [|done]. exact (seed_back _ E).
Qed.

Lemma trojan_back s : settings_ok (FTrojan s) -> trojanFromWire (trojanToWire s) = s.
Proof. intros Hp. destruct s as [a p w]. unfold trojanFromWire, trojanToWire, first_of. reads. cbn [settings_ok tr_address tr_port tr_password] in *. by rewrite asPort_int. Qed.

Lemma shadowsocks_back s : settings_ok (FShadowsocks s) -> shadowsocksFromWire (shadowsocksToWire s) = s.
Proof.
  intros [Hp Hn]. destruct s as [a p w m u v]. unfold shadowsocksFromWire, shadowsocksToWire, first_of. reads.
  cbn [so_address so_port so_password so_method so_uot so_UoTVersion] in *. rewrite asPort_int, asNumber_int by done. by destruct u.
Qed.

Lemma auth_back s d : port_ok (sa_port s) -> simpleAuthFromWire (simpleAuthToWire s) d = reopened_auth s.
Proof.
  intros Hp. unfold simpleAuthFromWire, simpleAuthToWire, first_of, reopened_auth. reads. rewrite asPort_int by done.
  destruct (String.eqb_spec (sa_user s) "") as [->|]; done.
Qed.

Lemma headers_back l : stringRecordFromWire (VObj (map (fun kv => (kv.1, VStr kv.2)) l)) = l.
Proof. unfold stringRecordFromWire. cbn [asObject]. induction l as [|[k v] l IH]; [done|]. cbn. by rewrite IH. Qed.

Lemma http_back s : settings_ok (FHttp s) -> httpFromWire (httpToWire s) = reopened_http s.
Proof.
  intros Hp. cbn in Hp. unfold httpFromWire, httpToWire, reopened_http. rewrite <-(auth_back (ht_auth s) 8080) by done. destruct (ht_headers s) as [|h l] eqn:E; [done|].
  by rewrite obj_get_set_eq, headers_back.
Qed.

(** *** WireGuard *)

Lemma wireguard_peer_back p : wp_allowedIPs p <> [] /\ int_num (wp_keepAlive p) = true -> wireguardPeerFromWire (wireguardPeerToWire p) = p.
Proof.
  intros [Hr Hk]. destruct p as [k psk l e a]. unfold wireguardPeerFromWire, wireguardPeerToWire. reads.
  cbn [wp_publicKey wp_psk wp_allowedIPs wp_endpoint wp_keepAlive] in *.
  by rewrite asString_or_undef, strings_of_or_undef, routes_back, asNumber_or_undef by done.
Qed.

Lemma reserved_digits s : forallb (fun x => all_digits (trim x)) (split_on "," s) = true ->
  reserved_numbers s <> [] /\ Forall (fun n => exists z, n = NFin z 0 /\ 0 <= z) (reserved_numbers s).
Proof.
  unfold reserved_numbers. pose proof (split_on_nonempty "," s) as Hn. revert Hn. generalize (split_on "," s). intros l Hn H. split.
  - destruct l as [|x l]; [done|]. cbn [forallb] in H. apply andb_true_iff in H as [Hx _]. cbn [map List.filter]. by rewrite number_of_digits by done.
  - clear Hn. induction l as [|x l IH]; [constructor|]. cbn [forallb] in H. apply andb_true_iff in H as [Hx H]. cbn [map List.filter].
    rewrite number_of_digits by done. cbn [num_finite]. constructor; [|by apply IH]. eexists. split; [done|]. apply digits_value_nonneg. lia.
Qed.

Lemma digits_no_comma s : forall_chars is_digit s = true -> no_char "," s.
Proof. unfold no_char. apply forall_chars_impl. intros c. destruct c as [[] [] [] [] [] [] [] []]; by cbn. Qed.

Lemma reserved_join l : l <> [] -> Forall (fun n => exists z, n = NFin z 0 /\ 0 <= z) l -> reserved_numbers (join "," (map string_of_num l)) = l.
Proof.
  intros Hn H. assert (D : Forall (fun n => all_digits (string_of_num n) = true /\ number_of_string (trim (string_of_num n)) = n) l).
  { eapply List.Forall_impl; [|exact H]. intros n (z & -> & Hz). cbn [string_of_num]. pose proof (number_of_string_of_Z z Hz) as E.
    assert (A : all_digits (string_of_Z z) = true) by (unfold string_of_Z; destruct (Z.ltb_spec z 0); [lia|apply digits_all]).
    split; [done|]. rewrite trim_digits; [done|]. by destruct (string_of_Z z). }
  unfold reserved_numbers. change "," with (String "," ""). rewrite split_join.
  - clear Hn. induction D as [|n r [_ Dn] _ IH]; [done|]. inversion H as [|? ? (z & -> & _)]; subst. cbn [map List.filter]. rewrite Dn. cbn [num_finite]. by rewrite IH.
  - by destruct l.
  - apply List.Forall_map. eapply List.Forall_impl; [|exact D]. intros n [A _]. apply digits_no_comma. by destruct (string_of_num n).
Qed.

Lemma wireguard_back s : settings_ok (FWireguard s) -> wireguardFromWire (wireguardToWire s) = Some (reopened_wireguard s).
Proof.
  intros (Hm & Hm0 & Hk & Hd & Hr & Hdns & Hp). unfold wireguardFromWire, wireguardToWire. reads. rewrite asString_or_undef.
  assert (K : (if String.eqb (wg_secretKey s) "" then Some "" else option_map publicKey (generateKeypair (wg_secretKey s) [])) = Some (derived_key (wg_secretKey s))).
  { unfold derived_key. destruct (String.eqb_spec (wg_secretKey s) "") as [|E]; [done|]. destruct Hk as [|Hk]; [done|]. unfold generateKeypair, keyFromBase64.
    destruct (wg_secretKey s) as [|c t]; [done|]. cbn [String.length Nat.ltb Nat.leb]. by destruct (atob (String c t)). }
  rewrite K. cbn [option_map]. unfold reopened_wireguard. f_equal. f_equal.
  - destruct (wg_mtu s) as [m [|e]| |]; try done. unfold num_or_undef. cbn. destruct (Z.eqb_spec m 0) as [->|]; done.
  - destruct (String.eqb_spec (wg_address s) "") as [->|]; [done|]. by rewrite texts_of_strs.
  - by destruct Hd as [->| ->].
  - destruct (String.eqb (wg_reserved s) ""); [done|]. fold (reserved_numbers (wg_reserved s)). reads. by rewrite map_map.
  - destruct (String.eqb_spec (wg_remoteDNS s) "") as [->|]; [done|]. by rewrite strings_of_strs.
  - apply list_back. eapply List.Forall_impl; [|exact Hp]. apply wireguard_peer_back.
  - by destruct (wg_noKernelTun s).
Qed.

(** *** AmneziaWG *)

Lemma nat_num_int n : nat_num n = true -> int_num n = true.
Proof. unfold nat_num. by destruct n as [m []| |]. Qed.

Lemma nat_num_positive n : nat_num n = true -> (if num_ltb (NFin 0 0) n then n else NFin 0 0) = n.
Proof.
  unfold nat_num. destruct n as [m [|e]| |]; try done. cbn [is_safe_integer num_ltb]. change (10 ^ Z.of_nat 0) with 1. rewrite !Z.mul_1_r.
  intros [_ H]%andb_true_iff. apply negb_true_iff in H. destruct (Z.ltb_spec m 0), (Z.ltb_spec 0 m); try done. by replace m with 0 by lia.
Qed.

Lemma amneziawg_peer_back p : ap_allowedIPs p <> [] -> nat_num (ap_keepAlive p) = true -> amneziawgPeerFromWire (amneziawgPeerToWire p) = p.
Proof.
  intros Hr Hk%nat_num_int. destruct p as [k psk l e a]. unfold amneziawgPeerFromWire, amneziawgPeerToWire. reads.
  cbn [ap_publicKey ap_presharedKey ap_allowedIPs ap_endpoint ap_keepAlive] in *.
  by rewrite asString_or_undef, strings_of_or_undef, routes_back, asNumber_or_undef by done.
Qed.

Lemma get_set_if (b : bool) o k v k' :
  obj_get (if b then obj_set o k v else o) k' = if String.eqb k k' then (if b then v else obj_get o k') else obj_get o k'.
Proof.
  destruct b; [|by destruct (String.eqb k k')]. destruct (String.eqb_spec k k') as [->|E]; [apply obj_get_set_eq|by apply obj_get_set_ne].
Qed.

Lemma asString_opt v : asString (if String.eqb v "" then VUndef else VStr v) "" = v.
Proof. by destruct v. Qed.

(** The fields written when they are not empty. *)
Lemma get_puts l o k : List.NoDup (map fst l) ->
  obj_get (fold_left put_nonempty l o) k =
  match List.find (fun kv => String.eqb kv.1 k) l with Some kv => if String.eqb kv.2 "" then obj_get o k else VStr kv.2 | None => obj_get o k end.
Proof.
  revert o. induction l as [|[n v] l IH]; intros o H; [done|]. inversion H as [|? ? Hn Hd]; subst. cbn [fold_left List.find fst snd].
  rewrite IH by done. destruct (String.eqb_spec n k) as [->|E].
  - replace (List.find (fun kv => String.eqb kv.1 k) l) with (@None (string * string)); [by rewrite get_put_nonempty, String.eqb_refl|].
    symmetry. destruct (List.find _ l) as [[n w]|] eqn:F; [|done]. apply find_some in F as [Hin E]. apply String.eqb_eq in E. cbn in E. subst. destruct Hn.
    by apply (in_map fst) in Hin.
  - rewrite get_put_nonempty, (proj2 (String.eqb_neq n k)) by done. done.
Qed.

Definition amneziawg_required (s : AmneziaWGOutboundSettings) : obj :=
  [("mtu", num_or_undef (aw_mtu s)); ("secretKey", VStr (aw_secretKey s)); ("address", strs (aw_address s));
   ("jc", VNum (aw_jc s)); ("jmin", VNum (aw_jmin s)); ("jmax", VNum (aw_jmax s)); ("s1", VNum (aw_s1 s)); ("s2", VNum (aw_s2 s));
   ("s3", VNum (aw_s3 s)); ("s4", VNum (aw_s4 s)); ("h1", VStr (aw_h1 s)); ("h2", VStr (aw_h2 s)); ("h3", VStr (aw_h3 s));
   ("h4", VStr (aw_h4 s)); ("randomTrailers", VBool (aw_randomTrailers s)); ("disableCookies", VBool (aw_disableCookies s));
   ("peers", VArr (map amneziawgPeerToWire (aw_peers s)))].

Definition amneziawg_read (s : AmneziaWGOutboundSettings) (k : string) : jsval :=
  if String.eqb "listenPort" k then (if num_ltb (NFin 0 0) (aw_listenPort s) then VNum (aw_listenPort s) else VUndef)
  else match List.find (fun kv => String.eqb kv.1 k) (("dns", aw_dns s) :: amneziawg_optionalStrings s) with
       | Some kv => str_or_undef kv.2
       | None => obj_get (amneziawg_required s) k
       end.

Lemma amneziawg_get s k : obj_get (amneziawgToWire s) k = amneziawg_read s k.
Proof.
  assert (E : amneziawgToWire s = fold_left put_nonempty (("dns", aw_dns s) :: amneziawg_optionalStrings s)
    (if num_ltb (NFin 0 0) (aw_listenPort s) then obj_set (amneziawg_required s) "listenPort" (VNum (aw_listenPort s)) else amneziawg_required s)) by reflexivity.
  assert (N : List.NoDup (map fst (("dns", aw_dns s) :: amneziawg_optionalStrings s))) by (cbn; repeat constructor; cbn; intuition discriminate).
  rewrite E, get_puts, get_set_if by exact N. unfold amneziawg_read. destruct (String.eqb_spec "listenPort" k) as [<-|Hk]; [done|].
  destruct (List.find _ _) as [[n v]|] eqn:F; [|done]. replace (obj_get (amneziawg_required s) k) with VUndef; [done|].
  apply find_some in F as [Hin En]. cbn in En. apply String.eqb_eq in En. subst. cbn in Hin.
  repeat destruct Hin as [[= <- <-]|Hin]; done.
Qed.

Lemma amneziawg_back s : settings_ok (FAmneziaWG s) -> amneziawg_input (amneziawgToWire s) = s.
Proof.
  intros [Hs Hp]. unfold amneziawg_schema in Hs.
  repeat match goal with H : _ && _ = true |- _ => apply andb_true_iff in H as [H ?] end.
  assert (P : map amneziawgPeerFromWire (map amneziawgPeerToWire (aw_peers s)) = aw_peers s).
  { apply list_back. apply List.Forall_forall. intros p Hin. rewrite List.Forall_forall in Hp.
    match goal with H : forallb _ (aw_peers s) = true |- _ => rewrite forallb_forall in H; specialize (H p Hin) end. by apply amneziawg_peer_back; [apply Hp|]. }
  assert (Hl : asNumber (if num_ltb (NFin 0 0) (aw_listenPort s) then VNum (aw_listenPort s) else VUndef) 0 = aw_listenPort s)
    by (rewrite asNumber_positive by (by apply nat_num_int); by apply nat_num_positive).
  unfold amneziawg_input. cbv zeta beta. rewrite !amneziawg_get.
  cbv [amneziawg_read List.find amneziawg_optionalStrings amneziawg_required obj_get String.eqb Ascii.eqb Bool.eqb fst snd].
  cbn [asArray asBool is_bool is_undef].
  rewrite P, Hl, !asString_or_undef, strings_of_strs, asNumber_or_undef by (by apply nat_num_int). rewrite !asNumber_int by (by apply nat_num_int).
  destruct s as [? ? ? ? ? ? ? ? ? ? ? ? ? ? ? ? ? ? ? ? ? ? ? ? ? ? ? ? r c ?]. by destruct r, c.
Qed.

(** *** The others *)

Lemma hysteria_back s : settings_ok (FHysteria s) -> hysteriaFromWire (hysteriaToWire s) = s.
Proof.
  intros [Hp Hv]. destruct s as [a p v]. unfold hysteriaFromWire, hysteriaToWire. reads. cbn [hy_address hy_port hy_version] in *. subst.
  by rewrite asPort_int.
Qed.

Lemma final_rule_back r : includes ["allow"; "block"] (fr_action r) = true -> finalRuleFromWire (finalRuleToWire r) = reopened_rule r.
Proof.
  intros H. unfold finalRuleFromWire, finalRuleToWire, reopened_rule. reads. unfold includes in H. cbn [existsb] in H. rewrite orb_false_r in H. f_equal.
  - destruct (String.eqb_spec (fr_action r) "allow") as [->|]; [done|]. by apply String.eqb_eq in H as ->.
  - unfold str_or_undef. by destruct (String.eqb_spec (fr_network r) "") as [->|].
  - apply asString_or_undef.
  - apply strings_of_or_undef.
  - destruct (String.eqb (fr_action r) "block"); [|done]. by destruct (fr_blockDelay r).
Qed.

Lemma noise_back n : noiseFromWire (noiseToWire n) = n.
Proof. by destruct n. Qed.

Lemma fragment_back f (fragment := asObject (fragmentToWire (Some f))) : (fragment_off f = false -> fg_packets f <> "") ->
  match fragment with
  | [] => empty_fragment
  | _ => {| fg_packets := asString (obj_get fragment "packets") "1-3"; fg_length := asString (obj_get fragment "length") "";
                   fg_interval := asString (obj_get fragment "interval") ""; fg_maxSplit := asString (obj_get fragment "maxSplit") "" |}
  end = if fragment_off f then empty_fragment else f.
Proof.
  subst fragment. unfold fragment_off, fragmentToWire. destruct f as [p l i m]. unfold fragment_entries. cbn [fg_packets fg_length fg_interval fg_maxSplit].
  destruct (String.eqb_spec l "") as [->|], (String.eqb_spec i "") as [->|], (String.eqb_spec m "") as [->|]; cbn [andb]; try done;
    intros H; specialize (H eq_refl); apply String.eqb_neq in H;
    repeat match goal with E : _ <> "" |- _ => apply String.eqb_neq in E end;
    cbn [List.filter snd]; repeat match goal with E : String.eqb _ _ = false |- _ => rewrite E end; reflexivity.
Qed.

Lemma freedom_back s strategy : settings_ok (FFreedom s) -> freedomFromWire (freedomToWire s) strategy = reopened_freedom strategy s.
Proof.
  intros (Hu & Hp & Hf & Hr). unfold freedomFromWire, freedomToWire, reopened_freedom. reads. rewrite asString_or_undef, asNumber_or_undef by done.
  rewrite !list_or_undef_back. f_equal.
  - assert (C : fd_proxyProtocol s = 0 \/ fd_proxyProtocol s = 1 \/ fd_proxyProtocol s = 2) by lia. by destruct C as [-> |[-> | ->]].
  - f_equal. destruct (fd_fragment s) as [f|]; [|done]. by apply fragment_back.
  - rewrite (map_ext _ (fun n => n)) by apply noise_back. apply map_id.
  - replace (map (fun x => finalRuleFromWire (finalRuleToWire x)) (fd_finalRules s)) with (map reopened_rule (fd_finalRules s)).
    + by destruct (map reopened_rule (fd_finalRules s)).
    + apply map_ext_in. intros r Hin. symmetry. rewrite List.Forall_forall in Hr. by apply final_rule_back, Hr.
Qed.

Lemma blackhole_back s : settings_ok (FBlackhole s) -> blackholeFromWire (blackholeToWire s) = reopened_blackhole s.
Proof.
  intros H. cbn [settings_ok] in H. unfold blackholeFromWire, blackholeToWire, reopened_blackhole.
  destruct (String.eqb_spec (bh_type s) "") as [->|E]; [done|]. destruct H as [|H]; [done|].
  destruct (String.eqb_spec (bh_type s) "custom") as [->|]; [done|]. reads. by rewrite H.
Qed.

Lemma loopback_back s : settings_ok (FLoopback s) -> loopbackFromWire (loopbackToWire s) = reopened_loopback s.
Proof.
  intros H. cbn [settings_ok] in H. unfold loopbackFromWire, loopbackToWire, reopened_loopback. destruct (sn_enabled (lb_sniffing s)); reads;
    rewrite asString_or_undef; [|done]. by rewrite sniffing_back by auto.
Qed.

(** *** DNS *)

Lemma trim_all_digits s : all_digits s = true -> trim s = s.
Proof. intros H. apply trim_digits. by destruct s. Qed.

(** A query type read back is classified the same way. *)
Lemma query_number_back q : query_is_number q = true ->
  let t := string_of_num (number_of_string q) in trim t = t /\ t <> "" /\ query_is_number t = true /\ number_of_string t = number_of_string q.
Proof.
  unfold query_is_number. intros [D P]%andb_true_iff. rewrite (number_of_digits q D) in *. cbn [string_of_num].
  assert (Hz : 0 <= digits_value 0 q) by (apply digits_value_nonneg; lia). cbv zeta. set (z := digits_value 0 q) in *.
  assert (A : all_digits (string_of_Z z) = true) by (unfold string_of_Z; destruct (Z.ltb_spec z 0); [lia|apply digits_all]).
  split; [by apply trim_all_digits|]. split; [by destruct (string_of_Z z)|]. rewrite A, number_of_string_of_Z by done. by split.
Qed.

Definition qtype_to_wire (q : string) : jsval :=
  if String.eqb q "" then VUndef else if query_is_number q then VNum (number_of_string q) else VStr q.

Lemma dns_rule_gets r (w := obj_get (asObject (dnsRuleToWire r))) :
  w "action" = VStr (if includes DNS_ACTIONS (dr_action r) then dr_action r else "direct") /\
  w "qType" = qtype_to_wire (trim (dr_qType r)) /\ w "qtype" = VUndef /\
  w "domain" = strs_or_undef (split_trim (dr_domain r)) /\ w "rCode" = (if num_ltb (NFin 0 0) (dr_rCode r) then VNum (dr_rCode r) else VUndef).
Proof.
  subst w. unfold dnsRuleToWire, qtype_to_wire, query_is_number. cbv zeta. set (a := if includes _ _ then _ else _). clearbody a.
  destruct (split_trim (dr_domain r)) as [|d l]; destruct (num_ltb (NFin 0 0) (dr_rCode r)); destruct (String.eqb (trim (dr_qType r)) "");
    destruct (all_digits (trim (dr_qType r)) && num_ltb (NFin 0 0) (number_of_string (trim (dr_qType r)))); by repeat split.
Qed.

Lemma dns_rule_back r : int_num (dr_rCode r) = true -> dnsRuleFromWire (dnsRuleToWire r) = reopened_dns_rule r.
Proof.
  intros H. destruct (dns_rule_gets r) as (E1 & E2 & E3 & E4 & E5). unfold dnsRuleFromWire. rewrite E1, E2, E3, E4, E5. unfold reopened_dns_rule. cbn [asString]. f_equal.
  - by destruct (includes DNS_ACTIONS (dr_action r)) eqn:E; [rewrite E|].
  - unfold qtype_to_wire. destruct (String.eqb_spec (trim (dr_qType r)) "") as [->|]; [done|]. by destruct (query_is_number (trim (dr_qType r))).
  - destruct (split_trim (dr_domain r)) as [|d l]; [done|]. cbn [strs_or_undef strs]. f_equal. rewrite map_map. apply map_id.
  - by apply asNumber_positive.
Qed.

Lemma dns_gets s (w := obj_get (dnsToWire s)) : port_ok (dn_rewritePort s) ->
  w "rewriteNetwork" = str_or_undef (dn_rewriteNetwork s) /\ w "network" = VUndef /\ w "rewriteAddress" = str_or_undef (dn_rewriteAddress s) /\
  w "address" = VUndef /\ w "rewritePort" = VInt (dn_rewritePort s) /\ w "userLevel" = num_or_undef (dn_userLevel s) /\
  w "rules" = list_or_undef dnsRuleToWire (dn_rules s).
Proof.
  intros Hp. subst w. unfold dnsToWire, put_nonempty, str_or_undef, num_or_undef. cbn [fst snd]. unfold port_ok in Hp.
  destruct (Z.eqb_spec (dn_rewritePort s) 0) as [|_]; [lia|].
  destruct (String.eqb (dn_rewriteNetwork s) ""), (String.eqb (dn_rewriteAddress s) ""), (num_truthy (dn_userLevel s)), (dn_rules s); by repeat split.
Qed.

Lemma or_undef_absent s : asString (or_nullish (str_or_undef s) VUndef) "" = s.
Proof. unfold str_or_undef. by destruct (String.eqb_spec s "") as [->|]. Qed.

Lemma dns_back s : settings_ok (FDns s) -> dnsFromWire (dnsToWire s) = reopened_dns s.
Proof.
  intros (Hn & Hp & Hu & Hr). destruct (dns_gets s Hp) as (E1 & E2 & E3 & E4 & E5 & E6 & E7). unfold dnsFromWire, reopened_dns.
  rewrite E1, E2, E3, E4, E5, E6, E7, !or_undef_absent. change (or_nullish (VInt (dn_rewritePort s)) _) with (VInt (dn_rewritePort s)).
  rewrite asPort_int, asNumber_or_undef, list_or_undef_back by done. f_equal; [by destruct Hn as [->| ->]|].
  apply map_ext_in. intros r Hin. rewrite List.Forall_forall in Hr. by apply dns_rule_back, Hr.
Qed.

(** ** Saving what was reopened *)

Lemma wireguard_address s : (if String.eqb s "" then VArr [] else strs (split_trim s)) = strs (split_trim s).
Proof. by destruct (String.eqb_spec s "") as [->|]. Qed.

Lemma wireguard_resaved s : settings_ok (FWireguard s) -> wireguardToWire (reopened_wireguard s) = wireguardToWire s.
Proof.
  intros (_ & _ & _ & _ & Hr & Hdns & _). unfold wireguardToWire, reopened_wireguard.
  cbn [wg_mtu wg_secretKey wg_pubKey wg_address wg_domainStrategy wg_reserved wg_remoteDNS wg_peers wg_noKernelTun].
  rewrite !wireguard_address, split_trim_join.
  assert (D : (if String.eqb (join "," (split_trim (wg_remoteDNS s))) "" then VUndef else strs (split_trim (join "," (split_trim (wg_remoteDNS s))))) =
              (if String.eqb (wg_remoteDNS s) "" then VUndef else strs (split_trim (wg_remoteDNS s)))).
  { rewrite split_trim_join. destruct (String.eqb_spec (wg_remoteDNS s) "") as [->|E]; [done|]. destruct Hdns as [|Hd]; [done|].
    destruct (split_trim (wg_remoteDNS s)) as [|x l] eqn:El; [done|]. by rewrite (proj2 (String.eqb_neq _ _) (split_trim_nonempty x l _ El)). }
  assert (R : forall t, (if String.eqb t "" then VUndef else VArr (map VNum (List.filter num_finite (map (fun x => number_of_string (trim x)) (split_on "," t))))) =
              (if String.eqb t "" then VUndef else VArr (map VNum (reserved_numbers t)))) by done.
  rewrite D, !R. fold (reserved_numbers (wg_reserved s)). destruct (String.eqb_spec (wg_reserved s) "") as [|E]; [done|]. destruct Hr as [|Hr]; [done|].
  destruct (reserved_digits _ Hr) as [Hn Hz]. rewrite reserved_join by done. destruct (reserved_numbers (wg_reserved s)) as [|n l]; [done|].
  apply List.Forall_inv in Hz as (z & -> & Hz). cbn [map string_of_num].
  rewrite (proj2 (String.eqb_neq _ _) (join_nonempty _ _ (proj1 (String.eqb_neq _ _) (string_of_Z_nonempty z Hz)))). done.
Qed.

Lemma vless_resaved s : settings_ok (FVless s) -> vlessToWire (reopened_vless s) = vlessToWire s.
Proof.
  intros (_ & _ & _ & Hseed). unfold vlessToWire, reopened_vless.
  cbn [vl_address vl_port vl_id vl_flow vl_encryption vl_reverseTag vl_reverseSniffing vl_testpre vl_testseed]. fold (vision s).
  replace (String.eqb (if String.eqb (vl_encryption s) "" then "none" else vl_encryption s) "") with false by (by destruct (vl_encryption s)).
  destruct (vision s) eqn:V; cbn [andb]; [|by destruct (String.eqb (vl_reverseTag s) "")].
  fold (seed_ok (vl_testseed s)). rewrite (Hseed eq_refl). cbn [andb]. fold (seed_ok (vl_testseed s)). rewrite (Hseed eq_refl).
  destruct (num_ltb (NFin 0 0) (vl_testpre s)) eqn:P; [rewrite P|]; by destruct (String.eqb (vl_reverseTag s) "").
Qed.

Lemma auth_resaved s : simpleAuthToWire (reopened_auth s) = simpleAuthToWire s.
Proof. unfold simpleAuthToWire, reopened_auth. cbn [sa_address sa_port sa_user sa_pass]. by destruct (String.eqb (sa_user s) ""). Qed.

Lemma http_resaved s : httpToWire (reopened_http s) = httpToWire s.
Proof. unfold httpToWire, reopened_http. cbn [ht_auth ht_headers]. by rewrite auth_resaved. Qed.

Lemma freedom_resaved s strategy : freedomToWire (reopened_freedom strategy s) = freedomToWire s.
Proof.
  unfold freedomToWire, reopened_freedom. cbn [fd_redirect fd_userLevel fd_proxyProtocol fd_fragment fd_noises fd_finalRules].
  assert (F : fragmentToWire (Some (match fd_fragment s with Some f => if fragment_off f then empty_fragment else f | None => empty_fragment end)) =
              fragmentToWire (fd_fragment s)).
  { destruct (fd_fragment s) as [f|]; [|done]. destruct (fragment_off f) eqn:E; [|done]. unfold fragmentToWire. fold (fragment_off f). by rewrite E. }
  assert (R : forall q, finalRuleToWire (reopened_rule q) = finalRuleToWire q).
  { intros q. unfold finalRuleToWire, reopened_rule. cbn [fr_action fr_network fr_port fr_ip fr_blockDelay]. by destruct (String.eqb (fr_action q) "block"). }
  rewrite F. do 6 f_equal. destruct (fd_finalRules s) as [|r l]; [done|]. cbn [list_or_undef map]. rewrite R, map_map. by rewrite (map_ext _ finalRuleToWire R).
Qed.

Lemma blackhole_resaved s : blackholeToWire (reopened_blackhole s) = blackholeToWire s.
Proof. unfold blackholeToWire, reopened_blackhole. cbn [bh_type bh_customResponseData]. by destruct (String.eqb (bh_type s) ""), (String.eqb (bh_type s) "custom"). Qed.

Lemma dns_rule_resaved r : dnsRuleToWire (reopened_dns_rule r) = dnsRuleToWire r.
Proof.
  unfold dnsRuleToWire, reopened_dns_rule. cbn [dr_action dr_qType dr_domain dr_rCode]. rewrite split_trim_join. cbv zeta.
  set (a := if includes DNS_ACTIONS (dr_action r) then dr_action r else "direct").
  assert (A : (if includes DNS_ACTIONS a then a else "direct") = a) by (subst a; by destruct (includes DNS_ACTIONS (dr_action r)) eqn:E; [rewrite E|]).
  rewrite A. clearbody a. set (q := trim (dr_qType r)).
  assert (Q : let t := trim (if query_is_number q then string_of_num (number_of_string q) else q) in
    String.eqb t "" = String.eqb q "" /\ (if query_is_number t then VNum (number_of_string t) else VStr t) = (if query_is_number q then VNum (number_of_string q) else VStr q)).
  { destruct (query_is_number q) eqn:N.
    - destruct (query_number_back q N) as (T & Hne & N' & Hn). cbv zeta in *. rewrite T, N', Hn. split; [|done].
      rewrite (proj2 (String.eqb_neq _ _) Hne). by destruct q.
    - cbv zeta. subst q. by rewrite !trim_idem, N. }
  destruct Q as [Q1 Q2]. unfold query_is_number in Q2 at 1. rewrite Q1, Q2. fold (query_is_number q).
  replace (num_ltb (NFin 0 0) (if num_ltb (NFin 0 0) (dr_rCode r) then dr_rCode r else NFin 0 0)) with (num_ltb (NFin 0 0) (dr_rCode r))
    by (destruct (num_ltb (NFin 0 0) (dr_rCode r)) eqn:E; [by rewrite E|done]).
  by destruct (num_ltb (NFin 0 0) (dr_rCode r)).
Qed.

Lemma dns_resaved s : dnsToWire (reopened_dns s) = dnsToWire s.
Proof.
  unfold dnsToWire, reopened_dns. cbn [dn_rewriteNetwork dn_rewriteAddress dn_rewritePort dn_userLevel dn_rules].
  destruct (dn_rules s) as [|r l]; [done|]. cbn [map]. rewrite dns_rule_resaved, map_map. by rewrite (map_ext _ dnsRuleToWire dns_rule_resaved).
Qed.

Lemma loopback_resaved s : loopbackToWire (reopened_loopback s) = loopbackToWire s.
Proof. unfold loopbackToWire, reopened_loopback. cbn [lb_inboundTag lb_sniffing]. destruct (sn_enabled (lb_sniffing s)) eqn:E; [by rewrite E|done]. Qed.

(** ** The adapters *)

(** What the editor relies on for a protocol: reading what was written shows [reopened], and
    writing that gives the same settings. *)
Class FormAdapter {A} (toWire : A -> obj) (fromWire : obj -> option A) (valid : A -> Prop) (reopened : A -> A) : Prop := {
  adapter_back a : valid a -> fromWire (toWire a) = Some (reopened a);
  adapter_resaved a : valid a -> toWire (reopened a) = toWire a }.

Lemma adapted {A} {toWire : A -> obj} {fromWire valid reopened} {F : FormAdapter toWire fromWire valid reopened}
  (C : A -> OutboundFormSettings) (a : A) : valid a ->
  option_map C (fromWire (toWire a)) = Some (C (reopened a)) /\ toWire (reopened a) = toWire a.
Proof. intros V. by rewrite (adapter_back a V), (adapter_resaved a V). Qed.

Ltac adapter back resaved := split; intros a H; [by rewrite back|by rewrite ?resaved].

#[export] Instance vmess_adapter : FormAdapter vmessToWire (fun w => Some (vmessFromWire w)) (fun s => settings_ok (FVmess s)) (fun s => s).
Proof. adapter vmess_back (eq_refl tt). Qed.

#[export] Instance vless_adapter : FormAdapter vlessToWire (fun w => Some (vlessFromWire w)) (fun s => settings_ok (FVless s)) reopened_vless.
Proof. adapter vless_back vless_resaved. Qed.

#[export] Instance trojan_adapter : FormAdapter trojanToWire (fun w => Some (trojanFromWire w)) (fun s => settings_ok (FTrojan s)) (fun s => s).
Proof. adapter trojan_back (eq_refl tt). Qed.

#[export] Instance shadowsocks_adapter :
  FormAdapter shadowsocksToWire (fun w => Some (shadowsocksFromWire w)) (fun s => settings_ok (FShadowsocks s)) (fun s => s).
Proof. adapter shadowsocks_back (eq_refl tt). Qed.

#[export] Instance socks_adapter : FormAdapter simpleAuthToWire (fun w => Some (simpleAuthFromWire w 1080)) (fun s => settings_ok (FSocks s)) reopened_auth.
Proof. adapter auth_back auth_resaved. Qed.

#[export] Instance http_adapter : FormAdapter httpToWire (fun w => Some (httpFromWire w)) (fun s => settings_ok (FHttp s)) reopened_http.
Proof. adapter http_back http_resaved. Qed.

#[export] Instance wireguard_adapter : FormAdapter wireguardToWire wireguardFromWire (fun s => settings_ok (FWireguard s)) reopened_wireguard.
Proof. adapter wireguard_back wireguard_resaved. Qed.

#[export] Instance hysteria_adapter : FormAdapter hysteriaToWire (fun w => Some (hysteriaFromWire w)) (fun s => settings_ok (FHysteria s)) (fun s => s).
Proof. adapter hysteria_back (eq_refl tt). Qed.

#[export] Instance freedom_adapter strategy :
  FormAdapter freedomToWire (fun w => Some (freedomFromWire w strategy)) (fun s => settings_ok (FFreedom s)) (reopened_freedom strategy).
Proof. adapter freedom_back freedom_resaved. Qed.

#[export] Instance blackhole_adapter :
  FormAdapter blackholeToWire (fun w => Some (blackholeFromWire w)) (fun s => settings_ok (FBlackhole s)) reopened_blackhole.
Proof. adapter blackhole_back blackhole_resaved. Qed.

#[export] Instance dns_adapter : FormAdapter dnsToWire (fun w => Some (dnsFromWire w)) (fun s => settings_ok (FDns s)) reopened_dns.
Proof. adapter dns_back dns_resaved. Qed.

#[export] Instance loopback_adapter :
  FormAdapter loopbackToWire (fun w => Some (loopbackFromWire w)) (fun s => settings_ok (FLoopback s)) reopened_loopback.
Proof. adapter loopback_back loopback_resaved. Qed.

Section Zod.
(** The schema's [parse] returns a value that satisfies the schema. *)
Context (parse : AmneziaWGOutboundSettings -> option AmneziaWGOutboundSettings)
        (parse_valid : forall s, amneziawg_schema s = true -> parse s = Some s).

Instance amneziawg_adapter : FormAdapter amneziawgToWire (amneziawgFromWire parse) (fun s => settings_ok (FAmneziaWG s)) (fun s => s).
Proof. split; intros a H; [|done]. unfold amneziawgFromWire. rewrite amneziawg_back by done. by apply parse_valid, H. Qed.

(** The whole switch is an adapter; reading needs the protocol and the strategy of the outbound. *)
Lemma settings_adapter strategy s : settings_ok s ->
  settingsFromWire parse (protocol_of s) (settingsToWire s) strategy = Some (reopened_settings strategy s) /\
  settingsToWire (reopened_settings strategy s) = settingsToWire s.
Proof.
  intros H. destruct s as [s|s|s|s|s|s|s|s|s|s|s|s|s];
    [exact (adapted FVmess s H)|exact (adapted FVless s H)|exact (adapted FTrojan s H)|exact (adapted FShadowsocks s H)|exact (adapted FSocks s H)
    |exact (adapted FHttp s H)|exact (adapted FWireguard s H)|exact (adapted FAmneziaWG s H)|exact (adapted FHysteria s H)
    |exact (adapted (F := freedom_adapter strategy) FFreedom s H)|exact (adapted FBlackhole s H)|exact (adapted FDns s H)|exact (adapted FLoopback s H)].
Qed.
End Zod.
