(* ===== verification/OutboundResave.v ===== *)
(** * Saving and reopening an outbound

    Form values of the outbound editor (OutboundForm.v), saved with [formValuesToWirePayload] and
    read again with [rawOutboundToFormValues]: what the editor then shows, and that saving it once
    more writes the same payload. *)
From S2P Require Import Prelude JsString JsValue JsObject StreamWire LinkParser OutboundForm StreamForm OutboundAdapters.
From Stdlib Require Import Ascii.
Local Open Scope Z_scope.

(** ** What is written *)

Definition is_freedom (v : OutboundFormValues) : bool := match fv_settings v with FFreedom _ => true | _ => false end.

(** The strategy of a freedom outbound. *)
Definition chosen_strategy (v : OutboundFormValues) : string :=
  match fv_settings v with
  | FFreedom s => if String.eqb (fd_domainStrategy s) "" then fv_targetStrategy v else fd_domainStrategy s
  | _ => ""
  end.

(** The stream that is written before the freedom block. *)
Definition plain_stream (v : OutboundFormValues) : option obj :=
  match fv_streamSettings v with
  | Some o =>
      if includes STREAM_PROTOCOLS (protocol_of (fv_settings v)) then Some (stripUiOnlyStreamFields o)
      else if truthy (obj_get o "sockopt") then Some [("sockopt", obj_get o "sockopt")] else None
  | None => None
  end.

Definition freedom_sockopt (v : OutboundFormValues) : obj :=
  hoist_strategy (chosen_strategy v) (asObject (match plain_stream v with Some o => obj_get o "sockopt" | None => VUndef end)).

Definition written_stream (v : OutboundFormValues) : option obj :=
  if is_freedom v then (match freedom_sockopt v with [] => None | so => Some [("sockopt", VObj so)] end) else plain_stream v.

Definition written_mux (v : OutboundFormValues) : option MuxForm :=
  match fv_mux v with Some m => if mx_enabled m && muxAllowed v then Some m else None | None => None end.

Definition stream_value (o : option obj) : jsval := match o with Some o => VObj o | None => VUndef end.

Definition payload (v : OutboundFormValues) : obj := (formValuesToWirePayload v).1.

(** The keys of the payload are written in this order. *)
Definition put_opt (o : obj) (k : string) (v : option jsval) : obj := match v with Some x => obj_set o k x | None => o end.

Definition nonempty_text (s : string) : option jsval := if String.eqb s "" then None else Some (VStr s).

Lemma put_nonempty_opt o k s : put_nonempty o (k, s) = put_opt o k (nonempty_text s).
Proof. unfold put_nonempty, nonempty_text. cbn [fst snd]. by destruct (String.eqb s ""). Qed.

Definition assembled (protocol : string) (settings : obj) (tag target : string) (stream : option obj) (send : string) (mux : option MuxForm) : obj :=
  let o : obj := [("protocol", VStr protocol); ("settings", VObj settings)] in
  let o := put_opt o "tag" (nonempty_text tag) in
  let o := put_opt o "targetStrategy" (nonempty_text target) in
  let o := put_opt o "streamSettings" (option_map VObj stream) in
  let o := put_opt o "sendThrough" (nonempty_text send) in
  put_opt o "mux" (option_map muxToWire mux).

Lemma freedom_block_stream strategy o v :
  obj_has o "streamSettings" = false ->
  (freedom_block strategy (put_opt o "streamSettings" (option_map VObj v))).1 =
  put_opt o "streamSettings"
    (match hoist_strategy strategy (asObject (match v with Some s => obj_get s "sockopt" | None => VUndef end)),
           (match v with Some s => obj_del s "sockopt" | None => [] end) with
     | [], [] => None
     | [], rest => Some (VObj rest)
     | so, _ => Some (VObj (obj_set (match v with Some s => s | None => [] end) "sockopt" (VObj so)))
     end).
Proof.
  intros H. unfold freedom_block. cbn [fst].
  assert (G : asObject (obj_get (put_opt o "streamSettings" (option_map VObj v)) "streamSettings") = match v with Some s => s | None => [] end).
  { destruct v as [s|]; cbn [option_map put_opt]; [by rewrite obj_get_set_eq|by rewrite (obj_has_get o _ H)]. }
  rewrite G. set (so := hoist_strategy strategy (asObject (obj_get (match v with Some s => s | None => [] end) "sockopt"))).
  replace (hoist_strategy strategy (asObject match v with Some s => obj_get s "sockopt" | None => VUndef end)) with so by (subst so; by destruct v).
  assert (P : forall w, put_or_delete (put_opt o "streamSettings" (option_map VObj v)) "streamSettings" w =
                        put_opt o "streamSettings" (match w with [] => None | _ => Some (VObj w) end)).
  { intros w. unfold put_or_delete. destruct w; destruct v as [s|]; cbn [option_map put_opt]; rewrite ?obj_del_set, ?obj_set_set; try done; by apply obj_del_absent. }
  rewrite P. clearbody so. unfold put_or_delete. destruct so as [|e so]; [by destruct v as [s|]; [destruct (obj_del s "sockopt")|]|].
  destruct v as [[|[k x] s]|]; try done. cbn [obj_set]. by destruct (String.eqb "sockopt" k).
Qed.

Lemma get_put_opt o k v k' : obj_get (put_opt o k v) k' = if String.eqb k k' then (match v with Some x => x | None => obj_get o k' end) else obj_get o k'.
Proof. destruct v as [x|]; [apply obj_get_set_cases|by destruct (String.eqb k k')]. Qed.

Lemma streamToWire_opt v r : streamToWire v r = put_opt r "streamSettings" (option_map VObj (plain_stream v)).
Proof. unfold streamToWire, plain_stream. destruct (fv_streamSettings v); [|done]. destruct (includes _ _); [done|]. by destruct (truthy _). Qed.

(** What [formValuesToWirePayload] writes. *)
Lemma payload_assembled v :
  payload v = assembled (protocol_of (fv_settings v)) (settingsToWire (fv_settings v)) (fv_tag v) (if is_freedom v then "" else fv_targetStrategy v)
                (written_stream v) (fv_sendThrough v) (written_mux v).
Proof.
  unfold payload, formValuesToWirePayload, assembled, written_stream, written_mux. cbv zeta. rewrite streamToWire_opt, put_nonempty_opt.
  set (o := put_opt _ "tag" _).
  assert (M : forall r, match fv_mux v with Some m => if mx_enabled m && muxAllowed v then obj_set r "mux" (muxToWire m) else r | None => r end =
                        put_opt r "mux" (option_map muxToWire (match fv_mux v with Some m => if mx_enabled m && muxAllowed v then Some m else None | None => None end)))
    by (intros r; destruct (fv_mux v); [by destruct (_ && _)|done]).
  destruct (is_freedom v) eqn:F.
  - assert (E : protocol_of (fv_settings v) = "freedom") by (unfold is_freedom in F; by destruct (fv_settings v)). rewrite E. cbn [String.eqb Ascii.eqb Bool.eqb].
    unfold is_freedom in F. pose proof (eq_refl (freedom_sockopt v)) as S. unfold freedom_sockopt at 2, chosen_strategy in S.
    destruct (fv_settings v) as [| | | | | | | | |s| | |] eqn:Es; try done.
    destruct (freedom_block _ _) as [r so] eqn:B. cbn [fst]. rewrite M, put_nonempty_opt. f_equal. f_equal.
    apply (f_equal fst) in B. rewrite freedom_block_stream in B by (subst o; unfold nonempty_text; by destruct (String.eqb (fv_tag v) "")). rewrite <-S in B.
    cbn [fst] in B. subst r. cbn [put_opt nonempty_text String.eqb].
    assert (P : plain_stream v = None \/ exists x, plain_stream v = Some [("sockopt", x)]).
    { unfold plain_stream. rewrite Es. cbn [protocol_of]. destruct (fv_streamSettings v); [|by left]. change (includes STREAM_PROTOCOLS "freedom") with false.
      cbn iota. destruct (truthy _); [right; by eexists|by left]. }
    destruct P as [-> |[x ->]]; by destruct (freedom_sockopt v).
  - replace (String.eqb (protocol_of (fv_settings v)) "freedom") with false by (unfold is_freedom in F; by destruct (fv_settings v)).
    rewrite put_nonempty_opt. unfold is_freedom in F. destruct (fv_settings v) eqn:Es; try done; cbn [fst]; by rewrite M, put_nonempty_opt.
Qed.

Section Reads.
Context (protocol : string) (settings : obj) (tag target : string) (stream : option obj) (send : string) (mux : option MuxForm).

Definition payload_get := obj_get (assembled protocol settings tag target stream send mux).

Lemma assembled_reads :
  payload_get "protocol" = VStr protocol /\ payload_get "settings" = VObj settings /\ asString (payload_get "tag") "" = tag /\ asString (payload_get "sendThrough") "" = send /\
  payload_get "targetStrategy" = str_or_undef target /\ payload_get "streamSettings" = stream_value stream /\
  payload_get "mux" = match mux with Some m => muxToWire m | None => VUndef end.
Proof.
  assert (T : forall s, asString (match nonempty_text s with Some x => x | None => VUndef end) "" = s)
    by (intros s; unfold nonempty_text; by destruct (String.eqb_spec s "") as [->|]).
  unfold payload_get, assembled. cbv zeta. rewrite !get_put_opt. cbn [String.eqb Ascii.eqb Bool.eqb obj_get]. repeat split; try apply T.
  - unfold nonempty_text, str_or_undef. by destruct (String.eqb target "").
  - by destruct stream.
  - by destruct mux.
Qed.
End Reads.

(** ** What the editor shows *)

Definition shown_strategy (v : OutboundFormValues) : string := if String.eqb (chosen_strategy v) "AsIs" then "" else chosen_strategy v.

Definition default_mux : MuxForm :=
  {| mx_enabled := false; mx_concurrency := NFin 8 0; mx_xudpConcurrency := NFin 16 0; mx_xudpProxyUDP443 := "reject" |}.

Definition reopened (v : OutboundFormValues) : OutboundFormValues :=
  {| fv_settings := reopened_settings (shown_strategy v) (fv_settings v); fv_tag := fv_tag v; fv_sendThrough := fv_sendThrough v;
     fv_targetStrategy := if is_freedom v then "" else fv_targetStrategy v;
     fv_mux := Some (match written_mux v with Some m => m | None => default_mux end);
     fv_streamSettings := option_map hydrateStreamForm (written_stream v) |}.

(** ** What the form has to satisfy *)

Definition strategy_ok (s : string) : Prop := s = "" \/ includes OutboundDomainStrategies s = true.

Definition mux_ok (m : MuxForm) : Prop :=
  int_num (mx_concurrency m) = true /\ int_num (mx_xudpConcurrency m) = true /\ includes ["reject"; "allow"; "skip"] (mx_xudpProxyUDP443 m) = true.

(** Values the editor's schema accepts and a saved outbound can carry. *)
Definition form_ok (v : OutboundFormValues) : Prop :=
  settings_ok (fv_settings v) /\ strategy_ok (fv_targetStrategy v) /\
  match fv_settings v with FFreedom s => strategy_ok (fd_domainStrategy s) | _ => True end /\
  match fv_mux v with Some m => mx_enabled m = true -> mux_ok m | None => True end /\
  match fv_streamSettings v with
  | Some o => includes STREAM_PROTOCOLS (protocol_of (fv_settings v)) = true -> stream_form_ok o
  | None => True
  end.

Lemma strategy_back s : strategy_ok s -> targetStrategyFromWire (str_or_undef s) = s.
Proof.
  intros [->|H]; [done|]. assert (F : forallb (fun s => String.eqb (targetStrategyFromWire (str_or_undef s)) s) OutboundDomainStrategies = true) by reflexivity.
  rewrite forallb_forall in F. unfold includes in H. apply existsb_exists in H as (x & Hx & E). apply String.eqb_eq in E. subst x. by apply String.eqb_eq, F.
Qed.

Lemma chosen_ok v : form_ok v -> strategy_ok (chosen_strategy v).
Proof.
  intros (_ & T & D & _). unfold chosen_strategy. destruct (fv_settings v); try (by left). by destruct (String.eqb (fd_domainStrategy s) "").
Qed.

Lemma mux_back m : mux_ok m -> mx_enabled m = true -> muxFromWire (muxToWire m) = m.
Proof.
  intros (Hc & Hx & Hp) E. destruct m as [e c x p]. unfold muxFromWire, muxToWire. cbn [mx_enabled mx_concurrency mx_xudpConcurrency mx_xudpProxyUDP443] in *.
  subst e. reads. by rewrite !asNumber_int, Hp by done.
Qed.

Lemma written_mux_back v : form_ok v -> muxFromWire (match written_mux v with Some m => muxToWire m | None => VUndef end) = match written_mux v with Some m => m | None => default_mux end.
Proof.
  intros (_ & _ & _ & M & _). unfold written_mux. destruct (fv_mux v) as [m|]; [|done]. destruct (mx_enabled m) eqn:E; [|done]. cbn [andb].
  destruct (muxAllowed v); [|done]. by apply mux_back; [apply M|].
Qed.

Lemma written_nonempty v o : form_ok v -> written_stream v = Some o -> o <> [].
Proof.
  intros (_ & _ & _ & _ & S). unfold written_stream, plain_stream. destruct (is_freedom v); [by destruct (freedom_sockopt v); intros [= <-]|].
  destruct (fv_streamSettings v) as [s|]; [|done]. destruct (includes _ _); [|by destruct (truthy _); intros [= <-]].
  intros [= <-]. by apply strip_nonempty, S.
Qed.

Lemma stream_back v : form_ok v -> streamFromWire (stream_value (written_stream v)) = option_map hydrateStreamForm (written_stream v).
Proof.
  intros F. destruct (written_stream v) as [o|] eqn:E; [|done]. pose proof (written_nonempty v o F E). unfold streamFromWire. cbn [stream_value spread]. by destruct o.
Qed.

Lemma get_hoist strategy so :
  obj_get (hoist_strategy strategy so) "domainStrategy" = str_or_undef (if String.eqb strategy "AsIs" then "" else strategy).
Proof.
  unfold hoist_strategy, str_or_undef. destruct (String.eqb strategy "") eqn:E1, (String.eqb strategy "AsIs") eqn:E2; cbn [negb andb];
    rewrite ?obj_get_del_eq, ?obj_get_set_eq, ?E1; done.
Qed.

Lemma hoist_again strategy so :
  hoist_strategy (if String.eqb strategy "AsIs" then "" else strategy) (hoist_strategy strategy so) = hoist_strategy strategy so.
Proof.
  unfold hoist_strategy. destruct (String.eqb strategy "") eqn:E1, (String.eqb strategy "AsIs") eqn:E2; rewrite ?E1; cbn [negb andb String.eqb].
  1-3: apply obj_del_absent; rewrite obj_has_del; by rewrite String.eqb_refl.
  rewrite E2. cbn [negb andb]. apply obj_set_set.
Qed.

Lemma hoist_twice strategy so : hoist_strategy strategy (hoist_strategy strategy so) = hoist_strategy strategy so.
Proof.
  unfold hoist_strategy. destruct (_ && _); [apply obj_set_set|]. apply obj_del_absent. rewrite obj_has_del. by rewrite String.eqb_refl.
Qed.

Lemma freedom_settings_reads s : obj_get (freedomToWire s) "targetStrategy" = VUndef /\ obj_get (freedomToWire s) "domainStrategy" = VUndef.
Proof. by split. Qed.

(** The strategy the freedom card shows. *)
Lemma strategy_read v : form_ok v -> is_freedom v = true -> freedomDomainStrategyFromWire (payload v) = shown_strategy v.
Proof.
  intros F Fr. pose proof (chosen_ok v F) as C. rewrite payload_assembled, Fr.
  destruct (assembled_reads (protocol_of (fv_settings v)) (settingsToWire (fv_settings v)) (fv_tag v) "" (written_stream v) (fv_sendThrough v) (written_mux v))
    as (_ & E2 & _ & _ & E5 & E6 & _). unfold payload_get in *. unfold freedomDomainStrategyFromWire. rewrite E2, E5, E6.
  assert (S : exists s, fv_settings v = FFreedom s) by (unfold is_freedom in Fr; destruct (fv_settings v); try done; by eexists). destruct S as [s Es].
  rewrite Es. cbn [settingsToWire asObject]. destruct (freedom_settings_reads s) as [-> ->].
  assert (G : targetStrategyFromWire (obj_get (asObject (obj_get (asObject (stream_value (written_stream v))) "sockopt")) "domainStrategy") = shown_strategy v).
  { unfold written_stream. rewrite Fr. unfold shown_strategy.
    assert (K : strategy_ok (if String.eqb (chosen_strategy v) "AsIs" then "" else chosen_strategy v)) by (by destruct (String.eqb _ "AsIs"); [left|]).
    pose proof (strategy_back _ K) as B. rewrite <-(get_hoist (chosen_strategy v) (asObject (match plain_stream v with Some o => obj_get o "sockopt" | None => VUndef end))) in B.
    fold (freedom_sockopt v) in B. by destruct (freedom_sockopt v). }
  rewrite G. done.
Qed.

Lemma lower_protocol s : to_lower (protocol_of s) = protocol_of s.
Proof. by destruct s. Qed.

Lemma protocol_reopened strategy s : protocol_of (reopened_settings strategy s) = protocol_of s.
Proof. by destruct s. Qed.

Lemma freedom_iff v : String.eqb (protocol_of (fv_settings v)) "freedom" = is_freedom v.
Proof. unfold is_freedom. by destruct (fv_settings v). Qed.

Lemma is_freedom_reopened v : is_freedom (reopened v) = is_freedom v.
Proof. unfold is_freedom, reopened. cbn [fv_settings]. by destruct (fv_settings v). Qed.

Lemma chosen_reopened v : is_freedom v = true -> chosen_strategy (reopened v) = shown_strategy v.
Proof.
  unfold is_freedom. intros F. unfold chosen_strategy at 1, reopened. cbn [fv_settings fv_targetStrategy]. unfold is_freedom.
  destruct (fv_settings v) eqn:E; try done. cbn [reopened_settings reopened_freedom fd_domainStrategy]. by destruct (String.eqb_spec (shown_strategy v) "") as [->|].
Qed.

Lemma hydrate_sockopt x : hydrateStreamForm [("sockopt", x)] = [("sockopt", x)].
Proof. done. Qed.

(** The stream that is written is written again. *)
Lemma written_again v : form_ok v -> written_stream (reopened v) = written_stream v.
Proof.
  intros (_ & _ & _ & _ & S). unfold written_stream at 1. rewrite is_freedom_reopened.
  destruct (is_freedom v) eqn:Fr.
  - assert (P : plain_stream (reopened v) = written_stream v).
    { unfold plain_stream, reopened. cbn [fv_streamSettings fv_settings]. rewrite protocol_reopened.
      replace (includes STREAM_PROTOCOLS (protocol_of (fv_settings v))) with false by (unfold is_freedom in Fr; by destruct (fv_settings v)).
      unfold written_stream. rewrite Fr. by destruct (freedom_sockopt v). }
    assert (E : freedom_sockopt (reopened v) = freedom_sockopt v).
    { unfold freedom_sockopt at 1. rewrite P, chosen_reopened by done. unfold shown_strategy.
      transitivity (hoist_strategy (if String.eqb (chosen_strategy v) "AsIs" then "" else chosen_strategy v) (freedom_sockopt v)).
      - f_equal. unfold written_stream. rewrite Fr. by destruct (freedom_sockopt v).
      - apply hoist_again. }
    rewrite E. unfold written_stream. by rewrite Fr.
  - unfold plain_stream at 1, reopened. cbn [fv_streamSettings fv_settings]. rewrite protocol_reopened. unfold written_stream. rewrite Fr. unfold plain_stream.
    destruct (fv_streamSettings v) as [o|]; [|done]. destruct (includes STREAM_PROTOCOLS _) eqn:I; cbn [option_map].
    + f_equal. by apply stream_resaved, S.
    + destruct (truthy (obj_get o "sockopt")) eqn:T; [|done]. cbn [option_map]. rewrite hydrate_sockopt. cbn [obj_get String.eqb Ascii.eqb Bool.eqb]. by rewrite T.
Qed.

(** A multiplexer that was written is still allowed. *)
Lemma mux_again v : form_ok v -> written_mux (reopened v) = written_mux v.
Proof.
  intros F. destruct F as (_ & _ & _ & _ & S). unfold written_mux at 1, reopened at 1. cbn [fv_mux]. unfold written_mux.
  destruct (fv_mux v) as [m|]; [|done]. destruct (mx_enabled m) eqn:E; [|done]. cbn [andb]. destruct (muxAllowed v) eqn:A; [|done]. rewrite E. cbn [andb].
  replace (muxAllowed (reopened v)) with true; [done|]. symmetry. unfold muxAllowed in *. unfold reopened. cbn [fv_settings fv_streamSettings]. rewrite protocol_reopened.
  apply andb_true_iff in A as [[A1 A2]%andb_true_iff A3]. rewrite A1.
  replace (match reopened_settings (shown_strategy v) (fv_settings v) with FVless s => vl_flow s | _ => "" end) with
    (match fv_settings v with FVless s => vl_flow s | _ => "" end) by (by destruct (fv_settings v)). rewrite A2. cbn [andb].
  unfold written_stream. assert (Fr : is_freedom v = false) by (unfold is_freedom; by destruct (fv_settings v)). rewrite Fr. unfold plain_stream.
  destruct (fv_streamSettings v) as [o|]; [|done]. destruct (includes STREAM_PROTOCOLS _); cbn [option_map].
  - by rewrite reopened_network by (by apply S).
  - by destruct (truthy _).
Qed.

(** C4. A saved outbound, reopened in the editor: for values the editor accepts and a saved outbound can say, every protocol shows
    what was saved ([reopened]), and saving it without an edit writes exactly the payload that was there.  The values
    ([form_ok]): ports from 1 to 65535, integers and choices as the schema has them, and beyond the schema a WireGuard MTU
    other than 0, allowed IPs for every peer of WireGuard and AmneziaWG, a secret key that is base64 or absent, reserved
    bytes and resolvers that are lists, a DNS port, four seeds with the vision flow, packets with an enabled fragment,
    and sniffed protocols with sniffing on.  The AmneziaWG schema is assumed to return the values that satisfy it. *)
Theorem outbound_reopened parse v :
  (forall s, amneziawg_schema s = true -> parse s = Some s) -> form_ok v ->
  rawOutboundToFormValues parse (payload v) = Some (reopened v) /\ payload (reopened v) = payload v.
Proof.
  intros Hp F. split.
  - pose proof (strategy_read v F) as R. unfold rawOutboundToFormValues. rewrite payload_assembled in *.
    destruct (assembled_reads (protocol_of (fv_settings v)) (settingsToWire (fv_settings v)) (fv_tag v) (if is_freedom v then "" else fv_targetStrategy v)
      (written_stream v) (fv_sendThrough v) (written_mux v)) as (E1 & E2 & E3 & E4 & E5 & E6 & E7). unfold payload_get in *.
    rewrite E1, E2, E3, E4, E5, E6, E7. cbn [asString asObject]. rewrite lower_protocol, freedom_iff, stream_back, written_mux_back by done.
    assert (S : settingsFromWire parse (protocol_of (fv_settings v)) (settingsToWire (fv_settings v)) (freedomDomainStrategyFromWire
      (assembled (protocol_of (fv_settings v)) (settingsToWire (fv_settings v)) (fv_tag v) (if is_freedom v then "" else fv_targetStrategy v)
      (written_stream v) (fv_sendThrough v) (written_mux v))) = Some (reopened_settings (shown_strategy v) (fv_settings v))).
    { set (d := freedomDomainStrategyFromWire _) in *. clearbody d. destruct (settings_adapter parse Hp d (fv_settings v)) as [-> _]; [apply F|].
      unfold is_freedom in R. destruct (fv_settings v); try done. by rewrite R. }
    rewrite S. cbn [option_map]. unfold reopened. do 2 f_equal. destruct (is_freedom v); [done|]. apply strategy_back, F.
  - rewrite !payload_assembled, is_freedom_reopened, written_again, mux_again by done. unfold reopened. cbn [fv_settings fv_tag fv_sendThrough fv_targetStrategy].
    rewrite protocol_reopened. destruct (settings_adapter parse Hp (shown_strategy v) (fv_settings v)) as [_ ->]; [apply F|]. by destruct (is_freedom v).
Qed.

(** Building the payload of a freedom outbound writes to the [sockopt] object of the form itself;
    building it again gives the same payload all the same. *)
Theorem payload_repeatable v : payload (formValuesToWirePayload v).2 = payload v.
Proof.
  unfold formValuesToWirePayload at 1. destruct (fv_settings v) as [| | | | | | | | |s| | |] eqn:Es; try done.
  cbv zeta. destruct (freedom_block _ _) as [r so] eqn:B. cbn [snd].
  assert (So : so = freedom_sockopt v).
  { apply (f_equal snd) in B. cbn [snd freedom_block] in B. subst so. unfold freedom_sockopt, chosen_strategy. rewrite Es. cbn [protocol_of String.eqb Ascii.eqb Bool.eqb].
    f_equal. rewrite streamToWire_opt, get_put_opt, String.eqb_refl. destruct (plain_stream v); [done|]. cbn [option_map]. unfold put_nonempty. cbn [fst snd].
    by destruct (String.eqb (fv_tag v) ""). }
  unfold write_back. destruct (fv_streamSettings v) as [o|] eqn:Eo; [|done]. destruct (obj_get o "sockopt") as [| | | | | |x] eqn:Ex; try done.
  rewrite !payload_assembled. cbn [fv_settings fv_tag fv_sendThrough fv_targetStrategy].
  set (w := {| fv_settings := fv_settings v; fv_tag := fv_tag v; fv_sendThrough := fv_sendThrough v; fv_targetStrategy := fv_targetStrategy v;
               fv_mux := fv_mux v; fv_streamSettings := Some (obj_set o "sockopt" (VObj so)) |}).
  assert (Fr : is_freedom w = is_freedom v) by done. assert (M : written_mux w = written_mux v).
  { unfold written_mux, muxAllowed. cbn [fv_mux fv_settings w]. rewrite Es. cbn [protocol_of]. by destruct (fv_mux v). }
  assert (W : written_stream w = written_stream v).
  { assert (C : chosen_strategy w = chosen_strategy v) by done.
    assert (P : plain_stream w = Some [("sockopt", VObj so)]).
    { unfold plain_stream, w. cbn [fv_streamSettings fv_settings]. rewrite Es, obj_get_set_eq. done. }
    assert (E : freedom_sockopt w = freedom_sockopt v).
    { unfold freedom_sockopt at 1. rewrite C, P, So. cbn [obj_get String.eqb Ascii.eqb Bool.eqb asObject]. apply hoist_twice. }
    unfold written_stream. rewrite Fr, E. unfold is_freedom. by rewrite Es. }
  by rewrite Fr, M, W.
Qed.

(** ** Examples *)

Definition zod_parse (s : AmneziaWGOutboundSettings) : option AmneziaWGOutboundSettings := if amneziawg_schema s then Some s else None.

(** A VLESS outbound over XHTTP with a reverse tunnel and a multiplexed transport. *)
Definition sample_form : OutboundFormValues :=
  {| fv_settings := FVless
       {| vl_address := "vpn.example.org"; vl_port := 443; vl_id := "5783a3e7-e373"; vl_flow := "xtls-rprx-vision"; vl_encryption := "";
          vl_reverseTag := "rev"; vl_reverseSniffing := SNIFFING_DEFAULT; vl_testpre := NFin 2 0; vl_testseed := [NFin 1 0; NFin 2 0; NFin 3 0; NFin 4 0] |};
     fv_tag := "proxy"; fv_sendThrough := ""; fv_targetStrategy := "UseIPv4"; fv_mux := None;
     fv_streamSettings := Some
       [("network", VStr "xhttp"); ("security", VStr "none");
        ("xhttpSettings", VObj [("path", VStr "/up"); ("host", VStr ""); ("mode", VStr "auto"); ("enableXmux", VBool true);
           ("xmux", VObj (assign [("maxConnections", VInt 3)] XMUX_DEFAULTS))])] |}.

Lemma sample_form_ok : form_ok sample_form.
Proof.
  split; [|split; [by right|split; [done|split; [done|]]]].
  - cbn [settings_ok fv_settings sample_form vl_port vl_reverseTag vl_reverseSniffing vl_testpre]. unfold port_ok. split; [cbn; lia|]. by split.
  - intros _. split; [|split; [done|split; [by exists "xhttp"|]]].
    + repeat split; try exact I; unfold obj_wf; by apply (bool_decide_unpack _).
    + intros _. right. exists [("maxConnections", VInt 3)]. split; [unfold obj_wf; by apply (bool_decide_unpack _)|done].
Qed.

Lemma outbound_reopened_witness :
  rawOutboundToFormValues zod_parse (payload sample_form) = Some (reopened sample_form) /\ payload (reopened sample_form) = payload sample_form /\
  get (get (get (VObj (payload sample_form)) "streamSettings") "xhttpSettings") "xmux" =
    VObj [("maxConnections", VInt 3); ("cMaxReuseTimes", VInt 0); ("hMaxRequestTimes", VStr "600-900"); ("hMaxReusableSecs", VStr "1800-3000");
          ("hKeepAlivePeriod", VInt 0)] /\
  get (get (VObj (payload sample_form)) "settings") "reverse" = VObj [("tag", VStr "rev"); ("sniffing", VObj [])].
Proof.
  destruct (outbound_reopened zod_parse sample_form) as [H1 H2].
  - intros s H. unfold zod_parse. by rewrite H.
  - exact sample_form_ok.
  - split; [exact H1|]. split; [exact H2|]. split; vm_compute; reflexivity.
Defined.

(** A legacy strategy of a freedom outbound moves into [sockopt] and is removed from the root. *)
Example freedom_hoisted :
  option_map payload (rawOutboundToFormValues zod_parse
    [("protocol", VStr "Freedom"); ("targetStrategy", VStr "useipv4"); ("settings", VObj [("domainStrategy", VStr "UseIPv6")]);
     ("streamSettings", VObj [("sockopt", VObj [("mark", VInt 5); ("domainStrategy", VStr "AsIs")])])]) =
  Some [("protocol", VStr "freedom");
        ("settings", VObj [("redirect", VUndef); ("userLevel", VUndef); ("proxyProtocol", VUndef); ("fragment", VUndef); ("noises", VUndef); ("finalRules", VUndef)]);
        ("streamSettings", VObj [("sockopt", VObj [("mark", VInt 5); ("domainStrategy", VStr "UseIPv4")])])].
Proof. vm_compute. reflexivity. Qed.

(** An MTU of 0 in the WireGuard form is not written, and the editor then shows 1420. *)
Example wireguard_mtu_zero :
  let v := {| fv_settings := FWireguard {| wg_mtu := NFin 0 0; wg_secretKey := ""; wg_pubKey := ""; wg_address := ""; wg_domainStrategy := "";
                wg_reserved := ""; wg_remoteDNS := ""; wg_peers := []; wg_noKernelTun := false |};
              fv_tag := ""; fv_sendThrough := ""; fv_targetStrategy := ""; fv_mux := None; fv_streamSettings := None |} in
  match rawOutboundToFormValues zod_parse (payload v) with
  | Some {| fv_settings := FWireguard s |} => wg_mtu s = NFin 1420 0
  | _ => False
  end.
Proof. reflexivity. Qed.

(** The form's own [sockopt] is changed by building the payload. *)
Example sockopt_changed :
  let v so := {| fv_settings := FFreedom {| fd_domainStrategy := "UseIPv4"; fd_redirect := ""; fd_userLevel := NFin 0 0; fd_proxyProtocol := 0;
                   fd_fragment := None; fd_noises := []; fd_finalRules := [] |};
                 fv_tag := ""; fv_sendThrough := ""; fv_targetStrategy := ""; fv_mux := None; fv_streamSettings := Some [("sockopt", VObj so)] |} in
  (formValuesToWirePayload (v [("mark", VInt 5)])).2 = v [("mark", VInt 5); ("domainStrategy", VStr "UseIPv4")].
Proof. reflexivity. Qed.
