(* ===== verification/OutboundDefaults.v ===== *)
(** * Defaults of new outbounds

    Models src/frontend/src/lib/xray/outbound-defaults.ts: the wire settings a new outbound of each
    protocol starts from, and [buildAddModeValues] of
    src/frontend/src/pages/xray/outbounds/outbound-form-helpers.ts. *)
From S2P Require Import Prelude JsString JsValue Field25519 Curve25519 Base64 OutboundForm OutboundResave.
Local Open Scope Z_scope.

Definition createDefaultFreedomOutboundSettings : obj := [].
Definition createDefaultBlackholeOutboundSettings : obj := [].
Definition createDefaultLoopbackOutboundSettings : obj := [("inboundTag", VStr "")].

Definition createDefaultDNSOutboundSettings : obj :=
  [("rewriteNetwork", VStr ""); ("rewriteAddress", VStr ""); ("rewritePort", VInt 53); ("userLevel", VInt 0); ("rules", VArr [])].

Definition createDefaultVmessOutboundSettings : obj :=
  [("vnext", VArr [VObj [("address", VStr ""); ("port", VInt 443); ("users", VArr [VObj [("id", VStr ""); ("security", VStr "auto")]])]])].

Definition createDefaultVlessOutboundSettings : obj :=
  [("address", VStr ""); ("port", VInt 443); ("id", VStr ""); ("flow", VStr ""); ("encryption", VStr "none")].

Definition createDefaultTrojanOutboundSettings : obj :=
  [("servers", VArr [VObj [("address", VStr ""); ("port", VInt 443); ("password", VStr "")]])].

Definition createDefaultShadowsocksOutboundSettings : obj :=
  [("servers", VArr [VObj [("address", VStr ""); ("port", VInt 443); ("password", VStr ""); ("method", VStr "2022-blake3-aes-128-gcm")]])].

Definition createDefaultSocksOutboundSettings : obj := [("servers", VArr [VObj [("address", VStr ""); ("port", VInt 1080); ("users", VArr [])]])].
Definition createDefaultHttpOutboundSettings : obj := [("servers", VArr [VObj [("address", VStr ""); ("port", VInt 8080); ("users", VArr [])]])].

(** [random]: the 32 bytes of the key generator. *)
Definition createDefaultWireguardOutboundSettings (seed : option string) (random : list Z) : obj :=
  let secretKey := match seed with Some k => k | None => keyToBase64 (generatePrivateKey random) end in
  [("mtu", VInt 1420); ("secretKey", VStr secretKey); ("address", VArr []);
   ("peers", VArr [VObj [("publicKey", VStr ""); ("allowedIPs", strs ["0.0.0.0/0"; "::/0"]); ("endpoint", VStr "")]]); ("noKernelTun", VBool false)].

Definition createDefaultHysteriaOutboundSettings : obj := [("address", VStr ""); ("port", VInt 443); ("version", VInt 2)].

Definition createDefaultOutboundSettings (protocol : string) (random : list Z) : option obj :=
  if String.eqb protocol "freedom" then Some createDefaultFreedomOutboundSettings
  else if String.eqb protocol "blackhole" then Some createDefaultBlackholeOutboundSettings
  else if String.eqb protocol "dns" then Some createDefaultDNSOutboundSettings
  else if String.eqb protocol "vmess" then Some createDefaultVmessOutboundSettings
  else if String.eqb protocol "vless" then Some createDefaultVlessOutboundSettings
  else if String.eqb protocol "trojan" then Some createDefaultTrojanOutboundSettings
  else if String.eqb protocol "shadowsocks" then Some createDefaultShadowsocksOutboundSettings
  else if String.eqb protocol "socks" then Some createDefaultSocksOutboundSettings
  else if String.eqb protocol "http" then Some createDefaultHttpOutboundSettings
  else if String.eqb protocol "wireguard" then Some (createDefaultWireguardOutboundSettings None random)
  else if String.eqb protocol "hysteria" then Some createDefaultHysteriaOutboundSettings
  else if String.eqb protocol "loopback" then Some createDefaultLoopbackOutboundSettings
  else None.

(** [buildAddModeValues]: the form of a new outbound. *)
Definition buildAddModeValues (parse : AmneziaWGOutboundSettings -> option AmneziaWGOutboundSettings) : option OutboundFormValues :=
  rawOutboundToFormValues parse [].

(** ** The factories and the editor agree *)

Definition FIXED_PROTOCOLS : list string :=
  ["freedom"; "blackhole"; "dns"; "vmess"; "vless"; "trojan"; "shadowsocks"; "socks"; "http"; "hysteria"; "loopback"].

Definition opened (parse : AmneziaWGOutboundSettings -> option AmneziaWGOutboundSettings) (protocol : string) (settings : obj) : option OutboundFormValues :=
  rawOutboundToFormValues parse [("protocol", VStr protocol); ("settings", VObj settings)].

Lemma createDefault_known protocol random : (exists s, createDefaultOutboundSettings protocol random = Some s) <-> In protocol ("wireguard" :: FIXED_PROTOCOLS).
Proof.
  split.
  - intros [s E]. unfold createDefaultOutboundSettings in E. repeat case_hyp E; try discriminate; match goal with H : String.eqb _ _ = true |- _ => apply String.eqb_eq in H as -> end; vm_compute; tauto.
  - intros H. repeat (destruct H as [<-|H]; [by eexists|]). destruct H.
Qed.

Lemma wireguard_opened parse k random kp : k <> "" -> generateKeypair k [] = Some kp ->
  exists v w, opened parse "wireguard" (createDefaultWireguardOutboundSettings (Some k) random) = Some v /\ fv_settings v = FWireguard w /\
    wg_secretKey w = k /\ wg_pubKey w = publicKey kp.
Proof.
  intros N E. unfold opened, rawOutboundToFormValues. set (s := createDefaultWireguardOutboundSettings (Some k) random).
  change (settingsFromWire _ _ _ _) with (option_map FWireguard (wireguardFromWire s)). unfold wireguardFromWire.
  change (asString (obj_get s "secretKey") "") with k. rewrite (proj2 (String.eqb_neq k "") N), E. cbn [option_map].
  do 2 eexists. split; [reflexivity|]. by cbn [fv_settings wg_secretKey wg_pubKey].
Qed.

(** The settings a factory gives for a protocol open as the form that the editor shows for an outbound
    of that protocol without settings: the two sets of defaults are one.  For WireGuard, which has
    a generated key, the form shows that key with the public key derived from it. *)
Theorem defaults_opened parse protocol settings random : Curve25519.bytes 32 random -> createDefaultOutboundSettings protocol random = Some settings ->
  (protocol <> "wireguard" -> opened parse protocol settings = opened parse protocol []) /\
  (protocol = "wireguard" -> exists v w kp, opened parse protocol settings = Some v /\ fv_settings v = FWireguard w /\
      generateKeypair "" random = Some kp /\ wg_secretKey w = privateKey kp /\ wg_pubKey w = publicKey kp).
Proof.
  intros R E. split.
  - intros N. assert (K : In protocol ("wireguard" :: FIXED_PROTOCOLS)) by (apply (createDefault_known protocol random); eauto).
    destruct K as [<-|K]; [done|]. repeat (destruct K as [<-|K]; [injection E as <-; reflexivity|]). destruct K.
  - intros ->. injection E as <-. destruct (generateKeypair_consistent random [] R) as [E1 E2]. cbn zeta in E1, E2.
    assert (K : keyToBase64 (generatePrivateKey random) = btoa (clamp random)) by (apply keyToBase64_btoa; apply clamp_spec, R).
    set (kp := {| publicKey := _; privateKey := _ |}) in E1, E2. change (privateKey kp) with (btoa (clamp random)) in E2.
    assert (N : btoa (clamp random) <> "") by (intros C; pose proof (btoa_nonempty (clamp random) (proj1 (clamp_spec random R))) as B; by rewrite C in B).
    destruct (wireguard_opened parse (btoa (clamp random)) random kp N E2) as (v & w & H1 & H2 & H3 & H4).
    exists v, w, kp. refine (conj _ (conj H2 (conj E1 (conj H3 H4)))). rewrite <-H1. unfold createDefaultWireguardOutboundSettings. rewrite K. reflexivity.
Qed.

Lemma defaults_opened_witness : opened zod_parse "trojan" createDefaultTrojanOutboundSettings = opened zod_parse "trojan" [].
Proof.
  apply (defaults_opened zod_parse "trojan" createDefaultTrojanOutboundSettings (repeat 0 32)); [split; [reflexivity|repeat constructor; discriminate]|reflexivity|discriminate].
Defined.
