(* ===== verification/Headers.v ===== *)
(** * Header tables

    Models src/frontend/src/lib/xray/headers.ts: the conversions between the panel's flat list
    of header entries and the header maps of an Xray configuration, and the case-insensitive
    lookup.  [name in out] also finds the names every object inherits; they are listed here.
    Keys that look like array indices are taken to keep their insertion order. *)
From S2P Require Import Prelude JsString JsValue ObjectUtil.
From Stdlib Require Import Ascii.

Record HeaderEntry := { name : string; value : string }.

Definition entries_of (key : string) (values : jsval) : list HeaderEntry :=
  match values with
  | VStr s => [{| name := key; value := s |}]
  | VArr l => omap (fun v => match v with VStr s => Some {| name := key; value := s |} | _ => None end) l
  | _ => []
  end.

Definition toHeaders (v2Headers : jsval) : list HeaderEntry :=
  flat_map (fun kv => entries_of kv.1 kv.2) (entries v2Headers).

Fixpoint find_header (lower : string) (headers : obj) : string :=
  match headers with
  | [] => ""
  | (key, v) :: rest =>
      if negb (String.eqb (to_lower key) lower) then find_header lower rest
      else match v with
           | VStr s => s
           | VArr l => match l with x :: _ => str_or_empty x | [] => "" end
           | _ => find_header lower rest
           end
  end.

Definition getHeaderValue (headers : jsval) (name : string) : string := find_header (to_lower name) (entries headers).

(** The property names a plain object inherits. *)
Definition inherited_names : list string :=
  ["constructor"; "__defineGetter__"; "__defineSetter__"; "hasOwnProperty"; "__lookupGetter__"; "__lookupSetter__";
   "isPrototypeOf"; "propertyIsEnumerable"; "toString"; "valueOf"; "__proto__"; "toLocaleString"].

Definition inherited (n : string) : bool := existsb (String.eqb n) inherited_names.

(** [out[name] = v]: a primitive assigned to [__proto__] is ignored. *)
Definition store (out : obj) (n : string) (v : jsval) : obj :=
  if String.eqb n "__proto__" then out else obj_set out n v.

Definition add_header (arr : bool) (out : obj) (h : HeaderEntry) : obj :=
  if String.eqb (name h) "" || String.eqb (value h) "" then out
  else if negb (obj_has out (name h) || inherited (name h)) then
    obj_set out (name h) (if arr then VArr [VStr (value h)] else VStr (value h))
  else
    match (if arr then obj_get out (name h) else VUndef) with
    | VArr existing => obj_set out (name h) (VArr (existing ++ [VStr (value h)]))
    | _ => store out (name h) (VStr (value h))
    end.

Definition toV2Headers (headers : list HeaderEntry) (arr : bool) : obj := fold_left (add_header arr) headers [].

(** ** Grouping *)

(** The values of one name in a list of entries. *)
Definition values_of (n : string) (hs : list HeaderEntry) : list string :=
  map value (List.filter (fun h => String.eqb (name h) n) hs).

Definition usable (h : HeaderEntry) : bool := negb (String.eqb (name h) "") && negb (String.eqb (value h) "").

(** The map that holds, under every name of [hs], the array of its values. *)
Definition groups (hs : list HeaderEntry) (out : obj) : Prop :=
  obj_wf out /\
  forall n, obj_get out n = match values_of n hs with [] => VUndef | l => VArr (map VStr l) end /\
            (obj_has out n = true <-> values_of n hs <> []).

Lemma values_of_app n hs h : values_of n (hs ++ [h]) = values_of n hs ++ (if String.eqb (name h) n then [value h] else []).
Proof. unfold values_of. rewrite List.filter_app, map_app. cbn. by destruct (String.eqb (name h) n). Qed.

Lemma add_header_groups hs out h : groups hs out -> usable h = true -> inherited (name h) = false ->
  groups (hs ++ [h]) (add_header true out h).
Proof.
  intros [Wf G] Hu Hi. unfold usable in Hu. apply andb_true_iff in Hu as [U1%negb_true_iff U2%negb_true_iff].
  unfold add_header. rewrite U1, U2, Hi, orb_false_r. cbn [orb].
  assert (Upd : forall l, l = values_of (name h) hs ->
    groups (hs ++ [h]) (obj_set out (name h) (VArr (map VStr (l ++ [value h]))))).
  { intros l ->. split; [by apply obj_wf_set|]. intros n. rewrite values_of_app, obj_has_set.
    destruct (String.eqb_spec (name h) n) as [<-|Hn].
    - rewrite obj_get_set_eq, String.eqb_refl. destruct (values_of (name h) hs); cbn; split; done.
    - rewrite obj_get_set_ne, app_nil_r by done. rewrite (proj2 (String.eqb_neq n (name h))) by congruence. apply G. }
  destruct (G (name h)) as [Gv Gh]. destruct (values_of (name h) hs) as [|x l] eqn:E.
  - destruct (obj_has out (name h)); [destruct (proj1 Gh eq_refl); done|]. cbn [negb].
    by apply (Upd []).
  - rewrite (proj2 Gh) by done. cbn [negb]. rewrite Gv.
    replace (map VStr (x :: l) ++ [VStr (value h)]) with (map VStr ((x :: l) ++ [value h])) by by rewrite map_app.
    by apply Upd.
Qed.

Lemma toV2Headers_groups hs : Forall (fun h => inherited (name h) = false) hs ->
  groups (List.filter usable hs) (toV2Headers hs true).
Proof.
  unfold toV2Headers. intros H. induction hs as [|h hs IH] using rev_ind.
  - split; [constructor|]. intros n. cbn. split; done.
  - apply List.Forall_app in H as [H1 H2]. apply List.Forall_inv in H2. specialize (IH H1).
    rewrite fold_left_app, List.filter_app. cbn [fold_left List.filter]. destruct (usable h) eqn:E.
    + by apply add_header_groups.
    + rewrite app_nil_r. unfold usable in E. unfold add_header.
      destruct (String.eqb (name h) ""), (String.eqb (value h) ""); try done.
Qed.

Lemma values_flat n (o : obj) : obj_wf o ->
  values_of n (flat_map (fun kv => entries_of kv.1 kv.2) o) = map value (entries_of n (obj_get o n)).
Proof.
  assert (E : forall k v, values_of n (entries_of k v) = if String.eqb k n then map value (entries_of k v) else []).
  { intros k v. unfold values_of. destruct v as [| | | |s|l|]; cbn; try by destruct (String.eqb k n).
    induction l as [|x l IH]; cbn; [by destruct (String.eqb k n)|]. destruct x; cbn; try apply IH.
    destruct (String.eqb k n); cbn; rewrite IH; done. }
  assert (App : forall a b, values_of n (a ++ b) = values_of n a ++ values_of n b).
  { intros a b. unfold values_of. by rewrite List.filter_app, map_app. }
  induction o as [|[k v] o IH]; intros Wf; [done|]. cbn [flat_map fst snd obj_get]. rewrite App, E.
  inversion Wf as [|? ? Hk Wf']; subst. rewrite (IH Wf'). destruct (String.eqb_spec n k) as [->|Hn].
  - rewrite String.eqb_refl. replace (obj_get o k) with VUndef; [by rewrite app_nil_r|]. symmetry. apply obj_has_get.
    apply not_true_iff_false. rewrite obj_has_keys. by rewrite <- list_elem_of_In.
  - by rewrite (proj2 (String.eqb_neq k n)) by congruence.
Qed.

(** Header table round trip: collapsing a table into a header map and expanding it again
    keeps, for every header name, exactly its non-empty values in their order (entries with an
    empty name or value are the only ones dropped). *)
Theorem toHeaders_toV2Headers hs n :
  Forall (fun h => inherited (name h) = false) hs ->
  values_of n (toHeaders (VObj (toV2Headers hs true))) = values_of n (List.filter usable hs).
Proof.
  intros H. destruct (toV2Headers_groups hs H) as [Wf G]. unfold toHeaders. cbn [entries]. rewrite values_flat by done.
  rewrite (proj1 (G n)). destruct (values_of n (List.filter usable hs)) as [|x l]; [done|]. cbn. f_equal.
  induction l as [|y l IH]; cbn; [done|]. by rewrite IH.
Qed.

Definition sample_headers : list HeaderEntry :=
  [{| name := "Host"; value := "a.example" |}; {| name := "Accept"; value := "text/html" |}; {| name := "Host"; value := "b.example" |};
   {| name := "Accept"; value := "" |}].

Lemma toHeaders_toV2Headers_witness :
  toV2Headers sample_headers true = [("Host", VArr [VStr "a.example"; VStr "b.example"]); ("Accept", VArr [VStr "text/html"])] /\
  values_of "Host" (toHeaders (VObj (toV2Headers sample_headers true))) = ["a.example"; "b.example"].
Proof.
  split; [reflexivity|]. exact (toHeaders_toV2Headers sample_headers "Host" ltac:(repeat constructor)).
Defined.

(** A header whose name every object inherits is stored as a string, not as a list. *)
Example inherited_header : toV2Headers [{| name := "constructor"; value := "x" |}] true = [("constructor", VStr "x")].
Proof. reflexivity. Qed.
