(* ===== verification/ProtocolCapabilities.v ===== *)
(** * What a protocol allows

    Models src/frontend/src/lib/xray/protocol-capabilities.ts.  The slices of form values the
    predicates take are one record whose optional fields are options. *)
From S2P Require Import Prelude JsString.

Definition TLS_ELIGIBLE_PROTOCOLS : list string := ["vmess"; "vless"; "trojan"; "shadowsocks"].
Definition TLS_NETWORKS : list string := ["tcp"; "ws"; "http"; "grpc"; "httpupgrade"; "xhttp"].
Definition REALITY_ELIGIBLE_PROTOCOLS : list string := ["vless"; "trojan"].
Definition REALITY_NETWORKS : list string := ["tcp"; "http"; "grpc"; "xhttp"].
Definition STREAM_PROTOCOLS : list string := ["vmess"; "vless"; "trojan"; "shadowsocks"; "hysteria"; "wireguard"; "tunnel"].
Definition VISION_FLOW : string := "xtls-rprx-vision".
Definition SS_2022_PREFIX : string := "2022".
Definition SS_BLAKE3_CHACHA20 : string := "2022-blake3-chacha20-poly1305".

Record Capability := {
  c_protocol : string;
  c_encryption : option string;
  c_decryption : option string;
  c_flows : option (list (option string));   (* settings.clients, by their flow *)
  c_ssMethod : option string;                (* settings.method *)
  c_network : option string;
  c_security : option string
}.

Definition includes (l : list string) (s : string) : bool := existsb (String.eqb s) l.

Definition is_some_str (o : option string) (s : string) : bool := match o with Some t => String.eqb t s | None => false end.

Definition canEnableTls (v : Capability) : bool :=
  if String.eqb (c_protocol v) "hysteria" then true
  else if negb (includes TLS_ELIGIBLE_PROTOCOLS (c_protocol v)) then false
  else includes TLS_NETWORKS (default "" (c_network v)).

Definition canEnableReality (v : Capability) : bool :=
  if negb (includes REALITY_ELIGIBLE_PROTOCOLS (c_protocol v)) then false
  else includes REALITY_NETWORKS (default "" (c_network v)).

Definition is_set (o : option string) : bool :=
  match o with Some s => negb (String.eqb s "") && negb (String.eqb s "none") | None => false end.

Definition hasVlessEncryption (v : Capability) : bool := is_set (c_encryption v) || is_set (c_decryption v).

Definition canEnableTlsFlow (v : Capability) : bool :=
  if negb (String.eqb (c_protocol v) "vless") then false
  else if is_some_str (c_network v) "tcp" && (is_some_str (c_security v) "tls" || is_some_str (c_security v) "reality") then true
  else if is_some_str (c_network v) "xhttp" && hasVlessEncryption v then true
  else false.

Definition canEnableStream (protocol : string) : bool := includes STREAM_PROTOCOLS protocol.

Definition canEnableSniffing (protocol : string) : bool :=
  negb (String.eqb protocol "mtproto") && negb (String.eqb protocol "amneziawg") && negb (String.eqb protocol "tuic").

Definition canEnableVisionSeed (v : Capability) : bool :=
  if negb (canEnableTlsFlow v) then false
  else match c_flows v with
       | Some clients => existsb (fun f => is_some_str f VISION_FLOW) clients
       | None => false
       end.

Definition ss_method (v : Capability) : string :=
  if String.eqb (c_protocol v) "shadowsocks" then default "" (c_ssMethod v) else "".

Definition isSSMultiUser (v : Capability) : bool := negb (String.eqb (ss_method v) SS_BLAKE3_CHACHA20).

Definition isSS2022 (v : Capability) : bool := String.eqb (str_take 4 (ss_method v)) SS_2022_PREFIX.

(** ** How the predicates relate *)

Lemma includes_iff l s : includes l s = true <-> In s l.
Proof.
  unfold includes. rewrite existsb_exists. split; [by intros (x & Hx & ->%String.eqb_eq)|].
  intros H. exists s. by rewrite String.eqb_refl.
Qed.

Lemma is_some_str_iff o s : is_some_str o s = true <-> o = Some s.
Proof. destruct o as [t|]; cbn; [rewrite String.eqb_eq|]; split; congruence. Qed.

(** Wherever REALITY is offered, plain TLS is offered too, over a stream protocol. *)
Lemma reality_implies_tls v : canEnableReality v = true -> canEnableTls v = true /\ canEnableStream (c_protocol v) = true.
Proof.
  unfold canEnableReality, canEnableTls, canEnableStream. destruct (includes REALITY_ELIGIBLE_PROTOCOLS _) eqn:E; [|done].
  cbn [negb]. rewrite includes_iff in E. intros N%includes_iff.
  assert (N' : includes TLS_NETWORKS (default "" (c_network v)) = true) by (apply includes_iff; cbn in *; tauto).
  rewrite N'. by destruct E as [<-|[<-|[]]].
Qed.

(** The Vision flow is offered exactly for VLESS over TCP with TLS or REALITY, or over XHTTP
    with VLESS encryption; a seed needs a client that uses it. *)
Lemma tls_flow_iff v :
  canEnableTlsFlow v = true <->
  c_protocol v = "vless" /\
  ((c_network v = Some "tcp" /\ (c_security v = Some "tls" \/ c_security v = Some "reality")) \/
   (c_network v = Some "xhttp" /\ hasVlessEncryption v = true)).
Proof.
  unfold canEnableTlsFlow. rewrite <- String.eqb_eq. destruct (String.eqb (c_protocol v) "vless"); cbn [negb]; [|split; [done|by intros [? _]]].
  rewrite <- !is_some_str_iff. destruct (is_some_str (c_network v) "tcp"), (is_some_str (c_security v) "tls"),
    (is_some_str (c_security v) "reality"), (is_some_str (c_network v) "xhttp"), (hasVlessEncryption v); cbn; intuition discriminate.
Qed.
