(* ===== verification/OutboundTab.v ===== *)
(** * Helpers of the outbounds tab

    Models src/frontend/src/pages/xray/outbounds/outbounds-tab-helpers.ts (but for the country names of Intl) and
    outbound-form-helpers.ts: what a row shows, which rows can be tested and how, and what happens to a
    stream when its network is changed.  Values in templates are texts and integers as in the source. *)
From S2P Require Import Prelude JsString JsValue XraySettings OutboundTests ProtocolCapabilities.
From stdpp Require Import gmap.
Local Open Scope Z_scope.

(** ** outbounds-tab-helpers.ts *)

(** [`${v}`] *)
Definition show (v : jsval) : string :=
  match v with
  | VStr s => s | VNum n => string_of_num n | VBool true => "true" | VBool false => "false" | VNull => "null" | _ => "undefined"
  end.

(** [`${s.address}:${s.port}`] for each server; without servers, none *)
Definition servers_of (v : jsval) : list string := map (fun s => show (get s "address") +:+ ":" +:+ show (get s "port")) (as_list v).

(** [addr || port ? [`${addr || ''}:${port || ''}`] : []] *)
Definition endpoint (addr port : jsval) : list string :=
  if truthy addr || truthy port then [show (or_falsy addr (VStr "")) +:+ ":" +:+ show (or_falsy port (VStr ""))] else [].

Definition outboundAddresses (o : jsval) : list string :=
  let settings := get o "settings" in
  if isOutboundProtocol o "vmess" then servers_of (get settings "vnext")
  else if isOutboundProtocol o "vless" || isOutboundProtocol o "hysteria" then
    let vnext := nth 0 (as_list (get settings "vnext")) VUndef in
    endpoint (or_falsy (get vnext "address") (get settings "address")) (or_falsy (get vnext "port") (get settings "port"))
  else if isOutboundProtocol o "http" || isOutboundProtocol o "socks" || isOutboundProtocol o "shadowsocks" || isOutboundProtocol o "trojan"
  then servers_of (get settings "servers")
  else if isOutboundProtocol o "dns" then
    endpoint (or_falsy (get settings "rewriteAddress") (get settings "address")) (or_falsy (get settings "rewritePort") (get settings "port"))
  else if isOutboundProtocol o "wireguard" || isOutboundProtocol o "amneziawg" then
    List.filter (fun s => negb (String.eqb s "")) (map (fun p => show (or_falsy (get p "endpoint") (VStr ""))) (as_list (get settings "peers")))
  else [].

Definition isUntestable (o : jsval) : bool :=
  if negb (truthy o) then true
  else if isOutboundProtocol o "blackhole" || isOutboundProtocol o "loopback" || is_str (get o "tag") "blocked" then true
  else isOutboundProtocol o "freedom" || isOutboundProtocol o "dns".

Definition showSecurity (security : string) : bool := String.eqb security "tls" || String.eqb security "reality".

Definition effectiveTestMode (o : jsval) (mode : string) : string := if String.eqb mode "tcp" && isUdpOutbound o then "http" else mode.

(** [trafficFor]: rows are tag, up, down. *)
Definition trafficFor (outboundsTraffic : list (string * Z * Z)) (o : jsval) : Z * Z :=
  match List.find (fun x => is_str (get o "tag") x.1.1) outboundsTraffic with Some x => (x.1.2, x.2) | None => (0, 0) end.

Definition isTesting (states : gmap test_key test_state) (idx : test_key) : bool := match states !! idx with Some s => testing s | None => false end.

(** ** outbound-form-helpers.ts *)

Definition FORM_MUX_PROTOCOLS : list string := ["vmess"; "vless"; "trojan"; "shadowsocks"; "http"; "socks"].

Definition isMuxAllowed (protocol flow network : string) : bool :=
  if negb (includes FORM_MUX_PROTOCOLS protocol) then false
  else if String.eqb protocol "vless" && negb (String.eqb flow "") then false
  else if String.eqb network "xhttp" then false
  else true.

Definition tcp_slice : obj := [("network", VStr "tcp"); ("tcpSettings", VObj [("header", VObj [("type", VStr "none")])])].

Definition newStreamSlice (network : string) : obj :=
  if String.eqb network "tcp" then tcp_slice
  else if String.eqb network "kcp" then
    [("network", VStr "kcp"); ("kcpSettings", VObj [("mtu", VInt 1350); ("tti", VInt 20); ("uplinkCapacity", VInt 5); ("downlinkCapacity", VInt 20);
                                                    ("cwndMultiplier", VInt 1); ("maxSendingWindow", VInt 2097152)])]
  else if String.eqb network "ws" then
    [("network", VStr "ws"); ("wsSettings", VObj [("path", VStr "/"); ("host", VStr ""); ("headers", VObj []); ("heartbeatPeriod", VInt 0)])]
  else if String.eqb network "grpc" then
    [("network", VStr "grpc"); ("grpcSettings", VObj [("serviceName", VStr ""); ("authority", VStr ""); ("multiMode", VBool false)])]
  else if String.eqb network "httpupgrade" then
    [("network", VStr "httpupgrade"); ("httpupgradeSettings", VObj [("path", VStr "/"); ("host", VStr ""); ("headers", VObj [])])]
  else if String.eqb network "xhttp" then
    [("network", VStr "xhttp"); ("xhttpSettings", VObj [("path", VStr "/"); ("host", VStr ""); ("mode", VStr ""); ("headers", VArr []); ("xPaddingBytes", VStr "100-1000")])]
  else if String.eqb network "hysteria" then
    [("network", VStr "hysteria"); ("hysteriaSettings", VObj [("version", VInt 2); ("auth", VStr ""); ("udpIdleTimeout", VInt 60)])]
  else tcp_slice.

Definition hysteriaStreamSlice : obj :=
  newStreamSlice "hysteria" ++
  [("security", VStr "tls");
   ("tlsSettings", VObj [("serverName", VStr ""); ("alpn", strings ["h3"]); ("fingerprint", VStr ""); ("echConfigList", VStr "");
                         ("verifyPeerCertByName", VStr ""); ("pinnedPeerCertSha256", VStr "")])].

Definition stream_capability (protocol network security : string) : Capability :=
  {| c_protocol := protocol; c_encryption := None; c_decryption := None; c_flows := None; c_ssMethod := None; c_network := Some network; c_security := Some security |}.

(** The security after a change of network; [currentSecurity] as in the stream, ["none"] if absent. *)
Definition newSecurity (protocol next currentSecurity : string) : string :=
  let c := stream_capability protocol next currentSecurity in
  if String.eqb currentSecurity "tls" && negb (canEnableTls c) then "none"
  else if String.eqb currentSecurity "reality" && negb (canEnableReality c) then "none"
  else currentSecurity.

Definition applyNetworkChange (protocol : string) (prevStream : obj) (next : string) : obj :=
  if String.eqb next "hysteria" then hysteriaStreamSlice
  else
    let security := newSecurity protocol next (match or_nullish (obj_get prevStream "security") (VStr "none") with VStr s => s | _ => "" end) in
    let stream := newStreamSlice next ++ [("security", VStr security)] in
    if String.eqb security "tls" && truthy (obj_get prevStream "tlsSettings") then stream ++ [("tlsSettings", obj_get prevStream "tlsSettings")]
    else if String.eqb security "reality" && truthy (obj_get prevStream "realitySettings") then stream ++ [("realitySettings", obj_get prevStream "realitySettings")]
    else stream.

(** ** The row and the scheduler agree *)

(** The rows whose test button is off are exactly those that testing all skips, and a single test
    runs in the mode that testing all would choose for it. *)
Lemma testable_agrees o mode : truthy o = true -> isUntestable o = skipped o /\ request_mode mode (ReqTcp (Tpl 0, o)) = effectiveTestMode o mode.
Proof.
  intros T. unfold isUntestable, skipped, effectiveTestMode. rewrite T. cbn [negb request_mode]. split; [|done].
  by destruct (isOutboundProtocol o "blackhole"), (isOutboundProtocol o "loopback"), (is_str (get o "tag") "blocked"), (isOutboundProtocol o "freedom"), (isOutboundProtocol o "dns").
Qed.

(** ** Changing the network *)

Definition NETWORKS : list string := ["tcp"; "kcp"; "ws"; "grpc"; "httpupgrade"; "xhttp"].

(** The security a stream has, as its predicates read it. *)
Definition security_of (stream : obj) : string := str_or_empty (obj_get stream "security").

Lemma slice_network next : In next NETWORKS ->
  obj_get (newStreamSlice next) "network" = VStr next /\ truthy (obj_get (newStreamSlice next) (next +:+ "Settings")) = true /\
  forall k, In k ["security"; "tlsSettings"; "realitySettings"] -> obj_has (newStreamSlice next) k = false.
Proof.
  intros H. repeat (destruct H as [<-|H]; [split; [reflexivity|]; split; [reflexivity|]; intros k Hk; repeat (destruct Hk as [<-|Hk]; [reflexivity|]); destruct Hk|]). destruct H.
Qed.

Lemma obj_get_app a b k : obj_get (a ++ b) k = if obj_has a k then obj_get a k else obj_get b k.
Proof. induction a as [|[k' v] a IH]; [done|]. cbn. destruct (String.eqb k k'); [done|apply IH]. Qed.

Lemma newSecurity_allowed protocol next s :
  (newSecurity protocol next s = "tls" -> canEnableTls (stream_capability protocol next "tls") = true) /\
  (newSecurity protocol next s = "reality" -> canEnableReality (stream_capability protocol next "reality") = true) /\
  (newSecurity protocol next s = s \/ newSecurity protocol next s = "none").
Proof.
  unfold newSecurity. destruct (String.eqb_spec s "tls") as [->|N1]; cbn [andb].
  - destruct (canEnableTls _) eqn:E; cbn [negb String.eqb andb]; repeat split; auto; discriminate.
  - destruct (String.eqb_spec s "reality") as [->|N2]; cbn [andb]; [destruct (canEnableReality _) eqn:E; cbn [negb]; repeat split; auto; discriminate|].
    repeat split; [by intros ->|by intros ->|by left].
Qed.

(** Changing the network of an outbound: the stream gets the network and its settings, and a
    security that the protocol offers over it; a security that is kept keeps its settings, the
    server name included, and none of the settings of the other securities or networks stays. *)
Theorem network_change_safe protocol prev next : In next NETWORKS ->
  let stream := applyNetworkChange protocol prev next in
  let security := security_of stream in
  obj_get stream "network" = VStr next /\ truthy (obj_get stream (next +:+ "Settings")) = true /\
  (security = "tls" -> canEnableTls (stream_capability protocol next "tls") = true /\
                       (truthy (obj_get prev "tlsSettings") = true -> obj_get stream "tlsSettings" = obj_get prev "tlsSettings")) /\
  (security = "reality" -> canEnableReality (stream_capability protocol next "reality") = true /\
                           (truthy (obj_get prev "realitySettings") = true -> obj_get stream "realitySettings" = obj_get prev "realitySettings")) /\
  (security <> "tls" -> obj_get stream "tlsSettings" = VUndef) /\ (security <> "reality" -> obj_get stream "realitySettings" = VUndef).
Proof.
  intros H. cbv zeta. unfold applyNetworkChange. assert (String.eqb next "hysteria" = false) as -> by (repeat (destruct H as [<-|H]; [reflexivity|]); destruct H).
  destruct (slice_network next H) as (S1 & S2 & S3). set (s0 := match or_nullish _ _ with VStr s => s | _ => "" end). destruct (newSecurity_allowed protocol next s0) as (A1 & A2 & _).
  set (sec := newSecurity protocol next s0) in *. clearbody sec. clear s0.
  assert (Hn : obj_has (newStreamSlice next) "network" = true /\ obj_has (newStreamSlice next) (next +:+ "Settings") = true).
  { split; apply obj_get_has; [by rewrite S1|]. intros E. by rewrite E in S2. }
  destruct Hn as [Hn1 Hn2].
  assert (G : forall l, obj_get (newStreamSlice next ++ l) "network" = VStr next /\ truthy (obj_get (newStreamSlice next ++ l) (next +:+ "Settings")) = true /\
                        forall k, In k ["security"; "tlsSettings"; "realitySettings"] -> obj_get (newStreamSlice next ++ l) k = obj_get l k).
  { intros l. rewrite !obj_get_app, Hn1, Hn2. split; [done|]. split; [done|]. intros k Hk. by rewrite obj_get_app, S3. }
  unfold security_of. destruct (String.eqb sec "tls" && truthy (obj_get prev "tlsSettings")) eqn:E1; [|destruct (String.eqb sec "reality" && truthy (obj_get prev "realitySettings")) eqn:E2];
    rewrite <-?app_assoc; cbn [app]; match goal with |- context [newStreamSlice next ++ ?l] => destruct (G l) as (G1 & G2 & G3) end;
    rewrite G1, G2, !G3 by (cbn; tauto); cbn [obj_get String.eqb Ascii.eqb Bool.eqb str_or_empty]; (split; [done|]); (split; [done|]).
  - apply andb_true_iff in E1 as [->%String.eqb_eq T1]. repeat split; try done. by apply A1.
  - apply andb_true_iff in E2 as [->%String.eqb_eq T2]. repeat split; try done. by apply A2.
  - split; [|split; [|done]]; intros ->; (split; [by apply A1 + by apply A2|]); intros T; rewrite T in *; discriminate.
Qed.

Lemma network_change_safe_witness :
  let prev := [("network", VStr "tcp"); ("security", VStr "reality"); ("realitySettings", VObj [("serverName", VStr "a.example")])] in
  applyNetworkChange "vless" prev "grpc" =
    newStreamSlice "grpc" ++ [("security", VStr "reality"); ("realitySettings", VObj [("serverName", VStr "a.example")])] /\
  obj_get (applyNetworkChange "vless" prev "ws") "realitySettings" = VUndef.
Proof.
  cbv zeta. split; [reflexivity|].
  apply (network_change_safe "vless" [("network", VStr "tcp"); ("security", VStr "reality"); ("realitySettings", VObj [("serverName", VStr "a.example")])] "ws"); [cbn; tauto|discriminate].
Defined.
