(* ===== verification/InboundForm.v ===== *)
(** * The inbound editor

    Models src/frontend/src/lib/xray/inbound-form-adapter.ts: the conversion of a stored inbound
    row into the values of the editor's form and back into the payload that is posted, with
    [tlsCertUsesFiles] of src/frontend/src/schemas/protocols/security/tls.ts.  A field of the row
    that may be absent (or null) is an option; the slices [settings], [streamSettings] and
    [sniffing] are JSON values.  [None] is a TypeError of the code.  The schemas of the two stream
    slices are those of [StreamSchemas]; the schema of the clients of a protocol is the argument
    [clientParse protocol], [None] a failed [safeParse].

    [rawInboundToFormValues] changes the stream object of the row in place, so it returns the row
    with its values. *)
From S2P Require Import Prelude JsString JsValue JsObject StreamSchemas Json StreamWire LinkParser OutboundForm ProtocolCapabilities.
From Stdlib Require Import Ascii.
Local Open Scope Z_scope.

(** ** Data *)

Record RawInboundRow := {
  r_port : option Z; r_listen : option string; r_protocol : option string; r_tag : option string;
  r_settings : jsval; r_streamSettings : jsval; r_sniffing : jsval;
  r_up : option Z; r_down : option Z; r_total : option Z;
  r_speedLimitKbps : option Z; r_speedLimitUpKbps : option Z; r_speedLimitDownKbps : option Z;
  r_trafficMultiplierBps : option Z; r_remark : option string; r_enable : option bool; r_expiryTime : option Z;
  r_trafficReset : jsval; r_trafficResetDay : option Z; r_trafficResetInterval : option Z;
  r_lastTrafficResetTime : option Z; r_nodeId : option Z; r_shareAddrStrategy : jsval;
  r_shareAddr : option string; r_subSortIndex : option Z; r_disableFlow : option bool }.

Record InboundFormValues := {
  f_remark : string; f_enable : bool; f_port : Z; f_listen : string; f_tag : string; f_expiryTime : Z;
  f_sniffing : option obj; f_streamSettings : option obj;
  f_up : Z; f_down : Z; f_total : Z;
  f_speedLimitKbps : Z; f_speedLimitUpKbps : Z; f_speedLimitDownKbps : Z; f_trafficMultiplierBps : Z;
  f_trafficReset : string; f_trafficResetDay : Z; f_trafficResetInterval : Z; f_lastTrafficResetTime : Z;
  f_nodeId : option Z; f_shareAddrStrategy : string; f_shareAddr : string; f_subSortIndex : Z; f_disableFlow : bool;
  f_protocol : string; f_settings : obj }.

Record WireInboundPayload := {
  p_up : Z; p_down : Z; p_total : Z;
  p_speedLimitKbps : Z; p_speedLimitUpKbps : Z; p_speedLimitDownKbps : Z; p_trafficMultiplierBps : Z;
  p_remark : string; p_enable : bool; p_expiryTime : Z;
  p_trafficReset : string; p_trafficResetDay : Z; p_trafficResetInterval : Z; p_lastTrafficResetTime : Z;
  p_listen : string; p_port : Z; p_protocol : string;
  p_settings : string; p_streamSettings : string; p_sniffing : string;
  p_tag : string; p_nodeId : option Z; p_shareAddrStrategy : string; p_shareAddr : string;
  p_subSortIndex : Z; p_disableFlow : bool }.

(** ** Reading a row *)

Definition coerceJsonObject (value : jsval) : obj :=
  match value with
  | VObj o => o
  | VStr s =>
      let trimmed := trim s in
      if String.eqb trimmed "" then []
      else match JSON_parse trimmed with
           | Some (VObj o) => o
           | _ => []
           end
  | _ => []
  end.

Definition TRAFFIC_RESETS : list string := ["never"; "hourly"; "daily"; "weekly"; "monthly"].
Definition SHARE_ADDR_STRATEGIES : list string := ["node"; "listen"; "custom"].

Definition coerceTrafficReset (v : jsval) : string :=
  match v with VStr s => if includes TRAFFIC_RESETS s then s else "never" | _ => "never" end.

Definition coerceShareAddrStrategy (v : jsval) : string :=
  match v with VStr s => if includes SHARE_ADDR_STRATEGIES s then s else "node" | _ => "node" end.

Definition NETWORK_SETTINGS_KEY : list (string * string) :=
  [("tcp", "tcpSettings"); ("kcp", "kcpSettings"); ("ws", "wsSettings"); ("grpc", "grpcSettings");
   ("httpupgrade", "httpupgradeSettings"); ("xhttp", "xhttpSettings"); ("hysteria", "hysteriaSettings")].

Definition network_key (network : string) : option string :=
  option_map snd (List.find (fun kv => String.eqb kv.1 network) NETWORK_SETTINGS_KEY).

Definition healStreamNetworkKey (stream : obj) : obj :=
  let stream := match obj_get stream "method" with
                | VStr m => if String.eqb m "" then stream else obj_set stream "network" (VStr m)
                | _ => stream
                end in
  let stream := obj_del stream "method" in
  match network_key (str_or_empty (obj_get stream "network")) with
  | None => stream
  | Some key =>
      match obj_get stream key with
      | VArr _ | VObj _ => stream
      | _ => obj_set stream key (VObj [])
      end
  end.

Definition nonempty_array (v : jsval) : bool := match v with VArr (_ :: _) => true | _ => false end.

Definition tlsCertUsesFiles (cert : jsval) : bool :=
  match get cert "useFile" with
  | VBool b => b
  | _ =>
      let hasInline := nonempty_array (get cert "certificate") || nonempty_array (get cert "key") in
      truthy (get cert "certificateFile") || truthy (get cert "keyFile") || negb hasInline
  end.

(** The certificates of [tlsCerts], changed in place by [f]. *)
Definition map_tlsCerts (f : jsval -> option jsval) (stream : obj) : option obj :=
  match obj_get stream "tlsSettings" with
  | VObj tls =>
      match obj_get tls "certificates" with
      | VArr certs =>
          option_map (fun certs => obj_set stream "tlsSettings" (VObj (obj_set tls "certificates" (VArr certs)))) (mapM f certs)
      | _ => Some stream
      end
  | _ => Some stream
  end.

(** [c.useFile = ...]: raises on a primitive; on an array the property is not JSON. *)
Definition put_useFile (c : jsval) : option jsval :=
  match c with
  | VObj o => Some (VObj (obj_set o "useFile" (VBool (tlsCertUsesFiles c))))
  | VArr _ => Some c
  | _ => None
  end.

(** [delete c.useFile]: raises on null and undefined only. *)
Definition delete_useFile (c : jsval) : option jsval :=
  match c with
  | VUndef | VNull => None
  | _ => Some (del c "useFile")
  end.

Definition synthesizeTlsCertUseFile (stream : obj) : option obj := map_tlsCerts put_useFile stream.
Definition stripTlsCertUseFile (stream : obj) : option obj := map_tlsCerts delete_useFile stream.

(** ** The payload *)

Fixpoint pruneEmpty (value : jsval) : jsval :=
  match value with
  | VArr l => VArr (map pruneEmpty l)
  | VObj o => VObj ((fix go (o : obj) : obj :=
                match o with
                | [] => []
                | (k, x) :: o => match pruneEmpty x with VUndef => go o | p => (k, p) :: go o end
                end) o)
  | _ => value
  end.

Definition prune_obj (o : obj) : obj := asObject (pruneEmpty (VObj o)).

Definition CLIENT_PROTOCOLS : list string :=
  ["vless"; "vmess"; "trojan"; "shadowsocks"; "hysteria"; "wireguard"; "mtproto"; "amneziawg"; "tuic"].

(** [v?.length] *)
Definition js_length (v : jsval) : jsval :=
  match v with
  | VArr l => VInt (Z.of_nat (length l))
  | VStr s => VInt (Z.of_nat (String.length s))
  | VObj o => obj_get o "length"
  | _ => VUndef
  end.

Definition normalizeSniffing (s : option obj) : obj :=
  match s with
  | None => [("enabled", VBool false)]
  | Some s =>
      if negb (truthy (obj_get s "enabled")) then [("enabled", VBool false)]
      else
        [("enabled", VBool true); ("destOverride", obj_get s "destOverride")] ++
        (if truthy (obj_get s "metadataOnly") then [("metadataOnly", VBool true)] else []) ++
        (if truthy (obj_get s "routeOnly") then [("routeOnly", VBool true)] else []) ++
        (if truthy (js_length (obj_get s "ipsExcluded")) then [("ipsExcluded", obj_get s "ipsExcluded")] else []) ++
        (if truthy (js_length (obj_get s "domainsExcluded")) then [("domainsExcluded", obj_get s "domainsExcluded")] else [])
  end.

(** The first half of [dropLegacyOptionalEmpties]. *)
Definition drop_fallbacks (settings : obj) : obj := drop_if settings "fallbacks" empty_array.

Definition drop_finalmask (stream : obj) : obj :=
  match obj_get stream "finalmask" with
  | (VObj _ | VArr _) as fm =>
      let hasTcp := nonempty_array (get fm "tcp") in
      let hasUdp := nonempty_array (get fm "udp") in
      let hasQuic := negb (is_nullish (get fm "quicParams")) in
      if negb hasTcp && negb hasUdp && negb hasQuic then obj_del stream "finalmask"
      else
        let fm := if negb hasTcp then del fm "tcp" else fm in
        let fm := if negb hasUdp then del fm "udp" else fm in
        obj_set stream "finalmask" fm
  | _ => stream
  end.

Definition drop_hysteria_auth (stream : obj) : obj :=
  match obj_get stream "hysteriaSettings" with
  | VObj hs => if empty_string (obj_get hs "auth") then obj_set stream "hysteriaSettings" (VObj (obj_del hs "auth")) else stream
  | _ => stream
  end.

Definition dropLegacyOptionalEmpties (settings : obj) (stream : option obj) : obj * option obj :=
  (drop_fallbacks settings, option_map (fun s => drop_hysteria_auth (drop_finalmask s)) stream).

(** The data of a schema of objects. *)
Definition parse_object (s : schema) (o : obj) : option obj := match s (VObj o) with Some (VObj d) => Some d | _ => None end.

Definition open_xhttp (stream : obj) : obj :=
  match obj_get stream "xhttpSettings" with
  | VObj xh =>
      let xhttp := default xh (parse_object XHttpStreamSettingsSchema xh) in
      let xhttp := match obj_get xhttp "xmux" with
                   | VObj xmux => obj_set (obj_set xhttp "enableXmux" (VBool true)) "xmux" (VObj (assign xmux XMUX_DEFAULTS))
                   | _ => xhttp
                   end in
      obj_set stream "xhttpSettings" (VObj xhttp)
  | _ => stream
  end.

Definition open_sockopt (stream : obj) : obj :=
  match obj_get stream "sockopt" with
  | VObj so =>
      let raw := if obj_has so "v6only" then
                   obj_del (if obj_has so "V6Only" then so else obj_set so "V6Only" (VBool (truthy (obj_get so "v6only")))) "v6only"
                 else so in
      obj_set stream "sockopt" (VObj (match parse_object SockoptStreamSettingsSchema raw with Some data => assign data raw | None => raw end))
  | _ => stream
  end.

(** What happens to a stream that has keys. *)
Definition open_stream (stream : obj) : option obj :=
  option_map (fun s => open_sockopt (open_xhttp s)) (synthesizeTlsCertUseFile (healStreamNetworkKey stream)).

Definition with_stream (row : RawInboundRow) (v : jsval) : RawInboundRow :=
  {| r_port := r_port row; r_listen := r_listen row; r_protocol := r_protocol row; r_tag := r_tag row;
     r_settings := r_settings row; r_streamSettings := v; r_sniffing := r_sniffing row;
     r_up := r_up row; r_down := r_down row; r_total := r_total row;
     r_speedLimitKbps := r_speedLimitKbps row; r_speedLimitUpKbps := r_speedLimitUpKbps row; r_speedLimitDownKbps := r_speedLimitDownKbps row;
     r_trafficMultiplierBps := r_trafficMultiplierBps row; r_remark := r_remark row; r_enable := r_enable row; r_expiryTime := r_expiryTime row;
     r_trafficReset := r_trafficReset row; r_trafficResetDay := r_trafficResetDay row; r_trafficResetInterval := r_trafficResetInterval row;
     r_lastTrafficResetTime := r_lastTrafficResetTime row; r_nodeId := r_nodeId row; r_shareAddrStrategy := r_shareAddrStrategy row;
     r_shareAddr := r_shareAddr row; r_subSortIndex := r_subSortIndex row; r_disableFlow := r_disableFlow row |}.

Definition form_of (row : RawInboundRow) (stream : option obj) : InboundFormValues :=
  {| f_remark := default "" (r_remark row);
     f_enable := default true (r_enable row);
     f_port := default 0 (r_port row);
     f_listen := default "" (r_listen row);
     f_tag := default "" (r_tag row);
     f_expiryTime := default 0 (r_expiryTime row);
     f_sniffing := Some (coerceJsonObject (r_sniffing row));
     f_streamSettings := stream;
     f_up := default 0 (r_up row);
     f_down := default 0 (r_down row);
     f_total := default 0 (r_total row);
     f_speedLimitKbps := default 0 (r_speedLimitKbps row);
     f_speedLimitUpKbps := default (default 0 (r_speedLimitKbps row)) (r_speedLimitUpKbps row);
     f_speedLimitDownKbps := default (default 0 (r_speedLimitKbps row)) (r_speedLimitDownKbps row);
     f_trafficMultiplierBps := let m := default 0 (r_trafficMultiplierBps row) in if 0 <? m then m else 10000;
     f_trafficReset := coerceTrafficReset (r_trafficReset row);
     f_trafficResetDay := Z.min 31 (Z.max 1 (default 1 (r_trafficResetDay row)));
     f_trafficResetInterval := Z.min 10000 (Z.max 1 (default 1 (r_trafficResetInterval row)));
     f_lastTrafficResetTime := default 0 (r_lastTrafficResetTime row);
     f_nodeId := r_nodeId row;
     f_shareAddrStrategy := coerceShareAddrStrategy (r_shareAddrStrategy row);
     f_shareAddr := default "" (r_shareAddr row);
     f_subSortIndex := let i := default 0 (r_subSortIndex row) in if i =? 0 then 1 else i;
     f_disableFlow := default false (r_disableFlow row);
     f_protocol := (let p := default "" (r_protocol row) in if String.eqb p "" then "vless" else p);
     f_settings := coerceJsonObject (r_settings row) |}.

Definition rawInboundToFormValues (row : RawInboundRow) : option (InboundFormValues * RawInboundRow) :=
  match coerceJsonObject (r_streamSettings row) with
  | [] => Some (form_of row None, row)
  | rawStream =>
      match open_stream rawStream with
      | None => None
      | Some s =>
          Some (form_of row (Some s),
                match r_streamSettings row with VObj _ => with_stream row (VObj s) | _ => row end)
      end
  end.

Section Adapter.
  Context (clientParse : string -> jsval -> option jsval).

Definition normalizeClients (protocol : string) (clients : jsval) : jsval :=
  match clients with
  | VArr l => if includes CLIENT_PROTOCOLS protocol then VArr (map (fun c => default c (clientParse protocol c)) l) else clients
  | _ => clients
  end.

(** The settings and the stream of the payload. *)
Definition wire_settings (protocol : string) (settings : obj) (omitClients : bool) : obj :=
  let settingsPruned := prune_obj settings in
  if omitClients then obj_del settingsPruned "clients"
  else match obj_get settingsPruned "clients" with
       | VArr _ as clients => obj_set settingsPruned "clients" (normalizeClients protocol clients)
       | _ => settingsPruned
       end.

Definition wire_stream (stream : obj) : option obj :=
  stripTlsCertUseFile (normalizeStreamSettingsForWire (prune_obj stream) inbound).

Definition payload_of (values : InboundFormValues) (settings : obj) (stream : option obj) : WireInboundPayload :=
  {| p_up := f_up values; p_down := f_down values; p_total := f_total values;
     p_speedLimitKbps := 0; p_speedLimitUpKbps := f_speedLimitUpKbps values; p_speedLimitDownKbps := f_speedLimitDownKbps values;
     p_trafficMultiplierBps := f_trafficMultiplierBps values;
     p_remark := f_remark values; p_enable := f_enable values; p_expiryTime := f_expiryTime values;
     p_trafficReset := f_trafficReset values; p_trafficResetDay := f_trafficResetDay values;
     p_trafficResetInterval := f_trafficResetInterval values; p_lastTrafficResetTime := f_lastTrafficResetTime values;
     p_listen := f_listen values; p_port := f_port values; p_protocol := f_protocol values;
     p_settings := stringify (VObj settings);
     p_streamSettings := match stream with Some s => stringify (VObj s) | None => "" end;
     p_sniffing := if canEnableSniffing (f_protocol values) then stringify (VObj (normalizeSniffing (f_sniffing values))) else "";
     p_tag := f_tag values; p_nodeId := f_nodeId values;
     p_shareAddrStrategy := f_shareAddrStrategy values; p_shareAddr := f_shareAddr values;
     p_subSortIndex := f_subSortIndex values; p_disableFlow := f_disableFlow values |}.

Definition formValuesToWirePayload (values : InboundFormValues) (omitClients : bool) : option WireInboundPayload :=
  let settings := wire_settings (f_protocol values) (f_settings values) omitClients in
  match f_streamSettings values with
  | None =>
      let '(settings, stream) := dropLegacyOptionalEmpties settings None in Some (payload_of values settings stream)
  | Some stream =>
      match wire_stream stream with
      | None => None
      | Some streamPruned =>
          let '(settings, stream) := dropLegacyOptionalEmpties settings (Some streamPruned) in Some (payload_of values settings stream)
      end
  end.

End Adapter.

(** ** Pruning *)

Lemma prune_undef v : is_undef (pruneEmpty v) = is_undef v.
Proof. by destruct v. Qed.

Lemma prune_VObj o : pruneEmpty (VObj o) = VObj (prune_obj o).
Proof. done. Qed.

Lemma prune_obj_cons k x o : prune_obj ((k, x) :: o) = if is_undef x then prune_obj o else (k, pruneEmpty x) :: prune_obj o.
Proof. by destruct x. Qed.

(** The text of an object is its members, the undefined ones skipped. *)
Definition shown (o : obj) : list string :=
  (fix go (o : obj) : list string :=
     match o with
     | [] => []
     | (k, x) :: o => match x with VUndef => go o | _ => (quote k +:+ ":" +:+ stringify x) :: go o end
     end) o.

Lemma stringify_obj o : stringify (VObj o) = "{" +:+ join "," (shown o) +:+ "}".
Proof. done. Qed.

Lemma shown_cons k x o : shown ((k, x) :: o) = if is_undef x then shown o else (quote k +:+ ":" +:+ stringify x) :: shown o.
Proof. by destruct x. Qed.

Lemma stringify_pruned v : stringify (pruneEmpty v) = stringify v.
Proof.
  induction v as [| | | | |l IH|o IH] using jsval_ind; try done.
  - cbn [pruneEmpty stringify]. do 3 f_equal. rewrite map_map. induction IH as [|x l Hx _ IH]; [done|]. cbn [map]. by rewrite Hx, IH.
  - rewrite prune_VObj, !stringify_obj. do 3 f_equal. induction IH as [|[k x] o Hx _ IH]; [done|]. cbn [snd] in Hx.
    rewrite prune_obj_cons, shown_cons. destruct (is_undef x) eqn:E; [done|]. by rewrite shown_cons, prune_undef, E, Hx, IH.
Qed.

Lemma prune_has o k : obj_has o k = false -> obj_has (prune_obj o) k = false.
Proof.
  induction o as [|[n x] o IH]; [done|]. unfold obj_has. cbn [existsb fst]. intros [Hn Ho]%orb_false_iff.
  rewrite prune_obj_cons. destruct (is_undef x); [by apply IH|]. cbn [existsb fst]. rewrite Hn. by apply IH.
Qed.

Lemma prune_get o k : obj_wf o -> obj_get (prune_obj o) k = pruneEmpty (obj_get o k).
Proof.
  unfold obj_wf. induction o as [|[n x] o IH]; intros W; [done|]. cbn in W. inversion W as [|? ? Hn W']; subst.
  rewrite prune_obj_cons. cbn [obj_get]. destruct (String.eqb_spec k n) as [->|Hk]; destruct (is_undef x) eqn:E; cbn [obj_get].
  - destruct x; try done. cbn [pruneEmpty]. apply obj_has_get, prune_has. apply not_true_iff_false. intros H%obj_has_keys.
    by apply Hn, list_elem_of_In.
  - by rewrite String.eqb_refl.
  - by apply IH.
  - rewrite (proj2 (String.eqb_neq k n)) by done. by apply IH.
Qed.

(** Pruning leaves JSON alone. *)
Lemma prune_json v : json_ok v -> pruneEmpty v = v.
Proof.
  induction v as [| | | | |l IH|o IH] using jsval_ind; try done.
  - intros H. cbn [pruneEmpty]. f_equal. induction IH as [|x l Hx _ IH]; [done|]. destruct H as [H1 H2]. cbn [map]. by rewrite Hx, IH.
  - rewrite json_ok_obj. intros [_ F]. rewrite prune_VObj. f_equal. induction IH as [|[k x] o Hx _ IH]; [done|]. inversion F; subst.
    rewrite prune_obj_cons. cbn [snd] in *. rewrite Hx, IH by done. by destruct x.
Qed.

Lemma prune_obj_json o : json_ok (VObj o) -> prune_obj o = o.
Proof. intros H. pose proof (prune_json _ H) as E. rewrite prune_VObj in E. congruence. Qed.

(** Pruning never shows in what is posted: the text of a pruned value is the text of the value itself. *)
Theorem pruneEmpty_invisible v : stringify (pruneEmpty v) = stringify v.
Proof. apply stringify_pruned. Qed.

(** ** The values of the form *)

Definition is_structure (v : jsval) : bool := match v with VArr _ | VObj _ => true | _ => false end.

(** The stream of a form: no legacy [method], the slice of a known network is there, and every
    certificate has its [useFile] switch. *)
Definition network_ready (s : obj) : Prop :=
  match network_key (str_or_empty (obj_get s "network")) with
  | Some key => is_structure (obj_get s key) = true
  | None => True
  end.

Definition cert_ready (c : jsval) : Prop := match c with VObj o => exists b, obj_get o "useFile" = VBool b | VArr _ => True | _ => False end.

Definition certs_of (s : obj) : list jsval := as_list (get (obj_get s "tlsSettings") "certificates").

Record form_ranges (v : InboundFormValues) : Prop := {
  fr_day : 1 <= f_trafficResetDay v <= 31;
  fr_interval : 1 <= f_trafficResetInterval v <= 10000;
  fr_multiplier : 0 < f_trafficMultiplierBps v;
  fr_reset : In (f_trafficReset v) TRAFFIC_RESETS;
  fr_strategy : In (f_shareAddrStrategy v) SHARE_ADDR_STRATEGIES;
  fr_sort : f_subSortIndex v <> 0;
  fr_protocol : f_protocol v <> "" }.

Lemma includes_In l s : includes l s = true -> In s l.
Proof. unfold includes. intros (x & Hin & ->%String.eqb_eq)%existsb_exists. done. Qed.

Lemma coerced_in l d v : In d l -> In (match v with VStr s => if includes l s then s else d | _ => d end) l.
Proof. intros H. destruct v as [| | | |s| |]; try done. destruct (includes l s) eqn:E; [by apply includes_In|done]. Qed.

Lemma form_of_ranges row stream : form_ranges (form_of row stream).
Proof.
  split; cbn [form_of f_trafficResetDay f_trafficResetInterval f_trafficMultiplierBps f_trafficReset f_shareAddrStrategy f_subSortIndex f_protocol].
  - lia.
  - lia.
  - destruct (Z.ltb_spec 0 (default 0 (r_trafficMultiplierBps row))); lia.
  - apply coerced_in. by left.
  - apply coerced_in. by left.
  - destruct (Z.eqb_spec (default 0 (r_subSortIndex row)) 0); lia.
  - by destruct (String.eqb_spec (default "" (r_protocol row)) "").
Qed.

Lemma network_key_other n key k : network_key n = Some key -> existsb (fun kv => String.eqb kv.2 k) NETWORK_SETTINGS_KEY = false -> key <> k.
Proof.
  unfold network_key. destruct (List.find _ _) as [[m j]|] eqn:F; [|done]. intros [= <-] H ->. apply find_some in F as [F _].
  assert (existsb (fun kv => String.eqb kv.2 k) NETWORK_SETTINGS_KEY = true); [|congruence]. apply existsb_exists. exists (m, k). split; [done|apply String.eqb_refl].
Qed.

(** Healing a stream. *)
Lemma heal_method s : obj_has (healStreamNetworkKey s) "method" = false.
Proof.
  unfold healStreamNetworkKey. cbv zeta. set (t := match obj_get s "method" with VStr m => _ | _ => s end).
  assert (E : obj_has (obj_del t "method") "method" = false) by by rewrite obj_has_del, String.eqb_refl.
  destruct (network_key _) as [key|] eqn:K; [|done]. pose proof (network_key_other _ _ "method" K eq_refl).
  destruct (obj_get (obj_del t "method") key); try done; rewrite obj_has_set, E, orb_false_r; by apply String.eqb_neq.
Qed.

Lemma heal_ready s : network_ready (healStreamNetworkKey s).
Proof.
  unfold healStreamNetworkKey, network_ready. cbv zeta. set (t := obj_del _ "method"). clearbody t.
  destruct (network_key (str_or_empty (obj_get t "network"))) as [key|] eqn:K; [|by rewrite K].
  pose proof (network_key_other _ _ "network" K eq_refl) as Hn.
  destruct (obj_get t key) eqn:G; rewrite ?obj_get_set_cases, ?(proj2 (String.eqb_neq key "network") Hn), K, ?obj_get_set_eq, ?G; done.
Qed.

Lemma heal_tls s : obj_get (healStreamNetworkKey s) "tlsSettings" = obj_get s "tlsSettings".
Proof.
  unfold healStreamNetworkKey. cbv zeta. set (t := obj_del _ "method").
  assert (E : obj_get t "tlsSettings" = obj_get s "tlsSettings").
  { subst t. rewrite obj_get_del_ne by done. destruct (obj_get s "method"); try done. destruct (String.eqb _ ""); [done|]. by rewrite obj_get_set_cases. }
  clearbody t. destruct (network_key _) as [key|] eqn:K; [|done]. pose proof (network_key_other _ _ "tlsSettings" K eq_refl) as Hn.
  destruct (obj_get t key); rewrite ?obj_get_set_cases, ?(proj2 (String.eqb_neq key "tlsSettings") Hn); done.
Qed.

(** ** Changing the certificates *)

Lemma certs_of_ext a b : obj_get a "tlsSettings" = obj_get b "tlsSettings" -> certs_of a = certs_of b.
Proof. unfold certs_of. by intros ->. Qed.

(** [map_tlsCerts] maps the certificates and touches nothing outside [tlsSettings]. *)
Lemma map_certs_spec f s :
  match map_tlsCerts f s with
  | Some t => mapM f (certs_of s) = Some (certs_of t) /\ (forall k, k <> "tlsSettings" -> obj_get t k = obj_get s k) /\ (forall k, obj_has t k = obj_has s k)
  | None => mapM f (certs_of s) = None
  end.
Proof.
  unfold map_tlsCerts, certs_of. destruct (obj_get s "tlsSettings") as [| | | | | |tls] eqn:E; cbn [get]; try (rewrite E; by cbn).
  destruct (obj_get tls "certificates") as [| | | | |certs|] eqn:F; cbn [as_list]; try (rewrite E; cbn [get]; rewrite F; by cbn).
  destruct (mapM f certs) as [certs'|]; cbn [option_map]; [|done]. rewrite obj_get_set_eq. cbn [get]. rewrite obj_get_set_eq. split; [done|].
  split; [intros k Hk; by rewrite obj_get_set_ne|]. intros k. rewrite obj_has_set. destruct (String.eqb_spec k "tlsSettings") as [->|]; [|done].
  symmetry. cbn [orb]. apply obj_get_has. by rewrite E.
Qed.

Lemma put_useFile_ready c c' : put_useFile c = Some c' -> cert_ready c'.
Proof. destruct c as [| | | | |l|o]; cbn; try done; intros [= <-]; [done|]. cbn. rewrite obj_get_set_eq. by eexists. Qed.

Lemma mapM_Forall {A B} (f : A -> option B) (P : B -> Prop) l l' : (forall x y, f x = Some y -> P y) -> mapM f l = Some l' -> Forall P l'.
Proof. intros H. rewrite mapM_Some. induction 1; constructor; eauto. Qed.

Lemma put_useFile_none l : mapM put_useFile l = None <-> Exists (fun c => is_structure c = false) l.
Proof.
  rewrite mapM_None. split; apply Exists_impl; intros c; by destruct c.
Qed.

(** ** Opening a stream *)

Lemma open_slices_get s k : k <> "xhttpSettings" -> k <> "sockopt" -> obj_get (open_sockopt (open_xhttp s)) k = obj_get s k.
Proof.
  intros Hx Hs. unfold open_sockopt. destruct (obj_get (open_xhttp s) "sockopt"); rewrite ?obj_get_set_ne by congruence;
    unfold open_xhttp; destruct (obj_get s "xhttpSettings"); rewrite ?obj_get_set_ne by congruence; done.
Qed.

Lemma set_has_present o k v : obj_get o k <> VUndef -> forall j, obj_has (obj_set o k v) j = obj_has o j.
Proof. intros H j. rewrite obj_has_set. destruct (String.eqb_spec j k) as [->|]; [|done]. by rewrite obj_get_has. Qed.

Lemma open_slices_has s k : obj_has (open_sockopt (open_xhttp s)) k = obj_has s k.
Proof.
  assert (E : obj_has (open_xhttp s) k = obj_has s k).
  { unfold open_xhttp. destruct (obj_get s "xhttpSettings") eqn:E; try done. apply set_has_present. congruence. }
  unfold open_sockopt. destruct (obj_get (open_xhttp s) "sockopt") eqn:F; try done. rewrite set_has_present by congruence. done.
Qed.

Lemma open_slices_structure s k : is_structure (obj_get s k) = true -> is_structure (obj_get (open_sockopt (open_xhttp s)) k) = true.
Proof.
  intros H. assert (E : is_structure (obj_get (open_xhttp s) k) = true).
  { unfold open_xhttp. destruct (obj_get s "xhttpSettings"); try done. rewrite obj_get_set_cases. by destruct (String.eqb _ k). }
  unfold open_sockopt. destruct (obj_get (open_xhttp s) "sockopt"); try done. rewrite obj_get_set_cases. by destruct (String.eqb _ k).
Qed.

(** The network a stored stream names: the former [method] first. *)
Definition stored_network (raw : obj) : jsval :=
  match obj_get raw "method" with VStr m => if String.eqb m "" then obj_get raw "network" else VStr m | _ => obj_get raw "network" end.

(** The stream [s] of the form for the stored stream [raw]. *)
Record stream_ready (raw s : obj) : Prop := {
  sr_method : obj_has s "method" = false;
  sr_network : obj_get s "network" = stored_network raw;
  sr_slice : network_ready s;
  sr_certs : Forall cert_ready (certs_of s);
  sr_others : forall k, ~ In k ["method"; "network"; "tlsSettings"; "sockopt"] -> existsb (fun kv => String.eqb kv.2 k) NETWORK_SETTINGS_KEY = false ->
    obj_get s k = obj_get raw k }.

Lemma heal_get s : obj_get (healStreamNetworkKey s) "network" = stored_network s /\
  forall k, k <> "method" -> k <> "network" -> existsb (fun kv => String.eqb kv.2 k) NETWORK_SETTINGS_KEY = false -> obj_get (healStreamNetworkKey s) k = obj_get s k.
Proof.
  unfold healStreamNetworkKey, stored_network. cbv zeta. set (t := match obj_get s "method" with VStr m => if String.eqb m "" then s else _ | _ => s end).
  assert (Tn : obj_get (obj_del t "method") "network" = match obj_get s "method" with VStr m => if String.eqb m "" then obj_get s "network" else VStr m | _ => obj_get s "network" end).
  { rewrite obj_get_del_ne by done. unfold t. destruct (obj_get s "method"); try done. destruct (String.eqb _ ""); [done|]. by rewrite obj_get_set_eq. }
  assert (To : forall k, k <> "method" -> k <> "network" -> obj_get (obj_del t "method") k = obj_get s k).
  { intros k N1 N2. rewrite obj_get_del_ne by done. unfold t. destruct (obj_get s "method"); try done. destruct (String.eqb _ ""); [done|]. by rewrite obj_get_set_ne. }
  clearbody t. destruct (network_key _) as [key|] eqn:K; [|split; auto].
  pose proof (network_key_other _ _ "network" K eq_refl) as Hn. split; [|intros k N1 N2 N3; pose proof (network_key_other _ _ k K N3) as Hk];
    destruct (obj_get (obj_del t "method") key); rewrite ?obj_get_set_ne by done; auto.
Qed.

Lemma open_stream_ready s t : open_stream s = Some t -> stream_ready s t.
Proof.
  unfold open_stream, synthesizeTlsCertUseFile. pose proof (map_certs_spec put_useFile (healStreamNetworkKey s)) as M.
  destruct (map_tlsCerts _ _) as [u|]; [|done]. intros [= <-]. destruct M as (C & G & Hh). destruct (heal_get s) as [Hn Ho]. split.
  - rewrite open_slices_has, Hh. apply heal_method.
  - by rewrite open_slices_get, G.
  - pose proof (heal_ready s) as R. unfold network_ready in *. rewrite open_slices_get, G by done.
    destruct (network_key _) as [key|] eqn:K; [|done]. apply open_slices_structure. by rewrite G by exact (network_key_other _ _ "tlsSettings" K eq_refl).
  - rewrite (certs_of_ext _ u) by by apply open_slices_get. eapply mapM_Forall; [exact put_useFile_ready|exact C].
  - intros k N1 N2. cbn in N1. rewrite open_slices_get, G, Ho by (try done; intros ->; first [tauto|discriminate N2]). done.
Qed.

(** Opening an inbound raises exactly when a certificate of its TLS settings is a primitive. *)
Lemma rawInbound_raises_iff row : rawInboundToFormValues row = None <-> Exists (fun c => is_structure c = false) (certs_of (coerceJsonObject (r_streamSettings row))).
Proof.
  unfold rawInboundToFormValues. destruct (coerceJsonObject _) as [|e o]; [split; [done|by intros H%Exists_nil]|].
  unfold open_stream, synthesizeTlsCertUseFile. pose proof (map_certs_spec put_useFile (healStreamNetworkKey (e :: o))) as M.
  rewrite (certs_of_ext _ (e :: o) (heal_tls _)) in M. rewrite <-put_useFile_none.
  destruct (map_tlsCerts _ _) as [u|]; [destruct M as (M & _)|]; rewrite M; done.
Qed.

(** C23. Whatever a stored row holds, the inbound editor either raises, exactly because a TLS certificate is a primitive, or opens
    with values in range: the reset day and interval, the traffic multiplier, the reset and the address strategy among
    their choices, a sort index and a protocol.  Its stream then names the network the row names, under the former key
    [method] or the present one, has the slice of that network and the switch of every certificate, and keeps every
    key that is not of a network, of TLS or of the socket. *)
Theorem form_values_typed row :
  match rawInboundToFormValues row with
  | None => Exists (fun c => is_structure c = false) (certs_of (coerceJsonObject (r_streamSettings row)))
  | Some (v, _) =>
      Forall (fun c => is_structure c = true) (certs_of (coerceJsonObject (r_streamSettings row))) /\ form_ranges v /\
      match f_streamSettings v with
      | Some s => stream_ready (coerceJsonObject (r_streamSettings row)) s
      | None => coerceJsonObject (r_streamSettings row) = []
      end
  end.
Proof.
  destruct (rawInboundToFormValues row) as [[v row']|] eqn:E; [|by apply rawInbound_raises_iff]. split.
  - apply List.Forall_forall. intros c I. destruct (is_structure c) eqn:S; [done|]. exfalso. enough (rawInboundToFormValues row = None) by congruence.
    apply rawInbound_raises_iff, List.Exists_exists. by exists c.
  - unfold rawInboundToFormValues in E. destruct (coerceJsonObject _) as [|e o]; [injection E as <- <-; split; [apply form_of_ranges|done]|].
    destruct (open_stream (e :: o)) as [s|] eqn:O; [|done]. injection E as <- _. split; [apply form_of_ranges|]. by apply open_stream_ready.
Qed.

(** A row with values out of every range, and a legacy stream. *)
Definition sample_row : RawInboundRow :=
  {| r_port := None; r_listen := None; r_protocol := Some ""; r_tag := None;
     r_settings := VStr "[1]"; r_streamSettings := VObj [("method", VStr "ws"); ("tlsSettings", VObj [("certificates", VArr [VObj []])])]; r_sniffing := VStr "oops";
     r_up := None; r_down := None; r_total := None; r_speedLimitKbps := Some 8; r_speedLimitUpKbps := None; r_speedLimitDownKbps := Some 9;
     r_trafficMultiplierBps := Some (-1); r_remark := None; r_enable := None; r_expiryTime := None;
     r_trafficReset := VStr "yearly"; r_trafficResetDay := Some 40; r_trafficResetInterval := Some 0; r_lastTrafficResetTime := None;
     r_nodeId := None; r_shareAddrStrategy := VNull; r_shareAddr := None; r_subSortIndex := Some 0; r_disableFlow := None |}.

Lemma form_values_typed_witness : exists v row' s, rawInboundToFormValues sample_row = Some (v, row') /\ form_ranges v /\ f_streamSettings v = Some s /\
  obj_get s "network" = VStr "ws".
Proof.
  pose proof (form_values_typed sample_row) as H. destruct (rawInboundToFormValues sample_row) as [[v row']|] eqn:E; [|vm_compute in E; discriminate E].
  destruct H as (_ & R & S). exists v, row'. destruct (f_streamSettings v) as [s|] eqn:F; [|discriminate S]. exists s. split; [done|]. split; [done|]. split; [done|].
  rewrite (sr_network _ _ S). reflexivity.
Defined.
