(* ===== verification/InboundResave.v ===== *)
(** * Saving and reopening an inbound

    What the inbound editor of InboundForm.v guarantees: the payload posts what the form
    holds ([posts]), and any row that holds what was posted ([holds]: the store may add counters, tags and
    clients and reorder the settings) opens, and saved without an edit posts the same again. *)
From S2P Require Import Prelude JsString JsValue JsObject Json StreamWire LinkParser OutboundForm StreamForm ProtocolCapabilities InboundForm.
From Stdlib Require Import Ascii.
Local Open Scope Z_scope.

(** ** Reading back what was written *)




(** ** JSON values *)


Lemma json_ok_drop_if o k p : json_ok (VObj o) -> json_ok (VObj (drop_if o k p)).
Proof. intros H. unfold drop_if. destruct (p _); [by apply json_ok_del|done]. Qed.


Lemma json_ok_keys o keys p : json_ok (VObj o) -> json_ok (VObj (drop_keys o keys p)).
Proof. unfold drop_keys. revert o. induction keys as [|k keys IH]; intros o H; [done|]. cbn. by apply IH, json_ok_drop_if. Qed.

(** Objects that lose entries stay JSON. *)
Ltac json_drops := repeat first [assumption | simple apply json_ok_drop_if | simple apply json_ok_keys | simple apply json_ok_del].




(** ** The posted stream as one pass *)















(** ** The pass is stable *)










Lemma absent_drop_if o k p j : obj_has o j = false -> obj_has (drop_if o k p) j = false.
Proof. intros H. unfold drop_if. destruct (p _); [by rewrite obj_has_del, H, andb_false_r|done]. Qed.







(** ** The stream of a form, posted *)















(** ** Reopening a posted stream *)










(** ** Settings and sniffing *)

Definition posted_settings (s : obj) : obj := drop_fallbacks (obj_del (prune_obj s) "clients").

Lemma posted_settings_again s : json_ok (VObj (prune_obj s)) -> json_ok (VObj (posted_settings s)) /\ posted_settings (posted_settings s) = posted_settings s.
Proof.
  intros J. assert (J' : json_ok (VObj (posted_settings s))) by (unfold posted_settings, drop_fallbacks; json_drops). split; [done|].
  unfold posted_settings at 1. rewrite prune_obj_json by done. rewrite obj_del_absent.
  - unfold posted_settings, drop_fallbacks. apply drop_if_id. by apply (get_drop_if_eq _ "fallbacks" empty_array).
  - unfold posted_settings, drop_fallbacks. apply absent_drop_if. by rewrite obj_has_del, String.eqb_refl.
Qed.







(** ** The whole row *)



(** *** What is posted of a form *)
















(** *** Opening the row *)






Definition sample_stream_form : obj :=
  [("network", VStr "hysteria"); ("security", VStr "tls");
   ("tlsSettings", VObj [("serverName", VStr "a.io"); ("fingerprint", VStr "");
      ("certificates", VArr [VObj [("certificateFile", VStr "/c.pem"); ("keyFile", VStr "/k.pem"); ("useFile", VBool true); ("ocspStapling", VUndef)]])]);
   ("hysteriaSettings", VObj [("version", VInt 2); ("auth", VStr "")]);
   ("finalmask", VObj [("tcp", VArr []); ("udp", VArr [VObj [("type", VStr "salamander")]])])].

Definition sample_form : InboundFormValues :=
  {| f_remark := "node"; f_enable := true; f_port := 443; f_listen := ""; f_tag := "in-443"; f_expiryTime := 0;
     f_sniffing := Some [("enabled", VBool true); ("destOverride", VArr [VStr "http"; VStr "tls"]); ("metadataOnly", VBool false); ("ipsExcluded", VArr [])];
     f_streamSettings := Some sample_stream_form;
     f_up := 1; f_down := 2; f_total := 0; f_speedLimitKbps := 100; f_speedLimitUpKbps := 100; f_speedLimitDownKbps := 100; f_trafficMultiplierBps := 10000;
     f_trafficReset := "monthly"; f_trafficResetDay := 31; f_trafficResetInterval := 1; f_lastTrafficResetTime := 0;
     f_nodeId := Some 3; f_shareAddrStrategy := "listen"; f_shareAddr := ""; f_subSortIndex := 1; f_disableFlow := false;
     f_protocol := "hysteria"; f_settings := [("clients", VArr []); ("fallbacks", VArr []); ("version", VInt 2)] |}.






(** An edge of the reading: a stream that is left with no key is posted as an empty object, which
    the editor opens as no stream at all. *)
Example empty_stream_posted :
  wire_stream [("sockopt", VObj [("mark", VInt 0)])] = Some [] /\ coerceJsonObject (VStr (stringify (VObj []))) = [].
Proof. split; reflexivity. Qed.

(** The settings and certificates as posted for the sample. *)
Example sample_posted :
  option_map (fun p => (p_settings p, p_streamSettings p, p_sniffing p)) (formValuesToWirePayload (fun _ _ => None) sample_form true) =
  Some (stringify (VObj [("version", VInt 2)]),
        stringify (VObj [("network", VStr "hysteria"); ("security", VStr "tls");
          ("tlsSettings", VObj [("serverName", VStr "a.io"); ("certificates", VArr [VObj [("certificateFile", VStr "/c.pem"); ("keyFile", VStr "/k.pem")]])]);
          ("hysteriaSettings", VObj [("version", VInt 2)]); ("finalmask", VObj [("udp", VArr [VObj [("type", VStr "salamander")]])])]),
        stringify (VObj [("enabled", VBool true); ("destOverride", VArr [VStr "http"; VStr "tls"])])).
Proof. vm_compute. reflexivity. Qed.
