(* ===== verification/InboundList.v ===== *)
(** * The list of inbounds

    Models the state of the inbounds page, src/frontend/src/pages/inbounds/useInbounds.ts: the rows of the
    list ([DBInbound] of src/frontend/src/models/dbinbound.ts, the fields the page uses), the online
    clients by hosting node, the speeds, and the WebSocket events merged into them; the rollup of the
    clients of an inbound; [coerceInboundJsonField].  A field of an event that may be absent is an
    option.  Sets and maps are stdpp's; [now] is [Date.now()].  The speeds are quotients by the poll
    interval, exact decimals. *)
From S2P Require Import Prelude JsString JsValue Json TrafficDisplay ProtocolCapabilities InboundForm.
From stdpp Require Import gmap.
Local Open Scope Z_scope.

(** ** Rows *)

Record ClientStats := {
  cs_email : string; cs_up : Z; cs_down : Z; cs_billedUp : option Z; cs_billedDown : option Z;
  cs_chargeExtraBytes : option Z; cs_chargeDiscountBytes : option Z; cs_total : Z; cs_expiryTime : Z; cs_enable : option bool }.

Record DBInbound := {
  id : Z; tag : string; nodeId : option Z; originNodeGuid : string; protocol : string; settings : jsval;
  enable : bool; up : Z; down : Z; total : Z; clientStats : list ClientStats }.

#[export] Instance ClientStats_eq_dec : EqDecision ClientStats.
Proof. solve_decision. Defined.

(** [coerceInboundJsonField] *)
Definition coerceInboundJsonField (value : jsval) : obj :=
  match value with
  | VObj o => o
  | VStr s =>
      let trimmed := trim s in
      if String.eqb trimmed "" then []
      else match JSON_parse trimmed with Some (VObj o) => o | _ => [] end
  | _ => []
  end.

(** ** Online clients by node *)

Abbreviation guid_sets := (gmap string (gset string)).

(** [None]: an entry that is not an array. *)
Definition toGuidOnlineMap (data : list (string * option (list string))) : guid_sets :=
  fold_left (fun (m : guid_sets) e => match e.2 with Some emails => <[e.1 := list_to_set emails]> m | None => m end) data ∅.

Definition sameGuidSets (a b : guid_sets) : bool :=
  bool_decide (size a = size b) &&
  forallb (fun kv : string * gset string =>
             match a !! kv.1 with
             | None => false
             | Some prev => bool_decide (size prev = size kv.2) && forallb (fun v => bool_decide (v ∈ prev)) (elements kv.2)
             end) (map_to_list b).

(** ** Rollup of the clients of an inbound *)

Record ClientEntry := { ce_email : string; ce_enable : bool; ce_comment : string }.

Record ClientRollup := {
  ru_clients : nat; ru_active : list string; ru_deactive : list string; ru_depleted : list string;
  ru_expiring : list string; ru_online : list string; ru_comments : gmap string string }.

Definition traffic_of (s : ClientStats) : Traffic :=
  {| t_up := Some (cs_up s); t_down := Some (cs_down s); t_billedUp := cs_billedUp s; t_billedDown := cs_billedDown s;
     t_chargeExtraBytes := cs_chargeExtraBytes s; t_chargeDiscountBytes := cs_chargeDiscountBytes s |}.

(** The node that hosts an inbound. *)
Definition guid_of (ib : DBInbound) : string :=
  if String.eqb (originNodeGuid ib) "" then match nodeId ib with Some n => "node:" +:+ string_of_Z n | None => "" end
  else originNodeGuid ib.

Definition statsByEmail (stats : list ClientStats) : gmap string ClientStats :=
  fold_left (fun (m : gmap string ClientStats) s => if String.eqb (cs_email s) "" then m else <[to_lower (cs_email s) := s]> m) stats ∅.

Record thresholds := { now : Z; expireDiff : Z; trafficDiff : Z }.

Definition is_depleted (th : thresholds) (stats : option ClientStats) : bool :=
  match stats with
  | None => false
  | Some s => ((0 <? cs_expiryTime s) && (cs_expiryTime s <=? now th)) ||
              ((0 <? cs_total s) && (cs_total s <=? chargedTrafficBytes (traffic_of s)))
  end.

Definition is_expiring (th : thresholds) (stats : option ClientStats) : bool :=
  match stats with
  | None => false
  | Some s => ((0 <? cs_expiryTime s) && (cs_expiryTime s - now th <? expireDiff th)) ||
              ((0 <? cs_total s) && (cs_total s - chargedTrafficBytes (traffic_of s) <? trafficDiff th))
  end.

Definition empty_rollup (n : nat) : ClientRollup :=
  {| ru_clients := n; ru_active := []; ru_deactive := []; ru_depleted := []; ru_expiring := []; ru_online := []; ru_comments := ∅ |}.

(** The loop body of an enabled inbound. *)
Definition roll_client (th : thresholds) (stats : gmap string ClientStats) (online_here : string -> bool) (r : ClientRollup) (c : ClientEntry) : ClientRollup :=
  let email := ce_email c in
  if String.eqb email "" then r
  else
    let comments := if String.eqb (ce_comment c) "" then ru_comments r else <[email := ce_comment c]> (ru_comments r) in
    let st := stats !! to_lower email in
    if is_depleted th st then
      {| ru_clients := ru_clients r; ru_active := ru_active r; ru_deactive := ru_deactive r; ru_depleted := ru_depleted r ++ [email];
         ru_expiring := ru_expiring r; ru_online := ru_online r; ru_comments := comments |}
    else if negb (ce_enable c) then
      {| ru_clients := ru_clients r; ru_active := ru_active r; ru_deactive := ru_deactive r ++ [email]; ru_depleted := ru_depleted r;
         ru_expiring := ru_expiring r; ru_online := ru_online r; ru_comments := comments |}
    else
      {| ru_clients := ru_clients r; ru_active := ru_active r ++ [email]; ru_deactive := ru_deactive r; ru_depleted := ru_depleted r;
         ru_expiring := if is_expiring th st then ru_expiring r ++ [email] else ru_expiring r;
         ru_online := if online_here email then ru_online r ++ [email] else ru_online r; ru_comments := comments |}.

Definition rollupClients (th : thresholds) (onlineByGuid activeByGuid : guid_sets) (ib : DBInbound) (clients : list ClientEntry) : ClientRollup :=
  let nodeOnline := onlineByGuid !! guid_of ib in
  let inboundActive := match activeByGuid !! guid_of ib with
                       | None => true
                       | Some tags => String.eqb (tag ib) "" || bool_decide (tag ib ∈ tags)
                       end in
  let online_here email := inboundActive && match nodeOnline with Some s => bool_decide (email ∈ s) | None => false end in
  if enable ib then fold_left (roll_client th (statsByEmail (clientStats ib)) online_here) clients (empty_rollup (length clients))
  else
    {| ru_clients := length clients; ru_active := [];
       ru_deactive := List.filter (fun e => negb (String.eqb e "")) (map ce_email clients);
       ru_depleted := []; ru_expiring := []; ru_online := []; ru_comments := ∅ |}.

Definition TRACKED_PROTOCOLS : list string :=
  ["vmess"; "vless"; "trojan"; "shadowsocks"; "hysteria"; "wireguard"; "mtproto"; "amneziawg"; "tuic"].

Definition client_entry (v : jsval) : ClientEntry :=
  {| ce_email := str_or_empty (get v "email"); ce_enable := truthy (get v "enable"); ce_comment := str_or_empty (get v "comment") |}.

(** [clientCount]: the rollups of the rows that have clients. *)
Definition clientCount (th : thresholds) (onlineByGuid activeByGuid : guid_sets) (rows : list DBInbound) : gmap Z ClientRollup :=
  fold_left (fun (m : gmap Z ClientRollup) ib =>
    let s := coerceInboundJsonField (settings ib) in
    let method := match obj_get s "method" with VStr v => Some v | _ => None end in
    if negb (includes TRACKED_PROTOCOLS (protocol ib)) then m
    else if String.eqb (protocol ib) "shadowsocks" && String.eqb (default "" method) SS_BLAKE3_CHACHA20 then m
    else <[id ib := rollupClients th onlineByGuid activeByGuid ib (map client_entry (as_list (obj_get s "clients")))]> m) rows ∅.

(** [totals] *)
Definition totals (rows : list DBInbound) : Z * Z := fold_left (fun t ib => (t.1 + up ib, t.2 + down ib)) rows (0, 0).

(** ** Traffic events *)

Definition TRAFFIC_POLL_INTERVAL_S : Z := 5.

(** [z / TRAFFIC_POLL_INTERVAL_S] *)
Definition per_second (z : Z) : num := num_norm 1 (2 * z).

Record InboundSpeedEntry := { sp_up : num; sp_down : num }.

Record TrafficDelta := { td_Tag : option string; td_Up : option Z; td_Down : option Z; td_IsInbound : option bool }.

Definition byTag (traffics : list TrafficDelta) : gmap string TrafficDelta :=
  fold_left (fun (m : gmap string TrafficDelta) tr =>
    match td_Tag tr with
    | Some t => if bool_decide (td_IsInbound tr = Some false) then m else <[t := tr]> m
    | None => m
    end) traffics ∅.

Definition speed_of (d : TrafficDelta) : InboundSpeedEntry :=
  {| sp_up := per_second (default 0 (td_Up d)); sp_down := per_second (default 0 (td_Down d)) |}.

Definition applyTraffics (rows : list DBInbound) (traffics : list TrafficDelta) (inScope : DBInbound -> bool)
    (speed : gmap Z InboundSpeedEntry) : gmap Z InboundSpeedEntry :=
  fold_left (fun (m : gmap Z InboundSpeedEntry) ib =>
    if negb (inScope ib) then m
    else match byTag traffics !! tag ib with
         | Some d => <[id ib := speed_of d]> m
         | None => delete (id ib) m
         end) rows speed.

Definition is_local (ib : DBInbound) : bool := match nodeId ib with None => true | Some _ => false end.
Definition is_remote (ib : DBInbound) : bool := negb (is_local ib).

Record TrafficPayload := {
  tp_traffics : option (list TrafficDelta); tp_nodeTraffics : option (list TrafficDelta); tp_onlineClients : option (list string);
  tp_onlineByGuid : option (list (string * option (list string))); tp_activeInbounds : option (list (string * option (list string)));
  tp_lastOnlineMap : option (list (string * Z)) }.

(** ** The page *)

Record page := {
  dbInbounds : list DBInbound; inboundSpeed : gmap Z InboundSpeedEntry; onlineClients : list string;
  onlineByGuid : guid_sets; activeByGuid : guid_sets; lastOnlineMap : gmap string Z }.

Definition keep_or_replace (prev : guid_sets) (data : option (list (string * option (list string)))) : guid_sets :=
  match data with
  | None => prev
  | Some d => let next := toGuidOnlineMap d in if sameGuidSets prev next then prev else next
  end.

Definition speed_after (rows : list DBInbound) (p : TrafficPayload) (speed : gmap Z InboundSpeedEntry) : gmap Z InboundSpeedEntry :=
  let speed := match tp_traffics p with Some t => applyTraffics rows t is_local speed | None => speed end in
  match tp_nodeTraffics p with Some t => applyTraffics rows t is_remote speed | None => speed end.

Definition applyTrafficEvent (p : TrafficPayload) (s : page) : page :=
  {| dbInbounds := dbInbounds s;
     inboundSpeed := speed_after (dbInbounds s) p (inboundSpeed s);
     onlineClients := default (onlineClients s) (tp_onlineClients p);
     onlineByGuid := keep_or_replace (onlineByGuid s) (tp_onlineByGuid p);
     activeByGuid := keep_or_replace (activeByGuid s) (tp_activeInbounds p);
     lastOnlineMap := match tp_lastOnlineMap p with
                      | Some l => fold_left (fun (m : gmap string Z) kv => <[kv.1 := kv.2]> m) l (lastOnlineMap s)
                      | None => lastOnlineMap s
                      end |}.

(** ** Statistics events *)

Record InboundUpdate := { iu_id : option Z; iu_up : option Z; iu_down : option Z; iu_total : option Z; iu_enable : option bool }.

Record ClientUpdate := {
  cu_email : string; cu_up : option Z; cu_down : option Z; cu_billedUp : option Z; cu_billedDown : option Z;
  cu_chargeExtraBytes : option Z; cu_chargeDiscountBytes : option Z; cu_total : option Z; cu_expiryTime : option Z; cu_enable : option bool }.

Definition byId (l : list InboundUpdate) : gmap Z InboundUpdate :=
  fold_left (fun (m : gmap Z InboundUpdate) u => match iu_id u with Some i => <[i := u]> m | None => m end) l ∅.

Definition byEmail (l : list ClientUpdate) : gmap string ClientUpdate :=
  fold_left (fun (m : gmap string ClientUpdate) u => if String.eqb (cu_email u) "" then m else <[cu_email u := u]> m) l ∅.

(** [typeof new === 'number' ? new : old] for an optional field. *)
Definition or_old {A} (new old : option A) : option A := match new with Some x => Some x | None => old end.

Definition merge_stat (su : ClientUpdate) (st : ClientStats) : ClientStats :=
  {| cs_email := cs_email st; cs_up := default (cs_up st) (cu_up su); cs_down := default (cs_down st) (cu_down su);
     cs_billedUp := or_old (cu_billedUp su) (cs_billedUp st); cs_billedDown := or_old (cu_billedDown su) (cs_billedDown st);
     cs_chargeExtraBytes := or_old (cu_chargeExtraBytes su) (cs_chargeExtraBytes st);
     cs_chargeDiscountBytes := or_old (cu_chargeDiscountBytes su) (cs_chargeDiscountBytes st);
     cs_total := default (cs_total st) (cu_total su); cs_expiryTime := default (cs_expiryTime st) (cu_expiryTime su);
     cs_enable := or_old (cu_enable su) (cs_enable st) |}.

(** The statistics of a row, with whether any of them moved. *)
Definition next_stats (emails : gmap string ClientUpdate) (stats : list ClientStats) : list ClientStats * bool :=
  let merged := map (fun st => match emails !! cs_email st with Some su => merge_stat su st | None => st end) stats in
  (merged, negb (bool_decide (merged = stats))).

Definition moved {A} `{EqDecision A} (new : option A) (old : A) : bool := match new with Some x => negb (bool_decide (x = old)) | None => false end.

Definition inbound_moved (upd : option InboundUpdate) (ib : DBInbound) : bool :=
  match upd with
  | None => false
  | Some u => moved (iu_up u) (up ib) || moved (iu_down u) (down ib) || moved (iu_total u) (total ib) || moved (iu_enable u) (enable ib)
  end.

Definition apply_update (upd : option InboundUpdate) (stats : list ClientStats) (ib : DBInbound) : DBInbound :=
  let f {A} (g : InboundUpdate -> option A) (old : A) : A := match upd with Some u => default old (g u) | None => old end in
  {| id := id ib; tag := tag ib; nodeId := nodeId ib; originNodeGuid := originNodeGuid ib; protocol := protocol ib; settings := settings ib;
     enable := f iu_enable (enable ib); up := f iu_up (up ib); down := f iu_down (down ib); total := f iu_total (total ib); clientStats := stats |}.

(** One row: unchanged ([false]), or rebuilt. *)
Definition merge_row (ids : gmap Z InboundUpdate) (emails : gmap string ClientUpdate) (ib : DBInbound) : DBInbound * bool :=
  let upd := ids !! id ib in
  let '(stats, statsTouched) := next_stats emails (clientStats ib) in
  if negb (inbound_moved upd ib) && negb statsTouched then (ib, false)
  else (apply_update upd (if statsTouched then stats else clientStats ib) ib, true).

Definition set_rows (rows : list DBInbound) (s : page) : page :=
  {| dbInbounds := rows; inboundSpeed := inboundSpeed s; onlineClients := onlineClients s; onlineByGuid := onlineByGuid s;
     activeByGuid := activeByGuid s; lastOnlineMap := lastOnlineMap s |}.

(** The page after a statistics event, and whether the rows were replaced. *)
Definition applyClientStatsEvent (inbounds : list InboundUpdate) (clients : list ClientUpdate) (s : page) : page * bool :=
  let ids := byId inbounds in let emails := byEmail clients in
  if bool_decide (ids = ∅) && bool_decide (emails = ∅) then (s, false)
  else
    let next := map (merge_row ids emails) (dbInbounds s) in
    if existsb snd next then (set_rows (map fst next) s, true) else (s, false).

(** [hydrateInbound]: the full row takes the place of the slim one. *)
Definition hydrateInbound (full : option DBInbound) (rid : Z) (s : page) : page :=
  match full with
  | None => s
  | Some row => set_rows (map (fun ib => if id ib =? rid then row else ib) (dbInbounds s)) s
  end.

(** ** The rollup counts every client once *)

Definition client_emails (clients : list ClientEntry) : list string := List.filter (fun e => negb (String.eqb e "")) (map ce_email clients).

(** Every client with an email is in exactly one of the three groups, and only active clients are
    shown as online or as expiring. *)
Record rollup_ok (emails : list string) (r : ClientRollup) : Prop := {
  ro_partition : Permutation (ru_active r ++ ru_deactive r ++ ru_depleted r) emails;
  ro_online : sublist (ru_online r) (ru_active r);
  ro_expiring : sublist (ru_expiring r) (ru_active r) }.

Lemma roll_client_ok th stats online r c emails : rollup_ok emails r ->
  rollup_ok (emails ++ client_emails [c]) (roll_client th stats online r c) /\ ru_clients (roll_client th stats online r c) = ru_clients r.
Proof.
  intros [P O E]. unfold roll_client, client_emails. cbn [map List.filter]. destruct (String.eqb (ce_email c) ""); cbn [negb]; [rewrite app_nil_r; done|]. cbv zeta.
  set (e := ce_email c). destruct (is_depleted th _); [|destruct (ce_enable c); cbn [negb]]; (split; [|done]); split; cbn [ru_active ru_deactive ru_depleted ru_online ru_expiring]; try done;
    try (rewrite <-P; solve_Permutation).
  - destruct (online e); [by apply sublist_app|by apply sublist_inserts_r].
  - destruct (is_expiring th _); [by apply sublist_app|by apply sublist_inserts_r].
Qed.

Lemma roll_clients_ok th stats online clients : forall emails r, rollup_ok emails r ->
  rollup_ok (emails ++ client_emails clients) (fold_left (roll_client th stats online) clients r) /\
  ru_clients (fold_left (roll_client th stats online) clients r) = ru_clients r.
Proof.
  induction clients as [|c clients IH]; intros emails r H; [cbn; by rewrite app_nil_r|]. destruct (roll_client_ok th stats online r c emails H) as [H1 H2].
  destruct (IH _ _ H1) as [H3 H4]. cbn [fold_left]. split; [|congruence].
  replace (emails ++ client_emails (c :: clients)) with ((emails ++ client_emails [c]) ++ client_emails clients); [done|].
  rewrite <-app_assoc. unfold client_emails. cbn [map List.filter]. by destruct (negb _).
Qed.

(** The rollup of an inbound counts every client with an email in exactly one of active, deactive
    and depleted, shows only active clients as online or expiring, and a disabled inbound has only
    deactive clients. *)
Theorem rollup_partition th onl act ib clients (r := rollupClients th onl act ib clients) :
  rollup_ok (client_emails clients) r /\ ru_clients r = length clients /\
  (enable ib = false -> ru_deactive r = client_emails clients /\ ru_active r = [] /\ ru_depleted r = []).
Proof.
  subst r. unfold rollupClients. destruct (enable ib).
  - destruct (roll_clients_ok th (statsByEmail (clientStats ib)) (fun email =>
      match act !! guid_of ib with Some tags => String.eqb (tag ib) "" || bool_decide (tag ib ∈ tags) | None => true end &&
      match onl !! guid_of ib with Some s => bool_decide (email ∈ s) | None => false end) clients [] (empty_rollup (length clients))) as [H1 H2]; [done|].
    split; [exact H1|]. split; [exact H2|done].
  - split; [|done]. split; cbn; [by rewrite app_nil_r|constructor|constructor].
Qed.

(** ** Comparing the online sets *)

Lemma elements_subset (s prev : gset string) : forallb (fun v => bool_decide (v ∈ prev)) (elements s) = true <-> s ⊆ prev.
Proof.
  rewrite forallb_forall. split.
  - intros H v Hv. eapply bool_decide_eq_true_1, H. apply list_elem_of_In, elem_of_elements, Hv.
  - intros H v Hv. apply bool_decide_eq_true_2, H. by apply elem_of_elements, list_elem_of_In.
Qed.

Lemma sameGuidSets_eq a b : sameGuidSets a b = true <-> a = b.
Proof.
  unfold sameGuidSets. rewrite andb_true_iff, bool_decide_eq_true, forallb_forall. split.
  - intros [S H]. symmetry. apply map_subseteq_size_eq; [|by rewrite S]. apply map_subseteq_spec. intros k s Hs.
    specialize (H (k, s) ltac:(by apply list_elem_of_In, elem_of_map_to_list)). cbn in H. destruct (a !! k) as [prev|]; [|done].
    apply andb_true_iff in H as [Hsz%bool_decide_eq_true Hsub%elements_subset]. f_equal. symmetry. apply set_subseteq_size_eq; [done|by rewrite Hsz].
  - intros <-. split; [done|]. intros [k s] Hs%list_elem_of_In%elem_of_map_to_list. cbn. rewrite Hs. apply andb_true_iff. split; [by apply bool_decide_eq_true|by apply elements_subset].
Qed.

(** The comparison that avoids recomputing the rollups is exactly equality of the online sets: an
    event that changes them is never dropped, one that repeats them never counts as a change. *)
Theorem sameGuidSets_exact a b : sameGuidSets a b = true <-> a = b.
Proof. apply sameGuidSets_eq. Qed.

(** So merging an event always shows its sets. *)
Lemma keep_or_replace_shows prev d : keep_or_replace prev (Some d) = toGuidOnlineMap d.
Proof. unfold keep_or_replace. destruct (sameGuidSets _ _) eqn:E; [by apply sameGuidSets_eq in E|done]. Qed.

(** ** The two polls do not disturb each other *)

Lemma applyTraffics_other rows traffics scope i : forall speed, (forall ib, In ib rows -> scope ib = true -> id ib <> i) ->
  applyTraffics rows traffics scope speed !! i = speed !! i.
Proof.
  unfold applyTraffics. induction rows as [|ib rows IH]; intros speed H; [done|]. cbn [fold_left]. rewrite IH by (intros; apply H; [by right|done]).
  destruct (scope ib) eqn:S; cbn [negb]; [|done]. assert (N : id ib <> i) by (apply H; [by left|done]).
  destruct (_ !! tag ib); [by apply lookup_insert_ne|by apply lookup_delete_ne].
Qed.

(** The speed of a row in scope is that of its tag, or none. *)
Lemma applyTraffics_in rows traffics scope ib : NoDup (map id rows) -> In ib rows -> scope ib = true -> forall speed,
  applyTraffics rows traffics scope speed !! id ib = speed_of <$> byTag traffics !! tag ib.
Proof.
  intros D Hin S. unfold applyTraffics. induction rows as [|x rows IH]; [done|]. intros speed. cbn [map] in D. apply NoDup_cons in D as [Hn D]. cbn [fold_left].
  destruct Hin as [->|Hin]; [|by apply IH]. rewrite S. cbn [negb].
  assert (O : forall m, fold_left (fun (m : gmap Z InboundSpeedEntry) ib => if negb (scope ib) then m else match byTag traffics !! tag ib with Some d => <[id ib := speed_of d]> m | None => delete (id ib) m end) rows m !! id ib = m !! id ib).
  { intros m. apply (applyTraffics_other rows traffics scope (id ib) m). intros y Hy _ E. apply Hn. rewrite <-E. by apply list_elem_of_In, in_map. }
  rewrite O. destruct (byTag traffics !! tag ib); [apply lookup_insert_eq|apply lookup_delete_eq].
Qed.

Lemma scopes_disjoint rows i : (exists ib, In ib rows /\ is_local ib = true /\ id ib = i) -> NoDup (map id rows) -> forall ib, In ib rows -> is_remote ib = true -> id ib <> i.
Proof.
  intros (x & Hx & Lx & <-) D y Hy Ry E. assert (x = y) as ->; [|unfold is_remote in Ry; by rewrite Lx in Ry].
  induction rows as [|z rows IH]; [done|]. cbn [map] in D. apply NoDup_cons in D as [Hn D].
  assert (M : forall w, In w rows -> id w ∈ map id rows) by (intros; by apply list_elem_of_In, in_map).
  destruct Hx as [->|Hx], Hy as [->|Hy]; [done| | |by apply IH]; destruct Hn; [rewrite <-E|rewrite E]; by apply M.
Qed.

(** The local poll and the node poll are independent: in whichever order their reports arrive, the
    speeds shown are the same. *)
Theorem polls_commute rows local remote speed : NoDup (map id rows) ->
  applyTraffics rows remote is_remote (applyTraffics rows local is_local speed) =
  applyTraffics rows local is_local (applyTraffics rows remote is_remote speed).
Proof.
  intros D. apply map_eq. intros i.
  destruct (existsb (fun ib => is_local ib && (id ib =? i)) rows) eqn:L.
  - apply existsb_exists in L as (ib & Hin & [Ll E%Z.eqb_eq]%andb_true_iff). subst i.
    rewrite applyTraffics_other by (apply scopes_disjoint; [by exists ib|done]). by rewrite !applyTraffics_in.
  - assert (N : forall ib, In ib rows -> is_local ib = true -> id ib <> i).
    { intros ib Hin Hl E. assert (existsb (fun ib => is_local ib && (id ib =? i)) rows = true); [|congruence]. apply existsb_exists. exists ib. split; [done|]. rewrite Hl, E. cbn. lia. }
    rewrite (applyTraffics_other rows local is_local) by done. destruct (existsb (fun ib => is_remote ib && (id ib =? i)) rows) eqn:R.
    + apply existsb_exists in R as (ib & Hin & [Rr E%Z.eqb_eq]%andb_true_iff). subst i. by rewrite !applyTraffics_in.
    + rewrite !applyTraffics_other; try done.
      all: intros ib Hin Hr E; assert (existsb (fun ib => is_remote ib && (id ib =? i)) rows = true); [|congruence]; apply existsb_exists; exists ib; (split; [done|]); rewrite Hr, E; cbn; lia.
Qed.

Definition sample_rows : list DBInbound :=
  [{| id := 1; tag := "in-1"; nodeId := None; originNodeGuid := ""; protocol := "vless"; settings := VStr ""; enable := true; up := 0; down := 0; total := 0; clientStats := [] |};
   {| id := 2; tag := "n1-in-1"; nodeId := Some 1; originNodeGuid := ""; protocol := "vless"; settings := VStr ""; enable := true; up := 0; down := 0; total := 0; clientStats := [] |}].

Definition sample_delta (t : string) (z : Z) : TrafficDelta := {| td_Tag := Some t; td_Up := Some z; td_Down := None; td_IsInbound := None |}.

Lemma polls_commute_witness :
  applyTraffics sample_rows [sample_delta "n1-in-1" 10] is_remote (applyTraffics sample_rows [sample_delta "in-1" 7] is_local ∅) =
  applyTraffics sample_rows [sample_delta "in-1" 7] is_local (applyTraffics sample_rows [sample_delta "n1-in-1" 10] is_remote ∅).
Proof. apply (polls_commute sample_rows [sample_delta "in-1" 7] [sample_delta "n1-in-1" 10] ∅). apply (bool_decide_unpack _). vm_compute. reflexivity. Defined.

(** ** Statistics events are idempotent *)

Lemma default_default {A} (o : option A) d : default (default d o) o = default d o.
Proof. by destruct o. Qed.

Lemma or_old_idem {A} (new old : option A) : or_old new (or_old new old) = or_old new old.
Proof. by destruct new. Qed.

Lemma merge_stat_idem su st : merge_stat su (merge_stat su st) = merge_stat su st.
Proof. unfold merge_stat. cbn. by rewrite !default_default, !or_old_idem. Qed.

Lemma next_stats_idem emails stats : next_stats emails (fst (next_stats emails stats)) = (fst (next_stats emails stats), false).
Proof.
  unfold next_stats. cbn [fst]. set (f := fun st => match emails !! cs_email st with Some su => merge_stat su st | None => st end).
  assert (E : map f (map f stats) = map f stats).
  { rewrite map_map. apply map_ext. intros st. subst f. cbv beta. destruct (emails !! cs_email st) as [su|] eqn:E; [|by rewrite E].
    change (cs_email (merge_stat su st)) with (cs_email st). rewrite E. apply merge_stat_idem. }
  rewrite E. by rewrite bool_decide_true.
Qed.

Lemma moved_default {A} `{EqDecision A} (new : option A) old : moved new (default old new) = false.
Proof. destruct new; [|done]. cbn. by rewrite bool_decide_true. Qed.

Lemma inbound_settled upd stats ib : inbound_moved upd (apply_update upd stats ib) = false.
Proof. destruct upd as [u|]; [|done]. cbn. by rewrite !moved_default. Qed.

Lemma next_stats_untouched emails stats : snd (next_stats emails stats) = false -> fst (next_stats emails stats) = stats.
Proof. unfold next_stats. cbn. rewrite negb_false_iff. apply bool_decide_eq_true. Qed.

Lemma merge_row_idem ids emails ib : merge_row ids emails (fst (merge_row ids emails ib)) = (fst (merge_row ids emails ib), false).
Proof.
  unfold merge_row at 2 3. pose proof (next_stats_untouched emails (clientStats ib)) as U. pose proof (next_stats_idem emails (clientStats ib)) as J.
  destruct (next_stats emails (clientStats ib)) as [stats touched] eqn:N. cbn [fst snd] in U, J.
  destruct (negb (inbound_moved (ids !! id ib) ib) && negb touched) eqn:E; cbn [fst].
  - unfold merge_row. by rewrite N, E.
  - assert (S : (if touched then stats else clientStats ib) = stats) by (destruct touched; [done|by rewrite U]). rewrite S.
    unfold merge_row. change (id (apply_update (ids !! id ib) stats ib)) with (id ib). change (clientStats (apply_update (ids !! id ib) stats ib)) with stats.
    rewrite J, inbound_settled. done.
Qed.

Lemma existsb_map_false {A} (f : A -> A * bool) l : (forall x, In x l -> snd (f x) = false) -> existsb snd (map f l) = false.
Proof. intros H. apply not_true_iff_false. intros (y & (x & <- & Hx)%in_map_iff & Hy)%existsb_exists. by rewrite H in Hy. Qed.

(** A statistics event that is delivered twice changes the rows once: merging it again finds
    nothing moved, so that neither the rows nor what is derived from them is computed anew. *)
Theorem stats_event_once inbounds clients s :
  let s' := fst (applyClientStatsEvent inbounds clients s) in applyClientStatsEvent inbounds clients s' = (s', false).
Proof.
  cbv zeta. unfold applyClientStatsEvent at 2 3. set (ids := byId inbounds). set (emails := byEmail clients).
  destruct (bool_decide (ids = ∅) && bool_decide (emails = ∅)) eqn:E; [unfold applyClientStatsEvent; fold ids emails; by rewrite E|].
  destruct (existsb snd (map (merge_row ids emails) (dbInbounds s))) eqn:T; cbn [fst]; unfold applyClientStatsEvent; fold ids emails; rewrite E; [|by rewrite T].
  cbn [set_rows dbInbounds]. rewrite existsb_map_false; [done|]. intros ib (p & <- & (row & <- & _)%in_map_iff)%in_map_iff. by rewrite merge_row_idem.
Qed.
