(* ===== verification/InboundClone.v ===== *)
(** * Cloning an inbound

    Models src/frontend/src/lib/xray/inbound-clone.ts: the payload of a clone and the choice of its port.
    [randomInteger] draws are 32-bit words ([RandomUtil.v]); the ports in use are a finite set. *)
From S2P Require Import Prelude JsString JsValue Json RandomUtil InboundList.
From stdpp Require Import gmap.
Local Open Scope Z_scope.

(** ** The payload *)

(** The fields of the row the clone reads. *)
Record CloneSource := {
  src_remark : string; src_protocol : string; src_settings : jsval; src_streamSettings : jsval; src_sniffing : jsval;
  src_shareAddrStrategy : jsval; src_shareAddr : jsval }.

(** [raw.clients = []] on a copy of the settings, as JSON.  Neither the coercion nor the printer of
    a JSON value raises, so that the handler of the source is never entered. *)
Definition cloned_settings (settings : jsval) : obj := obj_set (coerceInboundJsonField settings) "clients" (VArr []).

(** [typeof v === 'string' ? v : JSON.stringify(v ?? {})] *)
Definition as_text (v : jsval) : string := match v with VStr s => s | _ => stringify (or_nullish v (VObj [])) end.

Definition buildClonePayload (src : CloneSource) (port : Z) (nodeId : option Z) : obj :=
  [("up", VInt 0); ("down", VInt 0); ("total", VInt 0); ("remark", VStr (src_remark src +:+ " (clone)")); ("enable", VBool false);
   ("expiryTime", VInt 0); ("listen", VStr ""); ("port", VInt port); ("protocol", VStr (src_protocol src));
   ("settings", VStr (stringify (VObj (cloned_settings (src_settings src)))));
   ("streamSettings", VStr (as_text (src_streamSettings src))); ("sniffing", VStr (as_text (src_sniffing src)));
   ("shareAddrStrategy", src_shareAddrStrategy src); ("shareAddr", src_shareAddr src)] ++
  match nodeId with Some n => [("nodeId", VInt n)] | None => [] end.

(** ** The port *)

Definition MIN_PORT : Z := 10000.
Definition MAX_PORT : Z := 60000.
Definition MAX_ATTEMPTS : nat := 20.

Definition draw_port (word : Z) : Z := randomInteger word MIN_PORT MAX_PORT.

(** The random tries: [words i] is the [i]-th draw.  The port, and how many draws were used. *)
Fixpoint tries (words : nat -> Z) (used : gset Z) (k attempt : nat) (port : Z) : Z * nat :=
  match k with
  | O => (port, attempt)
  | S k => if bool_decide (port ∈ used) then tries words used k (S attempt) (draw_port (words (S attempt))) else (port, attempt)
  end.

(** The scan from [port]; the fuel is the number of ports left in the range. *)
Fixpoint scan (fuel : nat) (used : gset Z) (port : Z) : Z :=
  match fuel with
  | O => port
  | S fuel => if (port <=? MAX_PORT) && bool_decide (port ∈ used) then scan fuel used (port + 1) else port
  end.

Definition scan_fuel : nat := Z.to_nat (MAX_PORT - MIN_PORT + 1).

Definition pickClonePort (words : nat -> Z) (used : option (gset Z)) : Z :=
  let port := draw_port (words O) in
  match used with
  | None => port
  | Some used =>
      let '(port, n) := tries words used MAX_ATTEMPTS O port in
      if bool_decide (port ∈ used) then
        let port := scan scan_fuel used MIN_PORT in
        if MAX_PORT <? port then draw_port (words (S n)) else port
      else port
  end.

(** ** The port is in range, and free when one is *)

Definition is_word (w : Z) : Prop := 0 <= w < 2 ^ 32.

Lemma draw_in_range w : is_word w -> MIN_PORT <= draw_port w <= MAX_PORT.
Proof.
  unfold is_word, draw_port, randomInteger, MIN_PORT, MAX_PORT. intros H. assert (0 <= w * (60000 - 10000 + 1) / 2 ^ 32 < 50001); [|lia].
  split; [apply Z.div_pos; lia|apply Z.div_lt_upper_bound; lia].
Qed.

Lemma tries_in_range words used : (forall i, is_word (words i)) -> forall k attempt port, MIN_PORT <= port <= MAX_PORT ->
  MIN_PORT <= fst (tries words used k attempt port) <= MAX_PORT.
Proof.
  intros W. induction k as [|k IH]; intros attempt port H; [done|]. cbn [tries]. destruct (bool_decide _); [|done]. apply IH. by apply draw_in_range.
Qed.

(** The scan stops at the first free port, or just after the range. *)
Lemma scan_spec used : forall fuel port, Z.of_nat fuel = MAX_PORT - port + 1 ->
  let p := scan fuel used port in
  port <= p <= MAX_PORT + 1 /\ (forall q, port <= q < p -> q ∈ used) /\ (p <= MAX_PORT -> p ∉ used).
Proof.
  induction fuel as [|fuel IH]; intros port F; cbn [scan]; cbv zeta; [repeat split; try lia; intros; lia|].
  destruct (Z.leb_spec port MAX_PORT) as [L|L]; cbn [andb]; [|lia]. destruct (decide (port ∈ used)) as [U|U]; [rewrite bool_decide_true by done|rewrite bool_decide_false by done].
  - destruct (IH (port + 1) ltac:(lia)) as (B & A & C). split; [lia|]. split; [|done]. intros q Hq. destruct (decide (q = port)) as [->|]; [done|]. apply A. lia.
  - split; [lia|]. split; [intros; lia|done].
Qed.

(** The port of a clone is always in the range of the form, whatever is drawn, and it is free on
    the target whenever any port of the range is. *)
Theorem pickClonePort_free words used : (forall i, is_word (words i)) ->
  let p := pickClonePort words (Some used) in
  MIN_PORT <= p <= MAX_PORT /\ ((exists q, MIN_PORT <= q <= MAX_PORT /\ q ∉ used) -> p ∉ used).
Proof.
  intros W. cbv zeta. unfold pickClonePort. pose proof (tries_in_range words used W MAX_ATTEMPTS O (draw_port (words O)) (draw_in_range _ (W O))) as R.
  destruct (tries words used MAX_ATTEMPTS O _) as [port n]. cbn [fst] in R. destruct (decide (port ∈ used)) as [U|U]; [rewrite bool_decide_true by done|by rewrite bool_decide_false].
  destruct (scan_spec used scan_fuel MIN_PORT eq_refl) as (B & A & C). set (p := scan scan_fuel used MIN_PORT) in *. clearbody p. destruct (Z.ltb_spec MAX_PORT p) as [L|L].
  - split; [by apply draw_in_range|]. intros (q & Hq & Nq). destruct Nq. apply A. lia.
  - split; [lia|]. intros _. by apply C.
Qed.

(** All ports but one in use, and a generator stuck on one that is. *)
Lemma pickClonePort_free_witness :
  let used : gset Z := {[ 10000; 10001; 35000 ]} in pickClonePort (fun _ => 2 ^ 31) (Some used) = 10002 /\ 10002 ∉ used.
Proof.
  cbv zeta. assert (E : pickClonePort (fun _ => 2 ^ 31) (Some {[ 10000; 10001; 35000 ]}) = 10002) by (vm_compute; reflexivity). split; [exact E|]. rewrite <-E.
  apply (pickClonePort_free (fun _ => 2 ^ 31) {[ 10000; 10001; 35000 ]}); [intros i; unfold is_word; lia|]. exists 50000. split; [unfold MIN_PORT, MAX_PORT; lia|].
  apply (bool_decide_unpack _). vm_compute. reflexivity.
Defined.

(** ** The clone is staged *)

(** The settings of a clone are those of the source but for the clients, of which it has none; the
    clone is off and its tag is left to the backend. *)
Lemma clone_staged src port nodeId :
  let p := buildClonePayload src port nodeId in
  obj_get p "enable" = VBool false /\ obj_get p "tag" = VUndef /\ obj_get p "port" = VInt port /\
  obj_get p "settings" = VStr (stringify (VObj (cloned_settings (src_settings src)))) /\
  obj_get (cloned_settings (src_settings src)) "clients" = VArr [] /\
  forall k, k <> "clients" -> obj_get (cloned_settings (src_settings src)) k = obj_get (coerceInboundJsonField (src_settings src)) k.
Proof.
  cbv zeta. unfold buildClonePayload, cloned_settings. split; [by destruct nodeId|]. split; [by destruct nodeId|]. split; [by destruct nodeId|]. split; [by destruct nodeId|].
  split; [apply obj_get_set_eq|]. intros k H. by rewrite obj_get_set_ne.
Qed.
