(* ===== verification/InboundFallbacks.v ===== *)
(** * Fallback rows of an inbound

    Models src/frontend/src/pages/inbounds/form/useInboundFallbacks.ts: the rows of the fallback editor, the
    counter their keys come from, and the operations on them; with the payload that saves them and
    the rows a reply loads.  A row key is [fb-n] with the value [n] of the counter.  An edit of a row
    never carries a key.  Indices are those of rendered rows. *)
From S2P Require Import Prelude JsString JsValue Json InboundList.
Local Open Scope Z_scope.

Record FallbackRow := { rowKey : nat; childId : option Z; name : string; alpn : string; path : string; dest : string; xver : Z }.

(** The inbounds a row can point to, the fields the editor reads. *)
Record Candidate := { ca_id : Z; ca_remark : string; ca_protocol : string; ca_port : Z; ca_streamSettings : jsval }.

Record FallbackPatch := {
  p_childId : option (option Z); p_name : option string; p_alpn : option string; p_path : option string; p_dest : option string; p_xver : option Z }.

Record fallback_editor := { counter : nat; fallbacks : list FallbackRow }.

Section Editor.
Context (dbInbound : option Z) (dbInbounds : list Candidate).

(** [fallbackChildOptions]: the values, and the label of one. *)
Definition eligible : list Candidate := List.filter (fun ib => negb (bool_decide (Some (ca_id ib) = dbInbound))) dbInbounds.

Definition option_label (ib : Candidate) : string :=
  (if String.eqb (ca_remark ib) "" then "#" +:+ string_of_Z (ca_id ib) else ca_remark ib) +:+ " · " +:+ ca_protocol ib +:+ ":" +:+ string_of_Z (ca_port ib).

(** ** Defaults from the child *)

Definition str_value (v : jsval) : string := match v with VStr s => s | _ => "" end.

Definition deriveFallbackDefaults (id : Z) : option FallbackPatch :=
  match List.find (fun ib => ca_id ib =? id) dbInbounds with
  | None => None
  | Some child =>
      let stream := coerceInboundJsonField (ca_streamSettings child) in
      let tls := obj_get stream "tlsSettings" in
      let network := str_value (obj_get stream "network") in
      let alpn := join "," (omap (fun v => match v with VStr s => Some s | _ => None end) (as_list (get tls "alpn"))) in
      let path :=
        if String.eqb network "ws" then str_value (get (obj_get stream "wsSettings") "path")
        else if String.eqb network "grpc" then str_value (get (obj_get stream "grpcSettings") "serviceName")
        else if String.eqb network "httpupgrade" then str_value (get (obj_get stream "httpupgradeSettings") "path")
        else if String.eqb network "xhttp" then str_value (get (obj_get stream "xhttpSettings") "path")
        else "" in
      Some {| p_childId := None; p_name := Some (str_value (get tls "serverName")); p_alpn := Some alpn; p_path := Some path; p_dest := None; p_xver := Some 0 |}
  end.

(** [{ ...r, ...patch }] *)
Definition apply_patch (p : FallbackPatch) (r : FallbackRow) : FallbackRow :=
  {| rowKey := rowKey r; childId := default (childId r) (p_childId p); name := default (name r) (p_name p); alpn := default (alpn r) (p_alpn p);
     path := default (path r) (p_path p); dest := default (dest r) (p_dest p); xver := default (xver r) (p_xver p) |}.

(** ** Operations *)

Definition empty_row (key : nat) : FallbackRow := {| rowKey := key; childId := None; name := ""; alpn := ""; path := ""; dest := ""; xver := 0 |}.

(** A row of the reply of the server. *)
Record StoredFallback := { st_childId : Z; st_name : string; st_alpn : string; st_path : string; st_dest : string; st_xver : Z }.

Fixpoint load_rows (key : nat) (l : list StoredFallback) : list FallbackRow :=
  match l with
  | [] => []
  | s :: l => {| rowKey := S key; childId := if 0 <? st_childId s then Some (st_childId s) else None; name := st_name s; alpn := st_alpn s;
                 path := st_path s; dest := st_dest s; xver := st_xver s |} :: load_rows (S key) l
  end.

(** [loadFallbacks]; [None]: no master, or a reply without rows. *)
Definition loadFallbacks (reply : option (list StoredFallback)) (e : fallback_editor) : fallback_editor :=
  match reply with
  | None => {| counter := counter e; fallbacks := [] |}
  | Some l => {| counter := (counter e + length l)%nat; fallbacks := load_rows (counter e) l |}
  end.

Definition addFallback (e : fallback_editor) : fallback_editor := {| counter := S (counter e); fallbacks := fallbacks e ++ [empty_row (S (counter e))] |}.

Definition isPristine (r : FallbackRow) : bool :=
  String.eqb (name r) "" && String.eqb (alpn r) "" && String.eqb (path r) "" && String.eqb (dest r) "" && (xver r =? 0).

Definition update_row (patch : FallbackPatch) (r : FallbackRow) : FallbackRow :=
  match p_childId patch with
  | Some (Some id) =>
      if negb (bool_decide (Some id = childId r)) && isPristine r
      then match deriveFallbackDefaults id with Some d => apply_patch d (apply_patch patch r) | None => apply_patch patch r end
      else apply_patch patch r
  | _ => apply_patch patch r
  end.

Definition updateFallback (key : nat) (patch : FallbackPatch) (e : fallback_editor) : fallback_editor :=
  {| counter := counter e; fallbacks := map (fun r => if Nat.eqb (rowKey r) key then update_row patch r else r) (fallbacks e) |}.

Definition removeFallback (idx : nat) (e : fallback_editor) : fallback_editor := {| counter := counter e; fallbacks := take idx (fallbacks e) ++ drop (S idx) (fallbacks e) |}.

(** [up]: the direction is -1. *)
Definition moveFallback (idx : nat) (up : bool) (e : fallback_editor) : fallback_editor :=
  let target := if up then match idx with O => None | S i => Some i end else Some (S idx) in
  match target with
  | None => e
  | Some target =>
      match fallbacks e !! idx, fallbacks e !! target with
      | Some a, Some b => {| counter := counter e; fallbacks := <[target := a]> (<[idx := b]> (fallbacks e)) |}
      | _, _ => e
      end
  end.

Fixpoint child_rows (key : nat) (l : list Candidate) : list FallbackRow :=
  match l with
  | [] => []
  | ib :: l =>
      let d := deriveFallbackDefaults (ca_id ib) in
      {| rowKey := S key; childId := Some (ca_id ib); name := default "" (d ≫= p_name); alpn := default "" (d ≫= p_alpn);
         path := default "" (d ≫= p_path); dest := ""; xver := default 0 (d ≫= p_xver) |} :: child_rows (S key) l
  end.

(** The eligible inbounds no row points to yet. *)
Definition missing (rows : list FallbackRow) : list Candidate :=
  List.filter (fun ib => negb (existsb (fun r => bool_decide (childId r = Some (ca_id ib))) rows)) eligible.

Definition addAllFallbacks (e : fallback_editor) : fallback_editor :=
  {| counter := (counter e + length (missing (fallbacks e)))%nat; fallbacks := fallbacks e ++ child_rows (counter e) (missing (fallbacks e)) |}.

(** The rows [saveFallbacks] posts, with their order. *)
Definition is_kept (r : FallbackRow) : bool := match childId r with Some id => negb (id =? 0) | None => false end || negb (String.eqb (trim (dest r)) "").

Definition save_payload (e : fallback_editor) : list (FallbackRow * nat) := imap (fun i r => (r, i)) (List.filter is_kept (fallbacks e)).

(** ** Steps *)

Inductive event :=
  | Load (reply : option (list StoredFallback)) | Add | Update (key : nat) (patch : FallbackPatch) | Remove (idx : nat) | Move (idx : nat) (up : bool) | AddAll.

Definition step (ev : event) (e : fallback_editor) : fallback_editor :=
  match ev with
  | Load reply => loadFallbacks reply e
  | Add => addFallback e
  | Update key patch => updateFallback key patch e
  | Remove idx => removeFallback idx e
  | Move idx up => moveFallback idx up e
  | AddAll => addAllFallbacks e
  end.

Definition run (l : list event) : fallback_editor := fold_left (fun e ev => step ev e) l {| counter := 0; fallbacks := [] |}.

(** ** Keys stay unique *)

Definition keys (e : fallback_editor) : list nat := map rowKey (fallbacks e).

Record keys_ok (e : fallback_editor) : Prop := { ko_unique : NoDup (keys e); ko_old : Forall (fun k => (k <= counter e)%nat) (keys e) }.

Lemma load_keys l : forall key, map rowKey (load_rows key l) = seq (S key) (length l).
Proof. induction l as [|s l IH]; intros key; [done|]. cbn. by rewrite IH. Qed.

Lemma child_keys l : forall key, map rowKey (child_rows key l) = seq (S key) (length l).
Proof. induction l as [|s l IH]; intros key; [done|]. cbn. by rewrite IH. Qed.

(** Fresh keys after old ones. *)
Lemma fresh_keys e n rows : keys_ok e -> map rowKey rows = seq (S (counter e)) n -> keys_ok {| counter := (counter e + n)%nat; fallbacks := fallbacks e ++ rows |}.
Proof.
  intros [U O] E. split; unfold keys; cbn [fallbacks counter]; rewrite map_app, E.
  - apply list.NoDup_app. split; [done|]. split; [|apply NoDup_seq]. intros k Hk Hs. rewrite list.Forall_forall in O. apply O in Hk. apply elem_of_seq in Hs. lia.
  - apply Forall_app. split; [eapply list.Forall_impl; [exact O|]; cbn; lia|]. apply list.Forall_forall. intros k Hk%elem_of_seq. lia.
Qed.

(** Rows that are some of the old rows, in any order and with any content. *)
Lemma old_keys e rows : keys_ok e -> (exists l, Permutation (keys e) (map rowKey rows ++ l)) -> keys_ok {| counter := counter e; fallbacks := rows |}.
Proof.
  intros [U O] [l P]. split; unfold keys; cbn [fallbacks counter].
  - rewrite P in U. by apply list.NoDup_app in U as (U & _ & _).
  - rewrite P in O. by apply Forall_app in O as [O _].
Qed.

Lemma apply_patch_key p r : rowKey (apply_patch p r) = rowKey r.
Proof. done. Qed.

Lemma update_row_key p r : rowKey (update_row p r) = rowKey r.
Proof. unfold update_row. destruct (p_childId p) as [[id|]|]; try done. destruct (_ && _); [|done]. by destruct (deriveFallbackDefaults id). Qed.

Lemma step_keys ev e : keys_ok e -> keys_ok (step ev e).
Proof.
  intros K. destruct ev as [reply| |key patch|idx|idx up|]; cbn [step].
  - destruct reply as [l|]; cbn [loadFallbacks]; [|split; [constructor|constructor]]. split; unfold keys; cbn [fallbacks counter]; rewrite load_keys; [apply NoDup_seq|].
    apply list.Forall_forall. intros k Hk%elem_of_seq. lia.
  - unfold addFallback. rewrite <-Nat.add_1_r at 1. by apply fresh_keys.
  - apply old_keys; [done|]. exists []. rewrite app_nil_r. unfold keys. rewrite map_map. erewrite map_ext; [reflexivity|]. intros r. cbv beta. destruct (Nat.eqb _ _); [by rewrite update_row_key|done].
  - apply old_keys; [done|]. unfold keys. exists (map rowKey (take 1 (drop idx (fallbacks e)))). rewrite <-(take_drop idx (fallbacks e)) at 1. rewrite <-map_app. apply Permutation_map.
    rewrite <-(take_drop 1 (drop idx (fallbacks e))) at 1. rewrite drop_drop, Nat.add_1_r. solve_Permutation.
  - unfold moveFallback. destruct (if up then _ else _) as [target|]; [|done]. destruct (fallbacks e !! idx) as [a|] eqn:A; [|done]. destruct (fallbacks e !! target) as [b|] eqn:B; [|done].
    apply old_keys; [done|]. exists []. rewrite app_nil_r. unfold keys. apply Permutation_map. symmetry. by apply Permutation_insert_swap.
  - apply fresh_keys; [done|]. apply child_keys.
Qed.

Lemma run_keys l : keys_ok (run l).
Proof.
  unfold run. assert (K : keys_ok {| counter := 0; fallbacks := [] |}) by (split; constructor). revert K. generalize {| counter := 0; fallbacks := [] |}.
  induction l as [|ev l IH]; intros e K; [done|]. cbn [fold_left]. apply IH. by apply step_keys.
Qed.

Lemma update_lookup key patch e i : fallbacks (updateFallback key patch e) !! i = (fun r => if Nat.eqb (rowKey r) key then update_row patch r else r) <$> fallbacks e !! i.
Proof. apply list_lookup_fmap. Qed.

(** Whatever was added, loaded, moved or removed before, the rows of the fallback editor can be told
    apart: no two have the same key, so that an edit reaches its row and no other. *)
Theorem fallback_rows_addressable l i r patch : fallbacks (run l) !! i = Some r ->
  let e' := updateFallback (rowKey r) patch (run l) in
  NoDup (keys e') /\ fallbacks e' !! i = Some (update_row patch r) /\ (forall j, j <> i -> fallbacks e' !! j = fallbacks (run l) !! j).
Proof.
  intros H. cbv zeta. pose proof (run_keys l) as K. pose proof (ko_unique _ (step_keys (Update (rowKey r) patch) _ K)) as U. split; [exact U|]. split.
  - rewrite update_lookup, H. cbn. by rewrite Nat.eqb_refl.
  - intros j N. rewrite update_lookup. destruct (fallbacks (run l) !! j) as [x|] eqn:E; [|done]. cbn. destruct (Nat.eqb_spec (rowKey x) (rowKey r)) as [Ek|]; [|done].
    exfalso. apply N. apply (NoDup_lookup (keys (run l)) j i (rowKey x)); [apply K| |]; unfold keys; rewrite list_lookup_fmap; [by rewrite E|rewrite H; cbn; by rewrite Ek].
Qed.

(** ** Adding all *)

Lemma child_ids l : forall key, map childId (child_rows key l) = map (fun ib => Some (ca_id ib)) l.
Proof. induction l as [|ib l IH]; intros key; [done|]. cbn. by rewrite IH. Qed.

Lemma has_child rows id : existsb (fun r => bool_decide (childId r = Some id)) rows = true <-> In (Some id) (map childId rows).
Proof.
  rewrite existsb_exists, in_map_iff. split; intros (r & A & B); exists r; [apply bool_decide_eq_true in B; done|split; [done|by apply bool_decide_eq_true]].
Qed.

(** Adding all fallbacks gives every eligible inbound a row and keeps the rows there are; doing it
    again adds nothing. *)
Lemma addAll_complete e :
  (forall ib, In ib eligible -> In (Some (ca_id ib)) (map childId (fallbacks (addAllFallbacks e)))) /\
  take (length (fallbacks e)) (fallbacks (addAllFallbacks e)) = fallbacks e /\ addAllFallbacks (addAllFallbacks e) = addAllFallbacks e.
Proof.
  assert (C : forall ib, In ib eligible -> In (Some (ca_id ib)) (map childId (fallbacks (addAllFallbacks e)))).
  { intros ib H. unfold addAllFallbacks. cbn [fallbacks]. rewrite map_app, child_ids. apply in_app_iff.
    destruct (existsb (fun r => bool_decide (childId r = Some (ca_id ib))) (fallbacks e)) eqn:E; [left; by apply has_child|right].
    apply in_map_iff. exists ib. split; [done|]. apply filter_In. by rewrite E. }
  split; [exact C|]. split; [unfold addAllFallbacks; cbn [fallbacks]; by rewrite take_app_length|].
  assert (M : missing (fallbacks (addAllFallbacks e)) = []).
  { unfold missing. erewrite filter_ext_in; [apply List.filter_false|]. intros ib H. apply negb_false_iff. apply has_child. by apply C. }
  unfold addAllFallbacks at 1. rewrite M. cbn. rewrite Nat.add_0_r, app_nil_r. by destruct e.
Qed.

(** ** Saving and loading *)

(** What the server keeps of a posted row: no child is stored as 0. *)
Definition stored (p : FallbackRow * nat) : StoredFallback :=
  {| st_childId := default 0 (childId p.1); st_name := name p.1; st_alpn := alpn p.1; st_path := path p.1; st_dest := dest p.1; st_xver := xver p.1 |}.

(** A row without its key. *)
Definition content (r : FallbackRow) : option Z * string * string * string * string * Z := (childId r, name r, alpn r, path r, dest r, xver r).

Lemma load_content l : forall key, Forall (fun r => match childId r with Some id => 0 < id | None => True end) l ->
  map content (load_rows key (map (fun r => stored (r, O)) l)) = map content l.
Proof.
  induction l as [|r l IH]; intros key H; [done|]. inversion H as [|? ? Hr Hl]; subst. cbn [map load_rows]. rewrite IH by done. f_equal. unfold content, stored. cbn.
  destruct (childId r); cbn; [by rewrite (proj2 (Z.ltb_lt _ _) Hr)|done].
Qed.

(** The order of the rows survives a reload: saving the rows and loading what the server keeps, in
    the order that was posted with them, gives the same rows in the same order, but for those
    without a target, which are not saved. *)
Theorem fallback_order_kept e e' : Forall (fun r => match childId r with Some id => 0 < id | None => True end) (fallbacks e) ->
  map snd (save_payload e) = seq 0 (length (save_payload e)) /\
  map content (fallbacks (loadFallbacks (Some (map stored (save_payload e))) e')) = map content (List.filter is_kept (fallbacks e)).
Proof.
  intros H. unfold save_payload. set (l := List.filter is_kept (fallbacks e)).
  assert (F : Forall (fun r => match childId r with Some id => 0 < id | None => True end) l).
  { apply List.Forall_forall. intros r [Hr _]%filter_In. rewrite List.Forall_forall in H. by apply H. }
  clearbody l. split.
  - rewrite length_imap. apply list_eq. intros i. rewrite list_lookup_fmap, list_lookup_imap. destruct (l !! i) as [r|] eqn:E; cbn.
    + symmetry. apply lookup_seq. split; [lia|]. by eapply lookup_lt_Some.
    + symmetry. apply lookup_seq_ge. by apply lookup_ge_None.
  - cbn [loadFallbacks fallbacks]. replace (map stored (imap (fun i r => (r, i)) l)) with (map (fun r => stored (r, O)) l); [by apply load_content|].
    apply list_eq. intros i. rewrite !list_lookup_fmap, list_lookup_imap. by destruct (l !! i).
Qed.

End Editor.

Definition sample_child : Candidate :=
  {| ca_id := 7; ca_remark := "ws"; ca_protocol := "vless"; ca_port := 443;
     ca_streamSettings := VObj [("network", VStr "ws"); ("wsSettings", VObj [("path", VStr "/ws")])] |}.

Definition pick_child (id : Z) : FallbackPatch := {| p_childId := Some (Some id); p_name := None; p_alpn := None; p_path := None; p_dest := None; p_xver := None |}.

Lemma fallback_rows_addressable_witness :
  fallbacks (updateFallback [sample_child] 2 (pick_child 7) (run None [sample_child] [Add; Add; Move 1 true])) =
  [{| rowKey := 2; childId := Some 7; name := ""; alpn := ""; path := "/ws"; dest := ""; xver := 0 |}; empty_row 1].
Proof.
  pose proof (fallback_rows_addressable None [sample_child] [Add; Add; Move 1 true] 0 (empty_row 2) (pick_child 7) eq_refl) as (_ & H0 & H1). cbn [rowKey empty_row] in H0, H1.
  apply list_eq. intros [|[|i]]; [rewrite H0; reflexivity|rewrite H1 by discriminate; reflexivity|rewrite H1 by discriminate; reflexivity].
Defined.

Lemma fallback_order_kept_witness :
  let e := run None [sample_child] [AddAll; Add] in map snd (save_payload e) = [0%nat] /\ map content (fallbacks (loadFallbacks (Some (map stored (save_payload e))) e)) = [(Some 7, "", "", "/ws", "", 0)].
Proof.
  cbv zeta. destruct (fallback_order_kept (run None [sample_child] [AddAll; Add]) (run None [sample_child] [AddAll; Add])) as [_ ->]; [|split; reflexivity].
  repeat constructor.
Defined.
