(* ===== verification/ClientList.v ===== *)
(** * The list of clients

    Models the state of the clients page, src/frontend/src/hooks/useClients.ts: the query of the page and
    the request it makes, the page of rows in the query cache, the speeds, the WebSocket events
    merged into them, and the payload with which a client is switched on or off; with [parseMsg] of
    src/frontend/src/utils/zodValidate.ts.  A field that may be absent is an option; the cache of pages is a
    function of the query (its keys are compared structurally); schemas are arguments. *)
From S2P Require Import Prelude JsString JsValue Utf8 Base64 Uri Url TrafficDisplay InboundList.
From stdpp Require Import gmap.
Local Open Scope Z_scope.

(** ** Replies *)

Record Envelope := { env_success : bool; env_msg : string; env_obj : jsval }.

(** [parseMsg]: [None] is a raised error. *)
Definition parseMsg (schema : jsval -> option jsval) (strict : bool) (m : Envelope) : option Envelope :=
  if negb (env_success m) || is_nullish (env_obj m) then Some m
  else match schema (env_obj m) with
       | None => if strict then None else Some m
       | Some data => Some {| env_success := env_success m; env_msg := env_msg m; env_obj := data |}
       end.

Definition fetchClientPage (schema : jsval -> option jsval) (m : Envelope) : jsval + string :=
  if negb (env_success m) || negb (truthy (env_obj m)) then inr (if String.eqb (env_msg m) "" then "Failed to fetch clients" else env_msg m)
  else match parseMsg schema true m with
       | None => inr "clients/list/paged response failed validation"
       | Some v => if truthy (env_obj v) then inl (env_obj v) else inr "Empty clients response"
       end.

Definition fetchInboundOptions (schema : jsval -> option jsval) (m : Envelope) : list jsval + string :=
  if negb (env_success m) then inr (if String.eqb (env_msg m) "" then "Failed to fetch inbound options" else env_msg m)
  else inl (match parseMsg schema false m with Some v => as_list (env_obj v) | None => [] end).

(** ** The query *)

Record ClientQueryParams := {
  q_page : Z; q_pageSize : Z; q_search : option string; q_filter : option string; q_protocol : option string; q_inbound : option string;
  q_sort : option string; q_order : option string; q_expiryFrom : option Z; q_expiryTo : option Z; q_usageFrom : option Z; q_usageTo : option Z;
  q_autoRenew : option string; q_hasTgId : option string; q_hasComment : option string; q_group : option string }.

#[export] Instance ClientQueryParams_eq_dec : EqDecision ClientQueryParams.
Proof. solve_decision. Defined.

Definition DEFAULT_QUERY : ClientQueryParams :=
  {| q_page := 1; q_pageSize := 25; q_search := None; q_filter := None; q_protocol := None; q_inbound := None; q_sort := None; q_order := None;
     q_expiryFrom := None; q_expiryTo := None; q_usageFrom := None; q_usageTo := None; q_autoRenew := None; q_hasTgId := None; q_hasComment := None; q_group := None |}.

(** The text of a bound: positive ones are sent. *)
Definition bound_text (v : option Z) : string := match v with Some z => if 0 <? z then string_of_Z z else "" | None => "" end.

(** [x || d] on numbers *)
Definition or_number (z d : Z) : Z := if z =? 0 then d else z.

(** The parameters in the order they are set; an empty text is not set. *)
Definition query_fields (p : ClientQueryParams) : list (string * string) :=
  [("page", string_of_Z (or_number (q_page p) 1)); ("pageSize", string_of_Z (or_number (q_pageSize p) (q_pageSize DEFAULT_QUERY)));
   ("search", default "" (q_search p)); ("filter", default "" (q_filter p)); ("protocol", default "" (q_protocol p)); ("inbound", default "" (q_inbound p));
   ("sort", default "" (q_sort p)); ("order", default "" (q_order p)); ("expiryFrom", bound_text (q_expiryFrom p)); ("expiryTo", bound_text (q_expiryTo p));
   ("usageFrom", bound_text (q_usageFrom p)); ("usageTo", bound_text (q_usageTo p)); ("autoRenew", default "" (q_autoRenew p));
   ("hasTgId", default "" (q_hasTgId p)); ("hasComment", default "" (q_hasComment p)); ("group", default "" (q_group p))].

Definition is_set (kv : string * string) : bool := negb (String.eqb kv.2 "").

Definition buildQS (p : ClientQueryParams) : string := query_string (List.filter is_set (query_fields p)).

Definition same_text (a b : option string) : bool := String.eqb (default "" a) (default "" b).
Definition same_bound (a b : option Z) : bool := default 0 a =? default 0 b.

Definition same_query (prev next : ClientQueryParams) : bool :=
  (q_page prev =? q_page next) && (q_pageSize prev =? q_pageSize next) &&
  same_text (q_search prev) (q_search next) && same_text (q_filter prev) (q_filter next) && same_text (q_protocol prev) (q_protocol next) &&
  same_text (q_inbound prev) (q_inbound next) && same_text (q_sort prev) (q_sort next) && same_text (q_order prev) (q_order next) &&
  same_bound (q_expiryFrom prev) (q_expiryFrom next) && same_bound (q_expiryTo prev) (q_expiryTo next) &&
  same_bound (q_usageFrom prev) (q_usageFrom next) && same_bound (q_usageTo prev) (q_usageTo next) &&
  same_text (q_autoRenew prev) (q_autoRenew next) && same_text (q_hasTgId prev) (q_hasTgId next) &&
  same_text (q_hasComment prev) (q_hasComment next) && same_text (q_group prev) (q_group next).

(** The query after [setQuery], and whether it is a new one. *)
Definition setQuery (next : ClientQueryParams) (prev : option ClientQueryParams) : option ClientQueryParams * bool :=
  match prev with
  | Some p => if same_query p next then (prev, false) else (Some next, true)
  | None => (Some next, true)
  end.

(** ** Rows *)

Record ClientTraffic := {
  ct_up : option Z; ct_down : option Z; ct_billedUp : option Z; ct_billedDown : option Z; ct_chargeExtraBytes : option Z;
  ct_chargeDiscountBytes : option Z; ct_total : option Z; ct_expiryTime : option Z; ct_enable : option bool; ct_lastOnline : option Z }.

Definition no_traffic : ClientTraffic :=
  {| ct_up := None; ct_down := None; ct_billedUp := None; ct_billedDown := None; ct_chargeExtraBytes := None; ct_chargeDiscountBytes := None;
     ct_total := None; ct_expiryTime := None; ct_enable := None; ct_lastOnline := None |}.

(** A row: its email, its traffic, and the rest of the record. *)
Record ClientRow := { row_email : string; row_traffic : option ClientTraffic; row_rest : jsval }.

Record ClientPageResponse := { pr_items : list ClientRow; pr_rest : jsval }.

Abbreviation page_cache := (ClientQueryParams -> option ClientPageResponse).

Record ClientSpeedEntry := { speed_up : num; speed_down : num }.

Record clients_state := {
  query : option ClientQueryParams; list_data : page_cache; onlines : list string; clientSpeed : gmap string ClientSpeedEntry }.

(** ** Traffic events *)

Definition sameSpeedMap (a b : gmap string ClientSpeedEntry) : bool :=
  bool_decide (size a = size b) &&
  forallb (fun kv : string * ClientSpeedEntry =>
             match b !! kv.1 with
             | Some other => num_eqb (speed_up kv.2) (speed_up other) && num_eqb (speed_down kv.2) (speed_down other)
             | None => false
             end) (map_to_list a).

(** One entry of [clientTraffics]: email, up, down. *)
Definition add_speed (m : gmap string ClientSpeedEntry) (ct : string * option Z * option Z) : gmap string ClientSpeedEntry :=
  let '(email, up, down) := ct in
  if String.eqb email "" then m
  else
    let up := default 0 up in let down := default 0 down in
    if (up =? 0) && (down =? 0) then m else <[email := {| speed_up := per_second up; speed_down := per_second down |}]> m.

Definition next_speed (l : list (string * option Z * option Z)) : gmap string ClientSpeedEntry := fold_left add_speed l ∅.

Definition applyTrafficEvent (onlineClients : option (list string)) (clientTraffics : option (list (string * option Z * option Z))) (s : clients_state) : clients_state :=
  {| query := query s; list_data := list_data s; onlines := default (onlines s) onlineClients;
     clientSpeed := match clientTraffics with
                    | Some l => if sameSpeedMap (clientSpeed s) (next_speed l) then clientSpeed s else next_speed l
                    | None => clientSpeed s
                    end |}.

(** ** Statistics events *)

Definition merge_traffic (upd : ClientTraffic) (old : option ClientTraffic) : ClientTraffic :=
  let old := default no_traffic old in
  {| ct_up := or_old (ct_up upd) (ct_up old); ct_down := or_old (ct_down upd) (ct_down old);
     ct_billedUp := or_old (ct_billedUp upd) (ct_billedUp old); ct_billedDown := or_old (ct_billedDown upd) (ct_billedDown old);
     ct_chargeExtraBytes := or_old (ct_chargeExtraBytes upd) (ct_chargeExtraBytes old);
     ct_chargeDiscountBytes := or_old (ct_chargeDiscountBytes upd) (ct_chargeDiscountBytes old);
     ct_total := or_old (ct_total upd) (ct_total old); ct_expiryTime := or_old (ct_expiryTime upd) (ct_expiryTime old);
     ct_enable := or_old (ct_enable upd) (ct_enable old); ct_lastOnline := or_old (ct_lastOnline upd) (ct_lastOnline old) |}.

Definition stats_by_email (rows : list (string * ClientTraffic)) : gmap string ClientTraffic :=
  fold_left (fun (m : gmap string ClientTraffic) r => if String.eqb r.1 "" then m else <[r.1 := r.2]> m) rows ∅.

Definition merge_client (by_email : gmap string ClientTraffic) (row : ClientRow) : ClientRow :=
  match by_email !! row_email row with
  | Some upd => {| row_email := row_email row; row_traffic := Some (merge_traffic upd (row_traffic row)); row_rest := row_rest row |}
  | None => row
  end.

Definition patch_page (by_email : gmap string ClientTraffic) (prev : ClientPageResponse) : ClientPageResponse :=
  if existsb (fun row => bool_decide (is_Some (by_email !! row_email row))) (pr_items prev)
  then {| pr_items := map (merge_client by_email) (pr_items prev); pr_rest := pr_rest prev |}
  else prev.

Definition applyClientStatsEvent (rows : list (string * ClientTraffic)) (s : clients_state) : clients_state :=
  match rows, query s with
  | [], _ | _, None => s
  | _, Some active =>
      {| query := query s;
         list_data := fun q => if decide (q = active) then patch_page (stats_by_email rows) <$> list_data s q else list_data s q;
         onlines := onlines s; clientSpeed := clientSpeed s |}
  end.

(** ** Switching a client on or off *)

Definition js_Number (v : jsval) : num :=
  match v with
  | VNum n => n
  | VStr s => number_of_string s
  | VBool b => NFin (if b then 1 else 0) 0
  | VNull => NFin 0 0
  | _ => NNaN
  end.

(** [Number(v) || d] *)
Definition number_or (v : jsval) (d : Z) : jsval := or_falsy (VNum (js_Number v)) (VInt d).

(** The payload [setEnable] posts for the stored record [base]. *)
Definition setEnable_payload (base : jsval) (enable : bool) : obj :=
  [("email", get base "email"); ("subId", get base "subId"); ("id", get base "uuid"); ("password", get base "password"); ("auth", get base "auth");
   ("flow", or_falsy (get base "flow") (VStr "")); ("security", or_falsy (get base "security") (VStr "auto"));
   ("totalGB", or_falsy (get base "totalGB") (VInt 0)); ("expiryTime", or_falsy (get base "expiryTime") (VInt 0));
   ("limitIp", or_falsy (get base "limitIp") (VInt 0)); ("limitHwid", or_falsy (get base "limitHwid") (VInt 0));
   ("tgId", number_or (get base "tgId") 0); ("reset", number_or (get base "reset") 0); ("resetDay", number_or (get base "resetDay") 0);
   ("resetMax", number_or (get base "resetMax") 0); ("trafficReset", or_falsy (get base "trafficReset") (VStr "never"));
   ("trafficResetDay", number_or (get base "trafficResetDay") 1); ("group", or_falsy (get base "group") (VStr ""));
   ("comment", or_falsy (get base "comment") (VStr "")); ("enable", VBool enable)] ++
  (if truthy (get (get base "reverse") "tag") then [("reverse", VObj [("tag", get (get base "reverse") "tag")])] else []).

(** [setEnable]: what is posted, if anything; [full] is what [hydrate] returned. *)
Definition setEnable (email : string) (full : option jsval) (enable : bool) : option (string * obj) :=
  if String.eqb email "" then None
  else match full with
       | Some f => let base := get f "client" in if truthy base then Some (email, setEnable_payload base enable) else None
       | None => None
       end.

(** ** When a new request is made *)

(** Pages are counted from one, bounds are not negative and texts are well-formed. *)
Definition text_ok (s : option string) : Prop := utf8_valid (bytes_of (default "" s)) = true.
Definition bound_ok (z : option Z) : Prop := 0 <= default 0 z.

Record query_ok (p : ClientQueryParams) : Prop := {
  qo_page : 1 <= q_page p; qo_size : 1 <= q_pageSize p;
  qo_bounds : Forall bound_ok [q_expiryFrom p; q_expiryTo p; q_usageFrom p; q_usageTo p];
  qo_texts : Forall text_ok [q_search p; q_filter p; q_protocol p; q_inbound p; q_sort p; q_order p; q_autoRenew p; q_hasTgId p; q_hasComment p; q_group p] }.

(** Dropping the empty values of a list with fixed keys loses nothing. *)
Lemma filter_set_inj l : forall l', map fst l = map fst l' -> NoDup (map fst l) -> List.filter is_set l = List.filter is_set l' -> l = l'.
Proof.
  induction l as [|[k v] l IH]; intros [|[k' v'] l'] K D E; try done. cbn [map fst] in K, D. injection K as <- K. apply NoDup_cons in D as [Hn D].
  assert (X : forall m (w : string) t, map fst m = map fst l -> List.filter is_set m <> (k, w) :: t).
  { intros m w t Km F. apply Hn. rewrite <-Km. apply list_elem_of_In, in_map_iff. exists (k, w). split; [done|].
    apply (proj1 (filter_In is_set (k, w) m)). rewrite F. by left. }
  cbn [List.filter] in E. change (is_set (k, v)) with (negb (String.eqb v "")) in E. change (is_set (k, v')) with (negb (String.eqb v' "")) in E.
  destruct (String.eqb_spec v "") as [->|Nv], (String.eqb_spec v' "") as [->|Nv']; cbn [negb] in E.
  - f_equal. by apply IH.
  - by apply X in E.
  - symmetry in E. by apply X in E.
  - injection E as -> E. f_equal. by apply IH.
Qed.

Lemma digits_ascii s : forall_chars is_digit s = true -> utf8_valid (bytes_of s) = true.
Proof.
  intros H. apply ascii_valid. revert H. induction s as [|c s IH]; intros H; [constructor|]. cbn in H. apply andb_true_iff in H as [Hc H].
  constructor; [|by apply IH]. unfold is_digit in Hc. cbv zeta in Hc. apply andb_true_iff in Hc as [H1%Nat.leb_le H2%Nat.leb_le]. unfold Ascii.nat_of_ascii in H1, H2. unfold code. lia.
Qed.

Lemma string_of_Z_injective a b : 0 <= a -> 0 <= b -> string_of_Z a = string_of_Z b -> a = b.
Proof. intros Ha Hb E. pose proof (number_of_string_of_Z a Ha) as N. rewrite E, number_of_string_of_Z in N by done. by injection N. Qed.

Lemma bound_text_iff a b : bound_ok a -> bound_ok b -> bound_text a = bound_text b <-> same_bound a b = true.
Proof.
  unfold bound_ok, same_bound, bound_text. intros Ha Hb. rewrite Z.eqb_eq.
  assert (N : forall z, 0 < z -> string_of_Z z <> "") by (intros z Hz E; pose proof (string_of_Z_nonempty z ltac:(lia)) as F; by rewrite E in F).
  destruct a as [a|], b as [b|]; cbn in *; repeat match goal with |- context [0 <? ?z] => destruct (Z.ltb_spec 0 z) end;
    split; intros E; try lia; try done; try (f_equal; lia); try (by apply N in E); try (by symmetry in E; apply N in E).
  apply string_of_Z_injective; [lia|lia|done].
Qed.

Lemma page_text_iff d a b : 1 <= a -> 1 <= b -> string_of_Z (or_number a d) = string_of_Z (or_number b d) <-> (a =? b) = true.
Proof.
  intros Ha Hb. unfold or_number. rewrite !(proj2 (Z.eqb_neq _ 0)) by lia. rewrite Z.eqb_eq. split; [|by intros ->]. apply string_of_Z_injective; lia.
Qed.

Lemma same_text_iff a b : default "" a = default "" b <-> same_text a b = true.
Proof. unfold same_text. by rewrite String.eqb_eq. Qed.

Lemma bound_text_valid z : utf8_valid (bytes_of (bound_text z)) = true.
Proof. unfold bound_text. destruct z as [z|]; [|done]. destruct (Z.ltb_spec 0 z); [|done]. apply digits_ascii, string_of_Z_digits. lia. Qed.

Lemma query_fields_iff p q : query_ok p -> query_ok q -> query_fields p = query_fields q <-> same_query p q = true.
Proof.
  intros [P1 P2 P3 _] [Q1 Q2 Q3 _]. unfold same_query. rewrite !andb_true_iff. repeat match goal with H : Forall bound_ok _ |- _ => rewrite !Forall_cons in H end.
  rewrite <-(page_text_iff 1), <-(page_text_iff 25), <-!same_text_iff, <-!bound_text_iff by (done || tauto). unfold query_fields. cbn [DEFAULT_QUERY q_pageSize]. split.
  - intros E. injection E. intros. repeat split; assumption.
  - intros E. repeat match type of E with _ /\ _ => let H := fresh in destruct E as [E H]; try rewrite H end. by rewrite E.
Qed.

Lemma query_fields_valid p : query_ok p -> Forall valid_pair (List.filter is_set (query_fields p)).
Proof.
  intros [P1 P2 _ P4]. rewrite !Forall_cons in P4. apply List.Forall_forall. intros kv [H _]%filter_In. revert kv H. apply List.Forall_forall.
  unfold query_fields, or_number. rewrite !(proj2 (Z.eqb_neq _ 0)) by lia. unfold valid_pair. destruct_and!.
  repeat (constructor; [split; [reflexivity|]; cbn [snd]; try assumption; try apply bound_text_valid; try (apply digits_ascii, string_of_Z_digits; lia)|]). constructor.
Qed.

(** The backend reads back exactly the parameters of the query. *)
Lemma buildQS_read p : query_ok p -> parse_query (buildQS p) = List.filter is_set (query_fields p).
Proof. intros H. apply parse_query_string. by apply query_fields_valid. Qed.

Lemma buildQS_iff p q : query_ok p -> query_ok q -> buildQS p = buildQS q <-> same_query p q = true.
Proof.
  intros P Q. rewrite <-query_fields_iff by done. split; [|intros E; unfold buildQS; by rewrite E]. intros E.
  apply filter_set_inj; [done|apply (bool_decide_unpack _); vm_compute; reflexivity|]. by rewrite <-!buildQS_read, E.
Qed.

(** Setting a query starts a new request exactly when the request differs: a query that is kept
    asks the backend for the same page as the one it was given, and one that replaces the old
    query asks for another. *)
Theorem setQuery_exact p next : query_ok p -> query_ok next ->
  snd (setQuery next (Some p)) = true <-> buildQS p <> buildQS next.
Proof.
  intros P Q. rewrite buildQS_iff by done. cbn [setQuery]. destruct (same_query p next); by cbn; split.
Qed.

Definition sample_query : ClientQueryParams :=
  {| q_page := 2; q_pageSize := 25; q_search := Some ""; q_filter := Some "online,active"; q_protocol := None; q_inbound := None; q_sort := None; q_order := None;
     q_expiryFrom := None; q_expiryTo := None; q_usageFrom := Some 0; q_usageTo := Some 1024; q_autoRenew := None; q_hasTgId := None; q_hasComment := None; q_group := Some "a&b=c" |}.

Lemma setQuery_exact_witness : snd (setQuery sample_query (Some DEFAULT_QUERY)) = true /\ buildQS DEFAULT_QUERY <> buildQS sample_query /\
  buildQS sample_query = "page=2&pageSize=25&filter=online%2Cactive&usageTo=1024&group=a%26b%3Dc".
Proof.
  split; [reflexivity|]. split; [|reflexivity].
  refine (proj1 (setQuery_exact DEFAULT_QUERY sample_query _ _) eq_refl); split; cbn; try lia; repeat constructor; unfold bound_ok; cbn; lia.
Defined.

(** ** The speeds shown *)

(** [z / 5], whose normal form determines [z]. *)
Lemma per_second_inj a b : num_eqb (per_second a) (per_second b) = true <-> a = b.
Proof.
  unfold per_second. cbn [num_norm]. destruct (Z.eqb_spec (2 * a mod 10) 0) as [Ha|Ha], (Z.eqb_spec (2 * b mod 10) 0) as [Hb|Hb]; cbn [num_eqb]; rewrite Z.eqb_eq;
    change (Z.of_nat 0) with 0; change (Z.of_nat 1) with 1; rewrite ?Z.pow_0_r, ?Z.pow_1_r; Z.div_mod_to_equations; lia.
Qed.

(** Speeds computed from byte counts. *)
Definition speed_entry (e : ClientSpeedEntry) : Prop := exists u d, e = {| speed_up := per_second u; speed_down := per_second d |}.

Definition speed_map (m : gmap string ClientSpeedEntry) : Prop := map_Forall (fun _ e => speed_entry e) m.

Lemma add_speed_map m ct : speed_map m -> speed_map (add_speed m ct).
Proof.
  intros H. destruct ct as [[email u] d]. unfold add_speed. destruct (String.eqb email ""); [done|]. destruct (_ && _); [done|].
  apply map_Forall_insert_2; [|done]. by eexists _, _.
Qed.

Lemma next_speed_map l : speed_map (next_speed l).
Proof.
  unfold next_speed. assert (H : speed_map ∅) by apply map_Forall_empty. revert H. generalize (∅ : gmap string ClientSpeedEntry).
  induction l as [|ct l IH]; intros m H; [done|]. cbn [fold_left]. apply IH. by apply add_speed_map.
Qed.

Lemma entry_eqb a b : speed_entry a -> speed_entry b -> num_eqb (speed_up a) (speed_up b) && num_eqb (speed_down a) (speed_down b) = true <-> a = b.
Proof.
  intros (u & d & ->) (u' & d' & ->). cbn [speed_up speed_down]. rewrite andb_true_iff, !per_second_inj. split; [by intros [-> ->]|]. intros E.
  pose proof (f_equal speed_up E) as E1. pose proof (f_equal speed_down E) as E2. cbn [speed_up speed_down] in E1, E2.
  split; apply per_second_inj; [rewrite E1|rewrite E2]; by apply per_second_inj.
Qed.

Lemma sameSpeedMap_iff a b : speed_map a -> speed_map b -> sameSpeedMap a b = true <-> a = b.
Proof.
  intros A B. unfold sameSpeedMap. rewrite andb_true_iff, bool_decide_eq_true, forallb_forall. split.
  - intros [S H]. apply map_subseteq_size_eq; [|by rewrite S]. apply map_subseteq_spec. intros k e He.
    specialize (H (k, e) ltac:(by apply list_elem_of_In, elem_of_map_to_list)). cbn in H. destruct (b !! k) as [e'|] eqn:E; [|done].
    f_equal. symmetry. apply entry_eqb; [exact (A _ _ He)|exact (B _ _ E)|done].
  - intros <-. split; [done|]. intros [k e] He%list_elem_of_In%elem_of_map_to_list. cbn. rewrite He. apply entry_eqb; [exact (A _ _ He)|exact (A _ _ He)|done].
Qed.

(** The speed reports of a session, in order of arrival. *)
Abbreviation report := (option (list string) * option (list (string * option Z * option Z)))%type.

Definition run_reports (l : list report) (s : clients_state) : clients_state := fold_left (fun s r => applyTrafficEvent r.1 r.2 s) l s.

(** What the last report with speeds said; before it, what was shown. *)
Definition last_speeds (l : list report) (m : gmap string ClientSpeedEntry) : gmap string ClientSpeedEntry :=
  fold_left (fun m r => match r.2 with Some t => next_speed t | None => m end) l m.

(** Keeping the old map when nothing changed is never visible: after any sequence of
    reports the speeds shown are those of the last report that had any, whatever the map kept in
    between, and the query and the rows are as they were. *)
Theorem speeds_shown l s : speed_map (clientSpeed s) ->
  clientSpeed (run_reports l s) = last_speeds l (clientSpeed s) /\ query (run_reports l s) = query s /\ list_data (run_reports l s) = list_data s.
Proof.
  revert s. induction l as [|[o t] l IH]; intros s H; [done|]. cbn [run_reports last_speeds fold_left fst snd].
  fold (run_reports l (applyTrafficEvent o t s)). assert (E : clientSpeed (applyTrafficEvent o t s) = match t with Some t => next_speed t | None => clientSpeed s end).
  { unfold applyTrafficEvent. cbn [clientSpeed]. destruct t as [t|]; [|done]. destruct (sameSpeedMap _ _) eqn:S; [|done].
    apply sameSpeedMap_iff in S; [done|done|apply next_speed_map]. }
  destruct (IH (applyTrafficEvent o t s)) as (-> & -> & ->); [rewrite E; destruct t; [apply next_speed_map|done]|]. rewrite E. done.
Qed.

Definition empty_clients : clients_state := {| query := Some DEFAULT_QUERY; list_data := fun _ => None; onlines := []; clientSpeed := ∅ |}.

Lemma speeds_shown_witness :
  clientSpeed (run_reports [(None, Some [("a", Some 10, None); ("b", None, Some 0)]); (Some ["a"], None); (None, Some [("a", Some 10, Some 0)])] empty_clients) =
  next_speed [("a", Some 10, Some 0)].
Proof. apply (speeds_shown [(None, Some [("a", Some 10, None); ("b", None, Some 0)]); (Some ["a"], None); (None, Some [("a", Some 10, Some 0)])] empty_clients). apply map_Forall_empty. Defined.

(** ** The rows after a statistics event *)

(** What a statistics event does to a row. *)
Definition patched (rows : list (string * ClientTraffic)) (old new : ClientRow) : Prop :=
  row_email new = row_email old /\ row_rest new = row_rest old /\
  row_traffic new = match stats_by_email rows !! row_email old with Some u => Some (merge_traffic u (row_traffic old)) | None => row_traffic old end.

(** A statistics event patches the page being shown in place: the same rows in the same order,
    each with the counters reported for its email and otherwise as it was; every other page of the
    cache, and every other part of the state, is untouched. *)
Lemma stats_event_in_place rows active s : rows <> [] -> query s = Some active ->
  let s' := applyClientStatsEvent rows s in
  query s' = Some active /\ clientSpeed s' = clientSpeed s /\ onlines s' = onlines s /\
  (forall q, q <> active -> list_data s' q = list_data s q) /\
  match list_data s active, list_data s' active with
  | Some old, Some new => pr_rest new = pr_rest old /\ Forall2 (patched rows) (pr_items old) (pr_items new)
  | None, None => True
  | _, _ => False
  end.
Proof.
  intros Hr Hq. cbv zeta. unfold applyClientStatsEvent. destruct rows as [|r rows]; [done|]. rewrite Hq. cbn [query clientSpeed onlines list_data].
  split; [done|]. split; [done|]. split; [done|]. split; [intros q Hn; by rewrite decide_False|]. rewrite decide_True by done.
  destruct (list_data s active) as [old|]; [|done]. cbn. unfold patch_page.
  assert (P : Forall2 (patched (r :: rows)) (pr_items old) (map (merge_client (stats_by_email (r :: rows))) (pr_items old))).
  { induction (pr_items old) as [|row l IH]; constructor; [|done]. unfold patched, merge_client. by destruct (stats_by_email (r :: rows) !! row_email row). }
  destruct (existsb _ _) eqn:E; [done|]. split; [done|]. induction (pr_items old) as [|row l IH]; [constructor|]. cbn [existsb map] in E, P. apply orb_false_iff in E as [E1 E2].
  inversion P as [|? ? ? ? P1 P2]; subst. constructor; [|by apply IH]. apply bool_decide_eq_false in E1. unfold patched. destruct (_ !! row_email row); [|done].
  destruct E1. by eexists.
Qed.

(** ** What switching a client on or off leaves out *)

(** Whatever the stored record, the payload of a switch has none of these fields. *)
Lemma setEnable_omits base enable k :
  In k ["speedLimitKbps"; "speedLimitUpKbps"; "speedLimitDownKbps"; "windowQuotaBytes"; "windowHours"; "windowMode"; "adTag"; "forwardedPorts"] ->
  obj_get (setEnable_payload base enable) k = VUndef.
Proof.
  intros H. unfold setEnable_payload. destruct (truthy (get (get base "reverse") "tag"));
    repeat (destruct H as [<-|H]; [reflexivity|]); destruct H.
Qed.
