(* ===== verification/ShareParams.v ===== *)
(** * What a share link says about a stream

    Models the data the link generators of src/frontend/src/lib/xray/inbound-link.ts read (the
    types of src/frontend/src/schemas/protocols/) and the writers that turn a stream into query
    parameters.  Only the fields the generators read are kept.  Header maps and the polymorphic
    [finalmask] stay values.  SHA-256 ([@noble/hashes]) is the argument [sha256_hex]: the
    hexadecimal digest of the UTF-8 bytes of a string. *)
From S2P Require Import Prelude JsString JsValue Json Uri LinkParser Headers.
From Stdlib Require Import Ascii.
Local Open Scope Z_scope.

(** ** Data *)

Record TcpRequest := { req_path : list string; req_headers : jsval }.

Inductive TcpHeader :=
| HeaderNone
| HeaderHttp (request : option TcpRequest) (response_headers : jsval).

Record XHttpStreamSettings := {
  x_path : string;
  x_host : string;
  x_mode : string;
  x_fields : obj     (* the other fields, [headers] among them *)
}.

Inductive NetworkSettings :=
| Tcp (header : option TcpHeader)
| Kcp (mtu tti : Z)
| Ws (path host : string) (headers : jsval)
| Grpc (serviceName authority : string) (multiMode : bool)
| HttpUpgrade (path host : string) (headers : jsval)
| XHttp (xhttp : XHttpStreamSettings)
| HysteriaNet.

Definition network_name (n : NetworkSettings) : string :=
  match n with
  | Tcp _ => "tcp" | Kcp _ _ => "kcp" | Ws _ _ _ => "ws" | Grpc _ _ _ => "grpc" | HttpUpgrade _ _ _ => "httpupgrade"
  | XHttp _ => "xhttp" | HysteriaNet => "hysteria"
  end.

Record TlsStreamSettings := {
  t_serverName : string;
  t_alpn : list string;
  t_fingerprint : string;
  t_echConfigList : string;
  t_verifyPeerCertByName : string;
  t_pinnedPeerCertSha256 : list string
}.

Record RealityStreamSettings := {
  r_target : string;
  r_serverNames : list string;
  r_shortIds : list string;
  r_publicKey : string;
  r_fingerprint : string;
  r_serverName : string;
  r_spiderX : string;
  r_mldsa65Verify : string
}.

Inductive SecuritySettings := NoSecurity | Tls (t : TlsStreamSettings) | Reality (r : RealityStreamSettings).

Definition security_name (s : SecuritySettings) : string :=
  match s with NoSecurity => "none" | Tls _ => "tls" | Reality _ => "reality" end.

Inductive ForceTls := same | tls | none.

Record ExternalProxyEntry := {
  ep_forceTls : ForceTls;
  ep_dest : string;
  ep_port : Z;
  ep_remark : string;
  ep_sni : option string;
  ep_fingerprint : option string;
  ep_alpn : option (list string);
  ep_pinnedPeerCertSha256 : option (list string);
  ep_verifyPeerCertByName : option string;
  ep_echConfigList : option string;
  ep_vlessRoute : option string;
  ep_allowInsecure : option bool
}.

Record StreamSettings := {
  s_network : NetworkSettings;
  s_security : SecuritySettings;
  s_finalmask : jsval;
  s_externalProxy : list ExternalProxyEntry
}.

(** ** XHTTP extras *)

Definition xhttpHostFallback (x : XHttpStreamSettings) : string := getHeaderValue (obj_get (x_fields x) "headers") "host".

Definition padding_fields : list string := ["xPaddingKey"; "xPaddingHeader"; "xPaddingPlacement"; "xPaddingMethod"].

Definition string_fields : list string :=
  ["uplinkHTTPMethod"; "sessionIDPlacement"; "sessionIDKey"; "sessionIDTable"; "sessionIDLength"; "seqPlacement"; "seqKey";
   "uplinkDataPlacement"; "uplinkDataKey"; "scMaxEachPostBytes"].

(** [coreDefaults[k]] *)
Definition core_default (k : string) : option string := if String.eqb k "scMaxEachPostBytes" then Some "1000000" else None.

(** A non-empty string field that is not the core's own default is copied. *)
Definition copy_string (x : obj) (extra : obj) (k : string) : obj :=
  match obj_get x k with
  | VStr v =>
      if negb (String.eqb v "") && negb (match core_default k with Some d => String.eqb v d | None => false end)
      then obj_set extra k (VStr v) else extra
  | _ => extra
  end.

Definition copy_as (extra : obj) (from to : string) : obj :=
  match obj_get extra from with VStr v => obj_set extra to (VStr v) | _ => extra end.

Definition shared_headers (headers : jsval) : obj :=
  match headers with VObj o => List.filter (fun kv => negb (String.eqb (to_lower kv.1) "host")) o | _ => [] end.

Definition buildXhttpExtra (x : XHttpStreamSettings) : option obj :=
  let f := x_fields x in
  let extra : obj := if negb (String.eqb (x_mode x) "") then [("mode", VStr (x_mode x))] else [] in
  let extra := match obj_get f "xPaddingBytes" with
               | VStr v => if negb (String.eqb v "") then obj_set extra "xPaddingBytes" (VStr v) else extra
               | _ => extra
               end in
  let extra := if is_bool (obj_get f "xPaddingObfsMode") true
               then fold_left (copy_string f) padding_fields (obj_set extra "xPaddingObfsMode" (VBool true)) else extra in
  let extra := fold_left (copy_string f) string_fields extra in
  let extra := copy_as extra "sessionIDPlacement" "sessionPlacement" in
  let extra := copy_as extra "sessionIDKey" "sessionKey" in
  let extra := match shared_headers (obj_get f "headers") with
               | [] => extra
               | h => obj_set extra "headers" (VObj h)
               end in
  match extra with [] => None | _ => Some extra end.

Definition applyXhttpExtraToObj (x : XHttpStreamSettings) (o : obj) : obj :=
  let o := match obj_get (x_fields x) "xPaddingBytes" with
           | VStr v => if negb (String.eqb v "") then obj_set o "x_padding_bytes" (VStr v) else o
           | _ => o
           end in
  match buildXhttpExtra x with Some extra => assign extra o | None => o end.

(** ** Final masks *)

Fixpoint hasShareableFinalMaskValue (value : jsval) : bool :=
  match value with
  | VUndef | VNull => false
  | VArr l => existsb hasShareableFinalMaskValue l
  | VObj o => existsb (fun kv => hasShareableFinalMaskValue kv.2) o
  | VStr s => negb (String.eqb s "")
  | _ => true
  end.

Definition serializeFinalMask (finalmask : jsval) : string :=
  if negb (truthy finalmask) then ""
  else if hasShareableFinalMaskValue finalmask then stringify finalmask else "".

Definition applyFinalMaskToObj (finalmask : jsval) (o : obj) : obj :=
  let payload := serializeFinalMask finalmask in
  if negb (String.eqb payload "") then obj_set o "fm" (VStr payload) else o.

Definition applyFinalMaskToParams (finalmask : jsval) (ps : params) : params :=
  let payload := serializeFinalMask finalmask in
  if negb (String.eqb payload "") then params_set ps "fm" payload else ps.

(** ** External proxies *)

(** [value.filter(Boolean).join(',')] of an array, or the empty string *)
Definition comma_join (l : option (list string)) : string :=
  match l with Some l => join "," (List.filter (fun s => negb (String.eqb s "")) l) | None => "" end.

Definition externalProxyAlpn := comma_join.
Definition externalProxyPins := comma_join.

(** The short names and values an external proxy overrides, in the order they are written. *)
Definition external_overrides (ep : ExternalProxyEntry) : params :=
  let nonempty k v := if String.eqb v "" then [] else [(k, v)] in
  nonempty "sni" (match ep_sni ep with Some "" | None => ep_dest ep | Some s => s end) ++
  nonempty "fp" (default "" (ep_fingerprint ep)) ++
  nonempty "alpn" (externalProxyAlpn (ep_alpn ep)) ++
  nonempty "pcs" (externalProxyPins (ep_pinnedPeerCertSha256 ep)) ++
  nonempty "vcn" (default "" (ep_verifyPeerCertByName ep)) ++
  nonempty "ech" (default "" (ep_echConfigList ep)).

Definition applyExternalProxyTLSObj (ep : option ExternalProxyEntry) (o : obj) (security : string) : obj :=
  match ep with
  | Some ep => if String.eqb security "tls" then assign (map (fun kv => (kv.1, VStr kv.2)) (external_overrides ep)) o else o
  | None => o
  end.

Definition set_params (l : params) (ps : params) : params := fold_left (fun ps kv => params_set ps kv.1 kv.2) l ps.

Definition applyExternalProxyTLSParams (ep : option ExternalProxyEntry) (ps : params) (security : string) : params :=
  match ep with
  | Some ep => if String.eqb security "tls" then set_params (external_overrides ep) ps else ps
  | None => ps
  end.

(** ** Network and security parameters *)

Definition applyXhttpExtraToParams (x : XHttpStreamSettings) (ps : params) : params :=
  let host := if String.eqb (x_host x) "" then xhttpHostFallback x else x_host x in
  let ps := set_params [("path", x_path x); ("host", host); ("mode", x_mode x)] ps in
  let ps := match obj_get (x_fields x) "xPaddingBytes" with
            | VStr v => if negb (String.eqb v "") then params_set ps "x_padding_bytes" v else ps
            | _ => ps
            end in
  match buildXhttpExtra x with Some extra => params_set ps "extra" (stringify (VObj extra)) | None => ps end.

(** [getHeaderValue(response, 'host') || getHeaderValue(request, 'host')] *)
Definition http_host (request : TcpRequest) (response_headers : jsval) : string :=
  let h := getHeaderValue response_headers "host" in
  if String.eqb h "" then getHeaderValue (req_headers request) "host" else h.

(** The host of a transport, or its [Host] header. *)
Definition host_or_header (host : string) (headers : jsval) : string :=
  if String.eqb host "" then getHeaderValue headers "host" else host.

Definition writeNetworkParams (n : NetworkSettings) (ps : params) : params :=
  match n with
  | Tcp (Some (HeaderHttp (Some request) response)) =>
      let ps := params_set ps "path" (join "," (req_path request)) in
      let host := http_host request response in
      let ps := if String.eqb host "" then ps else params_set ps "host" host in
      params_set ps "headerType" "http"
  | Kcp mtu tti => set_params [("mtu", string_of_Z mtu); ("tti", string_of_Z tti)] ps
  | Ws path host headers => set_params [("path", path); ("host", host_or_header host headers)] ps
  | Grpc serviceName authority multiMode =>
      let ps := set_params [("serviceName", serviceName); ("authority", authority)] ps in
      if multiMode then params_set ps "mode" "multi" else ps
  | HttpUpgrade path host headers => set_params [("path", path); ("host", host_or_header host headers)] ps
  | XHttp x => applyXhttpExtraToParams x ps
  | _ => ps
  end.

Definition set_nonempty (k v : string) (ps : params) : params := if String.eqb v "" then ps else params_set ps k v.

Definition writeTlsParams (s : SecuritySettings) (ps : params) : params :=
  match s with
  | Tls t =>
      let ps := set_nonempty "fp" (t_fingerprint t) ps in
      let ps := params_set ps "alpn" (join "," (t_alpn t)) in
      let ps := set_nonempty "ech" (t_echConfigList t) ps in
      let ps := set_nonempty "sni" (t_serverName t) ps in
      let ps := set_nonempty "vcn" (t_verifyPeerCertByName t) ps in
      match t_pinnedPeerCertSha256 t with [] => ps | pins => params_set ps "pcs" (join "," pins) end
  | _ => ps
  end.

Section WithHash.
Context (sha256_hex : string -> string).

Definition deriveSpiderX (seed clientKey : string) : string :=
  if String.eqb seed "" && String.eqb clientKey "" then ""
  else "/" +:+ str_take 15 (sha256_hex (seed +:+ "|" +:+ clientKey)).

(** [a || b || c] of strings, the second and third possibly missing. *)
Definition reality_sni (r : RealityStreamSettings) : string :=
  if negb (String.eqb (r_serverName r) "") then r_serverName r
  else match r_serverNames r with
       | s :: _ => if negb (String.eqb s "") then s else hd "" (split_on ":" (r_target r))
       | [] => hd "" (split_on ":" (r_target r))
       end.

Definition writeRealityParams (s : SecuritySettings) (ps : params) (clientKey : string) : params :=
  match s with
  | Reality r =>
      let ps := set_params [("pbk", r_publicKey r); ("fp", r_fingerprint r)] ps in
      let ps := set_nonempty "sni" (reality_sni r) ps in
      let ps := match r_shortIds r with [] => ps | sid :: _ => params_set ps "sid" sid end in
      let ps := set_nonempty "spx" (deriveSpiderX (r_spiderX r) clientKey) ps in
      set_nonempty "pqv" (r_mldsa65Verify r) ps
  | _ => ps
  end.
End WithHash.
