(* ===== verification/InboundLink.v ===== *)
(** * Share-link generation

    Models src/frontend/src/lib/xray/inbound-link.ts: the per-protocol link generators, the
    choice of the advertised host, the dispatcher and the fan-out over clients and external
    proxies.  [None] is the exception [new URL] raises on an authority it cannot parse. *)
From S2P Require Import Prelude JsInt JsString JsValue Utf8 Base64 Json Uri Url LinkParser Headers ProtocolCapabilities ShareParams.
From Stdlib Require Import Ascii.
Local Open Scope Z_scope.

(** ** Inbounds *)

Record ClientShape := {
  cl_id : option string;
  cl_uuid : option string;
  cl_security : option string;
  cl_flow : option string;
  cl_password : option string;
  cl_auth : option string;
  cl_secret : option string;
  cl_email : option string;
  cl_subId : option string
}.

Record WireguardPeer := {
  p_privateKey : option string;
  p_preSharedKey : option string;
  p_allowedIPs : list string;
  p_keepAlive : option Z;
  p_comment : option string
}.

Record WireguardInboundSettings := {
  wg_mtu : option Z;
  wg_secretKey : string;
  wg_dns : option string;
  wg_peers : list WireguardPeer;
  wg_clients : list WireguardPeer
}.

Record AmneziawgServer := {
  a_primaryDns : option string; a_secondaryDns : option string; a_mtu : option Z;
  a_jc : Z; a_jmin : Z; a_jmax : Z; a_s1 : Z; a_s2 : Z; a_s3 : option Z; a_s4 : option Z;
  a_h1 : option string; a_h2 : option string; a_h3 : option string; a_h4 : option string;
  a_i1 : option string; a_i2 : option string; a_i3 : option string; a_i4 : option string; a_i5 : option string;
  a_headerProtectionKey : option string; a_contentPaddingAddition : option string; a_rekeyAfterTime : option string;
  a_rekeyTimeout : option string; a_rejectAfterTime : option string; a_keepaliveTimeout : option string;
  a_maxHandshakeAttempts : option string;
  a_randomTrailers : bool; a_disableCookies : bool; a_publicKey : option string
}.

Inductive InboundSettings :=
| Vmess (clients : list ClientShape)
| Vless (encryption decryption : string) (clients : list ClientShape)
| Trojan (clients : list ClientShape)
| Shadowsocks (method password : string) (clients : list ClientShape)
| Hysteria (clients : list ClientShape)
| Mtproto (clients : list ClientShape)
| Tuic (settings : jsval) (clients : list ClientShape)
| WireguardIn (settings : WireguardInboundSettings)
| AmneziawgIn (server : AmneziawgServer) (clients : list WireguardPeer)
| Other (protocol : string).

Record Inbound := {
  i_port : Z;
  i_listen : option string;
  i_shareAddr : option string;
  i_shareAddrStrategy : option string;
  i_streamSettings : option StreamSettings;
  i_settings : InboundSettings
}.

(** ** URLs *)

(** [address.replace(/^\[|\]$/g, '')] *)
Definition strip_brackets (s : string) : string :=
  let s := if starts_with s "[" then str_drop 1 s else s in
  if ends_with s "]" then str_take (String.length s - 1) s else s.

Definition formatUrlHost (address : string) : string :=
  let bare := strip_brackets address in
  if str_includes bare ":" then "[" +:+ bare +:+ "]" else bare.

(** [new URL(text)], the parameters set one by one, the fragment, and [toString()]. *)
Definition url_text (text : string) (ps : params) (hash : string) : option string :=
  option_map (fun u => href (with_hash (with_params u (set_params ps (searchParams u))) hash)) (new_URL text).

(** ** VLESS *)

Definition is_uuid_group (n : nat) (s : string) : bool :=
  Nat.eqb (String.length s) n && forall_chars (fun c => match hex_digit c with Some _ => true | None => false end) s.

Definition is_uuid (id : string) : bool :=
  match split_on "-" id with
  | [a; b; c; d; e] => is_uuid_group 8 a && is_uuid_group 4 b && is_uuid_group 4 c && is_uuid_group 4 d && is_uuid_group 12 e
  | _ => false
  end.

Definition hex_of_nibble (z : Z) : string := String (hex_char z) "".

(** [n.toString(16).padStart(4, '0')] of a 16-bit number *)
Definition hex4_padded (n : Z) : string :=
  hex_of_nibble (n / 4096 mod 16) +:+ hex_of_nibble (n / 256 mod 16) +:+ hex_of_nibble (n / 16 mod 16) +:+ hex_of_nibble (n mod 16).

Definition applyVlessRoute (id : string) (route : option string) : string :=
  let r := trim (default "" route) in
  if String.eqb r "" || negb (all_digits r && (String.length r <=? 5)%nat) then id
  else
    let n := digits_value 0 r in
    if 65535 <? n then id
    else if negb (is_uuid id) then id
    else str_take 14 id +:+ hex4_padded n +:+ str_drop 18 id.

(** The security a link advertises. *)
Definition link_security (force : ForceTls) (s : StreamSettings) : string :=
  match force with same => security_name (s_security s) | tls => "tls" | none => "none" end.

(** The TLS parameters of a VLESS link, in its own order. *)
Definition vlessTlsParams (s : SecuritySettings) (ps : params) : params :=
  match s with
  | Tls t =>
      let ps := set_nonempty "fp" (t_fingerprint t) ps in
      let ps := params_set ps "alpn" (join "," (t_alpn t)) in
      let ps := set_nonempty "sni" (t_serverName t) ps in
      let ps := set_nonempty "ech" (t_echConfigList t) ps in
      let ps := set_nonempty "vcn" (t_verifyPeerCertByName t) ps in
      match t_pinnedPeerCertSha256 t with [] => ps | pins => params_set ps "pcs" (join "," pins) end
  | _ => ps
  end.

Section Generators.
Context (sha256_hex : string -> string).

(** The parameters of a VLESS link. *)
Definition vless_params (s : StreamSettings) (encryption decryption flow clientKey : string) (security : string)
  (ep : option ExternalProxyEntry) : params :=
  let ps := params_set [("type", network_name (s_network s))] "encryption" encryption in
  let ps := writeNetworkParams (s_network s) ps in
  let ps := applyFinalMaskToParams (s_finalmask s) ps in
  let ps :=
    if String.eqb security "tls" then
      applyExternalProxyTLSParams ep (vlessTlsParams (s_security s) (params_set ps "security" "tls")) security
    else if String.eqb security "reality" then writeRealityParams sha256_hex (s_security s) (params_set ps "security" "reality") clientKey
    else params_set ps "security" "none" in
  let capability := {| c_protocol := "vless"; c_encryption := Some encryption; c_decryption := Some decryption; c_flows := None;
                       c_ssMethod := None; c_network := Some (network_name (s_network s));
                       c_security := Some (security_name (s_security s)) |} in
  if negb (String.eqb flow "") && canEnableTlsFlow capability then params_set ps "flow" flow else ps.

Definition genVlessLink (inbound : Inbound) (address : string) (port : Z) (force : ForceTls) (remark clientId clientKey flow : string)
  (ep : option ExternalProxyEntry) : option string :=
  match i_settings inbound, i_streamSettings inbound with
  | Vless encryption decryption _, Some s =>
      let ps := vless_params s encryption decryption flow clientKey (link_security force s) ep in
      let route := match ep with Some e => ep_vlessRoute e | None => None end in
      url_text ("vless://" +:+ applyVlessRoute clientId route +:+ "@" +:+ formatUrlHost address +:+ ":" +:+ string_of_Z port)
        ps (encodeURIComponent remark)
  | _, _ => Some ""
  end.

(** ** Trojan *)

Definition trojan_params (s : StreamSettings) (clientKey security : string) (ep : option ExternalProxyEntry) : params :=
  let ps := writeNetworkParams (s_network s) [("type", network_name (s_network s))] in
  let ps := applyFinalMaskToParams (s_finalmask s) ps in
  if String.eqb security "tls" then
    applyExternalProxyTLSParams ep (writeTlsParams (s_security s) (params_set ps "security" "tls")) security
  else if String.eqb security "reality" then writeRealityParams sha256_hex (s_security s) (params_set ps "security" "reality") clientKey
  else params_set ps "security" "none".

Definition genTrojanLink (inbound : Inbound) (address : string) (port : Z) (force : ForceTls) (remark clientPassword clientKey : string)
  (ep : option ExternalProxyEntry) : option string :=
  match i_settings inbound, i_streamSettings inbound with
  | Trojan _, Some s =>
      url_text ("trojan://" +:+ encodeURIComponent clientPassword +:+ "@" +:+ formatUrlHost address +:+ ":" +:+ string_of_Z port)
        (trojan_params s clientKey (link_security force s) ep) (encodeURIComponent remark)
  | _, _ => Some ""
  end.

(** ** Shadowsocks *)

Definition params_delete (ps : params) (k : string) : params := List.filter (fun p => negb (String.eqb p.1 k)) ps.

Definition ss_params (s : StreamSettings) (security : string) (ep : option ExternalProxyEntry) : params :=
  let ps := writeNetworkParams (s_network s) [("type", network_name (s_network s))] in
  let ps := applyFinalMaskToParams (s_finalmask s) ps in
  let ps := if String.eqb security "tls"
            then applyExternalProxyTLSParams ep (writeTlsParams (s_security s) (params_set ps "security" "tls")) security else ps in
  if String.eqb (network_name (s_network s)) "tcp" && String.eqb (param_or ps "headerType" "") "http" then
    let host := param_or ps "host" "" in
    let ps := fold_left params_delete ["type"; "headerType"; "host"; "path"] ps in
    params_set ps "plugin" ("obfs-local;obfs=http;obfs-host=" +:+ host)
  else ps.

Definition is_multi_user (method : string) : bool := negb (String.eqb method "2022-blake3-chacha20-poly1305").

Definition genShadowsocksLink (inbound : Inbound) (address : string) (port : Z) (force : ForceTls) (remark clientPassword : string)
  (ep : option ExternalProxyEntry) : option string :=
  match i_settings inbound, i_streamSettings inbound with
  | Shadowsocks method password _, Some s =>
      let ps := ss_params s (link_security force s) ep in
      let isSS2022 := String.eqb (str_take 4 method) "2022" in
      let passwords := (if isSS2022 then [password] else []) ++ (if is_multi_user method then [clientPassword] else []) in
      let authority := formatUrlHost address +:+ ":" +:+ string_of_Z port in
      if isSS2022 then
        let userinfo := join ":" (map encodeURIComponent (method :: passwords)) in
        let query := query_string ps in
        Some ("ss://" +:+ userinfo +:+ "@" +:+ authority +:+ (if String.eqb query "" then "" else "?" +:+ query) +:+
              "#" +:+ encodeURIComponent remark)
      else
        let userinfo := encode (method +:+ ":" +:+ join ":" passwords) true in
        url_text ("ss://" +:+ userinfo +:+ "@" +:+ authority) ps (encodeURIComponent remark)
  | _, _ => Some ""
  end.

(** ** Hysteria *)

Definition hex2 (b : Z) : string := hex_of_nibble (b / 16) +:+ hex_of_nibble (b mod 16).

Definition hysteriaPinHex (pin : string) : string :=
  let stripped := remove_char ":" (trim pin) in
  if Nat.eqb (String.length stripped) 64 && is_uuid_group 64 stripped then to_lower stripped
  else match atob (replace_char "_" "/" (replace_char "-" "+" (trim pin))) with
       | Some binary => if Nat.eqb (length binary) 32 then String.concat "" (map hex2 binary) else pin
       | None => pin
       end.

(** The ports of the first [udphop] mask that has any. *)
Fixpoint hop_mask_ports (udp : list jsval) : option string :=
  match udp with
  | [] => None
  | mask :: rest =>
      match (if is_str (get mask "type") "udphop" then get (get mask "settings") "remotePorts" else VUndef) with
      | VStr ports => if String.eqb (trim ports) "" then hop_mask_ports rest else Some (trim ports)
      | _ => hop_mask_ports rest
      end
  end.

Definition udpHopPorts (finalmask : jsval) : string :=
  match hop_mask_ports (as_list (get finalmask "udp")) with
  | Some ports => ports
  | None => trim (str_or_empty (get (get (get finalmask "quicParams") "udpHop") "ports"))
  end.

Definition GECKO_MIN_PACKET_SIZE : Z := 1.
Definition GECKO_MAX_PACKET_SIZE : Z := 2048.

Definition parseGeckoPacketSize (v : jsval) : option (Z * Z) :=
  let str := trim (match v with VStr s => s | _ => if is_nullish v then "" else prim_string v end) in
  match split_on "-" str with
  | [a; b] =>
      if all_digits a && all_digits b then
        let min := digits_value 0 a in
        let max := digits_value 0 b in
        if (MAX_SAFE <? min) || (MAX_SAFE <? max) || (min <? GECKO_MIN_PACKET_SIZE) || (max <? min) || (GECKO_MAX_PACKET_SIZE <? max)
        then None else Some (min, max)
      else None
  | _ => None
  end.

(** The [obfs] parameters of the first salamander mask. *)
Definition obfs_params (finalmask : jsval) (ps : params) : params :=
  match get finalmask "udp" with
  | VArr udp =>
      match List.find is_salamander udp with
      | Some mask =>
          match get (get mask "settings") "password" with
          | VStr password =>
              if String.eqb password "" then ps
              else
                let ps := match parseGeckoPacketSize (get (get mask "settings") "packetSize") with
                          | Some (min, max) =>
                              set_params [("obfs", "gecko"); ("minPacketSize", string_of_Z min); ("maxPacketSize", string_of_Z max)] ps
                          | None => params_set ps "obfs" "salamander"
                          end in
                params_set ps "obfs-password" password
          | _ => ps
          end
      | None => ps
      end
  | _ => ps
  end.

Definition hysteria_params (s : StreamSettings) (t : TlsStreamSettings) (ep : option ExternalProxyEntry) : params :=
  let ps := set_nonempty "fp" (t_fingerprint t) [("security", "tls")] in
  let ps := match t_alpn t with [] => ps | alpn => params_set ps "alpn" (join "," alpn) end in
  let ps := set_nonempty "ech" (t_echConfigList t) ps in
  let ps := set_nonempty "sni" (t_serverName t) ps in
  let ps := set_nonempty "vcn" (t_verifyPeerCertByName t) ps in
  let ps := match t_pinnedPeerCertSha256 t with [] => ps | pins => params_set ps "pinSHA256" (join "," (map hysteriaPinHex pins)) end in
  let ps := match ep with
            | Some e =>
                match ep_pinnedPeerCertSha256 e with
                | Some pins =>
                    match map hysteriaPinHex (List.filter (fun s => negb (String.eqb s "")) pins) with
                    | [] => ps
                    | epPins => params_set ps "pinSHA256" (join "," epPins)
                    end
                | None => ps
                end
            | None => ps
            end in
  let ps := obfs_params (s_finalmask s) ps in
  set_nonempty "mport" (udpHopPorts (s_finalmask s)) ps.

Definition genHysteriaLink (inbound : Inbound) (address : string) (port : Z) (remark clientAuth : string) (ep : option ExternalProxyEntry)
  : option string :=
  match i_settings inbound, i_streamSettings inbound with
  | Hysteria _, Some s =>
      match s_security s with
      | Tls t =>
          url_text ("hysteria2://" +:+ clientAuth +:+ "@" +:+ formatUrlHost address +:+ ":" +:+ string_of_Z port)
            (hysteria_params s t ep) (encodeURIComponent remark)
      | _ => Some ""
      end
  | _, _ => Some ""
  end.
End Generators.
