(* ===== verification/ShareHost.v ===== *)
(** * The host of a share link

    Models the host selection of src/frontend/src/lib/xray/inbound-link.ts: which address a share
    link advertises, given the inbound's listen and share addresses, the node's address and the
    page's host. *)
From S2P Require Import Prelude JsString JsValue Utf8 Uri Url InboundLink.
From Stdlib Require Import Ascii.

(** [SHARE_HOSTNAME_RE]: dot-separated labels of letters, digits and inner hyphens. *)
Definition host_label (s : string) : bool :=
  match s with
  | "" => false
  | String c _ =>
      is_alnum c && forall_chars (fun c => is_alnum c || Ascii.eqb c "-") s &&
      match str_rev s with String d _ => is_alnum d | "" => false end
  end.

Definition is_share_hostname (s : string) : bool := forallb host_label (split_on "." s).

Definition isUnixSocketListen (listen : string) : bool := starts_with listen "/" || starts_with listen "@".

(** [new URL('http://' + s).hostname] of a text that starts with a bracket and has none of
    [/?#@]; a backslash ends the authority of such a URL. *)
Definition bracket_hostname (s : string) : option string :=
  let s := filter_string (fun c => negb (Ascii.eqb c (char_of 9) || Ascii.eqb c (char_of 10) || Ascii.eqb c (char_of 13))) s in
  let (authority, _) := span_until (Ascii.eqb "\") s in
  match cut_port false authority with
  | (h, None) => parse_host h
  | (h, Some p) => match parse_port p with Some _ => parse_host h | None => None end
  end.

Definition normalizeShareHost (host : string) : string :=
  let h := trim host in
  if String.eqb h "" || str_includes h "://" || starts_with h "//" || exists_char (in_chars "/?#@") h then ""
  else if starts_with h "[" then
    if negb (ends_with h "]") then "" else default "" (bracket_hostname h)
  else if str_includes h ":" then default "" (bracket_hostname ("[" +:+ h +:+ "]"))
  else if is_share_hostname h then h else "".

Definition loopback_name (h : string) : bool := String.eqb h "localhost" || String.eqb h "::1" || starts_with h "127.".

Definition isShareableHost (host : string) : bool :=
  let h := to_lower (strip_brackets (normalizeShareHost host)) in
  if String.eqb h "" then false
  else if String.eqb h "0.0.0.0" || String.eqb h "::" || String.eqb h "::0" then false
  else negb (loopback_name h).

Definition shareableListenFrom (listen : string) : string :=
  let trimmed := trim listen in
  if negb (String.eqb trimmed "") && negb (isUnixSocketListen trimmed) && isShareableHost trimmed then normalizeShareHost trimmed else "".

Inductive ShareAddrStrategy := node | listen | custom.

Definition normalizeShareAddrStrategy (strategy : option string) : ShareAddrStrategy :=
  match strategy with
  | Some s => if String.eqb s "listen" then listen else if String.eqb s "custom" then custom else node
  | None => node
  end.

(** [a || b] of strings *)
Definition or_str (a b : string) : string := if String.eqb a "" then b else a.

Definition resolveShareHost (listenF shareAddr strategy : option string) (hostOverride fallbackHostname : string) : string :=
  let nodeAddr := normalizeShareHost hostOverride in
  let listenAddr := shareableListenFrom (default "" listenF) in
  let customAddr := normalizeShareHost (default "" shareAddr) in
  let fallbackAddr := or_str (normalizeShareHost fallbackHostname) (trim fallbackHostname) in
  match normalizeShareAddrStrategy strategy with
  | listen => or_str listenAddr (or_str nodeAddr fallbackAddr)
  | custom => or_str customAddr (or_str nodeAddr (or_str listenAddr fallbackAddr))
  | node => or_str nodeAddr (or_str listenAddr fallbackAddr)
  end.

Definition resolveAddr (inbound : Inbound) (hostOverride fallbackHostname : string) : string :=
  resolveShareHost (i_listen inbound) (i_shareAddr inbound) (i_shareAddrStrategy inbound) hostOverride fallbackHostname.

Definition isLoopbackHost (host : string) : bool := loopback_name (to_lower (strip_brackets (trim host))).

Definition preferPublicHost (browserHost publicHost : string) : string :=
  if negb (String.eqb publicHost "") && isLoopbackHost browserHost then publicHost else browserHost.

(** ** What is advertised *)

Example resolve_samples :
  resolveShareHost (Some "0.0.0.0") None (Some "listen") "" "panel.example.org" = "panel.example.org" /\
  resolveShareHost (Some "2001:DB8::1") None (Some "listen") "node.example" "h" = "[2001:db8::1]" /\
  resolveShareHost (Some "/run/x.sock") (Some "cdn.example") (Some "custom") "node.example" "h" = "cdn.example" /\
  resolveShareHost None None None "https://evil/x" "my_host" = "my_host".
Proof. vm_compute. repeat split; reflexivity. Qed.

(** A host that came from the normaliser: a host name, or an IPv6 literal in canonical form. *)
Definition normal_host (h : string) : Prop :=
  (h <> "" /\ is_share_hostname h = true) \/ (exists l, h = "[" +:+ ipv6_string l +:+ "]").

Lemma parse_host_bracket h r : starts_with h "[" = true -> parse_host h = Some r -> exists l, r = "[" +:+ ipv6_string l +:+ "]".
Proof.
  intros Hb. unfold parse_host. rewrite Hb. destruct (ends_with h "]"); [|done]. destruct (ipv6_parse _); [|done].
  intros [= <-]. eauto.
Qed.

Lemma cut_port_bracket s : starts_with s "[" = true -> starts_with (fst (cut_port false s)) "[" = true.
Proof.
  unfold starts_with. destruct s as [|c s]; [done|]. cbn [String.prefix]. destruct (ascii_dec "[" c) as [<-|]; [|done]. intros _.
  cbn. destruct (cut_port true s) as [h p]. cbn. apply prefix_nil.
Qed.

Lemma bracket_hostname_normal t r : bracket_hostname (String "[" t) = Some r -> normal_host r.
Proof.
  unfold bracket_hostname. cbn [filter_string]. cbn. destruct (span_until _ _) as [a b] eqn:E. intros H.
  pose proof (cut_port_bracket (String "[" a) ltac:(cbn; apply prefix_nil)) as Hb.
  destruct (cut_port false (String "[" a)) as [h p]. cbn [fst] in Hb. right.
  destruct p as [p|]; [destruct (parse_port p); [|discriminate H]|]; eapply parse_host_bracket; eauto.
Qed.

Lemma normalizeShareHost_normal host : normalizeShareHost host = "" \/ normal_host (normalizeShareHost host).
Proof.
  unfold normalizeShareHost. destruct (_ || _) eqn:E0; [by left|].
  destruct (starts_with (trim host) "[") eqn:Eb.
  - destruct (ends_with _ _); cbn [negb]; [|by left]. apply prefix_iff in Eb as [t ->].
    destruct (bracket_hostname _) as [r|] eqn:E; cbn; [right; by eapply bracket_hostname_normal|by left].
  - destruct (str_includes _ ":").
    + destruct (bracket_hostname _) as [r|] eqn:E; cbn; [right; by eapply bracket_hostname_normal|by left].
    + destruct (is_share_hostname (trim host)) eqn:Es; [|by left]. right. left. split; [|done].
      rewrite !orb_false_iff in E0. destruct E0 as [[[E0 _] _] _]. by apply String.eqb_neq in E0.
Qed.

Lemma normal_host_nonempty h : normal_host h -> h <> "".
Proof. by intros [[H _]|[l ->]]. Qed.

Lemma or_str_spec (P : string -> Prop) a b : (a = "" \/ P a) -> P b -> P (or_str a b).
Proof. intros Ha Hb. unfold or_str. destruct (String.eqb_spec a "") as [E|E]; [done|by destruct Ha]. Qed.

Lemma shareableListenFrom_normal l : shareableListenFrom l = "" \/ normal_host (shareableListenFrom l).
Proof. unfold shareableListenFrom. case_match; [apply normalizeShareHost_normal|by left]. Qed.

(** What may be advertised: a normalised host, or the page's own host as it is. *)
Definition advertised (fallbackHostname h : string) : Prop := normal_host h \/ h = trim fallbackHostname.

Lemma or_advertised fb a b : (a = "" \/ normal_host a) -> advertised fb b -> advertised fb (or_str a b).
Proof. intros Ha. apply or_str_spec. unfold advertised. destruct Ha; auto. Qed.

(** *** Which texts denote a host *)

Lemma prefix_chars f p s : String.prefix p s = true -> forall_chars f s = true -> forall_chars f p = true.
Proof. intros [t ->]%prefix_iff. rewrite forall_chars_app. by intros [H _]%andb_true_iff. Qed.

Lemma includes_chars f s p : forall_chars f s = true -> forall_chars f p = false -> str_includes s p = false.
Proof.
  intros H N. unfold str_includes. induction s as [|c s IH]; cbn [index_of].
  - destruct (String.prefix p "") eqn:E; [|done]. by rewrite (prefix_chars f p _ E H) in N.
  - destruct (String.prefix p (String c s)) eqn:E; [by rewrite (prefix_chars f p _ E H) in N|]. cbn in H. apply andb_true_iff in H as [_ H].
    specialize (IH H). by destruct (index_of p s).
Qed.

Lemma exists_chars f p s : forall_chars f s = true -> (forall c, f c = true -> p c = false) -> exists_char p s = false.
Proof. intros H N. induction s as [|c s IH]; [done|]. cbn in H |- *. apply andb_true_iff in H as [Hc H]. by rewrite (N c Hc), IH. Qed.

Lemma split_chars f c s : Forall (fun w => forall_chars f w = true) (split_on c s) -> forall_chars (fun d => f d || Ascii.eqb c d) s = true.
Proof.
  induction s as [|d s IH]; [done|]. cbn [split_on forall_chars]. destruct (Ascii.eqb c d); [|destruct (split_on c s) as [|w ws] eqn:E]; intros H; inversion H as [|? ? H1 H2]; subst.
  - by rewrite orb_true_r, IH.
  - by destruct (split_on_nonempty c s).
  - cbn in H1. apply andb_true_iff in H1 as [-> H1]. cbn. apply IH. by constructor.
Qed.

(** A host name, and the text of an IPv6 address. *)
Definition name_char (c : ascii) : bool := is_alnum c || Ascii.eqb c "-" || Ascii.eqb "." c.
Definition literal_char (c : ascii) : bool := match hex_digit c with Some _ => true | None => Ascii.eqb c ":" || Ascii.eqb c "." end.

Definition literal (a : string) (l : list Z) : Prop := forall_chars literal_char a = true /\ str_includes a ":" = true /\ ipv6_parse a = Some l.

(** The host a text stands for: a host name is itself, an IPv6 address, with or without brackets, its canonical form. *)
Inductive denotes (text : string) : string -> Prop :=
| denotes_name : is_share_hostname (trim text) = true -> denotes text (trim text)
| denotes_bare l : literal (trim text) l -> denotes text ("[" +:+ ipv6_string l +:+ "]")
| denotes_bracketed a l : trim text = "[" +:+ a +:+ "]" -> literal a l -> denotes text ("[" +:+ ipv6_string l +:+ "]").

Lemma hostname_chars t : is_share_hostname t = true -> t <> "" /\ forall_chars name_char t = true.
Proof.
  intros H. split; [by destruct t|]. unfold is_share_hostname in H. pose proof (split_chars (fun c => is_alnum c || Ascii.eqb c "-") "." t) as S. apply S.
  apply List.Forall_forall. intros w Hw. apply forallb_forall with (x := w) in H; [|done]. unfold host_label in H. destruct w; [done|]. apply andb_true_iff in H as [H _]. by apply andb_true_iff in H as [_ H].
Qed.


Lemma normalize_name t : is_share_hostname (trim t) = true -> normalizeShareHost t = trim t.
Proof.
  intros H. destruct (hostname_chars _ H) as [N C]. unfold normalizeShareHost. rewrite (proj2 (String.eqb_neq _ _) N), (includes_chars name_char _ "://" C), (includes_chars name_char _ ":" C) by done.
  assert (S : forall p, forall_chars name_char p = false -> starts_with (trim t) p = false) by (intros p Hp; apply not_true_iff_false; intros E; by rewrite (prefix_chars _ _ _ E C) in Hp).
  rewrite !S by done. rewrite (exists_chars name_char) by (done || (intros c; destruct c as [[] [] [] [] [] [] [] []]; vm_compute; congruence)). by rewrite H.
Qed.

Lemma filter_string_all f s : forall_chars f s = true -> filter_string f s = s.
Proof. induction s as [|c s IH]; [done|]. cbn. rewrite andb_true_iff. intros [-> H]. by rewrite IH. Qed.

Lemma span_all f s : forall_chars (fun c => negb (f c)) s = true -> span_until f s = (s, "").
Proof. induction s as [|c s IH]; [done|]. cbn. rewrite andb_true_iff. intros [H1%negb_true_iff H]. by rewrite H1, IH. Qed.

Lemma cut_port_literal a : forall_chars literal_char a = true -> cut_port true (a +:+ "]") = (a +:+ "]", None).
Proof.
  induction a as [|c a IH]; [done|]. cbn [forall_chars String.append cut_port]. rewrite andb_true_iff. intros [H1 H]. rewrite andb_false_r.
  assert (E : Ascii.eqb c "[" = false /\ Ascii.eqb c "]" = false) by (revert H1; destruct c as [[] [] [] [] [] [] [] []]; vm_compute; try done; by split).
  destruct E as [-> ->]. by rewrite IH.
Qed.

Lemma bracket_hostname_literal a l : literal a l -> bracket_hostname ("[" +:+ a +:+ "]") = Some ("[" +:+ ipv6_string l +:+ "]").
Proof.
  intros (C & _ & P). unfold bracket_hostname.
  assert (B : forall g : ascii -> bool, g "["%char = true -> g "]"%char = true -> (forall c, literal_char c = true -> g c = true) -> forall_chars g ("[" +:+ a +:+ "]") = true).
  { intros g G1 G2 G. cbn. rewrite G1, forall_chars_app, (forall_chars_impl literal_char g a G C). cbn. by rewrite G2. }
  rewrite filter_string_all by (apply B; [done|done|intros c; destruct c as [[] [] [] [] [] [] [] []]; vm_compute; congruence]).
  rewrite span_all by (apply B; [done|done|intros c; destruct c as [[] [] [] [] [] [] [] []]; vm_compute; congruence]).
  change ("[" +:+ a +:+ "]") with (String "[" (a +:+ "]")). cbn [cut_port]. cbn [Ascii.eqb andb negb]. rewrite cut_port_literal by done. unfold parse_host.
  assert (E1 : starts_with (String "[" (a +:+ "]")) "[" = true) by (apply prefix_iff; by exists (a +:+ "]")).
  assert (E2 : ends_with (String "[" (a +:+ "]")) "]" = true) by (apply ends_with_iff; by exists ("[" +:+ a)).
  cbn -[starts_with ends_with str_take str_drop] in E1, E2 |- *. rewrite E1, E2. cbn [str_drop String.length]. rewrite length_app_str. cbn [String.length].
  replace (String.length a + 1 - 1)%nat with (String.length a) by lia. by rewrite str_take_app, P.
Qed.

Lemma literal_plain a l : literal a l -> a <> "" /\ str_includes a "://" = false /\ starts_with a "//" = false /\ exists_char (in_chars "/?#@") a = false /\ starts_with a "[" = false.
Proof.
  intros (C & I & _). split; [by destruct a|]. split; [by apply (includes_chars literal_char)|].
  assert (S : forall p, forall_chars literal_char p = false -> starts_with a p = false) by (intros p Hp; apply not_true_iff_false; intros E; by rewrite (prefix_chars _ _ _ E C) in Hp).
  split; [by apply S|]. split; [|by apply S]. apply (exists_chars literal_char); [done|]. intros c. destruct c as [[] [] [] [] [] [] [] []]; vm_compute; congruence.
Qed.

Lemma normalize_bare t l : literal (trim t) l -> normalizeShareHost t = "[" +:+ ipv6_string l +:+ "]".
Proof.
  intros L. destruct (literal_plain _ _ L) as (N & E1 & E2 & E3 & E4). unfold normalizeShareHost. rewrite (proj2 (String.eqb_neq _ _) N), E1, E2, E3, E4.
  cbn [orb]. rewrite (proj1 (proj2 L)). by rewrite (bracket_hostname_literal _ _ L).
Qed.

Lemma normalize_bracketed t a l : trim t = "[" +:+ a +:+ "]" -> literal a l -> normalizeShareHost t = "[" +:+ ipv6_string l +:+ "]".
Proof.
  intros T L. unfold normalizeShareHost. rewrite T. pose proof (bracket_hostname_literal _ _ L) as B. destruct L as (C & _ & _).
  set (g := fun c => literal_char c || in_chars "[]" c).
  assert (G : forall_chars g ("[" +:+ a +:+ "]") = true).
  { cbn. rewrite forall_chars_app, (forall_chars_impl literal_char g a); [done| |done]. intros c H. unfold g. by rewrite H. }
  rewrite (includes_chars g _ "://" G) by done. rewrite (exists_chars g) by (done || (intros c; destruct c as [[] [] [] [] [] [] [] []]; vm_compute; congruence)).
  assert (E1 : starts_with ("[" +:+ a +:+ "]") "[" = true) by (apply prefix_iff; by exists (a +:+ "]")).
  assert (E2 : ends_with ("[" +:+ a +:+ "]") "]" = true) by (apply ends_with_iff; by exists ("[" +:+ a)).
  rewrite E1, E2. exact (f_equal (default "") B).
Qed.

Lemma denotes_normal t h : denotes t h -> normalizeShareHost t = h /\ h <> "".
Proof.
  intros [H|l L|a l T L]; split; try done; [by apply normalize_name|by apply hostname_chars|by apply normalize_bare|by eapply normalize_bracketed].
Qed.
(** *** Which listen addresses clients can reach *)

(** Nothing, a socket path, a wildcard address, or a loopback address; IPv6 addresses in any notation. *)
Definition unreachable (text : string) : Prop :=
  trim text = "" \/ starts_with (trim text) "/" = true \/ starts_with (trim text) "@" = true \/
  (is_share_hostname (trim text) = true /\ (trim text = "0.0.0.0" \/ to_lower (trim text) = "localhost" \/ starts_with (trim text) "127." = true)) \/
  exists l, denotes text ("[" +:+ ipv6_string l +:+ "]") /\ (l = repeat 0%Z 8 \/ l = repeat 0%Z 7 ++ [1%Z]).

(** A host name that is none of those, or an IPv6 address whose first group is not zero. *)
Inductive reachable (text : string) : string -> Prop :=
| reachable_name : is_share_hostname (trim text) = true -> trim text <> "0.0.0.0" -> to_lower (trim text) <> "localhost" -> starts_with (trim text) "127." = false ->
    reachable text (trim text)
| reachable_literal g l : denotes text ("[" +:+ ipv6_string (g :: l) +:+ "]") -> (0 < g < 65536)%Z -> reachable text ("[" +:+ ipv6_string (g :: l) +:+ "]").

Lemma strip_brackets_of a : strip_brackets ("[" +:+ a +:+ "]") = a.
Proof.
  unfold strip_brackets. assert (E1 : starts_with ("[" +:+ a +:+ "]") "[" = true) by (apply prefix_iff; by exists (a +:+ "]")). rewrite E1. cbn [str_drop String.append].
  assert (E2 : ends_with (a +:+ "]") "]" = true) by (apply ends_with_iff; by exists a). rewrite E2, length_app_str. cbn [String.length].
  replace (String.length a + 1 - 1)%nat with (String.length a) by lia. apply str_take_app.
Qed.

Lemma strip_brackets_name t : forall_chars name_char t = true -> strip_brackets t = t.
Proof.
  intros C. unfold strip_brackets. assert (E : starts_with t "[" = false) by (apply not_true_iff_false; intros E; by apply (prefix_chars _ _ _ E) in C).
  rewrite E. destruct (ends_with t "]") eqn:F; [|done]. apply ends_with_iff in F as [a ->]. rewrite forall_chars_app, andb_false_r in C. done.
Qed.

Lemma lower_same c d : is_alpha d = false -> lower_char c = d <-> c = d.
Proof.
  intros N. assert (K : lower_char c = c \/ (is_alpha (lower_char c) = true /\ is_alpha c = true)) by (destruct c as [[] [] [] [] [] [] [] []]; vm_compute; auto).
  destruct K as [->|[K1 K2]]; [done|]. split; congruence.
Qed.

Lemma lower_prefix p t : forall_chars (fun c => negb (is_alpha c)) p = true -> starts_with (to_lower t) p = starts_with t p.
Proof.
  unfold starts_with, to_lower. revert t. induction p as [|d p IH]; intros t H; [by rewrite !prefix_nil|]. cbn in H. apply andb_true_iff in H as [Hd%negb_true_iff H].
  destruct t as [|c t]; [done|]. cbn [map_string String.prefix]. pose proof (lower_same c d Hd) as L. destruct (ascii_dec d (lower_char c)), (ascii_dec d c); [by apply IH|naive_solver..|done].
Qed.

Lemma lower_text u t : forall_chars (fun c => negb (is_alpha c)) u = true -> to_lower t = u <-> t = u.
Proof.
  unfold to_lower. revert t. induction u as [|d u IH]; intros [|c t] H; try done. cbn in H. apply andb_true_iff in H as [Hd%negb_true_iff H].
  cbn [map_string]. pose proof (lower_same c d Hd) as L. pose proof (IH t H) as I. split; [intros [= E1 E2]; f_equal; tauto|intros [= E1 E2]; f_equal; tauto].
Qed.

(** The text the tests of [isShareableHost] are made on. *)
Lemma tested_name t : is_share_hostname (trim t) = true -> to_lower (strip_brackets (normalizeShareHost (trim t))) = to_lower (trim t).
Proof. intros S. rewrite normalize_name by (by rewrite trim_idem). rewrite trim_idem, strip_brackets_name; [done|by apply hostname_chars]. Qed.

Lemma tested_literal t l : denotes t ("[" +:+ ipv6_string l +:+ "]") -> strip_brackets (normalizeShareHost (trim t)) = ipv6_string l.
Proof.
  intros D. assert (N : normalizeShareHost (trim t) = normalizeShareHost t) by (unfold normalizeShareHost; by rewrite trim_idem).
  by rewrite N, (proj1 (denotes_normal _ _ D)), strip_brackets_of.
Qed.

Lemma unreachable_listen t : unreachable t -> shareableListenFrom t = "".
Proof.
  unfold shareableListenFrom, isUnixSocketListen. intros [->|[H|[H|[[N H]|(l & D & H)]]]]; [done|by rewrite H, andb_false_r|by rewrite H, orb_true_r, andb_false_r| |].
  - assert (E : isShareableHost (trim t) = false); [|by rewrite E, andb_false_r]. unfold isShareableHost. rewrite (tested_name t N). destruct H as [->|[->|H]]; [done..|].
    unfold loopback_name. rewrite lower_prefix by done. rewrite H, !orb_true_r. by repeat case_match.
  - assert (E : isShareableHost (trim t) = false); [|by rewrite E, andb_false_r]. unfold isShareableHost. rewrite (tested_literal t l D). by destruct H as [->| ->]; vm_compute.
Qed.

(** The text of an address whose first group is not zero begins with a digit and has only digits and colons. *)
Definition group_char (c : ascii) : bool := match hex_digit c with Some _ => true | None => Ascii.eqb c ":" end.

Lemma hex_char_hex z n : let c := hex_char (z / 16 ^ n mod 16) in group_char c = true /\ Ascii.eqb c ":" = false.
Proof.
  pose proof (Z.mod_pos_bound (z / 16 ^ n) 16 ltac:(lia)) as H. cbv zeta. set (d := (z / 16 ^ n mod 16)%Z) in *. clearbody d.
  assert (C : In d (map Z.of_nat (seq 0 16))) by (apply in_map_iff; exists (Z.to_nat d); split; [lia|apply in_seq; lia]). cbn in C. by repeat destruct C as [<-|C].
Qed.

Lemma hex16_text z : forall_chars group_char (hex16 z) = true /\ exists c r, hex16 z = String c r /\ Ascii.eqb c ":" = false.
Proof.
  unfold hex16. cbv zeta. pose proof (hex_char_hex z) as H. cbv zeta in H.
  destruct (H 0%Z) as [A0 B0], (H 1%Z) as [A1 B1], (H 2%Z) as [A2 B2], (H 3%Z) as [A3 B3]. revert A0 B0 A1 B1 A2 B2 A3 B3.
  generalize (hex_char (z / 16 ^ 0 mod 16)) (hex_char (z / 16 ^ 1 mod 16)) (hex_char (z / 16 ^ 2 mod 16)) (hex_char (z / 16 ^ 3 mod 16)). intros c0 c1 c2 c3 ? ? ? ? ? ? ? ?.
  destruct (z <? 16)%Z, (z <? 256)%Z, (z <? 4096)%Z; cbn; (split; [by repeat (apply andb_true_iff; split)|by do 2 eexists]).
Qed.

Lemma groups_text l : forall_chars group_char (join ":" (map hex16 l)) = true.
Proof.
  unfold join. induction l as [|z [|y l] IH]; [done|apply hex16_text|]. cbn [map String.concat] in IH |- *. rewrite !forall_chars_app, IH, (proj1 (hex16_text z)). done.
Qed.

Lemma longest_run_from l : forall i best, longest_run i l best = best \/ (i <= (longest_run i l best).1)%nat.
Proof.
  induction l as [|z l IH]; intros i best; [by left|]. cbn [longest_run]. destruct (IH (S i) (if (best.2 <? zero_run (z :: l))%nat then (i, zero_run (z :: l)) else best)) as [->|H]; [|right; lia].
  destruct (_ <? _)%nat; [right; cbn; lia|by left].
Qed.

Lemma ipv6_text g l : g <> 0%Z -> forall_chars group_char (ipv6_string (g :: l)) = true /\ exists c r, ipv6_string (g :: l) = String c r /\ Ascii.eqb c ":" = false.
Proof.
  intros G. assert (F : forall r, exists c t, join ":" (map hex16 (g :: r)) = String c t /\ Ascii.eqb c ":" = false).
  { intros r. destruct (hex16_text g) as (_ & c & t & E & Hc). unfold join. destruct r as [|y r]; cbn [map String.concat]; rewrite E; by do 2 eexists. }
  unfold ipv6_string. cbn [longest_run]. assert (Z : zero_run (g :: l) = 0%nat) by (by destruct g). rewrite Z. cbn [Nat.ltb Nat.leb snd].
  destruct (longest_run_from l 1 (0, 0)%nat) as [->|H]; [split; [apply groups_text|apply F]|]. destruct (longest_run 1 l (0, 0)%nat) as [i n]. cbn [fst] in H.
  destruct (n <=? 1)%nat; [split; [apply groups_text|apply F]|]. split.
  - rewrite !forall_chars_app, !groups_text. done.
  - destruct i as [|i]; [lia|]. cbn [List.firstn]. destruct (F (List.firstn i l)) as (c & t & E & Hc). rewrite E. by do 2 eexists.
Qed.

Lemma group_lower s : forall_chars group_char s = true -> forall_chars group_char (to_lower s) = true.
Proof.
  unfold to_lower. induction s as [|c s IH]; [done|]. cbn. rewrite !andb_true_iff. intros [H1 H2]. split; [|by apply IH]. revert H1. by destruct c as [[] [] [] [] [] [] [] []]; vm_compute.
Qed.

Lemma shareable_literal s c r : forall_chars group_char s = true -> s = String c r -> Ascii.eqb c ":" = false ->
  let h := to_lower s in String.eqb h "" = false /\ (String.eqb h "0.0.0.0" || String.eqb h "::" || String.eqb h "::0") = false /\ loopback_name h = false.
Proof.
  intros G E C. pose proof (group_lower s G) as L. cbv zeta. assert (N : forall u, forall_chars group_char u = false -> String.eqb (to_lower s) u = false) by (intros u U; apply String.eqb_neq; congruence).
  assert (K : forall u, String.eqb (to_lower s) (String ":" u) = false).
  { intros u. apply String.eqb_neq. subst s. unfold to_lower. cbn. intros [= H _]. apply (proj1 (lower_same c ":" eq_refl)) in H. by rewrite H in C. }
  split; [by subst|]. unfold loopback_name. rewrite !K, !N by done. split; [done|]. apply not_true_iff_false. intros P. by apply (prefix_chars _ _ _ P) in L.
Qed.

Lemma reachable_listen t h : reachable t h -> shareableListenFrom t = h /\ h <> "".
Proof.
  intros R. assert (D : denotes t h) by (destruct R; [by constructor|done]). destruct (denotes_normal t h D) as [N Ne]. split; [|done].
  assert (T : normalizeShareHost (trim t) = h) by (unfold normalizeShareHost in *; by rewrite trim_idem). unfold shareableListenFrom.
  assert (E : negb (String.eqb (trim t) "") && negb (isUnixSocketListen (trim t)) = true).
  { destruct (String.eqb_spec (trim t) "") as [E|E]; [rewrite E in T; by subst|]. unfold isUnixSocketListen. cbn [negb andb]. destruct (starts_with (trim t) "/" || starts_with (trim t) "@") eqn:S; [|done].
    exfalso. assert (X : exists_char (in_chars "/?#@") (trim t) = true) by (apply orb_true_iff in S; by destruct S as [[u ->]%prefix_iff|[u ->]%prefix_iff]).
    unfold normalizeShareHost in N. rewrite X, orb_true_r in N. by apply Ne. }
  rewrite E. cbn [andb]. assert (H : isShareableHost (trim t) = true); [|by rewrite H].
  unfold isShareableHost. destruct R as [S N0 Nl N1|g l D' G].
  - rewrite (tested_name t S). rewrite (proj2 (String.eqb_neq (to_lower (trim t)) "")) by (destruct (trim t); [by apply hostname_chars in S as [? _]|done]).
    assert (C : forall_chars name_char (to_lower (trim t)) = true).
    { apply hostname_chars in S as [_ S]. unfold to_lower. revert S. generalize (trim t). clear. induction s as [|c s IH]; [done|]. cbn. rewrite !andb_true_iff. intros [H1 H2]. split; [|by apply IH]. revert H1. by destruct c as [[] [] [] [] [] [] [] []]; vm_compute. }
    assert (K : forall u, forall_chars name_char u = false -> String.eqb (to_lower (trim t)) u = false) by (intros u U; apply String.eqb_neq; congruence).
    rewrite (proj2 (String.eqb_neq (to_lower (trim t)) "0.0.0.0")) by (rewrite lower_text; done). unfold loopback_name. rewrite (K "::"), (K "::0"), (K "::1") by done. rewrite lower_prefix by done.
    by rewrite (proj2 (String.eqb_neq _ _) Nl), N1.
  - rewrite (tested_literal t _ D'). destruct (ipv6_text g l) as (C & c & r & E1 & E2); [lia|]. destruct (shareable_literal _ c r C E1 E2) as (-> & -> & ->). done.
Qed.

(** C32. The host of a share link is a host name, an IPv6 literal in canonical form, or the page's own host, and it is
    never empty while the page has a host.  A host name is advertised as it is written and an IPv6 address, with or without
    brackets, in canonical form: under the strategy [custom] the custom address if it is one; under [node], which is also the strategy of
    an unknown name, the node's address if it is one; under [listen] the listen address if clients can reach it.  A listen address
    no client can reach (none, a socket path, 0.0.0.0, a name of 127.*, localhost in any case, the zero or the loopback address of IPv6
    in any notation) never influences the result.  Under [custom] an address that is not a host leaves the choice of [node]. *)
Theorem resolveShareHost_advertised listenF shareAddr strategy hostOverride fb
  (r := resolveShareHost listenF shareAddr strategy hostOverride fb) :
  advertised fb r /\
  (trim fb <> "" -> r <> "") /\
  (forall h, strategy = Some "custom" -> denotes (default "" shareAddr) h -> r = h) /\
  (forall h, strategy <> Some "custom" -> strategy <> Some "listen" -> denotes hostOverride h -> r = h) /\
  (forall h, strategy = Some "listen" -> reachable (default "" listenF) h -> r = h) /\
  (unreachable (default "" listenF) -> r = resolveShareHost None shareAddr strategy hostOverride fb) /\
  (strategy = Some "custom" -> ~ normal_host (normalizeShareHost (default "" shareAddr)) -> r = resolveShareHost listenF None None hostOverride fb).
Proof.
  assert (A : advertised fb r).
  { subst r. unfold resolveShareHost. destruct (normalizeShareAddrStrategy strategy);
      repeat apply or_advertised; try (by right); auto using normalizeShareHost_normal, shareableListenFrom_normal. }
  assert (O : forall a b, a <> "" -> or_str a b = a) by (intros a b N; unfold or_str; by rewrite (proj2 (String.eqb_neq _ _) N)).
  split; [done|]. split; [|split; [|split; [|split; [|split]]]]; subst r; unfold resolveShareHost.
  - intros Hf. destruct A as [A|A]; [by apply normal_host_nonempty|]. unfold resolveShareHost in A. by rewrite A.
  - intros h -> [-> N]%denotes_normal. cbn. by apply O.
  - intros h N1 N2 [-> N]%denotes_normal. assert (E : normalizeShareAddrStrategy strategy = node).
    { destruct strategy as [s|]; [|done]. cbn. rewrite (proj2 (String.eqb_neq s "listen")) by congruence. by rewrite (proj2 (String.eqb_neq s "custom")) by congruence. }
    rewrite E. by apply O.
  - intros h -> [-> N]%reachable_listen. cbn. by apply O.
  - intros ->%unreachable_listen. done.
  - intros -> N. destruct (normalizeShareHost_normal (default "" shareAddr)) as [E|E]; [|done]. cbn. by rewrite E.
Qed.

Lemma resolveShareHost_advertised_witness :
  resolveShareHost (Some "127.0.0.1") (Some "CDN.example") (Some "custom") "" "panel" = "CDN.example" /\
  resolveShareHost (Some "127.0.0.1") None (Some "listen") "" "panel" = resolveShareHost None None (Some "listen") "" "panel" /\
  resolveShareHost (Some " [2001:DB8::1]") None (Some "listen") "node.example" "panel" = "[2001:db8::1]".
Proof.
  split; [|split].
  - apply (proj1 (proj2 (proj2 (resolveShareHost_advertised (Some "127.0.0.1") (Some "CDN.example") (Some "custom") "" "panel")))); [done|by apply (denotes_name "CDN.example")].
  - destruct (resolveShareHost_advertised (Some "127.0.0.1") None (Some "listen") "" "panel") as (_ & _ & _ & _ & _ & H & _). apply H. right. right. right. left. split; [reflexivity|]. right. by right.
  - destruct (resolveShareHost_advertised (Some " [2001:DB8::1]") None (Some "listen") "node.example" "panel") as (_ & _ & _ & _ & H & _). apply H; [done|].
    apply (reachable_literal " [2001:DB8::1]" 8193%Z [3512; 0; 0; 0; 0; 0; 1]%Z); [|lia]. apply (denotes_bracketed _ "2001:DB8::1"); [reflexivity|by repeat split].
Defined.
