(* ===== verification/HostLinks.v ===== *)
(** * Hosts as endpoints of share links

    Models src/frontend/src/lib/hosts/host-link.ts: the projection of a host on an external proxy, the reading
    of an advertised host, and the endpoints of an MTProto inbound.  The endpoints are the list put
    into the stream of the inbound; no endpoint leaves the inbound as it is ([None]). *)
From Stdlib Require Import Ascii.
From S2P Require Import Prelude JsString JsValue Uri Url LinkParser ShareParams InboundLink ShareHost TrafficMultiplier.
Local Open Scope Z_scope.

(** ** A host as an external proxy *)

Record HostLinkInput := {
  h_security : string; h_address : string; h_port : Z; h_remark : string; h_sni : string; h_alpn : list string; h_fingerprint : option string;
  h_pinnedPeerCertSha256 : list string; h_verifyPeerCertByName : string; h_echConfigList : string; h_overrideSniFromAddress : bool;
  h_keepSniBlank : bool; h_vlessRoute : string; h_allowInsecure : bool }.

(** [s || undefined] *)
Definition or_undefined (s : string) : option string := if String.eqb s "" then None else Some s.

Definition or_none {A} (l : list A) : option (list A) := match l with [] => None | _ => Some l end.

Definition hostToExternalProxyEntry (host : HostLinkInput) : ExternalProxyEntry :=
  {| ep_forceTls := if String.eqb (h_security host) "tls" then tls else if String.eqb (h_security host) "none" then none else same;
     ep_dest := h_address host;
     ep_port := if 0 <? h_port host then h_port host else 443;
     ep_remark := h_remark host;
     ep_sni := if h_keepSniBlank host then None
               else if h_overrideSniFromAddress host then or_undefined (h_address host) else or_undefined (h_sni host);
     ep_fingerprint := h_fingerprint host;
     ep_alpn := or_none (h_alpn host);
     ep_pinnedPeerCertSha256 := or_none (h_pinnedPeerCertSha256 host);
     ep_verifyPeerCertByName := or_undefined (h_verifyPeerCertByName host);
     ep_echConfigList := or_undefined (h_echConfigList host);
     ep_vlessRoute := or_undefined (h_vlessRoute host);
     ep_allowInsecure := if h_allowInsecure host then Some true else None |}.

(** ** Advertised hosts *)

(** [/^:(\d+)$/] *)
Definition port_suffix (s : string) : option Z :=
  match s with String c p => if Ascii.eqb c ":"%char && all_digits p then Some (digits_value 0 p) else None | "" => None end.

(** The text before the only colon and the digits after it. *)
Definition plain_host_port (s : string) : option (string * Z) :=
  match index_of ":" s with
  | Some i => if all_digits (str_drop (S i) s) then Some (str_take i s, digits_value 0 (str_drop (S i) s)) else None
  | None => None
  end.

Definition splitAdvertisedHost (value : string) (inboundPort : Z) : string * Z :=
  let host := trim value in
  let plain := match plain_host_port host with Some hp => hp | None => (host, inboundPort) end in
  match host, index_of "]" host with
  | String c rest, Some (S k) => if Ascii.eqb c "["%char then (str_take k rest, default inboundPort (port_suffix (str_drop (S k) rest))) else plain
  | _, _ => plain
  end.

Record HostRecord := { hr_inboundIds : list Z; hr_hosts : list string; hr_remark : option string; hr_isDisabled : bool; hr_excludeFromSubTypes : list string }.

Definition applies (inboundId : Z) (r : HostRecord) : bool :=
  negb (hr_isDisabled r) && existsb (Z.eqb inboundId) (hr_inboundIds r) && negb (existsb (String.eqb "raw") (hr_excludeFromSubTypes r)).

Definition endpoint_of (inbound : Inbound) (hostOverride fallbackHostname : string) (r : HostRecord) (value : string) : ExternalProxyEntry :=
  let '(dest, port) := splitAdvertisedHost value (i_port inbound) in
  {| ep_forceTls := same; ep_dest := if String.eqb dest "" then resolveAddr inbound hostOverride fallbackHostname else dest; ep_port := port;
     ep_remark := default "" (hr_remark r); ep_sni := None; ep_fingerprint := None; ep_alpn := None; ep_pinnedPeerCertSha256 := None;
     ep_verifyPeerCertByName := None; ep_echConfigList := None; ep_vlessRoute := None; ep_allowInsecure := None |}.

(** The endpoints [withMtprotoHostEndpoints] puts into the stream. *)
Definition mtprotoHostEndpoints (protocol : string) (inbound : Inbound) (inboundId : Z) (records : list HostRecord) (hostOverride fallbackHostname : string)
    : option (list ExternalProxyEntry) :=
  if negb (String.eqb protocol "mtproto") then None
  else or_none (flat_map (fun r => if applies inboundId r then map (endpoint_of inbound hostOverride fallbackHostname r) (hr_hosts r) else []) records).

(** ** Reading back what is advertised *)

(** Hosts as they are advertised: names and addresses without white space and brackets. *)
Definition host_ok (h : string) : Prop :=
  forall_chars (fun c => negb (is_ws c)) h = true /\ no_char "["%char h /\ no_char "]"%char h.

(** A host with its port, an IPv6 address in brackets. *)
Definition advertise (h : string) (port : Z) : string := (if str_includes h ":" then "[" +:+ h +:+ "]" else h) +:+ ":" +:+ string_of_Z port.

Lemma no_ws_app a b : forall_chars (fun c => negb (is_ws c)) a = true -> forall_chars (fun c => negb (is_ws c)) b = true -> trim (a +:+ b) = a +:+ b.
Proof. intros A B. apply trim_no_ws. by rewrite forall_chars_app, A, B. Qed.

Lemma port_no_ws port : 0 <= port -> forall_chars (fun c => negb (is_ws c)) (string_of_Z port) = true.
Proof. intros H. eapply forall_chars_impl; [|by apply string_of_Z_digits]. intros c D. by rewrite is_digit_not_ws. Qed.

Lemma port_suffix_read port : 0 <= port -> port_suffix (String ":" (string_of_Z port)) = Some port.
Proof. intros H. unfold port_suffix. destruct (string_of_Z_all port H) as [-> ->]. done. Qed.

Lemma split_unbracketed value port : (forall rest, trim value <> String "["%char rest) ->
  splitAdvertisedHost value port = match plain_host_port (trim value) with Some hp => hp | None => (trim value, port) end.
Proof.
  intros H. unfold splitAdvertisedHost. destruct (trim value) as [|c rest]; [done|]. destruct (index_of "]" (String c rest)) as [[|k]|]; try done.
  destruct (Ascii.eqb_spec c "["%char) as [->|]; [by destruct (H rest)|done].
Qed.

Lemma includes_no h c : str_includes h (String c "") = false -> no_char c h.
Proof.
  unfold str_includes, no_char. induction h as [|d h IH]; [done|]. cbn [index_of forall_chars]. destruct (String.prefix (String c "") (String d h)) eqn:P; [done|].
  cbn [String.prefix] in P. destruct (ascii_dec c d) as [|N]; [by destruct h|]. intros H. rewrite IH; [|by destruct (index_of _ h)]. destruct (Ascii.eqb_spec c d); [done|done].
Qed.

Lemma host_port_read h port : no_char ":"%char h -> 0 <= port -> plain_host_port (h +:+ String ":"%char (string_of_Z port)) = Some (h, port).
Proof.
  intros N P. unfold plain_host_port. rewrite index_of_app by done. rewrite str_take_app, str_drop_S_app. destruct (string_of_Z_all port P) as [-> ->]. done.
Qed.

Lemma no_char_head c h rest : no_char c h -> h <> "" -> forall t, h +:+ rest <> String c t.
Proof. intros N E t. destruct h as [|d h]; [done|]. unfold no_char in N. cbn in N. intros [= -> _]. by rewrite Ascii.eqb_refl in N. Qed.

(** Every host and port, whether a name, an IPv4 or an IPv6 address, is read back as it was
    advertised; a host without a port gets that of the inbound. *)
Theorem advertised_read h port inboundPort : host_ok h -> 0 <= port ->
  splitAdvertisedHost (advertise h port) inboundPort = (h, port) /\ (str_includes h ":" = false -> splitAdvertisedHost h inboundPort = (h, inboundPort)).
Proof.
  intros (W & B1 & B2) P. pose proof (port_no_ws port P) as Wp. unfold advertise. split.
  - destruct (str_includes h ":") eqn:I.
    + assert (T : trim (("[" +:+ h +:+ "]") +:+ ":" +:+ string_of_Z port) = String "["%char (h +:+ String "]"%char (String ":"%char (string_of_Z port)))).
      { rewrite trim_no_ws; [cbn; by rewrite !app_assoc_str|]. rewrite !forall_chars_app, W. cbn. by rewrite Wp. }
      unfold splitAdvertisedHost. rewrite T. cbn [index_of String.prefix]. replace (if ascii_dec "]" "[" then _ else false) with false by (by destruct (ascii_dec "]" "[")).
      rewrite index_of_app by done. cbn [option_map]. rewrite Ascii.eqb_refl, str_take_app, str_drop_S_app. by rewrite port_suffix_read.
    + apply includes_no in I. rewrite split_unbracketed; rewrite no_ws_app by (try done; cbn; by rewrite Wp).
      * change (":" +:+ string_of_Z port) with (String ":"%char (string_of_Z port)). by rewrite host_port_read.
      * destruct (decide (h = "")) as [->|E]; [done|]. by apply no_char_head.
  - intros I%includes_no. rewrite split_unbracketed; rewrite trim_no_ws by done.
    + unfold plain_host_port. by rewrite index_of_none.
    + intros rest ->. unfold no_char in B1. cbn in B1. discriminate.
Qed.

Lemma advertised_read_witness : splitAdvertisedHost (advertise "2001:db8::1" 8443) 443 = ("2001:db8::1", 8443).
Proof. apply (advertised_read "2001:db8::1" 8443 443); [repeat split; reflexivity|lia]. Defined.
