(* ===== verification/WireguardConfig.v ===== *)
(** * WireGuard and AmneziaWG client configurations

    Models the link and configuration-text generators of src/frontend/src/lib/xray/inbound-link.ts
    for WireGuard and AmneziaWG, the readers that turn a link back into a configuration, and
    [effectiveMtu] of src/frontend/src/lib/xray/amneziawg-obfuscation.ts.  [None] is an
    exception ([new URL], or [atob] on a malformed key). *)
From S2P Require Import Prelude JsString JsValue Utf8 Base64 Json Uri Url LinkParser ShareParams InboundLink.
From Stdlib Require Import Ascii.
Local Open Scope Z_scope.

Definition DEFAULT_MTU : Z := 1420.
Definition MIN_MTU : Z := 1280.

Definition effectiveMtu (configuredMtu s4 : option Z) : Z :=
  match configuredMtu with
  | Some m => if 0 <? m then m else Z.max (DEFAULT_MTU - Z.max (default 0 s4) 0) MIN_MTU
  | None => Z.max (DEFAULT_MTU - Z.max (default 0 s4) 0) MIN_MTU
  end.

(** A line feed. *)
Definition nl : string := String (char_of 10) "".

(** ** WireGuard *)

Definition server_public_key (settings : WireguardInboundSettings) : option string :=
  if String.eqb (wg_secretKey settings) "" then Some ""
  else option_map publicKey (generateKeypair (wg_secretKey settings) []).

Definition positive (z : option Z) : option Z := match z with Some m => if 0 <? m then Some m else None | None => None end.

Definition genWireguardLink (settings : WireguardInboundSettings) (address : string) (port : Z) (remark : string) (peerIndex : nat)
  : option string :=
  match wg_peers settings !! peerIndex with
  | None => Some ""
  | Some peer =>
      match new_URL ("wireguard://" +:+ formatUrlHost address +:+ ":" +:+ string_of_Z port), server_public_key settings with
      | Some u, Some pubKey =>
          let u := with_username u (default "" (p_privateKey peer)) in
          let ps := set_nonempty "publickey" pubKey (searchParams u) in
          let ps := match p_allowedIPs peer with [] => ps | ips => params_set ps "address" (join "," ips) end in
          let ps := match positive (wg_mtu settings) with Some m => params_set ps "mtu" (string_of_Z m) | None => ps end in
          Some (href (with_hash (with_params u ps) (encodeURIComponent remark)))
      | _, _ => None
      end
  end.

Definition genWireguardConfig (settings : WireguardInboundSettings) (address : string) (port : Z) (remark : string) (peerIndex : nat)
  : option string :=
  match wg_peers settings !! peerIndex with
  | None => Some ""
  | Some peer =>
      match server_public_key settings with
      | None => None
      | Some pubKey =>
          Some ("[Interface]" +:+ nl +:+
            "PrivateKey = " +:+ default "" (p_privateKey peer) +:+ nl +:+
            "Address = " +:+ join ", " (p_allowedIPs peer) +:+ nl +:+
            "DNS = " +:+ (match wg_dns settings with Some "" | None => "1.1.1.1, 1.0.0.1" | Some d => d end) +:+ nl +:+
            (match positive (wg_mtu settings) with Some m => "MTU = " +:+ string_of_Z m +:+ nl | None => "" end) +:+
            nl +:+ "# " +:+ remark +:+ nl +:+
            "[Peer]" +:+ nl +:+
            "PublicKey = " +:+ pubKey +:+ nl +:+
            "AllowedIPs = 0.0.0.0/0, ::/0" +:+ nl +:+
            "Endpoint = " +:+ address +:+ ":" +:+ string_of_Z port +:+
            (match p_preSharedKey peer with Some "" | None => "" | Some k => nl +:+ "PresharedKey = " +:+ k end) +:+
            (match positive (p_keepAlive peer) with Some k => nl +:+ "PersistentKeepalive = " +:+ string_of_Z k +:+ nl | None => "" end))
      end
  end.

(** [pick] of [wireguardConfigFromLink]: the first non-empty parameter, or the empty string. *)
Definition pick (ps : params) (keys : list string) : string := default "" (firstParam ps keys).

Definition or_default (v d : string) : string := if String.eqb v "" then d else v.

(** [Number(v) > 0] *)
Definition number_positive (v : string) : bool := num_ltb (NFin 0 0) (number_of_string v).

Definition wireguardConfigFromLink (link fallbackRemark : string) : string :=
  match new_URL link with
  | None => ""
  | Some u =>
      if negb (String.eqb (u_protocol u) "wireguard") && negb (String.eqb (u_protocol u) "wg") then ""
      else
        let ps := searchParams u in
        let privateKey := default (u_username u) (decodeURIComponent (u_username u)) in
        let host := u_hostname u in
        let endpoint := if String.eqb host "" then "" else if String.eqb (u_port u) "" then host else host +:+ ":" +:+ u_port u in
        let mtu := pick ps ["mtu"] in
        let psk := pick ps ["presharedkey"; "preshared_key"; "pre-shared-key"; "psk"] in
        let keepAlive := pick ps ["keepalive"; "persistentkeepalive"; "persistent_keepalive"] in
        let remark := or_default (decodeRemark u) fallbackRemark in
        join nl
          (["[Interface]"; "PrivateKey = " +:+ privateKey;
            "Address = " +:+ or_default (pick ps ["address"; "ip"]) "10.0.0.2/32";
            "DNS = " +:+ or_default (pick ps ["dns"]) "1.1.1.1, 1.0.0.1"] ++
           (if negb (String.eqb mtu "") && number_positive mtu then ["MTU = " +:+ mtu] else []) ++
           [""] ++
           (if String.eqb remark "" then [] else ["# " +:+ remark]) ++
           ["[Peer]"; "PublicKey = " +:+ pick ps ["publickey"; "publicKey"; "public_key"; "peerPublicKey"]] ++
           (if String.eqb psk "" then [] else ["PresharedKey = " +:+ psk]) ++
           ["AllowedIPs = " +:+ or_default (pick ps ["allowedips"; "allowed_ips"]) "0.0.0.0/0, ::/0"; "Endpoint = " +:+ endpoint] ++
           (if negb (String.eqb keepAlive "") && number_positive keepAlive then ["PersistentKeepalive = " +:+ keepAlive] else []))
  end.

(** ** AmneziaWG *)

Definition amneziaWGHLine (key : string) (v : option string) (fallback : string) : string :=
  key +:+ " = " +:+ match v with Some s => if String.eqb (trim s) "" then fallback else s | None => fallback end.

(** A line, when the value is there and not blank. *)
Definition optional_line (key : string) (v : option string) : string :=
  match v with Some s => if String.eqb (trim s) "" then "" else key +:+ " = " +:+ s +:+ nl | None => "" end.

(** A line, when the string is not empty. *)
Definition string_line (key : string) (v : option string) : string :=
  match v with Some "" | None => "" | Some s => key +:+ " = " +:+ s +:+ nl end.

Definition number_line (key : string) (v : option Z) : string :=
  match v with Some 0 | None => "" | Some z => key +:+ " = " +:+ string_of_Z z +:+ nl end.

Definition has_newline (s : string) : bool := exists_char (fun c => Ascii.eqb c (char_of 10) || Ascii.eqb c (char_of 13)) s.

(** The lines of the options AmneziaWG added later. *)
Definition optional31 (server : AmneziawgServer) : list (string * option string) :=
  [("HeaderProtectionKey", a_headerProtectionKey server); ("ContentPaddingAddition", a_contentPaddingAddition server);
   ("RekeyAfterTime", a_rekeyAfterTime server); ("RekeyTimeout", a_rekeyTimeout server); ("RejectAfterTime", a_rejectAfterTime server);
   ("KeepaliveTimeout", a_keepaliveTimeout server); ("MaxHandshakeAttempts", a_maxHandshakeAttempts server)].

Definition genAmneziaWGConfig (server : AmneziawgServer) (clients : list WireguardPeer) (address : string) (port : Z) (remark : string)
  (peerIndex : nat) : string :=
  match clients !! peerIndex with
  | None => ""
  | Some client =>
      let text o := default "" o in
      if existsb has_newline [text (p_privateKey client); text (a_primaryDns server); text (a_secondaryDns server); remark] then ""
      else
        let dns := List.filter (fun s => negb (String.eqb (trim s) "")) (map text [a_primaryDns server; a_secondaryDns server]) in
        let n key z := key +:+ " = " +:+ string_of_Z z +:+ nl in
        "[Interface]" +:+ nl +:+
        "PrivateKey = " +:+ text (p_privateKey client) +:+ nl +:+
        "Address = " +:+ join ", " (p_allowedIPs client) +:+ nl +:+
        (match dns with [] => "" | _ => "DNS = " +:+ join ", " dns +:+ nl end) +:+
        n "MTU" (effectiveMtu (a_mtu server) (a_s4 server)) +:+
        n "Jc" (a_jc server) +:+ n "Jmin" (a_jmin server) +:+ n "Jmax" (a_jmax server) +:+
        n "S1" (a_s1 server) +:+ n "S2" (a_s2 server) +:+
        number_line "S3" (a_s3 server) +:+ number_line "S4" (a_s4 server) +:+
        amneziaWGHLine "H1" (a_h1 server) "1" +:+ nl +:+ amneziaWGHLine "H2" (a_h2 server) "2" +:+ nl +:+
        amneziaWGHLine "H3" (a_h3 server) "3" +:+ nl +:+ amneziaWGHLine "H4" (a_h4 server) "4" +:+ nl +:+
        string_line "I1" (a_i1 server) +:+ string_line "I2" (a_i2 server) +:+ string_line "I3" (a_i3 server) +:+
        string_line "I4" (a_i4 server) +:+ string_line "I5" (a_i5 server) +:+
        String.concat "" (map (fun kv => optional_line kv.1 kv.2) (optional31 server)) +:+
        (if a_randomTrailers server then "RandomTrailers = on" +:+ nl else "") +:+
        (if a_disableCookies server then "DisableCookies = on" +:+ nl else "") +:+
        nl +:+ "# " +:+ remark +:+ nl +:+
        "[Peer]" +:+ nl +:+
        "PublicKey = " +:+ text (a_publicKey server) +:+ nl +:+
        string_line "PresharedKey" (p_preSharedKey client) +:+
        "AllowedIPs = 0.0.0.0/0, ::/0" +:+ nl +:+
        "Endpoint = " +:+ address +:+ ":" +:+ string_of_Z port +:+
        (match positive (p_keepAlive client) with Some k => nl +:+ "PersistentKeepalive = " +:+ string_of_Z k | None => "" end)
  end.

(** [value.replace(/=+$/, '')] *)
Definition strip_equals (s : string) : string := str_rev (strip_front (Ascii.eqb "=") (str_rev s)).

Definition toBase64Url (text : string) : string :=
  strip_equals (replace_char "/" "_" (replace_char "+" "-" (btoa (bytes_of text)))).

Definition genAmneziaWGLink (server : AmneziawgServer) (clients : list WireguardPeer) (address : string) (port : Z) (remark : string)
  (peerIndex : nat) : string :=
  let cfgText := genAmneziaWGConfig server clients address port remark peerIndex in
  if String.eqb cfgText "" then "" else "vpn://" +:+ toBase64Url cfgText.

(** [None]: [atob] raised. *)
Definition fromBase64Url (value : string) : option string :=
  option_map text_decode (atob (pad4 (replace_char "_" "/" (replace_char "-" "+" value)))).

Definition amneziawgConfigFromLink (link : string) : string :=
  let trimmed := trim link in
  if negb (starts_with trimmed "vpn://") then "" else default "" (fromBase64Url (str_drop 6 trimmed)).

Definition wgPeerCommentSuffix (peer : WireguardPeer) : string :=
  match p_comment peer with Some c => if String.eqb (trim c) "" then "" else " (" +:+ trim c +:+ ")" | None => "" end.

Definition wgRenderPeers (settings : WireguardInboundSettings) : list WireguardPeer :=
  match wg_clients settings with [] => wg_peers settings | clients => clients end.

Definition with_peers (settings : WireguardInboundSettings) (peers : list WireguardPeer) : WireguardInboundSettings :=
  {| wg_mtu := wg_mtu settings; wg_secretKey := wg_secretKey settings; wg_dns := wg_dns settings; wg_peers := peers;
     wg_clients := wg_clients settings |}.

(** The remark of the [i]-th peer. *)
Definition peer_remark (remark : string) (i : nat) (peer : WireguardPeer) : string :=
  remark +:+ "-" +:+ string_of_Z (Z.of_nat i + 1) +:+ wgPeerCommentSuffix peer.

Definition crlf : string := String (char_of 13) nl.

(** [.map(...).join('\r\n')] where an element may raise. *)
Definition join_all (l : list (option string)) : option string :=
  option_map (join crlf) (fold_right (fun x acc => match x, acc with Some x, Some acc => Some (x :: acc) | _, _ => None end) (Some []) l).

(** ** AmneziaWG links *)

Lemma strip_front_app p a b : forall_chars p a = true -> strip_front p (a +:+ b) = strip_front p b.
Proof. induction a as [|c a IH]; [done|]. cbn. intros [-> H]%andb_true_iff. by apply IH. Qed.

Lemma strip_padding s n : forall_chars (fun c => negb (Ascii.eqb "=" c)) s = true -> strip_equals (s +:+ repeat_char "=" n) = s.
Proof.
  intros H. unfold strip_equals. rewrite str_rev_cat, strip_front_app by (apply forall_chars_rev; by induction n).
  rewrite strip_front_id by by apply forall_chars_rev. apply str_rev_involutive.
Qed.

Lemma toBase64Url_encode s : toBase64Url s = encode s true.
Proof.
  pose proof (base64url_unreserved s) as U. unfold toBase64Url, btoa, replace_char. rewrite encode_safe_list in *. rewrite !map_string_list, !map_app, <-app_list.
  fold safe1 safe2. set (n := pad_count _ _).
  replace (map safe2 (map safe1 (repeat "="%char n))) with (repeat "="%char n) by (clear; by induction n as [|n IH]; cbn; rewrite <-?IH).
  rewrite <-repeat_char_list. apply strip_padding. eapply forall_chars_impl; [|exact U].
  intros c. destruct c as [[] [] [] [] [] [] [] []]; by vm_compute.
Qed.

(** A [vpn://] link generated for an AmneziaWG client decodes to exactly the configuration
    text the panel generates for that client; a missing client has neither. *)
Theorem amneziawg_link_config server clients address port remark i :
  utf8_valid (bytes_of (genAmneziaWGConfig server clients address port remark i)) = true ->
  amneziawgConfigFromLink (genAmneziaWGLink server clients address port remark i) = genAmneziaWGConfig server clients address port remark i.
Proof.
  intros V. unfold genAmneziaWGLink. set (cfg := genAmneziaWGConfig server clients address port remark i) in *.
  destruct (String.eqb_spec cfg "") as [E|E]; [by rewrite E|].
  assert (B : has_bom (bytes_of cfg) = false).
  { subst cfg. unfold genAmneziaWGConfig in *. destruct (clients !! i); [|done]. by case_match. }
  unfold amneziawgConfigFromLink. rewrite toBase64Url_encode, trim_no_ws.
  - replace (starts_with _ _) with true by (symmetry; apply prefix_iff; by eexists).
    change (default "" (decode (encode cfg true)) = cfg). by rewrite decode_encode_text.
  - rewrite forall_chars_app. apply andb_true_iff. split; [done|]. eapply forall_chars_impl; [|apply base64url_unreserved].
    intros c. destruct c as [[] [] [] [] [] [] [] []]; by vm_compute.
Qed.

Definition plain_server : AmneziawgServer :=
  {| a_primaryDns := Some "1.1.1.1"; a_secondaryDns := None; a_mtu := None; a_jc := 4; a_jmin := 8; a_jmax := 80; a_s1 := 15; a_s2 := 20;
     a_s3 := None; a_s4 := Some 12; a_h1 := Some "5"; a_h2 := None; a_h3 := Some "7"; a_h4 := Some "8"; a_i1 := None; a_i2 := None;
     a_i3 := None; a_i4 := None; a_i5 := None; a_headerProtectionKey := None; a_contentPaddingAddition := None; a_rekeyAfterTime := None;
     a_rekeyTimeout := None; a_rejectAfterTime := None; a_keepaliveTimeout := None; a_maxHandshakeAttempts := None;
     a_randomTrailers := true; a_disableCookies := false; a_publicKey := Some "PUB" |}.

Definition plain_client (psk : option string) : WireguardPeer :=
  {| p_privateKey := Some "KEY"; p_preSharedKey := psk; p_allowedIPs := ["10.0.0.2/32"]; p_keepAlive := Some 25; p_comment := None |}.

Lemma amneziawg_link_config_witness :
  amneziawgConfigFromLink (genAmneziaWGLink plain_server [plain_client None] "vpn.example.org" 51820 "box" 0) =
  genAmneziaWGConfig plain_server [plain_client None] "vpn.example.org" 51820 "box" 0.
Proof. apply (amneziawg_link_config plain_server [plain_client None] "vpn.example.org" 51820 "box" 0). vm_compute. reflexivity. Defined.
