(* ===== verification/AwgConfigLines.v ===== *)
(** * No line is injected into an AmneziaWG configuration

    The generator of WireguardConfig.v (src/frontend/src/lib/xray/inbound-link.ts) writes texts
    unescaped into a line-oriented file and refuses line breaks in some of them; this file says
    what that guard achieves. *)
From S2P Require Import Prelude JsString JsValue Utf8 Json Uri Url LinkParser InboundLink WireguardConfig.
From Stdlib Require Import Ascii.
Local Open Scope Z_scope.

(** ** No configuration line is injected *)

(** What a line of a client configuration may be: a section header, a comment, or one of the
    directives the generator knows. *)
Definition directives : list string :=
  ["PrivateKey"; "Address"; "DNS"; "MTU"; "Jc"; "Jmin"; "Jmax"; "S1"; "S2"; "S3"; "S4"; "H1"; "H2"; "H3"; "H4"; "I1"; "I2"; "I3"; "I4"; "I5";
   "HeaderProtectionKey"; "ContentPaddingAddition"; "RekeyAfterTime"; "RekeyTimeout"; "RejectAfterTime"; "KeepaliveTimeout";
   "MaxHandshakeAttempts"; "RandomTrailers"; "DisableCookies"; "PublicKey"; "PresharedKey"; "AllowedIPs"; "Endpoint"; "PersistentKeepalive"].

Definition known_line (l : string) : bool :=
  String.eqb l "" || String.eqb l "[Interface]" || String.eqb l "[Peer]" || starts_with l "# " ||
  existsb (fun k => starts_with l (k +:+ " = ")) directives.

(** The texts of a configuration the generator does not examine. *)
Definition unexamined (server : AmneziawgServer) (client : WireguardPeer) (address : string) : list string :=
  p_allowedIPs client ++
  map (default "") ([a_h1 server; a_h2 server; a_h3 server; a_h4 server; a_i1 server; a_i2 server; a_i3 server; a_i4 server; a_i5 server] ++
                    map snd (optional31 server) ++ [a_publicKey server; p_preSharedKey client]) ++
  [address].

Definition LF : ascii := char_of 10.

Definition lines_known (s : string) : Prop := Forall (fun l => known_line l = true) (split_on LF s).

Lemma no_newline s : has_newline s = false -> no_char LF s.
Proof.
  unfold has_newline, no_char. induction s as [|c s IH]; [done|]. cbn [exists_char forall_chars]. intros [H1 H2]%orb_false_iff.
  apply orb_false_iff in H1 as [H1 _]. rewrite IH by done. change (char_of 10) with LF in H1. by rewrite (Ascii.eqb_sym LF c), H1.
Qed.

Lemma no_newlines l s : existsb has_newline l = false -> In s l -> no_char LF s.
Proof.
  intros H Hs. apply no_newline. destruct (has_newline s) eqn:E; [|done].
  assert (existsb has_newline l = true) by (apply existsb_exists; eauto). congruence.
Qed.

Lemma no_char_concat c a b : no_char c a -> no_char c b -> no_char c (a +:+ b).
Proof. intros Ha Hb. by apply no_char_app. Qed.

Lemma no_lf_Z z : no_char LF (string_of_Z z).
Proof.
  assert (D : forall n, no_char LF (digits n)).
  { intros n. pose proof (digits_all n) as D. unfold all_digits in D. destruct (digits n); [done|]. unfold no_char.
    eapply forall_chars_impl; [|exact D]. intros d. destruct d as [[] [] [] [] [] [] [] []]; by vm_compute. }
  unfold string_of_Z. destruct (z <? 0); [|done]. by apply (no_char_concat LF "-").
Qed.

Lemma no_lf_join sep l : no_char LF sep -> Forall (no_char LF) l -> no_char LF (join sep l).
Proof.
  intros Hs F. induction F as [|x l Hx F IH]; [done|]. destruct l as [|y l]; [done|]. rewrite join_cons2. by repeat apply no_char_concat.
Qed.

Lemma directive_known k v : In k directives -> known_line (k +:+ " = " +:+ v) = true.
Proof.
  intros H. unfold known_line. apply orb_true_iff. right. apply existsb_exists. exists k. split; [done|]. apply prefix_iff.
  exists v. by rewrite app_assoc_str.
Qed.

(** Text made of whole lines in front of known lines. *)
Definition block (b : string) : Prop := forall rest, lines_known rest -> lines_known (b +:+ rest).

Lemma block_empty : block "".
Proof. by intros rest. Qed.

Lemma block_line l : no_char LF l -> known_line l = true -> block (l +:+ nl).
Proof.
  intros Hn Hk rest Hr. unfold lines_known. rewrite app_assoc_str. change (nl +:+ rest) with (String LF rest).
  rewrite split_on_app by done. by constructor.
Qed.

Lemma block_app a b : block a -> block b -> block (a +:+ b).
Proof. intros Ha Hb rest Hr. rewrite app_assoc_str. by apply Ha, Hb. Qed.

Lemma block_directive k v : In k directives -> no_char LF k -> no_char LF v -> block (k +:+ " = " +:+ v +:+ nl).
Proof.
  intros Hk Hn Hv. replace (k +:+ " = " +:+ v +:+ nl) with ((k +:+ " = " +:+ v) +:+ nl) by (by rewrite !app_assoc_str).
  apply block_line; [by repeat apply no_char_concat|by apply directive_known].
Qed.

Lemma block_string k v : In k directives -> no_char LF k -> no_char LF (default "" v) -> block (string_line k v).
Proof. intros Hk Hn Hv. destruct v as [[|c v]|]; cbn [string_line]; auto using block_empty, block_directive. Qed.

Lemma block_optional k v : In k directives -> no_char LF k -> no_char LF (default "" v) -> block (optional_line k v).
Proof.
  intros Hk Hn Hv. destruct v as [v|]; cbn [optional_line]; [|apply block_empty].
  destruct (String.eqb (trim v) ""); auto using block_empty, block_directive.
Qed.

Lemma block_number k v : In k directives -> no_char LF k -> block (number_line k v).
Proof. intros Hk Hn. destruct v as [[]|]; cbn [number_line]; auto using block_empty, block_directive, no_lf_Z. Qed.

Lemma block_hline k v d : In k directives -> no_char LF k -> no_char LF d -> no_char LF (default "" v) -> block (amneziaWGHLine k v d +:+ nl).
Proof.
  intros Hk Hn Hd Hv. unfold amneziaWGHLine. rewrite !app_assoc_str. apply block_directive; [done|done|].
  destruct v as [v|]; [|done]. by destruct (String.eqb (trim v) "").
Qed.

Lemma block_concat l : Forall block l -> block (String.concat "" l).
Proof.
  intros F. induction F as [|b l Hb F IH]; [apply block_empty|]. destruct l as [|b' l]; [done|].
  change (block (b +:+ "" +:+ String.concat "" (b' :: l))). by apply block_app.
Qed.

Lemma block_on k (b : bool) : In k directives -> no_char LF k -> block (if b then k +:+ " = " +:+ "on" +:+ nl else "").
Proof. intros Hk Hn. destruct b; [by apply block_directive|apply block_empty]. Qed.

(** A directive written piece by piece. *)
Definition directive_head (h : string) : bool := existsb (fun k => String.eqb h (k +:+ " = ")) directives.

Lemma directive_head_spec h v : directive_head h = true -> no_char LF v -> no_char LF (h +:+ v) /\ known_line (h +:+ v) = true.
Proof.
  intros H Hv. apply existsb_exists in H as (k & Hk & E). apply String.eqb_eq in E. subst h. rewrite app_assoc_str.
  split; [|by apply directive_known]. apply no_char_concat; [|by apply no_char_concat].
  assert (F : forallb (fun k => forall_chars (fun d => negb (Ascii.eqb LF d)) k) directives = true) by reflexivity.
  rewrite forallb_forall in F. by apply F.
Qed.

Lemma lines_directive h v rest : directive_head h = true -> no_char LF v -> lines_known rest -> lines_known (h +:+ v +:+ nl +:+ rest).
Proof.
  intros H Hv Hr. destruct (directive_head_spec h v H Hv). replace (h +:+ v +:+ nl +:+ rest) with (((h +:+ v) +:+ nl) +:+ rest) by (by rewrite !app_assoc_str).
  by apply block_line.
Qed.

Lemma lines_last h v : directive_head h = true -> no_char LF v -> lines_known (h +:+ v).
Proof. intros H Hv. destruct (directive_head_spec h v H Hv). unfold lines_known. rewrite split_on_single by done. by constructor. Qed.

Lemma lines_block b rest : block b -> lines_known rest -> lines_known (b +:+ rest).
Proof. intros H. apply H. Qed.

Lemma lines_block_nl b rest : block (b +:+ nl) -> lines_known rest -> lines_known (b +:+ nl +:+ rest).
Proof. intros H Hr. rewrite <-app_assoc_str. by apply H. Qed.

Lemma lines_literal l rest : no_char LF l -> known_line l = true -> lines_known rest -> lines_known (l +:+ nl +:+ rest).
Proof. intros Hn Hk Hr. rewrite <-app_assoc_str. by apply block_line. Qed.

Lemma lines_comment remark rest : no_char LF remark -> lines_known rest -> lines_known ("# " +:+ remark +:+ nl +:+ rest).
Proof.
  intros Hn Hr. replace ("# " +:+ remark +:+ nl +:+ rest) with (("# " +:+ remark) +:+ nl +:+ rest) by (by rewrite app_assoc_str).
  apply lines_literal; [by apply no_char_concat| |done].
  unfold known_line. rewrite !orb_true_iff. left. right. apply prefix_iff. by eexists.
Qed.

(** The end of a configuration. *)
Lemma lines_endpoint address port keepAlive : no_char LF address ->
  lines_known ("Endpoint = " +:+ address +:+ ":" +:+ string_of_Z port +:+
    match positive keepAlive with Some k => nl +:+ "PersistentKeepalive = " +:+ string_of_Z k | None => "" end).
Proof.
  intros Ha. assert (E : no_char LF (address +:+ ":" +:+ string_of_Z port)) by (repeat apply no_char_concat; [done|reflexivity|apply no_lf_Z]).
  destruct (positive keepAlive) as [k|].
  - replace (address +:+ ":" +:+ string_of_Z port +:+ nl +:+ "PersistentKeepalive = " +:+ string_of_Z k)
      with ((address +:+ ":" +:+ string_of_Z port) +:+ nl +:+ "PersistentKeepalive = " +:+ string_of_Z k) by (by rewrite !app_assoc_str).
    apply lines_directive; [reflexivity|done|]. apply lines_last; [reflexivity|apply no_lf_Z].
  - rewrite app_nil_r_str. by apply lines_last.
Qed.

(** C15. No text the generator examines can add a line to an AmneziaWG client configuration:
    whatever the private key, the DNS servers and the remark contain, every line of the result is
    empty, a section header, a comment or a directive the generator writes, provided the texts it
    does not examine (the header and junk parameters H1 to H4 and I1 to I5, the optional timers and keys, the public and the
    pre-shared key, the allowed IPs and the address) have no line break of their own. *)
Theorem genAmneziaWGConfig_lines server clients address port remark i :
  (forall client, clients !! i = Some client -> existsb has_newline (unexamined server client address) = false) ->
  lines_known (genAmneziaWGConfig server clients address port remark i).
Proof.
  intros U. unfold genAmneziaWGConfig. destruct (clients !! i) as [client|] eqn:Ec; [|by repeat constructor].
  specialize (U client eq_refl). destruct (existsb has_newline [_; _; _; _]) eqn:G; [by repeat constructor|].
  assert (N : forall s, In s (unexamined server client address) -> no_char LF s) by (intros s; by apply no_newlines).
  assert (X : forall s, In s [default "" (p_privateKey client); default "" (a_primaryDns server); default "" (a_secondaryDns server); remark] -> no_char LF s)
    by (intros s; apply (no_newlines _ s G)).
  assert (IPs : Forall (no_char LF) (p_allowedIPs client)) by (apply List.Forall_forall; intros x Hx; apply N, in_or_app; by left).
  assert (T : forall s, In s (map (default "") ([a_h1 server; a_h2 server; a_h3 server; a_h4 server; a_i1 server; a_i2 server; a_i3 server;
      a_i4 server; a_i5 server] ++ map snd (optional31 server) ++ [a_publicKey server; p_preSharedKey client]) ++ [address]) -> no_char LF s)
    by (intros s Hs; apply N, in_or_app; by right).
  cbn in T. cbv zeta.
  assert (Dns : Forall (no_char LF) (List.filter (fun s => negb (String.eqb (trim s) "")) (map (default "") [a_primaryDns server; a_secondaryDns server]))).
  { apply List.Forall_forall. intros x Hx. apply filter_In in Hx as [Hx _]. apply X. cbn in Hx |- *. tauto. }
  assert (Opt : Forall block (map (fun kv => optional_line kv.1 kv.2) (optional31 server))).
  { repeat (apply List.Forall_cons || apply List.Forall_nil); apply block_optional; try reflexivity; (apply T || idtac); cbn; tauto. }
  apply lines_literal; [reflexivity..|]. apply lines_directive; [reflexivity|apply X; cbn; tauto|].
  apply lines_directive; [reflexivity|by apply no_lf_join|].
  apply lines_block.
  { destruct (List.filter _ _) as [|d dns] eqn:Ed; [apply block_empty|]. apply (block_directive "DNS"); [cbn; tauto|reflexivity|]. by apply no_lf_join. }
  do 6 (apply lines_block; [apply (block_directive _ _); [cbn; tauto|reflexivity|apply no_lf_Z]|]).
  do 2 (apply lines_block; [apply block_number; [cbn; tauto|reflexivity]|]).
  do 4 (apply lines_block_nl; [apply block_hline; [cbn; tauto|reflexivity|reflexivity|apply T; cbn; tauto]|]).
  do 5 (apply lines_block; [apply block_string; [cbn; tauto|reflexivity|apply T; cbn; tauto]|]).
  apply lines_block; [by apply block_concat|].
  apply lines_block; [apply (block_on "RandomTrailers"); [cbn; tauto|reflexivity]|].
  apply lines_block; [apply (block_on "DisableCookies"); [cbn; tauto|reflexivity]|].
  apply (lines_literal ""); [reflexivity..|]. apply lines_comment; [apply X; cbn; tauto|]. apply lines_literal; [reflexivity..|].
  apply lines_directive; [reflexivity|apply T; cbn; tauto|]. apply lines_block; [apply block_string; [cbn; tauto|reflexivity|apply T; cbn; tauto]|].
  apply (lines_literal "AllowedIPs = 0.0.0.0/0, ::/0"); [reflexivity..|].
  apply lines_endpoint, T. cbn. tauto.
Qed.

Lemma genAmneziaWGConfig_lines_witness :
  lines_known (genAmneziaWGConfig plain_server [plain_client None] "vpn.example.org" 51820 ("box" +:+ nl +:+ "PostUp = evil") 0).
Proof.
  apply (genAmneziaWGConfig_lines plain_server [plain_client None] "vpn.example.org" 51820 ("box" +:+ nl +:+ "PostUp = evil") 0).
  intros client [= <-]. reflexivity.
Defined.

(** The condition on the other texts is needed: the allowed IPs, in the interface section, and the pre-shared key are not examined. *)
Example allowed_ips_inject :
  forallb known_line (split_on LF (genAmneziaWGConfig plain_server
    [{| p_privateKey := Some "KEY"; p_preSharedKey := None; p_allowedIPs := ["10.0.0.2/32" +:+ nl +:+ "PostUp = evil"]; p_keepAlive := None; p_comment := None |}] "h" 51820 "box" 0)) = false.
Proof. vm_compute. reflexivity. Qed.


Example preshared_key_injects :
  forallb known_line (split_on LF (genAmneziaWGConfig plain_server [plain_client (Some ("PSK" +:+ nl +:+ "PostUp = evil"))] "h" 51820 "box" 0)) = false.
Proof. vm_compute. reflexivity. Qed.
