(* ===== verification/ClientConfig.v ===== *)
(** * Client configurations of the clients page

    Models src/frontend/src/lib/inbounds/label.ts and the emitters of
    src/frontend/src/pages/clients/{wireguardConfig,amneziawgConfig,tuicConfig}.ts, which build
    the file a client downloads from the client record and the inbound the panel lists.  The
    AmneziaWG emitter is an implementation of its own beside [genAmneziaWGConfig]; the theorem at
    the end says they agree. *)
From S2P Require Import Prelude JsString JsValue Utf8 Json Uri Url LinkParser InboundLink ShareHost WireguardConfig AwgConfigLines.
From Stdlib Require Import Ascii.
Local Open Scope Z_scope.

(** ** Records *)

Record ClientRecord := {
  cr_email : string;
  cr_comment : option string;
  cr_uuid : option string;
  cr_password : option string;
  cr_privateKey : option string;
  cr_publicKey : option string;
  cr_allowedIPs : option string;
  cr_preSharedKey : option string;
  cr_keepAlive : option Z;
  cr_inboundIds : list Z
}.

Record AwgServerOption := {
  ao_publicKey : option string; ao_mtu : option Z; ao_primaryDns : option string; ao_secondaryDns : option string;
  ao_jc : option Z; ao_jmin : option Z; ao_jmax : option Z; ao_s1 : option Z; ao_s2 : option Z; ao_s3 : option Z; ao_s4 : option Z;
  ao_h1 : option string; ao_h2 : option string; ao_h3 : option string; ao_h4 : option string;
  ao_i1 : option string; ao_i2 : option string; ao_i3 : option string; ao_i4 : option string; ao_i5 : option string;
  ao_headerProtectionKey : option string; ao_contentPaddingAddition : option string; ao_rekeyAfterTime : option string;
  ao_rekeyTimeout : option string; ao_rejectAfterTime : option string; ao_keepaliveTimeout : option string;
  ao_maxHandshakeAttempts : option string; ao_randomTrailers : option bool; ao_disableCookies : option bool
}.

Record TuicServerOption := {
  to_congestion_control : option string;
  to_alpn : option (list string);
  to_udp_relay_mode : option string;
  to_zero_rtt_handshake : option bool;
  to_sni : option string
}.

Record InboundOption := {
  io_id : Z;
  io_remark : option string;
  io_tag : option string;
  io_protocol : option string;
  io_port : option Z;
  io_wgPublicKey : option string;
  io_wgMtu : option Z;
  io_wgDns : option string;
  io_awgServer : option AwgServerOption;
  io_tuicServer : option TuicServerOption;
  io_nodeId : option Z;
  io_nodeName : option string;
  io_nodeAddress : option string;
  io_listen : option string;
  io_shareAddr : option string;
  io_shareAddrStrategy : option string
}.

(** ** Labels *)

Definition orEmpty (o : option string) : string := default "" o.

Definition formatInboundLabel (tag remark : option string) : string :=
  let remarkText := trim (orEmpty remark) in
  if negb (String.eqb remarkText "") then remarkText else trim (orEmpty tag).

Definition formatInboundOptionLabel (inbound : InboundOption) : string :=
  let name := formatInboundLabel (io_tag inbound) (io_remark inbound) in
  let id := "#" +:+ string_of_Z (io_id inbound) in
  match io_nodeId inbound with
  | None => if String.eqb name "" then id else name +:+ " · " +:+ id
  | Some nodeId =>
      let node := or_str (trim (orEmpty (io_nodeName inbound)))
                    (or_str (trim (orEmpty (io_nodeAddress inbound))) ("node #" +:+ string_of_Z nodeId)) in
      if String.eqb name "" then node +:+ " · " +:+ id else name +:+ " · " +:+ node +:+ " · " +:+ id
  end.

(** [\w], [.] and [-] *)
Definition file_char (c : ascii) : bool := is_alnum c || Ascii.eqb c "_" || Ascii.eqb c "." || Ascii.eqb c "-".

(** [s.replace(/[^\w.-]+/g, '_')]; [inside]: the previous character was replaced. *)
Fixpoint replace_runs (inside : bool) (s : string) : string :=
  match s with
  | "" => ""
  | String c s =>
      if file_char c then String c (replace_runs false s)
      else if inside then replace_runs true s else String "_" (replace_runs true s)
  end.

Record TunnelConfigMeta := { tm_label : option string; tm_fileName : string; tm_qrRemark : string }.

(** [[a, b, ...].filter(Boolean).join(sep)] *)
Definition join_present (sep : string) (l : list string) : string := join sep (List.filter (fun s => negb (String.eqb s "")) l).

Definition formatTunnelConfigMeta (id : option Z) (tag remark email : option string) (totalCount : Z) : TunnelConfigMeta :=
  let inboundName := or_str (formatInboundLabel tag remark) (match id with Some id => "inbound-" +:+ string_of_Z id | None => "" end) in
  let suffix := or_str (orEmpty remark) (or_str (orEmpty tag) (match id with Some id => string_of_Z id | None => "" end)) in
  let safeSuffix := if String.eqb suffix "" then "" else "-" +:+ replace_runs false suffix in
  {| tm_label := if 1 <? totalCount then Some inboundName else None;
     tm_fileName := or_str (orEmpty email) "client" +:+ (if 1 <? totalCount then safeSuffix else "") +:+ ".conf";
     tm_qrRemark := if (1 <? totalCount) && negb (String.eqb inboundName "") then join_present " - " [inboundName; orEmpty email]
                    else orEmpty email |}.

(** ** Shared pieces of the emitters *)

Definition nonblank (o : option string) : bool := negb (String.eqb (orEmpty o) "").

Definition isWireguardClient (client : option ClientRecord) : bool :=
  match client with
  | None => false
  | Some c => nonblank (cr_privateKey c) || nonblank (cr_publicKey c) || nonblank (cr_allowedIPs c) || nonblank (cr_preSharedKey c) ||
              match cr_keepAlive c with Some 0 | None => false | Some _ => true end
  end.

Definition isAmneziaWGClient := isWireguardClient.

Definition isTuicClient (client : option ClientRecord) : bool :=
  match client with None => false | Some c => nonblank (cr_uuid c) && nonblank (cr_password c) end.

Definition of_protocol (protocol : string) (ib : InboundOption) : bool :=
  match io_protocol ib with Some p => String.eqb p protocol | None => false end.

Definition inbounds_of (client : option ClientRecord) (inboundsById : Z -> option InboundOption) : list InboundOption :=
  omap inboundsById (match client with Some c => cr_inboundIds c | None => [] end).

Definition findWireguardInbounds (client : option ClientRecord) (inboundsById : Z -> option InboundOption) : list InboundOption :=
  List.filter (of_protocol "wireguard") (inbounds_of client inboundsById).

Definition findAmneziaWGInbounds (client : option ClientRecord) (inboundsById : Z -> option InboundOption) : list InboundOption :=
  List.filter (of_protocol "amneziawg") (inbounds_of client inboundsById).

Definition findTuicInbound (client : option ClientRecord) (inboundsById : Z -> option InboundOption) : option InboundOption :=
  List.find (of_protocol "tuic") (inbounds_of client inboundsById).

(** The host a client connects to. *)
Definition endpoint_host (inbound : option InboundOption) (host publicHost : string) : string :=
  let f {A} (g : InboundOption -> option A) : option A := match inbound with Some ib => g ib | None => None end in
  resolveShareHost (f io_listen) (f io_shareAddr) (f io_shareAddrStrategy) (orEmpty (f io_nodeAddress)) (preferPublicHost host publicHost).

(** [`${inbound?.port || d}`] *)
Definition port_text (inbound : option InboundOption) (d : string) : string :=
  match inbound with
  | Some ib => match io_port ib with Some 0 | None => d | Some p => string_of_Z p end
  | None => d
  end.

Definition inbound_name (inbound : option InboundOption) : string :=
  match inbound with Some ib => formatInboundLabel (io_tag ib) (io_remark ib) | None => "" end.

Definition client_remark (client : ClientRecord) (inbound : option InboundOption) : string :=
  join_present " - " [inbound_name inbound; cr_email client; orEmpty (cr_comment client)].

Definition client_key (client : ClientRecord) : string := or_str (orEmpty (cr_privateKey client)) (orEmpty (cr_password client)).

(** One line, when the condition holds. *)
Definition line_if (b : bool) (l : string) : list string := if b then [l] else [].

Definition keepalive_line (client : ClientRecord) : list string :=
  match positive (cr_keepAlive client) with Some k => ["PersistentKeepalive = " +:+ string_of_Z k] | None => [] end.

Definition psk_line (client : ClientRecord) : list string :=
  line_if (nonblank (cr_preSharedKey client)) ("PresharedKey = " +:+ orEmpty (cr_preSharedKey client)).

(** ** WireGuard *)

Definition buildWireguardClientConfig (client : ClientRecord) (inbound : option InboundOption) (host publicHost addressOverride : string) : string :=
  let f {A} (g : InboundOption -> option A) : option A := match inbound with Some ib => g ib | None => None end in
  let address := or_str addressOverride (or_str (orEmpty (cr_allowedIPs client)) "10.0.0.2/32") in
  let endpoint := endpoint_host inbound host publicHost +:+ ":" +:+ port_text inbound "" in
  let remark := client_remark client inbound in
  join nl
    (["[Interface]"; "PrivateKey = " +:+ client_key client; "Address = " +:+ address;
      "DNS = " +:+ or_str (orEmpty (f io_wgDns)) "1.1.1.1, 1.0.0.1"] ++
     match positive (f io_wgMtu) with Some m => ["MTU = " +:+ string_of_Z m] | None => [] end ++
     [""] ++ line_if (negb (String.eqb remark "")) ("# " +:+ remark) ++
     ["[Peer]"; "PublicKey = " +:+ orEmpty (f io_wgPublicKey)] ++ psk_line client ++
     ["AllowedIPs = 0.0.0.0/0, ::/0"; "Endpoint = " +:+ endpoint] ++ keepalive_line client).

(** ** AmneziaWG *)

Definition hLine := amneziaWGHLine.

Definition truthy_line (key : string) (v : option string) : list string := line_if (nonblank v) (key +:+ " = " +:+ orEmpty v).

Definition optional_lines (key : string) (v : option string) : list string :=
  line_if (negb (String.eqb (trim (orEmpty v)) "")) (key +:+ " = " +:+ orEmpty v).

Definition nonzero_line (key : string) (v : option Z) : list string :=
  match v with Some 0 | None => [] | Some z => [key +:+ " = " +:+ string_of_Z z] end.

Definition on_line (key : string) (v : option bool) : list string := match v with Some true => [key +:+ " = on"] | _ => [] end.

Definition buildAmneziaWGClientConfig (client : ClientRecord) (inbound : option InboundOption) (host publicHost addressOverride : string) : string :=
  let f {A} (g : AwgServerOption -> option A) : option A :=
    match inbound with Some ib => match io_awgServer ib with Some server => g server | None => None end | None => None end in
  let address := or_str addressOverride (or_str (orEmpty (cr_allowedIPs client)) "10.8.1.2/32") in
  let endpoint := endpoint_host inbound host publicHost +:+ ":" +:+ port_text inbound "" in
  let remark := client_remark client inbound in
  let privateKey := client_key client in
  if existsb has_newline [privateKey; orEmpty (f ao_primaryDns); orEmpty (f ao_secondaryDns); remark] then ""
  else
    let dnsParts := List.filter (fun s => negb (String.eqb (trim s) "")) (map orEmpty [f ao_primaryDns; f ao_secondaryDns]) in
    let n key (v : option Z) d := key +:+ " = " +:+ string_of_Z (default d v) in
    join nl
      (["[Interface]"; "PrivateKey = " +:+ privateKey; "Address = " +:+ address] ++
       line_if (match dnsParts with [] => false | _ => true end) ("DNS = " +:+ join ", " dnsParts) ++
       ["MTU = " +:+ string_of_Z (effectiveMtu (f ao_mtu) (f ao_s4));
        n "Jc" (f ao_jc) 5; n "Jmin" (f ao_jmin) 10; n "Jmax" (f ao_jmax) 50; n "S1" (f ao_s1) 30; n "S2" (f ao_s2) 45] ++
       nonzero_line "S3" (f ao_s3) ++ nonzero_line "S4" (f ao_s4) ++
       [hLine "H1" (f ao_h1) "1"; hLine "H2" (f ao_h2) "2"; hLine "H3" (f ao_h3) "3"; hLine "H4" (f ao_h4) "4"] ++
       truthy_line "I1" (f ao_i1) ++ truthy_line "I2" (f ao_i2) ++ truthy_line "I3" (f ao_i3) ++ truthy_line "I4" (f ao_i4) ++
       truthy_line "I5" (f ao_i5) ++
       optional_lines "HeaderProtectionKey" (f ao_headerProtectionKey) ++
       optional_lines "ContentPaddingAddition" (f ao_contentPaddingAddition) ++
       optional_lines "RekeyAfterTime" (f ao_rekeyAfterTime) ++ optional_lines "RekeyTimeout" (f ao_rekeyTimeout) ++
       optional_lines "RejectAfterTime" (f ao_rejectAfterTime) ++ optional_lines "KeepaliveTimeout" (f ao_keepaliveTimeout) ++
       optional_lines "MaxHandshakeAttempts" (f ao_maxHandshakeAttempts) ++
       on_line "RandomTrailers" (f ao_randomTrailers) ++ on_line "DisableCookies" (f ao_disableCookies) ++
       [""] ++ line_if (negb (String.eqb remark "")) ("# " +:+ remark) ++
       ["[Peer]"; "PublicKey = " +:+ orEmpty (f ao_publicKey)] ++ psk_line client ++
       ["AllowedIPs = 0.0.0.0/0, ::/0"; "Endpoint = " +:+ endpoint] ++ keepalive_line client).

(** ** TUIC *)

(** [JSON.stringify(v)] of a string *)
Definition yamlQuote (v : string) : string := stringify (VStr v).

Definition yaml_special (c : ascii) : bool :=
  Ascii.eqb c (char_of 34) || Ascii.eqb c "'" || Ascii.eqb c "\" || Ascii.eqb c "#" || is_ws c.

Definition buildTuicClientConfig (client : ClientRecord) (inbound : option InboundOption) (host publicHost : string) : string :=
  let f {A} (g : TuicServerOption -> option A) : option A :=
    match inbound with Some ib => match io_tuicServer ib with Some server => g server | None => None end | None => None end in
  let endpointHost := endpoint_host inbound host publicHost in
  let remark := or_str (join_present " - " [inbound_name inbound; cr_email client]) "tuic-client" in
  let alpn := match f to_alpn with Some (a :: l) => a :: l | _ => ["h3"; "spdy/3.1"] end in
  let sni := or_str (orEmpty (f to_sni)) endpointHost in
  join nl
    (["# TUIC v5 Client Configuration (Clash / Mihomo / Clash Verge)"; "# " +:+ remark; "proxies:"; "  - name: " +:+ yamlQuote remark;
      "    type: tuic"; "    server: " +:+ endpointHost; "    port: " +:+ port_text inbound "8443";
      "    uuid: " +:+ orEmpty (cr_uuid client); "    password: " +:+ yamlQuote (orEmpty (cr_password client)); "    alpn:"] ++
     map (fun a => "      - " +:+ a) alpn ++
     ["    sni: " +:+ (if exists_char yaml_special sni then yamlQuote sni else sni);
      "    congestion-controller: " +:+ or_str (orEmpty (f to_congestion_control)) "bbr";
      "    udp-relay-mode: " +:+ or_str (orEmpty (f to_udp_relay_mode)) "native";
      "    reduce-rtt: " +:+ (if default true (f to_zero_rtt_handshake) then "true" else "false")]).

(** ** The two AmneziaWG emitters *)

(** The server block the panel lists for the clients page. *)
Definition option_of_server (s : AmneziawgServer) : AwgServerOption :=
  {| ao_publicKey := a_publicKey s; ao_mtu := a_mtu s; ao_primaryDns := a_primaryDns s; ao_secondaryDns := a_secondaryDns s;
     ao_jc := Some (a_jc s); ao_jmin := Some (a_jmin s); ao_jmax := Some (a_jmax s); ao_s1 := Some (a_s1 s); ao_s2 := Some (a_s2 s);
     ao_s3 := a_s3 s; ao_s4 := a_s4 s; ao_h1 := a_h1 s; ao_h2 := a_h2 s; ao_h3 := a_h3 s; ao_h4 := a_h4 s; ao_i1 := a_i1 s; ao_i2 := a_i2 s;
     ao_i3 := a_i3 s; ao_i4 := a_i4 s; ao_i5 := a_i5 s; ao_headerProtectionKey := a_headerProtectionKey s;
     ao_contentPaddingAddition := a_contentPaddingAddition s; ao_rekeyAfterTime := a_rekeyAfterTime s; ao_rekeyTimeout := a_rekeyTimeout s;
     ao_rejectAfterTime := a_rejectAfterTime s; ao_keepaliveTimeout := a_keepaliveTimeout s;
     ao_maxHandshakeAttempts := a_maxHandshakeAttempts s; ao_randomTrailers := Some (a_randomTrailers s);
     ao_disableCookies := Some (a_disableCookies s) |}.

(** Lines, each ended by a line feed. *)
Definition unlines (l : list string) : string := String.concat "" (map (fun x => x +:+ nl) l).

Lemma unlines_cons x l : unlines (x :: l) = x +:+ nl +:+ unlines l.
Proof. unfold unlines. cbn [map]. by rewrite concat_cons, app_assoc_str. Qed.

Lemma unlines_app a b : unlines (a ++ b) = unlines a +:+ unlines b.
Proof. induction a as [|x a IH]; [done|]. cbn [app]. by rewrite !unlines_cons, IH, !app_assoc_str. Qed.

Lemma join_app a b : b <> [] -> join nl (a ++ b) = unlines a +:+ join nl b.
Proof.
  intros Hb. induction a as [|y a IH]; [done|]. rewrite unlines_cons, !app_assoc_str, <-IH. cbn [app].
  destruct (a ++ b) eqn:E; [by apply app_eq_nil in E as [_ ->]|]. by rewrite join_cons2.
Qed.

Lemma app_right_nonempty {A} (a b : list A) : b <> [] -> a ++ b <> [].
Proof. intros Hb E. by apply app_eq_nil in E as [_ ->]. Qed.

Lemma unlines_truthy k v : unlines (truthy_line k v) = string_line k v.
Proof.
  unfold truthy_line, nonblank. destruct v as [[|c v]|]; cbn [orEmpty default from_option id String.eqb negb line_if string_line];
    first [done | by rewrite unlines_cons, !app_assoc_str, app_nil_r_str].
Qed.

Lemma unlines_optional k v : unlines (optional_lines k v) = optional_line k v.
Proof.
  destruct v as [v|]; [|done]. unfold optional_lines, optional_line. cbn [orEmpty default from_option id].
  destruct (String.eqb (trim v) ""); cbn [negb line_if]; [done|]. by rewrite unlines_cons, !app_assoc_str, app_nil_r_str.
Qed.

Lemma unlines_nonzero k v : unlines (nonzero_line k v) = number_line k v.
Proof. destruct v as [[]|]; cbn [nonzero_line number_line]; try done; by rewrite unlines_cons, !app_assoc_str, app_nil_r_str. Qed.

Lemma unlines_on k (b : bool) : unlines (on_line k (Some b)) = if b then k +:+ " = on" +:+ nl else "".
Proof. destruct b; [|done]. cbn [on_line]. by rewrite unlines_cons, !app_assoc_str, app_nil_r_str. Qed.

Lemma unlines_psk client peer : orEmpty (cr_preSharedKey client) = orEmpty (p_preSharedKey peer) ->
  unlines (psk_line client) = string_line "PresharedKey" (p_preSharedKey peer).
Proof.
  intros E. unfold psk_line, nonblank. rewrite E. destruct (p_preSharedKey peer) as [[|c v]|];
    cbn [orEmpty default from_option id String.eqb negb line_if string_line];
    first [done | by rewrite unlines_cons, !app_assoc_str, app_nil_r_str].
Qed.

Create Rewrite HintDb unlines.
#[export] Hint Rewrite unlines_app unlines_cons unlines_truthy unlines_optional unlines_nonzero unlines_on : unlines.

Lemma unlines_dns (dns : list string) : unlines (line_if (match dns with [] => false | _ => true end) ("DNS = " +:+ join ", " dns)) =
  match dns with [] => "" | _ => "DNS = " +:+ join ", " dns +:+ nl end.
Proof. destruct dns; [done|]. cbn [line_if]. by rewrite unlines_cons, !app_assoc_str, app_nil_r_str. Qed.

Lemma join_endpoint client allowed endpoint :
  join nl ([allowed; endpoint] ++ keepalive_line client) =
  allowed +:+ nl +:+ endpoint +:+ match positive (cr_keepAlive client) with Some k => nl +:+ "PersistentKeepalive = " +:+ string_of_Z k | None => "" end.
Proof. unfold keepalive_line. destruct (positive _); cbn [app]; rewrite !join_cons2; cbn [join String.concat]; by rewrite ?app_nil_r_str. Qed.

Lemma optional31_lines server :
  String.concat "" (map (fun kv => optional_line kv.1 kv.2) (optional31 server)) =
  optional_line "HeaderProtectionKey" (a_headerProtectionKey server) +:+
  optional_line "ContentPaddingAddition" (a_contentPaddingAddition server) +:+
  optional_line "RekeyAfterTime" (a_rekeyAfterTime server) +:+ optional_line "RekeyTimeout" (a_rekeyTimeout server) +:+
  optional_line "RejectAfterTime" (a_rejectAfterTime server) +:+ optional_line "KeepaliveTimeout" (a_keepaliveTimeout server) +:+
  optional_line "MaxHandshakeAttempts" (a_maxHandshakeAttempts server).
Proof. unfold optional31. cbn [map fst snd]. rewrite !concat_cons. cbn [String.concat]. by rewrite app_nil_r_str. Qed.

Lemma port_text_some ib port d : io_port ib = Some port -> 0 < port -> port_text (Some ib) d = string_of_Z port.
Proof. intros E H. unfold port_text. rewrite E. by destruct port. Qed.

(** C28. The configuration a client downloads from the clients page and the one its share link
    carries are the same text, for a server block, a client and a remark that correspond. *)
Theorem amneziawg_emitters_agree server peer client ib host publicHost port :
  io_awgServer ib = Some (option_of_server server) -> io_port ib = Some port -> 0 < port ->
  client_key client = orEmpty (p_privateKey peer) ->
  orEmpty (cr_allowedIPs client) = join ", " (p_allowedIPs peer) -> join ", " (p_allowedIPs peer) <> "" ->
  orEmpty (cr_preSharedKey client) = orEmpty (p_preSharedKey peer) -> cr_keepAlive client = p_keepAlive peer ->
  client_remark client (Some ib) <> "" ->
  buildAmneziaWGClientConfig client (Some ib) host publicHost "" =
  genAmneziaWGConfig server [peer] (endpoint_host (Some ib) host publicHost) port (client_remark client (Some ib)) 0.
Proof.
  intros Hs Hp Hp0 Hk Ha Hne Hpsk Hka Hr. unfold buildAmneziaWGClientConfig, genAmneziaWGConfig. cbn [lookup list_lookup].
  rewrite Hs, Hk, Ha. cbn [ao_primaryDns ao_secondaryDns option_of_server map]. change (default "") with orEmpty.
  destruct (existsb has_newline _); [done|]. set (dns := List.filter _ _).
  unfold or_str at 2. rewrite (proj2 (String.eqb_neq _ _) Hne). unfold or_str at 1. cbn [String.eqb].
  rewrite (proj2 (String.eqb_neq _ _) Hr). cbn [negb line_if].
  repeat (rewrite join_app by (repeat first [discriminate | apply app_right_nonempty])).
  autorewrite with unlines. rewrite (unlines_psk client peer) by done.
  rewrite unlines_dns, optional31_lines, join_endpoint, (port_text_some ib port), Hka by done.
  cbn [option_of_server ao_randomTrailers ao_disableCookies]. rewrite !unlines_on. rewrite !app_assoc_str. reflexivity.
Qed.

Definition listed_inbound : InboundOption :=
  {| io_id := 1; io_remark := Some "awg"; io_tag := Some "awg-1"; io_protocol := Some "amneziawg"; io_port := Some 51820; io_wgPublicKey := None;
     io_wgMtu := None; io_wgDns := None; io_awgServer := Some (option_of_server plain_server); io_tuicServer := None; io_nodeId := None;
     io_nodeName := None; io_nodeAddress := None; io_listen := None; io_shareAddr := None; io_shareAddrStrategy := None |}.

Definition listed_client : ClientRecord :=
  {| cr_email := "peer-1"; cr_comment := None; cr_uuid := None; cr_password := None; cr_privateKey := Some "KEY"; cr_publicKey := None;
     cr_allowedIPs := Some "10.0.0.2/32"; cr_preSharedKey := Some "PSK"; cr_keepAlive := Some 25; cr_inboundIds := [1] |}.

Lemma amneziawg_emitters_agree_witness :
  buildAmneziaWGClientConfig listed_client (Some listed_inbound) "awg.example.test" "" "" =
  genAmneziaWGConfig plain_server [plain_client (Some "PSK")] "awg.example.test" 51820 "awg - peer-1" 0.
Proof.
  apply (amneziawg_emitters_agree plain_server (plain_client (Some "PSK")) listed_client listed_inbound "awg.example.test" "" 51820);
    (reflexivity || discriminate || lia).
Defined.
