(* ===== verification/LinkFanout.v ===== *)
(** * Links of an inbound

    Models the rest of src/frontend/src/lib/xray/inbound-link.ts: the VMess, MTProto and TUIC
    generators, the dispatcher over protocols and the fan-out over clients, external proxies
    and peers. *)
From S2P Require Import Prelude JsString JsValue Utf8 Base64 Json Uri Url LinkParser Headers ShareParams InboundLink ShareHost WireguardConfig.
From Stdlib Require Import Ascii.
Local Open Scope Z_scope.

(** ** VMess *)

(** The network-specific keys of a VMess object. *)
Definition vmess_network (n : NetworkSettings) (o : obj) : obj :=
  match n with
  | Tcp (Some HeaderNone) => obj_set o "type" (VStr "none")
  | Tcp (Some (HeaderHttp request response)) =>
      let o := obj_set o "type" (VStr "http") in
      match request with
      | Some request =>
          let o := obj_set o "path" (VStr (join "," (req_path request))) in
          let host := http_host request response in
          if String.eqb host "" then o else obj_set o "host" (VStr host)
      | None => o
      end
  | Tcp None => obj_set o "type" (VStr "none")
  | Kcp mtu tti => assign [("mtu", VInt mtu); ("tti", VInt tti)] o
  | Ws path host headers => assign [("path", VStr path); ("host", VStr (host_or_header host headers))] o
  | Grpc serviceName authority multiMode =>
      let o := assign [("path", VStr serviceName); ("authority", VStr authority)] o in
      if multiMode then obj_set o "type" (VStr "multi") else o
  | HttpUpgrade path host headers => assign [("path", VStr path); ("host", VStr (host_or_header host headers))] o
  | XHttp x =>
      let host := if String.eqb (x_host x) "" then xhttpHostFallback x else x_host x in
      applyXhttpExtraToObj x (assign [("path", VStr (x_path x)); ("host", VStr host); ("type", VStr (x_mode x))] o)
  | HysteriaNet => o
  end.

Definition set_nonempty_key (k v : string) (o : obj) : obj := if String.eqb v "" then o else obj_set o k (VStr v).

Definition vmess_tls (tlsName : string) (s : SecuritySettings) (o : obj) : obj :=
  match s with
  | Tls t =>
      if String.eqb tlsName "tls" then
        let o := set_nonempty_key "sni" (t_serverName t) o in
        let o := set_nonempty_key "fp" (t_fingerprint t) o in
        let o := match t_alpn t with [] => o | alpn => obj_set o "alpn" (VStr (join "," alpn)) end in
        let o := set_nonempty_key "ech" (t_echConfigList t) o in
        let o := set_nonempty_key "vcn" (t_verifyPeerCertByName t) o in
        match t_pinnedPeerCertSha256 t with [] => o | pins => obj_set o "pcs" (VStr (join "," pins)) end
      else o
  | _ => o
  end.

Definition vmess_object (s : StreamSettings) (address : string) (port : Z) (force : ForceTls) (remark clientId : string)
  (security : option string) (ep : option ExternalProxyEntry) : obj :=
  let tlsName := link_security force s in
  let o : obj := [("v", VStr "2"); ("ps", VStr remark); ("add", VStr address); ("port", VInt port); ("id", VStr clientId);
                  ("scy", match security with Some x => VStr x | None => VUndef end);
                  ("net", VStr (network_name (s_network s))); ("tls", VStr tlsName)] in
  let o := vmess_network (s_network s) o in
  let o := applyFinalMaskToObj (s_finalmask s) o in
  let o := vmess_tls tlsName (s_security s) o in
  applyExternalProxyTLSObj ep o tlsName.

Definition genVmessLink (inbound : Inbound) (address : string) (port : Z) (force : ForceTls) (remark clientId : string)
  (security : option string) (ep : option ExternalProxyEntry) : string :=
  match i_settings inbound, i_streamSettings inbound with
  | Vmess _, Some s =>
      "vmess://" +:+ encode (pretty 0 (VObj (vmess_object s address port force remark clientId security ep))) false
  | _, _ => ""
  end.

(** ** MTProto and TUIC *)

Definition genMtprotoLink (inbound : Inbound) (address : string) (port : Z) (clientSecret : string) : option string :=
  match i_settings inbound with
  | Mtproto _ =>
      if String.eqb clientSecret "" then Some ""
      else option_map (fun u => href (with_params u (set_params [("server", address); ("port", string_of_Z port); ("secret", clientSecret)]
                                                       (searchParams u)))) (new_URL "tg://proxy")
  | _ => Some ""
  end.

(** [Array.isArray(v) && v.length > 0 ? v.join(',') : null], and the empty string for null *)
Definition joined (v : jsval) : string := match v with VArr (x :: l) => prim_string (VArr (x :: l)) | _ => "" end.

Definition genTuicLink (inbound : Inbound) (rawSettings : jsval) (address : string) (port : Z) (remark clientUuid clientPassword : string)
  (ep : option ExternalProxyEntry) : option string :=
  if String.eqb clientUuid "" || String.eqb clientPassword "" then Some ""
  else
    let server := or_nullish (get rawSettings "server") rawSettings in
    let dest := match ep with Some e => ep_dest e | None => "" end in
    let host := formatUrlHost (or_str dest address) in
    let targetPort := match ep with Some e => if ep_port e =? 0 then port else ep_port e | None => port end in
    let field k d := prim_string (or_falsy (get server k) (or_falsy (get rawSettings k) d)) in
    let epAlpn := match ep with Some e => externalProxyAlpn (ep_alpn e) | None => "" end in
    let alpn := or_str epAlpn (or_str (joined (get server "alpn")) (or_str (joined (get rawSettings "alpn")) "h3,spdy/3.1")) in
    let sni := or_str (match ep with Some e => default "" (ep_sni e) | None => "" end) (field "sni" (VStr "")) in
    let insecure := match ep with Some e => match ep_allowInsecure e with Some true => "1" | _ => "0" end | None => "0" end in
    let ps := [("congestion_control", field "congestion_control" (VStr "bbr")); ("alpn", alpn)] ++
              (if String.eqb sni "" then [] else [("sni", sni)]) ++
              [("udp_relay_mode", field "udp_relay_mode" (VStr "native")); ("allow_insecure", insecure)] in
    url_text ("tuic://" +:+ encodeURIComponent clientUuid +:+ ":" +:+ encodeURIComponent clientPassword +:+ "@" +:+ host +:+ ":" +:+
              string_of_Z targetPort) ps (encodeURIComponent remark).

(** ** Dispatch *)

Definition text (o : option string) : string := default "" o.

Definition clientSubKey (c : ClientShape) : string := or_str (text (cl_subId c)) (text (cl_email c)).

Definition getInboundClients (inbound : Inbound) : option (list ClientShape) :=
  match i_settings inbound with
  | Vmess cs | Vless _ _ cs | Trojan cs | Hysteria cs | Mtproto cs | Tuic _ cs => Some cs
  | Shadowsocks method _ cs => if is_multi_user method then Some cs else None
  | _ => None
  end.

Section Fanout.
Context (sha256_hex : string -> string).

Definition genLink (inbound : Inbound) (address : string) (port : Z) (force : ForceTls) (remark : string) (client : ClientShape)
  (ep : option ExternalProxyEntry) : option string :=
  match i_settings inbound with
  | Vmess _ => Some (genVmessLink inbound address port force remark (text (cl_id client)) (cl_security client) ep)
  | Vless _ _ _ => genVlessLink sha256_hex inbound address port force remark (text (cl_id client)) (clientSubKey client) (text (cl_flow client)) ep
  | Shadowsocks method _ _ =>
      genShadowsocksLink inbound address port force remark (if is_multi_user method then text (cl_password client) else "") ep
  | Trojan _ => genTrojanLink sha256_hex inbound address port force remark (text (cl_password client)) (clientSubKey client) ep
  | Hysteria _ => genHysteriaLink inbound address port remark (text (cl_auth client)) ep
  | Mtproto _ => genMtprotoLink inbound address port (text (cl_secret client))
  | Tuic raw _ =>
      let uuid := match cl_uuid client with Some u => u | None => text (cl_id client) end in
      genTuicLink inbound raw address port remark uuid (text (cl_password client)) ep
  | _ => Some ""
  end.

Definition composeRemark (remark proxyRemark : string) : string :=
  join "-" (List.filter (fun x => negb (String.eqb x "")) [remark; proxyRemark]).

Record GenAllLinksEntry := { e_remark : string; e_link : option string }.

Definition genAllLinks (inbound : Inbound) (remark : string) (client : ClientShape) (hostOverride fallbackHostname : string)
  : list GenAllLinksEntry :=
  let addr := resolveAddr inbound hostOverride fallbackHostname in
  match i_streamSettings inbound with
  | Some {| s_externalProxy := (_ :: _) as externals |} =>
      map (fun ep => let r := composeRemark remark (ep_remark ep) in
                     {| e_remark := r; e_link := genLink inbound (ep_dest ep) (ep_port ep) (ep_forceTls ep) r client (Some ep) |}) externals
  | _ => let r := composeRemark remark "" in
         [{| e_remark := r; e_link := genLink inbound addr (i_port inbound) same r client None |}]
  end.

(** *** Per-peer fan-out *)

Definition genWireguardLinks (inbound : Inbound) (remark hostOverride fallbackHostname : string) : option string :=
  match i_settings inbound with
  | WireguardIn base =>
      let addr := resolveAddr inbound hostOverride fallbackHostname in
      let peers := wgRenderPeers base in
      let settings := with_peers base peers in
      join_all (imap (fun i p => genWireguardLink settings addr (i_port inbound) (peer_remark remark i p) i) peers)
  | _ => Some ""
  end.

Definition genWireguardConfigs (inbound : Inbound) (remark hostOverride fallbackHostname : string) : option string :=
  match i_settings inbound with
  | WireguardIn base =>
      let addr := resolveAddr inbound hostOverride fallbackHostname in
      let peers := wgRenderPeers base in
      let settings := with_peers base peers in
      join_all (imap (fun i p => genWireguardConfig settings addr (i_port inbound) (peer_remark remark i p) i) peers)
  | _ => Some ""
  end.

Definition genAmneziaWGLinks (inbound : Inbound) (remark hostOverride fallbackHostname : string) : string :=
  match i_settings inbound with
  | AmneziawgIn server clients =>
      let addr := resolveAddr inbound hostOverride fallbackHostname in
      join crlf (imap (fun i c => genAmneziaWGLink server clients addr (i_port inbound) (peer_remark remark i c) i) clients)
  | _ => ""
  end.

Definition genAmneziaWGConfigs (inbound : Inbound) (remark hostOverride fallbackHostname : string) : string :=
  match i_settings inbound with
  | AmneziawgIn server clients =>
      let addr := resolveAddr inbound hostOverride fallbackHostname in
      join crlf (imap (fun i c => genAmneziaWGConfig server clients addr (i_port inbound) (peer_remark remark i c) i) clients)
  | _ => ""
  end.

Definition genInboundLinks (inbound : Inbound) (remark hostOverride fallbackHostname : string) : option string :=
  let addr := resolveAddr inbound hostOverride fallbackHostname in
  match getInboundClients inbound with
  | Some clients =>
      join_all (flat_map (fun c => map e_link (genAllLinks inbound remark c hostOverride fallbackHostname)) clients)
  | None =>
      match i_settings inbound with
      | Shadowsocks _ _ _ => genShadowsocksLink inbound addr (i_port inbound) same remark "" None
      | WireguardIn _ => genWireguardConfigs inbound remark hostOverride fallbackHostname
      | AmneziawgIn _ _ => Some (genAmneziaWGConfigs inbound remark hostOverride fallbackHostname)
      | _ => Some ""
      end
  end.
End Fanout.

(** [/[?&]pqv=/.test(link)] *)
Definition isPostQuantumLink (link : string) : bool :=
  str_includes link "?pqv=" || str_includes link "&pqv=" || str_includes link "mlkem768" || str_includes link "mldsa65" ||
  str_includes link "ML-KEM-768".
