(* ===== verification/InboundTag.v ===== *)
(** * Tags of inbounds

    Models src/frontend/src/lib/xray/inbound-tag.ts: the transports an inbound occupies, the tag
    the panel derives from node, port and transports, and the test whether a stored tag is such a
    derived one.  Theorem: the tag determines node, port and transports, so derived tags of
    inbounds that can coexist never collide. *)
From S2P Require Import Prelude JsString JsValue Json Uri Url LinkParser WireguardConfig AwgConfigLines.
From Stdlib Require Import Ascii.
Local Open Scope Z_scope.

Definition TCP : Z := 1.
Definition UDP : Z := 2.

Definition asString (v : jsval) : string := match v with VStr s => s | _ => "" end.

(** One item of a comma-separated network list. *)
Definition add_network (bits : Z) (part : string) : Z :=
  let p := trim part in
  if String.eqb p "tcp" then Z.lor bits TCP else if String.eqb p "udp" then Z.lor bits UDP else bits.

Definition inboundTransports (protocol : string) (streamSettings settings : jsval) : Z :=
  if String.eqb protocol "hysteria" || String.eqb protocol "wireguard" || String.eqb protocol "amneziawg" || String.eqb protocol "tuic" then UDP
  else
    let network := asString (get streamSettings "network") in
    let bits := if String.eqb network "kcp" || String.eqb network "quic" then UDP else TCP in
    let bits :=
      if negb (truthy settings) then bits
      else if String.eqb protocol "shadowsocks" || String.eqb protocol "tunnel" then
        let key := if String.eqb protocol "tunnel" then "allowedNetwork" else "network" in
        let n := asString (get settings key) in
        if String.eqb n "" then bits else fold_left add_network (split_on "," n) 0
      else if String.eqb protocol "mixed" then if is_bool (get settings "udp") true then Z.lor bits UDP else bits
      else bits in
    if bits =? 0 then TCP else bits.

Definition transportTagSuffix (bits : Z) : string :=
  if bits =? TCP then "tcp" else if bits =? UDP then "udp" else if bits =? Z.lor TCP UDP then "tcpudp" else "any".

Definition baseInboundTag (port : Z) : string := "in-" +:+ string_of_Z port.

Definition nodeTagPrefix (nodeId : option Z) : string := match nodeId with None => "" | Some n => "n" +:+ string_of_Z n +:+ "-" end.

Record InboundTagInput := {
  ti_port : option Z;
  ti_nodeId : option Z;
  ti_protocol : string;
  ti_streamSettings : jsval;
  ti_settings : jsval
}.

Definition transports_of (input : InboundTagInput) : Z := inboundTransports (ti_protocol input) (ti_streamSettings input) (ti_settings input).

Definition composeInboundTag (input : InboundTagInput) : string :=
  nodeTagPrefix (ti_nodeId input) +:+ baseInboundTag (default 0 (ti_port input)) +:+ "-" +:+ transportTagSuffix (transports_of input).

Definition isAutoInboundTag (tag : string) (input : InboundTagInput) : bool :=
  if String.eqb tag "" then true
  else
    let base := composeInboundTag input in
    if String.eqb tag base then true
    else
      let prefix := base +:+ "-" in
      if negb (starts_with tag prefix) then false
      else let suffix := str_drop (String.length prefix) tag in negb (String.eqb suffix "") && all_digits suffix.

(** ** What a tag says *)

(** Every inbound listens on TCP, on UDP or on both. *)
Lemma fold_networks l bits : In bits [0; 1; 2; 3] -> In (fold_left add_network l bits) [0; 1; 2; 3].
Proof.
  revert bits. induction l as [|p l IH]; intros bits H; [done|]. cbn [fold_left]. apply IH. unfold add_network.
  repeat case_match; destruct H as [<-|[<-|[<-|[<-|[]]]]]; cbn; tauto.
Qed.

Lemma transports_range protocol stream settings : In (inboundTransports protocol stream settings) [1; 2; 3].
Proof.
  unfold inboundTransports. destruct (_ || _ || _ || _); [cbn; tauto|]. cbv zeta.
  set (b0 := if _ || _ then UDP else TCP). assert (H0 : In b0 [0; 1; 2; 3]) by (subst b0; destruct (_ || _); cbn; tauto). clearbody b0.
  match goal with |- In (if ?b =? 0 then _ else _) _ => assert (H : In b [0; 1; 2; 3]) end.
  { destruct (negb (truthy settings)); [done|]. destruct (_ || _).
    - match goal with |- In (if ?b then _ else _) _ => destruct b; [done|] end. apply fold_networks. cbn; tauto.
    - destruct (String.eqb protocol "mixed"); [|done]. destruct (is_bool _ true); [|done]. destruct H0 as [<-|[<-|[<-|[<-|[]]]]]; cbn; tauto. }
  match goal with |- In (if ?b =? 0 then _ else _) _ => destruct H as [<-|[<-|[<-|[<-|[]]]]]; cbn; tauto end.
Qed.

Lemma suffix_inj a b : In a [1; 2; 3] -> In b [1; 2; 3] -> transportTagSuffix a = transportTagSuffix b -> a = b.
Proof. intros Ha Hb. destruct Ha as [<-|[<-|[<-|[]]]], Hb as [<-|[<-|[<-|[]]]]; done. Qed.

(** A number ends where a hyphen begins. *)
Lemma digits_app_inj a b s t : forall_chars is_digit a = true -> forall_chars is_digit b = true ->
  a +:+ String "-" s = b +:+ String "-" t -> a = b /\ s = t.
Proof.
  revert b. induction a as [|c a IH]; intros [|d b] Ha Hb H; cbn in *.
  - by injection H as ->.
  - injection H as <- H. done.
  - injection H as -> H. done.
  - injection H as <- H. apply andb_true_iff in Ha as [_ Ha], Hb as [_ Hb]. destruct (IH b Ha Hb H) as [-> ->]. done.
Qed.

Lemma nat_text z : 0 <= z -> forall_chars is_digit (string_of_Z z) = true.
Proof.
  intros H. unfold string_of_Z. replace (z <? 0) with false by lia. pose proof (digits_all z) as D. unfold all_digits in D. by destruct (digits z).
Qed.

Lemma string_of_Z_inj a b : 0 <= a -> 0 <= b -> string_of_Z a = string_of_Z b -> a = b.
Proof.
  intros Ha Hb. unfold string_of_Z. replace (a <? 0) with false by lia. replace (b <? 0) with false by lia. intros E.
  rewrite <-(digits_value_digits a), <-(digits_value_digits b) by done. by rewrite E.
Qed.

(** A node id and a port as the database stores them. *)
Definition valid_tag_input (i : InboundTagInput) : Prop :=
  0 <= default 0 (ti_port i) /\ match ti_nodeId i with Some n => 0 <= n | None => True end.

Lemma base_tag_inj p q a b : 0 <= p -> 0 <= q -> baseInboundTag p +:+ "-" +:+ a = baseInboundTag q +:+ "-" +:+ b -> p = q /\ a = b.
Proof.
  intros Hp Hq H. unfold baseInboundTag in H. rewrite !app_assoc_str in H. cbn [String.append] in H. injection H as H.
  apply digits_app_inj in H as [H ->]; auto using nat_text. split; [by apply string_of_Z_inj|done].
Qed.

(** A derived tag determines the node, the port and the transports of the inbound it was
    derived for: inbounds that differ in any of them have different tags. *)
Theorem composeInboundTag_injective i j : valid_tag_input i -> valid_tag_input j ->
  composeInboundTag i = composeInboundTag j ->
  ti_nodeId i = ti_nodeId j /\ default 0 (ti_port i) = default 0 (ti_port j) /\ transports_of i = transports_of j.
Proof.
  intros [Pi Ni] [Pj Nj] H. unfold composeInboundTag in H.
  assert (S : forall a b, transportTagSuffix (transports_of a) = transportTagSuffix (transports_of b) -> transports_of a = transports_of b)
    by (intros a b; apply suffix_inj; apply transports_range).
  destruct (ti_nodeId i) as [n|], (ti_nodeId j) as [m|]; unfold nodeTagPrefix in H; try (cbn in H; discriminate H).
  - rewrite !app_assoc_str in H. cbn [String.append] in H. injection H as H. apply digits_app_inj in H as [En H]; auto using nat_text.
    apply base_tag_inj in H as [Ep Es]; [|done..]. apply string_of_Z_inj in En; [|done..]. subst m. auto.
  - cbn [String.append] in H. apply base_tag_inj in H as [Ep Es]; [|done..]. auto.
Qed.

Definition tag_input (port : Z) (node : option Z) : InboundTagInput :=
  {| ti_port := Some port; ti_nodeId := node; ti_protocol := "shadowsocks"; ti_streamSettings := VUndef;
     ti_settings := VObj [("network", VStr "tcp, udp")] |}.

Definition mixed_input (port : Z) (node : option Z) : InboundTagInput :=
  {| ti_port := Some port; ti_nodeId := node; ti_protocol := "mixed"; ti_streamSettings := VUndef; ti_settings := VObj [("udp", VBool true)] |}.

Lemma composeInboundTag_injective_witness :
  composeInboundTag (tag_input 443 (Some 7)) = "n7-in-443-tcpudp" /\
  ti_nodeId (tag_input 443 (Some 7)) = ti_nodeId (mixed_input 443 (Some 7)) /\
  default 0 (ti_port (tag_input 443 (Some 7))) = default 0 (ti_port (mixed_input 443 (Some 7))) /\
  transports_of (tag_input 443 (Some 7)) = transports_of (mixed_input 443 (Some 7)).
Proof.
  split; [reflexivity|].
  apply (composeInboundTag_injective (tag_input 443 (Some 7)) (mixed_input 443 (Some 7))); [split; cbn; lia|split; cbn; lia|reflexivity].
Defined.

(** The panel takes its own derived tag, with or without a number behind it, for a derived one. *)
Lemma isAutoInboundTag_derived i suffix : all_digits suffix = true ->
  isAutoInboundTag (composeInboundTag i) i = true /\ isAutoInboundTag (composeInboundTag i +:+ "-" +:+ suffix) i = true.
Proof.
  intros H. unfold isAutoInboundTag. rewrite String.eqb_refl. split; [by destruct (String.eqb _ "")|].
  destruct (String.eqb _ ""); [done|]. destruct (String.eqb _ (composeInboundTag i)); [done|].
  replace (composeInboundTag i +:+ "-" +:+ suffix) with ((composeInboundTag i +:+ "-") +:+ suffix) by (by rewrite app_assoc_str).
  replace (starts_with _ _) with true by (symmetry; apply prefix_iff; by eexists). cbn [negb]. rewrite str_drop_app, H. by destruct suffix.
Qed.
