(* ===== verification/LinkText.v ===== *)
(** * The text of a generated link

    Laws of the parameter lists the generators of ShareParams.v and InboundLink.v build, and the
    text [new URL(...)], the parameters and the fragment give together: it is the [share_link]
    of Url.v, which the importer reads. *)
From S2P Require Import Prelude JsString JsValue Uri Url LinkParser ShareParams InboundLink.
From Stdlib Require Import Ascii.
Local Open Scope Z_scope.

(** ** Parameter lists *)

Lemma params_get_filter ps k k' : String.eqb k k' = false ->
  params_get (List.filter (fun p => negb (String.eqb p.1 k)) ps) k' = params_get ps k'.
Proof.
  intros H. unfold params_get. f_equal. induction ps as [|[n v] ps IH]; [done|]. cbn [List.filter fst].
  destruct (String.eqb n k) eqn:E; cbn [negb].
  - apply String.eqb_eq in E. subst n. cbn [List.find fst]. by rewrite H.
  - cbn [List.find fst]. destruct (String.eqb n k'); [done|]. exact IH.
Qed.

Lemma set_first_get ps k v k' qs : set_first ps k v = Some qs ->
  params_get qs k' = if String.eqb k k' then Some v else params_get ps k'.
Proof.
  revert qs. induction ps as [|[n w] ps IH]; [done|]. intros qs. cbn [set_first].
  destruct (String.eqb n k) eqn:E.
  - intros [= <-]. apply String.eqb_eq in E. subst n. unfold params_get at 1 2. cbn [List.find fst].
    destruct (String.eqb k k') eqn:Ek; [done|]. exact (params_get_filter ps k k' Ek).
  - destruct (set_first ps k v) as [rs|] eqn:Er; [|done]. intros [= <-]. unfold params_get. cbn [List.find fst].
    destruct (String.eqb n k') eqn:En; cbn.
    + apply String.eqb_eq in En. subst n. by rewrite String.eqb_sym, E.
    + apply (IH rs eq_refl).
Qed.

Lemma set_first_none ps k v : set_first ps k v = None -> params_get ps k = None.
Proof.
  induction ps as [|[n w] ps IH]; [done|]. cbn [set_first]. unfold params_get. cbn [List.find fst].
  destruct (String.eqb n k); [done|]. destruct (set_first ps k v); [done|]. intros _. by apply IH.
Qed.

Lemma set_first_absent ps k v : params_get ps k = None -> set_first ps k v = None.
Proof.
  induction ps as [|[n w] ps IH]; [done|]. cbn [set_first]. unfold params_get. cbn [List.find fst].
  destruct (String.eqb n k); [done|]. intros H. by rewrite IH.
Qed.

Lemma params_get_app_single ps k v k' :
  params_get (ps ++ [(k, v)]) k' = match params_get ps k' with Some w => Some w | None => if String.eqb k k' then Some v else None end.
Proof.
  unfold params_get. induction ps as [|[n w] ps IH]; cbn [app List.find fst]; [by destruct (String.eqb k k')|].
  by destruct (String.eqb n k').
Qed.

(** The law of [params.set] and [params.get]. *)
Lemma params_get_set ps k v k' : params_get (params_set ps k v) k' = if String.eqb k k' then Some v else params_get ps k'.
Proof.
  unfold params_set. destruct (set_first ps k v) as [qs|] eqn:E; [by apply set_first_get|].
  rewrite params_get_app_single. destruct (String.eqb k k') eqn:Ek.
  - apply String.eqb_eq in Ek. subst k'. by rewrite (set_first_none _ _ _ E).
  - by destruct (params_get ps k').
Qed.

Lemma params_get_nonempty ps k v k' :
  params_get (set_nonempty k v ps) k' = if String.eqb k k' then (if String.eqb v "" then params_get ps k' else Some v) else params_get ps k'.
Proof. unfold set_nonempty. destruct (String.eqb v ""); [by destruct (String.eqb k k')|]. apply params_get_set. Qed.

(** Lists in which every name occurs once, as repeated [set] builds them. *)
Definition unique (ps : params) : Prop := List.NoDup (map fst ps).

Lemma set_first_keys ps k v qs : unique ps -> set_first ps k v = Some qs -> map fst qs = map fst ps.
Proof.
  revert qs. induction ps as [|[n w] ps IH]; [done|]. intros qs U. inversion U as [|? ? Hn U']; subst. cbn [set_first].
  destruct (String.eqb n k) eqn:E.
  - intros [= <-]. cbn [map fst]. f_equal. f_equal. apply String.eqb_eq in E. subst n.
    clear -Hn. induction ps as [|[m x] ps IH]; [done|]. cbn [List.filter fst].
    destruct (String.eqb m k) eqn:E; [apply String.eqb_eq in E; subst; destruct Hn; by left|]. cbn [negb]. f_equal. apply IH.
    intros H. apply Hn. by right.
  - destruct (set_first ps k v) as [rs|] eqn:Er; [|done]. intros [= <-]. cbn [map fst]. by rewrite (IH rs U' eq_refl).
Qed.

Lemma params_get_none ps k : params_get ps k = None <-> ~ In k (map fst ps).
Proof.
  unfold params_get. induction ps as [|[n w] ps IH]; cbn [List.find map fst In]; [split; auto|].
  destruct (String.eqb_spec n k) as [->|Hn]; [split; [done|]; intros H; destruct H; by left|].
  rewrite IH. split; [intros H [->|H2]; auto|]. intros H H2. apply H. by right.
Qed.

Lemma unique_set ps k v : unique ps -> unique (params_set ps k v).
Proof.
  intros U. unfold params_set, unique. destruct (set_first ps k v) as [qs|] eqn:E.
  - by rewrite (set_first_keys _ _ _ _ U E).
  - rewrite map_app. cbn [map fst]. apply NoDup_app; [done|repeat constructor; auto|].
    apply set_first_none, params_get_none in E. intros x Hx [<-|[]]. done.
Qed.

Lemma unique_nonempty ps k v : unique ps -> unique (set_nonempty k v ps).
Proof. intros U. unfold set_nonempty. destruct (String.eqb v ""); auto using unique_set. Qed.

Lemma unique_set_params l ps : unique ps -> unique (set_params l ps).
Proof. revert ps. induction l as [|[k v] l IH]; intros ps U; [done|]. cbn. apply IH, unique_set, U. Qed.

Create HintDb params.
#[export] Hint Resolve unique_set unique_nonempty unique_set_params : params.

(** Copying a list without repeated names into an empty one gives it back. *)
Lemma set_params_copy ps : unique ps -> set_params ps [] = ps.
Proof.
  intros U. unfold set_params. induction ps as [|[k v] ps IH] using rev_ind; [done|]. unfold unique in U. rewrite map_app in U.
  rewrite fold_left_app. cbn [fold_left fst snd].
  rewrite IH by (eapply NoDup_app_remove_r, U). unfold params_set.
  assert (E : params_get ps k = None).
  { apply params_get_none. intros H. apply NoDup_remove_2 with (l := map fst ps) (l' := []) in U. by rewrite app_nil_r in U. }
  by rewrite (set_first_absent ps k v E).
Qed.

(** ** The text of a generated link *)

Lemma query_string_empty ps : String.eqb (query_string ps) "" = match ps with [] => true | _ => false end.
Proof.
  destruct ps as [|p ps]; [done|]. apply String.eqb_neq. unfold query_string. cbn [map].
  destruct (map _ ps); unfold join; cbn [String.concat]; by destruct (form_encode p.1).
Qed.

Lemma plain_host_format host : plain_host host -> formatUrlHost host = host.
Proof.
  intros [Hne Hh]. unfold formatUrlHost, strip_brackets.
  assert (E1 : starts_with host "[" = false).
  { destruct (starts_with host "[") eqn:E; [|done]. apply prefix_iff in E as [t ->]. done. }
  assert (E2 : ends_with host "]" = false).
  { destruct (ends_with host "]") eqn:E; [|done]. apply ends_with_iff in E as [t ->].
    rewrite forall_chars_app in Hh. by rewrite andb_false_r in Hh. }
  rewrite E1, E2. unfold str_includes. by rewrite (index_of_none ":" host (host_no ":" host Hh eq_refl)).
Qed.

Lemma url_text_share scheme user host port ps remark :
  valid_scheme scheme -> user <> "" -> plain_host host -> 0 <= port <= 65535 -> unique ps ->
  url_text (scheme +:+ "://" +:+ encodeURIComponent user +:+ "@" +:+ formatUrlHost host +:+ ":" +:+ string_of_Z port) ps
    (encodeURIComponent remark) = Some (share_link scheme user host port ps remark).
Proof.
  intros Hs Hu Hh Hp U. unfold url_text. rewrite plain_host_format by done.
  pose proof (new_URL_share_link scheme user host port [] "" Hs Hh Hp) as E. unfold share_link in E.
  change (link_tail [] "") with "" in E. rewrite app_nil_r_str in E. unfold link_authority in E. rewrite E. cbn [option_map]. f_equal.
  unfold searchParams. cbn [u_query]. change (parse_query (query_string [])) with (@nil (string * string)).
  rewrite set_params_copy by done. unfold href, with_hash, with_params.
  cbn [u_protocol u_authority u_username u_password u_hostname u_port u_path u_query u_hash].
  assert (S0 : starts_with (encodeURIComponent remark) "#" = false).
  { destruct (starts_with (encodeURIComponent remark) "#") eqn:Es; [|done]. apply prefix_iff in Es as [t Et].
    pose proof (encode_safe remark) as Sf. by rewrite Et in Sf. }
  rewrite S0, encode_empty, fragment_text, encode_empty. rewrite (proj2 (String.eqb_neq user "")) by done. cbn [andb].
  unfold share_link, link_authority, link_tail.
  rewrite query_string_empty, string_of_Z_nonempty by lia.
  cbn [String.eqb String.append]. rewrite !app_assoc_str. cbn [String.append]. destruct ps; rewrite ?app_assoc_str; done.
Qed.

Lemma trim_share scheme user host port ps remark : valid_scheme scheme -> plain_host host -> 0 <= port ->
  trim (share_link scheme user host port ps remark) = share_link scheme user host port ps remark.
Proof.
  intros Hs Hh Hp. apply trim_no_ws. eapply forall_chars_impl; [|by apply share_link_visible].
  intros c. destruct c as [[] [] [] [] [] [] [] []]; by vm_compute.
Qed.
