(* ===== verification/StreamImport.v ===== *)
(** * Streams survive a share link

    What the query parameters of a generated link say about a stream ([carries]), the stream
    settings the importer of LinkParser.v makes of them ([imported_stream], written down field by
    field), and the lemma that connects the two ([import_stream]).  The theorems of
    LinkRoundTrip.v instantiate it for every protocol whose links are URLs. *)
From S2P Require Import Prelude JsString JsValue JsObject Json Uri Url LinkParser Headers ShareParams InboundLink LinkText.
From Stdlib Require Import Ascii.
Local Open Scope Z_scope.

(** ** What the parameters of a link carry *)

Definition network_keys : list string :=
  ["path"; "host"; "headerType"; "mtu"; "tti"; "serviceName"; "authority"; "mode"; "x_padding_bytes"; "extra"].

Definition security_keys : list string := ["fp"; "alpn"; "sni"; "ech"; "vcn"; "pcs"; "pbk"; "sid"; "spx"; "pqv"].

(** Parameters the importer also looks for, and no generator writes. *)
Definition foreign_keys : list string :=
  ["seed"; "sessionPlacement"; "sessionKey"] ++ XHTTP_STRING_KEYS ++ XHTTP_NUMBER_KEYS ++ XHTTP_BOOL_KEYS.

Definition key_in (k : string) (keys : list string) : bool := existsb (fun x => String.eqb x k) keys.

(** Turns the assumption that a key is in none of the given names into facts that rewrite. *)
Ltac split_keys H :=
  cbv [key_in network_keys security_keys existsb] in H; repeat (apply orb_false_iff in H as [? H]).

Ltac lookup_params :=
  repeat (rewrite params_get_set || rewrite params_get_nonempty || match goal with E : String.eqb _ _ = _ |- _ => rewrite E end).

Lemma get_set_params l ps k : key_in k (map fst l) = false -> params_get (set_params l ps) k = params_get ps k.
Proof.
  revert ps. induction l as [|[n v] l IH]; intros ps; [done|]. cbn. intros [E H]%orb_false_iff.
  change (params_get (set_params l (params_set ps n v)) k = params_get ps k). rewrite IH by done. by rewrite params_get_set, E.
Qed.

Lemma get_network_other n ps k : key_in k network_keys = false -> params_get (writeNetworkParams n ps) k = params_get ps k.
Proof.
  intros H. split_keys H. destruct n as [[[|[r|] resp]|]|mtu tti|p h hs|sn a mm|p h hs|x|]; cbn [writeNetworkParams]; try done.
  - destruct (String.eqb (http_host r resp) ""); by lookup_params.
  - cbn [set_params fold_left fst snd]. by lookup_params.
  - cbn [set_params fold_left fst snd]. by lookup_params.
  - cbn [set_params fold_left fst snd]. destruct mm; by lookup_params.
  - cbn [set_params fold_left fst snd]. by lookup_params.
  - unfold applyXhttpExtraToParams. cbn [set_params fold_left fst snd].
    destruct (buildXhttpExtra x); destruct (obj_get (x_fields x) "xPaddingBytes"); try case_match; by lookup_params.
Qed.

(** A writer only overlays the list it is given. *)
Definition overlay (ps qs : params) (k : string) : option string := match params_get ps k with Some v => Some v | None => params_get qs k end.

Ltac overlay_cases :=
  unfold overlay; lookup_params; repeat match goal with |- context[String.eqb ?x ?y] => destruct (String.eqb x y) end; try done; by destruct (params_get _ _).

Lemma get_network_overlay n ps k : params_get (writeNetworkParams n ps) k = overlay (writeNetworkParams n []) ps k.
Proof.
  destruct n as [[[|[r|] resp]|]|mtu tti|p h hs|sn a mm|p h hs|x|]; cbn [writeNetworkParams]; try done.
  - destruct (String.eqb (http_host r resp) ""); overlay_cases.
  - cbn [set_params fold_left fst snd]. overlay_cases.
  - cbn [set_params fold_left fst snd]. overlay_cases.
  - cbn [set_params fold_left fst snd]. destruct mm; overlay_cases.
  - cbn [set_params fold_left fst snd]. overlay_cases.
  - unfold applyXhttpExtraToParams. cbn [set_params fold_left fst snd].
    destruct (buildXhttpExtra x); destruct (obj_get (x_fields x) "xPaddingBytes"); try case_match; overlay_cases.
Qed.

Section WithDigest.
Context (sha256_hex : string -> string).

(** The security parameters of a stream. *)
Definition security_params (s : SecuritySettings) (clientKey : string) (ps : params) : params :=
  match s with
  | NoSecurity => ps
  | Tls _ => writeTlsParams s ps
  | Reality _ => writeRealityParams sha256_hex s ps clientKey
  end.

Lemma get_security_other s key ps k : key_in k security_keys = false -> params_get (security_params s key ps) k = params_get ps k.
Proof.
  intros H. split_keys H. destruct s as [|t|r]; cbn [security_params writeTlsParams writeRealityParams]; [done| |].
  - destruct (t_pinnedPeerCertSha256 t); by lookup_params.
  - cbn [set_params fold_left fst snd]. destruct (r_shortIds r); by lookup_params.
Qed.

Lemma get_security_overlay s key ps k : params_get (security_params s key ps) k = overlay (security_params s key []) ps k.
Proof.
  destruct s as [|t|r]; cbn [security_params writeTlsParams writeRealityParams]; [done| |].
  - destruct (t_pinnedPeerCertSha256 t); overlay_cases.
  - cbn [set_params fold_left fst snd]. destruct (r_shortIds r); overlay_cases.
Qed.

Lemma get_vless_tls t ps k : params_get (vlessTlsParams (Tls t) ps) k = params_get (writeTlsParams (Tls t) ps) k.
Proof.
  cbn [vlessTlsParams writeTlsParams]. destruct (t_pinnedPeerCertSha256 t); lookup_params;
    repeat match goal with |- context[String.eqb ?x k] => destruct (String.eqb_spec x k); try subst k end; try done.
Qed.

Lemma get_mask v ps k : params_get (applyFinalMaskToParams v ps) k =
  params_get (set_nonempty "fm" (serializeFinalMask v) ps) k.
Proof. unfold applyFinalMaskToParams, set_nonempty. by destruct (String.eqb (serializeFinalMask v) ""). Qed.

(** The parameters say all the generators say about the stream, and nothing else the importer
    of a stream looks at. *)
Record carries (s : StreamSettings) (clientKey : string) (ps : params) : Prop := {
  carries_type : params_get ps "type" = Some (network_name (s_network s));
  carries_security : params_get ps "security" = Some (security_name (s_security s));
  carries_network : forall k, key_in k network_keys = true -> params_get ps k = params_get (writeNetworkParams (s_network s) []) k;
  carries_keys : forall k, key_in k security_keys = true -> params_get ps k = params_get (security_params (s_security s) clientKey []) k;
  carries_mask : params_get ps "fm" = (if String.eqb (serializeFinalMask (s_finalmask s)) "" then None else Some (serializeFinalMask (s_finalmask s)));
  carries_foreign : forall k, key_in k foreign_keys = true -> params_get ps k = None
}.

(** Names of one list are not in another. *)
Lemma key_in_other (l l' : list string) k : forallb (fun x => negb (key_in x l')) l = true -> key_in k l = true -> key_in k l' = false.
Proof.
  intros F H. apply existsb_exists in H as (x & Hx & E). apply String.eqb_eq in E. subst x.
  rewrite forallb_forall in F. specialize (F k Hx). by apply negb_true_iff in F.
Qed.

Lemma key_ne l k x : key_in x l = false -> key_in k l = true -> String.eqb x k = false.
Proof. intros Hx Hk. destruct (String.eqb_spec x k); [subst k; congruence|done]. Qed.

(** The order in which both URL generators write: base parameters, transport, mask, security. *)
Definition written (s : StreamSettings) (clientKey : string) (base : params) : params :=
  security_params (s_security s) clientKey
    (params_set (applyFinalMaskToParams (s_finalmask s) (writeNetworkParams (s_network s) base)) "security" (security_name (s_security s))).

Lemma get_between s v base k : String.eqb "security" k = false -> String.eqb "fm" k = false ->
  params_get (params_set (applyFinalMaskToParams (s_finalmask s) (writeNetworkParams (s_network s) base)) "security" v) k =
  params_get (writeNetworkParams (s_network s) base) k.
Proof. intros E1 E2. by rewrite params_get_set, E1, get_mask, params_get_nonempty, E2. Qed.

(** The names a base list of parameters must leave to the stream. *)
Definition stream_keys : list string := network_keys ++ security_keys ++ foreign_keys ++ ["fm"].

Lemma key_in_stream k l1 l l2 : stream_keys = l1 ++ l ++ l2 -> key_in k l = true -> key_in k stream_keys = true.
Proof. intros -> Hk. unfold key_in in *. rewrite !existsb_app, Hk. by rewrite orb_true_r. Qed.

Lemma carries_written s key base ps :
  (forall k, k <> "flow" -> params_get ps k = params_get (written s key base) k) ->
  params_get base "type" = Some (network_name (s_network s)) ->
  (forall k, key_in k stream_keys = true -> params_get base k = None) ->
  carries s key ps.
Proof.
  intros G T B. assert (KN : forall k, key_in k stream_keys = true -> k <> "flow") by (intros k Hk ->; by vm_compute in Hk).
  unfold written in G. split.
  - rewrite G, get_security_other, params_get_set, get_mask, params_get_nonempty by done.
    cbn [String.eqb Ascii.eqb Bool.eqb]. by rewrite get_network_other.
  - rewrite G, get_security_other, params_get_set by done. done.
  - intros k Hk. pose proof (key_in_stream k [] network_keys _ eq_refl Hk) as Ha. rewrite G by auto.
    rewrite get_security_other by (by apply (key_in_other network_keys)). rewrite get_between by (by apply (key_ne network_keys)).
    rewrite get_network_overlay. unfold overlay. rewrite (B k Ha). by destruct (params_get _ k).
  - intros k Hk. pose proof (key_in_stream k network_keys security_keys _ eq_refl Hk) as Ha. rewrite G by auto.
    rewrite get_security_overlay. unfold overlay. destruct (params_get (security_params _ _ _) k); [done|].
    rewrite get_between by (by apply (key_ne security_keys)).
    rewrite get_network_other by (by apply (key_in_other security_keys)). by apply B.
  - rewrite G, get_security_other, params_get_set, get_mask, params_get_nonempty by done.
    cbn [String.eqb Ascii.eqb Bool.eqb]. rewrite get_network_other by done. by rewrite (B "fm" eq_refl).
  - intros k Hk. pose proof (key_in_stream k (network_keys ++ security_keys) foreign_keys ["fm"] eq_refl Hk) as Ha. rewrite G by auto.
    rewrite get_security_other by (by apply (key_in_other foreign_keys)). rewrite get_between by (by apply (key_ne foreign_keys)).
    rewrite get_network_other by (by apply (key_in_other foreign_keys)). by apply B.
Qed.

(** ** What an imported stream says *)

(** The items of a comma-separated list. *)
Definition list_item (s : string) : bool := forall_chars (fun c => negb (Ascii.eqb c ",")) s.

Definition imported_xhttp (x : XHttpStreamSettings) : obj :=
  let host := if String.eqb (x_host x) "" then xhttpHostFallback x else x_host x in
  let padding := match obj_get (x_fields x) "xPaddingBytes" with VStr v => if String.eqb v "" then "100-1000" else v | _ => "100-1000" end in
  let base : obj := [("path", VStr (x_path x)); ("host", VStr host); ("mode", VStr (if String.eqb (x_mode x) "" then "auto" else x_mode x));
                     ("headers", VObj []); ("xPaddingBytes", VStr padding)] in
  match buildXhttpExtra x with
  | None => base
  | Some extra =>
      let base := applyXhttpStringFromJson base (VObj extra) in
      match shared_headers (obj_get (x_fields x) "headers") with [] => base | h => obj_set base "headers" (VObj h) end
  end.

Definition imported_transport (n : NetworkSettings) : string * jsval :=
  match n with
  | Tcp (Some (HeaderHttp (Some r) response)) =>
      ("tcpSettings", VObj [("header", VObj [("type", VStr "http");
         ("request", VObj [("version", VStr "1.1"); ("method", VStr "GET");
            ("path", VArr (map VStr (List.filter (fun p => negb (String.eqb p "")) (req_path r))));
            ("headers", VObj (if String.eqb (http_host r response) "" then [] else [("Host", comma_list (http_host r response))]))])])])
  | Tcp _ | HysteriaNet => ("tcpSettings", tcp_none)
  | Kcp mtu tti => ("kcpSettings", VObj (obj_set (obj_set kcp_defaults "mtu" (VInt mtu)) "tti" (VInt tti)))
  | Ws path host headers =>
      ("wsSettings", VObj [("path", VStr path); ("host", VStr (host_or_header host headers)); ("headers", VObj []); ("heartbeatPeriod", VInt 0)])
  | Grpc serviceName authority multiMode =>
      ("grpcSettings", VObj [("serviceName", VStr serviceName); ("authority", VStr authority); ("multiMode", VBool multiMode)])
  | HttpUpgrade path host headers =>
      ("httpupgradeSettings", VObj [("path", VStr path); ("host", VStr (host_or_header host headers)); ("headers", VObj [])])
  | XHttp x => ("xhttpSettings", VObj (imported_xhttp x))
  end.

Definition imported_security (s : SecuritySettings) (clientKey : string) : obj :=
  match s with
  | NoSecurity => []
  | Tls t =>
      [("tlsSettings", VObj [("serverName", VStr (t_serverName t)); ("alpn", VArr (map VStr (t_alpn t)));
         ("fingerprint", VStr (t_fingerprint t)); ("echConfigList", VStr (t_echConfigList t));
         ("verifyPeerCertByName", VStr (t_verifyPeerCertByName t));
         ("pinnedPeerCertSha256", VStr (join "," (t_pinnedPeerCertSha256 t)))])]
  | Reality r =>
      [("realitySettings", VObj [("publicKey", VStr (r_publicKey r)); ("fingerprint", VStr (r_fingerprint r));
         ("serverName", VStr (reality_sni r)); ("shortId", VStr (hd "" (r_shortIds r)));
         ("spiderX", VStr (deriveSpiderX sha256_hex (r_spiderX r) clientKey)); ("mldsa65Verify", VStr (r_mldsa65Verify r))])]
  end.

Definition imported_mask (finalmask : jsval) : obj :=
  if String.eqb (serializeFinalMask finalmask) "" then [] else [("finalmask", sanitizeFinalMaskQuicParams finalmask)].

Definition imported_stream (s : StreamSettings) (clientKey : string) : obj :=
  [("network", VStr (network_name (s_network s))); ("security", VStr (security_name (s_security s)));
   imported_transport (s_network s)] ++ imported_security (s_security s) clientKey ++ imported_mask (s_finalmask s).

(** What the texts of a stream must satisfy: list items without a comma, mKCP numbers in the
    range the importer accepts, masks and XHTTP extras that JSON can carry. *)
Definition shareable_network (n : NetworkSettings) : Prop :=
  match n with
  | Tcp (Some (HeaderHttp (Some r) _)) => forallb list_item (req_path r) = true
  | Kcp mtu tti => KCP_MIN_MTU <= mtu <= KCP_MAX_MTU /\ KCP_MIN_TTI <= tti <= KCP_MAX_TTI
  | XHttp x => match buildXhttpExtra x with Some extra => json_ok (VObj extra) | None => True end
  | _ => True
  end.

Definition shareable_security (s : SecuritySettings) : Prop :=
  match s with Tls t => forallb (fun a => list_item a && negb (String.eqb a "")) (t_alpn t) = true | _ => True end.

Definition shareable_mask (finalmask : jsval) : Prop :=
  finalmask = VUndef \/ exists o, finalmask = VObj o /\ json_ok finalmask.

Definition shareable (s : StreamSettings) : Prop :=
  shareable_network (s_network s) /\ shareable_security (s_security s) /\ shareable_mask (s_finalmask s).

Lemma list_items l : forallb list_item l = true -> Forall (no_char ",") l.
Proof.
  intros H. apply List.Forall_forall. intros x Hx. rewrite forallb_forall in H. specialize (H x Hx). unfold no_char, list_item in *.
  eapply forall_chars_impl; [|exact H]. intros c. by rewrite Ascii.eqb_sym.
Qed.

Lemma comma_list_join l : forallb list_item l = true ->
  comma_list (join "," l) = VArr (map VStr (List.filter (fun p => negb (String.eqb p "")) l)).
Proof.
  intros H. unfold comma_list. destruct l as [|x l]; [done|]. by rewrite split_join by (done || by apply list_items).
Qed.

Lemma kcp_in_range z min max : 0 <= min -> max <= MAX_SAFE -> min <= z <= max -> kcpParamInRange (Some (string_of_Z z)) min max = Some z.
Proof.
  intros H0 H1 H. unfold kcpParamInRange, string_of_Z. replace (z <? 0) with false by lia. rewrite digits_all, digits_value_digits by lia.
  cbn [negb]. by replace ((z <=? MAX_SAFE) && (min <=? z) && (z <=? max)) with true by lia.
Qed.

(** Reads one literal parameter of a written list. *)
Ltac read_param k v := replace (params_get _ k) with v by (repeat case_match; cbn [set_params fold_left fst snd]; by lookup_params).

(** The stream settings before anything is read from the parameters. *)
Definition blank (s : StreamSettings) (transport : string * jsval) (tail : obj) : obj :=
  ("network", VStr (network_name (s_network s))) :: ("security", VStr (security_name (s_security s))) :: transport :: tail.

Lemma fold_from_params conv ps x keys : (forall k, In k keys -> params_get ps k = None) -> fold_left (from_params conv ps) keys x = x.
Proof.
  induction keys as [|k keys IH]; intros H; [done|]. cbn [fold_left]. unfold from_params at 2, param. rewrite (H k) by (by left).
  apply IH. intros k' Hk. apply H. by right.
Qed.

Lemma fold_alias_params ps x l : (forall a, In a l -> params_get ps a.1 = None) -> fold_left (alias_from_params ps) l x = x.
Proof.
  induction l as [|a l IH]; intros H; [done|]. cbn [fold_left]. unfold alias_from_params at 2, param. rewrite (H a) by (by left).
  replace (if is_undef (obj_get x a.2) then x else x) with x by (by destruct (is_undef (obj_get x a.2))).
  apply IH. intros a' Ha. apply H. by right.
Qed.

(** Of the XHTTP parameters only the padding and the [extra] payload are present. *)
Lemma xhttp_params_read s key ps x : carries s key ps ->
  applyXhttpStringFromParams x ps =
  apply_extra (match param ps "x_padding_bytes" with Some v => obj_set x "xPaddingBytes" (VStr v) | None => x end) ps.
Proof.
  intros C. pose proof (carries_foreign s key ps C) as F. unfold applyXhttpStringFromParams.
  assert (K : forall l1 keys l2, foreign_keys = l1 ++ keys ++ l2 -> forall k, In k keys -> params_get ps k = None).
  { intros l1 keys l2 E k Hk. apply F. rewrite E. unfold key_in. apply existsb_exists. exists k. split; [|apply String.eqb_refl].
    apply in_app_iff. right. apply in_app_iff. by left. }
  rewrite fold_alias_params by (intros a [<-|[<-|[]]]; by apply F).
  rewrite !fold_from_params; [done| | |].
  - exact (K _ XHTTP_STRING_KEYS _ eq_refl).
  - exact (K (["seed"; "sessionPlacement"; "sessionKey"] ++ XHTTP_STRING_KEYS) XHTTP_NUMBER_KEYS _ eq_refl).
  - exact (K (["seed"; "sessionPlacement"; "sessionKey"] ++ XHTTP_STRING_KEYS ++ XHTTP_NUMBER_KEYS) XHTTP_BOOL_KEYS [] eq_refl).
Qed.

Lemma stringify_nonempty v : json_ok v -> exists c t, stringify v = String c t.
Proof. intros H. destruct (stringify_head v H) as (c & t & E & _). by exists c, t. Qed.

Lemma copy_string_other x k extra k' : k <> k' -> obj_get (copy_string x extra k) k' = obj_get extra k'.
Proof. intros H. unfold copy_string. destruct (obj_get x k); try done. case_match; [by rewrite obj_get_set_ne|done]. Qed.

Lemma copy_strings_other x keys extra k' : ~ In k' keys -> obj_get (fold_left (copy_string x) keys extra) k' = obj_get extra k'.
Proof.
  revert extra. induction keys as [|k keys IH]; intros extra H; [done|]. cbn [fold_left]. rewrite IH by (intros Hk; apply H; by right).
  apply copy_string_other. intros ->. apply H. by left.
Qed.

Lemma copy_as_other extra from to k : to <> k -> obj_get (copy_as extra from to) k = obj_get extra k.
Proof. intros H. unfold copy_as. destruct (obj_get extra from); try done. by rewrite obj_get_set_ne. Qed.

(** The headers of an [extra] payload. *)
Lemma extra_headers x extra : buildXhttpExtra x = Some extra ->
  obj_get extra "headers" = match shared_headers (obj_get (x_fields x) "headers") with [] => VUndef | h => VObj h end.
Proof.
  unfold buildXhttpExtra. cbv zeta. set (hs := shared_headers _). set (e := copy_as _ "sessionIDKey" "sessionKey"). intros H.
  assert (E : obj_get e "headers" = VUndef).
  { subst e. rewrite !copy_as_other by done. rewrite copy_strings_other by (cbn; intuition discriminate).
    destruct (is_bool _ true); [rewrite copy_strings_other, obj_get_set_ne by (done || (cbn; intuition discriminate))|];
      destruct (obj_get (x_fields x) "xPaddingBytes"); repeat case_match; done. }
  destruct hs as [|p hs]; [destruct e; [done|by injection H as <-]|].
  destruct (obj_set e "headers" (VObj (p :: hs))) eqn:Es; [done|]. injection H as <-. rewrite <-Es. apply obj_get_set_eq.
Qed.

(** An [extra] payload is a JSON text. *)
Lemma extra_read x xo ps extra : buildXhttpExtra x = Some extra -> json_ok (VObj extra) ->
  params_get ps "extra" = Some (stringify (VObj extra)) ->
  apply_extra xo ps =
    (let base := applyXhttpStringFromJson xo (VObj extra) in
     match shared_headers (obj_get (x_fields x) "headers") with [] => base | h => obj_set base "headers" (VObj h) end).
Proof.
  intros B J E. unfold apply_extra, param. rewrite E. destruct (stringify_nonempty _ J) as (c & t & Ec). rewrite Ec, <-Ec.
  rewrite JSON_parse_stringify by done. cbn [get]. rewrite (extra_headers x extra B). by destruct (shared_headers _).
Qed.

Lemma import_xhttp s key ps x : carries s key ps -> s_network s = XHttp x -> shareable_network (XHttp x) ->
  applyXhttpStringFromParams
    [("path", VStr (x_path x)); ("host", VStr (if String.eqb (x_host x) "" then xhttpHostFallback x else x_host x));
     ("mode", VStr (if String.eqb (x_mode x) "" then "auto" else x_mode x)); ("headers", VObj []); ("xPaddingBytes", VStr "100-1000")] ps =
  imported_xhttp x.
Proof.
  intros C N S. rewrite (xhttp_params_read s key ps) by done. unfold param. cbn [shareable_network] in S.
  pose proof (carries_network s key ps C "extra" eq_refl) as Ex. pose proof (carries_network s key ps C "x_padding_bytes" eq_refl) as Ep.
  rewrite N in Ex, Ep. cbn [writeNetworkParams] in Ex, Ep. unfold applyXhttpExtraToParams in Ex, Ep.
  set (pad := match obj_get (x_fields x) "xPaddingBytes" with VStr v => v | _ => "" end).
  assert (Ep' : params_get ps "x_padding_bytes" = if String.eqb pad "" then None else Some pad).
  { rewrite Ep. subst pad. cbn [set_params fold_left fst snd]. destruct (buildXhttpExtra x); repeat case_match; by lookup_params. }
  assert (Ex' : params_get ps "extra" = option_map (fun e => stringify (VObj e)) (buildXhttpExtra x)).
  { rewrite Ex. subst pad. cbn [set_params fold_left fst snd]. destruct (buildXhttpExtra x); repeat case_match; by lookup_params. }
  rewrite Ep'. clear Ex Ep Ep'. unfold imported_xhttp. cbv zeta.
  replace (match obj_get (x_fields x) "xPaddingBytes" with VStr v => if String.eqb v "" then "100-1000" else v | _ => "100-1000" end)
    with (if String.eqb pad "" then "100-1000" else pad) by (subst pad; by destruct (obj_get _ _)).
  match goal with |- apply_extra ?a _ = _ => set (base := a) end.
  match goal with |- _ = (match _ with Some _ => _ | None => ?b end) => assert (E : base = b) by (subst base; by destruct pad) end.
  rewrite E. clear E base.
  destruct (buildXhttpExtra x) as [extra|] eqn:B; [by apply (extra_read x)|].
  unfold apply_extra, param. by rewrite Ex'.
Qed.

Lemma import_transport s key ps tail : carries s key ps -> shareable_network (s_network s) ->
  applyTransportParams (blank s (transport_settings (VStr (network_name (s_network s)))) tail) ps =
  blank s (imported_transport (s_network s)) tail.
Proof.
  intros C S. unfold applyTransportParams, param_or, param. pose proof (xhttp_params_read s key ps) as X.
  rewrite (carries_network s key ps C "path"), (carries_network s key ps C "host"), (carries_network s key ps C "headerType"), 
   (carries_network s key ps C "mtu"), (carries_network s key ps C "tti"), (carries_network s key ps C "authority"), (carries_network s key ps C "serviceName"),
   (carries_network s key ps C "mode") by reflexivity.
  unfold blank. rewrite (carries_type s key ps C).
  destruct (s_network s) as [[[|[r|] resp]|]|mtu tti|p h hs|sn a mm|p h hs|x|] eqn:N; try reflexivity;
    cbn [writeNetworkParams network_name shareable_network] in S |- *.
  - read_param "path" (Some (join "," (req_path r))). read_param "headerType" (Some "http").
    read_param "host" (if String.eqb (http_host r resp) "" then None else Some (http_host r resp)).
    cbn. unfold http_header. rewrite comma_list_join by done. destruct (String.eqb (http_host r resp) "") eqn:E; cbn; rewrite ?E; done.
  - read_param "mtu" (Some (string_of_Z mtu)). read_param "tti" (Some (string_of_Z tti)).
    destruct S as [S1 S2]. cbn -[kcpParamInRange kcp_defaults]. rewrite !kcp_in_range by (done || unfold KCP_MIN_MTU, KCP_MAX_MTU, KCP_MIN_TTI, KCP_MAX_TTI, MAX_SAFE in *; lia).
    done.
  - read_param "serviceName" (Some sn). read_param "authority" (Some a). read_param "mode" (if mm then Some "multi" else None). by destruct mm.
  - unfold applyXhttpExtraToParams. set (host := if String.eqb (x_host x) "" then xhttpHostFallback x else x_host x).
    read_param "path" (Some (x_path x)). read_param "host" (Some host). read_param "mode" (Some (x_mode x)).
    cbn -[applyXhttpStringFromParams imported_xhttp]. rewrite <-(import_xhttp s key ps x) by done. fold host.
    by destruct (x_mode x).
Qed.

Lemma tls_values t (ps := writeTlsParams (Tls t) []) :
  param_or ps "sni" "" = t_serverName t /\ param_or ps "fp" "" = t_fingerprint t /\ param_or ps "ech" "" = t_echConfigList t /\
  param_or ps "vcn" "" = t_verifyPeerCertByName t /\ param_or ps "pcs" "" = join "," (t_pinnedPeerCertSha256 t) /\
  params_get ps "alpn" = Some (join "," (t_alpn t)).
Proof.
  subst ps. unfold param_or. cbn [writeTlsParams]. destruct (t_pinnedPeerCertSha256 t); lookup_params;
    cbn [String.eqb Ascii.eqb Bool.eqb]; repeat split; try done; by destruct t as [[] ? [] [] [] ?].
Qed.

Lemma reality_values r key (ps := writeRealityParams sha256_hex (Reality r) [] key) :
  param_or ps "sni" "" = reality_sni r /\ param_or ps "fp" "chrome" = r_fingerprint r /\ param_or ps "pbk" "" = r_publicKey r /\
  param_or ps "sid" "" = hd "" (r_shortIds r) /\ param_or ps "spx" "" = deriveSpiderX sha256_hex (r_spiderX r) key /\
  param_or ps "pqv" "" = r_mldsa65Verify r.
Proof.
  subst ps. unfold param_or. cbn [writeRealityParams set_params fold_left fst snd].
  destruct (r_shortIds r); lookup_params; cbn [String.eqb Ascii.eqb Bool.eqb]; repeat split; try done;
    match goal with |- context[String.eqb ?x ""] => by destruct x end.
Qed.

(** [split] undoes the [join] of an ALPN list; an empty list is not written back. *)
Lemma alpn_back l : forallb (fun a => list_item a && negb (String.eqb a "")) l = true ->
  match Some (join "," l) with Some "" | None => VArr [] | Some a => split_list a end = VArr (map VStr l).
Proof.
  intros H. destruct l as [|x l]; [done|].
  assert (Hx : join "," (x :: l) <> "") by (cbn in H; destruct x; [done|]; by destruct l).
  assert (Hs : split_list (join "," (x :: l)) = VArr (map VStr (x :: l))).
  { unfold split_list. rewrite split_join; [done|done|]. apply list_items. rewrite forallb_forall in H |- *.
    intros y Hy. specialize (H y Hy). by apply andb_true_iff in H as [H _]. }
  by destruct (join "," (x :: l)).
Qed.

Lemma modify_blank s transport k o tail f :
  String.eqb k "network" = false -> String.eqb k "security" = false -> String.eqb k transport.1 = false ->
  modify (blank s transport ((k, VObj o) :: tail)) k f = blank s transport ((k, VObj (f o)) :: tail).
Proof.
  intros H1 H2 H3. destruct transport as [tk tv]. unfold modify, blank. cbn [fst obj_get obj_set] in *.
  by rewrite H1, H2, H3, String.eqb_refl.
Qed.

Lemma import_security s key ps transport tail : carries s key ps -> shareable_security (s_security s) ->
  String.eqb "tlsSettings" transport.1 = false -> String.eqb "realitySettings" transport.1 = false ->
  applySecurityParams (blank s transport (security_settings (security_name (s_security s)) ++ tail)) ps =
  blank s transport (imported_security (s_security s) key ++ tail).
Proof.
  intros C S T R. unfold applySecurityParams, param_or, param.
  replace (obj_get (blank _ _ _) "security") with (VStr (security_name (s_security s))) by done.
  pose proof (carries_keys s key ps C) as K.
  destruct (s_security s) as [|t|r] eqn:Es; cbn [security_name security_params shareable_security imported_security] in *; [done| |];
    rewrite !K by done.
  - destruct (tls_values t) as (E1 & E2 & E3 & E4 & E5 & E6). unfold param_or in *. rewrite E1, E2, E3, E4, E5, E6.
    pose proof (alpn_back _ S) as A. cbn [security_settings String.eqb Ascii.eqb Bool.eqb app]. rewrite modify_blank by done.
    destruct (join "," (t_alpn t)); cbn in A |- *; by rewrite <-A.
  - destruct (reality_values r key) as (E1 & E2 & E3 & E4 & E5 & E6). unfold param_or in *. rewrite E1, E2, E3, E4, E5, E6.
    cbn [security_settings String.eqb Ascii.eqb Bool.eqb app]. by rewrite modify_blank by done.
Qed.

(** mKCP legacy masks are not written by the generators. *)
Lemma no_legacy s key ps o : carries s key ps -> obj_get o "network" = VStr (network_name (s_network s)) -> applyMkcpLegacyFromShare o ps = o.
Proof.
  intros C N. unfold applyMkcpLegacyFromShare, param_or.
  rewrite (carries_foreign s key ps C "seed"), (carries_network s key ps C "headerType"), N by done.
  destruct (s_network s) as [[[|[r|] resp]|]|mtu tti|p h hs|sn a mm|p h hs|x|]; try done;
    cbn [network_name writeNetworkParams]; cbn [String.eqb Ascii.eqb Bool.eqb negb andb];
    match goal with |- (if ?b then _ else _) = _ => by destruct b end.
Qed.

Lemma import_mask s key ps o : carries s key ps -> shareable_mask (s_finalmask s) ->
  obj_get o "network" = VStr (network_name (s_network s)) -> obj_has o "finalmask" = false ->
  applyFinalMaskParam o ps = o ++ imported_mask (s_finalmask s).
Proof.
  intros C S N F. unfold applyFinalMaskParam, imported_mask, param. rewrite (carries_mask s key ps C).
  destruct (String.eqb (serializeFinalMask (s_finalmask s)) "") eqn:E; [by rewrite (no_legacy s key), app_nil_r|].
  unfold serializeFinalMask in *. destruct S as [Em|(m & Em & J)]; rewrite Em in *; [done|]. cbn [truthy negb] in *.
  destruct (hasShareableFinalMaskValue (VObj m)); [|done]. destruct (stringify_nonempty _ J) as (c & t & Ec). rewrite Ec, <-Ec.
  rewrite JSON_parse_stringify by done. rewrite obj_set_new by done.
  apply (no_legacy s key); [done|]. by rewrite <-obj_set_new, obj_get_set_ne.
Qed.

(** The stream of an import is determined by what the parameters carry. *)
Lemma import_stream s key ps d : carries s key ps -> shareable s -> link_stream ps d = imported_stream s key.
Proof.
  intros C (S1 & S2 & S3). unfold link_stream, applyParams, buildStream, param_or.
  rewrite (carries_type s key ps C), (carries_security s key ps C). cbn [default from_option id].
  change (applyFinalMaskParam (applySecurityParams (applyTransportParams
    (blank s (transport_settings (VStr (network_name (s_network s)))) (security_settings (security_name (s_security s)))) ps) ps) ps = imported_stream s key).
  rewrite (import_transport s key) by done.
  pose proof (import_security s key ps (imported_transport (s_network s)) [] C S2) as E. rewrite !app_nil_r in E.
  rewrite E by (by destruct (s_network s) as [[[|[]]|]| | | | | |]).
  rewrite (import_mask s key); [done|done|done|done|].
  destruct (s_network s) as [[[|[]]|]| | | | | |], (s_security s); done.
Qed.
End WithDigest.

(** ** The XHTTP fields of a link *)

(** What a link carries of an XHTTP field other than path, host, mode, headers and padding: the texts of the session, the
    sequence and the upload that are set and not the core's own default, and, with obfuscation on, those of the padding. *)
Definition xhttp_shared (x : XHttpStreamSettings) (k : string) : jsval :=
  let f := x_fields x in
  let text := match obj_get f k with VStr v => if String.eqb v "" then VUndef else VStr v | _ => VUndef end in
  let obfuscated := is_bool (obj_get f "xPaddingObfsMode") true in
  if existsb (String.eqb k) ["uplinkHTTPMethod"; "sessionIDPlacement"; "sessionIDKey"; "sessionIDTable"; "sessionIDLength"; "seqPlacement"; "seqKey"; "uplinkDataPlacement"; "uplinkDataKey"] then text
  else if String.eqb k "scMaxEachPostBytes" then (if is_str text "1000000" then VUndef else text)
  else if existsb (String.eqb k) ["xPaddingKey"; "xPaddingHeader"; "xPaddingPlacement"; "xPaddingMethod"] then (if obfuscated then text else VUndef)
  else if String.eqb k "xPaddingObfsMode" then (if obfuscated then VBool true else VUndef)
  else VUndef.

(** Whether a text is copied, and what a loop over keys leaves. *)
Definition copied (f : obj) (k : string) : bool :=
  match obj_get f k with VStr v => negb (String.eqb v "") && negb (match core_default k with Some d => String.eqb v d | None => false end) | _ => false end.

Lemma fold_copy f keys : forall e j, obj_get (fold_left (copy_string f) keys e) j = if existsb (String.eqb j) keys && copied f j then obj_get f j else obj_get e j.
Proof.
  induction keys as [|k keys IH]; intros e j; [done|]. cbn [fold_left existsb]. rewrite IH.
  assert (S : obj_get (copy_string f e k) j = if String.eqb j k && copied f j then obj_get f j else obj_get e j).
  { unfold copy_string, copied. destruct (String.eqb_spec j k) as [->|N]; cbn [andb].
    - destruct (obj_get f k); try done. destruct (_ && _); [by rewrite obj_get_set_eq|done].
    - destruct (obj_get f k); try done. destruct (_ && _); [|done]. by apply obj_get_set_ne. }
  rewrite S. by destruct (String.eqb j k), (existsb _ keys), (copied f j).
Qed.

Lemma get_copy_as e a b j : obj_get (copy_as e a b) j = if String.eqb j b && is_string (obj_get e a) then obj_get e a else obj_get e j.
Proof.
  unfold copy_as. destruct (String.eqb_spec j b) as [->|N]; cbn [andb]; destruct (obj_get e a) eqn:E; try done; [by rewrite obj_get_set_eq|by apply obj_get_set_ne].
Qed.

(** A loop that stores the members of a kind. *)
Lemma fold_from (p : jsval -> bool) (step : jsval -> obj -> string -> obj) json keys :
  (forall o k, step json o k = if p (get json k) then obj_set o k (get json k) else o) ->
  forall o j, obj_get (fold_left (step json) keys o) j = if existsb (String.eqb j) keys && p (get json j) then get json j else obj_get o j.
Proof.
  intros H. induction keys as [|k keys IH]; intros o j; [done|]. cbn [fold_left existsb]. rewrite IH, H.
  assert (S : obj_get (if p (get json k) then obj_set o k (get json k) else o) j = if String.eqb j k && p (get json j) then get json j else obj_get o j).
  { destruct (String.eqb_spec j k) as [->|N]; cbn [andb]; destruct (p (get json k)); try done; [by rewrite obj_get_set_eq|by apply obj_get_set_ne]. }
  rewrite S. by destruct (String.eqb j k), (existsb _ keys), (p (get json j)).
Qed.

Definition is_number (v : jsval) : bool := match v with VNum _ => true | _ => false end.
Definition is_flag (v : jsval) : bool := match v with VBool _ => true | _ => false end.
Definition is_object (v : jsval) : bool := match v with VObj _ => true | _ => false end.

Lemma fold_strings json keys o j : obj_get (fold_left (string_from_json json) keys o) j = if existsb (String.eqb j) keys && is_string (get json j) then get json j else obj_get o j.
Proof. apply (fold_from is_string string_from_json). intros a k. unfold string_from_json. by destruct (get json k). Qed.
Lemma fold_numbers json keys o j : obj_get (fold_left (number_from_json json) keys o) j = if existsb (String.eqb j) keys && is_number (get json j) then get json j else obj_get o j.
Proof. apply (fold_from is_number number_from_json). intros a k. unfold number_from_json. by destruct (get json k). Qed.
Lemma fold_flags json keys o j : obj_get (fold_left (bool_from_json json) keys o) j = if existsb (String.eqb j) keys && is_flag (get json j) then get json j else obj_get o j.
Proof. apply (fold_from is_flag bool_from_json). intros a k. unfold bool_from_json. by destruct (get json k). Qed.
Lemma fold_objects json keys o j : obj_get (fold_left (object_from_json json) keys o) j = if existsb (String.eqb j) keys && is_object (get json j) then get json j else obj_get o j.
Proof. apply (fold_from is_object object_from_json). intros a k. unfold object_from_json. by destruct (get json k). Qed.

Lemma get_alias json o a b j : obj_get (alias_from_json json o (a, b)) j = if String.eqb j b && is_undef (obj_get o b) && is_string (get json a) then get json a else obj_get o j.
Proof.
  unfold alias_from_json. cbn [fst snd]. destruct (is_undef (obj_get o b)) eqn:U; cbn [andb]; [|by rewrite andb_false_r].
  destruct (String.eqb_spec j b) as [->|N]; cbn [andb]; destruct (get json a) eqn:E; try done; [by rewrite obj_get_set_eq|by apply obj_get_set_ne].
Qed.

(** The extras of a link, key by key. *)
Definition extra_of (x : XHttpStreamSettings) : obj := match buildXhttpExtra x with Some e => e | None => [] end.

(** The texts of the extras before the legacy names are added. *)
Definition extra_texts (x : XHttpStreamSettings) : obj :=
  let f := x_fields x in
  let e : obj := if negb (String.eqb (x_mode x) "") then [("mode", VStr (x_mode x))] else [] in
  let e := match obj_get f "xPaddingBytes" with VStr v => if negb (String.eqb v "") then obj_set e "xPaddingBytes" (VStr v) else e | _ => e end in
  let e := if is_bool (obj_get f "xPaddingObfsMode") true then fold_left (copy_string f) padding_fields (obj_set e "xPaddingObfsMode" (VBool true)) else e in
  fold_left (copy_string f) string_fields e.

Lemma extra_shape x k : k <> "headers" ->
  obj_get (extra_of x) k = obj_get (copy_as (copy_as (extra_texts x) "sessionIDPlacement" "sessionPlacement") "sessionIDKey" "sessionKey") k.
Proof.
  intros N. set (e := copy_as (copy_as (extra_texts x) "sessionIDPlacement" "sessionPlacement") "sessionIDKey" "sessionKey").
  assert (E : buildXhttpExtra x = let r := match shared_headers (obj_get (x_fields x) "headers") with [] => e | h => obj_set e "headers" (VObj h) end in match r with [] => None | _ => Some r end) by (unfold buildXhttpExtra, e, extra_texts; reflexivity).
  unfold extra_of. rewrite E. clear E. clearbody e. cbv zeta.
  destruct (shared_headers _) as [|h hs]; [by destruct e|].
  destruct (obj_set e "headers" (VObj (h :: hs))) eqn:E; [|rewrite <-E; by apply obj_get_set_ne].
  rewrite <-(obj_get_set_ne e "headers" k (VObj (h :: hs))), E by congruence. done.
Qed.

Lemma texts_get x k : k <> "mode" -> k <> "xPaddingBytes" -> obj_get (extra_texts x) k = xhttp_shared x k.
Proof.
  intros N1 N2. unfold extra_texts. cbv zeta. set (b := match obj_get (x_fields x) "xPaddingBytes" with VStr v => _ | _ => _ end).
  assert (B : obj_get b k = VUndef).
  { assert (M : obj_get (if negb (String.eqb (x_mode x) "") then [("mode", VStr (x_mode x))] else []) k = VUndef) by (destruct (negb _); [cbn; by rewrite (proj2 (String.eqb_neq _ _) N1)|done]).
    unfold b. destruct (obj_get (x_fields x) "xPaddingBytes"); try done. destruct (negb _); [|done]. by rewrite obj_get_set_ne. }
  clearbody b. rewrite fold_copy. unfold xhttp_shared. cbv zeta. set (obf := is_bool _ true).
  assert (P : obj_get (if obf then fold_left (copy_string (x_fields x)) padding_fields (obj_set b "xPaddingObfsMode" (VBool true)) else b) k =
    if obf then (if existsb (String.eqb k) padding_fields && copied (x_fields x) k then obj_get (x_fields x) k else if String.eqb k "xPaddingObfsMode" then VBool true else VUndef) else VUndef).
  { destruct obf; [|done]. rewrite fold_copy. destruct (_ && _); [done|]. destruct (String.eqb_spec k "xPaddingObfsMode") as [->|N']; [by rewrite obj_get_set_eq|]. by rewrite obj_get_set_ne. }
  rewrite P. clear P B b. clearbody obf. assert (T : forall d, core_default k = d -> (if copied (x_fields x) k then obj_get (x_fields x) k else VUndef) =
     match obj_get (x_fields x) k with VStr v => if String.eqb v "" then VUndef else if (match d with Some d => String.eqb v d | None => false end) then VUndef else VStr v | _ => VUndef end).
  { intros d <-. unfold copied. destruct (obj_get (x_fields x) k) as [| | | |v| |]; try done. destruct (String.eqb v ""); [done|]. cbn [negb andb]. by destruct (core_default k) as [d|]; [destruct (String.eqb v d)|]. }
  destruct (existsb (String.eqb k) string_fields) eqn:S.
  - apply existsb_exists in S as (j & Hj & <-%String.eqb_eq). cbn [andb]. transitivity (if copied (x_fields x) k then obj_get (x_fields x) k else VUndef).
    + destruct (copied _ _); [done|]. rewrite andb_false_r. destruct obf; [|done]. destruct (String.eqb_spec k "xPaddingObfsMode") as [->|]; [|done]. by vm_compute in Hj; intuition discriminate.
    + clear N1 N2. rewrite (T _ eq_refl). clear T. repeat (destruct Hj as [<-|Hj]; [cbn; try reflexivity|]); [|destruct Hj].
      destruct (obj_get (x_fields x) "scMaxEachPostBytes") as [| | | |v| |]; try done. destruct (String.eqb v ""); [done|]. cbn. by destruct (String.eqb v _).
  - cbn [andb]. unfold string_fields in S. cbn [existsb] in S |- *. repeat (apply orb_false_iff in S as [? S]). repeat match goal with H : String.eqb k _ = false |- _ => rewrite ?H; revert H end. intros. cbn [orb].
    destruct obf; [|by repeat case_match]. unfold padding_fields. cbn [existsb]. rewrite orb_false_r.
    destruct (String.eqb k "xPaddingKey" || _) eqn:Q; cbn [andb]; [|done].
    assert (D : core_default k = None) by (unfold core_default; by repeat match goal with H : String.eqb k "scMaxEachPostBytes" = false |- _ => rewrite H end).
    assert (O : String.eqb k "xPaddingObfsMode" = false) by (apply String.eqb_neq; intros ->; discriminate Q). rewrite O. exact (T None D).
Qed.

(** The fields of an imported XHTTP transport but for these five are those the link carries. *)
Definition XHTTP_OWN : list string := ["path"; "host"; "mode"; "headers"; "xPaddingBytes"].

Lemma extra_get x k : k <> "headers" -> k <> "mode" -> k <> "xPaddingBytes" -> k <> "sessionPlacement" -> k <> "sessionKey" -> obj_get (extra_of x) k = xhttp_shared x k.
Proof.
  intros N1 N2 N3 N4 N5. rewrite extra_shape by done. rewrite !get_copy_as, (proj2 (String.eqb_neq _ _) N4), (proj2 (String.eqb_neq _ _) N5). cbn [andb]. by apply texts_get.
Qed.

(** A legacy name is there only beside the present one. *)
Lemma extra_legacy x : (is_string (obj_get (extra_of x) "sessionPlacement") = true -> is_string (obj_get (extra_of x) "sessionIDPlacement") = true) /\
  (is_string (obj_get (extra_of x) "sessionKey") = true -> is_string (obj_get (extra_of x) "sessionIDKey") = true).
Proof.
  rewrite !extra_shape by done. rewrite !get_copy_as. cbn [String.eqb Ascii.eqb Bool.eqb andb]. split.
  - destruct (is_string (obj_get (extra_texts x) "sessionIDPlacement")) eqn:E; [done|]. by rewrite texts_get.
  - destruct (is_string (obj_get (extra_texts x) "sessionIDKey")) eqn:E; [done|]. by rewrite texts_get.
Qed.

(** Every text, flag and object of the extras is of a kind the importer reads. *)
Lemma shared_kind x k : xhttp_shared x k <> VUndef ->
  (existsb (String.eqb k) XHTTP_STRING_KEYS = true /\ is_string (xhttp_shared x k) = true) \/ (existsb (String.eqb k) XHTTP_BOOL_KEYS = true /\ is_flag (xhttp_shared x k) = true).
Proof.
  unfold xhttp_shared. cbv zeta. set (text := match obj_get (x_fields x) k with VStr v => _ | _ => _ end).
  assert (T : text <> VUndef -> is_string text = true) by (unfold text; destruct (obj_get (x_fields x) k); try done; by destruct (String.eqb _ "")).
  clearbody text. assert (I : forall l, existsb (String.eqb k) l = true -> forallb (fun j => existsb (String.eqb j) XHTTP_STRING_KEYS) l = true -> existsb (String.eqb k) XHTTP_STRING_KEYS = true).
  { intros l (j & Hj & <-%String.eqb_eq)%existsb_exists F. by apply (proj1 (forallb_forall _ _) F). }
  destruct (existsb (String.eqb k) ["uplinkHTTPMethod"; "sessionIDPlacement"; "sessionIDKey"; "sessionIDTable"; "sessionIDLength"; "seqPlacement"; "seqKey"; "uplinkDataPlacement"; "uplinkDataKey"]) eqn:E1.
  { intros U. left. split; [by apply (I _ E1)|by apply T]. }
  destruct (String.eqb_spec k "scMaxEachPostBytes") as [->|]; [destruct (is_str text _); [done|]; intros U; left; split; [done|by apply T]|].
  destruct (existsb (String.eqb k) ["xPaddingKey"; "xPaddingHeader"; "xPaddingPlacement"; "xPaddingMethod"]) eqn:E2.
  { destruct (is_bool _ _); [|done]. intros U. left. split; [by apply (I _ E2)|by apply T]. }
  destruct (String.eqb_spec k "xPaddingObfsMode") as [->|]; [|done]. destruct (is_bool _ _); [|done]. by right.
Qed.

Lemma alias_idle json o a b j : (is_string (get json a) = true -> obj_get o b <> VUndef) -> obj_get (alias_from_json json o (a, b)) j = obj_get o j.
Proof.
  intros H. rewrite get_alias. destruct (is_string (get json a)) eqn:E; [|by rewrite andb_false_r]. specialize (H eq_refl). destruct (obj_get o b); [done|by rewrite andb_false_r..].
Qed.

Lemma import_shared x base k : (forall j, ~ In j XHTTP_OWN -> obj_get base j = VUndef) -> ~ In k XHTTP_OWN ->
  obj_get (applyXhttpStringFromJson base (VObj (extra_of x))) k = xhttp_shared x k.
Proof.
  intros B N. destruct (extra_legacy x) as [L1 L2]. unfold applyXhttpStringFromJson, XHTTP_LEGACY_ALIASES. cbv zeta. cbn [fold_left].
  assert (P : forall j, existsb (String.eqb j) XHTTP_STRING_KEYS = true -> is_string (obj_get (extra_of x) j) = true -> obj_get (fold_left (string_from_json (VObj (extra_of x))) XHTTP_STRING_KEYS base) j <> VUndef).
  { intros j E S. rewrite fold_strings, E. cbn [get andb]. rewrite S. by destruct (obj_get (extra_of x) j). }
  rewrite fold_objects, fold_flags, fold_numbers, alias_idle, alias_idle, fold_strings, (B k N).
  - cbn [get]. destruct (existsb (String.eqb k) ["sessionPlacement"; "sessionKey"]) eqn:Lg.
    + apply existsb_exists in Lg as (j & Hj & <-%String.eqb_eq). by destruct Hj as [<-|[<-|[]]].
    + cbn [existsb] in Lg. apply orb_false_iff in Lg as [G1%String.eqb_neq Lg]. apply orb_false_iff in Lg as [G2%String.eqb_neq _]. unfold XHTTP_OWN in N. cbn [In] in N.
      rewrite extra_get by (try done; intros ->; tauto). destruct (decide (xhttp_shared x k = VUndef)) as [->|U]; [by rewrite !andb_false_r|].
      destruct (shared_kind x k U) as [[-> S]|[-> S]]; destruct (xhttp_shared x k); try discriminate S; cbn; by rewrite ?andb_false_r.
  - cbn [get]. intros S. apply P; [done|by apply L1].
  - cbn [get]. intros S. rewrite alias_idle; [apply P; [done|by apply L2]|]. cbn [get]. intros S'. apply P; [done|by apply L1].
Qed.

Lemma import_none base : applyXhttpStringFromJson base (VObj []) = base.
Proof. unfold applyXhttpStringFromJson, alias_from_json. cbn. by repeat case_match. Qed.

(** Entries of these fields only. *)
Lemma own_absent (base : obj) : forallb (fun kv => existsb (String.eqb kv.1) XHTTP_OWN) base = true -> forall j, ~ In j XHTTP_OWN -> obj_get base j = VUndef.
Proof.
  intros F j Nj. apply obj_has_get. apply not_true_iff_false. intros (kv & I & E%String.eqb_eq)%existsb_exists. apply Nj. subst j.
  apply (proj1 (forallb_forall _ _) F) in I. apply existsb_exists in I as (o & I & ->%String.eqb_eq). exact I.
Qed.

(** What an imported XHTTP transport says of every other field is what the link carries of it. *)
Lemma imported_xhttp_shared x k : ~ In k XHTTP_OWN -> obj_get (imported_xhttp x) k = xhttp_shared x k.
Proof.
  intros N. unfold imported_xhttp. cbv zeta. set (base := [("path", VStr (x_path x)); _; _; _; _]).
  assert (B : forall j, ~ In j XHTTP_OWN -> obj_get base j = VUndef) by (by apply own_absent).
  pose proof (import_shared x base k B N) as P. unfold extra_of in P. destruct (buildXhttpExtra x) as [e|]; [|rewrite import_none in P; exact P].
  destruct (shared_headers _); [exact P|]. rewrite obj_get_set_ne; [exact P|]. intros <-. apply N. cbn. tauto.
Qed.

(** The connection reuse and the interval between posts of an inbound never arrive. *)
Lemma xmux_lost x : obj_get (imported_xhttp x) "xmux" = VUndef /\ obj_get (imported_xhttp x) "scMinPostsIntervalMs" = VUndef.
Proof. rewrite !imported_xhttp_shared by (cbn; intuition discriminate). by split. Qed.
