(* ===== verification/LinkRoundTrip.v ===== *)
(** * Generated links are read back

    Composition of the generators (ShareParams.v, InboundLink.v, LinkFanout.v) with the importer
    (LinkParser.v): what an outbound imported from the panel's own link has in common with the
    inbound the link was generated for. *)
From S2P Require Import Prelude JsString JsValue JsObject Utf8 Base64 Json Uri Url LinkParser Headers ProtocolCapabilities ShareParams InboundLink ShareHost WireguardConfig LinkFanout LinkText StreamImport.
From Stdlib Require Import Ascii.
Local Open Scope Z_scope.

(** ** Parameters in order *)

Lemma unique_network n ps : unique ps -> unique (writeNetworkParams n ps).
Proof.
  intros U. destruct n as [[[|[r|] resp]|]|mtu tti|p h hs|sn a mm|p h hs|x|]; cbn [writeNetworkParams]; auto with params.
  - destruct (String.eqb (http_host r resp) ""); auto with params.
  - destruct mm; auto with params.
  - unfold applyXhttpExtraToParams. destruct (buildXhttpExtra x); destruct (obj_get (x_fields x) "xPaddingBytes"); try case_match;
      auto with params.
Qed.

Lemma unique_mask v ps : unique ps -> unique (applyFinalMaskToParams v ps).
Proof. intros U. unfold applyFinalMaskToParams. case_match; auto with params. Qed.

Lemma unique_tls s ps : unique ps -> unique (writeTlsParams s ps).
Proof. intros U. destruct s as [|t|r]; cbn [writeTlsParams]; auto with params. destruct (t_pinnedPeerCertSha256 t); auto 10 with params. Qed.

Lemma unique_vless_tls s ps : unique ps -> unique (vlessTlsParams s ps).
Proof. intros U. destruct s as [|t|r]; cbn [vlessTlsParams]; auto with params. destruct (t_pinnedPeerCertSha256 t); auto 10 with params. Qed.

Lemma unique_single k v : unique [(k, v)].
Proof. repeat constructor. auto. Qed.

Section RoundTrip.
Context (sha256_hex : string -> string).

Lemma unique_reality s ps key : unique ps -> unique (writeRealityParams sha256_hex s ps key).
Proof. intros U. destruct s as [|t|r]; cbn [writeRealityParams]; auto with params. destruct (r_shortIds r); auto 10 with params. Qed.

#[local] Hint Resolve unique_network unique_mask unique_tls unique_vless_tls unique_reality unique_single : params.

Lemma unique_vless_params s enc dec flow key sec : unique (vless_params sha256_hex s enc dec flow key sec None).
Proof. unfold vless_params. cbn [applyExternalProxyTLSParams]. repeat case_match; auto 10 with params. Qed.

Lemma unique_trojan_params s key sec : unique (trojan_params sha256_hex s key sec None).
Proof. unfold trojan_params. cbn [applyExternalProxyTLSParams]. repeat case_match; auto 10 with params. Qed.

(** The flow a VLESS link advertises. *)
Definition shared_flow (s : StreamSettings) (encryption decryption flow : string) : string :=
  if canEnableTlsFlow {| c_protocol := "vless"; c_encryption := Some encryption; c_decryption := Some decryption; c_flows := None;
                         c_ssMethod := None; c_network := Some (network_name (s_network s));
                         c_security := Some (security_name (s_security s)) |} then flow else "".

(** VLESS parameters, looked up. *)
Lemma vless_params_get s enc dec flow key k :
  params_get (vless_params sha256_hex s enc dec flow key (security_name (s_security s)) None) k =
  params_get (set_nonempty "flow" (shared_flow s enc dec flow)
    (written sha256_hex s key (params_set [("type", network_name (s_network s))] "encryption" enc))) k.
Proof.
  unfold vless_params, shared_flow. cbn [applyExternalProxyTLSParams]. unfold set_nonempty, written.
  destruct (canEnableTlsFlow _); [|rewrite andb_false_r]; cbn [String.eqb]; rewrite ?andb_true_r;
    try (destruct (String.eqb flow "") eqn:Ef; cbn [negb]); destruct (s_security s) as [|t|r];
    cbn [security_name security_params String.eqb Ascii.eqb Bool.eqb]; rewrite ?params_get_set, ?get_vless_tls; done.
Qed.

Lemma vless_base_get s enc k : key_in k stream_keys = true ->
  params_get (params_set [("type", network_name (s_network s))] "encryption" enc) k = None.
Proof. intros H. rewrite params_get_set, (key_ne stream_keys k) by done. unfold params_get. cbn [List.find fst]. by rewrite (key_ne stream_keys k). Qed.

Lemma vless_carries s enc dec flow key :
  carries sha256_hex s key (vless_params sha256_hex s enc dec flow key (security_name (s_security s)) None).
Proof.
  apply (carries_written sha256_hex s key (params_set [("type", network_name (s_network s))] "encryption" enc)).
  - intros k Hk. rewrite vless_params_get, params_get_nonempty. by rewrite (proj2 (String.eqb_neq _ _)).
  - done.
  - apply vless_base_get.
Qed.

Lemma get_written_base s key base k :
  key_in k (network_keys ++ security_keys ++ ["security"; "fm"]) = false ->
  params_get (written sha256_hex s key base) k = params_get base k.
Proof.
  unfold key_in. rewrite !existsb_app. intros (H1 & (H2 & H3)%orb_false_iff)%orb_false_iff. cbn in H3.
  apply orb_false_iff in H3 as [H3 H4]. apply orb_false_iff in H4 as [H4 _]. unfold written.
  by rewrite get_security_other, get_between, get_network_other.
Qed.

(** The flow and the encryption of a VLESS link. *)
Lemma vless_user_params s enc dec flow key (ps := vless_params sha256_hex s enc dec flow key (security_name (s_security s)) None) :
  param_or ps "flow" "" = shared_flow s enc dec flow /\ param_or ps "encryption" "none" = enc.
Proof.
  subst ps. unfold param_or. rewrite !vless_params_get, !params_get_nonempty, !get_written_base by done.
  rewrite params_get_set. cbn [String.eqb Ascii.eqb Bool.eqb]. split; [by destruct (shared_flow s enc dec flow)|done].
Qed.

Lemma valid_vless : valid_scheme "vless".
Proof. by repeat split. Qed.

Lemma valid_trojan : valid_scheme "trojan".
Proof. by repeat split. Qed.

Lemma dispatch_vless user host port ps remark v : plain_host host -> 0 <= port ->
  parseVlessLink (share_link "vless" user host port ps remark) = Some v -> parseOutboundLink (share_link "vless" user host port ps remark) = Some v.
Proof. intros Hh Hp E. unfold parseOutboundLink. rewrite trim_share by (apply valid_vless || done). by rewrite E. Qed.

Lemma dispatch_trojan user host port ps remark v : plain_host host -> 0 <= port <= 65535 ->
  parseTrojanLink (share_link "trojan" user host port ps remark) = Some v -> parseOutboundLink (share_link "trojan" user host port ps remark) = Some v.
Proof.
  intros Hh Hp E. unfold parseOutboundLink. rewrite trim_share by (apply valid_trojan || done || lia). rewrite E.
  unfold parseVlessLink, parseUrlLink. by rewrite new_URL_share_link by (apply valid_trojan || done || lia).
Qed.

(** C3. The link the panel generates for a client of a VLESS inbound (no external proxy, the
    inbound's own security), pasted into the outbound import, gives an outbound with the same
    id, address, port, remark, encryption and flow, and of the stream settings of the inbound what
    such a link carries: path, host and service name of the transport, of a TCP HTTP header the paths and the host, the
    MTU and TTI of mKCP, of XHTTP also the mode, the padding, the headers but Host and the texts of [xhttp_shared]; the
    TLS or REALITY parameters; and the final mask.  The rest comes back as the defaults of the importer: the headers of
    WebSocket and HTTPUpgrade, the other request and response headers of TCP, the other mKCP numbers, and of XHTTP every
    other field, [xmux] and [scMinPostsIntervalMs] among them. *)
Theorem genVlessLink_imported inbound enc dec clients s id host port remark key flow :
  i_settings inbound = Vless enc dec clients -> i_streamSettings inbound = Some s ->
  forall_chars uri_unreserved id = true -> id <> "" -> plain_host host -> 1 <= port <= 65535 ->
  utf8_valid (bytes_of remark) = true -> shareable s ->
  Forall valid_pair (vless_params sha256_hex s enc dec flow key (security_name (s_security s)) None) ->
  (exists link,
    genVlessLink sha256_hex inbound host port same remark id key flow None = Some link /\
    parseOutboundLink link =
    Some (VObj
      [("protocol", VStr "vless"); ("tag", VStr remark);
       ("settings", VObj [("address", VStr host); ("port", VInt port); ("id", VStr id);
                          ("flow", VStr (shared_flow s enc dec flow)); ("encryption", VStr enc)]);
       ("streamSettings", VObj (imported_stream sha256_hex s key))])) /\
  (forall x k, s_network s = XHttp x -> ~ In k XHTTP_OWN -> get (VObj (imported_xhttp x)) k = xhttp_shared x k).
Proof.
  intros Hs Hn Hid Hne Hh Hp Hr S V. split; [|intros x k _; apply imported_xhttp_shared]. unfold genVlessLink. rewrite Hs, Hn. cbn [link_security].
  change (applyVlessRoute id None) with id. eexists. split.
  - rewrite <-(proj1 (encode_unreserved id) Hid) at 1.
    apply (url_text_share "vless"); [apply valid_vless|done|done|lia|apply unique_vless_params].
  - apply dispatch_vless; [done|lia|]. rewrite parseVlessLink_share by done.
    destruct (vless_user_params s enc dec flow key) as [-> ->]. do 5 f_equal.
    by rewrite (import_stream sha256_hex s key) by (done || apply vless_carries).
Qed.

Lemma trojan_carries s key : carries sha256_hex s key (trojan_params sha256_hex s key (security_name (s_security s)) None).
Proof.
  apply (carries_written sha256_hex s key [("type", network_name (s_network s))]).
  - intros k _. unfold trojan_params, written. cbn [applyExternalProxyTLSParams]. by destruct (s_security s).
  - done.
  - intros k H. unfold params_get. cbn [List.find fst]. by rewrite (key_ne stream_keys k).
Qed.

(** The outbound a Trojan link stands for. *)
Definition imported_trojan (s : StreamSettings) (key pw host : string) (port : Z) (remark : string) : jsval :=
  VObj
    [("protocol", VStr "trojan"); ("tag", VStr remark);
     ("settings", VObj [("servers", VArr [VObj [("address", VStr host); ("port", VInt port); ("password", VStr pw)]])]);
     ("streamSettings", VObj (imported_stream sha256_hex s key))].

(** The link the panel generates for a client of a Trojan inbound, imported as an outbound,
    gives back the address, port and remark and the inbound's stream settings; the password
    arrives unchanged when all its characters are unreserved, as those of a generated password
    are. *)
Theorem genTrojanLink_imported inbound clients s pw host port remark key :
  i_settings inbound = Trojan clients -> i_streamSettings inbound = Some s ->
  forall_chars uri_unreserved pw = true -> pw <> "" -> plain_host host -> 1 <= port <= 65535 ->
  utf8_valid (bytes_of remark) = true -> shareable s ->
  Forall valid_pair (trojan_params sha256_hex s key (security_name (s_security s)) None) ->
  exists link,
    genTrojanLink sha256_hex inbound host port same remark pw key None = Some link /\
    parseOutboundLink link = Some (imported_trojan s key pw host port remark).
Proof.
  intros Hs Hn Hid Hne Hh Hp Hr S V. unfold genTrojanLink. rewrite Hs, Hn. cbn [link_security]. eexists. split.
  - apply (url_text_share "trojan"); [apply valid_trojan|done|done|lia|apply unique_trojan_params].
  - apply dispatch_trojan; [done|lia|]. rewrite parseTrojanLink_share by done. rewrite (proj1 (encode_unreserved pw) Hid).
    by rewrite (import_stream sha256_hex s key) by (done || apply trojan_carries).
Qed.
End RoundTrip.

(** ** Examples *)

Definition sample_tls : TlsStreamSettings :=
  {| t_serverName := "example.org"; t_alpn := ["h2"; "http/1.1"]; t_fingerprint := "chrome"; t_echConfigList := "";
     t_verifyPeerCertByName := ""; t_pinnedPeerCertSha256 := [] |}.

Definition sample_reality : RealityStreamSettings :=
  {| r_target := "www.example.org:443"; r_serverNames := []; r_shortIds := ["ab12"; "cd"]; r_publicKey := "pk"; r_fingerprint := "firefox";
     r_serverName := ""; r_spiderX := "/seed"; r_mldsa65Verify := "" |}.

Definition sample_mask : jsval := VObj [("quicParams", VObj [("maxIdleTimeout", VStr "300s")])].

Definition xhttp_stream : StreamSettings :=
  {| s_network := XHttp {| x_path := "/a b"; x_host := ""; x_mode := "packet-up";
       x_fields := [("xPaddingBytes", VStr "10-20"); ("sessionIDKey", VStr "sid");
                    ("headers", VObj [("Host", VStr "cdn.example.org"); ("X-Tag", VStr "1")])] |};
     s_security := Tls sample_tls; s_finalmask := sample_mask; s_externalProxy := [] |}.

Definition grpc_stream : StreamSettings :=
  {| s_network := Grpc "svc" "auth" true; s_security := Reality sample_reality; s_finalmask := VUndef; s_externalProxy := [] |}.

Definition sample_inbound (settings : InboundSettings) (s : StreamSettings) : Inbound :=
  {| i_port := 8443; i_listen := None; i_shareAddr := None; i_shareAddrStrategy := None; i_streamSettings := Some s; i_settings := settings |}.

(** Conditions on concrete streams and parameters. *)
Ltac concrete := repeat first [reflexivity | lia | discriminate | split | constructor].

Lemma xhttp_shareable : shareable xhttp_stream.
Proof.
  split; [|split; [reflexivity|]].
  - cbn. repeat split; unfold obj_wf; cbn; apply NoDup_ListNoDup; repeat constructor; cbn; intuition discriminate.
  - right. eexists. split; [reflexivity|]. repeat split; unfold obj_wf; cbn; apply NoDup_ListNoDup; repeat constructor; cbn; intuition discriminate.
Qed.

Lemma genVlessLink_imported_witness :
  exists link,
    genVlessLink (fun _ => "0123456789abcdef") (sample_inbound (Vless "none" "none" []) xhttp_stream) "vpn.example.org" 8443 same
      "my box" "5783a3e7-e373" "k" "" None = Some link /\
    parseOutboundLink link =
    Some (VObj
      [("protocol", VStr "vless"); ("tag", VStr "my box");
       ("settings", VObj [("address", VStr "vpn.example.org"); ("port", VInt 8443); ("id", VStr "5783a3e7-e373");
                          ("flow", VStr ""); ("encryption", VStr "none")]);
       ("streamSettings", VObj
         [("network", VStr "xhttp"); ("security", VStr "tls");
          ("xhttpSettings", VObj [("path", VStr "/a b"); ("host", VStr "cdn.example.org"); ("mode", VStr "packet-up");
             ("headers", VObj [("X-Tag", VStr "1")]); ("xPaddingBytes", VStr "10-20"); ("sessionIDKey", VStr "sid")]);
          ("tlsSettings", VObj [("serverName", VStr "example.org"); ("alpn", VArr [VStr "h2"; VStr "http/1.1"]);
             ("fingerprint", VStr "chrome"); ("echConfigList", VStr ""); ("verifyPeerCertByName", VStr "");
             ("pinnedPeerCertSha256", VStr "")]);
          ("finalmask", VObj [("quicParams", VObj [("maxIdleTimeout", VInt 120)])])])]).
Proof.
  refine (proj1 (genVlessLink_imported (fun _ => "0123456789abcdef") (sample_inbound (Vless "none" "none" []) xhttp_stream) "none" "none" []
    xhttp_stream "5783a3e7-e373" "vpn.example.org" 8443 "my box" "k" "" _ _ _ _ _ _ _ _ _)); [..|exact xhttp_shareable|]; concrete.
Defined.

Lemma genTrojanLink_imported_witness :
  exists link,
    genTrojanLink (fun _ => "0123456789abcdef") (sample_inbound (Trojan []) grpc_stream) "vpn.example.org" 443 same "r" "Secret_1" "k" None = Some link /\
    parseOutboundLink link =
    Some (VObj
      [("protocol", VStr "trojan"); ("tag", VStr "r");
       ("settings", VObj [("servers", VArr [VObj [("address", VStr "vpn.example.org"); ("port", VInt 443); ("password", VStr "Secret_1")]])]);
       ("streamSettings", VObj
         [("network", VStr "grpc"); ("security", VStr "reality");
          ("grpcSettings", VObj [("serviceName", VStr "svc"); ("authority", VStr "auth"); ("multiMode", VBool true)]);
          ("realitySettings", VObj [("publicKey", VStr "pk"); ("fingerprint", VStr "firefox"); ("serverName", VStr "www.example.org");
             ("shortId", VStr "ab12"); ("spiderX", VStr "/0123456789abcde"); ("mldsa65Verify", VStr "")])])]).
Proof.
  apply (genTrojanLink_imported (fun _ => "0123456789abcdef") (sample_inbound (Trojan []) grpc_stream) []
    grpc_stream "Secret_1" "vpn.example.org" 443 "r" "k"); [..|split; [exact I|split; [exact I|by left]]|]; concrete.
Defined.
