(* ===== verification/HysteriaRoundTrip.v ===== *)
(** * Hysteria links are read back

    Composition of [genHysteriaLink] (InboundLink.v) with the importer (LinkParser.v): which part
    of a Hysteria inbound an outbound imported from its link has. *)
From S2P Require Import Prelude JsString JsValue JsObject Utf8 Json Uri Url LinkParser ShareParams InboundLink LinkText StreamImport LinkRoundTrip.
From Stdlib Require Import Ascii.
Local Open Scope Z_scope.

(** ** What arrives *)

(** The password and the packet sizes a link advertises for the first salamander mask. *)
Definition shared_obfs (finalmask : jsval) : option (string * option (Z * Z)) :=
  match get finalmask "udp" with
  | VArr udp =>
      match List.find is_salamander udp with
      | Some mask =>
          match get (get mask "settings") "password" with
          | VStr password =>
              if String.eqb password "" then None else Some (password, parseGeckoPacketSize (get (get mask "settings") "packetSize"))
          | _ => None
          end
      | None => None
      end
  | _ => None
  end.

Definition salamander_mask (obfs : string * option (Z * Z)) : jsval :=
  VObj [("type", VStr "salamander");
        ("settings", VObj ([("password", VStr obfs.1)] ++
           match obfs.2 with Some (min, max) => [("packetSize", VStr (string_of_Z min +:+ "-" +:+ string_of_Z max))] | None => [] end))].

Definition hop_mask (ports : string) : jsval :=
  VObj [("type", VStr "udphop"); ("settings", VObj [("mode", VStr "intervalremote"); ("interval", VStr "5-10"); ("remotePorts", VStr ports)])].

(** The masks an import rebuilds: the obfuscation and the port hopping, nothing else. *)
Definition imported_hysteria_masks (finalmask : jsval) : list jsval :=
  match shared_obfs finalmask with Some o => [salamander_mask o] | None => [] end ++
  (if String.eqb (udpHopPorts finalmask) "" then [] else [hop_mask (udpHopPorts finalmask)]).

Definition imported_hysteria (s : StreamSettings) (t : TlsStreamSettings) (auth : string) : obj :=
  [("network", VStr "hysteria"); ("security", VStr "tls");
   ("hysteriaSettings", VObj [("version", VInt 2); ("auth", VStr auth); ("udpIdleTimeout", VInt 60)]);
   ("tlsSettings", VObj
      [("serverName", VStr (t_serverName t)); ("alpn", VArr (map VStr (match t_alpn t with [] => ["h3"] | alpn => alpn end)));
       ("fingerprint", VStr (t_fingerprint t)); ("echConfigList", VStr (t_echConfigList t));
       ("verifyPeerCertByName", VStr (t_verifyPeerCertByName t));
       ("pinnedPeerCertSha256", VStr (join "," (map hysteriaPinHex (t_pinnedPeerCertSha256 t))))])] ++
  match imported_hysteria_masks (s_finalmask s) with [] => [] | masks => [("finalmask", VObj [("udp", VArr masks)])] end.

Lemma obfs_params_shared finalmask ps :
  obfs_params finalmask ps =
  match shared_obfs finalmask with
  | None => ps
  | Some (password, None) => params_set (params_set ps "obfs" "salamander") "obfs-password" password
  | Some (password, Some (min, max)) =>
      params_set (set_params [("obfs", "gecko"); ("minPacketSize", string_of_Z min); ("maxPacketSize", string_of_Z max)] ps) "obfs-password" password
  end.
Proof. unfold obfs_params, shared_obfs. repeat (case_match; try done); simplify_eq; done. Qed.

Lemma shared_obfs_range finalmask password range : shared_obfs finalmask = Some (password, range) ->
  password <> "" /\ forall min max, range = Some (min, max) -> 1 <= min <= max /\ max <= 2048.
Proof.
  unfold shared_obfs. destruct (get finalmask "udp") as [| | | | |udp|]; try done. destruct (List.find is_salamander udp) as [mask|]; [|done].
  destruct (get (get mask "settings") "password") as [| | | |pw| |]; try done. destruct (String.eqb_spec pw ""); [done|].
  intros [= <- <-]. split; [done|]. intros min max. unfold parseGeckoPacketSize. destruct (split_on _ _) as [|a [|b [|]]]; try done.
  destruct (_ && _); [|done]. unfold GECKO_MIN_PACKET_SIZE, GECKO_MAX_PACKET_SIZE. case_match eqn:E; [done|]. intros [= <- <-].
  rewrite !orb_false_iff in E. lia.
Qed.

Lemma number_text z : 0 <= z -> all_digits (string_of_Z z) = true /\ digits_value 0 (string_of_Z z) = z /\ trim (string_of_Z z) = string_of_Z z.
Proof.
  intros H. unfold string_of_Z. replace (z <? 0) with false by lia. pose proof (digits_all z) as D.
  split; [done|]. split; [by apply digits_value_digits|]. apply trim_no_ws. unfold all_digits in D. destruct (digits z); [done|].
  eapply forall_chars_impl; [|exact D]. intros d. destruct d as [[] [] [] [] [] [] [] []]; by vm_compute.
Qed.

Lemma gecko_size_back ps min max : 1 <= min <= max -> max <= 2048 ->
  params_get ps "minPacketSize" = Some (string_of_Z min) -> params_get ps "maxPacketSize" = Some (string_of_Z max) ->
  gecko_size ps = string_of_Z min +:+ "-" +:+ string_of_Z max.
Proof.
  intros H1 H2 E1 E2. unfold gecko_size, param_or. rewrite E1, E2. cbn [default from_option id].
  destruct (number_text min) as (D1 & V1 & T1); [lia|]. destruct (number_text max) as (D2 & V2 & T2); [lia|]. rewrite T1, T2, D1, D2, V1, V2. cbn [andb].
  replace (_ && _ && _ && _ && _) with true by (unfold MAX_SAFE; lia). done.
Qed.

(** The TLS part of the parameters. *)
Definition hysteria_tls (t : TlsStreamSettings) : params :=
  let ps := set_nonempty "fp" (t_fingerprint t) [("security", "tls")] in
  let ps := match t_alpn t with [] => ps | alpn => params_set ps "alpn" (join "," alpn) end in
  let ps := set_nonempty "ech" (t_echConfigList t) ps in
  let ps := set_nonempty "sni" (t_serverName t) ps in
  let ps := set_nonempty "vcn" (t_verifyPeerCertByName t) ps in
  match t_pinnedPeerCertSha256 t with [] => ps | pins => params_set ps "pinSHA256" (join "," (map hysteriaPinHex pins)) end.

Lemma hysteria_params_parts s t :
  hysteria_params s t None = set_nonempty "mport" (udpHopPorts (s_finalmask s)) (obfs_params (s_finalmask s) (hysteria_tls t)).
Proof. done. Qed.

Definition obfs_keys : list string := ["obfs"; "minPacketSize"; "maxPacketSize"; "obfs-password"].

Lemma get_obfs_other finalmask ps k : key_in k obfs_keys = false -> params_get (obfs_params finalmask ps) k = params_get ps k.
Proof.
  intros H. cbv [key_in obfs_keys existsb] in H. repeat (apply orb_false_iff in H as [? H]). rewrite obfs_params_shared.
  destruct (shared_obfs finalmask) as [[pw [[min max]|]]|]; cbn [set_params fold_left fst snd]; by lookup_params.
Qed.

Lemma hysteria_tls_values t (ps := hysteria_tls t) :
  param_or ps "sni" "" = t_serverName t /\ param_or ps "fp" "" = t_fingerprint t /\ param_or ps "ech" "" = t_echConfigList t /\
  param_or ps "vcn" "" = t_verifyPeerCertByName t /\ param_or ps "pinSHA256" "" = join "," (map hysteriaPinHex (t_pinnedPeerCertSha256 t)) /\
  params_get ps "alpn" = (match t_alpn t with [] => None | alpn => Some (join "," alpn) end).
Proof.
  subst ps. unfold param_or, hysteria_tls. destruct (t_pinnedPeerCertSha256 t), (t_alpn t); lookup_params;
    cbn [String.eqb Ascii.eqb Bool.eqb]; repeat split; try done; by destruct t as [[] ? [] [] [] ?].
Qed.

Lemma unique_hysteria s t : unique (hysteria_params s t None).
Proof.
  rewrite hysteria_params_parts, obfs_params_shared. apply unique_nonempty.
  assert (U : unique (hysteria_tls t)).
  { unfold hysteria_tls. pose proof (unique_single "security" "tls"). destruct (t_pinnedPeerCertSha256 t), (t_alpn t); auto 10 with params. }
  destruct (shared_obfs _) as [[pw [[min max]|]]|]; auto with params.
Qed.

Lemma hysteria_alpn ps l : forallb (fun a => list_item a && negb (String.eqb a "")) l = true ->
  params_get ps "alpn" = (match l with [] => None | alpn => Some (join "," alpn) end) ->
  match param ps "alpn" with Some a => split_list a | None => VArr [VStr "h3"] end =
  VArr (map VStr (match l with [] => ["h3"] | alpn => alpn end)).
Proof.
  intros H E. pose proof (alpn_back l H) as A. unfold param. rewrite E. destruct l as [|x l]; [done|].
  cbn in H. destruct x as [|c x]; [done|]. cbn in A |- *. destruct l; exact A.
Qed.

Definition hysteria_tls_keys : list string := ["fp"; "alpn"; "ech"; "sni"; "vcn"; "pinSHA256"; "security"].

Lemma hysteria_tls_other t k : key_in k hysteria_tls_keys = false -> params_get (hysteria_tls t) k = None.
Proof.
  intros H. cbv [key_in hysteria_tls_keys existsb] in H. repeat (apply orb_false_iff in H as [? H]). unfold hysteria_tls.
  assert (E : params_get [("security", "tls")] k = None) by (unfold params_get; cbn [List.find fst]; by lookup_params).
  destruct (t_pinnedPeerCertSha256 t), (t_alpn t); by lookup_params.
Qed.

(** A parameter outside the TLS part and the obfuscation. *)
Lemma hysteria_other s t k : key_in k (hysteria_tls_keys ++ obfs_keys) = false ->
  params_get (hysteria_params s t None) k =
  if String.eqb "mport" k then if String.eqb (udpHopPorts (s_finalmask s)) "" then None else Some (udpHopPorts (s_finalmask s)) else None.
Proof.
  unfold key_in. rewrite existsb_app. intros [H1 H2]%orb_false_iff. rewrite hysteria_params_parts, params_get_nonempty.
  by rewrite get_obfs_other, hysteria_tls_other.
Qed.

(** A parameter of the obfuscation. *)
Lemma hysteria_obfs_get s t k : key_in k obfs_keys = true ->
  params_get (hysteria_params s t None) k = params_get (obfs_params (s_finalmask s) []) k.
Proof.
  intros H. rewrite hysteria_params_parts, params_get_nonempty, (key_ne obfs_keys) by done.
  rewrite !obfs_params_shared. pose proof (hysteria_tls_other t k (key_in_other obfs_keys hysteria_tls_keys k eq_refl H)) as E.
  destruct (shared_obfs _) as [[pw [[min max]|]]|]; cbn [set_params fold_left fst snd]; lookup_params; by rewrite ?E.
Qed.

Definition with_masks (base : obj) (masks : list jsval) : obj :=
  base ++ match masks with [] => [] | masks => [("finalmask", VObj [("udp", VArr masks)])] end.

Lemma with_masks_set base masks m : obj_has base "finalmask" = false ->
  let finalmask := ensureFinalMask (with_masks base masks) in
  obj_set (with_masks base masks) "finalmask" (set finalmask "udp" (VArr (as_list (get finalmask "udp") ++ [m]))) = with_masks base (masks ++ [m]) /\
  as_list (get finalmask "udp") = masks.
Proof.
  intros F. assert (G : forall v, obj_get (base ++ [("finalmask", v)]) "finalmask" = v) by (intros v; rewrite <-obj_set_new by done; apply obj_get_set_eq).
  unfold with_masks, ensureFinalMask. destruct masks as [|m0 masks].
  - rewrite app_nil_r, (obj_has_get base) by done. cbn. by rewrite obj_set_new.
  - rewrite G. cbn. split; [|done]. rewrite <-!obj_set_new by done. by rewrite obj_set_set.
Qed.

Lemma import_obfs s t base (ps := hysteria_params s t None) : obj_has base "finalmask" = false ->
  applyHysteria2Obfs base ps = with_masks base (match shared_obfs (s_finalmask s) with Some o => [salamander_mask o] | None => [] end).
Proof.
  intros F. destruct (with_masks_set base [] (match shared_obfs (s_finalmask s) with Some o => salamander_mask o | None => VUndef end) F) as [W A].
  unfold with_masks in W, A. rewrite app_nil_r in W, A.
  assert (G : forall k, key_in k obfs_keys = true -> params_get ps k = params_get (obfs_params (s_finalmask s) []) k) by apply hysteria_obfs_get.
  unfold applyHysteria2Obfs, param_or. cbn [firstParam]. unfold param. rewrite !G by done. pose proof (shared_obfs_range (s_finalmask s)) as R.
  rewrite obfs_params_shared in *. cbv zeta in W, A. rewrite A in *.
  destruct (shared_obfs (s_finalmask s)) as [[pw range]|]; [|unfold with_masks; by rewrite app_nil_r].
  destruct (R _ _ eq_refl) as [Hne Hr]. clear R. destruct pw as [|c pw]; [done|].
  destruct range as [[min max]|]; cbn [set_params fold_left fst snd]; lookup_params; cbn; cbn in W; [|exact W].
  destruct (Hr min max eq_refl) as [R1 R2]. rewrite (gecko_size_back ps min max) by (done || (rewrite G by done; cbn [set_params fold_left fst snd]; by lookup_params)).
  unfold salamander_mask, with_masks in *. cbn [fst snd] in *. destruct (string_of_Z min); exact W.
Qed.

Lemma import_hop s t base masks (ps := hysteria_params s t None) : obj_has base "finalmask" = false -> has_mask "udphop" masks = false ->
  applyHysteria2Hop (with_masks base masks) ps =
  with_masks base (masks ++ if String.eqb (udpHopPorts (s_finalmask s)) "" then [] else [hop_mask (udpHopPorts (s_finalmask s))]).
Proof.
  intros F H. unfold applyHysteria2Hop. cbn [firstParam]. unfold param. subst ps. rewrite hysteria_other by done.
  cbn [String.eqb Ascii.eqb Bool.eqb].
  destruct (with_masks_set base masks (hop_mask (udpHopPorts (s_finalmask s))) F) as [W A]. cbv zeta in W, A. rewrite A in W |- *.
  destruct (udpHopPorts (s_finalmask s)) as [|c ports]; cbn [String.eqb]; [by rewrite app_nil_r|]. rewrite H. exact W.
Qed.

(** The masks of the imported stream. *)
Lemma import_hysteria_masks s t base (ps := hysteria_params s t None) : obj_has base "finalmask" = false ->
  applyHysteria2Hop (applyHysteria2Obfs (applyFinalMaskParam base ps) ps) ps = with_masks base (imported_hysteria_masks (s_finalmask s)).
Proof.
  intros F.
  assert (M : applyFinalMaskParam base ps = base)
    by (unfold applyFinalMaskParam, applyMkcpLegacyFromShare, param, param_or; subst ps; by rewrite !hysteria_other).
  rewrite M. subst ps. rewrite import_obfs by done. apply import_hop; [done|]. by destruct (shared_obfs _).
Qed.

Lemma valid_hysteria2 : valid_scheme "hysteria2".
Proof. by repeat split. Qed.

(** C27. The link the panel generates for a client of a Hysteria inbound, imported as an
    outbound, gives back address, port, remark, authentication string (of unreserved
    characters) and TLS parameters with the pins in hexadecimal; of the final mask exactly the
    salamander obfuscation, with its packet sizes, and the port hopping arrive. *)
Theorem genHysteriaLink_imported inbound clients s t auth host port remark :
  i_settings inbound = Hysteria clients -> i_streamSettings inbound = Some s -> s_security s = Tls t ->
  forall_chars uri_unreserved auth = true -> auth <> "" -> plain_host host -> 1 <= port <= 65535 ->
  utf8_valid (bytes_of remark) = true -> shareable_security (Tls t) -> Forall valid_pair (hysteria_params s t None) ->
  exists link,
    genHysteriaLink inbound host port remark auth None = Some link /\
    parseOutboundLink link =
    Some (VObj
      [("protocol", VStr "hysteria"); ("tag", VStr remark);
       ("settings", VObj [("address", VStr host); ("port", VInt port); ("version", VInt 2)]);
       ("streamSettings", VObj (imported_hysteria s t auth))]).
Proof.
  intros Hs Hn Ht Ha Hne Hh Hp Hr S V. unfold genHysteriaLink. rewrite Hs, Hn, Ht. eexists. split.
  { rewrite <-(proj1 (encode_unreserved auth) Ha) at 1. apply (url_text_share "hysteria2"); [apply valid_hysteria2|done|done|lia|apply unique_hysteria]. }
  unfold parseOutboundLink. rewrite trim_share by (apply valid_hysteria2 || done || lia).
  unfold parseVlessLink, parseTrojanLink, parseHysteria2Link, parseUrlLink. rewrite new_URL_share_link by (apply valid_hysteria2 || done || lia).
  cbn [u_protocol String.eqb Ascii.eqb Bool.eqb]. unfold searchParams. cbn [u_query]. rewrite parse_query_string by done.
  rewrite (port_of_Z _ port), (remark_back _ remark) by (done || lia). cbn [u_hostname u_username or_else].
  rewrite import_hysteria_masks by done. rewrite (proj1 (encode_unreserved auth) Ha).
  assert (G : forall k, key_in k hysteria_tls_keys = true -> params_get (hysteria_params s t None) k = params_get (hysteria_tls t) k).
  { intros k Hk. rewrite hysteria_params_parts, params_get_nonempty, (key_ne hysteria_tls_keys) by done.
    by rewrite get_obfs_other by (by apply (key_in_other hysteria_tls_keys)). }
  destruct (hysteria_tls_values t) as (E1 & E2 & E3 & E4 & E5 & E6).
  rewrite (hysteria_alpn _ (t_alpn t)) by (exact S || (rewrite G by done; rewrite E6; by destruct (t_alpn t))). unfold param_or in *. rewrite !G by done. rewrite E1, E2, E3, E4, E5.
  unfold imported_hysteria, with_masks. by destruct (t_alpn t), (imported_hysteria_masks _).
Qed.

Definition hop_stream : StreamSettings :=
  {| s_network := HysteriaNet; s_security := Tls sample_tls;
     s_finalmask := VObj [("udp", VArr [
       VObj [("type", VStr "salamander"); ("settings", VObj [("password", VStr "pw"); ("packetSize", VStr "100-200")])];
       VObj [("type", VStr "udphop"); ("settings", VObj [("remotePorts", VStr " 20000-30000 ")])];
       VObj [("type", VStr "header-dns")]])];
     s_externalProxy := [] |}.

Lemma genHysteriaLink_imported_witness :
  exists link,
    genHysteriaLink (sample_inbound (Hysteria []) hop_stream) "vpn.example.org" 443 "r" "auth1" None = Some link /\
    parseOutboundLink link =
    Some (VObj
      [("protocol", VStr "hysteria"); ("tag", VStr "r");
       ("settings", VObj [("address", VStr "vpn.example.org"); ("port", VInt 443); ("version", VInt 2)]);
       ("streamSettings", VObj (imported_hysteria hop_stream sample_tls "auth1"))]).
Proof.
  apply (genHysteriaLink_imported (sample_inbound (Hysteria []) hop_stream) [] hop_stream sample_tls "auth1" "vpn.example.org" 443 "r"); concrete.
Defined.

Example hop_masks :
  imported_hysteria_masks (s_finalmask hop_stream) =
  [VObj [("type", VStr "salamander"); ("settings", VObj [("password", VStr "pw"); ("packetSize", VStr "100-200")])];
   VObj [("type", VStr "udphop"); ("settings", VObj [("mode", VStr "intervalremote"); ("interval", VStr "5-10"); ("remotePorts", VStr "20000-30000")])]].
Proof. vm_compute. reflexivity. Qed.

(** The authentication string is written as it is: one with a slash changes the host of the
    link, and the panel's own import then reads another server. *)
Example hysteria_auth_slash :
  genHysteriaLink (sample_inbound (Hysteria []) hop_stream) "vpn.example.org" 443 "r" "a/b" None =
    Some "hysteria2://a/b@vpn.example.org:443?security=tls&fp=chrome&alpn=h2%2Chttp%2F1.1&sni=example.org&obfs=gecko&minPacketSize=100&maxPacketSize=200&obfs-password=pw&mport=20000-30000#r" /\
  option_map (fun v => get (get v "settings") "address")
    (parseOutboundLink "hysteria2://a/b@vpn.example.org:443?security=tls&fp=chrome#r") = Some (VStr "a").
Proof. vm_compute. split; reflexivity. Qed.
