(* ===== verification/VmessRoundTrip.v ===== *)
(** * VMess links are read back

    Composition of [genVmessLink] (LinkFanout.v: indented JSON in base64) with the importer
    (LinkParser.v).  Of the stream the transport (without the mKCP numbers and the XHTTP headers)
    and the TLS parameters arrive; the final mask does not. *)
From S2P Require Import Prelude JsString JsValue JsObject Utf8 Base64 Json JsonPretty Uri Url LinkParser Headers ShareParams InboundLink LinkFanout LinkText StreamImport LinkRoundTrip.
From Stdlib Require Import Ascii.
Local Open Scope Z_scope.

(** ** Looking things up in the object *)

Lemma get_nonempty_key o k v k' :
  obj_get (set_nonempty_key k v o) k' = if String.eqb k k' then (if String.eqb v "" then obj_get o k' else VStr v) else obj_get o k'.
Proof. unfold set_nonempty_key. destruct (String.eqb v ""); [by destruct (String.eqb k k')|]. apply obj_get_set_cases. Qed.

Ltac lookup_obj :=
  repeat (rewrite obj_get_set_cases || rewrite get_nonempty_key || match goal with E : String.eqb _ _ = _ |- _ => rewrite E end).

(** ** Objects JSON can carry *)

Lemma json_ok_assign l o : json_ok (VObj o) -> Forall (fun kv => json_ok kv.2) l -> json_ok (VObj (assign l o)).
Proof. intros H F. revert o H. induction F as [|[n x] l Hx F IH]; intros o H; [done|]. apply IH. by apply json_ok_set. Qed.

Lemma json_ok_nonempty k v o : json_ok (VObj o) -> json_ok (VObj (set_nonempty_key k v o)).
Proof. intros H. unfold set_nonempty_key. case_match; [done|]. by apply json_ok_set. Qed.

Create HintDb json_ok.
#[local] Hint Resolve json_ok_set json_ok_assign json_ok_nonempty : json_ok.
#[local] Hint Extern 1 (json_ok (VStr _)) => exact I : json_ok.
#[local] Hint Extern 1 (json_ok (VInt _)) => exact I : json_ok.
#[local] Hint Extern 1 (Forall _ _) => repeat constructor : json_ok.

(** ** The XHTTP extras *)

Definition extra_keys : list string :=
  ["mode"; "xPaddingBytes"; "xPaddingObfsMode"] ++ padding_fields ++ string_fields ++ ["sessionPlacement"; "sessionKey"; "headers"].

Definition keys_in (o : obj) : Prop := obj_wf o /\ forall k, obj_has o k = true -> In k extra_keys.

Lemma keys_in_set o k v : keys_in o -> In k extra_keys -> keys_in (obj_set o k v).
Proof.
  intros [W K] Hk. split; [by apply obj_wf_set|]. intros k'. rewrite obj_has_set. intros [E|H]%orb_true_iff; [|auto].
  apply String.eqb_eq in E. by subst.
Qed.

Lemma keys_in_copy x keys o : keys_in o -> (forall k, In k keys -> In k extra_keys) -> keys_in (fold_left (copy_string x) keys o).
Proof.
  revert o. induction keys as [|k keys IH]; intros o K H; [done|]. cbn [fold_left]. apply IH; [|intros k' Hk; apply H; by right].
  unfold copy_string. destruct (obj_get x k); try done. case_match; [|done]. apply keys_in_set; [done|apply H; by left].
Qed.

Lemma keys_in_copy_as o from to : keys_in o -> In to extra_keys -> keys_in (copy_as o from to).
Proof. intros K H. unfold copy_as. destruct (obj_get o from); auto using keys_in_set. Qed.

Lemma extra_keys_in x extra : buildXhttpExtra x = Some extra -> keys_in extra.
Proof.
  unfold buildXhttpExtra. cbv zeta. set (hs := shared_headers _). set (e := copy_as _ "sessionIDKey" "sessionKey"). intros H.
  assert (K0 : keys_in []) by (split; [constructor|done]).
  assert (K : keys_in e).
  { subst e. apply keys_in_copy_as; [|cbn; tauto]. apply keys_in_copy_as; [|cbn; tauto].
    apply keys_in_copy; [|intros k Hk; do 2 (apply in_or_app; right); apply in_or_app; by left].
    assert (K1 : keys_in (match obj_get (x_fields x) "xPaddingBytes" with
                          | VStr v => if negb (String.eqb v "") then obj_set (if negb (String.eqb (x_mode x) "") then [("mode", VStr (x_mode x))] else []) "xPaddingBytes" (VStr v)
                                      else (if negb (String.eqb (x_mode x) "") then [("mode", VStr (x_mode x))] else [])
                          | _ => if negb (String.eqb (x_mode x) "") then [("mode", VStr (x_mode x))] else [] end)).
    { assert (K2 : keys_in (if negb (String.eqb (x_mode x) "") then [("mode", VStr (x_mode x))] else [])).
      { destruct (negb _); [|done]. apply (keys_in_set [] "mode"); [done|cbn; tauto]. }
      destruct (obj_get (x_fields x) "xPaddingBytes"); try done. destruct (negb (String.eqb s "")); [|done]. apply keys_in_set; [done|cbn; tauto]. }
    destruct (is_bool _ true); [|done]. apply keys_in_copy; [apply keys_in_set; [done|cbn; tauto]|].
    intros k Hk. apply in_or_app. right. apply in_or_app. by left. }
  destruct hs as [|p hs]; [destruct e; [done|by injection H as <-]|].
  destruct (obj_set e "headers" (VObj (p :: hs))) eqn:Es; [done|]. injection H as <-. rewrite <-Es. apply keys_in_set; [done|cbn; tauto].
Qed.

Definition json_keys : list string :=
  XHTTP_STRING_KEYS ++ ["sessionPlacement"; "sessionKey"] ++ XHTTP_NUMBER_KEYS ++ XHTTP_BOOL_KEYS ++ XHTTP_OBJECT_KEYS.

Lemma fold_left_ext {A B} (f g : A -> B -> A) l x : (forall a b, In b l -> f a b = g a b) -> fold_left f l x = fold_left g l x.
Proof.
  revert x. induction l as [|b l IH]; intros x H; [done|]. cbn [fold_left]. rewrite H by (by left). apply IH. intros a b' Hb. apply H. by right.
Qed.

(** The importer reads only the names it knows. *)
Lemma xhttp_json_ext x a b : (forall k, In k json_keys -> get a k = get b k) -> applyXhttpStringFromJson x a = applyXhttpStringFromJson x b.
Proof.
  intros H. unfold applyXhttpStringFromJson.
  assert (K : forall l1 l l2, json_keys = l1 ++ l ++ l2 -> forall k, In k l -> get a k = get b k).
  { intros l1 l l2 E k Hk. apply H. rewrite E. apply in_or_app. right. apply in_or_app. by left. }
  pose proof (K [] XHTTP_STRING_KEYS _ eq_refl) as K1.
  pose proof (K (XHTTP_STRING_KEYS ++ ["sessionPlacement"; "sessionKey"]) XHTTP_NUMBER_KEYS _ eq_refl) as K2.
  pose proof (K (XHTTP_STRING_KEYS ++ ["sessionPlacement"; "sessionKey"] ++ XHTTP_NUMBER_KEYS) XHTTP_BOOL_KEYS _ eq_refl) as K3.
  pose proof (K (XHTTP_STRING_KEYS ++ ["sessionPlacement"; "sessionKey"] ++ XHTTP_NUMBER_KEYS ++ XHTTP_BOOL_KEYS) XHTTP_OBJECT_KEYS [] eq_refl) as K4.
  pose proof (K XHTTP_STRING_KEYS ["sessionPlacement"; "sessionKey"] _ eq_refl) as K5.
  rewrite (fold_left_ext (string_from_json a) (string_from_json b)) by (intros y k Hk; unfold string_from_json; by rewrite K1).
  rewrite (fold_left_ext (alias_from_json a) (alias_from_json b))
    by (intros y k [<-|[<-|[]]]; unfold alias_from_json; cbn [fst snd]; rewrite K5 by (cbn; tauto); done).
  rewrite (fold_left_ext (number_from_json a) (number_from_json b)) by (intros y k Hk; unfold number_from_json; by rewrite K2).
  rewrite (fold_left_ext (bool_from_json a) (bool_from_json b)) by (intros y k Hk; unfold bool_from_json; by rewrite K3).
  by rewrite (fold_left_ext (object_from_json a) (object_from_json b)) by (intros y k Hk; unfold object_from_json; by rewrite K4).
Qed.

(** ** Which names each step writes *)

Definition vmess_tls_keys : list string := ["sni"; "fp"; "alpn"; "ech"; "vcn"; "pcs"].

Definition vmess_network_keys : list string := ["type"; "path"; "host"; "mtu"; "tti"; "authority"; "x_padding_bytes"] ++ extra_keys.

Lemma vmess_tls_other name s o k : key_in k vmess_tls_keys = false -> obj_get (vmess_tls name s o) k = obj_get o k.
Proof.
  intros H. cbv [key_in vmess_tls_keys existsb] in H. repeat (apply orb_false_iff in H as [? H]). unfold vmess_tls.
  destruct s as [|t|r]; try done. destruct (String.eqb name "tls"); [|done]. destruct (t_pinnedPeerCertSha256 t), (t_alpn t); by lookup_obj.
Qed.

Lemma mask_obj_other v o k : String.eqb "fm" k = false -> obj_get (applyFinalMaskToObj v o) k = obj_get o k.
Proof. intros H. unfold applyFinalMaskToObj. case_match; by lookup_obj. Qed.

Lemma not_extra k : key_in k extra_keys = false -> ~ In k extra_keys.
Proof.
  intros H Hk. enough (E : key_in k extra_keys = true) by congruence. apply existsb_exists. exists k. split; [done|apply String.eqb_refl].
Qed.

Lemma extra_obj_get x o k (e := match buildXhttpExtra x with Some e => e | None => [] end) : String.eqb "x_padding_bytes" k = false ->
  obj_get (applyXhttpExtraToObj x o) k = if obj_has e k then obj_get e k else obj_get o k.
Proof.
  intros H. unfold applyXhttpExtraToObj. set (o1 := match obj_get (x_fields x) "xPaddingBytes" with VStr v => _ | _ => o end).
  assert (E : obj_get o1 k = obj_get o k).
  { subst o1. destruct (obj_get (x_fields x) "xPaddingBytes"); try done. case_match; by lookup_obj. }
  subst e. destruct (buildXhttpExtra x) as [e|] eqn:B; [|done]. rewrite get_assign by (apply extra_keys_in in B as [W _]; done). by rewrite E.
Qed.

Lemma vmess_network_other n o k : key_in k vmess_network_keys = false -> obj_get (vmess_network n o) k = obj_get o k.
Proof.
  unfold key_in, vmess_network_keys. rewrite existsb_app. intros [H He]%orb_false_iff. cbn [existsb] in H. repeat (apply orb_false_iff in H as [? H]).
  destruct n as [[[|[r|] resp]|]|mtu tti|p h hs|sn a mm|p h hs|x|]; cbn [vmess_network assign fold_left fst snd]; try (by lookup_obj).
  - case_match; by lookup_obj.
  - case_match; by lookup_obj.
  - rewrite extra_obj_get by done. lookup_obj. destruct (buildXhttpExtra x) as [e|] eqn:B; [|done].
    destruct (obj_has e k) eqn:Eh; [|done]. apply extra_keys_in in B as [_ K]. apply K in Eh. by apply not_extra in He.
Qed.

(** ** What an import says *)

Definition vmess_xhttp (x : XHttpStreamSettings) : obj :=
  let host := if String.eqb (x_host x) "" then xhttpHostFallback x else x_host x in
  let base : obj := [("path", VStr (x_path x)); ("host", VStr host); ("mode", VStr (if String.eqb (x_mode x) "" then "auto" else x_mode x));
                     ("headers", VObj []); ("xPaddingBytes", VStr "100-1000")] in
  match buildXhttpExtra x with None => base | Some extra => applyXhttpStringFromJson base (VObj extra) end.

(** The transport of a VMess import: mKCP numbers and XHTTP headers are not read. *)
Definition vmess_imported_transport (n : NetworkSettings) : string * jsval :=
  match n with
  | Kcp _ _ => ("kcpSettings", VObj kcp_defaults)
  | Tcp (Some (HeaderHttp None _)) => ("tcpSettings", VObj [("header", http_header "/" None)])
  | XHttp x => ("xhttpSettings", VObj (vmess_xhttp x))
  | _ => imported_transport n
  end.

Definition vmess_imported_security (s : SecuritySettings) : obj := match s with Tls _ => imported_security (fun x => x) s "" | _ => [] end.

Definition vmess_security_name (s : SecuritySettings) : string := match s with Tls _ => "tls" | _ => "none" end.

Definition vmess_user_security (security : string) : string :=
  if String.eqb security "" || String.eqb security "none" || String.eqb security "zero" then "auto" else security.

Definition imported_vmess (s : StreamSettings) (address : string) (port : Z) (remark id security : string) : jsval :=
  VObj
    [("protocol", VStr "vmess"); ("tag", VStr remark);
     ("settings", VObj [("vnext", VArr [VObj
        [("address", VStr address); ("port", VInt port);
         ("users", VArr [VObj [("id", VStr id); ("security", VStr (vmess_user_security security))]])]])]);
     ("streamSettings", VObj
        ([("network", VStr (network_name (s_network s))); ("security", VStr (vmess_security_name (s_security s)));
          vmess_imported_transport (s_network s)] ++ vmess_imported_security (s_security s)))].

(** The mode of the extras is the mode of the transport. *)
Lemma extra_mode x (e := match buildXhttpExtra x with Some e => e | None => [] end) :
  obj_get e "mode" = if String.eqb (x_mode x) "" then VUndef else VStr (x_mode x).
Proof.
  subst e. unfold buildXhttpExtra. cbv zeta. set (hs := shared_headers _). set (e := copy_as _ "sessionIDKey" "sessionKey").
  assert (E : obj_get e "mode" = if String.eqb (x_mode x) "" then VUndef else VStr (x_mode x)).
  { subst e. rewrite !copy_as_other by done. rewrite copy_strings_other by (cbn; intuition discriminate).
    destruct (is_bool _ true); [rewrite copy_strings_other, obj_get_set_ne by (done || (cbn; intuition discriminate))|];
      destruct (obj_get (x_fields x) "xPaddingBytes"); repeat case_match; subst; try done; by destruct (x_mode x). }
  assert (E2 : obj_get (match hs with [] => e | h => obj_set e "headers" (VObj h) end) "mode" = obj_get e "mode")
    by (destruct hs; [done|by rewrite obj_get_set_ne]).
  rewrite <-E, <-E2. clear E E2. clearbody e hs. destruct hs as [|h hs]; [by destruct e|]. by destruct (obj_set e "headers" _).
Qed.

Section Object.
Context (s : StreamSettings) (address : string) (port : Z) (remark id security : string).

Definition vmess_base : obj :=
  [("v", VStr "2"); ("ps", VStr remark); ("add", VStr address); ("port", VInt port); ("id", VStr id); ("scy", VStr security);
   ("net", VStr (network_name (s_network s))); ("tls", VStr (security_name (s_security s)))].

Definition vmess_written : obj := vmess_object s address port same remark id (Some security) None.

Lemma vmess_written_eq : vmess_written =
  vmess_tls (security_name (s_security s)) (s_security s) (applyFinalMaskToObj (s_finalmask s) (vmess_network (s_network s) vmess_base)).
Proof. done. Qed.

Lemma vmess_get_network k : key_in k vmess_tls_keys = false -> String.eqb "fm" k = false ->
  obj_get vmess_written k = obj_get (vmess_network (s_network s) vmess_base) k.
Proof. intros H1 H2. by rewrite vmess_written_eq, vmess_tls_other, mask_obj_other. Qed.

Lemma vmess_get_base k : key_in k vmess_tls_keys = false -> String.eqb "fm" k = false -> key_in k vmess_network_keys = false ->
  obj_get vmess_written k = obj_get vmess_base k.
Proof. intros H1 H2 H3. by rewrite vmess_get_network, vmess_network_other. Qed.

Lemma key_in_app_false k a b : key_in k (a ++ b) = false -> key_in k a = false /\ key_in k b = false.
Proof. unfold key_in. rewrite existsb_app. apply orb_false_iff. Qed.

(** A TLS name is written by the last step only. *)
Lemma vmess_get_tls k t : key_in k vmess_tls_keys = true -> s_security s = Tls t ->
  obj_get vmess_written k = obj_get (vmess_tls "tls" (Tls t) []) k.
Proof.
  intros H Ht. rewrite vmess_written_eq, Ht. cbn [security_name].
  set (o := applyFinalMaskToObj _ _).
  assert (E : obj_get o k = VUndef).
  { subst o. rewrite mask_obj_other by (by apply (key_ne vmess_tls_keys)).
    rewrite vmess_network_other by (by apply (key_in_other vmess_tls_keys)).
    unfold vmess_base. cbn [obj_get]. repeat (rewrite String.eqb_sym, (key_ne vmess_tls_keys k) by done). done. }
  clearbody o. cbn [vmess_tls String.eqb Ascii.eqb Bool.eqb].
  destruct (t_pinnedPeerCertSha256 t), (t_alpn t); lookup_obj; rewrite !E; done.
Qed.

Lemma vmess_xhttp_read x : s_network s = XHttp x ->
  let j := obj_get vmess_written in
  (let y := assign [("host", or_nullish (j "host") (VStr "")); ("path", or_nullish (j "path") (VStr "/"))]
              [("path", VStr "/"); ("host", VStr ""); ("mode", VStr "auto"); ("headers", VObj []); ("xPaddingBytes", VStr "100-1000")] in
   applyXhttpStringFromJson (if truthy (j "mode") then obj_set y "mode" (j "mode") else y) (VObj vmess_written)) = vmess_xhttp x.
Proof.
  intros N j. pose proof (fun k => vmess_get_network k) as G. rewrite N in G. cbn [vmess_network] in G.
  set (e := match buildXhttpExtra x with Some e => e | None => [] end).
  assert (GX : forall k, key_in k vmess_tls_keys = false -> String.eqb "fm" k = false -> String.eqb "x_padding_bytes" k = false ->
    j k = if obj_has e k then obj_get e k else
      obj_get (assign [("path", VStr (x_path x)); ("host", VStr (if String.eqb (x_host x) "" then xhttpHostFallback x else x_host x)); ("type", VStr (x_mode x))] vmess_base) k).
  { intros k H1 H2 H3. subst j. rewrite G by done. by rewrite extra_obj_get. }
  assert (Hno : forall k, ~ In k extra_keys -> obj_has e k = false).
  { intros k Hk. destruct (obj_has e k) eqn:Eh; [|done]. exfalso. apply Hk. subst e. destruct (buildXhttpExtra x) eqn:B; [|done].
    apply extra_keys_in in B as [_ K]. by apply K. }
  assert (GE : forall k, In k ("mode" :: json_keys) -> j k = obj_get e k).
  { intros k Hk. assert (F : forallb (fun k => negb (key_in k (vmess_tls_keys ++ ["fm"; "x_padding_bytes"] ++ ["path"; "host"; "type"] ++ map fst vmess_base)))
      ("mode" :: json_keys) = true) by reflexivity.
    rewrite forallb_forall in F. specialize (F k Hk). apply negb_true_iff in F. unfold key_in in F. rewrite !existsb_app in F.
    apply orb_false_iff in F as [F1 F2]. apply orb_false_iff in F2 as [F2 F3]. cbn [existsb] in F2. apply orb_false_iff in F2 as [F2 F4].
    apply orb_false_iff in F4 as [F4 _]. rewrite GX by done. destruct (obj_has e k) eqn:Eh; [done|]. rewrite (obj_has_get e k Eh).
    apply orb_false_iff in F3 as [F3 F5]. cbn [existsb map fst vmess_base] in F3, F5. repeat (apply orb_false_iff in F3 as [? F3]). repeat (apply orb_false_iff in F5 as [? F5]).
    cbn [assign fold_left fst snd]. lookup_obj. unfold vmess_base. cbn [obj_get]. repeat (rewrite String.eqb_sym; match goal with E : String.eqb _ _ = false |- _ => rewrite E end). done. }
  rewrite (GX "host"), (GX "path") by done. rewrite !Hno by (cbn; intuition discriminate).
  rewrite (GE "mode") by (by left). cbv zeta.
  rewrite (xhttp_json_ext _ (VObj vmess_written) (VObj e)) by (intros k Hk; apply GE; by right).
  pose proof (extra_mode x) as M. fold e in M. rewrite M. unfold vmess_xhttp.
  destruct (buildXhttpExtra x) as [e'|]; subst e; cbv zeta; destruct (x_mode x); done.
Qed.

(** List items have no comma; JSON can carry the XHTTP extras. *)
Definition vmess_shareable : Prop :=
  match s_network s with
  | Tcp (Some (HeaderHttp (Some r) _)) => forallb list_item (req_path r) = true
  | XHttp x => match buildXhttpExtra x with Some extra => json_ok (VObj extra) | None => True end
  | _ => True
  end /\
  shareable_security (s_security s).

Lemma import_vmess_transport sec : vmess_shareable ->
  vmess_transport (buildStream (VStr (network_name (s_network s))) sec) (VStr (network_name (s_network s))) (VObj vmess_written) =
  Some ([("network", VStr (network_name (s_network s))); ("security", VStr sec); vmess_imported_transport (s_network s)] ++ security_settings sec).
Proof.
  intros [S _]. pose proof (fun k => vmess_get_network k) as G. pose proof vmess_xhttp_read as X.
  unfold vmess_transport, buildStream. cbn [get].
  destruct (s_network s) as [[[|[r|] resp]|]|mtu tti|p h hs|sn a mm|p h hs|x|] eqn:N; cbn [network_name vmess_network] in *;
    cbn [assign fold_left fst snd] in G; try (lazymatch goal with E : _ = XHttp _ |- _ => fail | _ => rewrite !G by done end; lookup_obj).
  all: try done.
  - cbn [vmess_imported_transport imported_transport]. rewrite <-comma_list_join by done. by destruct (http_host r resp).
  - by destruct mm.
  - cbn [vmess_imported_transport]. rewrite <-(X x eq_refl). done.
Qed.

(** A field that is [""] by default is set to what was written, or to [""] when nothing was. *)
Definition written (v : jsval) (x : string) : Prop := v = VStr x \/ (v = VUndef /\ x = "").

Lemma set_if_written k v x o : written v x -> obj_get o k = VStr "" -> set_if_string k v o = obj_set o k (VStr x).
Proof. intros [->|[-> ->]] G; [done|]. cbn. rewrite <-G, obj_set_same; [done|]. by apply obj_get_has; rewrite G. Qed.

Lemma or_written v x : written v x -> or_nullish v (VStr "") = VStr x.
Proof. by intros [->|[-> ->]]. Qed.

Lemma written_key k v o : obj_get o k = VUndef -> written (obj_get (set_nonempty_key k v o) k) v.
Proof. intros H. rewrite get_nonempty_key, String.eqb_refl. destruct (String.eqb_spec v "") as [->|]; [right|left]; done. Qed.

Lemma vmess_tls_values t (o := vmess_tls "tls" (Tls t) []) :
  written (obj_get o "sni") (t_serverName t) /\ written (obj_get o "fp") (t_fingerprint t) /\
  obj_get o "alpn" = match t_alpn t with [] => VUndef | l => VStr (join "," l) end /\
  written (obj_get o "ech") (t_echConfigList t) /\ written (obj_get o "vcn") (t_verifyPeerCertByName t) /\
  written (obj_get o "pcs") (join "," (t_pinnedPeerCertSha256 t)).
Proof.
  subst o. cbn [vmess_tls String.eqb Ascii.eqb Bool.eqb]. destruct (t_pinnedPeerCertSha256 t), (t_alpn t); lookup_obj;
    cbn [String.eqb Ascii.eqb Bool.eqb]; unfold written; repeat split; try done; try (by left); try (by right);
    by destruct t as [[] ? [] [] [] ?]; cbn; auto.
Qed.

(** The stream the importer builds before the security step. *)
Definition vmess_stream (transport : string * jsval) (tail : obj) : obj :=
  ("network", VStr (network_name (s_network s))) :: ("security", VStr (vmess_security_name (s_security s))) :: transport :: tail.

Lemma import_vmess_security transport : vmess_shareable -> String.eqb "tlsSettings" transport.1 = false ->
  vmess_security (vmess_stream transport (security_settings (vmess_security_name (s_security s)))) (vmess_security_name (s_security s)) (VObj vmess_written) =
  Some (vmess_stream transport (vmess_imported_security (s_security s))).
Proof.
  intros [_ S] T. unfold vmess_security. cbn [get]. pose proof vmess_get_tls as G. unfold vmess_stream.
  destruct (s_security s) as [|t|r] eqn:Es; cbn [vmess_security_name vmess_imported_security]; try done.
  change (String.eqb "tls" "tls") with true. cbn iota. rewrite !(G _ t) by done.
  destruct (vmess_tls_values t) as (E1 & E2 & E3 & E4 & E5 & E6). rewrite E3, !(or_written _ _ E1), !(or_written _ _ E2).
  cbn [shareable_security] in S. pose proof (alpn_back _ S) as A.
  assert (M : forall f, modify (("network", VStr (network_name (s_network s))) :: ("security", VStr "tls") :: transport :: security_settings "tls") "tlsSettings" f =
    ("network", VStr (network_name (s_network s))) :: ("security", VStr "tls") :: transport :: 
      match security_settings "tls" with (k, VObj o) :: r => (k, VObj (f o)) :: r | l => l end).
  { intros f. destruct transport as [tk tv]. unfold modify. cbn [fst] in T.
    let v := eval cbv in (security_settings "tls") in change (security_settings "tls") with v. cbn [obj_get obj_set fst].
    change (String.eqb "tlsSettings" "network") with false. change (String.eqb "tlsSettings" "security") with false. cbn iota.
    rewrite T. by rewrite String.eqb_refl. }
  cbn [imported_security].
  destruct (t_alpn t) as [|a l] eqn:El.
  - cbn [truthy]. rewrite M. cbn [security_settings String.eqb Ascii.eqb Bool.eqb].
    rewrite !(set_if_written _ _ _ _ E4), !(set_if_written _ _ _ _ E5), !(set_if_written _ _ _ _ E6) by done. done.
  - assert (J : join "," (a :: l) <> "") by (cbn in S; destruct a; [done|]; by destruct l).
    replace (truthy (VStr (join "," (a :: l)))) with true by (by destruct (join "," (a :: l))).
    cbn [option_map as_str]. rewrite M. cbn [security_settings String.eqb Ascii.eqb Bool.eqb].
    rewrite !(set_if_written _ _ _ _ E4), !(set_if_written _ _ _ _ E5), !(set_if_written _ _ _ _ E6) by done. 
    destruct (join "," (a :: l)); [done|]. cbn in A |- *. by rewrite A.
Qed.

Lemma vmess_json_ok : vmess_shareable -> json_ok (VObj vmess_written).
Proof.
  intros [S _]. rewrite vmess_written_eq. assert (B : json_ok (VObj vmess_base)).
  { apply json_ok_obj. split; [|by repeat constructor]. apply NoDup_ListNoDup. repeat constructor; cbn; intuition discriminate. }
  assert (N : json_ok (VObj (vmess_network (s_network s) vmess_base))).
  { generalize dependent vmess_base. intros o B.
    destruct (s_network s) as [[[|[r|] resp]|]|mtu tti|p h hs|sn a mm|p h hs|x|]; cbn [vmess_network]; auto with json_ok.
    - cbv zeta. case_match; auto with json_ok.
    - case_match; auto with json_ok.
    - unfold applyXhttpExtraToObj. destruct (buildXhttpExtra x); [apply json_ok_assign; [|by apply json_ok_obj in S as [_ ?]]|];
        repeat case_match; auto 6 with json_ok. }
  assert (M : json_ok (VObj (applyFinalMaskToObj (s_finalmask s) (vmess_network (s_network s) vmess_base))))
    by (unfold applyFinalMaskToObj; cbv zeta; destruct (negb _); auto with json_ok).
  generalize dependent (applyFinalMaskToObj (s_finalmask s) (vmess_network (s_network s) vmess_base)). clear. intros o M. unfold vmess_tls.
  destruct (s_security s) as [|t|r]; try done. case_match; [|done]. cbv zeta. destruct (t_alpn t), (t_pinnedPeerCertSha256 t); auto 10 with json_ok.
Qed.

Lemma transport_not_tls : String.eqb "tlsSettings" (vmess_imported_transport (s_network s)).1 = false.
Proof. by destruct (s_network s) as [[[|[r|] resp]|]|mtu tti|p h hs|sn a mm|p h hs|x|]. Qed.

Lemma number_or_port : 1 <= port -> number_or (to_number (VInt port)) 443 = VInt port.
Proof. intros H. unfold number_or. cbn. destruct port; try lia. done. Qed.

(** What the importer makes of the object. *)
Lemma vmess_outbound_written : vmess_shareable -> 1 <= port ->
  vmess_outbound (VObj vmess_written) = Some (imported_vmess s address port remark id security).
Proof.
  intros S P. unfold vmess_outbound. cbn [get is_nullish]. rewrite !vmess_get_base by reflexivity.
  cbn [vmess_base obj_get String.eqb Ascii.eqb Bool.eqb].
  replace (or_falsy (VStr (network_name (s_network s))) (VStr "tcp")) with (VStr (network_name (s_network s)))
    by (by destruct (s_network s)).
  replace (if is_str (VStr (security_name (s_security s))) "tls" then "tls" else "none") with (vmess_security_name (s_security s))
    by (by destruct (s_security s)).
  rewrite import_vmess_transport by done.
  pose proof (import_vmess_security (vmess_imported_transport (s_network s)) S transport_not_tls) as E. unfold vmess_stream in E.
  cbn [app]. rewrite E. rewrite number_or_port by done. unfold imported_vmess, vmess_user_security. cbn [or_nullish is_nullish str_or_empty].
  cbn [app]. destruct security as [|c t]; [done|]. cbn [or_falsy truthy String.eqb negb orb is_str].
  by destruct (_ || _).
Qed.
End Object.

(** ** The link *)

Lemma encode_visible s : forall_chars (fun c => negb (is_ws c)) (encode s false) = true.
Proof.
  unfold encode, btoa. cbv zeta. set (l := map b64_char _ ++ _).
  assert (H : forallb (fun c => negb (is_ws c)) l = true).
  { subst l. rewrite forallb_app, andb_true_iff. split.
    - apply forallb_forall. intros c (v & <- & Hv)%in_map_iff. pose proof (sextets_range _ (bytes_of_byte s)) as R.
      rewrite List.Forall_forall in R. specialize (R v Hv). clear Hv. revert v R. apply sextet_cases. reflexivity.
    - apply forallb_forall. by intros c ->%repeat_spec. }
  clearbody l. induction l as [|c l IH]; [done|]. cbn in H |- *. apply andb_true_iff in H as [-> H]. by apply IH.
Qed.

Lemma has_bom_pretty o : has_bom (bytes_of (pretty 0 (VObj o))) = false.
Proof.
  cbn [pretty]. unfold bracketed. match goal with |- context [match ?l with [] => _ | _ => _ end] => destruct l end; cbn [String.append bytes_of]; [done|].
  generalize (newline 1 +:+ join ("," +:+ newline 1) (s :: l) +:+ newline 0 +:+ "}"). intros [|a [|b r]]; reflexivity.
Qed.

Lemma vmess_xhttp_shared x k : ~ In k XHTTP_OWN -> obj_get (vmess_xhttp x) k = xhttp_shared x k.
Proof.
  intros N. unfold vmess_xhttp. cbv zeta. set (base := [("path", VStr (x_path x)); _; _; _; _]).
  assert (B : forall j, ~ In j XHTTP_OWN -> obj_get base j = VUndef) by (by apply own_absent).
  pose proof (import_shared x base k B N) as P. unfold extra_of in P. destruct (buildXhttpExtra x) as [e|]; [exact P|rewrite import_none in P; exact P].
Qed.

(** C26. The panel imports the VMess links it writes (no external proxy, the inbound's own security): the outbound has the address,
    port, id and remark of the link, the security of the user, with none and zero read as auto, and of the stream path, host
    and service name of the transport, the paths and the host of a TCP HTTP header, of XHTTP also the mode, the padding and
    the texts of [xhttp_shared], and the TLS parameters.  The rest comes back as the defaults of the importer: REALITY is read
    as no security, the mKCP numbers, the headers of WebSocket, HTTPUpgrade and XHTTP, the other headers of TCP, the final
    mask, and of XHTTP every other field, [xmux] and [scMinPostsIntervalMs] among them. *)
Theorem genVmessLink_imported inbound clients s address port remark id security :
  i_settings inbound = Vmess clients -> i_streamSettings inbound = Some s -> 1 <= port -> vmess_shareable s ->
  utf8_valid (bytes_of (pretty 0 (VObj (vmess_written s address port remark id security)))) = true ->
  parseOutboundLink (genVmessLink inbound address port same remark id (Some security) None) =
  Some (imported_vmess s address port remark id security) /\
  (forall x k, s_network s = XHttp x -> ~ In k XHTTP_OWN -> get (VObj (vmess_xhttp x)) k = xhttp_shared x k).
Proof.
  intros Hi Hs P S U. split; [|intros x k _; apply vmess_xhttp_shared]. unfold genVmessLink. rewrite Hi, Hs. change (vmess_object _ _ _ _ _ _ _ _) with (vmess_written s address port remark id security).
  pose proof (vmess_json_ok s address port remark id security S) as J.
  pose proof (vmess_outbound_written s address port remark id security S P) as O.
  set (w := vmess_written s address port remark id security) in *. clearbody w.
  pose proof (decode_encode_text (pretty 0 (VObj w)) false U (has_bom_pretty w)) as D.
  pose proof (encode_visible (pretty 0 (VObj w))) as V. generalize dependent (encode (pretty 0 (VObj w)) false). intros e D V.
  assert (T : trim ("vmess://" +:+ e) = "vmess://" +:+ e) by (apply trim_no_ws; by rewrite forall_chars_app, V).
  assert (E : parseVmessLink ("vmess://" +:+ e) = Some (imported_vmess s address port remark id security)).
  { unfold parseVmessLink. rewrite starts_with_app. change (str_drop 8 ("vmess://" +:+ e)) with e. cbn [negb].
    rewrite D, JSON_parse_pretty by done. exact O. }
  unfold parseOutboundLink. by rewrite T, E.
Qed.

Definition vmess_stream_sample : StreamSettings :=
  {| s_network := XHttp {| x_path := "/up"; x_host := ""; x_mode := "packet-up";
       x_fields := [("xPaddingBytes", VStr "10-20"); ("sessionIDKey", VStr "sid"); ("headers", VObj [("Host", VStr "cdn.example.org")])] |};
     s_security := Tls sample_tls; s_finalmask := sample_mask; s_externalProxy := [] |}.

Lemma genVmessLink_imported_witness :
  parseOutboundLink (genVmessLink (sample_inbound (Vmess []) vmess_stream_sample) "vpn.example.org" 8443 same "my box" "5783a3e7-e373" (Some "none") None) =
  Some (VObj
    [("protocol", VStr "vmess"); ("tag", VStr "my box");
     ("settings", VObj [("vnext", VArr [VObj
        [("address", VStr "vpn.example.org"); ("port", VInt 8443);
         ("users", VArr [VObj [("id", VStr "5783a3e7-e373"); ("security", VStr "auto")]])]])]);
     ("streamSettings", VObj
        [("network", VStr "xhttp"); ("security", VStr "tls");
         ("xhttpSettings", VObj [("path", VStr "/up"); ("host", VStr "cdn.example.org"); ("mode", VStr "packet-up");
             ("headers", VObj []); ("xPaddingBytes", VStr "10-20"); ("sessionIDKey", VStr "sid")]);
         ("tlsSettings", VObj [("serverName", VStr "example.org"); ("alpn", VArr [VStr "h2"; VStr "http/1.1"]);
             ("fingerprint", VStr "chrome"); ("echConfigList", VStr ""); ("verifyPeerCertByName", VStr "");
             ("pinnedPeerCertSha256", VStr "")])])]).
Proof.
  refine (proj1 (genVmessLink_imported (sample_inbound (Vmess []) vmess_stream_sample) [] vmess_stream_sample "vpn.example.org" 8443 "my box" "5783a3e7-e373" "none" _ _ _ _ _));
    [reflexivity|reflexivity|lia| |vm_compute; reflexivity].
  split; [|reflexivity]. apply json_ok_obj. split; [|repeat constructor]. apply NoDup_ListNoDup. repeat constructor; cbn; intuition discriminate.
Defined.
