(* ===== verification/AwgObfuscation.v ===== *)
(** * AmneziaWG obfuscation parameters

    Models src/frontend/src/lib/xray/amneziawg-obfuscation.ts, the generator of the AmneziaWG
    3.1 parameters in the panel, and the validator the backend applies when they are saved,
    [ValidateObfuscation] of src/internal/amneziawg/params.go, which is the specification the
    generator promises to meet.

    [Math.random()] returns [r * 2^-53] for an integer [0 <= r < 2^53]; the results of the
    calls are the list [draws], consumed in the order the code makes them ([None]: the list is
    too short), and the 32 bytes of [crypto.getRandomValues] are an argument.  The product of a
    draw and a range is rounded to 53 bits, as a double is.  The Go side reads text as bytes:
    [TrimSpace] and [Fields] are modelled on ASCII white space. *)
From S2P Require Import Prelude JsInt Field25519 Curve25519 JsString JsValue Utf8 Base64 WireguardConfig HysteriaRoundTrip Uri Url LinkParser InboundTag.
From Stdlib Require Import Ascii.
Local Open Scope Z_scope.

(** ** Draws *)

(** Rounding of an integer to 53 significant bits, ties to even. *)
Definition round53 (x : Z) : Z :=
  let e := Z.log2 x - 52 in
  if e <=? 0 then x
  else
    let u := 2 ^ e in let q := x / u in let r := x mod u in
    u * (if 2 * r <? u then q else if u <? 2 * r then q + 1 else if Z.even q then q else q + 1).

Definition is_draw (r : Z) : Prop := 0 <= r < 2 ^ 53.

(** [min + Math.floor(Math.random() * (max - min + 1))] *)
Definition randInt (min max r : Z) : Z := min + round53 (r * (max - min + 1)) / 2 ^ 53.

(** A computation that calls [Math.random]. *)
Definition rand (A : Type) : Type := list Z -> option (A * list Z).

Definition ret {A} (a : A) : rand A := fun ds => Some (a, ds).

Definition bind {A B} (m : rand A) (k : A -> rand B) : rand B :=
  fun ds => match m ds with Some (a, ds') => k a ds' | None => None end.

Definition draw (min max : Z) : rand Z :=
  fun ds => match ds with r :: ds' => Some (randInt min max r, ds') | [] => None end.

Declare Scope rand_scope.
Notation "'let*' x := m 'in' k" := (bind m (fun x => k)) (at level 10, x binder, k at level 200) : rand_scope.
Local Open Scope rand_scope.

(** ** The generator *)

Record AwgObfuscation := {
  jc : Z; jmin : Z; jmax : Z;
  s1 : Z; s2 : Z; s3 : Z; s4 : Z;
  h1 : string; h2 : string; h3 : string; h4 : string;
  i1 : string; i2 : string; i3 : string; i4 : string; i5 : string;
  headerProtectionKey : string;
  contentPaddingAddition : string;
  rekeyAfterTime : string; rekeyTimeout : string; rejectAfterTime : string;
  keepaliveTimeout : string; maxHandshakeAttempts : string;
  randomTrailers : bool; disableCookies : bool }.

Definition generateHeaderProtectionKey (bytes : list Z) : string := btoa bytes.

(** The bounds of the [i]-th band of H values. *)
Definition bandSize : Z := (2147483647 - 5 + 1) / 4.
Definition bandLo (i : Z) : Z := 5 + i * bandSize.
Definition bandHi (i : Z) : Z := bandLo i + bandSize - 1.

Definition generateHValues : rand (string * string * string * string) :=
  let* a := draw (bandLo 0) (bandHi 0) in
  let* b := draw (bandLo 1) (bandHi 1) in
  let* c := draw (bandLo 2) (bandHi 2) in
  let* d := draw (bandLo 3) (bandHi 3) in
  ret (string_of_Z a, string_of_Z b, string_of_Z c, string_of_Z d).

(** [while (s1 + 56 === s2) s2 = randInt(15, 150)] *)
Fixpoint redraw (s1 s2 : Z) (ds : list Z) : option (Z * list Z) :=
  if s1 + 56 =? s2 then
    match ds with
    | r :: ds' => redraw s1 (randInt 15 150 r) ds'
    | [] => None
    end
  else Some (s2, ds).

(** [`${lo}-${hi}`] *)
Definition range_text (lo hi : Z) : string := string_of_Z lo +:+ "-" +:+ string_of_Z hi.

Definition generateAwgObfuscation (bytes : list Z) : rand AwgObfuscation :=
  let* jmin := draw 40 89 in
  let* s1 := draw 15 150 in
  let* s2 := draw 15 150 in
  let* s2 := redraw s1 s2 in
  let* hs := generateHValues in
  let '(h1, h2, h3, h4) := hs in
  let* cpLo := draw 8 24 in
  let* rekeyLo := draw 100 120 in
  let* rekeyD := draw 10 40 in
  let rekeyHi := rekeyLo + rekeyD in
  let* rejectD := draw 30 60 in
  let rejectLo := rekeyHi + rejectD in
  let* rekeyTimeoutLo := draw 3 6 in
  let* keepaliveLo := draw 8 12 in
  let* attemptsLo := draw 15 25 in
  let* jc := draw 3 6 in
  let* jmaxD := draw 50 250 in
  let* s3 := draw 12 55 in
  let* s4 := draw 12 27 in
  let* i1 := draw 32 256 in
  let* cpD := draw 8 40 in
  let* rekeyTimeoutD := draw 1 4 in
  let* rejectHiD := draw 30 90 in
  let* keepaliveD := draw 2 8 in
  let* attemptsD := draw 5 25 in
  ret {| jc := jc; jmin := jmin; jmax := jmin + jmaxD;
         s1 := s1; s2 := s2; s3 := s3; s4 := s4;
         h1 := h1; h2 := h2; h3 := h3; h4 := h4;
         i1 := "<r " +:+ string_of_Z i1 +:+ ">"; i2 := ""; i3 := ""; i4 := ""; i5 := "";
         headerProtectionKey := generateHeaderProtectionKey bytes;
         contentPaddingAddition := range_text cpLo (cpLo + cpD);
         rekeyAfterTime := range_text rekeyLo rekeyHi;
         rekeyTimeout := range_text rekeyTimeoutLo (rekeyTimeoutLo + rekeyTimeoutD);
         rejectAfterTime := range_text rejectLo (rejectLo + rejectHiD);
         keepaliveTimeout := range_text keepaliveLo (keepaliveLo + keepaliveD);
         maxHandshakeAttempts := range_text attemptsLo (attemptsLo + attemptsD);
         randomTrailers := true; disableCookies := true |}.

(** ** The validator of the backend *)

Inductive obf_error :=
  | EJunkOrder
  | EField (name : string)
  | EChain (i : nat)
  | ESizes
  | EHeader (i : nat)
  | EKey
  | EKeyNeedsJunk (i : nat)
  | ERekeyAfterReject.

(** [strconv.ParseInt(s, 10, 64)]: an optional sign, digits, and the range of an int64. *)
Definition parse_int (s : string) : option Z :=
  let '(sign, d) :=
    match s with
    | String "-" r => (-1, r)
    | String "+" r => (1, r)
    | _ => (1, s)
    end in
  if all_digits d then
    let n := sign * digits_value 0 d in
    if (- 2 ^ 63 <=? n) && (n <? 2 ^ 63) then Some n else None
  else None.

Definition parseUintRange (v : string) : option (Z * Z) :=
  let v := trim v in
  if String.eqb v "" then None
  else match cut_at "-" v with
       | (lo, Some hi) =>
           match parse_int (trim lo), parse_int (trim hi) with
           | Some l, Some h => Some (l, h)
           | _, _ => None
           end
       | (_, None) => option_map (fun n => (n, n)) (parse_int v)
       end.

(** [true] when the value holds no control character. *)
Definition ValidateConfigValue (v : string) : bool :=
  forall_chars (fun c => negb ((code c <? 32) || (code c =? 127))) v.

Definition hMaxValid : Z := 4294967295.

Definition validateUintRange (v : string) (minAllowed : Z) : bool :=
  if String.eqb (trim v) "" then true
  else if negb (ValidateConfigValue v) then false
  else match parseUintRange v with
       | None => false
       | Some (lo, hi) => negb ((lo <? minAllowed) || (hMaxValid <? hi) || (hi <? lo))
       end.

(** [base64.StdEncoding.DecodeString]: line breaks are skipped, the padding is required, at the end and of the right length. *)
Definition std_decode (s : string) : option (list Z) :=
  let l := List.filter (fun c => negb ((code c =? 13) || (code c =? 10))) (String.list_ascii_of_string s) in
  if Nat.eqb (length l mod 4) 0 then option_map quads (mapM b64_value (strip_pad l)) else None.

(** Padding that is misplaced or in excess is refused: it is no character of the alphabet. *)
Example std_decode_padding :
  std_decode "AA==" = Some [0] /\ std_decode "AAA=" = Some [0; 0] /\ std_decode "A===" = None /\ std_decode "====" = None /\ std_decode "AA=A" = None /\
  std_decode "AAAA====" = None /\ std_decode "AA==AAAA" = None /\ std_decode "AAAAA===" = None /\ std_decode "AAA" = None.
Proof. vm_compute. repeat split; reflexivity. Qed.

Definition validateHeaderProtectionKey (v : string) : bool :=
  if String.eqb v "" then true
  else if negb (ValidateConfigValue v) then false
  else match std_decode v with
       | Some key => Nat.eqb (length key) 32
       | None => false
       end.

Definition obfChainTags : list string := ["b"; "t"; "r"; "rc"; "rd"; "d"; "ds"; "dz"].

(** The first of [strings.Fields(s)]. *)
Fixpoint take_word (s : string) : string :=
  match s with
  | String c r => if is_ws c then "" else String c (take_word r)
  | "" => ""
  end.

Definition first_field (s : string) : option string :=
  match trim_start s with "" => None | t => Some (take_word t) end.

(** The loop of [validateObfChain]; every iteration drops at least a character, so the length
    of the text is fuel enough. *)
Fixpoint chain_loop (fuel : nat) (remaining : string) : bool :=
  match fuel with
  | O => false
  | S fuel =>
      match index_of "<" remaining with
      | None => true
      | Some start =>
          let tail := str_drop start remaining in
          match index_of ">" tail with
          | None => false
          | Some end_ =>
              match first_field (str_drop 1 (str_take end_ tail)) with
              | None => false
              | Some tag => existsb (String.eqb tag) obfChainTags && chain_loop fuel (str_drop (S end_) tail)
              end
          end
      end
  end.

Definition validateObfChain (spec : string) : bool :=
  if String.eqb (trim spec) "" then true else chain_loop (S (String.length spec)) spec.

(** The first failing check of a list of checks. *)
Fixpoint first_error (checks : list (bool * obf_error)) : option obf_error :=
  match checks with
  | [] => None
  | (ok, e) :: checks => if ok then first_error checks else Some e
  end.

Definition in_range (lo v hi : Z) : bool := negb ((v <? lo) || (hi <? v)).

(** The cross-check of the two windows. *)
Definition rekey_before_reject (o : AwgObfuscation) : bool :=
  if String.eqb (rekeyAfterTime o) "" && String.eqb (rejectAfterTime o) "" then true
  else
    let rekeyHi := if String.eqb (rekeyAfterTime o) "" then 120
                   else match parseUintRange (rekeyAfterTime o) with Some (_, hi) => hi | None => 0 end in
    let rejectLo := if String.eqb (rejectAfterTime o) "" then 180
                    else match parseUintRange (rejectAfterTime o) with Some (lo, _) => lo | None => 0 end in
    negb (rejectLo <=? rekeyHi).

Definition MaxUint32 : Z := 4294967295.
Definition MaxUint16 : Z := 65535.

Definition ValidateObfuscation (o : AwgObfuscation) : option obf_error :=
  first_error
    ([(jmin o <=? jmax o, EJunkOrder);
      (in_range 0 (jc o) MaxUint32, EField "Jc");
      (in_range 0 (jmin o) MaxUint32, EField "Jmin");
      (in_range 0 (jmax o) MaxUint32, EField "Jmax");
      (in_range 0 (s1 o) MaxUint16, EField "S1");
      (in_range 0 (s2 o) MaxUint16, EField "S2")] ++
     imap (fun i spec => (validateObfChain spec, EChain (S i))) [i1 o; i2 o; i3 o; i4 o; i5 o] ++
     [(in_range 0 (s3 o) 64, EField "S3");
      (in_range 0 (s4 o) 32, EField "S4");
      (negb (s1 o + 56 =? s2 o), ESizes)] ++
     imap (fun i h => (validateUintRange h 0, EHeader (S i))) [h1 o; h2 o; h3 o; h4 o] ++
     [(validateHeaderProtectionKey (headerProtectionKey o), EKey)] ++
     (if String.eqb (headerProtectionKey o) "" then []
      else imap (fun i s => (12 <=? s, EKeyNeedsJunk (S i))) [s1 o; s2 o; s3 o; s4 o]) ++
     [(validateUintRange (contentPaddingAddition o) 0, EField "contentPaddingAddition");
      (validateUintRange (rekeyAfterTime o) 1, EField "rekeyAfterTime");
      (validateUintRange (rekeyTimeout o) 1, EField "rekeyTimeout");
      (validateUintRange (rejectAfterTime o) 1, EField "rejectAfterTime");
      (validateUintRange (keepaliveTimeout o) 1, EField "keepaliveTimeout");
      (validateUintRange (maxHandshakeAttempts o) 1, EField "maxHandshakeAttempts");
      (rekey_before_reject o, ERekeyAfterReject)]).

(** [EffectiveMTU] of the backend. *)
Definition EffectiveMTU (configuredMTU s4 : Z) : Z :=
  if 0 <? configuredMTU then configuredMTU else Z.max (1420 - Z.max s4 0) 1280.

(** ** Draws stay in their range *)

Lemma round53_bound n r : 0 < n -> is_draw r -> 0 <= round53 (r * n) < n * 2 ^ 53.
Proof.
  intros Hn [Hr0 Hr]. unfold round53. set (x := r * n).
  assert (Hx : 0 <= x <= n * 2 ^ 53 - n) by (unfold x; nia). clearbody x. clear r Hr0 Hr.
  destruct (Z.leb_spec (Z.log2 x - 52) 0) as [|He]; [lia|].
  assert (Hx0 : 0 < x) by (destruct (Z.eq_dec x 0) as [->|]; [cbn in He|]; lia).
  pose proof (Z.log2_spec x Hx0) as [Hl _]. set (e := Z.log2 x - 52) in *.
  replace (Z.log2 x) with (e + 52) in Hl by lia. rewrite Z.pow_add_r in Hl by lia.
  pose proof (Z.pow_pos_nonneg 2 e ltac:(lia) ltac:(lia)) as Hu. set (u := 2 ^ e) in *. clearbody u.
  pose proof (Z.div_mod x u ltac:(lia)) as Hd. pose proof (Z.mod_pos_bound x u Hu) as Hm.
  pose proof (Z.div_pos x u ltac:(lia) Hu) as Hq. revert Hd Hm Hq. generalize (x / u) (x mod u). intros q m Hd Hm Hq.
  destruct (Z.ltb_spec (2 * m) u); [nia|]. destruct (Z.ltb_spec u (2 * m)); [nia|]. destruct (Z.even q); nia.
Qed.

(** Whatever [Math.random] returns, [randInt] stays between its bounds. *)
Lemma randInt_range min max r : min <= max -> is_draw r -> min <= randInt min max r <= max.
Proof.
  intros H Hr. unfold randInt. pose proof (round53_bound (max - min + 1) r ltac:(lia) Hr) as [H0 H1].
  assert (round53 (r * (max - min + 1)) / 2 ^ 53 < max - min + 1) by (apply Z.div_lt_upper_bound; lia).
  pose proof (Z.div_pos _ (2 ^ 53) H0 ltac:(lia)). lia.
Qed.

(** ** Texts the validator accepts *)

Definition plain_char (c : ascii) : bool := is_digit c || Ascii.eqb c "-".

Lemma plain_ok c : plain_char c = true -> negb (is_ws c) = true /\ negb ((code c <? 32) || (code c =? 127)) = true.
Proof. destruct c as [[] [] [] [] [] [] [] []]; by vm_compute. Qed.

Lemma digits_plain z : 0 <= z -> forall_chars plain_char (string_of_Z z) = true.
Proof. intros H. eapply forall_chars_impl; [|by apply string_of_Z_digits]. intros c E. unfold plain_char. by rewrite E. Qed.

Lemma plain_trim s : forall_chars plain_char s = true -> trim s = s /\ ValidateConfigValue s = true.
Proof.
  intros H. split; [apply trim_no_ws|unfold ValidateConfigValue]; (eapply forall_chars_impl; [|exact H]); intros c; apply plain_ok.
Qed.

Lemma parse_int_of_Z z : 0 <= z < 2 ^ 63 -> parse_int (string_of_Z z) = Some z.
Proof.
  intros H. destruct (number_text z) as (D & V & _); [lia|]. pose proof (string_of_Z_digits z ltac:(lia)) as P. unfold parse_int.
  destruct (string_of_Z z) as [|c s] eqn:E; [done|]. cbn [forall_chars] in P. apply andb_true_iff in P as [P _].
  assert (X : (match c with "-" => (-1, s) | "+" => (1, s) | _ => (1, String c s) end)%char = (1, String c s))
    by (destruct c as [[] [] [] [] [] [] [] []]; (done || by vm_compute in P)).
  rewrite X, D, V, Z.mul_1_l. by replace (_ && _) with true by lia.
Qed.

Lemma validate_single z m : m <= z -> 0 <= z <= hMaxValid -> validateUintRange (string_of_Z z) m = true.
Proof.
  intros Hm Hz. unfold hMaxValid in Hz. unfold validateUintRange, parseUintRange.
  destruct (plain_trim _ (digits_plain z ltac:(lia))) as [T V]. rewrite T, V, string_of_Z_nonempty by lia.
  rewrite cut_at_none by (apply port_no; [lia|done]). rewrite parse_int_of_Z by lia. cbn. unfold hMaxValid. lia.
Qed.

Lemma range_plain lo hi : 0 <= lo -> 0 <= hi -> forall_chars plain_char (range_text lo hi) = true.
Proof. intros. unfold range_text. rewrite !forall_chars_app, !digits_plain by done. done. Qed.

Lemma range_text_nonempty lo hi : 0 <= lo -> String.eqb (range_text lo hi) "" = false.
Proof. intros H. pose proof (string_of_Z_nonempty lo H). unfold range_text. by destruct (string_of_Z lo). Qed.

Lemma parse_range_text lo hi : 0 <= lo < 2 ^ 63 -> 0 <= hi < 2 ^ 63 -> parseUintRange (range_text lo hi) = Some (lo, hi).
Proof.
  intros Hl Hh. unfold parseUintRange. destruct (plain_trim _ (range_plain lo hi ltac:(lia) ltac:(lia))) as [-> _].
  rewrite range_text_nonempty by lia. unfold range_text. cbn [String.append]. rewrite cut_at_app by (apply port_no; [lia|done]).
  destruct (plain_trim _ (digits_plain lo ltac:(lia))) as [-> _]. destruct (plain_trim _ (digits_plain hi ltac:(lia))) as [-> _].
  by rewrite !parse_int_of_Z by lia.
Qed.

Lemma validate_range lo hi m : m <= lo -> 0 <= lo <= hi -> hi <= hMaxValid -> validateUintRange (range_text lo hi) m = true.
Proof.
  intros Hm Hl Hh. unfold hMaxValid in Hh. unfold validateUintRange.
  destruct (plain_trim _ (range_plain lo hi ltac:(lia) ltac:(lia))) as [-> ->].
  rewrite range_text_nonempty by lia. rewrite parse_range_text by lia. cbn. unfold hMaxValid. lia.
Qed.

(** The signature packets the generator writes, one per length. *)
Lemma validate_chain n : 32 <= n <= 256 -> validateObfChain ("<r " +:+ string_of_Z n +:+ ">") = true.
Proof.
  intros H. assert (A : forallb (fun k => validateObfChain ("<r " +:+ string_of_Z (Z.of_nat k) +:+ ">")) (seq 32 225) = true) by by vm_compute.
  rewrite forallb_forall in A. rewrite <-(Z2Nat.id n) by lia. apply A, in_seq. lia.
Qed.

Lemma forall_chars_list f l : forall_chars f (lstr l) = forallb f l.
Proof. induction l as [|c l IH]; cbn; [done|]. by rewrite IH. Qed.

Definition key_char (c : ascii) : bool := match b64_value c with Some _ => true | None => is_pad c end.

Lemma key_char_ok c : key_char c = true -> negb ((code c <? 32) || (code c =? 127)) = true /\ negb ((code c =? 13) || (code c =? 10)) = true.
Proof. destruct c as [[] [] [] [] [] [] [] []]; by vm_compute. Qed.

Lemma btoa_chars l : Forall is_byte l -> forall c, In c (map b64_char (sextets l) ++ repeat "="%char (pad_count (length l) 3)) -> key_char c = true.
Proof.
  intros H c [(v & <- & Hv)%in_map_iff | ->%repeat_spec]%in_app_iff; [|done]. unfold key_char.
  pose proof (sextets_range l H) as Hs. rewrite List.Forall_forall in Hs. by rewrite b64_value_char by by apply Hs.
Qed.

Lemma filter_all {A} (f : A -> bool) l : (forall c, In c l -> f c = true) -> List.filter f l = l.
Proof. induction l as [|c l IH]; cbn; intros H; [done|]. rewrite H by auto. f_equal. auto. Qed.

(** Go's decoder inverts [btoa]. *)
Lemma std_decode_btoa l : Forall is_byte l -> std_decode (btoa l) = Some l.
Proof.
  intros H. pose proof (btoa_chars l H) as Hc. destruct (sextets_length l) as (q & E & L). unfold std_decode, btoa.
  rewrite String.list_ascii_of_string_of_list_ascii, filter_all by (intros c Hi; by apply key_char_ok, Hc).
  rewrite length_app, length_map, repeat_length, E, (Nat.mul_comm 4), Nat.Div0.mod_mul. cbn [Nat.eqb].
  rewrite (strip_pad_exact _ _ q); rewrite ?length_map; try done.
  - rewrite mapM_b64 by by apply sextets_range. cbn. by rewrite quads_sextets.
  - intros c (v & <- & Hv)%in_map_iff. pose proof (sextets_range l H) as Hs. rewrite List.Forall_forall in Hs. by apply b64_plain_spec, b64_char_plain, Hs.
Qed.

Lemma validate_key bytes : Curve25519.bytes 32 bytes -> validateHeaderProtectionKey (btoa bytes) = true /\ String.eqb (btoa bytes) "" = false.
Proof.
  intros Hb. pose proof (btoa_nonempty bytes Hb) as N. destruct Hb as [L H].
  assert (E : String.eqb (btoa bytes) "" = false) by by destruct (btoa bytes). split; [|done].
  unfold validateHeaderProtectionKey. rewrite E, std_decode_btoa, L by done.
  replace (ValidateConfigValue (btoa bytes)) with true; [done|]. symmetry. unfold ValidateConfigValue, btoa. rewrite forall_chars_list.
  apply forallb_forall. intros c Hc. by apply key_char_ok, (btoa_chars bytes).
Qed.

(** ** Running the generator *)

(** [m] makes [n] draws, whatever they are, and its result satisfies [P]. *)
Definition runs {A} (n : nat) (m : rand A) (P : A -> Prop) : Prop :=
  forall ds, Forall is_draw ds -> (n <= length ds)%nat -> exists a, m ds = Some (a, drop n ds) /\ P a.

Lemma runs_ret {A} (a : A) (P : A -> Prop) : P a -> runs 0 (ret a) P.
Proof. intros H ds _ _. by exists a. Qed.

Lemma runs_bind {A B} n k (m : rand A) (f : A -> rand B) P Q :
  runs n m P -> (forall a, P a -> runs k (f a) Q) -> runs (n + k) (bind m f) Q.
Proof.
  intros Hm Hf ds Hd Hn. destruct (Hm ds Hd ltac:(lia)) as (a & E & Pa). unfold bind. rewrite E.
  destruct (Hf a Pa (drop n ds)) as (b & Eb & Qb); [by apply Forall_drop|rewrite length_drop; lia|].
  exists b. split; [|done]. by rewrite Eb, drop_drop.
Qed.

Lemma runs_draw {B} lo hi k (f : Z -> rand B) Q :
  lo <= hi -> (forall z, lo <= z <= hi -> runs k (f z) Q) -> runs (S k) (let* z := draw lo hi in f z) Q.
Proof.
  intros H Hf. apply (runs_bind 1 k) with (P := fun z => lo <= z <= hi); [|done].
  intros [|r ds] Hd Hn; cbn in Hn; [lia|]. inversion Hd; subst. exists (randInt lo hi r). split; [done|]. by apply randInt_range.
Qed.

Lemma first_error_none checks : first_error checks = None <-> Forall (fun c => c.1 = true) checks.
Proof.
  induction checks as [|[ok e] checks IH]; cbn [first_error]; [by split|].
  rewrite Forall_cons_iff. cbn [fst]. destruct ok; [rewrite IH|]; naive_solver.
Qed.

(** The loop leaves with the first draw that does not clash with [s1]. *)
Lemma redraw_exits s1 last late : s1 + 56 <> randInt 15 150 last -> forall early, Forall (fun r => s1 + 56 = randInt 15 150 r) early ->
  match early ++ last :: late with r :: ds => redraw s1 (randInt 15 150 r) ds | [] => None end = Some (randInt 15 150 last, late).
Proof.
  intros Hl early. induction 1 as [|r early Hr _ IH]; cbn [app].
  - apply Z.eqb_neq in Hl. destruct late; cbn [redraw]; by rewrite Hl.
  - destruct (early ++ last :: late) as [|r' ds]; [done|]. cbn [redraw]. by rewrite <-Hr, Z.eqb_refl.
Qed.

(** The parameters after the draws of the sizes. *)
Ltac run_draws := repeat (apply runs_draw; [vm_compute; discriminate|let z := fresh "z" in let Hz := fresh "Hz" in intros z Hz]).

Lemma hvalues_run {B} k (f : string * string * string * string -> rand B) Q :
  (forall a b c d, 5 <= a < b -> b < c < d -> d <= hMaxValid -> runs k (f (string_of_Z a, string_of_Z b, string_of_Z c, string_of_Z d)) Q) ->
  runs (4 + k) (let* h := generateHValues in f h) Q.
Proof.
  intros H. apply (runs_bind 4 k) with
    (P := fun h => exists a b c d, (5 <= a < b /\ b < c < d /\ d <= hMaxValid) /\ h = (string_of_Z a, string_of_Z b, string_of_Z c, string_of_Z d)).
  - unfold generateHValues. run_draws. apply runs_ret. exists z, z0, z1, z2. split; [|done].
    unfold hMaxValid. change (bandLo 0) with 5 in *. change (bandLo 1) with 536870915 in *. change (bandLo 2) with 1073741825 in *.
    change (bandLo 3) with 1610612735 in *. change (bandHi 0) with 536870914 in *. change (bandHi 1) with 1073741824 in *.
    change (bandHi 2) with 1610612734 in *. change (bandHi 3) with 2147483644 in *. lia.
  - intros h (a & b & c & d & (? & ? & ?) & ->). by apply H.
Qed.

(** What the generator promises of a parameter set: the backend saves it, the four message
    types differ, and a tunnel of the default MTU keeps its packets within it. *)
Definition accepted (o : AwgObfuscation) : Prop :=
  ValidateObfuscation o = None /\ NoDup [h1 o; h2 o; h3 o; h4 o] /\ effectiveMtu None (Some (s4 o)) + s4 o = DEFAULT_MTU.

Lemma distinct_texts a b c d : 0 <= a < b -> b < c < d -> NoDup [string_of_Z a; string_of_Z b; string_of_Z c; string_of_Z d].
Proof.
  intros H1 H2. repeat (apply NoDup_cons_2; [|]); [| | | |apply NoDup_nil_2];
    rewrite ?elem_of_cons, elem_of_nil; intros Hz; destruct_or? Hz; try done; apply string_of_Z_inj in Hz; lia.
Qed.

(** C21. (C0) Every parameter set the panel generates passes the validation of the backend: for all
    results of [Math.random] among which the loop for [s2] finds one that does not clash with
    [s1], and all random key bytes, [generateAwgObfuscation] returns after 21 more draws, its
    set passes [ValidateObfuscation], its four header values differ and its [s4] fits the MTU. *)
Theorem generated_accepted bytes d0 d1 early last late :
  Forall is_draw (d0 :: d1 :: early ++ last :: late) -> Curve25519.bytes 32 bytes ->
  Forall (fun r => randInt 15 150 d1 + 56 = randInt 15 150 r) early ->
  randInt 15 150 d1 + 56 <> randInt 15 150 last -> (21 <= length late)%nat ->
  exists o, generateAwgObfuscation bytes (d0 :: d1 :: early ++ last :: late) = Some (o, drop 21 late) /\
            accepted o.
Proof.
  intros Hd Hb Hearly Hlast Hlate. rewrite !Forall_cons_iff, Forall_app, Forall_cons_iff in Hd. destruct Hd as (H0 & H1 & _ & Hl & Hd).
  pose proof (redraw_exits _ last late Hlast early Hearly) as R.
  unfold generateAwgObfuscation. unfold bind at 1 2 3 4. cbn [draw].
  destruct (early ++ last :: late) as [|r ds]; [done|]. cbn [draw]. rewrite R. clear R.
  pose proof (randInt_range 40 89 d0 ltac:(lia) H0) as R0. pose proof (randInt_range 15 150 d1 ltac:(lia) H1) as R1.
  pose proof (randInt_range 15 150 last ltac:(lia) Hl) as R2. revert Hlast R0 R1 R2. generalize (randInt 40 89 d0) (randInt 15 150 d1) (randInt 15 150 last).
  intros jmin s1 s2 Hs R0 R1 R2. revert late Hd Hlate.
  match goal with |- forall late, Forall is_draw late -> _ -> exists o, ?m late = _ /\ _ => change (runs 21 m accepted) end.
  apply hvalues_run. intros a b c d Ha Hb' Hc. run_draws. apply runs_ret.
  split; [|split; [apply distinct_texts; cbn; lia|cbn; unfold DEFAULT_MTU, MIN_MTU; lia]].
  destruct (validate_key bytes Hb) as [K1 K2]. apply first_error_none. unfold rekey_before_reject, generateHeaderProtectionKey.
  cbn [jc AwgObfuscation.jmin jmax AwgObfuscation.s1 AwgObfuscation.s2 s3 s4 h1 h2 h3 h4 i1 i2 i3 i4 i5 headerProtectionKey contentPaddingAddition rekeyAfterTime rekeyTimeout rejectAfterTime keepaliveTimeout maxHandshakeAttempts].
  rewrite K2, !range_text_nonempty, !parse_range_text by lia. cbn [imap app andb]. unfold in_range, MaxUint32, MaxUint16.
  repeat (apply Forall_cons_iff; split; cbn [fst compose]);
    auto using validate_chain with lia; try (apply validate_single; lia); try (apply validate_range; unfold hMaxValid; lia).
Qed.

Lemma generated_accepted_witness :
  exists o, generateAwgObfuscation (repeat 7 32) ([0; 0; 1] ++ repeat (2 ^ 52) 21) = Some (o, []) /\ accepted o.
Proof.
  apply (generated_accepted (repeat 7 32) 0 0 [] 1 (repeat (2 ^ 52) 21)).
  - repeat (apply Forall_cons_iff; split; [unfold is_draw; lia|]). constructor.
  - split; [done|]. repeat (apply Forall_cons_iff; split; [lia|]). constructor.
  - constructor.
  - vm_compute. discriminate.
  - cbn. lia.
Defined.

(** The panel and the backend compute the same MTU; an absent field is a zero of the backend. *)
Lemma effectiveMtu_backend m s4 : effectiveMtu m s4 = EffectiveMTU (default 0 m) (default 0 s4).
Proof. unfold effectiveMtu, EffectiveMTU, DEFAULT_MTU, MIN_MTU. destruct m as [m|]; cbn; [|done]. by destruct (0 <? m). Qed.
