(* ===== verification/InboundDefaults.v ===== *)
(** * Defaults of new inbounds and of stored ones

    Models src/frontend/src/lib/xray/inbound-defaults.ts (clients and settings of new inbounds),
    inbound-tls-defaults.ts, stream-defaults.ts and inbound-from-db.ts (a stored row with the defaults
    of the schemas filled in).  The random words, bytes and draws are arguments, named after the field
    they are drawn for.  The schemas of the stream are those of [StreamSchemas]; that of the protocol settings is an
    argument ([None]: a failed [safeParse]). *)
From S2P Require Import Prelude JsString JsValue JsObject Field25519 Curve25519 Utf8 Base64 RandomUtil Json Uri StreamWire InboundList AwgObfuscation StreamSchemas.
From Stdlib Require Import Ascii.
Local Open Scope Z_scope.

(** ** Random values *)

Record Random := {
  words : string -> nat -> list Z;       (** the words of the call for a field, and how many *)
  rnd8 : string -> nat -> list Z;        (** the same for bytes *)
  page_protocol : string; platform_uuid : string;
  draws : list Z                         (** [Math.random()], in units of [2^-53] *)
}.

Section Factories.
  Context (rnd : Random).

Definition seq_of (field : string) (n : nat) : string := randomSeq (words rnd field n) default_options.
Definition lower_of (field : string) (n : nat) : string := randomLowerAndNum (words rnd field n).
Definition uuid_of (field : string) : string := randomUUID (page_protocol rnd) (platform_uuid rnd) (rnd8 rnd field 31).
Definition new_keypair (field : string) : option keypair := generateKeypair "" (rnd8 rnd field 32).

(** ** Clients *)

Record ClientBaseSeed := {
  s_email : option string; s_subId : option string; s_limitIp : option Z; s_totalGB : option Z; s_expiryTime : option Z;
  s_enable : option bool; s_tgId : option Z; s_comment : option string; s_reset : option Z }.

Definition no_seed : ClientBaseSeed :=
  {| s_email := None; s_subId := None; s_limitIp := None; s_totalGB := None; s_expiryTime := None; s_enable := None; s_tgId := None;
     s_comment := None; s_reset := None |}.

Definition clientBase (seed : ClientBaseSeed) : obj :=
  [("email", VStr (default (lower_of "email" 10) (s_email seed)));
   ("limitIp", VInt (default 0 (s_limitIp seed))); ("totalGB", VInt (default 0 (s_totalGB seed))); ("expiryTime", VInt (default 0 (s_expiryTime seed)));
   ("enable", VBool (default true (s_enable seed))); ("tgId", VInt (default 0 (s_tgId seed)));
   ("subId", VStr (default (lower_of "subId" 16) (s_subId seed)));
   ("comment", VStr (default "" (s_comment seed))); ("reset", VInt (default 0 (s_reset seed)))].

Definition createDefaultVlessClient (id flow : option string) (seed : ClientBaseSeed) : obj :=
  [("id", VStr (default (uuid_of "id") id)); ("flow", VStr (default "" flow))] ++ clientBase seed.

Definition createDefaultVmessClient (id security : option string) (seed : ClientBaseSeed) : obj :=
  [("id", VStr (default (uuid_of "id") id)); ("security", VStr (default "auto" security)); ("alterId", VInt 0)] ++ clientBase seed.

Definition createDefaultTrojanClient (password : option string) (seed : ClientBaseSeed) : obj :=
  [("password", VStr (default (seq_of "password" 10) password))] ++ clientBase seed.

Definition createDefaultShadowsocksClient (method password ssMethod : option string) (seed : ClientBaseSeed) : obj :=
  [("method", VStr (default "" method));
   ("password", VStr (default (randomShadowsocksPassword (default "2022-blake3-aes-256-gcm" ssMethod) (rnd8 rnd "password")) password))] ++ clientBase seed.

Definition createDefaultHysteriaClient (auth : option string) (seed : ClientBaseSeed) : obj :=
  [("auth", VStr (default (seq_of "auth" 10) auth))] ++ clientBase seed.

Definition createDefaultTuicClient (uuid id password : option string) (seed : ClientBaseSeed) : obj :=
  let uuid := match uuid with Some u => u | None => default (uuid_of "uuid") id end in
  [("uuid", VStr uuid); ("id", VStr uuid); ("password", VStr (default (seq_of "password" 10) password))] ++ clientBase seed.

(** ** Settings *)

Definition createDefaultVlessInboundSettings : obj :=
  [("clients", VArr []); ("decryption", VStr "none"); ("encryption", VStr "none"); ("fallbacks", VArr [])].
Definition createDefaultVmessInboundSettings : obj := [("clients", VArr [])].
Definition createDefaultTrojanInboundSettings : obj := [("clients", VArr []); ("fallbacks", VArr [])].

Definition createDefaultShadowsocksInboundSettings (method password network : option string) (ivCheck : option bool) : obj :=
  let method := default "2022-blake3-aes-256-gcm" method in
  [("method", VStr method); ("password", VStr (default (randomShadowsocksPassword method (rnd8 rnd "password")) password));
   ("network", VStr (default "tcp,udp" network)); ("clients", VArr []); ("ivCheck", VBool (default false ivCheck))].

Definition createDefaultHysteriaInboundSettings : obj := [("version", VInt 2); ("clients", VArr [])].

Definition account : jsval := VObj [("user", VStr (lower_of "user" 8)); ("pass", VStr (lower_of "pass" 12))].
Definition createDefaultHttpInboundSettings : obj := [("accounts", VArr [account]); ("allowTransparent", VBool false)].
Definition createDefaultMixedInboundSettings : obj :=
  [("auth", VStr "password"); ("accounts", VArr [account]); ("udp", VBool false); ("ip", VStr "127.0.0.1")].

(** [b.toString(16).padStart(2, '0')] of every byte. *)
Fixpoint domainToHex (domain : string) : string :=
  match domain with
  | "" => ""
  | String c s => String (hex_lower (code c / 16)) (String (hex_lower (code c mod 16)) (domainToHex s))
  end.

Definition hex_options : RandomSeqOptions := {| hex := true; hasNumbers := true; hasLowercase := true; hasUppercase := true |}.

Definition generateMtprotoSecret (domain : string) : string := "ee" +:+ randomSeq (words rnd "secret" 32) hex_options +:+ domainToHex domain.

Definition createDefaultMtprotoInboundSettings : obj := [("fakeTlsDomain", VStr "www.cloudflare.com"); ("clients", VArr [])].
Definition createDefaultMtprotoClient (domain : string) : obj :=
  [("secret", VStr (generateMtprotoSecret (if String.eqb domain "" then "www.cloudflare.com" else domain)))].

Definition createDefaultTunnelInboundSettings : obj :=
  [("portMap", VObj []); ("allowedNetwork", VStr "tcp,udp"); ("followRedirect", VBool false)].
Definition createDefaultTunInboundSettings : obj :=
  [("name", VStr "xray0"); ("mtu", VInt 1500); ("gateway", VArr []); ("dns", VArr []); ("userLevel", VInt 0); ("autoSystemRoutingTable", VArr []);
   ("autoOutboundsInterface", VStr "auto")].

Definition createDefaultWireguardInboundSettings (mtu : option Z) (secretKey : option string) (noKernelTun : option bool) (subnetIp : option string)
    (subnetCidr : option Z) : obj :=
  [("mtu", VInt (default 1420 mtu)); ("secretKey", VStr (default (keyToBase64 (generatePrivateKey (rnd8 rnd "secretKey" 32))) secretKey));
   ("peers", VArr []); ("clients", VArr []); ("noKernelTun", VBool (default false noKernelTun));
   ("subnetIp", VStr (default "10.0.0.0" subnetIp)); ("subnetCidr", VInt (default 24 subnetCidr))].

Definition obfuscation_fields (o : AwgObfuscation) : obj :=
  [("jc", VInt (jc o)); ("jmin", VInt (jmin o)); ("jmax", VInt (jmax o)); ("s1", VInt (s1 o)); ("s2", VInt (s2 o)); ("s3", VInt (s3 o)); ("s4", VInt (s4 o));
   ("h1", VStr (h1 o)); ("h2", VStr (h2 o)); ("h3", VStr (h3 o)); ("h4", VStr (h4 o));
   ("i1", VStr (i1 o)); ("i2", VStr (i2 o)); ("i3", VStr (i3 o)); ("i4", VStr (i4 o)); ("i5", VStr (i5 o));
   ("headerProtectionKey", VStr (headerProtectionKey o)); ("contentPaddingAddition", VStr (contentPaddingAddition o));
   ("rekeyAfterTime", VStr (rekeyAfterTime o)); ("rekeyTimeout", VStr (rekeyTimeout o)); ("rejectAfterTime", VStr (rejectAfterTime o));
   ("keepaliveTimeout", VStr (keepaliveTimeout o)); ("maxHandshakeAttempts", VStr (maxHandshakeAttempts o));
   ("randomTrailers", VBool (randomTrailers o)); ("disableCookies", VBool (disableCookies o))].

(** [None]: the draws of the argument run out. *)
Definition createDefaultAmneziawgInboundSettings : option obj :=
  match new_keypair "server", generateAwgObfuscation (rnd8 rnd "headerProtectionKey" 32) (draws rnd) with
  | Some kp, Some (o, _) =>
      Some [("server", VObj ([("privateKey", VStr (privateKey kp)); ("publicKey", VStr (publicKey kp)); ("subnetIp", VStr "10.8.1.0"); ("subnetCidr", VInt 24);
               ("primaryDns", VStr "8.8.8.8"); ("secondaryDns", VStr "8.8.4.4"); ("externalInterface", VStr ""); ("ipv6Enabled", VBool false);
               ("ipv6Subnet", VStr ""); ("ipv6ExternalInterface", VStr "")] ++ obfuscation_fields o)); ("clients", VArr [])]
  | _, _ => None
  end.

Definition createDefaultTuicInboundSettings : obj :=
  [("server", VObj [("certificate", VStr ""); ("private_key", VStr ""); ("congestion_control", VStr "bbr"); ("alpn", VArr [VStr "h3"; VStr "spdy/3.1"]);
      ("udp_relay_mode", VStr "native"); ("zero_rtt_handshake", VBool true); ("log_level", VStr "info"); ("max_idle_time", VInt 15);
      ("authentication_timeout", VInt 3); ("max_udp_relay_packet_size", VInt 1500); ("sni", VStr "")]); ("clients", VArr [])].

(** [None] for any other protocol; for AmneziaWG also when the draws of the argument run out. *)
Definition createDefaultInboundSettings (protocol : string) : option obj :=
  if String.eqb protocol "vless" then Some createDefaultVlessInboundSettings
  else if String.eqb protocol "vmess" then Some createDefaultVmessInboundSettings
  else if String.eqb protocol "trojan" then Some createDefaultTrojanInboundSettings
  else if String.eqb protocol "shadowsocks" then Some (createDefaultShadowsocksInboundSettings None None None None)
  else if String.eqb protocol "hysteria" then Some createDefaultHysteriaInboundSettings
  else if String.eqb protocol "http" then Some createDefaultHttpInboundSettings
  else if String.eqb protocol "mixed" then Some createDefaultMixedInboundSettings
  else if String.eqb protocol "tunnel" then Some createDefaultTunnelInboundSettings
  else if String.eqb protocol "tun" then Some createDefaultTunInboundSettings
  else if String.eqb protocol "wireguard" then Some (createDefaultWireguardInboundSettings None None None None None)
  else if String.eqb protocol "mtproto" then Some createDefaultMtprotoInboundSettings
  else if String.eqb protocol "amneziawg" then createDefaultAmneziawgInboundSettings
  else if String.eqb protocol "tuic" then Some createDefaultTuicInboundSettings
  else None.

End Factories.

(** ** Streams with the defaults of the schemas *)

Definition NETWORK_KEY_MAP : list (string * string) :=
  [("tcp", "tcpSettings"); ("kcp", "kcpSettings"); ("ws", "wsSettings"); ("grpc", "grpcSettings"); ("httpupgrade", "httpupgradeSettings");
   ("xhttp", "xhttpSettings"); ("hysteria", "hysteriaSettings")].

Definition lookup_key {A} (l : list (string * A)) (k : string) : option A := option_map snd (List.find (fun p => String.eqb p.1 k) l).

Definition parseOrDefault (schema : schema) (value : jsval) : jsval :=
  match schema (or_nullish value (VObj [])) with
  | Some data => data
  | None => match schema (VObj []) with Some data => data | None => value end
  end.

Definition networkSchemaFor (network : string) : option schema :=
  if String.eqb network "tcp" then Some TcpStreamSettingsSchema
  else if String.eqb network "kcp" then Some KcpStreamSettingsSchema
  else if String.eqb network "ws" then Some WsStreamSettingsSchema
  else if String.eqb network "grpc" then Some GrpcStreamSettingsSchema
  else if String.eqb network "httpupgrade" then Some HttpUpgradeStreamSettingsSchema
  else if String.eqb network "xhttp" then Some XHttpStreamSettingsSchema
  else if String.eqb network "hysteria" then Some HysteriaStreamSettingsSchema
  else None.

Definition securitySchemaFor (security : string) : option (string * schema) :=
  if String.eqb security "tls" then Some ("tlsSettings", TlsStreamSettingsSchema)
  else if String.eqb security "reality" then Some ("realitySettings", RealityStreamSettingsSchema)
  else None.

Definition fill_at (key : string) (schema : schema) (out : obj) : obj := obj_set out key (parseOrDefault schema (obj_get out key)).

Definition fill_network (network : jsval) (out : obj) : obj :=
  match network with
  | VStr n =>
      match lookup_key NETWORK_KEY_MAP n, networkSchemaFor n with
      | Some subKey, Some netSchema => fill_at subKey netSchema out
      | _, _ => out
      end
  | _ => out
  end.

Definition fill_security (security : jsval) (out : obj) : obj :=
  match security with
  | VStr s => match securitySchemaFor s with Some (key, schema) => fill_at key schema out | None => out end
  | _ => out
  end.

Definition fillStreamDefaults (stream : obj) : obj :=
  let network := or_nullish (obj_get stream "network") (VStr "tcp") in
  let security := or_nullish (obj_get stream "security") (VStr "none") in
  let out := obj_set (obj_set stream "network" network) "security" security in
  fill_security security (fill_network network out).

(** ** TLS settings of a new inbound *)

Definition defaultCertificate : jsval :=
  VObj [("useFile", VBool true); ("certificateFile", VStr ""); ("keyFile", VStr ""); ("certificate", VArr []); ("key", VArr []); ("ocspStapling", VInt 0);
        ("oneTimeLoading", VBool false); ("usage", VStr "encipherment"); ("buildChain", VBool false)].

(** [{ ...tls.settings }] of an object, otherwise an empty one, with the fingerprint. *)
Definition with_fingerprint (fingerprint : string) (tls : obj) : obj :=
  let settings := match obj_get tls "settings" with VObj s => s | _ => [] end in
  obj_set tls "settings" (VObj (obj_set settings "fingerprint" (VStr fingerprint))).

(** [None] is the exception of [parse]. *)
Definition createTlsSettingsWithDefaultCert : option obj :=
  match TlsStreamSettingsSchema (VObj []) with
  | Some (VObj tls) => Some (with_fingerprint "chrome" (obj_set tls "certificates" (VArr [defaultCertificate])))
  | _ => None
  end.

Definition createHysteriaTlsSettingsWithDefaultCert : option obj :=
  option_map (fun tls => with_fingerprint "" (obj_set tls "alpn" (VArr [VStr "h3"]))) createTlsSettingsWithDefaultCert.

(** ** Stored rows *)

Record DbInboundLike := {
  db_port : Z; db_listen : option string; db_protocol : string; db_settings : jsval; db_streamSettings : jsval; db_sniffing : jsval;
  db_tag : option string; db_remark : option string; db_enable : option bool; db_expiryTime : option Z; db_up : option Z; db_down : option Z;
  db_total : option Z; db_shareAddrStrategy : option string; db_shareAddr : option string }.

Section Rows.
  (** The schema of the settings of a protocol. *)
  Context (settingsParse : string -> obj -> option obj).

Definition fillProtocolSettingsDefaults (protocol : string) (settings : obj) : obj := default settings (settingsParse protocol settings).

Definition stream_of_row (v : jsval) : obj := match coerceInboundJsonField v with [] => [] | raw => fillStreamDefaults raw end.

Definition inboundFromDb (raw : DbInboundLike) : obj :=
  [("protocol", VStr (db_protocol raw)); ("port", VInt (db_port raw)); ("listen", VStr (default "" (db_listen raw))); ("tag", VStr (default "" (db_tag raw)));
   ("remark", VStr (default "" (db_remark raw))); ("enable", VBool (default true (db_enable raw))); ("expiryTime", VInt (default 0 (db_expiryTime raw)));
   ("up", VInt (default 0 (db_up raw))); ("down", VInt (default 0 (db_down raw))); ("total", VInt (default 0 (db_total raw)));
   ("shareAddrStrategy", VStr (default "node" (db_shareAddrStrategy raw))); ("shareAddr", VStr (default "" (db_shareAddr raw)));
   ("settings", VObj (fillProtocolSettingsDefaults (db_protocol raw) (coerceInboundJsonField (db_settings raw))));
   ("streamSettings", VObj (stream_of_row (db_streamSettings raw))); ("sniffing", VObj (coerceInboundJsonField (db_sniffing raw)))].

End Rows.

(** ** Filling in defaults *)

Lemma or_nullish_solid v d : is_nullish v = false -> or_nullish v d = v.
Proof. by destruct v. Qed.

Lemma or_nullish_nonnull v d : is_nullish d = false -> is_nullish (or_nullish v d) = false.
Proof. by destruct v. Qed.

Lemma parseOrDefault_accepted schema v : part_schema schema -> let d := parseOrDefault schema v in schema d = Some d /\ is_nullish d = false.
Proof.
  intros [S E O] d. assert (K : exists w, schema w = Some d).
  { unfold d, parseOrDefault. destruct (schema (or_nullish v (VObj []))) as [d'|] eqn:P; [by eexists|]. destruct E as [d0 E0]. rewrite E0. by eexists. }
  destruct K as [w K]. split; [exact (S _ _ K)|]. by destruct (O _ _ K) as [o ->].
Qed.

Lemma fill_at_fixed key schema o : schema (obj_get o key) = Some (obj_get o key) -> is_nullish (obj_get o key) = false -> fill_at key schema o = o.
Proof.
  intros E N. unfold fill_at, parseOrDefault. rewrite or_nullish_solid, E by done. apply obj_set_same, obj_get_has. by intros H; rewrite H in N.
Qed.

(** Which schema governs which key of a stream, by the network and the security it names. *)
Definition PARTS : list (string * string * string * schema) :=
  [("network", "tcp", "tcpSettings", TcpStreamSettingsSchema); ("network", "kcp", "kcpSettings", KcpStreamSettingsSchema);
   ("network", "ws", "wsSettings", WsStreamSettingsSchema); ("network", "grpc", "grpcSettings", GrpcStreamSettingsSchema);
   ("network", "httpupgrade", "httpupgradeSettings", HttpUpgradeStreamSettingsSchema); ("network", "xhttp", "xhttpSettings", XHttpStreamSettingsSchema);
   ("network", "hysteria", "hysteriaSettings", HysteriaStreamSettingsSchema);
   ("security", "tls", "tlsSettings", TlsStreamSettingsSchema); ("security", "reality", "realitySettings", RealityStreamSettingsSchema)].

Definition governs (o : obj) (key : string) (schema : schema) : Prop :=
  exists field value, In (field, value, key, schema) PARTS /\ obj_get o field = VStr value.

Lemma parts_schemas : Forall (fun p => part_schema p.2) PARTS.
Proof. repeat (apply List.Forall_cons; [split; exact _|]). apply List.Forall_nil. Qed.

Lemma governs_schema o key schema : governs o key schema -> part_schema schema.
Proof. intros (f & v & I & _). exact (proj1 (List.Forall_forall _ _) parts_schemas _ I). Qed.

Lemma network_part n key schema : lookup_key NETWORK_KEY_MAP n = Some key /\ networkSchemaFor n = Some schema <-> In ("network", n, key, schema) PARTS.
Proof.
  split.
  - intros [K E]. unfold networkSchemaFor in E.
    repeat match type of E with context [String.eqb n ?x] => destruct (String.eqb_spec n x) as [->|_]; [vm_compute in K; injection E as <-; injection K as <-; cbn; tauto|] end.
    discriminate.
  - intros I. cbn in I. repeat (destruct I as [I|I]; [first [discriminate I|injection I; intros; subst; split; reflexivity]|]). done.
Qed.

Lemma security_part s key schema : securitySchemaFor s = Some (key, schema) <-> In ("security", s, key, schema) PARTS.
Proof.
  split.
  - unfold securitySchemaFor. intros E.
    repeat match type of E with context [String.eqb s ?x] => destruct (String.eqb_spec s x) as [->|_]; [injection E as <- <-; cbn; tauto|] end. discriminate.
  - intros I. cbn in I. repeat (destruct I as [I|I]; [first [discriminate I|injection I; intros; subst; reflexivity]|]). done.
Qed.

(** The part a field of a stream selects, if any. *)
Definition network_of (net : jsval) : option (string * schema) :=
  match net with
  | VStr n => match lookup_key NETWORK_KEY_MAP n, networkSchemaFor n with Some key, Some schema => Some (key, schema) | _, _ => None end
  | _ => None
  end.
Definition security_of (sec : jsval) : option (string * schema) := match sec with VStr s => securitySchemaFor s | _ => None end.
Definition fill_part (part : option (string * schema)) (o : obj) : obj := match part with Some (key, schema) => fill_at key schema o | None => o end.

Lemma fill_network_part net o : fill_network net o = fill_part (network_of net) o.
Proof. destruct net as [| | | |n| |]; try done. cbn. by destruct (lookup_key _ _), (networkSchemaFor n). Qed.

Lemma fill_security_part sec o : fill_security sec o = fill_part (security_of sec) o.
Proof. destruct sec as [| | | |s| |]; done. Qed.

Lemma network_of_in net key schema : network_of net = Some (key, schema) <-> exists n, net = VStr n /\ In ("network", n, key, schema) PARTS.
Proof.
  split.
  - intros E. destruct net as [| | | |n| |]; try done. exists n. split; [done|]. apply network_part. cbn in E. destruct (lookup_key _ _), (networkSchemaFor n); try done. by injection E as <- <-.
  - intros (n & -> & I). apply network_part in I as [K E]. cbn. by rewrite K, E.
Qed.

Lemma security_of_in sec key schema : security_of sec = Some (key, schema) <-> exists s, sec = VStr s /\ In ("security", s, key, schema) PARTS.
Proof.
  split.
  - intros E. destruct sec as [| | | |s| |]; try done. exists s. split; [done|]. by apply security_part.
  - intros (s & -> & I). by apply security_part in I.
Qed.

Lemma governs_iff o key schema : governs o key schema <-> network_of (obj_get o "network") = Some (key, schema) \/ security_of (obj_get o "security") = Some (key, schema).
Proof.
  rewrite network_of_in, security_of_in. split.
  - intros (field & x & I & E). assert (F : field = "network" \/ field = "security").
    { clear E. cbn in I. repeat (destruct I as [I|I]; [injection I; intros; subst; tauto|]). done. }
    destruct F as [-> | ->]; eauto.
  - intros [H|H]; destruct H as (x & E & I); eexists _, x; eauto.
Qed.

(** The keys of the parts are no other fields, and those of the networks not those of the securities. *)
Lemma part_keys : (forall f x key schema, In (f, x, key, schema) PARTS -> key <> "network" /\ key <> "security") /\
  forall n k1 s1 s k2 s2, In ("network", n, k1, s1) PARTS -> In ("security", s, k2, s2) PARTS -> k1 <> k2.
Proof.
  split.
  - intros f x key schema I. cbn in I. repeat (destruct I as [I|I]; [injection I; intros; subst; split; discriminate|]). done.
  - intros n k1 s1 s k2 s2 I J. cbn in I, J. repeat (destruct I as [I|I]; [first [discriminate I|injection I; intros; subst; clear I;
      repeat (destruct J as [J|J]; [first [discriminate J|injection J; intros; subst; discriminate]|]); done]|]). done.
Qed.

(** Two parts filled in one after the other. *)
Lemma fill_parts_spec F1 F2 o : (forall key schema, F1 = Some (key, schema) \/ F2 = Some (key, schema) -> part_schema schema) ->
  (forall k1 s1 k2 s2, F1 = Some (k1, s1) -> F2 = Some (k2, s2) -> k1 <> k2) -> let filled := fill_part F2 (fill_part F1 o) in
  (forall key schema, F1 = Some (key, schema) \/ F2 = Some (key, schema) -> obj_get filled key = parseOrDefault schema (obj_get o key)) /\
  (forall k, (forall key schema, F1 = Some (key, schema) \/ F2 = Some (key, schema) -> key <> k) -> obj_get filled k = obj_get o k /\ obj_has filled k = obj_has o k) /\
  fill_part F2 (fill_part F1 filled) = filled.
Proof.
  intros P D filled.
  assert (A : forall key schema, F1 = Some (key, schema) \/ F2 = Some (key, schema) -> obj_get filled key = parseOrDefault schema (obj_get o key)).
  { intros key schema [E|E]; unfold filled.
    - rewrite E in D |- *. destruct F2 as [[k2 s2]|]; cbn [fill_part]; unfold fill_at; [rewrite obj_get_set_ne by (apply not_eq_sym; by eapply D)|]; by rewrite obj_get_set_eq.
    - rewrite E in D |- *. cbn [fill_part]. unfold fill_at. rewrite obj_get_set_eq. f_equal. destruct F1 as [[k1 s1]|]; [|done]. cbn. unfold fill_at.
      rewrite obj_get_set_ne by (by eapply D). done. }
  split; [exact A|]. split.
  - intros k N. unfold filled. assert (B : forall F o, (forall key schema, F = Some (key, schema) -> key <> k) -> obj_get (fill_part F o) k = obj_get o k /\ obj_has (fill_part F o) k = obj_has o k).
    { intros [[key schema]|] o' H; [|done]. cbn [fill_part]. unfold fill_at. pose proof (H key schema eq_refl). rewrite obj_get_set_ne, obj_has_set by done.
      by rewrite (proj2 (String.eqb_neq k key)) by congruence. }
    destruct (B F2 (fill_part F1 o)) as [-> ->]; [eauto|]. apply B. eauto.
  - assert (B : forall F, F = F1 \/ F = F2 -> fill_part F filled = filled).
    { intros [[key schema]|] H; [|done]. assert (H' : F1 = Some (key, schema) \/ F2 = Some (key, schema)) by (destruct H; eauto). cbn.
      destruct (parseOrDefault_accepted schema (obj_get o key) (P key schema H')). apply fill_at_fixed; by rewrite (A key schema H'). }
    by rewrite (B F1), (B F2) by auto.
Qed.

(** The stream before its parts are filled in. *)
Definition named (stream : obj) : obj :=
  obj_set (obj_set stream "network" (or_nullish (obj_get stream "network") (VStr "tcp"))) "security" (or_nullish (obj_get stream "security") (VStr "none")).

Lemma named_get stream : obj_get (named stream) "network" = or_nullish (obj_get stream "network") (VStr "tcp") /\
  obj_get (named stream) "security" = or_nullish (obj_get stream "security") (VStr "none") /\
  forall k, k <> "network" -> k <> "security" -> obj_get (named stream) k = obj_get stream k /\ obj_has (named stream) k = obj_has stream k.
Proof.
  unfold named. rewrite obj_get_set_ne, !obj_get_set_eq by done. split; [done|]. split; [done|]. intros k N1 N2. rewrite !obj_get_set_ne, !obj_has_set by congruence.
  by rewrite (proj2 (String.eqb_neq _ _) N1), (proj2 (String.eqb_neq _ _) N2).
Qed.

(** C36. A row whose stream was filled in names a network and a security (tcp and none when it did not), has settings that the
    schema of that network and that of that security accept as they are, and keeps everything else: any other part, those of
    other networks too, and its own settings where the schema accepts them as they are.  Filling it in again changes nothing. *)
Theorem fillStreamDefaults_filled stream : let filled := fillStreamDefaults stream in
  obj_get filled "network" = or_nullish (obj_get stream "network") (VStr "tcp") /\
  obj_get filled "security" = or_nullish (obj_get stream "security") (VStr "none") /\
  (forall key schema, governs filled key schema ->
     schema (obj_get filled key) = Some (obj_get filled key) /\
     (schema (obj_get stream key) = Some (obj_get stream key) -> obj_get filled key = obj_get stream key)) /\
  (forall k, k <> "network" -> k <> "security" -> (forall schema, ~ governs filled k schema) ->
     obj_get filled k = obj_get stream k /\ obj_has filled k = obj_has stream k) /\
  fillStreamDefaults filled = filled.
Proof.
  destruct (named_get stream) as (Gn & Gs & Go). set (net := or_nullish (obj_get stream "network") (VStr "tcp")) in *. set (sec := or_nullish (obj_get stream "security") (VStr "none")) in *.
  assert (E : forall s, or_nullish (obj_get s "network") (VStr "tcp") = net -> or_nullish (obj_get s "security") (VStr "none") = sec ->
    fillStreamDefaults s = fill_part (security_of sec) (fill_part (network_of net) (named s))).
  { intros s <- <-. by rewrite <-fill_network_part, <-fill_security_part. }
  intros filled. assert (F : filled = fill_part (security_of sec) (fill_part (network_of net) (named stream))) by (by apply E). clearbody filled.
  assert (P : forall key schema, network_of net = Some (key, schema) \/ security_of sec = Some (key, schema) -> governs (named stream) key schema) by (intros; apply governs_iff; by rewrite Gn, Gs).
  destruct (fill_parts_spec (network_of net) (security_of sec) (named stream)) as (A & B & C).
  { intros key schema H. by eapply governs_schema, P. }
  { intros k1 s1 k2 s2 (n & _ & I)%network_of_in (s & _ & J)%security_of_in. by eapply part_keys. }
  rewrite <-F in A, B, C. assert (K : forall key schema, network_of net = Some (key, schema) \/ security_of sec = Some (key, schema) -> key <> "network" /\ key <> "security").
  { intros key schema (f & x & I & _)%P. by eapply part_keys. }
  assert (Fn : obj_get filled "network" = net) by (rewrite <-Gn; apply B; intros; by eapply K).
  assert (Fs : obj_get filled "security" = sec) by (rewrite <-Gs; apply B; intros; by eapply K).
  assert (Nn : is_nullish net = false) by (by apply or_nullish_nonnull). assert (Ns : is_nullish sec = false) by (by apply or_nullish_nonnull).
  split; [done|]. split; [done|]. split; [|split].
  - intros key schema H%governs_iff. rewrite Fn, Fs in H. rewrite (A key schema H), (proj1 (Go key ltac:(by eapply K) ltac:(by eapply K))).
    pose proof (governs_schema _ _ _ (P key schema H)) as S. split; [apply (parseOrDefault_accepted schema _ S)|]. intros X. destruct (ps_object _ S _ _ X) as [o' O].
    unfold parseOrDefault. rewrite O in X |- *. rewrite or_nullish_solid, X by done. done.
  - intros k N1 N2 H. destruct (B k) as [-> ->]; [|by apply Go]. intros key schema G ->. apply (H schema), governs_iff. by rewrite Fn, Fs.
  - rewrite E by (rewrite ?Fn, ?Fs; by apply or_nullish_solid). unfold named. rewrite Fn, Fs, !or_nullish_solid by done.
    rewrite <-Fn at 2. rewrite obj_set_same by (apply obj_get_has; rewrite Fn; by destruct net). rewrite <-Fs at 2. rewrite obj_set_same by (apply obj_get_has; rewrite Fs; by destruct sec). exact C.
Qed.

(** A stored WebSocket stream with a broken part, REALITY settings under a former name and a part of another network. *)
Definition stored_stream : obj :=
  [("network", VStr "ws"); ("wsSettings", VObj [("path", VInt 1)]); ("tcpSettings", VNull); ("security", VStr "reality");
   ("realitySettings", VObj [("dest", VStr "a.example:443")])].

Lemma fillStreamDefaults_filled_witness :
  let filled := fillStreamDefaults stored_stream in
  obj_get filled "wsSettings" =
    VObj [("acceptProxyProtocol", VBool false); ("path", VStr "/"); ("host", VStr ""); ("headers", VObj []); ("heartbeatPeriod", VInt 0)] /\
  JsValue.get (obj_get filled "realitySettings") "target" = VStr "a.example:443" /\ obj_get filled "tcpSettings" = VNull /\
  RealityStreamSettingsSchema (obj_get filled "realitySettings") = Some (obj_get filled "realitySettings") /\ fillStreamDefaults filled = filled.
Proof.
  destruct (fillStreamDefaults_filled stored_stream) as (_ & _ & A & B & C). split; [reflexivity|]. split; [reflexivity|]. split; [|split; [|exact C]].
  - apply (B "tcpSettings"); [discriminate|discriminate|]. intros schema (f & x & I & E).
    cbn in I. repeat (destruct I as [I|I]; [first [discriminate I|injection I; intros; subst; vm_compute in E; discriminate E]|]). done.
  - apply A. exists "security", "reality". split; [cbn; tauto|reflexivity].
Defined.

(** ** Generated secrets *)

Lemma String_get_some n s : (n < String.length s)%nat -> exists c, String.get n s = Some c.
Proof. revert n. induction s as [|c s IH]; intros [|n] H; cbn in *; try lia; [eauto|]. apply IH. lia. Qed.

Lemma get_forall f n s c : String.get n s = Some c -> forall_chars f s = true -> f c = true.
Proof. revert n. induction s as [|d s IH]; intros [|n] E H; cbn in *; try discriminate; apply andb_true_iff in H as [H1 H2]; [by injection E as <-|eauto]. Qed.

Lemma char_at_one s v f : s <> "" -> forall_chars f s = true -> exists c, char_at s v = String c "" /\ f c = true.
Proof.
  intros N F. unfold char_at. destruct (String_get_some (Z.to_nat (v mod Z.of_nat (String.length s))) s) as [c E].
  - assert (0 < Z.of_nat (String.length s)) by (destruct s; [done|cbn; lia]). pose proof (Z.mod_pos_bound v _ H). lia.
  - rewrite E. eauto using get_forall.
Qed.

Lemma join_empty_cons x l : join "" (x :: l) = x +:+ join "" l.
Proof. destruct l; [by rewrite app_nil_r_str|done]. Qed.

(** A random sequence has one character of the alphabet per word. *)
Lemma randomSeq_chars o f ws : getSeq o <> "" -> forall_chars f (getSeq o) = true ->
  String.length (randomSeq ws o) = length ws /\ forall_chars f (randomSeq ws o) = true.
Proof.
  intros N F. unfold randomSeq. induction ws as [|w ws [IH1 IH2]]; [done|]. destruct (char_at_one (getSeq o) w f N F) as (c & E & Hc).
  cbn [map]. rewrite join_empty_cons, E. cbn. by rewrite IH1, Hc.
Qed.

(** *** MTProto secrets *)

Fixpoint read_hex (s : string) : option string :=
  match s with
  | "" => Some ""
  | String a (String b s) =>
      match hex_digit a, hex_digit b, read_hex s with
      | Some x, Some y, Some r => Some (String (char_of (16 * x + y)) r)
      | _, _, _ => None
      end
  | String _ "" => None
  end.

(** The domain a FakeTLS secret fronts: after the marker and sixteen bytes. *)
Definition secret_domain (secret : string) : option string :=
  if starts_with secret "ee" && Nat.leb 34 (String.length secret) then read_hex (str_drop 34 secret) else None.

Lemma hex_lower_digit n : 0 <= n < 16 -> hex_digit (hex_lower n) = Some n.
Proof.
  intros H. rewrite <-(Z2Nat.id n) by lia. assert (L : (Z.to_nat n < 16)%nat) by lia. revert L. generalize (Z.to_nat n). intros k L.
  do 16 (destruct k as [|k]; [reflexivity|]). lia.
Qed.

Lemma read_domainToHex s : read_hex (domainToHex s) = Some s.
Proof.
  induction s as [|c s IH]; [done|]. cbn [domainToHex read_hex]. rewrite !hex_lower_digit, IH.
  - rewrite <-Z.div_mod by lia. f_equal. f_equal. by destruct c as [[] [] [] [] [] [] [] []].
  - apply Z.mod_pos_bound. lia.
  - assert (0 <= code c < 256) by (by destruct c as [[] [] [] [] [] [] [] []]). split; [apply Z.div_pos; lia|apply Z.div_lt_upper_bound; lia].
Qed.

Lemma domainToHex_hex s : forall_chars is_hex (domainToHex s) = true.
Proof. induction s as [|c s IH]; [done|]. cbn [domainToHex forall_chars]. rewrite IH. by destruct c as [[] [] [] [] [] [] [] []]. Qed.

(** A generated MTProto secret names the domain it was made for, whatever the random words, and is
    made of lowercase hexadecimal digits. *)
Theorem mtproto_secret_read rnd domain : length (words rnd "secret" 32) = 32%nat ->
  secret_domain (generateMtprotoSecret rnd domain) = Some domain /\ forall_chars is_hex (generateMtprotoSecret rnd domain) = true.
Proof.
  intros L. destruct (randomSeq_chars hex_options is_hex (words rnd "secret" 32)) as [Hl Hc]; [done|done|]. rewrite L in Hl. unfold generateMtprotoSecret.
  set (r := randomSeq _ _) in *. split.
  - unfold secret_domain. rewrite starts_with_app. rewrite !length_app_str, Hl. cbn [String.length Nat.add Nat.leb andb].
    rewrite <-app_assoc_str. replace 34%nat with (String.length ("ee" +:+ r)) by (by rewrite length_app_str, Hl). rewrite str_drop_app. apply read_domainToHex.
  - by rewrite !forall_chars_app, Hc, domainToHex_hex.
Qed.

Definition sample_random : Random :=
  {| words := fun _ n => repeat 5 n; rnd8 := fun _ n => repeat 7 n; page_protocol := "http:"; platform_uuid := ""; draws := [] |}.

Lemma mtproto_secret_read_witness : secret_domain (generateMtprotoSecret sample_random "example.org") = Some "example.org".
Proof. apply (mtproto_secret_read sample_random "example.org"). reflexivity. Defined.

(** *** Credentials of clients and inbounds *)

(** The random functions return as many words and bytes as they are asked for. *)
Record random_ok (rnd : Random) : Prop := {
  ro_words : forall field n, length (words rnd field n) = n;
  ro_bytes : forall field n, bytes n (rnd8 rnd field n) }.

Definition lower_or_digit (c : ascii) : bool := str_includes "0123456789abcdefghijklmnopqrstuvwxyz" (String c "").

Definition text_at (o : obj) (k : string) : string := match obj_get o k with VStr s => s | _ => "" end.

Lemma lower_of_text rnd field n : random_ok rnd -> String.length (lower_of rnd field n) = n /\ forall_chars lower_or_digit (lower_of rnd field n) = true.
Proof.
  intros R. unfold lower_of, randomLowerAndNum. rewrite <-(ro_words rnd R field n) at 2. by apply randomSeq_chars.
Qed.

Lemma new_keypair_ok rnd field : random_ok rnd -> exists kp,
  new_keypair rnd field = Some kp /\ generateKeypair (privateKey kp) [] = Some kp /\ keyToBase64 (generatePrivateKey (rnd8 rnd field 32)) = privateKey kp.
Proof.
  intros R. destruct (generateKeypair_consistent (rnd8 rnd field 32) [] (ro_bytes rnd R _ _)) as [E1 E2].
  eexists. refine (conj E1 (conj E2 _)). cbn [privateKey]. apply keyToBase64_btoa; apply clamp_spec, R.
Qed.

(** What the credentials of a new inbound satisfy: a Shadowsocks password has the length its method asks
    for, the key pair of an AmneziaWG server is consistent, accounts have random names and passwords. *)
Theorem default_credentials rnd settings protocol : random_ok rnd -> createDefaultInboundSettings rnd protocol = Some settings ->
  (protocol = "shadowsocks" -> isShadowsocks2022Password (text_at settings "password") (text_at settings "method") = true) /\
  (protocol = "wireguard" -> exists kp, generateKeypair (text_at settings "secretKey") [] = Some kp /\ privateKey kp = text_at settings "secretKey") /\
  (protocol = "amneziawg" -> exists server, obj_get settings "server" = VObj server /\
      exists kp, generateKeypair (text_at server "privateKey") [] = Some kp /\ publicKey kp = text_at server "publicKey") /\
  (In protocol ["http"; "mixed"] -> exists a, obj_get settings "accounts" = VArr [VObj a] /\
      String.length (text_at a "user") = 8%nat /\ String.length (text_at a "pass") = 12%nat).
Proof.
  intros R E. split; [|split; [|split]].
  - intros ->. injection E as <-. refine (randomShadowsocksPassword_accepted _ _ _). intros n. apply R.
  - intros ->. injection E as <-. destruct (new_keypair_ok rnd "secretKey" R) as (kp & _ & E & K). exists kp.
    change (text_at _ "secretKey") with (keyToBase64 (generatePrivateKey (rnd8 rnd "secretKey" 32))). rewrite K. by split.
  - intros ->. change (createDefaultAmneziawgInboundSettings rnd = Some settings) in E. unfold createDefaultAmneziawgInboundSettings in E.
    destruct (new_keypair_ok rnd "server" R) as (kp & E1 & E2 & _). rewrite E1 in E.
    destruct (generateAwgObfuscation _ _) as [[o ds]|]; [|discriminate]. injection E as <-. eexists. split; [reflexivity|]. exists kp. split; [exact E2|reflexivity].
  - intros H. destruct (lower_of_text rnd "user" 8 R) as [U _]. destruct (lower_of_text rnd "pass" 12 R) as [V _].
    destruct H as [<-|[<-|[]]]; injection E as <-; (eexists; split; [reflexivity|]; by split).
Qed.

Lemma sample_random_ok : random_ok sample_random.
Proof. split; intros field n; [apply repeat_length|apply bytes_repeat]. Qed.

Lemma default_credentials_witness :
  let settings := createDefaultShadowsocksInboundSettings sample_random None None None None in
  isShadowsocks2022Password (text_at settings "password") (text_at settings "method") = true.
Proof. apply (default_credentials sample_random _ "shadowsocks" sample_random_ok); reflexivity. Defined.
