(* ===== verification/InboundModal.v ===== *)
(** * The inbound modal

    Models the logic of src/frontend/src/pages/inbounds/form/InboundFormModal.tsx: the effects that keep the tag,
    the share-address strategy, the traffic multiplier and the public key of AmneziaWG in step with the other fields, in an
    open or closed modal; NODE_ELIGIBLE_PROTOCOLS of lib/xray/node-protocols.ts.  The handlers of the pickers are in InboundStream.v.

    The form is a store: [setValue], [getValues] and [reset] act on it at once.  A render reads it; the
    effects of a commit run in the order of the source, each when one of its dependencies differs from
    the render before, and see the values of their render where the source reads a watched value and the
    store where it calls [getValues].  A changed store is rendered again.  A render computes the public keys of the
    private keys being edited and raises when one is not base64: [render_raises] says when, and [commit] is what
    follows a render that does not. *)
From S2P Require Import Prelude JsString JsValue Base64 InboundForm InboundTag.
Local Open Scope Z_scope.

(** ** The form *)

(** The fields the effects and handlers write; the others stay. *)
Definition put (v : InboundFormValues) (port : Z) (tag : string) (stream : option obj) (multiplier : Z) (nodeId : option Z)
    (strategy addr : string) (disableFlow : bool) (protocol : string) (settings : obj) : InboundFormValues :=
  {| f_remark := f_remark v; f_enable := f_enable v; f_port := port; f_listen := f_listen v; f_tag := tag; f_expiryTime := f_expiryTime v;
     f_sniffing := f_sniffing v; f_streamSettings := stream; f_up := f_up v; f_down := f_down v; f_total := f_total v;
     f_speedLimitKbps := f_speedLimitKbps v; f_speedLimitUpKbps := f_speedLimitUpKbps v; f_speedLimitDownKbps := f_speedLimitDownKbps v;
     f_trafficMultiplierBps := multiplier; f_trafficReset := f_trafficReset v; f_trafficResetDay := f_trafficResetDay v;
     f_trafficResetInterval := f_trafficResetInterval v; f_lastTrafficResetTime := f_lastTrafficResetTime v; f_nodeId := nodeId;
     f_shareAddrStrategy := strategy; f_shareAddr := addr; f_subSortIndex := f_subSortIndex v; f_disableFlow := disableFlow;
     f_protocol := protocol; f_settings := settings |}.

Definition set_tag (t : string) (v : InboundFormValues) : InboundFormValues :=
  put v (f_port v) t (f_streamSettings v) (f_trafficMultiplierBps v) (f_nodeId v) (f_shareAddrStrategy v) (f_shareAddr v) (f_disableFlow v) (f_protocol v) (f_settings v).
Definition set_share (strategy addr : string) (v : InboundFormValues) : InboundFormValues :=
  put v (f_port v) (f_tag v) (f_streamSettings v) (f_trafficMultiplierBps v) (f_nodeId v) strategy addr (f_disableFlow v) (f_protocol v) (f_settings v).
Definition set_multiplier (m : Z) (v : InboundFormValues) : InboundFormValues :=
  put v (f_port v) (f_tag v) (f_streamSettings v) m (f_nodeId v) (f_shareAddrStrategy v) (f_shareAddr v) (f_disableFlow v) (f_protocol v) (f_settings v).
Definition set_settings (o : obj) (v : InboundFormValues) : InboundFormValues :=
  put v (f_port v) (f_tag v) (f_streamSettings v) (f_trafficMultiplierBps v) (f_nodeId v) (f_shareAddrStrategy v) (f_shareAddr v) (f_disableFlow v) (f_protocol v) o.
Definition set_stream (s : obj) (v : InboundFormValues) : InboundFormValues :=
  put v (f_port v) (f_tag v) (Some s) (f_trafficMultiplierBps v) (f_nodeId v) (f_shareAddrStrategy v) (f_shareAddr v) (f_disableFlow v) (f_protocol v) (f_settings v).

(** ** Watched values *)

Definition NODE_ELIGIBLE_PROTOCOLS : list string := ["vless"; "vmess"; "trojan"; "shadowsocks"; "hysteria"; "wireguard"].
Definition eligible_protocol (p : string) : bool := existsb (String.eqb p) NODE_ELIGIBLE_PROTOCOLS.

Definition stream_of (v : InboundFormValues) : obj := default [] (f_streamSettings v).

Definition watched_network (v : InboundFormValues) : jsval := or_nullish (obj_get (stream_of v) "network") (VStr "").
Definition mixedUdpOn (v : InboundFormValues) : jsval := or_nullish (obj_get (f_settings v) "udp") (VBool false).

(** The dependencies of the effect that derives the tag. *)
Definition tag_deps (v : InboundFormValues) : Z * option Z * string * jsval * jsval * jsval * jsval :=
  (f_port v, f_nodeId v, f_protocol v, watched_network v, mixedUdpOn v, obj_get (f_settings v) "network", obj_get (f_settings v) "allowedNetwork").

Definition currentTagInput (v : InboundFormValues) : InboundTagInput :=
  {| ti_port := Some (f_port v); ti_nodeId := f_nodeId v; ti_protocol := f_protocol v;
     ti_streamSettings := VObj [("network", watched_network v)];
     ti_settings := VObj [("network", obj_get (f_settings v) "network"); ("allowedNetwork", obj_get (f_settings v) "allowedNetwork"); ("udp", mixedUdpOn v)] |}.

(** The input of the test made when the modal opens. *)
Definition initialTagInput (v : InboundFormValues) : InboundTagInput :=
  {| ti_port := Some (f_port v); ti_nodeId := f_nodeId v; ti_protocol := f_protocol v;
     ti_streamSettings := VObj (stream_of v); ti_settings := VObj (f_settings v) |}.

(** The public key of a private key that is being edited; [None]: computing it raises, and with it the render. *)
Definition public_of (key : jsval) : option string :=
  match key with VStr k => if String.eqb k "" then Some "" else option_map publicKey (generateKeypair k []) | _ => Some "" end.

Definition wgSecretKey (v : InboundFormValues) : jsval := obj_get (f_settings v) "secretKey".
Definition awgPrivateKey (v : InboundFormValues) : jsval := get (obj_get (f_settings v) "server") "privateKey".

(** A render computes both keys, whatever the protocol. *)
Definition render_raises (v : InboundFormValues) : bool :=
  match public_of (wgSecretKey v), public_of (awgPrivateKey v) with Some _, Some _ => false | _, _ => true end.

(** The key of a render that does not raise. *)
Definition awgPubKey (v : InboundFormValues) : string := default "" (public_of (awgPrivateKey v)).

(** [setV('settings.server.publicKey', k)]: the path is created where there is no object. *)
Definition put_public (k : string) (settings : obj) : obj :=
  match obj_get settings "server" with
  | VObj o => obj_set settings "server" (VObj (obj_set o "publicKey" (VStr k)))
  | VArr _ => settings
  | _ => obj_set settings "server" (VObj [("publicKey", VStr k)])
  end.

(** ** Renders and effects *)

(** What a render sees: the properties and the form. *)
Record view := { v_open : bool; v_fetched : bool; v_nodes : bool; v_form : InboundFormValues }.

Record modal := {
  isOpen : bool;
  nodesFetched : bool;        (** [availableNodesFetched] *)
  nodesThere : bool;          (** [selectableNodes.length > 0] *)
  form : InboundFormValues;   (** the store *)
  rendered : option view;     (** the last committed render *)
  autoTag : bool;             (** [autoTagRef] *)
  lastWritten : string        (** [lastWrittenTagRef] *)
}.

Definition with_form (f : InboundFormValues) (s : modal) : modal :=
  {| isOpen := isOpen s; nodesFetched := nodesFetched s; nodesThere := nodesThere s; form := f; rendered := rendered s; autoTag := autoTag s; lastWritten := lastWritten s |}.
Definition with_refs (auto : bool) (last : string) (s : modal) : modal :=
  {| isOpen := isOpen s; nodesFetched := nodesFetched s; nodesThere := nodesThere s; form := form s; rendered := rendered s; autoTag := auto; lastWritten := last |}.
Definition with_rendered (v : view) (s : modal) : modal :=
  {| isOpen := isOpen s; nodesFetched := nodesFetched s; nodesThere := nodesThere s; form := form s; rendered := Some v; autoTag := autoTag s; lastWritten := lastWritten s |}.

Definition view_of (s : modal) : view := {| v_open := isOpen s; v_fetched := nodesFetched s; v_nodes := nodesThere s; v_form := form s |}.

Definition nodeShareOptionAvailable (v : view) : bool := v_nodes v && eligible_protocol (f_protocol (v_form v)).

(** The effect with dependencies [deps] runs: the component was just mounted or one of them changed. *)
Definition changed {A} `{EqDecision A} (deps : view -> A) (prev : option view) (cur : view) : bool :=
  match prev with Some p => negb (bool_decide (deps p = deps cur)) | None => true end.

(** The public key an AmneziaWG inbound stores follows its private key. *)
Definition effect_awg (cur : view) (s : modal) : modal :=
  if String.eqb (f_protocol (v_form cur)) "amneziawg"
  then with_form (set_settings (put_public (awgPubKey (v_form cur)) (f_settings (form s))) (form s)) s else s.

Definition awg_deps (v : view) : string * string := (awgPubKey (v_form v), f_protocol (v_form v)).

(** The opening effect: the form is reset to the values of the row. *)
Definition effect_open (initial : option InboundFormValues) (s : modal) : modal :=
  match initial with
  | Some v => with_refs (isAutoInboundTag (f_tag v) (initialTagInput v)) (f_tag v) (with_form v s)
  | None => s
  end.

(** A tag typed by the user: is it still a derived one? *)
Definition effect_tag (cur : view) (s : modal) : modal :=
  let wTag := f_tag (v_form cur) in
  if negb (v_open cur) then s
  else if String.eqb wTag (lastWritten s) then s
  else with_refs (isAutoInboundTag wTag (currentTagInput (v_form cur))) (lastWritten s) s.

(** The derived tag follows the fields it is derived from. *)
Definition effect_derive (cur : view) (s : modal) : modal :=
  if negb (v_open cur) || negb (autoTag s) then s
  else
    let next := composeInboundTag (currentTagInput (v_form cur)) in
    if String.eqb next (f_tag (form s)) then s else with_form (set_tag next (form s)) (with_refs (autoTag s) next s).

(** The share-address strategy stays one that is offered. *)
Definition effect_share (cur : view) (s : modal) : modal :=
  let protocol := f_protocol (v_form cur) in
  if negb (v_open cur) || String.eqb protocol "" then s
  else if String.eqb protocol "mtproto" then with_form (set_share "listen" "" (form s)) s
  else if negb (v_fetched cur) then s
  else if negb (nodeShareOptionAvailable cur) && String.eqb (f_shareAddrStrategy (form s)) "node"
  then with_form (set_share "listen" (f_shareAddr (form s)) (form s)) s else s.

(** The multiplier of a TUIC inbound is fixed. *)
Definition effect_tuic (cur : view) (s : modal) : modal :=
  if negb (v_open cur) || negb (String.eqb (f_protocol (v_form cur)) "tuic") then s
  else if f_trafficMultiplierBps (form s) =? 10000 then s else with_form (set_multiplier 10000 (form s)) s.

(** The effects of a render that does not raise ([render_raises]), in the order of the source. *)
Definition commit (initial : option InboundFormValues) (s : modal) : modal :=
  let cur := view_of s in
  let prev := rendered s in
  let s := with_rendered cur s in
  let s := if changed awg_deps prev cur then effect_awg cur s else s in
  let s := effect_open initial s in
  let s := if changed (fun v => (v_open v, f_tag (v_form v))) prev cur then effect_tag cur s else s in
  let s := if changed (fun v => (v_open v, tag_deps (v_form v))) prev cur then effect_derive cur s else s in
  let s := if changed (fun v => (v_open v, v_fetched v, f_protocol (v_form v), nodeShareOptionAvailable v, f_shareAddrStrategy (v_form v))) prev cur
           then effect_share cur s else s in
  if changed (fun v => (v_open v, f_protocol (v_form v))) prev cur then effect_tuic cur s else s.

#[local] Instance form_eq_dec : EqDecision InboundFormValues.
Proof. solve_decision. Defined.

(** Commits until a render finds the store as the one before left it. *)
Fixpoint settle (fuel : nat) (initial : option InboundFormValues) (s : modal) : modal :=
  match fuel with
  | O => s
  | S fuel => let s' := commit initial s in if bool_decide (form s' = form s) then s' else settle fuel None s'
  end.

Definition ROUNDS : nat := 4.

(** ** Events *)

Inductive form_event :=
| Opened (initial : InboundFormValues)                     (** the page opens the modal on a row or with the values of a new inbound *)
| Closed
| Typed (t : string)                                       (** the user edits the tag *)
| Changed (v : InboundFormValues)                          (** any other field changes, by the user or a handler; the tag of [v] is ignored *)
| Nodes (fetched there : bool).                            (** the nodes of the panel arrive *)

Definition apply_event (e : form_event) (s : modal) : modal :=
  match e with
  | Opened _ => {| isOpen := true; nodesFetched := nodesFetched s; nodesThere := nodesThere s; form := form s; rendered := rendered s; autoTag := autoTag s; lastWritten := lastWritten s |}
  | Closed => {| isOpen := false; nodesFetched := nodesFetched s; nodesThere := nodesThere s; form := form s; rendered := rendered s; autoTag := autoTag s; lastWritten := lastWritten s |}
  | Typed t => with_form (set_tag t (form s)) s
  | Changed v => with_form (set_tag (f_tag (form s)) v) s
  | Nodes f t => {| isOpen := isOpen s; nodesFetched := f; nodesThere := t; form := form s; rendered := rendered s; autoTag := autoTag s; lastWritten := lastWritten s |}
  end.

Definition modal_step (e : form_event) (s : modal) : modal :=
  settle ROUNDS (match e with Opened initial => Some initial | _ => None end) (apply_event e s).

Definition mounted (v : InboundFormValues) (fetched there : bool) : modal :=
  {| isOpen := false; nodesFetched := fetched; nodesThere := there; form := v; rendered := None; autoTag := true; lastWritten := "" |}.

(** ** The modal settles *)

(** The parts of the state the share and multiplier effects leave alone. *)
Record same_core (s s' : modal) : Prop := {
  sc_tag : f_tag (form s) = f_tag (form s'); sc_deps : tag_deps (form s) = tag_deps (form s'); sc_auto : autoTag s = autoTag s';
  sc_last : lastWritten s = lastWritten s'; sc_open : isOpen s = isOpen s'; sc_fetched : nodesFetched s = nodesFetched s';
  sc_nodes : nodesThere s = nodesThere s'; sc_rendered : rendered s = rendered s'; sc_settings : f_settings (form s) = f_settings (form s') }.

Lemma core_share cur s : same_core (effect_share cur s) s.
Proof. unfold effect_share. by repeat case_match. Qed.

Lemma core_tuic cur s : same_core (effect_tuic cur s) s.
Proof. unfold effect_tuic. by repeat case_match. Qed.

Lemma core_trans a b c : same_core a b -> same_core b c -> same_core a c.
Proof. intros [] []. split; congruence. Qed.

(** The state after the first effect. *)
Definition key_effect (s : modal) : modal :=
  let s' := with_rendered (view_of s) s in if changed awg_deps (rendered s) (view_of s) then effect_awg (view_of s) s' else s'.

Lemma put_public_other k settings n : n <> "server" -> obj_get (put_public k settings) n = obj_get settings n.
Proof. intros N. unfold put_public. destruct (obj_get settings "server"); by rewrite ?obj_get_set_ne. Qed.

Lemma put_public_private k settings : get (obj_get (put_public k settings) "server") "privateKey" = get (obj_get settings "server") "privateKey".
Proof. unfold put_public. destruct (obj_get settings "server") eqn:E; rewrite ?obj_get_set_eq, ?E; try done. cbn. by rewrite obj_get_set_ne. Qed.

(** What the first effect leaves alone. *)
Lemma key_effect_keeps s : let a := key_effect s in
  (f_tag (form a) = f_tag (form s) /\ tag_deps (form a) = tag_deps (form s) /\ f_shareAddrStrategy (form a) = f_shareAddrStrategy (form s) /\ f_shareAddr (form a) = f_shareAddr (form s)) /\
  (wgSecretKey (form a) = wgSecretKey (form s) /\ awgPrivateKey (form a) = awgPrivateKey (form s)) /\
  isOpen a = isOpen s /\ nodesFetched a = nodesFetched s /\ nodesThere a = nodesThere s /\ rendered a = Some (view_of s) /\ autoTag a = autoTag s /\ lastWritten a = lastWritten s.
Proof.
  unfold key_effect, effect_awg. repeat case_match; cbn; try done. unfold tag_deps, watched_network, mixedUdpOn, stream_of, wgSecretKey, awgPrivateKey. cbn.
  rewrite !put_public_other, put_public_private by done. done.
Qed.

(** The state between the tag effects and the others. *)
Definition tag_effects (initial : option InboundFormValues) (s : modal) : modal :=
  let cur := view_of s in
  let s' := effect_open initial (key_effect s) in
  let s' := if changed (fun v => (v_open v, f_tag (v_form v))) (rendered s) cur then effect_tag cur s' else s' in
  if changed (fun v => (v_open v, tag_deps (v_form v))) (rendered s) cur then effect_derive cur s' else s'.

Lemma commit_tags initial s : commit initial s =
  let s' := if changed (fun v => (v_open v, v_fetched v, f_protocol (v_form v), nodeShareOptionAvailable v, f_shareAddrStrategy (v_form v))) (rendered s) (view_of s)
            then effect_share (view_of s) (tag_effects initial s) else tag_effects initial s in
  if changed (fun v => (v_open v, f_protocol (v_form v))) (rendered s) (view_of s) then effect_tuic (view_of s) s' else s'.
Proof. reflexivity. Qed.

Lemma core_commit initial s : same_core (commit initial s) (tag_effects initial s).
Proof.
  rewrite commit_tags. cbv zeta. repeat case_match; try done; try apply core_tuic; try apply core_share.
  eapply core_trans; [apply core_tuic|apply core_share].
Qed.

Lemma commit_rendered initial s : rendered (commit initial s) = Some (view_of s).
Proof.
  rewrite (sc_rendered _ _ (core_commit initial s)). pose proof (key_effect_keeps s) as (_ & _ & _ & _ & _ & R & _).
  unfold tag_effects, effect_open, effect_tag, effect_derive. repeat case_match; by cbn.
Qed.

Lemma deps_protocol v w : tag_deps v = tag_deps w -> f_protocol v = f_protocol w.
Proof. intros H. by injection H. Qed.

(** The tag effects and the one of the key have nothing to do. *)
Definition synced (s : modal) : Prop := exists p, rendered s = Some p /\ v_open p = isOpen s /\ tag_deps (v_form p) = tag_deps (form s) /\ awgPubKey (v_form p) = awgPubKey (form s) /\
  (f_tag (v_form p) = f_tag (form s) \/ f_tag (form s) = lastWritten s).

Lemma synced_effects s : synced s -> tag_effects None s = with_rendered (view_of s) s.
Proof.
  intros (p & R & O & D & K & T). unfold tag_effects, key_effect. rewrite R. unfold changed, awg_deps. cbn [effect_open v_open v_form view_of].
  rewrite K, (deps_protocol _ _ D), (bool_decide_true ((awgPubKey (form s), f_protocol (form s)) = _)) by done. cbn [negb].
  rewrite O, D. rewrite (bool_decide_true ((isOpen s, tag_deps (form s)) = _)) by done. cbn [negb].
  destruct T as [T|T]; [rewrite T, bool_decide_true by done; done|]. case_match; [|done]. unfold effect_tag. cbn [v_form view_of lastWritten with_rendered].
  rewrite T, String.eqb_refl. by case_match.
Qed.

(** What later rounds of a settling modal keep. *)
Record same_tags (s s' : modal) : Prop := {
  st_tag : f_tag (form s) = f_tag (form s'); st_deps : tag_deps (form s) = tag_deps (form s'); st_auto : autoTag s = autoTag s';
  st_last : lastWritten s = lastWritten s'; st_open : isOpen s = isOpen s' }.

Lemma synced_commit s : synced s -> synced (commit None s) /\ same_tags (commit None s) s.
Proof.
  intros S. pose proof (core_commit None s) as C. rewrite synced_effects in C by done. destruct C as [C1 C2 C3 C4 C5 C6 C7 C8 C9]. cbn in *.
  split; [|by split]. exists (view_of s). cbn. split; [done|]. split; [done|]. split; [done|]. split; [unfold awgPubKey, awgPrivateKey; by rewrite C9|by left].
Qed.

Lemma synced_settle fuel : forall s, synced s -> synced (settle fuel None s) /\ same_tags (settle fuel None s) s.
Proof.
  induction fuel as [|fuel IH]; intros s S; [by split; [|split]|]. cbn [settle]. destruct (synced_commit s S) as [S' T]. case_bool_decide; [by split|].
  destruct (IH _ S') as [S'' T']. split; [done|]. destruct T, T'. split; congruence.
Qed.

(** Settling from a state whose first round synchronises the tag. *)
Lemma settle_first fuel initial s : synced (commit initial s) -> synced (settle (S fuel) initial s) /\ same_tags (settle (S fuel) initial s) (commit initial s).
Proof. intros S. cbn [settle]. case_bool_decide; [by split; [|split]|]. by apply synced_settle. Qed.

Lemma tag_deps_set_tag t v : tag_deps (set_tag t v) = tag_deps v.
Proof. done. Qed.

(** A round without a reset. *)
Lemma tag_effects_none s : let s' := tag_effects None s in
  tag_deps (form s') = tag_deps (form s) /\ (f_tag (form s') = f_tag (form s) \/ f_tag (form s') = lastWritten s') /\
  f_shareAddrStrategy (form s') = f_shareAddrStrategy (form s) /\ f_shareAddr (form s') = f_shareAddr (form s) /\ isOpen s' = isOpen s /\
  wgSecretKey (form s') = wgSecretKey (form s) /\ awgPrivateKey (form s') = awgPrivateKey (form s).
Proof.
  pose proof (key_effect_keeps s) as ((K1 & K2 & K3 & K4) & (K5 & K6) & K7 & _). cbv zeta. unfold tag_effects, effect_tag, effect_derive. cbn [effect_open].
  repeat case_match; cbn; rewrite ?tag_deps_set_tag; auto 10.
Qed.

Lemma commit_synced s : synced (commit None s).
Proof.
  pose proof (core_commit None s) as [C1 C2 C3 C4 C5 C6 C7 C8 C9]. pose proof (tag_effects_none s) as (T1 & T2 & _ & _ & T5 & _ & T6). exists (view_of s).
  split; [apply commit_rendered|]. cbn. split; [congruence|]. split; [congruence|]. split; [unfold awgPubKey; rewrite <-T6; unfold awgPrivateKey; by rewrite C9|]. destruct T2 as [T2|T2]; [left|right]; congruence.
Qed.

Definition share_settled (cur : view) (f : InboundFormValues) : Prop :=
  f_shareAddrStrategy f = "listen" /\ (f_protocol (v_form cur) = "mtproto" -> f_shareAddr f = "").

Lemma share_writes cur s : form (effect_share cur s) = form s \/ share_settled cur (form (effect_share cur s)).
Proof.
  unfold effect_share, share_settled. repeat case_match; try by left.
  - right. cbn. done.
  - right. cbn. split; [done|]. intros E. by rewrite E in *.
Qed.

Lemma share_fixed cur s : share_settled cur (form s) -> form (effect_share cur s) = form s.
Proof.
  intros [L M]. unfold effect_share. rewrite L. repeat case_match; try done.
  - apply String.eqb_eq in H0. specialize (M H0). cbn [form with_form]. destruct (form s). cbn in L, M |- *. by subst.
  - by rewrite andb_false_r in H2.
Qed.

Lemma tuic_share cur s : f_shareAddrStrategy (form (effect_tuic cur s)) = f_shareAddrStrategy (form s) /\ f_shareAddr (form (effect_tuic cur s)) = f_shareAddr (form s).
Proof. unfold effect_tuic. by repeat case_match. Qed.

(** A round that changes the strategy leaves it settled. *)
Lemma commit_share s : f_shareAddrStrategy (form (commit None s)) = f_shareAddrStrategy (form s) \/ share_settled (view_of s) (form (commit None s)).
Proof.
  pose proof (tag_effects_none s) as (_ & _ & T3 & T4 & _). rewrite commit_tags. cbv zeta. set (a := tag_effects None s) in *.
  set (b := if changed _ _ _ then effect_share (view_of s) a else a).
  assert (B : f_shareAddrStrategy (form b) = f_shareAddrStrategy (form s) \/ share_settled (view_of s) (form b)).
  { unfold b. case_match; [|by left]. destruct (share_writes (view_of s) a) as [->|H1]; [by left|by right]. }
  case_match; [|exact B]. pose proof (tuic_share (view_of s) b) as [E1 E2]. destruct B as [B|[B1 B2]]; [left; congruence|right]. unfold share_settled. by rewrite E1, E2.
Qed.

(** The third round changes nothing. *)
Lemma third_round s : isOpen (commit None s) = isOpen s -> nodesFetched (commit None s) = nodesFetched s -> nodesThere (commit None s) = nodesThere s ->
  form (commit None (commit None s)) = form (commit None s).
Proof.
  intros F1 F2 F3. pose proof (commit_share s) as SH. pose proof (commit_synced s) as SY. pose proof (commit_rendered None s) as R. set (a := commit None s) in *.
  assert (D : tag_deps (form a) = tag_deps (form s)).
  { pose proof (tag_effects_none s) as (T1 & _). rewrite <-T1. apply (sc_deps _ _ (core_commit None s)). }
  pose proof (deps_protocol _ _ D) as P.
  rewrite commit_tags. cbv zeta. rewrite synced_effects by done. rewrite R. unfold changed. cbn [v_open v_fetched v_form view_of].
  assert (N : nodeShareOptionAvailable (view_of s) = nodeShareOptionAvailable (view_of a)) by (unfold nodeShareOptionAvailable; cbn; congruence).
  rewrite N, F1, F2, P. rewrite (bool_decide_true ((isOpen s, f_protocol (form s)) = _)) by done. cbn [negb].
  destruct SH as [->|SH]; [by rewrite bool_decide_true|]. case_match; [|done]. rewrite share_fixed; [done|]. cbn [form with_rendered].
  destruct SH as [S1 S2]. split; [done|]. cbn in S2 |- *. by rewrite P.
Qed.

Lemma commit_frame initial s : isOpen (commit initial s) = isOpen s /\ nodesFetched (commit initial s) = nodesFetched s /\ nodesThere (commit initial s) = nodesThere s.
Proof.
  pose proof (core_commit initial s) as [_ _ _ _ -> -> -> _ _]. pose proof (key_effect_keeps s) as (_ & _ & K1 & K2 & K3 & _). unfold tag_effects, effect_open, effect_tag, effect_derive. repeat case_match; by cbn.
Qed.

(** A render that finds the store unchanged is the last one. *)
Definition settled (s : modal) : Prop := rendered s = Some (view_of s).

Lemma unchanged_settled initial s : form (commit initial s) = form s -> settled (commit initial s).
Proof.
  intros E. unfold settled. rewrite commit_rendered. destruct (commit_frame initial s) as (F1 & F2 & F3). unfold view_of. by rewrite E, F1, F2, F3.
Qed.

Lemma step_settles e s : settled (modal_step e s).
Proof.
  unfold modal_step, ROUNDS. generalize (apply_event e s) as a. generalize (match e with Opened i => Some i | _ => None end) as i. clear. intros i s.
  cbn [settle]. case_bool_decide as E1; [by apply unchanged_settled|]. set (a := commit i s) in *.
  case_bool_decide as E2; [by apply unchanged_settled|]. set (b := commit None a) in *.
  assert (E3 : form (commit None b) = form b) by (apply third_round; apply commit_frame). rewrite E3, bool_decide_true by done. by apply unchanged_settled.
Qed.

Lemma settled_synced s : settled s -> synced s.
Proof. intros S. exists (view_of s). repeat split; [exact S|by left]. Qed.

(** In a settled modal no effect runs. *)
Lemma settled_idle s : settled s -> commit None s = s.
Proof.
  intros S. rewrite commit_tags. cbv zeta. rewrite (synced_effects s (settled_synced s S)), S. unfold changed. rewrite !bool_decide_true by done. cbn [negb].
  destruct s. cbn in *. unfold settled in S. cbn in S. by rewrite S.
Qed.

(** The private keys a render computes with. *)
Definition private_keys (v : InboundFormValues) : jsval * jsval := (wgSecretKey v, awgPrivateKey v).

Lemma core_keys a b : same_core a b -> private_keys (form a) = private_keys (form b).
Proof. intros [_ _ _ _ _ _ _ _ C]. unfold private_keys, wgSecretKey, awgPrivateKey. by rewrite C. Qed.

Lemma commit_keys s : private_keys (form (commit None s)) = private_keys (form s).
Proof. rewrite (core_keys _ _ (core_commit None s)). unfold private_keys. by destruct (tag_effects_none s) as (_ & _ & _ & _ & _ & -> & ->). Qed.

Lemma opening_keys i s : private_keys (form (commit (Some i) s)) = private_keys i.
Proof. rewrite (core_keys _ _ (core_commit (Some i) s)). unfold tag_effects, effect_tag, effect_derive, effect_open. by repeat case_match. Qed.

Lemma settle_keys fuel : forall s, private_keys (form (settle fuel None s)) = private_keys (form s).
Proof. induction fuel as [|fuel IH]; intros s; [done|]. cbn [settle]. case_bool_decide; [apply commit_keys|]. by rewrite IH, commit_keys. Qed.

(** The form an event leaves to be rendered: the row that is opened, or the store with the change made. *)
Definition entered (e : form_event) (s : modal) : InboundFormValues := match e with Opened initial => initial | _ => form (apply_event e s) end.

Lemma modal_keys e s : private_keys (form (modal_step e s)) = private_keys (entered e s).
Proof.
  unfold modal_step, ROUNDS, entered. destruct e as [i| | | |]; try apply settle_keys. cbn [settle]. case_bool_decide; [apply opening_keys|]. fold (settle 3). change (private_keys (form (settle 3 None (commit (Some i) (apply_event (Opened i) s)))) = private_keys i).
  rewrite settle_keys. apply opening_keys.
Qed.

(** C37. The effects of the modal that write the form (the public key of AmneziaWG, opening, the tag, the share address, the multiplier
    of TUIC) never run into each other without end: after any event and from any state, within four renders the modal shows what the
    form holds and rendering again runs no effect.  No effect writes a private key, so that a render on the way raises only
    if the form the event left, or the row it opened, holds a key that is not base64. *)
Theorem modal_settles e s :
  settled (modal_step e s) /\ commit None (modal_step e s) = modal_step e s /\ render_raises (form (modal_step e s)) = render_raises (entered e s).
Proof.
  pose proof (step_settles e s) as S. split; [done|]. split; [by apply settled_idle|]. pose proof (modal_keys e s) as [= K1 K2]. unfold render_raises. by rewrite K1, K2.
Qed.

(** Typing or deleting characters of a key raises while the text is no base64, as after one character. *)
Lemma typed_key_raises v : render_raises (set_settings [("secretKey", VStr "a")] v) = true.
Proof. reflexivity. Qed.

(** ** The tag *)

Lemma input_of_deps v w : tag_deps v = tag_deps w -> currentTagInput v = currentTagInput w.
Proof. unfold tag_deps, currentTagInput. intros [= -> -> -> -> -> -> ->]. done. Qed.

(** An edit of the tag in an open modal. *)
Lemma typed_tag t s : settled s -> isOpen s = true -> let s' := modal_step (Typed t) s in
  f_tag (form s') = t /\ tag_deps (form s') = tag_deps (form s) /\ isOpen s' = true /\ lastWritten s' = lastWritten s /\
  autoTag s' = (if String.eqb t (f_tag (form s)) || String.eqb t (lastWritten s) then autoTag s else isAutoInboundTag t (currentTagInput (form s))).
Proof.
  intros S O s'. set (a := apply_event (Typed t) s).
  assert (T : tag_effects None a = with_refs (if String.eqb t (f_tag (form s)) || String.eqb t (lastWritten s) then autoTag s else isAutoInboundTag t (currentTagInput (form s)))
                                     (lastWritten s) (with_rendered (view_of a) a)).
  { unfold tag_effects, key_effect. change (rendered a) with (rendered s). rewrite S. unfold changed, awg_deps. cbn [v_open v_form view_of a apply_event with_form form isOpen].
    rewrite tag_deps_set_tag, (bool_decide_true ((awgPubKey (form s), f_protocol (form s)) = _)) by done.
    rewrite (bool_decide_true ((isOpen s, tag_deps (form s)) = _)) by done. cbn [negb effect_open f_tag set_tag put].
    destruct (String.eqb_spec t (f_tag (form s))) as [E|N]; [rewrite E, bool_decide_true by done; done|]. rewrite bool_decide_false by congruence.
    cbn [negb orb]. unfold effect_tag. cbn. rewrite O. cbn [negb].
    by destruct (String.eqb t (lastWritten s)). }
  pose proof (core_commit None a) as C. rewrite T in C. destruct (settle_first 3 None a (commit_synced a)) as [_ [T1 T2 T3 T4 T5]].
  change (settle 4 None a) with s' in *. destruct C as [C1 C2 C3 C4 C5 C6 C7 C8 C9].
  rewrite T1, T2, T3, T4, T5, C1, C2, C3, C4, C5. repeat split. exact O.
Qed.

(** A change of other fields in an open modal. *)
Lemma changed_tag v s : settled s -> isOpen s = true -> let s' := modal_step (Changed v) s in
  let derived := autoTag s && negb (bool_decide (tag_deps (form s) = tag_deps v)) in
  f_tag (form s') = (if derived then composeInboundTag (currentTagInput v) else f_tag (form s)) /\
  tag_deps (form s') = tag_deps v /\ isOpen s' = true /\ autoTag s' = autoTag s.
Proof.
  intros S O s' derived. set (a := apply_event (Changed v) s). set (next := composeInboundTag (currentTagInput v)).
  assert (T : let b := tag_effects None a in f_tag (form b) = (if derived then next else f_tag (form s)) /\ tag_deps (form b) = tag_deps v /\ isOpen b = true /\
    autoTag b = autoTag s /\ (derived = true -> f_tag (form b) <> f_tag (form s) -> f_tag (form b) = lastWritten b)).
  { pose proof (key_effect_keeps a) as ((K1 & K2 & _ & _) & _ & K3 & _ & _ & _ & K4 & _). unfold tag_effects. set (k := key_effect a) in *. clearbody k.
    change (rendered a) with (rendered s). change (tag_deps (form a)) with (tag_deps v) in K2. change (f_tag (form a)) with (f_tag (form s)) in K1. change (isOpen a) with (isOpen s) in K3. change (autoTag a) with (autoTag s) in K4.
    rewrite S. unfold changed. cbn [v_open v_form view_of a apply_event with_form form isOpen].
    rewrite tag_deps_set_tag. change (f_tag (set_tag (f_tag (form s)) v)) with (f_tag (form s)). rewrite (bool_decide_true ((isOpen s, f_tag (form s)) = _)) by done. cbn [negb effect_open].
    unfold derived. destruct (decide (tag_deps (form s) = tag_deps v)) as [E|N].
    - rewrite !bool_decide_true by congruence. rewrite andb_false_r. cbn [negb]. repeat split; congruence.
    - rewrite (bool_decide_false ((isOpen s, tag_deps (form s)) = _)) by congruence. rewrite (bool_decide_false (tag_deps (form s) = _)) by done. rewrite andb_true_r. cbn [negb].
      unfold effect_derive. cbn [v_open v_form view_of a apply_event with_form form isOpen]. rewrite O, K4. cbn [negb orb]. change (currentTagInput (set_tag (f_tag (form s)) v)) with (currentTagInput v). fold next. rewrite K1.
      destruct (autoTag s) eqn:A; cbn [negb]; [|repeat split; congruence]. destruct (String.eqb_spec next (f_tag (form s))) as [E|N']; cbn; rewrite ?tag_deps_set_tag; repeat split; congruence. }
  pose proof (core_commit None a) as C. cbn zeta in T. destruct T as (T1 & T2 & T3 & T4 & T5). destruct C as [C1 C2 C3 C4 C5 C6 C7 C8 C9].
  destruct (settle_first 3 None a (commit_synced a)) as [_ [D1 D2 D3 D4 D5]]. change (settle 4 None a) with s' in *.
  rewrite D1, D2, D3, D5, C1, C2, C3, C5. done.
Qed.

Definition run_modal (l : list form_event) (s : modal) : modal := fold_left (fun s e => modal_step e s) l s.

Lemma changes_keep vs : forall s, settled s -> isOpen s = true -> autoTag s = false ->
  f_tag (form (run_modal (map Changed vs) s)) = f_tag (form s).
Proof.
  unfold run_modal. induction vs as [|v vs IH]; intros s S O A; [done|]. cbn [map fold_left]. destruct (changed_tag v s S O) as (T1 & T2 & T3 & T4).
  rewrite A in T1, T4. rewrite IH by (done || apply step_settles). exact T1.
Qed.

(** C16. In an open modal a tag of the user's own stays through any sequence of changes to other fields, and a
    derived one follows every change of the fields it is derived from. *)
Theorem tag_policy s : settled s -> isOpen s = true ->
  (forall t vs, t <> f_tag (form s) -> t <> lastWritten s -> isAutoInboundTag t (currentTagInput (form s)) = false ->
     f_tag (form (run_modal (Typed t :: map Changed vs) s)) = t) /\
  (forall v, autoTag s = true -> tag_deps v <> tag_deps (form s) -> f_tag (form (modal_step (Changed v) s)) = composeInboundTag (currentTagInput v)).
Proof.
  intros S O. split.
  - intros t vs N1 N2 A. unfold run_modal. cbn [fold_left]. destruct (typed_tag t s S O) as (T1 & _ & T3 & _ & T5).
    rewrite (proj2 (String.eqb_neq t (f_tag (form s))) N1), (proj2 (String.eqb_neq t (lastWritten s)) N2), A in T5. cbn [orb] in T5.
    etransitivity; [apply changes_keep; [apply step_settles|exact T3|exact T5]|exact T1].
  - intros v A N. destruct (changed_tag v s S O) as (T1 & _). rewrite T1, A, bool_decide_false by congruence. done.
Qed.

(** ** Examples *)

Definition sample_values (protocol tag : string) (port multiplier : Z) (strategy addr : string) : InboundFormValues :=
  {| f_remark := ""; f_enable := true; f_port := port; f_listen := ""; f_tag := tag; f_expiryTime := 0; f_sniffing := None;
     f_streamSettings := Some [("network", VStr "tcp"); ("security", VStr "none")]; f_up := 0; f_down := 0; f_total := 0; f_speedLimitKbps := 0;
     f_speedLimitUpKbps := 0; f_speedLimitDownKbps := 0; f_trafficMultiplierBps := multiplier; f_trafficReset := "never"; f_trafficResetDay := 1;
     f_trafficResetInterval := 1; f_lastTrafficResetTime := 0; f_nodeId := None; f_shareAddrStrategy := strategy; f_shareAddr := addr; f_subSortIndex := 1;
     f_disableFlow := false; f_protocol := protocol; f_settings := [] |}.

(** The modal opened on a new inbound. *)
Definition new_modal : modal :=
  run_modal [Opened (sample_values "vless" "" 30000 10000 "node" "")] (mounted (sample_values "vless" "" 20000 10000 "node" "") true true).

Lemma tag_policy_witness :
  f_tag (form new_modal) = "in-30000-tcp" /\
  f_tag (form (run_modal (Typed "edge" :: map Changed [sample_values "vless" "" 443 10000 "node" ""]) new_modal)) = "edge" /\
  f_tag (form (modal_step (Changed (sample_values "vless" "" 443 10000 "node" "")) new_modal)) = "in-443-tcp".
Proof.
  split; [vm_compute; reflexivity|].
  assert (O : isOpen new_modal = true) by (vm_compute; reflexivity).
  destruct (tag_policy new_modal) as [T1 T2]; [apply step_settles|exact O|]. split.
  - apply T1; [vm_compute; discriminate|vm_compute; discriminate|vm_compute; reflexivity].
  - etransitivity; [apply T2; [vm_compute; reflexivity|vm_compute; discriminate]|vm_compute; reflexivity].
Defined.

(** A derived tag that is replaced and typed again is no longer followed: the test is skipped for the text
    the modal wrote last. *)
Lemma retyped_tag_frozen :
  let s := run_modal [Typed "edge"; Typed "in-30000-tcp"] new_modal in
  isAutoInboundTag (f_tag (form s)) (currentTagInput (form s)) = true /\ autoTag s = false /\
  f_tag (form (modal_step (Changed (sample_values "vless" "" 443 10000 "node" "")) s)) = "in-30000-tcp".
Proof. vm_compute. auto. Qed.

(** Opening the modal on an inbound with a tag of its own replaces the tag by the derived one: the effects
    of the opening commit still see the form of the render before the reset. *)
Lemma opening_overwrites_tag :
  let row := sample_values "vless" "edge" 443 10000 "node" "" in
  isAutoInboundTag (f_tag row) (initialTagInput row) = false /\
  f_tag (form (run_modal [Opened row] (mounted (sample_values "vless" "" 20000 10000 "node" "") true true))) = "in-443-tcp".
Proof. vm_compute. auto. Qed.

(** After a TUIC inbound was shown, the next one opened has its multiplier set to one. *)
Lemma opening_after_tuic :
  let row := sample_values "vless" "in-443-tcp" 443 20000 "node" "" in
  f_trafficMultiplierBps (form (run_modal [Opened (sample_values "tuic" "in-1-udp" 1 10000 "listen" ""); Closed; Opened row] new_modal)) = 10000.
Proof. vm_compute. reflexivity. Qed.

(** After an MTProto inbound was shown, the next one opened loses its custom share address. *)
Lemma opening_after_mtproto :
  let row := sample_values "vless" "in-443-tcp" 443 10000 "custom" "edge.example.org" in
  let f := form (run_modal [Opened (sample_values "mtproto" "in-1-tcp" 1 10000 "listen" ""); Closed; Opened row] new_modal) in
  f_shareAddrStrategy f = "listen" /\ f_shareAddr f = "".
Proof. vm_compute. auto. Qed.
