(* ===== verification/InboundStream.v ===== *)
(** * Picking protocol, network and security of an inbound

    Models the handlers of src/frontend/src/pages/inbounds/form/InboundFormModal.tsx that replace parts of the form when
    a protocol ([methods.watch]) or a network ([onNetworkChange]) is picked, [buildAddModeValues], and
    [onSecurityChange] of useSecurityActions.ts with the key pair the server sends later.  The schemas are those of
    [StreamSchemas]; [None] is the exception of [parse].  The picks are a step system: which are offered depends on the
    protocol and the network shown, and the reply with the key pair may come at any time after its request. *)
From Stdlib Require Import Ascii.
From S2P Require Import Prelude JsString JsValue StreamSchemas RandomUtil InboundForm ProtocolCapabilities InboundDefaults InboundModal.
Local Open Scope Z_scope.

(** ** Nested values *)

(** [setValue] of a path: missing parts become objects. *)
Fixpoint set_path (path : list string) (x : jsval) (v : jsval) : jsval :=
  match path with
  | [] => x
  | k :: path => let o := match v with VObj o => o | _ => [] end in VObj (obj_set o k (set_path path x (obj_get o k)))
  end.

Definition set_in (path : list string) (x : jsval) (o : obj) : obj := match set_path path x (VObj o) with VObj o => o | _ => o end.

(** ** Networks *)

Definition ALL : list string := ["tcpSettings"; "kcpSettings"; "wsSettings"; "grpcSettings"; "httpupgradeSettings"; "xhttpSettings"].
Definition NETWORKS : list string := ["tcp"; "kcp"; "ws"; "grpc"; "httpupgrade"; "xhttp"].

Definition is_mkcp (m : jsval) : bool := is_str (get m "type") "mkcp-legacy".
Definition mkcp_mask : jsval := VObj [("type", VStr "mkcp-legacy"); ("settings", VObj [("header", VStr ""); ("value", VStr "")])].

Definition udp_masks (stream : obj) : list jsval := as_list (get (obj_get stream "finalmask") "udp").

(** The mkcp-legacy mask is there when the network is mKCP, and only then. *)
Definition adjust_masks (next : string) (cleaned : obj) : obj :=
  let fm := obj_get cleaned "finalmask" in
  if String.eqb next "kcp" then
    let udp := udp_masks cleaned in
    if existsb is_mkcp udp then cleaned
    else obj_set cleaned "finalmask" (VObj (obj_set (match fm with VObj o => o | _ => [] end) "udp" (VArr (udp ++ [mkcp_mask]))))
  else
    match fm, get fm "udp" with
    | VObj o, VArr udp => obj_set cleaned "finalmask" (VObj (obj_set o "udp" (VArr (List.filter (fun m => negb (is_mkcp m)) udp))))
    | _, _ => cleaned
    end.

Definition drop_others (key : string) (o : obj) : obj := fold_left (fun o k => if String.eqb k key then o else obj_del o k) ALL o.

Definition newStreamSlice (n : string) : option jsval :=
  if String.eqb n "tcp" then TcpStreamSettingsSchema (VObj [("header", VObj [("type", VStr "none")])])
  else if String.eqb n "kcp" then KcpStreamSettingsSchema (VObj [])
  else if String.eqb n "ws" then WsStreamSettingsSchema (VObj [])
  else if String.eqb n "grpc" then GrpcStreamSettingsSchema (VObj [])
  else if String.eqb n "httpupgrade" then HttpUpgradeStreamSettingsSchema (VObj [])
  else if String.eqb n "xhttp" then XHttpStreamSettingsSchema (VObj [])
  else Some (VObj []).

Definition onNetworkChange (next : string) (current : obj) : option obj :=
  let key := next +:+ "Settings" in
  let cleaned := drop_others key (obj_set current "network" (VStr next)) in
  option_map (fun slice => adjust_masks next (obj_set cleaned key slice)) (newStreamSlice next).

(** ** Security *)

(** [RandomUtil.randomShortIds().split(',').map(trim).filter(Boolean)] *)
Definition short_ids (lengths : list nat) (rnd32 : nat -> nat -> list Z) : jsval :=
  VArr (map VStr (List.filter (fun s => negb (String.eqb s "")) (map trim (split_on ","%char (randomShortIds lengths rnd32))))).

Definition SPIDER_X : list string := ["realitySettings"; "settings"; "spiderX"].

(** The part of [onSecurityChange] before the request; [ids] and [spider] are the random identifiers. *)
Definition onSecurityChange (ids : jsval) (spider : string) (next : string) (current : obj) : option obj :=
  let cleaned := obj_del (obj_del (obj_set current "security" (VStr next)) "tlsSettings") "realitySettings" in
  if String.eqb next "tls" then option_map (fun tls => obj_set cleaned "tlsSettings" (VObj tls)) createTlsSettingsWithDefaultCert
  else if String.eqb next "reality" then
    match RealityStreamSettingsSchema (VObj []) with
    | Some (VObj reality) =>
        let reality := obj_set (obj_set (obj_set reality "target" (VStr "")) "serverNames" (VArr [])) "shortIds" ids in
        Some (set_in SPIDER_X (VStr ("/" +:+ spider)) (obj_set cleaned "realitySettings" (VObj reality)))
    | _ => None
    end
  else Some cleaned.

(** The reply with the key pair. *)
Definition keypair_reply (privateKey publicKey : string) (stream : obj) : obj :=
  set_in ["realitySettings"; "settings"; "publicKey"] (VStr publicKey) (set_in ["realitySettings"; "privateKey"] (VStr privateKey) stream).

(** ** Protocols *)

Definition hysteria_stream (password : string) : option obj :=
  match HysteriaStreamSettingsSchema (VObj []), createHysteriaTlsSettingsWithDefaultCert with
  | Some hysteria, Some tls =>
      Some [("network", VStr "hysteria"); ("security", VStr "tls"); ("hysteriaSettings", hysteria); ("tlsSettings", VObj tls);
            ("finalmask", VObj [("tcp", VArr []); ("udp", VArr [VObj [("type", VStr "salamander"); ("settings", VObj [("password", VStr password)])]])])]
  | _, _ => None
  end.

(** The stream after a protocol was picked. *)
Definition protocol_stream (password next : string) (current : option obj) : option (option obj) :=
  if String.eqb next "hysteria" then option_map Some (hysteria_stream password)
  else if String.eqb next "wireguard" || String.eqb next "tunnel" then Some (Some [("security", VStr "none")])
  else
    let network := obj_get (default [] current) "network" in
    if is_str network "hysteria" || negb (truthy network)
    then Some (Some [("network", VStr "tcp"); ("security", VStr "none"); ("tcpSettings", VObj [])])
    else Some current.

(** The cascade of a picked protocol, in the modal of a new inbound. *)
Definition onProtocolChange (rnd : Random) (next : string) (v : InboundFormValues) : option InboundFormValues :=
  option_map (fun stream =>
    put v (f_port v) (f_tag v) stream (f_trafficMultiplierBps v) (if eligible_protocol next then f_nodeId v else None) (f_shareAddrStrategy v) (f_shareAddr v)
        (if String.eqb next "vless" then f_disableFlow v else false) next (default [] (createDefaultInboundSettings rnd next)))
    (protocol_stream (lower_of rnd "password" 16) next (f_streamSettings v)).

(** The row [buildAddModeValues] reads. *)
Definition new_row (rnd : Random) (tcp sniffing : jsval) (port : Z) : RawInboundRow :=
  {| r_port := Some port; r_listen := Some ""; r_protocol := Some "vless"; r_tag := Some "";
     r_settings := VObj (default [] (createDefaultInboundSettings rnd "vless"));
     r_streamSettings := VObj [("network", VStr "tcp"); ("security", VStr "none"); ("tcpSettings", tcp)]; r_sniffing := sniffing;
     r_up := None; r_down := None; r_total := None; r_speedLimitKbps := None; r_speedLimitUpKbps := None; r_speedLimitDownKbps := None;
     r_trafficMultiplierBps := None; r_remark := None; r_enable := Some true; r_expiryTime := None; r_trafficReset := VStr "never"; r_trafficResetDay := None;
     r_trafficResetInterval := None; r_lastTrafficResetTime := None; r_nodeId := None; r_shareAddrStrategy := VUndef; r_shareAddr := None;
     r_subSortIndex := None; r_disableFlow := None |}.

Definition buildAddModeValues (rnd : Random) (word : Z) : option InboundFormValues :=
  match newStreamSlice "tcp", SniffingSchema (VObj []) with
  | Some tcp, Some sniffing => option_map fst (rawInboundToFormValues (new_row rnd tcp sniffing (randomInteger word 10000 60000)))
  | _, _ => None
  end.

(** ** Streams stay consistent *)

(** The networks of a stream; the last one is that of the Hysteria protocol. *)
Definition ALL_NETWORKS : list string := NETWORKS ++ ["hysteria"].























(** ** Sequences of picks *)

(** The modal: the protocol, the stream, and how many requests for a key pair are under way. *)
Record picker := { pk_protocol : string; pk_stream : option obj; pk_awaited : nat }.

Definition stream_of (p : picker) : obj := default [] (pk_stream p).

Inductive pick_event :=
| PickProtocol (password next : string)
| PickNetwork (next : string)
| PickSecurity (ids : jsval) (spider next : string)
| EditPart (key : string) (value : jsval)      (** a sub-form replaces a part that is there *)
| KeypairReply (keys : option (string * string)).

Definition capability (protocol : string) (stream : obj) : Capability :=
  {| c_protocol := protocol; c_encryption := None; c_decryption := None; c_flows := None; c_ssMethod := None;
     c_network := match obj_get stream "network" with VStr n => Some n | _ => None end;
     c_security := match obj_get stream "security" with VStr s => Some s | _ => None end |}.

Definition hasSelectableTransport (protocol : string) : bool :=
  negb (String.eqb protocol "hysteria") && negb (String.eqb protocol "wireguard") && negb (String.eqb protocol "tunnel") && negb (String.eqb protocol "tuic").

(** The choices of the security tab, none when it is not shown or disabled. *)
Definition security_choices (protocol : string) (stream : obj) : list string :=
  if canEnableStream protocol && negb (String.eqb protocol "wireguard") && negb (String.eqb protocol "tunnel") && canEnableTls (capability protocol stream)
  then (if String.eqb protocol "hysteria" then [] else ["none"]) ++ ["tls"] ++ (if canEnableReality (capability protocol stream) then ["reality"] else [])
  else [].

Definition PART_KEYS : list string := "tlsSettings" :: "realitySettings" :: map (fun n => n +:+ "Settings") ALL_NETWORKS.

Definition offered (e : pick_event) (p : picker) : bool :=
  match e with
  | PickProtocol _ _ => true
  | PickNetwork n => canEnableStream (pk_protocol p) && hasSelectableTransport (pk_protocol p) && existsb (String.eqb n) NETWORKS
  | PickSecurity _ _ s => existsb (String.eqb s) (security_choices (pk_protocol p) (stream_of p))
  | EditPart k _ => negb (existsb (String.eqb k) ["network"; "security"; "finalmask"]) && (negb (existsb (String.eqb k) PART_KEYS) || obj_has (stream_of p) k)
  | KeypairReply _ => Nat.ltb 0 (pk_awaited p)
  end.

Definition with_stream_of (p : picker) (protocol : string) (awaited : nat) (s : option (option obj)) : option picker :=
  option_map (fun s => {| pk_protocol := protocol; pk_stream := s; pk_awaited := awaited |}) s.

Definition pick_step (e : pick_event) (p : picker) : option picker :=
  match e with
  | PickProtocol password next => with_stream_of p next (pk_awaited p) (protocol_stream password next (pk_stream p))
  | PickNetwork next => with_stream_of p (pk_protocol p) (pk_awaited p) (option_map Some (onNetworkChange next (stream_of p)))
  | PickSecurity ids spider next =>
      with_stream_of p (pk_protocol p) (if String.eqb next "reality" then S (pk_awaited p) else pk_awaited p)
        (option_map Some (onSecurityChange ids spider next (stream_of p)))
  | EditPart k x => with_stream_of p (pk_protocol p) (pk_awaited p) (Some (Some (obj_set (stream_of p) k x)))
  | KeypairReply keys =>
      with_stream_of p (pk_protocol p) (pred (pk_awaited p))
        (Some (match keys with Some (priv, pub) => Some (keypair_reply priv pub (stream_of p)) | None => pk_stream p end))
  end.






(** ** Examples *)

(** The modal of a new inbound. *)
Definition new_picker : picker :=
  {| pk_protocol := "vless"; pk_stream := Some [("network", VStr "tcp"); ("security", VStr "none"); ("tcpSettings", VObj [("acceptProxyProtocol", VBool false); ("header", VObj [("type", VStr "none")])])]; pk_awaited := 0 |}.

Example new_inbound_picker : option_map (fun v => (f_protocol v, f_streamSettings v)) (buildAddModeValues sample_random 5) = Some (pk_protocol new_picker, pk_stream new_picker).
Proof. vm_compute. reflexivity. Qed.

Fixpoint run_picks (l : list pick_event) (p : picker) : option picker :=
  match l with [] => Some p | e :: l => if offered e p then match pick_step e p with Some p' => run_picks l p' | None => None end else None end.



(** A network change keeps a security the new network does not support: REALITY over WebSocket. *)
Lemma security_left_behind :
  match run_picks [PickSecurity (VArr []) "s" "reality"; PickNetwork "ws"] new_picker with
  | Some p => obj_get (stream_of p) "security" = VStr "reality" /\ canEnableReality (capability "vless" (stream_of p)) = false
  | None => False
  end.
Proof. vm_compute. auto. Qed.

(** So does a change of the protocol: REALITY on VMess. *)
Lemma security_left_by_protocol :
  match run_picks [PickSecurity (VArr []) "s" "reality"; PickProtocol "pw" "vmess"] new_picker with
  | Some p => obj_get (stream_of p) "security" = VStr "reality" /\ canEnableReality (capability "vmess" (stream_of p)) = false
  | None => False
  end.
Proof. vm_compute. auto. Qed.

(** A key pair that arrives after another security was picked brings the REALITY settings back. *)
Lemma late_keypair :
  match run_picks [PickSecurity (VArr []) "s" "reality"; PickSecurity (VArr []) "s" "none"; KeypairReply (Some ("priv", "pub"))] new_picker with
  | Some p => obj_get (stream_of p) "security" = VStr "none" /\ obj_has (stream_of p) "realitySettings" = true
  | None => False
  end.
Proof. vm_compute. auto. Qed.

(** ** A picked protocol *)

(** After a protocol was picked for a new inbound the form holds the default settings of that protocol, a node
    only if the protocol can run on one, and no flow switch of another protocol. *)
Lemma protocol_form rnd next v v' : onProtocolChange rnd next v = Some v' ->
  f_protocol v' = next /\ f_settings v' = default [] (createDefaultInboundSettings rnd next) /\
  (f_nodeId v' <> None -> eligible_protocol next = true) /\ (f_disableFlow v' = true -> next = "vless") /\ f_tag v' = f_tag v.
Proof.
  unfold onProtocolChange. destruct (protocol_stream _ _ _); [|discriminate]. intros [= <-]. cbn. repeat split.
  - by case_match.
  - destruct (String.eqb_spec next "vless"); [done|discriminate].
Qed.
