(* ===== verification/PanelVersion.v ===== *)
(** * Panel versions

    Models src/frontend/src/lib/panel-version.ts: the display form of a version and the decision
    whether an update is available.  A part of a version is the double nearest to its digits; a
    part of more than 308 digits (infinite in the source) is not represented. *)
From S2P Require Import Prelude JsInt JsString JsValue.
From Stdlib Require Import Ascii.
Local Open Scope Z_scope.

(** [s.replace(/^v/, '')] *)
Definition strip_v (s : string) : string := if starts_with s "v" then str_drop 1 s else s.

(** [s.replace(/^v/i, '')] *)
Definition strip_V (s : string) : string := if starts_with s "v" || starts_with s "V" then str_drop 1 s else s.

Definition version_part (s : string) : option Z := if all_digits s then Some (round53 (digits_value 0 s)) else None.

Definition parseVersionParts (version : string) : option (Z * Z * Z) :=
  match split_on "." (strip_v (trim version)) with
  | [a; b; c] =>
      match version_part a, version_part b, version_part c with
      | Some a, Some b, Some c => Some (a, b, c)
      | _, _, _ => None
      end
  | _ => None
  end.

Definition formatPanelVersion (version : option string) : string :=
  let v := trim (default "" version) in
  if String.eqb v "" then ""
  else
    let normalized := strip_V v in
    match normalized with String c _ => if is_digit c then "v" +:+ normalized else v | "" => v end.

(** [for (i < 3) { if (a[i] > b[i]) return true; if (a[i] < b[i]) return false } return false] *)
Definition newer (a b : Z * Z * Z) : bool :=
  let '(a0, a1, a2) := a in
  let '(b0, b1, b2) := b in
  if b0 <? a0 then true else if a0 <? b0 then false
  else if b1 <? a1 then true else if a1 <? b1 then false
  else if b2 <? a2 then true else false.

Definition is_dev (s : string) : bool := starts_with (trim s) "dev+".

Definition isPanelUpdateAvailable (latest current : string) : bool :=
  if String.eqb latest "" || String.eqb current "" then false
  else if negb (Bool.eqb (is_dev latest) (is_dev current)) then false
  else
    match parseVersionParts latest, parseVersionParts current with
    | Some a, Some b => newer a b
    | _, _ => negb (String.eqb (strip_v (trim latest)) (strip_v (trim current)))
    end.

(** ** The order of releases *)

Lemma split_on_head c d s : Ascii.eqb c d = false -> exists y ys, split_on c (String d s) = String d y :: ys.
Proof. intros E. cbn [split_on]. rewrite E. destruct (split_on c s); eauto. Qed.

(** A numeric release is not a development build. *)
Lemma release_not_dev v r : parseVersionParts v = Some r -> is_dev v = false.
Proof.
  unfold parseVersionParts, is_dev. destruct (starts_with (trim v) "dev+") eqn:E; [|done]. apply prefix_iff in E as [t ->].
  destruct (split_on_head "." "d" ("ev+" +:+ t) eq_refl) as (y & ys & H).
  change (strip_v ("dev+" +:+ t)) with (String "d" ("ev+" +:+ t)). rewrite H. by destruct ys as [|b [|c [|]]].
Qed.

Lemma newer_spec a b : newer a b = true <->
  (let '(a0, a1, a2) := a in let '(b0, b1, b2) := b in b0 < a0 \/ (a0 = b0 /\ (b1 < a1 \/ (a1 = b1 /\ b2 < a2)))).
Proof. destruct a as [[a0 a1] a2], b as [[b0 b1] b2]. unfold newer. repeat case_match; lia. Qed.

Lemma parsed_nonempty v r : parseVersionParts v = Some r -> String.eqb v "" = false.
Proof. destruct v; [|done]. done. Qed.

Lemma update_release l c a b : parseVersionParts l = Some a -> parseVersionParts c = Some b -> isPanelUpdateAvailable l c = newer a b.
Proof.
  intros Hl Hc. unfold isPanelUpdateAvailable. rewrite (parsed_nonempty l a Hl), (parsed_nonempty c b Hc), (release_not_dev l a Hl), (release_not_dev c b Hc).
  cbn [orb Bool.eqb negb]. by rewrite Hl, Hc.
Qed.

(** Among numeric releases "an update is available" is a strict total order, the
    lexicographic one on the three parts: never for the same release, never in both directions,
    transitive, and for any two different releases in exactly one direction. *)
Theorem isPanelUpdateAvailable_order u v w a b c :
  parseVersionParts u = Some a -> parseVersionParts v = Some b -> parseVersionParts w = Some c ->
  isPanelUpdateAvailable u u = false /\
  (isPanelUpdateAvailable u v = true -> isPanelUpdateAvailable v u = false) /\
  (isPanelUpdateAvailable u v = true -> isPanelUpdateAvailable v w = true -> isPanelUpdateAvailable u w = true) /\
  (isPanelUpdateAvailable u v = false -> isPanelUpdateAvailable v u = false -> a = b).
Proof.
  intros Hu Hv Hw. rewrite !(update_release _ _ _ _ Hu Hu), !(update_release _ _ _ _ Hu Hv), !(update_release _ _ _ _ Hv Hu),
    !(update_release _ _ _ _ Hv Hw), !(update_release _ _ _ _ Hu Hw).
  assert (F : forall x y, newer x y = false <-> ~ newer x y = true) by (intros x y; destruct (newer x y); split; congruence).
  rewrite !F, !newer_spec. destruct a as [[a0 a1] a2], b as [[b0 b1] b2], c as [[c0 c1] c2].
  repeat split; try lia. intros H1 H2. assert (a0 = b0) by lia. assert (a1 = b1) by lia. assert (a2 = b2) by lia. congruence.
Qed.

Lemma isPanelUpdateAvailable_order_witness :
  isPanelUpdateAvailable "v3.10.0" "3.9.12" = true /\ isPanelUpdateAvailable "3.9.12" "v3.10.0" = false.
Proof.
  split; [reflexivity|].
  exact (proj1 (proj2 (isPanelUpdateAvailable_order "v3.10.0" "3.9.12" "3.9.12" (3, 10, 0) (3, 9, 12) (3, 9, 12) eq_refl eq_refl eq_refl)) eq_refl).
Defined.

(** The displayed version is stable: it is displayed as itself. *)
Example display_samples :
  map (fun v => formatPanelVersion (Some v)) ["v3.4.0"; "3.4.0"; " V3.4.0 "; "dev+abc"; "vdev"; ""] =
  ["v3.4.0"; "v3.4.0"; "v3.4.0"; "dev+abc"; "vdev"; ""].
Proof. reflexivity. Qed.
