(* ===== verification/JsNumber.v ===== *)
(** * Comparing and adding numbers

    The relational operators and the sum of the numbers of JsValue.v, shared by the pages that compare
    times and counters. *)
From S2P Require Import Prelude JsString JsValue.
Local Open Scope Z_scope.

(** [a <= b] *)
Definition num_leb (a b : num) : bool := num_ltb a b || num_eqb a b.

Definition num_scale (n : num) (k : Z) : num := match n with NFin m e => NFin (m * k) e | n => n end.

Definition num_add (a b : num) : num :=
  match a, b with
  | NFin m e, NFin m' e' => NFin (m * 10 ^ Z.of_nat e' + m' * 10 ^ Z.of_nat e) (e + e')
  | NFin _ _, n | n, NFin _ _ => n
  | NInf x, NInf y => if Bool.eqb x y then NInf x else NNaN
  | _, _ => NNaN
  end.

Lemma num_leb_trans a b c : num_leb a b = true -> num_leb b c = true -> num_leb a c = true.
Proof.
  unfold num_leb. rewrite !orb_true_iff. destruct a as [m e| |[]], b as [m' e'| |[]], c as [m'' e''| |[]]; cbn; try tauto; try (intros [?|?] [?|?]; done).
  rewrite !Z.ltb_lt, !Z.eqb_eq. pose proof (Z.pow_pos_nonneg 10 (Z.of_nat e) ltac:(lia) ltac:(lia)). pose proof (Z.pow_pos_nonneg 10 (Z.of_nat e') ltac:(lia) ltac:(lia)).
  pose proof (Z.pow_pos_nonneg 10 (Z.of_nat e'') ltac:(lia) ltac:(lia)). generalize dependent (10 ^ Z.of_nat e). generalize dependent (10 ^ Z.of_nat e'). generalize dependent (10 ^ Z.of_nat e'').
  intros p Hp q Hq r Hr A B. assert (m * q <= m' * r) by lia. assert (m' * p <= m'' * q) by lia. assert (m * p * q <= m'' * r * q) by nia. assert (m * p <= m'' * r) by nia. lia.
Qed.

Definition not_nan (n : num) : Prop := n <> NNaN.

Lemma num_leb_total a b : not_nan a -> not_nan b -> num_ltb a b = false -> num_leb b a = true.
Proof.
  unfold not_nan, num_leb. destruct a as [m e| |[]], b as [m' e'| |[]]; cbn; try done. rewrite Z.ltb_ge, orb_true_iff, Z.ltb_lt, Z.eqb_eq. lia.
Qed.

Lemma num_leb_refl a : not_nan a -> num_leb a a = true.
Proof. intros N. apply num_leb_total; [done..|]. destruct a as [m e| |[]]; cbn; try done. apply Z.ltb_irrefl. Qed.
