(* ===== verification/HostForm.v ===== *)
(** * The editor of hosts

    Models src/frontend/src/pages/hosts: the editors of the JSON overrides of a host
    (json-forms/helpers.ts, HostMuxForm.tsx, HostSockoptForm.tsx, HostFinalMaskForm.tsx and
    OutboundSubtreeJsonForm.tsx, which they share), the modal of a host (HostFormModal.tsx: the values it opens
    with, the payload it saves, when it is reset), and the order of the list (HostsPage.tsx, HostList.tsx).

    An override is kept as a text; its editor is seeded from the text when it is mounted, and an effect
    reports the text of the edited value whenever it differs from the one it was given.  The modal is a
    step system: its state is what the page and the modal keep, and a render follows every event. *)
From Stdlib Require Import Permutation Ascii.
From S2P Require Import Prelude JsString JsValue JsObject Json.

(** ** JSON overrides *)

Definition parseJsonObject (raw : string) : obj :=
  if String.eqb raw "" then [] else match JSON_parse raw with Some (VObj o) => o | _ => [] end.

(** [None]: undefined. *)
Fixpoint pruneEmptyDeep (value : jsval) : option jsval :=
  match value with
  | VArr l =>
      match (fix go (l : list jsval) : list jsval :=
               match l with [] => [] | x :: l => match pruneEmptyDeep x with Some y => y :: go l | None => go l end end) l with
      | [] => None
      | arr => Some (VArr arr)
      end
  | VObj o =>
      match (fix go (o : obj) : obj :=
               match o with [] => [] | (k, x) :: o => match pruneEmptyDeep x with Some y => (k, y) :: go o | None => go o end end) o with
      | [] => None
      | out => Some (VObj out)
      end
  | VStr "" | VNull | VUndef => None
  | v => Some v
  end.

Definition serializeOverride (value : jsval) : string := match pruneEmptyDeep value with None => "" | Some v => stringify v end.

Definition nestAtPath (path : list string) (leaf : jsval) : jsval := fold_right (fun k acc => VObj [(k, acc)]) leaf path.

(** The value a form holds at a path. *)
Definition at_path (path : list string) (v : jsval) : jsval := fold_left get path v.

(** An editor of an override: the path its form edits, the value for an empty text, the text of a value. *)
Record Editor := { path : list string; defaultSubtree : obj; serialize : jsval -> string }.

Definition initial (e : Editor) (value : string) : obj := let parsed := parseJsonObject value in match parsed with [] => defaultSubtree e | _ => parsed end.

(** What the form shows when it is mounted over a text. *)
Definition mounted (e : Editor) (value : string) : jsval :=
  at_path (path e) (nestAtPath (path e) (match initial e value with [] => VUndef | o => VObj o end)).

(** The effect: the text it reports, if it reports one. *)
Definition report (next value : string) : option string := if String.eqb next value then None else Some next.
Definition subtree_effect (e : Editor) (subtree : jsval) (value : string) : option string := report (serialize e subtree) value.

Definition DEFAULT_MUX : obj := [("enabled", VBool false); ("concurrency", VInt 8); ("xudpConcurrency", VInt 16); ("xudpProxyUDP443", VStr "reject")].

Definition serializeMux (mux : jsval) : string := if truthy (get mux "enabled") then serializeOverride mux else "".

Definition HostMuxForm : Editor := {| path := ["mux"]; defaultSubtree := DEFAULT_MUX; serialize := serializeMux |}.

Definition INBOUND_ONLY_SOCKOPT : list string := ["acceptProxyProtocol"; "V6Only"; "trustedXForwardedFor"].

(** [{...sockopt}] of an array is the object of its indices. *)
Definition serializeClientSockopt (sockopt : jsval) : string :=
  match sockopt with
  | VObj o => serializeOverride (VObj (fold_left obj_del INBOUND_ONLY_SOCKOPT o))
  | VArr l => serializeOverride (VObj (combine (map (fun i => string_of_Z (Z.of_nat i)) (seq 0 (length l))) l))
  | v => serializeOverride v
  end.

Definition HostSockoptForm : Editor := {| path := ["streamSettings"; "sockopt"]; defaultSubtree := []; serialize := serializeClientSockopt |}.

(** The editor of the final mask is a form of its own. *)
Fixpoint hasValue (v : jsval) : bool :=
  match v with
  | VUndef | VNull => false
  | VArr l => (fix go l := match l with [] => false | x :: l => hasValue x || go l end) l
  | VObj o => (fix go (o : obj) := match o with [] => false | (_, x) :: o => hasValue x || go o end) o
  | VStr s => negb (String.eqb s "")
  | _ => true
  end.

Definition parseFinalMask (raw : string) : jsval :=
  let empty := VObj [("tcp", VArr []); ("udp", VArr [])] in
  if String.eqb raw "" then empty else match JSON_parse raw with Some v => v | None => empty end.

Definition serializeFinalMask (finalmask : jsval) : string := if hasValue finalmask then stringify finalmask else "".

Definition finalmask_effect (finalmask : jsval) (value : string) : option string :=
  if is_undef finalmask then None else report (serializeFinalMask finalmask) value.

(** ** The modal of a host *)

Definition non_blank (v : jsval) : bool := match v with VStr s => negb (String.eqb (trim s) "") | _ => false end.

(** [(v || []).filter((h) => h && h.trim() !== '')] *)
Definition non_blanks (v : jsval) : jsval := VArr (List.filter non_blank (as_list v)).

Definition asString (v : jsval) : jsval := match v with VStr s => VStr s | _ => VStr "" end.

(** The fields of the form that are the host's or a default. *)
Definition plain_fields : list (string * jsval) :=
  [("inboundIds", VArr []); ("sortOrder", VInt 0); ("remark", VStr ""); ("serverDescription", VStr ""); ("isHidden", VBool false); ("tags", VArr []); ("port", VInt 0);
   ("security", VStr "same"); ("sni", VStr ""); ("hostHeader", VStr ""); ("path", VStr ""); ("alpn", VArr []); ("overrideSniFromAddress", VBool false);
   ("keepSniBlank", VBool false); ("pinnedPeerCertSha256", VArr []); ("verifyPeerCertByName", VStr ""); ("allowInsecure", VBool false); ("echConfigList", VStr "");
   ("finalMask", VStr ""); ("vlessRoute", VStr ""); ("excludeFromSubTypes", VArr []); ("nodeGuids", VArr []); ("mihomoX25519", VBool false); ("shuffleHost", VBool false)].

(** [host]: undefined for a new host.  The keys are in another order than in the source. *)
Definition defaultsFor (host : jsval) : obj :=
  map (fun kd => (kd.1, or_nullish (get host kd.1) kd.2)) plain_fields ++
  [("hosts", non_blanks (get host "hosts")); ("enable", VBool (if is_nullish host then true else negb (truthy (get host "isDisabled"))));
   ("fingerprint", get host "fingerprint"); ("muxParams", asString (get host "muxParams")); ("sockoptParams", asString (get host "sockoptParams"));
   ("mihomoIpVersion", get host "mihomoIpVersion")].

(** The payload of [onFinish]. *)
Definition payload (values : obj) : obj :=
  let rest := obj_del values "enable" in
  obj_set (obj_set rest "hosts" (non_blanks (obj_get rest "hosts"))) "isDisabled" (VBool (negb (truthy (obj_get values "enable")))).

(** The addresses offered: those of all hosts, in order, without repetition. *)
Definition hostOptions (existingHosts : list jsval) : list jsval :=
  fold_left (fun acc a => if existsb (jsval_eqb a) acc then acc else acc ++ [a]) (flat_map (fun h => List.filter non_blank (as_list (get h "hosts"))) existingHosts) [].

(** A host object and its identity. *)
Record HostRef := { ref : nat; record : jsval }.

Inductive Mode := add | edit.

Record ModalState := { open : bool; mode : Mode; host : option HostRef; synced : option nat; values : obj; next_ref : nat }.

Definition init : ModalState := {| open := false; mode := add; host := None; synced := None; values := defaultsFor VUndef; next_ref := 0 |}.

Definition record_of (h : option HostRef) : jsval := match h with Some r => record r | None => VUndef end.

(** The part of the render that follows the host. *)
Definition render (s : ModalState) : ModalState :=
  let openHost := if open s then option_map ref (host s) else None in
  if bool_decide (openHost = synced s) then s
  else {| open := open s; mode := mode s; host := host s; synced := openHost;
          values := if open s then defaultsFor (record_of (host s)) else values s; next_ref := next_ref s |}.

Inductive event := OnAdd | OnEdit (h : jsval) | OnChange (field : string) (v : jsval) | OnClose.

Definition handle (s : ModalState) (e : event) : ModalState :=
  match e with
  | OnAdd => {| open := true; mode := add; host := None; synced := synced s; values := values s; next_ref := next_ref s |}
  | OnEdit h => {| open := true; mode := edit; host := Some {| ref := next_ref s; record := h |}; synced := synced s; values := values s; next_ref := S (next_ref s) |}
  | OnChange k v => {| open := open s; mode := mode s; host := host s; synced := synced s; values := obj_set (values s) k v; next_ref := next_ref s |}
  | OnClose => {| open := false; mode := mode s; host := host s; synced := synced s; values := values s; next_ref := next_ref s |}
  end.

Definition step (s : ModalState) (e : event) : ModalState := render (handle s e).

Definition run (es : list event) : ModalState := fold_left step es init.

(** Where a save goes: an update of a group, or a new one. *)
Definition save_target (s : ModalState) : option jsval :=
  match mode s with edit => let g := get (record_of (host s)) "groupId" in if truthy g then Some g else None | add => None end.

(** ** The order of the list *)

Section Order.
Variable localeCompare : string -> string -> Z.

Definition sort_key (h : jsval) : Z := match or_nullish (get h "sortOrder") (VInt 0) with VNum (NFin z O) => z | _ => 0%Z end.
Definition remark_of (h : jsval) : string := str_or_empty (or_falsy (get h "remark") (VStr "")).

(** Whether [b] may stay behind [a]. *)
Definition in_order (a b : jsval) : bool :=
  if (sort_key a =? sort_key b)%Z then (localeCompare (remark_of a) (remark_of b) <=? 0)%Z else (sort_key a <? sort_key b)%Z.

Fixpoint insert_host (h : jsval) (l : list jsval) : list jsval :=
  match l with [] => [h] | x :: l => if in_order h x then h :: x :: l else x :: insert_host h l end.

(** A stable sort; any two give the same list for a consistent comparison. *)
Definition sortHosts (hosts : list jsval) : list jsval := fold_right insert_host [] hosts.

Definition group_id (h : jsval) : jsval := get h "groupId".

(** The identifiers to reorder to, if the move is possible. *)
Definition onMove (hosts : list jsval) (h : jsval) (up : bool) : option (list jsval) :=
  let ids := map group_id (sortHosts hosts) in
  match list_find (fun g => jsval_eqb g (group_id h) = true) ids with
  | None => None
  | Some (idx, _) =>
      if up && Nat.eqb idx 0 then None
      else let swapWith := if up then Nat.pred idx else S idx in
           match ids !! idx, ids !! swapWith with
           | Some a, Some b => Some (<[swapWith := a]> (<[idx := b]> ids))
           | _, _ => None
           end
  end.
End Order.

(** The counts of the summary: all, enabled, disabled. *)
Definition summary (hosts : list jsval) : nat * nat * nat :=
  let enabled := length (List.filter (fun h => negb (truthy (get h "isDisabled"))) hosts) in (length hosts, enabled, length hosts - enabled).

(** ** Pruning *)

Fixpoint clean (v : jsval) : bool :=
  match v with
  | VArr l => negb (bool_decide (l = [])) && (fix go l := match l with [] => true | x :: l => clean x && go l end) l
  | VObj o => negb (bool_decide (o = [])) && (fix go (o : obj) := match o with [] => true | (_, x) :: o => clean x && go o end) o
  | VStr s => negb (String.eqb s "")
  | VNull | VUndef => false
  | _ => true
  end.

(** The two loops as functions of their own. *)
Definition prune_list (l : list jsval) : list jsval := omap pruneEmptyDeep l.
Definition prune_obj (o : obj) : obj := omap (fun kx => option_map (pair kx.1) (pruneEmptyDeep kx.2)) o.

Lemma prune_arr l : pruneEmptyDeep (VArr l) = match prune_list l with [] => None | arr => Some (VArr arr) end.
Proof.
  cbn [pruneEmptyDeep]. match goal with |- match ?a with _ => _ end = match ?b with _ => _ end => assert (E : a = b); [|by rewrite E] end.
  unfold prune_list. induction l as [|x l IH]; [done|]. cbn. destruct (pruneEmptyDeep x); by rewrite IH.
Qed.

Lemma prune_object o : pruneEmptyDeep (VObj o) = match prune_obj o with [] => None | out => Some (VObj out) end.
Proof.
  cbn [pruneEmptyDeep]. match goal with |- match ?a with _ => _ end = match ?b with _ => _ end => assert (E : a = b); [|by rewrite E] end.
  unfold prune_obj. induction o as [|[k x] o IH]; [done|]. cbn. destruct (pruneEmptyDeep x); cbn; by rewrite IH.
Qed.

Lemma clean_arr l : clean (VArr l) = negb (bool_decide (l = [])) && forallb clean l.
Proof. cbn [clean]. f_equal. Qed.

Lemma clean_obj o : clean (VObj o) = negb (bool_decide (o = [])) && forallb (fun kx => clean kx.2) o.
Proof. cbn [clean]. f_equal. induction o as [|[k x] o IH]; [done|]. cbn. by rewrite IH. Qed.

(** A pruned value has nothing empty in it. *)
Lemma prune_clean v : forall w, pruneEmptyDeep v = Some w -> clean w = true.
Proof.
  induction v as [| |b|n|s|l IH|o IH] using jsval_ind; intros w H; try (cbn in H; injection H as <-; done); try discriminate.
  - destruct s; [discriminate|]. injection H as <-. done.
  - rewrite prune_arr in H. destruct (prune_list l) as [|y ys] eqn:E; [done|]. injection H as <-. rewrite clean_arr, bool_decide_false by done. cbn [negb andb]. rewrite <-E.
    apply forallb_forall. intros x Hx. apply list_elem_of_In in Hx. unfold prune_list in Hx. apply list_elem_of_omap in Hx as (z & Hz & Ez). rewrite Forall_forall in IH. by eapply IH; [apply list_elem_of_In|].
  - rewrite prune_object in H. destruct (prune_obj o) as [|y ys] eqn:E; [done|]. injection H as <-. rewrite clean_obj, bool_decide_false by done. cbn [negb andb]. rewrite <-E.
    apply forallb_forall. intros [k x] Hx. apply list_elem_of_In in Hx. unfold prune_obj in Hx. apply list_elem_of_omap in Hx as ([k' z] & Hz & Ez). cbn in Ez.
    destruct (pruneEmptyDeep z) as [u|] eqn:Eu; [|done]. injection Ez as <- <-. rewrite Forall_forall in IH. by eapply (IH (k', z)); [apply list_elem_of_In|].
Qed.

(** A value with nothing empty in it is left as it is. *)
Lemma clean_pruned v : clean v = true -> pruneEmptyDeep v = Some v.
Proof.
  induction v as [| |b|n|s|l IH|o IH] using jsval_ind; intros C; try done.
  - by destruct s.
  - rewrite clean_arr in C. apply andb_true_iff in C as [N C]. rewrite prune_arr. assert (E : prune_list l = l).
    { unfold prune_list. clear N. induction IH as [|x l Hx _ IHl]; [done|]. cbn in C |- *. apply andb_true_iff in C as [Cx C]. by rewrite Hx, IHl. }
    rewrite E. by destruct l.
  - rewrite clean_obj in C. apply andb_true_iff in C as [N C]. rewrite prune_object. assert (E : prune_obj o = o).
    { unfold prune_obj. clear N. induction IH as [|[k x] o Hx _ IHo]; [done|]. cbn in C, Hx |- *. apply andb_true_iff in C as [Cx C]. rewrite Hx by done. cbn. by rewrite IHo. }
    rewrite E. by destruct o.
Qed.

Lemma pruneEmptyDeep_json v : json_ok v -> forall w, pruneEmptyDeep v = Some w -> json_ok w.
Proof.
  induction v as [| |b|n|s|l IH|o IH] using jsval_ind; intros J w H; try (cbn in H; injection H as <-; done); try discriminate.
  - destruct s; [discriminate|]. by injection H as <-.
  - rewrite prune_arr in H. destruct (prune_list l) as [|y ys] eqn:E; [done|]. injection H as <-. rewrite <-E. apply json_ok_arr in J. apply json_ok_arr.
    unfold prune_list. clear E. induction IH as [|x l Hx _ IHl]; [constructor|]. apply Forall_cons_1 in J as [Jx J]. cbn. destruct (pruneEmptyDeep x) as [u|] eqn:Eu; [constructor; [by apply Hx|by apply IHl]|by apply IHl].
  - rewrite prune_object in H. destruct (prune_obj o) as [|y ys] eqn:E; [done|]. injection H as <-. rewrite <-E. apply json_ok_obj in J as [W J]. apply json_ok_obj. clear E.
    assert (K : forall k, In k (obj_keys (prune_obj o)) -> In k (obj_keys o)).
    { intros k. unfold obj_keys, prune_obj. clear. induction o as [|[k' x] o IH]; [done|]. cbn. destruct (pruneEmptyDeep x); cbn; [intros [->|H]; [by left|right; by apply IH]|intros H; right; by apply IH]. }
    split.
    + clear -W. unfold obj_wf, obj_keys, prune_obj in *. induction o as [|[k x] o IH]; [constructor|]. cbn in W |- *. apply list.NoDup_cons in W as [Nk W]. destruct (pruneEmptyDeep x); cbn; [|by apply IH].
      constructor; [|by apply IH]. contradict Nk. clear -Nk. induction o as [|[k' z] o IH]; [done|]. cbn in Nk |- *. destruct (pruneEmptyDeep z); cbn in Nk; [|right; by apply IH].
      apply elem_of_cons in Nk as [->|H]; [left|right; by apply IH].
    + clear W K. unfold prune_obj. induction IH as [|[k x] o Hx _ IHo]; [constructor|]. apply Forall_cons_1 in J as [Jx J]. cbn in Hx, Jx |- *. destruct (pruneEmptyDeep x) as [u|] eqn:Eu; cbn; [constructor; [by apply Hx|by apply IHo]|by apply IHo].
Qed.

(** ** An override is reopened as it was stored *)

Lemma stringify_not_empty v : json_ok v -> stringify v <> "".
Proof. intros J E. pose proof (JSON_parse_stringify v J) as H. rewrite E in H. by vm_compute in H. Qed.

Lemma pruned_object o w : pruneEmptyDeep (VObj o) = Some w -> exists o', w = VObj o' /\ o' <> [].
Proof. rewrite prune_object. destruct (prune_obj o); [done|]. intros [= <-]. by eexists. Qed.

(** The text of an object is read as the pruned object. *)
Lemma parse_override o : json_ok (VObj o) ->
  match pruneEmptyDeep (VObj o) with
  | Some (VObj o') => parseJsonObject (serializeOverride (VObj o)) = o' /\ clean (VObj o') = true /\ o' <> []
  | _ => serializeOverride (VObj o) = ""
  end.
Proof.
  intros J. unfold serializeOverride, parseJsonObject. destruct (pruneEmptyDeep (VObj o)) as [w|] eqn:E; [|done]. pose proof (pruneEmptyDeep_json _ J w E) as Jw. pose proof (prune_clean _ w E) as C.
  destruct (pruned_object o w E) as (o' & -> & N). rewrite (proj2 (String.eqb_neq _ _)) by (by apply stringify_not_empty). by rewrite JSON_parse_stringify.
Qed.

Lemma serialize_parsed o : json_ok (VObj o) -> pruneEmptyDeep (VObj o) <> None ->
  serializeOverride (VObj (parseJsonObject (serializeOverride (VObj o)))) = serializeOverride (VObj o).
Proof.
  intros J N. pose proof (parse_override o J) as P. unfold serializeOverride at 3. destruct (pruneEmptyDeep (VObj o)) as [w|] eqn:E; [|done]. destruct (pruned_object o w E) as (o' & -> & _).
  destruct P as (-> & C & _). unfold serializeOverride. by rewrite (clean_pruned _ C).
Qed.

Lemma report_same s : report s s = None.
Proof. unfold report. by rewrite String.eqb_refl. Qed.

Lemma get_pruned o o' k : obj_wf o -> pruneEmptyDeep (VObj o) = Some (VObj o') -> obj_get o' k = match pruneEmptyDeep (obj_get o k) with Some v => v | None => VUndef end.
Proof.
  rewrite prune_object. intros W H. assert (E : o' = prune_obj o) by (destruct (prune_obj o); [done|congruence]). subst o'. clear H.
  unfold prune_obj. induction o as [|[k' x] o IH]; [done|]. apply list.NoDup_cons in W as [Nk W]. cbn [obj_get]. cbn. destruct (String.eqb_spec k k') as [->|Ne].
  - destruct (pruneEmptyDeep x) as [y|]; cbn; [by rewrite String.eqb_refl|]. apply obj_has_get. apply not_true_iff_false. rewrite obj_has_keys. intros H. apply Nk.
    apply list_elem_of_In. clear -H. unfold obj_keys in *. induction o as [|[k z] o IH]; [done|]. cbn in H |- *. destruct (pruneEmptyDeep z); cbn in H; [destruct H as [->|H]; [by left|]|]; right; by apply IH.
  - destruct (pruneEmptyDeep x); cbn; [rewrite (proj2 (String.eqb_neq k k')) by done|]; by apply IH.
Qed.

Lemma mounted_object e o value : parseJsonObject value = o -> o <> [] -> mounted e value = VObj o.
Proof.
  intros E N. unfold mounted, initial. rewrite E. assert (A : forall l v, at_path l (nestAtPath l v) = v).
  { unfold at_path, nestAtPath. induction l as [|k l IH]; intros v; [done|]. cbn. rewrite String.eqb_refl. apply IH. }
  destruct o; [done|]. apply A.
Qed.

Lemma json_absent o k : json_ok (VObj o) -> obj_get o k = VUndef -> obj_has o k = false.
Proof.
  intros J G. apply not_true_iff_false. rewrite obj_has_keys. intros H. apply json_ok_obj in J as [W F]. apply in_map_iff in H as ([k' v] & <- & Hin).
  cbn [fst] in G. rewrite (In_get o k' v W Hin) in G. rewrite List.Forall_forall in F. pose proof (F _ Hin) as C. cbn in C. by subst.
Qed.

Lemma del_all_json l o : json_ok (VObj o) -> json_ok (VObj (fold_left obj_del l o)).
Proof. revert o. induction l as [|k l IH]; intros o J; [done|]. cbn. by apply IH, json_ok_del. Qed.

Lemma del_all_get l o k : In k l -> obj_get (fold_left obj_del l o) k = VUndef.
Proof.
  assert (K : forall l o, obj_get o k = VUndef -> obj_get (fold_left obj_del l o) k = VUndef).
  { clear. induction l as [|j l IH]; intros o G; [done|]. cbn. apply IH. destruct (String.eqb_spec j k) as [->|N]; [apply obj_get_del_eq|by rewrite obj_get_del_ne]. }
  revert o. induction l as [|j l IH]; intros o H; [done|]. destruct H as [->|H]; cbn; [apply K, obj_get_del_eq|by apply IH].
Qed.

Lemma del_all_absent l o : (forall k, In k l -> obj_has o k = false) -> fold_left obj_del l o = o.
Proof. induction l as [|k l IH]; intros H; [done|]. cbn. rewrite obj_del_absent by (apply H; by left). apply IH. intros j Hj. apply H. by right. Qed.

(** The values set in an override, each with the keys that lead to it: every scalar but null and the
    empty string. *)
Definition under (k : string) (leaf : list string * jsval) : list string * jsval := (k :: leaf.1, leaf.2).

Fixpoint leaves (v : jsval) : list (list string * jsval) :=
  match v with
  | VUndef | VNull => []
  | VStr s => if String.eqb s "" then [] else [([], v)]
  | VArr l => (fix go l := match l with [] => [] | x :: l => map (under "[]") (leaves x) ++ go l end) l
  | VObj o => (fix go (o : obj) := match o with [] => [] | (k, x) :: o => map (under k) (leaves x) ++ go o end) o
  | _ => [([], v)]
  end.

Lemma leaves_arr l : leaves (VArr l) = flat_map (fun x => map (under "[]") (leaves x)) l.
Proof. cbn [leaves]. induction l as [|x l IH]; [done|]. cbn [flat_map]. by rewrite IH. Qed.

Lemma leaves_obj o : leaves (VObj o) = flat_map (fun kx => map (under kx.1) (leaves kx.2)) o.
Proof. cbn [leaves]. induction o as [|[k x] o IH]; [done|]. cbn [flat_map fst snd]. by rewrite IH. Qed.

(** Pruning keeps exactly the values set. *)
Lemma leaves_prune v : leaves v = match pruneEmptyDeep v with Some w => leaves w | None => [] end.
Proof.
  induction v as [| |b|n|s|l IH|o IH] using jsval_ind; try done.
  - by destruct s.
  - rewrite prune_arr. assert (E : leaves (VArr l) = leaves (VArr (prune_list l))).
    { rewrite !leaves_arr. unfold prune_list. induction IH as [|x l Hx _ IHl]; [done|]. cbn [flat_map omap list_omap]. rewrite Hx, IHl. by destruct (pruneEmptyDeep x). }
    rewrite E. by destruct (prune_list l).
  - rewrite prune_object. assert (E : leaves (VObj o) = leaves (VObj (prune_obj o))).
    { rewrite !leaves_obj. unfold prune_obj. induction IH as [|[k x] o Hx _ IHo]; [done|]. cbn [flat_map omap list_omap fst snd] in *. rewrite Hx, IHo. by destruct (pruneEmptyDeep x). }
    rewrite E. by destruct (prune_obj o).
Qed.

Lemma clean_leaves v : clean v = true -> leaves v <> [].
Proof.
  induction v as [| |b|n|s|l IH|o IH] using jsval_ind; intros C; try done.
  - by destruct s.
  - rewrite clean_arr in C. rewrite leaves_arr. destruct IH as [|x l Hx _]; [done|]. cbn in C |- *. apply andb_true_iff in C as [C _]. specialize (Hx C). by destruct (leaves x).
  - rewrite clean_obj in C. rewrite leaves_obj. destruct IH as [|[k x] o Hx _]; [done|]. cbn in C, Hx |- *. apply andb_true_iff in C as [C _]. specialize (Hx C). by destruct (leaves x).
Qed.

Lemma hasValue_leaves v : hasValue v = negb (bool_decide (leaves v = [])).
Proof.
  assert (A : forall A (l l' : list A), negb (bool_decide (l ++ l' = [])) = negb (bool_decide (l = [])) || negb (bool_decide (l' = []))) by (by intros ? [] []).
  assert (M : forall k (l : list (list string * jsval)), bool_decide (map (under k) l = []) = bool_decide (l = [])) by (by intros ? []).
  induction v as [| |b|n|s|l IH|o IH] using jsval_ind; try done.
  - by destruct s.
  - cbn [hasValue]. rewrite leaves_arr. induction IH as [|x l Hx _ IHl]; [done|]. cbn [flat_map]. by rewrite A, M, Hx, IHl.
  - cbn [hasValue]. rewrite leaves_obj. induction IH as [|[k x] o Hx _ IHo]; [done|]. cbn [flat_map fst snd] in *. by rewrite A, M, Hx, IHo.
Qed.

Lemma pruned_iff v : pruneEmptyDeep v = None <-> leaves v = [].
Proof.
  rewrite leaves_prune. destruct (pruneEmptyDeep v) as [w|] eqn:E; [|done]. split; [done|]. intros L. by destruct (clean_leaves w (prune_clean v w E)).
Qed.

(** The editor over the text [s] shows an object with exactly the values [l] set and nothing empty in it. *)
Definition shows (e : Editor) (s : string) (l : list (list string * jsval)) : Prop :=
  exists o, mounted e s = VObj o /\ clean (VObj o) = true /\ leaves (VObj o) = l.

(** A text of an override: empty when nothing is set, and else shown as what is set. *)
Lemma override_shown e o : json_ok (VObj o) ->
  if bool_decide (leaves (VObj o) = []) then serializeOverride (VObj o) = ""
  else exists o', mounted e (serializeOverride (VObj o)) = VObj o' /\ pruneEmptyDeep (VObj o) = Some (VObj o') /\ clean (VObj o') = true /\ leaves (VObj o') = leaves (VObj o).
Proof.
  intros J. pose proof (parse_override o J) as P. pose proof (leaves_prune (VObj o)) as L. pose proof (pruned_iff (VObj o)) as I. destruct (pruneEmptyDeep (VObj o)) as [w|] eqn:Pr.
  - rewrite bool_decide_false by (intros H; by apply I in H). destruct (pruned_object o w Pr) as (o' & -> & N). destruct P as (P & C & _). exists o'. rewrite (mounted_object _ _ _ P N). by repeat split.
  - by rewrite bool_decide_true by (by apply I).
Qed.

Lemma mux_reopened mux b : json_ok (VObj mux) -> obj_get mux "enabled" = VBool b -> let s := serializeMux (VObj mux) in
  subtree_effect HostMuxForm (mounted HostMuxForm s) s = None /\ (if b then shows HostMuxForm s (leaves (VObj mux)) else s = "" /\ mounted HostMuxForm s = VObj DEFAULT_MUX).
Proof.
  intros J E. cbv zeta. unfold serializeMux. cbn [get]. rewrite E. destruct b; [|done]. cbn [truthy].
  pose proof (override_shown HostMuxForm mux J) as P. rewrite bool_decide_false in P.
  - destruct P as (o' & M & Pr & C & L). split; [|by exists o']. rewrite M. unfold subtree_effect. cbn [serialize HostMuxForm]. unfold serializeMux. cbn [get].
    apply json_ok_obj in J as [W _]. rewrite (get_pruned mux o' _ W Pr), E. cbn [pruneEmptyDeep truthy]. unfold serializeOverride. rewrite (clean_pruned _ C), Pr. apply report_same.
  - rewrite leaves_obj. clear -E. induction mux as [|[k x] o IH]; [done|]. cbn [obj_get] in E. cbn [flat_map fst snd]. destruct (String.eqb "enabled" k) eqn:K; [by rewrite E|]. intros [_ H]%app_eq_nil. by apply IH.
Qed.

Lemma leaves_del o k : leaves (VObj (obj_del o k)) = List.filter (fun lf => negb (bool_decide (head lf.1 = Some k))) (leaves (VObj o)).
Proof.
  rewrite !leaves_obj. unfold obj_del. induction o as [|[k' x] o IH]; [done|]. cbn [List.filter flat_map fst snd]. rewrite List.filter_app, <-IH.
  assert (U : forall l, List.filter (fun lf : list string * jsval => negb (bool_decide (head lf.1 = Some k))) (map (under k') l) = if String.eqb k k' then [] else map (under k') l).
  { induction l as [|y l IHl]; [by destruct (String.eqb k k')|]. cbn [map List.filter under fst head]. rewrite IHl. destruct (String.eqb_spec k k') as [->|N]; [by rewrite bool_decide_true|by rewrite bool_decide_false by congruence]. }
  rewrite U. by destruct (String.eqb k k').
Qed.

(** What a host keeps of the socket options: the values below a key that is not for inbounds only. *)
Definition client_side (lf : list string * jsval) : bool := forallb (fun k => negb (bool_decide (head lf.1 = Some k))) INBOUND_ONLY_SOCKOPT.

Lemma leaves_client o : leaves (VObj (fold_left obj_del INBOUND_ONLY_SOCKOPT o)) = List.filter client_side (leaves (VObj o)).
Proof.
  assert (G : forall l o, leaves (VObj (fold_left obj_del l o)) = List.filter (fun lf => forallb (fun k => negb (bool_decide (head lf.1 = Some k))) l) (leaves (VObj o))).
  { clear. induction l as [|k l IH]; intros o; cbn [fold_left forallb]; [induction (leaves (VObj o)) as [|x r H]; [done|]; cbn; by rewrite <-H|]. rewrite IH, leaves_del.
    induction (leaves (VObj o)) as [|x r H]; [done|]. cbn [List.filter]. destruct (negb (bool_decide (head x.1 = Some k))) eqn:D; cbn [andb List.filter]; [|done]. by rewrite H. }
  apply G.
Qed.

Lemma sockopt_reopened sockopt : json_ok (VObj sockopt) -> let s := serializeClientSockopt (VObj sockopt) in let kept := List.filter client_side (leaves (VObj sockopt)) in
  subtree_effect HostSockoptForm (mounted HostSockoptForm s) s = None /\ (if bool_decide (kept = []) then s = "" else shows HostSockoptForm s kept).
Proof.
  intros J. cbv zeta. unfold serializeClientSockopt. rewrite <-leaves_client. pose proof (del_all_json INBOUND_ONLY_SOCKOPT _ J) as J1. pose proof (del_all_get INBOUND_ONLY_SOCKOPT sockopt) as G.
  set (o := fold_left obj_del INBOUND_ONLY_SOCKOPT sockopt) in *. clearbody o. pose proof (override_shown HostSockoptForm o J1) as P. destruct (bool_decide (leaves (VObj o) = [])); [by rewrite P|].
  destruct P as (o' & M & Pr & C & L). split; [|by exists o']. rewrite M. unfold subtree_effect. cbn [serialize HostSockoptForm serializeClientSockopt]. rewrite del_all_absent.
  - unfold serializeOverride. rewrite (clean_pruned _ C), Pr. apply report_same.
  - intros k Hk. apply json_absent; [by eapply pruneEmptyDeep_json, Pr|]. apply json_ok_obj in J1 as [W _]. by rewrite (get_pruned o o' _ W Pr), (G k Hk).
Qed.

Lemma finalmask_reopened mask : json_ok mask -> let s := serializeFinalMask mask in
  finalmask_effect (parseFinalMask s) s = None /\
  (if bool_decide (leaves mask = []) then s = "" /\ parseFinalMask s = VObj [("tcp", VArr []); ("udp", VArr [])] else parseFinalMask s = mask).
Proof.
  intros J. cbv zeta. unfold serializeFinalMask. rewrite hasValue_leaves. destruct (bool_decide (leaves mask = [])) eqn:H; cbn [negb]; [done|]. unfold parseFinalMask.
  rewrite (proj2 (String.eqb_neq _ _)) by (by apply stringify_not_empty). rewrite JSON_parse_stringify by done. split; [|done].
  unfold finalmask_effect, serializeFinalMask. rewrite hasValue_leaves, H. destruct (is_undef mask); [done|]. apply report_same.
Qed.

(** C14. What the editors of a host store for an override is what they show when the host is opened again, and
    opening reports nothing, so that it changes no override.  Take any JSON values edited.  An enabled mux is shown with exactly the
    values that were set, a disabled one is stored as the empty text and shown as the default; socket options are shown with
    exactly the values that were set but for those below the keys that are for inbounds only, and stored as the empty text when
    there are none; a final mask in which a value is set is shown as it was, and one without is the empty text.  Set
    are the scalars other than null and the empty string; what is shown of mux and socket options has no empty part. *)
Theorem overrides_reopened (mux sockopt : obj) (mask : jsval) (b : bool) :
  json_ok (VObj mux) -> obj_get mux "enabled" = VBool b -> json_ok (VObj sockopt) -> json_ok mask ->
  (let s := serializeMux (VObj mux) in
   subtree_effect HostMuxForm (mounted HostMuxForm s) s = None /\ (if b then shows HostMuxForm s (leaves (VObj mux)) else s = "" /\ mounted HostMuxForm s = VObj DEFAULT_MUX)) /\
  (let s := serializeClientSockopt (VObj sockopt) in let kept := List.filter client_side (leaves (VObj sockopt)) in
   subtree_effect HostSockoptForm (mounted HostSockoptForm s) s = None /\ (if bool_decide (kept = []) then s = "" else shows HostSockoptForm s kept)) /\
  (let s := serializeFinalMask mask in
   finalmask_effect (parseFinalMask s) s = None /\
   (if bool_decide (leaves mask = []) then s = "" /\ parseFinalMask s = VObj [("tcp", VArr []); ("udp", VArr [])] else parseFinalMask s = mask)).
Proof. intros Jm E Js Jf. split; [by apply mux_reopened|]. split; [by apply sockopt_reopened|by apply finalmask_reopened]. Qed.

Lemma overrides_reopened_witness :
  let s := serializeClientSockopt (VObj [("mark", VInt 7); ("dialerProxy", VStr ""); ("V6Only", VBool true); ("customSockopt", VArr [])]) in
  s = stringify (VObj [("mark", VInt 7)]) /\ shows HostSockoptForm s [(["mark"], VInt 7)] /\ subtree_effect HostSockoptForm (mounted HostSockoptForm s) s = None.
Proof.
  assert (W : forall l : list string, bool_decide (NoDup l) = true -> NoDup l) by (intros l; apply bool_decide_eq_true).
  destruct (overrides_reopened [("enabled", VBool true); ("concurrency", VInt 4)] [("mark", VInt 7); ("dialerProxy", VStr ""); ("V6Only", VBool true); ("customSockopt", VArr [])]
    (VObj [("tcp", VArr []); ("udp", VArr [])]) true) as (_ & (H & S) & _); [..|split; [done|]; split; [exact S|exact H]].
  all: try reflexivity; apply json_ok_obj; (split; [apply W; vm_compute; reflexivity|repeat constructor]).
Defined.

(** ** The modal *)

Lemma refs_below es : let s := run es in (forall r, synced s = Some r -> r < next_ref s) /\ (forall h, host s = Some h -> ref h < next_ref s).
Proof.
  cbv zeta. unfold run. induction es as [|e es IH] using rev_ind; [by split|]. rewrite fold_left_app. cbn [fold_left]. set (s := fold_left step es init) in *. destruct IH as [Hs Hh].
  assert (I : (forall r, synced (handle s e) = Some r -> r < next_ref (handle s e)) /\ (forall h, host (handle s e) = Some h -> ref h < next_ref (handle s e))).
  { destruct e; cbn; split; try done; [intros r H; apply Hs in H; lia|intros h0 [= <-]; cbn; lia]. }
  unfold step, render. set (u := handle s e) in *. clearbody u. destruct I as [Is Ih]. case_bool_decide; [done|]. cbn. split; [|done].
  intros r. destruct (open u); [|done]. destruct (host u) as [h|] eqn:E; [|done]. intros [= <-]. by apply Ih.
Qed.

(** Editing a host shows that host, whatever was typed before, and saving writes to its group. *)
Theorem edit_shows_host es h : let s := run (es ++ [OnEdit h]) in
  open s = true /\ values s = defaultsFor h /\ (truthy (get h "groupId") = true -> save_target s = Some (get h "groupId")).
Proof.
  cbv zeta. unfold run. rewrite fold_left_app. cbn [fold_left]. fold (run es). destruct (refs_below es) as [Hs _]. unfold step, render. cbn.
  rewrite bool_decide_false by (intros E; symmetry in E; apply Hs in E; lia). cbn. split; [done|]. split; [done|]. intros T. unfold save_target. cbn. by rewrite T.
Qed.

(** Adding a host resets nothing: the form still holds the values of the host that was edited, or
    added, before it was closed. *)
Theorem add_keeps_values es : values (run (es ++ [OnClose; OnAdd])) = values (run es).
Proof.
  unfold run. rewrite fold_left_app. cbn [fold_left]. fold (run es). unfold step. set (s := run es). clearbody s.
  assert (C : values (render (handle s OnClose)) = values s /\ synced (render (handle s OnClose)) = None).
  { unfold render. cbn. case_bool_decide as E; [by split|by split]. }
  destruct C as [V S]. set (c := render (handle s OnClose)) in *. clearbody c. unfold render. cbn. rewrite S, bool_decide_true by done. exact V.
Qed.

(** ** A host saved without an edit *)

(** A stored host: a field that is neither absent nor null for every field of the form, and
    addresses that are not blank. *)
Record stored (h : obj) : Prop := {
  st_fields : Forall (fun kd => is_nullish (obj_get h kd.1) = false) plain_fields;
  st_hosts : exists l, obj_get h "hosts" = VArr l /\ forallb non_blank l = true;
  st_disabled : exists b, obj_get h "isDisabled" = VBool b;
  st_mux : is_string (obj_get h "muxParams") = true;
  st_sockopt : is_string (obj_get h "sockoptParams") = true }.

Lemma filter_id {A} (f : A -> bool) l : forallb f l = true -> List.filter f l = l.
Proof. induction l as [|x l IH]; cbn; [done|]. rewrite andb_true_iff. intros [-> H]. by rewrite IH. Qed.

Definition other_fields : list string := ["hosts"; "isDisabled"; "fingerprint"; "muxParams"; "sockoptParams"; "mihomoIpVersion"].

Lemma host_resaved h : stored h -> forall k, In k (map fst plain_fields ++ other_fields) -> obj_get (payload (defaultsFor (VObj h))) k = obj_get h k.
Proof.
  intros [F (l & Hl & Nb) (b & Hb) M S] k Hk. rewrite List.Forall_forall in F. unfold payload. rewrite obj_get_set_cases, obj_get_set_cases.
  assert (D : forall kd, In kd plain_fields -> or_nullish (obj_get h kd.1) kd.2 = obj_get h kd.1) by (intros kd H; unfold or_nullish; by rewrite (F kd H)).
  apply in_app_iff in Hk as [Hk|Hk].
  - apply in_map_iff in Hk as ([k' d] & <- & Hin). cbn [fst].
    assert (G : String.eqb "isDisabled" k' = false /\ String.eqb "hosts" k' = false /\ obj_get (obj_del (defaultsFor (VObj h)) "enable") k' = or_nullish (obj_get h k') d).
    { unfold plain_fields in Hin. cbn in Hin. repeat (destruct Hin as [[= <- <-]|Hin]; [repeat split; reflexivity|]). done. }
    destruct G as (-> & -> & ->). exact (D (k', d) Hin).
  - cbn in Hk. destruct Hk as [<-|[<-|[<-|[<-|[<-|[<-|[]]]]]]]; cbn [String.eqb Ascii.eqb Bool.eqb].
    + change (non_blanks (non_blanks (obj_get h "hosts")) = obj_get h "hosts"). rewrite Hl. unfold non_blanks. cbn [as_list]. by rewrite !(filter_id _ _ Nb).
    + change (VBool (negb (truthy (VBool (negb (truthy (obj_get h "isDisabled")))))) = obj_get h "isDisabled"). rewrite Hb. by destruct b.
    + reflexivity.
    + change (asString (obj_get h "muxParams") = obj_get h "muxParams"). by destruct (obj_get h "muxParams").
    + change (asString (obj_get h "sockoptParams") = obj_get h "sockoptParams"). by destruct (obj_get h "sockoptParams").
    + reflexivity.
Qed.

(** ** Moving a host *)

Section Moving.
Variable localeCompare : string -> string -> Z.

Lemma insert_host_perm h l : Permutation (insert_host localeCompare h l) (h :: l).
Proof. induction l as [|x l IH]; cbn; [done|]. destruct (in_order _ h x); [done|]. rewrite IH. apply perm_swap. Qed.

Lemma sortHosts_perm l : Permutation (sortHosts localeCompare l) l.
Proof. induction l as [|x l IH]; cbn; [done|]. rewrite insert_host_perm. by constructor. Qed.

(** A move exchanges two neighbours of the sorted list and leaves the others, so every group is
    reordered exactly once. *)
Theorem onMove_swaps hosts h up ids : onMove localeCompare hosts h up = Some ids ->
  Permutation ids (map group_id hosts) /\
  exists before a b after, map group_id (sortHosts localeCompare hosts) = before ++ a :: b :: after /\ ids = before ++ b :: a :: after /\ group_id h = (if up then b else a).
Proof.
  unfold onMove. set (l := map group_id (sortHosts localeCompare hosts)). destruct (list_find _ l) as [[i g]|] eqn:F; [|done]. apply list_find_Some in F as (Hi & E & _).
  apply jsval_eqb_eq in E. subst g. destruct (up && Nat.eqb i 0) eqn:Z; [done|]. rewrite Hi.
  assert (P : Permutation l (map group_id hosts)) by (apply Permutation_map, sortHosts_perm). clearbody l.
  assert (Sw : forall j a b, l !! j = Some a -> l !! S j = Some b -> exists before after, l = before ++ a :: b :: after /\
     <[j := b]> (<[S j := a]> l) = before ++ b :: a :: after /\ <[S j := a]> (<[j := b]> l) = before ++ b :: a :: after).
  { clear. intros j a b Ha Hb. exists (take j l), (drop (S (S j)) l). pose proof (lookup_lt_Some _ _ _ Hb) as L. assert (T : length (take j l) = j) by (rewrite length_take; lia).
    assert (E : l = take j l ++ a :: b :: drop (S (S j)) l) by (by rewrite <-(take_drop_middle l j a Ha) at 1; f_equal; f_equal; rewrite (drop_S l b (S j) Hb)).
    split; [exact E|]. clear Ha Hb L. revert T E. generalize (take j l), (drop (S (S j)) l). intros bf af T ->. rewrite <-T. clear T.
    split; (rewrite !insert_app_r_alt by lia); (replace (S (length bf) - length bf) with 1 by lia); rewrite Nat.sub_diag; reflexivity. }
  destruct up; cbn [andb] in Z.
  - destruct i as [|i]; [done|]. cbn [Nat.pred]. destruct (l !! i) as [a|] eqn:Ha; [|done]. intros [= <-].
    destruct (Sw i a _ Ha Hi) as (bf & af & E & E1 & _). rewrite E1. split; [rewrite <-P, E; apply Permutation_app_head, perm_swap|]. exists bf, a, (group_id h), af. by rewrite <-E.
  - destruct (l !! S i) as [b|] eqn:Hb; [|done]. intros [= <-].
    destruct (Sw i _ b Hi Hb) as (bf & af & E & _ & E2). rewrite E2. split; [rewrite <-P, E; apply Permutation_app_head, perm_swap|]. exists bf, (group_id h), b, af. by rewrite <-E.
Qed.
End Moving.
