(* ===== verification/LogParse.v ===== *)
(** * Lines of the log viewer

    Models src/frontend/src/pages/index/logParse.ts.  The regular expressions are written as readers that
    consume a prefix; every one of them is deterministic (a run of one class is always followed by a
    character outside it), so a reader that takes the longest run finds the match the engine finds.
    A line is printed by the two sources of the log, the panel's buffer and the journal, and the
    theorems say that the parser takes apart what they print. *)
From Stdlib Require Import Ascii.
From S2P Require Import Prelude JsString JsValue.

(** ** Readers *)

(** The longest prefix of characters of a class, and the rest. *)
Fixpoint span (f : ascii -> bool) (s : string) : string * string :=
  match s with
  | "" => ("", "")
  | String c s' => if f c then let '(a, b) := span f s' in (String c a, b) else ("", s)
  end.

(** One or more characters of a class. *)
Definition many1 (f : ascii -> bool) (s : string) : option (string * string) :=
  let '(a, b) := span f s in if String.eqb a "" then None else Some (a, b).

Definition ws1 : string -> option (string * string) := many1 is_ws.
Definition token : string -> option (string * string) := many1 (fun c => negb (is_ws c)).

(** Exactly [n] characters of a class. *)
Fixpoint exactly (n : nat) (f : ascii -> bool) (s : string) : option (string * string) :=
  match n, s with
  | O, _ => Some ("", s)
  | S n, String c s => if f c then '(a, b) ← exactly n f s; Some (String c a, b) else None
  | S _, "" => None
  end.

Definition lit (c : ascii) (s : string) : option (string * string) := exactly 1 (Ascii.eqb c) s.

(** One reader after the other; the texts are concatenated. *)
Definition seq_read (p q : string -> option (string * string)) (s : string) : option (string * string) :=
  '(a, s) ← p s; '(b, s) ← q s; Some (a +:+ b, s).

Definition two_digits : string -> option (string * string) := exactly 2 is_digit.
Definition clock : string -> option (string * string) := seq_read two_digits (seq_read (lit ":") (seq_read two_digits (seq_read (lit ":") two_digits))).
Definition ymd : string -> option (string * string) := seq_read (exactly 4 is_digit) (seq_read (lit "/") (seq_read two_digits (seq_read (lit "/") two_digits))).

Definition is_letter (c : ascii) : bool := negb (Ascii.eqb (lower_char c) (upper_char c)).
Definition is_upper (c : ascii) : bool := negb (Ascii.eqb c (lower_char c)).
Definition one_line (s : string) : bool := forall_chars (fun c => negb (Ascii.eqb c (ascii_of_nat 10) || Ascii.eqb c (ascii_of_nat 13))) s.

(** [\d{1,2}] before white space *)
Definition day (s : string) : option (string * string) := '(a, s) ← many1 is_digit s; if Nat.leb (String.length a) 2 then Some (a, s) else None.

(** ** The expressions *)

Definition SYSLOG_PREFIX (s : string) : option (string * string * string) :=
  '(date, s) ← seq_read (exactly 3 is_letter) (seq_read ws1 day) s;
  '(_, s) ← ws1 s; '(time, s) ← clock s; '(_, s) ← ws1 s; '(_, s) ← token s; '(_, s) ← ws1 s; '(ident, s) ← token s; '(_, s) ← ws1 s;
  if ends_with ident ":" && Nat.leb 2 (String.length ident) && one_line s then Some (date, time, s) else None.

(** [message.replace(GO_LOG_DATE, '')] *)
Definition strip_go_date (s : string) : string :=
  match seq_read ymd (seq_read ws1 (seq_read clock ws1)) s with Some (_, s) => s | None => s end.

Definition TELEGO (s : string) : option (string * string) :=
  '(_, s) ← lit "[" s; '(_, s) ← many1 (fun c => negb (Ascii.eqb c "]")) s; '(_, s) ← lit "]" s; '(_, s) ← ws1 s; '(level, s) ← many1 is_upper s; '(_, s) ← ws1 s;
  if one_line s then Some (level, s) else None.

Definition APP_LOG (s : string) : option (string * string * string * string) :=
  '(date, s) ← ymd s; '(_, s) ← ws1 s; '(time, s) ← clock s; '(_, s) ← ws1 s; '(level, s) ← token s; '(_, s) ← ws1 s; '(_, s) ← lit "-" s; '(_, s) ← ws1 s;
  Some (date, time, level, s).

(** ** The parser *)

Record ParsedLog := { date : string; time : string; stamp : string; levelText : string; levelClass : string; service : string; body : string }.

Definition LEVELS : list (string * string) :=
  [("DEBUG", "level-debug"); ("INFO", "level-info"); ("NOTICE", "level-notice"); ("WARNING", "level-warning"); ("ERROR", "level-error")].

Definition level_class (level : string) : option string := option_map snd (List.find (fun l => String.eqb level l.1) LEVELS).

Definition splitLevelDash (message : string) : option (string * string) :=
  dash ← index_of " - " message;
  let level := trim (str_take dash message) in
  match level_class level with None => None | Some _ => Some (level, str_drop (dash + 3) message) end.

(** The level and the body of a message of the journal. *)
Definition journal_body (message : string) : string * string :=
  match splitLevelDash message with
  | Some lr => lr
  | None =>
      let message := strip_go_date message in
      match TELEGO message with
      | Some (level, rest) => match level_class level with Some _ => (level, rest) | None => ("", message) end
      | None => ("", message)
      end
  end.

(** The date, the time, the level and the body, before the service is taken off. *)
Definition fields (raw : string) : string * string * string * string :=
  match SYSLOG_PREFIX raw with
  | Some (d, t, message) => let '(level, b) := journal_body message in (d, t, level, b)
  | None => match APP_LOG raw with Some f => f | None => ("", "", "", raw) end
  end.

Definition finish (f : string * string * string * string) : ParsedLog :=
  let '(d, t, level, b) := f in
  let '(service, b) := if starts_with b "XRAY:" then ("XRAY:", trim_start (str_drop 5 b)) else if String.eqb b "" then ("", b) else ("X-UI:", b) in
  {| date := d; time := t; stamp := join " " (List.filter (fun x => negb (String.eqb x "")) [d; t]); levelText := level;
     levelClass := match level_class level with Some c => c | None => "level-unknown" end; service := service; body := b |}.

Definition parseLogLine (line : string) : ParsedLog := finish (fields (trim line)).

(** ** Examples from the sources of the log *)

Example app_line : parseLogLine "2026/06/08 19:22:22 WARNING - XRAY: core: Xray 25.1 started " =
  {| date := "2026/06/08"; time := "19:22:22"; stamp := "2026/06/08 19:22:22"; levelText := "WARNING"; levelClass := "level-warning"; service := "XRAY:"; body := "core: Xray 25.1 started" |}.
Proof. reflexivity. Qed.

Example telego_line : parseLogLine "Jun  8 23:56:52 host x-ui[812]: [Mon Jun  8 23:56:52 UTC 2026] ERROR Execution error" =
  {| date := "Jun  8"; time := "23:56:52"; stamp := "Jun  8 23:56:52"; levelText := "ERROR"; levelClass := "level-error"; service := "X-UI:"; body := "Execution error" |}.
Proof. reflexivity. Qed.

Example systemd_line : parseLogLine "Jun 08 23:56:52 host systemd[1]: Stopping x-ui.service - x-ui Service..." =
  {| date := "Jun 08"; time := "23:56:52"; stamp := "Jun 08 23:56:52"; levelText := ""; levelClass := "level-unknown"; service := "X-UI:"; body := "Stopping x-ui.service - x-ui Service..." |}.
Proof. reflexivity. Qed.

(** ** What the two sources print is taken apart *)

Definition reader := string -> option (string * string).

(** A reader that does not look past what it takes. *)
Class Prefix (p : reader) := extend s a b r : p s = Some (a, b) -> p (s +:+ r) = Some (a, b +:+ r).

#[export] Instance exactly_prefix n f : Prefix (exactly n f).
Proof.
  intros s. revert s. induction n as [|n IH]; intros s a b r; [by intros [= <- <-]|]. destruct s as [|c s]; [done|]. cbn. destruct (f c); [|done].
  destruct (exactly n f s) as [[x y]|] eqn:E; [|done]. cbn. intros [= <- <-]. by rewrite (IH _ _ _ r E).
Qed.

#[export] Instance lit_prefix c : Prefix (lit c).
Proof. intros s a b r. apply (exactly_prefix 1 (Ascii.eqb c)). Qed.

#[export] Instance seq_prefix p q `{!Prefix p} `{!Prefix q} : Prefix (seq_read p q).
Proof.
  intros s a b r H. unfold seq_read in *. destruct (p s) as [[x y]|] eqn:E; [|done]. cbn in H. destruct (q y) as [[u v]|] eqn:F; [|done]. injection H as <- <-.
  rewrite (extend _ _ _ r E). cbn. by rewrite (extend _ _ _ r F).
Qed.

#[export] Instance clock_prefix : Prefix clock.
Proof. unfold clock, two_digits. apply _. Qed.

#[export] Instance ymd_prefix : Prefix ymd.
Proof. unfold ymd, two_digits. apply _. Qed.

Definition starts_outside (f : ascii -> bool) (s : string) : Prop := match s with "" => True | String c _ => f c = false end.

Lemma span_app f a b : forall_chars f a = true -> starts_outside f b -> span f (a +:+ b) = (a, b).
Proof.
  induction a as [|c a IH]; cbn; [destruct b as [|c b]; [done|]; cbn; by intros _ ->|]. rewrite andb_true_iff. intros [-> H] O. by rewrite IH.
Qed.

Lemma many1_app f a b : a <> "" -> forall_chars f a = true -> starts_outside f b -> many1 f (a +:+ b) = Some (a, b).
Proof. intros N H O. unfold many1. rewrite span_app by done. by rewrite (proj2 (String.eqb_neq a "")). Qed.

(** A text without white space, and one that does not begin or end with it. *)
Definition word (s : string) : Prop := s <> "" /\ forall_chars (fun c => negb (is_ws c)) s = true.
Definition trimmed (s : string) : Prop := s <> "" /\ trim_start s = s /\ trim_end s = s.

Lemma token_app a b : word a -> token (a +:+ String " " b) = Some (a, String " " b).
Proof. intros [N H]. by apply many1_app. Qed.

Lemma ws1_space s : starts_outside is_ws s -> ws1 (String " " s) = Some (" ", s).
Proof. intros H. by apply (many1_app is_ws " " s). Qed.

Lemma trimmed_head m : trimmed m -> starts_outside is_ws m.
Proof.
  intros (N & T & _). destruct m as [|c m]; [done|]. cbn in T |- *. destruct (is_ws c) eqn:W; [|done]. exfalso.
  assert (L : forall s, String.length (trim_start s) <= String.length s) by (induction s as [|d s IH]; cbn; [lia|]; destruct (is_ws d); cbn; lia).
  specialize (L m). rewrite T in L. cbn in L. lia.
Qed.

Lemma trim_end_app a m : m <> "" -> trim_end m = m -> trim_end (a +:+ m) = a +:+ m.
Proof.
  intros N T. induction a as [|c a IH]; [exact T|]. cbn [String.append trim_end]. rewrite IH. destruct (a +:+ m) eqn:E; [|done]. destruct a; [by subst|done].
Qed.

Lemma trim_line c a m : is_ws c = false -> trimmed m -> trim (String c a +:+ m) = String c a +:+ m.
Proof. intros W (N & _ & T). unfold trim. cbn [String.append trim_start]. rewrite W. by apply (trim_end_app (String c a)). Qed.

(** The text of a time or of a date. *)
Definition is_clock (t : string) : Prop := clock t = Some (t, "").
Definition is_ymd (d : string) : Prop := ymd d = Some (d, "").

Lemma read_all (p : reader) `{!Prefix p} t r : p t = Some (t, "") -> p (t +:+ r) = Some (t, r).
Proof. intros H. by rewrite (extend _ _ _ r H). Qed.

Lemma clock_head t : is_clock t -> exists c r, t = String c r /\ is_digit c = true.
Proof. unfold is_clock, clock, seq_read. destruct t as [|c r]; [done|]. cbn. destruct (is_digit c) eqn:D; [|done]. intros _. by exists c, r. Qed.

Lemma ymd_head t : is_ymd t -> exists c r, t = String c r /\ is_digit c = true.
Proof. unfold is_ymd, ymd, seq_read. destruct t as [|c r]; [done|]. cbn. destruct (is_digit c) eqn:D; [|done]. intros _. by exists c, r. Qed.

Lemma digit_start c r : is_digit c = true -> starts_outside is_ws (String c r).
Proof. intros D. cbn. by apply is_digit_not_ws. Qed.

Lemma word_start w r : word w -> starts_outside is_ws (w +:+ r).
Proof. intros [N H]. destruct w as [|c w]; [done|]. cbn in H |- *. apply andb_true_iff in H as [H _]. by apply negb_true_iff in H. Qed.

(** The line of the panel's buffer. *)
Definition app_text (d t level m : string) : string := d +:+ " " +:+ t +:+ " " +:+ level +:+ " - " +:+ m.

Lemma app_parsed d t level m : is_ymd d -> is_clock t -> word level -> trimmed m -> parseLogLine (app_text d t level m) = finish (d, t, level, m).
Proof.
  intros D T L M. unfold parseLogLine, app_text. destruct (ymd_head d D) as (c & r & Ed & Dc).
  assert (W : trim (d +:+ " " +:+ t +:+ " " +:+ level +:+ " - " +:+ m) = d +:+ " " +:+ t +:+ " " +:+ level +:+ " - " +:+ m).
  { pose proof (trim_line c (r +:+ " " +:+ t +:+ " " +:+ level +:+ " - ") m (is_digit_not_ws c Dc) M) as H. rewrite Ed. cbn [String.append] in H |- *. repeat (rewrite app_assoc_str in H; cbn [String.append] in H). exact H. }
  rewrite W. clear W. f_equal. unfold fields.
  assert (S : SYSLOG_PREFIX (d +:+ " " +:+ t +:+ " " +:+ level +:+ " - " +:+ m) = None).
  { rewrite Ed. unfold SYSLOG_PREFIX, seq_read. cbn. replace (is_letter c) with false; [done|]. clear -Dc. revert Dc. by destruct c as [[] [] [] [] [] [] [] []]; vm_compute. }
  rewrite S. clear S. unfold APP_LOG. rewrite (read_all ymd d _ D). cbn [mbind option_bind].
  destruct (clock_head t T) as (c' & r' & Et & Dc'). assert (Ht : forall x, starts_outside is_ws (t +:+ x)) by (intros x; rewrite Et; by apply digit_start).
  change (" " +:+ t +:+ " " +:+ level +:+ " - " +:+ m) with (String " " (t +:+ " " +:+ level +:+ " - " +:+ m)). rewrite ws1_space by apply Ht. cbn [mbind option_bind].
  rewrite (read_all clock t _ T). cbn [mbind option_bind]. change (" " +:+ level +:+ " - " +:+ m) with (String " " (level +:+ " - " +:+ m)). rewrite ws1_space by (by apply word_start). cbn [mbind option_bind].
  change (" - " +:+ m) with (String " " ("- " +:+ m)). rewrite token_app by done. cbn [mbind option_bind]. rewrite ws1_space by done. cbn. change (String " " m) with (String " " m).
  rewrite ws1_space by (by apply trimmed_head). done.
Qed.

(** The line of the journal: the day is padded with blanks. *)
Definition journal_text (month gap d t host ident message : string) : string :=
  month +:+ gap +:+ d +:+ " " +:+ t +:+ " " +:+ host +:+ " " +:+ ident +:+ ": " +:+ message.

Record journal_ok (month gap d t host ident : string) : Prop := {
  jo_month : exactly 3 is_letter month = Some (month, "");
  jo_gap : gap <> "" /\ forall_chars is_ws gap = true;
  jo_day : d <> "" /\ forall_chars is_digit d = true /\ String.length d <= 2;
  jo_clock : is_clock t;
  jo_host : word host;
  jo_ident : word ident }.

Lemma ident_word i : word i -> word (i +:+ ":") /\ ends_with (i +:+ ":") ":" = true /\ Nat.leb 2 (String.length (i +:+ ":")) = true.
Proof.
  intros [N H]. split; [split; [by destruct i|by rewrite forall_chars_app, H]|]. split.
  - unfold ends_with. rewrite str_rev_cat. apply prefix_app.
  - rewrite length_app_str. destruct i; [done|]. cbn [String.length]. apply Nat.leb_le. lia.
Qed.

Lemma journal_prefix month gap d t host ident message : journal_ok month gap d t host ident -> trimmed message -> one_line message = true ->
  SYSLOG_PREFIX (journal_text month gap d t host ident message) = Some (month +:+ gap +:+ d, t, message).
Proof.
  intros [Mo [Gn Gw] (Dn & Dd & Dl) Cl Ho Id] Tm Nl. unfold SYSLOG_PREFIX, journal_text. destruct (clock_head t Cl) as (c & r & Et & Dc).
  destruct d as [|dc d]; [done|]. pose proof Dd as Dd'. cbn in Dd'. apply andb_true_iff in Dd' as [Hdc _].
  assert (E : seq_read (exactly 3 is_letter) (seq_read ws1 day) (month +:+ gap +:+ String dc d +:+ " " +:+ t +:+ " " +:+ host +:+ " " +:+ ident +:+ ": " +:+ message) =
    Some (month +:+ gap +:+ String dc d, " " +:+ t +:+ " " +:+ host +:+ " " +:+ ident +:+ ": " +:+ message)).
  { unfold seq_read at 1. rewrite (read_all (exactly 3 is_letter) month _ Mo). cbn [mbind option_bind]. unfold seq_read, ws1.
    rewrite (many1_app is_ws gap _ Gn Gw) by (cbn; by apply is_digit_not_ws). cbn [mbind option_bind]. unfold day. rewrite (many1_app is_digit (String dc d)) by done. cbn [mbind option_bind].
    by rewrite (proj2 (Nat.leb_le _ _) Dl). }
  rewrite E. cbn [mbind option_bind]. clear E. destruct (ident_word ident Id) as (Iw & Ie & Il).
  assert (Ht : forall x, starts_outside is_ws (t +:+ x)) by (intros x; rewrite Et; by apply digit_start).
  cbn [String.append]. rewrite ws1_space by apply Ht. cbn [mbind option_bind]. rewrite (read_all clock t _ Cl). cbn [mbind option_bind].
  rewrite ws1_space by (by apply word_start). cbn [mbind option_bind]. rewrite token_app by done. cbn [mbind option_bind]. rewrite ws1_space by (by apply word_start). cbn [mbind option_bind].
  assert (R : ident +:+ String ":" (String " " message) = (ident +:+ ":") +:+ String " " message) by (by rewrite app_assoc_str). rewrite R, token_app by done. cbn [mbind option_bind].
  rewrite ws1_space by (by apply trimmed_head). cbn [mbind option_bind]. by rewrite Ie, Il, Nl.
Qed.

Lemma journal_parsed month gap d t host ident message : journal_ok month gap d t host ident -> trimmed message -> one_line message = true ->
  parseLogLine (journal_text month gap d t host ident message) = let '(level, b) := journal_body message in finish (month +:+ gap +:+ d, t, level, b).
Proof.
  intros J M N. unfold parseLogLine. assert (W : trim (journal_text month gap d t host ident message) = journal_text month gap d t host ident message).
  { pose proof (jo_month _ _ _ _ _ _ J) as Mo. destruct month as [|c mo]; [done|]. assert (C : is_letter c = true) by (cbn in Mo; by destruct (is_letter c)).
    assert (Wc : is_ws c = false) by (revert C; destruct c as [[] [] [] [] [] [] [] []]; vm_compute; congruence). unfold journal_text.
    pose proof (trim_line c (mo +:+ gap +:+ d +:+ " " +:+ t +:+ " " +:+ host +:+ " " +:+ ident +:+ ": ") message Wc M) as H. cbn [String.append] in H |- *.
    repeat (rewrite app_assoc_str in H; cbn [String.append] in H). exact H. }
  rewrite W. unfold fields. rewrite journal_prefix by done. by destruct (journal_body message).
Qed.

Lemma level_dash level m : In level (map fst LEVELS) -> journal_body (level +:+ " - " +:+ m) = (level, m).
Proof. intros H. cbn in H. repeat (destruct H as [<-|H]; [by destruct m|]). done. Qed.

Lemma level_word level : In level (map fst LEVELS) -> word level.
Proof. cbn. intros H. repeat (destruct H as [<-|H]; [by split|]). done. Qed.

Lemma one_line_app a b : one_line a = true -> one_line b = true -> one_line (a +:+ b) = true.
Proof. unfold one_line. rewrite forall_chars_app. by intros -> ->. Qed.

Lemma level_message level m : In level (map fst LEVELS) -> trimmed m -> one_line m = true -> trimmed (level +:+ " - " +:+ m) /\ one_line (level +:+ " - " +:+ m) = true.
Proof.
  intros L (N & S & E) Nl. split.
  - repeat (destruct L as [<-|L]; [split; [done|]; split; [done|]; rewrite <-app_assoc_str; by apply trim_end_app|]). done.
  - repeat (destruct L as [<-|L]; [exact Nl|]). done.
Qed.

(** Who logged a message, and the text it is logged as: that of the Xray process is marked. *)
Inductive source := Panel | Xray.

Definition logged (src : source) (text : string) : string := match src with Panel => text | Xray => "XRAY: " +:+ text end.

(** The line the viewer should show for it. *)
Definition expected (src : source) (d t level text : string) : ParsedLog :=
  {| date := d; time := t; stamp := d +:+ " " +:+ t; levelText := level; levelClass := "level-" +:+ to_lower level;
     service := match src with Panel => "X-UI:" | Xray => "XRAY:" end; body := text |}.

Lemma logged_trimmed src text : trimmed text -> trimmed (logged src text).
Proof. intros T. destruct src; [done|]. destruct T as (N & _ & E). split; [done|]. split; [done|]. by apply (trim_end_app "XRAY: "). Qed.

Lemma level_class_named level : In level (map fst LEVELS) -> level_class level = Some ("level-" +:+ to_lower level).
Proof. cbn. intros H. repeat (destruct H as [<-|H]; [done|]). done. Qed.

Lemma finish_logged src d t level text : d <> "" -> t <> "" -> In level (map fst LEVELS) -> trimmed text ->
  (src = Panel -> starts_with text "XRAY:" = false) -> finish (d, t, level, logged src text) = expected src d t level text.
Proof.
  intros Nd Nt L (N & S & _) P. unfold finish, expected. rewrite (level_class_named level L). cbn [List.filter].
  rewrite (proj2 (String.eqb_neq d "") Nd), (proj2 (String.eqb_neq t "") Nt). cbn [negb]. destruct src; cbn [logged].
  - by rewrite (P eq_refl), (proj2 (String.eqb_neq text "") N).
  - cbn -[trim_start]. change (trim_start (String " " text)) with (trim_start text). by rewrite S.
Qed.

Lemma clock_nonempty t : is_clock t -> t <> "".
Proof. by intros (c & r & -> & _)%clock_head. Qed.

(** C39. The viewer takes apart what both sources of the log print.  Take a message of one of the five levels,
    logged by the panel or by Xray, whose text is one line, is not empty, neither begins nor ends with white space and, from
    the panel, does not begin with the mark of Xray.  Whether its line comes from the panel's buffer or from the journal, the
    viewer shows the date and the time of that line, the level with its colour, who logged it, and the text as it was logged. *)
Theorem log_sources_agree (date0 clock0 month gap d t host ident level text : string) (src : source) :
  is_ymd date0 -> is_clock clock0 -> journal_ok month gap d t host ident -> In level (map fst LEVELS) -> trimmed text -> one_line text = true ->
  (src = Panel -> starts_with text "XRAY:" = false) ->
  parseLogLine (app_text date0 clock0 level (logged src text)) = expected src date0 clock0 level text /\
  parseLogLine (journal_text month gap d t host ident (level +:+ " - " +:+ logged src text)) = expected src (month +:+ gap +:+ d) t level text.
Proof.
  intros D T J L M N P. pose proof (logged_trimmed src text M) as M'. assert (N' : one_line (logged src text) = true) by (by destruct src). split.
  - rewrite app_parsed by (done || by apply level_word). apply finish_logged; try done; [|by apply clock_nonempty]. by destruct (ymd_head date0 D) as (c & r & -> & _).
  - destruct (level_message level _ L M' N') as [M2 N2]. rewrite journal_parsed by done. rewrite level_dash by done. destruct J as [Mo _ _ C _ _].
    apply finish_logged; try done; [|by apply clock_nonempty]. by destruct month.
Qed.

Lemma log_sources_agree_witness :
  parseLogLine "2026/06/08 19:22:22 INFO - XRAY: started" = expected Xray "2026/06/08" "19:22:22" "INFO" "started" /\
  parseLogLine "Jun  8 19:22:22 host x-ui[12]: INFO - XRAY: started" = expected Xray "Jun  8" "19:22:22" "INFO" "started".
Proof.
  apply (log_sources_agree "2026/06/08" "19:22:22" "Jun" "  " "8" "19:22:22" "host" "x-ui[12]" "INFO" "started" Xray); [reflexivity|reflexivity|by repeat split; cbn; try lia|right; by left|by repeat split|reflexivity|done].
Defined.
