(* ===== verification/SubPage.v ===== *)
(** * The subscription page

    Models src/frontend/src/pages/sub/subPageModel.ts and the state of SubPage.tsx.  The page shows a
    snapshot of a subscription that the server rendered into it, and keeps it truthful: a timer fires
    shortly after the next deadline or quota reset of the snapshot, an interval polls every minute, and
    both ask the server for a new snapshot unless a request is in flight.

    The page is a step system.  Its state is what the component keeps (the snapshot, the time of the
    snapshot, the displayed time, the flag that guards requests) with the environment's part made
    explicit: the requests in flight and the boundary timer with the variables its callback closed
    over.  An event carries the readings of the clock it makes.  Array entries have the shape the server
    sends (an account window is an object with a window).  Numbers are those of JsValue.v; the
    formatter of the browser ([Intl.NumberFormat]) is an argument. *)
From Stdlib Require Import Ascii.
From S2P Require Import Prelude JsString JsValue JsNumber JsObject Utf8 Base64 Uri Formatters StreamWire LinkParser TrafficMultiplier.
Local Open Scope Z_scope.

(** ** Numbers *)

(** [Math.ceil((a - z) / q)] for a positive integer [q] *)
Definition ceil_quotient (a : num) (z q : Z) : num :=
  match a with
  | NFin m e => let d := 10 ^ Z.of_nat e in NFin (- ((z * d - m) / (d * q))) 0
  | n => n
  end.

(** [Math.max(0, n)] *)
Definition max0 (n : num) : num := match n with NNaN => NNaN | n => if num_ltb n (NFin 0 0) then NFin 0 0 else n end.

(** ** The status of a subscription *)

Definition DAY_MS : Z := 86400000.

Inductive SubStatus := s_active | s_unlimited | s_expired | s_depleted | s_disabled | s_grace | s_throttled | s_blocked | s_mixed.

#[export] Instance SubStatus_eq_dec : EqDecision SubStatus.
Proof. solve_decision. Defined.

Record SubUsage := { enabled : bool; usedByte : num; totalByte : num; expireMs : num }.

Definition resolveSubStatus (sub : SubUsage) (now : Z) : SubStatus :=
  if negb (enabled sub) then s_disabled
  else if num_ltb (NFin 0 0) (expireMs sub) && num_leb (expireMs sub) (NFin now 0) then s_expired
  else if num_ltb (NFin 0 0) (totalByte sub) && num_leb (totalByte sub) (usedByte sub) then s_depleted
  else if num_leb (totalByte sub) (NFin 0 0) && num_eqb (expireMs sub) (NFin 0 0) then s_unlimited
  else s_active.

Definition resolvePublicSubStatus (baseStatus : SubStatus) (publicState : jsval) : SubStatus :=
  if bool_decide (baseStatus = s_disabled) then s_disabled
  else if is_str publicState "grace" then s_grace
  else if is_str publicState "mixed" then s_mixed
  else if is_str publicState "blocked" then
    if bool_decide (baseStatus = s_expired) || bool_decide (baseStatus = s_depleted) then baseStatus else s_blocked
  else if is_str publicState "active" && bool_decide (baseStatus = s_depleted) then s_active
  else baseStatus.

Definition daysUntil (expireMs : num) (now : Z) : option num :=
  if num_leb expireMs (NFin 0 0) then None else Some (max0 (ceil_quotient expireMs now DAY_MS)).

(** The quotient is kept as numerator and denominator. *)
Definition usagePercent (usedByte totalByte : num) : Z * Z :=
  match usedByte, totalByte with
  | NFin u e, NFin t f =>
      if t <=? 0 then (0, 1)
      else let p := u * 10 ^ Z.of_nat f * 100 in let q := t * 10 ^ Z.of_nat e in
           if q <? p then (100, 1) else if p <? 0 then (0, 1) else (p, q)
  | _, _ => (0, 1)
  end.

Definition minutesUntil (resetAt : num) (now : Z) : option num :=
  if negb (num_finite resetAt) || num_leb resetAt (NFin 0 0) then None else Some (max0 (ceil_quotient resetAt now 60000)).

(** [openedAt < b <= now] *)
Definition crossed (openedAt now : Z) (b : num) : bool := num_ltb (NFin openedAt 0) b && num_leb b (NFin now 0).

Definition hasCrossedPageBoundary (openedAt now : Z) (expireMs : num) (publicState : jsval) (windows accountExpiries : list num) : bool :=
  if now <=? openedAt then false
  else if is_str publicState "active" && crossed openedAt now expireMs then true
  else if existsb (crossed openedAt now) accountExpiries then true
  else existsb (crossed openedAt now) windows.

(** ** The state of the page *)

Definition accountWindows (data : obj) : list jsval :=
  match obj_get data "windowQuotas" with
  | VArr l => l
  | _ => if truthy (obj_get data "windowQuota") then [VObj [("accountIndex", VInt 1); ("window", obj_get data "windowQuota")]] else []
  end.

Definition nodes (data : obj) : list jsval := as_list (obj_get data "nodes").
Definition accountStates (data : obj) : list jsval := as_list (obj_get data "accountStates").

(** [Number(data.k || 0)] *)
Definition number_at (data : obj) (k : string) : num := to_number (or_falsy (obj_get data k) (VInt 0)).

Definition page_used (data : obj) : num :=
  if is_nullish (obj_get data "usedByte") then num_add (number_at data "downloadByte") (number_at data "uploadByte")
  else to_number (obj_get data "usedByte").

Definition page_expire (data : obj) : num := num_scale (number_at data "expire") 1000.

(** The resets of the windows of [pageWindows]. *)
Definition pageWindows (data : obj) : list num :=
  map (fun w => to_number (get w "resetAt"))
    (map (fun entry => get entry "window") (accountWindows data) ++
     flat_map (fun node => if truthy (get node "window") then [get node "window"] else []) (nodes data)).

Definition expiries (data : obj) : list num := map (fun s => to_number (get s "expiryMs")) (accountStates data).

(** The variables the boundary effect closes over. *)
Record Closure := { c_snapshotAt : Z; c_expireMs : num; c_publicState : jsval; c_windows : list num; c_expiries : list num }.

Definition closure (data : obj) (snapshotAt : Z) : Closure :=
  {| c_snapshotAt := snapshotAt; c_expireMs := page_expire data; c_publicState := obj_get data "publicState";
     c_windows := pageWindows data; c_expiries := expiries data |}.

Definition boundaries (c : Closure) : list num :=
  let later := fun b => num_ltb (NFin (c_snapshotAt c) 0) b in
  (if is_str (c_publicState c) "active" && later (c_expireMs c) then [c_expireMs c] else []) ++
  List.filter later (c_windows c) ++ List.filter later (c_expiries c).

(** [Math.min(...l)] of a list without NaN *)
Fixpoint num_min (b : num) (l : list num) : num :=
  match l with [] => b | x :: l => num_min (if num_ltb x b then x else b) l end.

Definition MAX_DELAY : Z := 2147483647.

(** [Math.max(0, Math.min(b - now + 50, 2_147_483_647))], as the integer [setTimeout] makes of it. *)
Definition delay_of (b : num) (now : Z) : Z :=
  match b with
  | NFin m e => Z.max 0 (Z.min (num_trunc (m + (50 - now) * 10 ^ Z.of_nat e) e) MAX_DELAY)
  | NInf false => MAX_DELAY
  | _ => 0
  end.

Record Timer := { t_armed : Z; t_delay : Z; t_closure : Closure }.

Definition fires (t : Timer) : Z := t_armed t + t_delay t.

(** Not set because nothing is due; set; fired. *)
Inductive Timeout := Idle | Armed (t : Timer) | Fired (at_ : Z).

(** The boundary effect, run at [now]. *)
Definition boundary_effect (c : Closure) (now : Z) : Timeout :=
  match boundaries c with
  | [] => Idle
  | b :: l => Armed {| t_armed := now; t_delay := delay_of (num_min b l) now; t_closure := c |}
  end.

Record Page := { liveData : obj; now : Z; snapshotAt : Z; infoPending : bool; requests : nat; timeout : Timeout }.

Definition mount (subData : obj) (now_ at_ effect_at : Z) : Page :=
  {| liveData := subData; now := now_; snapshotAt := at_; infoPending := false; requests := 0;
     timeout := boundary_effect (closure subData at_) effect_at |}.

(** [refreshInfo] up to its request. *)
Definition refreshInfo (p : Page) : Page :=
  if infoPending p then p
  else {| liveData := liveData p; now := now p; snapshotAt := snapshotAt p; infoPending := true; requests := S (requests p); timeout := timeout p |}.

(** The address of the request: the query of the page with three changes. *)
Definition params_delete (ps : list (string * string)) (k : string) : list (string * string) := List.filter (fun p => negb (String.eqb k p.1)) ps.

Fixpoint params_set (ps : list (string * string)) (k v : string) : list (string * string) :=
  match ps with
  | [] => [(k, v)]
  | p :: ps => if String.eqb k p.1 then (k, v) :: params_delete ps k else p :: params_set ps k v
  end.

Definition info_params (ps : list (string * string)) : list (string * string) :=
  params_set (params_delete (params_delete ps "html") "view") "format" "info".

(** What became of the request: status 404, another status that is not a success, a body, or an error
    of the network or of the JSON reader. *)
Inductive Response := NotFound | NotOk | Body (info : jsval) | NetworkError.

(** [{...previous, ...info}] *)
Definition merge (previous info : obj) : obj := assign info previous.

(** What a response writes into the snapshot. *)
Definition received (sId : string) (r : Response) : obj :=
  match r with
  | NotFound => [("enabled", VBool false); ("publicState", VStr "blocked")]
  | Body (VObj info) => if is_str (obj_get info "sId") sId then info else []
  | _ => []
  end.

(** A property is another one for React when it was written, unless with an equal primitive. *)
Definition is_ref (v : jsval) : bool := match v with VArr _ | VObj _ => true | _ => false end.

Definition rewritten (previous data written : obj) (k : string) : bool :=
  obj_has written k && (is_ref (obj_get data k) || negb (bool_decide (obj_get data k = obj_get previous k))).

(** Whether a dependency of the boundary effect changed. *)
Definition deps_changed (previous data written : obj) (at_ at' : Z) : bool :=
  let new := rewritten previous data written in
  new "accountStates" || (new "windowQuotas" || negb (is_array (obj_get data "windowQuotas")) && new "windowQuota") ||
  negb (bool_decide (page_expire data = page_expire previous)) || new "nodes" || new "publicState" || negb (at_ =? at').

(** The rest of [refreshInfo], its [finally] reading the clock twice, and the boundary effect after it. *)
Definition onReply (sId : string) (r : Response) (at_ now_ effect_at : Z) (p : Page) : Page :=
  let written := received sId r in
  let data := merge (liveData p) written in
  {| liveData := data; now := now_; snapshotAt := at_; infoPending := false; requests := Nat.pred (requests p);
     timeout := if deps_changed (liveData p) data written (snapshotAt p) at_ then boundary_effect (closure data at_) effect_at else timeout p |}.

(** The interval of 30 seconds. *)
Definition onTick (t : Z) (p : Page) : Page :=
  {| liveData := liveData p; now := t; snapshotAt := snapshotAt p; infoPending := infoPending p; requests := requests p; timeout := timeout p |}.

(** The callback of the boundary timer. *)
Definition onBoundary (t : Z) (p : Page) : Page :=
  match timeout p with
  | Armed tm =>
      let c := t_closure tm in
      let p := {| liveData := liveData p; now := t; snapshotAt := snapshotAt p; infoPending := infoPending p; requests := requests p; timeout := Fired t |} in
      if hasCrossedPageBoundary (c_snapshotAt c) t (c_expireMs c) (c_publicState c) (c_windows c) (c_expiries c) then refreshInfo p else p
  | _ => p
  end.

(** The pages a subscriber can see at the time [c], by a clock that does not run backwards. *)
Inductive reachable (sId : string) (subData : obj) : Z -> Page -> Prop :=
| reach_mount t0 t1 t2 : t0 <= t1 <= t2 -> reachable sId subData t2 (mount subData t0 t1 t2)
| reach_tick c p t : reachable sId subData c p -> c <= t -> reachable sId subData t (onTick t p)
| reach_poll c p t : reachable sId subData c p -> c <= t -> reachable sId subData t (refreshInfo p)
| reach_boundary c p t tm : reachable sId subData c p -> c <= t -> timeout p = Armed tm -> fires tm <= t -> reachable sId subData t (onBoundary t p)
| reach_reply c p r t0 t1 t2 : reachable sId subData c p -> (0 < requests p)%nat -> c <= t0 <= t1 -> t1 <= t2 ->
    reachable sId subData t2 (onReply sId r t0 t1 t2 p).

(** What the page shows. *)
Definition displayStatus (p : Page) : SubStatus :=
  let d := liveData p in
  resolvePublicSubStatus
    (resolveSubStatus {| enabled := truthy (obj_get d "enabled"); usedByte := page_used d; totalByte := number_at d "totalByte"; expireMs := page_expire d |} (now p))
    (obj_get d "publicState").

Definition daysLeft (p : Page) : option num := daysUntil (page_expire (liveData p)) (now p).

(** The tag of one account: [updatingStatus], [availableAfterExpiry], [unavailable] or [active]. *)
Definition account_label (account : jsval) (now : Z) : string :=
  let e := to_number (get account "expiryMs") in
  if is_str (get account "state") "active" && num_ltb (NFin 0 0) e && num_leb e (NFin now 0) then "subscription.updatingStatus"
  else if is_str (get account "state") "grace" then "subscription.availableAfterExpiry"
  else if is_str (get account "state") "blocked" then "subscription.unavailable"
  else "subscription.active".

(** ** Amounts *)

Definition traffic_units : list string := ["KB"; "MB"; "GB"; "TB"; "PB"].

(** The loop: [p / q] of the unit [u], and the larger units that are left. *)
Fixpoint pick_unit (p q : Z) (u : string) (larger : list string) : Z * string :=
  match larger with
  | [] => (q, u)
  | v :: larger => if q * 1024 <=? p then pick_unit p (q * 1024) v larger else (q, u)
  end.

Definition formatBilledTrafficBytes (billedBytes legacyDisplay : jsval) : string :=
  let fallback := str_or_empty (or_falsy legacyDisplay (VStr "0")) in
  if is_nullish billedBytes then fallback
  else match to_number billedBytes with
       | NFin m e => if m <? 0 then fallback else let '(q, u) := pick_unit m (10 ^ Z.of_nat e) "B" traffic_units in toFixed m q 2 +:+ u
       | _ => fallback
       end.

(** The formatter of the browser for one language: an integer with its grouping, an integer without
    grouping in at least so many digits, a quotient with at most two decimals, the decimal separator. *)
Record Intl := { integer : Z -> string; padded : nat -> Z -> string; two_decimals : Z -> Z -> string; decimal : string }.

Definition formatQuotaBytes (bytes : num) (lang : Intl) : string :=
  let '(m, q) := match bytes with NFin m e => (Z.max 0 m, 10 ^ Z.of_nat e) | _ => (0, 1) end in
  let unit := if ONE_GB * q <=? m then ONE_GB else ONE_MB in
  two_decimals lang m (q * unit) +:+ " " +:+ (if unit =? ONE_GB then "GB" else "MB").

Definition formatMaximumKbps (kbps : num) (lang : Intl) : string :=
  match kbps with
  | NFin m e =>
      if m <=? 0 then "∞"
      else let q := 10 ^ Z.of_nat e in let unit := if 1000 * q <=? m then 1000 else 1 in
           two_decimals lang m (q * unit) +:+ " " +:+ (if unit =? 1000 then "Mbps" else "Kbps")
  | _ => "∞"
  end.

Definition formatTrafficMultiplier (bps : num) (lang : Intl) : string :=
  let exactBps := match bps with NFin z O => if is_safe_integer bps && (0 <? z) then z else 10000 | _ => 10000 end in
  let whole := floor_quotient exactBps 10000 in
  let fraction := exactBps mod 10000 in
  let wholeText := integer lang whole in
  if fraction =? 0 then wholeText +:+ "x"
  else
    let digits := strip_zeros (pad_start4 (string_of_Z fraction)) in
    wholeText +:+ decimal lang +:+ padded lang (String.length digits) (digits_value 0 digits) +:+ "x".

(** ** Links that hand the subscription to an application *)

Inductive AppPlatform := android | ios.

Definition detectPlatform (userAgent : string) : AppPlatform :=
  if existsb (str_includes (to_lower userAgent)) ["iphone"; "ipad"; "ipod"; "macintosh"] then ios else android.

Record SubApp := { app_name : string; url : string }.

(** The code units of a text in Latin-1; [None]: [btoa] raises. *)
Fixpoint latin1_units (bs : list Z) : option (list Z) :=
  match bs with
  | [] => Some []
  | b :: bs =>
      if b <? 128 then cons b <$> latin1_units bs
      else match bs with
           | b' :: bs => if (b =? 194) || (b =? 195) then cons ((b - 192) * 64 + (b' - 128)) <$> latin1_units bs else None
           | [] => None
           end
  end.

Definition btoa_text (s : string) : option string := btoa <$> latin1_units (bytes_of s).

(** [a || b] of strings *)
Definition or_text (a b : string) : string := if String.eqb a "" then b else a.

Definition rocketSource (subUrl : string) : string := subUrl +:+ (if str_includes subUrl "?" then "&" else "?") +:+ "flag=shadowrocket".

(** The applications for Android and those for iOS. *)
Definition buildSubApps (subUrl sId subTitle : string) : option (list SubApp * list SubApp) :=
  let encSub := encodeURIComponent subUrl in
  let v2box := {| app_name := "V2Box"; url := "v2box://install-sub?url=" +:+ encSub +:+ "&name=" +:+ encodeURIComponent sId |} in
  let singBox := {| app_name := "Sing-box"; url := "sing-box://import-remote-profile?url=" +:+ encSub +:+ "#" +:+ encodeURIComponent (or_text subTitle sId) |} in
  let v2raytun := {| app_name := "V2RayTun"; url := "v2raytun://import/" +:+ subUrl |} in
  let happ := {| app_name := "Happ"; url := "happ://add/" +:+ subUrl |} in
  let incy := {| app_name := "Incy"; url := "incy://add/" +:+ subUrl |} in
  b ← btoa_text (rocketSource subUrl);
  Some ([v2box; {| app_name := "V2RayNG"; url := "v2rayng://install-config?url=" +:+ encSub |}; singBox; v2raytun; happ; incy],
        [{| app_name := "Shadowrocket"; url := "shadowrocket://add/sub://" +:+ b +:+ "?remark=" +:+ encodeURIComponent (or_text subTitle (or_text sId "Subscription")) |};
         v2box; {| app_name := "Streisand"; url := "streisand://import/" +:+ encSub |}; v2raytun; happ; incy]).

(** ** The page keeps its snapshot current *)

Lemma get_assign_absent l : forall o k, obj_has l k = false -> obj_get (assign l o) k = obj_get o k.
Proof.
  induction l as [|[k' v] l IH]; intros o k H; [done|]. cbn in H. apply orb_false_iff in H as [N H].
  unfold assign. cbn. fold (assign l (obj_set o k' v)). rewrite IH by done. apply obj_get_set_ne. intros ->. by rewrite String.eqb_refl in N.
Qed.

Lemma rewritten_same previous w k : rewritten previous (merge previous w) w k = false -> obj_get (merge previous w) k = obj_get previous k.
Proof.
  unfold rewritten. intros H. apply andb_false_iff in H as [H|H]; [by apply get_assign_absent|].
  apply orb_false_iff in H as [_ H]. apply negb_false_iff in H. by apply bool_decide_eq_true in H.
Qed.

(** When no dependency changed, the effect would close over the same values. *)
Lemma deps_same previous w at_ at' : let data := merge previous w in
  deps_changed previous data w at_ at' = false -> closure data at' = closure previous at_.
Proof.
  cbv zeta. set (data := merge previous w). unfold deps_changed. rewrite !orb_false_iff. intros [[[[[A [W Q]] E] N] P] T].
  apply negb_false_iff, Z.eqb_eq in T. apply negb_false_iff, bool_decide_eq_true in E. subst at'.
  apply rewritten_same in A, W, N, P. fold data in A, W, N, P. unfold closure. f_equal; [done|done| |].
  - assert (Aw : accountWindows data = accountWindows previous).
    { unfold accountWindows. rewrite W in Q |- *. destruct (obj_get previous "windowQuotas"); cbn in Q; try reflexivity; apply rewritten_same in Q; fold data in Q; by rewrite Q. }
    unfold pageWindows, nodes. by rewrite N, Aw.
  - unfold expiries, accountStates. by rewrite A.
Qed.

Lemma crossed_now o t b : crossed o t b = true -> o < t.
Proof.
  unfold crossed, num_leb. rewrite andb_true_iff, orb_true_iff. destruct b as [m e| |[]]; cbn; try (intros [? [?|?]]; done).
  rewrite !Z.ltb_lt, Z.eqb_eq. pose proof (Z.pow_pos_nonneg 10 (Z.of_nat e) ltac:(lia) ltac:(lia)). nia.
Qed.

(** The test of the callback is whether one of the boundaries of the effect has passed. *)
Lemma hasCrossed_boundaries c t :
  hasCrossedPageBoundary (c_snapshotAt c) t (c_expireMs c) (c_publicState c) (c_windows c) (c_expiries c) = existsb (crossed (c_snapshotAt c) t) (boundaries c).
Proof.
  destruct c as [o x s ws es]. unfold hasCrossedPageBoundary, boundaries. cbn [c_snapshotAt c_expireMs c_publicState c_windows c_expiries].
  assert (F : forall l, existsb (crossed o t) (List.filter (fun b => num_ltb (NFin o 0) b) l) = existsb (crossed o t) l).
  { induction l as [|b l IH]; [done|]. cbn [List.filter existsb]. destruct (num_ltb (NFin o 0) b) eqn:L; cbn [existsb]; rewrite IH; [done|].
    assert (X : crossed o t b = false) by (unfold crossed; by rewrite L). by rewrite X. }
  rewrite !existsb_app, !F. destruct (Z.leb_spec t o) as [L|L].
  - assert (N : forall l, existsb (crossed o t) l = false).
    { intros l. apply not_true_iff_false. rewrite existsb_exists. intros (b & _ & C). apply crossed_now in C. lia. }
    by rewrite !N.
  - assert (O : forall a b : bool, (if b then true else a) = a || b) by (by intros [] []).
    destruct (is_str s "active"); cbn [andb existsb]; rewrite ?orb_false_l; [|apply O].
    assert (X : existsb (crossed o t) (if num_ltb (NFin o 0) x then [x] else []) = crossed o t x).
    { destruct (num_ltb (NFin o 0) x) eqn:X; cbn [existsb]; [apply orb_false_r|]. unfold crossed. by rewrite X. }
    rewrite X. destruct (crossed o t x); [done|]. rewrite orb_false_l. apply O.
Qed.

Lemma num_min_in l : forall b, In (num_min b l) (b :: l).
Proof.
  induction l as [|x l IH]; intros b; [by left|]. cbn [num_min]. destruct (IH (if num_ltb x b then x else b)) as [<-|H]; [|by right; right].
  destruct (num_ltb x b); [by right; left|by left].
Qed.

Lemma num_min_le l : forall b, Forall not_nan (b :: l) -> Forall (fun x => num_leb (num_min b l) x = true) (b :: l).
Proof.
  induction l as [|x l IH]; intros b H; apply Forall_cons_1 in H as [Hb H]; [repeat constructor; by apply num_leb_refl|]. apply Forall_cons_1 in H as [Hx H]. cbn [num_min].
  destruct (num_ltb x b) eqn:L; specialize (IH (if num_ltb x b then x else b)); rewrite L in IH; specialize (IH ltac:(by constructor)); apply Forall_cons_1 in IH as [I J];
    constructor; [|by constructor|done|constructor; [|done]].
  - eapply num_leb_trans; [exact I|]. unfold num_leb. by rewrite L.
  - eapply num_leb_trans; [exact I|]. by apply num_leb_total.
Qed.

Lemma boundary_later c b : In b (boundaries c) -> num_ltb (NFin (c_snapshotAt c) 0) b = true.
Proof.
  unfold boundaries. rewrite !in_app_iff, !filter_In. intros [H|[[_ H]|[_ H]]]; [|done|done].
  destruct (is_str _ _ && _) eqn:E in H; [|done]. destruct H as [<-|[]]. by apply andb_true_iff in E as [_ ->].
Qed.

Lemma later_not_nan z b : num_ltb (NFin z 0) b = true -> not_nan b.
Proof. by intros H ->. Qed.

(** What the timer is worth at the time [c]. *)
Definition timer_ok (p : Page) (c : Z) : Prop :=
  let cl := closure (liveData p) (snapshotAt p) in
  match timeout p with
  | Idle => boundaries cl = []
  | Armed tm => t_armed tm <= c /\ boundary_effect cl (t_armed tm) = Armed tm
  | Fired a => a <= c /\ (infoPending p = true \/ existsb (crossed (snapshotAt p) a) (boundaries cl) = false)
  end.

Record page_inv (c : Z) (p : Page) : Prop := {
  inv_requests : requests p = Nat.b2n (infoPending p);
  inv_timer : timer_ok p c }.

Lemma effect_ok p c t : timeout p = boundary_effect (closure (liveData p) (snapshotAt p)) t -> t <= c -> timer_ok p c.
Proof.
  unfold timer_ok. intros -> L. unfold boundary_effect. destruct (boundaries _) eqn:B; [done|]. cbn [t_armed]. by rewrite ?B.
Qed.

Lemma timer_ok_later p q c d : c <= d -> liveData p = liveData q -> snapshotAt p = snapshotAt q -> timeout p = timeout q ->
  (infoPending p = true -> infoPending q = true) -> timer_ok p c -> timer_ok q d.
Proof.
  unfold timer_ok. intros L -> -> -> I. destruct (timeout q) as [|tm|a]; [done|intros [? ?]; split; [lia|done]|].
  intros [? [H|H]]; (split; [lia|]); [left; by apply I|by right].
Qed.

Lemma refresh_inv c t p : page_inv c p -> c <= t -> page_inv t (refreshInfo p).
Proof.
  intros [R T] L. unfold refreshInfo. destruct (infoPending p) eqn:I.
  - constructor; [by rewrite I|]. by eapply timer_ok_later; [exact L|..|exact T].
  - constructor; cbn; [by rewrite R|]. by eapply timer_ok_later; [exact L|..|exact T].
Qed.

Lemma armed_closure p c tm : page_inv c p -> timeout p = Armed tm -> t_closure tm = closure (liveData p) (snapshotAt p).
Proof. intros [_ T] E. unfold timer_ok in T. rewrite E in T. destruct T as [_ T]. unfold boundary_effect in T. destruct (boundaries _); [done|]. by injection T as <-. Qed.

Lemma boundary_inv c t p tm : page_inv c p -> c <= t -> timeout p = Armed tm -> page_inv t (onBoundary t p).
Proof.
  intros I L E. pose proof (armed_closure _ _ _ I E) as C. unfold onBoundary. rewrite E, C, hasCrossed_boundaries. destruct I as [R T].
  destruct (existsb _ _) eqn:X.
  - unfold refreshInfo. cbn. destruct (infoPending p) eqn:P; (constructor; cbn; [by rewrite ?R|]); (split; [lia|by left]).
  - constructor; cbn; [done|]. split; [lia|by right].
Qed.

Lemma reply_inv sId r c t0 t1 t2 p : page_inv c p -> (0 < requests p)%nat -> c <= t0 <= t1 -> t1 <= t2 -> page_inv t2 (onReply sId r t0 t1 t2 p).
Proof.
  intros [R T] Q L L'. constructor; [cbn; rewrite R; by destruct (infoPending p)|].
  destruct (deps_changed (liveData p) (merge (liveData p) (received sId r)) (received sId r) (snapshotAt p) t0) eqn:D.
  - apply effect_ok with t2; [|lia]. unfold onReply. cbn. by rewrite D.
  - pose proof (deps_same _ _ _ _ D) as C. unfold timer_ok in *. cbn. rewrite D, C. destruct (timeout p) as [|tm|a]; [done|destruct T; split; [lia|done]|].
    destruct T as [A T]. split; [lia|]. right. assert (S : t0 = snapshotAt p) by (unfold deps_changed in D; rewrite !orb_false_iff in D; destruct D as [_ D]; apply negb_false_iff, Z.eqb_eq in D; done).
    subst t0. apply not_true_iff_false. rewrite existsb_exists. intros (b & _ & X). apply crossed_now in X. lia.
Qed.

Lemma page_invariant sId d c p : reachable sId d c p -> page_inv c p.
Proof.
  induction 1 as [t0 t1 t2 L|c p t _ I L|c p t _ I L|c p t tm _ I L E _|c p r t0 t1 t2 _ I Q L L'].
  - constructor; [done|]. by apply effect_ok with t2.
  - destruct I as [R T]. constructor; [done|]. by eapply timer_ok_later; [exact L|..|exact T].
  - by eapply refresh_inv.
  - by eapply boundary_inv.
  - by eapply reply_inv.
Qed.

(** The delay never skips the boundary it is for, and lasts at most 50 ms past it. *)
Lemma delay_reaches z b now : num_ltb (NFin z 0) b = true -> delay_of b now < MAX_DELAY -> num_leb b (NFin (now + delay_of b now) 0) = true.
Proof.
  unfold delay_of, num_leb. destruct b as [m e| |[]]; cbn; [|done|done|unfold MAX_DELAY; lia]. intros _ H. rewrite orb_true_iff, Z.ltb_lt, Z.eqb_eq.
  unfold num_trunc in *. pose proof (Z.pow_pos_nonneg 10 (Z.of_nat e) ltac:(lia) ltac:(lia)) as P. set (d := 10 ^ Z.of_nat e) in *. set (x := m + (50 - now) * d) in *.
  pose proof (Z.quot_rem' x d) as Q. pose proof (Z.rem_bound_abs x d ltac:(lia)) as B. rewrite (Z.abs_eq d) in B by lia. nia.
Qed.

Lemma delay_bound b now : delay_of b now = 0 \/ num_leb (NFin (now + delay_of b now - 50) 0) b = true.
Proof.
  unfold delay_of, num_leb. destruct b as [m e| |[]]; cbn; [|by left|by left|by right]. unfold num_trunc.
  pose proof (Z.pow_pos_nonneg 10 (Z.of_nat e) ltac:(lia) ltac:(lia)) as P. set (d := 10 ^ Z.of_nat e) in *. set (x := m + (50 - now) * d) in *.
  destruct (Z.le_gt_cases (x ÷ d) 0); [left; unfold MAX_DELAY; lia|]. right. rewrite orb_true_iff, Z.ltb_lt, Z.eqb_eq.
  pose proof (Z.quot_rem' x d) as Q. assert (0 <= x) by (apply Z.nlt_ge; intros ?; pose proof (Z.quot_le_mono x 0 d ltac:(lia) ltac:(lia)); rewrite Z.quot_0_l in *; lia).
  pose proof (Z.rem_bound_pos x d ltac:(lia) ltac:(lia)) as B. unfold MAX_DELAY. nia.
Qed.

Lemma armed_min c p tm : page_inv c p -> timeout p = Armed tm -> let bs := boundaries (closure (liveData p) (snapshotAt p)) in
  exists b, In b bs /\ Forall (fun x => num_leb b x = true) bs /\ t_delay tm = delay_of b (t_armed tm).
Proof.
  intros [_ T] E. unfold timer_ok in T. rewrite E in T. destruct T as [_ T]. unfold boundary_effect in T. pose proof (boundary_later (closure (liveData p) (snapshotAt p))) as L.
  destruct (boundaries _) as [|b l]; [done|]. injection T as <-. exists (num_min b l). split; [apply num_min_in|]. split; [|done]. apply num_min_le, Forall_forall.
  intros x H. by eapply later_not_nan, L.
Qed.

Lemma boundary_requests c p tm t b : page_inv c p -> timeout p = Armed tm -> In b (boundaries (closure (liveData p) (snapshotAt p))) ->
  num_leb b (NFin t 0) = true -> requests (onBoundary t p) = 1%nat.
Proof.
  intros I E Hb L. unfold onBoundary. rewrite E, (armed_closure _ _ _ I E), hasCrossed_boundaries.
  assert (X : existsb (crossed (c_snapshotAt (closure (liveData p) (snapshotAt p))) t) (boundaries (closure (liveData p) (snapshotAt p))) = true).
  { apply existsb_exists. exists b. split; [done|]. unfold crossed. by rewrite (boundary_later _ _ Hb), L. }
  rewrite X. unfold refreshInfo. cbn. rewrite (inv_requests _ _ I). by destruct (infoPending p) eqn:P; cbn; rewrite ?(inv_requests _ _ I), ?P.
Qed.

(** C12. The page never misses a deadline or a reset of its snapshot.  In every reachable state at
    most one request is in flight, and for every boundary [b] of the snapshot (a deadline or reset
    later than the snapshot): a timer is set or has fired.  While it is set, it will fire at most
    50 ms after [b] (at once when that has passed), and unless its delay was cut to the 24.8 days a
    timer can last, whenever it fires a request is in flight afterwards.  Once it has fired at [a]
    without starting one, [b] had not come at [a]. *)
Theorem boundaries_reload (sId : string) (subData : obj) (c : Z) (p : Page) (b : num) :
  reachable sId subData c p -> In b (boundaries (closure (liveData p) (snapshotAt p))) ->
  (requests p <= 1)%nat /\
  match timeout p with
  | Idle => False
  | Armed tm =>
      (t_delay tm = 0 \/ num_leb (NFin (fires tm - 50) 0) b = true) /\
      (t_delay tm < MAX_DELAY -> forall t, fires tm <= t -> requests (onBoundary t p) = 1%nat)
  | Fired a => requests p = 1%nat \/ num_ltb (NFin a 0) b = true
  end.
Proof.
  intros Hr Hb. pose proof (page_invariant _ _ _ _ Hr) as I. pose proof (inv_requests _ _ I) as R. split; [rewrite R; destruct (infoPending p); cbn; lia|].
  destruct (timeout p) as [|tm|a] eqn:E.
  - pose proof (inv_timer _ _ I) as T. unfold timer_ok in T. rewrite E in T. by rewrite T in Hb.
  - destruct (armed_min _ _ _ I E) as (m & Hm & Le & D). rewrite Forall_forall in Le. assert (Lb : num_leb m b = true) by (by apply Le). unfold fires. split.
    + destruct (delay_bound m (t_armed tm)) as [H|H]; rewrite <-D in H; [by left|]. right. by eapply num_leb_trans.
    + intros C t Ht. eapply boundary_requests; [done..|exact Hm|]. rewrite D in C, Ht. eapply num_leb_trans; [by eapply delay_reaches, C; eapply boundary_later|].
      unfold num_leb. cbn. rewrite orb_true_iff, Z.ltb_lt, Z.eqb_eq. lia.
  - pose proof (inv_timer _ _ I) as T. unfold timer_ok in T. rewrite E in T. destruct T as [_ [P|X]]; [left; by rewrite R, P|right].
    pose proof (boundary_later _ _ Hb) as Lt. destruct (num_ltb (NFin a 0) b) eqn:N; [done|]. apply num_leb_total in N; [|done|by eapply later_not_nan].
    rewrite <-X. apply existsb_exists. exists b. split; [done|]. unfold crossed. cbn [c_snapshotAt closure] in Lt. by rewrite Lt, N.
Qed.

(** A snapshot at 1000 ms of a subscription whose account window resets at 5000 ms. *)
Definition sample_data : obj :=
  [("sId", VStr "s"); ("enabled", VBool true); ("publicState", VStr "active"); ("expire", VInt 60);
   ("windowQuotas", VArr [VObj [("accountIndex", VInt 1); ("window", VObj [("quotaBytes", VInt 10); ("resetAt", VInt 5000)])]])].

Lemma boundaries_reload_witness : let p := mount sample_data 1000 1000 1000 in
  requests (onBoundary 5050 p) = 1%nat.
Proof.
  destruct (boundaries_reload "s" sample_data 1000 (mount sample_data 1000 1000 1000) (NFin 5000 0)) as [_ H]; [by constructor|right; left; reflexivity|].
  destruct H as [_ H]. apply H; [reflexivity|]. cbv. discriminate.
Defined.

(** A reply that the server made before a reset but that arrives after it hides the reset: its time
    of arrival becomes the time of the snapshot, so the reset is not a boundary any more, no timer is set,
    and the page shows the finished window until the next poll. *)
Definition late_reply : Page :=
  let data := obj_set sample_data "expire" (VInt 0) in
  onReply "s" (Body (VObj data)) 5010 5010 5010 (refreshInfo (mount data 1000 1000 1000)).

Lemma late_reply_hides_reset :
  pageWindows (liveData late_reply) = [NFin 5000 0] /\ now late_reply = 5010 /\ infoPending late_reply = false /\ timeout late_reply = Idle.
Proof. by vm_compute. Qed.

(** ** The status shown *)

(** An account is shown as usable without qualification exactly when it is enabled, its deadline has
    not come, the server's state is none of the special ones, and its allowance is left or the
    server says that it may be exceeded. *)
Lemma shown_active (sub : SubUsage) (now : Z) (st : jsval) :
  let s := resolvePublicSubStatus (resolveSubStatus sub now) st in
  s = s_active \/ s = s_unlimited <->
  enabled sub = true /\ is_str st "grace" = false /\ is_str st "mixed" = false /\ is_str st "blocked" = false /\
  num_ltb (NFin 0 0) (expireMs sub) && num_leb (expireMs sub) (NFin now 0) = false /\
  (is_str st "active" = true \/ num_ltb (NFin 0 0) (totalByte sub) && num_leb (totalByte sub) (usedByte sub) = false).
Proof.
  unfold resolvePublicSubStatus, resolveSubStatus. destruct (enabled sub); cbn [negb]; [|rewrite bool_decide_true by done; naive_solver].
  destruct (num_ltb (NFin 0 0) (expireMs sub) && num_leb (expireMs sub) (NFin now 0)), (num_ltb (NFin 0 0) (totalByte sub) && num_leb (totalByte sub) (usedByte sub)),
    (num_leb (totalByte sub) (NFin 0 0) && num_eqb (expireMs sub) (NFin 0 0)), (is_str st "grace"), (is_str st "mixed"), (is_str st "blocked"), (is_str st "active"); cbn; naive_solver.
Qed.

(** The page counts zero days left exactly when the deadline has come. *)
Lemma no_days_left (m : Z) (e : nat) (now : Z) : 0 < m ->
  daysUntil (NFin m e) now = Some (NFin 0 0) <-> num_leb (NFin m e) (NFin now 0) = true.
Proof.
  intros Hm. unfold daysUntil, num_leb. cbn [num_ltb num_eqb]. change (10 ^ Z.of_nat 0) with 1.
  pose proof (Z.pow_pos_nonneg 10 (Z.of_nat e) ltac:(lia) ltac:(lia)) as P. set (d := 10 ^ Z.of_nat e) in *.
  rewrite (proj2 (Z.ltb_ge (m * 1) (0 * d))), (proj2 (Z.eqb_neq (m * 1) (0 * d))) by lia. cbn [orb].
  unfold ceil_quotient, max0. fold d. set (k := (now * d - m) / (d * DAY_MS)). cbn [num_ltb]. change (10 ^ Z.of_nat 0) with 1.
  assert (K : 0 <= k <-> m <= now * d).
  { unfold k. split; intros H; [|apply Z.div_pos; unfold DAY_MS; lia]. apply Z.nlt_ge. intros C. enough ((now * d - m) / (d * DAY_MS) < 0) by lia. apply Z.div_lt_upper_bound; unfold DAY_MS; lia. }
  rewrite orb_true_iff, Z.ltb_lt, Z.eqb_eq. destruct (Z.ltb_spec (- k * 1) (0 * 1)).
  - split; [intros _; lia|done].
  - split; [intros [= ?]; lia|]. intros. do 2 f_equal. lia.
Qed.

(** ** When the links of the applications can be built *)

Lemma latin1_step (P : list Z -> Prop) : P [] -> (forall b bs, 0 <= b < 128 -> P bs -> P (b :: bs)) ->
  (forall b b' bs, 194 <= b <= 195 -> 128 <= b' <= 191 -> P bs -> P (b :: b' :: bs)) -> (forall b bs, 196 <= b -> P (b :: bs)) ->
  forall bs, Forall is_byte bs -> utf8_valid bs = true -> P bs.
Proof.
  intros H0 H1 H2 H3 bs. remember (length bs) as n eqn:N. revert bs N. induction n as [n IH] using lt_wf_ind. intros [|b bs] N F V; [done|].
  apply Forall_cons_1 in F as [Fb F]. unfold is_byte in Fb. unfold utf8_valid in V. cbn [utf8_ok] in V. unfold lead_of in V.
  destruct (Z.ltb_spec b 0x80); [apply H1; [lia|]; eapply IH; [|reflexivity|done|done]; cbn in N; lia|].
  destruct (Z.ltb_spec b 0xC2); [done|]. destruct (Z.leb_spec 196 b); [by apply H3|]. rewrite (proj2 (Z.ltb_lt b 0xE0)) in V by lia.
  destruct bs as [|b' bs]; [done|]. cbn [utf8_ok] in V. apply andb_true_iff in V as [V V']. apply andb_true_iff in V as [Va Vb]. apply Z.leb_le in Va, Vb.
  apply H2; [lia|lia|]. apply Forall_cons_1 in F as [_ F]. eapply IH; [|reflexivity|done|]; [cbn in N; lia|]. by destruct bs.
Qed.

Lemma latin1_two b b' bs : 194 <= b <= 195 -> latin1_units (b :: b' :: bs) = cons ((b - 192) * 64 + (b' - 128)) <$> latin1_units bs.
Proof. intros H. cbn [latin1_units]. rewrite (proj2 (Z.ltb_ge b 128)) by lia. by destruct (Z.eqb_spec b 194), (Z.eqb_spec b 195); try lia. Qed.

Lemma latin1_high b bs : 196 <= b -> latin1_units (b :: bs) = None.
Proof. intros H. cbn [latin1_units]. rewrite (proj2 (Z.ltb_ge b 128)) by lia. destruct bs; [done|]. by rewrite (proj2 (Z.eqb_neq b 194)), (proj2 (Z.eqb_neq b 195)) by lia. Qed.

Lemma latin1_ascii_char b bs : b < 128 -> latin1_units (b :: bs) = cons b <$> latin1_units bs.
Proof. intros H. cbn [latin1_units]. by rewrite (proj2 (Z.ltb_lt b 128)) by lia. Qed.

Lemma latin1_app bs ys : Forall (fun b => 0 <= b < 128) ys -> Forall is_byte bs -> utf8_valid bs = true ->
  latin1_units (bs ++ ys) = (fun us => us ++ ys) <$> latin1_units bs.
Proof.
  intros Hy. revert bs. apply (latin1_step (fun bs => latin1_units (bs ++ ys) = (fun us => us ++ ys) <$> latin1_units bs)).
  - cbn. induction Hy as [|y ys L _ IH]; [done|]. rewrite latin1_ascii_char by lia. by rewrite IH.
  - intros b bs Hb IH. cbn [app]. rewrite !latin1_ascii_char, IH by lia. by destruct (latin1_units bs).
  - intros b b' bs Hb Hb' IH. cbn [app]. rewrite !latin1_two, IH by lia. by destruct (latin1_units bs).
  - intros b bs Hb. cbn [app]. by rewrite !latin1_high by lia.
Qed.

Lemma bytes_of_app a b : bytes_of (a +:+ b) = bytes_of a ++ bytes_of b.
Proof. unfold bytes_of. induction a as [|c a IH]; [done|]. cbn. by rewrite <-IH. Qed.

(** Building the links raises exactly when the address has a character beyond Latin-1, which [btoa] refuses. *)
Lemma apps_raise_iff (subUrl sId subTitle : string) : utf8_valid (bytes_of subUrl) = true ->
  buildSubApps subUrl sId subTitle = None <-> latin1_units (bytes_of subUrl) = None.
Proof.
  intros V. set (t := (if str_includes subUrl "?" then "&" else "?") +:+ "flag=shadowrocket").
  assert (A : Forall (fun b => 0 <= b < 128) (bytes_of t)) by (unfold t; destruct (str_includes subUrl "?"); cbn; repeat (apply List.Forall_cons; [vm_compute; split; congruence|]); apply List.Forall_nil).
  assert (B : bytes_of (rocketSource subUrl) = bytes_of subUrl ++ bytes_of t) by apply bytes_of_app.
  unfold buildSubApps, btoa_text. rewrite B, latin1_app by (done || apply bytes_of_byte). by destruct (latin1_units (bytes_of subUrl)).
Qed.

(** The page builds the links when its module is loaded, so an address the server puts into it
    unescaped, as it does with a subscription identifier of other letters, leaves the page blank. *)
Lemma cyrillic_id_raises : buildSubApps "https://sub.example.com/s/я" "я" "" = None.
Proof. reflexivity. Qed.

(** ** Every multiplier is shown as itself *)

Definition until (c : ascii) (s : string) : string := match index_of (String c "") s with Some i => str_take i s | None => s end.

Lemma until_app c a b : no_char c a -> until c (a +:+ String c b) = a.
Proof. intros H. unfold until. by rewrite index_of_app, str_take_app. Qed.

(** What is relied on of the formatter of a language whose decimal separator starts with [sep]. *)
Class Readable (lang : Intl) (sep : ascii) := {
  decimal_starts : exists rest, decimal lang = String sep rest;
  sep_not_x : sep <> "x"%char;
  integer_plain z : 0 <= z -> no_char sep (integer lang z);
  integer_inj a b : 0 <= a -> 0 <= b -> integer lang a = integer lang b -> a = b;
  padded_inj n m a b : (1 <= n <= 4)%nat -> (1 <= m <= 4)%nat -> 0 <= a < 10 ^ Z.of_nat n -> 0 <= b < 10 ^ Z.of_nat m -> padded lang n a = padded lang m b -> n = m /\ a = b
}.

Definition shown_ok (f : Z) : bool :=
  let s := strip_zeros (pad_start4 (string_of_Z f)) in
  let n := String.length s in
  ((f =? 0) || Nat.leb 1 n) && Nat.leb n 4 && (0 <=? digits_value 0 s) && (digits_value 0 s <? 10 ^ Z.of_nat n) && (f =? digits_value 0 s * 10 ^ (4 - Z.of_nat n)).

Lemma shown_fraction f : 0 <= f < 10000 -> shown_ok f = true.
Proof.
  intros H. assert (F : forallb (fun n => shown_ok (Z.of_nat n)) (seq 0 (Z.to_nat 10000)) = true) by (vm_compute; reflexivity).
  rewrite forallb_forall in F. specialize (F (Z.to_nat f)). rewrite Z2Nat.id in F by lia. apply F, in_seq. lia.
Qed.

Lemma app_inj_r a b s : a +:+ s = b +:+ s -> a = b.
Proof. intros H. rewrite <-(str_take_app a s), <-(str_take_app b s). rewrite H. f_equal. assert (String.length (a +:+ s) = String.length (b +:+ s)) as L by (by rewrite H). rewrite !length_app_str in L. lia. Qed.

Section Multipliers.
Context (lang : Intl) (sep : ascii) `{!Readable lang sep}.

Lemma whole_no_sep z : 0 <= z -> no_char sep (integer lang z +:+ "x").
Proof. intros H. apply no_char_app. split; [by apply integer_plain|]. unfold no_char. cbn. rewrite (proj2 (Ascii.eqb_neq sep "x")); [done|apply sep_not_x]. Qed.

(** Two multipliers that are shown alike are equal: no basis point is rounded away. *)
Theorem multipliers_distinct a b : 100 <= a <= MAX_SAFE -> 100 <= b <= MAX_SAFE ->
  formatTrafficMultiplier (NFin a 0) lang = formatTrafficMultiplier (NFin b 0) lang -> a = b.
Proof.
  intros Ha Hb. assert (S : forall z, 100 <= z <= MAX_SAFE -> is_safe_integer (NFin z 0) && (0 <? z) = true).
  { intros z Hz. unfold MAX_SAFE in Hz. cbn [is_safe_integer]. rewrite andb_true_iff, Z.leb_le, Z.ltb_lt. lia. }
  unfold formatTrafficMultiplier. rewrite !S, !floor_quotient_exact by done.
  pose proof (Z.div_mod a 10000 ltac:(lia)) as Ea. pose proof (Z.div_mod b 10000 ltac:(lia)) as Eb.
  pose proof (Z.mod_pos_bound a 10000 ltac:(lia)) as Ba. pose proof (Z.mod_pos_bound b 10000 ltac:(lia)) as Bb.
  pose proof (Z.div_pos a 10000 ltac:(lia) ltac:(lia)) as Pa. pose proof (Z.div_pos b 10000 ltac:(lia) ltac:(lia)) as Pb.
  pose proof (shown_fraction _ Ba) as Fa. pose proof (shown_fraction _ Bb) as Fb. unfold shown_ok in Fa, Fb.
  set (wa := a / 10000) in *. set (wb := b / 10000) in *. set (fa := a mod 10000) in *. set (fb := b mod 10000) in *.
  set (sa := strip_zeros (pad_start4 (string_of_Z fa))) in *. set (sb := strip_zeros (pad_start4 (string_of_Z fb))) in *.
  rewrite !andb_true_iff, orb_true_iff, !Nat.leb_le, Z.leb_le, Z.ltb_lt, !Z.eqb_eq in Fa, Fb. destruct decimal_starts as [rest D]. rewrite D. cbn [String.append].
  destruct (Z.eqb_spec fa 0) as [Za|Za], (Z.eqb_spec fb 0) as [Zb|Zb]; intros H.
  - apply app_inj_r, integer_inj in H; lia.
  - exfalso. pose proof (whole_no_sep wa Pa) as N. rewrite H in N. apply no_char_app in N as [_ N]. unfold no_char in N. cbn in N. by rewrite Ascii.eqb_refl in N.
  - exfalso. pose proof (whole_no_sep wb Pb) as N. rewrite <-H in N. apply no_char_app in N as [_ N]. unfold no_char in N. cbn in N. by rewrite Ascii.eqb_refl in N.
  - pose proof (f_equal (until sep) H) as W. rewrite !until_app in W by (by apply integer_plain). apply integer_inj in W; [|lia|lia]. rewrite W in H.
    apply app_inj_l in H. injection H as H. apply app_inj_l, app_inj_r, padded_inj in H; [|lia..]. destruct H as [L V]. rewrite L, V in Fa. lia.
Qed.
End Multipliers.

(** English: groups of three digits. *)
Fixpoint group_digits (s : string) : string :=
  match s with
  | "" => ""
  | String c s => String c ((if Nat.eqb (String.length s mod 3) 0 && negb (String.eqb s "") then "," else "") +:+ group_digits s)
  end.

Definition pad_to (n : nat) (s : string) : string := repeat_char "0" (n - String.length s) +:+ s.

Definition english : Intl :=
  {| integer := fun z => group_digits (string_of_Z z); padded := fun n z => pad_to n (string_of_Z z);
     two_decimals := fun p q =>
       let n := fixed_of p q 2 in let f := strip_zeros (pad_to 2 (string_of_Z (n mod 100))) in
       group_digits (string_of_Z (n / 100)) +:+ (if String.eqb f "" then "" else "." +:+ f);
     decimal := "." |}.

Lemma group_remove s : no_char "," s -> remove_char "," (group_digits s) = s.
Proof.
  unfold no_char. induction s as [|c s IH]; [done|]. cbn [group_digits forall_chars]. rewrite andb_true_iff. intros [Hc H]. apply negb_true_iff in Hc.
  assert (R : remove_char "," ((if Nat.eqb (String.length s mod 3) 0 && negb (String.eqb s "") then "," else "") +:+ group_digits s) = remove_char "," (group_digits s)) by (by destruct (_ && _)).
  cbn [remove_char]. rewrite R, IH by done. by rewrite Ascii.eqb_sym, Hc.
Qed.

Lemma group_no c s : c <> ","%char -> no_char c s -> no_char c (group_digits s).
Proof.
  intros N. unfold no_char. induction s as [|d s IH]; [done|]. cbn [group_digits forall_chars]. rewrite andb_true_iff. intros [-> H]. cbn [andb]. rewrite forall_chars_app, IH by done.
  rewrite andb_true_r. destruct (_ && _); [|done]. cbn. by rewrite (proj2 (Ascii.eqb_neq c ",") N).
Qed.

Lemma padded_ok : forallb (fun n => forallb (fun k => let s := pad_to n (string_of_Z (Z.of_nat k)) in Nat.eqb (String.length s) (Nat.max n 1) && (digits_value 0 s =? Z.of_nat k))
  (seq 0 (Z.to_nat (10 ^ Z.of_nat n)))) (seq 0 5) = true.
Proof. vm_compute. reflexivity. Qed.

Lemma padded_read n z : (n <= 4)%nat -> 0 <= z < 10 ^ Z.of_nat n -> let s := pad_to n (string_of_Z z) in String.length s = Nat.max n 1 /\ digits_value 0 s = z.
Proof.
  intros Hn Hz. pose proof padded_ok as F. rewrite forallb_forall in F. specialize (F n). rewrite forallb_forall in F. specialize (F ltac:(apply in_seq; lia) (Z.to_nat z) ltac:(apply in_seq; lia)).
  rewrite Z2Nat.id in F by lia. cbv zeta in *. by rewrite andb_true_iff, Nat.eqb_eq, Z.eqb_eq in F.
Qed.

#[export] Instance english_readable : Readable english "."%char.
Proof.
  split; [by exists ""|done|..].
  - intros z Hz. apply group_no; [done|]. by apply port_no.
  - intros a b Ha Hb H. cbn in H. apply (f_equal (remove_char ",")) in H. rewrite !group_remove in H by (by apply port_no).
    by rewrite <-(proj2 (string_of_Z_all a Ha)), <-(proj2 (string_of_Z_all b Hb)), H.
  - intros n m a b Hn Hm Ha Hb H. cbn in H. destruct (padded_read n a ltac:(lia) Ha) as [La Va], (padded_read m b ltac:(lia) Hb) as [Lb Vb]. rewrite H in La, Va. split; [lia|congruence].
Qed.

(** ** The request for a snapshot *)

(** The request asks for the info document whatever the query of the page was, and keeps the other
    parameters. *)
Lemma info_params_spec ps : let keep := fun p : string * string => negb (existsb (String.eqb p.1) ["html"; "view"; "format"]) in
  params_get (info_params ps) "format" = Some "info" /\ List.filter keep (info_params ps) = List.filter keep ps /\
  Forall (fun p => p.1 <> "html" /\ p.1 <> "view") (info_params ps).
Proof.
  cbv zeta. unfold info_params, params_delete. set (keep := fun p : string * string => negb (existsb (String.eqb p.1) ["html"; "view"; "format"])).
  set (qs := List.filter _ (List.filter _ ps)). assert (Q : List.filter keep qs = List.filter keep ps /\ Forall (fun p => p.1 <> "html" /\ p.1 <> "view") qs).
  { subst qs. induction ps as [|[k v] ps [IH J]]; [done|]. cbn [List.filter fst].
    destruct (String.eqb_spec "html" k) as [<-|Nh]; cbn [negb]; [done|]. cbn [List.filter fst].
    destruct (String.eqb_spec "view" k) as [<-|Nv]; cbn [negb]; [done|]. cbn [List.filter]. rewrite IH. split; [done|]. constructor; [|done]. cbn. split; intros E; by subst. }
  destruct Q as [Q F]. rewrite <-Q. clear Q. clearbody qs. induction F as [|[k v] qs N F (IH1 & IH2 & IH3)]; [repeat split; by repeat constructor|].
  cbn [params_set fst]. destruct (String.eqb_spec "format" k) as [<-|Nf].
  - split; [done|]. assert (D : List.filter keep (params_delete qs "format") = List.filter keep qs).
    { clear. induction qs as [|[k v] qs IH]; [done|]. cbn [params_delete List.filter fst]. destruct (String.eqb_spec "format" k) as [<-|]; cbn [negb List.filter]; [exact IH|].
      fold (params_delete qs "format"). by rewrite IH. }
    split; [exact D|]. constructor; [done|]. clear -F. induction F as [|[k v] qs N F IH]; [constructor|]. cbn [params_delete List.filter]. destruct (negb _); [by constructor|exact IH].
  - split; [|split; [cbn [List.filter]; by rewrite IH2|by constructor]]. unfold params_get in *. cbn. rewrite String.eqb_sym, (proj2 (String.eqb_neq "format" k)) by done. exact IH1.
Qed.
