(* ===== verification/OverviewHistory.v ===== *)
(** * The overview page: status and history

    Models src/frontend/src/models/status.ts, src/frontend/src/schemas/status.ts with parseMsg of
    src/frontend/src/utils/zodValidate.ts, the fetch of src/frontend/src/api/queries/useStatusQuery.ts, and
    src/frontend/src/pages/index/useOverviewHistory.ts.

    The history is a step system: a status that is rendered for the first time is appended to a window
    of 72 points, and the answer to the seeding requests is put in front of it whenever it comes.  It
    refines a log without a bound, of which the window is the end.  The identity of a status object,
    which the hook compares, is a number. *)
From S2P Require Import Prelude JsString JsValue JsNumber JsObject Uri Url LinkParser.
Local Open Scope Z_scope.

(** ** Percentages *)

(** The double nearest to a quotient of positive integers, as a quotient. *)
Definition rnd (x : Z * Z) : Z * Z := let '(m, e) := double_of x.1 x.2 in scaled m 1 (- e).

Definition mul_double (x : Z * Z) (k : Z) : Z * Z := rnd (x.1 * k, x.2).

(** [NumberFormatter.toFixed(s * x, 2)] for a double [x] and a sign [s]. *)
Definition toFixed2 (s : Z) (x : Z * Z) : num := let y := mul_double x 100 in num_norm 2 ((s * y.1) / y.2).

Definition double (m : Z) (e : nat) : Z * Z := rnd (Z.abs m, 10 ^ Z.of_nat e).

Record CurTotal := { current : num; total : num }.

Definition percent (c : CurTotal) : num :=
  match current c, total c with
  | NFin m e, NFin m' e' =>
      if (m' =? 0) || (m =? 0) then NFin 0 0
      else let a := double m e in let b := double m' e' in
           toFixed2 (Z.sgn m * Z.sgn m') (mul_double (rnd (a.1 * b.2, a.2 * b.1)) 100)
  | _, _ => NNaN
  end.

Definition color (c : CurTotal) : string :=
  let p := percent c in
  if num_ltb p (NFin 80 0) then "#1677ff" else if num_ltb p (NFin 90 0) then "#faad14" else "#ff4d4f".

(** ** The status and its schema *)

(** The fragment of zod the schema uses; the flag of a field is whether it is optional. *)
Unset Elimination Schemes.
Inductive schema := z_number | z_string | z_string_or_number | z_numbers | z_object (fields : list (string * (bool * schema))).
Set Elimination Schemes.

Definition is_number (v : jsval) : bool := match v with VNum (NFin _ _) => true | _ => false end.

(** [safeParse]: an object keeps the fields of the schema and no other. *)
Fixpoint safeParse (s : schema) (v : jsval) : option jsval :=
  match s with
  | z_number => if is_number v then Some v else None
  | z_string => if is_string v then Some v else None
  | z_string_or_number => if is_string v || is_number v then Some v else None
  | z_numbers => match v with VArr l => if forallb is_number l then Some v else None | _ => None end
  | z_object fields =>
      match v with
      | VObj o =>
          VObj <$> (fix go (fs : list (string * (bool * schema))) : option obj :=
             match fs with
             | [] => Some []
             | (k, (optional, s)) :: fs =>
                 rest ← go fs;
                 if optional && is_undef (obj_get o k) then Some (if obj_has o k then (k, VUndef) :: rest else rest)
                 else x ← safeParse s (obj_get o k); Some ((k, x) :: rest)
             end) fields
      | _ => None
      end
  end.

Definition optional (l : list (string * schema)) : list (string * (bool * schema)) := map (fun ks => (ks.1, (true, ks.2))) l.
Definition required (l : list (string * schema)) : list (string * (bool * schema)) := map (fun ks => (ks.1, (false, ks.2))) l.

Definition CurTotalInputSchema : schema := z_object (optional [("current", z_number); ("total", z_number)]).
Definition NetIOSchema : schema := z_object (required [("up", z_number); ("down", z_number)]).
Definition NetTrafficSchema : schema := z_object (required [("sent", z_number); ("recv", z_number)]).
Definition PublicIPSchema : schema := z_object (required [("ipv4", z_string_or_number); ("ipv6", z_string_or_number)]).
Definition AppStatsSchema : schema := z_object (required [("threads", z_number); ("mem", z_number); ("uptime", z_number)]).
Definition XrayInfoSchema : schema := z_object (optional [("state", z_string); ("errorMsg", z_string); ("version", z_string); ("color", z_string)]).

Definition StatusSchema : schema :=
  z_object (optional
    [("cpu", z_number); ("cpuCores", z_number); ("logicalPro", z_number); ("cpuSpeedMhz", z_number); ("disk", CurTotalInputSchema); ("loads", z_numbers);
     ("mem", CurTotalInputSchema); ("netIO", NetIOSchema); ("netTraffic", NetTrafficSchema); ("publicIP", PublicIPSchema); ("swap", CurTotalInputSchema);
     ("tcpCount", z_number); ("udpCount", z_number); ("uptime", z_number); ("appUptime", z_number); ("appStats", AppStatsSchema); ("xray", XrayInfoSchema)]).

(** [parseMsg] of a successful message, not strict: an object that fails is passed on as it is. *)
Definition parseMsg (s : schema) (obj : jsval) : jsval := if is_nullish obj then obj else match safeParse s obj with Some v => v | None => obj end.

Record Status := {
  cpu : CurTotal; cpuCores : jsval; logicalPro : jsval; cpuSpeedMhz : jsval; disk : CurTotal; loads : list num; mem : CurTotal; netUp : num; netDown : num;
  netTraffic : jsval; publicIP : jsval; swap : CurTotal; tcpCount : num; udpCount : num; uptime : jsval; appUptime : jsval; appStats : jsval;
  xray : obj; amneziawg : obj }.

Definition num_of (v : jsval) : num := to_number (or_nullish v (VInt 0)).

Definition cur_total (v : jsval) : CurTotal := {| current := num_of (get v "current"); total := num_of (get v "total") |}.

Definition load_of (v : jsval) : num :=
  match to_number v with NFin m e => if m =? 0 then NFin 0 0 else toFixed2 (Z.sgn m) (double m e) | n => n end.

Definition XRAY_STATE_COLORS (state : jsval) : string :=
  if is_str state "running" then "green" else if is_str state "stop" then "orange" else if is_str state "error" then "red" else "gray".

Definition xray_default : obj := [("state", VStr "stop"); ("errorMsg", VStr ""); ("version", VStr ""); ("color", VStr "")].
Definition awg_default : obj := [("configured", VBool false); ("running", VBool false)].

(** [{...d, ...(v || {})}] *)
Definition over (d : obj) (v : jsval) : obj := match v with VObj o => assign o d | _ => d end.

Definition no_status : Status :=
  let zero := {| current := NFin 0 0; total := NFin 0 0 |} in
  {| cpu := zero; cpuCores := VInt 0; logicalPro := VInt 0; cpuSpeedMhz := VInt 0; disk := zero; loads := [NFin 0 0; NFin 0 0; NFin 0 0]; mem := zero;
     netUp := NFin 0 0; netDown := NFin 0 0; netTraffic := VObj [("sent", VInt 0); ("recv", VInt 0)]; publicIP := VObj [("ipv4", VInt 0); ("ipv6", VInt 0)];
     swap := zero; tcpCount := NFin 0 0; udpCount := NFin 0 0; uptime := VInt 0; appUptime := VInt 0;
     appStats := VObj [("threads", VInt 0); ("mem", VInt 0); ("uptime", VInt 0)]; xray := xray_default; amneziawg := awg_default |}.

(** [new Status(data)] *)
Definition new_Status (data : jsval) : Status :=
  if is_nullish data then no_status
  else
    let d := get data in
    let orz := fun k => or_nullish (d k) (VInt 0) in
    let netIO := or_nullish (d "netIO") (VObj [("up", VInt 0); ("down", VInt 0)]) in
    let x := over xray_default (d "xray") in
    {| cpu := {| current := num_of (d "cpu"); total := NFin 100 0 |}; cpuCores := orz "cpuCores"; logicalPro := orz "logicalPro"; cpuSpeedMhz := orz "cpuSpeedMhz";
       disk := cur_total (d "disk");
       loads := match or_falsy (d "loads") (VArr [VInt 0; VInt 0; VInt 0]) with VArr l => map load_of l | _ => [] end;
       mem := cur_total (d "mem"); netUp := to_number (get netIO "up"); netDown := to_number (get netIO "down");
       netTraffic := or_nullish (d "netTraffic") (netTraffic no_status); publicIP := or_nullish (d "publicIP") (publicIP no_status);
       swap := cur_total (d "swap"); tcpCount := num_of (d "tcpCount"); udpCount := num_of (d "udpCount"); uptime := orz "uptime"; appUptime := orz "appUptime";
       appStats := or_nullish (d "appStats") (appStats no_status);
       xray := obj_set x "color" (VStr (XRAY_STATE_COLORS (obj_get x "state")));
       amneziawg := over awg_default (d "amneziawg") |}.

(** What the query holds after a successful answer with the object [obj]. *)
Definition fetchStatus (obj : jsval) : Status := new_Status (parseMsg StatusSchema obj).

(** ** The history *)

Definition OVERVIEW_WINDOW : nat := 72.

Definition SERIES_KEYS : list string := ["cpu"; "mem"; "swap"; "diskUsage"; "netUp"; "netDown"; "tcpCount"; "udpCount"].

(** The series in the order of the keys. *)
Record HistoryWindow := { series : list (string * list num); times : list num }.

Fixpoint series_of (l : list (string * list num)) (key : string) : list num :=
  match l with [] => [] | (k, v) :: l => if String.eqb key k then v else series_of l key end.

Definition emptySeries : list (string * list num) := map (fun k => (k, [])) SERIES_KEYS.
Definition emptyWindow : HistoryWindow := {| series := emptySeries; times := [] |}.

Definition sampleOf (s : Status) (key : string) : num :=
  match key with
  | "cpu" => percent (cpu s)
  | "mem" => percent (mem s)
  | "swap" => percent (swap s)
  | "diskUsage" => percent (disk s)
  | "netUp" => netUp s
  | "netDown" => netDown s
  | "tcpCount" => tcpCount s
  | _ => udpCount s
  end.

(** [values.slice(-OVERVIEW_WINDOW)] *)
Definition tailWindow {A} (values : list A) : list A := skipn (length values - OVERVIEW_WINDOW) values.

(** The sum and the length of the values. *)
Definition mean (values : list num) : num * nat := (fold_left num_add values (NFin 0 0), length values).

Definition peak (values : list num) : num := fold_left (fun max v => if num_ltb max v then v else max) values (NFin 0 0).

(** A point of an answer: its [t] and its [v]. *)
Abbreviation point := (jsval * jsval)%type.

(** [Number(v) || 0] *)
Definition number_or0 (v : jsval) : num := let n := to_number v in if num_truthy n then n else NFin 0 0.

(** The longest answer, the first of those in the order of arrival. *)
Definition longest (responses : list (string * list point)) : list point :=
  fold_left (fun axis kr => if Nat.ltb (length axis) (length kr.2) then kr.2 else axis) responses [].

Definition response_of (responses : list (string * list point)) (key : string) : list point :=
  match List.find (fun kr => String.eqb key kr.1) responses with Some kr => kr.2 | None => [] end.

(** [byTs.get(ts) ?? 0]: the last point of the time wins. *)
Definition value_at (points : list point) (ts : num) : num :=
  fold_left (fun acc p => if num_eqb (number_or0 p.1) ts then number_or0 p.2 else acc) points (NFin 0 0).

Definition seedTimes (responses : list (string * list point)) : list num := map (fun p => number_or0 p.1) (tailWindow (longest responses)).

Definition seedSeries (responses : list (string * list point)) (key : string) : list num := map (value_at (response_of responses key)) (seedTimes responses).

(** The answers that came, in the order of arrival; the state is kept when there is no point. *)
Definition seed (responses : list (string * list point)) (prev : HistoryWindow) : HistoryWindow :=
  match seedTimes responses with
  | [] => prev
  | _ => {| times := tailWindow (seedTimes responses ++ times prev);
            series := map (fun key => (key, tailWindow (seedSeries responses key ++ series_of (series prev) key))) SERIES_KEYS |}
  end.

Definition append_sample (s : Status) (ms : Z) (prev : HistoryWindow) : HistoryWindow :=
  {| times := tailWindow (times prev ++ [NFin (ms / 1000) 0]);
     series := map (fun key => (key, tailWindow (series_of (series prev) key ++ [sampleOf s key]))) SERIES_KEYS |}.

Record History := { trend : HistoryWindow; sampledStatus : option nat }.

Definition mounted : History := {| trend := emptyWindow; sampledStatus := None |}.

(** A render with a status object, and the answers to the seeding requests. *)
Inductive event := Rendered (hasData : bool) (id : nat) (s : Status) (ms : Z) | Seeded (responses : list (string * list point)).

Definition step (h : History) (e : event) : History :=
  match e with
  | Rendered hasData id s ms =>
      if hasData && negb (bool_decide (sampledStatus h = Some id)) then {| trend := append_sample s ms (trend h); sampledStatus := Some id |} else h
  | Seeded responses => {| trend := seed responses (trend h); sampledStatus := sampledStatus h |}
  end.

Definition run (es : list event) : History := fold_left step es mounted.

(** ** The log the window is the end of *)

(** A point of the log: a time and a value for every key. *)
Abbreviation log := (list (num * (string -> num))).

Definition log_step (l : log * option nat) (e : event) : log * option nat :=
  match e with
  | Rendered hasData id s ms => if hasData && negb (bool_decide (l.2 = Some id)) then (l.1 ++ [(NFin (ms / 1000) 0, sampleOf s)], Some id) else l
  | Seeded responses => (map (fun ts => (ts, fun key => value_at (response_of responses key) ts)) (seedTimes responses) ++ l.1, l.2)
  end.

Definition log_of (es : list event) : log := (fold_left log_step es ([], None)).1.

Lemma tail_app {A} (a b : list A) : tailWindow (tailWindow a ++ b) = tailWindow (a ++ b).
Proof.
  unfold tailWindow. rewrite !length_app, length_skipn. rewrite !skipn_app, skipn_skipn, length_skipn.
  f_equal; f_equal; unfold OVERVIEW_WINDOW; lia.
Qed.

Lemma tail_app_r {A} (a b : list A) : tailWindow (a ++ tailWindow b) = tailWindow (a ++ b).
Proof.
  unfold tailWindow. rewrite !length_app, length_skipn, !skipn_app, skipn_skipn. f_equal.
  - destruct (Nat.le_gt_cases (length b) OVERVIEW_WINDOW) as [L|L]; [f_equal; lia|]. rewrite !skipn_all2 by lia. done.
  - f_equal. lia.
Qed.

Lemma tail_length {A} (a : list A) : length (tailWindow a) = Nat.min OVERVIEW_WINDOW (length a).
Proof. unfold tailWindow. rewrite length_skipn. lia. Qed.

Lemma series_of_map f key : In key SERIES_KEYS -> series_of (map (fun k => (k, f k)) SERIES_KEYS) key = f key.
Proof. cbn. intros H. repeat (destruct H as [<-|H]; [reflexivity|]). done. Qed.

Definition shows (w : HistoryWindow) (l : log) : Prop :=
  times w = tailWindow (map fst l) /\ forall key, In key SERIES_KEYS -> series_of (series w) key = tailWindow (map (fun p => p.2 key) l).

Lemma seed_shows responses w l : shows w l -> shows (seed responses w) (log_step (l, None) (Seeded responses)).1.
Proof.
  intros [T S]. unfold seed. cbn [log_step fst snd]. set (pts := map _ (seedTimes responses)).
  assert (Pt : map fst pts = seedTimes responses) by (subst pts; rewrite map_map; apply map_id).
  assert (Ps : forall key, map (fun p => p.2 key) pts = seedSeries responses key) by (intros; subst pts; rewrite map_map; done).
  destruct (seedTimes responses) as [|t ts] eqn:E; [by subst pts|]. rewrite <-E in *. clearbody pts. split; cbn [times series].
  - rewrite map_app, T, Pt. apply tail_app_r.
  - intros key K. rewrite (series_of_map (fun k => tailWindow (seedSeries responses k ++ series_of (series w) k))) by done. rewrite (S key K), map_app, Ps. apply tail_app_r.
Qed.

Lemma append_shows s ms w l : shows w l -> shows (append_sample s ms w) (l ++ [(NFin (ms / 1000) 0, sampleOf s)]).
Proof.
  intros [T S]. split; cbn [append_sample times series].
  - rewrite map_app, T. apply tail_app.
  - intros key K. rewrite (series_of_map (fun k => tailWindow (series_of (series w) k ++ [sampleOf s k]))) by done. rewrite (S key K), map_app. apply tail_app.
Qed.

(** C13. The history window refines an unbounded log, whatever the order in which statuses are
    rendered and the seeding requests are answered: the times and each of the eight series are the last
    72 entries of the log, so they are aligned with each other; a status is logged once however often it
    is rendered, and the seeded points precede what was sampled before they came. *)
Theorem history_refines (es : list event) :
  let w := trend (run es) in
  times w = tailWindow (map fst (log_of es)) /\
  forall key, In key SERIES_KEYS ->
    series_of (series w) key = tailWindow (map (fun p => p.2 key) (log_of es)) /\ length (series_of (series w) key) = length (times w) /\ (length (times w) <= 72)%nat.
Proof.
  assert (G : shows (trend (run es)) (log_of es) /\ sampledStatus (run es) = (fold_left log_step es ([], None)).2).
  { unfold run, log_of. induction es as [|e es IH] using rev_ind; [split; [split; [done|intros key K; by rewrite (series_of_map (fun _ => []))]|done]|].
    rewrite !fold_left_app. cbn [fold_left]. set (h := fold_left step es mounted) in *. set (l := fold_left log_step es ([], None)) in *. destruct l as [l o]. cbn [fst snd] in IH.
    destruct IH as [W O]. destruct e as [hd id s ms|rs]; cbn [step log_step fst snd].
    - rewrite O. destruct (hd && _); [|done]. split; [by apply append_shows|done].
    - split; [exact (seed_shows rs _ _ W)|done]. }
  destruct G as [[T S] _]. split; [exact T|]. intros key K. split; [by apply S|]. rewrite (S key K), T, !tail_length, !length_map. unfold OVERVIEW_WINDOW. lia.
Qed.

(** A freshly rendered status is the last point of every series at once. *)
Lemma sample_shown es id s ms key : sampledStatus (run es) <> Some id -> In key SERIES_KEYS ->
  exists earlier, series_of (series (trend (run (es ++ [Rendered true id s ms])))) key = earlier ++ [sampleOf s key].
Proof.
  intros N K. unfold run. rewrite fold_left_app. cbn [fold_left step]. fold (run es). rewrite bool_decide_false by done. cbn [andb negb trend append_sample series].
  rewrite (series_of_map (fun k => tailWindow (series_of (series (trend (run es))) k ++ [sampleOf s k]))) by done. unfold tailWindow.
  set (l := series_of _ _). rewrite skipn_app, length_app. cbn [length]. replace (length l + 1 - OVERVIEW_WINDOW - length l)%nat with 0%nat by (unfold OVERVIEW_WINDOW; lia). by eexists.
Qed.

(** ** What the schema lets through *)

Definition keys_of (s : schema) : list string := match s with z_object fs => map fst fs | _ => [] end.

(** An object that passes the schema has no key beside those of the schema. *)
Lemma safeParse_strips fields o v k : safeParse (z_object fields) (VObj o) = Some v -> ~ In k (map fst fields) -> get v k = VUndef.
Proof.
  cbn [safeParse]. intros H N. apply fmap_Some in H as (r & H & ->). cbn [get]. revert r H. induction fields as [|[k' [opt s]] fs IH]; intros r H; [by injection H as <-|].
  cbn in N. apply bind_Some in H as (rest & Hr & H). specialize (IH ltac:(tauto) rest Hr). assert (Ne : String.eqb k k' = false) by (apply String.eqb_neq; intros ->; tauto).
  destruct (opt && is_undef (obj_get o k')); [injection H as <-; destruct (obj_has o k'); [cbn; by rewrite Ne|done]|].
  apply bind_Some in H as (x & _ & H). injection H as <-. cbn. by rewrite Ne.
Qed.

(** The schema of the status has no [amneziawg], so whatever a server answers that passes the schema,
    the page sees an AmneziaWG that is not configured, and hides the view of its log. *)
Theorem amneziawg_hidden (obj : jsval) : is_Some (safeParse StatusSchema obj) -> amneziawg (fetchStatus obj) = awg_default.
Proof.
  intros [v H]. unfold fetchStatus, parseMsg. rewrite H. destruct obj as [| | | | | |o]; try discriminate. cbn [is_nullish].
  assert (G : get v "amneziawg" = VUndef).
  { eapply safeParse_strips; [exact H|]. cbn. intuition discriminate. }
  unfold new_Status. destruct (is_nullish v) eqn:E; [done|]. cbn [amneziawg]. by rewrite G.
Qed.

(** The same object without the schema. *)
Lemma amneziawg_unparsed : let o := VObj [("cpu", VInt 3); ("amneziawg", VObj [("configured", VBool true); ("running", VBool true)])] in
  is_Some (safeParse StatusSchema o) /\ amneziawg (new_Status o) = [("configured", VBool true); ("running", VBool true)].
Proof. cbv zeta. split; [by eexists|reflexivity]. Qed.

(** Rounding a quotient of doubles downwards loses a hundredth of a percent on some whole percentages. *)
Lemma percent_29 : percent {| current := NFin 29 0; total := NFin 100 0 |} = NFin 2899 2 /\ percent {| current := NFin 30 0; total := NFin 100 0 |} = NFin 30 0.
Proof. by vm_compute. Qed.
