(* ===== verification/LinkLabel.v ===== *)
(** * The labels of share links

    Models src/frontend/src/lib/xray/link-label.tsx: the protocol, transport, security, remark and port
    that the QR modal, the client info modal and the subscription page show above a share link.  The
    theorem composes it with the generators of InboundLink.v through the interface of StreamImport.v:
    what a generated link is labelled with is what the inbound was configured with.

    [None] is an exception (a method of a string called on another value of a vmess payload); lines of
    a configuration text end with a line feed or a carriage return. *)
From Stdlib Require Import Ascii.
From S2P Require Import Prelude JsString JsValue Json Utf8 Base64 Uri Url LinkParser ShareParams InboundLink StreamImport LinkText LinkRoundTrip WireguardConfig AwgConfigLines.
Local Open Scope Z_scope.

Record LinkParts := { protocol : string; network : string; security : string; remark : string; port : string }.

Definition PROTOCOL_LABELS : list (string * string) :=
  [("vless", "Vless"); ("vmess", "Vmess"); ("trojan", "Trojan"); ("ss", "Shadowsocks"); ("shadowsocks", "Shadowsocks"); ("hysteria2", "Hysteria2");
   ("hy2", "Hysteria2"); ("hysteria", "Hysteria"); ("wireguard", "WireGuard"); ("wg", "WireGuard"); ("tg", "MTProto"); ("vpn", "AmneziaWG"); ("tuic", "TUIC")].

Definition protocol_label (scheme : string) : string :=
  match List.find (fun kl => String.eqb scheme kl.1) PROTOCOL_LABELS with
  | Some kl => kl.2
  | None => match scheme with String c s => String (upper_char c) s | "" => "" end
  end.

(** [/^([a-z0-9]+):\/\//i] in lower case, or the empty string. *)
Definition link_scheme (trimmed : string) : string :=
  let '(a, b) := span_until (fun c => negb (is_alnum c)) trimmed in if starts_with b "://" then to_lower a else "".

(** The lines of a text, for expressions with the flag [m]. *)
Definition lines_of (s : string) : list string := split_on LF (replace_char (char_of 13) LF s).

(** The rest of the first line that starts with [#], without one blank; the blank after a bare [#]
    can be the end of its line, and then the rest is the next line. *)
Fixpoint comment_of (lines : list string) : string :=
  match lines with
  | [] => ""
  | "#" :: next => match next with l :: _ => l | [] => "" end
  | l :: rest => if starts_with l "#" then let t := str_drop 1 l in match t with String c t' => if is_ws c then t' else t | "" => "" end else comment_of rest
  end.

(** The match of [/^Endpoint\s*=\s*.+:(\d+)\s*$/m] in one line. *)
Definition endpoint_port (line : string) : option string :=
  if negb (starts_with line "Endpoint") then None
  else match trim_start (str_drop 8 line) with
       | String c rest =>
           if negb (Ascii.eqb c "=") then None
           else match last_index_of ":" rest with
                | Some (S i) => let d := trim_end (str_drop (S (S i)) rest) in if all_digits d then Some d else None
                | _ => None
                end
       | "" => None
       end.

Definition endpoint_of (lines : list string) : string := default "" (head (omap endpoint_port lines)).

(** The transport and the security, still values, with the remark and the port. *)
Record raw_parts := { r_network : jsval; r_security : jsval; r_remark : string; r_port : string }.

Definition no_parts : raw_parts := {| r_network := VStr ""; r_security := VStr ""; r_remark := ""; r_port := "" |}.

Definition vmess_parts (trimmed : string) : raw_parts :=
  match decode (default "" (head (split_on "#" (str_drop 8 trimmed)))) with
  | None => no_parts
  | Some text =>
      match JSON_parse text with
      | None | Some VNull | Some VUndef => no_parts
      | Some json =>
          {| r_network := or_nullish (get json "net") (VStr ""); r_security := or_nullish (get json "tls") (VStr "");
             r_remark := str_or_empty (get json "ps"); r_port := if is_nullish (get json "port") then "" else prim_string (get json "port") |}
      end
  end.

Definition vpn_parts (trimmed : string) : raw_parts :=
  match fromBase64Url (str_drop 6 trimmed) with
  | None => no_parts
  | Some cfgText => {| r_network := VStr ""; r_security := VStr ""; r_remark := trim (comment_of (lines_of cfgText)); r_port := endpoint_of (lines_of cfgText) |}
  end.

Section Reader.
(** The platform's reader of URLs whose scheme is special (http, https, ws, wss, ftp, file); [new_URL] reads all others. *)
Context (special_URL : string -> option url).

Definition url_parts (scheme trimmed : string) : raw_parts :=
  let p :=
    match (if existsb (String.eqb scheme) special_schemes then special_URL trimmed else new_URL trimmed) with
    | None => no_parts
    | Some u =>
        let ps := searchParams u in
        {| r_network := VStr (param_or ps "type" ""); r_security := VStr (param_or ps "security" ""); r_remark := decodeRemark u;
           r_port := if String.eqb (u_port u) "" then param_or ps "port" "" else u_port u |}
    end in
  if String.eqb scheme "tg" then {| r_network := r_network p; r_security := VStr "FakeTLS"; r_remark := r_remark p; r_port := r_port p |}
  else if String.eqb scheme "tuic" then {| r_network := VStr "quic"; r_security := VStr "TLS"; r_remark := r_remark p; r_port := r_port p |}
  else p.

(** [Some None]: null. *)
Definition parseLinkParts (link : string) : option (option LinkParts) :=
  let trimmed := trim link in
  let scheme := link_scheme trimmed in
  if String.eqb scheme "" then Some None
  else
    let p := if String.eqb scheme "vmess" then vmess_parts trimmed else if String.eqb scheme "vpn" then vpn_parts trimmed else url_parts scheme trimmed in
    n ← as_str (r_network p);
    s ← as_str (if is_str (r_security p) "none" then VStr "" else r_security p);
    Some (Some {| protocol := protocol_label scheme; network := to_upper n; security := to_upper s; remark := trim (r_remark p); port := r_port p |}).

End Reader.

Definition linkMetaText (parts : LinkParts) : string := join ":" (List.filter (fun x => negb (String.eqb x "")) [remark parts; port parts]).

(** ** Generated links *)

Lemma share_scheme scheme user host port ps remark : scheme <> "" -> forall_chars is_alnum scheme = true -> to_lower scheme = scheme ->
  link_scheme (share_link scheme user host port ps remark) = scheme.
Proof.
  intros N A L. unfold link_scheme, share_link. change (scheme +:+ "://" +:+ ?r) with (scheme +:+ String ":" ("//" +:+ r)).
  rewrite span_until_app; [|eapply forall_chars_impl; [|exact A]; intros c ->; done|done]. change (String ":" ("//" +:+ ?r)) with ("://" +:+ r). by rewrite starts_with_app.
Qed.

(** The schemes of the links whose label comes from the URL alone. *)
Definition url_scheme (scheme : string) : Prop :=
  valid_scheme scheme /\ scheme <> "" /\ forall_chars is_alnum scheme = true /\ to_lower scheme = scheme /\ existsb (String.eqb scheme) ["vmess"; "vpn"; "tg"; "tuic"] = false.

Lemma share_label special_URL scheme user host port0 ps remark0 : url_scheme scheme -> plain_host host -> 0 <= port0 <= 65535 -> Forall valid_pair ps -> utf8_valid (bytes_of remark0) = true ->
  parseLinkParts special_URL (share_link scheme user host port0 ps remark0) =
  Some (Some {| protocol := protocol_label scheme; network := to_upper (param_or ps "type" "");
                security := to_upper (if String.eqb (param_or ps "security" "") "none" then "" else param_or ps "security" "");
                remark := trim remark0; port := string_of_Z port0 |}).
Proof.
  intros (V & N & A & L & O) Hh Hp Hv Hr. unfold parseLinkParts. rewrite trim_share by (done || lia). rewrite share_scheme by done. rewrite (proj2 (String.eqb_neq scheme "")) by done.
  cbn [existsb] in O. repeat (apply orb_false_iff in O as [? O]). unfold url_parts. repeat match goal with H : String.eqb scheme _ = false |- _ => rewrite H; clear H end.
  rewrite (proj2 (proj2 (proj2 V))). rewrite new_URL_share_link by done. unfold searchParams. cbn [u_query u_port r_network r_security r_remark r_port]. rewrite parse_query_string by done. rewrite (remark_back _ remark0) by done.
  rewrite string_of_Z_nonempty by lia. cbn [as_str mbind option_bind is_str]. by destruct (String.eqb (param_or ps "security" "") "none").
Qed.

Section Labels.
Context (special_URL : string -> option url) (sha256_hex : string -> string).

(** The label of a link that carries the stream [s]. *)
Definition stream_label (name : string) (s : StreamSettings) (remark0 : string) (port0 : Z) : LinkParts :=
  {| protocol := name; network := to_upper (network_name (s_network s));
     security := match s_security s with NoSecurity => "" | Tls _ => "TLS" | Reality _ => "REALITY" end; remark := trim remark0; port := string_of_Z port0 |}.

Lemma carried_label scheme user host port0 ps remark0 s key : url_scheme scheme -> plain_host host -> 0 <= port0 <= 65535 -> Forall valid_pair ps ->
  utf8_valid (bytes_of remark0) = true -> carries sha256_hex s key ps ->
  parseLinkParts special_URL (share_link scheme user host port0 ps remark0) = Some (Some (stream_label (protocol_label scheme) s remark0 port0)).
Proof.
  intros U Hh Hp Hv Hr C. rewrite share_label by done. unfold param_or. rewrite (carries_type _ _ _ _ C), (carries_security _ _ _ _ C). cbn [default]. unfold stream_label. do 3 f_equal.
  by destruct (s_security s).
Qed.

Lemma url_vless : url_scheme "vless".
Proof. split; [apply valid_vless|]. by repeat split. Qed.

Lemma url_trojan : url_scheme "trojan".
Proof. split; [apply valid_trojan|]. by repeat split. Qed.

(** C40. The label shown above a generated link is the configuration it was generated from: for the
    client of a VLESS and of a Trojan inbound, the protocol, the transport and the security of the stream
    in capitals (nothing for no security), the remark without outer blanks, and the port. *)
Theorem generated_labels vless trojan enc dec vless_clients trojan_clients s id pw host port0 remark0 key flow :
  i_settings vless = Vless enc dec vless_clients -> i_streamSettings vless = Some s -> i_settings trojan = Trojan trojan_clients -> i_streamSettings trojan = Some s ->
  forall_chars uri_unreserved id = true -> id <> "" -> pw <> "" -> plain_host host -> 1 <= port0 <= 65535 -> utf8_valid (bytes_of remark0) = true ->
  Forall valid_pair (vless_params sha256_hex s enc dec flow key (security_name (s_security s)) None) ->
  Forall valid_pair (trojan_params sha256_hex s key (security_name (s_security s)) None) ->
  exists vless_link trojan_link,
    genVlessLink sha256_hex vless host port0 same remark0 id key flow None = Some vless_link /\
    parseLinkParts special_URL vless_link = Some (Some (stream_label "Vless" s remark0 port0)) /\
    genTrojanLink sha256_hex trojan host port0 same remark0 pw key None = Some trojan_link /\
    parseLinkParts special_URL trojan_link = Some (Some (stream_label "Trojan" s remark0 port0)).
Proof.
  intros Hv Sv Ht St Hid Ni Np Hh Hp Hr Vv Vt. unfold genVlessLink, genTrojanLink. rewrite Hv, Sv, Ht, St. cbn [link_security]. change (applyVlessRoute id None) with id.
  eexists _, _. split; [rewrite <-(proj1 (encode_unreserved id) Hid) at 1; apply (url_text_share "vless"); [apply valid_vless|done|done|lia|apply unique_vless_params]|].
  split; [apply (carried_label "vless" _ _ _ _ _ s key); [apply url_vless|done|lia|done|done|apply vless_carries]|].
  split; [apply (url_text_share "trojan"); [apply valid_trojan|done|done|lia|apply unique_trojan_params]|].
  apply (carried_label "trojan" _ _ _ _ _ s key); [apply url_trojan|done|lia|done|done|apply trojan_carries].
Qed.
End Labels.

Lemma generated_labels_witness : exists a b,
  genVlessLink (fun _ => "0123456789abcdef") (sample_inbound (Vless "none" "none" []) grpc_stream) "vpn.example.org" 8443 same " my box" "5783a3e7-e373" "k" "" None = Some a /\
  parseLinkParts (fun _ => None) a = Some (Some {| protocol := "Vless"; network := "GRPC"; security := "REALITY"; remark := "my box"; port := "8443" |}) /\
  genTrojanLink (fun _ => "0123456789abcdef") (sample_inbound (Trojan []) grpc_stream) "vpn.example.org" 8443 same " my box" "pw" "k" None = Some b /\
  parseLinkParts (fun _ => None) b = Some (Some {| protocol := "Trojan"; network := "GRPC"; security := "REALITY"; remark := "my box"; port := "8443" |}).
Proof.
  apply (generated_labels (fun _ => None) (fun _ => "0123456789abcdef") (sample_inbound (Vless "none" "none" []) grpc_stream) (sample_inbound (Trojan []) grpc_stream) "none" "none" [] []
    grpc_stream "5783a3e7-e373" "pw" "vpn.example.org" 8443 " my box" "k" ""); concrete.
Defined.

(** The label of an AmneziaWG link is read from the configuration inside it. *)
Example amneziawg_label special_URL :
  parseLinkParts special_URL (genAmneziaWGLink plain_server [plain_client None] "vpn.example.org" 51820 "box" 0) =
  Some (Some {| protocol := "AmneziaWG"; network := ""; security := ""; remark := "box"; port := "51820" |}).
Proof. vm_compute. reflexivity. Qed.

(** A vmess payload whose transport is not a string raises outside the handlers of the parser. *)
Example numeric_net_raises special_URL : parseLinkParts special_URL ("vmess://" +:+ encode (stringify (VObj [("net", VInt 1)])) false) = None.
Proof. vm_compute. reflexivity. Qed.
