(* ===== verification/PanelHelpers.v ===== *)
(** * Small helpers of the panel

    Models the display helpers of the panel: the template variables of remarks
    (src/frontend/src/lib/remark/remarkVariables.ts), the logs of addresses and devices of a client
    (lib/clients/ip-log.ts, hwid-log.ts), the expiry of external links (lib/clients/external-link.ts), the
    kind of a VLESS key (lib/xray/vless-encryption.ts), the validation of XHTTP session identifiers
    (lib/xray/xhttp-session-id.ts), the labels of the list of inbounds (pages/inbounds/list/helpers.ts), the
    filters of the clients page (pages/clients/filters.ts) and the statistics cache of an inbound
    (models/dbinbound.ts). *)
From Stdlib Require Import Ascii.
From S2P Require Import Prelude JsString JsValue JsObject ProtocolCapabilities InboundList LinkParser.

(** ** Template variables of remarks *)

Module Remark.

Record RemarkVar := { token : string; group : string; sample : string }.

Definition var (t g s : string) : RemarkVar := {| token := t; group := g; sample := s |}.

Definition REMARK_VARIABLES : list RemarkVar :=
  [var "EMAIL" "client" "john"; var "INBOUND" "client" "Germany"; var "HOST" "client" "CDN"; var "ID" "client" "3f2a9c1b-aaaa-bbbb-cccc-1234567890ab";
   var "SHORT_ID" "client" "3f2a9c1b"; var "TELEGRAM_ID" "client" "123456789"; var "SUB_ID" "client" "subABC"; var "COMMENT" "client" "vip";
   var "TRAFFIC_USED" "traffic" "8.40GB"; var "TRAFFIC_LEFT" "traffic" "41.60GB"; var "TRAFFIC_TOTAL" "traffic" "50.00GB";
   var "TRAFFIC_USED_BYTES" "traffic" "9019431321"; var "TRAFFIC_LEFT_BYTES" "traffic" "44667656679"; var "TRAFFIC_TOTAL_BYTES" "traffic" "53687091200";
   var "UP" "traffic" "5.20GB"; var "DOWN" "traffic" "3.20GB";
   var "STATUS" "time" "active"; var "STATUS_EMOJI" "time" "✅"; var "DAYS_LEFT" "time" "12"; var "TIME_LEFT" "time" "12d 4h 30m"; var "USAGE_PERCENTAGE" "time" "52.3％";
   var "EXPIRE_DATE" "time" "2026-09-01"; var "JALALI_EXPIRE_DATE" "time" "1405/06/10"; var "EXPIRE_UNIX" "time" "1788300000"; var "CREATED_UNIX" "time" "1700000000";
   var "RESET_DAYS" "time" "30"; var "RESET_DAY" "time" "15";
   var "PROTOCOL" "connection" "VLESS"; var "TRANSPORT" "connection" "ws"; var "SECURITY" "connection" "TLS"].

Definition SUBSCRIPTION_METADATA_VARIABLES : list RemarkVar :=
  List.filter (fun v => existsb (String.eqb (token v)) ["EMAIL"; "ID"; "SHORT_ID"; "TELEGRAM_ID"; "SUB_ID"]) REMARK_VARIABLES.

Definition SAMPLE_BY_TOKEN (t : string) : string := match List.find (fun v => String.eqb t (token v)) REMARK_VARIABLES with Some v => sample v | None => "" end.

Definition wrapToken (t : string) : string := "{{" +:+ t +:+ "}}".

Definition hasRemarkTokens (template : string) : bool := str_includes template "{{".

(** [[A-Z_]] *)
Definition token_char (c : ascii) : bool := negb (Ascii.eqb c (lower_char c)) || Ascii.eqb c "_".

Fixpoint span (f : ascii -> bool) (s : string) : string * string :=
  match s with
  | "" => ("", "")
  | String c s' => if f c then let '(a, b) := span f s' in (String c a, b) else ("", s)
  end.

(** A match of the expression at the start of the text: the token and the rest. *)
Definition token_at (s : string) : option (string * string) :=
  if starts_with s "{{" then
    let '(t, r) := span token_char (str_drop 2 s) in
    if negb (String.eqb t "") && starts_with r "}}" then Some (t, str_drop 2 r) else None
  else None.

(** [template.replace(TOKEN_RE, f)] *)
Fixpoint replace_tokens (fuel : nat) (f : string -> string) (s : string) : string :=
  match fuel, s with
  | S fuel, String c s' => match token_at s with Some (t, rest) => f t +:+ replace_tokens fuel f rest | None => String c (replace_tokens fuel f s') end
  | _, _ => s
  end.

Definition preview_token (variables : list RemarkVar) (keepUnknown : bool) (t : string) : string :=
  if existsb (fun v => String.eqb t (token v)) variables then SAMPLE_BY_TOKEN t else if keepUnknown then wrapToken t else "".

Definition previewRemark (template : string) (variables : list RemarkVar) (keepUnknown : bool) : string :=
  if negb (hasRemarkTokens template) then template else replace_tokens (String.length template) (preview_token variables keepUnknown) template.

(** A template as it is written: text without braces, and tokens. *)
Inductive piece := Text (s : string) | Token (t : string).

Definition plain (s : string) : Prop := forall_chars (fun c => negb (Ascii.eqb c "{")) s = true.

Definition piece_ok (p : piece) : Prop := match p with Text s => plain s | Token t => t <> "" /\ forall_chars token_char t = true end.

Definition written (ps : list piece) : string := String.concat "" (map (fun p => match p with Text s => s | Token t => wrapToken t end) ps).
Definition shown (f : string -> string) (ps : list piece) : string := String.concat "" (map (fun p => match p with Text s => s | Token t => f t end) ps).

Lemma span_token t r : forall_chars token_char t = true -> span token_char (t +:+ "}}" +:+ r) = (t, "}}" +:+ r).
Proof. induction t as [|c t IH]; [done|]. cbn [forall_chars]. rewrite andb_true_iff. intros [Hc H]. specialize (IH H). cbn [String.append span] in IH |- *. by rewrite Hc, IH. Qed.

Lemma token_at_wrapped t r : t <> "" -> forall_chars token_char t = true -> token_at (wrapToken t +:+ r) = Some (t, r).
Proof.
  intros N H. unfold token_at, wrapToken. rewrite app_assoc_str, starts_with_app, app_assoc_str. pose proof (str_drop_app "{{" (t +:+ "}}" +:+ r)) as D. cbn [String.length] in D.
  rewrite D, span_token by done. rewrite (proj2 (String.eqb_neq t "")), starts_with_app by done. cbn [negb andb]. by rewrite (str_drop_app "}}" r : str_drop 2 ("}}" +:+ r) = r).
Qed.

Lemma plain_char c s : Ascii.eqb c "{" = false -> token_at (String c s) = None.
Proof. intros H. unfold token_at, starts_with. cbn [String.prefix]. destruct (ascii_dec "{" c) as [<-|]; [done|]. done. Qed.

Lemma replace_text f s r : plain s -> forall fuel, String.length (s +:+ r) <= fuel -> replace_tokens fuel f (s +:+ r) = s +:+ replace_tokens (fuel - String.length s) f r.
Proof.
  unfold plain. induction s as [|c s IH]; intros P fuel L; [by rewrite Nat.sub_0_r|]. cbn [forall_chars] in P. apply andb_true_iff in P as [Pc P]. apply negb_true_iff in Pc.
  cbn in L. destruct fuel as [|fuel]; [lia|]. cbn [String.append replace_tokens]. rewrite plain_char by done. rewrite IH by (done || lia). done.
Qed.

Lemma replace_pieces f ps : Forall piece_ok ps -> forall fuel, String.length (written ps) <= fuel -> replace_tokens fuel f (written ps) = shown f ps.
Proof.
  induction 1 as [|p ps Hp _ IH]; intros fuel L; [by destruct fuel|]. unfold written, shown in *. cbn [map] in L |- *. rewrite concat_cons in L |- *. rewrite concat_cons. destruct p as [s|t]; cbn in Hp.
  - rewrite replace_text by done. f_equal. apply IH. rewrite length_app_str in L. lia.
  - destruct Hp as [N H]. set (rest := String.concat "" _) in *.
    assert (E : exists c x, wrapToken t +:+ rest = String c x) by (unfold wrapToken; by eexists _, _). destruct E as (c & x & E).
    destruct fuel as [|fuel]; [rewrite E in L; cbn in L; lia|]. rewrite E. cbn [replace_tokens]. rewrite <-E, token_at_wrapped by done. f_equal. apply IH.
    rewrite length_app_str in L. unfold wrapToken in L. rewrite !length_app_str in L. cbn [String.length] in L. lia.
Qed.

(** The preview of a template is its text with every token replaced by its sample, and by nothing
    or itself when it is not one of the variables. *)
Theorem preview_pieces ps variables keep : Forall piece_ok ps -> previewRemark (written ps) variables keep = shown (preview_token variables keep) ps.
Proof.
  intros H. unfold previewRemark. destruct (hasRemarkTokens (written ps)) eqn:E; cbn [negb]; [by apply replace_pieces|].
  rewrite <-(replace_pieces (preview_token variables keep) ps H (String.length (written ps))) by done.
  revert E. generalize (written ps). clear. intros s E. symmetry. remember (String.length s) as n eqn:L. assert (G : String.length s <= n) by lia. clear L. revert s E G.
  induction n as [|n IH]; intros s E G; [by destruct s|]. destruct s as [|c s]; [done|]. cbn [replace_tokens].
  unfold hasRemarkTokens, str_includes in E. cbn [index_of] in E. destruct (String.prefix "{{" (String c s)) eqn:P; [done|].
  unfold token_at, starts_with. rewrite P. f_equal. apply IH; [|cbn in G; lia]. unfold hasRemarkTokens, str_includes. by destruct (index_of "{{" s).
Qed.

End Remark.

(** ** Clients *)

Module Clients.

Record ClientIpInfo := { ip : string; ip_time : string; node : string }.

(** [typeof v === 'string' ? v : ''] *)
Definition normalizeClientIps (obj : jsval) : list ClientIpInfo :=
  flat_map (fun x =>
    match x with
    | VStr s => if String.eqb s "" then [] else [{| ip := s; ip_time := ""; node := "" |}]
    | VObj _ | VArr _ =>
        let ip := str_or_empty (get x "ip") in
        if String.eqb ip "" then [] else [{| ip := ip; ip_time := str_or_empty (get x "time"); node := str_or_empty (get x "node") |}]
    | _ => []
    end) (as_list obj).

Definition normalizeClientHwids (obj : jsval) : list jsval :=
  List.filter (fun x => match get x "id" with VNum _ => true | _ => false end) (as_list obj).

Definition resolveExternalLinkExpiry (externalExpiry clientExpiry : jsval) : num :=
  let explicit := to_number externalExpiry in
  if num_ltb (NFin 0 0) explicit then explicit
  else let inherited := to_number clientExpiry in if num_ltb (NFin 0 0) inherited then inherited else NFin 0 0.

(** Every entry has an address, and the entries of the current shape are read back. *)
Lemma ips_named obj : Forall (fun i => ip i <> "") (normalizeClientIps obj).
Proof.
  unfold normalizeClientIps. apply List.Forall_flat_map, List.Forall_forall. intros x _. destruct x; try constructor.
  - destruct (String.eqb_spec s ""); repeat constructor; done.
  - destruct (String.eqb_spec (str_or_empty (get (VObj o) "ip")) ""); repeat constructor; done.
Qed.

Definition ip_entry (i : ClientIpInfo) : jsval := VObj [("ip", VStr (ip i)); ("time", VStr (ip_time i)); ("node", VStr (node i))].

Lemma ips_read_back l : Forall (fun i => ip i <> "") l -> normalizeClientIps (VArr (map ip_entry l)) = l.
Proof.
  unfold normalizeClientIps. cbn [as_list]. induction 1 as [|i l Hi _ IH]; [done|]. cbn [map flat_map]. rewrite IH. cbn.
  rewrite (proj2 (String.eqb_neq (ip i) "")) by done. by destruct i.
Qed.

(** The expiry shown is the link's own when it has one, else the client's, and never negative. *)
Lemma external_expiry e c : let x := resolveExternalLinkExpiry e c in num_ltb x (NFin 0 0) = false /\ (num_ltb (NFin 0 0) (to_number e) = true -> x = to_number e).
Proof.
  cbv zeta. unfold resolveExternalLinkExpiry. assert (G : forall n, num_ltb (NFin 0 0) n = true -> num_ltb n (NFin 0 0) = false).
  { intros [m k| |[]]; cbn; try done. rewrite Z.ltb_lt, Z.ltb_ge. lia. }
  destruct (num_ltb (NFin 0 0) (to_number e)) eqn:E; [split; [by apply G|done]|]. split; [|done]. destruct (num_ltb (NFin 0 0) (to_number c)) eqn:C; [by apply G|done].
Qed.

Record ClientFilters := {
  buckets : list string; protocols : list string; inboundIds : list Z; nodeIds : list Z; groups : list string;
  expiryFrom : option Z; expiryTo : option Z; usageFromGB : option Z; usageToGB : option Z; autoRenew : string; hasTgId : string; hasComment : string }.

Definition emptyFilters : ClientFilters :=
  {| buckets := []; protocols := []; inboundIds := []; nodeIds := []; groups := []; expiryFrom := None; expiryTo := None; usageFromGB := None; usageToGB := None;
     autoRenew := ""; hasTgId := ""; hasComment := "" |}.

Definition filled {A} (l : list A) : nat := match l with [] => 0 | _ => 1 end.
Definition given (z : option Z) : bool := match z with Some z => negb (z =? 0)%Z | None => false end.
Definition chosen (s : string) : nat := if String.eqb s "" then 0 else 1.

Definition activeFilterCount (f : ClientFilters) : nat :=
  filled (buckets f) + filled (protocols f) + filled (inboundIds f) + filled (nodeIds f) + filled (groups f) +
  Nat.b2n (given (expiryFrom f) || given (expiryTo f)) + Nat.b2n (given (usageFromGB f) || given (usageToGB f)) + chosen (autoRenew f) + chosen (hasTgId f) + chosen (hasComment f).

(** The badge is off exactly when no filter restricts anything. *)
Lemma no_filter f : activeFilterCount f = 0 <->
  buckets f = [] /\ protocols f = [] /\ inboundIds f = [] /\ nodeIds f = [] /\ groups f = [] /\ given (expiryFrom f) = false /\ given (expiryTo f) = false /\
  given (usageFromGB f) = false /\ given (usageToGB f) = false /\ autoRenew f = "" /\ hasTgId f = "" /\ hasComment f = "".
Proof.
  unfold activeFilterCount, chosen. assert (F : forall A (l : list A), filled l = 0 <-> l = []) by (intros A []; cbn; split; (done || lia || congruence)).
  assert (B : forall a b, Nat.b2n (a || b) = 0 <-> a = false /\ b = false) by (intros [] []; cbn; split; (done || lia || intuition discriminate)).
  rewrite !Nat.eq_add_0, !F, !B. destruct (String.eqb_spec (autoRenew f) ""), (String.eqb_spec (hasTgId f) ""), (String.eqb_spec (hasComment f) ""); intuition (congruence || lia).
Qed.

End Clients.

(** ** Keys of VLESS and session identifiers of XHTTP *)

Module Keys.

Definition MLKEM768_MIN_KEY_LENGTH : nat := 300.

(** [None]: null. *)
Definition vlessEncryptionAuthKind (encryption : string) : option string :=
  if String.eqb encryption "" || String.eqb encryption "none" then None
  else
    let parts := List.filter (fun p => negb (String.eqb p "")) (split_on "." encryption) in
    let authKey := default "" (list_lookup (Nat.pred (length parts)) parts) in
    if String.eqb authKey "" then None
    else
      let mode := default "native" (list_lookup 1 parts) in
      let keyType := if Nat.ltb MLKEM768_MIN_KEY_LENGTH (String.length authKey) then "mlkem768" else "x25519" in
      Some (if String.eqb mode "xorpub" || String.eqb mode "random" then keyType +:+ "_" +:+ mode else keyType).

(** Whether the validators accept. *)
Definition validateSessionIDTable (value : jsval) : bool := forall_chars (fun c => Nat.ltb (nat_of_ascii c) 128) (str_or_empty value).

(** [/^\d+(?:-\d+)?$/]: the numbers of a range. *)
Definition range_of (s : string) : option (list string) :=
  match split_on "-" s with
  | [a] => if all_digits a then Some [a] else None
  | [a; b] => if all_digits a && all_digits b then Some [a; b] else None
  | _ => None
  end.

(** [Number.isFinite(Number(s))] of digits *)
Definition in_double (s : string) : bool := (digits_value 0 s <? 2 ^ 1024 - 2 ^ 970)%Z.

Definition validateSessionIDLength (value : jsval) : bool :=
  let str := trim (str_or_empty value) in
  if String.eqb str "" then true
  else match range_of str with
       | Some [a] => in_double a && (0 <? digits_value 0 a)%Z
       | Some [a; b] => in_double a && (0 <? digits_value 0 a)%Z && (digits_value 0 a <=? digits_value 0 b)%Z
       | _ => false
       end.

(** A range is accepted exactly when its bounds are positive and in order. *)
Lemma session_range a b : (0 <= a < 2 ^ 1000)%Z -> (0 <= b)%Z ->
  validateSessionIDLength (VStr (string_of_Z a +:+ "-" +:+ string_of_Z b)) = true <-> (0 < a <= b)%Z.
Proof.
  intros [Ha La] Hb. pose proof (Url.string_of_Z_digits a Ha) as Da. pose proof (Url.string_of_Z_digits b Hb) as Db.
  pose proof (Url.string_of_Z_nonempty a Ha) as Na. pose proof (Url.string_of_Z_nonempty b Hb) as Nb.
  assert (V : forall z, (0 <= z)%Z -> digits_value 0 (string_of_Z z) = z).
  { intros z Hz. unfold string_of_Z. rewrite (proj2 (Z.ltb_ge z 0)) by lia. by apply digits_value_digits. }
  assert (D : forall c, is_digit c = true -> negb (is_ws c) = true) by (intros c Hc; by rewrite is_digit_not_ws).
  unfold validateSessionIDLength. cbn [str_or_empty]. rewrite trim_no_ws by (rewrite !forall_chars_app; rewrite (forall_chars_impl _ _ _ D Da), (forall_chars_impl _ _ _ D Db); done).
  destruct (String.eqb_spec (string_of_Z a +:+ "-" +:+ string_of_Z b) "") as [E|_]; [by destruct (string_of_Z a)|].
  unfold range_of. change ("-" +:+ string_of_Z b) with (String "-" (string_of_Z b)). rewrite Uri.split_on_app_gen.
  rewrite !split_on_single by (by apply port_no). cbn [app]. unfold all_digits. rewrite Da, Db.
  destruct (string_of_Z a) eqn:Ea; [done|]. destruct (string_of_Z b) eqn:Eb; [done|]. cbn [negb String.eqb andb]. rewrite <-Ea, <-Eb. unfold in_double. rewrite !V by done. rewrite (proj2 (Z.ltb_lt a _)) by (eapply Z.lt_trans; [exact La|reflexivity]). cbn [andb]. rewrite andb_true_iff, Z.ltb_lt, Z.leb_le. lia.
Qed.

End Keys.

(** ** The list of inbounds *)

Module Inbounds.

(** The network, and whether the security is TLS or REALITY. *)
Definition readStreamHints (streamSettings : jsval) : jsval * bool * bool :=
  let stream := coerceInboundJsonField streamSettings in
  (or_nullish (obj_get stream "network") (VStr ""), is_str (obj_get stream "security") "tls", is_str (obj_get stream "security") "reality").

Definition networkLabel (network : string) : string :=
  match to_lower network with "" => "TCP" | "httpupgrade" => "HTTPUpgrade" | "splithttp" => "SplitHTTP" | "xhttp" => "XHTTP" | n => to_upper n end.

Definition networkL4 (network : string) : string :=
  let n := to_lower network in if String.eqb n "kcp" || String.eqb n "quic" then "UDP" else "".

Definition commaNetworkLabel (raw : string) : string :=
  match List.filter (fun p => negb (String.eqb p "")) (map trim (split_on "," (to_lower (if String.eqb raw "" then "tcp" else raw)))) with
  | [] => "TCP"
  | parts => join "," (map networkLabel parts)
  end.

(** [settings.k || ''], a string. *)
Definition text_at (settings : jsval) (k : string) : string := str_or_empty (or_falsy (obj_get (coerceInboundJsonField settings) k) (VStr "")).

Definition shadowsocksNetworkLabel (settings : jsval) : string := commaNetworkLabel (text_at settings "network").
Definition tunnelNetworkLabel (settings : jsval) : string := commaNetworkLabel (text_at settings "allowedNetwork").
Definition mixedNetworkLabel (settings : jsval) : string := if truthy (obj_get (coerceInboundJsonField settings) "udp") then "TCP,UDP" else "TCP".

(** [isSSMultiUser] of a Shadowsocks inbound with these settings. *)
Definition ss_multi (settings : jsval) : bool := negb (is_str (obj_get (coerceInboundJsonField settings) "method") SS_BLAKE3_CHACHA20).

Definition isInboundMultiUser (protocol : string) (settings : jsval) : bool :=
  if existsb (String.eqb protocol) ["vmess"; "vless"; "trojan"; "hysteria"; "mtproto"; "wireguard"; "amneziawg"; "tuic"] then true
  else if String.eqb protocol "shadowsocks" then ss_multi settings else false.

Definition showQrCodeMenu (isSS : bool) (settings : jsval) : bool := if isSS then negb (ss_multi settings) else false.

(** An inbound has a QR code of its own exactly when it is a Shadowsocks inbound of a single user. *)
Lemma qr_single protocol settings : showQrCodeMenu (String.eqb protocol "shadowsocks") settings = String.eqb protocol "shadowsocks" && negb (isInboundMultiUser protocol settings).
Proof. unfold showQrCodeMenu, isInboundMultiUser. destruct (String.eqb_spec protocol "shadowsocks") as [->|]; done. Qed.

(** A host group: its remark, inbounds, addresses and whether it is disabled. *)
Record Host := { h_remark : string; h_inboundIds : list Z; h_hosts : list string; h_isDisabled : bool }.

Definition host_label (h : Host) : string :=
  let remark := trim (h_remark h) in
  if String.eqb remark "" then default "" (List.find (fun a => negb (String.eqb a "")) (map trim (h_hosts h))) else remark.

(** The map from inbounds to labels, in insertion order. *)
Abbreviation remarks := (list (Z * list string)).

Fixpoint add_label (m : remarks) (id : Z) (label : string) : remarks :=
  match m with
  | [] => [(id, [label])]
  | (i, l) :: m => if (i =? id)%Z then (i, if existsb (String.eqb label) l then l else l ++ [label]) :: m else (i, l) :: add_label m id label
  end.

Definition add_host (m : remarks) (h : Host) : remarks :=
  if h_isDisabled h then m
  else let label := host_label h in if String.eqb label "" then m else fold_left (fun m id => add_label m id label) (h_inboundIds h) m.

Definition buildHostRemarksByInboundId (hosts : list Host) : remarks := fold_left add_host hosts [].

Definition labels_at (m : remarks) (id : Z) : list string := match List.find (fun p => (p.1 =? id)%Z) m with Some p => p.2 | None => [] end.

Definition HOST_REMARK_VISIBLE_LIMIT : nat := 2.

(** What is displayed, and the full text. *)
Definition formatHostRemarksLabel (remarks : list string) (visibleLimit : nat) : string * string :=
  let full := join ", " remarks in
  if Nat.leb (length remarks) visibleLimit then (full, full)
  else (join ", " (take visibleLimit remarks) +:+ ", +" +:+ string_of_Z (Z.of_nat (length remarks - visibleLimit)), full).

Lemma labels_add m id label i : labels_at (add_label m id label) i =
  if (i =? id)%Z then (if existsb (String.eqb label) (labels_at m i) then labels_at m i else labels_at m i ++ [label]) else labels_at m i.
Proof.
  unfold labels_at. induction m as [|[j l] m IH]; cbn [add_label].
  - cbn. rewrite Z.eqb_sym. by destruct (i =? id)%Z.
  - destruct (Z.eqb_spec j id) as [->|Nj]; cbn [List.find fst snd].
    + rewrite (Z.eqb_sym i id). by destruct (id =? i)%Z eqn:E.
    + destruct (Z.eqb_spec j i) as [->|]; [|exact IH]. by rewrite (proj2 (Z.eqb_neq i id)).
Qed.

Definition labelled (hosts : list Host) (id : Z) (label : string) : Prop :=
  exists h, In h hosts /\ h_isDisabled h = false /\ host_label h = label /\ label <> "" /\ In id (h_inboundIds h).

Lemma labels_fold ids label m i : let m' := fold_left (fun m id => add_label m id label) ids m in
  (List.NoDup (labels_at m i) -> List.NoDup (labels_at m' i)) /\ (forall x, In x (labels_at m' i) <-> In x (labels_at m i) \/ x = label /\ In i ids).
Proof.
  cbv zeta. revert m. induction ids as [|id ids IH]; intros m; [split; [done|intros x; cbn; tauto]|]. cbn [fold_left]. destruct (IH (add_label m id label)) as [N E]. rewrite labels_add in N, E. split.
  - intros H. apply N. destruct (i =? id)%Z; [|done]. destruct (existsb (String.eqb label) (labels_at m i)) eqn:X; [done|]. apply List.NoDup_app; [done|apply List.NoDup_cons; [by intros []|apply List.NoDup_nil]|].
    intros x Hx [<-|[]]. apply not_true_iff_false in X. apply X, existsb_exists. exists label. by rewrite String.eqb_refl.
  - intros x. rewrite E. destruct (Z.eqb_spec i id) as [->|Ni]; [|cbn; intuition congruence]. destruct (existsb (String.eqb label) (labels_at m id)) eqn:X.
    + apply existsb_exists in X as (y & Hy & Ey). apply String.eqb_eq in Ey. subst y. cbn. intuition (subst; auto).
    + rewrite in_app_iff. cbn. intuition (subst; auto).
Qed.

(** Each inbound shows the labels of the enabled host groups it belongs to, each label once. *)
Theorem host_remarks hosts id : List.NoDup (labels_at (buildHostRemarksByInboundId hosts) id) /\
  forall label, In label (labels_at (buildHostRemarksByInboundId hosts) id) <-> labelled hosts id label.
Proof.
  unfold buildHostRemarksByInboundId. induction hosts as [|h hosts [N E]] using rev_ind; [split; [constructor|]; intros label; split; [done|]; by intros (h & [] & _)|].
  rewrite fold_left_app. cbn [fold_left]. set (m := fold_left add_host hosts []) in *. clearbody m. unfold add_host.
  assert (K : forall label, labelled (hosts ++ [h]) id label <-> labelled hosts id label \/ h_isDisabled h = false /\ host_label h = label /\ label <> "" /\ In id (h_inboundIds h)).
  { intros label. unfold labelled. setoid_rewrite in_app_iff. cbn. split; [intros (g & [Hg|[<-|[]]] & R); [left; by exists g|by right]|].
    intros [(g & Hg & R)|R]; [exists g; tauto|exists h; tauto]. }
  destruct (h_isDisabled h) eqn:D; [split; [done|]; intros label; rewrite K, E; intuition discriminate|].
  destruct (String.eqb_spec (host_label h) "") as [L|L]; [split; [done|]; intros label; rewrite K, E; intuition congruence|].
  destruct (labels_fold (h_inboundIds h) (host_label h) m id) as [N' E']. split; [by apply N'|]. intros label. rewrite E', E, K. intuition (subst; auto).
Qed.

(** *** The statistics of an inbound *)

(** The part of [DBInbound] the lookup reads: the statistics by address, and the cached map. *)
Record DBInbound := { clientStats : list (string * jsval); clientStatsMap : option (list (string * jsval)) }.

Definition invalidateCache (d : DBInbound) : DBInbound := {| clientStats := clientStats d; clientStatsMap := None |}.

(** [new Map()] filled in order: the last entry of an address wins. *)
Definition stats_map (stats : list (string * jsval)) : list (string * jsval) := fold_left (fun m kv => if String.eqb kv.1 "" then m else obj_set m kv.1 kv.2) stats [].

Definition getClientStats (d : DBInbound) (email : string) : DBInbound * jsval :=
  let m := match clientStatsMap d with Some m => m | None => stats_map (clientStats d) end in
  ({| clientStats := clientStats d; clientStatsMap := Some m |}, obj_get m email).

(** The cache is right as long as it was filled from the current statistics. *)
Definition cache_ok (d : DBInbound) : Prop := match clientStatsMap d with Some m => m = stats_map (clientStats d) | None => True end.

Lemma cached_lookup d email : cache_ok d -> cache_ok (getClientStats d email).1 /\ (getClientStats d email).2 = obj_get (stats_map (clientStats d)) email /\ cache_ok (invalidateCache d).
Proof. unfold cache_ok, getClientStats. destruct (clientStatsMap d) as [m|]; cbn; [intros ->; done|done]. Qed.

End Inbounds.
